(* ===== verification/_CoqProject ===== *)
-Q . S2P
Prelude.v
Base64.v
Md5.v
Os.v
Paths.v
Text.v
Net.v
Extern.v
Queue.v
Reldb.v
Mappers.v
Decoder.v
Protobuf.v
Capture.v
Recap.v
Pcap.v
PcapInv.v
Process.v
Dhcp.v
MdnsName.v
BridgeList.v
Firewall.v
Iptables.v
Filter.v
FirewallService.v
Supervisor.v
CmdProcessor.v
SupervisorInv.v
MacDb.v
Sockctl.v
MdnsRecords.v
Mdns.v
MdnsInv.v
Wpabuf.v
RadiusMsg.v
RadiusAttr.v
RadiusAuth.v
RadiusCrypt.v
RadiusServer.v
Ap.v
RadiusServerInv.v
RadiusReply.v
Access.v
Restart.v
ApInv.v
Bridging.v
Discovery.v
Onboarding.v
Sqlite.v
Cryptou.v
Crypt.v
CryptCommands.v
Config.v
Iface.v
Runctl.v
