(* ===== verification/Prelude.v ===== *)
(** * EDGESec: a verification of the network controller

    EDGESec runs on a router.  It admits wireless stations and keeps them apart:
    [hostapd] asks the RADIUS server of the controller about a station, the
    supervisor decides on its VLAN and passphrase, [dnsmasq] gives it an address,
    and the firewall forwards packets only between stations that were bridged.
    Around this core are a store for secrets, a multicast DNS service that
    proposes bridges, and a capture service that records packets.  The sources
    are under [src/src]; every file name below is relative to it.

    ** How C becomes Rocq

    A C function is a Rocq function.  It returns an [outcome]: [Done] with its
    value, or [Fault] when it does something the language leaves undefined, calls
    [abort], or goes on longer than the fuel of the model.  Functions with effects
    are programs in the state monad [prog] below, over the state of their
    component.  Bytes and machine integers are [Z], with the wrap-around written
    out ([u8], [u16], [u32], [u64]); a C string is the list of its characters
    without the terminator; an array with a fixed size is the list of all its
    bytes, and [rd] and [wr] fault outside of it.  The answers of allocation and
    of the random number generator are part of the state ([env]); a list of
    answers that has run out means success from there on.  Code that is not in
    the repository is a type class with the documented behaviour as its laws, and
    an instance that shows that the laws can be met.

    ** The files

    Foundations.  [Prelude] (this file): outcomes, programs, integers, buffers,
    and the tactics and hints of the development.  [Extern]: uthash, the linked
    lists and the event loop as classes.  [Reldb] and [Sqlite]: SQLite, with typed
    rows and with the statements of the secret store.

    Utilities ([utils]).  [Base64] (base64.c); [Os], [Paths], [Process] (os.c:
    strings, hexadecimal, random numbers, argument vectors; paths and directories;
    processes, signals and files); [Text], [Net] (the C library on addresses and
    numbers; net.c); [Queue] (squeue.c); [Mappers] (hashmap.c, iface_mapper.c and
    supervisor/mac_mapper.c); [Iptables] (iptables.c); [Cryptou] (cryptou.c, with
    OpenSSL as a class); [Sockctl] (sockctl.c, with the socket calls of the system
    and a program at the other end); [Iface] (iface.c and ipgen.c, with the [ip]
    program as a class, the interfaces of the subnets in runctl.c, and the search
    for programs in os.c).

    RADIUS ([radius]).  [Md5] (md5.c, md5_internal.c), [Wpabuf] (wpabuf.c),
    [RadiusMsg], [RadiusAttr], [RadiusAuth], [RadiusCrypt] (radius.c: messages and
    their parser, attributes, authenticators, encrypted attributes),
    [RadiusServer] (radius_server.c) with [RadiusServerInv] and [RadiusReply] for
    its theorems.

    Supervisor ([supervisor]).  [BridgeList] (bridge_list.c); [Supervisor]
    (network_commands.c, system_commands.c, supervisor_utils.c,
    subscriber_events.c and the decision of supervisor.c); [CmdProcessor]
    (cmd_processor.c and the sockets of supervisor.c); [SupervisorInv] and
    [Access] for its theorems; [MacDb] (sqlite_macconn_writer.c, and the part of
    runctl.c that reads the stations back at the start).

    The program.  [Config] (config.c, with minIni as a class); [Runctl]
    (runctl.c, and opening and closing the sockets in supervisor.c).

    Firewall.  [Firewall]: what the supervisor may assume of it.  [Filter]: how
    iptables keeps and prints its chains.  [FirewallService]
    (firewall/firewall_service.c, the build on iptables), which is proved to be a
    [Firewall].

    Secrets.  [Crypt] (crypt/crypt_service.c, sqlite_crypt_writer.c and the
    drivers of the secure element), [CryptCommands] (supervisor/crypt_commands.c
    and the handlers of cmd_processor.c for them).

    Access point, DHCP and names.  [Ap], [ApInv] (ap/hostapd.c, ap/ap_service.c);
    [Dhcp] (dhcp/dnsmasq.c, dhcp_config_utils.c, dhcp_service.c); [MdnsName],
    [MdnsRecords], [Mdns], [MdnsInv] (dns, and the mDNS decoder of the capture
    service).

    Capture ([capture]).  [Decoder] (packet_decoder.c, dns_decoder.c,
    mdns_decoder.c), [Capture] (the header middleware: header_middleware.c,
    packet_queue.c, sqlite_header.c), [Pcap], [PcapInv] (pcap_middleware.c,
    pcap_queue.c, sqlite_pcap.c, cleaner_middleware.c), [Protobuf]
    (protobuf_encoder.c, protobuf_utils.c, protobuf_middleware.c and the tables of
    the generated files, with protobuf-c as a class), [Recap] (edgesec-recap.c,
    the tool that reads capture files).

    Compositions.  [Onboarding]: RADIUS server and supervisor.  [Bridging]:
    bridge commands and firewall.  [Discovery]: mDNS service, command processor
    and firewall.  [ApInv]: access point events and supervisor.  [Restart]:
    supervisor, its database and the next start.  [Runctl]: configuration,
    interfaces, tables and supervisor at the start of the program.

    ** What is shown

    - Admission.  A station gets, over the whole path from the bytes of its
      request to the bytes of the reply, the VLAN and the passphrase the
      supervisor decided on; a denied one is rejected until a command accepts it,
      whatever else happens, events and datagrams of any kind included
      ([onboarding_correct], [macacl_reply_correct], [denied_until_accepted],
      [station_decision], [ap_events_keep_denied]).
    - State.  The invariants of supervisor and RADIUS server over all events;
      tables and lists refine maps, sequences and relations
      ([supervisor_invariant], [radius_server_invariant],
      [mac_mapper_refines_map], [bridge_list_refines_graph]).
    - Authenticity.  What is not authenticated has no effect; checks accept
      exactly what they should; encrypted attributes are read back
      ([receive_auth_authenticated], [tunnel_password_roundtrip]).
    - Separation.  Bridges, the bridge list and the packets the chain accepts
      agree ([firewall_service_correct], [bridge_commands_correct],
      [bridge_decides_packets], [discovery_bridges]).
    - Secrets and records.  What is stored is read back, also after a restart
      ([crypt_store_refines_map], [master_key_survives],
      [crypt_commands_roundtrip], [macconn_refines_map]); stations and their
      permissions survive a restart ([stations_survive_restart],
      [denied_survives_restart]).
    - Start and stop.  The configuration that is loaded is that of the file and
      fits its arrays ([interfaces_read], [config_loads]); the interfaces are
      made ([subnets_created]); the event loop runs with the configured VLANs and
      the saved stations ([run_ctl_starts]); whichever step fails, everything is
      given back, with one exception ([run_ctl_gives_back]).
    - Capture.  Packets are decoded inside their bytes, recorded with the right
      types, written to files that the table names; timers drain their queues;
      when cleaning ends ([extract_packets_layered], [packet_recorded],
      [header_rows_typed], [rows_have_files], [header_timer_drains],
      [clean_capture_terminates]).  The reader of the pipe gets the messages of
      the packets ([pipe_delivers]); a capture file, however it is cut into
      pieces, is read to its end and recorded ([recap_stops],
      [recap_reads_file], [recap_records_file]).
    - Services.  Starting [hostapd] and [dnsmasq], their files, their processes,
      the commands to them and the events from them ([run_ap_starts],
      [run_dhcp_starts], [disconnect_correct], [writeread_correct]).
    - Flaws.  Inputs on which the code leaves its buffers, does not return or
      loses data, each as a theorem ([verify_msg_auth_overruns],
      [cleaner_hangs], [stray_event_cuts_commands], [recap_hides_errors],
      [failed_start_closes_stdin], [failed_table_closes_twice] and others).

    ** Bounds and fuel

    Structural recursion is used wherever the loop follows a list or a counter.
    Fuel appears where the code can go on without a bound of its own: the decoder
    of compressed names (as many steps as the packet has bytes are enough, and on
    cyclic pointers none is), the cleaning loop (as many rounds as there are
    rows), the loops that restart [hostapd] and [dnsmasq] (one more than the
    number of failed starts), and the loop over a capture file (twice its length
    and five).  Where a theorem says that something is returned,
    it says so for every fuel from that bound on.

    ** Not modelled

    - UCI (utils/uci_wrt.c and the code under [WITH_UCI_SERVICE]): calls of
      libuci, used on OpenWrt in place of the files and iptables.
    - The netlink build of the interfaces (utils/nl.c, ifaceu.c), multicast
      sockets (dns/mcast.c) and the bundled netlink library of iproute2 in
      [src/lib]: requests to the kernel.
    - The tap middleware, the opening of capture devices (pcap_service.c) and the
      threads of the capture service: calls of the system and of libpcap.
    - edgesec.c, radius_service.c and sqlhook.c: options, signals, and an
      extension of SQLite; the start of the services that run in threads is an
      answer that [Runctl] takes as an argument.
    - Logging, daemonisation, locks, and freeing of memory that is not used
      afterwards. *)
From stdpp Require Import base list strings numbers.
From Stdlib Require Import ZArith Lia.

Declare Scope edge_scope.
Delimit Scope edge_scope with edge.
#[global] Open Scope Z_scope.

(** ** Outcomes and programs

    A C function either returns or performs an operation that the language
    leaves undefined (or calls [abort]).  [outcome] separates the two, so that
    memory safety of a function is the statement that it never yields
    [Fault]. *)

Inductive fault :=
| OutOfBounds      (** a read or a write outside an object *)
| WpabufOverflow   (** [abort] in [wpabuf_overflow] *)
| UseAfterFree     (** an access through a pointer that was freed *)
| NullDeref        (** an access through a null pointer *)
| Indeterminate    (** a use of a value that was never assigned *)
| OutOfFuel.       (** the bound on the steps of a loop is used up *)

Inductive outcome (A : Type) :=
| Done (a : A)
| Fault (f : fault).
Arguments Done {A} a.
Arguments Fault {A} f.

Definition returns {A} (o : outcome A) : bool :=
  match o with Done _ => true | Fault _ => false end.

Lemma returns_done {A} (o : outcome A) : returns o = true -> exists a, o = Done a.
Proof. destruct o as [a|]; [|done]. by exists a. Qed.

#[export] Instance fault_eq_dec : EqDecision fault.
Proof. solve_decision. Defined.

(** A program over a state [S]: state passing, with faults. *)
Definition prog (S A : Type) : Type := S -> outcome (A * S).

#[export] Instance prog_ret {S} : MRet (prog S) := fun A a s => Done (a, s).
#[export] Instance prog_bind {S} : MBind (prog S) := fun A B k m s =>
  match m s with
  | Done (a, s') => k a s'
  | Fault f => Fault f
  end.

Definition fail_with {S A} (f : fault) : prog S A := fun _ => Fault f.
Definition lift_outcome {S A} (o : outcome A) : prog S A := fun s =>
  match o with
  | Done a => Done (a, s)
  | Fault f => Fault f
  end.

(** ** The environment of the allocating code

    [malloc] and its relatives may fail at any call, and [os_get_random] reads
    bytes the program does not choose.  Both are oracles of the environment:
    a list of answers consumed from the front.  An exhausted allocation oracle
    answers success and an exhausted random oracle answers failure. *)

Record env := Env {
  mallocs : list bool;
  randoms : list (list Z)
}.

Definition malloc : prog env bool := fun e =>
  match mallocs e with
  | [] => Done (true, e)
  | b :: bs => Done (b, Env bs (randoms e))
  end.

(** ** Machine integers *)

Definition wrap (w z : Z) : Z := z mod 2 ^ w.
Abbreviation u8 := (wrap 8).
Abbreviation u16 := (wrap 16).
Abbreviation u32 := (wrap 32).
Abbreviation u64 := (wrap 64).

(** ** Bytes and buffers *)

Definition is_byte (z : Z) : Prop := 0 <= z < 256.
Abbreviation bytes := (Forall is_byte).
Definition zlen {A} (l : list A) : Z := Z.of_nat (length l).

(** [n] zero bytes, as [memset] and [calloc] leave them. *)
Definition zeros (n : nat) : list Z := replicate n 0.

(** The bytes of a C string literal. *)
Definition cstr (s : string) : list Z :=
  (fun a => Z.of_N (Ascii.N_of_ascii a)) <$> String.list_ascii_of_string s.

(** Reading [n] bytes at offset [off], and writing [data] at offset [off], of
    an object whose bytes are [buf]. *)
Definition rd (buf : list Z) (off n : Z) : outcome (list Z) :=
  if (0 <=? off) && (0 <=? n) && (off + n <=? zlen buf)
  then Done (take (Z.to_nat n) (drop (Z.to_nat off) buf))
  else Fault OutOfBounds.

Definition wr (buf : list Z) (off : Z) (data : list Z) : outcome (list Z) :=
  if (0 <=? off) && (off + zlen data <=? zlen buf)
  then Done (take (Z.to_nat off) buf ++ data ++
             drop (Z.to_nat off + length data)%nat buf)
  else Fault OutOfBounds.

(** The single byte at an offset. *)
Definition rd1 (buf : list Z) (off : Z) : outcome Z :=
  match buf !! Z.to_nat off with
  | Some b => if 0 <=? off then Done b else Fault OutOfBounds
  | None => Fault OutOfBounds
  end.

(** ** Lemmas on programs *)

Create HintDb edge.

Lemma bind_done {S A B} (m : prog S A) (k : A -> prog S B) s b s'' :
  (m ≫= k) s = Done (b, s'') <->
  exists a s', m s = Done (a, s') /\ k a s' = Done (b, s'').
Proof.
  unfold mbind, prog_bind. destruct (m s) as [[a s']|f]; split.
  - intros H. by exists a, s'.
  - by intros (? & ? & [= <- <-] & H).
  - discriminate.
  - by intros (? & ? & [=] & _).
Qed.

Lemma bind_run {S A B} (m : prog S A) (k : A -> prog S B) s a s' :
  m s = Done (a, s') -> (m ≫= k) s = k a s'.
Proof. intros H. unfold mbind, prog_bind. by rewrite H. Qed.

Lemma ret_run {S A} (a : A) (s : S) : mret (M := prog S) a s = Done (a, s).
Proof. done. Qed.

Lemma lift_run {S A} (a : A) (s : S) : lift_outcome (Done a) s = Done (a, s).
Proof. done. Qed.

(** A program keeps a property of the state when every run that returns from a
    state with the property ends in one. *)
Definition keeps {S A} (P : S -> Prop) (m : prog S A) : Prop :=
  forall s a s', P s -> m s = Done (a, s') -> P s'.

Lemma keeps_ret {S A} (P : S -> Prop) (a : A) : keeps P (mret (M := prog S) a).
Proof. by intros s b s' HP [= _ <-]. Qed.
Lemma keeps_fail {S A} (P : S -> Prop) f : keeps P (fail_with (A := A) f).
Proof. by intros s b s' HP. Qed.
Lemma keeps_lift {S A} (P : S -> Prop) (o : outcome A) : keeps P (lift_outcome o).
Proof. intros s b s' HP. unfold lift_outcome. destruct o; by intros [= _ <-]. Qed.
Lemma keeps_bind {S A B} (P : S -> Prop) (m : prog S A) (k : A -> prog S B) :
  keeps P m -> (forall a, keeps P (k a)) -> keeps P (m ≫= k).
Proof.
  intros Hm Hk s b s' HP (a & s1 & H1 & H2)%bind_done. eapply Hk; [|exact H2]. by eapply Hm.
Qed.

Create HintDb keeps.
#[export] Hint Resolve keeps_ret keeps_fail keeps_lift : keeps.

(** Walks through a program, leaving what the [keeps] hints do not solve. *)
Ltac keeps_tac :=
  repeat first
    [ match goal with |- forall _, _ => intro end
    | solve [eauto with keeps]
    | match goal with
      | |- keeps _ (mbind _ _) => apply keeps_bind
      | |- keeps _ (match ?x with _ => _ end) => destruct x
      end ].

(** A program that keeps a property and whose results have another one. *)
Definition yields {S A} (P : S -> Prop) (m : prog S A) (Q : A -> Prop) : Prop :=
  forall s a s', P s -> m s = Done (a, s') -> P s' /\ Q a.

Section yields.
Context {S : Type} (P : S -> Prop).

Lemma yields_keeps {A} (m : prog S A) : yields P m (fun _ => True) <-> keeps P m.
Proof. split; intros H s a s' HP Hm; [by eapply H|]. split; [by eapply H|done]. Qed.

Lemma yields_ret {A} (a : A) (Q : A -> Prop) : Q a -> yields P (mret a) Q.
Proof. by intros HQ s b s' HP [= <- <-]. Qed.

Lemma yields_fail {A} f (Q : A -> Prop) : yields P (fail_with f) Q.
Proof. by intros s b s' HP. Qed.

Lemma yields_lift {A} (o : outcome A) (Q : A -> Prop) :
  (forall a, o = Done a -> Q a) -> yields P (lift_outcome o) Q.
Proof. intros HQ s b s' HP. unfold lift_outcome. destruct o; [|done]. intros [= <- <-]. auto. Qed.

Lemma yields_bind {A B} (m : prog S A) (k : A -> prog S B) (Q : A -> Prop) (R : B -> Prop) :
  yields P m Q -> (forall a, Q a -> yields P (k a) R) -> yields P (m ≫= k) R.
Proof.
  intros Hm Hk s b s' HP (a & s1 & H1 & H2)%bind_done.
  destruct (Hm _ _ _ HP H1). by eapply Hk.
Qed.

Lemma yields_mono {A} (m : prog S A) (Q R : A -> Prop) :
  yields P m Q -> (forall a, Q a -> R a) -> yields P m R.
Proof. intros Hm HQ s a s' HP H. destruct (Hm _ _ _ HP H). auto. Qed.

Lemma yields_bind' {A B} (m : prog S A) (k : A -> prog S B) (R : B -> Prop) :
  keeps P m -> (forall a, yields P (k a) R) -> yields P (m ≫= k) R.
Proof. intros Hm%yields_keeps Hk. eapply yields_bind; [exact Hm|]. auto. Qed.

Lemma keeps_yields {A B} (m : prog S A) (k : A -> prog S B) (Q : A -> Prop) :
  yields P m Q -> (forall a, Q a -> keeps P (k a)) -> keeps P (m ≫= k).
Proof.
  intros Hm Hk s b s' HP (a & s1 & H1 & H2)%bind_done.
  destruct (Hm _ _ _ HP H1). by eapply Hk.
Qed.
End yields.

(** A program that returns from every state with a property, keeps the property
    and whose results have another one. *)
Definition runs {S A} (P : S -> Prop) (m : prog S A) (Q : A -> Prop) : Prop :=
  forall s, P s -> exists a s', m s = Done (a, s') /\ P s' /\ Q a.

Section runs.
Context {S : Type} (P : S -> Prop).

Lemma runs_ret {A} (a : A) (Q : A -> Prop) : Q a -> runs P (mret a) Q.
Proof. intros HQ s HP. by exists a, s. Qed.

Lemma runs_lift {A} (o : outcome A) (Q : A -> Prop) :
  (exists a, o = Done a /\ Q a) -> runs P (lift_outcome o) Q.
Proof. intros (a & -> & HQ) s HP. by exists a, s. Qed.

Lemma runs_bind {A B} (m : prog S A) (k : A -> prog S B) (Q : A -> Prop) (R : B -> Prop) :
  runs P m Q -> (forall a, Q a -> runs P (k a) R) -> runs P (m ≫= k) R.
Proof.
  intros Hm Hk s HP. destruct (Hm s HP) as (a & s1 & H1 & HP1 & HQ).
  destruct (Hk a HQ s1 HP1) as (b & s2 & H2 & HP2 & HR). exists b, s2. by rewrite (bind_run _ _ _ _ _ H1).
Qed.

Lemma runs_mono {A} (m : prog S A) (Q R : A -> Prop) :
  runs P m Q -> (forall a, Q a -> R a) -> runs P m R.
Proof. intros Hm HQ s HP. destruct (Hm s HP) as (a & s' & ? & ? & ?). eauto 6. Qed.
End runs.

(** The state and the value of a program that does not fault. *)
Definition after {S A} (m : prog S A) (s : S) : S := match m s with Done (_, s') => s' | Fault _ => s end.
Definition value {S A} (m : prog S A) (s : S) : option A :=
  match m s with Done (a, _) => Some a | Fault _ => None end.

Lemma after_run {S A} (m : prog S A) s a : value m s = Some a -> m s = Done (a, after m s).
Proof. unfold value, after. destruct (m s) as [[b s']|]; [by intros [= ->]|done]. Qed.

(** [malloc] always answers; only the oracle moves, and an exhausted oracle
    answers success. *)
Lemma malloc_done e : exists ok e', malloc e = Done (ok, e') /\ randoms e' = randoms e /\
  (mallocs e = [] -> ok = true /\ e' = e).
Proof. unfold malloc. destruct e as [[|b bs] r]; simpl; eexists _, _; by repeat split. Qed.

(** The allocator either answers as the oracle says or, exhausted, succeeds
    and leaves the environment alone. *)
Definition env_ok (e e' : env) (ok : Prop) : Prop :=
  randoms e' = randoms e /\ (mallocs e = [] -> e' = e /\ ok).

Lemma env_ok_refl e (ok : Prop) : ok -> env_ok e e ok.
Proof. done. Qed.

Lemma env_ok_mono e e' (p q : Prop) : env_ok e e' p -> (p -> q) -> env_ok e e' q.
Proof. intros [Hr Hp] Hq. split; [done|]. intros He. destruct (Hp He). auto. Qed.

Lemma env_ok_trans e1 e2 e3 (p q : Prop) :
  env_ok e1 e2 p -> env_ok e2 e3 q -> env_ok e1 e3 q.
Proof.
  intros [Hr1 H1] [Hr2 H2]. split; [by rewrite Hr2|].
  intros He. destruct (H1 He) as [-> _]. auto.
Qed.

Lemma malloc_ok e : exists ok e', malloc e = Done (ok, e') /\ env_ok e e' (ok = true).
Proof.
  destruct (malloc_done e) as (ok & e' & Hm & Hr & Hok). exists ok, e'. split; [done|].
  split; [done|]. intros He. by destruct (Hok He).
Qed.

(** With an exhausted oracle every allocation succeeds. *)
Lemma malloc_nil r : malloc (Env [] r) = Done (true, Env [] r).
Proof. done. Qed.

(** Decomposes [Done]-equations of programs into their steps. *)
Ltac prog_inv :=
  repeat match goal with
  | H : (_ ≫= _) _ = Done (_, _) |- _ =>
      apply bind_done in H; destruct H as (? & ? & ? & H)
  | H : mret _ _ = Done (_, _) |- _ => rewrite ret_run in H
  | H : Done _ = Done _ |- _ => injection H as H; subst
  | H : (_, _) = (_, _) |- _ => injection H as H; subst
  | H : Fault _ = Done _ |- _ => discriminate H
  | H : fail_with _ _ = Done _ |- _ => discriminate H
  end.

(** ** Lemmas on machine integers *)

(** Linear arithmetic with divisions by constants. *)
Ltac zdiv_lia := Z.to_euclidean_division_equations; lia.

Lemma wrap_bound w z : 0 <= w -> 0 <= wrap w z < 2 ^ w.
Proof. intros. unfold wrap. apply Z.mod_pos_bound. lia. Qed.

Lemma wrap_small w z : 0 <= z < 2 ^ w -> wrap w z = z.
Proof. apply Z.mod_small. Qed.

Lemma u8_byte z : is_byte (u8 z).
Proof. apply (wrap_bound 8 z). lia. Qed.

Lemma u8_id z : is_byte z -> u8 z = z.
Proof. apply (wrap_small 8). Qed.
#[export] Hint Resolve u8_byte : edge.

(** A left shift or-ed with a value that fits below it is a sum. *)
Lemma lor_shiftl_add x y n : 0 <= n -> 0 <= y < 2 ^ n ->
  Z.lor (Z.shiftl x n) y = x * 2 ^ n + y.
Proof.
  intros Hn Hy.
  rewrite <- (Z.shiftl_mul_pow2 x n), <- Z.add_lor_land by done.
  enough (Z.land (Z.shiftl x n) y = 0) as -> by lia.
  rewrite <- (Z.mod_small y (2 ^ n)), <- Z.land_ones by done.
  apply Z.bits_inj'. intros i Hi.
  rewrite !Z.land_spec, Z.bits_0, Z.shiftl_spec by done.
  destruct (Z.lt_ge_cases i n).
  - by rewrite Z.testbit_neg_r by lia.
  - by rewrite Z.ones_spec_high, !andb_false_r by lia.
Qed.

Lemma lor_low n x y : 0 <= n -> x mod 2 ^ n = 0 -> 0 <= y < 2 ^ n -> Z.lor x y = x + y.
Proof.
  intros Hn Hx Hy. pose proof (Z.div_mod x (2 ^ n) ltac:(lia)) as Hd.
  replace x with (Z.shiftl (x / 2 ^ n) n) by (rewrite Z.shiftl_mul_pow2 by done; lia).
  rewrite lor_shiftl_add by done. rewrite Z.shiftl_mul_pow2 by done. lia.
Qed.

Lemma land_ones_mod x n : 0 <= n -> Z.land x (2 ^ n - 1) = x mod 2 ^ n.
Proof. intros. rewrite <- Z.land_ones by done. f_equal. rewrite Z.ones_equiv. lia. Qed.

Lemma land_3f x : Z.land x 63 = x mod 64.
Proof. apply (land_ones_mod x 6). lia. Qed.
Lemma land_0f x : Z.land x 15 = x mod 16.
Proof. apply (land_ones_mod x 4). lia. Qed.
Lemma land_03 x : Z.land x 3 = x mod 4.
Proof. apply (land_ones_mod x 2). lia. Qed.
Lemma land_ff x : Z.land x 255 = x mod 256.
Proof. apply (land_ones_mod x 8). lia. Qed.

(** Bytes are closed under the bitwise operations. *)
Lemma is_byte_shiftr x : is_byte x <-> Z.shiftr x 8 = 0.
Proof. unfold is_byte. rewrite Z.shiftr_div_pow2 by lia. zdiv_lia. Qed.

Lemma byte_lor x y : is_byte x -> is_byte y -> is_byte (Z.lor x y).
Proof. rewrite !is_byte_shiftr, Z.shiftr_lor. by intros -> ->. Qed.
Lemma byte_lxor x y : is_byte x -> is_byte y -> is_byte (Z.lxor x y).
Proof. rewrite !is_byte_shiftr, Z.shiftr_lxor. by intros -> ->. Qed.
Lemma byte_land x y : is_byte x -> is_byte (Z.land x y).
Proof. rewrite !is_byte_shiftr, Z.shiftr_land. by intros ->. Qed.
#[export] Hint Resolve byte_lor byte_lxor byte_land : edge.

(** ** Lemmas on buffers *)

(** Dropping the last [n] elements of a concatenation. *)
Lemma take_app_sub {A} (l k : list A) n : (n <= length k)%nat ->
  take (length (l ++ k) - n) (l ++ k) = l ++ take (length k - n) k.
Proof.
  intros H. rewrite length_app, <- Nat.add_sub_assoc by done. by rewrite take_app_add.
Qed.

(** Filters that keep everything or nothing. *)
Lemma filter_all {A} (P : A -> Prop) `{forall x, Decision (P x)} (l : list A) :
  (forall x, x ∈ l -> P x) -> filter P l = l.
Proof.
  induction l as [|x l IH]; intros Hl; [done|].
  rewrite filter_cons_True by (apply Hl; left). f_equal. apply IH. intros y Hy. apply Hl. by right.
Qed.

Lemma filter_none {A} (P : A -> Prop) `{forall x, Decision (P x)} (l : list A) :
  (forall x, x ∈ l -> ~ P x) -> filter P l = [].
Proof.
  induction l as [|x l IH]; intros Hl; [done|].
  rewrite filter_cons_False by (apply Hl; left). apply IH. intros y Hy. apply Hl. by right.
Qed.

Lemma filter_ext_in {A} (P Q : A -> Prop) `{forall x, Decision (P x)} `{forall x, Decision (Q x)}
    (l : list A) :
  (forall x, x ∈ l -> P x <-> Q x) -> filter P l = filter Q l.
Proof.
  induction l as [|x l IH]; intros Hl; [done|]. rewrite !filter_cons.
  rewrite IH by (intros y Hy; apply Hl; by right).
  assert (P x <-> Q x) as Hx by (apply Hl; left). clear Hl. repeat case_decide; tauto.
Qed.

Lemma NoDup_fmap_filter {A B} (f : A -> B) (P : A -> Prop) `{forall x, Decision (P x)} (l : list A) :
  NoDup (f <$> l) -> NoDup (f <$> filter P l).
Proof.
  induction l as [|x l IH]; [done|]. rewrite fmap_cons, list.NoDup_cons. intros [Hx Hl].
  rewrite filter_cons. case_decide; [|by apply IH]. rewrite fmap_cons. constructor; [|by apply IH].
  intros (y & Hy & Hin)%list_elem_of_fmap. apply Hx. rewrite Hy. apply list_elem_of_fmap_2.
  by apply list_elem_of_filter in Hin as [_ ?].
Qed.

Lemma zlen_nonneg {A} (l : list A) : 0 <= zlen l.
Proof. unfold zlen. lia. Qed.
Lemma zlen_nil {A} : zlen (@nil A) = 0.
Proof. done. Qed.
Lemma zlen_cons {A} (x : A) l : zlen (x :: l) = 1 + zlen l.
Proof. unfold zlen. simpl. lia. Qed.
Lemma zlen_app {A} (k l : list A) : zlen (k ++ l) = zlen k + zlen l.
Proof. unfold zlen. rewrite length_app. lia. Qed.
Lemma zlen_replicate {A} n (x : A) : zlen (replicate n x) = Z.of_nat n.
Proof. unfold zlen. by rewrite length_replicate. Qed.
Create Rewrite HintDb zlen.
#[export] Hint Rewrite @zlen_nil @zlen_cons @zlen_app @zlen_replicate : zlen.

Create Rewrite HintDb lengths.
#[export] Hint Rewrite @length_app @length_take @length_drop @length_replicate
  @length_fmap @length_insert @length_reverse : lengths.

(** Linear arithmetic about lengths. *)
Ltac zlen_lia :=
  autorewrite with zlen in *; unfold zlen in *; autorewrite with lengths in *;
  simpl length in *; lia.

Lemma rd_done buf off n l :
  rd buf off n = Done l <->
  0 <= off /\ 0 <= n /\ off + n <= zlen buf /\
  l = take (Z.to_nat n) (drop (Z.to_nat off) buf).
Proof.
  unfold rd.
  destruct (Z.leb_spec 0 off), (Z.leb_spec 0 n),
    (Z.leb_spec (off + n) (zlen buf)); simpl; split; try discriminate;
    try (intros (? & ? & ? & _); lia).
  - intros [= <-]. repeat split; lia.
  - by intros (_ & _ & _ & ->).
Qed.

Lemma wr_done buf off data l :
  wr buf off data = Done l <->
  0 <= off /\ off + zlen data <= zlen buf /\
  l = take (Z.to_nat off) buf ++ data ++ drop (Z.to_nat off + length data)%nat buf.
Proof.
  unfold wr.
  destruct (Z.leb_spec 0 off), (Z.leb_spec (off + zlen data) (zlen buf));
    simpl; split; try discriminate; try (intros (? & ? & _); lia).
  - intros [= <-]. repeat split; lia.
  - by intros (_ & _ & ->).
Qed.

(** Reading and writing a buffer that is laid out as a concatenation. *)
Lemma rd_app pre mid post off n :
  off = zlen pre -> n = zlen mid -> rd (pre ++ mid ++ post) off n = Done mid.
Proof.
  intros -> ->. apply rd_done. pose proof (zlen_nonneg pre).
  pose proof (zlen_nonneg mid). pose proof (zlen_nonneg post).
  rewrite !zlen_app. repeat split; try lia.
  unfold zlen. rewrite !Nat2Z.id, drop_app_length, take_app_length. done.
Qed.

Lemma wr_app pre mid post data off :
  off = zlen pre -> length data = length mid ->
  wr (pre ++ mid ++ post) off data = Done (pre ++ data ++ post).
Proof.
  intros -> Hl. apply wr_done. pose proof (zlen_nonneg pre).
  rewrite !zlen_app. repeat split; [lia|zlen_lia|].
  unfold zlen. rewrite !Nat2Z.id, take_app_length, Hl, <- drop_drop,
    drop_app_length, drop_app_length. done.
Qed.

Lemma to_nat_zlen {A} (l : list A) : Z.to_nat (zlen l) = length l.
Proof. apply Nat2Z.id. Qed.

(** Writing at the start of an object. *)
Lemma wr_head buf data : (length data <= length buf)%nat ->
  wr buf 0 data = Done (data ++ drop (length data) buf).
Proof. intros. apply wr_done. repeat split; [lia|zlen_lia]. Qed.

(** Reading and writing within bounds succeeds. *)
Lemma rd_total buf off n : 0 <= off -> 0 <= n -> off + n <= zlen buf ->
  exists l, rd buf off n = Done l /\ zlen l = n.
Proof.
  intros. eexists. split; [by apply rd_done|]. zlen_lia.
Qed.

Lemma wr_total buf off data : 0 <= off -> off + zlen data <= zlen buf ->
  exists buf', wr buf off data = Done buf'.
Proof. intros. eexists. by apply wr_done. Qed.

Lemma length_wr buf off data l : wr buf off data = Done l -> length l = length buf.
Proof. rewrite wr_done. intros (? & ? & ->). zlen_lia. Qed.

Lemma bytes_wr buf off data l :
  bytes buf -> bytes data -> wr buf off data = Done l -> bytes l.
Proof.
  intros Hb Hd. rewrite wr_done. intros (_ & _ & ->).
  apply Forall_app; split; [by apply Forall_take|].
  apply Forall_app; split; [done|by apply Forall_drop].
Qed.

Lemma bytes_rd buf off n l : bytes buf -> rd buf off n = Done l -> bytes l.
Proof.
  intros Hb. rewrite rd_done. intros (_ & _ & _ & ->).
  by apply Forall_take, Forall_drop.
Qed.
