(* ===== verification/Base64.v ===== *)
(** Base64 encoding and decoding: [src/utils/base64.c].

    [base64_gen_encode] and [base64_gen_decode] are translated with their
    table argument; the four exported functions instantiate them.  The output
    buffer is modelled by the bytes written to it in order; since the C code
    only appends through [*pos++], comparing the final length with the
    allocated size is the same as checking every write. *)
From stdpp Require Import base list strings numbers.
From Stdlib Require Import ZArith Lia.
From S2P Require Import Prelude.

Definition base64_table : list Z :=
  cstr "ABCDEFGHIJKLMNOPQRSTUVWXYZabcdefghijklmnopqrstuvwxyz0123456789+/".
Definition base64_url_table : list Z :=
  cstr "ABCDEFGHIJKLMNOPQRSTUVWXYZabcdefghijklmnopqrstuvwxyz0123456789-_".

Definition SIZE_MAX : Z := 2 ^ 64 - 1.
Definition chr_nl : Z := 10.
Definition chr_eq : Z := 61.

(** ** Encoding *)

(** [table[i]]; the callers mask the index with [0x3f]. *)
Definition tbl (table : list Z) (i : Z) : Z := nth (Z.to_nat i) table 0.

(** The loop over whole 3-byte groups, with the final partial group and the
    final line feed.  [line_len] counts the characters of the current line. *)
Fixpoint base64_encode_loop (table : list Z) (add_pad : bool) (line_len : Z)
    (src : list Z) : list Z :=
  match src with
  | a :: b :: c :: rest =>
      let line_len := line_len + 4 in
      tbl table (Z.land (Z.shiftr a 2) 63) ::
      tbl table (Z.land (Z.lor (Z.shiftl (Z.land a 3) 4) (Z.shiftr b 4)) 63) ::
      tbl table (Z.land (Z.lor (Z.shiftl (Z.land b 15) 2) (Z.shiftr c 6)) 63) ::
      tbl table (Z.land c 63) ::
      (if add_pad && (72 <=? line_len)
       then chr_nl :: base64_encode_loop table add_pad 0 rest
       else base64_encode_loop table add_pad line_len rest)
  | [a; b] =>
      [tbl table (Z.land (Z.shiftr a 2) 63);
       tbl table (Z.land (Z.lor (Z.shiftl (Z.land a 3) 4) (Z.shiftr b 4)) 63);
       tbl table (Z.land (Z.shiftl (Z.land b 15) 2) 63)]
      ++ (if add_pad then [chr_eq] else [])
      ++ (if add_pad && negb (line_len + 4 =? 0) then [chr_nl] else [])
  | [a] =>
      [tbl table (Z.land (Z.shiftr a 2) 63);
       tbl table (Z.land (Z.shiftl (Z.land a 3) 4) 63)]
      ++ (if add_pad then [chr_eq] else [])
      ++ (if add_pad then [chr_eq] else [])
      ++ (if add_pad && negb (line_len + 4 =? 0) then [chr_nl] else [])
  | [] => if add_pad && negb (line_len =? 0) then [chr_nl] else []
  end.

(** The size of the output buffer, in [size_t] arithmetic. *)
Definition base64_encode_olen (len : Z) (add_pad : bool) : Z :=
  let olen := u64 (u64 (len * 4) / 3 + 4) in
  let olen := if add_pad then u64 (olen + olen / 72) else olen in
  u64 (olen + 1).

Definition base64_gen_encode (src : list Z) (table : list Z) (add_pad : bool) :
    prog env (option (list Z)) :=
  let len := zlen src in
  if SIZE_MAX / 4 <=? len then mret None else
  let olen := base64_encode_olen len add_pad in
  if olen <? len then mret None else
  ok ← malloc;
  if negb ok then mret None else
  let out := base64_encode_loop table add_pad 0 src in
  if zlen out + 1 <=? olen then mret (Some out) else fail_with OutOfBounds.

Definition base64_encode (src : list Z) : prog env (option (list Z)) :=
  base64_gen_encode src base64_table false.
Definition base64_url_encode (src : list Z) (add_pad : bool) :
    prog env (option (list Z)) :=
  base64_gen_encode src base64_url_table add_pad.

(** ** Decoding *)

(** [dtable]: 256 entries, 0x80 for a byte that is not in the table. *)
Definition base64_dtable (table : list Z) : list Z :=
  <[Z.to_nat chr_eq := 0]>
    (fold_left (fun d i => <[Z.to_nat (nth i table 0) := Z.of_nat i]> d)
       (seq 0 64) (replicate 256 128)).

Definition dlookup (dtable : list Z) (v : Z) : Z := nth (Z.to_nat v) dtable 128.

(** The first pass counts the bytes that are in the table. *)
Definition base64_count (dtable : list Z) (src : list Z) : Z :=
  zlen (filter (fun v => dlookup dtable v <> 128) src).

(** The second pass.  [block] holds the values of the current 4-byte block,
    [out] the bytes written before [pos], [olen] the size of the output
    buffer.  [None] is the invalid-padding exit. *)
Fixpoint base64_decode_loop (dtable : list Z) (olen : Z) (src : list Z)
    (block : list Z) (pad : Z) (out : list Z) : outcome (option (list Z)) :=
  match src with
  | [] => Done (Some out)
  | val :: rest =>
      let tmp := dlookup dtable val in
      if tmp =? 128 then base64_decode_loop dtable olen rest block pad out else
      let pad := if val =? chr_eq then pad + 1 else pad in
      match block with
      | [b0; b1; b2] =>
          let out := out ++
            [u8 (Z.lor (Z.shiftl b0 2) (Z.shiftr b1 4));
             u8 (Z.lor (Z.shiftl b1 4) (Z.shiftr b2 2));
             u8 (Z.lor (Z.shiftl b2 6) tmp)] in
          if olen <? zlen out then Fault OutOfBounds
          else if pad =? 0 then base64_decode_loop dtable olen rest [] pad out
          else if pad =? 1 then Done (Some (take (length out - 1) out))
          else if pad =? 2 then Done (Some (take (length out - 2) out))
          else Done None
      | _ => base64_decode_loop dtable olen rest (block ++ [tmp]) pad out
      end
  end.

Definition base64_gen_decode (src : list Z) (table : list Z) :
    prog env (option (list Z)) :=
  let dtable := base64_dtable table in
  let count := base64_count dtable src in
  if count =? 0 then mret None else
  let extra_pad := (4 - count mod 4) mod 4 in
  let olen := (count + extra_pad) / 4 * 3 in
  ok ← malloc;
  if negb ok then mret None else
  lift_outcome (base64_decode_loop dtable olen
    (src ++ replicate (Z.to_nat extra_pad) chr_eq) [] 0 []).

Definition base64_decode (src : list Z) : prog env (option (list Z)) :=
  base64_gen_decode src base64_table.
Definition base64_url_decode (src : list Z) : prog env (option (list Z)) :=
  base64_gen_decode src base64_url_table.

(** ** Bounds of the encoder *)

(** Induction that follows the groups of three bytes. *)
Lemma group3_ind {A} (P : list A -> Prop) :
  P [] -> (forall a, P [a]) -> (forall a b, P [a; b]) ->
  (forall a b c l, P l -> P (a :: b :: c :: l)) -> forall l, P l.
Proof.
  intros H0 H1 H2 H3 l.
  enough (P l /\ (forall a, P (a :: l)) /\ (forall a b, P (a :: b :: l))) by tauto.
  induction l as [|x l (IH0 & IH1 & IH2)]; [by auto|].
  repeat split; auto.
Qed.

Lemma encode_loop_length table (add_pad : bool) src : forall line_len,
  (add_pad = true -> 0 <= line_len < 72 /\ line_len mod 4 = 0) ->
  zlen (base64_encode_loop table add_pad line_len src) =
    (if add_pad
     then (zlen src + 2) / 3 * 4 + (line_len + (zlen src + 2) / 3 * 4 + 71) / 72
     else (zlen src * 4 + 2) / 3).
Proof.
  induction src as [|a|a b|a b c l IH] using group3_ind; intros ll Hll;
    destruct add_pad; try destruct (Hll eq_refl) as [Hb H4];
    simpl base64_encode_loop; repeat case_match;
    autorewrite with zlen; simpl; rewrite ?IH by (try discriminate; zdiv_lia);
    try (pose proof (zlen_nonneg l)); zdiv_lia.
Qed.

Lemma encode_olen_small len add_pad : 0 <= len < SIZE_MAX / 4 ->
  base64_encode_olen len add_pad =
    (let olen := len * 4 / 3 + 4 in
     (if add_pad then olen + olen / 72 else olen) + 1).
Proof.
  unfold SIZE_MAX, base64_encode_olen, wrap. intros H.
  rewrite (Z.mod_small (len * 4)) by zdiv_lia.
  rewrite (Z.mod_small (len * 4 / 3 + 4)) by zdiv_lia.
  destruct add_pad; rewrite ?Z.mod_small by zdiv_lia; done.
Qed.

Lemma encode_fits table add_pad src : zlen src < SIZE_MAX / 4 ->
  zlen (base64_encode_loop table add_pad 0 src) + 1 <=
  base64_encode_olen (zlen src) add_pad.
Proof.
  intros H. pose proof (zlen_nonneg src).
  rewrite encode_olen_small, encode_loop_length by (done || split; lia).
  cbv zeta; destruct add_pad; zdiv_lia.
Qed.

(** ** The tables *)

(** What the two passes of the decoder need of a table; decidable, and
    checked below for both tables by evaluation. *)
Definition table_ok (table : list Z) : bool :=
  forallb (fun i => (dlookup (base64_dtable table) (tbl table (Z.of_nat i)) =? Z.of_nat i)
                    && negb (tbl table (Z.of_nat i) =? chr_eq)) (seq 0 64)
  && (dlookup (base64_dtable table) chr_nl =? 128)
  && (dlookup (base64_dtable table) chr_eq =? 0).

Lemma tables_ok : table_ok base64_table = true /\ table_ok base64_url_table = true.
Proof. split; vm_compute; reflexivity. Qed.

Lemma table_ok_spec table : table_ok table = true ->
  (forall i, 0 <= i < 64 ->
     dlookup (base64_dtable table) (tbl table i) = i /\ tbl table i <> chr_eq) /\
  dlookup (base64_dtable table) chr_nl = 128 /\
  dlookup (base64_dtable table) chr_eq = 0.
Proof.
  unfold table_ok. rewrite !andb_true_iff, forallb_forall. intros [[H H1] H2].
  split; [|lia]. intros i Hi.
  specialize (H (Z.to_nat i)). rewrite in_seq, Z2Nat.id in H by lia.
  specialize (H ltac:(lia)). rewrite andb_true_iff, negb_true_iff in H. lia.
Qed.

(** ** The four sextets of a group, and the three bytes they recombine to *)

Lemma sextet0 a : is_byte a -> Z.land (Z.shiftr a 2) 63 = a / 4.
Proof.
  unfold is_byte. intros. rewrite land_3f, Z.shiftr_div_pow2 by lia. zdiv_lia.
Qed.

Lemma sextet1 a b : is_byte a -> is_byte b ->
  Z.land (Z.lor (Z.shiftl (Z.land a 3) 4) (Z.shiftr b 4)) 63 = a mod 4 * 16 + b / 16.
Proof.
  unfold is_byte. intros. rewrite land_3f, land_03, Z.shiftr_div_pow2 by lia.
  rewrite lor_shiftl_add by zdiv_lia. zdiv_lia.
Qed.

Lemma sextet2 b c : is_byte b -> is_byte c ->
  Z.land (Z.lor (Z.shiftl (Z.land b 15) 2) (Z.shiftr c 6)) 63 = b mod 16 * 4 + c / 64.
Proof.
  unfold is_byte. intros. rewrite land_3f, land_0f, Z.shiftr_div_pow2 by lia.
  rewrite lor_shiftl_add by zdiv_lia. zdiv_lia.
Qed.

Lemma sextet1_last a : is_byte a -> Z.land (Z.shiftl (Z.land a 3) 4) 63 = a mod 4 * 16.
Proof.
  unfold is_byte. intros. rewrite land_3f, land_03, Z.shiftl_mul_pow2 by lia. zdiv_lia.
Qed.

Lemma sextet2_last b : is_byte b -> Z.land (Z.shiftl (Z.land b 15) 2) 63 = b mod 16 * 4.
Proof.
  unfold is_byte. intros. rewrite land_3f, land_0f, Z.shiftl_mul_pow2 by lia. zdiv_lia.
Qed.

Lemma recombine0 a b : is_byte a -> is_byte b ->
  u8 (Z.lor (Z.shiftl (a / 4) 2) (Z.shiftr (a mod 4 * 16 + b / 16) 4)) = a.
Proof.
  unfold is_byte, wrap. intros. rewrite Z.shiftr_div_pow2 by lia.
  rewrite lor_shiftl_add by zdiv_lia. zdiv_lia.
Qed.

Lemma recombine1 a b c : is_byte a -> is_byte b -> is_byte c ->
  u8 (Z.lor (Z.shiftl (a mod 4 * 16 + b / 16) 4) (Z.shiftr (b mod 16 * 4 + c / 64) 2)) = b.
Proof.
  unfold is_byte, wrap. intros. rewrite Z.shiftr_div_pow2 by lia.
  rewrite lor_shiftl_add by zdiv_lia. zdiv_lia.
Qed.

Lemma recombine2 b c : is_byte b -> is_byte c ->
  u8 (Z.lor (Z.shiftl (b mod 16 * 4 + c / 64) 6) (c mod 64)) = c.
Proof.
  unfold is_byte, wrap. intros. rewrite lor_shiftl_add by zdiv_lia. zdiv_lia.
Qed.

Section decode.
Context (table dtable : list Z).
Context (dlookup_tbl : forall i, 0 <= i < 64 -> dlookup dtable (tbl table i) = i).
Context (tbl_not_eq : forall i, 0 <= i < 64 -> (tbl table i =? chr_eq) = false).
Context (dlookup_nl : dlookup dtable chr_nl = 128).
Context (dlookup_eq : dlookup dtable chr_eq = 0).

(** One step of the second pass, by the kind of character read. *)
Lemma decode_char olen i rest block pad out :
  0 <= i < 64 -> (length block < 3)%nat ->
  base64_decode_loop dtable olen (tbl table i :: rest) block pad out =
  base64_decode_loop dtable olen rest (block ++ [i]) pad out.
Proof using Type*.
  intros Hi Hb. simpl. rewrite dlookup_tbl, tbl_not_eq by done.
  rewrite (proj2 (Z.eqb_neq i 128)) by lia.
  by destruct block as [|? [|? [|? [|]]]]; simpl in Hb; try lia.
Qed.

Lemma decode_pad_char olen rest block pad out :
  (length block < 3)%nat ->
  base64_decode_loop dtable olen (chr_eq :: rest) block pad out =
  base64_decode_loop dtable olen rest (block ++ [0]) (pad + 1) out.
Proof using Type*.
  intros Hb. simpl. rewrite dlookup_eq. simpl.
  by destruct block as [|? [|? [|? [|]]]]; simpl in Hb; try lia.
Qed.

Lemma decode_nl olen rest block pad out :
  base64_decode_loop dtable olen (chr_nl :: rest) block pad out =
  base64_decode_loop dtable olen rest block pad out.
Proof using Type*. simpl. by rewrite dlookup_nl. Qed.

Lemma decode_group olen a b c rest out :
  is_byte a -> is_byte b -> is_byte c -> zlen out + 3 <= olen ->
  base64_decode_loop dtable olen
    (tbl table (a / 4) :: tbl table (a mod 4 * 16 + b / 16) ::
     tbl table (b mod 16 * 4 + c / 64) :: tbl table (c mod 64) :: rest) [] 0 out =
  base64_decode_loop dtable olen rest [] 0 (out ++ [a; b; c]).
Proof using Type*.
  intros Ha Hb Hc Ho.
  assert (0 <= a / 4 < 64 /\ 0 <= a mod 4 * 16 + b / 16 < 64 /\
    0 <= b mod 16 * 4 + c / 64 < 64 /\ 0 <= c mod 64 < 64) as (? & ? & ? & ?)
    by (unfold is_byte in *; zdiv_lia).
  rewrite !decode_char by (done || simpl; lia). simpl.
  rewrite dlookup_tbl, tbl_not_eq by done.
  rewrite (proj2 (Z.eqb_neq (c mod 64) 128)) by lia.
  rewrite recombine0, recombine1, recombine2 by done.
  rewrite (proj2 (Z.ltb_ge _ _)) by (autorewrite with zlen; lia). done.
Qed.

Lemma decode_last1 olen a rest out :
  is_byte a -> zlen out + 3 <= olen ->
  base64_decode_loop dtable olen
    (tbl table (a / 4) :: tbl table (a mod 4 * 16) :: chr_eq :: chr_eq :: rest)
    [] 0 out = Done (Some (out ++ [a])).
Proof using Type*.
  intros Ha Ho. pose proof (recombine0 a 0 Ha ltac:(done)) as H0.
  rewrite Z.add_0_r in H0.
  rewrite !decode_char by (unfold is_byte in *; done || (simpl; lia) || zdiv_lia).
  rewrite decode_pad_char by (simpl; lia). simpl. rewrite dlookup_eq, H0. simpl.
  rewrite (proj2 (Z.ltb_ge _ _)) by (autorewrite with zlen; lia).
  by rewrite take_app_sub by (simpl; lia).
Qed.

Lemma decode_last2 olen a b rest out :
  is_byte a -> is_byte b -> zlen out + 3 <= olen ->
  base64_decode_loop dtable olen
    (tbl table (a / 4) :: tbl table (a mod 4 * 16 + b / 16) ::
     tbl table (b mod 16 * 4) :: chr_eq :: rest)
    [] 0 out = Done (Some (out ++ [a; b])).
Proof using Type*.
  intros Ha Hb Ho. pose proof (recombine1 a b 0 Ha Hb ltac:(done)) as H1.
  rewrite Z.add_0_r in H1.
  rewrite !decode_char by (unfold is_byte in *; done || (simpl; lia) || zdiv_lia).
  simpl. rewrite dlookup_eq, recombine0, H1 by done. simpl.
  rewrite (proj2 (Z.ltb_ge _ _)) by (autorewrite with zlen; lia).
  by rewrite take_app_sub by (simpl; lia).
Qed.

(** The characters the decoder appends for an unpadded encoding. *)
Definition missing_pad (add_pad : bool) (len : Z) : nat :=
  if add_pad then 0 else Z.to_nat ((3 - len mod 3) mod 3).

Lemma decode_encode_loop add_pad olen src : forall line_len out,
  bytes src -> zlen out + (zlen src + 2) / 3 * 3 <= olen ->
  base64_decode_loop dtable olen
    (base64_encode_loop table add_pad line_len src ++
     replicate (missing_pad add_pad (zlen src)) chr_eq) [] 0 out =
  Done (Some (out ++ src)).
Proof using Type*.
  induction src as [|a|a b|a b c l IH] using group3_ind; intros ll out Hb Ho;
    rewrite ?List.Forall_cons_iff in Hb; destruct_and?; simpl base64_encode_loop;
    rewrite ?sextet0, ?sextet1, ?sextet2, ?sextet1_last, ?sextet2_last, ?land_3f by done.
  - rewrite app_nil_r. destruct add_pad; simpl; [|done].
    destruct (ll =? 0); simpl; [done|]. by rewrite dlookup_nl.
  - rewrite zlen_cons, zlen_nil in Ho.
    destruct add_pad; simpl app; apply decode_last1; done || zdiv_lia.
  - rewrite !zlen_cons, zlen_nil in Ho.
    destruct add_pad; simpl app; apply decode_last2; done || zdiv_lia.
  - rewrite !zlen_cons in Ho. pose proof (zlen_nonneg l).
    assert (missing_pad add_pad (zlen (a :: b :: c :: l)) =
            missing_pad add_pad (zlen l)) as ->.
    { unfold missing_pad. rewrite !zlen_cons. destruct add_pad; [done|].
      f_equal. zdiv_lia. }
    simpl app. rewrite decode_group by (done || zdiv_lia).
    replace (out ++ a :: b :: c :: l) with ((out ++ [a; b; c]) ++ l)
      by (by rewrite <- app_assoc).
    case_match; simpl app; rewrite ?decode_nl;
      apply IH; done || (autorewrite with zlen; zdiv_lia).
Qed.
End decode.

Section count.
Context (dtable : list Z).

Lemma count_cons v l :
  base64_count dtable (v :: l) =
  (if dlookup dtable v =? 128 then 0 else 1) + base64_count dtable l.
Proof.
  unfold base64_count. rewrite filter_cons.
  case_decide; destruct (Z.eqb_spec (dlookup dtable v) 128); rewrite ?zlen_cons; lia.
Qed.

Lemma count_nonneg l : 0 <= base64_count dtable l.
Proof. apply zlen_nonneg. Qed.

Lemma count_app k l :
  base64_count dtable (k ++ l) = base64_count dtable k + base64_count dtable l.
Proof. induction k; [done|]. simpl app. rewrite !count_cons. lia. Qed.

Lemma count_replicate_le n v : base64_count dtable (replicate n v) <= Z.of_nat n.
Proof.
  induction n; simpl replicate; rewrite ?count_cons; [done|]. case_match; lia.
Qed.

(** The second pass stays within a buffer of [T / 4 * 3] bytes when at most
    [T] characters of its input are in the table. *)
Lemma decode_loop_safe T src : forall block pad out,
  (length block <= 3)%nat -> zlen out mod 3 = 0 ->
  zlen out / 3 * 4 + zlen block + base64_count dtable src <= T ->
  exists r, base64_decode_loop dtable (T / 4 * 3) src block pad out = Done r.
Proof.
  induction src as [|v src IH]; intros block pad out Hb Hm Ht; [by eexists|].
  simpl. rewrite count_cons in Ht. pose proof (count_nonneg src).
  destruct (dlookup dtable v =? 128); [apply IH; done || lia|].
  destruct block as [|b0 [|b1 [|b2 [|]]]]; simpl in Hb; try lia;
    rewrite ?zlen_cons, ?zlen_nil in Ht;
    try (apply IH; autorewrite with zlen; simpl; lia).
  rewrite (proj2 (Z.ltb_ge _ _)) by (autorewrite with zlen; zdiv_lia).
  repeat case_match; eauto; apply IH; autorewrite with zlen; simpl; zdiv_lia.
Qed.
End count.

Lemma count_encode table add_pad src : table_ok table = true -> bytes src ->
  forall line_len,
  base64_count (base64_dtable table) (base64_encode_loop table add_pad line_len src) =
  (if add_pad then (zlen src + 2) / 3 * 4 else (zlen src * 4 + 2) / 3).
Proof.
  intros (Htbl & Hnl & Heq)%table_ok_spec Hb. revert Htbl Hnl Heq.
  generalize (base64_dtable table) as dtable. intros dtable Htbl Hnl Heq.
  assert (Hchar : forall i, 0 <= i < 64 -> (dlookup dtable (tbl table i) =? 128) = false).
  { intros i Hi. apply Z.eqb_neq. destruct (Htbl i Hi). lia. }
  induction src as [|a|a b|a b c l IH] using group3_ind; intros ll;
    rewrite ?List.Forall_cons_iff in Hb; destruct_and?; simpl base64_encode_loop;
    rewrite ?sextet0, ?sextet1, ?sextet2, ?sextet1_last, ?sextet2_last, ?land_3f by done;
    destruct add_pad; simpl app; repeat case_match; simpl app; rewrite ?count_cons;
    rewrite ?Hnl, ?Heq, ?Hchar by (unfold is_byte in *; zdiv_lia); simpl;
    rewrite ?IH by done; autorewrite with zlen;
    try change (base64_count dtable []) with 0; zdiv_lia.
Qed.

(** Without padding the text consists of characters of the table. *)
Lemma encode_chars (P : Z -> Prop) table src : (forall i, 0 <= i < 64 -> P (tbl table i)) ->
  forall line_len, Forall P (base64_encode_loop table false line_len src).
Proof.
  intros HP. assert (forall x, P (tbl table (Z.land x 63))) as HP'.
  { intros x. apply HP. rewrite land_3f. apply Z.mod_pos_bound. lia. }
  induction src as [|a|a b|a b c l IH] using group3_ind; intros ll; cbn [base64_encode_loop andb app];
    repeat constructor; auto.
Qed.

(** The encoder: the text, or NULL when memory or the size limit forbids. *)
Lemma encode_run table add_pad src e : exists o e',
  base64_gen_encode src table add_pad e = Done (o, e') /\
  env_ok e e' (zlen src < SIZE_MAX / 4 -> o <> None) /\
  (o = None \/ o = Some (base64_encode_loop table add_pad 0 src)).
Proof.
  unfold base64_gen_encode. destruct (Z.leb_spec (SIZE_MAX / 4) (zlen src)) as [|Hlen].
  { exists None, e. split; [done|]. split; [apply env_ok_refl; lia|by left]. }
  pose proof (zlen_nonneg src). rewrite (proj2 (Z.ltb_ge _ _)) by
    (rewrite encode_olen_small by lia; cbv zeta; destruct add_pad; zdiv_lia).
  destruct (malloc_ok e) as (ok & e' & Hm & Hk). erewrite bind_run by exact Hm. cbn beta.
  pose proof (encode_fits table add_pad src Hlen). destruct ok; cbn [negb].
  - rewrite (proj2 (Z.leb_le _ _)) by lia. eexists _, e'. split; [done|]. split; [|by right].
    by eapply env_ok_mono.
  - exists None, e'. split; [done|]. split; [|by left]. by eapply env_ok_mono.
Qed.

(** The decoder stays in its buffer and puts out bytes. *)
Lemma decode_loop_bytes dtable olen src : forall block pad out r,
  bytes out -> base64_decode_loop dtable olen src block pad out = Done (Some r) -> bytes r.
Proof.
  induction src as [|v src IH]; intros block pad out r Ho; cbn [base64_decode_loop].
  { by intros [= <-]. }
  destruct (_ =? 128); [by apply IH|].
  destruct block as [|b0 [|b1 [|b2 [|]]]]; try by apply IH.
  assert (bytes (out ++ [u8 (Z.lor (Z.shiftl b0 2) (Z.shiftr b1 4));
    u8 (Z.lor (Z.shiftl b1 4) (Z.shiftr b2 2)); u8 (Z.lor (Z.shiftl b2 6) (dlookup dtable v))])) as Hb
    by (apply Forall_app; split; [done|repeat constructor; apply u8_byte]).
  repeat case_match; try done; try (by apply IH); intros [= <-]; by apply Forall_take.
Qed.

Lemma decode_run src table e : exists o e',
  base64_gen_decode src table e = Done (o, e') /\ env_ok e e' True /\
  (forall l, o = Some l -> bytes l).
Proof.
  unfold base64_gen_decode. set (dt := base64_dtable table).
  destruct (base64_count dt src =? 0); [by exists None, e|].
  destruct (malloc_ok e) as (ok & e' & Hm & Hk). erewrite bind_run by exact Hm. cbn beta.
  assert (env_ok e e' True) as Hk' by (by eapply env_ok_mono).
  destruct ok; cbn [negb]; [|by exists None, e'].
  pose proof (count_nonneg dt src).
  edestruct (decode_loop_safe dt
    (base64_count dt src + (4 - base64_count dt src mod 4) mod 4)
    (src ++ replicate (Z.to_nat ((4 - base64_count dt src mod 4) mod 4)) chr_eq)
    [] 0 []) as [r Hr]; [simpl; lia|done| |].
  - rewrite count_app. pose proof (count_replicate_le dt
      (Z.to_nat ((4 - base64_count dt src mod 4) mod 4)) chr_eq).
    change (zlen (@nil Z)) with 0. zdiv_lia.
  - rewrite Hr. exists r, e'. split; [done|]. split; [done|]. intros l ->.
    by eapply decode_loop_bytes; [|exact Hr].
Qed.

Lemma decode_encoded table add_pad src e :
  table = base64_table \/ table = base64_url_table -> bytes src -> src <> [] -> exists o e',
  base64_gen_decode (base64_encode_loop table add_pad 0 src) table e = Done (o, e') /\
  env_ok e e' (o <> None) /\ (o = None \/ o = Some src).
Proof.
  intros Ht Hb Hne.
  assert (table_ok table = true) as Hok by (destruct Ht as [-> | ->]; apply tables_ok).
  assert (0 < zlen src) as Hpos.
  { destruct src; [done|]. rewrite zlen_cons. pose proof (zlen_nonneg src). lia. }
  unfold base64_gen_decode. rewrite count_encode by done.
  rewrite (proj2 (Z.eqb_neq _ 0)) by (destruct add_pad; zdiv_lia).
  destruct (malloc_ok e) as (ok & e' & Hm & Hk). erewrite bind_run by exact Hm. cbn beta.
  destruct ok; cbn [negb]; cycle 1.
  { exists None, e'. split; [done|]. split; [|by left]. by eapply env_ok_mono. }
  replace (Z.to_nat _) with (missing_pad add_pad (zlen src)) by
    (unfold missing_pad; destruct add_pad; zdiv_lia).
  apply table_ok_spec in Hok as (Htbl & Hnl & Heq).
  exists (Some src), e'. split; [|split; [by eapply env_ok_mono|by right]].
  rewrite decode_encode_loop; try done.
  - intros i Hi. by apply Htbl.
  - intros i Hi. apply Z.eqb_neq. by apply Htbl.
  - rewrite zlen_nil. destruct add_pad; zdiv_lia.
Qed.

Definition no_alloc_failure (r : list (list Z)) : env := Env [] r.

(**  Decoding undoes encoding: for both tables, padded or not, every
    non-empty byte string shorter than the size limit is encoded without a
    fault, and decoding the result with the same table gives it back. *)
Theorem base64_roundtrip table add_pad src r :
  table = base64_table \/ table = base64_url_table ->
  bytes src -> src <> [] -> zlen src < SIZE_MAX / 4 ->
  exists enc,
    base64_gen_encode src table add_pad (no_alloc_failure r) =
      Done (Some enc, no_alloc_failure r) /\
    base64_gen_decode enc table (no_alloc_failure r) =
      Done (Some src, no_alloc_failure r).
Proof.
  intros Ht Hb Hne Hlen.
  destruct (encode_run table add_pad src (no_alloc_failure r)) as (o & e & H1 & [_ K1] & C1).
  destruct (K1 eq_refl) as [-> Hn]. destruct C1 as [->| ->]; [by destruct (Hn Hlen)|].
  eexists. split; [exact H1|].
  destruct (decode_encoded table add_pad src (no_alloc_failure r) Ht Hb Hne) as (o & e & H2 & [_ K2] & C2).
  destruct (K2 eq_refl) as [-> Hn2]. by destruct C2 as [->| ->].
Qed.

Lemma base64_roundtrip_witness :
  exists enc,
    base64_gen_encode (cstr "EDGESec") base64_table true (no_alloc_failure []) =
      Done (Some enc, no_alloc_failure []) /\
    base64_gen_decode enc base64_table (no_alloc_failure []) =
      Done (Some (cstr "EDGESec"), no_alloc_failure []).
Proof.
  apply (base64_roundtrip base64_table true (cstr "EDGESec") []).
  - by left.
  - repeat constructor; vm_compute; congruence.
  - done.
  - done.
Defined.

(**  The encoder never writes outside the buffer it allocates, the
    decoder never does either, whatever the input, the table and the answers
    of the allocator. *)
Theorem base64_memory_safe src table add_pad e :
  (exists r e', base64_gen_encode src table add_pad e = Done (r, e')) /\
  (exists r e', base64_gen_decode src table e = Done (r, e')).
Proof.
  destruct (encode_run table add_pad src e) as (o1 & e1 & H1 & _).
  destruct (decode_run src table e) as (o2 & e2 & H2 & _). split; by eexists _, _.
Qed.
