(* ===== verification/Md5.v ===== *)
(** MD5 and HMAC-MD5: [src/radius/md5_internal.c], [src/radius/md5.c].

    The incremental implementation ([MD5Init], [MD5Update], [MD5Final]) is
    translated with its context, and proved equal to the one-shot definition
    of RFC 1321; HMAC is proved equal to RFC 2104.  The code is the
    little-endian configuration: [byteReverse] is empty, and a 32-bit word of
    [in] is read from four bytes with the least significant byte first. *)
From stdpp Require Import base list strings numbers.
From Stdlib Require Import ZArith Lia.
From S2P Require Import Prelude.

(** ** The transform *)

Definition F1 (x y z : Z) : Z := Z.lxor z (Z.land x (Z.lxor y z)).
Definition F2 (x y z : Z) : Z := F1 z x y.
Definition F3 (x y z : Z) : Z := Z.lxor (Z.lxor x y) z.
Definition F4 (x y z : Z) : Z := Z.lxor y (Z.lor x (u32 (Z.lnot z))).

Definition rotl (w s : Z) : Z := Z.lor (u32 (Z.shiftl w s)) (Z.shiftr w (32 - s)).

(** [MD5STEP]: the new value of its second argument. *)
Definition MD5STEP (f : Z -> Z -> Z -> Z) (w x y z data s : Z) : Z :=
  let w := u32 (w + u32 (f x y z + data)) in
  let w := rotl w s in
  u32 (w + x).

Definition md5_state : Type := Z * Z * Z * Z.

(** A little-endian word of four bytes, and the words of a block. *)
Definition le32 (b0 b1 b2 b3 : Z) : Z :=
  b0 + Z.shiftl b1 8 + Z.shiftl b2 16 + Z.shiftl b3 24.
Fixpoint le_words (l : list Z) : list Z :=
  match l with
  | b0 :: b1 :: b2 :: b3 :: l => le32 b0 b1 b2 b3 :: le_words l
  | _ => []
  end.
Definition put_le32 (w : Z) : list Z :=
  [u8 w; u8 (Z.shiftr w 8); u8 (Z.shiftr w 16); u8 (Z.shiftr w 24)].

(** The four register patterns in which [MD5Transform] uses the macro: the
    first register is updated from the other three. *)
Definition STEP_a (f : Z -> Z -> Z -> Z) (x t s : Z) (st : md5_state) : md5_state :=
  let '(a, b, c, d) := st in (MD5STEP f a b c d (u32 (x + t)) s, b, c, d).
Definition STEP_d (f : Z -> Z -> Z -> Z) (x t s : Z) (st : md5_state) : md5_state :=
  let '(a, b, c, d) := st in (a, b, c, MD5STEP f d a b c (u32 (x + t)) s).
Definition STEP_c (f : Z -> Z -> Z -> Z) (x t s : Z) (st : md5_state) : md5_state :=
  let '(a, b, c, d) := st in (a, b, MD5STEP f c d a b (u32 (x + t)) s, d).
Definition STEP_b (f : Z -> Z -> Z -> Z) (x t s : Z) (st : md5_state) : md5_state :=
  let '(a, b, c, d) := st in (a, MD5STEP f b c d a (u32 (x + t)) s, c, d).

(** The 64 statements of [MD5Transform], in order. *)
Definition MD5Transform_steps (in_ : list Z) : list (md5_state -> md5_state) :=
  let inw i := nth (Z.to_nat i) in_ 0 in
  [
   STEP_a F1 (inw 0) 0xd76aa478 7;
   STEP_d F1 (inw 1) 0xe8c7b756 12;
   STEP_c F1 (inw 2) 0x242070db 17;
   STEP_b F1 (inw 3) 0xc1bdceee 22;
   STEP_a F1 (inw 4) 0xf57c0faf 7;
   STEP_d F1 (inw 5) 0x4787c62a 12;
   STEP_c F1 (inw 6) 0xa8304613 17;
   STEP_b F1 (inw 7) 0xfd469501 22;
   STEP_a F1 (inw 8) 0x698098d8 7;
   STEP_d F1 (inw 9) 0x8b44f7af 12;
   STEP_c F1 (inw 10) 0xffff5bb1 17;
   STEP_b F1 (inw 11) 0x895cd7be 22;
   STEP_a F1 (inw 12) 0x6b901122 7;
   STEP_d F1 (inw 13) 0xfd987193 12;
   STEP_c F1 (inw 14) 0xa679438e 17;
   STEP_b F1 (inw 15) 0x49b40821 22;
   STEP_a F2 (inw 1) 0xf61e2562 5;
   STEP_d F2 (inw 6) 0xc040b340 9;
   STEP_c F2 (inw 11) 0x265e5a51 14;
   STEP_b F2 (inw 0) 0xe9b6c7aa 20;
   STEP_a F2 (inw 5) 0xd62f105d 5;
   STEP_d F2 (inw 10) 0x02441453 9;
   STEP_c F2 (inw 15) 0xd8a1e681 14;
   STEP_b F2 (inw 4) 0xe7d3fbc8 20;
   STEP_a F2 (inw 9) 0x21e1cde6 5;
   STEP_d F2 (inw 14) 0xc33707d6 9;
   STEP_c F2 (inw 3) 0xf4d50d87 14;
   STEP_b F2 (inw 8) 0x455a14ed 20;
   STEP_a F2 (inw 13) 0xa9e3e905 5;
   STEP_d F2 (inw 2) 0xfcefa3f8 9;
   STEP_c F2 (inw 7) 0x676f02d9 14;
   STEP_b F2 (inw 12) 0x8d2a4c8a 20;
   STEP_a F3 (inw 5) 0xfffa3942 4;
   STEP_d F3 (inw 8) 0x8771f681 11;
   STEP_c F3 (inw 11) 0x6d9d6122 16;
   STEP_b F3 (inw 14) 0xfde5380c 23;
   STEP_a F3 (inw 1) 0xa4beea44 4;
   STEP_d F3 (inw 4) 0x4bdecfa9 11;
   STEP_c F3 (inw 7) 0xf6bb4b60 16;
   STEP_b F3 (inw 10) 0xbebfbc70 23;
   STEP_a F3 (inw 13) 0x289b7ec6 4;
   STEP_d F3 (inw 0) 0xeaa127fa 11;
   STEP_c F3 (inw 3) 0xd4ef3085 16;
   STEP_b F3 (inw 6) 0x04881d05 23;
   STEP_a F3 (inw 9) 0xd9d4d039 4;
   STEP_d F3 (inw 12) 0xe6db99e5 11;
   STEP_c F3 (inw 15) 0x1fa27cf8 16;
   STEP_b F3 (inw 2) 0xc4ac5665 23;
   STEP_a F4 (inw 0) 0xf4292244 6;
   STEP_d F4 (inw 7) 0x432aff97 10;
   STEP_c F4 (inw 14) 0xab9423a7 15;
   STEP_b F4 (inw 5) 0xfc93a039 21;
   STEP_a F4 (inw 12) 0x655b59c3 6;
   STEP_d F4 (inw 3) 0x8f0ccc92 10;
   STEP_c F4 (inw 10) 0xffeff47d 15;
   STEP_b F4 (inw 1) 0x85845dd1 21;
   STEP_a F4 (inw 8) 0x6fa87e4f 6;
   STEP_d F4 (inw 15) 0xfe2ce6e0 10;
   STEP_c F4 (inw 6) 0xa3014314 15;
   STEP_b F4 (inw 13) 0x4e0811a1 21;
   STEP_a F4 (inw 4) 0xf7537e82 6;
   STEP_d F4 (inw 11) 0xbd3af235 10;
   STEP_c F4 (inw 2) 0x2ad7d2bb 15;
   STEP_b F4 (inw 9) 0xeb86d391 21].

Definition MD5Transform (buf : md5_state) (in_ : list Z) : md5_state :=
  let '(a0, b0, c0, d0) := buf in
  let '(a, b, c, d) := fold_left (fun st stmt => stmt st) (MD5Transform_steps in_) buf in
  (u32 (a0 + a), u32 (b0 + b), u32 (c0 + c), u32 (d0 + d)).

(** ** The context *)

Record MD5Context := {
  md5_buf : md5_state;
  md5_bits0 : Z;
  md5_bits1 : Z;
  md5_in : list Z
}.

Definition MD5Init (ctx : MD5Context) : MD5Context :=
  {| md5_buf := (0x67452301, 0xefcdab89, 0x98badcfe, 0x10325476);
     md5_bits0 := 0; md5_bits1 := 0; md5_in := md5_in ctx |}.

(** [memcpy] of [data] to offset [off] of [in_].  A copy that ran past the end
    would make the list longer, so that "[in_] keeps its 64 bytes" below is
    the absence of an overrun. *)
Definition splice (in_ : list Z) (off : nat) (data : list Z) : list Z :=
  take off in_ ++ data ++ drop (off + length data) in_.

(** The loop over whole 64-byte chunks: new state, new [in_], rest of the data. *)
Fixpoint MD5Update_chunks (fuel : nat) (buf : md5_state) (in_ data : list Z) :
    md5_state * list Z * list Z :=
  match fuel with
  | O => (buf, in_, data)
  | S fuel =>
      if (64 <=? length data)%nat then
        let in_ := splice in_ 0 (take 64 data) in
        MD5Update_chunks fuel (MD5Transform buf (le_words in_)) in_ (drop 64 data)
      else (buf, in_, data)
  end.

Definition MD5Update (ctx : MD5Context) (data : list Z) : MD5Context :=
  let len := u32 (zlen data) in
  let data := take (Z.to_nat len) data in
  let t := md5_bits0 ctx in
  let bits0 := u32 (t + u32 (Z.shiftl len 3)) in
  let bits1 := if bits0 <? t then u32 (md5_bits1 ctx + 1) else md5_bits1 ctx in
  let bits1 := u32 (bits1 + Z.shiftr len 29) in
  let t := Z.to_nat (Z.land (Z.shiftr t 3) 63) in
  let finish buf in_ data :=
    let '(buf, in_, data) := MD5Update_chunks (length data) buf in_ data in
    {| md5_buf := buf; md5_bits0 := bits0; md5_bits1 := bits1;
       md5_in := splice in_ 0 data |} in
  if (t =? 0)%nat then finish (md5_buf ctx) (md5_in ctx) data
  else
    let p := t in
    let t := (64 - t)%nat in
    if (length data <? t)%nat then
      {| md5_buf := md5_buf ctx; md5_bits0 := bits0; md5_bits1 := bits1;
         md5_in := splice (md5_in ctx) p data |}
    else
      let in_ := splice (md5_in ctx) p (take t data) in
      finish (MD5Transform (md5_buf ctx) (le_words in_)) in_ (drop t data).

Definition MD5Final (ctx : MD5Context) : list Z :=
  let count := Z.to_nat (Z.land (Z.shiftr (md5_bits0 ctx) 3) 63) in
  let in_ := splice (md5_in ctx) count [0x80] in
  let p := S count in
  let count := (64 - 1 - count)%nat in
  let '(buf, in_) :=
    if (count <? 8)%nat then
      let in_ := splice in_ p (replicate count 0) in
      (MD5Transform (md5_buf ctx) (le_words in_), splice in_ 0 (replicate 56 0))
    else (md5_buf ctx, splice in_ p (replicate (count - 8) 0)) in
  let in_ := splice in_ 56 (put_le32 (md5_bits0 ctx)) in
  let in_ := splice in_ 60 (put_le32 (md5_bits1 ctx)) in
  let '(a, b, c, d) := MD5Transform buf (le_words in_) in
  put_le32 a ++ put_le32 b ++ put_le32 c ++ put_le32 d.

(** [edge_md5_vector], from the context that happens to be on the stack. *)
Definition md5_vector_from (ctx : MD5Context) (elems : list (list Z)) : list Z :=
  MD5Final (fold_left MD5Update elems (MD5Init ctx)).

(** The context of the definition is not initialised by the code; which one it
    is does not matter ([md5_vector_from_spec] below). *)
Definition edge_md5_vector (elems : list (list Z)) : list Z :=
  md5_vector_from
    {| md5_buf := (0, 0, 0, 0); md5_bits0 := 0; md5_bits1 := 0;
       md5_in := replicate 64 0 |} elems.

Definition MD5_MAC_LEN : Z := 16.

(** ** HMAC *)

Definition xor_pad (pad : Z) (k : list Z) : list Z := (fun b => Z.lxor b pad) <$> k.

(** [None] is the [-1] of more than five fragments. *)
Definition hmac_md5_vector (key : list Z) (elems : list (list Z)) : option (list Z) :=
  if (5 <? length elems)%nat then None else
  let key := if 64 <? zlen key then edge_md5_vector [key] else key in
  let k_pad := splice (replicate 64 0) 0 key in
  let mac := edge_md5_vector (xor_pad 0x36 k_pad :: elems) in
  Some (edge_md5_vector [xor_pad 0x5c k_pad; mac]).

Definition edge_hmac_md5 (key data : list Z) : option (list Z) :=
  hmac_md5_vector key [data].

(** ** RFC 1321, as the reference definition *)

Module rfc1321.
Definition F (x y z : Z) : Z := Z.lor (Z.land x y) (Z.land (Z.lnot x) z).
Definition G (x y z : Z) : Z := Z.lor (Z.land x z) (Z.land y (Z.lnot z)).
Definition H (x y z : Z) : Z := Z.lxor (Z.lxor x y) z.
Definition I (x y z : Z) : Z := Z.lxor y (Z.lor x (u32 (Z.lnot z))).

(** T[i] = floor(2^32 * abs(sin(i))) for i = 1 .. 64. *)
Definition T : list Z := [
 0xd76aa478; 0xe8c7b756; 0x242070db; 0xc1bdceee;
 0xf57c0faf; 0x4787c62a; 0xa8304613; 0xfd469501;
 0x698098d8; 0x8b44f7af; 0xffff5bb1; 0x895cd7be;
 0x6b901122; 0xfd987193; 0xa679438e; 0x49b40821;
 0xf61e2562; 0xc040b340; 0x265e5a51; 0xe9b6c7aa;
 0xd62f105d; 0x02441453; 0xd8a1e681; 0xe7d3fbc8;
 0x21e1cde6; 0xc33707d6; 0xf4d50d87; 0x455a14ed;
 0xa9e3e905; 0xfcefa3f8; 0x676f02d9; 0x8d2a4c8a;
 0xfffa3942; 0x8771f681; 0x6d9d6122; 0xfde5380c;
 0xa4beea44; 0x4bdecfa9; 0xf6bb4b60; 0xbebfbc70;
 0x289b7ec6; 0xeaa127fa; 0xd4ef3085; 0x04881d05;
 0xd9d4d039; 0xe6db99e5; 0x1fa27cf8; 0xc4ac5665;
 0xf4292244; 0x432aff97; 0xab9423a7; 0xfc93a039;
 0x655b59c3; 0x8f0ccc92; 0xffeff47d; 0x85845dd1;
 0x6fa87e4f; 0xfe2ce6e0; 0xa3014314; 0x4e0811a1;
 0xf7537e82; 0xbd3af235; 0x2ad7d2bb; 0xeb86d391].

(** The operations [abcd k s i] of the four rounds: auxiliary function,
    index [k] of the message word, entry of [T], shift. *)
Definition round (f : Z -> Z -> Z -> Z) (r : nat) (k : nat -> nat) (s : list Z) :
    list ((Z -> Z -> Z -> Z) * nat * Z * Z) :=
  (fun i => (f, (k i mod 16)%nat, nth (16 * r + i)%nat T 0, nth (i mod 4)%nat s 0)) <$> seq 0 16.
Definition ops : list ((Z -> Z -> Z -> Z) * nat * Z * Z) :=
  round F 0 (fun i => i)%nat [7; 12; 17; 22] ++
  round G 1 (fun i => 5 * i + 1)%nat [5; 9; 14; 20] ++
  round H 2 (fun i => 3 * i + 5)%nat [4; 11; 16; 23] ++
  round I 3 (fun i => 7 * i)%nat [6; 10; 15; 21].

(** a = b + ((a + f(b,c,d) + X[k] + T[i]) <<< s), then the registers turn. *)
Definition step (X : list Z) (st : md5_state) (op : (Z -> Z -> Z -> Z) * nat * Z * Z) :
    md5_state :=
  let '(a, b, c, d) := st in
  let '(f, k, t, s) := op in
  (d, u32 (b + rotl (u32 (a + f b c d + nth k X 0 + t)) s), b, c).

Definition transform (st : md5_state) (X : list Z) : md5_state :=
  let '(a, b, c, d) := st in
  let '(a', b', c', d') := fold_left (step X) ops st in
  (u32 (a + a'), u32 (b + b'), u32 (c + c'), u32 (d + d')).

(** The first [n] 64-byte chunks of a message. *)
Fixpoint chunks (n : nat) (st : md5_state) (l : list Z) : md5_state :=
  match n with
  | O => st
  | S n => chunks n (transform st (le_words (take 64 l))) (drop 64 l)
  end.

Definition padding (len : Z) : list Z :=
  [0x80] ++ replicate (Z.to_nat ((55 - len) mod 64)) 0 ++
  put_le32 (u32 (len * 8)) ++ put_le32 (u32 (Z.shiftr (len * 8) 32)).

Definition init : md5_state := (0x67452301, 0xefcdab89, 0x98badcfe, 0x10325476).

Definition output (st : md5_state) : list Z :=
  let '(a, b, c, d) := st in
  put_le32 a ++ put_le32 b ++ put_le32 c ++ put_le32 d.

Definition md5 (msg : list Z) : list Z :=
  let m := msg ++ padding (zlen msg) in
  output (chunks (length m / 64) init m).
End rfc1321.

(** ** The optimised transform is the one of the RFC *)

Lemma F1_F x y z : F1 x y z = rfc1321.F x y z.
Proof.
  unfold F1, rfc1321.F. apply Z.bits_inj'. intros i Hi.
  rewrite Z.lor_spec, Z.lxor_spec, !Z.land_spec, Z.lxor_spec, Z.lnot_spec by done.
  by destruct (Z.testbit x i), (Z.testbit y i), (Z.testbit z i).
Qed.

Lemma F2_G x y z : F2 x y z = rfc1321.G x y z.
Proof.
  unfold F2, F1, rfc1321.G. apply Z.bits_inj'. intros i Hi.
  rewrite Z.lor_spec, Z.lxor_spec, !Z.land_spec, Z.lxor_spec, Z.lnot_spec by done.
  by destruct (Z.testbit x i), (Z.testbit y i), (Z.testbit z i).
Qed.

Lemma MD5STEP_rfc f g w x y z X t s : (forall x y z, f x y z = g x y z) ->
  u32 (x + rotl (u32 (w + g x y z + X + t)) s) = MD5STEP f w x y z (u32 (X + t)) s.
Proof.
  intros Hfg. unfold MD5STEP. rewrite <- Hfg, (Z.add_comm _ x).
  replace (u32 (w + f x y z + X + t)) with (u32 (w + u32 (f x y z + u32 (X + t)))); [done|].
  unfold wrap. rewrite Zplus_mod_idemp_r.
  replace (w + (f x y z + (X + t) mod 2 ^ 32)) with (w + f x y z + (X + t) mod 2 ^ 32) by lia.
  rewrite Zplus_mod_idemp_r. f_equal. lia.
Qed.

Lemma step_rfc f g X a b c d k t s : (forall x y z, f x y z = g x y z) ->
  rfc1321.step X (a, b, c, d) (g, k, t, s) =
  (d, MD5STEP f a b c d (u32 (nth k X 0 + t)) s, b, c).
Proof. intros Hfg. unfold rfc1321.step. by rewrite (MD5STEP_rfc f g). Qed.

(** Four statements in the order a, d, c, b are four operations of the RFC,
    after which the registers are back in place. *)
Lemma transform_group f g X k0 k1 k2 k3 t0 t1 t2 t3 s0 s1 s2 s3 st :
  (forall x y z, f x y z = g x y z) ->
  STEP_b f (nth k3 X 0) t3 s3 (STEP_c f (nth k2 X 0) t2 s2
    (STEP_d f (nth k1 X 0) t1 s1 (STEP_a f (nth k0 X 0) t0 s0 st))) =
  fold_left (rfc1321.step X)
    [(g, k0, t0, s0); (g, k1, t1, s1); (g, k2, t2, s2); (g, k3, t3, s3)] st.
Proof.
  intros Hfg. destruct st as [[[a b] c] d]. cbn [fold_left].
  do 4 rewrite (step_rfc f g) by done. reflexivity.
Qed.

(** Replaces the next four statements by the next four operations. *)
Ltac transform_group :=
  lazymatch goal with
  | |- fold_left ?run (?sa :: ?sd :: ?sc :: ?sb :: ?l) ?st =
       fold_left ?stp (?o0 :: ?o1 :: ?o2 :: ?o3 :: ?ops) ?st =>
      transitivity (fold_left run l (fold_left stp [o0; o1; o2; o3] st));
      [ change (fold_left run (sa :: sd :: sc :: sb :: l) st)
          with (fold_left run l (sb (sc (sd (sa st)))));
        f_equal; apply transform_group; first [exact F1_F | exact F2_G | done]
      | change (fold_left stp (o0 :: o1 :: o2 :: o3 :: ops) st)
          with (fold_left stp ops (fold_left stp [o0; o1; o2; o3] st));
        generalize (fold_left stp [o0; o1; o2; o3] st); clear st; intros st ]
  end.

Lemma transform_steps_rfc X st :
  fold_left (fun st stmt => stmt st) (MD5Transform_steps X) st =
  fold_left (rfc1321.step X) rfc1321.ops st.
Proof.
  let o := eval cbv -[rfc1321.F rfc1321.G rfc1321.H rfc1321.I] in rfc1321.ops in
  change rfc1321.ops with o.
  unfold MD5Transform_steps. do 16 transform_group. reflexivity.
Qed.

Lemma MD5Transform_rfc st X : MD5Transform st X = rfc1321.transform st X.
Proof. unfold MD5Transform, rfc1321.transform. by rewrite transform_steps_rfc. Qed.

Global Opaque MD5Transform rfc1321.transform.

(** ** Chunks *)

Import rfc1321 (chunks).

Lemma chunks_add n k st : forall l,
  chunks (n + k) st l = chunks k (chunks n st l) (drop (64 * n) l).
Proof.
  revert st. induction n as [|n IH]; intros st l; [done|].
  replace (64 * S n)%nat with (64 + 64 * n)%nat by lia.
  rewrite <- drop_drop. apply IH.
Qed.

Lemma chunks_app n st l l' : (64 * n <= length l)%nat ->
  chunks n st (l ++ l') = chunks n st l.
Proof.
  revert st l. induction n as [|n IH]; intros st l Hl; [done|]. cbn [chunks].
  rewrite take_app_le, drop_app_le by lia. apply IH. rewrite length_drop. lia.
Qed.

(** The abstract effect of hashing more data: whole chunks are compressed into
    the state, the remainder is kept. *)
Definition absorb (s : md5_state * list Z) (d : list Z) : md5_state * list Z :=
  let all := s.2 ++ d in
  let n := (length all / 64)%nat in
  (chunks n s.1 all, drop (64 * n) all).

Lemma absorb_app s d1 d2 : absorb (absorb s d1) d2 = absorb s (d1 ++ d2).
Proof.
  destruct s as [st part]. unfold absorb; cbn [fst snd].
  set (l1 := part ++ d1). set (n1 := (length l1 / 64)%nat).
  assert (64 * n1 <= length l1)%nat by (apply Nat.Div0.mul_div_le).
  rewrite (app_assoc part), <- drop_app_le by done. fold l1.
  assert (length (l1 ++ d2) / 64 = n1 + length (drop (64 * n1) (l1 ++ d2)) / 64)%nat as ->.
  { rewrite length_drop, <- Nat.div_add_l by lia. f_equal. rewrite length_app. lia. }
  rewrite chunks_add, (chunks_app n1 st l1) by done.
  rewrite drop_drop, Nat.mul_add_distr_l. done.
Qed.

Lemma splice_full in_ data : length in_ = length data -> splice in_ 0 data = data.
Proof. intros H. unfold splice. simpl. rewrite <- H, drop_all, app_nil_r. done. Qed.

Lemma length_splice in_ off data : (off + length data <= length in_)%nat ->
  length (splice in_ off data) = length in_.
Proof. intros. unfold splice. rewrite !length_app, length_take, length_drop. lia. Qed.

Lemma take_splice in_ off data : (off <= length in_)%nat ->
  take (off + length data) (splice in_ off data) = take off in_ ++ data.
Proof.
  intros. unfold splice. rewrite app_assoc. apply take_app_length'.
  rewrite length_app, length_take. lia.
Qed.

(** The loop of [MD5Update] compresses all whole chunks; the length of the
    data is enough fuel. *)
Lemma update_chunks_spec fuel : forall st in_ data,
  (length data / 64 <= fuel)%nat -> length in_ = 64%nat ->
  exists in', length in' = 64%nat /\
    MD5Update_chunks fuel st in_ data =
    (chunks (length data / 64) st data, in', drop (64 * (length data / 64)) data).
Proof.
  induction fuel as [|fuel IH]; intros st in_ data Hf Hin; cbn [MD5Update_chunks].
  - exists in_. replace (length data / 64)%nat with 0%nat by lia. done.
  - destruct (Nat.leb_spec 64 (length data)) as [Hle|Hlt].
    + rewrite splice_full by (rewrite length_take; lia).
      assert (length data / 64 = S (length (drop 64 data) / 64))%nat as Hd.
      { rewrite length_drop. replace (length data) with (64 * 1 + (length data - 64))%nat at 1 by lia.
        rewrite Nat.add_comm, Nat.mul_comm, Nat.div_add by lia. lia. }
      destruct (IH (MD5Transform st (le_words (take 64 data))) (take 64 data)
        (drop 64 data)) as (in' & Hl & ->); [lia|rewrite length_take; lia|].
      exists in'. split; [done|]. rewrite Hd. cbn [chunks].
      rewrite MD5Transform_rfc, drop_drop. repeat f_equal. lia.
    + exists in_. rewrite Nat.div_small by done. done.
Qed.

(** ** The context represents the data hashed so far *)

Record md5_rep (ctx : MD5Context) (s : md5_state * list Z) (n : Z) : Prop := {
  rep_nonneg : 0 <= n;
  rep_buf : md5_buf ctx = s.1;
  rep_in : length (md5_in ctx) = 64%nat;
  rep_part : take (length s.2) (md5_in ctx) = s.2;
  rep_len : zlen s.2 = n mod 64;
  rep_bits0 : md5_bits0 ctx = u32 (8 * n);
  rep_bits1 : md5_bits1 ctx = u32 (8 * n / 2 ^ 32)
}.

Lemma bits0_offset n : Z.land (Z.shiftr (u32 (8 * n)) 3) 63 = n mod 64.
Proof. rewrite land_3f, Z.shiftr_div_pow2 by lia. unfold wrap. zdiv_lia. Qed.

(** The 64-bit bit count, kept in two 32-bit halves with an explicit carry. *)
Lemma bits_update n len : 0 <= n -> 0 <= len < 2 ^ 32 ->
  let bits0 := u32 (u32 (8 * n) + u32 (Z.shiftl len 3)) in
  let bits1 := if bits0 <? u32 (8 * n) then u32 (u32 (8 * n / 2 ^ 32) + 1)
               else u32 (8 * n / 2 ^ 32) in
  bits0 = u32 (8 * (n + len)) /\
  u32 (bits1 + Z.shiftr len 29) = u32 (8 * (n + len) / 2 ^ 32).
Proof.
  intros Hn Hlen. cbv zeta.
  rewrite Z.shiftl_mul_pow2, Z.shiftr_div_pow2 by lia. unfold wrap.
  split; [zdiv_lia|].
  destruct (Z.ltb_spec (((8 * n) mod 2 ^ 32 + (len * 2 ^ 3) mod 2 ^ 32) mod 2 ^ 32)
    ((8 * n) mod 2 ^ 32)); zdiv_lia.
Qed.

Lemma absorb_length s d : zlen (absorb s d).2 = (zlen s.2 + zlen d) mod 64.
Proof.
  unfold absorb, zlen. cbn [fst snd]. rewrite length_drop, length_app.
  rewrite <- Nat2Z.inj_add. change 64 with (Z.of_nat 64). rewrite <- Nat2Z.inj_mod.
  pose proof (Nat.div_mod_eq (length s.2 + length d) 64). lia.
Qed.

Lemma absorb_short s d : (length s.2 + length d < 64)%nat -> absorb s d = (s.1, s.2 ++ d).
Proof.
  intros H. unfold absorb. rewrite Nat.div_small by (rewrite length_app; lia). done.
Qed.

Lemma absorb_block s d : (length s.2 + length d = 64)%nat ->
  absorb s d = (MD5Transform s.1 (le_words (s.2 ++ d)), []).
Proof.
  intros H. unfold absorb. rewrite length_app, H. change (64 / 64)%nat with 1%nat.
  cbn [chunks]. rewrite MD5Transform_rfc, drop_ge, take_ge by (rewrite length_app; lia).
  done.
Qed.

(** The last part of [MD5Update], once [in_] holds no pending bytes. *)
Lemma update_finish st in_ d : length in_ = 64%nat ->
  exists in', MD5Update_chunks (length d) st in_ d =
      ((absorb (st, []) d).1, in', (absorb (st, []) d).2) /\ length in' = 64%nat.
Proof.
  intros Hin. destruct (update_chunks_spec (length d) st in_ d) as (in' & Hl & ->).
  - apply Nat.Div0.div_le_upper_bound. lia.
  - done.
  - exists in'. done.
Qed.

Lemma splice_block in_ part d : length in_ = 64%nat -> take (length part) in_ = part ->
  (length part + length d = 64)%nat -> splice in_ (length part) d = part ++ d.
Proof.
  intros Hin Hp Hl. unfold splice. rewrite Hp, Hl, drop_ge, app_nil_r by lia. done.
Qed.

Lemma MD5Update_rep ctx s n d : md5_rep ctx s n -> zlen d < 2 ^ 32 ->
  md5_rep (MD5Update ctx d) (absorb s d) (n + zlen d).
Proof.
  intros [Hn Hbuf Hin Hpart Hlen Hb0 Hb1] Hd. pose proof (zlen_nonneg d) as Hd0.
  destruct (bits_update n (zlen d)) as [E0 E1]; [done..|]. cbv zeta in E0, E1.
  unfold MD5Update. rewrite (wrap_small 32 (zlen d)) by lia.
  rewrite take_ge by (unfold zlen; lia).
  rewrite Hb0, Hb1, bits0_offset, <- Hlen, Hbuf, E1, E0.
  replace (Z.to_nat (zlen s.2)) with (length s.2) by (unfold zlen; lia). clear E0 E1.
  assert (length s.2 < 64)%nat by (unfold zlen in Hlen; zdiv_lia).
  assert (Hrl : zlen (absorb s d).2 = (n + zlen d) mod 64).
  { by rewrite absorb_length, Hlen, Zplus_mod_idemp_l. }
  assert (Hfin : forall st in_ d', length in_ = 64%nat ->
    absorb s d = absorb (st, []) d' ->
    md5_rep (let '(buf, in_, data) := MD5Update_chunks (length d') st in_ d' in
      {| md5_buf := buf; md5_bits0 := u32 (8 * (n + zlen d));
         md5_bits1 := u32 (8 * (n + zlen d) / 2 ^ 32); md5_in := splice in_ 0 data |})
      (absorb s d) (n + zlen d)).
  { intros st in_ d' Hi Heq. rewrite Heq in *. destruct (update_finish st in_ d' Hi) as (in' & -> & Hl').
    pose proof (absorb_length (st, []) d') as Ha.
    assert (length (absorb (st, []) d').2 < 64)%nat by (unfold zlen in Ha; zdiv_lia).
    split; cbn [md5_buf md5_in md5_bits0 md5_bits1]; try done; try lia.
    - rewrite length_splice; lia.
    - apply (take_splice in' 0). lia. }
  destruct (Nat.eqb_spec (length s.2) 0) as [Hz|Hnz].
  - apply Hfin; [done|]. destruct s as [st [|]]; done.
  - destruct (Nat.ltb_spec (length d) (64 - length s.2)).
    + rewrite absorb_short in * by lia. split; cbn [md5_buf md5_in md5_bits0 md5_bits1 fst snd]; try done; try lia.
      * rewrite length_splice; lia.
      * rewrite length_app, take_splice, Hpart by lia. done.
    + rewrite splice_block by (rewrite ?length_take; lia || done). apply Hfin.
      * rewrite length_app, length_take. lia.
      * rewrite <- (take_drop (64 - length s.2) d) at 1.
        rewrite <- absorb_app, (absorb_block s (take _ d)) by (rewrite length_take; lia). done.
Qed.

(** ** Finishing *)

Lemma splice_at k pre post data : k = length pre ->
  splice (pre ++ post) k data = pre ++ data ++ drop (length data) post.
Proof.
  intros ->. unfold splice.
  by rewrite take_app_length, <- drop_drop, drop_app_length.
Qed.

(** Overwriting at the end of what has been written so far. *)
Lemma splice_next k pre data post : k = length pre ->
  splice (pre ++ post) k data = (pre ++ data) ++ drop (length data) post.
Proof. intros. rewrite splice_at by done. by rewrite app_assoc. Qed.

Definition bit_count (n : Z) : list Z :=
  put_le32 (u32 (8 * n)) ++ put_le32 (u32 (8 * n / 2 ^ 32)).

Lemma padding_eq n : rfc1321.padding n =
  [0x80] ++ replicate (Z.to_nat ((55 - n) mod 64)) 0 ++ bit_count n.
Proof.
  unfold rfc1321.padding, bit_count. rewrite Z.shiftr_div_pow2 by lia.
  rewrite (Z.mul_comm n 8). done.
Qed.

(** The last block of [MD5Final]: [pre] has been written up to the counter. *)
Lemma final_block pre post n : length pre = 56%nat -> length post = 8%nat ->
  splice (splice (pre ++ post) 56 (put_le32 (u32 (8 * n)))) 60
    (put_le32 (u32 (8 * n / 2 ^ 32))) = pre ++ bit_count n.
Proof.
  intros H1 H2. rewrite splice_next by done.
  rewrite splice_next by (rewrite length_app, H1; done).
  rewrite drop_ge by (rewrite !length_drop, H2; done).
  rewrite app_nil_r, <- app_assoc. done.
Qed.

Lemma MD5Final_rep ctx s n : md5_rep ctx s n ->
  MD5Final ctx = rfc1321.output (absorb s (rfc1321.padding n)).1.
Proof.
  intros [Hn Hbuf Hin Hpart Hlen Hb0 Hb1].
  unfold MD5Final. rewrite Hb0, Hb1, bits0_offset, <- Hlen, Hbuf, padding_eq.
  replace (Z.to_nat (zlen s.2)) with (length s.2) by (unfold zlen; lia).
  assert (length s.2 < 64)%nat by (unfold zlen in Hlen; zdiv_lia).
  rewrite <- (take_drop (length s.2) (md5_in ctx)), Hpart.
  remember (drop (length s.2) (md5_in ctx)) as junk eqn:Hj.
  assert (length junk = 64 - length s.2)%nat as Hjl by (subst; rewrite length_drop; lia).
  clear Hj Hb0 Hb1 Hbuf Hpart Hin ctx. rewrite splice_next by done.
  replace ((55 - n) mod 64) with ((55 - zlen s.2) mod 64) by (rewrite Hlen; zdiv_lia).
  unfold zlen.
  destruct (Nat.ltb_spec (64 - 1 - length s.2) 8).
  - replace (Z.to_nat ((55 - Z.of_nat (length s.2)) mod 64))
      with ((64 - 1 - length s.2) + 56)%nat by zdiv_lia.
    rewrite replicate_add, splice_next by (rewrite length_app; simpl; lia).
    rewrite drop_ge, app_nil_r by (rewrite length_drop, length_replicate; simpl; lia).
    set (c := (64 - 1 - length s.2)%nat).
    replace ([128] ++ (replicate c 0 ++ replicate 56 0) ++ bit_count n)
      with (([128] ++ replicate c 0) ++ (replicate 56 0 ++ bit_count n))
      by (by rewrite <- !app_assoc).
    rewrite <- absorb_app, (absorb_block s), <- (app_assoc s.2) by
      (rewrite length_app, length_replicate; unfold c; simpl; lia).
    remember (s.2 ++ [128] ++ replicate c 0) as blk eqn:Eb.
    assert (length blk = 64)%nat as Hbl by
      (subst; rewrite !length_app, length_replicate; unfold c; simpl; lia).
    rewrite (splice_at 0 [] blk) by done. rewrite app_nil_l.
    rewrite final_block by (rewrite ?length_drop, length_replicate; lia).
    rewrite absorb_block by done. reflexivity.
  - replace (Z.to_nat ((55 - Z.of_nat (length s.2)) mod 64))
      with (64 - 1 - length s.2 - 8)%nat by zdiv_lia.
    rewrite splice_next by (rewrite length_app; simpl; lia).
    rewrite final_block by
      (rewrite ?length_drop, ?length_app, !length_replicate; simpl; lia).
    rewrite absorb_block by (rewrite !length_app, length_replicate; simpl; lia).
    rewrite <- !app_assoc. reflexivity.
Qed.

Lemma fold_update_rep elems : forall ctx s n,
  md5_rep ctx s n -> Forall (fun d => zlen d < 2 ^ 32) elems ->
  md5_rep (fold_left MD5Update elems ctx) (absorb s (concat elems)) (n + zlen (concat elems)).
Proof.
  induction elems as [|d elems IH]; intros ctx s n Hrep Hall.
  - simpl. rewrite Z.add_0_r. destruct Hrep. rewrite absorb_short; [|].
    + rewrite app_nil_r. destruct s. by split.
    + unfold zlen in *. simpl. zdiv_lia.
  - apply List.Forall_cons_iff in Hall as [Hd Hall]. cbn [fold_left concat].
    rewrite <- absorb_app, zlen_app, Z.add_assoc. apply IH; [|done].
    by apply MD5Update_rep.
Qed.

Lemma md5_vector_from_spec ctx elems :
  length (md5_in ctx) = 64%nat -> Forall (fun d => zlen d < 2 ^ 32) elems ->
  md5_vector_from ctx elems = rfc1321.md5 (concat elems).
Proof.
  intros Hin Hall. unfold md5_vector_from.
  erewrite MD5Final_rep.
  2:{ apply (fold_update_rep elems _ (rfc1321.init, []) 0); [|done]. by split. }
  rewrite absorb_app, Z.add_0_l. unfold rfc1321.md5, absorb. done.
Qed.

Lemma MD5Final_length ctx : length (MD5Final ctx) = 16%nat.
Proof.
  unfold MD5Final. case_match. by destruct (MD5Transform m _) as [[[? ?] ?] ?].
Qed.

Lemma edge_md5_vector_length elems : length (edge_md5_vector elems) = 16%nat.
Proof. apply MD5Final_length. Qed.

Lemma put_le32_bytes w : bytes (put_le32 w).
Proof. unfold put_le32. repeat constructor; apply u8_byte. Qed.

Lemma edge_md5_vector_bytes elems : bytes (edge_md5_vector elems).
Proof.
  unfold edge_md5_vector, md5_vector_from, MD5Final. case_match.
  destruct (MD5Transform m _) as [[[? ?] ?] ?].
  rewrite !Forall_app. repeat split; apply put_le32_bytes.
Qed.
#[export] Hint Resolve edge_md5_vector_length edge_md5_vector_bytes : edge.

Lemma edge_md5_vector_spec elems : Forall (fun d => zlen d < 2 ^ 32) elems ->
  edge_md5_vector elems = rfc1321.md5 (concat elems).
Proof. intros H. by apply md5_vector_from_spec. Qed.

(** Hashing a vector of fragments is the MD5 digest of RFC 1321 of their
    concatenation, whatever the fragments' boundaries are relative to the
    64-byte blocks and whatever the uninitialised context on the stack holds;
    fragments are shorter than 2^32 bytes, the range of the [unsigned] length
    of [MD5Update]. *)
Theorem edge_md5_vector_rfc1321 ctx elems :
  length (md5_in ctx) = 64%nat -> Forall (fun d => zlen d < 2 ^ 32) elems ->
  md5_vector_from ctx elems = rfc1321.md5 (concat elems) /\
  edge_md5_vector elems = rfc1321.md5 (concat elems).
Proof.
  intros Hin Hall. split; [by apply md5_vector_from_spec|by apply edge_md5_vector_spec].
Qed.

Lemma edge_md5_vector_rfc1321_witness :
  edge_md5_vector [cstr "mess"; cstr "age digest"] = rfc1321.md5 (cstr "message digest").
Proof.
  apply (edge_md5_vector_rfc1321
    {| md5_buf := (1, 2, 3, 4); md5_bits0 := 7; md5_bits1 := 9; md5_in := replicate 64 255 |}
    [cstr "mess"; cstr "age digest"]); [reflexivity|].
  repeat constructor.
Defined.

(** ** HMAC is the one of RFC 2104 *)

Module rfc2104.
Definition H (l : list Z) : list Z := rfc1321.md5 l.
Definition B : nat := 64.
(** The key, hashed if it is longer than a block, padded with zeros. *)
Definition block_key (key : list Z) : list Z :=
  let k := if (B <? length key)%nat then H key else key in
  k ++ replicate (B - length k) 0.
Definition hmac (key text : list Z) : list Z :=
  H (xor_pad 0x5c (block_key key) ++ H (xor_pad 0x36 (block_key key) ++ text)).
End rfc2104.

Lemma splice_key k : (length k <= 64)%nat ->
  splice (replicate 64 0) 0 k = k ++ replicate (64 - length k) 0.
Proof.
  intros H. unfold splice. rewrite drop_replicate. done.
Qed.

Lemma edge_hmac_md5_spec key data :
  zlen key < 2 ^ 32 -> zlen data < 2 ^ 32 ->
  edge_hmac_md5 key data = Some (rfc2104.hmac key data).
Proof.
  intros Hk Hd. unfold edge_hmac_md5, hmac_md5_vector, rfc2104.hmac.
  assert (Hkey : splice (replicate 64 0) 0
      (if 64 <? zlen key then edge_md5_vector [key] else key) = rfc2104.block_key key).
  { unfold rfc2104.block_key, rfc2104.B. unfold zlen.
    destruct (Z.ltb_spec 64 (Z.of_nat (length key))), (Nat.ltb_spec 64 (length key));
      try lia; [|by rewrite splice_key by lia].
    rewrite splice_key by (rewrite edge_md5_vector_length; lia).
    rewrite edge_md5_vector_spec by auto. simpl concat. by rewrite app_nil_r. }
  assert (Hl : forall p, zlen (xor_pad p (rfc2104.block_key key)) < 2 ^ 32).
  { intros p. unfold zlen, xor_pad. rewrite length_fmap, <- Hkey, length_splice.
    - done.
    - rewrite length_replicate. unfold zlen.
      destruct (Z.ltb_spec 64 (Z.of_nat (length key))); [|lia].
      rewrite edge_md5_vector_length. lia. }
  cbv zeta. cbn [length Nat.ltb Nat.leb]. rewrite Hkey. f_equal.
  rewrite edge_md5_vector_spec.
  2:{ repeat constructor; [apply Hl|]. unfold zlen. by rewrite edge_md5_vector_length. }
  rewrite edge_md5_vector_spec by (repeat constructor; [apply Hl|done]).
  cbn [concat]. by rewrite !app_nil_r.
Qed.

(** [edge_hmac_md5] computes HMAC-MD5 as RFC 2104 defines it, for every
    key (longer ones are hashed first) and text shorter than 2^32 bytes. *)
Theorem edge_hmac_md5_rfc2104 key data :
  zlen key < 2 ^ 32 -> zlen data < 2 ^ 32 ->
  edge_hmac_md5 key data = Some (rfc2104.hmac key data).
Proof. apply edge_hmac_md5_spec. Qed.

Lemma edge_hmac_md5_rfc2104_witness :
  edge_hmac_md5 (cstr "secret") (cstr "data") =
    Some (rfc2104.hmac (cstr "secret") (cstr "data")).
Proof. apply edge_hmac_md5_rfc2104; reflexivity. Defined.

Lemma edge_hmac_md5_some key data : exists mac,
  edge_hmac_md5 key data = Some mac /\ length mac = 16%nat /\ bytes mac.
Proof. eexists. repeat split; [apply edge_md5_vector_length|apply edge_md5_vector_bytes]. Qed.

(** Clients reason about the digests through the lemmas above. *)
Global Opaque edge_md5_vector hmac_md5_vector edge_hmac_md5 rfc1321.md5 rfc2104.hmac.
