(* ===== verification/Os.v ===== *)
(** The portable helpers of [src/utils/os.c] and [src/utils/os.h]: number and
    hexadecimal parsing, bounded copies, constant-time comparison, string
    splitting and joining, [argv] copies, random digits and time arithmetic.

    A C string is the list of its bytes before the terminating NUL; a pointer
    that may be null is an [option].  Functions that allocate are programs over
    [env], and a null result is [None]. *)
From stdpp Require Import base list strings numbers sets.
From Stdlib Require Import ZArith Lia.
From S2P Require Import Prelude.

(** ** Characters *)

Definition isdigit (c : Z) : bool := (48 <=? c) && (c <=? 57).

Definition MAX_64BIT_DIGITS : Z := 19.

(** [is_number]: the loop reads at most [MAX_64BIT_DIGITS] characters, counted
    from the start of the string, the sign included. *)
Definition is_number (ptr : option (list Z)) : bool :=
  match ptr with
  | None => false
  | Some s =>
      let offset := match s with
                    | c :: _ => if (c =? 45) || (c =? 43) then 1%nat else 0%nat
                    | [] => 0%nat
                    end in
      if (0 <? zlen s) && negb (offset =? 0)%nat && (zlen s =? 1) then false
      else if forallb isdigit (take (Z.to_nat MAX_64BIT_DIGITS - offset) (drop offset s))
      then negb (zlen s =? 0)
      else false
  end.

Definition hex2num (c : Z) : Z :=
  if (48 <=? c) && (c <=? 57) then c - 48
  else if (97 <=? c) && (c <=? 102) then c - 97 + 10
  else if (65 <=? c) && (c <=? 70) then c - 65 + 10
  else -1.

(** The two characters at the head of a string; past its end the NUL. *)
Definition hex2byte (hex : list Z) : Z :=
  let a := hex2num (hd 0 hex) in
  if a <? 0 then -1
  else
    let b := hex2num (hd 0 (tl hex)) in
    if b <? 0 then -1 else Z.lor (Z.shiftl a 4) b.

(** The bytes written before the loop ends or fails, with the return value. *)
Fixpoint hexstr2bin_loop (hex : list Z) (len : nat) : Z * list Z :=
  match len with
  | O => (0, [])
  | S len' =>
      let a := hex2byte hex in
      if a <? 0 then (-1, [])
      else let (r, out) := hexstr2bin_loop (drop 2 hex) len' in (r, u8 a :: out)
  end.

(** [buf] is the destination object; its first bytes are overwritten. *)
Definition edge_hexstr2bin (hex : list Z) (buf : list Z) (len : Z) : outcome (Z * list Z) :=
  let (r, out) := hexstr2bin_loop hex (Z.to_nat len) in
  match wr buf 0 out with
  | Done buf' => Done (r, buf')
  | Fault f => Fault f
  end.

(** ** Bounded copies and comparisons *)

(** [memccpy] copies up to and including the NUL or [siz] bytes; [dest] is the
    destination object. *)
Definition edge_os_strlcpy (dest src : list Z) (siz : Z) : outcome (Z * list Z) :=
  if zlen src + 1 <=? siz then
    match wr dest 0 (src ++ [0]) with
    | Done d => Done (zlen src, d)
    | Fault f => Fault f
    end
  else
    match wr dest 0 (take (Z.to_nat siz) src) with
    | Done d =>
        match wr d (siz - 1) [0] with
        | Done d' => Done (zlen src, d')
        | Fault f => Fault f
        end
    | Fault f => Fault f
    end.

(** [str] is the memory from the pointer on; the NUL is looked for in its
    first [max_len] bytes. *)
Fixpoint find_nul (str : list Z) (max_len : nat) : outcome (option nat) :=
  match max_len with
  | O => Done None
  | S n =>
      match str with
      | [] => Fault OutOfBounds
      | c :: rest =>
          if c =? 0 then Done (Some 0%nat)
          else match find_nul rest n with
               | Done r => Done (S <$> r)
               | Fault f => Fault f
               end
      end
  end.

Definition os_strnlen_s (str : list Z) (max_len : Z) : outcome Z :=
  match find_nul str (Z.to_nat max_len) with
  | Done None => Done max_len
  | Done (Some n) => Done (Z.of_nat n)
  | Fault f => Fault f
  end.

(** The loop of [edge_os_memcmp_const] over two readings of [len] bytes. *)
Definition memcmp_const_loop (aa bb : list Z) : Z :=
  foldl (fun res p => u8 (Z.lor res (Z.lxor p.1 p.2))) 0 (zip aa bb).

Definition edge_os_memcmp_const (a b : list Z) (len : Z) : outcome Z :=
  match rd a 0 len, rd b 0 len with
  | Done aa, Done bb => Done (memcmp_const_loop aa bb)
  | Fault f, _ => Fault f
  | _, Fault f => Fault f
  end.

(** ** Randomness *)

(** [fread] from [/dev/urandom]: the oracle answers the bytes that could be
    read.  The result is the return value and the bytes stored in the buffer;
    an answer shorter than [len], or no answer, is a failure. *)
Definition edge_os_get_random (len : Z) : prog env (Z * list Z) := fun e =>
  match randoms e with
  | [] => Done ((-1, []), e)
  | l :: rs =>
      Done ((if zlen l <? len then -1 else 0, u8 <$> take (Z.to_nat len) l),
            Env (mallocs e) rs)
  end.

(** [rand() % (up - low + 1) + low] for the value [r] that [rand] returns. *)
Definition os_get_random_int_range (low up r : Z) : Z :=
  Z.rem r (up - low + 1) + low.

Definition os_get_random_number_s (len : Z) : prog env (option (list Z)) :=
  r ← edge_os_get_random len;
  if r.1 <? 0 then mret None
  else mret (Some ((fun b => b mod 10 + 48) <$> r.2)).

(** ** Strings *)

(** Appending to the string in an object of [cap] bytes. *)
Definition strcat (cap : Z) (dst src : list Z) : outcome (list Z) :=
  if zlen dst + zlen src + 1 <=? cap then Done (dst ++ src) else Fault OutOfBounds.

Definition fn_split_string_array (str : list Z) (arr : list (list Z)) :
    prog env (Z * list (list Z)) :=
  ok ← malloc;
  if negb ok then mret (-1, arr) else mret (0, arr ++ [str]).

(** The scan of [split_string]: [cur] is the text from [start] to [stop].  The
    value returned by the callback is ignored for all pieces but the last. *)
Fixpoint split_string_loop {D} (fn : list Z -> D -> prog env (Z * D)) (sep : Z)
    (str cur : list Z) (count : Z) (data : D) : prog env (Z * D) :=
  match str with
  | c :: rest =>
      if c =? sep then
        r ← fn cur data;
        split_string_loop fn sep rest [] (count + 1) r.2
      else split_string_loop fn sep rest (cur ++ [c]) count data
  | [] =>
      r ← fn cur data;
      if r.1 <? 0 then mret (-1, r.2) else mret (count + 1, r.2)
  end.

Definition split_string {D} (str : option (list Z)) (sep : Z)
    (fn : option (list Z -> D -> prog env (Z * D))) (data : D) : prog env (Z * D) :=
  match fn, str with
  | None, _ => mret (-1, data)
  | _, None => mret (-1, data)
  | Some fn, Some str => split_string_loop fn sep str [] 0 data
  end.

Definition split_string_array (str : option (list Z)) (sep : Z)
    (arr : option (list (list Z))) : prog env (Z * option (list (list Z))) :=
  match arr with
  | None => mret (-1, None)
  | Some arr =>
      r ← split_string str sep (Some fn_split_string_array) arr;
      mret (r.1, Some r.2)
  end.

Definition MAX_OS_PATH_LEN : Z := 4096.

Definition opt_str (s : option (list Z)) : list Z := default [] s.

Definition concat_paths (path_left path_right : option (list Z)) :
    prog env (option (list Z)) :=
  let add_separator :=
    match path_left, path_right with
    | Some l, Some _ => negb (bool_decide (l = cstr "/"))
    | _, _ => false
    end in
  let concat_len := 1 + zlen (opt_str path_left) + zlen (opt_str path_right) +
                    (if add_separator then 1 else 0) in
  ok ← malloc;
  if negb ok then mret None
  else
    s1 ← lift_outcome (match path_left with
                       | Some l => strcat concat_len [] l | None => Done [] end);
    s2 ← lift_outcome (if add_separator then strcat concat_len s1 (cstr "/") else Done s1);
    s3 ← lift_outcome (match path_right with
                       | Some r => strcat concat_len s2 r | None => Done s2 end);
    mret (Some s3).

(** [strings] up to its null terminator. *)
Fixpoint append_strings (cap : Z) (buf : list Z) (strings : list (list Z)) :
    outcome (list Z) :=
  match strings with
  | [] => Done buf
  | s :: rest =>
      match strcat cap buf s with
      | Done b1 =>
          match strcat cap b1 (cstr " ") with
          | Done b2 => append_strings cap b2 rest
          | Fault f => Fault f
          end
      | Fault f => Fault f
      end
  end.

Definition string_array2string (strings : option (list (list Z))) :
    prog env (option (list Z)) :=
  match strings with
  | None => mret None
  | Some strings =>
      let total_chars := foldl (fun n s => n + zlen s + 1) 1 strings in
      ok ← malloc;
      if negb ok then mret None
      else b ← lift_outcome (append_strings total_chars [] strings); mret (Some b)
  end.

(** The text [log_run_command] builds in its 255-byte buffer. *)
Definition log_run_command (argv : list (list Z)) : outcome (list Z) :=
  append_strings 255 [] argv.

(** Trailing characters of [seps] are cut; the scan runs backwards. *)
Fixpoint rtrim_loop (rev_str seps : list Z) : list Z :=
  match rev_str with
  | c :: rest => if bool_decide (c ∈ seps) then rtrim_loop rest seps else rev_str
  | [] => []
  end.

Definition rtrim (str seps : option (list Z)) : option (list Z) :=
  let seps := match seps with Some s => s | None => [9; 10; 11; 12; 13; 32] end in
  match str with
  | None => None
  | Some s => Some (reverse (rtrim_loop (reverse s) seps))
  end.

Definition replace_string_char (s : option (list Z)) (in_ out : Z) : option (list Z) :=
  option_map (List.map (fun c => if c =? in_ then out else c)) s.

(** The bytes of the new object, NUL included. *)
Definition string_append_char (str : option (list Z)) (character : Z) :
    prog env (option (list Z)) :=
  match str with
  | None => mret None
  | Some s =>
      ok ← malloc;
      if negb ok then mret None
      else
        b1 ← lift_outcome (wr (replicate (length s + 2) 0) 0 s);
        b2 ← lift_outcome (wr b1 (zlen s) [character]);
        b3 ← lift_outcome (wr b2 (zlen s + 1) [0]);
        mret (Some b3)
  end.

(** [copy_argv]: one object holds the pointer array and the strings.  The
    copy is the list of pointers, as offsets into the string area, and the
    bytes of that area. *)
Fixpoint copy_argv_loop (buf : list Z) (string_bytes : Z) (argv : list (list Z)) :
    outcome (list Z * list Z) :=
  match argv with
  | [] => Done ([], buf)
  | s :: rest =>
      match wr buf string_bytes (s ++ [0]) with
      | Done buf' =>
          match copy_argv_loop buf' (string_bytes + (zlen s + 1)) rest with
          | Done (ptrs, b) => Done (string_bytes :: ptrs, b)
          | Fault f => Fault f
          end
      | Fault f => Fault f
      end
  end.

Definition copy_argv (argv : option (list (list Z))) :
    prog env (option (list Z * list Z)) :=
  match argv with
  | None => mret None
  | Some argv =>
      let strings_length := foldl (fun n s => n + (zlen s + 1)) 0 argv in
      ok ← malloc;
      if negb ok then mret None
      else r ← lift_outcome (copy_argv_loop (replicate (Z.to_nat strings_length) 0) 0 argv);
           mret (Some r)
  end.

(** ** Time *)

Record os_reltime := { sec : Z; usec : Z }.

Definition os_reltime_before (a b : os_reltime) : bool :=
  (sec a <? sec b) || ((sec a =? sec b) && (usec a <? usec b)).

Definition os_reltime_sub (a b : os_reltime) : os_reltime :=
  let s := sec a - sec b in
  let u := usec a - usec b in
  if u <? 0 then {| sec := s - 1; usec := u + 1000000 |} else {| sec := s; usec := u |}.

Definition os_to_timestamp (tv_sec tv_usec : Z) : Z :=
  u64 (u64 (1000000 * tv_sec) + u64 tv_usec).

(** ** Number and hexadecimal parsing *)

(** An optional sign followed by at least one digit, and only digits. *)
Definition is_decimal (s : list Z) : Prop :=
  exists sign ds, s = sign ++ ds /\ (sign = [] \/ sign = [45] \/ sign = [43]) /\
    ds <> [] /\ forallb isdigit ds = true.

Lemma is_number_short s : zlen s <= MAX_64BIT_DIGITS ->
  is_number (Some s) = true <-> is_decimal s.
Proof.
  unfold MAX_64BIT_DIGITS. intros Hl. destruct s as [|c s].
  { split; [done|]. intros (sg & ds & H & [-> | [-> | ->]] & Hd & _); by destruct ds. }
  unfold is_number. change (Z.to_nat MAX_64BIT_DIGITS) with 19%nat.
  rewrite zlen_cons in *. pose proof (zlen_nonneg s).
  rewrite (proj2 (Z.ltb_lt 0 _)), (proj2 (Z.eqb_neq _ 0)) by lia. simpl andb.
  destruct ((c =? 45) || (c =? 43)) eqn:Hc; simpl andb.
  - destruct (Z.eqb_spec (1 + zlen s) 1).
    + split; [done|]. destruct s; [|zlen_lia].
      intros (sg & ds & Heq & Hs & Hd & Hf).
      destruct Hs as [-> | [-> | ->]]; destruct ds; simplify_eq/=.
      unfold isdigit in Hf. lia.
    + rewrite skipn_cons, drop_0, take_ge by zlen_lia.
      split.
      * intros H1. exists [c], s. destruct (forallb isdigit s) eqn:Hf; [|done].
        split; [done|]. split; [|split; [by intros ->|done]].
        apply orb_true_iff in Hc as [Hc|Hc]; apply Z.eqb_eq in Hc as ->; auto.
      * intros (sg & ds & Heq & Hs & Hd & Hf).
        destruct Hs as [-> | [-> | ->]]; simplify_eq/=; rewrite ?Hf; try done.
        unfold isdigit in Hf. lia.
  - rewrite drop_0, take_ge by zlen_lia. split.
    + intros H1. exists [], (c :: s). destruct (forallb isdigit (c :: s)) eqn:Hf; auto.
    + intros (sg & ds & Heq & Hs & Hd & Hf).
      destruct Hs as [-> | [-> | ->]]; simplify_eq/=. by rewrite Hf.
Qed.

(** Lower-case hexadecimal text of a byte string. *)
Definition hex_digit (n : Z) : Z := if n <? 10 then 48 + n else 87 + n.
Definition hexify (l : list Z) : list Z :=
  flat_map (fun b => [hex_digit (b / 16); hex_digit (b mod 16)]) l.

Lemma hex2num_digit n : 0 <= n < 16 -> hex2num (hex_digit n) = n.
Proof.
  intros. unfold hex2num, hex_digit. destruct (Z.ltb_spec n 10).
  - rewrite (proj2 (Z.leb_le _ _)), (proj2 (Z.leb_le (48 + n) _)) by lia. simpl. lia.
  - rewrite (proj2 (Z.leb_gt (87 + n) 57)), andb_false_r by lia.
    rewrite (proj2 (Z.leb_le _ _)), (proj2 (Z.leb_le (87 + n) _)) by lia. simpl. lia.
Qed.

Lemma hex2num_range c : -1 <= hex2num c < 16.
Proof. unfold hex2num. repeat case_match; lia. Qed.

Lemma hex2byte_hexify b rest : is_byte b ->
  hex2byte (hex_digit (b / 16) :: hex_digit (b mod 16) :: rest) = b.
Proof.
  intros Hb. unfold hex2byte. simpl. unfold is_byte in Hb.
  rewrite !hex2num_digit by zdiv_lia.
  rewrite !(proj2 (Z.ltb_ge _ _)) by zdiv_lia.
  rewrite (lor_shiftl_add _ _ 4) by zdiv_lia. zdiv_lia.
Qed.

Lemma hexstr2bin_loop_hexify l rest : bytes l ->
  hexstr2bin_loop (hexify l ++ rest) (length l) = (0, l).
Proof.
  induction 1 as [|b l Hb Hl IH]; [done|].
  change (hexify (b :: l) ++ rest) with
    (hex_digit (b / 16) :: hex_digit (b mod 16) :: (hexify l ++ rest)).
  simpl hexstr2bin_loop. rewrite hex2byte_hexify by done. unfold is_byte in Hb.
  rewrite (proj2 (Z.ltb_ge _ _)), drop_0, IH, u8_id by (unfold is_byte; lia). done.
Qed.

(** Success means that every character read was a hexadecimal digit. *)
Lemma hexstr2bin_loop_accepts hex n : forall out, hexstr2bin_loop hex n = (0, out) ->
  length out = n /\ (2 * n <= length hex)%nat /\
  Forall (fun c => 0 <= hex2num c) (take (2 * n) hex).
Proof.
  revert hex. induction n as [|n IH]; intros hex out; simpl.
  { intros [= <-]. split; [done|]. split; [lia|constructor]. }
  destruct (hex2byte hex <? 0) eqn:Hh; [done|].
  destruct (hexstr2bin_loop (drop 2 hex) n) as [r o] eqn:Hr. intros [= -> <-].
  apply IH in Hr as (Hlo & Hlh & Hf). rewrite length_drop in Hlh.
  unfold hex2byte in Hh. simpl.
  destruct (Z.ltb_spec (hex2num (hd 0 hex)) 0); [done|].
  destruct (Z.ltb_spec (hex2num (hd 0 (tl hex))) 0); [done|].
  destruct hex as [|c1 [|c2 hex]]; simpl in *; [done..|].
  split; [lia|]. split; [lia|].
  replace (n + S (n + 0))%nat with (S (n + (n + 0))) by lia.
  simpl in *. by repeat constructor.
Qed.

(**  [edge_hexstr2bin] decodes the hexadecimal text of any byte string
    back to it, and it reports success only when all the [2 * len] characters
    it needs are there and are hexadecimal digits. *)
Theorem edge_hexstr2bin_correct l rest buf hex len :
  bytes l -> (length l <= length buf)%nat -> 0 <= len <= zlen buf ->
  edge_hexstr2bin (hexify l ++ rest) buf (zlen l) = Done (0, l ++ drop (length l) buf) /\
  (forall buf', edge_hexstr2bin hex buf len = Done (0, buf') ->
     2 * len <= zlen hex /\
     Forall (fun c => 0 <= hex2num c) (take (Z.to_nat (2 * len)) hex)).
Proof.
  intros Hb Hl Hlen. unfold edge_hexstr2bin. split.
  - by rewrite to_nat_zlen, hexstr2bin_loop_hexify, wr_head by done.
  - intros buf'. destruct (hexstr2bin_loop hex _) as [r out] eqn:Hh.
    destruct (wr buf 0 out) as [b|]; [|done]. intros [= -> ->].
    apply hexstr2bin_loop_accepts in Hh as (_ & Hle & Hf). split; [zlen_lia|].
    by replace (Z.to_nat (2 * len)) with (2 * Z.to_nat len)%nat by lia.
Qed.

Lemma edge_hexstr2bin_correct_witness :
  edge_hexstr2bin (cstr "01ab") [0; 0; 0] 2 = Done (0, [1; 171; 0]).
Proof.
  apply (edge_hexstr2bin_correct [1; 171] [] [0; 0; 0] [] 0).
  - repeat constructor; vm_compute; congruence.
  - simpl. lia.
  - unfold zlen. simpl. lia.
Defined.

(** ** Constant-time comparison *)

Lemma memcmp_loop_zero aa : forall bb r,
  length aa = length bb -> bytes aa -> bytes bb -> is_byte r ->
  foldl (fun res p => u8 (Z.lor res (Z.lxor p.1 p.2))) r (zip aa bb) = 0 <->
  r = 0 /\ aa = bb.
Proof.
  induction aa as [|a aa IH]; intros [|b bb] r Hl Ha Hb Hr; simpl in *; try done.
  { intuition congruence. }
  apply List.Forall_cons_iff in Ha as [Ha Haa], Hb as [Hb Hbb].
  assert (is_byte (Z.lor r (Z.lxor a b))) by eauto with edge.
  rewrite u8_id by done. rewrite IH by (eauto || lia).
  rewrite Z.lor_eq_0_iff, Z.lxor_eq_0_iff. intuition congruence.
Qed.

(** The comparison reads [len] bytes of both objects and answers zero exactly
    when they agree. *)
Lemma memcmp_const_eq a b len aa bb :
  bytes a -> bytes b -> rd a 0 len = Done aa -> rd b 0 len = Done bb ->
  exists r, edge_os_memcmp_const a b len = Done r /\ (r = 0 <-> aa = bb).
Proof.
  intros Ha Hb Hra Hrb. unfold edge_os_memcmp_const. rewrite Hra, Hrb. eexists.
  split; [done|]. unfold memcmp_const_loop. rewrite memcmp_loop_zero.
  - intuition congruence.
  - apply rd_done in Hra as (? & ? & ? & ->), Hrb as (? & ? & ? & ->). zlen_lia.
  - eauto using bytes_rd.
  - eauto using bytes_rd.
  - done.
Qed.

(** For every length within both objects, [edge_os_memcmp_const] returns
    0 exactly when the first [len] bytes of the two objects are equal. *)
Theorem edge_os_memcmp_const_correct a b len :
  bytes a -> bytes b -> 0 <= len <= zlen a -> len <= zlen b ->
  exists r, edge_os_memcmp_const a b len = Done r /\
    (r = 0 <-> take (Z.to_nat len) a = take (Z.to_nat len) b).
Proof.
  intros Ha Hb Hla Hlb.
  destruct (memcmp_const_eq a b len (take (Z.to_nat len) a) (take (Z.to_nat len) b))
    as (r & Hr & Hiff); eauto; apply rd_done; repeat split; lia.
Qed.

Lemma edge_os_memcmp_const_correct_witness :
  exists r, edge_os_memcmp_const [1; 2; 3] [1; 2; 4] 3 = Done r /\
    (r = 0 <-> [1; 2; 3] = [1; 2; 4]).
Proof.
  apply (edge_os_memcmp_const_correct [1; 2; 3] [1; 2; 4] 3).
  - repeat constructor; done.
  - repeat constructor; done.
  - vm_compute. split; congruence.
  - vm_compute. congruence.
Defined.

(** ** Splitting *)

(** The pieces joined again, with the separator between them. *)
Fixpoint join (sep : Z) (pieces : list (list Z)) : list Z :=
  match pieces with
  | [] => []
  | [p] => p
  | p :: rest => p ++ sep :: join sep rest
  end.

(** With a callback that always succeeds, the scan appends pieces that contain
    no separator and that join to the text scanned. *)
Lemma split_loop_spec sep r str : forall cur count arr,
  sep ∉ cur ->
  exists pieces, split_string_loop fn_split_string_array sep str cur count arr (Env [] r) =
      Done ((count + zlen pieces, arr ++ pieces), Env [] r) /\
    pieces <> [] /\ join sep pieces = cur ++ str /\ Forall (fun p => sep ∉ p) pieces.
Proof.
  induction str as [|c str IH]; intros cur count arr Hcur; simpl.
  - exists [cur]. rewrite app_nil_r. split; [done|]. by repeat constructor.
  - destruct (Z.eqb_spec c sep) as [->|Hne].
    + destruct (IH [] (count + 1) (arr ++ [cur])) as (ps & Hrun & Hps & Hj & Hf).
      { apply not_elem_of_nil. }
      exists (cur :: ps). erewrite bind_run by done. simpl. rewrite Hrun, zlen_cons, <- app_assoc.
      split; [do 3 f_equal; lia|]. split; [done|].
      split; [|by constructor]. destruct ps; [done|]. simpl in *. by rewrite Hj.
    + destruct (IH (cur ++ [c]) count arr) as (ps & Hrun & Hps & Hj & Hf).
      { rewrite elem_of_app, list_elem_of_singleton. intuition congruence. }
      exists ps. by rewrite Hrun, Hj, <- app_assoc.
Qed.

(** The pieces, as a function. *)
Fixpoint split_on (sep : Z) (cur str : list Z) : list (list Z) :=
  match str with
  | [] => [cur]
  | c :: rest => if c =? sep then cur :: split_on sep [] rest else split_on sep (cur ++ [c]) rest
  end.

Lemma split_loop_run sep str e : mallocs e = [] -> forall cur count arr,
  split_string_loop fn_split_string_array sep str cur count arr e =
    Done ((count + zlen (split_on sep cur str), arr ++ split_on sep cur str), e).
Proof.
  intros He. assert (forall p arr, fn_split_string_array p arr e = Done ((0, arr ++ [p]), e)) as Hfn.
  { intros p arr. destruct e as [m r]. simpl in He. by subst m. }
  induction str as [|c str IH]; intros cur count arr; cbn [split_string_loop split_on].
  - by erewrite bind_run by apply Hfn.
  - destruct (c =? sep); [|apply IH]. erewrite bind_run by apply Hfn. cbn [snd].
    rewrite IH, zlen_cons, <- app_assoc. do 3 f_equal. lia.
Qed.

Lemma split_array_run sep str e : mallocs e = [] ->
  split_string_array (Some str) sep (Some []) e =
    Done ((zlen (split_on sep [] str), Some (split_on sep [] str)), e).
Proof.
  intros He. unfold split_string_array, split_string.
  erewrite bind_run by (by apply split_loop_run). done.
Qed.

Lemma split_on_cut sep l rest : sep ∉ l -> forall cur,
  split_on sep cur (l ++ sep :: rest) = (cur ++ l) :: split_on sep [] rest.
Proof.
  induction l as [|c l IH]; intros Hl cur; cbn [app split_on].
  - by rewrite Z.eqb_refl, app_nil_r.
  - apply not_elem_of_cons in Hl as [Hne Hl]. rewrite (proj2 (Z.eqb_neq _ _)) by done.
    rewrite IH by done. by rewrite <- app_assoc.
Qed.

Lemma split_on_last sep l : sep ∉ l -> forall cur, split_on sep cur l = [cur ++ l].
Proof.
  induction l as [|c l IH]; intros Hl cur; cbn [split_on]; [by rewrite app_nil_r|].
  apply not_elem_of_cons in Hl as [Hne Hl]. rewrite (proj2 (Z.eqb_neq _ _)) by done.
  rewrite IH by done. by rewrite <- app_assoc.
Qed.

(** The characters of the pieces are characters of the text, whatever memory
    does. *)
Lemma split_loop_Forall (P : Z -> Prop) sep str : forall cur count arr e x e',
  Forall P str -> Forall P cur -> Forall (Forall P) arr ->
  split_string_loop fn_split_string_array sep str cur count arr e = Done (x, e') ->
  Forall (Forall P) x.2.
Proof.
  assert (forall cur arr e y e', Forall P cur -> Forall (Forall P) arr ->
    fn_split_string_array cur arr e = Done (y, e') -> Forall (Forall P) y.2) as Hfn.
  { intros cur arr e y e' Hc Ha. unfold fn_split_string_array. intros H. prog_inv.
    case_match; prog_inv; [done|]. apply Forall_app. split; [done|]. by constructor. }
  induction str as [|c str IH]; intros cur count arr e x e' Hs Hc Ha; cbn [split_string_loop].
  - intros H. prog_inv. case_match; prog_inv; cbn [snd]; (eapply Hfn; [| |eassumption]; done).
  - apply list.Forall_cons in Hs as [Hc1 Hs]. destruct (c =? sep).
    + intros H. prog_inv. eapply IH; [| | |eassumption]; [done|by constructor|].
      eapply Hfn; [| |eassumption]; done.
    + apply IH; [done| |done]. apply Forall_app. split; [done|]. by constructor.
Qed.

(**  When memory lasts, [split_string_array] appends to the array pieces
    free of the separator which, joined by it, give the string back; it
    returns their number, which is at least one. *)
Theorem split_string_array_correct str sep arr r :
  exists pieces n,
    split_string_array (Some str) sep (Some arr) (Env [] r) =
      Done ((n, Some (arr ++ pieces)), Env [] r) /\
    n = zlen pieces /\ 1 <= n /\ join sep pieces = str /\
    Forall (fun p => sep ∉ p) pieces.
Proof.
  destruct (split_loop_spec sep r str [] 0 arr) as (ps & Hrun & Hne & Hj & Hf); [apply not_elem_of_nil|].
  exists ps, (zlen ps). split.
  - unfold split_string_array. erewrite bind_run by exact Hrun. done.
  - split; [done|]. split; [|done]. destruct ps; [done|]. zlen_lia.
Qed.

(** ** Joining and copying *)

(** Every string followed by the character [c]. *)
Definition flat (c : Z) (strings : list (list Z)) : list Z :=
  concat ((fun s => s ++ [c]) <$> strings).

Lemma flat_cons c s strings : flat c (s :: strings) = s ++ c :: flat c strings.
Proof. unfold flat. simpl. by rewrite <- app_assoc. Qed.

Lemma append_strings_spec cap strings : forall buf,
  append_strings cap buf strings =
  if decide (strings = [] \/ zlen buf + zlen (flat 32 strings) + 1 <= cap)
  then Done (buf ++ flat 32 strings) else Fault OutOfBounds.
Proof.
  induction strings as [|s rest IH]; intros buf.
  { rewrite decide_True by auto. change (flat 32 []) with (@nil Z). by rewrite app_nil_r. }
  rewrite flat_cons. simpl append_strings. unfold strcat.
  change (zlen (cstr " ")) with 1. pose proof (zlen_nonneg (flat 32 rest)).
  destruct (Z.leb_spec (zlen buf + zlen s + 1) cap); cycle 1.
  { rewrite decide_False; [done|]. autorewrite with zlen. intros [|]; [done|lia]. }
  destruct (Z.leb_spec (zlen (buf ++ s) + 1 + 1) cap); cycle 1.
  { rewrite decide_False; [done|]. autorewrite with zlen in *. intros [|]; [done|lia]. }
  rewrite IH. change (cstr " ") with [32]. rewrite <- !app_assoc.
  autorewrite with zlen in *.
  assert (rest = [] -> zlen (flat 32 rest) = 0) as Hnil by (by intros ->).
  case_decide as Hd1; case_decide as Hd2; try done; exfalso.
  - apply Hd2. right. destruct Hd1 as [Hr|]; [apply Hnil in Hr|]; lia.
  - destruct Hd2 as [|Hd2]; [done|]. apply Hd1. right. lia.
Qed.

Lemma total_chars_flat c strings : forall n,
  foldl (fun n s => n + zlen s + 1) n strings = n + zlen (flat c strings).
Proof.
  induction strings as [|s rest IH]; intros n; simpl.
  - change (flat c []) with (@nil Z). change (zlen (@nil Z)) with 0. lia.
  - rewrite IH, flat_cons. autorewrite with zlen. lia.
Qed.

Lemma log_run_command_fits argv : zlen (flat 32 argv) < 255 -> log_run_command argv = Done (flat 32 argv).
Proof.
  intros Hl. unfold log_run_command. rewrite append_strings_spec. change (zlen (@nil Z)) with 0.
  rewrite decide_True by (right; lia). done.
Qed.

(**  [log_run_command] stays inside its 255-byte buffer exactly when the
    arguments, each followed by a space, take at most 254 characters; a longer
    command line overruns the buffer. *)
Theorem log_run_command_bound argv : argv <> [] ->
  log_run_command argv =
    if decide (zlen (flat 32 argv) < 255) then Done (flat 32 argv)
    else Fault OutOfBounds.
Proof.
  intros Hne. unfold log_run_command. rewrite append_strings_spec.
  change (zlen (@nil Z)) with 0. repeat case_decide; try done; exfalso.
  - intuition lia.
  - intuition lia.
Qed.

Lemma log_run_command_bound_witness :
  log_run_command [replicate 300 97] =
    if decide (zlen (flat 32 [replicate 300 97]) < 255)
    then Done (flat 32 [replicate 300 97]) else Fault OutOfBounds.
Proof. apply (log_run_command_bound [replicate 300 97]). done. Defined.

Fixpoint offsets (off : Z) (argv : list (list Z)) : list Z :=
  match argv with
  | [] => []
  | s :: rest => off :: offsets (off + (zlen s + 1)) rest
  end.

Lemma copy_argv_loop_spec argv : forall pre tl,
  length tl = length (flat 0 argv) ->
  copy_argv_loop (pre ++ tl) (zlen pre) argv =
    Done (offsets (zlen pre) argv, pre ++ flat 0 argv).
Proof.
  induction argv as [|s rest IH]; intros pre tl Hl.
  { by destruct tl. }
  rewrite flat_cons in *. simpl copy_argv_loop.
  assert (exists t1 t2, tl = t1 ++ t2 /\ length t1 = length (s ++ [0])) as (t1 & t2 & -> & Ht).
  { exists (take (length s + 1) tl), (drop (length s + 1) tl).
    rewrite take_drop. split; [done|]. zlen_lia. }
  rewrite wr_app by done. rewrite app_assoc.
  replace (zlen pre + (zlen s + 1)) with (zlen (pre ++ s ++ [0])) by zlen_lia.
  rewrite IH by zlen_lia. simpl.
  replace (zlen (pre ++ s ++ [0])) with (zlen pre + (zlen s + 1)) by zlen_lia.
  by rewrite <- !app_assoc.
Qed.

Lemma offsets_lookup argv : forall off i s, argv !! i = Some s ->
  exists a b, flat 0 argv = a ++ (s ++ [0]) ++ b /\ offsets off argv !! i = Some (off + zlen a).
Proof.
  induction argv as [|s0 rest IH]; intros off i s Hi; [done|].
  rewrite flat_cons. destruct i as [|i]; simpl in Hi.
  - injection Hi as ->. exists [], (flat 0 rest). rewrite <- app_assoc. split; [done|].
    simpl. f_equal. zlen_lia.
  - destruct (IH (off + (zlen s0 + 1)) i s Hi) as (a & b & Hf & Ho).
    exists (s0 ++ 0 :: a), b. rewrite Hf, <- !app_assoc. split; [done|].
    simpl. rewrite Ho. f_equal. zlen_lia.
Qed.

(** The copy, once its object is allocated. *)
Lemma copy_argv_run argv e : exists ok e', malloc e = Done (ok, e') /\
  copy_argv (Some argv) e =
    Done (if ok : bool then Some (offsets 0 argv, flat 0 argv) else None, e').
Proof.
  destruct (malloc_done e) as (ok & e' & Hm & _). exists ok, e'. split; [done|].
  unfold copy_argv. erewrite bind_run by done. destruct ok; [|done].
  assert (forall n, foldl (fun n s => n + (zlen s + 1)) n argv = n + zlen (flat 0 argv)) as Hsum.
  { clear. induction argv as [|s rest IH]; intros n; simpl.
    - change (flat 0 []) with (@nil Z). zlen_lia.
    - rewrite IH, flat_cons. autorewrite with zlen. lia. }
  rewrite Hsum. simpl negb. cbv iota.
  pose proof (copy_argv_loop_spec argv []
    (replicate (Z.to_nat (0 + zlen (flat 0 argv))) 0)) as Hc.
  change (zlen (@nil Z)) with 0 in Hc. rewrite !app_nil_l in Hc. by rewrite Hc by zlen_lia.
Qed.

(**  [copy_argv] never writes outside the object it allocates, and unless
    the allocation fails the [i]-th pointer of the copy designates the [i]-th
    string of [argv], terminated, inside that object. *)
Theorem copy_argv_correct argv e :
  exists e',
    copy_argv (Some argv) e = Done (None, e') \/
    exists ptrs buf, copy_argv (Some argv) e = Done (Some (ptrs, buf), e') /\
      length ptrs = length argv /\
      forall i s, argv !! i = Some s ->
        exists p, ptrs !! i = Some p /\ rd buf p (zlen s + 1) = Done (s ++ [0]).
Proof.
  destruct (copy_argv_run argv e) as (ok & e' & _ & ->). exists e'. destruct ok; [right|by left].
  exists (offsets 0 argv), (flat 0 argv). split; [done|]. split.
  - clear. generalize 0. induction argv; intros; simpl; auto.
  - intros i s Hi. destruct (offsets_lookup argv 0 i s Hi) as (a & b & Hf & Ho).
    exists (0 + zlen a). split; [done|]. rewrite Hf. apply rd_app; zlen_lia.
Qed.

(** [string_array2string] fills its buffer exactly. *)
Lemma string_array2string_safe strings e :
  exists r e', string_array2string (Some strings) e = Done (r, e') /\
    (r = None \/ r = Some (flat 32 strings)).
Proof.
  destruct (malloc_done e) as (ok & e' & Hm & _). unfold string_array2string.
  erewrite bind_run by done. destruct ok; [|eauto].
  rewrite (total_chars_flat 32), append_strings_spec. simpl negb. cbv iota.
  change (zlen (@nil Z)) with 0. rewrite decide_True by (right; lia).
  eexists _, _. split; [done|]. by right.
Qed.

Lemma strcat_fits cap dst src : zlen dst + zlen src + 1 <= cap ->
  strcat cap dst src = Done (dst ++ src).
Proof. intros. unfold strcat. by rewrite (proj2 (Z.leb_le _ _)). Qed.

(** [concat_paths] fills its buffer exactly. *)
Lemma concat_paths_safe l r e :
  exists p e', concat_paths (Some l) (Some r) e = Done (p, e') /\
    (p = None \/ p = Some (l ++ (if decide (l = cstr "/") then [] else cstr "/") ++ r)).
Proof.
  destruct (malloc_done e) as (ok & e' & Hm & _). unfold concat_paths.
  erewrite bind_run by done. destruct ok; [|eauto]. cbn [negb].
  change (opt_str (Some l)) with l. change (opt_str (Some r)) with r. pose proof (zlen_nonneg l). pose proof (zlen_nonneg r).
  erewrite bind_run; cycle 1.
  { rewrite strcat_fits by (change (zlen (@nil Z)) with 0; case_match; lia). done. }
  rewrite app_nil_l.
  case_bool_decide as Hs; [rewrite decide_True by done|rewrite decide_False by done];
    cbn [negb].
  - erewrite bind_run by done. rewrite strcat_fits by lia.
    erewrite bind_run by done. eexists _, _. split; [done|]. by right.
  - rewrite strcat_fits by (change (zlen (cstr "/")) with 1; lia).
    erewrite bind_run by done.
    rewrite strcat_fits by (rewrite zlen_app; change (zlen (cstr "/")) with 1; lia).
    erewrite bind_run by done.
    eexists _, _. split; [done|]. right. by rewrite <- app_assoc.
Qed.

(** A string with a character at its end, in a new object. *)
Lemma string_append_char_run s c e : mallocs e = [] ->
  string_append_char (Some s) c e = Done (Some (s ++ [c; 0]), e).
Proof.
  intros Hm. unfold string_append_char. erewrite bind_run by (unfold malloc; rewrite Hm; done). cbn beta. cbn [negb].
  erewrite bind_run; cycle 1.
  { replace (replicate (length s + 2) 0) with (replicate (length s) 0 ++ [0; 0]) by (by rewrite replicate_add).
    rewrite (wr_app [] (replicate (length s) 0) [0; 0] s); [done|done|by rewrite length_replicate]. }
  cbn beta. cbn [app]. erewrite bind_run; cycle 1.
  { rewrite (wr_app s [0] [0] [c]); done. }
  cbn beta. cbn [app]. erewrite bind_run; cycle 1.
  { replace (s ++ [c; 0]) with ((s ++ [c]) ++ [0]) by (by rewrite <- app_assoc).
    rewrite (wr_app (s ++ [c]) [0] [] [0]); [done| |done]. by rewrite zlen_app. }
  cbn beta. by rewrite <- app_assoc.
Qed.

(** Nothing is trimmed from a text that ends in another character. *)
Lemma rtrim_id s c : (c ∉ [9; 10; 11; 12; 13; 32]) -> rtrim (Some (s ++ [c])) None = Some (s ++ [c]).
Proof.
  intros Hc. unfold rtrim. rewrite reverse_snoc. cbn [rtrim_loop].
  rewrite bool_decide_false by done. by rewrite reverse_cons, reverse_involutive.
Qed.

(** ** Random digits and time *)

(** The text [os_get_random_number_s] produces has the length asked for
    and consists of decimal digits. *)
Theorem os_get_random_number_s_digits len e s e' :
  0 <= len -> os_get_random_number_s len e = Done (Some s, e') ->
  zlen s = len /\ forallb isdigit s = true.
Proof.
  intros Hlen. unfold os_get_random_number_s, edge_os_get_random. intros H. prog_inv.
  destruct (randoms e) as [|l rs]; prog_inv; [done|]. cbn [fst snd] in *.
  destruct (Z.ltb_spec (zlen l) len); cbn [Z.ltb Z.compare] in *; prog_inv; [done|].
  split; [zlen_lia|]. apply forallb_forall. intros c Hc.
  apply list_elem_of_In in Hc. apply list_elem_of_fmap in Hc as (b & -> & _).
  unfold isdigit. rewrite andb_true_iff, !Z.leb_le. zdiv_lia.
Qed.

Lemma os_get_random_number_s_digits_witness :
  zlen (cstr "793") = 3 /\ forallb isdigit (cstr "793") = true.
Proof.
  apply (os_get_random_number_s_digits 3 (Env [] [[7; 19; 253; 4]]) (cstr "793") (Env [] [])).
  - lia.
  - reflexivity.
Defined.

(** A time is normalised when its microseconds are a fraction of a second. *)
Definition reltime_ok (t : os_reltime) : Prop := 0 <= usec t < 1000000.
Definition reltime_usec (t : os_reltime) : Z := sec t * 1000000 + usec t.

(** On normalised times [os_reltime_sub] is normalised and is the
    difference in microseconds, and [os_reltime_before] is the order of the
    instants. *)
Theorem os_reltime_correct a b : reltime_ok a -> reltime_ok b ->
  reltime_ok (os_reltime_sub a b) /\
  reltime_usec (os_reltime_sub a b) = reltime_usec a - reltime_usec b /\
  (os_reltime_before a b = true <-> reltime_usec a < reltime_usec b).
Proof.
  unfold reltime_ok, reltime_usec, os_reltime_sub, os_reltime_before. intros Ha Hb.
  rewrite orb_true_iff, andb_true_iff, !Z.ltb_lt, Z.eqb_eq.
  destruct (Z.ltb_spec (usec a - usec b) 0); simpl; lia.
Qed.

Lemma os_reltime_correct_witness :
  reltime_ok (os_reltime_sub {| sec := 5; usec := 1 |} {| sec := 2; usec := 7 |}).
Proof.
  apply (os_reltime_correct {| sec := 5; usec := 1 |} {| sec := 2; usec := 7 |});
    unfold reltime_ok; simpl; lia.
Defined.
