(* ===== verification/Paths.v ===== *)
(** Paths and directories: [get_valid_path], [construct_path], [exist_dir],
    [make_dirs_to_path] and [create_dir] of [src/utils/os.c], over [dirname] and
    [basename] of the C library.

    The file system answers each call with an [errno] that the model takes from
    a list; after the end of the list everything succeeds.  The theorem says
    what [construct_path] is used for: all files of a folder get paths that
    begin with the same folder and end with their names, so that files with
    different names do not meet. *)
From stdpp Require Import strings numbers base list gmap.
From Stdlib Require Import ZArith Lia.
From S2P Require Import Prelude Os.

(** ** [dirname] and [basename] *)

Definition SLASH : Z := 47.

(** On reversed strings: without the slashes at the end, and cut at the last
    slash, which goes to the second part. *)
Fixpoint drop_slashes (r : list Z) : list Z :=
  match r with c :: t => if c =? SLASH then drop_slashes t else r | [] => [] end.
Fixpoint span_slash (r : list Z) : list Z * list Z :=
  match r with
  | c :: t => if c =? SLASH then ([], r) else (c :: (span_slash t).1, (span_slash t).2)
  | [] => ([], [])
  end.

(** A root is one slash, or two when there are exactly two. *)
Definition root_of (r : list Z) : list Z := if zlen r =? 2 then cstr "//" else cstr "/".

Definition dirname (path : list Z) : list Z :=
  match drop_slashes (reverse path) with
  | [] => match path with [] => cstr "." | _ => root_of path end
  | r =>
      match (span_slash r).2 with
      | [] => cstr "."
      | rest => match drop_slashes rest with [] => root_of rest | d => reverse d end
      end
  end.

Definition basename (path : list Z) : list Z :=
  match path with
  | [] => cstr "."
  | _ => match drop_slashes (reverse path) with [] => cstr "/" | r => reverse (span_slash r).1 end
  end.

(** ** Paths ([os.c]) *)

Definition get_valid_path (path : option (list Z)) : prog env (option (list Z)) :=
  match path with
  | None => mret None
  | Some p =>
      dir ← malloc;
      if negb dir then mret None
      else
        base ← malloc;
        if negb base then mret None
        else if bool_decide (p = []) then concat_paths (Some (dirname p)) None
        else if bool_decide (p ∈ [cstr "."; cstr ".."; cstr "/"; cstr "//"]) then concat_paths (Some p) None
        else concat_paths (Some (dirname p)) (Some (basename p))
  end.

(** [beg_right]: the part to the right begins at its slash when it begins with
    a dot and a slash. *)
Definition beg_right (valid_right : option (list Z)) : option (list Z) :=
  match valid_right with
  | Some (46 :: 47 :: r) => Some (47 :: r)
  | r => r
  end.

Definition construct_path (path_left path_right : option (list Z)) : prog env (option (list Z)) :=
  match path_left, path_right with
  | Some l, Some r =>
      match l, r with
      | [], [] => get_valid_path (Some [])
      | _, [] => get_valid_path (Some l)
      | [], _ => get_valid_path (Some r)
      | _, _ =>
          valid_left ← get_valid_path (Some l);
          valid_right ← get_valid_path (Some r);
          concat ← concat_paths valid_left (beg_right valid_right);
          get_valid_path concat
      end
  | _, _ => mret None
  end.

(** ** Directories *)

Definition ENOENT : Z := 2.
Definition EEXIST : Z := 17.

(** The disk: what the next calls answer (0 for success, otherwise [errno]),
    the directories that were made, and the files with their contents. *)
Record disk (A : Type) := {
  dk_answers : list Z;
  dk_dirs : list (list Z);
  dk_files : gmap (list Z) A
}.
Arguments dk_answers {_}.
Arguments dk_dirs {_}.
Arguments dk_files {_}.
Arguments Build_disk {_}.

Section disk.
Context {A : Type}.
#[local] Abbreviation Dk := (prog (disk A)).

Definition answer : Dk Z := fun d =>
  Done (default 0 (head (dk_answers d)), Build_disk (tail (dk_answers d)) (dk_dirs d) (dk_files d)).
Definition done_on (f : disk A -> disk A) : Dk Z := fun d => Done (0, f d).
Definition mkdir (path : list Z) : Dk Z :=
  e ← answer;
  if e =? 0 then done_on (fun d => Build_disk (dk_answers d) (dk_dirs d ++ [path]) (dk_files d)) else mret e.
(** [pcap_dump_open] and [pcap_dump] onto a file, and [remove]. *)
Definition write_file (path : list Z) (a : A) : Dk Z :=
  e ← answer;
  if e =? 0 then done_on (fun d => Build_disk (dk_answers d) (dk_dirs d) (<[path := a]> (dk_files d))) else mret e.
Definition remove (path : list Z) : Dk Z :=
  e ← answer;
  if e =? 0 then done_on (fun d => Build_disk (dk_answers d) (dk_dirs d) (delete path (dk_files d))) else mret e.

Definition exist_dir (dirpath : list Z) : Dk Z :=
  e ← answer;
  mret (if e =? 0 then 1 else if e =? ENOENT then 0 else -1).

(** From the slash after [seen] on; [rest] starts after the character looked at
    last. *)
Fixpoint make_dirs_loop (seen rest : list Z) : Dk Z :=
  match rest with
  | [] => mret 0
  | c :: t =>
      if c =? SLASH then
        e ← mkdir seen;
        if negb (e =? 0) && negb (e =? EEXIST) then mret (-1) else make_dirs_loop (seen ++ [c]) t
      else make_dirs_loop (seen ++ [c]) t
  end.

(** The path is copied into an array with a byte more than [MAX_OS_PATH_LEN]. *)
Definition make_dirs_to_path (file_path : option (list Z)) : Dk Z :=
  match file_path with
  | Some (c :: rest) =>
      if MAX_OS_PATH_LEN + 1 <? zlen (c :: rest) + 1 then fail_with OutOfBounds else make_dirs_loop [c] rest
  | _ => mret (-1)
  end.

Definition create_dir (dirpath : list Z) : Dk Z :=
  ret ← exist_dir dirpath;
  if ret <? 0 then mret (-1)
  else if ret =? 0 then
    r ← make_dirs_to_path (Some dirpath);
    if r <? 0 then mret (-1)
    else
      e ← mkdir dirpath;
      if negb (e =? 0) && negb (e =? EEXIST) then mret (-1) else mret 0
  else mret 0.
End disk.

(** ** What [construct_path] makes *)

(** A file name: not empty, without a slash, and not one of the two special
    entries of a directory. *)
Definition plain_name (n : list Z) : Prop := n <> [] /\ (SLASH ∉ n) /\ n <> cstr "." /\ n <> cstr "..".

Lemma drop_slashes_end n r : n <> [] -> SLASH ∉ n -> drop_slashes (reverse n ++ r) = reverse n ++ r.
Proof.
  intros Hn Hs. destruct (reverse n) as [|c t] eqn:E; [apply (f_equal reverse) in E; by rewrite reverse_involutive in E|].
  assert (c <> SLASH) as Hc by (intros ->; apply Hs, elem_of_reverse; rewrite E; left).
  cbn. by rewrite (proj2 (Z.eqb_neq _ _)).
Qed.

Lemma span_slash_end n r : SLASH ∉ n -> span_slash (n ++ SLASH :: r) = (n, SLASH :: r).
Proof.
  induction n as [|c n IH]; intros Hn; cbn; [done|].
  rewrite (proj2 (Z.eqb_neq c SLASH)) by (intros ->; apply Hn; left). rewrite IH; [done|]. intros H. apply Hn. by right.
Qed.

Lemma span_slash_none n : SLASH ∉ n -> span_slash n = (n, []).
Proof.
  induction n as [|c n IH]; intros Hn; cbn; [done|].
  rewrite (proj2 (Z.eqb_neq c SLASH)) by (intros ->; apply Hn; left). rewrite IH; [done|]. intros H. apply Hn. by right.
Qed.

(** The two parts of a path that ends in a file name. *)
Lemma dirname_file l n : n <> [] -> SLASH ∉ n -> dirname (l ++ SLASH :: n) =
  match drop_slashes (reverse l) with [] => root_of (l ++ [SLASH]) | d => reverse d end.
Proof.
  intros Hn Hs. unfold dirname. rewrite reverse_app, reverse_cons, <- app_assoc. cbn [app].
  rewrite drop_slashes_end by done. destruct (reverse n ++ _) eqn:E; [by apply app_nil in E as [_ ?]|]. rewrite <- E.
  rewrite span_slash_end by (by rewrite elem_of_reverse). cbn [snd drop_slashes]. rewrite Z.eqb_refl.
  unfold root_of. rewrite zlen_cons, zlen_app. unfold zlen at 1. rewrite length_reverse. fold (zlen l). change (zlen [SLASH]) with 1. rewrite Z.add_comm. done.
Qed.

Lemma basename_file l n : n <> [] -> SLASH ∉ n -> basename (l ++ SLASH :: n) = n.
Proof.
  intros Hn Hs. unfold basename. destruct (l ++ SLASH :: n) eqn:E; [by destruct l|]. rewrite <- E.
  rewrite reverse_app, reverse_cons, <- app_assoc. cbn [app].
  rewrite drop_slashes_end by done. destruct (reverse n ++ _) eqn:E'; [by apply app_nil in E' as [_ ?]|]. rewrite <- E'.
  rewrite span_slash_end by (by rewrite elem_of_reverse). cbn [fst]. by rewrite reverse_involutive.
Qed.

Lemma dirname_name n : n <> [] -> SLASH ∉ n -> dirname n = cstr "." /\ basename n = n.
Proof.
  intros Hn Hs. assert (SLASH ∉ reverse n) as Hr by (by rewrite elem_of_reverse).
  assert (drop_slashes (reverse n) = reverse n) as Hd by (rewrite <- (app_nil_r (reverse n)) at 1; rewrite drop_slashes_end by done; by rewrite app_nil_r).
  unfold dirname, basename. rewrite Hd. destruct (reverse n) eqn:E.
  { apply (f_equal reverse) in E. by rewrite reverse_involutive in E. }
  rewrite span_slash_none by done. cbn [fst snd]. split; [done|]. destruct n; [done|]. rewrite <- E. by rewrite reverse_involutive.
Qed.

(** With memory available the paths are what they are built from. *)
Lemma concat_paths_run l r rs : concat_paths (Some l) (Some r) (Env [] rs) =
  Done (Some (l ++ (if decide (l = cstr "/") then [] else cstr "/") ++ r), Env [] rs).
Proof.
  unfold concat_paths. erewrite bind_run by apply malloc_nil. cbn [negb].
  change (opt_str (Some l)) with l. change (opt_str (Some r)) with r. pose proof (zlen_nonneg l). pose proof (zlen_nonneg r).
  erewrite bind_run by (rewrite strcat_fits by (change (zlen (@nil Z)) with 0; case_match; lia); apply lift_run). rewrite app_nil_l.
  case_bool_decide as Hs; [rewrite decide_True by done|rewrite decide_False by done]; cbn [negb].
  - erewrite bind_run by done. erewrite bind_run by (rewrite strcat_fits by lia; apply lift_run). done.
  - erewrite bind_run by (rewrite strcat_fits by (change (zlen (cstr "/")) with 1; lia); apply lift_run).
    erewrite bind_run by (rewrite strcat_fits by (rewrite zlen_app; change (zlen (cstr "/")) with 1; lia); apply lift_run).
    by rewrite <- app_assoc.
Qed.

Lemma concat_left_run l rs : concat_paths (Some l) None (Env [] rs) = Done (Some l, Env [] rs).
Proof.
  unfold concat_paths. erewrite bind_run by apply malloc_nil. cbn [negb]. change (opt_str (Some l)) with l. change (opt_str None) with (@nil Z).
  erewrite bind_run by (rewrite strcat_fits by (change (zlen (@nil Z)) with 0; lia); apply lift_run).
  by erewrite bind_run by done.
Qed.

(** The value of [get_valid_path]. *)
Definition valid_path (p : list Z) : list Z :=
  if bool_decide (p = []) then dirname p
  else if bool_decide (p ∈ [cstr "."; cstr ".."; cstr "/"; cstr "//"]) then p
  else dirname p ++ (if decide (dirname p = cstr "/") then [] else cstr "/") ++ basename p.

Lemma get_valid_path_run p rs : get_valid_path (Some p) (Env [] rs) = Done (Some (valid_path p), Env [] rs).
Proof.
  unfold get_valid_path, valid_path. do 2 (erewrite bind_run by apply malloc_nil; cbn [negb]).
  case_bool_decide; [apply concat_left_run|]. case_bool_decide; [apply concat_left_run|apply concat_paths_run].
Qed.

Lemma plain_not_special l n : plain_name n -> (l ++ SLASH :: n) ∉ [cstr "."; cstr ".."; cstr "/"; cstr "//"].
Proof.
  intros (Hn & Hs & _) Hin. assert (exists c, last n = Some c /\ c <> SLASH) as (c & Hc & Hc').
  { destruct n as [|x n'] using rev_ind; [done|]. exists x. rewrite last_snoc. split; [done|]. intros ->. apply Hs. set_solver. }
  assert (last (l ++ SLASH :: n) = Some c) as Hl by (rewrite last_app, last_cons, Hc; done).
  assert (2 <= zlen (l ++ SLASH :: n)) as Hz by (rewrite zlen_app, zlen_cons; destruct n; [done|rewrite zlen_cons; pose proof (zlen_nonneg l); pose proof (zlen_nonneg n); lia]).
  assert (SLASH ∈ l ++ SLASH :: n) as Hi by set_solver.
  rewrite !elem_of_cons in Hin. destruct Hin as [E|[E|[E|[E|E]]]]; [..|by apply elem_of_nil in E]; rewrite E in *.
  - by vm_compute in Hz.
  - revert Hi. cbn. unfold SLASH. set_solver by lia.
  - by vm_compute in Hz.
  - cbn in Hl. injection Hl as <-. done.
Qed.

Lemma valid_plain n : plain_name n -> valid_path n = 46 :: 47 :: n.
Proof.
  intros (Hn & Hs & H1 & H2). unfold valid_path. rewrite bool_decide_false by done. destruct (dirname_name n Hn Hs) as [-> ->].
  rewrite bool_decide_false; [done|]. rewrite !elem_of_cons. intros [?|[?|[->|[->|H]]]]; [done|done| | |by apply elem_of_nil in H].
  all: apply Hs; left.
Qed.

(** The folder of a path: without slashes at its end. *)
Definition folder (left : list Z) : list Z :=
  let v := valid_path left in
  match drop_slashes (reverse v) with
  | [] => if bool_decide (v = cstr "/") then cstr "//" else []
  | d => reverse d
  end.

Lemma dirname_nonempty p : dirname p <> [].
Proof.
  assert (forall l, root_of l <> []) as Hr by (intros l; unfold root_of; by case_match).
  unfold dirname. destruct (drop_slashes _); [by destruct p|]. destruct (span_slash _).2 as [|c t]; [done|].
  destruct (drop_slashes (c :: t)) as [|x d]; [done|]. rewrite reverse_cons. by destruct (reverse d).
Qed.

Lemma valid_path_nonempty p : valid_path p <> [].
Proof.
  unfold valid_path. case_bool_decide; [apply dirname_nonempty|]. case_bool_decide; [done|].
  intros [E _]%app_nil. by apply (dirname_nonempty p).
Qed.

Lemma drop_slashes_head r c t : drop_slashes r = c :: t -> c <> SLASH.
Proof. induction r as [|x r IH]; [done|]. cbn. destruct (Z.eqb_spec x SLASH); [done|]. by intros [= <- _]. Qed.

(** The path of a file in a folder. *)
Lemma construct_path_run left name rs : left <> [] -> plain_name name ->
  construct_path (Some left) (Some name) (Env [] rs) = Done (Some (folder left ++ SLASH :: name), Env [] rs).
Proof.
  intros Hl Hn. pose proof Hn as (Hne & Hs & _). unfold construct_path. destruct left as [|c0 left0]; [done|]. destruct name as [|c1 name0]; [done|].
  set (left := c0 :: left0) in *. set (name := c1 :: name0) in *.
  erewrite bind_run by apply get_valid_path_run. erewrite bind_run by apply get_valid_path_run. rewrite (valid_plain name Hn). cbn [beg_right].
  erewrite bind_run by apply concat_paths_run. rewrite app_assoc. rewrite get_valid_path_run. do 3 f_equal.
  unfold folder. cbv zeta. pose proof (valid_path_nonempty left) as Hv. set (v := valid_path left) in *.
  set (sep := if decide _ then _ else _). unfold valid_path.
  rewrite bool_decide_false by (by intros [_ ?]%app_nil). rewrite bool_decide_false by (by apply plain_not_special).
  change (47 :: name) with (SLASH :: name). rewrite dirname_file, basename_file by done.
  assert (drop_slashes (reverse (v ++ sep)) = drop_slashes (reverse v)) as ->.
  { rewrite reverse_app. unfold sep. by case_decide. }
  destruct (drop_slashes (reverse v)) as [|c t] eqn:E.
  - unfold sep, root_of. case_bool_decide as Hr; [rewrite Hr; done|]. rewrite decide_False by done.
    rewrite !zlen_app. change (zlen (cstr "/")) with 1. change (zlen [SLASH]) with 1.
    destruct v; [done|]. rewrite zlen_cons. pose proof (zlen_nonneg v). rewrite (proj2 (Z.eqb_neq _ _)) by lia. done.
  - rewrite decide_False; [done|]. intros Hr. apply (f_equal reverse) in Hr. rewrite reverse_involutive in Hr.
    apply drop_slashes_head in E. by injection Hr as ->.
Qed.

(** The paths of the files of a folder: for one folder all of them begin
    alike and end with a slash and the name of the file, so that two names have
    two paths. *)
Theorem construct_path_file left rs : left <> [] -> exists f,
  (forall name, plain_name name ->
     construct_path (Some left) (Some name) (Env [] rs) = Done (Some (f ++ SLASH :: name), Env [] rs)) /\
  (forall name1 name2, f ++ SLASH :: name1 = f ++ SLASH :: name2 -> name1 = name2).
Proof.
  intros Hl. exists (folder left). split; [intros; by apply construct_path_run|]. intros n1 n2 E. by apply app_inv_head in E as [= ->].
Qed.

(** A folder that is written in the usual way is itself. *)
Lemma folder_plain l n : plain_name n -> drop_slashes (reverse l) = reverse l -> l <> [] -> folder (l ++ SLASH :: n) = l ++ SLASH :: n.
Proof.
  intros Hn Hd Hl. pose proof Hn as (Hne & Hs & _). unfold folder, valid_path. cbv zeta.
  rewrite bool_decide_false by (by intros [_ ?]%app_nil). rewrite bool_decide_false by (by apply plain_not_special).
  rewrite dirname_file, basename_file by done. rewrite Hd. destruct (reverse l) as [|c t] eqn:E.
  { apply (f_equal reverse) in E. by rewrite reverse_involutive in E. }
  rewrite <- E, reverse_involutive. rewrite decide_False; cycle 1.
  { intros ->. apply drop_slashes_head in Hd. by injection E as <- _. }
  change (cstr "/") with [SLASH]. cbn [app]. rewrite reverse_app, reverse_cons, <- app_assoc, drop_slashes_end by done.
  destruct (reverse n ++ _) eqn:E2; [by apply app_nil in E2 as [_ ?]|]. rewrite <- E2. cbn [app].
  by rewrite reverse_app, reverse_cons, !reverse_involutive, <- app_assoc.
Qed.

(** When the copy of the folder finds no memory the path is made without it: the
    file is looked for in the root directory. *)
Lemma construct_path_forgets left name rs : left <> [] -> plain_name name ->
  construct_path (Some left) (Some name) (Env [false] rs) = Done (Some (SLASH :: name), Env [] rs).
Proof.
  intros Hl Hn. pose proof Hn as (Hne & Hs & _). unfold construct_path. destruct left as [|c0 left0]; [done|]. destruct name as [|c1 name0]; [done|].
  set (name := c1 :: name0) in *. erewrite bind_run by done. erewrite bind_run by apply get_valid_path_run. rewrite (valid_plain name Hn). cbn [beg_right].
  erewrite bind_run; cycle 1.
  { unfold concat_paths. erewrite bind_run by apply malloc_nil. cbn [negb]. erewrite bind_run by done. erewrite bind_run by done.
    change (opt_str None) with (@nil Z). change (opt_str (Some (47 :: name))) with (47 :: name).
    erewrite bind_run by (rewrite strcat_fits by (change (zlen (@nil Z)) with 0; lia); apply lift_run). done. }
  rewrite get_valid_path_run. do 3 f_equal. change ([] ++ 47 :: name) with ([] ++ SLASH :: name). unfold valid_path.
  rewrite bool_decide_false by (by intros [_ ?]%app_nil). rewrite bool_decide_false by (by apply plain_not_special).
  by rewrite dirname_file, basename_file.
Qed.

Lemma construct_path_file_witness : exists f,
  construct_path (Some (cstr "/tmp/db/capture")) (Some (cstr "a.pcap")) (Env [] []) = Done (Some (f ++ SLASH :: cstr "a.pcap"), Env [] []).
Proof.
  destruct (construct_path_file (cstr "/tmp/db/capture") []) as (f & H & _); [done|]. exists f. apply H.
  repeat split; try done. apply (bool_decide_unpack _). by vm_compute.
Defined.
