(* ===== verification/Text.v ===== *)
(** The text functions of the C library that the program calls: [printf]'s
    decimal and hexadecimal conversions, [atoi]/[strtol], [strchr], and the
    address conversions [inet_pton], [inet_ntop] and [inet_network].

    Strings are byte lists without their NUL.  The lemmas say that printing and
    parsing are inverse, which the components use for VLAN numbers, IPv4
    addresses and MAC addresses. *)
From stdpp Require Import base list strings numbers.
From Stdlib Require Import ZArith Lia.
From S2P Require Import Prelude Os.

(** ** Decimal numbers *)

Fixpoint dec_loop (fuel : nat) (n : Z) : list Z :=
  match fuel with
  | O => []
  | S fuel' => if n <? 10 then [48 + n] else dec_loop fuel' (n / 10) ++ [48 + n mod 10]
  end.

(** ["%u"]: a number below [2 ^ 64] has at most 20 digits. *)
Definition fmt_u (n : Z) : list Z := dec_loop 20 n.
(** ["%d"]. *)
Definition fmt_d (n : Z) : list Z := if n <? 0 then 45 :: fmt_u (- n) else fmt_u n.

(** [atoi]: white space, an optional sign, digits. *)
Fixpoint atoi_digits (s : list Z) (n : Z) : Z :=
  match s with
  | c :: rest => if isdigit c then atoi_digits rest (n * 10 + (c - 48)) else n
  | [] => n
  end.
Fixpoint atoi (s : list Z) : Z :=
  match s with
  | c :: rest =>
      if (c =? 32) || ((9 <=? c) && (c <=? 13)) then atoi rest
      else if c =? 45 then - atoi_digits rest 0
      else if c =? 43 then atoi_digits rest 0
      else atoi_digits s 0
  | [] => 0
  end.

Definition isspace (c : Z) : bool := (c =? 32) || ((9 <=? c) && (c <=? 13)).

Fixpoint skip_space (s : list Z) : list Z :=
  match s with
  | c :: rest => if isspace c then skip_space rest else s
  | [] => []
  end.

(** [strtoul] in base 10: [None] when the value is out of range, the case in
    which [errno] is set; a minus sign negates modulo [2 ^ 64]. *)
Definition strtoul10 (s : list Z) : option Z :=
  let in_range (neg : bool) (v : Z) :=
    if v <? 2 ^ 64 then Some (if neg then u64 (- v) else v) else None in
  match skip_space s with
  | c :: rest =>
      if c =? 45 then in_range true (atoi_digits rest 0)
      else if c =? 43 then in_range false (atoi_digits rest 0)
      else in_range false (atoi_digits (c :: rest) 0)
  | [] => Some 0
  end.

(** A conversion to [int]. *)
Definition to_int (z : Z) : Z := let w := u32 z in if w <? 2 ^ 31 then w else w - 2 ^ 32.

(** The string in a byte array, up to its first NUL. *)
Fixpoint until_nul (l : list Z) : list Z :=
  match l with
  | c :: rest => if c =? 0 then [] else c :: until_nul rest
  | [] => []
  end.

(** [strchr]: the text before the first [c] and the text after it. *)
Fixpoint strchr (s : list Z) (c : Z) : option (list Z * list Z) :=
  match s with
  | [] => None
  | x :: rest =>
      if x =? c then Some ([], rest)
      else match strchr rest c with
           | Some (pre, post) => Some (x :: pre, post)
           | None => None
           end
  end.

(** ["%02x"]. *)
Definition fmt_02x (b : Z) : list Z := [hex_digit (b / 16); hex_digit (b mod 16)].

(** ** Addresses *)

(** [inet_pton(AF_INET, ...)]: [tmp] holds the octets read so far, the current
    one first. *)
Fixpoint inet_pton_loop (src : list Z) (saw_digit : bool) (octets : Z) (tp : Z)
    (tmp : list Z) : option (list Z) :=
  match src with
  | [] => if octets <? 4 then None else Some (reverse (tp :: tmp))
  | ch :: rest =>
      if isdigit ch then
        let new := tp * 10 + (ch - 48) in
        if saw_digit && (tp =? 0) then None
        else if 255 <? new then None
        else if negb saw_digit then
          if 4 <? octets + 1 then None else inet_pton_loop rest true (octets + 1) new tmp
        else inet_pton_loop rest true octets new tmp
      else if (ch =? 46) && saw_digit then
        if octets =? 4 then None else inet_pton_loop rest false octets 0 (tp :: tmp)
      else None
  end.
Definition inet_pton (src : list Z) : option (list Z) := inet_pton_loop src false 0 0 [].

(** [inet_ntop(AF_INET, ...)] and [inet_ntoa] on the four bytes of an address,
    in memory order. *)
Fixpoint inet_ntop (addr : list Z) : list Z :=
  match addr with
  | [] => []
  | [b] => fmt_u b
  | b :: rest => fmt_u b ++ 46 :: inet_ntop rest
  end.

(** The bytes in memory of [struct in_addr], little-endian. *)
Definition in_addr_bytes (s_addr : Z) : list Z :=
  [Z.land s_addr 255; Z.land (Z.shiftr s_addr 8) 255;
   Z.land (Z.shiftr s_addr 16) 255; Z.land (Z.shiftr s_addr 24) 255].
Definition in_addr_of (b : list Z) : Z :=
  match b with
  | [a; b; c; d] => a + 256 * b + 65536 * c + 16777216 * d
  | _ => 0
  end.

Definition INADDR_NONE : Z := 0xffffffff.

Definition isxdigit (c : Z) : bool := 0 <=? hex2num c.

(** The digits of one part of [inet_network] in a base, with the 32-bit value
    and whether a digit was seen; [None] for an octal 8 or 9. *)
Fixpoint network_digits (s : list Z) (base : Z) (digit : bool) (val : Z) :
    option (list Z * bool * Z) :=
  match s with
  | [] => Some ([], digit, val)
  | c :: rest =>
      if isdigit c then
        if (base =? 8) && ((c =? 56) || (c =? 57)) then None
        else network_digits rest base true (u32 (val * base + (c - 48)))
      else if (base =? 16) && isxdigit c then
        network_digits rest base true (u32 (Z.shiftl val 4 + hex2num c))
      else Some (s, digit, val)
  end.

(** The parts of [inet_network], at most four. *)
Fixpoint network_parts (fuel : nat) (s : list Z) (parts : list Z) : option (list Z) :=
  match fuel with
  | O => None
  | S fuel' =>
      let '(digit0, base0, s0) :=
        match s with
        | c :: rest => if c =? 48 then (true, 8, rest) else (false, 10, s)
        | [] => (false, 10, s)
        end in
      let '(digit1, base1, s1) :=
        match s0 with
        | c :: rest => if (c =? 120) || (c =? 88) then (false, 16, rest)
                       else (digit0, base0, s0)
        | [] => (digit0, base0, s0)
        end in
      match network_digits s1 base1 digit1 0 with
      | None => None
      | Some (s2, digit, val) =>
          if negb digit then None
          else if 255 <? val then None
          else match s2 with
               | c :: rest =>
                   if c =? 46 then network_parts fuel' rest (val :: parts)
                   else match skip_space s2 with
                        | [] => Some (reverse (val :: parts))
                        | _ => None
                        end
               | [] => Some (reverse (val :: parts))
               end
      end
  end.

Definition inet_network (s : list Z) : Z :=
  match network_parts 4 s [] with
  | None => INADDR_NONE
  | Some parts => foldl (fun val p => Z.lor (u32 (Z.shiftl val 8)) (Z.land p 255)) 0 parts
  end.

(** [strtoul] with base 0 on text that starts with a digit: the value, without
    its upper bound, and the rest. *)
Fixpoint number_digits (s : list Z) (base val : Z) : Z * list Z :=
  match s with
  | [] => (val, [])
  | c :: rest =>
      if (0 <=? hex2num c) && (hex2num c <? base)
      then number_digits rest base (val * base + hex2num c) else (val, s)
  end.
Definition strtoul0 (s : list Z) : Z * list Z :=
  match s with
  | 48 :: x :: d :: rest =>
      if ((x =? 120) || (x =? 88)) && isxdigit d then number_digits (d :: rest) 16 0
      else number_digits s 8 0
  | 48 :: _ => number_digits s 8 0
  | _ => number_digits s 10 0
  end.

(** [inet_aton]: up to four parts, the last one filling the remaining bytes.
    The value in host order; [acc] are the bytes read so far, and [room] the
    number of parts that can still follow. *)
Fixpoint inet_aton_loop (room : nat) (s : list Z) (acc : Z) : option Z :=
  match s with
  | [] => None
  | c :: _ =>
      if negb (isdigit c) then None
      else
        let (val, rest) := strtoul0 s in
        if 0xffffffff <? val then None
        else match rest, room with
             | 46 :: rest', S room' =>
                 if 255 <? val then None else inet_aton_loop room' rest' (acc * 256 + val)
             | 46 :: _, O => None
             | _, _ =>
                 if negb (match rest with [] => true | c' :: _ => isspace c' end) then None
                 else if 256 ^ (Z.of_nat room + 1) <=? val then None
                 else Some (acc * 256 ^ (Z.of_nat room + 1) + val)
             end
  end.
Definition inet_aton (s : list Z) : option Z := inet_aton_loop 3 s 0.

(** [htonl] on a little-endian machine. *)
Definition htonl (v : Z) : Z := in_addr_of (reverse (in_addr_bytes v)).

(** ** Decimal text *)

Lemma dec_loop_fuel f : forall g n, 0 <= n < 10 ^ Z.of_nat f -> (f <= g)%nat -> (0 < f)%nat ->
  dec_loop g n = dec_loop f n.
Proof.
  induction f as [|f IH]; intros [|g] n Hn Hg Hf; try lia. simpl.
  destruct (Z.ltb_spec n 10); [done|]. rewrite Nat2Z.inj_succ, Z.pow_succ_r in Hn by lia.
  destruct f as [|f]; [simpl in Hn; lia|].
  rewrite (IH g); [done| |lia|lia]. split; [zdiv_lia|].
  apply Z.div_lt_upper_bound; lia.
Qed.

Lemma fmt_u_digit d : 0 <= d < 10 -> fmt_u d = [48 + d].
Proof. intros. unfold fmt_u. cbn [dec_loop]. by rewrite (proj2 (Z.ltb_lt _ _)) by lia. Qed.

Lemma fmt_u_step n d : 1 <= n -> 0 <= d < 10 -> n * 10 + d < 10 ^ 19 ->
  fmt_u (n * 10 + d) = fmt_u n ++ [48 + d].
Proof.
  intros Hn Hd Hb. unfold fmt_u. rewrite (dec_loop_fuel 19 20 n) by lia.
  change (dec_loop 20 ?x) with (if x <? 10 then [48 + x] else dec_loop 19 (x / 10) ++ [48 + x mod 10]).
  rewrite (proj2 (Z.ltb_ge _ _)) by lia.
  by replace ((n * 10 + d) / 10) with n by zdiv_lia; replace ((n * 10 + d) mod 10) with d by zdiv_lia.
Qed.

(** Induction over decimal numbers, last digit first. *)
Lemma dec_ind (P : Z -> Prop) :
  (forall d, 0 <= d < 10 -> P d) ->
  (forall n d, 1 <= n -> 0 <= d < 10 -> P n -> P (n * 10 + d)) ->
  forall n, 0 <= n -> P n.
Proof.
  intros Hd Hs n Hn. pattern n. apply Zlt_0_ind; [|done].
  intros x IH Hx. destruct (Z.lt_ge_cases x 10); [by apply Hd|].
  replace x with (x / 10 * 10 + x mod 10) by zdiv_lia.
  apply Hs; [zdiv_lia|zdiv_lia|]. apply IH. zdiv_lia.
Qed.

Lemma fmt_u_digits n : 0 <= n -> n < 10 ^ 19 -> Forall (fun c => isdigit c = true) (fmt_u n).
Proof.
  intros Hn. pattern n. apply dec_ind; [| |done].
  - intros d Hd _. rewrite fmt_u_digit by done. constructor; [unfold isdigit; lia|constructor].
  - intros m d Hm Hd IH Hb. rewrite fmt_u_step by done. apply Forall_app.
    split; [apply IH; lia|]. constructor; [unfold isdigit; lia|constructor].
Qed.

Lemma fmt_u_nonempty n : 0 <= n -> n < 10 ^ 19 -> fmt_u n <> [].
Proof.
  intros Hn. pattern n. apply dec_ind; [| |done].
  - intros d Hd _. by rewrite fmt_u_digit.
  - intros m d Hm Hd IH Hb. rewrite fmt_u_step by done. by destruct (fmt_u m).
Qed.

Lemma zlen_fmt_u_bound k n : 0 <= n < 10 ^ Z.of_nat k -> (0 < k <= 20)%nat ->
  (length (fmt_u n) <= k)%nat.
Proof.
  intros Hn Hk. unfold fmt_u. rewrite (dec_loop_fuel k) by lia. clear Hk.
  revert n Hn. induction k as [|k IH]; intros n Hn; simpl; [lia|].
  destruct (Z.ltb_spec n 10); [simpl; lia|]. rewrite length_app. simpl.
  rewrite Nat2Z.inj_succ, Z.pow_succ_r in Hn by lia.
  enough (length (dec_loop k (n / 10)) <= k)%nat by lia. apply IH.
  split; [zdiv_lia|]. apply Z.div_lt_upper_bound; lia.
Qed.

Lemma atoi_digits_app l : forall rest k, Forall (fun c => isdigit c = true) l ->
  atoi_digits (l ++ rest) k = atoi_digits rest (atoi_digits l k).
Proof.
  induction l as [|c l IH]; intros rest k Hl; [done|].
  apply List.Forall_cons_iff in Hl as [Hc Hl]. simpl. by rewrite Hc, IH.
Qed.

Lemma atoi_digits_fmt n : 0 <= n -> n < 10 ^ 19 -> atoi_digits (fmt_u n) 0 = n.
Proof.
  intros Hn. pattern n. apply dec_ind; [| |done].
  - intros d Hd _. rewrite fmt_u_digit by done. simpl. unfold isdigit.
    rewrite !(proj2 (Z.leb_le _ _)) by lia. simpl. lia.
  - intros m d Hm Hd IH Hb. rewrite fmt_u_step, atoi_digits_app, IH by (try apply fmt_u_digits; lia).
    simpl. unfold isdigit. rewrite !(proj2 (Z.leb_le _ _)) by lia. simpl. lia.
Qed.

(** A digit is neither white space nor a sign. *)
Lemma atoi_fmt_u n : 0 <= n -> n < 10 ^ 19 -> atoi (fmt_u n) = n.
Proof.
  intros Hn Hb. pose proof (fmt_u_digits n Hn Hb) as Hd. pose proof (atoi_digits_fmt n Hn Hb) as Ha.
  destruct (fmt_u n) as [|c rest]; [done|]. apply List.Forall_cons_iff in Hd as [Hc _].
  unfold isdigit in Hc. apply andb_prop in Hc as [H1 H2].
  apply Z.leb_le in H1, H2. unfold atoi.
  rewrite (proj2 (Z.eqb_neq c 32)), (proj2 (Z.leb_gt c 13)), andb_false_r by lia.
  by rewrite (proj2 (Z.eqb_neq c 45)), (proj2 (Z.eqb_neq c 43)) by lia.
Qed.

(** Text without a NUL is its own string. *)
Lemma until_nul_id l : Forall (fun c => c <> 0) l -> until_nul l = l.
Proof.
  induction 1 as [|c l Hc _ IH]; [done|]. simpl. by rewrite (proj2 (Z.eqb_neq _ _)), IH.
Qed.

Lemma until_nul_app l rest : Forall (fun c => c <> 0) l -> until_nul (l ++ 0 :: rest) = l.
Proof.
  induction 1 as [|c l Hc _ IH]; [done|]. simpl. by rewrite (proj2 (Z.eqb_neq _ _)), IH.
Qed.

Lemma until_nul_nonzero l : Forall (fun c => c <> 0) (until_nul l).
Proof.
  induction l as [|c l IH]; [constructor|]. simpl.
  destruct (Z.eqb_spec c 0); [constructor|by constructor].
Qed.

Lemma digits_nonzero l : Forall (fun c => isdigit c = true) l -> Forall (fun c => c <> 0) l.
Proof.
  apply Forall_impl. intros c Hc ->. done.
Qed.

Lemma strchr_spec s c :
  match strchr s c with
  | Some (pre, post) => s = pre ++ c :: post /\ Forall (fun x => x <> c) pre
  | None => Forall (fun x => x <> c) s
  end.
Proof.
  induction s as [|x s IH]; simpl; [constructor|]. destruct (Z.eqb_spec x c) as [->|Hne].
  - by split.
  - destruct (strchr s c) as [[pre post]|]; [|by constructor].
    destruct IH as [-> Hp]. split; [done|]. by constructor.
Qed.

Lemma strchr_app pre post c : Forall (fun x => x <> c) pre ->
  strchr (pre ++ c :: post) c = Some (pre, post).
Proof.
  induction 1 as [|x pre Hx _ IH]; simpl; [by rewrite Z.eqb_refl|].
  by rewrite (proj2 (Z.eqb_neq _ _)), IH.
Qed.

(** ** Dotted quads *)

Definition dots (l : list Z) : list Z := flat_map (fun b => fmt_u b ++ [46]) l.

Lemma inet_ntop_snoc l x : inet_ntop (l ++ [x]) = dots l ++ fmt_u x.
Proof.
  induction l as [|a l IH]; [done|]. simpl app. change (dots (a :: l)) with ((fmt_u a ++ [46]) ++ dots l).
  rewrite <- !app_assoc, <- IH. by destruct l.
Qed.

Lemma isdigit_range c : isdigit c = true <-> 0 <= c - 48 < 10.
Proof. unfold isdigit. lia. Qed.

(** What [inet_pton] accepts is the text of the four bytes it returns. *)
Lemma inet_pton_loop_sound s : forall saw octets tp tmp r,
  inet_pton_loop s saw octets tp tmp = Some r -> bytes tmp -> is_byte tp ->
  octets = zlen tmp + Z.b2z saw -> (saw = false -> tp = 0 /\ octets <= 3) -> octets <= 4 ->
  zlen r = 4 /\ bytes r /\
  inet_ntop r = dots (reverse tmp) ++ (if saw then fmt_u tp else []) ++ s.
Proof.
  induction s as [|c s IH]; intros saw octets tp tmp r; cbn [inet_pton_loop].
  - destruct (Z.ltb_spec octets 4); [done|]. intros [= <-] Htmp Htp Ho Hs Hle.
    destruct saw; [|destruct (Hs eq_refl); lia]. simpl in Ho.
    rewrite reverse_cons, inet_ntop_snoc, app_nil_r. split; [zlen_lia|]. split; [|done].
    apply Forall_app. split; [by apply Forall_reverse|by constructor].
  - destruct (isdigit c) eqn:Hc.
    + apply isdigit_range in Hc. destruct (saw && (tp =? 0)) eqn:Hz; [done|].
      destruct (Z.ltb_spec 255 (tp * 10 + (c - 48))) as [|Hnew]; [done|].
      destruct saw; cbn [negb andb] in *.
      * intros Hl Htmp Htp Ho Hs Hle. apply Z.eqb_neq in Hz. unfold is_byte in *.
        destruct (IH _ _ _ _ _ Hl) as (? & ? & ->); try done; try (unfold is_byte; lia).
        rewrite fmt_u_step by lia. rewrite <- !app_assoc. simpl.
        by replace (48 + (c - 48)) with c by lia.
      * destruct (Z.ltb_spec 4 (octets + 1)); [done|]. intros Hl Htmp Htp Ho Hs Hle.
        destruct (Hs eq_refl) as [-> Hle3]. simpl in Ho.
        destruct (IH _ _ _ _ _ Hl) as (? & ? & ->); try done; try (unfold is_byte; simpl; lia).
        rewrite Z.mul_0_l, Z.add_0_l, fmt_u_digit by lia. simpl.
        by replace (48 + (c - 48)) with c by lia.
    + destruct (Z.eqb_spec c 46) as [->|]; simpl; [|done]. destruct saw; [|done].
      destruct (Z.eqb_spec octets 4); [done|]. intros Hl Htmp Htp Ho Hs Hle. simpl in Ho.
      destruct (IH _ _ _ _ _ Hl) as (? & ? & ->); try done;
        try (by constructor); try (rewrite ?zlen_cons; simpl; lia).
      rewrite reverse_cons. unfold dots. rewrite flat_map_app. simpl.
      by rewrite <- !app_assoc.
Qed.

Lemma inet_pton_loop_number n octets tmp : 0 <= n -> n <= 255 -> octets < 4 -> forall rest,
  inet_pton_loop (fmt_u n ++ rest) false octets 0 tmp = inet_pton_loop rest true (octets + 1) n tmp.
Proof.
  intros Hn Hb Ho. revert Hb. pattern n. apply dec_ind; [| |done].
  - intros d Hd _ rest. rewrite fmt_u_digit by done. cbn [app inet_pton_loop andb negb].
    rewrite (proj2 (isdigit_range _)) by lia.
    rewrite (proj2 (Z.ltb_ge _ _)), (proj2 (Z.ltb_ge 4 _)) by lia. f_equal. lia.
  - intros m d Hm Hd IH Hb rest. rewrite fmt_u_step, <- app_assoc, IH by lia.
    cbn [app inet_pton_loop andb negb]. rewrite (proj2 (isdigit_range _)) by lia.
    rewrite (proj2 (Z.eqb_neq _ _)), (proj2 (Z.ltb_ge _ _)) by lia. f_equal. lia.
Qed.

Lemma inet_pton_loop_dot s octets tp tmp : octets < 4 ->
  inet_pton_loop (46 :: s) true octets tp tmp = inet_pton_loop s false octets 0 (tp :: tmp).
Proof. intros. cbn [inet_pton_loop]. simpl. by rewrite (proj2 (Z.eqb_neq _ _)) by lia. Qed.

Lemma inet_pton_ntop a b c d : bytes [a; b; c; d] ->
  inet_pton (inet_ntop [a; b; c; d]) = Some [a; b; c; d].
Proof.
  intros H. repeat (apply List.Forall_cons_iff in H as [? H]). unfold is_byte in *.
  unfold inet_pton. cbn [inet_ntop].
  do 3 rewrite inet_pton_loop_number, inet_pton_loop_dot by lia.
  rewrite <- (app_nil_r (fmt_u d)), inet_pton_loop_number by lia. done.
Qed.

(** [inet_pton] accepts exactly the dotted quads, and reads their bytes. *)
Lemma inet_pton_spec s b :
  inet_pton s = Some b <-> zlen b = 4 /\ bytes b /\ s = inet_ntop b.
Proof.
  split.
  - intros H. apply inet_pton_loop_sound in H as (? & ? & Heq); done.
  - intros (Hl & Hb & ->). unfold zlen in Hl.
    destruct b as [|x1 [|x2 [|x3 [|x4 [|]]]]]; simpl in Hl; try lia. by apply inet_pton_ntop.
Qed.

Lemma length_fmt_byte b : is_byte b -> (1 <= length (fmt_u b) <= 3)%nat.
Proof.
  intros Hb. unfold is_byte in Hb. split; [|apply (zlen_fmt_u_bound 3); simpl; lia].
  pose proof (fmt_u_nonempty b ltac:(lia) ltac:(lia)). destruct (fmt_u b); simpl; [done|lia].
Qed.

(** A dotted quad has at most fifteen characters. *)
Lemma zlen_inet_ntop b : zlen b = 4 -> bytes b -> zlen (inet_ntop b) <= 15.
Proof.
  intros Hl Hb. unfold zlen in Hl. destruct b as [|x1 [|x2 [|x3 [|x4 [|]]]]]; simpl in Hl; try lia.
  repeat (apply List.Forall_cons_iff in Hb as [? Hb]).
  pose proof (length_fmt_byte x1). pose proof (length_fmt_byte x2).
  pose proof (length_fmt_byte x3). pose proof (length_fmt_byte x4).
  cbn [inet_ntop]. unfold zlen. rewrite !length_app. cbn [length]. rewrite !length_app.
  cbn [length]. rewrite !length_app. cbn [length]. intuition lia.
Qed.

Lemma inet_ntop_digits b : bytes b ->
  Forall (fun c => isdigit c = true \/ c = 46) (inet_ntop b).
Proof.
  intros Hb. induction Hb as [|x b Hx Hb IH]; [constructor|]. unfold is_byte in Hx.
  assert (Forall (fun c => isdigit c = true \/ c = 46) (fmt_u x)) as Hf.
  { eapply Forall_impl; [|apply fmt_u_digits; lia]. by left. }
  destruct b; [done|]. apply Forall_app. split; [done|]. constructor; [by right|done].
Qed.

(** ** [inet_network] *)

Lemma fmt_u_head n : 0 <= n -> 1 <= n < 10 ^ 19 -> exists c r, fmt_u n = c :: r /\ 49 <= c <= 57.
Proof.
  intros Hn. pattern n. apply dec_ind; [| |done].
  - intros d Hd Hb. rewrite fmt_u_digit by done. exists (48 + d), []. split; [done|lia].
  - intros m d Hm Hd IH Hb. rewrite fmt_u_step by lia. destruct IH as (c & r & -> & Hc); [lia|].
    by exists c, (r ++ [48 + d]).
Qed.

Lemma network_digits_number n dg : 0 <= n -> n <= 255 -> forall rest,
  network_digits (fmt_u n ++ rest) 10 dg 0 = network_digits rest 10 true n.
Proof.
  intros Hn. pattern n. apply dec_ind; [| |done].
  - intros d Hd _ rest. rewrite fmt_u_digit by done. cbn [app network_digits andb].
    rewrite (proj2 (isdigit_range _)) by lia. rewrite (wrap_small 32) by lia.
    simpl andb. cbn iota. f_equal. lia.
  - intros m d Hm Hd IH Hb rest. rewrite fmt_u_step, <- app_assoc, IH by lia.
    cbn [app network_digits andb]. rewrite (proj2 (isdigit_range _)) by lia.
    rewrite (wrap_small 32) by lia. simpl andb. cbn iota. f_equal. lia.
Qed.

(** One part of a dotted quad. *)
Lemma network_parts_number fuel n rest parts :
  is_byte n -> (rest = [] \/ exists r, rest = 46 :: r) ->
  network_parts (S fuel) (fmt_u n ++ rest) parts =
    match rest with
    | [] => Some (reverse (n :: parts))
    | _ :: r => network_parts fuel r (n :: parts)
    end.
Proof.
  unfold is_byte. intros Hn Hrest. cbn [network_parts].
  assert (forall base, network_digits rest base true n = Some (rest, true, n)) as Hstop.
  { intros base. destruct Hrest as [-> | [r ->]]; [done|]. cbn [network_digits].
    change (isdigit 46) with false. by destruct (base =? 16). }
  destruct (Z.eq_dec n 0) as [->|Hz].
  - change (fmt_u 0) with [48]. cbn [app]. change (48 =? 48) with true. cbn iota beta.
    destruct Hrest as [-> | [r ->]]; [done|]. change (46 =? 120) with false.
    change (46 =? 88) with false. cbn [orb]. by rewrite Hstop.
  - destruct (fmt_u_head n) as (c & r & Hf & Hc); [lia..|]. rewrite Hf. cbn [app].
    rewrite (proj2 (Z.eqb_neq c 48)), (proj2 (Z.eqb_neq c 120)), (proj2 (Z.eqb_neq c 88)) by lia.
    cbn [orb]. change (c :: r ++ rest) with ((c :: r) ++ rest). rewrite <- Hf.
    rewrite network_digits_number, Hstop by lia. cbn [negb].
    rewrite (proj2 (Z.ltb_ge _ _)) by lia. by destruct Hrest as [-> | [r' ->]].
Qed.

Lemma network_fold_step v p : 0 <= v < 2 ^ 24 -> is_byte p ->
  Z.lor (u32 (Z.shiftl v 8)) (Z.land p 255) = v * 256 + p.
Proof.
  unfold is_byte. intros Hv Hp. rewrite Z.shiftl_mul_pow2, (wrap_small 32), land_ff by lia.
  rewrite (Z.mod_small p) by lia. rewrite (lor_low 8) by zdiv_lia. lia.
Qed.

(** [inet_network] reads a dotted quad as a number in host order. *)
Lemma inet_network_ntop a b c d : bytes [a; b; c; d] ->
  inet_network (inet_ntop [a; b; c; d]) = a * 2 ^ 24 + b * 2 ^ 16 + c * 2 ^ 8 + d.
Proof.
  intros H. do 4 (apply List.Forall_cons_iff in H as [? H]). unfold inet_network.
  cbn [inet_ntop]. rewrite !network_parts_number by (done || (right; by eexists)).
  rewrite <- (app_nil_r (fmt_u d)), network_parts_number; [|done|by left].
  unfold is_byte in *. change (reverse [d; c; b; a]) with [a; b; c; d]. cbn [foldl].
  change (Z.lor (u32 (Z.shiftl 0 8)) ?x) with x. rewrite land_ff, (Z.mod_small a) by lia.
  rewrite (network_fold_step a), (network_fold_step (a * 256 + b)), network_fold_step
    by (unfold is_byte; lia). lia.
Qed.
