(* ===== verification/Net.v ===== *)
(** The network helpers of [src/utils/net.c] and [src/utils/net.h]: validation
    and conversion of IPv4 text, subnet arithmetic and MAC addresses.

    Text is checked against the exact set of dotted quads; the functions that
    copy into a fixed array or read past a string can fault.  A local variable
    that the code leaves uninitialised on some path is an argument. *)
From stdpp Require Import base list strings numbers.
From Stdlib Require Import ZArith Lia.
From S2P Require Import Prelude Os Text.

Definition OS_INET_ADDRSTRLEN : Z := 22.
Definition IP_ALEN : Z := 4.
Definition ETHER_ADDR_LEN : Z := 6.

(** ** IPv4 text *)

(** [proc_ip] is the array the address part is copied to; [strtol] is [atoi]
    on a text of at most two characters. *)
Definition validate_ipv4_string (ip : list Z) : outcome bool :=
  let proc_ip := zeros (Z.to_nat OS_INET_ADDRSTRLEN) in
  let check (proc : list Z) :=
    match inet_pton (until_nul proc) with Some _ => true | None => false end in
  match strchr ip 47 with
  | Some (pre, netmask) =>
      match edge_os_strlcpy proc_ip ip (zlen pre + 1) with
      | Fault f => Fault f
      | Done (_, proc) =>
          if (2 <? zlen netmask) || (zlen netmask <? 1) then Done false
          else if negb (is_number (Some netmask)) then Done false
          else if 32 <? atoi netmask then Done false
          else Done (check proc)
      end
  | None =>
      match edge_os_strlcpy proc_ip ip OS_INET_ADDRSTRLEN with
      | Fault f => Fault f
      | Done (_, proc) => Done (check proc)
      end
  end.

(** The return value and the value left in [*addr]. *)
Definition ip_2_nbo (ip subnet_mask : list Z) (addr : option Z) : Z * option Z :=
  match addr with
  | None => (-1, None)
  | Some a =>
      let subnet := inet_network subnet_mask in
      if subnet =? INADDR_NONE then (-1, Some a)
      else
        let a' := inet_network ip in
        if a' =? INADDR_NONE then (-1, Some a') else (0, Some (Z.land a' subnet))
  end.

(** [junk] is the value of the uninitialised [addr.s_addr], which is used when
    [inet_pton] answers 0. *)
Definition ip4_2_buf (ip : option (list Z)) (buf : option (list Z)) (junk : Z) :
    outcome (Z * option (list Z)) :=
  match ip, buf with
  | None, _ => Done (-1, buf)
  | _, None => Done (-1, buf)
  | Some s, Some _ =>
      match validate_ipv4_string s with
      | Fault f => Fault f
      | Done false => Done (-1, buf)
      | Done true =>
          let s_addr := match inet_pton s with Some b => in_addr_of b | None => junk end in
          Done (0, Some (in_addr_bytes s_addr))
      end
  end.

Definition bit32_2_ip (addr : Z) : list Z := inet_ntop (in_addr_bytes addr).
Definition inaddr4_2_ip (addr : Z) : list Z := inet_ntop (in_addr_bytes addr).

(** The loop of [get_short_subnet]: [n] iterations left. *)
Fixpoint short_subnet_loop (n : nat) (addr shift short_mask : Z) : Z :=
  match n with
  | O => short_mask
  | S n' =>
      short_subnet_loop n' addr (Z.shiftr shift 1)
        (if Z.land addr shift =? 0 then short_mask else u8 (short_mask + 1))
  end.

Definition get_short_subnet (subnet_mask : list Z) : Z :=
  let addr := inet_network subnet_mask in
  if addr =? INADDR_NONE then u8 (-1)
  else short_subnet_loop 31 addr 0x80000000 0.

Definition be_word (b : list Z) : Z :=
  match b with
  | [b0; b1; b2; b3] =>
      u32 (Z.shiftl b0 24 + Z.shiftl b1 16 + Z.shiftl b2 8 + b3)
  | _ => 0
  end.

(** The return value and the value left in [*host]; [j1] and [j2] are the
    uninitialised words of the two conversions. *)
Definition get_ip_host (ip subnet_mask : option (list Z)) (host j1 j2 : Z) :
    outcome (Z * Z) :=
  match ip4_2_buf ip (Some (zeros 4)) j1 with
  | Fault f => Fault f
  | Done (r1, ipbuf) =>
      if r1 <? 0 then Done (-1, host)
      else match ip4_2_buf subnet_mask (Some (zeros 4)) j2 with
           | Fault f => Fault f
           | Done (r2, mbuf) =>
               if r2 <? 0 then Done (-1, host)
               else Done (0, Z.land (be_word (default [] ipbuf))
                               (u32 (Z.lnot (be_word (default [] mbuf)))))
           end
  end.

(** ** MAC addresses *)

Fixpoint skip_separators (pos : list Z) : outcome (list Z) :=
  match pos with
  | [] => Fault OutOfBounds
  | c :: rest => if (c =? 58) || (c =? 46) || (c =? 45) then skip_separators rest else Done pos
  end.

(** [txt] is the object the pointer designates, its NUL included.  The result
    is the position reached, or [None] for the return value -1, and the bytes
    stored. *)
Fixpoint hwaddr_loop (n : nat) (txt : list Z) : outcome (option (list Z) * list Z) :=
  match n with
  | O => Done (Some txt, [])
  | S n' =>
      match skip_separators txt with
      | Fault f => Fault f
      | Done [] => Fault OutOfBounds
      | Done (c1 :: t1) =>
          let a := hex2num c1 in
          if a <? 0 then Done (None, [])
          else match t1 with
               | [] => Fault OutOfBounds
               | c2 :: t2 =>
                   let b := hex2num c2 in
                   if b <? 0 then Done (None, [])
                   else match hwaddr_loop n' t2 with
                        | Fault f => Fault f
                        | Done (p, out) => Done (p, u8 (Z.lor (Z.shiftl a 4) b) :: out)
                        end
               end
      end
  end.

Definition edge_hwaddr_aton2 (txt : list Z) : outcome (Z * list Z) :=
  match hwaddr_loop (Z.to_nat ETHER_ADDR_LEN) txt with
  | Fault f => Fault f
  | Done (None, out) => Done (-1, out)
  | Done (Some pos, out) => Done (zlen txt - zlen pos, out)
  end.

(** [MACSTR] applied to [MAC2STR]. *)
Fixpoint macstr (mac : list Z) : list Z :=
  match mac with
  | [] => []
  | [b] => fmt_02x b
  | b :: rest => fmt_02x b ++ 58 :: macstr rest
  end.

(** ** Validation *)

Abbreviation nul_free := (Forall (fun c : Z => c <> 0)).

Definition dotted_quad (s : list Z) : Prop :=
  exists q, zlen q = 4 /\ bytes q /\ s = inet_ntop q.

Lemma inet_pton_dotted s :
  (match inet_pton s with Some _ => true | None => false end) = true <-> dotted_quad s.
Proof.
  destruct (inet_pton s) as [q|] eqn:Hq; split; try done.
  - intros _. exists q. by apply inet_pton_spec.
  - intros (q & Hq'). apply inet_pton_spec in Hq'. by rewrite Hq in Hq'.
Qed.

(** A bounded copy of a longer string keeps its first [siz - 1] bytes. *)
Lemma strlcpy_truncates n src siz : nul_free src -> 1 <= siz <= Z.of_nat n -> siz <= zlen src ->
  exists d, edge_os_strlcpy (zeros n) src siz = Done (zlen src, d) /\
    until_nul d = take (Z.to_nat (siz - 1)) src.
Proof.
  intros Hs Hsiz Hl. unfold edge_os_strlcpy. rewrite (proj2 (Z.leb_gt _ _)) by lia.
  rewrite wr_head by (unfold zeros; zlen_lia).
  set (k := Z.to_nat (siz - 1)). set (rest := drop _ (zeros n)).
  assert (exists c, take (Z.to_nat siz) src = take k src ++ [c]) as [c Hc].
  { replace (Z.to_nat siz) with (S k) by lia. destruct (src !! k) as [c|] eqn:Hk.
    - exists c. by apply take_S_r.
    - apply lookup_ge_None in Hk. unfold zlen in Hl. lia. }
  rewrite Hc, <- app_assoc, (wr_app (take k src) [c] rest [0]) by (done || zlen_lia).
  eexists. split; [done|]. apply until_nul_app. by apply Forall_take.
Qed.

(** A string that fits is copied whole. *)
Lemma strlcpy_fits n src siz : nul_free src -> zlen src < siz <= Z.of_nat n ->
  exists d, edge_os_strlcpy (zeros n) src siz = Done (zlen src, d) /\ until_nul d = src.
Proof.
  intros Hs Hsiz. unfold edge_os_strlcpy. rewrite (proj2 (Z.leb_le _ _)) by lia.
  rewrite wr_head by (unfold zeros; zlen_lia). eexists. split; [done|].
  rewrite <- app_assoc. by apply until_nul_app.
Qed.

(** A size beyond the destination is written out of its bounds. *)
Lemma strlcpy_overruns n src siz : Z.of_nat n < siz <= zlen src ->
  edge_os_strlcpy (zeros n) src siz = Fault OutOfBounds.
Proof.
  intros Hsiz. unfold edge_os_strlcpy. rewrite (proj2 (Z.leb_gt _ _)) by lia.
  unfold wr. rewrite (proj2 (Z.leb_gt (0 + _) _)) by (unfold zeros; zlen_lia). done.
Qed.

Lemma validate_plain s : nul_free s -> Forall (fun c => c <> 47) s ->
  exists b, validate_ipv4_string s = Done b /\ (b = true <-> dotted_quad s).
Proof.
  intros Hn Hs. unfold validate_ipv4_string. pose proof (strchr_spec s 47) as Hc.
  destruct (strchr s 47) as [[pre post]|].
  { destruct Hc as [-> _]. apply Forall_app in Hs as [_ Hs].
    by apply List.Forall_cons_iff in Hs as [? _]. }
  change (Z.to_nat OS_INET_ADDRSTRLEN) with 22%nat. unfold OS_INET_ADDRSTRLEN.
  destruct (Z.le_gt_cases 22 (zlen s)) as [Hl|Hl].
  - destruct (strlcpy_truncates 22 s 22) as (d & -> & Hd); [done|lia|done|].
    eexists. split; [done|]. rewrite Hd, inet_pton_dotted. split.
    + intros (q & Hq & Hb & Heq). pose proof (zlen_inet_ntop q Hq Hb) as Hz.
      rewrite <- Heq in Hz. zlen_lia.
    + intros (q & Hq & Hb & ->). pose proof (zlen_inet_ntop q Hq Hb). lia.
  - destruct (strlcpy_fits 22 s 22) as (d & -> & Hd); [done|lia|].
    eexists. split; [done|]. by rewrite Hd, inet_pton_dotted.
Qed.

Lemma validate_netmask p m : nul_free (p ++ 47 :: m) -> Forall (fun c => c <> 47) p ->
  zlen p <= 21 -> exists b, validate_ipv4_string (p ++ 47 :: m) = Done b /\
    (b = true <-> dotted_quad p /\ 1 <= zlen m <= 2 /\ is_decimal m /\ atoi m <= 32).
Proof.
  intros Hn Hp Hl. unfold validate_ipv4_string. rewrite strchr_app by done.
  change (Z.to_nat OS_INET_ADDRSTRLEN) with 22%nat.
  pose proof (zlen_nonneg p). pose proof (zlen_nonneg m).
  destruct (strlcpy_truncates 22 (p ++ 47 :: m) (zlen p + 1)) as (d & -> & Hd);
    [done|lia|rewrite zlen_app, zlen_cons; lia|].
  replace (Z.to_nat (zlen p + 1 - 1)) with (length p) in Hd by zlen_lia.
  rewrite take_app_length in Hd.
  destruct (Z.ltb_spec 2 (zlen m)), (Z.ltb_spec (zlen m) 1); cbn [orb];
    try (eexists; split; [done|]; split; [done|lia]).
  pose proof (is_number_short m ltac:(unfold MAX_64BIT_DIGITS; lia)) as Hnum.
  destruct (is_number (Some m)); cbn [negb].
  - destruct (Z.ltb_spec 32 (atoi m)); eexists; (split; [done|]); [split; [done|lia]|].
    rewrite Hd, inet_pton_dotted. intuition.
  - eexists. split; [done|]. split; [done|]. intros (_ & _ & Hdec & _). by apply Hnum in Hdec.
Qed.

(**  [validate_ipv4_string] decides IPv4 text: without a slash it answers
    true exactly for the dotted quads, with a slash exactly when the part before
    it is a dotted quad and the part after it is a number of one or two
    characters, at most 32 (a sign counts as a character, so [/-5] passes).
    When more than 21 characters precede the slash, the copy into the 22-byte
    array on the stack overruns it. *)
Theorem validate_ipv4_string_correct s p m :
  nul_free s -> nul_free (p ++ 47 :: m) -> Forall (fun c => c <> 47) p ->
  (Forall (fun c => c <> 47) s ->
   exists b, validate_ipv4_string s = Done b /\ (b = true <-> dotted_quad s)) /\
  (if decide (zlen p <= 21) then
     exists b, validate_ipv4_string (p ++ 47 :: m) = Done b /\
       (b = true <-> dotted_quad p /\ 1 <= zlen m <= 2 /\ is_decimal m /\ atoi m <= 32)
   else validate_ipv4_string (p ++ 47 :: m) = Fault OutOfBounds).
Proof.
  intros Hs Hpm Hp. split; [by apply validate_plain|]. case_decide; [by apply validate_netmask|].
  unfold validate_ipv4_string. rewrite strchr_app by done.
  change (Z.to_nat OS_INET_ADDRSTRLEN) with 22%nat.
  rewrite strlcpy_overruns; [done|]. pose proof (zlen_nonneg m). rewrite zlen_app, zlen_cons. lia.
Qed.

Lemma validate_ipv4_string_correct_witness :
  (exists b, validate_ipv4_string (cstr "10.0.1.24") = Done b /\
     (b = true <-> dotted_quad (cstr "10.0.1.24"))) /\
  validate_ipv4_string (cstr "1111111111111111111111/24") = Fault OutOfBounds.
Proof.
  split.
  - apply (validate_ipv4_string_correct (cstr "10.0.1.24") [] []); by repeat constructor.
  - apply (validate_ipv4_string_correct [] (cstr "1111111111111111111111") (cstr "24"));
      by repeat constructor.
Defined.

(** ** Conversions *)

Lemma ntop_no_slash q : bytes q ->
  nul_free (inet_ntop q) /\ Forall (fun c => c <> 47) (inet_ntop q).
Proof.
  intros Hq. split; (eapply Forall_impl; [|by apply inet_ntop_digits]);
    intros c [Hc| ->]; try done; apply isdigit_range in Hc; lia.
Qed.

Lemma validate_ntop q : zlen q = 4 -> bytes q -> validate_ipv4_string (inet_ntop q) = Done true.
Proof.
  intros Hl Hb. destruct (ntop_no_slash q Hb) as [H1 H2].
  destruct (validate_plain _ H1 H2) as (b & -> & Hb'). f_equal. apply Hb'. by exists q.
Qed.

(** The four bytes of a word, and the word of four bytes. *)
Lemma quad_cases q : zlen q = 4 -> bytes q ->
  exists a b c d, q = [a; b; c; d] /\ is_byte a /\ is_byte b /\ is_byte c /\ is_byte d.
Proof.
  intros Hl Hb. unfold zlen in Hl. destruct q as [|a [|b [|c [|d [|]]]]]; simpl in Hl; try lia.
  repeat (apply List.Forall_cons_iff in Hb as [? Hb]). by exists a, b, c, d.
Qed.

Lemma in_addr_bytes_of q : zlen q = 4 -> bytes q -> in_addr_bytes (in_addr_of q) = q.
Proof.
  intros Hl Hb. destruct (quad_cases q Hl Hb) as (a & b & c & d & -> & ? & ? & ? & ?).
  unfold is_byte, in_addr_bytes, in_addr_of in *. rewrite !land_ff, !Z.shiftr_div_pow2 by lia.
  f_equal; [zdiv_lia|]. f_equal; [zdiv_lia|]. f_equal; [zdiv_lia|]. f_equal. zdiv_lia.
Qed.

Lemma bytes_in_addr a : zlen (in_addr_bytes a) = 4 /\ bytes (in_addr_bytes a).
Proof.
  split; [done|]. unfold in_addr_bytes. rewrite !land_ff.
  repeat constructor; apply (Z.mod_pos_bound _ 256); lia.
Qed.

Lemma be_word_value q : zlen q = 4 -> bytes q ->
  be_word q = inet_network (inet_ntop q) /\ 0 <= be_word q < 2 ^ 32.
Proof.
  intros Hl Hb. destruct (quad_cases q Hl Hb) as (a & b & c & d & -> & ? & ? & ? & ?).
  rewrite inet_network_ntop by done. unfold be_word, is_byte in *.
  rewrite !Z.shiftl_mul_pow2 by lia. rewrite (wrap_small 32) by lia. lia.
Qed.

Lemma ip4_2_buf_ntop q buf junk : zlen q = 4 -> bytes q ->
  ip4_2_buf (Some (inet_ntop q)) (Some buf) junk = Done (0, Some q).
Proof.
  intros Hl Hb. unfold ip4_2_buf. rewrite validate_ntop by done.
  assert (inet_pton (inet_ntop q) = Some q) as -> by (by apply inet_pton_spec).
  by rewrite in_addr_bytes_of.
Qed.

Lemma land_lnot_split a m : 0 <= a < 2 ^ 32 -> 0 <= m < 2 ^ 32 ->
  Z.land a m + Z.land a (u32 (Z.lnot m)) = a /\ Z.land (Z.land a m) (Z.land a (u32 (Z.lnot m))) = 0.
Proof.
  intros Ha Hm.
  assert (Z.land a (u32 (Z.lnot m)) = Z.land a (Z.lnot m)) as ->.
  { unfold wrap. rewrite <- Z.land_ones, Z.land_comm, <- Z.land_assoc by lia.
    rewrite (Z.land_comm _ a), Z.land_ones, Z.mod_small by lia. apply Z.land_comm. }
  assert (Z.land (Z.land a m) (Z.land a (Z.lnot m)) = 0) as H0.
  { apply Z.bits_inj'. intros i Hi. rewrite !Z.land_spec, Z.lnot_spec, Z.bits_0 by done.
    by destruct (Z.testbit a i), (Z.testbit m i). }
  split; [|done]. rewrite <- Z.add_lor_land, H0. rewrite <- Z.land_lor_distr_r.
  rewrite Z.lor_lnot_diag, Z.land_m1_r. lia.
Qed.

(**  The IPv4 conversions agree on the text of any address and mask:
    [ip4_2_buf] returns the four bytes that were printed, whatever the
    uninitialised word held; [ip_2_nbo] and [get_ip_host] split the address
    into a network part and a host part that are disjoint and add up to it,
    unless one of the two texts is [255.255.255.255], which [ip_2_nbo]
    refuses. *)
Theorem ipv4_conversions_correct addr mask buf j a0 h0 j1 j2 :
  let ip := bit32_2_ip addr in
  let netmask := inaddr4_2_ip mask in
  ip4_2_buf (Some ip) (Some buf) j = Done (0, Some (in_addr_bytes addr)) /\
  exists host, get_ip_host (Some ip) (Some netmask) h0 j1 j2 = Done (0, host) /\
    if decide (inet_network ip = INADDR_NONE \/ inet_network netmask = INADDR_NONE)
    then (ip_2_nbo ip netmask (Some a0)).1 = -1
    else exists net, ip_2_nbo ip netmask (Some a0) = (0, Some net) /\
      net + host = inet_network ip /\ Z.land net host = 0.
Proof.
  intros ip netmask. subst ip netmask. unfold bit32_2_ip, inaddr4_2_ip.
  destruct (bytes_in_addr addr) as [Hla Hba], (bytes_in_addr mask) as [Hlm Hbm].
  set (qa := in_addr_bytes addr) in *. set (qm := in_addr_bytes mask) in *.
  split; [by rewrite ip4_2_buf_ntop|].
  unfold get_ip_host. rewrite !ip4_2_buf_ntop by done. eexists. split; [done|]. cbn [default].
  destruct (be_word_value qa Hla Hba) as [Ha Ha'], (be_word_value qm Hlm Hbm) as [Hm Hm'].
  unfold ip_2_nbo. rewrite <- Ha, <- Hm.
  destruct (land_lnot_split (be_word qa) (be_word qm) Ha' Hm') as [Hsum Hdis].
  case_decide as Hd.
  - destruct (Z.eqb_spec (be_word qm) INADDR_NONE); [done|].
    destruct (Z.eqb_spec (be_word qa) INADDR_NONE); [done|]. tauto.
  - rewrite !(proj2 (Z.eqb_neq _ _)) by tauto. eexists. split; [done|]. done.
Qed.

(** A network prefix text is accepted but not converted: the bytes are those of
    the uninitialised word. *)
Lemma ip4_2_buf_prefix_indeterminate junk : 0 <= junk < 2 ^ 32 ->
  ip4_2_buf (Some (cstr "10.0.0.1/24")) (Some (zeros 4)) junk =
    Done (0, Some (in_addr_bytes junk)).
Proof. done. Qed.

(** The text of the mask with [k] leading ones. *)
Definition prefix_mask (k : nat) : list Z :=
  let m := 2 ^ 32 - 2 ^ (32 - Z.of_nat k) in
  inet_ntop (reverse (in_addr_bytes m)).

(**  [get_short_subnet] returns the prefix length of every mask from /0 to
    /31; for the mask of a single host, 255.255.255.255, it returns 255. *)
Theorem get_short_subnet_correct k : (k <= 32)%nat ->
  get_short_subnet (prefix_mask k) = if (k <? 32)%nat then Z.of_nat k else 255.
Proof. intros Hk. do 33 (destruct k as [|k]; [by vm_compute|]). lia. Qed.

Lemma get_short_subnet_correct_witness : get_short_subnet (cstr "255.255.255.0") = 24.
Proof. apply (get_short_subnet_correct 24). lia. Defined.

(** ** MAC addresses *)

Lemma skip_separators_safe txt : In 0 txt ->
  exists p, skip_separators txt = Done p /\ In 0 p /\ suffix p txt.
Proof.
  induction txt as [|c txt IH]; [done|]. intros Hin. cbn [skip_separators].
  destruct ((c =? 58) || (c =? 46) || (c =? 45)) eqn:Hc; [|by exists (c :: txt)].
  destruct Hin as [->|Hin]; [done|]. destruct (IH Hin) as (p & Hp & H0 & Hs).
  exists p. split; [done|]. split; [done|]. by apply suffix_cons_r.
Qed.

Lemma hex2num_zero : hex2num 0 = -1.
Proof. done. Qed.

Lemma hwaddr_loop_safe n : forall txt, In 0 txt ->
  exists p out, hwaddr_loop n txt = Done (p, out) /\ bytes out /\ (length out <= n)%nat /\
    (forall pos, p = Some pos -> length out = n /\ In 0 pos /\ suffix pos txt /\
       (2 * n <= length txt - length pos)%nat).
Proof.
  induction n as [|n IH]; intros txt Hin; cbn [hwaddr_loop].
  { exists (Some txt), []. split; [done|]. split; [constructor|]. split; [done|].
    intros pos [= <-]. split; [done|]. split; [done|]. split; [done|lia]. }
  destruct (skip_separators_safe txt Hin) as (p & -> & Hp & Hs).
  destruct p as [|c1 t1]; [done|]. destruct (Z.ltb_spec (hex2num c1) 0) as [|H1].
  { exists None, []. split; [done|]. split; [constructor|]. split; [simpl; lia|done]. }
  destruct Hp as [->|Hp]; [done|]. destruct t1 as [|c2 t2]; [done|].
  destruct (Z.ltb_spec (hex2num c2) 0) as [|H2].
  { exists None, []. split; [done|]. split; [constructor|]. split; [simpl; lia|done]. }
  destruct Hp as [->|Hp]; [done|]. destruct (IH t2 Hp) as (p' & out & -> & Hb & Hl & Hpos).
  eexists _, _. split; [done|]. split; [constructor; [apply u8_byte|done]|].
  split; [simpl; lia|]. intros pos ->. destruct (Hpos pos eq_refl) as (Hlo & H0 & Hsuf & Hlen).
  split; [simpl; lia|]. split; [done|]. split.
  - etrans; [|exact Hs]. by apply suffix_cons_r, suffix_cons_r.
  - apply suffix_length in Hs, Hsuf. simpl in *. lia.
Qed.

Lemma hwaddr_byte n b rest : is_byte b ->
  hwaddr_loop (S n) (fmt_02x b ++ rest) =
    match hwaddr_loop n rest with
    | Fault f => Fault f
    | Done (p, out) => Done (p, b :: out)
    end.
Proof.
  intros Hb. unfold fmt_02x, is_byte in *. cbn [app hwaddr_loop skip_separators].
  assert (forall n, 0 <= n < 16 -> hex_digit n <> 58 /\ hex_digit n <> 46 /\ hex_digit n <> 45)
    as Hne by (intros k Hk; unfold hex_digit; case_match; lia).
  destruct (Hne (b / 16)) as (? & ? & ?); [zdiv_lia|].
  rewrite !(proj2 (Z.eqb_neq _ _)) by done. cbn [orb].
  rewrite !hex2num_digit by zdiv_lia. rewrite !(proj2 (Z.ltb_ge _ _)) by zdiv_lia.
  rewrite (lor_shiftl_add _ _ 4) by zdiv_lia.
  rewrite u8_id by (unfold is_byte; zdiv_lia). by replace (b / 16 * 2 ^ 4 + b mod 16) with b by zdiv_lia.
Qed.

Lemma hwaddr_colon n txt : hwaddr_loop (S n) (58 :: txt) = hwaddr_loop (S n) txt.
Proof. done. Qed.

Lemma hwaddr_loop_macstr mac rest : bytes mac ->
  hwaddr_loop (length mac) (macstr mac ++ rest) = Done (Some rest, mac).
Proof.
  induction 1 as [|b mac Hb Hm IH]; [done|]. destruct mac as [|b' mac].
  - cbn [length macstr]. by rewrite hwaddr_byte.
  - change (macstr (b :: b' :: mac)) with (fmt_02x b ++ 58 :: macstr (b' :: mac)).
    rewrite <- app_assoc. cbn [length]. rewrite hwaddr_byte by done. cbn [app].
    rewrite hwaddr_colon. cbn [length] in IH. by rewrite IH.
Qed.

(**  [edge_hwaddr_aton2] never reads past the NUL of its text, stores at
    most six bytes, and succeeds only after storing six from at least twelve
    characters; the text that [MACSTR] prints for a MAC address is read back to
    that address, using its 17 characters. *)
Theorem edge_hwaddr_aton2_correct txt mac rest :
  In 0 txt -> bytes mac -> zlen mac = 6 ->
  (exists r out, edge_hwaddr_aton2 txt = Done (r, out) /\ bytes out /\ zlen out <= 6 /\
     (r = -1 \/ (12 <= r < zlen txt /\ zlen out = 6))) /\
  edge_hwaddr_aton2 (macstr mac ++ rest) = Done (17, mac).
Proof.
  intros Hin Hb Hl. unfold edge_hwaddr_aton2. change (Z.to_nat ETHER_ADDR_LEN) with 6%nat. split.
  - destruct (hwaddr_loop_safe 6 txt Hin) as (p & out & -> & Hbo & Hlo & Hpos).
    destruct p as [pos|]; eexists _, out; (split; [done|]); (split; [done|]); (split; [zlen_lia|]);
      [right|by left].
    destruct (Hpos pos eq_refl) as (Hlen & H0 & Hs & H12).
    destruct pos as [|c pos]; [done|]. apply suffix_length in Hs. unfold zlen. simpl in *. lia.
  - assert (length mac = 6%nat) as Hl' by zlen_lia. rewrite <- Hl' at 1.
    rewrite hwaddr_loop_macstr by done. f_equal. f_equal. rewrite zlen_app.
    destruct mac as [|? [|? [|? [|? [|? [|? [|]]]]]]]; try done. unfold zlen. simpl. lia.
Qed.

Lemma edge_hwaddr_aton2_correct_witness :
  edge_hwaddr_aton2 (cstr "0a:1b:2c:3d:4e:5f" ++ [0]) = Done (17, [10; 27; 44; 61; 78; 95]).
Proof.
  apply (edge_hwaddr_aton2_correct [0] [10; 27; 44; 61; 78; 95] [0]).
  - by left.
  - repeat constructor; done.
  - done.
Defined.
