(* ===== verification/Extern.v ===== *)
(** Interfaces of the libraries the program is built on and whose code is not
    in the repository: uthash ([uthash.h]), the intrusive lists of the event
    loop library ([list.h]) and the timers of its event loop ([eloop.h]).

    Each is a class: the operations the program calls, one function that says
    what a traversal of the structure sees, and the documented effect of every
    operation on it.  The components are proved against these classes; the
    instances at the end, on plain lists, show that the laws can be met and let
    the definitions run. *)
From stdpp Require Import base list gmap sets.
From Stdlib Require Import ZArith Lia.
From S2P Require Import Prelude.

(** ** Hash tables ([uthash.h]) *)

(** A table of items with key type [K] and payload [V].  [HASH_ITER] visits the
    items in insertion order; [HASH_FIND] finds the item with the key;
    [hash_store] is an assignment to the payload of an item of the table. *)
Class Uthash (K V : Type) `{EqDecision K} := {
  hash : Type;
  hash_items : hash -> list (K * V);
  hash_empty : hash;
  HASH_FIND : K -> hash -> option V;
  HASH_ADD : K -> V -> hash -> hash;
  HASH_DEL : K -> hash -> hash;
  hash_store : K -> V -> hash -> hash;
  hash_empty_items : hash_items hash_empty = [];
  hash_find_items k h :
    HASH_FIND k h = snd <$> head (filter (fun x => x.1 = k) (hash_items h));
  hash_add_items k v h : hash_items (HASH_ADD k v h) = hash_items h ++ [(k, v)];
  hash_del_items k h : hash_items (HASH_DEL k h) = filter (fun x => x.1 <> k) (hash_items h);
  hash_store_items k v h :
    hash_items (hash_store k v h) =
      (fun x => if decide (x.1 = k) then (k, v) else x) <$> hash_items h
}.

(** ** Intrusive lists ([list.h]) *)

(** The nodes of a list, each with its address, in the order of
    [dl_list_for_each].  [dl_list_add] inserts after the list head;
    [dl_list_store] is an assignment to the fields of a node. *)
Class DlList (N : Type) := {
  dl_list : Type;
  dl_nodes : dl_list -> list (nat * N);
  dl_list_init : dl_list;
  dl_list_add : nat -> N -> dl_list -> dl_list;
  dl_list_add_tail : nat -> N -> dl_list -> dl_list;
  dl_list_del : nat -> dl_list -> dl_list;
  dl_list_store : nat -> N -> dl_list -> dl_list;
  dl_init_nodes : dl_nodes dl_list_init = [];
  dl_add_nodes p x l : dl_nodes (dl_list_add p x l) = (p, x) :: dl_nodes l;
  dl_add_tail_nodes p x l : dl_nodes (dl_list_add_tail p x l) = dl_nodes l ++ [(p, x)];
  dl_del_nodes p l : dl_nodes (dl_list_del p l) = filter (fun n => n.1 <> p) (dl_nodes l);
  dl_store_nodes p x l :
    dl_nodes (dl_list_store p x l) = (fun n => if decide (n.1 = p) then (p, x) else n) <$> dl_nodes l
}.

(** An address that the allocator can give to a new node: none of the live
    ones. *)
Definition fresh_addr {N} (nodes : list (nat * N)) : nat := S (foldr Nat.max 0%nat nodes.*1).

Lemma fresh_addr_new {N} (nodes : list (nat * N)) p : p ∈ nodes.*1 -> (p < fresh_addr nodes)%nat.
Proof.
  unfold fresh_addr. induction nodes as [|[q x] nodes IH]; cbn; [by intros ?%elem_of_nil|].
  intros [->|Hp]%elem_of_cons; [lia|]. apply IH in Hp. lia.
Qed.

Lemma fresh_addr_notin {N} (nodes : list (nat * N)) : fresh_addr nodes ∉ nodes.*1.
Proof. intros Hin%fresh_addr_new. lia. Qed.

(** ** Timers ([eloop.h]) *)

(** The pending timeouts: after how many seconds, and what is called.
    Registration fails when memory is short, and then nothing changes;
    cancelling removes every timeout with the same handler and arguments. *)
Class Eloop (H : Type) `{EqDecision H} := {
  eloop : Type;
  timeouts : eloop -> list (Z * H);
  register_timeout : Z -> H -> eloop -> Z * eloop;
  cancel_timeout : H -> eloop -> eloop;
  register_timeouts secs h e :
    let r := register_timeout secs h e in
    (r.1 = 0 /\ timeouts r.2 ≡ₚ (secs, h) :: timeouts e) \/
    (r.1 = -1 /\ timeouts r.2 = timeouts e);
  cancel_timeouts h e :
    timeouts (cancel_timeout h e) = filter (fun t => t.2 <> h) (timeouts e)
}.

(** ** Instances *)

#[export, refine] Instance list_uthash (K V : Type) `{EqDecision K} : Uthash K V := {|
  hash := list (K * V);
  hash_items h := h;
  hash_empty := [];
  HASH_FIND k h := snd <$> head (filter (fun x => x.1 = k) h);
  HASH_ADD k v h := h ++ [(k, v)];
  HASH_DEL k h := filter (fun x => x.1 <> k) h;
  hash_store k v h := (fun x => if decide (x.1 = k) then (k, v) else x) <$> h
|}.
Proof. all: reflexivity. Defined.

#[export, refine] Instance list_dl_list (N : Type) : DlList N := {|
  dl_list := list (nat * N);
  dl_nodes l := l;
  dl_list_init := [];
  dl_list_add p x l := (p, x) :: l;
  dl_list_add_tail p x l := l ++ [(p, x)];
  dl_list_del p l := filter (fun n => n.1 <> p) l;
  dl_list_store p x l := (fun n => if decide (n.1 = p) then (p, x) else n) <$> l
|}.
Proof. all: reflexivity. Defined.

#[export, refine] Instance list_eloop (H : Type) `{EqDecision H} : Eloop H := {|
  eloop := list (Z * H);
  timeouts e := e;
  register_timeout secs h e := (0, (secs, h) :: e);
  cancel_timeout h e := filter (fun t => t.2 <> h) e
|}.
Proof. { intros. by left. } { reflexivity. } Defined.

(** ** A table is a finite map *)

Section uthash.
Context {K V : Type} `{Countable K} {U : Uthash K V}.

(** Keys are unique: the program adds an item only after a failed find. *)
Definition hash_wf (h : hash) : Prop := NoDup (hash_items h).*1.
Definition hash_map (h : hash) : gmap K V := list_to_map (hash_items h).

Lemma head_filter_lookup (l : list (K * V)) k :
  snd <$> head (filter (fun x => x.1 = k) l) = (list_to_map l : gmap K V) !! k.
Proof.
  induction l as [|[k' v] l IH]; [done|]. rewrite filter_cons. cbn [list_to_map foldr fst].
  case_decide as Hd; simpl in Hd |- *.
  - subst. by rewrite lookup_insert_eq.
  - by rewrite IH, lookup_insert_ne.
Qed.

Lemma hash_find_map k h : HASH_FIND k h = hash_map h !! k.
Proof. rewrite hash_find_items. apply head_filter_lookup. Qed.

Lemma hash_find_none k h : HASH_FIND k h = None <-> k ∉ (hash_items h).*1.
Proof. rewrite hash_find_map. symmetry. apply not_elem_of_list_to_map. Qed.

Lemma hash_empty_wf : hash_wf hash_empty.
Proof. unfold hash_wf. rewrite hash_empty_items. constructor. Qed.

Lemma hash_add_wf k v h : hash_wf h -> HASH_FIND k h = None ->
  hash_wf (HASH_ADD k v h) /\ hash_map (HASH_ADD k v h) = <[k := v]> (hash_map h).
Proof.
  unfold hash_wf, hash_map. intros Hwf Hf%hash_find_none. rewrite hash_add_items.
  rewrite fmap_app. simpl. split.
  - apply NoDup_app. split; [done|]. split; [|apply NoDup_singleton].
    intros x Hx ->%list_elem_of_singleton. done.
  - rewrite list_to_map_app. simpl. rewrite insert_empty, insert_union_singleton_r; [done|].
    by apply not_elem_of_list_to_map.
Qed.

Lemma fmap_store_keys k (v : V) (l : list (K * V)) :
  ((fun x => if decide (x.1 = k) then (k, v) else x) <$> l).*1 = l.*1.
Proof.
  induction l as [|[k' v'] l IH]; [done|]. rewrite !fmap_cons, IH. f_equal.
  case_decide; by simpl in *.
Qed.

Lemma hash_store_wf k v h : hash_wf h -> HASH_FIND k h <> None ->
  hash_wf (hash_store k v h) /\ hash_map (hash_store k v h) = <[k := v]> (hash_map h).
Proof.
  unfold hash_wf, hash_map. rewrite hash_find_map, hash_store_items, fmap_store_keys.
  intros Hwf Hf. split; [done|]. unfold hash_map in Hf. revert Hwf Hf.
  set (f := fun x : K * V => if decide (x.1 = k) then (k, v) else x).
  induction (hash_items h) as [|[k' v'] l IH]; [done|].
  rewrite !fmap_cons. intros [Hk' Hwf]%NoDup_cons Hf. unfold f at 1. simpl fst.
  simpl list_to_map in Hf. case_decide as Hd.
  - subst k'. simpl list_to_map. rewrite insert_insert_eq. f_equal.
    assert (f <$> l = l) as ->; [|done].
    rewrite <- (list_fmap_id l) at 2. apply list_fmap_ext. intros i [k2 v2] Hin. unfold f.
    rewrite decide_False; [done|]. simpl. intros ->. apply Hk'.
    apply list_elem_of_fmap. exists (k, v2). split; [done|]. by eapply list_elem_of_lookup_2.
  - rewrite lookup_insert_ne in Hf by done. simpl list_to_map. rewrite IH by done.
    by rewrite insert_insert_ne by congruence.
Qed.

(** Find, then add a new item or overwrite the one found. *)
Lemma hash_put_wf k v h : hash_wf h ->
  let h' := match HASH_FIND k h with None => HASH_ADD k v h | Some _ => hash_store k v h end in
  hash_wf h' /\ hash_map h' = <[k := v]> (hash_map h).
Proof.
  intros Hwf. destruct (HASH_FIND k h) eqn:Hf.
  - apply hash_store_wf; [done|]. by rewrite Hf.
  - by apply hash_add_wf.
Qed.
End uthash.
