(* ===== verification/Queue.v ===== *)
(** Queues on the intrusive lists of [Extern], and the string queue of
    [src/utils/squeue.c].

    An element is a node with an address; freeing an address that is not in the
    list is a second free.  The theorems say that the queue is a sequence of
    strings, that one with a limit never holds more strings than it allows, and
    that a push which runs out of memory leaves an element without a string,
    which the other operations dereference. *)
From stdpp Require Import strings numbers base list gmap.
From Stdlib Require Import ZArith Lia.
From S2P Require Import Prelude Extern.

(** ** Nodes *)

Section nodes.
Context {N : Type} {L : DlList N}.
#[local] Abbreviation nodes := (@dl_list _ L).

(** The payloads in order, and that no two nodes share an address. *)
Definition queue_items (l : nodes) : list N := (dl_nodes l).*2.
Definition queue_wf (l : nodes) : Prop := NoDup (dl_nodes l).*1.

(** [dl_list_first]. *)
Definition dl_list_first (l : nodes) : option (nat * N) := head (dl_nodes l).

(** A new node, linked in at the end. *)
Definition push_tail (x : N) (l : nodes) : nodes := dl_list_add_tail (fresh_addr (dl_nodes l)) x l.

(** Unlinks and frees a node. *)
Definition free_node (p : nat) (l : nodes) : outcome nodes :=
  if bool_decide (p ∈ (dl_nodes l).*1) then Done (dl_list_del p l) else Fault UseAfterFree.

(** Frees the first node as long as there is one. *)
Fixpoint free_all_nodes (fuel : nat) (l : nodes) : outcome nodes :=
  match dl_list_first l, fuel with
  | None, _ => Done l
  | _, O => Fault OutOfFuel
  | Some el, S fuel =>
      match free_node el.1 l with
      | Done l' => free_all_nodes fuel l'
      | Fault f => Fault f
      end
  end.

Lemma queue_init : queue_wf dl_list_init /\ queue_items dl_list_init = [].
Proof. unfold queue_wf, queue_items. rewrite dl_init_nodes. split; [constructor|done]. Qed.

Lemma zlen_queue l : zlen (dl_nodes l) = zlen (queue_items l).
Proof. unfold queue_items, zlen. by rewrite length_fmap. Qed.

Lemma push_tail_spec x l : queue_wf l ->
  queue_wf (push_tail x l) /\ queue_items (push_tail x l) = queue_items l ++ [x].
Proof.
  unfold queue_wf, queue_items, push_tail. rewrite dl_add_tail_nodes, !fmap_app. intros Hwf.
  split; [|done]. apply NoDup_app. split; [done|]. split; [|apply NoDup_singleton].
  intros p Hp ->%list_elem_of_singleton. by apply (fresh_addr_notin (dl_nodes l)).
Qed.

(** The first node of a queue that is not empty, and what is left without it. *)
Lemma first_spec l x xs : queue_wf l -> queue_items l = x :: xs ->
  exists p l', dl_list_first l = Some (p, x) /\ free_node p l = Done l' /\
    queue_wf l' /\ queue_items l' = xs.
Proof.
  unfold queue_wf, queue_items, dl_list_first, free_node. intros Hwf Hi.
  destruct (dl_nodes l) as [|[p y] r] eqn:E; [done|]. rewrite fmap_cons in Hi. injection Hi as -> <-.
  exists p, (dl_list_del p l). rewrite bool_decide_true by (rewrite fmap_cons; left).
  rewrite dl_del_nodes, E, filter_cons_False by (cbn; tauto).
  rewrite fmap_cons in Hwf. apply list.NoDup_cons in Hwf as [Hp Hr].
  rewrite filter_all; [done|]. intros [q z] Hq Heq. apply Hp. cbn in Heq. subst q.
  apply list_elem_of_fmap. by exists (p, z).
Qed.

Lemma first_none l : dl_list_first l = None <-> queue_items l = [].
Proof. unfold dl_list_first, queue_items. by destruct (dl_nodes l). Qed.

Lemma free_all_spec fuel l : queue_wf l -> (length (queue_items l) <= fuel)%nat ->
  exists l', free_all_nodes fuel l = Done l' /\ queue_wf l' /\ queue_items l' = [].
Proof.
  revert l. induction fuel as [|fuel IH]; intros l Hwf Hf; destruct (queue_items l) as [|x xs] eqn:Hi.
  - exists l. cbn [free_all_nodes]. by rewrite (proj2 (first_none l) Hi).
  - cbn in Hf. lia.
  - exists l. cbn [free_all_nodes]. by rewrite (proj2 (first_none l) Hi).
  - destruct (first_spec l x xs Hwf Hi) as (p & l' & H1 & H2 & Hwf' & Hi').
    cbn [free_all_nodes]. rewrite H1. cbn [fst]. rewrite H2. apply IH; [done|]. rewrite Hi'. cbn in Hf. lia.
Qed.
End nodes.

(** ** String queue ([squeue.c]) *)

Section string_queue.
Context {L : DlList (option (list Z))}.

(** The head of the list; the string of an element is NULL when it could not
    be copied. *)
Record string_queue := {
  max_length : Z;
  sq_list : @dl_list _ L
}.

Definition init_string_queue (max : Z) : prog env (option string_queue) :=
  ok ← malloc;
  mret (if (ok : bool) then Some {| max_length := max; sq_list := dl_list_init |} else None).

Definition get_string_queue_length (queue : option string_queue) : Z :=
  match queue with None => 0 | Some q => zlen (dl_nodes (sq_list q)) end.

Definition with_list (l : dl_list) (q : string_queue) : string_queue :=
  {| max_length := max_length q; sq_list := l |}.

Definition free_string_queue_el (p : nat) (q : string_queue) : outcome string_queue :=
  match free_node p (sq_list q) with
  | Done l => Done (with_list l q)
  | Fault f => Fault f
  end.

(** Frees the first element, if there is one. *)
Definition drop_first (q : string_queue) : outcome string_queue :=
  match dl_list_first (sq_list q) with
  | None => Done q
  | Some el => free_string_queue_el el.1 q
  end.

Definition push_string_queue (queue : option string_queue) (str : option (list Z)) :
    prog env (Z * option string_queue) :=
  match str, queue with
  | None, _ | _, None => mret (-1, queue)
  | Some s, Some q =>
      el ← init_string_queue (max_length q);
      match el with
      | None => mret (-1, queue)
      | Some _ =>
          copied ← malloc;
          let q1 := with_list (push_tail (if (copied : bool) then Some s else None) (sq_list q)) q in
          if (max_length q <? get_string_queue_length (Some q1)) && (0 <=? max_length q)
          then q2 ← lift_outcome (drop_first q1); mret (0, Some q2)
          else mret (0, Some q1)
      end
  end.

(** The return value and a copy of the first string. *)
Definition peek_string_queue (queue : option string_queue) : prog env (Z * option (list Z)) :=
  match queue with
  | None => mret (-1, None)
  | Some q =>
      match dl_list_first (sq_list q) with
      | None => mret (0, None)
      | Some (_, None) => fail_with NullDeref
      | Some (_, Some s) => ok ← malloc; mret (0, if (ok : bool) then Some s else None)
      end
  end.

Definition pop_string_queue (queue : option string_queue) :
    prog env (Z * option (list Z) * option string_queue) :=
  r ← peek_string_queue queue;
  match queue with
  | Some q =>
      if r.1 =? 0 then q' ← lift_outcome (drop_first q); mret (r, Some q')
      else mret (r, queue)
  | None => mret (r, None)
  end.

(** Whether [num] elements are not yet as many as were asked for; a negative
    number asks for all. *)
Definition more (num count : Z) : bool := ((num <? count) && (0 <? count)) || (count <? 0).

Fixpoint empty_loop (fuel : nat) (q : string_queue) (count num : Z) : outcome string_queue :=
  match dl_list_first (sq_list q) with
  | None => Done q
  | Some el =>
      if more num count then
        match fuel with
        | O => Fault OutOfFuel
        | S fuel =>
            match free_string_queue_el el.1 q with
            | Done q' => empty_loop fuel q' count (num + 1)
            | Fault f => Fault f
            end
        end
      else Done q
  end.
Definition empty_string_queue (q : string_queue) (count : Z) : outcome string_queue :=
  empty_loop (length (dl_nodes (sq_list q))) q count 0.

(** The head itself is freed after its elements. *)
Definition free_string_queue (queue : option string_queue) : outcome unit :=
  match queue with
  | None => Done tt
  | Some q => match empty_string_queue q (-1) with Done _ => Done tt | Fault f => Fault f end
  end.

(** [concat_str] is the string built so far, in a block of its size. *)
Fixpoint concat_loop (nodes : list (nat * option (list Z))) (count num : Z)
    (concat_str : option (list Z)) : prog env (option (list Z)) :=
  match nodes with
  | [] => mret concat_str
  | (_, str) :: rest =>
      if more num count then
        match str with
        | None => fail_with NullDeref
        | Some s =>
            ok ← malloc;
            if negb ok then mret None
            else concat_loop rest count (num + 1) (Some (default [] concat_str ++ s))
        end
      else concat_loop rest count (num + 1) concat_str
  end.
Definition concat_string_queue (queue : option string_queue) (count : Z) : prog env (option (list Z)) :=
  match queue with
  | None => mret None
  | Some q => concat_loop (dl_nodes (sq_list q)) count 0 None
  end.

(** *** The queue as a sequence *)

(** The limit on the number of strings is kept, and addresses are distinct. *)
Record squeue_wf (q : string_queue) : Prop := {
  sq_nodes : queue_wf (sq_list q);
  sq_bound : 0 <= max_length q -> get_string_queue_length (Some q) <= max_length q
}.

Definition squeue_rep (q : string_queue) (l : list (list Z)) : Prop :=
  squeue_wf q /\ queue_items (sq_list q) = Some <$> l.

(** What a limit leaves of a queue after a push. *)
Definition evict {A} (max : Z) (l : list A) : list A :=
  if (max <? zlen l) && (0 <=? max) then tail l else l.

Lemma length_tail_le {A} (l : list A) : (length (tail l) <= length l)%nat.
Proof. destruct l; cbn; lia. Qed.

(** A queue without some of its elements is within the limit. *)
Lemma squeue_shrinks q q' : squeue_wf q -> queue_wf (sq_list q') -> max_length q' = max_length q ->
  (length (queue_items (sq_list q')) <= length (queue_items (sq_list q)))%nat -> squeue_wf q'.
Proof.
  intros [_ Hb] Hwf Hm Hl. split; [done|]. rewrite Hm. intros Hmax. specialize (Hb Hmax).
  unfold get_string_queue_length in *. rewrite zlen_queue in *. unfold zlen in *. lia.
Qed.

Lemma drop_first_spec q : queue_wf (sq_list q) ->
  exists q', drop_first q = Done q' /\ max_length q' = max_length q /\ queue_wf (sq_list q') /\
    queue_items (sq_list q') = tail (queue_items (sq_list q)).
Proof.
  intros Hwf. unfold drop_first. destruct (queue_items (sq_list q)) as [|x xs] eqn:Hi.
  - rewrite (proj2 (first_none _) Hi). by exists q.
  - destruct (first_spec _ x xs Hwf Hi) as (p & l' & -> & H2 & Hwf' & Hi').
    unfold free_string_queue_el. cbn [fst]. rewrite H2. by exists (with_list l' q).
Qed.

Lemma evict_bound {A} max (l : list A) x : (0 <= max -> zlen l <= max) -> 0 <= max ->
  zlen (evict max (l ++ [x])) <= max.
Proof.
  intros Hl Hm. specialize (Hl Hm). unfold evict.
  destruct (Z.ltb_spec max (zlen (l ++ [x]))); cbn [andb]; [|done].
  rewrite (proj2 (Z.leb_le _ _)) by done. rewrite zlen_app in H.
  destruct l as [|a l]; cbn [app tail]; [done|]. autorewrite with zlen in *. lia.
Qed.

(** A push, whatever the allocator does: it fails and changes nothing, or adds
    an element, whose string is missing if the copy failed. *)
Lemma push_run q s e : squeue_wf q ->
  exists r q' e', push_string_queue (Some q) (Some s) e = Done ((r, Some q'), e') /\
    env_ok e e' (r = 0 /\ queue_items (sq_list q') = evict (max_length q) (queue_items (sq_list q) ++ [Some s])) /\
    squeue_wf q' /\ max_length q' = max_length q /\
    (r = -1 /\ q' = q \/
     r = 0 /\ exists o, (o = Some s \/ o = None) /\
       queue_items (sq_list q') = evict (max_length q) (queue_items (sq_list q) ++ [o])).
Proof.
  intros [Hwf Hb]. unfold push_string_queue, init_string_queue.
  destruct (malloc_ok e) as (ok & e1 & H1 & K1). destruct ok.
  2:{ exists (-1), q, e1. erewrite bind_run by (by erewrite bind_run by exact H1). cbn beta iota.
      split; [done|]. split; [by eapply env_ok_mono; [exact K1|]|]. split; [done|]. split; [done|]. by left. }
  destruct (malloc_ok e1) as (copied & e2 & H2 & K2). pose proof (env_ok_trans _ _ _ _ _ K1 K2) as K.
  erewrite bind_run by (by erewrite bind_run by exact H1). cbn beta iota.
  erewrite bind_run by exact H2. cbn beta zeta.
  set (o := if copied then Some s else None). set (q1 := with_list (push_tail o (sq_list q)) q).
  destruct (push_tail_spec o (sq_list q) Hwf) as [Hwf1 Hi1].
  assert (exists q', (if (max_length q <? get_string_queue_length (Some q1)) && (0 <=? max_length q)
      then q2 ← lift_outcome (drop_first q1); mret (0, Some q2) else mret (0, Some q1)) e2 =
      Done ((0, Some q'), e2) /\ max_length q' = max_length q /\ queue_wf (sq_list q') /\
      queue_items (sq_list q') = evict (max_length q) (queue_items (sq_list q) ++ [o])) as (q' & Hrun & Hm & Hwf' & Hi').
  { unfold get_string_queue_length, evict. cbn [sq_list q1 with_list]. rewrite zlen_queue, Hi1.
    destruct (_ && _).
    - destruct (drop_first_spec q1 Hwf1) as (q' & H3 & Hm & Hwf' & Hi'). exists q'.
      erewrite bind_run by (rewrite H3; apply lift_run). split; [done|]. split; [done|]. split; [done|].
      rewrite Hi'. cbn [sq_list q1 with_list]. by rewrite Hi1.
    - by exists q1. }
  exists 0, q', e2. rewrite Hrun. split; [done|]. split.
  { eapply env_ok_mono; [exact K|]. intros Hc. split; [done|]. rewrite Hi'. unfold o. by rewrite Hc. }
  split; [|split; [done|]].
  - split; [done|]. rewrite Hm. unfold get_string_queue_length. rewrite zlen_queue, Hi'.
    apply evict_bound. by rewrite <- zlen_queue.
  - right. split; [done|]. exists o. split; [|done]. unfold o. destruct copied; auto.
Qed.

Lemma more_all num : more num (-1) = true.
Proof. unfold more. apply orb_true_r. Qed.

Lemma concat_queue_run nodes l e count : mallocs e = [] -> nodes.*2 = Some <$> l -> count <> 0 -> forall num acc,
  0 <= num ->
  concat_loop nodes count num acc e =
  Done (match (if count <? 0 then l else take (Z.to_nat (count - num)) l) with
        | [] => acc | k => Some (default [] acc ++ concat k) end, e).
Proof.
  intros Hm Hl Hc. assert (exists b, (count <? 0) = b) as [b Hb] by eauto. rewrite Hb. revert l Hl.
  destruct e as [ms rs]. cbn in Hm. subst ms.
  induction nodes as [|[p o] nodes IH]; intros l Hl num acc Hn.
  - destruct l; [|done]. rewrite take_nil. by destruct b.
  - destruct l as [|s l]; [done|]. cbn in Hl. injection Hl as -> Hl. cbn [concat_loop]. unfold more. rewrite Hb.
    destruct b; [|apply Z.ltb_ge in Hb].
    + rewrite orb_true_r. erewrite bind_run by apply malloc_nil. cbn [negb]. rewrite (IH l) by (try done; lia).
      f_equal. f_equal. destruct l; cbn; f_equal; by rewrite ?app_nil_r, ?app_assoc.
    + rewrite orb_false_r. rewrite (proj2 (Z.ltb_lt 0 count)) by lia. rewrite andb_true_r.
      destruct (Z.ltb_spec num count).
      * erewrite bind_run by apply malloc_nil. cbn [negb]. rewrite (IH l) by (try done; lia).
        replace (Z.to_nat (count - num)) with (S (Z.to_nat (count - (num + 1)))) by lia. cbn [take].
        f_equal. f_equal. destruct (take _ l); cbn; f_equal; by rewrite ?app_nil_r, ?app_assoc.
      * rewrite (IH l) by (try done; lia). replace (Z.to_nat (count - (num + 1))) with O by lia.
        by replace (Z.to_nat (count - num)) with O by lia.
Qed.

Lemma empty_loop_spec fuel : forall q l count num, squeue_rep q l -> (length l <= fuel)%nat -> 0 <= num ->
  count <> 0 -> ((count <? 0) = false -> num <= count) ->
  exists q', empty_loop fuel q count num = Done q' /\ max_length q' = max_length q /\
    squeue_rep q' (if count <? 0 then [] else drop (Z.to_nat (count - num)) l).
Proof.
  induction fuel as [|fuel IH]; intros q l count num [Hwf Hi] Hf Hn Hc Hcn; destruct l as [|s l].
  2:{ cbn in Hf. lia. }
  1,2: exists q; cbn [empty_loop]; rewrite (proj2 (first_none _)) by (by rewrite Hi);
    split; [done|]; split; [done|]; rewrite drop_nil; by destruct (_ <? _).
  destruct (first_spec _ _ _ (sq_nodes q Hwf) Hi) as (p & l' & H1 & H2 & Hwf' & Hi').
  cbn [empty_loop]. rewrite H1. unfold more. destruct (Z.ltb_spec num count), (Z.ltb_spec 0 count),
    (Z.ltb_spec count 0); cbn [andb orb]; try lia.
  2:{ exists q. split; [done|]. split; [done|]. by replace (Z.to_nat (count - num)) with O by lia. }
  all: cbn [fst]; unfold free_string_queue_el; rewrite H2;
    destruct (IH (with_list l' q) l count (num + 1)) as (q' & Hrun & Hm & Hrep); try lia; try (cbn in Hf; lia);
    [split; [apply (squeue_shrinks q); [done|done|done|cbn [with_list sq_list]; rewrite Hi, Hi'; exact (Nat.le_succ_diag_r _)]|done]|];
    exists q'; split; [done|]; split; [done|].
  - rewrite (proj2 (Z.ltb_ge _ _)) in Hrep by lia.
    by replace (Z.to_nat (count - num)) with (S (Z.to_nat (count - (num + 1)))) by lia.
  - by rewrite (proj2 (Z.ltb_lt _ _)) in Hrep by lia.
Qed.

(** A string queue is a sequence of strings.  With memory to spare a push
    appends a string and drops the oldest one when the limit is passed, a pop
    takes the oldest one out and hands out a copy, peeking changes nothing, the
    length is that of the sequence, and the concatenation is that of the first
    strings, all of them for a negative count. *)
Theorem string_queue_refines q l s count rs : squeue_rep q l -> count <> 0 ->
  let e := Env [] rs in
  (exists q', push_string_queue (Some q) (Some s) e = Done ((0, Some q'), e) /\
     squeue_rep q' (evict (max_length q) (l ++ [s]))) /\
  (exists q', pop_string_queue (Some q) e = Done ((0, head l, Some q'), e) /\ squeue_rep q' (tail l)) /\
  peek_string_queue (Some q) e = Done ((0, head l), e) /\
  get_string_queue_length (Some q) = zlen l /\
  concat_string_queue (Some q) count e =
    Done (match (if count <? 0 then l else take (Z.to_nat count) l) with [] => None | k => Some (concat k) end, e) /\
  (exists q', empty_string_queue q count = Done q' /\
     squeue_rep q' (if count <? 0 then [] else drop (Z.to_nat count) l)).
Proof.
  intros Hrep Hc e. pose proof Hrep as [Hwf Hi].
  assert (peek_string_queue (Some q) e = Done ((0, head l), e)) as Hpeek.
  { unfold peek_string_queue. destruct l as [|x l].
    - by rewrite (proj2 (first_none _)) by (by rewrite Hi).
    - by destruct (first_spec _ _ _ (sq_nodes q Hwf) Hi) as (p & l' & -> & _). }
  split; [|split; [|split; [done|split; [|split]]]].
  - destruct (push_run q s e Hwf) as (r & q' & e' & Hrun & [_ K] & Hwf' & Hm & _).
    destruct (K eq_refl) as [-> [-> Hi']]. exists q'. split; [done|]. split; [done|].
    rewrite Hi', Hi. unfold evict, zlen. rewrite !length_app, length_fmap.
    destruct (_ && _); [|by rewrite fmap_app]. destruct l; [done|]. cbn. by rewrite fmap_app.
  - destruct (drop_first_spec q (sq_nodes q Hwf)) as (q' & H1 & Hm & Hwf' & Hi'). exists q'.
    unfold pop_string_queue. erewrite bind_run by exact Hpeek. cbn beta iota. cbn [fst Z.eqb].
    erewrite bind_run by (rewrite H1; apply lift_run). split; [done|]. split.
    + apply (squeue_shrinks q); [done|done|done|]. rewrite Hi'. apply length_tail_le.
    + rewrite Hi', Hi. by destruct l.
  - unfold get_string_queue_length. rewrite zlen_queue, Hi. unfold zlen. by rewrite length_fmap.
  - unfold concat_string_queue. rewrite (concat_queue_run _ l) by (done || lia). by rewrite Z.sub_0_r.
  - destruct (empty_loop_spec (length (dl_nodes (sq_list q))) q l count 0 Hrep) as (q' & H1 & _ & H2); try done; try lia;
      try (intros ?%Z.ltb_ge; lia).
    + assert (zlen (dl_nodes (sq_list q)) = zlen l) as Hl by (rewrite zlen_queue, Hi; unfold zlen; by rewrite length_fmap).
      unfold zlen in Hl. lia.
    + exists q'. rewrite Z.sub_0_r in H2. done.
Qed.

(** What the operations of a client do to a queue. *)
Inductive squeue_step : string_queue -> string_queue -> Prop :=
| step_push q s e r q' e' : push_string_queue (Some q) s e = Done ((r, Some q'), e') -> squeue_step q q'
| step_pop q e x q' e' : pop_string_queue (Some q) e = Done ((x, Some q'), e') -> squeue_step q q'
| step_empty q n q' : empty_string_queue q n = Done q' -> squeue_step q q'.

Lemma empty_loop_wf fuel : forall q count num q', squeue_wf q -> empty_loop fuel q count num = Done q' ->
  squeue_wf q' /\ max_length q' = max_length q.
Proof.
  induction fuel as [|fuel IH]; intros q count num q' Hwf; cbn [empty_loop];
    destruct (queue_items (sq_list q)) as [|x xs] eqn:Hi;
    try (rewrite (proj2 (first_none _) Hi); by intros [= <-]);
    destruct (first_spec _ _ _ (sq_nodes q Hwf) Hi) as (p & l' & -> & H2 & Hwf' & Hi');
    (destruct (more num count); [|by intros [= <-]]); [done|].
  cbn [fst]. unfold free_string_queue_el. rewrite H2. intros H. apply IH in H; [done|].
  apply (squeue_shrinks q); [done|done|done|]. cbn [with_list sq_list]. rewrite Hi, Hi'. cbn. lia.
Qed.

Lemma squeue_step_wf q q' : squeue_step q q' -> squeue_wf q -> squeue_wf q' /\ max_length q' = max_length q.
Proof.
  intros [q1 s e r q2 e' H|q1 e x q2 e' H|q1 n q2 H] Hwf.
  - destruct s as [s|]; [|by injection H as _ <- _].
    destruct (push_run q1 s e Hwf) as (r' & q3 & e3 & Hrun & _ & Hwf' & Hm & _).
    rewrite Hrun in H. by injection H as _ <- _.
  - unfold pop_string_queue in H. apply bind_done in H as (y & s & _ & H).
    destruct (y.1 =? 0); [|by injection H as _ <- _]. apply bind_done in H as (q3 & s3 & H1 & H).
    destruct (drop_first_spec q1 (sq_nodes q1 Hwf)) as (q4 & H2 & Hm & Hwf' & Hi). rewrite H2 in H1.
    injection H1 as <- _. injection H as _ <- _. split; [|done].
    apply (squeue_shrinks q1); [done|done|done|]. rewrite Hi. apply length_tail_le.
  - by eapply empty_loop_wf.
Qed.

(** A string queue made with a limit never holds more strings than the limit,
    after any sequence of pushes, pops and removals and whatever the allocator
    answers. *)
Theorem string_queue_bounded max e q0 e0 q : 0 <= max -> init_string_queue max e = Done (Some q0, e0) ->
  rtc squeue_step q0 q -> get_string_queue_length (Some q) <= max.
Proof.
  intros Hmax Hinit Hsteps.
  assert (squeue_wf q0 /\ max_length q0 = max) as [Hwf0 Hm0].
  { unfold init_string_queue in Hinit. apply bind_done in Hinit as (ok & e1 & _ & H). destruct ok; [|done].
    injection H as <- _. split; [|done]. destruct queue_init as [Hw Hi]. split; [done|]. intros _.
    unfold get_string_queue_length. cbn [sq_list max_length]. by rewrite zlen_queue, Hi. }
  enough (squeue_wf q /\ max_length q = max) as [Hwf Hm] by (rewrite <- Hm; apply (sq_bound q Hwf); lia).
  clear Hinit. induction Hsteps as [q|q q1 q2 Hs _ IH]; [done|].
  destruct (squeue_step_wf q q1 Hs Hwf0) as [Hwf1 Hm1]. apply IH; [done|congruence].
Qed.
End string_queue.

(** ** Samples *)

Definition sample_squeue : @string_queue (list_dl_list _) :=
  {| max_length := 2; sq_list := [(1%nat, Some (cstr "a")); (2%nat, Some (cstr "b"))] |}.

Lemma string_queue_refines_witness : exists q',
  push_string_queue (Some sample_squeue) (Some (cstr "c")) (Env [] []) = Done ((0, Some q'), Env [] []) /\
  squeue_rep q' [cstr "b"; cstr "c"].
Proof.
  destruct (string_queue_refines sample_squeue [cstr "a"; cstr "b"] (cstr "c") (-1) []) as [(q' & H1 & H2) _].
  - split; [split|done]; [|done]. apply (bool_decide_unpack _). by vm_compute.
  - done.
  - by exists q'.
Defined.

Definition sample_limited (l : list (nat * option (list Z))) : @string_queue (list_dl_list _) :=
  {| max_length := 1; sq_list := l |}.

Lemma string_queue_bounded_witness : exists q, rtc squeue_step (sample_limited []) q /\
  queue_items (sq_list q) = [Some (cstr "b")] /\ get_string_queue_length (Some q) <= 1.
Proof.
  assert (rtc squeue_step (sample_limited []) (sample_limited [(2%nat, Some (cstr "b"))])) as Hs.
  { eapply rtc_l; [|eapply rtc_l; [|apply rtc_refl]].
    - by apply (step_push _ (Some (cstr "a")) (Env [] []) 0 (sample_limited [(1%nat, Some (cstr "a"))]) (Env [] [])).
    - by apply (step_push _ (Some (cstr "b")) (Env [] []) 0 _ (Env [] [])). }
  exists (sample_limited [(2%nat, Some (cstr "b"))]). split; [exact Hs|]. split; [done|].
  apply (string_queue_bounded 1 (Env [] []) (sample_limited []) (Env [] [])); [lia|done|exact Hs].
Defined.

(** A push whose copy of the string cannot be allocated succeeds, and the
    element it leaves is dereferenced by the next concatenation. *)
Lemma push_without_copy : exists q,
  push_string_queue (Some (sample_limited [])) (Some (cstr "a")) (Env [true; false] []) =
    Done ((0, Some q), Env [] []) /\
  concat_string_queue (Some q) (-1) (Env [] []) = Fault NullDeref.
Proof. exists (sample_limited [(1%nat, None)]). split; reflexivity. Qed.
