(* ===== verification/Reldb.v ===== *)
(** The relational side of SQLite: tables of rows with integers and texts, as
    the capture service and the supervisor write and read them.

    SQLite is a parameter again, as in [Sqlite], here with typed columns,
    conditions, an order and a limit.  A statement may fail at each of its
    steps, and one that fails changes nothing.  The order of rows that compare
    equal is not promised.  The instance on lists shows that the laws can be
    met. *)
From stdpp Require Import strings numbers base list gmap sorting.
From Stdlib Require Import ZArith Lia.
From S2P Require Import Prelude.

Inductive cell := CNull | CInt (z : Z) | CText (s : list Z).
#[export] Instance cell_eq : EqDecision cell.
Proof. solve_decision. Defined.
Abbreviation row := (list cell).

(** The value of [sqlite3_bind_int64] for an unsigned 64-bit number, and that
    of [sqlite3_column_int64] and [sqlite3_column_text]. *)
Definition s64 (z : Z) : Z := (z + 2 ^ 63) mod 2 ^ 64 - 2 ^ 63.
Definition column_int (r : row) (i : nat) : Z := match r !! i with Some (CInt z) => z | _ => 0 end.
Definition column_text (r : row) (i : nat) : option (list Z) := match r !! i with Some (CText s) => Some s | _ => None end.

(** A table: its name, the columns of its primary key and those declared NOT
    NULL. *)
Record table := { t_name : list Z; t_key : list nat; t_not_null : list nat }.
Definition cells (l : list nat) (r : row) : list cell := (fun i => default CNull (r !! i)) <$> l.

(** A row that the constraints of a table with the rows [l] admit; a key with a
    NULL in it is different from every other. *)
Definition fits (t : table) (l : list row) (r : row) : Prop :=
  (CNull ∉ cells (t_not_null t) r) /\
  ((CNull ∉ cells (t_key t) r) -> Forall (fun r' => cells (t_key t) r' <> cells (t_key t) r) l).

(** Ascending in an integer column. *)
Definition by_column (i : nat) (a b : row) : Prop := column_int a i <= column_int b i.

Class Reldb := {
  rdb : Type;
  rtables : rdb -> gmap (list Z) (list row);
  rdb_ok : rdb -> Prop;
  rdb_prepare : table -> rdb -> bool * rdb;
  rdb_bind : rdb -> bool * rdb;
  rdb_create : table -> rdb -> bool * rdb;
  rdb_insert : table -> row -> rdb -> bool * rdb;
  (** The rows that are delivered, and whether that was all of them. *)
  rdb_select : table -> (row -> bool) -> nat -> nat -> rdb -> (list row * bool) * rdb;
  rdb_delete : table -> (row -> bool) -> rdb -> bool * rdb;
  prepare_rows t d : rtables (rdb_prepare t d).2 = rtables d;
  bind_rows d : rtables (rdb_bind d).2 = rtables d;
  create_rows t d : let x := rdb_create t d in
    if x.1 then rtables x.2 = <[t_name t := default [] (rtables d !! t_name t)]> (rtables d) else rtables x.2 = rtables d;
  insert_rows t r d : let x := rdb_insert t r d in
    if x.1 then exists l, rtables d !! t_name t = Some l /\ fits t l r /\ rtables x.2 = <[t_name t := l ++ [r]]> (rtables d)
    else rtables x.2 = rtables d;
  select_rows t p i lim d : let x := rdb_select t p i lim d in
    rtables x.2 = rtables d /\
    exists l, l ≡ₚ filter p (default [] (rtables d !! t_name t)) /\ Sorted (by_column i) l /\
      x.1.1 `prefix_of` take lim l /\ (x.1.2 = true -> x.1.1 = take lim l);
  delete_rows t p d : let x := rdb_delete t p d in
    if x.1 then rtables x.2 = <[t_name t := filter (fun r => negb (p r)) (default [] (rtables d !! t_name t))]> (rtables d)
    else rtables x.2 = rtables d;
  (** A database in order has no reason to refuse. *)
  prepare_ok t d : rdb_ok d -> is_Some (rtables d !! t_name t) -> (rdb_prepare t d).1 = true /\ rdb_ok (rdb_prepare t d).2;
  bind_ok d : rdb_ok d -> (rdb_bind d).1 = true /\ rdb_ok (rdb_bind d).2;
  create_ok t d : rdb_ok d -> (rdb_create t d).1 = true /\ rdb_ok (rdb_create t d).2;
  insert_ok t r d : rdb_ok d ->
    (forall l, rtables d !! t_name t = Some l -> fits t l r -> (rdb_insert t r d).1 = true) /\ rdb_ok (rdb_insert t r d).2;
  select_ok t p i lim d : rdb_ok d -> (rdb_select t p i lim d).1.2 = true /\ rdb_ok (rdb_select t p i lim d).2;
  delete_ok t p d : rdb_ok d -> (rdb_delete t p d).1 = true /\ rdb_ok (rdb_delete t p d).2
}.

(** ** The instance *)

#[export] Instance by_column_dec i a b : Decision (by_column i a b).
Proof. unfold by_column. apply _. Defined.
#[export] Instance by_column_total i : Total (by_column i).
Proof. intros a b. unfold by_column. lia. Qed.
#[export] Instance by_column_trans i : Transitive (by_column i).
Proof. intros a b c. unfold by_column. lia. Qed.
#[export] Instance fits_dec t l r : Decision (fits t l r).
Proof. unfold fits. apply _. Defined.

#[export, refine] Instance list_reldb : Reldb := {|
  rdb := gmap (list Z) (list row);
  rtables d := d;
  rdb_ok _ := True;
  rdb_prepare t d := (bool_decide (is_Some (d !! t_name t)), d);
  rdb_bind d := (true, d);
  rdb_create t d := (true, <[t_name t := default [] (d !! t_name t)]> d);
  rdb_insert t r d :=
    match d !! t_name t with
    | Some l => if decide (fits t l r) then (true, <[t_name t := l ++ [r]]> d) else (false, d)
    | None => (false, d)
    end;
  rdb_select t p i lim d :=
    ((take lim (merge_sort (by_column i) (filter p (default [] (d !! t_name t)))), true), d);
  rdb_delete t p d := (true, <[t_name t := filter (fun r => negb (p r)) (default [] (d !! t_name t))]> d)
|}.
Proof.
  all: try done.
  - intros t r d. cbv zeta. destruct (d !! t_name t) as [l|] eqn:E; [|done]. case_decide; [|done]. by exists l.
  - intros t p i lim d. cbv zeta. split; [done|]. exists (merge_sort (by_column i) (filter p (default [] (d !! t_name t)))).
    split; [apply merge_sort_Permutation|].
    split; [apply Sorted_merge_sort; apply _|]. split; done.
  - intros t d _ H. by rewrite bool_decide_true.
  - intros t r d _. split; [|done]. intros l -> Hf. by rewrite decide_True.
Defined.
