(* ===== verification/Mappers.v ===== *)
(** The in-memory tables of the gateway: the string map of
    [src/utils/hashmap.c], the subnet, VLAN and interface tables of
    [src/utils/iface_mapper.c] and the MAC table of
    [src/supervisor/mac_mapper.c].

    All are uthash tables ([Extern]).  The theorems say that each table is a
    finite map: a put, successful or not, is an insertion or nothing, a get is a
    lookup, and a listing gives every entry once.  Fixed character arrays are
    their strings; copying into one truncates as [strlcpy] does. *)
From stdpp Require Import strings numbers base list gmap.
From Stdlib Require Import ZArith Lia.
From S2P Require Import Prelude Os Text Net Extern.

Definition IF_NAMESIZE : Z := 16.
Definition HASH_KEY_CHAR_SIZE : Z := 20.
Definition AP_SECRET_LEN : Z := 64.

(** [os_strlcpy] or [snprintf] into an array of [size] characters, read back as
    a string. *)
Definition clip (size : Z) (s : list Z) : list Z := take (Z.to_nat (size - 1)) s.

(** ** String map ([hashmap.c]) *)

Section keychar.
Context {U : Uthash (list Z) (list Z)}.
#[local] Abbreviation hmap_str_keychar := (@hash _ _ _ U).

Definition hmap_str_keychar_get (hmap : hmap_str_keychar) (keyptr : option (list Z)) :
    option (list Z) :=
  match keyptr with
  | None => None
  | Some k => HASH_FIND k hmap
  end.

(** [HASH_REPLACE_STR]: the item with the same key is taken out and the new one
    added. *)
Definition hmap_str_keychar_put (hmap : hmap_str_keychar) (keyptr value : option (list Z)) :
    prog env (bool * hmap_str_keychar) :=
  match keyptr, value with
  | None, _ => mret (false, hmap)
  | _, None => mret (false, hmap)
  | Some k, Some v =>
      if HASH_KEY_CHAR_SIZE - 1 <? Z.min (zlen k) HASH_KEY_CHAR_SIZE then mret (false, hmap)
      else
        ok ← malloc;
        if negb ok then mret (false, hmap)
        else
          ok ← malloc;
          if negb ok then mret (false, hmap)
          else mret (true, HASH_ADD k v (HASH_DEL k hmap))
  end.

(** The loop of every [free_*] function: delete each item that is visited. *)
Definition hmap_str_keychar_free (hmap : hmap_str_keychar) : hmap_str_keychar :=
  foldl (fun h k => HASH_DEL k h) hmap (hash_items hmap).*1.
End keychar.

(** ** Subnets and VLANs ([iface_mapper.c]) *)

Record config_ifinfo_t := {
  ci_vlanid : Z;
  ci_ifname : list Z;
  ci_brname : list Z;
  ci_ip_addr : list Z;
  ci_brd_addr : list Z;
  ci_subnet_mask : list Z
}.

Record vlan_conn := {
  vc_vlanid : Z;
  vc_ifname : list Z;
  vc_capture_pid : Z
}.

Section if_mapper.
Context {U : Uthash Z (list Z)}.
#[local] Abbreviation hmap_if_conn := (@hash _ _ _ U).

Definition get_if_mapper (hmap : option hmap_if_conn) (subnet : Z) (ifname : option (list Z)) :
    Z * option (list Z) :=
  match hmap, ifname with
  | None, _ => (-1, ifname)
  | _, None => (-1, ifname)
  | Some h, Some _ =>
      match HASH_FIND subnet h with
      | Some v => (1, Some (clip IF_NAMESIZE v))
      | None => (0, ifname)
      end
  end.

Definition put_if_mapper (hmap : option hmap_if_conn) (subnet : Z) (ifname : option (list Z)) :
    prog env (bool * option hmap_if_conn) :=
  match hmap, ifname with
  | None, _ => mret (false, hmap)
  | _, None => mret (false, hmap)
  | Some h, Some name =>
      match HASH_FIND subnet h with
      | None =>
          ok ← malloc;
          if negb ok then mret (false, hmap)
          else mret (true, Some (HASH_ADD subnet (clip IF_NAMESIZE name) h))
      | Some _ => mret (true, Some (hash_store subnet (clip IF_NAMESIZE name) h))
      end
  end.

Definition free_if_mapper (hmap : hmap_if_conn) : hmap_if_conn :=
  foldl (fun h k => HASH_DEL k h) hmap (hash_items hmap).*1.

Fixpoint create_if_mapper (config_ifinfo_array : list config_ifinfo_t) (hmap : hmap_if_conn) :
    prog env (bool * hmap_if_conn) :=
  match config_ifinfo_array with
  | [] => mret (true, hmap)
  | p :: rest =>
      let (r, addr) := ip_2_nbo (ci_ip_addr p) (ci_subnet_mask p) (Some 0) in
      if r <? 0 then mret (false, free_if_mapper hmap)
      else
        x ← put_if_mapper (Some hmap) (default 0 addr) (Some (ci_ifname p));
        let hmap' := default hmap x.2 in
        if negb x.1 then mret (false, free_if_mapper hmap')
        else create_if_mapper rest hmap'
  end.
End if_mapper.

Section vlan_mapper.
Context {U : Uthash Z vlan_conn}.
#[local] Abbreviation hmap_vlan_conn := (@hash _ _ _ U).

Definition get_vlan_mapper (hmap : option hmap_vlan_conn) (vlanid : Z)
    (conn : option vlan_conn) : Z * option vlan_conn :=
  match hmap with
  | None => (-1, conn)
  | Some h =>
      match HASH_FIND vlanid h with
      | Some v => (1, match conn with Some _ => Some v | None => None end)
      | None => (0, conn)
      end
  end.

Definition put_vlan_mapper (hmap : option hmap_vlan_conn) (conn : option vlan_conn) :
    prog env (bool * option hmap_vlan_conn) :=
  match hmap, conn with
  | None, _ => mret (false, hmap)
  | _, None => mret (false, hmap)
  | Some h, Some c =>
      match HASH_FIND (vc_vlanid c) h with
      | None =>
          ok ← malloc;
          if negb ok then mret (false, hmap) else mret (true, Some (HASH_ADD (vc_vlanid c) c h))
      | Some _ => mret (true, Some (hash_store (vc_vlanid c) c h))
      end
  end.

Definition free_vlan_mapper (hmap : hmap_vlan_conn) : hmap_vlan_conn :=
  foldl (fun h k => HASH_DEL k h) hmap (hash_items hmap).*1.

Fixpoint copy_vlan_items (items : list (Z * vlan_conn)) (copy : hmap_vlan_conn) :
    prog env (Z * hmap_vlan_conn) :=
  match items with
  | [] => mret (0, copy)
  | current :: rest =>
      x ← put_vlan_mapper (Some copy) (Some current.2);
      let copy' := default copy x.2 in
      if negb x.1 then mret (-1, copy') else copy_vlan_items rest copy'
  end.
Definition copy_vlan_mapper (hmap copy : hmap_vlan_conn) : prog env (Z * hmap_vlan_conn) :=
  copy_vlan_items (hash_items hmap) copy.

Fixpoint create_vlan_mapper (config_ifinfo_array : list config_ifinfo_t)
    (hmap : hmap_vlan_conn) : prog env (Z * hmap_vlan_conn) :=
  match config_ifinfo_array with
  | [] => mret (0, hmap)
  | p :: rest =>
      x ← put_vlan_mapper (Some hmap)
            (Some {| vc_vlanid := ci_vlanid p; vc_ifname := ci_ifname p; vc_capture_pid := 0 |});
      let hmap' := default hmap x.2 in
      if negb x.1 then mret (-1, free_vlan_mapper hmap') else create_vlan_mapper rest hmap'
  end.
End vlan_mapper.

(** The interface whose subnet holds an address: 0 and the entry, 1 for none,
    -1 when a conversion fails. *)
Fixpoint find_ifinfo (config_ifinfo_array : list config_ifinfo_t) (ip : list Z) :
    Z * option config_ifinfo_t :=
  match config_ifinfo_array with
  | [] => (1, None)
  | p :: rest =>
      let (r1, addr_subnet) := ip_2_nbo (ci_ip_addr p) (ci_subnet_mask p) (Some 0) in
      if r1 <? 0 then (-1, None)
      else
        let (r2, addr_ip) := ip_2_nbo ip (ci_subnet_mask p) (Some 0) in
        if r2 <? 0 then (-1, None)
        else if default 0 addr_ip =? default 0 addr_subnet then (0, Some p)
        else find_ifinfo rest ip
  end.

Definition get_brname_from_ip (config_ifinfo_array : option (list config_ifinfo_t))
    (ip_addr brname : option (list Z)) : Z * option (list Z) :=
  match config_ifinfo_array, ip_addr, brname with
  | Some arr, Some ip, Some _ =>
      match find_ifinfo arr ip with
      | (0, Some p) => (0, Some (ci_brname p))
      | _ => (-1, brname)
      end
  | _, _, _ => (-1, brname)
  end.

Definition get_ifname_from_ip (config_ifinfo_array : option (list config_ifinfo_t))
    (ip_addr ifname : option (list Z)) : Z * option (list Z) :=
  match config_ifinfo_array, ip_addr, ifname with
  | Some arr, Some ip, Some _ =>
      match find_ifinfo arr ip with
      | (0, Some p) => (0, Some (ci_ifname p))
      | _ => (-1, ifname)
      end
  | _, _, _ => (-1, ifname)
  end.

(** [snprintf] does not fail on these formats. *)
Definition init_ifbridge_names (config_ifinfo_array : list config_ifinfo_t)
    (ifname brname : list Z) : Z * list config_ifinfo_t :=
  (0, (fun p => {| ci_vlanid := ci_vlanid p;
                   ci_ifname := clip IF_NAMESIZE (ifname ++ fmt_d (ci_vlanid p));
                   ci_brname := clip IF_NAMESIZE (brname ++ fmt_d (ci_vlanid p));
                   ci_ip_addr := ci_ip_addr p;
                   ci_brd_addr := ci_brd_addr p;
                   ci_subnet_mask := ci_subnet_mask p |}) <$> config_ifinfo_array).

(** ** MAC connections ([mac_mapper.c]) *)

(** [enum AP_CONNECTION_STATUS]. *)
Inductive ap_connection_status :=
| AP_DEFAULT_STATUS
| AP_CONNECTED_STATUS
| AP_DISCONNECTED_STATUS.

#[export] Instance ap_connection_status_eq_dec : EqDecision ap_connection_status.
Proof. solve_decision. Defined.

Record mac_conn_info := {
  mi_status : ap_connection_status;
  mi_vlanid : Z;
  mi_nat : bool;
  mi_allow_connection : bool;
  mi_pass : list Z;
  mi_pass_len : Z;
  mi_ip_addr : list Z;
  mi_ip_sec_addr : list Z;
  mi_ifname : list Z;
  mi_label : list Z;
  mi_id : list Z;
  mi_join_timestamp : Z
}.

Record mac_conn := {
  mac_addr : list Z;
  mac_info : mac_conn_info
}.

Section mac_mapper.
Context {U : Uthash (list Z) mac_conn_info}.
#[local] Abbreviation hmap_mac_conn := (@hash _ _ _ U).

(** The return value and the value left in [*info]. *)
Definition get_mac_mapper (hmap : option hmap_mac_conn) (mac : option (list Z))
    (out : option mac_conn_info) : Z * option mac_conn_info :=
  match hmap, mac, out with
  | Some h, Some m, Some _ =>
      match HASH_FIND m h with
      | Some v => (1, Some v)
      | None => (0, out)
      end
  | _, _, _ => (-1, out)
  end.

Definition put_mac_mapper (hmap : option hmap_mac_conn) (conn : mac_conn) :
    prog env (bool * option hmap_mac_conn) :=
  match hmap with
  | None => mret (false, hmap)
  | Some h =>
      match HASH_FIND (mac_addr conn) h with
      | None =>
          ok ← malloc;
          if negb ok then mret (false, hmap)
          else mret (true, Some (HASH_ADD (mac_addr conn) (mac_info conn) h))
      | Some _ => mret (true, Some (hash_store (mac_addr conn) (mac_info conn) h))
      end
  end.

Definition free_mac_mapper (hmap : hmap_mac_conn) : hmap_mac_conn :=
  foldl (fun h k => HASH_DEL k h) hmap (hash_items hmap).*1.

(** The result of [os_malloc] is used unchecked. *)
Definition get_mac_list (hmap : hmap_mac_conn) (out : option (list mac_conn)) :
    prog env (Z * option (list mac_conn)) :=
  let total_entries := zlen (hash_items hmap) in
  if total_entries =? 0 then mret (0, out)
  else
    ok ← malloc;
    if negb ok then fail_with NullDeref
    else mret (total_entries,
               Some ((fun x => {| mac_addr := x.1; mac_info := x.2 |}) <$> hash_items hmap)).

Definition init_default_mac_info (default_open_vlanid : Z) (allow_all_nat : bool) :
    mac_conn_info :=
  {| mi_status := AP_DEFAULT_STATUS; mi_vlanid := default_open_vlanid; mi_nat := allow_all_nat;
     mi_allow_connection := true; mi_pass := zeros (Z.to_nat AP_SECRET_LEN); mi_pass_len := 0;
     mi_ip_addr := []; mi_ip_sec_addr := []; mi_ifname := []; mi_label := []; mi_id := [];
     mi_join_timestamp := 0 |}.

Fixpoint get_ip_items (items : list (list Z * mac_conn_info)) (ip : list Z) (out : list Z) :
    outcome (Z * list Z) :=
  match items with
  | [] => Done (0, out)
  | current :: rest =>
      match validate_ipv4_string (mi_ip_addr current.2) with
      | Fault f => Fault f
      | Done b1 =>
          if b1 && bool_decide (ip = mi_ip_addr current.2) then Done (1, current.1)
          else
            match validate_ipv4_string (mi_ip_sec_addr current.2) with
            | Fault f => Fault f
            | Done b2 =>
                if b2 && bool_decide (ip = mi_ip_sec_addr current.2) then Done (1, current.1)
                else get_ip_items rest ip out
            end
      end
  end.

Definition get_ip_mapper (hmap : option hmap_mac_conn) (ip : option (list Z))
    (out : option (list Z)) : outcome (Z * option (list Z)) :=
  match hmap, ip, out with
  | Some h, Some i, Some o =>
      match get_ip_items (hash_items h) i o with
      | Done (r, m) => Done (r, Some m)
      | Fault f => Fault f
      end
  | _, _, _ => Done (-1, out)
  end.
End mac_mapper.

(** ** Tables as finite maps *)

Section table.
Context {K V : Type} `{Countable K} {U : Uthash K V}.
#[local] Abbreviation table := (@hash _ _ _ U).

(** The body the put functions share, in terms of which each is stated. *)
Definition hash_put (k : K) (v : V) (h : table) : prog env (bool * option table) :=
  match HASH_FIND k h with
  | None =>
      ok ← malloc;
      if negb ok then mret (false, Some h) else mret (true, Some (HASH_ADD k v h))
  | Some _ => mret (true, Some (hash_store k v h))
  end.

Lemma hash_put_spec k v h e : hash_wf h ->
  exists b h' e', hash_put k v h e = Done ((b, Some h'), e') /\ env_ok e e' (b = true) /\
    hash_wf h' /\ hash_map h' = if b then <[k := v]> (hash_map h) else hash_map h.
Proof.
  intros Hwf. unfold hash_put. pose proof (hash_put_wf k v h Hwf) as Hput. cbv zeta in Hput.
  destruct (HASH_FIND k h).
  - by eexists true, _, e.
  - destruct (malloc_ok e) as (ok & e' & Hm & He). erewrite bind_run by exact Hm.
    destruct ok; cbn [negb]; eexists _, _, e'; (split; [done|]); (split; [done|]); done.
Qed.

Lemma hash_del_wf k h : hash_wf h ->
  hash_wf (HASH_DEL k h) /\ hash_map (HASH_DEL k h) = delete k (hash_map h).
Proof.
  unfold hash_wf, hash_map. rewrite hash_del_items. intros Hwf.
  split; [by apply NoDup_fmap_filter|]. clear Hwf.
  induction (hash_items h) as [|[k' v] l IH]; [symmetry; apply delete_empty|].
  rewrite filter_cons. case_decide as Hd; simpl in Hd; simpl list_to_map.
  - by rewrite IH, delete_insert_ne.
  - subst k'. by rewrite IH, delete_insert_eq.
Qed.

(** Deleting every key of the table leaves it empty. *)
Lemma hash_free_items h : hash_items (foldl (fun h k => HASH_DEL k h) h (hash_items h).*1) = [].
Proof.
  assert (forall ks h, hash_items (foldl (fun h k => HASH_DEL k h) h ks) =
    filter (fun x => x.1 ∉ ks) (hash_items h)) as Hf.
  { induction ks as [|k ks IH]; intros h'; simpl.
    - rewrite filter_all; [done|]. intros x _. apply not_elem_of_nil.
    - rewrite IH, hash_del_items, list_filter_filter. apply list_filter_iff.
      intros x. rewrite not_elem_of_cons. tauto. }
  rewrite Hf. apply filter_none. intros x Hx Hn. apply Hn.
  by apply list_elem_of_fmap_2, Hx.
Qed.
End table.

Section mac_table.
Context {U : Uthash (list Z) mac_conn_info}.
#[local] Abbreviation mac_table := (@hash _ _ _ U).

Lemma get_mac_mapper_lookup (h : mac_table) m out :
  get_mac_mapper (Some h) (Some m) (Some out) =
    match hash_map h !! m with Some v => (1, Some v) | None => (0, Some out) end.
Proof. unfold get_mac_mapper. rewrite hash_find_map. by destruct (hash_map h !! m). Qed.

Lemma put_mac_mapper_spec (h : mac_table) conn e : hash_wf h ->
  exists b h' e', put_mac_mapper (Some h) conn e = Done ((b, Some h'), e') /\
    env_ok e e' (b = true) /\ hash_wf h' /\
    hash_map h' = if b then <[mac_addr conn := mac_info conn]> (hash_map h) else hash_map h.
Proof. apply hash_put_spec. Qed.

(**  The MAC table implements a finite map from MAC addresses to connection
    records: [put_mac_mapper] inserts or overwrites the entry of its MAC and no
    other, or reports failure and changes nothing, which happens only when
    memory is short; [get_mac_mapper] is lookup; [get_mac_list] gives every
    entry exactly once. *)
Theorem mac_mapper_refines_map (h : mac_table) conn m out e :
  hash_wf h ->
  exists b h' e', put_mac_mapper (Some h) conn e = Done ((b, Some h'), e') /\
    (mallocs e = [] -> b = true) /\ hash_wf h' /\
    hash_map h' = (if b then <[mac_addr conn := mac_info conn]> (hash_map h) else hash_map h) /\
    get_mac_mapper (Some h') (Some m) (Some out) =
      match hash_map h' !! m with Some v => (1, Some v) | None => (0, Some out) end /\
    (forall r, exists l, NoDup (mac_addr <$> l) /\
       list_to_map ((fun c => (mac_addr c, mac_info c)) <$> l) = hash_map h' /\
       get_mac_list h' None (Env [] r) =
         Done ((zlen l, match l with [] => None | _ => Some l end), Env [] r)).
Proof.
  intros Hwf. destruct (put_mac_mapper_spec h conn e Hwf) as (b & h' & e' & Hrun & [_ He] & Hwf' & Hm).
  exists b, h', e'. split; [done|]. split; [by intros [_ ?]%He|]. split; [done|]. split; [done|].
  split; [apply get_mac_mapper_lookup|]. intros r.
  exists ((fun x => {| mac_addr := x.1; mac_info := x.2 |}) <$> hash_items h').
  unfold hash_wf, hash_map, get_mac_list in *. rewrite <- !list_fmap_compose. split; [|split].
  - by rewrite (list_fmap_ext _ fst).
  - f_equal. rewrite <- (list_fmap_id (hash_items h')) at 2. apply list_fmap_ext. by intros ? [].
  - destruct (hash_items h') as [|x l]; [done|]. rewrite zlen_cons.
    pose proof (zlen_nonneg l). rewrite (proj2 (Z.eqb_neq _ _)) by lia. erewrite bind_run by done.
    cbn [negb]. unfold mret, prog_ret. do 3 f_equal. unfold zlen. simpl. rewrite length_fmap. lia.
Qed.

End mac_table.

Lemma mac_mapper_refines_map_witness :
  let conn := {| mac_addr := [1; 2; 3; 4; 5; 6]; mac_info := init_default_mac_info 7 true |} in
  exists b h' e', put_mac_mapper (U := list_uthash _ _) (Some hash_empty) conn (Env [] []) =
      Done ((b, Some h'), e') /\ b = true /\ hash_map h' !! [1; 2; 3; 4; 5; 6] = Some (mac_info conn).
Proof.
  intros conn.
  destruct (mac_mapper_refines_map (U := list_uthash _ _) hash_empty conn [] (mac_info conn) (Env [] []))
    as (b & h' & e' & Hrun & Hb & _ & Hm & _).
  - constructor.
  - exists b, h', e'. specialize (Hb eq_refl). subst b. split; [exact Hrun|]. split; [done|].
    by rewrite Hm, lookup_insert_eq.
Defined.

(** ** Looking up an address *)

(** A character array of 22 bytes holds a string of at most 21. *)
Definition addr_field (s : list Z) : Prop := nul_free s /\ zlen s <= 21.

Lemma validate_total s : addr_field s -> exists b, validate_ipv4_string s = Done b.
Proof.
  intros [Hn Hl]. pose proof (strchr_spec s 47) as Hs.
  destruct (strchr s 47) as [[p m]|].
  - destruct Hs as [-> Hp]. destruct (validate_netmask p m Hn Hp) as (b & ? & _); [|by exists b].
    rewrite zlen_app in Hl. pose proof (zlen_nonneg (47 :: m)). lia.
  - destruct (validate_plain s Hn Hs) as (b & ? & _). by exists b.
Qed.

(** The record holds the address, as valid text, in one of its two fields. *)
Definition has_ip (ip : list Z) (i : mac_conn_info) : Prop :=
  validate_ipv4_string ip = Done true /\ (ip = mi_ip_addr i \/ ip = mi_ip_sec_addr i).

Lemma get_ip_items_spec items ip out :
  Forall (fun x => addr_field (mi_ip_addr x.2) /\ addr_field (mi_ip_sec_addr x.2)) items ->
  exists r m, get_ip_items items ip out = Done (r, m) /\
    ((r = 0 /\ m = out /\ Forall (fun x => ~ has_ip ip x.2) items) \/
     (r = 1 /\ exists i, (m, i) ∈ items /\ has_ip ip i)).
Proof.
  induction 1 as [|[k i] items [H1 H2] _ IH]; cbn [get_ip_items snd fst] in *.
  { exists 0, out. split; [done|]. left. split; [done|]. split; [done|constructor]. }
  destruct (validate_total _ H1) as [b1 Hb1], (validate_total _ H2) as [b2 Hb2]. rewrite Hb1.
  destruct (b1 && bool_decide (ip = mi_ip_addr i)) eqn:E1.
  { apply andb_prop in E1 as [-> E1]. apply bool_decide_eq_true in E1 as ->.
    eexists 1, k. split; [done|]. right. split; [done|]. exists i. split; [left|].
    split; [done|by left]. }
  rewrite Hb2. destruct (b2 && bool_decide (ip = mi_ip_sec_addr i)) eqn:E2.
  { apply andb_prop in E2 as [-> E2]. apply bool_decide_eq_true in E2 as ->.
    eexists 1, k. split; [done|]. right. split; [done|]. exists i. split; [left|].
    split; [done|by right]. }
  destruct IH as (r & m & -> & [(-> & -> & Hf)|(-> & i' & Hin & Hi)]); eexists _, _; (split; [done|]).
  - left. split; [done|]. split; [done|]. constructor; [|done]. intros [Hv [Heq|Heq]]; cbn [snd] in Heq.
    + rewrite <- Heq, Hv in Hb1. injection Hb1 as <-. by rewrite bool_decide_eq_true_2 in E1.
    + rewrite <- Heq, Hv in Hb2. injection Hb2 as <-. by rewrite bool_decide_eq_true_2 in E2.
  - right. split; [done|]. exists i'. split; [by right|done].
Qed.

Section ip_lookup.
Context {U : Uthash (list Z) mac_conn_info}.
#[local] Abbreviation mac_table := (@hash _ _ _ U).

Lemma hash_items_lookup (h : mac_table) m i : hash_wf h ->
  (m, i) ∈ hash_items h <-> hash_map h !! m = Some i.
Proof. intros Hwf. by apply elem_of_list_to_map. Qed.

(**  [get_ip_mapper] finds the device of an IPv4 address: it answers 1 and
    a MAC whose record has that address as its first or second address, and 0,
    leaving the output alone, exactly when no record has it or the text is not
    a valid address. *)
Theorem get_ip_mapper_correct (h : mac_table) ip out :
  hash_wf h ->
  (forall m i, hash_map h !! m = Some i ->
     addr_field (mi_ip_addr i) /\ addr_field (mi_ip_sec_addr i)) ->
  exists r m, get_ip_mapper (Some h) (Some ip) (Some out) = Done (r, Some m) /\
    ((r = 1 /\ exists i, hash_map h !! m = Some i /\ has_ip ip i) \/
     (r = 0 /\ m = out /\ forall m' i, hash_map h !! m' = Some i -> ~ has_ip ip i)).
Proof.
  intros Hwf Hf. unfold get_ip_mapper.
  destruct (get_ip_items_spec (hash_items h) ip out) as (r & m & -> & Hr).
  { apply list.Forall_forall. intros [m i] Hin. by apply (Hf m i), hash_items_lookup. }
  exists r, m. split; [done|]. destruct Hr as [(-> & -> & Hnone)|(-> & i & Hin & Hi)].
  - right. split; [done|]. split; [done|]. intros m' i Hm'. rewrite list.Forall_forall in Hnone.
    apply (Hnone (m', i)). by apply hash_items_lookup.
  - left. split; [done|]. exists i. split; [by apply hash_items_lookup|done].
Qed.
End ip_lookup.

Definition sample_device : mac_conn_info :=
  {| mi_status := AP_CONNECTED_STATUS; mi_vlanid := 7; mi_nat := false;
     mi_allow_connection := true; mi_pass := zeros 64; mi_pass_len := 0;
     mi_ip_addr := cstr "10.0.7.2"; mi_ip_sec_addr := []; mi_ifname := cstr "br7";
     mi_label := []; mi_id := []; mi_join_timestamp := 0 |}.

Lemma get_ip_mapper_correct_witness :
  exists r m, get_ip_mapper (U := list_uthash _ _) (Some [([1; 2; 3; 4; 5; 6], sample_device)])
      (Some (cstr "10.0.7.2")) (Some []) = Done (r, Some m) /\ r = 1.
Proof.
  destruct (get_ip_mapper_correct (U := list_uthash _ _) [([1; 2; 3; 4; 5; 6], sample_device)]
    (cstr "10.0.7.2") []) as (r & m & Hrun & Hr).
  - apply NoDup_singleton.
  - intros m i. unfold hash_map. simpl hash_items. simpl list_to_map.
    rewrite lookup_insert_Some, lookup_empty. intros [[_ <-]|[_ ?]]; [|done].
    split; (split; [by repeat constructor|done]).
  - exists r, m. split; [exact Hrun|]. destruct Hr as [[-> _]|(_ & _ & Hno)]; [done|].
    exfalso. apply (Hno [1; 2; 3; 4; 5; 6] sample_device); [done|]. split; [done|by left].
Defined.

(** ** Tables built from the configuration *)

Definition subnet_of (p : config_ifinfo_t) : Z :=
  Z.land (inet_network (ci_ip_addr p)) (inet_network (ci_subnet_mask p)).

Definition ifinfo_ok (p : config_ifinfo_t) : Prop :=
  inet_network (ci_ip_addr p) <> INADDR_NONE /\ inet_network (ci_subnet_mask p) <> INADDR_NONE.

Lemma ip_2_nbo_ok ip mask a :
  inet_network ip <> INADDR_NONE -> inet_network mask <> INADDR_NONE ->
  ip_2_nbo ip mask (Some a) = (0, Some (Z.land (inet_network ip) (inet_network mask))).
Proof. intros H1 H2. unfold ip_2_nbo. by rewrite !(proj2 (Z.eqb_neq _ _)). Qed.

(** The entry of the last configuration line with a key. *)
Definition last_with {A} (key : config_ifinfo_t -> Z) (value : config_ifinfo_t -> A)
    (arr : list config_ifinfo_t) (k : Z) : option A :=
  value <$> last (filter (fun p => key p = k) arr).

Lemma last_with_cons {A} key (value : config_ifinfo_t -> A) p arr k :
  last_with key value (p :: arr) k =
    match last_with key value arr k with
    | Some v => Some v
    | None => if decide (key p = k) then Some (value p) else None
    end.
Proof.
  unfold last_with. rewrite filter_cons. case_decide as Hd.
  - rewrite last_cons. by destruct (last _).
  - by destruct (last _).
Qed.

Lemma create_if_mapper_spec {U : Uthash Z (list Z)} arr : forall (h : @hash _ _ _ U) e,
  Forall ifinfo_ok arr -> hash_wf h -> mallocs e = [] ->
  exists h', create_if_mapper arr h e = Done ((true, h'), e) /\ hash_wf h' /\
    forall k, hash_map h' !! k =
      match last_with subnet_of (fun p => clip IF_NAMESIZE (ci_ifname p)) arr k with
      | Some v => Some v
      | None => hash_map h !! k
      end.
Proof.
  induction arr as [|p arr IH]; intros h e Hok Hwf He; cbn [create_if_mapper]; [by exists h|].
  apply List.Forall_cons_iff in Hok as [[H1 H2] Hok]. rewrite ip_2_nbo_ok by done.
  change (0 <? 0) with false. cbn [default]. fold (subnet_of p).
  destruct (hash_put_spec (subnet_of p) (clip IF_NAMESIZE (ci_ifname p)) h e Hwf)
    as (b & h1 & e1 & Hrun & [_ He1] & Hwf1 & Hm1). destruct (He1 He) as [-> ->].
  erewrite bind_run by exact Hrun. cbn [fst snd default negb].
  destruct (IH h1 e Hok Hwf1 He) as (h' & Hrun' & Hwf' & Hm'). exists h'. split; [done|].
  split; [done|]. intros k. rewrite Hm', last_with_cons, Hm1. destruct (last_with _ _ _ _); [done|].
  case_decide as Hd; [subst k; by rewrite lookup_insert_eq|by rewrite lookup_insert_ne].
Qed.

Section vlans.
Context {U : Uthash Z vlan_conn}.
#[local] Abbreviation vlan_table := (@hash _ _ _ U).

Definition vlan_of (p : config_ifinfo_t) : vlan_conn :=
  {| vc_vlanid := ci_vlanid p; vc_ifname := ci_ifname p; vc_capture_pid := 0 |}.

Lemma put_vlan_mapper_spec (h : vlan_table) conn e : hash_wf h ->
  exists b h' e', put_vlan_mapper (Some h) (Some conn) e = Done ((b, Some h'), e') /\
    env_ok e e' (b = true) /\ hash_wf h' /\
    hash_map h' = if b then <[vc_vlanid conn := conn]> (hash_map h) else hash_map h.
Proof. apply hash_put_spec. Qed.

Lemma create_vlan_mapper_spec arr : forall (h : vlan_table) e,
  hash_wf h -> mallocs e = [] ->
  exists h', create_vlan_mapper arr h e = Done ((0, h'), e) /\ hash_wf h' /\
    forall k, hash_map h' !! k =
      match last_with ci_vlanid vlan_of arr k with Some v => Some v | None => hash_map h !! k end.
Proof.
  induction arr as [|p arr IH]; intros h e Hwf He; cbn [create_vlan_mapper]; [by exists h|].
  destruct (hash_put_spec (ci_vlanid p) (vlan_of p) h e Hwf)
    as (b & h1 & e1 & Hrun & [_ He1] & Hwf1 & Hm1). destruct (He1 He) as [-> ->].
  erewrite bind_run by exact Hrun. cbn [fst snd default negb].
  destruct (IH h1 e Hwf1 He) as (h' & Hrun' & Hwf' & Hm'). exists h'. split; [done|].
  split; [done|]. intros k. rewrite Hm', last_with_cons, Hm1. destruct (last_with _ _ _ _); [done|].
  case_decide as Hd; [subst k; by rewrite lookup_insert_eq|by rewrite lookup_insert_ne].
Qed.

(** Copying adds the entries of the table, whose keys are their VLAN numbers. *)
Lemma copy_vlan_items_spec items : forall (copy : vlan_table) e,
  NoDup items.*1 -> Forall (fun x => vc_vlanid x.2 = x.1) items -> hash_wf copy -> mallocs e = [] ->
  exists copy', copy_vlan_items items copy e = Done ((0, copy'), e) /\ hash_wf copy' /\
    hash_map copy' = list_to_map items ∪ hash_map copy.
Proof.
  induction items as [|[k v] items IH]; intros copy e Hnd Hk Hwf He; cbn [copy_vlan_items].
  { exists copy. split; [done|]. split; [done|]. simpl. by rewrite (left_id_L ∅ (∪)). }
  apply list.NoDup_cons in Hnd as [Hnk Hnd]. apply List.Forall_cons_iff in Hk as [Hk Hks].
  simpl in Hk.
  destruct (hash_put_spec (vc_vlanid v) v copy e Hwf)
    as (b & h1 & e1 & Hrun & [_ He1] & Hwf1 & Hm1). destruct (He1 He) as [-> ->].
  erewrite bind_run by exact Hrun. cbn [fst snd default negb].
  destruct (IH h1 e Hnd Hks Hwf1 He) as (h' & Hrun' & Hwf' & Hm'). exists h'. split; [done|].
  split; [done|]. rewrite Hm', Hm1, Hk. simpl list_to_map. rewrite <- insert_union_r.
  - by rewrite insert_union_l.
  - by apply not_elem_of_list_to_map.
Qed.
End vlans.

(**  The tables built from the interface configuration are right: when every
    line has a readable address and mask and memory is not short,
    [create_if_mapper] maps each subnet to the (clipped) interface name of the
    last line with that subnet and nothing else, [create_vlan_mapper] maps each
    VLAN number to its last line, and [copy_vlan_mapper] of that table gives an
    equal table. *)
Theorem config_tables_correct (U : Uthash Z (list Z)) (V : Uthash Z vlan_conn) arr e :
  Forall ifinfo_ok arr -> mallocs e = [] ->
  (exists h, create_if_mapper (U := U) arr hash_empty e = Done ((true, h), e) /\
     forall k name, get_if_mapper (Some h) k (Some name) =
       match last_with subnet_of ci_ifname arr k with
       | Some n => (1, Some (clip IF_NAMESIZE n))
       | None => (0, Some name)
       end) /\
  (exists h c, create_vlan_mapper (U := V) arr hash_empty e = Done ((0, h), e) /\
     copy_vlan_mapper h hash_empty e = Done ((0, c), e) /\ hash_map c = hash_map h /\
     forall k, hash_map h !! k = last_with ci_vlanid vlan_of arr k).
Proof.
  intros Hok He. split.
  - destruct (create_if_mapper_spec arr hash_empty e Hok hash_empty_wf He) as (h & Hrun & Hwf & Hm).
    exists h. split; [done|]. intros k name. unfold get_if_mapper. rewrite hash_find_map, Hm.
    unfold last_with. destruct (last _); cbn [fmap option_fmap option_map].
    + unfold clip at 1 2. by rewrite take_take, Nat.min_id.
    + unfold hash_map. by rewrite hash_empty_items.
  - destruct (create_vlan_mapper_spec arr hash_empty e hash_empty_wf He) as (h & Hrun & Hwf & Hm).
    assert (forall k, hash_map h !! k = last_with ci_vlanid vlan_of arr k) as Hm'.
    { intros k. rewrite Hm. destruct (last_with _ _ _ _); [done|]. unfold hash_map.
      by rewrite hash_empty_items. }
    destruct (copy_vlan_items_spec (hash_items h) hash_empty e Hwf) as (c & Hc & _ & Hcm).
    + apply list.Forall_forall. intros [k v] Hin. apply elem_of_list_to_map in Hin; [|done].
      fold (hash_map h) in Hin. rewrite Hm' in Hin. unfold last_with in Hin.
      apply fmap_Some in Hin as (p & Hp & ->). apply last_Some in Hp as [l Hp].
      assert (p ∈ filter (fun q => ci_vlanid q = k) arr) as Hpin by (rewrite Hp; set_solver).
      by apply list_elem_of_filter in Hpin as [? _].
    + apply hash_empty_wf.
    + done.
    + exists h, c. split; [done|]. split; [done|]. split; [|done]. rewrite Hcm.
      change (list_to_map (hash_items h)) with (hash_map h). unfold hash_map at 2.
      rewrite hash_empty_items. apply (right_id_L ∅ (∪)).
Qed.

Definition sample_ifinfo : config_ifinfo_t :=
  {| ci_vlanid := 1; ci_ifname := cstr "br1"; ci_brname := cstr "br1";
     ci_ip_addr := cstr "10.0.1.1"; ci_brd_addr := cstr "10.0.1.255";
     ci_subnet_mask := cstr "255.255.255.0" |}.

Lemma config_tables_correct_witness :
  exists h, create_if_mapper (U := list_uthash _ _) [sample_ifinfo] hash_empty (Env [] []) =
      Done ((true, h), Env [] []) /\
    get_if_mapper (Some h) 0x0a000100 (Some []) = (1, Some (cstr "br1")).
Proof.
  destruct (config_tables_correct (list_uthash _ _) (list_uthash _ _) [sample_ifinfo] (Env [] []))
    as [(h & Hrun & Hget) _].
  - constructor; [split; vm_compute; congruence|constructor].
  - reflexivity.
  - exists h. split; [exact Hrun|]. rewrite Hget. by vm_compute.
Defined.

(**  [find_ifinfo] returns the first configured interface whose subnet holds
    the address, and 1 when there is none; the two name lookups answer with
    that interface's names. *)
Theorem find_ifinfo_correct arr ip name :
  Forall ifinfo_ok arr -> inet_network ip <> INADDR_NONE ->
  let holds p := Z.land (inet_network ip) (inet_network (ci_subnet_mask p)) = subnet_of p in
  match find_ifinfo arr ip with
  | (r, Some p) => r = 0 /\ holds p /\ (exists pre post, arr = pre ++ p :: post /\
        Forall (fun q => ~ holds q) pre) /\
      get_ifname_from_ip (Some arr) (Some ip) (Some name) = (0, Some (ci_ifname p)) /\
      get_brname_from_ip (Some arr) (Some ip) (Some name) = (0, Some (ci_brname p))
  | (r, None) => r = 1 /\ Forall (fun q => ~ holds q) arr /\
      get_ifname_from_ip (Some arr) (Some ip) (Some name) = (-1, Some name) /\
      get_brname_from_ip (Some arr) (Some ip) (Some name) = (-1, Some name)
  end.
Proof.
  intros Hok Hip holds.
  enough (match find_ifinfo arr ip with
    | (r, Some p) => r = 0 /\ holds p /\
        (exists pre post, arr = pre ++ p :: post /\ Forall (fun q => ~ holds q) pre)
    | (r, None) => r = 1 /\ Forall (fun q => ~ holds q) arr
    end) as Hfind.
  { unfold get_ifname_from_ip, get_brname_from_ip. destruct (find_ifinfo arr ip) as [r [p|]].
    - destruct Hfind as (-> & ? & ?). done.
    - destruct Hfind as (-> & ?). done. }
  induction Hok as [|p arr [H1 H2] _ IH]; cbn [find_ifinfo]; [split; [done|constructor]|].
  rewrite !ip_2_nbo_ok by done. change (0 <? 0) with false. cbn [default]. unfold id. fold (subnet_of p).
  destruct (Z.eqb_spec (Z.land (inet_network ip) (inet_network (ci_subnet_mask p))) (subnet_of p))
    as [Heq|Hne]; cbn beta iota.
  - split; [done|]. split; [done|]. exists [], arr. split; [done|constructor].
  - destruct (find_ifinfo arr ip) as [r [q|]].
    + destruct IH as (? & ? & pre & post & -> & Hpre). split; [done|]. split; [done|].
      exists (p :: pre), post. split; [done|]. by constructor.
    + destruct IH as [? ?]. split; [done|]. by constructor.
Qed.

Lemma find_ifinfo_correct_witness :
  get_ifname_from_ip (Some [sample_ifinfo]) (Some (cstr "10.0.1.7")) (Some []) =
    (0, Some (cstr "br1")).
Proof.
  refine (proj1 (proj2 (proj2 (proj2 (find_ifinfo_correct [sample_ifinfo] (cstr "10.0.1.7") [] _ _))))).
  - constructor; [split; vm_compute; congruence|constructor].
  - vm_compute. congruence.
Defined.
