(* ===== verification/Decoder.v ===== *)
(** The packet decoder of the capture service:
    [src/capture/middlewares/header_middleware/packet_decoder.c] with
    [dns_decoder.c] and the packet part of [mdns_decoder.c].

    A captured packet is the list of its bytes; a header is the offset the code
    would point to, and every field is read at its offset, so that a header
    beyond the captured bytes is a fault.  For each layer the schema that the
    code fills in is a record.  The theorems: a frame that was put together
    from headers is taken apart into them, the tuples come in the order of the
    layers and carry one identifier, a DNS question is read as the name it
    spells and never overruns its array, no packet of more than [decode_reach]
    bytes makes the decoder leave the packet, and short ones do. *)
From stdpp Require Import strings numbers base list gmap.
From Stdlib Require Import ZArith Lia.
From S2P Require Import Prelude Os Text Net Mappers.

(** ** Fields in network byte order *)

Definition byte_at (h : list Z) (k : nat) : Z := nth k h 0.
Definition be16_at (h : list Z) (k : nat) : Z := byte_at h k * 256 + byte_at h (k + 1).
Definition be32_at (h : list Z) (k : nat) : Z := be16_at h k * 65536 + be16_at h (k + 2).
Definition sub_at (h : list Z) (k n : nat) : list Z := take n (drop k h).

(** [ntohs] on a value that is not in network byte order. *)
Definition swap16 (v : Z) : Z := (v mod 256) * 256 + v / 256.

(** ** IPv6 addresses as text ([inet_ntop(AF_INET6, ...)]) *)

Fixpoint hex_digits (fuel : nat) (n : Z) : list Z :=
  match fuel with
  | O => []
  | S fuel => if n <? 16 then [hex_digit n] else hex_digits fuel (n / 16) ++ [hex_digit (n mod 16)]
  end.
Definition fmt_x (n : Z) : list Z := hex_digits 4 n.

(** The first longest run of zero words: where it starts and how long it is.
    [cur] is the run that ends before [words]. *)
Fixpoint longest_run (words : list Z) (i : nat) (best cur : option (nat * nat)) : option (nat * nat) :=
  let better := match best, cur with
                | None, _ => cur
                | Some b, Some c => if (b.2 <? c.2)%nat then cur else best
                | Some _, None => best
                end in
  match words with
  | [] => better
  | w :: rest =>
      if w =? 0 then
        longest_run rest (S i) best
          (match cur with None => Some (i, 1%nat) | Some c => Some (c.1, S c.2) end)
      else longest_run rest (S i) better None
  end.

Fixpoint ntop6_words (addr : list Z) (best : option (nat * nat)) (words : list Z) (i : nat) : list Z :=
  match words with
  | [] => []
  | w :: rest =>
      let skip := match best with Some b => (b.1 <=? i)%nat && (i <? b.1 + b.2)%nat | None => false end in
      if skip then
        (if decide (best = Some (i, default 0%nat (snd <$> best))) then [58] else []) ++
        ntop6_words addr best rest (S i)
      else
        (if (i =? 0)%nat then [] else [58]) ++
        (if (i =? 6)%nat &&
            match best with
            | Some b => (b.1 =? 0)%nat && ((b.2 =? 6)%nat || ((b.2 =? 5)%nat && (be16_at addr 10 =? 0xffff)))
            | None => false
            end
         then inet_ntop (sub_at addr 12 4)
         else fmt_x w ++ ntop6_words addr best rest (S i))
  end.

Definition inet_ntop6 (addr : list Z) : list Z :=
  let words := (fun k => be16_at addr (2 * k)) <$> seq 0 8 in
  let best := match longest_run words 0 None None with
              | Some b => if (b.2 <? 2)%nat then None else Some b
              | None => None
              end in
  ntop6_words addr best words 0 ++
  (match best with Some b => if (b.1 + b.2 =? 8)%nat then [58] else [] | None => [] end).

(** ** Schemas ([packet_decoder.h]) *)

Definition MAX_QUESTION_LEN : Z := 255.
Definition MAX_RANDOM_UUID_LEN : Z := 37.

Record eth_schema := {
  eth_timestamp : Z; eth_id : list Z; eth_caplen : Z; eth_length : Z; eth_ifname : list Z;
  ether_dhost : list Z; ether_shost : list Z; ether_type : Z
}.
Record arp_schema := {
  arp_id : list Z; ar_hrd : Z; ar_pro : Z; ar_hln : Z; ar_pln : Z; ar_op : Z;
  arp_sha : list Z; arp_spa : list Z; arp_tha : list Z; arp_tpa : list Z
}.
Record ip4_schema := {
  ip4_id : list Z; ip_src : list Z; ip_dst : list Z; ip_hl : Z; ip_v : Z; ip_tos : Z; ip_len : Z;
  ip_id : Z; ip_off : Z; ip_ttl : Z; ip_p : Z; ip_sum : Z
}.
Record ip6_schema := {
  ip6_id : list Z; ip6_un1_flow : Z; ip6_un1_plen : Z; ip6_un1_nxt : Z; ip6_un1_hlim : Z;
  ip6_un2_vfc : Z; ip6_src : list Z; ip6_dst : list Z
}.
Record tcp_schema := {
  tcp_id : list Z; tcp_source : Z; tcp_dest : Z; seq_nr : Z; ack_seq : Z; res1 : Z; doff : Z;
  fin : Z; syn : Z; rst : Z; psh : Z; ack : Z; urg : Z; window : Z; tcp_check : Z; urg_ptr : Z
}.
Record udp_schema := {
  udp_id : list Z; udp_source : Z; udp_dest : Z; udp_len : Z; udp_check : Z
}.
Record icmp4_schema := {
  icmp4_id : list Z; icmp4_type : Z; icmp4_code : Z; icmp4_checksum : Z; icmp4_gateway : Z
}.
Record icmp6_schema := {
  icmp6_id : list Z; icmp6_type : Z; icmp6_code : Z; icmp6_cksum : Z; icmp6_un_data32 : Z
}.
Record dns_schema := {
  dns_id : list Z; dns_tid : Z; dns_flags : Z; dns_nqueries : Z; dns_nanswers : Z; dns_nauth : Z;
  dns_nother : Z; dns_qname : list Z
}.
Record mdns_schema := {
  mdns_id : list Z; mdns_tid : Z; mdns_flags : Z; mdns_nqueries : Z; mdns_nanswers : Z;
  mdns_nauth : Z; mdns_nother : Z; mdns_qname : list Z
}.
Record dhcp_schema := {
  dhcp_id : list Z; dhcp_op : Z; dhcp_htype : Z; dhcp_hlen : Z; dhcp_hops : Z; dhcp_xid : Z;
  dhcp_secs : Z; dhcp_flags : Z; dhcp_ciaddr : list Z; dhcp_yiaddr : list Z; dhcp_siaddr : list Z;
  dhcp_giaddr : list Z; dhcp_chaddr : list Z
}.

(** [struct tuple_packet]: the schema and, by its constructor, the type. *)
Inductive tuple_packet :=
| PACKET_ETHERNET (s : eth_schema)
| PACKET_ARP (s : arp_schema)
| PACKET_IP4 (s : ip4_schema)
| PACKET_IP6 (s : ip6_schema)
| PACKET_TCP (s : tcp_schema)
| PACKET_UDP (s : udp_schema)
| PACKET_ICMP4 (s : icmp4_schema)
| PACKET_ICMP6 (s : icmp6_schema)
| PACKET_DNS (s : dns_schema)
| PACKET_MDNS (s : mdns_schema)
| PACKET_DHCP (s : dhcp_schema).

(** [struct pcap_pkthdr]. *)
Record pcap_pkthdr := { ts_sec : Z; ts_usec : Z; caplen : Z; len : Z }.

(** [struct capture_packet]: what is known of the packet, and for each layer
    the offset of its header with its schema, once the header was found. *)
Record headers := {
  ethh : option (Z * eth_schema);
  arph : option (Z * arp_schema);
  ip4h : option (Z * ip4_schema);
  ip6h : option (Z * ip6_schema);
  tcph : option (Z * tcp_schema);
  udph : option (Z * udp_schema);
  icmp4h : option (Z * icmp4_schema);
  icmp6h : option (Z * icmp6_schema);
  dnsh : option (Z * dns_schema);
  mdnsh : option (Z * mdns_schema);
  dhcph : option (Z * dhcp_schema)
}.
Record capture_packet := {
  cp_timestamp : Z; cp_caplen : Z; cp_length : Z; cp_ifname : list Z; cp_id : list Z;
  hdrs : headers
}.

Definition no_headers : headers :=
  {| ethh := None; arph := None; ip4h := None; ip6h := None; tcph := None; udph := None; icmp4h := None; icmp6h := None; dnsh := None; mdnsh := None; dhcph := None |}.
Definition on_hdrs (f : headers -> headers) (c : capture_packet) : capture_packet :=
  {| cp_timestamp := cp_timestamp c; cp_caplen := cp_caplen c; cp_length := cp_length c;
     cp_ifname := cp_ifname c; cp_id := cp_id c; hdrs := f (hdrs c) |}.
Definition set_eth (x : Z * eth_schema) (h : headers) : headers :=
  {| ethh := Some x; arph := arph h; ip4h := ip4h h; ip6h := ip6h h; tcph := tcph h; udph := udph h; icmp4h := icmp4h h; icmp6h := icmp6h h; dnsh := dnsh h; mdnsh := mdnsh h; dhcph := dhcph h |}.
Definition set_arp (x : Z * arp_schema) (h : headers) : headers :=
  {| ethh := ethh h; arph := Some x; ip4h := ip4h h; ip6h := ip6h h; tcph := tcph h; udph := udph h; icmp4h := icmp4h h; icmp6h := icmp6h h; dnsh := dnsh h; mdnsh := mdnsh h; dhcph := dhcph h |}.
Definition set_ip4 (x : Z * ip4_schema) (h : headers) : headers :=
  {| ethh := ethh h; arph := arph h; ip4h := Some x; ip6h := ip6h h; tcph := tcph h; udph := udph h; icmp4h := icmp4h h; icmp6h := icmp6h h; dnsh := dnsh h; mdnsh := mdnsh h; dhcph := dhcph h |}.
Definition set_ip6 (x : Z * ip6_schema) (h : headers) : headers :=
  {| ethh := ethh h; arph := arph h; ip4h := ip4h h; ip6h := Some x; tcph := tcph h; udph := udph h; icmp4h := icmp4h h; icmp6h := icmp6h h; dnsh := dnsh h; mdnsh := mdnsh h; dhcph := dhcph h |}.
Definition set_tcp (x : Z * tcp_schema) (h : headers) : headers :=
  {| ethh := ethh h; arph := arph h; ip4h := ip4h h; ip6h := ip6h h; tcph := Some x; udph := udph h; icmp4h := icmp4h h; icmp6h := icmp6h h; dnsh := dnsh h; mdnsh := mdnsh h; dhcph := dhcph h |}.
Definition set_udp (x : Z * udp_schema) (h : headers) : headers :=
  {| ethh := ethh h; arph := arph h; ip4h := ip4h h; ip6h := ip6h h; tcph := tcph h; udph := Some x; icmp4h := icmp4h h; icmp6h := icmp6h h; dnsh := dnsh h; mdnsh := mdnsh h; dhcph := dhcph h |}.
Definition set_icmp4 (x : Z * icmp4_schema) (h : headers) : headers :=
  {| ethh := ethh h; arph := arph h; ip4h := ip4h h; ip6h := ip6h h; tcph := tcph h; udph := udph h; icmp4h := Some x; icmp6h := icmp6h h; dnsh := dnsh h; mdnsh := mdnsh h; dhcph := dhcph h |}.
Definition set_icmp6 (x : Z * icmp6_schema) (h : headers) : headers :=
  {| ethh := ethh h; arph := arph h; ip4h := ip4h h; ip6h := ip6h h; tcph := tcph h; udph := udph h; icmp4h := icmp4h h; icmp6h := Some x; dnsh := dnsh h; mdnsh := mdnsh h; dhcph := dhcph h |}.
Definition set_dns (x : Z * dns_schema) (h : headers) : headers :=
  {| ethh := ethh h; arph := arph h; ip4h := ip4h h; ip6h := ip6h h; tcph := tcph h; udph := udph h; icmp4h := icmp4h h; icmp6h := icmp6h h; dnsh := Some x; mdnsh := mdnsh h; dhcph := dhcph h |}.
Definition set_mdns (x : Z * mdns_schema) (h : headers) : headers :=
  {| ethh := ethh h; arph := arph h; ip4h := ip4h h; ip6h := ip6h h; tcph := tcph h; udph := udph h; icmp4h := icmp4h h; icmp6h := icmp6h h; dnsh := dnsh h; mdnsh := Some x; dhcph := dhcph h |}.
Definition set_dhcp (x : Z * dhcp_schema) (h : headers) : headers :=
  {| ethh := ethh h; arph := arph h; ip4h := ip4h h; ip6h := ip6h h; tcph := tcph h; udph := udph h; icmp4h := icmp4h h; icmp6h := icmp6h h; dnsh := dnsh h; mdnsh := mdnsh h; dhcph := Some x |}.

(** ** The decoder *)

Section decoder.
Context (packet : list Z).

#[local] Abbreviation Dec := (prog capture_packet).
Definition cpac {A} (f : capture_packet -> A) : Dec A := fun c => Done (f c, c).
Definition put_header (f : headers -> headers) : Dec unit := fun c => Done (tt, on_hdrs f c).

(** The bytes of a header that the code looks at. *)
Definition header_at (off n : Z) : Dec (list Z) := lift_outcome (rd packet off n).

Definition decode_eth_packet (header : pcap_pkthdr) : Dec bool :=
  if caplen header <? 14 then mret false
  else
    h ← header_at 0 14;
    c ← cpac id;
    _ ← put_header (set_eth (0,
          {| eth_timestamp := cp_timestamp c; eth_id := cp_id c; eth_caplen := cp_caplen c;
             eth_length := cp_length c; eth_ifname := cp_ifname c;
             ether_dhost := macstr (sub_at h 0 6); ether_shost := macstr (sub_at h 6 6);
             ether_type := be16_at h 12 |}));
    mret true.

Definition decode_arp_packet : Dec bool :=
  h ← header_at 14 28;
  id ← cpac cp_id;
  _ ← put_header (set_arp (14,
        {| arp_id := id; ar_hrd := be16_at h 0; ar_pro := be16_at h 2; ar_hln := byte_at h 4;
           ar_pln := byte_at h 5; ar_op := be16_at h 6; arp_sha := macstr (sub_at h 8 6);
           arp_spa := inet_ntop (sub_at h 14 4); arp_tha := macstr (sub_at h 18 6);
           arp_tpa := inet_ntop (sub_at h 24 4) |}));
  mret true.

(** The subtraction is one of unsigned numbers. *)
Definition decode_ip4_packet : Dec bool :=
  length ← cpac cp_length;
  if u64 (length - 14) <? 20 then mret false
  else
    h ← header_at 14 20;
    id ← cpac cp_id;
    let v := byte_at h 0 / 16 in
    _ ← put_header (set_ip4 (14,
          {| ip4_id := id; ip_src := inet_ntop (sub_at h 12 4); ip_dst := inet_ntop (sub_at h 16 4);
             ip_hl := byte_at h 0 mod 16; ip_v := v; ip_tos := byte_at h 1; ip_len := be16_at h 2;
             ip_id := be16_at h 4; ip_off := be16_at h 6; ip_ttl := byte_at h 8; ip_p := byte_at h 9;
             ip_sum := be16_at h 10 |}));
    mret (v =? 4).

Definition decode_ip6_packet : Dec bool :=
  length ← cpac cp_length;
  if u64 (length - 14) <? 40 then mret false
  else
    vfc ← header_at 14 1;
    if negb (Z.land (byte_at vfc 0) 0xf0 =? 0x60) then mret false
    else
      h ← header_at 14 40;
      id ← cpac cp_id;
      _ ← put_header (set_ip6 (14,
            {| ip6_id := id; ip6_un1_flow := be32_at h 0; ip6_un1_plen := be16_at h 4;
               ip6_un1_nxt := byte_at h 6; ip6_un1_hlim := byte_at h 7; ip6_un2_vfc := byte_at h 0;
               ip6_src := inet_ntop6 (sub_at h 8 16); ip6_dst := inet_ntop6 (sub_at h 24 16) |}));
      mret true.

(** Where the transport header is taken to be: behind an IP header without
    options. *)
Definition transport_offset (h : headers) : option Z :=
  match ip4h h, ip6h h with
  | Some (o, _), None => Some (o + 20)
  | None, Some (o, _) => Some (o + 40)
  | _, _ => None
  end.

Definition bit_set (flags mask : Z) : Z := if Z.land flags mask =? 0 then 0 else 1.

(** The two halves of the byte with the data offset are swapped like 16-bit
    numbers. *)
Definition decode_tcp_packet : Dec bool :=
  o ← cpac (fun c => transport_offset (hdrs c));
  match o with
  | None => mret false
  | Some off =>
      h ← header_at off 20;
      id ← cpac cp_id;
      let flags := byte_at h 13 in
      _ ← put_header (set_tcp (off,
            {| tcp_id := id; tcp_source := be16_at h 0; tcp_dest := be16_at h 2; seq_nr := be32_at h 4;
               ack_seq := be32_at h 8; res1 := swap16 (byte_at h 12 mod 16);
               doff := swap16 (byte_at h 12 / 16); fin := bit_set flags 0x01; syn := bit_set flags 0x02;
               rst := bit_set flags 0x04; psh := bit_set flags 0x08; ack := bit_set flags 0x10;
               urg := bit_set flags 0x20; window := be16_at h 14; tcp_check := be16_at h 16;
               urg_ptr := be16_at h 18 |}));
      mret true
  end.

Definition decode_udp_packet : Dec bool :=
  o ← cpac (fun c => transport_offset (hdrs c));
  match o with
  | None => mret false
  | Some off =>
      h ← header_at off 8;
      id ← cpac cp_id;
      _ ← put_header (set_udp (off,
            {| udp_id := id; udp_source := be16_at h 0; udp_dest := be16_at h 2; udp_len := be16_at h 4;
               udp_check := be16_at h 6 |}));
      mret true
  end.

(** Called with the IP header found; the offset of a missing one is 0. *)
Definition decode_icmp4_packet : Dec bool :=
  off ← cpac (fun c => match ip4h (hdrs c) with Some (o, _) => o + 20 | None => 20 end);
  h ← header_at off 8;
  id ← cpac cp_id;
  _ ← put_header (set_icmp4 (off,
        {| icmp4_id := id; icmp4_type := byte_at h 0; icmp4_code := byte_at h 1;
           icmp4_checksum := be16_at h 2; icmp4_gateway := be32_at h 4 |}));
  mret true.

Definition decode_icmp6_packet : Dec bool :=
  off ← cpac (fun c => match ip6h (hdrs c) with Some (o, _) => o + 40 | None => 40 end);
  h ← header_at off 8;
  id ← cpac cp_id;
  _ ← put_header (set_icmp6 (off,
        {| icmp6_id := id; icmp6_type := byte_at h 0; icmp6_code := byte_at h 1;
           icmp6_cksum := be16_at h 2; icmp6_un_data32 := be32_at h 4 |}));
  mret true.

Definition decode_dhcp_packet : Dec bool :=
  u ← cpac (fun c => udph (hdrs c));
  match u with
  | None => mret false
  | Some (o, _) =>
      h ← header_at (o + 8) 28;
      id ← cpac cp_id;
      _ ← put_header (set_dhcp (o + 8,
            {| dhcp_id := id; dhcp_op := byte_at h 0; dhcp_htype := byte_at h 1; dhcp_hlen := byte_at h 2;
               dhcp_hops := byte_at h 3; dhcp_xid := be32_at h 4; dhcp_secs := be16_at h 8;
               dhcp_flags := be16_at h 10; dhcp_ciaddr := inet_ntop (sub_at h 12 4);
               dhcp_yiaddr := inet_ntop (sub_at h 16 4); dhcp_siaddr := inet_ntop (sub_at h 20 4);
               dhcp_giaddr := inet_ntop (sub_at h 24 4); dhcp_chaddr := [] |}));
      mret false
  end.

(** The labels of the question at [payload], each with a dot behind it, into
    the array [qname]; [i] is the place in the payload and [j] in the array. *)
Fixpoint dns_questions_loop (fuel : nat) (payload length i j : Z) (qname : list Z) :
    outcome (Z * list Z) :=
  if u32 (payload + i) <? length then
    match rd1 packet (payload + i) with
    | Fault f => Fault f
    | Done n =>
        if (n =? 0) || (MAX_QUESTION_LEN - 1 <=? j + n) then Done (j, qname)
        else
          match fuel with
          | O => Fault OutOfFuel
          | S fuel =>
              match rd packet (payload + i + 1) n with
              | Fault f => Fault f
              | Done label =>
                  match wr qname j label with
                  | Fault f => Fault f
                  | Done q =>
                      let j' := u16 (j + (n + 1)) in
                      match wr q (j' - 1) [46] with
                      | Fault f => Fault f
                      | Done q' => dns_questions_loop fuel payload length (u16 (i + (n + 1))) j' q'
                      end
                  end
              end
          end
    end
  else Done (j, qname).

(** The array after the question was decoded into it. *)
Definition decode_dns_questions (payload length : Z) (qname : list Z) : outcome (list Z) :=
  match dns_questions_loop (Z.to_nat MAX_QUESTION_LEN) payload length 0 0 qname with
  | Fault f => Fault f
  | Done (j, q) => wr q (if j =? 0 then j else j - 1) [0]
  end.

(** The header at [off]; only the questions of a packet without the length
    prefix of TCP are looked at. *)
Definition decode_dns_at (c : capture_packet) (off payload_offset : Z) : Dec bool :=
  h ← header_at off 12;
  q ← (if (off + payload_offset + 12 <=? cp_length c) && (payload_offset =? 0) &&
          negb (be16_at h 4 =? 0)
       then lift_outcome (decode_dns_questions (off + 12) (cp_length c) (zeros (Z.to_nat MAX_QUESTION_LEN)))
       else mret (zeros (Z.to_nat MAX_QUESTION_LEN)));
  _ ← put_header (set_dns (off,
        {| dns_id := cp_id c; dns_tid := be16_at h 0; dns_flags := be16_at h 2;
           dns_nqueries := be16_at h 4; dns_nanswers := be16_at h 6; dns_nauth := be16_at h 8;
           dns_nother := be16_at h 10; dns_qname := until_nul q |}));
  mret true.

Definition decode_dns_packet : Dec bool :=
  c ← cpac id;
  match tcph (hdrs c), udph (hdrs c) with
  | Some (o, _), None => decode_dns_at c (o + 20) 2
  | None, Some (o, _) => decode_dns_at c (o + 8) 0
  | _, _ => mret false
  end.

(** [decode_mdns_header] on the six fields, and the packet decoder, which looks
    at nothing else. *)
Definition decode_mdns_header (h : list Z) : list Z :=
  (fun k => be16_at h (2 * k)) <$> seq 0 6.

Definition decode_mdns_packet : Dec bool :=
  u ← cpac (fun c => udph (hdrs c));
  match u with
  | None => mret false
  | Some (o, _) =>
      h ← header_at (o + 8) 12;
      id ← cpac cp_id;
      let f := decode_mdns_header h in
      _ ← put_header (set_mdns (o + 8,
            {| mdns_id := id; mdns_tid := byte_at f 0; mdns_flags := byte_at f 1;
               mdns_nqueries := byte_at f 2; mdns_nanswers := byte_at f 3; mdns_nauth := byte_at f 4;
               mdns_nother := byte_at f 5; mdns_qname := [] |}));
      mret true
  end.

(** ** A packet *)

Definition count (b : bool) : Z := if b then 1 else 0.

Definition DNS_PORT : Z := 53.
Definition MDNS_PORT : Z := 5353.
Definition DHCP_CLIENT_PORT : Z := 68.
Definition DHCP_SERVER_PORT : Z := 67.

(** The transport layer by the protocol number of the IP header. *)
Definition decode_transport (proto icmp : Z) (decode_icmp : Dec bool) : Dec Z :=
  if proto =? 6 then b ← decode_tcp_packet; mret (count b)
  else if proto =? 17 then b ← decode_udp_packet; mret (count b)
  else if proto =? icmp then b ← decode_icmp; mret (count b)
  else mret 0.

(** The layers above Ethernet. *)
Definition decode_network (type : Z) : Dec Z :=
  if type =? 0x0800 then
    b ← decode_ip4_packet;
    if negb b then mret 0
    else
      p ← cpac (fun c => match ip4h (hdrs c) with Some (_, s) => ip_p s | None => 0 end);
      n ← decode_transport p 1 decode_icmp4_packet; mret (1 + n)
  else if type =? 0x86dd then
    b ← decode_ip6_packet;
    if negb b then mret 0
    else
      p ← cpac (fun c => match ip6h (hdrs c) with Some (_, s) => ip6_un1_nxt s | None => 0 end);
      n ← decode_transport p 58 decode_icmp6_packet; mret (1 + n)
  else if type =? 0x0806 then b ← decode_arp_packet; mret (count b)
  else mret 0.

(** The application layer by the ports. *)
Definition decode_application : Dec Z :=
  h ← cpac hdrs;
  match tcph h, udph h with
  | Some (_, s), _ =>
      if (tcp_source s =? DNS_PORT) || (tcp_dest s =? DNS_PORT) then b ← decode_dns_packet; mret (count b)
      else if (tcp_source s =? MDNS_PORT) || (tcp_dest s =? MDNS_PORT) then
        b ← decode_mdns_packet; mret (count b)
      else mret 0
  | None, Some (_, s) =>
      if (udp_source s =? DNS_PORT) || (udp_dest s =? DNS_PORT) then b ← decode_dns_packet; mret (count b)
      else if (udp_source s =? MDNS_PORT) || (udp_dest s =? MDNS_PORT) then
        b ← decode_mdns_packet; mret (count b)
      else if ((udp_source s =? DHCP_CLIENT_PORT) && (udp_dest s =? DHCP_SERVER_PORT)) ||
              ((udp_source s =? DHCP_SERVER_PORT) && (udp_dest s =? DHCP_CLIENT_PORT)) then
        b ← decode_dhcp_packet; mret (count b)
      else mret 0
  | None, None => mret 0
  end.

Definition decode_packet (header : pcap_pkthdr) : Dec Z :=
  b ← decode_eth_packet header;
  if negb b then mret 0
  else
    type ← cpac (fun c => match ethh (hdrs c) with Some (_, s) => ether_type s | None => 0 end);
    n ← decode_network type;
    m ← decode_application;
    mret (1 + n + m).
End decoder.

(** ** The tuples *)

(** The schemas of the headers that were found, in the order in which
    [extract_packets] pushes them. *)
Definition tuples (h : headers) : list tuple_packet :=
  let pick {A} (mk : A -> tuple_packet) (o : option (Z * A)) :=
    match o with Some (_, s) => [mk s] | None => [] end in
  pick PACKET_ETHERNET (ethh h) ++ pick PACKET_ARP (arph h) ++ pick PACKET_IP4 (ip4h h) ++
  pick PACKET_IP6 (ip6h h) ++ pick PACKET_TCP (tcph h) ++ pick PACKET_UDP (udph h) ++
  pick PACKET_ICMP4 (icmp4h h) ++ pick PACKET_ICMP6 (icmp6h h) ++ pick PACKET_DNS (dnsh h) ++
  pick PACKET_MDNS (mdnsh h) ++ pick PACKET_DHCP (dhcph h).

(** A copy of each schema; the return value and the array. *)
Fixpoint push_tuples (l : list tuple_packet) (tp_array : list tuple_packet) :
    prog env (Z * list tuple_packet) :=
  match l with
  | [] => mret (zlen tp_array, tp_array)
  | t :: rest =>
      ok ← malloc;
      if negb ok then mret (-1, tp_array) else push_tuples rest (tp_array ++ [t])
  end.

(** [id] is the identifier that was generated for the packet. *)
Definition extract_packets (header : pcap_pkthdr) (packet : list Z) (interface id : list Z)
    (tp_array : list tuple_packet) : prog env (Z * list tuple_packet) :=
  let c0 := {| cp_timestamp := os_to_timestamp (ts_sec header) (ts_usec header);
               cp_caplen := caplen header; cp_length := len header;
               cp_ifname := clip IF_NAMESIZE interface; cp_id := id; hdrs := no_headers |} in
  r ← lift_outcome (decode_packet packet header c0);
  if 0 <? r.1 then push_tuples (tuples (hdrs r.2)) tp_array else mret (zlen tp_array, tp_array).

(** ** Layers *)

Definition tuple_id (t : tuple_packet) : list Z :=
  match t with
  | PACKET_ETHERNET s => eth_id s | PACKET_ARP s => arp_id s | PACKET_IP4 s => ip4_id s
  | PACKET_IP6 s => ip6_id s | PACKET_TCP s => tcp_id s | PACKET_UDP s => udp_id s
  | PACKET_ICMP4 s => icmp4_id s | PACKET_ICMP6 s => icmp6_id s | PACKET_DNS s => dns_id s
  | PACKET_MDNS s => mdns_id s | PACKET_DHCP s => dhcp_id s
  end.

(** Link, network, transport and application. *)
Definition layer (t : tuple_packet) : nat :=
  match t with
  | PACKET_ETHERNET _ => 1
  | PACKET_ARP _ | PACKET_IP4 _ | PACKET_IP6 _ => 2
  | PACKET_TCP _ | PACKET_UDP _ | PACKET_ICMP4 _ | PACKET_ICMP6 _ => 3
  | PACKET_DNS _ | PACKET_MDNS _ | PACKET_DHCP _ => 4
  end.

Section layers.
Context (packet : list Z).

(** What a decoder of one layer may do: nothing, or enter one header whose
    schema carries the identifier of the packet. *)
Definition enters {A} (set : Z * A -> headers -> headers) (sid : A -> list Z)
    (m : prog capture_packet bool) : Prop :=
  forall c b c', m c = Done (b, c') ->
    (b = false /\ c' = c) \/ (exists o s, c' = on_hdrs (set (o, s)) c /\ sid s = cp_id c).

Ltac enters_tac :=
  intros c b c' H; unfold cpac, put_header, header_at in H; prog_inv;
  repeat match goal with
  | H : (if ?x then _ else _) _ = Done _ |- _ => destruct x; prog_inv
  | H : (match ?x with _ => _ end) _ = Done _ |- _ => destruct x as [[? ?]|]; prog_inv
  | H : (match ?x with Some _ => _ | None => _ end) _ = Done _ |- _ => destruct x; prog_inv
  | H : lift_outcome ?o _ = Done _ |- _ => destruct o; [injection H as <- <-|discriminate]
  end;
  try (by left); right; eauto.

Lemma eth_enters header : enters set_eth eth_id (decode_eth_packet packet header).
Proof. unfold decode_eth_packet. enters_tac. Qed.
Lemma arp_enters : enters set_arp arp_id (decode_arp_packet packet).
Proof. unfold decode_arp_packet. enters_tac. Qed.
Lemma ip4_enters : enters set_ip4 ip4_id (decode_ip4_packet packet).
Proof. unfold decode_ip4_packet. enters_tac. Qed.
Lemma ip6_enters : enters set_ip6 ip6_id (decode_ip6_packet packet).
Proof. unfold decode_ip6_packet. enters_tac. Qed.
Lemma tcp_enters : enters set_tcp tcp_id (decode_tcp_packet packet).
Proof. unfold decode_tcp_packet. enters_tac. Qed.
Lemma udp_enters : enters set_udp udp_id (decode_udp_packet packet).
Proof. unfold decode_udp_packet. enters_tac. Qed.
Lemma icmp4_enters : enters set_icmp4 icmp4_id (decode_icmp4_packet packet).
Proof. unfold decode_icmp4_packet. enters_tac. Qed.
Lemma icmp6_enters : enters set_icmp6 icmp6_id (decode_icmp6_packet packet).
Proof. unfold decode_icmp6_packet. enters_tac. Qed.
Lemma mdns_enters : enters set_mdns mdns_id (decode_mdns_packet packet).
Proof. unfold decode_mdns_packet. enters_tac. Qed.
Lemma dhcp_enters : enters set_dhcp dhcp_id (decode_dhcp_packet packet).
Proof. unfold decode_dhcp_packet. enters_tac. Qed.

Lemma dns_at_enters c off po b c' : decode_dns_at packet c off po c = Done (b, c') ->
  exists o s, c' = on_hdrs (set_dns (o, s)) c /\ dns_id s = cp_id c.
Proof.
  unfold decode_dns_at, put_header, header_at. intros H. prog_inv.
  repeat match goal with
  | H : (if ?x then _ else _) _ = Done _ |- _ => destruct x; prog_inv
  | H : lift_outcome ?o _ = Done _ |- _ => destruct o; [injection H as <- <-|discriminate]
  end; eauto.
Qed.

Lemma dns_enters : enters set_dns dns_id (decode_dns_packet packet).
Proof.
  intros c b c' H. unfold decode_dns_packet in H. erewrite bind_run in H by done. cbv beta in H. unfold id in H.
  destruct (tcph (hdrs c)) as [[o1 s1]|], (udph (hdrs c)) as [[o2 s2]|];
    try (injection H as <- <-; by left); right; by eapply dns_at_enters.
Qed.

(** The tuples found so far: consecutive layers from the link up, all with the
    identifier of the packet. *)
Definition layered (n : nat) (c : capture_packet) : Prop :=
  layer <$> tuples (hdrs c) = seq 1 n /\ Forall (fun t => tuple_id t = cp_id c) (tuples (hdrs c)).

Lemma count_run (m : prog capture_packet bool) c n c' :
  (b ← m; mret (count b)) c = Done (n, c') -> exists b, m c = Done (b, c').
Proof. intros H. prog_inv. eauto. Qed.

Ltac enters_cases H E :=
  apply count_run in H as [? H]; apply E in H as [[_ ->]|(? & ? & -> & ?)].

(** The three stages, from a state that has the headers of the layers below. *)
Lemma transport_enters proto icmp (m : prog capture_packet bool) c n c' :
  decode_transport packet proto icmp m c = Done (n, c') ->
  (exists b, m c = Done (b, c')) \/ c' = c \/
  (exists o s, c' = on_hdrs (set_tcp (o, s)) c /\ tcp_id s = cp_id c) \/
  (exists o s, c' = on_hdrs (set_udp (o, s)) c /\ udp_id s = cp_id c).
Proof.
  unfold decode_transport. intros H. destruct (proto =? 6); [|destruct (proto =? 17); [|destruct (proto =? icmp)]].
  - apply count_run in H as [b H]. apply tcp_enters in H as [[_ ->]|H]; auto.
  - apply count_run in H as [b H]. apply udp_enters in H as [[_ ->]|H]; auto.
  - apply count_run in H. auto.
  - injection H as _ ->. auto.
Qed.

Lemma application_enters c n c' : decode_application packet c = Done (n, c') ->
  (tcph (hdrs c) = None -> udph (hdrs c) = None -> c' = c) /\
  (c' = c \/
   (exists o s, c' = on_hdrs (set_dns (o, s)) c /\ dns_id s = cp_id c) \/
   (exists o s, c' = on_hdrs (set_mdns (o, s)) c /\ mdns_id s = cp_id c) \/
   (exists o s, c' = on_hdrs (set_dhcp (o, s)) c /\ dhcp_id s = cp_id c)).
Proof.
  unfold decode_application. intros H. erewrite bind_run in H by done. cbv beta in H.
  destruct (tcph (hdrs c)) as [[o1 s1]|] eqn:Et; [|destruct (udph (hdrs c)) as [[o2 s2]|] eqn:Eu];
    (split; [first [done|intros _ _]|]);
    repeat match goal with H : (if ?x then _ else _) _ = Done _ |- _ => destruct x end;
    try (injection H as _ ->; auto); apply count_run in H as [b H];
    first [ apply dns_enters in H as [[_ ->]|H]; auto | apply mdns_enters in H as [[_ ->]|H]; auto
          | apply dhcp_enters in H as [[_ ->]|H]; auto ].
Qed.

Ltac layer_done :=
  match goal with
  | |- cp_id ?c = _ /\ _ =>
      split; [done|]; first
        [ exists 1%nat; split; [lia|]; split; [reflexivity|repeat constructor; cbn in *; congruence]
        | exists 2%nat; split; [lia|]; split; [reflexivity|repeat constructor; cbn in *; congruence]
        | exists 3%nat; split; [lia|]; split; [reflexivity|repeat constructor; cbn in *; congruence]
        | exists 4%nat; split; [lia|]; split; [reflexivity|repeat constructor; cbn in *; congruence] ]
  end.

(** The application layer on top of what was found. *)
Ltac application_done H :=
  first [ destruct H as [H _]; rewrite (H eq_refl eq_refl); layer_done
        | destruct H as [_ [->|[(? & ? & -> & ?)|[(? & ? & -> & ?)|(? & ? & -> & ?)]]]]; layer_done ].

Lemma decode_layered header c n c' : hdrs c = no_headers -> decode_packet packet header c = Done (n, c') ->
  cp_id c' = cp_id c /\ exists k, (k <= 4)%nat /\ layered k c' /\ (0 < n -> (1 <= k)%nat).
Proof.
  destruct c as [t cl ln ifn id h]. cbn [hdrs cp_id]. intros -> H. unfold decode_packet in H.
  apply bind_done in H as (b & c1 & H1 & H). apply eth_enters in H1 as [[-> ->]|(oe & se & -> & He)].
  { injection H as <- <-. split; [done|]. exists O. split; [lia|]. split; [by split; [|constructor]|lia]. }
  destruct b; cbn [negb] in H.
  2:{ injection H as <- <-. split; [done|]. exists 1%nat. split; [lia|]. split; [|lia]. split; [done|]. by repeat constructor. }
  erewrite bind_run in H by done. cbn [ethh hdrs on_hdrs set_eth] in H.
  apply bind_done in H as (n2 & c2 & H2 & H). apply bind_done in H as (n3 & c3 & H3 & H). injection H as <- <-.
  apply application_enters in H3.
  enough (cp_id c3 = id /\ exists k, (1 <= k <= 4)%nat /\ layered k c3) as (Hid & k & Hk & Hl).
  { split; [done|]. exists k. split; [lia|]. split; [done|lia]. }
  unfold decode_network in H2. destruct (_ =? 0x800); [|destruct (_ =? 0x86dd); [|destruct (_ =? 0x806)]].
  - apply bind_done in H2 as (b & c1 & H1 & H2). apply ip4_enters in H1 as [[-> ->]|(oi & si & -> & Hi)].
    { injection H2 as _ <-. application_done H3. }
    destruct b; cbn [negb] in H2; [|injection H2 as _ <-; application_done H3].
    erewrite bind_run in H2 by done. apply bind_done in H2 as (n4 & c4 & H2 & H4). injection H4 as _ ->.
    apply transport_enters in H2 as [[b H2]|[->|[(ot & st & -> & Ht)|(ot & st & -> & Ht)]]];
      [apply icmp4_enters in H2 as [[_ ->]|(ot & st & -> & Ht)]|..]; application_done H3.
  - apply bind_done in H2 as (b & c1 & H1 & H2). apply ip6_enters in H1 as [[-> ->]|(oi & si & -> & Hi)].
    { injection H2 as _ <-. application_done H3. }
    destruct b; cbn [negb] in H2; [|injection H2 as _ <-; application_done H3].
    erewrite bind_run in H2 by done. apply bind_done in H2 as (n4 & c4 & H2 & H4). injection H4 as _ ->.
    apply transport_enters in H2 as [[b H2]|[->|[(ot & st & -> & Ht)|(ot & st & -> & Ht)]]];
      [apply icmp6_enters in H2 as [[_ ->]|(ot & st & -> & Ht)]|..]; application_done H3.
  - apply count_run in H2 as [b H2]. apply arp_enters in H2 as [[_ ->]|(oi & si & -> & Hi)]; application_done H3.
  - injection H2 as _ <-. application_done H3.
Qed.
End layers.

(** ** The question of a DNS query *)

(** The labels of a name as a query carries them, and as text with a dot behind
    every label. *)
Definition enc_label (l : list Z) : list Z := zlen l :: l.
Definition enc_name (labels : list (list Z)) : list Z := concat (enc_label <$> labels) ++ [0].
Definition dotted (labels : list (list Z)) : list Z := concat ((fun l => l ++ [46]) <$> labels).
Definition plain_label (l : list Z) : Prop := 0 < zlen l < 256 /\ Forall (fun c => c <> 0) l.

Lemma zlen_dotted labels : zlen (dotted labels) = zlen (concat (enc_label <$> labels)).
Proof.
  induction labels as [|l labels IH]; [done|]. unfold dotted in *. cbn [fmap list_fmap concat] in *.
  unfold enc_label in *. autorewrite with zlen. lia.
Qed.

Lemma dotted_app l labels done_ : done_ ++ dotted (l :: labels) = (done_ ++ l ++ [46]) ++ dotted labels.
Proof. unfold dotted. cbn [fmap list_fmap concat]. by rewrite <- !app_assoc. Qed.

Lemma rd1_app pre x post off : off = zlen pre -> rd1 (pre ++ x :: post) off = Done x.
Proof.
  intros ->. unfold rd1. rewrite to_nat_zlen, lookup_app_r, Nat.sub_diag by lia. cbn.
  destruct (Z.leb_spec 0 (zlen pre)); [done|]. pose proof (zlen_nonneg pre). lia.
Qed.

Lemma zeros_split n m : (m <= n)%nat -> zeros n = zeros m ++ zeros (n - m).
Proof. intros. unfold zeros. rewrite <- replicate_add. f_equal. lia. Qed.

(** Writing at the end of what was written so far. *)
Lemma wr_next out data n : (length out + length data <= n)%nat ->
  wr (out ++ zeros (n - length out)) (zlen out) data =
  Done ((out ++ data) ++ zeros (n - length (out ++ data))).
Proof.
  intros H. rewrite (zeros_split _ (length data)) by lia. rewrite wr_app; [|done|by unfold zeros; rewrite length_replicate].
  by rewrite <- app_assoc, length_app, Nat.sub_add_distr.
Qed.

(** The loop on the rest of the labels, with [out] written and [seen] read. *)
Lemma dns_questions_loop_run pre post len labels : Forall plain_label labels -> forall fuel out seen,
  (length labels <= fuel)%nat -> zlen seen = zlen out ->
  zlen out + zlen (dotted labels) <= 254 -> zlen pre + zlen out + zlen (enc_name labels) <= len ->
  len < 2 ^ 32 ->
  dns_questions_loop (pre ++ seen ++ enc_name labels ++ post) fuel (zlen pre) len (zlen seen) (zlen out)
    (out ++ zeros (255 - length out)) =
  Done (zlen (out ++ dotted labels), (out ++ dotted labels) ++ zeros (255 - length (out ++ dotted labels))).
Proof.
  induction 1 as [|l labels [Hl Hz] Hls IH]; intros fuel out seen Hf Hs Hj Hlen H32.
  - change (enc_name []) with [0] in *. change (dotted []) with (@nil Z) in *. rewrite app_nil_r.
    pose proof (zlen_nonneg pre). pose proof (zlen_nonneg seen). autorewrite with zlen in *.
    assert (u32 (zlen pre + zlen seen) = zlen pre + zlen seen) as Hu by (apply Z.mod_small; lia).
    destruct fuel; cbn [dns_questions_loop]; rewrite Hu;
      (destruct (Z.ltb_spec (zlen pre + zlen seen) len); [|lia]); rewrite app_assoc;
      cbn [app]; (rewrite rd1_app by (by rewrite zlen_app)); done.
  - pose proof (zlen_nonneg pre). pose proof (zlen_nonneg out). pose proof (zlen_nonneg (dotted labels)).
    assert (enc_name (l :: labels) = (zlen l :: l) ++ enc_name labels) as El
      by (unfold enc_name, enc_label; cbn; by rewrite <- app_assoc).
    assert (zlen (dotted (l :: labels)) = zlen l + 1 + zlen (dotted labels)) as Ed
      by (unfold dotted; cbn [fmap list_fmap concat]; autorewrite with zlen; lia).
    rewrite El in Hlen |- *. rewrite Ed in Hj. autorewrite with zlen in Hlen. destruct fuel as [|fuel]; [cbn in Hf; lia|].
    pose proof (zlen_nonneg (enc_name labels)).
    assert (u32 (zlen pre + zlen seen) = zlen pre + zlen seen) as Hu by (apply Z.mod_small; lia).
    cbn [dns_questions_loop]. rewrite Hu. destruct (Z.ltb_spec (zlen pre + zlen seen) len); [|lia].
    replace (pre ++ seen ++ ((zlen l :: l) ++ enc_name labels) ++ post)
      with ((pre ++ seen) ++ zlen l :: (l ++ enc_name labels ++ post)) by (by cbn; rewrite <- !app_assoc).
    rewrite rd1_app by (by rewrite zlen_app). cbv zeta beta iota.
    destruct (Z.eqb_spec (zlen l) 0); [lia|]. unfold MAX_QUESTION_LEN.
    destruct (Z.leb_spec (255 - 1) (zlen out + zlen l)); [lia|]. cbn [orb].
    replace ((pre ++ seen) ++ zlen l :: l ++ enc_name labels ++ post)
      with (((pre ++ seen) ++ [zlen l]) ++ l ++ enc_name labels ++ post) by (by rewrite <- !app_assoc).
    rewrite rd_app by (autorewrite with zlen; lia). rewrite wr_next by (unfold zlen in *; lia).
    assert (u16 (zlen out + (zlen l + 1)) = zlen (out ++ l) + 1) as -> by
      (rewrite zlen_app; unfold u16, wrap; rewrite Z.mod_small; lia).
    assert (u16 (zlen seen + (zlen l + 1)) = zlen (seen ++ zlen l :: l)) as -> by
      (autorewrite with zlen; unfold u16, wrap; rewrite Z.mod_small; lia).
    rewrite Z.add_simpl_r, wr_next by (rewrite length_app; unfold zlen in *; cbn; lia).
    replace (zlen (out ++ l) + 1) with (zlen ((out ++ l) ++ [46])) by (autorewrite with zlen; lia).
    replace (((pre ++ seen) ++ [zlen l]) ++ l ++ enc_name labels ++ post)
      with (pre ++ (seen ++ zlen l :: l) ++ enc_name labels ++ post) by (rewrite <- !app_assoc; cbn; by rewrite <- ?app_assoc).
    rewrite IH by (autorewrite with zlen; cbn in *; lia). by rewrite dotted_app, !app_assoc.
Qed.

(** A name that fits is decoded to the name, with its dots between the labels. *)
Lemma decode_dns_questions_run pre post len labels : Forall plain_label labels ->
  zlen (dotted labels) <= 254 -> zlen pre + zlen (enc_name labels) <= len < 2 ^ 32 ->
  exists q, decode_dns_questions (pre ++ enc_name labels ++ post) (zlen pre) len (zeros 255) = Done q /\
    until_nul q = take (length (dotted labels) - 1) (dotted labels).
Proof.
  intros Hp Hd Hl. unfold decode_dns_questions. assert (length labels <= Z.to_nat MAX_QUESTION_LEN)%nat as Hf.
  { enough (length labels <= length (dotted labels))%nat by (unfold zlen, MAX_QUESTION_LEN in *; lia).
    clear. induction labels as [|l ls IH]; [done|]. unfold dotted in *. cbn [fmap list_fmap concat length].
    rewrite !length_app. cbn in *. lia. }
  pose proof (dns_questions_loop_run pre post len labels Hp (Z.to_nat MAX_QUESTION_LEN) [] []
    Hf eq_refl ltac:(done) ltac:(rewrite zlen_nil; lia) ltac:(lia)) as E. cbn [app] in E.
  change (zlen []) with 0 in E. change (255 - length [])%nat with 255%nat in E. rewrite E.
  assert (Forall (fun c => c <> 0) (dotted labels)) as Hz.
  { unfold dotted. apply Forall_concat, Forall_fmap. eapply Forall_impl; [exact Hp|]. intros l [_ H]. cbn.
    apply Forall_app. split; [done|]. by repeat constructor. }
  remember (dotted labels) as d. destruct (Z.eqb_spec (zlen d) 0) as [E0|E0].
  - destruct d; [|unfold zlen in E0; cbn in E0; lia]. eexists. split; done.
  - destruct (exists_last (l := d)) as (d' & x & ->); [by intros ->|]. rewrite zlen_app in *.
    change (zlen [x]) with 1 in *. rewrite Z.add_simpl_r, <- app_assoc.
    pose proof (zlen_nonneg d').
    rewrite (wr_app d' [x]) by done. eexists. split; [done|]. apply Forall_app in Hz as [Hz _].
    cbn [app]. rewrite (until_nul_app d') by done. rewrite length_app. cbn [length]. by rewrite Nat.add_sub, take_app_length.
Qed.

(** ** Reach *)

(** No header and no question lies further into the packet. *)
Definition decode_reach : Z := 14 + 40 + 8 + 12 + MAX_QUESTION_LEN.

Section reach.
Context (packet : list Z) (Hlen : decode_reach <= zlen packet) (Hb : bytes packet).

(** Where the headers that were found are. *)
Definition within (c : capture_packet) : Prop :=
  (forall o s, ip4h (hdrs c) = Some (o, s) -> o = 14) /\ (forall o s, ip6h (hdrs c) = Some (o, s) -> o = 14) /\
  (forall o s, tcph (hdrs c) = Some (o, s) -> 0 <= o <= 54) /\
  (forall o s, udph (hdrs c) = Some (o, s) -> 0 <= o <= 54).

Definition defined {A} (m : prog capture_packet A) : Prop := runs within m (fun _ => True).

Lemma defined_bind {A B} (m : prog capture_packet A) (k : A -> prog capture_packet B) :
  defined m -> (forall a, defined (k a)) -> defined (m ≫= k).
Proof. intros Hm Hk. eapply runs_bind; [exact Hm|]. intros a _. apply Hk. Qed.

Lemma defined_ret {A} (a : A) : defined (mret a).
Proof. by apply runs_ret. Qed.

Lemma defined_cpac {A} (f : capture_packet -> A) : defined (cpac f).
Proof. intros c Hc. by exists (f c), c. Qed.

Lemma defined_at {A} (f : capture_packet -> A) (k : A -> prog capture_packet bool) (Q : A -> Prop) :
  (forall c, within c -> Q (f c)) -> (forall a, Q a -> defined (k a)) -> defined (cpac f ≫= k).
Proof.
  intros Hf Hk. apply (runs_bind _ _ _ Q); [|done]. intros c Hc. exists (f c), c. auto.
Qed.

Lemma defined_header off n : 0 <= off <= 62 -> 0 <= n <= 40 -> defined (header_at packet off n).
Proof.
  intros Ho Hn. apply runs_lift. unfold decode_reach, MAX_QUESTION_LEN in Hlen.
  destruct (rd_total packet off n) as (l & H & _); [lia..|]. by exists l.
Qed.

Lemma defined_put f : (forall c, within c -> within (on_hdrs f c)) -> defined (put_header f).
Proof. intros Hf c Hc. exists tt, (on_hdrs f c). auto. Qed.

Lemma transport_offset_within c : within c -> forall o, transport_offset (hdrs c) = Some o -> 0 <= o <= 54.
Proof.
  intros (H4 & H6 & _ & _) o. unfold transport_offset.
  destruct (ip4h _) as [[o4 s4]|] eqn:E4, (ip6h _) as [[o6 s6]|] eqn:E6; try done; intros [= <-].
  - rewrite (H4 o4 s4 eq_refl). lia.
  - rewrite (H6 o6 s6 eq_refl). lia.
Qed.

Lemma rd1_total off : 0 <= off < zlen packet -> exists x, rd1 packet off = Done x /\ is_byte x.
Proof.
  intros H. unfold rd1. destruct (packet !! Z.to_nat off) as [x|] eqn:E.
  - destruct (Z.leb_spec 0 off); [|lia]. exists x. split; [done|]. by eapply Forall_lookup_1.
  - apply lookup_ge_None in E. unfold zlen in H. lia.
Qed.

(** The question stays within its array and within 255 bytes of the payload. *)
Lemma dns_questions_loop_total len fuel : forall payload i q, 0 <= payload <= 74 -> 0 <= i <= 254 ->
  zlen q = 255 -> (Z.to_nat (254 - i) <= fuel)%nat ->
  exists j q', dns_questions_loop packet fuel payload len i i q = Done (j, q') /\ 0 <= j <= 254 /\ zlen q' = 255.
Proof.
  unfold decode_reach, MAX_QUESTION_LEN in Hlen.
  induction fuel as [|fuel IH]; intros payload i q Hp Hi Hq Hf; cbn [dns_questions_loop];
    (destruct (_ <? len); [|by exists i, q]);
    (destruct (rd1_total (payload + i)) as (n & -> & Hn); [lia|]); unfold is_byte in Hn;
    unfold MAX_QUESTION_LEN; (destruct (Z.eqb_spec n 0); [by exists i, q|]);
    (destruct (Z.leb_spec (255 - 1) (i + n)); [by exists i, q|]); cbn [orb]; [lia|].
  destruct (rd_total packet (payload + i + 1) n) as (l & -> & Hl); [lia..|].
  destruct (wr_total q i l) as (q1 & E1); [lia..|]. rewrite E1. apply length_wr in E1.
  assert (u16 (i + (n + 1)) = i + n + 1) as -> by (unfold u16, wrap; rewrite Z.mod_small; lia).
  destruct (wr_total q1 (i + n + 1 - 1) [46]) as (q2 & E2); [lia|unfold zlen in *; cbn; lia|]. rewrite E2.
  apply length_wr in E2. apply IH; [lia..|unfold zlen in *; lia|lia].
Qed.

Lemma decode_dns_questions_total payload len q : 0 <= payload <= 74 -> zlen q = 255 ->
  exists q', decode_dns_questions packet payload len q = Done q' /\ zlen q' = 255.
Proof.
  intros Hp Hq. unfold decode_dns_questions.
  destruct (dns_questions_loop_total len (Z.to_nat MAX_QUESTION_LEN) payload 0 q) as (j & q1 & -> & Hj & Hq1);
    [done|lia|done|unfold MAX_QUESTION_LEN; lia|].
  destruct (wr_total q1 (if j =? 0 then j else j - 1) [0]) as (q2 & E);
    [destruct (Z.eqb_spec j 0); lia|destruct (Z.eqb_spec j 0); change (zlen [0]) with 1; lia|].
  exists q2. split; [done|]. apply length_wr in E. unfold zlen in *. lia.
Qed.

Ltac put_tac := apply defined_put; intros [? ? ? ? ? []] (? & ? & ? & ?);
  (split; [|split; [|split]]);
  cbn [on_hdrs hdrs ip4h ip6h tcph udph set_eth set_arp set_ip4 set_ip6 set_tcp set_udp set_icmp4 set_icmp6 set_dns
       set_mdns set_dhcp] in *; first [assumption|intros ? ? [= <- <-]; lia].
Ltac defined_tac :=
  repeat match goal with
  | |- defined (if ?x then _ else _) => destruct x
  | |- defined (let _ := _ in _) => cbv zeta
  | |- defined (mret _) => apply defined_ret
  | |- defined (_ ≫= _) => apply defined_bind; [|intros ?]
  | |- defined (cpac _) => apply defined_cpac
  | |- defined (header_at _ _ _) => apply defined_header; lia
  | |- defined (put_header _) => put_tac
  end.

Lemma decode_eth_defined header : defined (decode_eth_packet packet header).
Proof. unfold decode_eth_packet. defined_tac. Qed.
Lemma decode_arp_defined : defined (decode_arp_packet packet).
Proof. unfold decode_arp_packet. defined_tac. Qed.
Lemma decode_ip4_defined : defined (decode_ip4_packet packet).
Proof. unfold decode_ip4_packet. defined_tac. Qed.
Lemma decode_ip6_defined : defined (decode_ip6_packet packet).
Proof. unfold decode_ip6_packet. defined_tac. Qed.

Lemma decode_tcp_defined : defined (decode_tcp_packet packet).
Proof.
  apply (defined_at _ _ (fun o => forall x, o = Some x -> 0 <= x <= 54)); [exact transport_offset_within|].
  intros [o|] Ho; [specialize (Ho o eq_refl)|]; cbv beta iota; defined_tac.
Qed.
Lemma decode_udp_defined : defined (decode_udp_packet packet).
Proof.
  apply (defined_at _ _ (fun o => forall x, o = Some x -> 0 <= x <= 54)); [exact transport_offset_within|].
  intros [o|] Ho; [specialize (Ho o eq_refl)|]; cbv beta iota; defined_tac.
Qed.
Lemma decode_icmp4_defined : defined (decode_icmp4_packet packet).
Proof.
  apply (defined_at _ _ (fun o => 0 <= o <= 54)); [|intros o Ho; cbv beta; defined_tac].
  intros c (H4 & _). destruct (ip4h _) as [[o s]|]; [rewrite (H4 o s eq_refl)|]; lia.
Qed.
Lemma decode_icmp6_defined : defined (decode_icmp6_packet packet).
Proof.
  apply (defined_at _ _ (fun o => 0 <= o <= 54)); [|intros o Ho; cbv beta; defined_tac].
  intros c (_ & H6 & _). destruct (ip6h _) as [[o s]|]; [rewrite (H6 o s eq_refl)|]; lia.
Qed.
Lemma decode_mdns_defined : defined (decode_mdns_packet packet).
Proof.
  apply (defined_at _ _ (fun u => forall o s, u = Some (o, s) -> 0 <= o <= 54)); [by intros c (_ & _ & _ & Hu)|].
  intros [[o s]|] Ho; [specialize (Ho o s eq_refl)|]; cbv beta iota; defined_tac.
Qed.
Lemma decode_dhcp_defined : defined (decode_dhcp_packet packet).
Proof.
  apply (defined_at _ _ (fun u => forall o s, u = Some (o, s) -> 0 <= o <= 54)); [by intros c (_ & _ & _ & Hu)|].
  intros [[o s]|] Ho; [specialize (Ho o s eq_refl)|]; cbv beta iota; defined_tac.
Qed.
Lemma decode_dns_at_defined c off po : 0 <= off <= 74 -> (po = 0 -> off <= 62) ->
  defined (decode_dns_at packet c off po).
Proof.
  intros Ho Hp. apply defined_bind; [|intros h].
  { apply runs_lift. unfold decode_reach, MAX_QUESTION_LEN in Hlen.
    destruct (rd_total packet off 12) as (l & H & _); [lia..|]. by exists l. }
  apply defined_bind; [|intros q; defined_tac]. destruct (Z.eqb_spec po 0) as [->|_]; [|rewrite andb_false_r; apply defined_ret].
  destruct (_ && _); [|apply defined_ret]. apply runs_lift.
  destruct (decode_dns_questions_total (off + 12) (cp_length c) (zeros (Z.to_nat MAX_QUESTION_LEN)))
    as (q & E & _); [lia|done|]. by exists q.
Qed.

Lemma decode_dns_defined : defined (decode_dns_packet packet).
Proof.
  apply (defined_at _ _ within); [done|]. intros c (_ & _ & Ht & Hu). unfold id.
  destruct (tcph _) as [[o s]|], (udph _) as [[o' s']|]; try apply defined_ret; apply decode_dns_at_defined;
    first [specialize (Ht _ _ eq_refl); lia|specialize (Hu _ _ eq_refl); lia].
Qed.

Lemma decode_packet_defined header : defined (decode_packet packet header).
Proof.
  assert (forall proto icmp m, defined m -> defined (decode_transport packet proto icmp m)) as Ht.
  { intros proto icmp m Hm. unfold decode_transport. defined_tac; auto using decode_tcp_defined, decode_udp_defined. }
  unfold decode_packet, decode_network, decode_application. defined_tac;
    auto using decode_eth_defined, decode_ip4_defined, decode_ip6_defined, decode_arp_defined, decode_icmp4_defined,
      decode_icmp6_defined.
  destruct (tcph _) as [[o s]|]; [|destruct (udph _) as [[o s]|]]; defined_tac;
    auto using decode_dns_defined, decode_mdns_defined, decode_dhcp_defined.
Qed.
End reach.

(** ** What is captured *)

(** The schemas are copied in order; an allocation that fails ends the copying. *)
Lemma push_tuples_run l : forall tp e, exists ret k e',
  push_tuples l tp e = Done ((ret, tp ++ take k l), e') /\ (ret = -1 \/ (ret = zlen (tp ++ l) /\ (length l <= k)%nat)) /\
  env_ok e e' (ret = zlen (tp ++ l) /\ (length l <= k)%nat).
Proof.
  induction l as [|t l IH]; intros tp e.
  - exists (zlen tp), O, e. rewrite !app_nil_r. split; [done|]. split; [by right|]. by apply env_ok_refl.
  - cbn [push_tuples]. destruct (malloc_ok e) as (ok & e1 & E & He). erewrite bind_run by exact E. destruct ok; cbn [negb].
    + destruct (IH (tp ++ [t]) e1) as (ret & k & e' & -> & Hr & He'). exists ret, (S k), e'.
      rewrite <- !app_assoc in *. cbn [app take length]. assert (forall P, (P /\ (length l <= k)%nat) -> P /\ (S (length l) <= S k)%nat) as Hk
        by (intros P [HP Hl]; split; [done|lia]).
      split; [done|]. split; [destruct Hr; [by left|right; auto]|].
      eapply env_ok_mono; [eapply env_ok_trans; [exact He|exact He']|]. intros H. auto.
    + exists (-1), O, e1. rewrite app_nil_r. split; [done|]. split; [by left|]. by eapply env_ok_mono; [exact He|].
Qed.

Lemma extract_packets_run header packet interface id tp e :
  decode_reach <= zlen packet -> bytes packet ->
  exists ret ts k m e',
    extract_packets header packet interface id tp e = Done ((ret, tp ++ take k ts), e') /\
    layer <$> ts = seq 1 m /\ (m <= 4)%nat /\ Forall (fun t => tuple_id t = id) ts /\
    (ret = -1 \/ (ret = zlen (tp ++ ts) /\ (length ts <= k)%nat)) /\
    env_ok e e' (ret = zlen (tp ++ ts)).
Proof.
  intros Hl Hb. unfold extract_packets. cbv zeta. set (c0 := Build_capture_packet _ _ _ _ _ _).
  destruct (decode_packet_defined packet Hl Hb header c0) as (n & c & E & _); [by repeat split|].
  destruct (decode_layered packet header c0 n c eq_refl E) as (Hid & m & Hm & [Hlay Hids] & _).
  rewrite E. erewrite bind_run by apply lift_run. cbn [fst snd]. cbn [cp_id c0] in Hid. rewrite Hid in Hids. destruct (0 <? n).
  - destruct (push_tuples_run (tuples (hdrs c)) tp e) as (ret & k & e' & -> & Hr & He).
    exists ret, (tuples (hdrs c)), k, m, e'. repeat (split; [done|]). eapply env_ok_mono; [exact He|by intros []].
  - exists (zlen tp), [], O, O, e. rewrite !app_nil_r. split; [done|]. split; [done|]. split; [lia|].
    split; [constructor|]. split; [by right|]. by apply env_ok_refl.
Qed.

(** C37. Every packet with at least [decode_reach] captured bytes, whatever they
    are and whatever lengths its capture header claims, is decoded without a
    read outside of it: the tuples added for it are those of consecutive layers
    from Ethernet up, at most one for each of the four layers, all of them under
    the identifier generated for the packet.  When memory runs out a prefix of
    them is there and -1 is returned, otherwise the length of the array. *)
Theorem extract_packets_layered header packet interface id tp e :
  decode_reach <= zlen packet -> bytes packet ->
  exists ret ts k m e',
    extract_packets header packet interface id tp e = Done ((ret, tp ++ take k ts), e') /\
    layer <$> ts = seq 1 m /\ (m <= 4)%nat /\ Forall (fun t => tuple_id t = id) ts /\
    (ret = -1 \/ (ret = zlen (tp ++ ts) /\ (length ts <= k)%nat)) /\
    env_ok e e' (ret = zlen (tp ++ ts)).
Proof. apply extract_packets_run. Qed.

Lemma byte_at_sub n o h k : (k < n)%nat -> byte_at (take n (drop o h)) k = byte_at h (o + k).
Proof. intros H. unfold byte_at. by rewrite !nth_lookup, lookup_take_lt, lookup_drop by done. Qed.

(** Reading a header within the packet, and beyond its end. *)
Lemma header_run packet off n c : 0 <= off -> 0 <= n -> off + n <= zlen packet ->
  header_at packet off n c = Done (take (Z.to_nat n) (drop (Z.to_nat off) packet), c).
Proof. intros. unfold header_at. erewrite (proj2 (rd_done packet off n _)) by done. done. Qed.

Lemma header_beyond packet off n c : zlen packet < off + n -> header_at packet off n c = Fault OutOfBounds.
Proof.
  intros H. unfold header_at, rd. destruct (Z.leb_spec (off + n) (zlen packet)); [lia|]. by rewrite andb_false_r.
Qed.

Lemma bind_fault {S A B} (m : prog S A) (k : A -> prog S B) s f : m s = Fault f -> (m ≫= k) s = Fault f.
Proof. intros H. unfold mbind, prog_bind. by rewrite H. Qed.

(** The decoder looks at a TCP header without asking whether it was captured:
    every IPv4 packet for TCP that ends before its 20 bytes of TCP header, with
    a capture header that says so truthfully, is read past its end. *)
Theorem short_tcp_overruns packet interface id tp e ts us :
  34 <= zlen packet < 54 -> be16_at packet 12 = 0x0800 -> byte_at packet 14 / 16 = 4 -> byte_at packet 23 = 6 ->
  extract_packets {| ts_sec := ts; ts_usec := us; caplen := zlen packet; len := zlen packet |}
    packet interface id tp e = Fault OutOfBounds.
Proof.
  intros Hl Ht Hv Hp. unfold extract_packets. cbv zeta. set (c0 := Build_capture_packet _ _ _ _ _ _).
  enough (decode_packet packet {| ts_sec := ts; ts_usec := us; caplen := zlen packet; len := zlen packet |} c0 = Fault OutOfBounds)
    as -> by done.
  unfold decode_packet, decode_eth_packet. cbn [caplen]. destruct (Z.ltb_spec (zlen packet) 14); [lia|].
  erewrite bind_run; [|erewrite bind_run by (apply header_run; lia); erewrite bind_run by done; erewrite bind_run by done; done].
  cbn [negb]. erewrite bind_run by done. cbn [hdrs on_hdrs set_eth ethh ether_type].
  unfold be16_at at 1. rewrite !byte_at_sub by (cbn; lia).
  change (byte_at packet (Z.to_nat 0 + 12) * 256 + byte_at packet (Z.to_nat 0 + (12 + 1))) with (be16_at packet 12).
  rewrite Ht. apply bind_fault. unfold decode_network. cbn [Z.eqb Pos.eqb].
  erewrite bind_run; cycle 1.
  { unfold decode_ip4_packet. erewrite bind_run by done. cbn [cp_length on_hdrs].
    change (cp_length c0) with (zlen packet). rewrite (wrap_small 64) by lia.
    destruct (Z.ltb_spec (zlen packet - 14) 20); [lia|]. erewrite bind_run by (apply header_run; lia).
    erewrite bind_run by done. erewrite bind_run by done. done. }
  rewrite !byte_at_sub by (cbn; lia). change (Z.to_nat 14 + 0)%nat with 14%nat. rewrite Hv. cbn [Z.eqb Pos.eqb negb].
  erewrite bind_run by done. cbn [hdrs on_hdrs set_ip4 ip4h ip_p]. rewrite ?byte_at_sub by (cbn; lia).
  change (Z.to_nat 14 + 9)%nat with 23%nat. rewrite Hp. apply bind_fault. unfold decode_transport. cbn [Z.eqb Pos.eqb].
  apply bind_fault. unfold decode_tcp_packet. erewrite bind_run by done. cbn [hdrs on_hdrs set_ip4 ip4h ip6h transport_offset set_eth c0 no_headers].
  apply bind_fault, header_beyond. lia.
Qed.

(** ** A DNS query, put together and taken apart *)

Definition enc16 (v : Z) : list Z := [v / 256; v mod 256].

(** The fields of a DNS query over UDP and IPv4 without options. *)
Record dns_query := {
  q_dhost : list Z; q_shost : list Z;
  q_tos : Z; q_len : Z; q_ident : Z; q_off : Z; q_ttl : Z; q_sum : Z; q_saddr : list Z; q_daddr : list Z;
  q_source : Z; q_ulen : Z; q_check : Z;
  q_tid : Z; q_flags : Z; q_nqueries : Z; q_nanswers : Z; q_nauth : Z; q_nother : Z;
  q_labels : list (list Z)
}.

Definition is_u16 (v : Z) : Prop := 0 <= v < 65536.
Definition query_ok (q : dns_query) : Prop :=
  length (q_dhost q) = 6%nat /\ length (q_shost q) = 6%nat /\ length (q_saddr q) = 4%nat /\ length (q_daddr q) = 4%nat /\
  Forall is_u16 [q_len q; q_ident q; q_off q; q_sum q; q_source q; q_ulen q; q_check q; q_tid q; q_flags q;
                 q_nqueries q; q_nanswers q; q_nauth q; q_nother q] /\
  0 < q_nqueries q /\ Forall plain_label (q_labels q) /\ zlen (dotted (q_labels q)) <= 254.

Definition eth_bytes (q : dns_query) : list Z := q_dhost q ++ q_shost q ++ enc16 0x0800.
Definition ip4_bytes (q : dns_query) : list Z :=
  [0x45; q_tos q] ++ enc16 (q_len q) ++ enc16 (q_ident q) ++ enc16 (q_off q) ++ [q_ttl q; 17] ++ enc16 (q_sum q) ++
  q_saddr q ++ q_daddr q.
Definition udp_bytes (q : dns_query) : list Z :=
  enc16 (q_source q) ++ enc16 DNS_PORT ++ enc16 (q_ulen q) ++ enc16 (q_check q).
Definition dns_bytes (q : dns_query) : list Z :=
  enc16 (q_tid q) ++ enc16 (q_flags q) ++ enc16 (q_nqueries q) ++ enc16 (q_nanswers q) ++ enc16 (q_nauth q) ++
  enc16 (q_nother q).
Definition frame (q : dns_query) (rest : list Z) : list Z :=
  eth_bytes q ++ ip4_bytes q ++ udp_bytes q ++ dns_bytes q ++ enc_name (q_labels q) ++ rest.

Lemma enc16_be v : (v / 256) * 256 + v mod 256 = v.
Proof. zdiv_lia. Qed.

(** What is recorded of a query. *)
Definition query_eth (c : capture_packet) (q : dns_query) : eth_schema :=
  {| eth_timestamp := cp_timestamp c; eth_id := cp_id c; eth_caplen := cp_caplen c; eth_length := cp_length c;
     eth_ifname := cp_ifname c; ether_dhost := macstr (q_dhost q); ether_shost := macstr (q_shost q);
     ether_type := 0x0800 |}.
Definition query_ip4 (id : list Z) (q : dns_query) : ip4_schema :=
  {| ip4_id := id; ip_src := inet_ntop (q_saddr q); ip_dst := inet_ntop (q_daddr q); ip_hl := 5; ip_v := 4;
     ip_tos := q_tos q; ip_len := q_len q; ip_id := q_ident q; ip_off := q_off q; ip_ttl := q_ttl q; ip_p := 17;
     ip_sum := q_sum q |}.
Definition query_udp (id : list Z) (q : dns_query) : udp_schema :=
  {| udp_id := id; udp_source := q_source q; udp_dest := 53; udp_len := q_ulen q; udp_check := q_check q |}.
Definition query_dns (id : list Z) (q : dns_query) : dns_schema :=
  {| dns_id := id; dns_tid := q_tid q; dns_flags := q_flags q; dns_nqueries := q_nqueries q;
     dns_nanswers := q_nanswers q; dns_nauth := q_nauth q; dns_nother := q_nother q;
     dns_qname := take (length (dotted (q_labels q)) - 1) (dotted (q_labels q)) |}.

(** The bytes at an offset, when the packet is laid out around them. *)
Lemma header_app packet pre mid post off n c : packet = pre ++ mid ++ post -> off = zlen pre -> n = zlen mid ->
  header_at packet off n c = Done (mid, c).
Proof. intros -> -> ->. unfold header_at. by rewrite rd_app. Qed.

Section query.
Context (q : dns_query) (rest : list Z) (Hq : query_ok q).

Lemma zlen_parts : zlen (eth_bytes q) = 14 /\ zlen (ip4_bytes q) = 20 /\ zlen (udp_bytes q) = 8 /\ zlen (dns_bytes q) = 12.
Proof.
  destruct Hq as (H1 & H2 & H3 & H4 & _). unfold eth_bytes, ip4_bytes, udp_bytes, dns_bytes, enc16, zlen.
  rewrite !length_app, H1, H2, H3, H4. done.
Qed.

Lemma frame_eth c : header_at (frame q rest) 0 14 c = Done (eth_bytes q, c).
Proof. destruct zlen_parts as (H & _). by eapply (header_app _ []); [done..|]. Qed.
Lemma frame_ip4 c : header_at (frame q rest) 14 20 c = Done (ip4_bytes q, c).
Proof. destruct zlen_parts as (H1 & H2 & _). by eapply (header_app _ (eth_bytes q)). Qed.
Lemma frame_udp c : header_at (frame q rest) 34 8 c = Done (udp_bytes q, c).
Proof.
  destruct zlen_parts as (H1 & H2 & H3 & _). eapply (header_app _ (eth_bytes q ++ ip4_bytes q)); [|rewrite zlen_app; lia|done].
  by rewrite <- app_assoc.
Qed.
Lemma frame_dns c : header_at (frame q rest) 42 12 c = Done (dns_bytes q, c).
Proof.
  destruct zlen_parts as (H1 & H2 & H3 & H4).
  eapply (header_app _ (eth_bytes q ++ ip4_bytes q ++ udp_bytes q)); [|rewrite !zlen_app; lia|done].
  by rewrite <- !app_assoc.
Qed.

(** The fields of each header. *)
Lemma eth_fields : sub_at (eth_bytes q) 0 6 = q_dhost q /\ sub_at (eth_bytes q) 6 6 = q_shost q /\
  be16_at (eth_bytes q) 12 = 0x0800.
Proof.
  destruct Hq as (H1 & H2 & _). unfold eth_bytes. destruct (q_dhost q) as [|? [|? [|? [|? [|? [|? [|]]]]]]]; try done.
  by destruct (q_shost q) as [|? [|? [|? [|? [|? [|? [|]]]]]]].
Qed.

Lemma ip4_fields : sub_at (ip4_bytes q) 12 4 = q_saddr q /\ sub_at (ip4_bytes q) 16 4 = q_daddr q /\
  byte_at (ip4_bytes q) 0 = 0x45 /\ byte_at (ip4_bytes q) 1 = q_tos q /\ be16_at (ip4_bytes q) 2 = q_len q /\
  be16_at (ip4_bytes q) 4 = q_ident q /\ be16_at (ip4_bytes q) 6 = q_off q /\ byte_at (ip4_bytes q) 8 = q_ttl q /\
  byte_at (ip4_bytes q) 9 = 17 /\ be16_at (ip4_bytes q) 10 = q_sum q.
Proof.
  destruct Hq as (_ & _ & H3 & H4 & _). unfold ip4_bytes. destruct (q_saddr q) as [|? [|? [|? [|? [|]]]]]; try done.
  destruct (q_daddr q) as [|? [|? [|? [|? [|]]]]]; try done. repeat split; apply enc16_be.
Qed.

Lemma udp_fields : be16_at (udp_bytes q) 0 = q_source q /\ be16_at (udp_bytes q) 2 = 53 /\
  be16_at (udp_bytes q) 4 = q_ulen q /\ be16_at (udp_bytes q) 6 = q_check q.
Proof. repeat split; apply enc16_be. Qed.

Lemma dns_fields : be16_at (dns_bytes q) 0 = q_tid q /\ be16_at (dns_bytes q) 2 = q_flags q /\
  be16_at (dns_bytes q) 4 = q_nqueries q /\ be16_at (dns_bytes q) 6 = q_nanswers q /\
  be16_at (dns_bytes q) 8 = q_nauth q /\ be16_at (dns_bytes q) 10 = q_nother q.
Proof. repeat split; apply enc16_be. Qed.

(** The question, and the whole packet. *)
Lemma query_question n : zlen (frame q rest) <= n < 2 ^ 32 ->
  exists name, decode_dns_questions (frame q rest) 54 n (zeros 255) = Done name /\
    until_nul name = take (length (dotted (q_labels q)) - 1) (dotted (q_labels q)).
Proof.
  intros Hn. destruct zlen_parts as (H1 & H2 & H3 & H4). destruct Hq as (_ & _ & _ & _ & _ & _ & Hl & Hd).
  assert (frame q rest = (eth_bytes q ++ ip4_bytes q ++ udp_bytes q ++ dns_bytes q) ++ enc_name (q_labels q) ++ rest) as E
    by (unfold frame; by rewrite <- !app_assoc).
  rewrite E in Hn |- *. pose proof (zlen_nonneg rest). rewrite !zlen_app in Hn.
  replace 54 with (zlen (eth_bytes q ++ ip4_bytes q ++ udp_bytes q ++ dns_bytes q)) by (rewrite !zlen_app; lia).
  apply decode_dns_questions_run; [done..|]. rewrite !zlen_app. lia.
Qed.

Lemma zlen_frame : 54 < zlen (frame q rest).
Proof.
  destruct zlen_parts as (H1 & H2 & H3 & H4). unfold frame, enc_name. rewrite !zlen_app. pose proof (zlen_nonneg rest).
  pose proof (zlen_nonneg (concat (enc_label <$> q_labels q))). change (zlen [0]) with 1. lia.
Qed.

Lemma query_eth_run header c : 14 <= caplen header ->
  decode_eth_packet (frame q rest) header c = Done (true, on_hdrs (set_eth (0, query_eth c q)) c).
Proof.
  intros H. unfold decode_eth_packet. destruct (Z.ltb_spec (caplen header) 14); [lia|].
  erewrite bind_run by apply frame_eth. destruct eth_fields as (-> & -> & ->). done.
Qed.

Lemma query_ip4_run c : zlen (frame q rest) <= cp_length c < 2 ^ 32 ->
  decode_ip4_packet (frame q rest) c = Done (true, on_hdrs (set_ip4 (14, query_ip4 (cp_id c) q)) c).
Proof.
  intros H. pose proof zlen_frame. unfold decode_ip4_packet. erewrite bind_run by done. rewrite (wrap_small 64) by lia.
  destruct (Z.ltb_spec (cp_length c - 14) 20); [lia|]. erewrite bind_run by apply frame_ip4.
  destruct ip4_fields as (-> & -> & -> & -> & -> & -> & -> & -> & -> & ->). done.
Qed.

Lemma query_udp_run c : transport_offset (hdrs c) = Some 34 ->
  decode_udp_packet (frame q rest) c = Done (true, on_hdrs (set_udp (34, query_udp (cp_id c) q)) c).
Proof.
  intros H. unfold decode_udp_packet. erewrite bind_run by done. rewrite H. erewrite bind_run by apply frame_udp.
  destruct udp_fields as (-> & -> & -> & ->). done.
Qed.

Lemma query_dns_run c : zlen (frame q rest) <= cp_length c < 2 ^ 32 ->
  decode_dns_at (frame q rest) c 42 0 c = Done (true, on_hdrs (set_dns (42, query_dns (cp_id c) q)) c).
Proof.
  intros H. unfold decode_dns_at. erewrite bind_run by apply frame_dns.
  destruct dns_fields as (-> & -> & -> & -> & -> & ->). pose proof zlen_frame.
  destruct (query_question (cp_length c) H) as (name & En & Hname).
  destruct (Z.leb_spec (42 + 0 + 12) (cp_length c)); [|lia]. destruct Hq as (_ & _ & _ & _ & _ & Hn & _).
  destruct (Z.eqb_spec (q_nqueries q) 0); [lia|]. cbn [andb negb Z.eqb]. erewrite bind_run; cycle 1.
  { change (42 + 12) with 54. change (Z.to_nat MAX_QUESTION_LEN) with 255%nat. rewrite En. apply lift_run. }
  by rewrite Hname.
Qed.

Lemma query_decoded header c : hdrs c = no_headers -> 14 <= caplen header -> zlen (frame q rest) <= cp_length c < 2 ^ 32 ->
  exists c', decode_packet (frame q rest) header c = Done (4, c') /\ tuples (hdrs c') =
    [PACKET_ETHERNET (query_eth c q); PACKET_IP4 (query_ip4 (cp_id c) q); PACKET_UDP (query_udp (cp_id c) q);
     PACKET_DNS (query_dns (cp_id c) q)].
Proof.
  intros Hh Hcap Hlen. destruct c as [t cl ln ifn id h]. cbn [hdrs cp_length cp_id] in *. subst h.
  unfold decode_packet. erewrite bind_run by by apply query_eth_run. cbn [negb]. erewrite bind_run by done.
  cbn [hdrs on_hdrs set_eth ethh ether_type query_eth]. erewrite bind_run; cycle 1.
  { unfold decode_network. cbn [Z.eqb Pos.eqb]. erewrite bind_run by by apply query_ip4_run. cbn [negb].
    erewrite bind_run by done. cbn [hdrs on_hdrs set_ip4 ip4h ip_p query_ip4]. unfold decode_transport. cbn [Z.eqb Pos.eqb].
    erewrite bind_run; [done|]. erewrite bind_run by by apply query_udp_run. done. }
  erewrite bind_run; cycle 1.
  { unfold decode_application. erewrite bind_run by done.
    cbn [hdrs on_hdrs set_udp set_ip4 set_eth tcph udph no_headers query_udp udp_dest udp_source].
    change (53 =? DNS_PORT) with true. rewrite orb_true_r. erewrite bind_run; [done|]. unfold decode_dns_packet.
    erewrite bind_run by done. cbn [Datatypes.id hdrs on_hdrs set_udp set_ip4 set_eth tcph udph no_headers].
    by apply query_dns_run. }
  eexists. split; [done|]. done.
Qed.
End query.

(** Round trip of the decoder on DNS queries: whatever fields a query over
    UDP and IPv4 has, whatever name of at most 253 characters it asks for and
    whatever follows it, the frame that carries it is recorded as four tuples
    with exactly these fields, the addresses as text and the name with dots
    between its labels. *)
Theorem dns_query_decoded q rest header interface id tp r :
  query_ok q -> 14 <= caplen header -> zlen (frame q rest) <= len header < 2 ^ 32 ->
  let c := {| cp_timestamp := os_to_timestamp (ts_sec header) (ts_usec header); cp_caplen := caplen header;
              cp_length := len header; cp_ifname := clip IF_NAMESIZE interface; cp_id := id; hdrs := no_headers |} in
  extract_packets header (frame q rest) interface id tp (Env [] r) =
    Done ((zlen tp + 4, tp ++ [PACKET_ETHERNET (query_eth c q); PACKET_IP4 (query_ip4 id q);
                               PACKET_UDP (query_udp id q); PACKET_DNS (query_dns id q)]), Env [] r).
Proof.
  intros Hq Hcap Hlen c. unfold extract_packets. cbv zeta. fold c.
  destruct (query_decoded q rest Hq header c eq_refl Hcap Hlen) as (c' & E & Ht). rewrite E.
  erewrite bind_run by apply lift_run. cbn [fst snd Z.ltb Z.compare]. rewrite Ht. change (cp_id c) with id.
  destruct (push_tuples_run [PACKET_ETHERNET (query_eth c q); PACKET_IP4 (query_ip4 id q);
    PACKET_UDP (query_udp id q); PACKET_DNS (query_dns id q)] tp (Env [] r)) as (ret & k & e' & -> & _ & _ & He).
  destruct (He eq_refl) as (-> & -> & Hk). rewrite take_ge, zlen_app by done. done.
Qed.

(** ** Samples *)

Definition sample_query : dns_query :=
  {| q_dhost := [0; 1; 2; 3; 4; 5]; q_shost := [6; 7; 8; 9; 10; 11]; q_tos := 0; q_len := 57; q_ident := 7; q_off := 0x4000;
     q_ttl := 64; q_sum := 0x1234; q_saddr := [10; 0; 1; 2]; q_daddr := [10; 0; 1; 254]; q_source := 40000; q_ulen := 37;
     q_check := 0; q_tid := 0xabcd; q_flags := 0x0100; q_nqueries := 1; q_nanswers := 0; q_nauth := 0; q_nother := 0;
     q_labels := [cstr "www"; cstr "example"; cstr "org"] |}.

Lemma dns_query_decoded_witness : exists t1 t2 t3,
  extract_packets {| ts_sec := 1; ts_usec := 2; caplen := 75; len := 75 |} (frame sample_query [0; 1; 0; 1])
    (cstr "wlan0") (cstr "id") [] (Env [] []) =
  Done ((4, [t1; t2; t3; PACKET_DNS {| dns_id := cstr "id"; dns_tid := 0xabcd; dns_flags := 0x0100; dns_nqueries := 1;
    dns_nanswers := 0; dns_nauth := 0; dns_nother := 0; dns_qname := cstr "www.example.org" |}]), Env [] []).
Proof.
  do 3 eexists.
  rewrite (dns_query_decoded sample_query [0; 1; 0; 1] {| ts_sec := 1; ts_usec := 2; caplen := 75; len := 75 |}
    (cstr "wlan0") (cstr "id") [] []).
  - reflexivity.
  - repeat split; try (by vm_compute); repeat constructor; by vm_compute.
  - by vm_compute.
  - by vm_compute.
Defined.

(** An Ethernet frame of some other protocol, filled up. *)
Definition sample_frame : list Z := [0; 1; 2; 3; 4; 5; 6; 7; 8; 9; 10; 11; 0x08; 0x06] ++ replicate 400 1.

Lemma extract_packets_layered_witness : exists ts,
  extract_packets {| ts_sec := 1; ts_usec := 2; caplen := 414; len := 414 |} sample_frame (cstr "wlan0") (cstr "id") []
    (Env [] []) = Done ((2, ts), Env [] []) /\ layer <$> ts = [1; 2]%nat.
Proof.
  destruct (extract_packets_layered {| ts_sec := 1; ts_usec := 2; caplen := 414; len := 414 |} sample_frame
    (cstr "wlan0") (cstr "id") [] (Env [] [])) as (ret & ts & k & m & e' & E & Hl & _).
  - by vm_compute.
  - unfold sample_frame. apply Forall_app. split; [repeat constructor; by vm_compute|].
    apply Forall_replicate. by vm_compute.
  - eexists. split; [by vm_compute|]. done.
Defined.

Definition sample_short : list Z :=
  [0; 1; 2; 3; 4; 5; 6; 7; 8; 9; 10; 11; 0x08; 0x00; 0x45; 0; 0; 20; 0; 0; 0; 0; 64; 6; 0; 0; 10; 0; 0; 1; 10; 0; 0; 2].

Lemma short_tcp_overruns_witness :
  extract_packets {| ts_sec := 0; ts_usec := 0; caplen := 34; len := 34 |} sample_short [] [] [] (Env [] []) =
    Fault OutOfBounds.
Proof. apply (short_tcp_overruns sample_short [] [] [] (Env [] []) 0 0); by vm_compute. Defined.
