(* ===== verification/Protobuf.v ===== *)
(** The protobuf middleware of the capture service: [protobuf_encoder.c],
    [protobuf_utils.c], [protobuf_middleware.c] and the message descriptors of
    [src/capture/middlewares/protobuf_middleware], with [open_write_nonblock] of
    [src/utils/os.c].

    Every tuple of a captured packet ([Decoder]) becomes a protobuf message; the
    message is the payload of a wrapper that names its type, and the wrapper is
    written to a pipe behind its length.  protobuf-c is a parameter: it packs a
    message, given the table of its fields, and what it packs can be unpacked.
    The instance is the wire format.  The theorems: lengths are written so that
    every reader of base-128 numbers gets them back; and the reader at the other
    end of the pipe gets, in their order, the messages of the tuples that were
    written, with the values of their fields, as long as no write is cut short. *)
From stdpp Require Import strings numbers base list gmap.
From Stdlib Require Import ZArith Lia.
From S2P Require Import Prelude Os Text Net Decoder.

(** ** Messages *)

Inductive ptype := TYPE_UINT32 | TYPE_UINT64 | TYPE_STRING | TYPE_BYTES.
Inductive pvalue := VInt (z : Z) | VStr (s : list Z) | VBytes (l : list Z).
#[export] Instance pvalue_eq : EqDecision pvalue.
Proof. solve_decision. Defined.

(** [ProtobufCFieldDescriptor]; a member of a oneof is set or not. *)
Record field := { f_name : string; f_number : Z; f_type : ptype; f_oneof : bool }.
Definition plain (name : string) (n : Z) (ty : ptype) : field := {| f_name := name; f_number := n; f_type := ty; f_oneof := false |}.

(** The values of the fields, in the order of the table. *)
Abbreviation message := (list (option pvalue)).

Definition eth__eth_schema__field_descriptors : list field :=
  [plain "timestamp" 1 TYPE_UINT64; plain "id" 2 TYPE_STRING; plain "caplen" 3 TYPE_UINT32;
   plain "length" 4 TYPE_UINT32; plain "ifname" 5 TYPE_STRING; plain "ether_dhost" 6 TYPE_STRING;
   plain "ether_shost" 7 TYPE_STRING; plain "ether_type" 8 TYPE_UINT32].
Definition arp__arp_schema__field_descriptors : list field :=
  [plain "id" 1 TYPE_STRING; plain "ar_hrd" 2 TYPE_UINT32; plain "ar_pro" 3 TYPE_UINT32;
   plain "ar_hln" 4 TYPE_UINT32; plain "ar_pln" 5 TYPE_UINT32; plain "ar_op" 6 TYPE_UINT32;
   plain "arp_sha" 7 TYPE_STRING; plain "arp_spa" 8 TYPE_STRING; plain "arp_tha" 9 TYPE_STRING;
   plain "arp_tpa" 10 TYPE_STRING].
Definition ip4__ip4_schema__field_descriptors : list field :=
  [plain "id" 1 TYPE_STRING; plain "ip_src" 2 TYPE_STRING; plain "ip_dst" 3 TYPE_STRING; plain "ip_hl" 4 TYPE_UINT32;
   plain "ip_v" 5 TYPE_UINT32; plain "ip_tos" 6 TYPE_UINT32; plain "ip_len" 7 TYPE_UINT32;
   plain "ip_id" 8 TYPE_UINT32; plain "ip_off" 9 TYPE_UINT32; plain "ip_ttl" 10 TYPE_UINT32;
   plain "ip_p" 11 TYPE_UINT32; plain "ip_sum" 12 TYPE_UINT32].
Definition ip6__ip6_schema__field_descriptors : list field :=
  [plain "id" 1 TYPE_STRING; plain "ip6_un1_flow" 2 TYPE_UINT32; plain "ip6_un1_plen" 3 TYPE_UINT32;
   plain "ip6_un1_nxt" 4 TYPE_UINT32; plain "ip6_un1_hlim" 5 TYPE_UINT32; plain "ip6_un2_vfc" 6 TYPE_UINT32;
   plain "ip6_src" 7 TYPE_STRING; plain "ip6_dst" 8 TYPE_STRING].
Definition tcp__tcp_schema__field_descriptors : list field :=
  [plain "id" 1 TYPE_STRING; plain "source" 2 TYPE_UINT32; plain "dest" 3 TYPE_UINT32; plain "seq" 4 TYPE_UINT32;
   plain "ack_seq" 5 TYPE_UINT32; plain "res1" 6 TYPE_UINT32; plain "doff" 7 TYPE_UINT32; plain "fin" 8 TYPE_UINT32;
   plain "syn" 9 TYPE_UINT32; plain "rst" 10 TYPE_UINT32; plain "psh" 11 TYPE_UINT32; plain "ack" 12 TYPE_UINT32;
   plain "urg" 13 TYPE_UINT32; plain "window" 14 TYPE_UINT32; plain "check_p" 15 TYPE_UINT32;
   plain "urg_ptr" 16 TYPE_UINT32].
Definition udp__udp_schema__field_descriptors : list field :=
  [plain "id" 1 TYPE_STRING; plain "source" 2 TYPE_UINT32; plain "dest" 3 TYPE_UINT32; plain "len" 4 TYPE_UINT32;
   plain "check_p" 5 TYPE_UINT32].
Definition icmp4__icmp4_schema__field_descriptors : list field :=
  [plain "id" 1 TYPE_STRING; plain "type" 2 TYPE_UINT32; plain "code" 3 TYPE_UINT32; plain "checksum" 4 TYPE_UINT32;
   plain "gateway" 5 TYPE_UINT32].
Definition icmp6__icmp6_schema__field_descriptors : list field :=
  [plain "id" 1 TYPE_STRING; plain "icmp6_type" 2 TYPE_UINT32; plain "icmp6_code" 3 TYPE_UINT32;
   plain "icmp6_cksum" 4 TYPE_UINT32; plain "icmp6_un_data32" 5 TYPE_UINT32].
Definition dns__dns_schema__field_descriptors : list field :=
  [plain "id" 1 TYPE_STRING; plain "tid" 2 TYPE_UINT32; plain "flags" 3 TYPE_UINT32; plain "nqueries" 4 TYPE_UINT32;
   plain "nanswers" 5 TYPE_UINT32; plain "nauth" 6 TYPE_UINT32; plain "nother" 7 TYPE_UINT32;
   plain "qname" 8 TYPE_STRING].
Definition mdns__mdns_schema__field_descriptors : list field :=
  [plain "id" 1 TYPE_STRING; plain "tid" 2 TYPE_UINT32; plain "flags" 3 TYPE_UINT32; plain "nqueries" 4 TYPE_UINT32;
   plain "nanswers" 5 TYPE_UINT32; plain "nauth" 6 TYPE_UINT32; plain "nother" 7 TYPE_UINT32;
   plain "qname" 8 TYPE_STRING].
Definition dhcp__dhcp_schema__field_descriptors : list field :=
  [plain "id" 1 TYPE_STRING; plain "op" 2 TYPE_UINT32; plain "htype" 3 TYPE_UINT32; plain "hlen" 4 TYPE_UINT32;
   plain "hops" 5 TYPE_UINT32; plain "xid" 6 TYPE_UINT32; plain "secs" 7 TYPE_UINT32; plain "flags" 8 TYPE_UINT32;
   plain "ciaddr" 9 TYPE_STRING; plain "yiaddr" 10 TYPE_STRING; plain "siaddr" 11 TYPE_STRING;
   plain "giaddr" 12 TYPE_STRING; plain "chaddr" 13 TYPE_STRING].
Definition tdx__volt_api__sync__v1__protobuf_sync_wrapper__field_descriptors : list field :=
  [{| f_name := "header_index"; f_number := 1; f_type := TYPE_UINT32; f_oneof := true |};
   {| f_name := "header_id"; f_number := 2; f_type := TYPE_STRING; f_oneof := true |};
   plain "payload" 3 TYPE_BYTES].

(** An assignment converts to the type of the member; a string ends at its
    NUL. *)
Definition convert (ty : ptype) (v : pvalue) : pvalue :=
  match ty, v with
  | TYPE_UINT32, VInt z => VInt (u32 z)
  | TYPE_UINT64, VInt z => VInt (u64 z)
  | TYPE_STRING, VStr s => VStr (until_nul s)
  | _, _ => v
  end.
Definition initial (f : field) : option pvalue :=
  if f_oneof f then None
  else Some match f_type f with TYPE_STRING => VStr [] | TYPE_BYTES => VBytes [] | _ => VInt 0 end.
Definition assigned (f : field) (l : list (string * pvalue)) : option pvalue :=
  match list_find (fun x => x.1 = f_name f) l with
  | Some (_, x) => Some (convert (f_type f) x.2)
  | None => initial f
  end.
(** The structure after its initialisation and the assignments. *)
Definition init_message (desc : list field) (l : list (string * pvalue)) : message := (fun f => assigned f l) <$> desc.

Definition value_ok (ty : ptype) (v : pvalue) : Prop :=
  match ty, v with
  | TYPE_UINT32, VInt z => 0 <= z < 2 ^ 32
  | TYPE_UINT64, VInt z => 0 <= z < 2 ^ 64
  | TYPE_STRING, VStr s => nul_free s
  | TYPE_BYTES, VBytes _ => True
  | _, _ => False
  end.
Definition field_ok (f : field) (o : option pvalue) : Prop :=
  match o with Some v => value_ok (f_type f) v | None => f_oneof f = true end.
Definition message_ok (desc : list field) (m : message) : Prop := Forall2 field_ok desc m.

(** Tables that protobuf-c accepts: numbers ascend. *)
Fixpoint ascending (n : Z) (desc : list field) : Prop :=
  match desc with [] => True | f :: rest => n < f_number f < 2 ^ 29 /\ ascending (f_number f) rest end.

Class ProtobufC := {
  protobuf_c_message_get_packed_size : list field -> message -> Z;
  protobuf_c_message_pack : list field -> message -> list Z;
  protobuf_c_message_unpack : list field -> list Z -> option message;
  pack_size desc m : protobuf_c_message_get_packed_size desc m = zlen (protobuf_c_message_pack desc m);
  unpack_pack desc m : ascending 0 desc -> message_ok desc m ->
    zlen (protobuf_c_message_pack desc m) < 2 ^ 32 -> protobuf_c_message_unpack desc (protobuf_c_message_pack desc m) = Some m
}.

(** ** Delimited messages ([protobuf_utils.c]) *)

(** The bytes [uint32_pack] writes. *)
Definition uint32_bytes (value : Z) : list Z :=
  if 128 <=? value then
    u8 (Z.lor value 128) ::
    (let value := Z.shiftr value 7 in
     if 128 <=? value then
       u8 (Z.lor value 128) ::
       (let value := Z.shiftr value 7 in
        if 128 <=? value then
          u8 (Z.lor value 128) ::
          (let value := Z.shiftr value 7 in
           if 128 <=? value then
             u8 (Z.lor value 128) :: [u8 (Z.shiftr value 7)]
           else [u8 value])
        else [u8 value])
     else [u8 value])
  else [u8 value].
Definition uint32_pack (value : Z) (out : list Z) : outcome (Z * list Z) :=
  match wr out 0 (uint32_bytes value) with
  | Done out' => Done (zlen (uint32_bytes value), out')
  | Fault f => Fault f
  end.
Definition uint32_size (v : Z) : Z :=
  if v <? 2 ^ 7 then 1 else if v <? 2 ^ 14 then 2 else if v <? 2 ^ 21 then 3 else if v <? 2 ^ 28 then 4 else 5.

Section encoder.
Context {PB : ProtobufC}.

(** The size is a [size_t] and its delimiter that of a [uint32_t]. *)
Definition protobuf_c_message_del_get_packed_size (desc : list field) (m : message) : Z :=
  let message_size := protobuf_c_message_get_packed_size desc m in
  message_size + uint32_size (u32 message_size).
Definition protobuf_c_message_del_pack (desc : list field) (m : message) (out : list Z) : outcome (Z * list Z) :=
  let message_size := protobuf_c_message_get_packed_size desc m in
  match uint32_pack (u32 message_size) out with
  | Fault f => Fault f
  | Done (delimiter_size, out') =>
      match wr out' delimiter_size (protobuf_c_message_pack desc m) with
      | Fault f => Fault f
      | Done out'' => Done (zlen (protobuf_c_message_pack desc m) + delimiter_size, out'')
      end
  end.

(** ** Encoding ([protobuf_encoder.c]) *)

(** The result and the buffer that was allocated. *)
#[local] Abbreviation Enc := (prog env (Z * option (list Z))).

(** What the encoders of the packets share: the size, the buffer, and the
    message in it. *)
Definition encode_message (desc : list field) (l : list (string * pvalue)) : Enc :=
  let m := init_message desc l in
  let packed_size := protobuf_c_message_get_packed_size desc m in
  ok ← malloc;
  if negb ok then mret (-1, None)
  else
    buffer ← lift_outcome (wr (zeros (Z.to_nat packed_size)) 0 (protobuf_c_message_pack desc m));
    mret (zlen (protobuf_c_message_pack desc m), Some buffer).

Definition eth_assignments (eths : eth_schema) : list (string * pvalue) :=
  [("timestamp", VInt (eth_timestamp eths)); ("id", VStr (eth_id eths)); ("caplen", VInt (eth_caplen eths));
   ("length", VInt (eth_length eths)); ("ifname", VStr (eth_ifname eths)); ("ether_dhost", VStr (ether_dhost eths));
   ("ether_shost", VStr (ether_shost eths)); ("ether_type", VInt (ether_type eths))].
Definition arp_assignments (arps : arp_schema) : list (string * pvalue) :=
  [("id", VStr (arp_id arps)); ("ar_hrd", VInt (ar_hrd arps)); ("ar_pro", VInt (ar_pro arps));
   ("ar_hln", VInt (ar_hln arps)); ("ar_pln", VInt (ar_pln arps)); ("ar_op", VInt (ar_op arps));
   ("arp_sha", VStr (arp_sha arps)); ("arp_spa", VStr (arp_spa arps)); ("arp_tha", VStr (arp_tha arps));
   ("arp_tpa", VStr (arp_tpa arps))].
Definition ip4_assignments (ip4s : ip4_schema) : list (string * pvalue) :=
  [("id", VStr (ip4_id ip4s)); ("ip_src", VStr (ip_src ip4s)); ("ip_dst", VStr (ip_dst ip4s));
   ("ip_hl", VInt (ip_hl ip4s)); ("ip_v", VInt (ip_v ip4s)); ("ip_tos", VInt (ip_tos ip4s));
   ("ip_len", VInt (ip_len ip4s)); ("ip_id", VInt (ip_id ip4s)); ("ip_off", VInt (ip_off ip4s));
   ("ip_ttl", VInt (ip_ttl ip4s)); ("ip_p", VInt (ip_p ip4s)); ("ip_sum", VInt (ip_sum ip4s))].
Definition ip6_assignments (ip6s : ip6_schema) : list (string * pvalue) :=
  [("id", VStr (ip6_id ip6s)); ("ip6_un1_flow", VInt (ip6_un1_flow ip6s));
   ("ip6_un1_plen", VInt (ip6_un1_plen ip6s)); ("ip6_un1_nxt", VInt (ip6_un1_nxt ip6s));
   ("ip6_un1_hlim", VInt (ip6_un1_hlim ip6s)); ("ip6_un2_vfc", VInt (ip6_un2_vfc ip6s));
   ("ip6_src", VStr (ip6_src ip6s)); ("ip6_dst", VStr (ip6_dst ip6s))].
Definition tcp_assignments (tcps : tcp_schema) : list (string * pvalue) :=
  [("id", VStr (tcp_id tcps)); ("source", VInt (tcp_source tcps)); ("dest", VInt (tcp_dest tcps));
   ("seq", VInt (seq_nr tcps)); ("ack_seq", VInt (ack_seq tcps)); ("res1", VInt (res1 tcps));
   ("doff", VInt (doff tcps)); ("fin", VInt (fin tcps)); ("syn", VInt (syn tcps)); ("rst", VInt (rst tcps));
   ("psh", VInt (psh tcps)); ("ack", VInt (ack tcps)); ("urg", VInt (urg tcps)); ("window", VInt (window tcps));
   ("check_p", VInt (tcp_check tcps)); ("urg_ptr", VInt (urg_ptr tcps))].
Definition udp_assignments (udps : udp_schema) : list (string * pvalue) :=
  [("id", VStr (udp_id udps)); ("source", VInt (udp_source udps)); ("dest", VInt (udp_dest udps));
   ("len", VInt (udp_len udps)); ("check_p", VInt (udp_check udps))].
Definition icmp4_assignments (icmp4s : icmp4_schema) : list (string * pvalue) :=
  [("id", VStr (icmp4_id icmp4s)); ("type", VInt (icmp4_type icmp4s)); ("code", VInt (icmp4_code icmp4s));
   ("checksum", VInt (icmp4_checksum icmp4s)); ("gateway", VInt (icmp4_gateway icmp4s))].
Definition icmp6_assignments (icmp6s : icmp6_schema) : list (string * pvalue) :=
  [("id", VStr (icmp6_id icmp6s)); ("icmp6_type", VInt (icmp6_type icmp6s));
   ("icmp6_code", VInt (icmp6_code icmp6s)); ("icmp6_cksum", VInt (icmp6_cksum icmp6s));
   ("icmp6_un_data32", VInt (icmp6_un_data32 icmp6s))].
Definition dns_assignments (dnss : dns_schema) : list (string * pvalue) :=
  [("id", VStr (dns_id dnss)); ("tid", VInt (dns_tid dnss)); ("flags", VInt (dns_flags dnss));
   ("nqueries", VInt (dns_nqueries dnss)); ("nanswers", VInt (dns_nanswers dnss)); ("nauth", VInt (dns_nauth dnss));
   ("nother", VInt (dns_nother dnss)); ("qname", VStr (dns_qname dnss))].
Definition mdns_assignments (mdnss : mdns_schema) : list (string * pvalue) :=
  [("id", VStr (mdns_id mdnss)); ("tid", VInt (mdns_tid mdnss)); ("flags", VInt (mdns_flags mdnss));
   ("nqueries", VInt (mdns_nqueries mdnss)); ("nanswers", VInt (mdns_nanswers mdnss));
   ("nauth", VInt (mdns_nauth mdnss)); ("nother", VInt (mdns_nother mdnss)); ("qname", VStr (mdns_qname mdnss))].
Definition dhcp_assignments (dhcps : dhcp_schema) : list (string * pvalue) :=
  [("id", VStr (dhcp_id dhcps)); ("op", VInt (dhcp_op dhcps)); ("htype", VInt (dhcp_htype dhcps));
   ("hlen", VInt (dhcp_hlen dhcps)); ("hops", VInt (dhcp_hops dhcps)); ("xid", VInt (dhcp_xid dhcps));
   ("secs", VInt (dhcp_secs dhcps)); ("flags", VInt (dhcp_flags dhcps)); ("ciaddr", VStr (dhcp_ciaddr dhcps));
   ("yiaddr", VStr (dhcp_yiaddr dhcps)); ("siaddr", VStr (dhcp_siaddr dhcps)); ("giaddr", VStr (dhcp_giaddr dhcps));
   ("chaddr", VStr (dhcp_chaddr dhcps))].

Definition encode_eth_packet (eths : eth_schema) : Enc := encode_message eth__eth_schema__field_descriptors (eth_assignments eths).
Definition encode_arp_packet (arps : arp_schema) : Enc := encode_message arp__arp_schema__field_descriptors (arp_assignments arps).
Definition encode_ip4_pcaket (ip4s : ip4_schema) : Enc := encode_message ip4__ip4_schema__field_descriptors (ip4_assignments ip4s).
Definition encode_ip6_packet (ip6s : ip6_schema) : Enc := encode_message ip6__ip6_schema__field_descriptors (ip6_assignments ip6s).
Definition encode_tcp_packet (tcps : tcp_schema) : Enc := encode_message tcp__tcp_schema__field_descriptors (tcp_assignments tcps).
Definition encode_udp_packet (udps : udp_schema) : Enc := encode_message udp__udp_schema__field_descriptors (udp_assignments udps).
Definition encode_icmp4_packet (icmp4s : icmp4_schema) : Enc := encode_message icmp4__icmp4_schema__field_descriptors (icmp4_assignments icmp4s).
Definition encode_icmp6_packet (icmp6s : icmp6_schema) : Enc := encode_message icmp6__icmp6_schema__field_descriptors (icmp6_assignments icmp6s).
Definition encode_dns_packet (dnss : dns_schema) : Enc := encode_message dns__dns_schema__field_descriptors (dns_assignments dnss).
Definition encode_mdsn_packet (mdnss : mdns_schema) : Enc := encode_message mdns__mdns_schema__field_descriptors (mdns_assignments mdnss).
Definition encode_dhcp_packet (dhcps : dhcp_schema) : Enc := encode_message dhcp__dhcp_schema__field_descriptors (dhcp_assignments dhcps).

Definition encode_protobuf_packet (tp : tuple_packet) : Enc :=
  match tp with
  | PACKET_ETHERNET s => encode_eth_packet s
  | PACKET_ARP s => encode_arp_packet s
  | PACKET_IP4 s => encode_ip4_pcaket s
  | PACKET_IP6 s => encode_ip6_packet s
  | PACKET_TCP s => encode_tcp_packet s
  | PACKET_UDP s => encode_udp_packet s
  | PACKET_ICMP4 s => encode_icmp4_packet s
  | PACKET_ICMP6 s => encode_icmp6_packet s
  | PACKET_DNS s => encode_dns_packet s
  | PACKET_MDNS s => encode_mdsn_packet s
  | PACKET_DHCP s => encode_dhcp_packet s
  end.

(** The name of the type of a tuple. *)
Definition header_id (tp : tuple_packet) : list Z :=
  match tp with
  | PACKET_ETHERNET _ => cstr "eth" | PACKET_ARP _ => cstr "arp" | PACKET_IP4 _ => cstr "ip4" | PACKET_IP6 _ => cstr "ip6"
  | PACKET_TCP _ => cstr "tcp" | PACKET_UDP _ => cstr "udp" | PACKET_ICMP4 _ => cstr "icmp4" | PACKET_ICMP6 _ => cstr "icmp6"
  | PACKET_DNS _ => cstr "dns" | PACKET_MDNS _ => cstr "mdns" | PACKET_DHCP _ => cstr "dhcp"
  end.

#[local] Abbreviation wrapper := tdx__volt_api__sync__v1__protobuf_sync_wrapper__field_descriptors.

Definition encode_protobuf_sync_delimited (tp : tuple_packet) (packet_buffer : list Z) (length : Z) : Enc :=
  payload ← lift_outcome (rd packet_buffer 0 length);
  let sync := init_message wrapper [("header_id", VStr (header_id tp)); ("payload", VBytes payload)] in
  let sync_length := protobuf_c_message_del_get_packed_size wrapper sync in
  ok ← malloc;
  if negb ok then mret (-1, None)
  else
    x ← lift_outcome (protobuf_c_message_del_pack wrapper sync (zeros (Z.to_nat sync_length)));
    mret (x.1, Some x.2).

Definition encode_protobuf_sync_wrapper (tp : tuple_packet) : Enc :=
  x ← encode_protobuf_packet tp;
  if x.1 <? 0 then mret (-1, None)
  else
    y ← encode_protobuf_sync_delimited tp (default [] x.2) x.1;
    if y.1 <? 0 then mret (-1, y.2) else mret y.
End encoder.

(** ** The pipe ([os.c]) *)

(** The descriptor of the middleware, what was written to the pipe, what was
    closed, and the answers of [open] and [write]: a descriptor or -1, and the
    number of bytes that are accepted or -1.  Answers that have run out mean
    success. *)
Record pipe := { pipe_fd : Z; pipe_data : list Z; pipe_closed : list Z; opens : list Z; writes : list Z }.

Definition open_pipe : prog pipe Z := fun p =>
  let fd := hd 3 (opens p) in
  Done (fd, {| pipe_fd := fd; pipe_data := pipe_data p; pipe_closed := pipe_closed p; opens := tl (opens p); writes := writes p |}).
Definition write_pipe (buffer : list Z) (length : Z) : prog pipe Z := fun p =>
  match rd buffer 0 length with
  | Fault f => Fault f
  | Done data =>
      let n := Z.min (hd length (writes p)) length in
      Done (n, {| pipe_fd := pipe_fd p; pipe_data := pipe_data p ++ take (Z.to_nat n) data; pipe_closed := pipe_closed p;
                  opens := opens p; writes := tl (writes p) |})
  end.
Definition get_fd : prog pipe Z := fun p => Done (pipe_fd p, p).

(** The result of [write] is the result. *)
Definition open_write_nonblock (path : option (list Z)) (buffer : option (list Z)) (length : Z) : prog pipe Z :=
  match path, buffer with
  | None, _ => mret (-1)
  | _, None => mret (-1)
  | Some _, Some b =>
      fd ← get_fd;
      if fd <=? 0 then
        r ← open_pipe;
        if r <? 0 then mret (-1) else write_pipe b length
      else write_pipe b length
  end.

(** ** The middleware ([protobuf_middleware.c]) *)

Section middleware.
Context {PB : ProtobufC}.

(** The context, without what this middleware does not use. *)
Record protobuf_context := { pc_params : option (list Z); pc_pipe : pipe; pc_env : env }.
#[local] Abbreviation Pm := (prog protobuf_context).
Definition pm_env {A} (m : prog env A) : Pm A := fun c =>
  match m (pc_env c) with
  | Fault f => Fault f
  | Done (a, e) => Done (a, {| pc_params := pc_params c; pc_pipe := pc_pipe c; pc_env := e |})
  end.
Definition pm_pipe {A} (m : prog pipe A) : Pm A := fun c =>
  match m (pc_pipe c) with
  | Fault f => Fault f
  | Done (a, p) => Done (a, {| pc_params := pc_params c; pc_pipe := p; pc_env := pc_env c |})
  end.
Definition get_params : Pm (option (list Z)) := fun c => Done (pc_params c, c).

Definition pipe_protobuf_tuple_packet (path : option (list Z)) (p : tuple_packet) : Pm Z :=
  x ← pm_env (encode_protobuf_sync_wrapper p);
  if x.1 <? 0 then mret (-1)
  else
    r ← pm_pipe (open_write_nonblock path x.2 x.1);
    mret (if r <? 0 then -1 else 0).

Fixpoint pipe_protobuf_packets (path : option (list Z)) (packets : list tuple_packet) : Pm Z :=
  match packets with
  | [] => mret 0
  | p :: rest =>
      r ← pipe_protobuf_tuple_packet path p;
      if r <? 0 then mret (-1) else pipe_protobuf_packets path rest
  end.

(** [context] and [mdata] are there once the middleware was initialised. *)
Definition process_protobuf_middleware (header : pcap_pkthdr) (packet ifname id : list Z) : Pm Z :=
  params ← get_params;
  match params with
  | None => mret (-1)
  | Some path =>
      x ← pm_env (extract_packets header packet ifname id []);
      if x.1 <? 0 then mret 0
      else if 0 <? x.1 then _ ← pipe_protobuf_packets (Some path) x.2; mret 0
      else mret 0
  end.

(** The context with a descriptor that [os_zalloc] has set to 0. *)
Definition init_protobuf_middleware (params : option (list Z)) (p : pipe) : prog env (option protobuf_context) :=
  ok ← malloc;
  if negb ok then mret None
  else
    ok ← malloc;
    if negb ok then mret None
    else fun e => Done (Some {| pc_params := params;
                         pc_pipe := {| pipe_fd := 0; pipe_data := pipe_data p; pipe_closed := pipe_closed p; opens := opens p; writes := writes p |};
                         pc_env := e |}, e).

Definition free_protobuf_middleware (c : protobuf_context) : pipe :=
  let p := pc_pipe c in
  {| pipe_fd := pipe_fd p; pipe_data := pipe_data p; pipe_closed := pipe_fd p :: pipe_closed p; opens := opens p; writes := writes p |}.
End middleware.

(** ** Numbers to the base 128 *)

Fixpoint varint (n : nat) (v : Z) : list Z :=
  match n with
  | O => [v]
  | S n => if v <? 128 then [v] else v mod 128 + 128 :: varint n (v / 128)
  end.
(** A reader that accepts at most [n] bytes. *)
Fixpoint read_varint (n : nat) (l : list Z) : option (Z * list Z) :=
  match n, l with
  | S n, b :: l =>
      if b <? 128 then Some (b, l)
      else match read_varint n l with Some (v, l) => Some (b - 128 + 128 * v, l) | None => None end
  | _, _ => None
  end.

Lemma read_varint_cons n b l : read_varint (S n) (b :: l) =
  if b <? 128 then Some (b, l) else match read_varint n l with Some (v, l) => Some (b - 128 + 128 * v, l) | None => None end.
Proof. done. Qed.

Lemma read_varint_varint n : forall v l, 0 <= v < 128 ^ (Z.of_nat n + 1) -> read_varint (S n) (varint n v ++ l) = Some (v, l).
Proof.
  induction n as [|n IH]; intros v l Hv; cbn [varint].
  - cbn [app]. rewrite read_varint_cons. by rewrite (proj2 (Z.ltb_lt _ _)) by lia.
  - destruct (Z.ltb_spec v 128) as [Hs|Hb]; cbn [app]; rewrite read_varint_cons; [by rewrite (proj2 (Z.ltb_lt _ _)) by lia|].
    pose proof (Z.mod_pos_bound v 128 ltac:(lia)). rewrite (proj2 (Z.ltb_ge _ _)) by lia. rewrite IH.
    + pose proof (Z.div_mod v 128). do 2 f_equal. lia.
    + replace (Z.of_nat (S n) + 1) with (Z.succ (Z.of_nat n + 1)) in Hv by lia. rewrite Z.pow_succ_r in Hv by lia.
      split; [apply Z.div_pos; lia|apply Z.div_lt_upper_bound; lia].
Qed.

Lemma seven_bits v : u8 (Z.lor v 128) = v mod 128 + 128.
Proof.
  assert (v mod 128 + 128 = Z.lor (Z.shiftl 1 7) (v mod 2 ^ 7)) as ->
    by (rewrite lor_shiftl_add by (try apply Z.mod_pos_bound; lia); change (2 ^ 7) with 128; lia).
  change (wrap 8 (Z.lor v 128)) with (Z.lor v (2 ^ 7) mod 2 ^ 8). apply Z.bits_inj'. intros i Hi.
  rewrite Z.lor_spec. change (Z.shiftl 1 7) with (2 ^ 7). destruct (Z.ltb_spec i 8) as [Hs|Hb].
  - rewrite Z.mod_pow2_bits_low, Z.lor_spec by lia. destruct (Z.eqb_spec i 7) as [->|Hn].
    + rewrite Z.pow2_bits_true by lia. by rewrite orb_true_r.
    + rewrite Z.mod_pow2_bits_low by lia. apply orb_comm.
  - rewrite Z.mod_pow2_bits_high, Z.pow2_bits_false, Z.mod_pow2_bits_high by lia. done.
Qed.

Lemma varint_small n v : v < 128 -> varint n v = [v].
Proof. intros Hv. destruct n; [done|]. cbn [varint]. by rewrite (proj2 (Z.ltb_lt _ _)). Qed.

Lemma uint32_varint v : 0 <= v < 2 ^ 32 -> uint32_bytes v = varint 4 v.
Proof.
  intros Hv. unfold uint32_bytes. cbv zeta. rewrite !seven_bits, !Z.shiftr_div_pow2 by lia. change (2 ^ 7) with 128.
  cbn [varint]. rewrite !(Z.ltb_antisym 128). pose proof (Z.div_pos v 128). pose proof (Z.div_pos (v / 128) 128).
  pose proof (Z.div_pos (v / 128 / 128) 128). pose proof (Z.div_pos (v / 128 / 128 / 128) 128).
  assert (v / 128 / 128 / 128 / 128 < 16) by (rewrite !Z.div_div by lia; apply Z.div_lt_upper_bound; lia).
  repeat (match goal with |- context [128 <=? ?x] => destruct (Z.leb_spec 128 x) as [?|?] end; cbn [negb];
    [f_equal|by rewrite u8_id by (unfold is_byte; lia)]).
  by rewrite u8_id by (unfold is_byte; lia).
Qed.

(** ** The wire format *)

(** Fields in ascending order, each behind its number and the kind of its
    encoding; a field with the initial value is left out. *)
Definition wire_tag (f : field) : Z := f_number f * 8 + match f_type f with TYPE_UINT32 | TYPE_UINT64 => 0 | _ => 2 end.
Definition wire_value (v : pvalue) : list Z :=
  match v with VInt z => varint 9 z | VStr s | VBytes s => varint 9 (zlen s) ++ s end.
Definition wire_field (f : field) (o : option pvalue) : list Z :=
  match o with
  | None => []
  | Some v => if bool_decide (initial f = Some v) then [] else varint 9 (wire_tag f) ++ wire_value v
  end.
Fixpoint wire_pack (desc : list field) (m : message) : list Z :=
  match desc, m with f :: desc, o :: m => wire_field f o ++ wire_pack desc m | _, _ => [] end.

Definition read_value (ty : ptype) (l : list Z) : option (pvalue * list Z) :=
  match read_varint 10 l with
  | None => None
  | Some (n, l) =>
      match ty with
      | TYPE_UINT32 | TYPE_UINT64 => Some (VInt n, l)
      | _ => if n <=? zlen l then Some ((if ty is TYPE_STRING then VStr else VBytes) (take (Z.to_nat n) l), drop (Z.to_nat n) l) else None
      end
  end.
Fixpoint wire_unpack (desc : list field) (l : list Z) : option message :=
  match desc with
  | [] => match l with [] => Some [] | _ => None end
  | f :: desc =>
      match read_varint 10 l with
      | Some (tag, l') =>
          if tag =? wire_tag f then
            match read_value (f_type f) l' with Some (v, l'') => cons (Some v) <$> wire_unpack desc l'' | None => None end
          else cons (initial f) <$> wire_unpack desc l
      | None => cons (initial f) <$> wire_unpack desc l
      end
  end.

Lemma read_value_ok ty v l : value_ok ty v -> zlen (wire_value v) < 2 ^ 32 -> read_value ty (wire_value v ++ l) = Some (v, l).
Proof.
  intros Hv Hl. unfold read_value.
  assert (forall s, zlen (varint 9 (zlen s) ++ s) < 2 ^ 32 -> read_varint 10 ((varint 9 (zlen s) ++ s) ++ l) = Some (zlen s, s ++ l)) as Hs.
  { intros s Hs. rewrite <- app_assoc. apply read_varint_varint. rewrite zlen_app in Hs. pose proof (zlen_nonneg s).
    pose proof (zlen_nonneg (varint 9 (zlen s))). change (128 ^ (Z.of_nat 9 + 1)) with 1180591620717411303424. lia. }
  destruct ty, v as [z|s|s]; try done; cbn [wire_value value_ok] in *.
  1, 2: rewrite read_varint_varint by (change (128 ^ (Z.of_nat 9 + 1)) with 1180591620717411303424; lia); done.
  all: rewrite Hs by done; rewrite (proj2 (Z.leb_le _ _)) by (rewrite zlen_app; pose proof (zlen_nonneg l); lia);
    by rewrite to_nat_zlen, take_app_length, drop_app_length.
Qed.

(** What follows a field has a higher number. *)
Lemma next_tag desc m n l : ascending n desc -> message_ok desc m -> 0 <= n -> l = wire_pack desc m ->
  match read_varint 10 l with Some (tag, _) => n * 8 + 8 <= tag | None => True end.
Proof.
  intros Ha Hm Hn ->. revert n Ha Hn. induction Hm as [|f o desc m Ho Hm IH]; intros n Ha Hn; [done|]. destruct Ha as [Hf Ha]. cbn [wire_pack].
  assert (forall l, match read_varint 10 (varint 9 (wire_tag f) ++ l) with Some (tag, _) => n * 8 + 8 <= tag | None => True end) as Ht.
  { intros l. rewrite read_varint_varint; [unfold wire_tag; destruct (f_type f); lia|]. unfold wire_tag.
    change (128 ^ (Z.of_nat 9 + 1)) with 1180591620717411303424. destruct (f_type f); lia. }
  assert (match read_varint 10 (wire_pack desc m) with Some (tag, _) => n * 8 + 8 <= tag | None => True end) as Hrest.
  { specialize (IH _ Ha ltac:(lia)). destruct (read_varint 10 _) as [[tag ?]|]; [lia|done]. }
  destruct o as [v|]; cbn [wire_field]; [|done]. case_bool_decide; [done|]. rewrite <- app_assoc. apply Ht.
Qed.

Lemma wire_roundtrip desc m n : ascending n desc -> 0 <= n -> message_ok desc m -> zlen (wire_pack desc m) < 2 ^ 32 ->
  wire_unpack desc (wire_pack desc m) = Some m.
Proof.
  intros Ha Hn Hm. revert n Ha Hn. induction Hm as [|f o desc m Ho Hm IH]; intros n Ha Hn Hl; [done|]. destruct Ha as [Hf Ha].
  cbn [wire_pack wire_unpack] in *. rewrite zlen_app in Hl. pose proof (zlen_nonneg (wire_field f o)). pose proof (zlen_nonneg (wire_pack desc m)).
  specialize (IH _ Ha ltac:(lia) ltac:(lia)).
  assert (initial f = o -> match read_varint 10 (wire_pack desc m) with
    | Some (tag, l') => if tag =? wire_tag f then match read_value (f_type f) l' with Some (v, l'') => cons (Some v) <$> wire_unpack desc l'' | None => None end
                        else cons (initial f) <$> wire_unpack desc (wire_pack desc m)
    | None => cons (initial f) <$> wire_unpack desc (wire_pack desc m) end = Some (o :: m)) as Hskip.
  { intros Hi. pose proof (next_tag desc m (f_number f) _ Ha Hm ltac:(lia) eq_refl) as Ht. rewrite IH, Hi.
    destruct (read_varint 10 _) as [[tag l']|]; [|done]. rewrite (proj2 (Z.eqb_neq _ _)); [done|]. unfold wire_tag. destruct (f_type f); lia. }
  destruct o as [v|]; cbn [wire_field app] in *.
  - case_bool_decide as Hd; [by apply Hskip|]. rewrite zlen_app in Hl. pose proof (zlen_nonneg (varint 9 (wire_tag f))).
    rewrite <- !app_assoc, read_varint_varint; [|unfold wire_tag; change (128 ^ (Z.of_nat 9 + 1)) with 1180591620717411303424; destruct (f_type f); lia].
    rewrite Z.eqb_refl, read_value_ok by (done || lia). by rewrite IH.
  - apply Hskip. unfold initial. cbn in Ho. by rewrite Ho.
Qed.

#[export, refine] Instance wire_format : ProtobufC := {|
  protobuf_c_message_get_packed_size desc m := zlen (wire_pack desc m);
  protobuf_c_message_pack := wire_pack;
  protobuf_c_message_unpack := wire_unpack
|}.
Proof.
  - done.
  - intros desc m Ha Hm Hl. by apply (wire_roundtrip desc m 0).
Defined.

(** ** The reader at the other end *)

Definition tuple_desc (tp : tuple_packet) : list field :=
  match tp with
  | PACKET_ETHERNET _ => eth__eth_schema__field_descriptors | PACKET_ARP _ => arp__arp_schema__field_descriptors
  | PACKET_IP4 _ => ip4__ip4_schema__field_descriptors | PACKET_IP6 _ => ip6__ip6_schema__field_descriptors
  | PACKET_TCP _ => tcp__tcp_schema__field_descriptors | PACKET_UDP _ => udp__udp_schema__field_descriptors
  | PACKET_ICMP4 _ => icmp4__icmp4_schema__field_descriptors | PACKET_ICMP6 _ => icmp6__icmp6_schema__field_descriptors
  | PACKET_DNS _ => dns__dns_schema__field_descriptors | PACKET_MDNS _ => mdns__mdns_schema__field_descriptors
  | PACKET_DHCP _ => dhcp__dhcp_schema__field_descriptors
  end.
Definition tuple_assignments (tp : tuple_packet) : list (string * pvalue) :=
  match tp with
  | PACKET_ETHERNET s => eth_assignments s | PACKET_ARP s => arp_assignments s | PACKET_IP4 s => ip4_assignments s
  | PACKET_IP6 s => ip6_assignments s | PACKET_TCP s => tcp_assignments s | PACKET_UDP s => udp_assignments s
  | PACKET_ICMP4 s => icmp4_assignments s | PACKET_ICMP6 s => icmp6_assignments s | PACKET_DNS s => dns_assignments s
  | PACKET_MDNS s => mdns_assignments s | PACKET_DHCP s => dhcp_assignments s
  end.
Definition tuple_message (tp : tuple_packet) : message := init_message (tuple_desc tp) (tuple_assignments tp).

(** The tables the reader knows, by the names of the types. *)
Definition known_types : list (list Z * list field) :=
  [(cstr "eth", eth__eth_schema__field_descriptors); (cstr "arp", arp__arp_schema__field_descriptors);
   (cstr "ip4", ip4__ip4_schema__field_descriptors); (cstr "ip6", ip6__ip6_schema__field_descriptors);
   (cstr "tcp", tcp__tcp_schema__field_descriptors); (cstr "udp", udp__udp_schema__field_descriptors);
   (cstr "icmp4", icmp4__icmp4_schema__field_descriptors); (cstr "icmp6", icmp6__icmp6_schema__field_descriptors);
   (cstr "dns", dns__dns_schema__field_descriptors); (cstr "mdns", mdns__mdns_schema__field_descriptors);
   (cstr "dhcp", dhcp__dhcp_schema__field_descriptors)].

#[local] Abbreviation wrapper := tdx__volt_api__sync__v1__protobuf_sync_wrapper__field_descriptors.

Section reader.
Context {PB : ProtobufC}.

Definition read_message (l : list Z) : option (list Z * message) :=
  match protobuf_c_message_unpack wrapper l with
  | Some [_; Some (VStr id); Some (VBytes payload)] =>
      match list_find (fun x => x.1 = id) known_types with
      | Some (_, x) => pair id <$> protobuf_c_message_unpack x.2 payload
      | None => None
      end
  | _ => None
  end.
Fixpoint read_frames (fuel : nat) (data : list Z) : option (list (list Z * message)) :=
  match fuel, data with
  | _, [] => Some []
  | O, _ => None
  | S fuel, _ =>
      match read_varint 5 data with
      | Some (n, l) =>
          if n <=? zlen l then
            match read_message (take (Z.to_nat n) l) with
            | Some m => cons m <$> read_frames fuel (drop (Z.to_nat n) l)
            | None => None
            end
          else None
      | None => None
      end
  end.
(** A frame has at least one byte. *)
Definition read_stream (data : list Z) : option (list (list Z * message)) := read_frames (length data) data.

(** What is written for a tuple. *)
Definition payload_of (tp : tuple_packet) : list Z := protobuf_c_message_pack (tuple_desc tp) (tuple_message tp).
Definition wrapped (tp : tuple_packet) : message := [None; Some (VStr (header_id tp)); Some (VBytes (payload_of tp))].
Definition wrapper_of (tp : tuple_packet) : list Z := protobuf_c_message_pack wrapper (wrapped tp).
Definition frame (tp : tuple_packet) : list Z := uint32_bytes (zlen (wrapper_of tp)) ++ wrapper_of tp.
Definition tuple_fits (tp : tuple_packet) : Prop := zlen (payload_of tp) < 2 ^ 32 /\ zlen (wrapper_of tp) < 2 ^ 32.

Lemma tuple_message_ok tp : message_ok (tuple_desc tp) (tuple_message tp).
Proof.
  destruct tp; cbn; repeat constructor; cbn [field_ok value_ok]; first [apply wrap_bound; lia|apply until_nul_nonzero].
Qed.
Lemma tuple_desc_ok tp : ascending 0 (tuple_desc tp).
Proof. destruct tp; cbn; lia. Qed.
Lemma wrapped_ok tp : message_ok wrapper (wrapped tp).
Proof. repeat constructor. cbn. destruct tp; repeat constructor; done. Qed.
Lemma wrapper_desc_ok : ascending 0 wrapper.
Proof. cbn. lia. Qed.
Lemma known_tuple tp : exists k, list_find (fun x => x.1 = header_id tp) known_types = Some (k, (header_id tp, tuple_desc tp)).
Proof. destruct tp; eexists; reflexivity. Qed.

Lemma read_message_ok tp : tuple_fits tp -> read_message (wrapper_of tp) = Some (header_id tp, tuple_message tp).
Proof.
  intros [Hp Hw]. unfold read_message, wrapper_of. rewrite unpack_pack by (apply wrapper_desc_ok || apply wrapped_ok || done).
  cbn [wrapped]. destruct (known_tuple tp) as [k ->]. cbn [snd]. unfold payload_of.
  by rewrite unpack_pack by (apply tuple_desc_ok || apply tuple_message_ok || done).
Qed.

Lemma read_frames_ok ts : forall fuel, (length (concat (frame <$> ts)) <= fuel)%nat -> Forall tuple_fits ts ->
  read_frames fuel (concat (frame <$> ts)) = Some ((fun t => (header_id t, tuple_message t)) <$> ts).
Proof.
  induction ts as [|t ts IH]; intros fuel Hf Hts; [by destruct fuel|]. apply list.Forall_cons in Hts as [Ht Hts].
  rewrite !fmap_cons in *. cbn [concat] in *. unfold frame at 1 in Hf. unfold frame at 1.
  destruct Ht as [Hp Hw]. pose proof (zlen_nonneg (wrapper_of t)) as H0. rewrite uint32_varint in * by lia.
  assert (exists b l, varint 4 (zlen (wrapper_of t)) = b :: l) as (b & l & Hb) by (cbn [varint]; case_match; by eexists _, _).
  destruct fuel as [|fuel]; [rewrite Hb in Hf; cbn in Hf; lia|].
  assert (forall x : list Z, read_frames (S fuel) (varint 4 (zlen (wrapper_of t)) ++ x) =
    match read_varint 5 (varint 4 (zlen (wrapper_of t)) ++ x) with
      | Some (n, l) => if n <=? zlen l then match read_message (take (Z.to_nat n) l) with
            | Some m => cons m <$> read_frames fuel (drop (Z.to_nat n) l) | None => None end else None
      | None => None end) as Hstep by (intros x; by rewrite Hb).
  rewrite <- app_assoc, Hstep, read_varint_varint by (change (128 ^ (Z.of_nat 4 + 1)) with 34359738368; lia).
  rewrite (proj2 (Z.leb_le _ _)) by (rewrite zlen_app; pose proof (zlen_nonneg (concat (frame <$> ts))); lia).
  rewrite to_nat_zlen, take_app_length, drop_app_length, read_message_ok, IH; [done| |done|done].
  rewrite Hb, !length_app in Hf. cbn in Hf. lia.
Qed.

(** ** Encoding *)

Lemma uint32_size_bytes v : 0 <= v < 2 ^ 32 -> uint32_size v = zlen (uint32_bytes v).
Proof.
  intros Hv. rewrite uint32_varint by done. unfold uint32_size. cbn [varint].
  destruct (Z.ltb_spec v (2 ^ 7)); [by rewrite (proj2 (Z.ltb_lt _ _)) by lia|]. rewrite (proj2 (Z.ltb_ge v 128)) by lia.
  destruct (Z.ltb_spec v (2 ^ 14)); [by rewrite (proj2 (Z.ltb_lt _ _)) by (apply Z.div_lt_upper_bound; lia)|].
  rewrite (proj2 (Z.ltb_ge (v / 128) 128)) by (apply Z.div_le_lower_bound; lia). rewrite !Z.div_div by lia.
  destruct (Z.ltb_spec v (2 ^ 21)); [by rewrite (proj2 (Z.ltb_lt _ _)) by (apply Z.div_lt_upper_bound; lia)|].
  rewrite (proj2 (Z.ltb_ge (v / _) 128)) by (apply Z.div_le_lower_bound; lia).
  destruct (Z.ltb_spec v (2 ^ 28)); [by rewrite (proj2 (Z.ltb_lt _ _)) by (apply Z.div_lt_upper_bound; lia)|].
  by rewrite (proj2 (Z.ltb_ge (v / _) 128)) by (apply Z.div_le_lower_bound; lia).
Qed.

Lemma wr_all data : wr (zeros (Z.to_nat (zlen data))) 0 data = Done data.
Proof.
  unfold zeros. rewrite wr_head by (rewrite length_replicate; unfold zlen; lia).
  by rewrite drop_ge, app_nil_r by (rewrite length_replicate; unfold zlen; lia).
Qed.

Lemma encode_packet_run tp e : exists ok e', encode_protobuf_packet tp e =
  Done ((if ok : bool then (zlen (payload_of tp), Some (payload_of tp)) else (-1, None)), e') /\ env_ok e e' (ok = true).
Proof.
  assert (encode_protobuf_packet tp = encode_message (tuple_desc tp) (tuple_assignments tp)) as -> by (by destruct tp).
  unfold encode_message. cbv zeta. fold (tuple_message tp). fold (payload_of tp). rewrite pack_size. fold (payload_of tp).
  destruct (malloc_ok e) as (ok & e' & E & He). exists ok, e'. split; [|done]. erewrite bind_run by exact E.
  destruct ok; cbn [negb]; [|done]. by erewrite bind_run by (rewrite wr_all; apply lift_run).
Qed.

Lemma del_pack_run tp : tuple_fits tp ->
  protobuf_c_message_del_pack wrapper (wrapped tp) (zeros (Z.to_nat (protobuf_c_message_del_get_packed_size wrapper (wrapped tp)))) =
    Done (zlen (frame tp), frame tp).
Proof.
  intros [_ Hw]. pose proof (zlen_nonneg (wrapper_of tp)). unfold protobuf_c_message_del_pack, protobuf_c_message_del_get_packed_size.
  cbv zeta. rewrite pack_size. fold (wrapper_of tp). rewrite wrap_small, uint32_size_bytes by lia. unfold uint32_pack, frame.
  set (b := uint32_bytes _). set (w := wrapper_of tp) in *.
  rewrite wr_head by (unfold zeros; rewrite length_replicate; unfold zlen; lia).
  set (r := drop _ _). assert (length r = length w) as Hr
    by (unfold r, zeros; rewrite length_drop, length_replicate; unfold zlen; lia).
  rewrite <- (app_nil_r r), (wr_app b r [] w) by (unfold zlen; lia || done). rewrite app_nil_r, zlen_app. do 2 f_equal. lia.
Qed.

Lemma delimited_run tp e : tuple_fits tp -> exists ok e', encode_protobuf_sync_delimited tp (payload_of tp) (zlen (payload_of tp)) e =
  Done ((if ok : bool then (zlen (frame tp), Some (frame tp)) else (-1, None)), e') /\ env_ok e e' (ok = true).
Proof.
  intros Hf. destruct (malloc_ok e) as (ok & e2 & E2 & He2). exists ok, e2. split; [|done]. unfold encode_protobuf_sync_delimited.
  assert (rd (payload_of tp) 0 (zlen (payload_of tp)) = Done (payload_of tp)) as Hrd
    by (rewrite <- (app_nil_r (payload_of tp)) at 1; by apply (rd_app [] _ [])).
  assert (init_message wrapper [("header_id", VStr (header_id tp)); ("payload", VBytes (payload_of tp))] = wrapped tp) as Hi by (by destruct tp).
  erewrite bind_run by (rewrite Hrd; apply lift_run). cbv zeta. rewrite Hi. erewrite bind_run by exact E2.
  destruct ok; cbn [negb]; [|done]. by erewrite bind_run by (rewrite del_pack_run by done; apply lift_run).
Qed.

Lemma encode_tuple_run tp e : tuple_fits tp -> exists ok e', encode_protobuf_sync_wrapper tp e =
  Done ((if ok : bool then (zlen (frame tp), Some (frame tp)) else (-1, None)), e') /\ env_ok e e' (ok = true).
Proof.
  intros Hf. unfold encode_protobuf_sync_wrapper. destruct (encode_packet_run tp e) as (ok & e1 & E & He).
  erewrite bind_run by exact E. destruct ok; cbn [fst snd]; [|exists false, e1; done].
  pose proof (zlen_nonneg (payload_of tp)). rewrite (proj2 (Z.ltb_ge _ _)) by lia. cbn [default]. unfold id.
  destruct (delimited_run tp e1 Hf) as (ok & e2 & E2 & He2). exists ok, e2. split; [|by eapply env_ok_trans].
  erewrite bind_run by exact E2. pose proof (zlen_nonneg (frame tp)). destruct ok; cbn [fst snd]; [|done]. by rewrite (proj2 (Z.ltb_ge _ _)) by lia.
Qed.

(** ** Writing *)

(** Every write takes all of its bytes or none. *)
Definition whole_writes (p : pipe) : Prop := Forall (fun n => n < 0 \/ 2 ^ 33 <= n) (writes p).
Definition all_succeed (p : pipe) : Prop := opens p = [] /\ writes p = [].

Lemma frame_len tp : tuple_fits tp -> 0 <= zlen (frame tp) < 2 ^ 33.
Proof.
  intros [_ Hw]. pose proof (zlen_nonneg (wrapper_of tp)). unfold frame. rewrite zlen_app, <- uint32_size_bytes by lia.
  unfold uint32_size. repeat case_match; lia.
Qed.

Lemma write_run tp p : tuple_fits tp -> whole_writes p -> exists r p', write_pipe (frame tp) (zlen (frame tp)) p = Done (r, p') /\
  whole_writes p' /\ ((0 <= r /\ pipe_data p' = pipe_data p ++ frame tp) \/ (r < 0 /\ pipe_data p' = pipe_data p)) /\
  (all_succeed p -> 0 <= r /\ all_succeed p').
Proof.
  intros Hf Hw. pose proof (frame_len tp Hf). unfold write_pipe.
  assert (rd (frame tp) 0 (zlen (frame tp)) = Done (frame tp)) as ->
    by (rewrite <- (app_nil_r (frame tp)) at 1; by apply (rd_app [] _ [])).
  eexists _, _. split; [done|]. unfold whole_writes, all_succeed in *. cbn [writes opens pipe_data].
  destruct (writes p) as [|n ws] eqn:Ews; cbn [hd tl].
  - split; [constructor|]. rewrite Z.min_id, to_nat_zlen, take_ge by lia. split; [left; split; [lia|done]|]. intros [? _]. split; [lia|done].
  - apply list.Forall_cons in Hw as [Hn Hw]. split; [done|]. split; [|by intros [_ ?]]. destruct Hn as [Hn|Hn].
    + right. rewrite Z.min_l by lia. split; [done|]. replace (Z.to_nat n) with 0%nat by lia. by rewrite take_0, app_nil_r.
    + left. rewrite Z.min_r by lia. split; [lia|]. by rewrite to_nat_zlen, take_ge by lia.
Qed.

Lemma open_write_run path tp p : tuple_fits tp -> whole_writes p ->
  exists r p', open_write_nonblock (Some path) (Some (frame tp)) (zlen (frame tp)) p = Done (r, p') /\
  whole_writes p' /\ ((0 <= r /\ pipe_data p' = pipe_data p ++ frame tp) \/ (r < 0 /\ pipe_data p' = pipe_data p)) /\
  (all_succeed p -> 0 <= r /\ all_succeed p').
Proof.
  intros Hf Hw. unfold open_write_nonblock. erewrite bind_run by done. cbv beta.
  destruct (pipe_fd p <=? 0); [|by apply write_run]. erewrite bind_run by done. cbv beta.
  set (p1 := {| pipe_fd := hd 3 (opens p) |}). destruct (Z.ltb_spec (hd 3 (opens p)) 0) as [Hn|Hn].
  - exists (-1), p1. split; [done|]. split; [done|]. split; [by right|]. intros [E _]. by rewrite E in Hn.
  - destruct (write_run tp p1 Hf Hw) as (r & p2 & E & Hw2 & Hd & Hs). exists r, p2. split; [exact E|]. split; [done|]. split; [done|].
    intros [Ho Hws]. apply Hs. split; cbn; [by rewrite Ho|done].
Qed.

Lemma pipe_tuple_run path tp c : tuple_fits tp -> whole_writes (pc_pipe c) ->
  exists r c', pipe_protobuf_tuple_packet (Some path) tp c = Done (r, c') /\ pc_params c' = pc_params c /\ whole_writes (pc_pipe c') /\
  ((r = 0 /\ pipe_data (pc_pipe c') = pipe_data (pc_pipe c) ++ frame tp) \/ (r = -1 /\ pipe_data (pc_pipe c') = pipe_data (pc_pipe c))) /\
  (mallocs (pc_env c) = [] -> all_succeed (pc_pipe c) -> r = 0 /\ mallocs (pc_env c') = [] /\ all_succeed (pc_pipe c')).
Proof.
  intros Hf Hw. unfold pipe_protobuf_tuple_packet. destruct (encode_tuple_run tp (pc_env c) Hf) as (ok & e & E & [_ He]).
  erewrite bind_run by (unfold pm_env; rewrite E; done). destruct ok; cbn [fst snd]; cycle 1.
  { eexists (-1), _. split; [done|]. split; [done|]. split; [done|]. split; [by right|]. intros Hm _. by destruct (He Hm). }
  pose proof (zlen_nonneg (frame tp)). rewrite (proj2 (Z.ltb_ge _ _)) by lia.
  destruct (open_write_run path tp (pc_pipe c) Hf Hw) as (r & p & Ep & Hw' & Hd & Hs).
  erewrite bind_run by (unfold pm_pipe; cbn [pc_pipe]; rewrite Ep; done). eexists _, _. split; [done|]. split; [done|]. split; [done|]. split.
  - destruct Hd as [[Hr Hd]|[Hr Hd]]; [left; rewrite (proj2 (Z.ltb_ge _ _)) by lia|right; rewrite (proj2 (Z.ltb_lt _ _)) by lia]; done.
  - intros Hm Ha. destruct (Hs Ha) as [Hr Ha']. rewrite (proj2 (Z.ltb_ge _ _)) by lia. cbn. destruct (He Hm) as [-> _]. done.
Qed.

Lemma pipe_stream_run path ts : forall c, Forall tuple_fits ts -> whole_writes (pc_pipe c) ->
  exists r c' k, pipe_protobuf_packets (Some path) ts c = Done (r, c') /\ pc_params c' = pc_params c /\ whole_writes (pc_pipe c') /\
  pipe_data (pc_pipe c') = pipe_data (pc_pipe c) ++ concat (frame <$> take k ts) /\
  (mallocs (pc_env c) = [] -> all_succeed (pc_pipe c) -> (length ts <= k)%nat /\ mallocs (pc_env c') = [] /\ all_succeed (pc_pipe c')).
Proof.
  induction ts as [|t ts IH]; intros c Hts Hw; cbn [pipe_protobuf_packets].
  - exists 0, c, 0%nat. split; [done|]. split; [done|]. split; [done|]. split; [by rewrite app_nil_r|done].
  - apply list.Forall_cons in Hts as [Ht Hts]. destruct (pipe_tuple_run path t c Ht Hw) as (r & c1 & E & Hp & Hw1 & Hd & Hs).
    erewrite bind_run by exact E. destruct Hd as [[-> Hd]|[-> Hd]].
    + destruct (IH c1 Hts Hw1) as (r & c2 & k & E2 & Hp2 & Hw2 & Hd2 & Hs2). exists r, c2, (S k). split; [exact E2|].
      split; [congruence|]. split; [done|]. split; [rewrite Hd2, Hd; cbn; by rewrite <- app_assoc|].
      intros Hm Ha. destruct (Hs Hm Ha) as (_ & Hm1 & Ha1). destruct (Hs2 Hm1 Ha1). cbn. split; [lia|done].
    + exists (-1), c1, 0%nat. split; [done|]. split; [done|]. split; [done|]. split; [by rewrite Hd, app_nil_r|].
      intros Hm Ha. by destruct (Hs Hm Ha).
Qed.
End reader.

(** ** Packets *)

(** A packet as it was captured, with the name of the interface and the
    identifier that is generated for it, and its tuples. *)
Record captured := { cap_header : pcap_pkthdr; cap_packet : list Z; cap_ifname : list Z; cap_id : list Z }.
Definition captured_ok (x : captured) : Prop := decode_reach <= zlen (cap_packet x) /\ bytes (cap_packet x).
Definition decoded (x : captured) : list tuple_packet :=
  match extract_packets (cap_header x) (cap_packet x) (cap_ifname x) (cap_id x) [] (Env [] []) with
  | Done ((_, l), _) => l
  | Fault _ => []
  end.

Lemma extract_decoded x e : captured_ok x -> exists ret l e',
  extract_packets (cap_header x) (cap_packet x) (cap_ifname x) (cap_id x) [] e = Done ((ret, l), e') /\
  (ret = -1 \/ (ret = zlen (decoded x) /\ l = decoded x)) /\ env_ok e e' (ret = zlen (decoded x)).
Proof.
  intros [Hl Hb]. destruct (extract_packets_run (cap_header x) (cap_packet x) (cap_ifname x) (cap_id x) [] e Hl Hb) as (r0 & ts0 & k0 & m0 & e0 & E0 & _).
  unfold decoded. unfold extract_packets in *. cbv zeta in *. apply bind_done in E0 as (r & e1 & Er & _).
  destruct (decode_packet _ _ _) as [r'|f]; [|done]. injection Er as -> ->.
  rewrite !(bind_run _ _ _ _ _ (lift_run r _)). destruct (0 <? r.1).
  - destruct (push_tuples_run (tuples (hdrs r.2)) [] e1) as (ret & k & e' & E & Hr & He).
    destruct (push_tuples_run (tuples (hdrs r.2)) [] (Env [] [])) as (ret' & k' & e'' & E' & _ & [_ He']). destruct (He' eq_refl) as (_ & _ & Hk').
    rewrite E, E'. cbn [app] in *. rewrite (take_ge _ k') by done. exists ret, (take k (tuples (hdrs r.2))), e'. split; [done|]. split.
    + destruct Hr as [->|[-> Hk]]; [by left|right]. by rewrite take_ge.
    + eapply env_ok_mono; [exact He|]. by intros [-> _].
  - exists 0, [], e1. split; [done|]. split; [by right|]. by apply env_ok_refl.
Qed.

Section delivery.
Context {PB : ProtobufC}.

Fixpoint process_packets (l : list captured) : prog protobuf_context unit :=
  match l with
  | [] => mret tt
  | x :: l => _ ← process_protobuf_middleware (cap_header x) (cap_packet x) (cap_ifname x) (cap_id x); process_packets l
  end.

Lemma process_run path x c : pc_params c = Some path -> captured_ok x -> Forall tuple_fits (decoded x) -> whole_writes (pc_pipe c) ->
  exists c' k, process_protobuf_middleware (cap_header x) (cap_packet x) (cap_ifname x) (cap_id x) c = Done (0, c') /\
  pc_params c' = Some path /\ whole_writes (pc_pipe c') /\
  pipe_data (pc_pipe c') = pipe_data (pc_pipe c) ++ concat (frame <$> take k (decoded x)) /\
  (mallocs (pc_env c) = [] -> all_succeed (pc_pipe c) -> (length (decoded x) <= k)%nat /\ mallocs (pc_env c') = [] /\ all_succeed (pc_pipe c')).
Proof.
  intros Hp Hx Hf Hw. unfold process_protobuf_middleware. erewrite bind_run by done. cbv beta. rewrite Hp.
  destruct (extract_decoded x (pc_env c) Hx) as (ret & l & e & E & Hr & [_ He]).
  erewrite bind_run by (unfold pm_env; rewrite E; done). cbn [fst snd]. set (c1 := {| pc_params := pc_params c |}).
  assert (mallocs (pc_env c) = [] -> mallocs (pc_env c1) = []) as Hm1 by (intros Hm; cbn; by destruct (He Hm) as [-> _]).
  destruct Hr as [->|[-> ->]].
  - exists c1, 0%nat. split; [done|]. split; [done|]. split; [done|]. split; [by rewrite app_nil_r|].
    intros Hm _. destruct (He Hm) as [_ Hlen]. pose proof (zlen_nonneg (decoded x)). lia.
  - pose proof (zlen_nonneg (decoded x)). rewrite (proj2 (Z.ltb_ge _ 0)) by lia. destruct (Z.ltb_spec 0 (zlen (decoded x))) as [Hpos|Hz].
    + destruct (pipe_stream_run path (decoded x) c1 Hf Hw) as (r & c2 & k & E2 & Hp2 & Hw2 & Hd2 & Hs2).
      erewrite bind_run by exact E2. exists c2, k. split; [done|]. split; [by rewrite Hp2|]. split; [done|]. split; [done|]. auto.
    + exists c1, 0%nat. split; [done|]. split; [done|]. split; [done|]. split; [by rewrite app_nil_r|].
      intros Hm Ha. unfold zlen in Hz. split; [lia|]. auto.
Qed.

Lemma pipe_captures_run path l : forall c, pc_params c = Some path -> Forall captured_ok l ->
  Forall tuple_fits (concat (decoded <$> l)) -> whole_writes (pc_pipe c) ->
  exists c' ts, process_packets l c = Done (tt, c') /\ pipe_data (pc_pipe c') = pipe_data (pc_pipe c) ++ concat (frame <$> ts) /\
    ts `sublist_of` concat (decoded <$> l) /\
    (mallocs (pc_env c) = [] -> all_succeed (pc_pipe c) -> ts = concat (decoded <$> l)).
Proof.
  induction l as [|x l IH]; intros c Hp Hl Hf Hw; cbn [process_packets].
  - exists c, []. split; [done|]. split; [by rewrite app_nil_r|done].
  - apply list.Forall_cons in Hl as [Hx Hl]. rewrite fmap_cons in *. cbn [concat] in *. apply Forall_app in Hf as [Hfx Hf].
    destruct (process_run path x c Hp Hx Hfx Hw) as (c1 & k & E & Hp1 & Hw1 & Hd1 & Hs1). erewrite bind_run by exact E.
    destruct (IH c1 Hp1 Hl Hf Hw1) as (c2 & ts & E2 & Hd2 & Hsub & Hs2). exists c2, (take k (decoded x) ++ ts). split; [exact E2|].
    split; [by rewrite Hd2, Hd1, fmap_app, concat_app, <- app_assoc|]. split; [by apply sublist_app; [apply sublist_take|]|].
    intros Hm Ha. destruct (Hs1 Hm Ha) as (Hk & Hm1 & Ha1). rewrite take_ge by done. by rewrite Hs2.
Qed.


(** [uint32_pack] writes what [uint32_size] promises, and every reader of
    numbers to the base 128 reads it back, whatever follows. *)
Theorem uint32_pack_roundtrip v out rest : 0 <= v < 2 ^ 32 -> uint32_size v <= zlen out ->
  exists out', uint32_pack v out = Done (uint32_size v, out') /\ zlen out' = zlen out /\
    read_varint 5 (take (Z.to_nat (uint32_size v)) out' ++ rest) = Some (v, rest).
Proof.
  intros Hv Ho. rewrite uint32_size_bytes in * by done. unfold uint32_pack. rewrite wr_head by (unfold zlen in Ho; lia).
  eexists. split; [done|]. split; [rewrite zlen_app; unfold zlen in *; rewrite length_drop; lia|].
  rewrite to_nat_zlen, take_app_length, uint32_varint by done.
  apply read_varint_varint. change (128 ^ (Z.of_nat 4 + 1)) with 34359738368. lia.
Qed.
End delivery.

(** ** Runs *)

Definition sample_captured : captured :=
  {| cap_header := {| ts_sec := 1; ts_usec := 2; caplen := 414; len := 414 |}; cap_packet := sample_frame;
     cap_ifname := cstr "wlan0"; cap_id := cstr "id" |}.
Definition sample_pipe (answers : list Z) : protobuf_context :=
  {| pc_params := Some (cstr "/tmp/pipe"); pc_pipe := {| pipe_fd := 0; pipe_data := []; pipe_closed := []; opens := []; writes := answers |};
     pc_env := Env [] [] |}.

Definition tuple_fitsb (t : tuple_packet) : bool :=
  (zlen (payload_of (PB := wire_format) t) <? 2 ^ 32) && (zlen (wrapper_of (PB := wire_format) t) <? 2 ^ 32).
Lemma tuples_fit l : forallb tuple_fitsb l = true -> Forall (tuple_fits (PB := wire_format)) l.
Proof.
  induction l as [|t l IH]; [constructor|]. cbn [forallb]. unfold tuple_fitsb at 1. rewrite !andb_true_iff, !Z.ltb_lt. intros [Ht Hl].
  constructor; [exact Ht|auto].
Qed.
Lemma sample_captured_ok : captured_ok sample_captured.
Proof. split; apply (bool_decide_unpack _); by vm_compute. Qed.


Lemma uint32_pack_roundtrip_witness : exists out', uint32_pack 300 (zeros 5) = Done (2, out') /\ read_varint 5 (take 2 out' ++ [7]) = Some (300, [7]).
Proof. destruct (uint32_pack_roundtrip 300 (zeros 5) [7]) as (out' & E & _ & Hr); [lia|by vm_compute|]. exists out'. done. Defined.

(** A write of which the pipe takes a part is taken for a complete one: the rest
    is lost, every packet is reported as processed, and what follows can no
    longer be read. *)
Theorem short_write_breaks_stream : exists c', process_packets (PB := wire_format) [sample_captured; sample_captured] (sample_pipe [20]) = Done (tt, c') /\
  read_stream (PB := wire_format) (pipe_data (pc_pipe c')) = None.
Proof. eexists. split; [vm_compute; reflexivity|]. by vm_compute. Qed.

(** A middleware that is freed before it has written anything closes descriptor
    0, which it has not opened. *)
Theorem free_closes_descriptor_0 params p e : mallocs e = [] -> exists c e', init_protobuf_middleware params p e = Done (Some c, e') /\
  pipe_closed (free_protobuf_middleware c) = 0 :: pipe_closed p.
Proof. destruct e as [ms r]. cbn. intros ->. by eexists _, _. Qed.
Lemma free_closes_descriptor_0_witness : exists c e', init_protobuf_middleware None (pc_pipe (sample_pipe [])) (Env [] []) = Done (Some c, e') /\
  pipe_closed (free_protobuf_middleware c) = [0].
Proof. apply (free_closes_descriptor_0 None (pc_pipe (sample_pipe [])) (Env [] [])). done. Defined.
