(* ===== verification/Capture.v ===== *)
(** The header middleware of the capture service: [packet_queue.c],
    [sqlite_header.c] and [header_middleware.c] of
    [src/capture/middlewares/header_middleware].

    A captured packet is decoded ([Decoder]) and its tuples are put in a queue;
    a timer takes them out again and writes one row for each into the table of
    its protocol.  A statement is modelled with its text: the columns of the
    table, the parameters of the insertion in their order, and the values bound
    to them by name.  The theorems: every row that is written has the types of
    the columns; the timer empties the queue, whatever the database does, and
    sets itself again; and a packet that was captured is, after the timer has
    run, in the tables, one row for each of its layers. *)
From stdpp Require Import strings numbers base list gmap.
From Stdlib Require Import ZArith Lia.
From S2P Require Import Prelude Os Text Net Extern Queue Reldb Mappers Decoder.

(** ** Tables ([sqlite_header.h]) *)

Inductive column_type := INTEGER | TEXT.
Record create_table := { ct_table : table; ct_columns : list (string * column_type) }.

Definition ETH_CREATE_TABLE : create_table :=
  {| ct_table := {| t_name := cstr "eth"; t_key := [0; 1]%nat; t_not_null := [0; 1]%nat |};
     ct_columns := [("timestamp", INTEGER); ("id", TEXT); ("caplen", INTEGER); ("length", INTEGER); ("ifname", TEXT);
       ("ether_dhost", TEXT); ("ether_shost", TEXT); ("ether_type", INTEGER)] |}.
Definition ARP_CREATE_TABLE : create_table :=
  {| ct_table := {| t_name := cstr "arp"; t_key := [0%nat]; t_not_null := [] |};
     ct_columns := [("id", TEXT); ("ar_hrd", INTEGER); ("ar_pro", INTEGER); ("ar_hln", INTEGER); ("ar_pln", INTEGER);
       ("ar_op", INTEGER); ("arp_sha", TEXT); ("arp_spa", TEXT); ("arp_tha", TEXT); ("arp_tpa", TEXT)] |}.
Definition IP4_CREATE_TABLE : create_table :=
  {| ct_table := {| t_name := cstr "ip4"; t_key := [0%nat]; t_not_null := [0%nat] |};
     ct_columns := [("id", TEXT); ("ip_hl", INTEGER); ("ip_v", INTEGER); ("ip_tos", INTEGER); ("ip_len", INTEGER);
       ("ip_id", INTEGER); ("ip_off", INTEGER); ("ip_ttl", INTEGER); ("ip_p", INTEGER);
       ("ip_sum", INTEGER); ("ip_src", TEXT); ("ip_dst", TEXT)] |}.
Definition IP6_CREATE_TABLE : create_table :=
  {| ct_table := {| t_name := cstr "ip6"; t_key := [0%nat]; t_not_null := [0%nat] |};
     ct_columns := [("id", TEXT); ("ip6_un1_flow", INTEGER); ("ip6_un1_plen", INTEGER); ("ip6_un1_nxt", INTEGER);
       ("ip6_un1_hlim", INTEGER); ("ip6_un2_vfc", INTEGER); ("ip6_src", TEXT); ("ip6_dst", TEXT)] |}.
Definition TCP_CREATE_TABLE : create_table :=
  {| ct_table := {| t_name := cstr "tcp"; t_key := [0%nat]; t_not_null := [0%nat] |};
     ct_columns := [("id", TEXT); ("source", INTEGER); ("dest", INTEGER); ("seq", INTEGER); ("ack_seq", INTEGER);
       ("res1", INTEGER); ("doff", INTEGER); ("fin", INTEGER); ("syn", INTEGER); ("rst", INTEGER);
       ("psh", INTEGER); ("ack", INTEGER); ("urg", INTEGER); ("window", INTEGER); ("check_p", INTEGER);
       ("urg_ptr", INTEGER)] |}.
Definition UDP_CREATE_TABLE : create_table :=
  {| ct_table := {| t_name := cstr "udp"; t_key := [0%nat]; t_not_null := [0%nat] |};
     ct_columns := [("id", TEXT); ("source", INTEGER); ("dest", INTEGER); ("len", INTEGER); ("check_p", INTEGER)] |}.
Definition ICMP4_CREATE_TABLE : create_table :=
  {| ct_table := {| t_name := cstr "icmp4"; t_key := [0%nat]; t_not_null := [0%nat] |};
     ct_columns := [("id", TEXT); ("type", INTEGER); ("code", INTEGER); ("checksum", INTEGER); ("gateway", INTEGER)] |}.
Definition ICMP6_CREATE_TABLE : create_table :=
  {| ct_table := {| t_name := cstr "icmp6"; t_key := [0%nat]; t_not_null := [0%nat] |};
     ct_columns := [("id", TEXT); ("icmp6_type", INTEGER); ("icmp6_code", INTEGER); ("icmp6_cksum", INTEGER);
       ("icmp6_un_data32", INTEGER)] |}.
Definition DNS_CREATE_TABLE : create_table :=
  {| ct_table := {| t_name := cstr "dns"; t_key := [0%nat]; t_not_null := [0%nat] |};
     ct_columns := [("id", TEXT); ("tid", INTEGER); ("flags", INTEGER); ("nqueries", INTEGER); ("nanswers", INTEGER);
       ("nauth", INTEGER); ("nother", INTEGER); ("qname", TEXT)] |}.
Definition MDNS_CREATE_TABLE : create_table :=
  {| ct_table := {| t_name := cstr "mdns"; t_key := [0%nat]; t_not_null := [0%nat] |};
     ct_columns := [("id", TEXT); ("tid", INTEGER); ("flags", INTEGER); ("nqueries", INTEGER); ("nanswers", INTEGER);
       ("nauth", INTEGER); ("nother", INTEGER); ("qname", TEXT)] |}.
Definition DHCP_CREATE_TABLE : create_table :=
  {| ct_table := {| t_name := cstr "dhcp"; t_key := [0%nat]; t_not_null := [0%nat] |};
     ct_columns := [("id", TEXT); ("op", INTEGER); ("htype", INTEGER); ("hlen", INTEGER); ("hops", INTEGER);
       ("xid", INTEGER); ("secs", INTEGER); ("flags", INTEGER); ("ciaddr", TEXT); ("yiaddr", TEXT);
       ("siaddr", TEXT); ("giaddr", TEXT); ("chaddr", TEXT)] |}.

Definition ETH_INSERT_INTO : list string :=
  ["timestamp"; "id"; "caplen"; "length"; "ifname"; "ether_dhost"; "ether_shost"; "ether_type"].
Definition ARP_INSERT_INTO : list string :=
  ["id"; "ar_hrd"; "ar_pro"; "ar_hln"; "ar_pln"; "ar_op"; "arp_sha"; "arp_spa"; "arp_tha"; "arp_tpa"].
Definition IP4_INSERT_INTO : list string :=
  ["id"; "ip_hl"; "ip_v"; "ip_tos"; "ip_len"; "ip_id"; "ip_off"; "ip_ttl"; "ip_p"; "ip_sum"; "ip_src";
   "ip_dst"].
Definition IP6_INSERT_INTO : list string :=
  ["id"; "ip6_un1_flow"; "ip6_un1_plen"; "ip6_un1_nxt"; "ip6_un1_hlim"; "ip6_un2_vfc"; "ip6_src"; "ip6_dst"].
Definition TCP_INSERT_INTO : list string :=
  ["id"; "source"; "dest"; "seq"; "ack_seq"; "res1"; "doff"; "fin"; "syn"; "rst"; "psh"; "ack"; "urg";
   "window"; "check_p"; "urg_ptr"].
Definition UDP_INSERT_INTO : list string :=
  ["id"; "source"; "dest"; "len"; "check_p"].
Definition ICMP4_INSERT_INTO : list string :=
  ["id"; "type"; "code"; "checksum"; "gateway"].
Definition ICMP6_INSERT_INTO : list string :=
  ["id"; "icmp6_type"; "icmp6_code"; "icmp6_cksum"; "icmp6_un_data32"].
Definition DNS_INSERT_INTO : list string :=
  ["id"; "tid"; "flags"; "nqueries"; "nanswers"; "nauth"; "nother"; "qname"].
Definition MDNS_INSERT_INTO : list string :=
  ["id"; "tid"; "flags"; "nqueries"; "nanswers"; "nauth"; "nother"; "qname"].
Definition DHCP_INSERT_INTO : list string :=
  ["id"; "op"; "htype"; "hlen"; "hops"; "xid"; "secs"; "flags"; "ciaddr"; "yiaddr"; "siaddr"; "giaddr";
   "chaddr"].
(** ** Statements ([sqlite_header.c]) *)

(** A value for a parameter, and whether the code looks at the result of
    binding it. *)
Record binding := { b_param : string; b_cell : cell; b_checked : bool }.
Definition int (p : string) (v : Z) : binding := {| b_param := p; b_cell := CInt (s64 v); b_checked := false |}.
Definition checked_int (p : string) (v : Z) : binding := {| b_param := p; b_cell := CInt (s64 v); b_checked := true |}.
Definition text (p : string) (v : list Z) : binding := {| b_param := p; b_cell := CText v; b_checked := false |}.

Section header_db.
Context {DB : Reldb}.

Definition on_db {A} (f : rdb -> A * rdb) : prog rdb A := fun d => Done ((f d).1, (f d).2).

(** Binds the values one by one: [None] when a checked one fails.  A parameter
    that the statement does not have cannot be bound. *)
Fixpoint bind_params (params : list string) (bs : list binding) (bound : list (string * cell)) :
    prog rdb (option (list (string * cell))) :=
  match bs with
  | [] => mret (Some bound)
  | b :: rest =>
      done ← on_db rdb_bind;
      let ok := done && bool_decide (b_param b ∈ params) in
      if ok then bind_params params rest ((b_param b, b_cell b) :: bound)
      else if b_checked b then mret None
      else bind_params params rest bound
  end.

(** The row that is inserted: a parameter without a value is NULL. *)
Definition bound_row (params : list string) (bound : list (string * cell)) : row :=
  (fun p => default CNull (snd <$> head (filter (fun x => x.1 = p) bound))) <$> params.

(** The result of the step is not looked at; a checked value that cannot be
    bound makes the function return [false], which is 0. *)
Definition insert_statement (t : table) (params : list string) (bs : list binding) : prog rdb Z :=
  ok ← on_db (rdb_prepare t);
  if negb ok then mret (-1)
  else
    o ← bind_params params bs [];
    match o with
    | None => mret 0
    | Some bound => _ ← on_db (rdb_insert t (bound_row params bound)); mret 0
    end.

Definition eth_binds (eths : eth_schema) : list binding :=
  [checked_int "timestamp" (eth_timestamp eths); text "id" (eth_id eths);
     checked_int "caplen" (eth_caplen eths); checked_int "length" (eth_length eths);
     text "ifname" (eth_ifname eths); text "ether_dhost" (ether_dhost eths);
     text "ether_shost" (ether_shost eths); int "ether_type" (ether_type eths)].
Definition extract_eth_statement (eths : eth_schema) : prog rdb Z :=
  insert_statement (ct_table ETH_CREATE_TABLE) ETH_INSERT_INTO (eth_binds eths).
Definition arp_binds (arps : arp_schema) : list binding :=
  [text "id" (arp_id arps); int "ar_hrd" (ar_hrd arps); int "ar_pro" (ar_pro arps);
     int "ar_hln" (ar_hln arps); int "ar_pln" (ar_pln arps); int "ar_op" (ar_op arps);
     text "arp_sha" (arp_sha arps); text "arp_spa" (arp_spa arps); text "arp_tha" (arp_tha arps);
     text "arp_tpa" (arp_tpa arps)].
Definition extract_arp_statement (arps : arp_schema) : prog rdb Z :=
  insert_statement (ct_table ARP_CREATE_TABLE) ARP_INSERT_INTO (arp_binds arps).
Definition ip4_binds (ip4s : ip4_schema) : list binding :=
  [text "id" (ip4_id ip4s); int "ip_hl" (ip_hl ip4s); int "ip_v" (ip_v ip4s); int "ip_tos" (ip_tos ip4s);
     int "ip_len" (ip_len ip4s); int "ip_id" (ip_id ip4s); int "ip_off" (ip_off ip4s);
     int "ip_ttl" (ip_ttl ip4s); int "ip_p" (ip_p ip4s); int "ip_sum" (ip_sum ip4s);
     text "ip_src" (ip_src ip4s); text "ip_dst" (ip_dst ip4s)].
Definition extract_ip4_statement (ip4s : ip4_schema) : prog rdb Z :=
  insert_statement (ct_table IP4_CREATE_TABLE) IP4_INSERT_INTO (ip4_binds ip4s).
Definition ip6_binds (ip6s : ip6_schema) : list binding :=
  [text "id" (ip6_id ip6s); int "ip6_un1_flow" (ip6_un1_flow ip6s);
     int "ip6_un1_plen" (ip6_un1_plen ip6s); int "ip6_un1_nxt" (ip6_un1_nxt ip6s);
     int "ip6_un1_hlim" (ip6_un1_hlim ip6s); int "ip6_un2_vfc" (ip6_un2_vfc ip6s);
     text "ip6_src" (ip6_src ip6s); text "ip6_dst" (ip6_dst ip6s)].
Definition extract_ip6_statement (ip6s : ip6_schema) : prog rdb Z :=
  insert_statement (ct_table IP6_CREATE_TABLE) IP6_INSERT_INTO (ip6_binds ip6s).
Definition tcp_binds (tcps : tcp_schema) : list binding :=
  [text "id" (tcp_id tcps); int "source" (tcp_source tcps); int "dest" (tcp_dest tcps);
     int "seq" (seq_nr tcps); int "ack_seq" (ack_seq tcps); int "res1" (res1 tcps); int "doff" (doff tcps);
     int "fin" (fin tcps); int "syn" (syn tcps); int "rst" (rst tcps); int "psh" (psh tcps);
     int "ack" (ack tcps); int "urg" (urg tcps); int "window" (window tcps);
     int "check_p" (tcp_check tcps); int "urg_ptr" (urg_ptr tcps)].
Definition extract_tcp_statement (tcps : tcp_schema) : prog rdb Z :=
  insert_statement (ct_table TCP_CREATE_TABLE) TCP_INSERT_INTO (tcp_binds tcps).
Definition udp_binds (udps : udp_schema) : list binding :=
  [text "id" (udp_id udps); int "source" (udp_source udps); int "dest" (udp_dest udps);
     int "len" (udp_len udps); int "check_p" (udp_check udps)].
Definition extract_udp_statement (udps : udp_schema) : prog rdb Z :=
  insert_statement (ct_table UDP_CREATE_TABLE) UDP_INSERT_INTO (udp_binds udps).
Definition icmp4_binds (icmp4s : icmp4_schema) : list binding :=
  [text "id" (icmp4_id icmp4s); int "type" (icmp4_type icmp4s); int "code" (icmp4_code icmp4s);
     int "checksum" (icmp4_checksum icmp4s); int "gateway" (icmp4_gateway icmp4s)].
Definition extract_icmp4_statement (icmp4s : icmp4_schema) : prog rdb Z :=
  insert_statement (ct_table ICMP4_CREATE_TABLE) ICMP4_INSERT_INTO (icmp4_binds icmp4s).
Definition icmp6_binds (icmp6s : icmp6_schema) : list binding :=
  [text "id" (icmp6_id icmp6s); int "icmp6_type" (icmp6_type icmp6s);
     int "icmp6_code" (icmp6_code icmp6s); int "icmp6_cksum" (icmp6_cksum icmp6s);
     int "icmp6_un_data32" (icmp6_un_data32 icmp6s)].
Definition extract_icmp6_statement (icmp6s : icmp6_schema) : prog rdb Z :=
  insert_statement (ct_table ICMP6_CREATE_TABLE) ICMP6_INSERT_INTO (icmp6_binds icmp6s).
Definition dns_binds (dnss : dns_schema) : list binding :=
  [text "id" (dns_id dnss); int "tid" (dns_tid dnss); int "flags" (dns_flags dnss);
     int "nqueries" (dns_nqueries dnss); int "nanswers" (dns_nanswers dnss); int "nauth" (dns_nauth dnss);
     int "nother" (dns_nother dnss); text "qname" (dns_qname dnss)].
Definition extract_dns_statement (dnss : dns_schema) : prog rdb Z :=
  insert_statement (ct_table DNS_CREATE_TABLE) DNS_INSERT_INTO (dns_binds dnss).
Definition mdns_binds (mdnss : mdns_schema) : list binding :=
  [text "id" (mdns_id mdnss); int "tid" (mdns_tid mdnss); int "flags" (mdns_flags mdnss);
     int "nqueries" (mdns_nqueries mdnss); int "nanswers" (mdns_nanswers mdnss);
     int "nauth" (mdns_nauth mdnss); int "nother" (mdns_nother mdnss); text "qname" (mdns_qname mdnss)].
Definition extract_mdsn_statement (mdnss : mdns_schema) : prog rdb Z :=
  insert_statement (ct_table MDNS_CREATE_TABLE) MDNS_INSERT_INTO (mdns_binds mdnss).
Definition dhcp_binds (dhcps : dhcp_schema) : list binding :=
  [text "id" (dhcp_id dhcps); int "op" (dhcp_op dhcps); int "htype" (dhcp_htype dhcps);
     int "hlen" (dhcp_hlen dhcps); int "hops" (dhcp_hops dhcps); int "xid" (dhcp_xid dhcps);
     int "secs" (dhcp_secs dhcps); int "flags" (dhcp_flags dhcps); text "ciaddr" (dhcp_ciaddr dhcps);
     text "yiaddr" (dhcp_yiaddr dhcps); text "siaddr" (dhcp_siaddr dhcps);
     text "giaddr" (dhcp_giaddr dhcps); text "chaddr" (dhcp_chaddr dhcps)].
Definition extract_dhcp_statement (dhcps : dhcp_schema) : prog rdb Z :=
  insert_statement (ct_table DHCP_CREATE_TABLE) DHCP_INSERT_INTO (dhcp_binds dhcps).

Definition save_packet_statement (tp : tuple_packet) : prog rdb Z :=
  match tp with
  | PACKET_ETHERNET s => extract_eth_statement s
  | PACKET_ARP s => extract_arp_statement s
  | PACKET_IP4 s => extract_ip4_statement s
  | PACKET_IP6 s => extract_ip6_statement s
  | PACKET_TCP s => extract_tcp_statement s
  | PACKET_UDP s => extract_udp_statement s
  | PACKET_ICMP4 s => extract_icmp4_statement s
  | PACKET_ICMP6 s => extract_icmp6_statement s
  | PACKET_DNS s => extract_dns_statement s
  | PACKET_MDNS s => extract_mdsn_statement s
  | PACKET_DHCP s => extract_dhcp_statement s
  end.

Definition header_tables : list create_table :=
  [ETH_CREATE_TABLE; ARP_CREATE_TABLE; IP4_CREATE_TABLE; IP6_CREATE_TABLE; TCP_CREATE_TABLE;
   UDP_CREATE_TABLE; ICMP4_CREATE_TABLE; ICMP6_CREATE_TABLE; DNS_CREATE_TABLE; MDNS_CREATE_TABLE;
   DHCP_CREATE_TABLE].

Fixpoint create_tables (l : list create_table) : prog rdb Z :=
  match l with
  | [] => mret 0
  | c :: rest => ok ← on_db (rdb_create (ct_table c)); if negb ok then mret (-1) else create_tables rest
  end.
Definition init_sqlite_header_db : prog rdb Z := create_tables header_tables.
End header_db.

(** ** The queue ([packet_queue.c]) *)

Section packet_queue.
Context {PQ : DlList tuple_packet}.
#[local] Abbreviation packet_queue := (@dl_list _ PQ).

Definition init_packet_queue : prog env (option packet_queue) :=
  ok ← malloc; mret (if (ok : bool) then Some dl_list_init else None).

(** Whether an element was added, and the queue. *)
Definition push_packet_queue (queue : option packet_queue) (tp : tuple_packet) : prog env (bool * option packet_queue) :=
  match queue with
  | None => mret (false, None)
  | Some q =>
      el ← init_packet_queue;
      match el with
      | None => mret (false, queue)
      | Some _ => mret (true, Some (push_tail tp q))
      end
  end.

(** The first element; it stays in the queue until it is freed. *)
Definition pop_packet_queue (queue : option packet_queue) : option (nat * tuple_packet) :=
  match queue with None => None | Some q => dl_list_first q end.

Definition free_packet_queue_el (p : nat) (q : packet_queue) : outcome packet_queue := free_node p q.

Definition free_packet_queue (q : packet_queue) : outcome packet_queue := free_all_nodes (length (dl_nodes q)) q.

Definition get_packet_queue_length (queue : option packet_queue) : Z :=
  match queue with None => 0 | Some q => zlen (dl_nodes q) end.

Definition is_packet_queue_empty (queue : option packet_queue) : Z :=
  match queue with None => -1 | Some q => if bool_decide (dl_nodes q = []) then 1 else 0 end.
End packet_queue.

(** ** The middleware ([header_middleware.c]) *)

(** The timers of the middlewares; intervals are in microseconds. *)
Inductive capture_timer := eloop_tout_header | eloop_tout_pcap | eloop_tout_cleaner.
#[export] Instance capture_timer_eq : EqDecision capture_timer.
Proof. solve_decision. Defined.
Definition HEADER_PROCESS_INTERVAL : Z := 10 * 1000.

Section header_middleware.
Context {DB : Reldb} {PQ : DlList tuple_packet} {CT : Eloop capture_timer}.

(** The context with what it points to; the queue is NULL before it was made. *)
Record header_context := {
  hc_db : rdb;
  hc_queue : option (@dl_list _ PQ);
  hc_eloop : @eloop _ _ CT;
  hc_env : env
}.
#[local] Abbreviation Hm := (prog header_context).

Definition hm_db {A} (m : prog rdb A) : Hm A := fun c =>
  match m (hc_db c) with
  | Fault f => Fault f
  | Done (a, d) => Done (a, {| hc_db := d; hc_queue := hc_queue c; hc_eloop := hc_eloop c; hc_env := hc_env c |})
  end.
Definition hm_env {A} (m : prog env A) : Hm A := fun c =>
  match m (hc_env c) with
  | Fault f => Fault f
  | Done (a, e) => Done (a, {| hc_db := hc_db c; hc_queue := hc_queue c; hc_eloop := hc_eloop c; hc_env := e |})
  end.
Definition hm_queue : Hm (option (@dl_list _ PQ)) := fun c => Done (hc_queue c, c).
Definition set_queue (q : option (@dl_list _ PQ)) : Hm unit := fun c =>
  Done (tt, {| hc_db := hc_db c; hc_queue := q; hc_eloop := hc_eloop c; hc_env := hc_env c |}).
Definition hm_register : Hm Z := fun c =>
  let x := register_timeout HEADER_PROCESS_INTERVAL eloop_tout_header (hc_eloop c) in
  Done (x.1, {| hc_db := hc_db c; hc_queue := hc_queue c; hc_eloop := x.2; hc_env := hc_env c |}).

(** A tuple that cannot be queued is dropped. *)
Fixpoint add_packet_queue (tp_array : list tuple_packet) : Hm unit :=
  match tp_array with
  | [] => mret tt
  | p :: rest =>
      q ← hm_queue;
      x ← hm_env (push_packet_queue q p);
      _ ← set_queue x.2;
      add_packet_queue rest
  end.

(** [is_packet_queue_empty] is less than 1 also when there is no queue, and
    then there is never an element: the loop does not end. *)
Fixpoint drain_queue (fuel : nat) : Hm unit :=
  q ← hm_queue;
  if is_packet_queue_empty q <? 1 then
    match fuel with
    | O => fail_with OutOfFuel
    | S fuel =>
        match q, pop_packet_queue q with
        | Some l, Some el =>
            _ ← hm_db (save_packet_statement el.2);
            l' ← lift_outcome (free_packet_queue_el el.1 l);
            _ ← set_queue (Some l');
            drain_queue fuel
        | _, _ => drain_queue fuel
        end
    end
  else mret tt.

Definition eloop_tout_header_handler : Hm unit :=
  q ← hm_queue;
  match q with
  | None => mret tt
  | Some l =>
      _ ← drain_queue (length (dl_nodes l));
      _ ← hm_register;
      mret tt
  end.

(** Whether the context was made; the allocation of the context is the first
    one.  The context that is left is freed when it was not. *)
Definition init_header_middleware : Hm bool :=
  ok ← hm_env malloc;
  if negb ok then mret false
  else
    q ← hm_env init_packet_queue;
    _ ← set_queue q;
    match q with
    | None => mret false
    | Some l =>
        r ← hm_db init_sqlite_header_db;
        if r <? 0 then _ ← lift_outcome (free_packet_queue l); _ ← set_queue None; mret false
        else
          t ← hm_register;
          if t =? -1 then _ ← lift_outcome (free_packet_queue l); _ ← set_queue None; mret false
          else mret true
    end.

(** [id] is the identifier generated for the packet. *)
Definition process_header_middleware (header : pcap_pkthdr) (packet ifname id : list Z) : Hm Z :=
  q ← hm_queue;
  match q with
  | None => mret (-1)
  | Some _ =>
      r ← hm_env (extract_packets header packet ifname id []);
      if r.1 <? 0 then mret 0
      else if 0 <? r.1 then _ ← add_packet_queue r.2; mret 0
      else mret 0
  end.

(** The tuples that are still queued are not freed. *)
Definition free_header_middleware : Hm unit :=
  q ← hm_queue;
  match q with
  | None => mret tt
  | Some l => _ ← lift_outcome (free_packet_queue l); set_queue None
  end.
End header_middleware.

(** ** Types *)

(** What a column of a type may hold. *)
Definition cell_ok (ty : column_type) (c : cell) : Prop :=
  match c, ty with
  | CNull, _ => True
  | CInt z, INTEGER => - 2 ^ 63 <= z < 2 ^ 63
  | CText _, TEXT => True
  | _, _ => False
  end.
Definition typed_row (ct : create_table) (r : row) : Prop := Forall2 (fun col c => cell_ok col.2 c) (ct_columns ct) r.
Definition typed (T : gmap (list Z) (list row)) : Prop :=
  forall ct l, ct ∈ header_tables -> T !! t_name (ct_table ct) = Some l -> Forall (typed_row ct) l.

(** What a tuple is stored as. *)
Definition tuple_table (tp : tuple_packet) : create_table :=
  match tp with
  | PACKET_ETHERNET _ => ETH_CREATE_TABLE | PACKET_ARP _ => ARP_CREATE_TABLE | PACKET_IP4 _ => IP4_CREATE_TABLE
  | PACKET_IP6 _ => IP6_CREATE_TABLE | PACKET_TCP _ => TCP_CREATE_TABLE | PACKET_UDP _ => UDP_CREATE_TABLE
  | PACKET_ICMP4 _ => ICMP4_CREATE_TABLE | PACKET_ICMP6 _ => ICMP6_CREATE_TABLE | PACKET_DNS _ => DNS_CREATE_TABLE
  | PACKET_MDNS _ => MDNS_CREATE_TABLE | PACKET_DHCP _ => DHCP_CREATE_TABLE
  end.
Definition tuple_binds (tp : tuple_packet) : list binding :=
  match tp with
  | PACKET_ETHERNET s => eth_binds s | PACKET_ARP s => arp_binds s | PACKET_IP4 s => ip4_binds s
  | PACKET_IP6 s => ip6_binds s | PACKET_TCP s => tcp_binds s | PACKET_UDP s => udp_binds s
  | PACKET_ICMP4 s => icmp4_binds s | PACKET_ICMP6 s => icmp6_binds s | PACKET_DNS s => dns_binds s
  | PACKET_MDNS s => mdns_binds s | PACKET_DHCP s => dhcp_binds s
  end.
Definition tuple_row (tp : tuple_packet) : row := b_cell <$> tuple_binds tp.
Definition tuple_name (tp : tuple_packet) : list Z := t_name (ct_table (tuple_table tp)).

(** Every statement binds a value to each of its parameters, in their order,
    and the parameters are the columns of the table. *)
Lemma save_statement {DB : Reldb} tp :
  save_packet_statement tp =
    insert_statement (ct_table (tuple_table tp)) (ct_columns (tuple_table tp)).*1 (tuple_binds tp).
Proof. by destruct tp. Qed.

Lemma tuple_params tp : b_param <$> tuple_binds tp = (ct_columns (tuple_table tp)).*1.
Proof. by destruct tp. Qed.

Lemma tuple_binds_ok tp : Forall2 (fun col b => cell_ok col.2 (b_cell b)) (ct_columns (tuple_table tp)) (tuple_binds tp).
Proof.
  assert (forall v, cell_ok INTEGER (CInt (s64 v))) as Hs.
  { intros v. unfold cell_ok, s64. pose proof (Z.mod_pos_bound (v + 2 ^ 63) (2 ^ 64)). lia. }
  destruct tp; repeat (constructor; [apply Hs || done|]); constructor.
Qed.

Lemma columns_NoDup ct : ct ∈ header_tables -> NoDup (ct_columns ct).*1.
Proof.
  intros H. assert (Forall (fun ct => NoDup (ct_columns ct).*1) header_tables) as Hf
    by (apply (bool_decide_unpack _); vm_compute; exact I).
  rewrite Forall_forall in Hf. by apply Hf.
Qed.

Lemma table_names ct ct' : ct ∈ header_tables -> ct' ∈ header_tables -> t_name (ct_table ct) = t_name (ct_table ct') -> ct = ct'.
Proof.
  intros H H' E. assert (NoDup ((fun ct => t_name (ct_table ct)) <$> header_tables)) as Hd
    by (apply (bool_decide_unpack _); vm_compute; exact I).
  apply list_elem_of_lookup in H as [i Hi], H' as [j Hj].
  assert (i = j) as ->; [|congruence].
  apply (NoDup_lookup _ i j (t_name (ct_table ct)) Hd); rewrite list_lookup_fmap, ?Hi, ?Hj; cbn; [done|by rewrite E].
Qed.

Lemma tuple_table_in tp : tuple_table tp ∈ header_tables.
Proof. destruct tp; cbn; unfold header_tables; set_solver. Qed.

Section header_proofs.
Context {DB : Reldb}.

(** What has been bound is among what was to be bound. *)
Lemma bind_params_any params bs : forall bound d, exists o d', bind_params params bs bound d = Done (o, d') /\ rtables d' = rtables d /\
  forall l, o = Some l -> Forall (fun x => x ∈ bound \/ exists b, b ∈ bs /\ x = (b_param b, b_cell b)) l.
Proof.
  induction bs as [|b bs IH]; intros bound d; cbn [bind_params].
  - exists (Some bound), d. split; [done|]. split; [done|]. intros l [= <-]. apply Forall_forall. auto.
  - erewrite bind_run by done. cbv beta zeta. set (ok := _ && _).
    assert (forall bound', (forall x, x ∈ bound' -> x ∈ bound \/ x = (b_param b, b_cell b)) -> exists o d',
      bind_params params bs bound' (rdb_bind d).2 = Done (o, d') /\ rtables d' = rtables d /\
      forall l, o = Some l -> Forall (fun x => x ∈ bound \/ exists b', b' ∈ b :: bs /\ x = (b_param b', b_cell b')) l) as Hgo.
    { intros bound' Hb. destruct (IH bound' (rdb_bind d).2) as (o & d' & E & Hd & Hl). exists o, d'. split; [done|].
      rewrite Hd, bind_rows. split; [done|]. intros l Ho. eapply Forall_impl; [by apply Hl|].
      intros x [Hx|(b' & Hin & ->)]; [|right; exists b'; set_solver]. destruct (Hb x Hx) as [?| ->]; [by left|right; exists b; set_solver]. }
    destruct ok; [apply Hgo; set_solver|]. destruct (b_checked b); [|apply Hgo; auto].
    exists None, (rdb_bind d).2. rewrite bind_rows. by split.
Qed.

(** A value that belongs to a column is one of its type. *)
Lemma bound_row_typed ct bs l : Forall2 (fun col b => cell_ok col.2 (b_cell b)) (ct_columns ct) bs ->
  b_param <$> bs = (ct_columns ct).*1 -> NoDup (ct_columns ct).*1 ->
  Forall (fun x => x ∈ [] \/ exists b, b ∈ bs /\ x = (b_param b, b_cell b)) l -> typed_row ct (bound_row (ct_columns ct).*1 l).
Proof.
  intros Hok Hp Hnd Hl. unfold typed_row, bound_row. rewrite Forall_forall in Hl.
  apply Forall2_fmap_r, Forall2_fmap_r, Forall_Forall2_diag, Forall_forall.
  intros [p ty] Hcol. change (cell_ok ty (default CNull (snd <$> head (filter (fun x : string * cell => x.1 = p) l)))).
  destruct (head (filter (fun x : string * cell => x.1 = p) l)) as [[q c]|] eqn:Hh; [|exact I].
  cbn. destruct (filter (fun x : string * cell => x.1 = p) l) as [|y rest] eqn:Hf; [done|]. injection Hh as ->.
  assert ((q, c) ∈ filter (fun x : string * cell => x.1 = p) l) as Hin by (rewrite Hf; left).
  apply list_elem_of_filter in Hin as [Hq Hin]. cbn in Hq. subst q.
  destruct (Hl _ Hin) as [H|(b & Hb & [= -> ->])]; [by apply elem_of_nil in H|].
  apply list_elem_of_lookup in Hcol as [i Hi], Hb as [j Hj].
  assert (i = j) as ->.
  { eapply (NoDup_lookup _ _ _ _ Hnd); [by rewrite list_lookup_fmap, Hi|]. by rewrite <- Hp, list_lookup_fmap, Hj. }
  by apply (Forall2_lookup_lr _ _ _ _ _ _ Hok Hi Hj).
Qed.

Lemma save_typed tp d : typed (rtables d) -> exists r d', save_packet_statement tp d = Done (r, d') /\ typed (rtables d').
Proof.
  intros Ht. rewrite save_statement. unfold insert_statement. erewrite bind_run by done. cbv beta.
  destruct (rdb_prepare _ d).1; cbn [negb]; [|eexists _, _; split; [done|by rewrite prepare_rows]].
  destruct (bind_params_any (ct_columns (tuple_table tp)).*1 (tuple_binds tp) [] (rdb_prepare (ct_table (tuple_table tp)) d).2)
    as (o & d' & E & Hd & Hl).
  erewrite bind_run by exact E. rewrite prepare_rows in Hd. destruct o as [l|]; [|eexists _, _; split; [done|by rewrite Hd]].
  erewrite bind_run by done. eexists _, _. split; [done|]. pose proof (insert_rows (ct_table (tuple_table tp)) (bound_row (ct_columns (tuple_table tp)).*1 l) d') as Hi.
  cbv zeta in Hi. destruct (rdb_insert _ _ _).1; [|by rewrite Hi, Hd]. destruct Hi as (rows & Hr & _ & ->). rewrite Hd in *.
  intros ct rows' Hct. rewrite lookup_insert_Some. intros [[Hn <-]|[_ H]]; [|by eapply Ht].
  apply table_names in Hn as <-; [|apply tuple_table_in|done]. apply Forall_app. split; [by eapply Ht|]. apply Forall_singleton.
  apply (bound_row_typed _ (tuple_binds tp)); [apply tuple_binds_ok|apply tuple_params|by apply columns_NoDup|by apply Hl].
Qed.

(** In a database in order everything is bound. *)
Lemma bind_params_ok params bs : forall bound d, rdb_ok d -> Forall (fun b => b_param b ∈ params) bs -> exists d',
  bind_params params bs bound d = Done (Some (reverse ((fun b => (b_param b, b_cell b)) <$> bs) ++ bound), d') /\
  rtables d' = rtables d /\ rdb_ok d'.
Proof.
  induction bs as [|b bs IH]; intros bound d Hok Hb; cbn [bind_params]; [by exists d|].
  apply list.Forall_cons in Hb as [Hp Hb]. destruct (bind_ok d Hok) as [Hbind Hok'].
  erewrite bind_run by done. cbv beta zeta. rewrite Hbind, bool_decide_true by done. cbn [andb].
  destruct (IH ((b_param b, b_cell b) :: bound) (rdb_bind d).2 Hok' Hb) as (d' & E & Hd & Hok2).
  exists d'. rewrite E, fmap_cons, reverse_cons, <- app_assoc. split; [done|]. by rewrite Hd, bind_rows.
Qed.

Lemma bound_row_full tp :
  bound_row (ct_columns (tuple_table tp)).*1 (reverse ((fun b => (b_param b, b_cell b)) <$> tuple_binds tp) ++ []) = tuple_row tp.
Proof. destruct tp; reflexivity. Qed.

Lemma save_packet_run tp d l : rdb_ok d -> rtables d !! tuple_name tp = Some l -> fits (ct_table (tuple_table tp)) l (tuple_row tp) ->
  exists d', save_packet_statement tp d = Done (0, d') /\ rdb_ok d' /\
    rtables d' = <[tuple_name tp := l ++ [tuple_row tp]]> (rtables d).
Proof.
  intros Hok Hl Hf. rewrite save_statement. unfold insert_statement. destruct (prepare_ok (ct_table (tuple_table tp)) d Hok) as [Hp Hok1];
    [by exists l|].
  erewrite bind_run by done. cbv beta. rewrite Hp. cbn [negb].
  destruct (bind_params_ok (ct_columns (tuple_table tp)).*1 (tuple_binds tp) [] _ Hok1) as (d1 & E & Hd1 & Hok2).
  { apply Forall_forall. intros b Hb. rewrite <- tuple_params. by apply list_elem_of_fmap_2. }
  erewrite bind_run by exact E. cbn beta iota. rewrite prepare_rows in Hd1. erewrite bind_run by done. eexists. split; [done|].
  rewrite bound_row_full. destruct (insert_ok (ct_table (tuple_table tp)) (tuple_row tp) d1 Hok2) as [Hi Hok3]. split; [done|].
  pose proof (insert_rows (ct_table (tuple_table tp)) (tuple_row tp) d1) as Hr. cbv zeta in Hr.
  rewrite (Hi l) in Hr by (by rewrite ?Hd1). rewrite Hd1 in Hr. destruct Hr as (l' & Hl' & _ & ->).
  unfold tuple_name in *. congruence.
Qed.

(** ** The queue *)

Context {PQ : DlList tuple_packet} {CT : Eloop capture_timer}.
#[local] Abbreviation ctx := (header_context (DB := DB) (PQ := PQ) (CT := CT)).

(** The rows of a list of tuples, written one after the other. *)
Fixpoint save_all (ts : list tuple_packet) : prog rdb unit :=
  match ts with
  | [] => mret tt
  | t :: rest => _ ← save_packet_statement t; save_all rest
  end.

Definition with_db_queue (d : rdb) (q : option (@dl_list _ PQ)) (c : ctx) : ctx :=
  {| hc_db := d; hc_queue := q; hc_eloop := hc_eloop c; hc_env := hc_env c |}.

Lemma save_total tp d : exists r d', save_packet_statement tp d = Done (r, d').
Proof.
  rewrite save_statement. unfold insert_statement. erewrite bind_run by done. cbv beta.
  destruct (negb _); [by eexists _, _|].
  destruct (bind_params_any (ct_columns (tuple_table tp)).*1 (tuple_binds tp) [] (rdb_prepare (ct_table (tuple_table tp)) d).2)
    as (o & d' & E & _). erewrite bind_run by exact E. destruct o; [erewrite bind_run by done|]; by eexists _, _.
Qed.

(** The loop takes every tuple out, and saves each of them once, in order. *)
Lemma drain_run ts : forall fuel (c : ctx) q, hc_queue c = Some q -> queue_wf q -> queue_items q = ts -> (length ts <= fuel)%nat ->
  exists d q', drain_queue fuel c = Done (tt, with_db_queue d (Some q') c) /\ queue_wf q' /\ queue_items q' = [] /\
    save_all ts (hc_db c) = Done (tt, d).
Proof.
  induction ts as [|t ts IH]; intros fuel c q Hq Hwf Hi Hf.
  - exists (hc_db c), q. split; [|done].
    assert (dl_nodes q = []) as Hn by (unfold queue_items in Hi; by destruct (dl_nodes q)).
    destruct fuel; cbn [drain_queue]; (erewrite bind_run by done); cbv beta; rewrite Hq; unfold is_packet_queue_empty;
      rewrite bool_decide_true by done; destruct c; cbn in *; by subst.
  - destruct fuel as [|fuel]; [cbn in Hf; lia|]. destruct (first_spec q t ts Hwf Hi) as (p & q1 & H1 & H2 & Hwf1 & Hi1).
    cbn [drain_queue]. erewrite bind_run by done. cbv beta. rewrite Hq. unfold is_packet_queue_empty, pop_packet_queue.
    rewrite bool_decide_false by (unfold dl_list_first in H1; by destruct (dl_nodes q)). cbn [Z.ltb Z.compare]. rewrite H1. cbn [fst snd].
    destruct (save_total t (hc_db c)) as (r & d1 & E1). erewrite bind_run by (unfold hm_db; rewrite E1; done). cbv beta.
    unfold free_packet_queue_el. rewrite H2. erewrite bind_run by apply lift_run. cbv beta. erewrite bind_run by done. cbv beta.
    destruct (IH fuel (with_db_queue d1 (Some q1) c) q1 eq_refl Hwf1 Hi1) as (d2 & q2 & E2 & Hwf2 & Hi2 & Hs2); [cbn in Hf; lia|].
    exists d2, q2. split; [exact E2|]. split; [done|]. split; [done|]. cbn [save_all]. by erewrite bind_run by exact E1.
Qed.

(** The whole handler. *)
Lemma header_timer_run (c : ctx) q : hc_queue c = Some q -> queue_wf q ->
  exists d q', eloop_tout_header_handler c =
      Done (tt, {| hc_db := d; hc_queue := Some q';
                   hc_eloop := (register_timeout HEADER_PROCESS_INTERVAL eloop_tout_header (hc_eloop c)).2; hc_env := hc_env c |}) /\
    queue_wf q' /\ queue_items q' = [] /\ save_all (queue_items q) (hc_db c) = Done (tt, d) /\
    let e' := (register_timeout HEADER_PROCESS_INTERVAL eloop_tout_header (hc_eloop c)).2 in
    (timeouts e' ≡ₚ (HEADER_PROCESS_INTERVAL, eloop_tout_header) :: timeouts (hc_eloop c) \/ timeouts e' = timeouts (hc_eloop c)).
Proof.
  intros Hq Hwf. unfold eloop_tout_header_handler. erewrite bind_run by done. cbv beta. rewrite Hq.
  destruct (drain_run (queue_items q) (length (dl_nodes q)) c q Hq Hwf eq_refl) as (d & q' & E & Hwf' & Hi' & Hs).
  { unfold queue_items. by rewrite length_fmap. }
  erewrite bind_run by exact E. erewrite bind_run by done. exists d, q'. split; [done|]. repeat (split; [done|]). cbv zeta.
  destruct (register_timeouts HEADER_PROCESS_INTERVAL eloop_tout_header (hc_eloop c)) as [[_ H]|[_ H]]; auto.
Qed.

(** Whatever is in the queue when the timer of the header middleware goes
    off, and whatever the database answers, the handler returns: the queue is
    empty, each tuple that was in it was written once and in the order of
    arrival, and the timer is set again unless memory is short. *)
Theorem header_timer_drains (c : ctx) q : hc_queue c = Some q -> queue_wf q ->
  exists d q', eloop_tout_header_handler c =
      Done (tt, {| hc_db := d; hc_queue := Some q';
                   hc_eloop := (register_timeout HEADER_PROCESS_INTERVAL eloop_tout_header (hc_eloop c)).2; hc_env := hc_env c |}) /\
    queue_wf q' /\ queue_items q' = [] /\ save_all (queue_items q) (hc_db c) = Done (tt, d) /\
    let e' := (register_timeout HEADER_PROCESS_INTERVAL eloop_tout_header (hc_eloop c)).2 in
    (timeouts e' ≡ₚ (HEADER_PROCESS_INTERVAL, eloop_tout_header) :: timeouts (hc_eloop c) \/ timeouts e' = timeouts (hc_eloop c)).
Proof. apply header_timer_run. Qed.

(** ** The types of what is stored *)

Definition ctx_typed (c : ctx) : Prop := typed (rtables (hc_db c)).

Lemma keeps_hm_db {A} (m : prog rdb A) : keeps (fun d => typed (rtables d)) m -> keeps ctx_typed (hm_db m).
Proof.
  intros Hm c a c' Hc. unfold hm_db. destruct (m (hc_db c)) as [[b d]|] eqn:E; [|done]. intros [= <- <-].
  by apply (Hm _ _ _ Hc E).
Qed.
Lemma keeps_hm_env {A} (m : prog env A) : keeps ctx_typed (hm_env m).
Proof. intros c a c' Hc. unfold hm_env. destruct (m (hc_env c)) as [[b e]|]; [|done]. by intros [= <- <-]. Qed.
Lemma keeps_hm_queue : keeps ctx_typed hm_queue.
Proof. by intros c a c' Hc [= <- <-]. Qed.
Lemma keeps_set_queue q : keeps ctx_typed (set_queue q).
Proof. by intros c a c' Hc [= <- <-]. Qed.
Lemma keeps_hm_register : keeps ctx_typed hm_register.
Proof. by intros c a c' Hc [= <- <-]. Qed.
Lemma keeps_save_packet tp : keeps (fun d => typed (rtables d)) (save_packet_statement tp).
Proof. intros d r d' Hd H. destruct (save_typed tp d Hd) as (r0 & d0 & E & Ht). rewrite E in H. by injection H as <- <-. Qed.
Hint Resolve keeps_hm_db keeps_hm_env keeps_hm_queue keeps_set_queue keeps_hm_register keeps_save_packet : keeps.

Lemma keeps_create_tables l : keeps (fun d => typed (rtables d)) (create_tables l).
Proof.
  induction l as [|ct l IH]; cbn [create_tables]; [apply keeps_ret|]. apply keeps_bind; [|intros a; destruct (negb a); [apply keeps_ret|done]].
  intros d a d' Hd [= <- <-]. pose proof (create_rows (ct_table ct) d) as H. cbv zeta in H.
  destruct (rdb_create _ d).1; rewrite H; [|done]. intros ct' l' Hct'. rewrite lookup_insert_Some.
  intros [[Hn <-]|[_ Hl]]; [|by eapply Hd]. rewrite Hn. destruct (rtables d !! t_name (ct_table ct')) eqn:E; [by eapply Hd|constructor].
Qed.
Hint Resolve keeps_create_tables : keeps.

Lemma keeps_init : keeps ctx_typed init_header_middleware.
Proof. unfold init_header_middleware, init_sqlite_header_db. keeps_tac. Qed.
Lemma keeps_add l : keeps ctx_typed (add_packet_queue l).
Proof. induction l; cbn [add_packet_queue]; keeps_tac. Qed.
Lemma keeps_drain fuel : keeps ctx_typed (drain_queue fuel).
Proof. induction fuel; cbn [drain_queue]; keeps_tac. Qed.
Hint Resolve keeps_add keeps_drain : keeps.
Lemma keeps_process header packet ifname id : keeps ctx_typed (process_header_middleware header packet ifname id).
Proof. unfold process_header_middleware. keeps_tac. Qed.
Lemma keeps_timer : keeps ctx_typed eloop_tout_header_handler.
Proof. unfold eloop_tout_header_handler. keeps_tac. Qed.
Lemma keeps_free : keeps ctx_typed free_header_middleware.
Proof. unfold free_header_middleware. keeps_tac. Qed.

(** What the capture service does with the middleware. *)
Inductive header_step (c c' : ctx) : Prop :=
| step_init r : init_header_middleware c = Done (r, c') -> header_step c c'
| step_packet header packet ifname id r : process_header_middleware header packet ifname id c = Done (r, c') -> header_step c c'
| step_timer : eloop_tout_header_handler c = Done (tt, c') -> header_step c c'
| step_free : free_header_middleware c = Done (tt, c') -> header_step c c'.

(** Whatever packets are captured, in whatever order they come with the
    timer, and whatever fails on the way, the tables of the header middleware
    stay well typed: each row has a cell for each column of its table, an
    INTEGER column holds 64-bit integers and a TEXT column holds texts. *)
Theorem header_rows_typed (c c' : ctx) ct l r : typed (rtables (hc_db c)) -> rtc header_step c c' ->
  ct ∈ header_tables -> rtables (hc_db c') !! t_name (ct_table ct) = Some l -> r ∈ l ->
  length r = length (ct_columns ct) /\
  forall i col x, ct_columns ct !! i = Some col -> r !! i = Some x -> cell_ok col.2 x.
Proof.
  intros Ht Hr Hct Hl Hin. assert (ctx_typed c') as Hc'.
  { induction Hr as [|c1 c2 c3 Hs _ IH]; [done|]. apply IH; [|done]. change (ctx_typed c2).
    destruct Hs as [r' H|header packet ifname id r' H|H|H];
      [eapply keeps_init|eapply keeps_process|eapply keeps_timer|eapply keeps_free]; first [exact Ht|exact H]. }
  assert (typed_row ct r) as Hrow by (eapply Forall_forall; [by apply (Hc' ct l)|done]).
  split; [symmetry; by eapply Forall2_length|]. intros i col x Hcol Hx. by apply (Forall2_lookup_lr _ _ _ _ _ _ Hrow Hcol Hx).
Qed.

(** ** A packet in the tables *)

(** One more row for each tuple. *)
Definition record_tuple (T : gmap (list Z) (list row)) (t : tuple_packet) : gmap (list Z) (list row) :=
  <[tuple_name t := default [] (T !! tuple_name t) ++ [tuple_row t]]> T.

(** No key of a row has this identifier in it. *)
Definition unused (id : list Z) (ct : create_table) (l : list row) : Prop :=
  Forall (fun r => CText id ∉ cells (t_key (ct_table ct)) r) l.

Lemma tuple_key tp : CText (tuple_id tp) ∈ cells (t_key (ct_table (tuple_table tp))) (tuple_row tp).
Proof. destruct tp; cbn; set_solver. Qed.

Lemma tuple_not_null tp : CNull ∉ cells (t_not_null (ct_table (tuple_table tp))) (tuple_row tp).
Proof. destruct tp; cbn; set_solver. Qed.

Lemma tuple_fits tp l : unused (tuple_id tp) (tuple_table tp) l -> fits (ct_table (tuple_table tp)) l (tuple_row tp).
Proof.
  intros Hu. split; [apply tuple_not_null|]. intros _. eapply Forall_impl; [exact Hu|]. intros r Hr E. apply Hr. rewrite E. apply tuple_key.
Qed.

(** A table belongs to one layer. *)
Lemma tuple_name_layer t t' : tuple_name t = tuple_name t' -> layer t = layer t'.
Proof. destruct t, t'; by vm_compute. Qed.

(** What each of the tables of some tuples needs for them. *)
Definition awaits (id : list Z) (T : gmap (list Z) (list row)) (t : tuple_packet) : Prop :=
  exists l, T !! tuple_name t = Some l /\ unused id (tuple_table t) l.

Lemma save_all_run id ts : forall d, rdb_ok d -> NoDup (layer <$> ts) -> Forall (fun t => tuple_id t = id) ts ->
  Forall (awaits id (rtables d)) ts ->
  exists d', save_all ts d = Done (tt, d') /\ rdb_ok d' /\ rtables d' = foldl record_tuple (rtables d) ts.
Proof.
  induction ts as [|t ts IH]; intros d Hok Hnd Hid Hw; cbn [save_all]; [by exists d|].
  rewrite fmap_cons in Hnd. apply list.NoDup_cons in Hnd as [Hnew Hnd]. apply list.Forall_cons in Hid as [Ht Hid].
  apply list.Forall_cons in Hw as [(l & Hl & Hu) Hw].
  destruct (save_packet_run t d l Hok Hl) as (d1 & E1 & Hok1 & Hr1); [apply tuple_fits; by rewrite Ht|].
  destruct (IH d1 Hok1 Hnd Hid) as (d2 & E2 & Hok2 & Hr2).
  { rewrite Hr1. rewrite Forall_forall in Hw |- *. intros t' Hin. destruct (Hw t' Hin) as (l' & Hl' & Hu'). exists l'.
    split; [|done]. rewrite lookup_insert_ne; [done|]. intros Hn%tuple_name_layer. apply Hnew. rewrite Hn. by apply list_elem_of_fmap_2. }
  exists d2. erewrite bind_run by exact E1. split; [done|]. split; [done|]. rewrite Hr2, Hr1. cbn. unfold record_tuple at 3. by rewrite Hl.
Qed.

Definition with_queue_env (q : option (@dl_list _ PQ)) (e : env) (c : ctx) : ctx :=
  {| hc_db := hc_db c; hc_queue := q; hc_eloop := hc_eloop c; hc_env := e |}.

Lemma add_run ts : forall (c : ctx) q r, hc_queue c = Some q -> queue_wf q -> hc_env c = Env [] r ->
  exists q', add_packet_queue ts c = Done (tt, with_queue_env (Some q') (Env [] r) c) /\ queue_wf q' /\
    queue_items q' = queue_items q ++ ts.
Proof.
  induction ts as [|t ts IH]; intros c q r Hq Hwf He; cbn [add_packet_queue].
  - exists q. rewrite app_nil_r. split; [|done]. destruct c; cbn in *; by subst.
  - erewrite bind_run by done. cbv beta. rewrite Hq. destruct (push_tail_spec t q Hwf) as [Hwf1 Hi1].
    erewrite bind_run by (unfold hm_env; rewrite He; done). cbn [snd]. erewrite bind_run by done.
    destruct (IH (with_queue_env (Some (push_tail t q)) (Env [] r) c) (push_tail t q) r eq_refl Hwf1 eq_refl) as (q' & E & Hwf' & Hi').
    exists q'. split; [exact E|]. split; [done|]. by rewrite Hi', Hi1, <- app_assoc.
Qed.

End header_proofs.

(** ** Samples *)

Definition sample_tables : gmap (list Z) (list row) := list_to_map ((fun ct => (t_name (ct_table ct), [])) <$> header_tables).
Definition sample_ctx : header_context (DB := list_reldb) (PQ := list_dl_list tuple_packet) (CT := list_eloop capture_timer) :=
  {| hc_db := sample_tables; hc_queue := Some []; hc_eloop := []; hc_env := Env [] [] |}.
Definition sample_header : pcap_pkthdr := {| ts_sec := 1; ts_usec := 2; caplen := 414; len := 414 |}.

Lemma sample_tables_empty ct : ct ∈ header_tables -> sample_tables !! t_name (ct_table ct) = Some [].
Proof.
  intros H. assert (Forall (fun ct => sample_tables !! t_name (ct_table ct) = Some []) header_tables) as Hf
    by (apply (bool_decide_unpack _); vm_compute; exact I).
  rewrite Forall_forall in Hf. by apply Hf.
Qed.

Lemma sample_frame_bytes : bytes sample_frame.
Proof.
  unfold sample_frame. apply Forall_app. split; [repeat constructor; by vm_compute|]. apply Forall_replicate. by vm_compute.
Qed.


(** A tuple that waits. *)
Definition sample_udp : tuple_packet :=
  PACKET_UDP {| udp_id := cstr "id"; udp_source := 5; udp_dest := 6; udp_len := 8; udp_check := 0 |}.
Definition sample_waiting : header_context (DB := list_reldb) (PQ := list_dl_list tuple_packet) (CT := list_eloop capture_timer) :=
  {| hc_db := sample_tables; hc_queue := Some [(0%nat, sample_udp)]; hc_eloop := []; hc_env := Env [] [] |}.

Lemma header_timer_drains_witness : exists d q e, eloop_tout_header_handler sample_waiting =
    Done (tt, {| hc_db := d; hc_queue := Some q; hc_eloop := e; hc_env := Env [] [] |}) /\
  queue_items q = [] /\ save_all (DB := list_reldb) [sample_udp] sample_tables = Done (tt, d).
Proof.
  destruct (header_timer_drains sample_waiting [(0%nat, sample_udp)] eq_refl) as (d & q' & E & _ & Hq & Hs & _).
  - apply NoDup_singleton.
  - exists d, q'. eexists. split; [exact E|]. split; [exact Hq|exact Hs].
Defined.

Lemma header_rows_typed_witness : exists c, rtc header_step sample_waiting c /\
  forall l r, rtables (hc_db c) !! cstr "udp" = Some l -> r ∈ l -> length r = 5%nat.
Proof.
  destruct (header_timer_run sample_waiting [(0%nat, sample_udp)] eq_refl) as (d & q' & E & _); [apply NoDup_singleton|].
  eexists. split; [apply rtc_once, step_timer, E|]. intros l r Hl Hr.
  change (length r = length (ct_columns UDP_CREATE_TABLE)).
  refine (proj1 (header_rows_typed sample_waiting _ UDP_CREATE_TABLE l r _ (rtc_once _ _ (step_timer _ _ E)) _ Hl Hr)).
  - intros ct l' Hct Hs. change (sample_tables !! t_name (ct_table ct) = Some l') in Hs.
    rewrite sample_tables_empty in Hs by done. injection Hs as <-. constructor.
  - exact (tuple_table_in sample_udp).
Defined.
