(* ===== verification/Recap.v ===== *)
(** The tool that reads a recorded capture: [src/edgesec-recap.c].

    A stream in the format of libpcap, a file or the standard input, is read by
    a machine of five states; each packet is decoded ([Decoder]) and its tuples
    are written to the capture database ([Capture]) or to a pipe ([Protobuf]).
    The tool can also capture from a network; then the packets go through a
    queue that a timer empties.

    [fread] may give fewer bytes than it was asked for: the schedule [chunks]
    says how many at most, and one that has run out gives all of them.

    The theorems: on the bytes of a capture the machine does what saving its
    packets one after the other does, however the stream is cut into pieces;
    the database then has one row for each layer of each packet; the machine
    stops on every stream; and what it reports is success, also when it has
    stopped at an error. *)
From stdpp Require Import strings numbers base list gmap.
From Stdlib Require Import ZArith Lia.
From S2P Require Import Prelude Md5 Os Text Net Extern Queue Reldb Mappers Decoder Protobuf Capture.

Definition PCAP_MAGIC_VALUE : Z := 0xa1b2c3d4.
Definition QUEUE_PROCESS_INTERVAL : Z := 100 * 1000.
Definition IFNAME_DEFAULT : list Z := cstr "ifname".

Inductive PCAP_FILE_STATE :=
| PCAP_FILE_STATE_INIT | PCAP_FILE_STATE_READ_PCAP_HEADER | PCAP_FILE_STATE_READ_PKT_HEADER | PCAP_FILE_STATE_READ_PACKET
| PCAP_FILE_STATE_FIN.
#[export] Instance PCAP_FILE_STATE_eq : EqDecision PCAP_FILE_STATE.
Proof. solve_decision. Defined.

(** [struct pcap_file_header] of libpcap, and [struct pcap_pkthdr32], which has
    the fields of [pcap_pkthdr]; both are copied from the stream byte by byte
    on a machine with the low byte first.  [thiszone] is given by its bits. *)
Record pcap_file_header := {
  magic : Z; version_major : Z; version_minor : Z; thiszone : Z; sigfigs : Z; snaplen : Z; linktype : Z
}.
Definition le32_at (l : list Z) (o : nat) : Z := le32 (nth o l 0) (nth (o + 1) l 0) (nth (o + 2) l 0) (nth (o + 3) l 0).
Definition le16_at (l : list Z) (o : nat) : Z := nth o l 0 + Z.shiftl (nth (o + 1) l 0) 8.
Definition file_header_of (l : list Z) : pcap_file_header :=
  {| magic := le32_at l 0; version_major := le16_at l 4; version_minor := le16_at l 6; thiszone := le32_at l 8; sigfigs := le32_at l 12;
     snaplen := le32_at l 16; linktype := le32_at l 20 |}.
Definition pkthdr32_of (l : list Z) : pcap_pkthdr :=
  {| ts_sec := le32_at l 0; ts_usec := le32_at l 4; caplen := le32_at l 8; len := le32_at l 12 |}.
Definition pcap_header_size : Z := 24.
Definition pkt_header_size : Z := 16.

(** What is left of the stream, and the part of the context the reading uses. *)
Record reader := {
  stream : list Z;
  chunks : list nat;
  pcap_data : list Z;
  data_size : Z;
  total_size : Z;
  rstate : PCAP_FILE_STATE;
  pcap_header : pcap_file_header;
  pkt_header : pcap_pkthdr
}.
Inductive recap_timer := recap_tout_header.
#[export] Instance recap_timer_eq : EqDecision recap_timer.
Proof. solve_decision. Defined.

Section recap.
Context {DB : Reldb} {PB : ProtobufC} {PQ : DlList tuple_packet} {RT : Eloop recap_timer}.
Context (to_pipe : bool) (ifname out_path : list Z).

(** The rest of the context; [ids] are the identifiers that will be generated
    for the packets, [queries] the answers to the statements that begin and end
    a transaction. *)
Record recap_context := {
  rc_reader : reader;
  rc_db : rdb;
  rc_pipe : pipe;
  pq : option (@dl_list _ PQ);
  npackets : Z;
  ids : list (list Z);
  queries : list bool;
  rc_eloop : @eloop _ _ RT;
  rc_env : env
}.
#[local] Abbreviation Rc := (prog recap_context).

Definition set_reader (r : reader) (c : recap_context) : recap_context :=
  {| rc_reader := r; rc_db := rc_db c; rc_pipe := rc_pipe c; pq := pq c; npackets := npackets c; ids := ids c; queries := queries c;
     rc_eloop := rc_eloop c; rc_env := rc_env c |}.
Definition set_out (d : rdb) (p : pipe) (e : env) (c : recap_context) : recap_context :=
  {| rc_reader := rc_reader c; rc_db := d; rc_pipe := p; pq := pq c; npackets := npackets c; ids := ids c; queries := queries c;
     rc_eloop := rc_eloop c; rc_env := e |}.
Definition set_packets (q : option (@dl_list _ PQ)) (n : Z) (c : recap_context) : recap_context :=
  {| rc_reader := rc_reader c; rc_db := rc_db c; rc_pipe := rc_pipe c; pq := q; npackets := n; ids := ids c; queries := queries c;
     rc_eloop := rc_eloop c; rc_env := rc_env c |}.
Definition get_reader : Rc reader := fun c => Done (rc_reader c, c).
Definition put_reader (r : reader) : Rc unit := fun c => Done (tt, set_reader r c).
Definition rc_mem {A} (m : prog env A) : Rc A := fun c =>
  match m (rc_env c) with
  | Fault f => Fault f
  | Done (a, e) => Done (a, set_out (rc_db c) (rc_pipe c) e c)
  end.
Definition rc_sql {A} (m : prog rdb A) : Rc A := fun c =>
  match m (rc_db c) with
  | Fault f => Fault f
  | Done (a, d) => Done (a, set_out d (rc_pipe c) (rc_env c) c)
  end.
Definition rc_protobuf {A} (m : prog protobuf_context A) : Rc A := fun c =>
  match m {| pc_params := None; pc_pipe := rc_pipe c; pc_env := rc_env c |} with
  | Fault f => Fault f
  | Done (a, x) => Done (a, set_out (rc_db c) (pc_pipe x) (pc_env x) c)
  end.
Definition next_id : Rc (list Z) := fun c =>
  Done (hd [] (ids c),
        {| rc_reader := rc_reader c; rc_db := rc_db c; rc_pipe := rc_pipe c; pq := pq c; npackets := npackets c; ids := tl (ids c);
           queries := queries c; rc_eloop := rc_eloop c; rc_env := rc_env c |}).

(** ** Reading *)

Definition with_stream (l : list Z) (cs : list nat) (total : Z) (r : reader) : reader :=
  {| stream := l; chunks := cs; pcap_data := pcap_data r; data_size := data_size r; total_size := total; rstate := rstate r;
     pcap_header := pcap_header r; pkt_header := pkt_header r |}.
Definition with_data (l : list Z) (n : Z) (r : reader) : reader :=
  {| stream := stream r; chunks := chunks r; pcap_data := l; data_size := n; total_size := total_size r; rstate := rstate r;
     pcap_header := pcap_header r; pkt_header := pkt_header r |}.
Definition with_state (s : PCAP_FILE_STATE) (r : reader) : reader :=
  {| stream := stream r; chunks := chunks r; pcap_data := pcap_data r; data_size := data_size r; total_size := total_size r; rstate := s;
     pcap_header := pcap_header r; pkt_header := pkt_header r |}.
Definition with_headers (f : pcap_file_header) (p : pcap_pkthdr) (r : reader) : reader :=
  {| stream := stream r; chunks := chunks r; pcap_data := pcap_data r; data_size := data_size r; total_size := total_size r;
     rstate := rstate r; pcap_header := f; pkt_header := p |}.

(** How many bytes [fread] gives. *)
Definition fread_size (n : Z) (r : reader) : nat :=
  Nat.min (Nat.min (Z.to_nat n) (length (stream r))) (match chunks r with [] => Z.to_nat n | k :: _ => k end).
(** The bytes that are read, or [None] for -1. *)
Definition read_pcap_stream_fd (n : Z) : Rc (option (list Z)) :=
  ok ← rc_mem malloc;
  if negb ok then mret None
  else
    r ← get_reader;
    let k := fread_size n r in
    _ ← put_reader (with_stream (drop k (stream r)) (tl (chunks r)) (total_size r) r);
    mret (Some (take k (stream r))).

(** The bytes behind those that were kept by [os_realloc] are all overwritten. *)
Definition read_pcap (n : Z) : Rc Z :=
  o ← read_pcap_stream_fd n;
  match o with
  | None => mret (-1)
  | Some data =>
      let read_size := zlen data in
      r ← get_reader;
      let r := with_stream (stream r) (chunks r) (u64 (total_size r + read_size)) r in
      _ ← put_reader r;
      let current_size := read_size + data_size r in
      if 0 <? read_size then
        ok ← rc_mem malloc;
        if negb ok then mret (-1)
        else
          let moved := take (Z.to_nat current_size) (pcap_data r ++ zeros (Z.to_nat current_size)) in
          buf ← lift_outcome (wr moved (data_size r) data);
          _ ← put_reader (with_data buf current_size r);
          mret read_size
      else mret read_size
  end.

(** What is missing of a part of [size] bytes. *)
Definition missing (size : Z) (r : reader) : Z := if data_size r <? size then size - data_size r else 0.

Definition process_file_header_state : Rc Z :=
  r ← get_reader;
  read_size ← read_pcap (missing pcap_header_size r);
  if read_size <? 0 then mret (-1)
  else
    r ← get_reader;
    if pcap_header_size <=? data_size r then
      bs ← lift_outcome (rd (pcap_data r) 0 pcap_header_size);
      let header := file_header_of bs in
      let r := with_data (pcap_data r) 0 (with_headers header (pkt_header r) r) in
      if negb (magic header =? PCAP_MAGIC_VALUE) then _ ← put_reader r; mret (-1)
      else _ ← put_reader (with_state PCAP_FILE_STATE_READ_PKT_HEADER r); mret 0
    else if read_size =? 0 then _ ← put_reader (with_state PCAP_FILE_STATE_FIN r); mret 0
    else mret 0.

Definition process_pkt_header_state : Rc Z :=
  r ← get_reader;
  read_size ← read_pcap (missing pkt_header_size r);
  if read_size <? 0 then mret (-1)
  else
    r ← get_reader;
    if pkt_header_size <=? data_size r then
      bs ← lift_outcome (rd (pcap_data r) 0 pkt_header_size);
      let header := pkthdr32_of bs in
      let r := with_headers (pcap_header r) header r in
      if len header <? caplen header then _ ← put_reader r; mret (-1)
      else _ ← put_reader (with_state PCAP_FILE_STATE_READ_PACKET (with_data (pcap_data r) 0 r)); mret 0
    else if read_size =? 0 then _ ← put_reader (with_state PCAP_FILE_STATE_FIN r); mret 0
    else mret 0.

(** ** Saving *)

Definition get_packet_header (r : reader) : pcap_pkthdr := pkt_header r.

Definition save_sqlite_tuple_packet (p : tuple_packet) : Rc Z :=
  r ← rc_sql (save_packet_statement p);
  mret (if r <? 0 then -1 else 0).
Fixpoint save_sqlite_packet (packets : list tuple_packet) : Rc Z :=
  match packets with
  | [] => mret 0
  | p :: rest =>
      r ← save_sqlite_tuple_packet p;
      if r <? 0 then mret (-1) else save_sqlite_packet rest
  end.

Definition save_packet_array (packets : list tuple_packet) : Rc Z :=
  if to_pipe then
    r ← rc_protobuf (pipe_protobuf_packets (Some out_path) packets);
    mret (if r <? 0 then -1 else 0)
  else
    r ← save_sqlite_packet packets;
    mret (if r <? 0 then -1 else 0).
Definition save_tuple_packet (p : tuple_packet) : Rc Z :=
  if to_pipe then
    r ← rc_protobuf (pipe_protobuf_tuple_packet (Some out_path) p);
    mret (if r <? 0 then -1 else 0)
  else
    r ← save_sqlite_tuple_packet p;
    mret (if r <? 0 then -1 else 0).

Definition save_decoded_packet (header : pcap_pkthdr) (packet : list Z) : Rc Z :=
  id ← next_id;
  x ← rc_mem (extract_packets header packet ifname id []);
  if x.1 <? 0 then mret (-1)
  else
    r ← save_packet_array x.2;
    if r <? 0 then mret (-1) else mret x.1.

Definition count_packets (n : Z) : Rc unit := fun c => Done (tt, set_packets (pq c) (u64 (npackets c + n)) c).
(** The link type is only given on, and not looked at. *)
Definition save_raw_packet : Rc Z :=
  r ← get_reader;
  n ← save_decoded_packet (get_packet_header r) (pcap_data r);
  if n <? 0 then mret (-1) else _ ← count_packets n; mret 0.

Definition process_pkt_read_state : Rc Z :=
  r ← get_reader;
  read_size ← read_pcap (missing (caplen (pkt_header r)) r);
  if read_size <? 0 then mret (-1)
  else
    r ← get_reader;
    if caplen (pkt_header r) <=? data_size r then
      ret ← save_raw_packet;
      if ret <? 0 then mret (-1)
      else
        r ← get_reader;
        _ ← put_reader (with_state PCAP_FILE_STATE_READ_PKT_HEADER (with_data (pcap_data r) 0 r));
        mret 0
    else if read_size =? 0 then _ ← put_reader (with_state PCAP_FILE_STATE_FIN r); mret 0
    else mret 0.

(** ** The machine *)

Definition init_reader (r : reader) : reader :=
  {| stream := stream r; chunks := chunks r; pcap_data := [0]; data_size := 0; total_size := 0;
     rstate := PCAP_FILE_STATE_READ_PCAP_HEADER; pcap_header := pcap_header r; pkt_header := pkt_header r |}.
Definition process_file_stream_state : Rc Z :=
  r ← get_reader;
  match rstate r with
  | PCAP_FILE_STATE_INIT =>
      ok ← rc_mem malloc;
      if negb ok then mret (-1)
      else
        _ ← (fun c => Done (tt, set_packets (pq c) 0 c));
        _ ← put_reader (init_reader r);
        mret 1
  | PCAP_FILE_STATE_READ_PCAP_HEADER => x ← process_file_header_state; mret (if x <? 0 then -1 else 1)
  | PCAP_FILE_STATE_READ_PKT_HEADER => x ← process_pkt_header_state; mret (if x <? 0 then -1 else 1)
  | PCAP_FILE_STATE_READ_PACKET => x ← process_pkt_read_state; mret (if x <? 0 then -1 else 1)
  | PCAP_FILE_STATE_FIN => mret 0
  end.

(** The loop; [ret] is what the comparison gives.  [None] when the fuel has run
    out. *)
Fixpoint stream_loop (fuel : nat) : Rc (option Z) :=
  match fuel with
  | O => mret None
  | S fuel =>
      x ← process_file_stream_state;
      let ret := if 0 <? x then 1 else 0 in
      if negb (ret =? 0) then stream_loop fuel else mret (Some ret)
  end.
(** [opened] is whether the file could be opened; the standard input is. *)
Definition process_file_stream (fuel : nat) (opened : bool) : Rc Z :=
  if negb opened then mret (-1)
  else
    ret ← stream_loop fuel;
    match ret with
    | None => fail_with OutOfFuel
    | Some ret => if ret <? 0 then mret (-1) else mret 0
    end.

(** ** Capturing from a network *)

(** A tuple that cannot be queued is freed. *)
Fixpoint queue_packets (packets : list tuple_packet) : Rc unit :=
  match packets with
  | [] => mret tt
  | p :: rest =>
      q ← (fun c => Done (pq c, c));
      x ← rc_mem (push_packet_queue q p);
      _ ← (fun c => Done (tt, set_packets x.2 (npackets c) c));
      queue_packets rest
  end.
Definition pcap_callback (header : pcap_pkthdr) (packet : list Z) : Rc unit :=
  id ← next_id;
  x ← rc_mem (extract_packets header packet ifname id []);
  if 0 <? x.1 then _ ← queue_packets x.2; count_packets x.1 else mret tt.

(** A tuple that cannot be saved is given up. *)
Fixpoint save_packets_from_queue (fuel : nat) : Rc unit :=
  q ← (fun c => Done (pq c, c));
  if is_packet_queue_empty q <? 1 then
    match fuel with
    | O => fail_with OutOfFuel
    | S fuel =>
        match q, pop_packet_queue q with
        | Some l, Some el =>
            _ ← save_tuple_packet el.2;
            l' ← lift_outcome (free_packet_queue_el el.1 l);
            _ ← (fun c => Done (tt, set_packets (Some l') (npackets c) c));
            save_packets_from_queue fuel
        | _, _ => save_packets_from_queue fuel
        end
    end
  else mret tt.

(** A statement that begins or ends a transaction; its answer is logged. *)
Definition transaction_query : Rc bool := fun c =>
  Done (hd true (queries c),
        {| rc_reader := rc_reader c; rc_db := rc_db c; rc_pipe := rc_pipe c; pq := pq c; npackets := npackets c; ids := ids c;
           queries := tl (queries c); rc_eloop := rc_eloop c; rc_env := rc_env c |}).
Definition rc_register : Rc Z := fun c =>
  let x := register_timeout QUEUE_PROCESS_INTERVAL recap_tout_header (rc_eloop c) in
  Done (x.1, {| rc_reader := rc_reader c; rc_db := rc_db c; rc_pipe := rc_pipe c; pq := pq c; npackets := npackets c; ids := ids c;
                queries := queries c; rc_eloop := x.2; rc_env := rc_env c |}).
Definition recap_tout_header_handler : Rc unit :=
  q ← (fun c => Done (pq c, c));
  _ ← (if is_packet_queue_empty q <? 1 then
         _ ← (if to_pipe then mret true else transaction_query);
         _ ← save_packets_from_queue (Z.to_nat (get_packet_queue_length q));
         _ ← (if to_pipe then mret true else transaction_query);
         mret tt
       else mret tt);
  _ ← rc_register;
  mret tt.

(** What the event loop may do. *)
Inductive recap_event := ev_packet (header : pcap_pkthdr) (packet : list Z) | ev_timer.
Definition handle (ev : recap_event) : Rc unit :=
  match ev with ev_packet header packet => pcap_callback header packet | ev_timer => recap_tout_header_handler end.
Fixpoint run_events (l : list recap_event) : Rc unit :=
  match l with [] => mret tt | ev :: l => _ ← handle ev; run_events l end.

Definition free_queue : Rc unit :=
  q ← (fun c => Done (pq c, c));
  match q with None => mret tt | Some l => _ ← lift_outcome (free_packet_queue l); mret tt end.
(** [eloop_ok], [pcap_ok] and [sock_ok] are the answers of [edge_eloop_init],
    [run_pcap] and [edge_eloop_register_read_sock]; [l] is what happens until
    the loop ends. *)
Definition process_pcap_capture (eloop_ok pcap_ok sock_ok : bool) (l : list recap_event) : Rc Z :=
  if negb eloop_ok then _ ← free_queue; mret (-1)
  else if negb pcap_ok then _ ← free_queue; mret (-1)
  else
    q ← rc_mem init_packet_queue;
    _ ← (fun c => Done (tt, set_packets q (npackets c) c));
    match q with
    | None => mret (-1)
    | Some _ =>
        if negb sock_ok then _ ← free_queue; mret (-1)
        else
          t ← rc_register;
          if t =? -1 then _ ← free_queue; mret (-1)
          else _ ← run_events l; _ ← free_queue; mret 0
    end.
End recap.

(** ** The program *)

Record options := {
  opt_pcap_path : option (list Z); opt_out_path : option (list Z); opt_ifname : option (list Z);
  opt_pipe : bool; opt_capture : bool; opt_transaction : bool; opt_verbosity : Z
}.
Definition no_options : options :=
  {| opt_pcap_path := None; opt_out_path := None; opt_ifname := None; opt_pipe := false; opt_capture := false; opt_transaction := false;
     opt_verbosity := 0 |}.
(** The options [getopt] finds, with their arguments; an exit is [inl]. *)
Fixpoint process_app_options (l : list (Z * list Z)) (o : options) : Z + options :=
  match l with
  | [] => inr o
  | (opt, optarg) :: l =>
      if opt =? 104 then inl 0
      else if opt =? 118 then inl 0
      else if opt =? 112 then process_app_options l {| opt_pcap_path := Some optarg; opt_out_path := opt_out_path o;
        opt_ifname := opt_ifname o; opt_pipe := opt_pipe o; opt_capture := opt_capture o; opt_transaction := opt_transaction o;
        opt_verbosity := opt_verbosity o |}
      else if opt =? 102 then process_app_options l {| opt_pcap_path := opt_pcap_path o; opt_out_path := Some optarg;
        opt_ifname := opt_ifname o; opt_pipe := opt_pipe o; opt_capture := opt_capture o; opt_transaction := opt_transaction o;
        opt_verbosity := opt_verbosity o |}
      else if opt =? 105 then process_app_options l {| opt_pcap_path := opt_pcap_path o; opt_out_path := opt_out_path o;
        opt_ifname := Some optarg; opt_pipe := opt_pipe o; opt_capture := opt_capture o; opt_transaction := opt_transaction o;
        opt_verbosity := opt_verbosity o |}
      else if opt =? 110 then process_app_options l {| opt_pcap_path := opt_pcap_path o; opt_out_path := opt_out_path o;
        opt_ifname := opt_ifname o; opt_pipe := opt_pipe o; opt_capture := true; opt_transaction := opt_transaction o;
        opt_verbosity := opt_verbosity o |}
      else if opt =? 107 then process_app_options l {| opt_pcap_path := opt_pcap_path o; opt_out_path := opt_out_path o;
        opt_ifname := opt_ifname o; opt_pipe := true; opt_capture := opt_capture o; opt_transaction := opt_transaction o;
        opt_verbosity := opt_verbosity o |}
      else if opt =? 100 then process_app_options l {| opt_pcap_path := opt_pcap_path o; opt_out_path := opt_out_path o;
        opt_ifname := opt_ifname o; opt_pipe := opt_pipe o; opt_capture := opt_capture o; opt_transaction := opt_transaction o;
        opt_verbosity := u8 (opt_verbosity o + 1) |}
      else if opt =? 116 then process_app_options l {| opt_pcap_path := opt_pcap_path o; opt_out_path := opt_out_path o;
        opt_ifname := opt_ifname o; opt_pipe := opt_pipe o; opt_capture := opt_capture o; opt_transaction := true;
        opt_verbosity := opt_verbosity o |}
      else if opt =? 58 then inl 1
      else if opt =? 63 then inl 1
      else inl 0
  end.

(** What the system answers: whether the database and the pipe could be made,
    the file opened, and the three answers of the capture. *)
Record system := {
  db_opens : bool; pipe_made : bool; file_opens : bool; eloop_ok : bool; pcap_ok : bool; sock_ok : bool;
  happens : list recap_event
}.

Section program.
Context {DB : Reldb} {PB : ProtobufC} {PQ : DlList tuple_packet} {RT : Eloop recap_timer}.
#[local] Abbreviation Rc := (prog (recap_context (DB := DB) (PQ := PQ) (RT := RT))).

(** The part behind the label [cleanup]; [opened] is whether [pcap_fd] was set.
    [fclose] of NULL is not defined. *)
Definition cleanup (o : options) (opened : bool) (exit_code : Z) : Rc Z :=
  match opt_pcap_path o with
  | Some _ => if opened then mret exit_code else fail_with NullDeref
  | None => mret exit_code
  end.

(** Whether a transaction was begun, and [None] when the program is left. *)
Definition prepare_output (sys : system) (o : options) : Rc (option bool) :=
  if opt_pipe o then mret (if pipe_made sys then Some false else None)
  else if negb (db_opens sys) then mret None
  else
    r ← rc_sql init_sqlite_header_db;
    if r <? 0 then mret None
    else if opt_transaction o && negb (opt_capture o) then
      ok ← transaction_query;
      mret (if (ok : bool) then Some true else None)
    else mret (Some false).

(** The options have been read, and there was one. *)
Definition recap_main (fuel : nat) (sys : system) (o : options) : Rc Z :=
  let ifname := default IFNAME_DEFAULT (opt_ifname o) in
  let out_path := default [] (opt_out_path o) in
  begun ← prepare_output sys o;
  match begun with
  | None => cleanup o false 1
  | Some begun =>
      if opt_capture o then
        r ← process_pcap_capture (opt_pipe o) ifname out_path (eloop_ok sys) (pcap_ok sys) (sock_ok sys) (happens sys);
        cleanup o false (if r <? 0 then 1 else 0)
      else
        let opened := match opt_pcap_path o with Some _ => file_opens sys | None => true end in
        r ← process_file_stream (opt_pipe o) ifname out_path fuel opened;
        if r <? 0 then cleanup o opened 1
        else if (begun : bool) then
          ok ← transaction_query;
          cleanup o opened (if (ok : bool) then 0 else 1)
        else cleanup o opened 0
  end.
End program.

(** ** The format *)

(** A packet of a capture. *)
Record packet := { p_sec : Z; p_usec : Z; p_len : Z; p_data : list Z }.
Definition p_header (p : packet) : pcap_pkthdr :=
  {| ts_sec := p_sec p; ts_usec := p_usec p; caplen := zlen (p_data p); len := p_len p |}.
Record packet_ok (p : packet) : Prop := {
  po_sec : 0 <= p_sec p < 2 ^ 32;
  po_usec : 0 <= p_usec p < 2 ^ 32;
  po_len : 0 < zlen (p_data p) <= p_len p /\ p_len p < 2 ^ 32
}.
Definition packet_bytes (p : packet) : list Z :=
  (put_le32 (p_sec p) ++ put_le32 (p_usec p) ++ put_le32 (zlen (p_data p)) ++ put_le32 (p_len p)) ++ p_data p.
(** Twenty bytes that follow the magic number. *)
Definition file_bytes (rest : list Z) (ps : list packet) : list Z :=
  (put_le32 PCAP_MAGIC_VALUE ++ rest) ++ concat (packet_bytes <$> ps).

Lemma le32_put w : 0 <= w < 2 ^ 32 -> le32_at (put_le32 w) 0 = w.
Proof.
  intros Hw. unfold le32_at, put_le32, le32. cbn [nth Nat.add]. unfold u8, wrap. rewrite !Z.shiftr_div_pow2, !Z.shiftl_mul_pow2 by lia.
  pose proof (Z.div_mod w 256). pose proof (Z.div_mod (w / 2 ^ 8) 256). pose proof (Z.div_mod (w / 2 ^ 16) 256).
  change (2 ^ 8) with 256 in *. rewrite (Z.div_div w (2 ^ 16) 256), (Z.div_div w 256 256) in * by lia.
  change (256 * 256) with (2 ^ 16) in *. change (2 ^ 16 * 256) with (2 ^ 24) in *.
  assert (0 <= w / 2 ^ 24 < 256) by (split; [apply Z.div_pos; lia|apply Z.div_lt_upper_bound; lia]).
  rewrite (Z.mod_small (w / 2 ^ 24) 256) by lia. lia.
Qed.
Lemma le32_at_app (a b : list Z) o : (o + 4 <= length a)%nat -> le32_at (a ++ b) o = le32_at a o.
Proof. intros H. unfold le32_at. rewrite !app_nth1 by lia. done. Qed.
Lemma le32_at_skip (a b : list Z) o : le32_at (a ++ b) (length a + o) = le32_at b o.
Proof.
  unfold le32_at. rewrite !app_nth2 by lia. do 4 (f_equal; [|f_equal; lia] || f_equal). all: f_equal; lia.
Qed.

(** ** The machine and the packets *)

Section machine.
Context {DB : Reldb} {PB : ProtobufC} {PQ : DlList tuple_packet} {RT : Eloop recap_timer}.
Context (to_pipe : bool) (ifname out_path : list Z).
#[local] Abbreviation ctx := (recap_context (DB := DB) (PQ := PQ) (RT := RT)).
#[local] Abbreviation Rc := (prog ctx).
#[local] Abbreviation step := (process_file_stream_state to_pipe ifname out_path).
#[local] Abbreviation save := (save_decoded_packet to_pipe ifname out_path).

(** Saving has nothing to do with reading. *)
Definition beside {A} (m : Rc A) : Prop := forall c r,
  m (set_reader r c) = match m c with Done (a, c') => Done (a, set_reader r c') | Fault f => Fault f end.
Lemma beside_ret {A} (a : A) : beside (mret a).
Proof. done. Qed.
Lemma beside_bind {A B} (m : Rc A) (k : A -> Rc B) : beside m -> (forall a, beside (k a)) -> beside (mbind k m).
Proof.
  intros Hm Hk c r. unfold mbind, prog_bind. rewrite Hm. destruct (m c) as [[a c']|f]; [|done]. apply Hk.
Qed.
Lemma beside_mem {A} (m : prog env A) : beside (rc_mem m).
Proof. intros c r. unfold rc_mem. cbn [rc_env set_reader]. by destruct (m (rc_env c)) as [[]|]. Qed.
Lemma beside_sql {A} (m : prog rdb A) : beside (rc_sql m).
Proof. intros c r. unfold rc_sql. cbn [rc_db set_reader]. by destruct (m (rc_db c)) as [[]|]. Qed.
Lemma beside_protobuf {A} (m : prog protobuf_context A) : beside (rc_protobuf m).
Proof. intros c r. unfold rc_protobuf. cbn [rc_env rc_pipe set_reader]. by destruct (m _) as [[]|]. Qed.
Lemma beside_sqlite ps : beside (save_sqlite_packet ps).
Proof.
  induction ps as [|p ps IH]; cbn [save_sqlite_packet]; [apply beside_ret|]. unfold save_sqlite_tuple_packet.
  apply beside_bind; [apply beside_bind; [apply beside_sql|done]|]. intros a. by destruct (a <? 0).
Qed.
Lemma beside_save h data : beside (save h data).
Proof.
  unfold save_decoded_packet, save_packet_array. apply beside_bind; [done|]. intros id.
  apply beside_bind; [apply beside_mem|]. intros x. destruct (x.1 <? 0); [done|]. apply beside_bind; [|intros a; by destruct (a <? 0)].
  destruct to_pipe; (apply beside_bind; [|done]); [apply beside_protobuf|apply beside_sqlite].
Qed.

(** ** A read *)

Definition in_memory (e : env) (c : ctx) : ctx := set_out (rc_db c) (rc_pipe c) e c.
Lemma rc_malloc (c : ctx) : exists ok e, rc_mem malloc c = Done (ok, in_memory e c) /\ (mallocs (rc_env c) = [] -> ok = true /\ e = rc_env c).
Proof.
  destruct (malloc_done (rc_env c)) as (ok & e & E & _ & H). exists ok, e. unfold rc_mem. by rewrite E.
Qed.

(** The reader behind a read of [k] bytes. *)
Definition got (k : nat) (r : reader) : reader :=
  let r1 := with_stream (drop k (stream r)) (tl (chunks r)) (u64 (total_size r + Z.of_nat k)) r in
  if (k =? 0)%nat then r1
  else with_data (take (Z.to_nat (data_size r)) (pcap_data r) ++ take k (stream r)) (data_size r + Z.of_nat k) r1.
Definition sized (r : reader) : Prop := 0 <= data_size r <= zlen (pcap_data r).

Lemma fread_le n r : (fread_size n r <= length (stream r))%nat.
Proof. unfold fread_size. lia. Qed.
Lemma moved_wr (pd data : list Z) d : 0 <= d <= zlen pd ->
  wr (take (Z.to_nat (zlen data + d)) (pd ++ zeros (Z.to_nat (zlen data + d)))) d data = Done (take (Z.to_nat d) pd ++ data).
Proof.
  intros Hd. pose proof (zlen_nonneg data). apply wr_done. split; [lia|].
  assert (length (take (Z.to_nat (zlen data + d)) (pd ++ zeros (Z.to_nat (zlen data + d)))) = Z.to_nat (zlen data + d)) as Hl.
  { rewrite length_take, length_app. unfold zeros. rewrite length_replicate. lia. }
  split; [unfold zlen at 2; rewrite Hl; lia|]. rewrite take_take, take_app_le by (unfold zlen in *; lia).
  rewrite (drop_ge (take _ _)) by (rewrite Hl; unfold zlen; lia). rewrite app_nil_r.
  by rewrite Nat.min_l by (unfold zlen; lia).
Qed.

Lemma read_pcap_run n (c : ctx) : sized (rc_reader c) ->
  exists x r' e, read_pcap n c = Done (x, set_reader r' (in_memory e c)) /\
    let k := fread_size n (rc_reader c) in
    ((x = -1 /\ sized r' /\ rstate r' = rstate (rc_reader c)) \/ (x = Z.of_nat k /\ r' = got k (rc_reader c))) /\
    (mallocs (rc_env c) = [] -> x = Z.of_nat k /\ r' = got k (rc_reader c) /\ e = rc_env c).
Proof.
  intros Hs. set (k := fread_size n (rc_reader c)). pose proof (fread_le n (rc_reader c)) as Hk. fold k in Hk.
  destruct (rc_malloc c) as (ok & e1 & E1 & H1). unfold read_pcap, read_pcap_stream_fd.
  destruct ok; cycle 1.
  { exists (-1), (rc_reader c), e1. erewrite bind_run by (erewrite bind_run by exact E1; done). split; [done|]. cbv zeta. split; [by left|].
    intros Hm. by destruct (H1 Hm). }
  erewrite bind_run; [|erewrite bind_run by exact E1; cbn [negb]; erewrite bind_run by done; erewrite bind_run by done; reflexivity].
  cbv beta iota. change (rc_reader (in_memory e1 c)) with (rc_reader c). fold k.
  assert (zlen (take k (stream (rc_reader c))) = Z.of_nat k) as Hz by (unfold zlen; rewrite length_take; lia). rewrite Hz.
  erewrite bind_run by done. cbv zeta. erewrite bind_run by done. cbn [set_reader rc_reader with_stream stream chunks total_size data_size pcap_data].
  clearbody k. set (r1 := with_stream _ _ _ _). destruct (Z.ltb_spec 0 (Z.of_nat k)) as [Hp|Hz0]; cycle 1.
  { assert (k = 0)%nat as -> by lia. exists 0, (got 0 (rc_reader c)), e1.
    split; [reflexivity|]. split; [by right|]. intros Hm. by destruct (H1 Hm) as [_ ->]. }
  destruct (rc_malloc (set_reader r1 (in_memory e1 c))) as (ok2 & e2 & E2 & H2). erewrite bind_run by exact E2.
  destruct ok2; cbn [negb]; cycle 1.
  { exists (-1), r1, e2. split; [done|]. split; [by left|]. intros Hm. destruct (H1 Hm) as [_ ->]. by destruct (H2 Hm). }
  pose proof (moved_wr (pcap_data (rc_reader c)) (take k (stream (rc_reader c))) (data_size (rc_reader c)) Hs) as Ew. rewrite Hz in Ew.
  erewrite bind_run by (etrans; [eapply (f_equal (fun o => lift_outcome o _)); exact Ew|apply lift_run]). erewrite bind_run by done.
  exists (Z.of_nat k), (got k (rc_reader c)), e2. split.
  { unfold got. rewrite (proj2 (Nat.eqb_neq _ _)) by lia. rewrite (Z.add_comm (data_size _)). done. }
  split; [by right|]. intros Hm. destruct (H1 Hm) as [_ ->]. by destruct (H2 Hm) as [_ ->].
Qed.

Lemma got_facts k r : (k <= length (stream r))%nat -> sized r ->
  sized (got k r) /\ data_size (got k r) = data_size r + Z.of_nat k /\ length (stream (got k r)) = (length (stream r) - k)%nat /\
  rstate (got k r) = rstate r /\ pkt_header (got k r) = pkt_header r.
Proof.
  intros Hk [H0 H1]. unfold got, sized. destruct (Nat.eqb_spec k 0) as [->|Hn]; cbn [with_stream with_data data_size pcap_data stream rstate pkt_header].
  - rewrite length_drop. split; [done|]. split; [lia|]. by split.
  - rewrite length_drop. split; [|done]. unfold zlen in *. rewrite length_app, !length_take. lia.
Qed.

(** The three states that read have one form. *)
Definition part (size : reader -> Z) (k : reader -> Rc Z) : Rc Z :=
  r ← get_reader;
  read_size ← read_pcap (missing (size r) r);
  if read_size <? 0 then mret (-1)
  else
    r ← get_reader;
    if size r <=? data_size r then k r
    else if read_size =? 0 then _ ← put_reader (with_state PCAP_FILE_STATE_FIN r); mret 0
    else mret 0.
Definition file_header_part (r : reader) : Rc Z :=
  bs ← lift_outcome (rd (pcap_data r) 0 pcap_header_size);
  let header := file_header_of bs in
  let r := with_data (pcap_data r) 0 (with_headers header (pkt_header r) r) in
  if negb (magic header =? PCAP_MAGIC_VALUE) then _ ← put_reader r; mret (-1)
  else _ ← put_reader (with_state PCAP_FILE_STATE_READ_PKT_HEADER r); mret 0.
Definition pkt_header_part (r : reader) : Rc Z :=
  bs ← lift_outcome (rd (pcap_data r) 0 pkt_header_size);
  let header := pkthdr32_of bs in
  let r := with_headers (pcap_header r) header r in
  if len header <? caplen header then _ ← put_reader r; mret (-1)
  else _ ← put_reader (with_state PCAP_FILE_STATE_READ_PACKET (with_data (pcap_data r) 0 r)); mret 0.
Definition packet_part (r : reader) : Rc Z :=
  ret ← save_raw_packet to_pipe ifname out_path;
  if ret <? 0 then mret (-1)
  else
    r ← get_reader;
    _ ← put_reader (with_state PCAP_FILE_STATE_READ_PKT_HEADER (with_data (pcap_data r) 0 r));
    mret 0.
Definition part_of (s : PCAP_FILE_STATE) : Rc Z :=
  match s with
  | PCAP_FILE_STATE_READ_PCAP_HEADER => part (fun _ => pcap_header_size) file_header_part
  | PCAP_FILE_STATE_READ_PKT_HEADER => part (fun _ => pkt_header_size) pkt_header_part
  | _ => part (fun r => caplen (pkt_header r)) packet_part
  end.
Lemma step_part (c : ctx) : rstate (rc_reader c) <> PCAP_FILE_STATE_INIT -> rstate (rc_reader c) <> PCAP_FILE_STATE_FIN ->
  step c = (x ← part_of (rstate (rc_reader c)); mret (if x <? 0 then -1 else 1)) c.
Proof. intros Hi Hf. unfold process_file_stream_state. erewrite bind_run by done. cbv beta. by destruct (rstate (rc_reader c)). Qed.

(** What a state does that does not fail. *)
Lemma part_done size k (c : ctx) y c' : (forall r r', pkt_header r' = pkt_header r -> size r' = size r) -> sized (rc_reader c) ->
  part size k c = Done (y, c') -> 0 <= y ->
  exists n e, let r1 := got n (rc_reader c) in (n <= length (stream (rc_reader c)))%nat /\
    ((size (rc_reader c) <= data_size r1 /\ k r1 (set_reader r1 (in_memory e c)) = Done (y, c')) \/
     (data_size r1 < size (rc_reader c) /\ n = 0%nat /\ rc_reader c' = with_state PCAP_FILE_STATE_FIN r1) \/
     (data_size r1 < size (rc_reader c) /\ n <> 0%nat /\ rc_reader c' = r1)).
Proof.
  intros Hsz Hs H Hy. unfold part in H. erewrite bind_run in H by done. cbv beta in H.
  destruct (read_pcap_run (missing (size (rc_reader c)) (rc_reader c)) c Hs) as (x & r' & e & E & Hx & _). cbv zeta in Hx.
  set (n := fread_size _ _) in *. pose proof (fread_le (missing (size (rc_reader c)) (rc_reader c)) (rc_reader c)) as Hn. fold n in Hn.
  erewrite bind_run in H by exact E. destruct Hx as [[-> _]|[-> ->]]; [cbn in H; injection H as <- _; lia|].
  rewrite (proj2 (Z.ltb_ge _ _)) in H by lia. erewrite bind_run in H by done. cbn [set_reader rc_reader] in H.
  destruct (got_facts n (rc_reader c) Hn Hs) as (_ & _ & _ & _ & Hph). rewrite (Hsz _ _ Hph) in H.
  exists n, e. cbv zeta. split; [done|]. destruct (Z.leb_spec (size (rc_reader c)) (data_size (got n (rc_reader c)))) as [Hd|Hd]; [by left|].
  right. destruct (Z.eqb_spec (Z.of_nat n) 0) as [Hz|Hz]; [left|right]; (split; [done|split; [lia|]]).
  - erewrite bind_run in H by done. by injection H as _ <-.
  - by injection H as _ <-.
Qed.

(** ** The end *)

Definition rank (s : PCAP_FILE_STATE) : nat :=
  match s with
  | PCAP_FILE_STATE_INIT => 4 | PCAP_FILE_STATE_READ_PCAP_HEADER => 3 | PCAP_FILE_STATE_READ_PACKET => 2
  | PCAP_FILE_STATE_READ_PKT_HEADER => 1 | PCAP_FILE_STATE_FIN => 0
  end.
(** Every byte is looked at once, and no packet has less than a header. *)
Definition measure (c : ctx) : nat := 2 * length (stream (rc_reader c)) + rank (rstate (rc_reader c)).
Definition reader_ok (r : reader) : Prop :=
  rstate r = PCAP_FILE_STATE_INIT \/ (sized r /\ (rstate r = PCAP_FILE_STATE_READ_PKT_HEADER -> data_size r < pkt_header_size)).

Lemma set_reader_id (c : ctx) : set_reader (rc_reader c) c = c.
Proof. by destruct c. Qed.
Lemma beside_reader {A} (m : Rc A) c a c' : beside m -> m c = Done (a, c') -> rc_reader c' = rc_reader c.
Proof. intros Hm H. pose proof (Hm c (rc_reader c)) as E. rewrite set_reader_id, H in E. injection E as E. by rewrite E. Qed.
Lemma beside_raw r : beside (n ← save (get_packet_header r) (pcap_data r); if n <? 0 then mret (-1) else _ ← count_packets n; mret 0).
Proof. apply beside_bind; [apply beside_save|]. intros n. by destruct (n <? 0). Qed.
Lemma raw_reader (c : ctx) y c' : save_raw_packet to_pipe ifname out_path c = Done (y, c') -> rc_reader c' = rc_reader c.
Proof. apply (beside_reader _ _ _ _ (beside_raw (rc_reader c))). Qed.

(** The readers behind the parts. *)
Lemma file_header_done r (c : ctx) y c' : file_header_part r c = Done (y, c') -> 0 <= y ->
  stream (rc_reader c') = stream r /\ rstate (rc_reader c') = PCAP_FILE_STATE_READ_PKT_HEADER /\ data_size (rc_reader c') = 0.
Proof.
  unfold file_header_part. destruct (rd _ _ _); [|done]. erewrite bind_run by apply lift_run. cbv zeta. destruct (negb _).
  - intros [= <- _]. lia.
  - by intros [= _ <-].
Qed.
Lemma pkt_header_done r (c : ctx) y c' : pkt_header_part r c = Done (y, c') -> 0 <= y ->
  stream (rc_reader c') = stream r /\ rstate (rc_reader c') = PCAP_FILE_STATE_READ_PACKET /\ data_size (rc_reader c') = 0.
Proof.
  unfold pkt_header_part. destruct (rd _ _ _); [|done]. erewrite bind_run by apply lift_run. cbv zeta. destruct (_ <? _).
  - intros [= <- _]. lia.
  - by intros [= _ <-].
Qed.
Lemma packet_done r (c : ctx) y c' : packet_part r c = Done (y, c') -> 0 <= y ->
  stream (rc_reader c') = stream (rc_reader c) /\ rstate (rc_reader c') = PCAP_FILE_STATE_READ_PKT_HEADER /\ data_size (rc_reader c') = 0.
Proof.
  unfold packet_part. intros H Hy. apply bind_done in H as (x & c1 & E & H). apply raw_reader in E. destruct (x <? 0); [injection H as <- _; lia|].
  injection H as _ <-. cbn. by rewrite E.
Qed.

Lemma reset_ok r : data_size r = 0 -> reader_ok r.
Proof. intros E. right. split; [unfold sized; rewrite E; pose proof (zlen_nonneg (pcap_data r)); lia|]. intros _. rewrite E. done. Qed.
Lemma step_measure (c c' : ctx) : reader_ok (rc_reader c) -> step c = Done (1, c') -> reader_ok (rc_reader c') /\ (measure c' < measure c)%nat.
Proof.
  intros Hok H. destruct (decide (rstate (rc_reader c) = PCAP_FILE_STATE_INIT)) as [Ei|Ei].
  { unfold process_file_stream_state in H. erewrite bind_run in H by done. cbv beta in H. rewrite Ei in H.
    destruct (rc_malloc c) as (ok & e & E & _). erewrite bind_run in H by exact E. destruct ok; [|done]. injection H as <-.
    split; [by apply reset_ok|]. unfold measure. cbn. rewrite Ei. cbn. lia. }
  destruct (decide (rstate (rc_reader c) = PCAP_FILE_STATE_FIN)) as [Ef|Ef].
  { unfold process_file_stream_state in H. erewrite bind_run in H by done. cbv beta in H. by rewrite Ef in H. }
  rewrite step_part in H by done. destruct Hok as [?|[Hs Hb]]; [done|]. apply bind_done in H as (y & c1 & H & Hy).
  assert (0 <= y) as Hy0 by (destruct (Z.ltb_spec y 0); [done|lia]). assert (c1 = c') as -> by (by destruct (y <? 0); injection Hy). clear Hy.
  set (r := rc_reader c) in *.
  assert (forall n r2, (n <= length (stream r))%nat -> rc_reader c' = got n r -> n <> 0%nat ->
    (rstate r = PCAP_FILE_STATE_READ_PKT_HEADER -> data_size (got n r) < pkt_header_size) -> r2 = rc_reader c' -> reader_ok r2 /\ (measure c' < measure c)%nat) as Hgo.
  { intros n r2 Hn Er Hn0 Hd ->. rewrite Er. destruct (got_facts n r Hn Hs) as (Hs' & _ & Hl & Hst & _). unfold measure. fold r. rewrite Er, Hl, Hst.
    split; [|lia]. right. by rewrite Hst. }
  assert (forall n, (n <= length (stream r))%nat -> rc_reader c' = with_state PCAP_FILE_STATE_FIN (got n r) ->
    reader_ok (rc_reader c') /\ (measure c' < measure c)%nat) as Hfin.
  { intros n Hn Er. rewrite Er. destruct (got_facts n r Hn Hs) as (Hs' & _ & Hl & _). split; [by right|]. unfold measure. fold r. rewrite Er.
    cbn [with_state stream rstate rank]. rewrite Hl. destruct (rstate r); cbn; done || lia. }
  assert (forall n s, (n <= length (stream r))%nat -> length (stream (rc_reader c')) = (length (stream r) - n)%nat -> rstate (rc_reader c') = s ->
    data_size (rc_reader c') = 0 -> (rank s < 2 * n + rank (rstate r))%nat -> reader_ok (rc_reader c') /\ (measure c' < measure c)%nat) as Hnext.
  { intros n s Hn Hl Es Ed Hr. split; [by apply reset_ok|]. unfold measure. fold r. rewrite Hl, Es. lia. }
  destruct (rstate r) eqn:Est; try done; cbn [part_of] in H; (apply part_done in H as (n & e & Hn & H); [|by (done || by intros ? ? ->)..]);
    destruct (got_facts n r Hn Hs) as (_ & Hd & Hl & _); fold r in H;
    (destruct H as [[Hge H]|[(Hlt & -> & Er)|(Hlt & Hn0 & Er)]]; [|by eapply Hfin|by eapply Hgo]).
  - apply file_header_done in H as (E1 & E2 & E3); [|done]. eapply (Hnext n); [done|by rewrite E1|done|done|cbn; lia].
  - apply pkt_header_done in H as (E1 & E2 & E3); [|done]. specialize (Hb eq_refl). eapply (Hnext n); [done|by rewrite E1|done|done|cbn; lia].
  - apply packet_done in H as (E1 & E2 & E3); [|done]. eapply (Hnext n); [done|by rewrite E1|done|done|cbn; lia].
Qed.

Lemma step_value (c c' : ctx) x : step c = Done (x, c') -> x = 1 \/ x <= 0.
Proof.
  unfold process_file_stream_state. intros H. erewrite bind_run in H by done. cbv beta in H.
  destruct (rstate (rc_reader c)); prog_inv; try (by right); try (destruct (_ <? 0); by (left + right)).
  destruct x0; cbn [negb] in H; prog_inv; by (left + right).
Qed.
#[local] Abbreviation loop := (stream_loop to_pipe ifname out_path).
Lemma loop_more fuel (c c' : ctx) : step c = Done (1, c') -> loop (S fuel) c = loop fuel c'.
Proof. intros H. cbn [stream_loop]. by erewrite bind_run by exact H. Qed.
Lemma loop_stop fuel (c c' : ctx) x : step c = Done (x, c') -> x <= 0 -> loop (S fuel) c = Done (Some 0, c').
Proof. intros H Hx. cbn [stream_loop]. erewrite bind_run by exact H. cbv zeta. by rewrite (proj2 (Z.ltb_ge _ _)) by done. Qed.
Lemma loop_fault fuel (c : ctx) f : step c = Fault f -> loop (S fuel) c = Fault f.
Proof. intros H. cbn [stream_loop]. unfold mbind, prog_bind. by rewrite H. Qed.

Lemma loop_ends fuel : forall c : ctx, reader_ok (rc_reader c) -> (measure c < fuel)%nat ->
  (exists c', loop fuel c = Done (Some 0, c')) \/ (exists f, loop fuel c = Fault f).
Proof.
  induction fuel as [|fuel IH]; intros c Hok Hm; [lia|]. destruct (step c) as [[x c']|f] eqn:E; [|right; exists f; by apply loop_fault].
  destruct (step_value _ _ _ E) as [->|Hx]; [|left; exists c'; by eapply loop_stop]. rewrite (loop_more _ _ _ E).
  destruct (step_measure c c' Hok E). apply IH; [done|lia].
Qed.
(** More fuel makes no difference. *)
Lemma loop_fuel n : forall m (c : ctx), reader_ok (rc_reader c) -> (measure c < n)%nat -> (measure c < m)%nat -> loop n c = loop m c.
Proof.
  induction n as [|n IH]; intros [|m] c Hok Hn Hm; try lia. destruct (step c) as [[x c']|f] eqn:E; [|by rewrite !(loop_fault _ _ _ E)].
  destruct (step_value _ _ _ E) as [->|Hx]; [|by rewrite !(loop_stop _ _ _ _ E)]. rewrite !(loop_more _ _ _ E).
  destruct (step_measure c c' Hok E) as [Hok' Hm']. apply IH; [done|lia|lia].
Qed.

(** The tool stops on every stream, whatever its bytes are, however it is cut
    and whatever memory there is: after at most two steps for each byte the
    loop ends or the process has crashed in a decoder. *)
Theorem recap_stops (c : ctx) : rstate (rc_reader c) = PCAP_FILE_STATE_INIT ->
  exists r, stream_loop to_pipe ifname out_path (2 * length (stream (rc_reader c)) + 5) c = r /\
    match r with Done (ret, _) => ret = Some 0 | Fault _ => True end /\
    forall fuel, (2 * length (stream (rc_reader c)) + 5 <= fuel)%nat -> stream_loop to_pipe ifname out_path fuel c = r.
Proof.
  intros Hi. eexists. split; [reflexivity|]. assert (reader_ok (rc_reader c)) as Hok by by left.
  assert (measure c < 2 * length (stream (rc_reader c)) + 5)%nat as Hm by (unfold measure; rewrite Hi; cbn [rank]; lia). split.
  - by destruct (loop_ends _ c Hok Hm) as [(c' & ->)|(f & ->)].
  - intros fuel Hf. apply loop_fuel; [done|lia|done].
Qed.

Lemma loop_extend n : forall m (c : ctx) res, loop n c = res -> (forall z, res <> Done (None, z)) -> (n <= m)%nat -> loop m c = res.
Proof.
  induction n as [|n IH]; intros m c res H Hres Hm; [by destruct (Hres c)|]. destruct m as [|m]; [lia|].
  destruct (step c) as [[x c']|f] eqn:E; [|rewrite (loop_fault _ _ _ E) in H; by rewrite (loop_fault _ _ _ E)].
  destruct (step_value _ _ _ E) as [->|Hx]; [|rewrite (loop_stop _ _ _ _ E Hx) in H; by rewrite (loop_stop _ _ _ _ E Hx)].
  rewrite (loop_more _ _ _ E) in H. rewrite (loop_more _ _ _ E). apply IH; [done|done|lia].
Qed.
Lemma loop_result n fuel (c : ctx) res : reader_ok (rc_reader c) -> (measure c < fuel)%nat -> loop n c = res -> (forall z, res <> Done (None, z)) ->
  loop fuel c = res.
Proof.
  intros Hok Hf Hn Hres. rewrite (loop_fuel fuel (Nat.max n fuel) c Hok) by lia. apply (loop_extend n); [done|done|lia].
Qed.

Lemma loop_zero fuel : forall (c c' : ctx) z, loop fuel c = Done (Some z, c') -> z = 0.
Proof.
  induction fuel as [|fuel IH]; intros c c' z H; [done|]. destruct (step c) as [[x c1]|f] eqn:E; [|by rewrite (loop_fault _ _ _ E) in H].
  destruct (step_value _ _ _ E) as [->|Hx]; [rewrite (loop_more _ _ _ E) in H; by eapply IH|]. rewrite (loop_stop _ _ _ _ E Hx) in H. by injection H.
Qed.

(** An error on the way, a file of another format or a packet that could not be
    saved, is not reported: when the file could be opened the result is 0. *)
Theorem recap_hides_errors fuel (c c' : ctx) ret :
  process_file_stream to_pipe ifname out_path fuel true c = Done (ret, c') -> ret = 0.
Proof.
  unfold process_file_stream. intros H. cbn [negb] in H. apply bind_done in H as (o & c1 & E & H). destruct o as [z|]; [|done].
  apply loop_zero in E as ->. by injection H as <- _.
Qed.

(** ** Pieces *)

Definition steps : relation ctx := rtc (fun c c' => step c = Done (1, c')).
Definition cut_ok (r : reader) : Prop := Forall (fun k => (0 < k)%nat) (chunks r).
(** [r] has read the bytes of [pre] since the last part. *)
Record holds (r : reader) (pre : list Z) : Prop := {
  ho_size : data_size r = zlen pre;
  ho_data : take (length pre) (pcap_data r) = pre
}.
Lemma holds_sized r pre : holds r pre -> sized r.
Proof. intros [Hs Hd]. unfold sized. rewrite Hs. unfold zlen. apply (f_equal length) in Hd. rewrite length_take in Hd. lia. Qed.

Lemma got_holds r pre rest tail k : holds r pre -> stream r = rest ++ tail -> (0 < k <= length rest)%nat -> cut_ok r ->
  let r' := got k r in
  holds r' (pre ++ take k rest) /\ pcap_data r' = pre ++ take k rest /\ stream r' = drop k rest ++ tail /\ cut_ok r' /\
  rstate r' = rstate r /\ pkt_header r' = pkt_header r.
Proof.
  intros [Hs Hd] Hst Hk Hc. cbv zeta. unfold got. rewrite (proj2 (Nat.eqb_neq _ _)) by lia.
  cbn [with_stream with_data data_size pcap_data stream rstate pkt_header chunks]. rewrite Hs, to_nat_zlen, Hd, Hst, take_app_le, drop_app_le by lia.
  split; [split; cbn; [rewrite zlen_app; unfold zlen; rewrite length_take; lia|by rewrite take_ge]|]. repeat (split; [done|]). split; [|done].
  unfold cut_ok in *. cbn. destruct (chunks r); [done|]. by inversion Hc.
Qed.

(** A part is read in pieces, and then dealt with as if it had been there at
    once. *)
Lemma gather size k n : forall pre rest tail (c : ctx), (length rest <= n)%nat -> rest <> [] -> mallocs (rc_env c) = [] -> cut_ok (rc_reader c) ->
  rstate (rc_reader c) <> PCAP_FILE_STATE_INIT -> rstate (rc_reader c) <> PCAP_FILE_STATE_FIN ->
  part_of (rstate (rc_reader c)) = part size k -> (forall r r', pkt_header r' = pkt_header r -> size r' = size r) ->
  size (rc_reader c) = zlen (pre ++ rest) -> holds (rc_reader c) pre -> stream (rc_reader c) = rest ++ tail ->
  exists r' c0, steps c c0 /\ step c0 = (x ← k r'; mret (if x <? 0 then -1 else 1)) (set_reader r' c) /\
    pcap_data r' = pre ++ rest /\ stream r' = tail /\ cut_ok r' /\ pkt_header r' = pkt_header (rc_reader c).
Proof.
  induction n as [|n IH]; intros pre rest tail c Hn Hr Hm Hc Hi Hf Hp Hsz Hsize Hh Hst; [by destruct rest; cbn in Hn; [|lia]|].
  destruct (read_pcap_run (missing (size (rc_reader c)) (rc_reader c)) c (holds_sized _ _ Hh)) as (x & r' & e & E & _ & Hx).
  destruct (Hx Hm) as (-> & -> & ->). clear Hx. set (j := fread_size _ _) in *.
  assert (missing (size (rc_reader c)) (rc_reader c) = zlen rest) as Hmiss.
  { unfold missing. rewrite (ho_size _ _ Hh), Hsize, zlen_app. destruct rest; [done|]. rewrite zlen_cons. pose proof (zlen_nonneg rest).
    rewrite (proj2 (Z.ltb_lt _ _)) by lia. lia. }
  assert (0 < j <= length rest)%nat as Hj.
  { assert (0 < length rest)%nat by (destruct rest; [done|cbn; lia]). unfold j, fread_size. rewrite Hmiss, to_nat_zlen, Hst, length_app.
    unfold cut_ok in Hc. destruct (chunks (rc_reader c)); [lia|]. inversion Hc. lia. }
  destruct (got_holds _ _ _ _ j Hh Hst Hj Hc) as (Hh' & Hd' & Hst' & Hc' & Hrs & Hph). set (r1 := got j (rc_reader c)) in *.
  assert (step c = (x ← (if zlen (pre ++ rest) <=? data_size r1 then k r1 else mret 0); mret (if x <? 0 then -1 else 1)) (set_reader r1 c)) as Estep.
  { rewrite step_part, Hp by done.
    enough (part size k c = (if zlen (pre ++ rest) <=? data_size r1 then k r1 else mret 0) (set_reader r1 c)) as Ep
      by (unfold mbind, prog_bind; by rewrite Ep).
    unfold part. erewrite bind_run by done. cbv beta. erewrite bind_run by exact E. rewrite (proj2 (Z.ltb_ge _ _)) by lia.
    erewrite bind_run by done. cbn [set_reader rc_reader]. rewrite (Hsz _ _ Hph), Hsize.
    destruct (_ <=? _); [by destruct c|]. rewrite (proj2 (Z.eqb_neq _ _)) by lia. by destruct c. }
  rewrite (ho_size _ _ Hh'), !zlen_app in Estep. destruct (decide (j = length rest)) as [Ej|Ej].
  - exists r1, c. split; [apply rtc_refl|]. rewrite (take_ge rest j) in * by lia. rewrite (proj2 (Z.leb_le _ _)) in Estep by lia.
    rewrite (drop_ge rest j) in Hst' by lia. split; [exact Estep|]. done.
  - rewrite (proj2 (Z.leb_gt _ _)) in Estep by (unfold zlen; rewrite length_take; lia).
    destruct (IH (pre ++ take j rest) (drop j rest) tail (set_reader r1 c)) as (r2 & c0 & Hs & E0 & H1 & H2 & H3 & H4).
    + rewrite length_drop. lia.
    + intros H%(f_equal length). rewrite length_drop in H. cbn in H. lia.
    + done.
    + done.
    + by rewrite <- Hrs in Hi.
    + by rewrite <- Hrs in Hf.
    + cbn [set_reader rc_reader]. by rewrite Hrs.
    + done.
    + cbn [set_reader rc_reader]. rewrite (Hsz _ _ Hph), Hsize, <- app_assoc. by rewrite take_drop.
    + done.
    + done.
    + exists r2, c0. split; [eapply rtc_l; [exact Estep|exact Hs]|]. rewrite <- app_assoc, take_drop in H1. cbn [set_reader rc_reader] in H4.
      rewrite Hph in H4. done.
Qed.

(** ** The packets of a capture *)

(** One packet after the other, up to the first that cannot be saved. *)
Fixpoint save_packets (ps : list packet) : Rc Z :=
  match ps with
  | [] => mret 0
  | p :: ps =>
      n ← save (p_header p) (p_data p);
      if n <? 0 then mret (-1) else _ ← count_packets n; save_packets ps
  end.

Definition in_mem (c : ctx) : Prop := mallocs (rc_env c) = [].
Lemma keeps_mem {A} (m : prog env A) : keeps (fun e => mallocs e = []) m -> keeps in_mem (rc_mem m).
Proof. intros Hm c a c' Hc. unfold rc_mem. destruct (m (rc_env c)) as [[x e]|] eqn:E; [|done]. intros [= _ <-]. by eapply Hm. Qed.
Lemma keeps_sql {A} (m : prog rdb A) : keeps in_mem (rc_sql m).
Proof. intros c a c' Hc. unfold rc_sql. destruct (m (rc_db c)) as [[x d]|]; [|done]. by intros [= _ <-]. Qed.
Lemma malloc_keeps : keeps (fun e => mallocs e = []) malloc.
Proof. intros [ms r] a e He. cbn in He. subst ms. by intros [= _ <-]. Qed.

Lemma steps_loop c c' : steps c c' -> forall res fuel, loop fuel c' = res -> exists fuel', loop fuel' c = res.
Proof.
  induction 1 as [c|c c1 c' E _ IH]; intros res fuel H; [by exists fuel|]. destruct (IH res fuel H) as [fuel' H']. exists (S fuel').
  by rewrite (loop_more _ _ _ E).
Qed.

Lemma header_bytes p : packet_ok p ->
  pkthdr32_of (put_le32 (p_sec p) ++ put_le32 (p_usec p) ++ put_le32 (zlen (p_data p)) ++ put_le32 (p_len p)) = p_header p.
Proof.
  intros [H1 H2 [H3 H4]]. unfold pkthdr32_of, p_header. f_equal.
  - rewrite le32_at_app by (cbn; lia). by apply le32_put.
  - rewrite (le32_at_skip (put_le32 (p_sec p)) _ 0), le32_at_app by (cbn; lia). by apply le32_put.
  - rewrite (le32_at_skip (put_le32 (p_sec p)) _ 4), (le32_at_skip (put_le32 (p_usec p)) _ 0), le32_at_app by (cbn; lia). apply le32_put. lia.
  - rewrite (le32_at_skip (put_le32 (p_sec p)) _ 8), (le32_at_skip (put_le32 (p_usec p)) _ 4), (le32_at_skip (put_le32 (zlen (p_data p))) _ 0).
    apply le32_put. lia.
Qed.

#[local] Hint Resolve malloc_keeps : keeps.
Lemma extract_keeps h data i id tp : keeps (fun e => mallocs e = []) (extract_packets h data i id tp).
Proof.
  unfold extract_packets. apply keeps_bind; [keeps_tac|]. intros x. destruct (0 <? x.1); [|keeps_tac]. generalize (tuples (hdrs x.2)). intros l.
  revert tp. induction l as [|t l IH]; intros tp; cbn [push_tuples]; keeps_tac.
Qed.
Lemma message_keeps fs l : keeps (fun e => mallocs e = []) (encode_message fs l).
Proof. unfold encode_message. keeps_tac. Qed.
#[local] Hint Resolve extract_keeps message_keeps keeps_mem keeps_sql : keeps.
Lemma wrapper_keeps t : keeps (fun e => mallocs e = []) (encode_protobuf_sync_wrapper t).
Proof.
  unfold encode_protobuf_sync_wrapper, encode_protobuf_sync_delimited. apply keeps_bind; [destruct t; apply message_keeps|]. intros x. keeps_tac.
Qed.
Lemma pipe_keeps path ts : keeps (fun c => mallocs (pc_env c) = []) (pipe_protobuf_packets path ts).
Proof.
  induction ts as [|t ts IH]; cbn [pipe_protobuf_packets]; [keeps_tac|]. apply keeps_bind; [|keeps_tac]. unfold pipe_protobuf_tuple_packet.
  assert (forall A (m : prog pipe A), keeps (fun c => mallocs (pc_env c) = []) (pm_pipe m)) as Hp
    by (intros A m c a c' Hc; unfold pm_pipe; destruct (m (pc_pipe c)) as [[]|]; [by intros [= _ <-]|done]).
  apply keeps_bind; [|intros x; destruct (x.1 <? 0); [keeps_tac|apply keeps_bind; [apply Hp|keeps_tac]]].
  intros c a c' Hc. unfold pm_env. destruct (encode_protobuf_sync_wrapper t (pc_env c)) as [[x e]|] eqn:E; [|done]. intros [= _ <-].
  by eapply wrapper_keeps.
Qed.
Lemma save_keeps h data : keeps in_mem (save h data).
Proof.
  unfold save_decoded_packet, save_packet_array. apply keeps_bind; [by intros c a c' Hc [= _ <-]|]. intros id.
  apply keeps_bind; [apply keeps_mem, extract_keeps|]. intros x. destruct (x.1 <? 0); [keeps_tac|].
  apply keeps_bind; [|intros a; destruct (a <? 0); keeps_tac]. destruct to_pipe; (apply keeps_bind; [|keeps_tac]).
  - intros c a c' Hc. unfold rc_protobuf. destruct (pipe_protobuf_packets _ _ _) as [[y q]|] eqn:E; [|done]. intros [= _ <-].
    by eapply pipe_keeps in E.
  - generalize (x.2). intros l. induction l as [|t l IH]; cbn [save_sqlite_packet]; [keeps_tac|]. unfold save_sqlite_tuple_packet.
    apply keeps_bind; [apply keeps_bind; [apply keeps_sql|keeps_tac]|keeps_tac].
Qed.

(** The state after a whole packet, before the next. *)
Lemma packet_run p more (c : ctx) : packet_ok p -> in_mem c -> rstate (rc_reader c) = PCAP_FILE_STATE_READ_PKT_HEADER -> holds (rc_reader c) [] ->
  cut_ok (rc_reader c) -> stream (rc_reader c) = packet_bytes p ++ more ->
  exists c0 r, steps c c0 /\ step c0 = (x ← packet_part r; mret (if x <? 0 then -1 else 1)) (set_reader r c) /\
    pcap_data r = p_data p /\ pkt_header r = p_header p /\ stream r = more /\ cut_ok r.
Proof.
  intros Hp Hm Hst Hh Hc Hstr. unfold packet_bytes in Hstr. set (hb := put_le32 (p_sec p) ++ _) in Hstr. rewrite <- app_assoc in Hstr.
  destruct (gather (fun _ => pkt_header_size) pkt_header_part (length hb) [] hb (p_data p ++ more) c) as (r1 & c1 & Hs1 & E1 & Hd1 & Hst1 & Hc1 & _);
    [done|done|done|done|by rewrite Hst|by rewrite Hst|by rewrite Hst|done|done|done|done|]. cbn [app] in Hd1.
  set (r2 := with_state PCAP_FILE_STATE_READ_PACKET (with_data (pcap_data r1) 0 (with_headers (pcap_header r1) (p_header p) r1))).
  assert (step c1 = Done (1, set_reader r2 c)) as E1'.
  { rewrite E1. enough (pkt_header_part r1 (set_reader r1 c) = Done (0, set_reader r2 c)) as Ep by (by erewrite bind_run by exact Ep).
    unfold pkt_header_part. rewrite Hd1.
    change (rd hb 0 pkt_header_size) with (Done (take 16 hb)). erewrite bind_run by apply lift_run. rewrite take_ge by done. cbv zeta.
    unfold hb. rewrite header_bytes by done. destruct Hp as [_ _ [Hl _]]. cbn [p_header len caplen].
    rewrite (proj2 (Z.ltb_ge _ _)) by lia. reflexivity. }
  destruct (gather (fun r => caplen (pkt_header r)) packet_part (length (p_data p)) [] (p_data p) more (set_reader r2 c))
    as (r3 & c3 & Hs3 & E3 & Hd3 & Hst3 & Hc3 & Hph3); [done| |done|done|by cbn|by cbn|done|by intros r r' ->|done|done|done|].
  - destruct Hp as [_ _ [Hl _]]. intros E. apply (f_equal zlen) in E. change (zlen []) with 0 in E. lia.
  - exists c3, r3. split; [etrans; [exact Hs1|eapply rtc_l; [exact E1'|exact Hs3]]|]. done.
Qed.

(** The empty rest of a stream. *)
Lemma finish (c : ctx) : in_mem c -> rstate (rc_reader c) = PCAP_FILE_STATE_READ_PKT_HEADER -> holds (rc_reader c) [] -> stream (rc_reader c) = [] ->
  exists r fuel, loop fuel c = Done (Some 0, set_reader r c).
Proof.
  intros Hm Hst Hh Hs. destruct (read_pcap_run (missing pkt_header_size (rc_reader c)) c (holds_sized _ _ Hh)) as (x & r' & e & E & _ & Hx).
  destruct (Hx Hm) as (-> & -> & ->). assert (fread_size (missing pkt_header_size (rc_reader c)) (rc_reader c) = 0%nat) as Hf
    by (unfold fread_size; rewrite Hs; cbn [length]; lia). rewrite Hf in E. set (r1 := with_state PCAP_FILE_STATE_FIN (got 0 (rc_reader c))).
  assert (step c = Done (1, set_reader r1 c)) as E1.
  { rewrite step_part, Hst by (by rewrite Hst).
    enough (part_of PCAP_FILE_STATE_READ_PKT_HEADER c = Done (0, set_reader r1 c)) as Ep by (by erewrite bind_run by exact Ep).
    cbn [part_of]. unfold part. erewrite bind_run by done. cbv beta. erewrite bind_run by exact E. rewrite (proj2 (Z.ltb_ge _ _)) by lia.
    erewrite bind_run by done. cbn [set_reader rc_reader]. change (data_size (got 0 (rc_reader c))) with (data_size (rc_reader c)).
    rewrite (ho_size _ _ Hh). cbn. by destruct c. }
  exists r1, 2%nat. rewrite (loop_more _ _ _ E1). by erewrite loop_stop.
Qed.

Lemma save_packets_beside ps : beside (save_packets ps).
Proof.
  induction ps as [|p ps IH]; cbn [save_packets]; [done|]. apply beside_bind; [apply beside_save|]. intros n. destruct (n <? 0); [done|].
  by apply beside_bind.
Qed.

Lemma read_packets_run ps : forall c : ctx, Forall packet_ok ps -> in_mem c -> rstate (rc_reader c) = PCAP_FILE_STATE_READ_PKT_HEADER ->
  holds (rc_reader c) [] -> cut_ok (rc_reader c) -> stream (rc_reader c) = concat (packet_bytes <$> ps) ->
  match save_packets ps c with
  | Done (_, c') => exists r fuel, loop fuel c = Done (Some 0, set_reader r c')
  | Fault f => exists fuel, loop fuel c = Fault f
  end.
Proof.
  induction ps as [|p ps IH]; intros c Hps Hm Hst Hh Hc Hs; [by apply finish|]. apply list.Forall_cons in Hps as [Hp Hps].
  rewrite fmap_cons in Hs. cbn [concat] in Hs.
  destruct (packet_run p _ c Hp Hm Hst Hh Hc Hs) as (c0 & r & Hs0 & E0 & Hd & Hph & Hstr & Hcr). cbn [save_packets].
  assert (save_raw_packet to_pipe ifname out_path (set_reader r c) =
    (n ← save (p_header p) (p_data p); if n <? 0 then mret (-1) else _ ← count_packets n; mret 0) (set_reader r c)) as Er
    by (unfold save_raw_packet; erewrite bind_run by done; cbn [set_reader rc_reader]; unfold get_packet_header; by rewrite Hd, Hph).
  unfold mbind at 1, prog_bind at 1. destruct (save (p_header p) (p_data p) c) as [[n c1]|f] eqn:Es; cycle 1.
  { apply (steps_loop c c0 Hs0 _ 1). apply loop_fault. rewrite E0. unfold mbind, prog_bind, packet_part at 1. unfold mbind, prog_bind. rewrite Er.
    unfold mbind, prog_bind. by rewrite (beside_save _ _ c r), Es. }
  assert (in_mem c1) as Hm1 by (by eapply save_keeps).
  assert (save (p_header p) (p_data p) (set_reader r c) = Done (n, set_reader r c1)) as Es' by (by rewrite (beside_save _ _ c r), Es).
  destruct (Z.ltb_spec n 0) as [Hn|Hn].
  { destruct (steps_loop c c0 Hs0 (Done (Some 0, set_reader r c1)) 1) as [fuel H]; [|by exists r, fuel]. eapply (loop_stop _ _ _ (-1)); [|lia].
    rewrite E0. erewrite bind_run by (unfold packet_part; erewrite bind_run by (rewrite Er; erewrite bind_run by exact Es'; by rewrite (proj2 (Z.ltb_lt _ _))); done).
    done. }
  set (r2 := with_state PCAP_FILE_STATE_READ_PKT_HEADER (with_data (pcap_data r) 0 r)). set (c2 := set_packets (pq c1) (u64 (npackets c1 + n)) c1).
  assert (step c0 = Done (1, set_reader r2 c2)) as Estep.
  { rewrite E0. enough (packet_part r (set_reader r c) = Done (0, set_reader r2 c2)) as Ep by (by erewrite bind_run by exact Ep).
    unfold packet_part. erewrite bind_run by (rewrite Er; erewrite bind_run by exact Es'; by rewrite (proj2 (Z.ltb_ge _ _))). done. }
  pose proof (IH (set_reader r2 c2) Hps Hm1 eq_refl) as Hrun.
  assert (steps c (set_reader r2 c2)) as Hs2 by (eapply rtc_r; [exact Hs0|exact Estep]).
  rewrite (save_packets_beside ps c2 r2) in Hrun. erewrite bind_run by done. fold c2. destruct (save_packets ps c2) as [[x c3]|f].
  - destruct Hrun as (r' & fuel & H); [done|done|done|]. destruct (steps_loop _ _ Hs2 _ _ H) as [fuel' H']. exists r', fuel'. exact H'.
  - destruct Hrun as (fuel & H); [done|done|done|]. by apply (steps_loop _ _ Hs2 _ _ H).
Qed.

(** On the bytes of a capture the tool does what saving its packets one after
    the other does, however the stream is cut into pieces. *)
Lemma file_run hdr ps fuel (c : ctx) : rstate (rc_reader c) = PCAP_FILE_STATE_INIT -> in_mem c -> cut_ok (rc_reader c) -> length hdr = 20%nat ->
  stream (rc_reader c) = file_bytes hdr ps -> Forall packet_ok ps -> (2 * length (stream (rc_reader c)) + 5 <= fuel)%nat ->
  match save_packets ps (set_packets (pq c) 0 c) with
  | Done (_, c') => exists r, process_file_stream to_pipe ifname out_path fuel true c = Done (0, set_reader r c')
  | Fault f => process_file_stream to_pipe ifname out_path fuel true c = Fault f
  end.
Proof.
  intros Hi Hm Hc Hl Hs Hps Hf. set (c0 := set_packets (pq c) 0 c). set (r0 := init_reader (rc_reader c)).
  assert (step c = Done (1, set_reader r0 c0)) as E0.
  { unfold process_file_stream_state. erewrite bind_run by done. cbv beta. rewrite Hi. destruct (rc_malloc c) as (ok & e & E & H).
    destruct (H Hm) as [-> ->]. erewrite bind_run by exact E. by destruct c. }
  unfold file_bytes in Hs. set (fh := put_le32 PCAP_MAGIC_VALUE ++ hdr) in Hs.
  assert (zlen fh = 24) as Hfh by (unfold fh, zlen; rewrite length_app, Hl; done).
  destruct (gather (fun _ => pcap_header_size) file_header_part (length fh) [] fh (concat (packet_bytes <$> ps)) (set_reader r0 c0))
    as (r1 & c1 & Hs1 & E1 & Hd1 & Hst1 & Hc1 & _); [done|done|done|done|by cbn|by cbn|done|done|by cbn [app]; rewrite Hfh|done|done|]. cbn [app] in Hd1.
  set (r2 := with_state PCAP_FILE_STATE_READ_PKT_HEADER (with_data (pcap_data r1) 0 (with_headers (file_header_of fh) (pkt_header r1) r1))).
  assert (step c1 = Done (1, set_reader r2 c0)) as E1'.
  { rewrite E1. change (set_reader r1 (set_reader r0 c0)) with (set_reader r1 c0).
    enough (file_header_part r1 (set_reader r1 c0) = Done (0, set_reader r2 c0)) as Ep by (by erewrite bind_run by exact Ep).
    unfold file_header_part. rewrite Hd1. assert (rd fh 0 pcap_header_size = Done fh) as ->
      by (rewrite <- (app_nil_r fh) at 1; unfold pcap_header_size; rewrite <- Hfh; by apply (rd_app [] fh [])).
    erewrite bind_run by apply lift_run. cbv zeta. assert (magic (file_header_of fh) = PCAP_MAGIC_VALUE) as ->; [|unfold r2; rewrite Hd1; reflexivity].
    unfold file_header_of, fh. cbn [magic]. rewrite le32_at_app by (cbn; lia). by apply le32_put. }
  assert (steps c (set_reader r2 c0)) as Hst by (eapply rtc_l; [exact E0|]; etrans; [exact Hs1|]; apply rtc_once, E1').
  pose proof (read_packets_run ps (set_reader r2 c0) Hps Hm eq_refl) as Hrun. rewrite (save_packets_beside ps c0 r2) in Hrun.
  assert (measure c < fuel)%nat as Hmf by (unfold measure; rewrite Hi; cbn [rank]; lia).
  unfold process_file_stream. cbn [negb]. destruct (save_packets ps c0) as [[x c']|f].
  - destruct Hrun as (r & n & H); [done|done|done|]. destruct (steps_loop _ _ Hst _ _ H) as [n' H']. exists r.
    by erewrite bind_run by (apply (loop_result n'); [by left|done|exact H'|done]).
  - destruct Hrun as (n & H); [done|done|done|]. destruct (steps_loop _ _ Hst _ _ H) as [n' H'].
    unfold mbind, prog_bind. by rewrite (loop_result n' fuel c (Fault f)) by (by left || done).
Qed.

(** C18. On the bytes of a capture the tool does what saving its packets one after
    the other does, up to the first that cannot be saved, however the stream is
    cut into pieces. *)
Theorem recap_reads_file hdr ps fuel (c : ctx) : rstate (rc_reader c) = PCAP_FILE_STATE_INIT -> mallocs (rc_env c) = [] ->
  Forall (fun k => (0 < k)%nat) (chunks (rc_reader c)) -> length hdr = 20%nat -> stream (rc_reader c) = file_bytes hdr ps ->
  Forall packet_ok ps -> (2 * length (stream (rc_reader c)) + 5 <= fuel)%nat ->
  match save_packets ps (set_packets (pq c) 0 c) with
  | Done (_, c') => exists r, process_file_stream to_pipe ifname out_path fuel true c = Done (0, set_reader r c')
  | Fault f => process_file_stream to_pipe ifname out_path fuel true c = Fault f
  end.
Proof. apply file_run. Qed.
End machine.

(** ** The database *)

Lemma key_text (t : tuple_packet) id : CText id ∈ cells (t_key (ct_table (tuple_table t))) (tuple_row t) -> id = tuple_id t.
Proof.
  destruct t; cbn; intros H; repeat (apply elem_of_cons in H as [H|H]; [try discriminate H; by injection H|]); by apply elem_of_nil in H.
Qed.

(** The tables are there, and none of the identifiers is used. *)
Definition ready (ids : list (list Z)) (T : gmap (list Z) (list row)) : Prop :=
  forall ct, ct ∈ header_tables -> exists l, T !! t_name (ct_table ct) = Some l /\ Forall (fun id => unused id ct l) ids.
Lemma ready_record ids T t : tuple_id t ∉ ids -> ready ids T -> ready ids (record_tuple T t).
Proof.
  intros Hid Hr ct Hct. destruct (Hr ct Hct) as (l & Hl & Hu). unfold record_tuple.
  destruct (decide (tuple_name t = t_name (ct_table ct))) as [E|E]; [|exists l; by rewrite lookup_insert_ne].
  exists (l ++ [tuple_row t]). rewrite E, lookup_insert, decide_True, Hl by done. split; [done|].
  apply table_names in E as <-; [|apply tuple_table_in|done]. apply Forall_forall. intros id Hin. eapply Forall_forall in Hu; [|exact Hin].
  apply Forall_app. split; [done|]. apply Forall_singleton. intros H%key_text. by subst.
Qed.
Lemma ready_records ids ts : forall T, Forall (fun t => tuple_id t ∉ ids) ts -> ready ids T -> ready ids (foldl record_tuple T ts).
Proof.
  induction ts as [|t ts IH]; intros T Ht Hr; [done|]. apply list.Forall_cons in Ht as [Ht Hts]. cbn. apply IH; [done|]. by apply ready_record.
Qed.

Lemma decoded_layers x : captured_ok x -> NoDup (layer <$> decoded x) /\ Forall (fun t => tuple_id t = cap_id x) (decoded x).
Proof.
  intros [Hl Hb]. unfold decoded.
  destruct (extract_packets_run (cap_header x) (cap_packet x) (cap_ifname x) (cap_id x) [] (Env [] []) Hl Hb) as (ret & ts & k & m & e & -> & Hlay & _ & Hid & _).
  cbn [app]. split; [|by apply Forall_take]. rewrite fmap_take, Hlay. eapply sublist_NoDup; [apply NoDup_seq|]. apply sublist_take.
Qed.

Section rows.
Context {DB : Reldb} {PB : ProtobufC} {PQ : DlList tuple_packet} {RT : Eloop recap_timer}.
Context (ifname out_path : list Z).
#[local] Abbreviation ctx := (recap_context (DB := DB) (PQ := PQ) (RT := RT)).

Lemma save_sqlite_run id ts : forall c : ctx, rdb_ok (rc_db c) -> NoDup (layer <$> ts) -> Forall (fun t => tuple_id t = id) ts ->
  Forall (awaits id (rtables (rc_db c))) ts ->
  exists d, save_sqlite_packet ts c = Done (0, set_out d (rc_pipe c) (rc_env c) c) /\ rdb_ok d /\
    rtables d = foldl record_tuple (rtables (rc_db c)) ts.
Proof.
  induction ts as [|t ts IH]; intros c Hok Hnd Hid Hw; cbn [save_sqlite_packet]; [exists (rc_db c); by destruct c|].
  rewrite fmap_cons in Hnd. apply list.NoDup_cons in Hnd as [Hnew Hnd]. apply list.Forall_cons in Hid as [Ht Hid].
  apply list.Forall_cons in Hw as [(l & Hl & Hu) Hw].
  destruct (save_packet_run t (rc_db c) l Hok Hl) as (d1 & E1 & Hok1 & Hr1); [apply tuple_fits; by rewrite Ht|].
  destruct (IH (set_out d1 (rc_pipe c) (rc_env c) c) Hok1 Hnd Hid) as (d2 & E2 & Hok2 & Hr2).
  { cbn [set_out rc_db]. rewrite Hr1. rewrite Forall_forall in Hw |- *. intros t' Hin. destruct (Hw t' Hin) as (l' & Hl' & Hu'). exists l'.
    split; [|done]. rewrite lookup_insert_ne; [done|]. intros Hn%tuple_name_layer. apply Hnew. rewrite Hn. by apply list_elem_of_fmap_2. }
  exists d2. erewrite bind_run by (unfold save_sqlite_tuple_packet; erewrite bind_run by (unfold rc_sql; rewrite E1; done); done).
  split; [exact E2|]. split; [done|]. cbn [set_out rc_db] in Hr2. rewrite Hr2, Hr1. cbn. unfold record_tuple at 3. by rewrite Hl.
Qed.

(** A packet with the identifier that is generated for it. *)
Definition captured_of (p : packet) (id : list Z) : captured :=
  {| cap_header := p_header p; cap_packet := p_data p; cap_ifname := ifname; cap_id := id |}.
Definition tuples_of (ps : list packet) (ids : list (list Z)) : list tuple_packet := concat (decoded <$> zip_with captured_of ps ids).

(** What saving changes. *)
Definition saved (d : rdb) (n : Z) (left : list (list Z)) (c : ctx) : ctx :=
  {| rc_reader := rc_reader c; rc_db := d; rc_pipe := rc_pipe c; pq := pq c; npackets := n; ids := left; queries := queries c;
     rc_eloop := rc_eloop c; rc_env := rc_env c |}.
Definition decodable (p : packet) : Prop := decode_reach <= zlen (p_data p) /\ bytes (p_data p).

Lemma save_record_run p id left (c : ctx) : decodable p -> ids c = id :: left -> mallocs (rc_env c) = [] -> rdb_ok (rc_db c) ->
  ready [id] (rtables (rc_db c)) ->
  exists d, save_decoded_packet false ifname out_path (p_header p) (p_data p) c =
      Done (zlen (decoded (captured_of p id)), saved d (npackets c) left c) /\ rdb_ok d /\
    rtables d = foldl record_tuple (rtables (rc_db c)) (decoded (captured_of p id)).
Proof.
  intros Hp Hids Hm Hok Hr. set (x := captured_of p id). assert (captured_ok x) as Hx by done.
  destruct (extract_decoded x (rc_env c) Hx) as (ret & l & e & E & Hl & [_ He]). destruct (He Hm) as [-> Hret].
  destruct Hl as [->|[-> ->]]; [pose proof (zlen_nonneg (decoded x)); lia|]. destruct (decoded_layers x Hx) as [Hnd Hid].
  set (c1 := saved (rc_db c) (npackets c) left c).
  destruct (save_sqlite_run id (decoded x) c1 Hok Hnd Hid) as (d & Es & Hd & Ht).
  { apply Forall_forall. intros t _. destruct (Hr (tuple_table t) (tuple_table_in t)) as (rows & Hrows & Hu).
    exists rows. split; [exact Hrows|]. by inversion Hu. }
  assert (rc_mem (extract_packets (p_header p) (p_data p) ifname id []) c1 = Done ((zlen (decoded x), decoded x), c1)) as Ex
    by (unfold rc_mem; change (rc_env c1) with (rc_env c); cbn in E; by rewrite E).
  exists d. split; [|by split]. unfold save_decoded_packet.
  erewrite bind_run by (unfold next_id; rewrite Hids; reflexivity). cbn [hd tl].
  erewrite bind_run by exact Ex. cbn [fst snd]. rewrite (proj2 (Z.ltb_ge _ _)) by apply zlen_nonneg. unfold save_packet_array.
  by erewrite bind_run by (by erewrite bind_run by exact Es).
Qed.

Lemma save_packets_run ps : forall new left n (c : ctx), Forall decodable ps -> length new = length ps -> ids c = new ++ left -> NoDup new ->
  mallocs (rc_env c) = [] -> rdb_ok (rc_db c) -> ready new (rtables (rc_db c)) -> npackets c = u64 n ->
  exists d, save_packets false ifname out_path ps c = Done (0, saved d (u64 (n + zlen (tuples_of ps new))) left c) /\ rdb_ok d /\
    rtables d = foldl record_tuple (rtables (rc_db c)) (tuples_of ps new).
Proof.
  induction ps as [|p ps IH]; intros [|id new] left n c Hp Hl Hids Hnd Hm Hok Hr Hn; try done.
  - exists (rc_db c). cbn. rewrite Z.add_0_r, <- Hn. cbn in Hids. rewrite <- Hids. split; [by destruct c|done].
  - apply list.Forall_cons in Hp as [Hp Hps]. apply list.NoDup_cons in Hnd as [Hnew Hnd].
    destruct (save_record_run p id (new ++ left) c Hp Hids Hm Hok) as (d1 & E1 & Hok1 & Hr1).
    { intros ct Hct. destruct (Hr ct Hct) as (l & Hrow & Hu). exists l. split; [done|]. apply list.Forall_cons in Hu as [Hu _]. by constructor. }
    set (ts := decoded (captured_of p id)) in *.
    destruct (IH new left (n + zlen ts) (saved d1 (u64 (n + zlen ts)) (new ++ left) c)) as (d2 & E2 & Hok2 & Hr2); try done.
    + by injection Hl.
    + cbn [saved rc_db]. rewrite Hr1. apply ready_records.
      * destruct (decoded_layers (captured_of p id) Hp) as [_ Hid]. fold ts in Hid. eapply Forall_impl; [exact Hid|]. by intros t ->.
      * intros ct Hct. destruct (Hr ct Hct) as (l & Hrow & Hu). exists l. split; [done|]. by apply list.Forall_cons in Hu as [_ Hu].
    + exists d2. unfold tuples_of. cbn [zip_with]. rewrite fmap_cons. cbn [concat]. fold ts. fold (tuples_of ps new).
      rewrite zlen_app, foldl_app, Z.add_assoc, <- Hr1. split; [|done]. cbn [save_packets]. erewrite bind_run by exact E1.
      rewrite (proj2 (Z.ltb_ge _ _)) by apply zlen_nonneg. erewrite bind_run by done. cbn [saved npackets].
      rewrite Hn. assert (u64 (u64 n + zlen ts) = u64 (n + zlen ts)) as -> by (unfold wrap; apply Zplus_mod_idemp_l).
      exact E2.
Qed.

End rows.

(** ** A file that is not there *)

Section missing.
Context {DB : Reldb} {PB : ProtobufC} {PQ : DlList tuple_packet} {RT : Eloop recap_timer}.
#[local] Abbreviation ctx := (recap_context (DB := DB) (PQ := PQ) (RT := RT)).

Lemma create_tables_total l : forall d : rdb, exists r d', create_tables l d = Done (r, d').
Proof.
  induction l as [|t l IH]; intros d; cbn [create_tables]; [by eexists _, _|]. erewrite bind_run by done. cbv beta.
  destruct (rdb_create _ d).1; cbn [negb]; [apply IH|by eexists _, _].
Qed.
Lemma prepare_total sys o (c : ctx) : exists b c', prepare_output sys o c = Done (b, c').
Proof.
  unfold prepare_output. destruct (opt_pipe o); [by eexists _, _|]. destruct (db_opens sys); cbn [negb]; [|by eexists _, _].
  destruct (create_tables_total header_tables (rc_db c)) as (r & d & E).
  erewrite bind_run by (unfold rc_sql, init_sqlite_header_db; rewrite E; reflexivity). destruct (r <? 0); [by eexists _, _|].
  destruct (_ && _); by eexists _, _.
Qed.

(** The name of a file that cannot be opened makes the tool crash: it closes
    the stream that was never opened. *)
Theorem missing_file_crashes fuel sys o path (c : ctx) : opt_pcap_path o = Some path -> opt_capture o = false -> file_opens sys = false ->
  recap_main fuel sys o c = Fault NullDeref.
Proof.
  intros Hp Hc Hf. unfold recap_main, cleanup. rewrite Hp, Hc, Hf. destruct (prepare_total sys o c) as (b & c' & E).
  erewrite bind_run by exact E. by destruct b.
Qed.
End missing.

(** ** Samples *)

Definition sample_packet (sec : Z) : packet := {| p_sec := sec; p_usec := 5; p_len := 1500; p_data := sample_frame |}.
(** A context at the start. *)
Definition sample_recap (l : list Z) (cs : list nat) :
    recap_context (DB := list_reldb) (PQ := list_dl_list tuple_packet) (RT := list_eloop recap_timer) :=
  {| rc_reader := {| stream := l; chunks := cs; pcap_data := []; data_size := 0; total_size := 0; rstate := PCAP_FILE_STATE_INIT;
                     pcap_header := file_header_of []; pkt_header := pkthdr32_of [] |};
     rc_db := sample_tables; rc_pipe := {| pipe_fd := -1; pipe_data := []; pipe_closed := []; opens := []; writes := [] |}; pq := None;
     npackets := 0; ids := [cstr "a"; cstr "b"]; queries := []; rc_eloop := []; rc_env := Env [] [] |}.
Definition sample_capture : list Z := file_bytes (replicate 20 0) [sample_packet 1; sample_packet 2].

Lemma sample_packets_ok : Forall packet_ok [sample_packet 1; sample_packet 2].
Proof. do 2 (constructor; [by constructor|]). constructor. Qed.
Lemma sample_packets_decodable : Forall decodable [sample_packet 1; sample_packet 2].
Proof. do 2 (constructor; [split; [by vm_compute|exact sample_frame_bytes]|]). constructor. Qed.
Lemma sample_ready : ready [cstr "a"; cstr "b"] sample_tables.
Proof. intros ct H. exists []. split; [exact (sample_tables_empty ct H)|]. do 2 (constructor; [constructor|]). constructor. Qed.

#[local] Abbreviation recap_file := (process_file_stream (PB := wire_format) false (cstr "wlan0") []).

Lemma recap_reads_file_witness :
  match save_packets (PB := wire_format) false (cstr "wlan0") [] [sample_packet 1] (sample_recap (file_bytes (replicate 20 0) [sample_packet 1]) []) with
  | Done (_, c') => exists r, recap_file 1000 true (sample_recap (file_bytes (replicate 20 0) [sample_packet 1]) []) = Done (0, set_reader r c')
  | Fault f => recap_file 1000 true (sample_recap (file_bytes (replicate 20 0) [sample_packet 1]) []) = Fault f
  end.
Proof.
  refine (recap_reads_file false (cstr "wlan0") [] (replicate 20 0) [sample_packet 1] 1000
    (sample_recap (file_bytes (replicate 20 0) [sample_packet 1]) []) _ _ _ _ _ _ _).
  - reflexivity.
  - reflexivity.
  - constructor.
  - reflexivity.
  - reflexivity.
  - constructor; [by constructor|constructor].
  - apply Nat.leb_le. vm_compute. reflexivity.
Defined.

(** Bytes of another format. *)
Lemma recap_stops_witness : exists r, stream_loop (PB := wire_format) false [] [] 65 (sample_recap (replicate 30 7) []) = r /\
  match r with Done (ret, _) => ret = Some 0 | Fault _ => True end.
Proof.
  destruct (recap_stops (PB := wire_format) false [] [] (sample_recap (replicate 30 7) []) eq_refl) as (r & E & H & _).
  exists r. split; [exact E|exact H].
Defined.

Lemma sample_other_format :
  match recap_file 65 true (sample_recap (replicate 30 7) []) with Done (_, c') => magic (pcap_header (rc_reader c')) = 0x7070707 | Fault _ => False end.
Proof. vm_compute. reflexivity. Qed.
Lemma recap_hides_errors_witness : exists ret c', recap_file 65 true (sample_recap (replicate 30 7) []) = Done (ret, c') /\ ret = 0 /\
  magic (pcap_header (rc_reader c')) = 0x7070707.
Proof.
  pose proof sample_other_format as H. destruct (recap_file 65 true (sample_recap (replicate 30 7) [])) as [[ret c']|f] eqn:E; [|destruct H].
  exists ret, c'. split; [reflexivity|]. split; [|exact H].
  exact (recap_hides_errors (PB := wire_format) false (cstr "wlan0") [] 65 _ c' ret E).
Defined.

Definition sample_options : options :=
  {| opt_pcap_path := Some (cstr "missing.pcap"); opt_out_path := Some (cstr "capture.db"); opt_ifname := None; opt_pipe := false;
     opt_capture := false; opt_transaction := false; opt_verbosity := 0 |}.
Definition sample_system : system :=
  {| db_opens := true; pipe_made := true; file_opens := false; eloop_ok := true; pcap_ok := true; sock_ok := true; happens := [] |}.
Example sample_arguments : process_app_options [(112, cstr "missing.pcap"); (102, cstr "capture.db")] no_options = inr sample_options.
Proof. reflexivity. Qed.
Lemma missing_file_crashes_witness : recap_main (PB := wire_format) 100 sample_system sample_options (sample_recap [] []) = Fault NullDeref.
Proof. exact (missing_file_crashes (PB := wire_format) 100 sample_system sample_options (cstr "missing.pcap") _ eq_refl eq_refl eq_refl). Defined.
