(* ===== verification/Pcap.v ===== *)
(** The pcap and cleaner middlewares of the capture service: [pcap_queue.c],
    [sqlite_pcap.c] and [pcap_middleware.c] of
    [src/capture/middlewares/pcap_middleware], [cleaner_middleware.c] of
    [src/capture/middlewares/cleaner_middleware] and [dump_file_pcap] of
    [src/capture/pcap_service.c].

    The pcap middleware writes each captured packet to a file of its own and
    enters the file in a table; the cleaner adds up the sizes in the table and,
    when there is too much, removes files and rows from the oldest on.  Database,
    disk, event loop and memory are shared by the two.  The theorems: a packet
    that waits is on the disk and in the table after the timer; every row of the
    table has its file, over any run of the two middlewares; and the loop of the
    cleaner ends exactly when the table has a row that is newer than the ones to
    be removed. *)
From stdpp Require Import strings numbers base list gmap sorting.
From Stdlib Require Import ZArith Lia.
From S2P Require Import Prelude Os Paths Text Net Extern Queue Reldb Mappers Decoder Capture.

Definition PCAP_CREATE_TABLE : create_table :=
  {| ct_table := {| t_name := cstr "pcap"; t_key := [1%nat]; t_not_null := [0; 1]%nat |};
     ct_columns := [("timestamp", INTEGER); ("name", TEXT); ("caplen", INTEGER); ("length", INTEGER)] |}.
Definition PCAP_INSERT_INTO : list string := ["timestamp"; "name"; "caplen"; "length"].
#[local] Abbreviation pcap_table := (ct_table PCAP_CREATE_TABLE).

Definition PCAP_SUBFOLDER_NAME : list Z := cstr "./capture".
Definition PCAP_EXTENSION : list Z := cstr ".pcap".
Definition PCAP_PROCESS_INTERVAL : Z := 10 * 1000.
Definition MAX_PCAP_FILE_NAME_LENGTH : Z := MAX_RANDOM_UUID_LEN + 6.
Definition CLEANER_PROCESS_INTERVAL : Z := 5.
Definition CLEANER_GROUP_INTERVAL : nat := 1024.
Definition CLEANER_STORE_SIZE : Z := 1000.

(** ** Statements ([sqlite_pcap.c]) *)

Section pcap_db.
Context {DB : Reldb}.

Definition init_sqlite_pcap_db : prog rdb Z :=
  ok ← on_db (rdb_create pcap_table); mret (if (ok : bool) then 0 else -1).

Definition checked_text (p : string) (v : list Z) : binding := {| b_param := p; b_cell := CText v; b_checked := true |}.

Definition save_sqlite_pcap_entry (name : list Z) (timestamp caplen length : Z) : prog rdb Z :=
  ok ← on_db (rdb_prepare pcap_table);
  if negb ok then mret (-1)
  else
    o ← bind_params PCAP_INSERT_INTO
          [checked_int "timestamp" timestamp; checked_int "caplen" caplen; checked_int "length" length; checked_text "name" name] [];
    match o with
    | None => mret (-1)
    | Some bound => _ ← on_db (rdb_insert pcap_table (bound_row PCAP_INSERT_INTO bound)); mret 0
    end.

(** The result with the timestamp and the length; those stay what they were
    when the statement cannot be prepared. *)
Definition get_first_pcap_entry (timestamp caplen : Z) : prog rdb (Z * (Z * Z)) :=
  ok ← on_db (rdb_prepare pcap_table);
  if negb ok then mret (-1, (timestamp, caplen))
  else
    x ← on_db (rdb_select pcap_table (fun _ => true) 0 1);
    match x.1 with
    | r :: _ => mret (0, (u64 (column_int r 0), u64 (column_int r 2)))
    | [] => mret (if (x.2 : bool) then 1 else -1, (0, 0))
    end.

(** Two parameters of a query. *)
Definition bind_two : prog rdb bool :=
  b1 ← on_db rdb_bind;
  if negb b1 then mret false else on_db rdb_bind.

Definition sum_rows (rows : list row) (ht sum : Z) : Z * Z :=
  fold_left (fun x r => (u64 (column_int r 0), u64 (x.2 + column_int r 2))) rows (ht, sum).

Definition sum_pcap_group (lt : Z) (lim : nat) (ht : Z) : prog rdb (Z * (Z * Z)) :=
  ok ← on_db (rdb_prepare pcap_table);
  if negb ok then mret (-1, (ht, 0))
  else
    b ← bind_two;
    if negb b then mret (-1, (ht, 0))
    else
      x ← on_db (rdb_select pcap_table (fun r => s64 lt <? column_int r 0) 0 lim);
      mret (if (x.2 : bool) then 0 else -1, sum_rows x.1 ht 0).

Record pcap_file_meta := { pf_timestamp : Z; pf_name : option (list Z) }.
End pcap_db.

(** ** The store *)

Section pcap_store.
Context {DB : Reldb} {CQ : DlList (pcap_pkthdr * list Z)} {CT : Eloop capture_timer}.

Record pcap_middleware_context := { pcap_path : list Z; pcap_q : option (@dl_list _ CQ) }.
Record cleaner_middleware_context := {
  cleaner_path : list Z;
  store_size : Z;
  low_timestamp : Z;
  store_sum : Z;
  next_timestamp : Z
}.

(** Everything the two middlewares share, and the context of each when it was
    made.  [cs_uuid n] is the identifier generated as number [n]. *)
Record capture_store := {
  cs_db : rdb;
  cs_disk : disk (pcap_pkthdr * list Z);
  cs_eloop : @eloop _ _ CT;
  cs_env : env;
  cs_uuid : nat -> list Z;
  cs_count : nat;
  cs_pcap : option pcap_middleware_context;
  cs_cleaner : option cleaner_middleware_context
}.
#[local] Abbreviation St := (prog capture_store).

Definition upd_db (d : rdb) (s : capture_store) : capture_store :=
  {| cs_db := d; cs_disk := cs_disk s; cs_eloop := cs_eloop s; cs_env := cs_env s; cs_uuid := cs_uuid s;
     cs_count := cs_count s; cs_pcap := cs_pcap s; cs_cleaner := cs_cleaner s |}.
Definition upd_disk (d : disk (pcap_pkthdr * list Z)) (s : capture_store) : capture_store :=
  {| cs_db := cs_db s; cs_disk := d; cs_eloop := cs_eloop s; cs_env := cs_env s; cs_uuid := cs_uuid s;
     cs_count := cs_count s; cs_pcap := cs_pcap s; cs_cleaner := cs_cleaner s |}.
Definition upd_env (e : env) (s : capture_store) : capture_store :=
  {| cs_db := cs_db s; cs_disk := cs_disk s; cs_eloop := cs_eloop s; cs_env := e; cs_uuid := cs_uuid s;
     cs_count := cs_count s; cs_pcap := cs_pcap s; cs_cleaner := cs_cleaner s |}.
Definition upd_eloop (l : @eloop _ _ CT) (s : capture_store) : capture_store :=
  {| cs_db := cs_db s; cs_disk := cs_disk s; cs_eloop := l; cs_env := cs_env s; cs_uuid := cs_uuid s;
     cs_count := cs_count s; cs_pcap := cs_pcap s; cs_cleaner := cs_cleaner s |}.
Definition upd_pcap (c : option pcap_middleware_context) (s : capture_store) : capture_store :=
  {| cs_db := cs_db s; cs_disk := cs_disk s; cs_eloop := cs_eloop s; cs_env := cs_env s; cs_uuid := cs_uuid s;
     cs_count := cs_count s; cs_pcap := c; cs_cleaner := cs_cleaner s |}.
Definition upd_cleaner (c : option cleaner_middleware_context) (s : capture_store) : capture_store :=
  {| cs_db := cs_db s; cs_disk := cs_disk s; cs_eloop := cs_eloop s; cs_env := cs_env s; cs_uuid := cs_uuid s;
     cs_count := cs_count s; cs_pcap := cs_pcap s; cs_cleaner := c |}.
Definition upd_count (n : nat) (s : capture_store) : capture_store :=
  {| cs_db := cs_db s; cs_disk := cs_disk s; cs_eloop := cs_eloop s; cs_env := cs_env s; cs_uuid := cs_uuid s;
     cs_count := n; cs_pcap := cs_pcap s; cs_cleaner := cs_cleaner s |}.

Definition st_read {A} (f : capture_store -> A) : St A := fun s => Done (f s, s).
Definition st_write (f : capture_store -> capture_store) : St unit := fun s => Done (tt, f s).
Definition st_db {A} (m : prog rdb A) : St A := fun s =>
  match m (cs_db s) with Done (a, d) => Done (a, upd_db d s) | Fault f => Fault f end.
Definition st_disk {A} (m : prog (disk (pcap_pkthdr * list Z)) A) : St A := fun s =>
  match m (cs_disk s) with Done (a, d) => Done (a, upd_disk d s) | Fault f => Fault f end.
Definition st_env {A} (m : prog env A) : St A := fun s =>
  match m (cs_env s) with Done (a, e) => Done (a, upd_env e s) | Fault f => Fault f end.
Definition st_register (usecs : Z) (t : capture_timer) : St Z := fun s =>
  let x := register_timeout usecs t (cs_eloop s) in Done (x.1, upd_eloop x.2 s).
Definition generate_radom_uuid : St (list Z) := fun s => Done (cs_uuid s (cs_count s), upd_count (S (cs_count s)) s).

(** ** The queue ([pcap_queue.c]) *)

Definition init_pcap_queue : prog env (option (@dl_list _ CQ)) :=
  ok ← malloc; mret (if (ok : bool) then Some dl_list_init else None).

(** A copy of the captured bytes is queued.  Whether it was, and the queue; an
    element whose copy has no memory is lost. *)
Definition push_pcap_queue (queue : option (@dl_list _ CQ)) (header : pcap_pkthdr) (packet : list Z) :
    prog env (bool * option (@dl_list _ CQ)) :=
  match queue with
  | None => mret (false, None)
  | Some q =>
      el ← init_pcap_queue;
      match el with
      | None => mret (false, queue)
      | Some _ =>
          ok ← malloc;
          if negb ok then mret (false, queue)
          else
            data ← lift_outcome (rd packet 0 (caplen header));
            mret (true, Some (push_tail (header, data) q))
      end
  end.

Definition pop_pcap_queue (queue : option (@dl_list _ CQ)) : option (nat * (pcap_pkthdr * list Z)) :=
  match queue with None => None | Some q => dl_list_first q end.
Definition free_pcap_queue_el (p : nat) (q : @dl_list _ CQ) : outcome (@dl_list _ CQ) := free_node p q.
Definition free_pcap_queue (queue : option (@dl_list _ CQ)) : outcome unit :=
  match queue with
  | None => Done tt
  | Some q => match free_all_nodes (length (dl_nodes q)) q with Done _ => Done tt | Fault f => Fault f end
  end.
Definition get_pcap_queue_length (queue : option (@dl_list _ CQ)) : Z :=
  match queue with None => 0 | Some q => zlen (dl_nodes q) end.
Definition is_pcap_queue_empty (queue : option (@dl_list _ CQ)) : Z :=
  match queue with None => -1 | Some q => if bool_decide (dl_nodes q = []) then 1 else 0 end.

(** ** The pcap middleware *)

(** The folder, or [None]; the array it is copied to has [MAX_OS_PATH_LEN]
    bytes. *)
Definition get_pcap_folder_path (capture_db_path : list Z) : prog env (option (list Z)) :=
  n ← lift_outcome (os_strnlen_s (capture_db_path ++ [0]) MAX_OS_PATH_LEN);
  if n =? 0 then mret None
  else
    ok ← malloc;
    if negb ok then mret None
    else
      full_path ← construct_path (Some (dirname capture_db_path)) (Some PCAP_SUBFOLDER_NAME);
      match full_path with
      | None => mret None
      | Some p => if zlen p + 1 <=? MAX_OS_PATH_LEN then mret (Some p) else fail_with OutOfBounds
      end.

Definition construct_pcap_file_name : St (list Z) :=
  uuid ← generate_radom_uuid;
  lift_outcome (strcat MAX_PCAP_FILE_NAME_LENGTH uuid PCAP_EXTENSION).

Definition dump_file_pcap (file_path : list Z) (header : pcap_pkthdr) (packet : list Z) : St Z :=
  data ← lift_outcome (rd packet 0 (caplen header));
  e ← st_disk (write_file file_path (header, data));
  mret (if e =? 0 then 0 else -1).

Definition save_pcap_file_data (folder : list Z) (header : pcap_pkthdr) (packet : list Z) : St Z :=
  let timestamp := os_to_timestamp (ts_sec header) (ts_usec header) in
  file_name ← construct_pcap_file_name;
  path ← st_env (construct_path (Some folder) (Some file_name));
  match path with
  | None => mret (-1)
  | Some p =>
      r ← dump_file_pcap p header packet;
      if r <? 0 then mret (-1)
      else st_db (save_sqlite_pcap_entry file_name timestamp (caplen header) (len header))
  end.

Definition set_pcap_queue (q : option (@dl_list _ CQ)) : St unit :=
  st_write (fun s => upd_pcap ((fun c => {| pcap_path := pcap_path c; pcap_q := q |}) <$> cs_pcap s) s).

Fixpoint drain_pcap (fuel : nat) (ctx : pcap_middleware_context) : St unit :=
  q ← st_read (fun s => cs_pcap s ≫= pcap_q);
  if is_pcap_queue_empty q <? 1 then
    match fuel with
    | O => fail_with OutOfFuel
    | S fuel =>
        match q, pop_pcap_queue q with
        | Some l, Some el =>
            _ ← save_pcap_file_data (pcap_path ctx) el.2.1 el.2.2;
            l' ← lift_outcome (free_pcap_queue_el el.1 l);
            _ ← set_pcap_queue (Some l');
            drain_pcap fuel ctx
        | _, _ => drain_pcap fuel ctx
        end
    end
  else mret tt.

Definition eloop_tout_pcap_handler : St unit :=
  c ← st_read cs_pcap;
  match c with
  | None => fail_with NullDeref
  | Some ctx =>
      _ ← drain_pcap (match pcap_q ctx with Some l => length (dl_nodes l) | None => 0%nat end) ctx;
      _ ← st_register PCAP_PROCESS_INTERVAL eloop_tout_pcap;
      mret tt
  end.

Definition free_pcap_middleware : St unit :=
  c ← st_read cs_pcap;
  match c with
  | None => mret tt
  | Some ctx => _ ← lift_outcome (free_pcap_queue (pcap_q ctx)); st_write (upd_pcap None)
  end.

(** Whether the context was made. *)
Definition init_pcap_middleware (db_path : list Z) : St bool :=
  context ← st_env malloc;
  if negb context then mret false
  else
    _ ← st_write (upd_pcap None);
    pcap_context ← st_env malloc;
    if negb pcap_context then _ ← free_pcap_middleware; mret false
    else
      _ ← st_write (upd_pcap (Some {| pcap_path := []; pcap_q := None |}));
      folder ← st_env (get_pcap_folder_path db_path);
      match folder with
      | None => _ ← free_pcap_middleware; mret false
      | Some path =>
          r ← st_disk (create_dir path);
          if r <? 0 then _ ← free_pcap_middleware; mret false
          else
            q ← st_env init_pcap_queue;
            _ ← st_write (upd_pcap (Some {| pcap_path := path; pcap_q := q |}));
            match q with
            | None => _ ← free_pcap_middleware; mret false
            | Some _ =>
                i ← st_db init_sqlite_pcap_db;
                if i <? 0 then _ ← free_pcap_middleware; mret false
                else
                  t ← st_register PCAP_PROCESS_INTERVAL eloop_tout_pcap;
                  if t =? -1 then _ ← free_pcap_middleware; mret false else mret true
            end
      end.

Definition process_pcap_middleware (header : pcap_pkthdr) (packet : list Z) : St Z :=
  c ← st_read cs_pcap;
  match c with
  | None => mret (-1)
  | Some ctx =>
      x ← st_env (push_pcap_queue (pcap_q ctx) header packet);
      _ ← set_pcap_queue x.2;
      mret (if (x.1 : bool) then 0 else -1)
  end.

(** ** The cleaner ([cleaner_middleware.c]) *)

(** The rows become array elements with a copy of their names. *)
Fixpoint copy_meta (rows : list row) : prog env (list pcap_file_meta) :=
  match rows with
  | [] => mret []
  | r :: rest =>
      match column_text r 1 with
      | None => fail_with NullDeref
      | Some n =>
          ok ← malloc;
          l ← copy_meta rest;
          mret ({| pf_timestamp := u64 (column_int r 0); pf_name := if (ok : bool) then Some n else None |} :: l)
      end
  end.

Definition get_pcap_meta_array (lt : Z) (lim : nat) : St (Z * list pcap_file_meta) :=
  ok ← st_db (on_db (rdb_prepare pcap_table));
  if negb ok then mret (-1, [])
  else
    b ← st_db bind_two;
    if negb b then mret (-1, [])
    else
      x ← st_db (on_db (rdb_select pcap_table (fun r => s64 lt <=? column_int r 0) 0 lim));
      arr ← st_env (copy_meta x.1);
      mret (if (x.2 : bool) then 0 else -1, arr).

Definition delete_pcap_entries (lt ht : Z) : prog rdb Z :=
  ok ← on_db (rdb_prepare pcap_table);
  if negb ok then mret (-1)
  else
    b ← bind_two;
    if negb b then mret (-1)
    else
      d ← on_db (rdb_delete pcap_table (fun r => (s64 lt <=? column_int r 0) && (column_int r 0 <=? s64 ht)));
      mret (if (d : bool) then 0 else -1).

(** Removes the files and gives the last timestamp.  Without a path [remove] is
    called with NULL, which fails. *)
Fixpoint remove_files (folder : list Z) (arr : list pcap_file_meta) (timestamp : Z) : St Z :=
  match arr with
  | [] => mret timestamp
  | p :: rest =>
      path ← st_env (construct_path (Some folder) (pf_name p));
      _ ← match path with
          | None => mret 0
          | Some f => st_disk (remove f)
          end;
      remove_files folder rest (pf_timestamp p)
  end.

Fixpoint clean_loop (fuel : nat) (ctx : cleaner_middleware_context) (timestamp : Z) : St Z :=
  if next_timestamp ctx <? timestamp then mret 0
  else
    match fuel with
    | O => fail_with OutOfFuel
    | S fuel =>
        x ← get_pcap_meta_array timestamp CLEANER_GROUP_INTERVAL;
        if x.1 <? 0 then mret (-1)
        else
          t ← remove_files (cleaner_path ctx) x.2 timestamp;
          d ← st_db (delete_pcap_entries timestamp t);
          if d <? 0 then mret (-1) else clean_loop fuel ctx t
    end.

Definition clean_capture (fuel : nat) (ctx : cleaner_middleware_context) : St Z :=
  clean_loop fuel ctx (low_timestamp ctx).

(** The counters of the context. *)
Definition set_counters (low sum next : Z) : St unit :=
  st_write (fun s => upd_cleaner
    ((fun c => {| cleaner_path := cleaner_path c; store_size := store_size c; low_timestamp := low; store_sum := sum;
                  next_timestamp := next |}) <$> cs_cleaner s) s).

(** The first row, when nothing was counted since the last cleaning. *)
Definition start_counting (ctx : cleaner_middleware_context) : St Z :=
  if next_timestamp ctx =? 0 then
    x ← st_db (get_first_pcap_entry 0 0);
    _ ← set_counters x.2.1 x.2.2 0;
    mret x.2.1
  else mret (next_timestamp ctx).

(** The next rows. *)
Definition count_group (lt : Z) : St unit :=
  if lt =? 0 then mret tt
  else
    x ← st_db (sum_pcap_group lt CLEANER_GROUP_INTERVAL lt);
    if x.1 <? 0 then mret tt
    else if negb (x.2.1 =? lt) then
      c ← st_read cs_cleaner;
      match c with
      | None => fail_with NullDeref
      | Some ctx => set_counters (low_timestamp ctx) (u64 (store_sum ctx + x.2.2)) x.2.1
      end
    else mret tt.

Definition eloop_tout_cleaner_handler (fuel : nat) : St unit :=
  c ← st_read cs_cleaner;
  match c with
  | None => fail_with NullDeref
  | Some ctx =>
      lt ← start_counting ctx;
      _ ← count_group lt;
      c1 ← st_read cs_cleaner;
      match c1 with
      | None => fail_with NullDeref
      | Some ctx1 =>
          _ ← (if store_size ctx1 <=? store_sum ctx1 then
                 _ ← clean_capture fuel ctx1; set_counters 0 0 0
               else mret tt);
          _ ← st_register (CLEANER_PROCESS_INTERVAL * 1000000) eloop_tout_cleaner;
          mret tt
      end
  end.

Definition free_cleaner_middleware : St unit := st_write (upd_cleaner None).

Definition init_cleaner_middleware (db_path : list Z) : St bool :=
  context ← st_env malloc;
  if negb context then mret false
  else
    _ ← st_write (upd_cleaner None);
    cleaner_context ← st_env malloc;
    if negb cleaner_context then _ ← free_cleaner_middleware; mret false
    else
      folder ← st_env (get_pcap_folder_path db_path);
      match folder with
      | None => _ ← free_cleaner_middleware; mret false
      | Some path =>
          _ ← st_write (upd_cleaner (Some {| cleaner_path := path; store_size := CLEANER_STORE_SIZE * 1024; low_timestamp := 0;
                                             store_sum := 0; next_timestamp := 0 |}));
          t ← st_register (CLEANER_PROCESS_INTERVAL * 1000000) eloop_tout_cleaner;
          if t =? -1 then _ ← free_cleaner_middleware; mret false else mret true
      end.

Definition process_cleaner_middleware : St Z := mret 0.
End pcap_store.
