(* ===== verification/PcapInv.v ===== *)
(** What the pcap and cleaner middlewares do ([Pcap]): the loop of the cleaner,
    when it ends and when it does not, and the files and rows that the two keep
    together. *)
From stdpp Require Import strings numbers base list gmap sorting.
From Stdlib Require Import ZArith Lia.
From S2P Require Import Prelude Os Paths Text Net Extern Queue Reldb Mappers Decoder Capture Pcap.

#[local] Abbreviation pcap_table := (ct_table PCAP_CREATE_TABLE).

(** ** Paths without memory *)

Lemma strcat_exact s1 s2 s3 : forall cap, zlen s1 + zlen s2 + zlen s3 + 1 <= cap ->
  strcat cap [] s1 = Done s1 /\ strcat cap s1 s2 = Done (s1 ++ s2) /\ strcat cap (s1 ++ s2) s3 = Done ((s1 ++ s2) ++ s3).
Proof.
  intros cap H. pose proof (zlen_nonneg s1). pose proof (zlen_nonneg s2). pose proof (zlen_nonneg s3).
  rewrite !strcat_fits; rewrite ?zlen_app; change (zlen (@nil Z)) with 0; try lia. done.
Qed.

Lemma concat_total l r e : exists o e', concat_paths l r e = Done (o, e').
Proof.
  unfold concat_paths. destruct (malloc_done e) as (ok & e' & Hm & _). erewrite bind_run by exact Hm.
  destruct ok; [|by eexists _, _]. cbn [negb]. set (sep := match l, r with Some _, Some _ => _ | _, _ => _ end).
  destruct (strcat_exact (opt_str l) (if sep then cstr "/" else []) (opt_str r)
    (1 + zlen (opt_str l) + zlen (opt_str r) + (if sep then 1 else 0))) as (H1 & H2 & H3).
  { destruct sep; [change (zlen (cstr "/")) with 1|change (zlen (@nil Z)) with 0]; lia. }
  revert H1 H2 H3. generalize (1 + zlen (opt_str l) + zlen (opt_str r) + (if sep then 1 else 0)). unfold opt_str.
  destruct l as [l|], sep, r as [r|]; cbn [default]; unfold id; intros cap; rewrite ?app_nil_r; intros H1 H2 H3.
  all: repeat (erewrite bind_run by (first [rewrite H1|rewrite H2|rewrite H3|idtac]; apply lift_run)); by eexists _, _.
Qed.

Lemma get_valid_total p e : exists o e', get_valid_path p e = Done (o, e').
Proof.
  destruct p as [p|]; [|by eexists _, _]. unfold get_valid_path.
  destruct (malloc_done e) as (ok1 & e1 & H1 & _). erewrite bind_run by exact H1. destruct ok1; [|by eexists _, _]. cbn [negb].
  destruct (malloc_done e1) as (ok2 & e2 & H2 & _). erewrite bind_run by exact H2. destruct ok2; [|by eexists _, _]. cbn [negb].
  repeat case_match; apply concat_total.
Qed.

Lemma construct_path_total l r e : exists o e', construct_path l r e = Done (o, e').
Proof.
  unfold construct_path. destruct l as [l|]; [|by eexists _, _]. destruct r as [r|]; [|by eexists _, _].
  destruct l, r; try apply get_valid_total.
  match goal with |- context [(get_valid_path ?p ≫= _) _] => destruct (get_valid_total p e) as (o1 & e1 & H1) end.
  erewrite bind_run by exact H1.
  match goal with |- context [(get_valid_path ?p ≫= _) _] => destruct (get_valid_total p e1) as (o2 & e2 & H2) end.
  erewrite bind_run by exact H2. destruct (concat_total o1 (beg_right o2) e2) as (o3 & e3 & H3). erewrite bind_run by exact H3.
  apply get_valid_total.
Qed.

Section pcap_proofs.
Context {DB : Reldb} {CQ : DlList (pcap_pkthdr * list Z)} {CT : Eloop capture_timer}.
#[local] Abbreviation store := (capture_store (DB := DB) (CQ := CQ) (CT := CT)).

(** ** The table *)

Definition rows (s : store) : list row := default [] (rtables (cs_db s) !! t_name pcap_table).
Definition stamp (r : row) : Z := column_int r 0.

(** A row as the pcap middleware writes it, with a timestamp of the years to
    come and the length of a packet. *)
Definition row_ok (r : row) : Prop := exists t n c l, r = [CInt t; CText n; CInt c; CInt l] /\ 0 <= t < 2 ^ 63 /\ 0 <= c < 2 ^ 32.

Record healthy (s : store) : Prop := {
  h_ok : rdb_ok (cs_db s);
  h_table : is_Some (rtables (cs_db s) !! t_name pcap_table);
  h_rows : Forall row_ok (rows s)
}.

Lemma s64_small z : 0 <= z < 2 ^ 63 -> s64 z = z.
Proof. intros H. unfold s64. rewrite Z.mod_small by lia. lia. Qed.

Lemma row_stamp r : row_ok r -> 0 <= stamp r < 2 ^ 63 /\ u64 (stamp r) = stamp r /\ s64 (stamp r) = stamp r.
Proof.
  intros (t & n & c & l & -> & Ht & _). unfold stamp, column_int. cbn. split; [done|]. rewrite wrap_small by lia. by rewrite s64_small.
Qed.

(** Health is about the database alone. *)
Lemma healthy_same (s s' : store) : healthy s -> rdb_ok (cs_db s') -> rtables (cs_db s') = rtables (cs_db s) -> healthy s' /\ rows s' = rows s.
Proof. intros [H1 H2 H3] Hok R. assert (rows s' = rows s) as E by (unfold rows; by rewrite R). split; [|done]. by split; rewrite ?E, ?R. Qed.

(** The statements of a database in order. *)
Lemma pcap_prepare_run (d : rdb) : rdb_ok d -> is_Some (rtables d !! t_name pcap_table) -> exists d',
  on_db (rdb_prepare pcap_table) d = Done (true, d') /\ rdb_ok d' /\ rtables d' = rtables d.
Proof.
  intros Hok Ht. destruct (prepare_ok pcap_table d Hok Ht) as [H1 H2]. exists (rdb_prepare pcap_table d).2.
  unfold on_db. rewrite H1, prepare_rows. done.
Qed.

Lemma bind_two_run (d : rdb) : rdb_ok d -> exists d', bind_two d = Done (true, d') /\ rdb_ok d' /\ rtables d' = rtables d.
Proof.
  intros Hok. destruct (bind_ok d Hok) as [H1 Hok1]. destruct (bind_ok _ Hok1) as [H2 Hok2].
  exists (rdb_bind (rdb_bind d).2).2. unfold bind_two. erewrite bind_run by done. rewrite H1. cbn [negb].
  unfold on_db. rewrite H2, !bind_rows. done.
Qed.

Lemma select_pcap_run (d : rdb) p lim : rdb_ok d -> exists d' l,
  on_db (rdb_select pcap_table p 0 lim) d = Done ((take lim l, true), d') /\ rdb_ok d' /\ rtables d' = rtables d /\
  l ≡ₚ filter p (default [] (rtables d !! t_name pcap_table)) /\ Sorted (by_column 0) l.
Proof.
  intros Hok. destruct (select_ok pcap_table p 0 lim d Hok) as [H1 H2].
  destruct (select_rows pcap_table p 0 lim d) as (Hr & l & Hl & Hs & _ & Ht).
  exists (rdb_select pcap_table p 0 lim d).2, l. unfold on_db. rewrite (surjective_pairing (rdb_select pcap_table p 0 lim d).1).
  rewrite (Ht H1), H1. done.
Qed.

(** Rows with a timestamp in an interval. *)
Definition between (a b : Z) (r : row) : Prop := a <= stamp r <= b.
#[local] Instance between_dec a b r : Decision (between a b r).
Proof. unfold between. apply _. Defined.

Lemma delete_run (d : rdb) a b : rdb_ok d -> is_Some (rtables d !! t_name pcap_table) -> 0 <= a < 2 ^ 63 -> 0 <= b < 2 ^ 63 -> exists d',
  delete_pcap_entries a b d = Done (0, d') /\ rdb_ok d' /\
  rtables d' = <[t_name pcap_table := filter (fun r => ~ between a b r) (default [] (rtables d !! t_name pcap_table))]> (rtables d).
Proof.
  intros Hok Ht Ha Hb. unfold delete_pcap_entries.
  destruct (pcap_prepare_run d Hok Ht) as (d1 & E1 & Hok1 & R1). erewrite bind_run by exact E1. cbn [negb].
  destruct (bind_two_run d1 Hok1) as (d2 & E2 & Hok2 & R2). erewrite bind_run by exact E2. cbn [negb]. rewrite !s64_small by done.
  set (p := fun r : row => _ && _). destruct (delete_ok pcap_table p d2 Hok2) as [H3 Hok3].
  exists (rdb_delete pcap_table p d2).2. erewrite bind_run by done. cbv beta. rewrite H3. split; [done|]. split; [done|].
  pose proof (delete_rows pcap_table p d2) as H. cbv zeta in H. rewrite H3 in H. rewrite H, R2, R1. f_equal.
  apply list_filter_iff. intros r. unfold p, between, stamp. rewrite negb_True, andb_True, !Is_true_true, !Z.leb_le. done.
Qed.

(** ** One round of the cleaner *)

(** Elements of the array that stand for rows. *)
Definition meta_of (p : pcap_file_meta) (r : row) : Prop :=
  pf_timestamp p = u64 (stamp r) /\ (pf_name p = None \/ pf_name p = column_text r 1).

Lemma copy_meta_run l : Forall row_ok l -> forall e, exists arr e',
  copy_meta l e = Done (arr, e') /\ Forall2 meta_of arr l /\ (mallocs e = [] -> e' = e /\ Forall2 (fun p r => pf_name p = column_text r 1) arr l).
Proof.
  induction 1 as [|r l Hr _ IH]; intros e; cbn [copy_meta]; [exists [], e; by repeat constructor|].
  destruct Hr as (t & n & c & k & -> & _). cbn [column_text lookup list_lookup].
  destruct (malloc_ok e) as (ok & e1 & E1 & _ & H1). erewrite bind_run by exact E1.
  destruct (IH e1) as (arr & e2 & E2 & H2 & H3). erewrite bind_run by exact E2. eexists _, _. split; [done|]. split.
  - constructor; [|done]. split; [done|]. destruct ok; auto.
  - intros He. destruct (H1 He) as [-> ->]. destruct (H3 He) as [-> H4]. by repeat constructor.
Qed.

Lemma fetch_run (s : store) a : healthy s -> 0 <= a < 2 ^ 63 -> exists l arr d e,
  get_pcap_meta_array a CLEANER_GROUP_INTERVAL s = Done ((0, arr), upd_env e (upd_db d s)) /\
  rdb_ok d /\ rtables d = rtables (cs_db s) /\
  l ≡ₚ filter (fun r => a <= stamp r) (rows s) /\ Sorted (by_column 0) l /\ Forall2 meta_of arr (take CLEANER_GROUP_INTERVAL l) /\
  (mallocs (cs_env s) = [] -> e = cs_env s /\ Forall2 (fun p r => pf_name p = column_text r 1) arr (take CLEANER_GROUP_INTERVAL l)).
Proof.
  intros [Hok Ht Hr] Ha. unfold get_pcap_meta_array. destruct (pcap_prepare_run _ Hok Ht) as (d1 & E1 & Hok1 & R1).
  erewrite bind_run by (unfold st_db; rewrite E1; done). cbn [negb].
  destruct (bind_two_run d1 Hok1) as (d2 & E2 & Hok2 & R2). erewrite bind_run by (unfold st_db; cbn [cs_db upd_db]; rewrite E2; done). cbn [negb].
  rewrite s64_small by done. set (p := fun r : row => a <=? _). destruct (select_pcap_run d2 p CLEANER_GROUP_INTERVAL Hok2) as (d3 & l & E3 & Hok3 & R3 & Hl & Hs).
  erewrite bind_run by (unfold st_db; cbn [cs_db upd_db]; rewrite E3; done). cbn [fst snd].
  assert (l ≡ₚ filter (fun r => a <= stamp r) (rows s)) as Hl'.
  { rewrite Hl. unfold rows. rewrite R2, R1. erewrite list_filter_iff; [done|]. intros r. unfold p, stamp. by rewrite Is_true_true, Z.leb_le. }
  destruct (copy_meta_run (take CLEANER_GROUP_INTERVAL l)) with (e := cs_env s) as (arr & e & E4 & Hm & He).
  { apply Forall_take. rewrite Hl'. apply Forall_forall. intros r [_ Hin]%list_elem_of_filter. by eapply Forall_forall in Hr. }
  erewrite bind_run by (unfold st_env; cbn [cs_env upd_db]; rewrite E4; done).
  exists l, arr, d3, e. split; [done|]. rewrite R3, R2, R1. done.
Qed.

(** The path of the file of a row, for rows with names. *)
Definition row_path (dir : list Z) (r : row) : list Z := folder dir ++ SLASH :: default [] (column_text r 1).
Definition named (r : row) : Prop := exists n, column_text r 1 = Some n /\ plain_name n.

(** Nothing else of the store changes.  With memory available no other files
    are removed than those of the rows. *)
Lemma remove_files_run dir arr : forall t (s : store), exists k e,
  remove_files dir arr t s = Done (default t (last (pf_timestamp <$> arr)), upd_env e (upd_disk k s)) /\
  forall l rs, cs_env s = Env [] rs -> dir <> [] -> Forall2 (fun p r => pf_name p = column_text r 1) arr l -> Forall named l ->
    e = cs_env s /\ forall f, (forall r, r ∈ l -> f <> row_path dir r) -> dk_files k !! f = dk_files (cs_disk s) !! f.
Proof.
  induction arr as [|p arr IH]; intros t s; cbn [remove_files].
  - exists (cs_disk s), (cs_env s). split; [by destruct s|]. done.
  - destruct (construct_path_total (Some dir) (pf_name p) (cs_env s)) as (o & e1 & E1).
    erewrite bind_run by (unfold st_env; rewrite E1; done).
    assert (exists z k, (match o with None => mret 0 | Some f => st_disk (remove f) end) (upd_env e1 s) = Done (z, upd_disk k (upd_env e1 s)) /\
      forall f, o <> Some f -> dk_files k !! f = dk_files (cs_disk s) !! f) as (z & k & E2 & Hk).
    { destruct o as [f|]; [|exists 0, (cs_disk s); by destruct s]. unfold st_disk, remove. erewrite bind_run by done. cbv beta.
      destruct (_ =? 0); eexists _, _; (split; [reflexivity|]); [|done].
      intros f' Hf. cbn. rewrite lookup_delete_ne; [done|]. congruence. }
    erewrite bind_run by exact E2. destruct (IH (pf_timestamp p) (upd_disk k (upd_env e1 s))) as (k' & e' & -> & H).
    exists k', e'. split; [rewrite fmap_cons, last_cons; destruct (last (pf_timestamp <$> arr)); reflexivity|].
    intros l rs He Hd Hn Hl. apply Forall2_cons_inv_l in Hn as (r & l' & Hp & Hn' & ->). apply list.Forall_cons in Hl as [(n & Hr & Hplain) Hl].
    rewrite Hp, Hr, He, construct_path_run in E1 by done. injection E1 as <- <-.
    destruct (H l' rs eq_refl Hd Hn' Hl) as [-> Hf]. cbn in Hf |- *. split; [done|]. intros f Hne.
    rewrite Hf by (intros r' Hr'; apply Hne; by right). apply Hk. intros [= <-]. apply (Hne r); [left|]. unfold row_path. by rewrite Hr.
Qed.

(** The last of some rows that are in order. *)
Lemma sorted_last l r : Sorted (by_column 0) l -> last l = Some r -> Forall (fun x => stamp x <= stamp r) l.
Proof.
  intros Hs Hl. apply Sorted_StronglySorted in Hs; [|apply _]. induction Hs as [|x l Hs IH Hx]; [done|].
  destruct l as [|y l]; [injection Hl as ->; by constructor|]. constructor; [|by apply IH].
  rewrite last_cons_cons in Hl. eapply Forall_forall in Hx; [exact Hx|]. by apply last_Some_elem_of.
Qed.

Lemma sorted_take n l : Sorted (by_column 0) l -> Sorted (by_column 0) (take n l).
Proof.
  revert n. induction l as [|x l IH]; intros n Hs; [by rewrite take_nil|]. destruct n; [constructor|]. inversion Hs as [|? ? Hs' Hx]; subst.
  cbn. constructor; [by apply IH|]. destruct l, n; cbn; [constructor..|]. inversion Hx. by constructor.
Qed.

Lemma meta_last arr l : Forall2 meta_of arr l -> Forall row_ok l -> last (pf_timestamp <$> arr) = last (stamp <$> l).
Proof.
  intros H Hr. f_equal. induction H as [|p r arr l [Hp _] _ IH]; [done|]. apply list.Forall_cons in Hr as [Hr Hl].
  rewrite !fmap_cons, IH, Hp by done. by destruct (row_stamp r Hr) as (_ & -> & _).
Qed.

(** What a round does: nothing when there are no rows left, otherwise it goes
    to the timestamp of a row and deletes what is not newer. *)
Lemma clean_round fuel ctx a (s : store) : healthy s -> 0 <= a < 2 ^ 63 -> a <= next_timestamp ctx -> exists b s',
  clean_loop (S fuel) ctx a s = clean_loop fuel ctx b s' /\ healthy s' /\ a <= b < 2 ^ 63 /\
  rows s' = filter (fun r => ~ between a b r) (rows s) /\
  ((b = a /\ filter (fun r => a <= stamp r) (rows s) = []) \/ exists r, r ∈ rows s /\ stamp r = b) /\
  exists d k e, s' = upd_db d (upd_env e (upd_disk k s)) /\
    forall rs, cs_env s = Env [] rs -> cleaner_path ctx <> [] -> Forall named (rows s) ->
      e = cs_env s /\ forall f, (forall r, r ∈ rows s -> between a b r -> f <> row_path (cleaner_path ctx) r) ->
        dk_files k !! f = dk_files (cs_disk s) !! f.
Proof.
  intros Hh Ha Hn. cbn [clean_loop]. rewrite (proj2 (Z.ltb_ge _ _)) by done.
  destruct (fetch_run s a Hh Ha) as (l & arr & d & e & E1 & Hok & Hd & Hl & Hs & Hm & He). erewrite bind_run by exact E1. cbn [fst snd Z.ltb Z.compare].
  destruct (remove_files_run (cleaner_path ctx) arr a (upd_env e (upd_db d s))) as (k & e' & E2 & Hrm). erewrite bind_run by exact E2.
  assert (Forall (fun r => row_ok r /\ r ∈ rows s /\ a <= stamp r) (take CLEANER_GROUP_INTERVAL l)) as Hf.
  { apply Forall_take. rewrite Hl. apply Forall_forall. intros r [Hge Hin]%list_elem_of_filter.
    split; [|done]. pose proof (h_rows s Hh) as Hr. by eapply Forall_forall in Hr. }
  rewrite (meta_last arr _ Hm) by (eapply Forall_impl; [exact Hf|by intros ? []]). rewrite fmap_last.
  set (b := default a (stamp <$> last (take CLEANER_GROUP_INTERVAL l))).
  assert (a <= b < 2 ^ 63 /\ ((b = a /\ filter (fun r => a <= stamp r) (rows s) = []) \/ exists r, r ∈ rows s /\ stamp r = b) /\
    Forall (fun r => stamp r <= b) (take CLEANER_GROUP_INTERVAL l)) as (Hb & Hcase & Hupto).
  { unfold b. destruct (last (take CLEANER_GROUP_INTERVAL l)) as [r|] eqn:El; cbn [default fmap option_fmap option_map]; unfold id.
    - pose proof (sorted_last _ _ (sorted_take _ _ Hs) El) as Hle. apply last_Some_elem_of in El.
      eapply Forall_forall in Hf as (Hr & Hin & Hge); [|exact El]. pose proof (row_stamp r Hr). split; [lia|]. split; [right; by exists r|done].
    - split; [lia|]. apply last_None in El. rewrite El. split; [|done]. left. split; [done|]. destruct l; [by apply Permutation_nil_l in Hl|done]. }
  destruct (delete_run d a b Hok) as (d' & E3 & Hok' & Hr'); [rewrite Hd; apply Hh|done|lia|].
  erewrite bind_run by (unfold st_db; cbn [cs_db upd_env upd_disk upd_db]; rewrite E3; done). cbn [Z.ltb Z.compare].
  exists b. eexists. split; [done|].
  assert (default [] (rtables d' !! t_name pcap_table) = filter (fun r => ~ between a b r) (rows s)) as Hrows
    by (rewrite Hr', lookup_insert_eq, Hd; done).
  split; [|split; [done|split; [exact Hrows|split; [done|]]]].
  - split; [done|cbn; rewrite Hr', lookup_insert_eq; by eexists|].
    unfold rows. cbn [cs_db upd_db]. rewrite Hrows. apply Forall_forall. intros r [_ Hin]%list_elem_of_filter.
    pose proof (h_rows s Hh) as Hr. by eapply Forall_forall in Hr.
  - exists d', k, e'. split; [done|]. intros rs Henv Hdir Hnamed. destruct (He ltac:(by rewrite Henv)) as [-> Hnames].
    destruct (Hrm (take CLEANER_GROUP_INTERVAL l) rs) as [-> Hfiles]; [done|done|done| |].
    { eapply Forall_impl; [exact Hf|]. intros r (_ & Hin & _). by eapply Forall_forall in Hnamed. }
    split; [done|]. intros f Hne. apply Hfiles. intros r Hin. eapply Forall_forall in Hf as (_ & Hr & Hge); [|exact Hin].
    apply Hne; [done|]. split; [done|]. eapply Forall_forall in Hupto; [exact Hupto|done].
Qed.

(** ** When the loop ends *)

Lemma between_twice a b c (l : list row) : a <= b -> b <= c ->
  filter (fun r => ~ between b c r) (filter (fun r => ~ between a b r) l) = filter (fun r => ~ between a c r) l.
Proof. intros. rewrite list_filter_filter. apply list_filter_iff. unfold between. intros r. lia. Qed.

(** A filter that lets less through. *)
Lemma filter_shrinks (P Q : row -> Prop) `{forall r, Decision (P r)} `{forall r, Decision (Q r)} (l : list row) r :
  (forall x, P x -> Q x) -> r ∈ l -> Q r -> ~ P r -> (length (filter P l) < length (filter Q l))%nat.
Proof.
  intros HPQ Hr HQ HP. assert (filter P l = filter P (filter Q l)) as ->.
  { rewrite list_filter_filter. apply list_filter_iff. intros x. naive_solver. }
  assert (r ∈ filter Q l) as Hin by (by apply list_elem_of_filter). revert Hin. generalize (filter Q l). intros k Hk.
  apply list_elem_of_split in Hk as (k1 & k2 & ->). rewrite filter_app, filter_cons_False, !length_app by done. cbn.
  pose proof (length_filter P k1). pose proof (length_filter P k2). lia.
Qed.

Lemma clean_loop_ends ctx n : forall fuel a (s : store), healthy s -> 0 <= a < 2 ^ 63 ->
  (exists r, r ∈ rows s /\ next_timestamp ctx < stamp r) -> (length (filter (fun r => (a <= stamp r)%Z) (rows s)) <= n)%nat -> (n <= fuel)%nat ->
  exists b s', clean_loop fuel ctx a s = Done (0, s') /\ healthy s' /\ a <= b /\ next_timestamp ctx < b /\
    (rows s' = rows s /\ b = a \/ rows s' = filter (fun r => ~ between a b r) (rows s)).
Proof.
  induction n as [|n IH]; intros fuel a s Hh Ha (r & Hr & Hnew) Hn Hf.
  all: destruct (Z.lt_ge_cases (next_timestamp ctx) a) as [Hlt|Hle];
    [exists a, s; split; [destruct fuel; cbn [clean_loop]; by rewrite (proj2 (Z.ltb_lt _ _))|]; auto 6 with lia|].
  { assert (r ∈ filter (fun r => a <= stamp r) (rows s)) as Hin by (apply list_elem_of_filter; split; [lia|done]).
    destruct (filter _ (rows s)); [by apply elem_of_nil in Hin|cbn in Hn; lia]. }
  destruct fuel as [|fuel]; [lia|]. destruct (clean_round fuel ctx a s Hh Ha Hle) as (b & s1 & -> & Hh1 & Hb & Hr1 & Hcase & _).
  destruct Hcase as [[_ Hnil]|(x & Hx & Hxb)].
  { assert (r ∈ filter (fun r => a <= stamp r) (rows s)) as Hin by (apply list_elem_of_filter; split; [lia|done]).
    rewrite Hnil in Hin. by apply elem_of_nil in Hin. }
  destruct (Z.lt_ge_cases (next_timestamp ctx) b) as [Hlt|Hge].
  - exists b, s1. split; [destruct fuel; cbn [clean_loop]; by rewrite (proj2 (Z.ltb_lt _ _))|]. auto 6 with lia.
  - destruct (IH fuel b s1 Hh1) as (c & s2 & E & Hh2 & Hc1 & Hc2 & Hr2); [lia| | |lia|].
    + exists r. split; [|done]. rewrite Hr1. apply list_elem_of_filter. split; [unfold between; lia|done].
    + rewrite Hr1, list_filter_filter.
      pose proof (filter_shrinks (fun r => b <= stamp r /\ ~ between a b r) (fun r => a <= stamp r) (rows s) x) as Hs.
      assert (forall m k : nat, (m < k)%nat -> (k <= S n)%nat -> (m <= n)%nat) as Hmn by lia. eapply Hmn; [|exact Hn]. apply Hs; [intros; lia|done|lia|].
      unfold between. lia.
    + exists c, s2. split; [exact E|]. split; [done|]. split; [lia|]. split; [done|]. right.
      destruct Hr2 as [[Hr2 ->]|Hr2]; [lia|]. rewrite Hr2, Hr1. apply between_twice; lia.
Qed.

Lemma clean_loop_runs_on ctx fuel : forall a (s : store), healthy s -> 0 <= a < 2 ^ 63 -> a <= next_timestamp ctx ->
  Forall (fun r => stamp r <= next_timestamp ctx) (rows s) -> clean_loop fuel ctx a s = Fault OutOfFuel.
Proof.
  induction fuel as [|fuel IH]; intros a s Hh Ha Hle Hall.
  - cbn [clean_loop]. by rewrite (proj2 (Z.ltb_ge _ _)).
  - destruct (clean_round fuel ctx a s Hh Ha Hle) as (b & s1 & -> & Hh1 & Hb & Hr1 & Hcase & _). apply IH; [done|lia| |].
    + destruct Hcase as [[-> _]|(x & Hx & <-)]; [done|]. by eapply Forall_forall in Hall.
    + rewrite Hr1. apply Forall_forall. intros r [_ Hin]%list_elem_of_filter. by eapply Forall_forall in Hall.
Qed.

(** C36. The cleaning loop ends exactly when the table has a row that is newer than
    the rows that were counted (or there is nothing to clean).  Then as many
    rounds as there are rows are enough, 0 is returned, and the rows from the
    oldest counted one up to some time after the newest counted one are gone,
    the others untouched; otherwise it goes round for ever. *)
Theorem clean_capture_terminates (s : store) ctx :
  healthy s -> 0 <= low_timestamp ctx < 2 ^ 63 -> low_timestamp ctx <= next_timestamp ctx ->
  if decide (Exists (fun r => next_timestamp ctx < stamp r) (rows s)) then
    forall fuel, (length (rows s) <= fuel)%nat -> exists last s', clean_capture fuel ctx s = Done (0, s') /\ next_timestamp ctx < last /\
      rows s' = filter (fun r => ~ between (low_timestamp ctx) last r) (rows s)
  else forall fuel, clean_capture fuel ctx s = Fault OutOfFuel.
Proof.
  intros Hh Ha Hle. unfold clean_capture. case_decide as Hex.
  - intros fuel Hf. apply Exists_exists in Hex.
    destruct (clean_loop_ends ctx (length (rows s)) fuel (low_timestamp ctx) s Hh Ha Hex) as (b & s' & E & _ & Hb & Hn & Hr);
      [apply length_filter|done|].
    exists b, s'. split; [done|]. split; [done|]. destruct Hr as [[_ ->]|Hr]; [lia|done].
  - intros fuel. apply clean_loop_runs_on; [done..|]. apply not_Exists_Forall in Hex; [|apply _].
    eapply Forall_impl; [exact Hex|]. cbn. intros. lia.
Qed.

(** ** The timer of the cleaner *)

Definition size_of (l : list row) : Z := foldr (fun r n => column_int r 2 + n) 0 l.

Lemma size_perm l k : l ≡ₚ k -> size_of l = size_of k.
Proof. induction 1; cbn; unfold size_of in *; lia. Qed.

Lemma size_bound l : Forall row_ok l -> 0 <= size_of l <= zlen l * 2 ^ 32.
Proof.
  induction 1 as [|r l (t & n & c & k & -> & _ & Hc) _ IH]; [done|]. rewrite zlen_cons. cbn [size_of foldr column_int lookup list_lookup] in *.
  fold (size_of l). lia.
Qed.

Lemma sum_rows_run l : Forall row_ok l -> forall ht n, 0 <= n -> n + size_of l < 2 ^ 64 ->
  sum_rows l ht n = (default ht (last (stamp <$> l)), n + size_of l).
Proof.
  induction 1 as [|r l Hr Hl IH]; intros ht n Hn Hb; [cbn; f_equal; lia|].
  assert (0 <= column_int r 2) as Hc by (destruct Hr as (t & m & c & k & -> & _ & Hc); cbn; lia).
  pose proof (size_bound l Hl). cbn [size_of foldr] in *. fold (size_of l) in *.
  change (sum_rows (r :: l) ht n) with (sum_rows l (u64 (stamp r)) (u64 (n + column_int r 2))).
  destruct (row_stamp r Hr) as (_ & -> & _). rewrite (wrap_small 64) by lia. rewrite IH by lia. rewrite fmap_cons, last_cons.
  f_equal; [by destruct (last _)|lia].
Qed.

Lemma first_run (s : store) : healthy s -> rows s <> [] -> exists r d, get_first_pcap_entry 0 0 (cs_db s) = Done ((0, (stamp r, column_int r 2)), d) /\
  rdb_ok d /\ rtables d = rtables (cs_db s) /\ r ∈ rows s /\ Forall (fun x => stamp r <= stamp x) (rows s).
Proof.
  intros [Hok Ht Hr] Hne. unfold get_first_pcap_entry. destruct (pcap_prepare_run _ Hok Ht) as (d1 & E1 & Hok1 & R1).
  erewrite bind_run by exact E1. cbn [negb]. destruct (select_pcap_run d1 (fun _ => true) 1 Hok1) as (d2 & l & E2 & Hok2 & R2 & Hl & Hs).
  erewrite bind_run by exact E2. cbn [fst snd]. rewrite R1 in Hl. fold (rows s) in Hl.
  assert (filter (fun _ => true) (rows s) = rows s) as Hall by (apply filter_all; by intros).
  rewrite Hall in Hl. destruct l as [|r l]; [by apply Permutation_nil_l in Hl|]. cbn [take]. exists r, d2.
  assert (r ∈ rows s) as Hin by (rewrite <- Hl; left).
  assert (row_ok r) as Hrow by (by eapply Forall_forall in Hr). destruct (row_stamp r Hrow) as (_ & Hu & _).
  destruct Hrow as (t & n & c & k & -> & Ht' & Hc). cbn in Hu |- *. rewrite Hu, (wrap_small 64 c) by lia.
  split; [done|]. split; [done|]. rewrite R2, R1. split; [done|]. split; [done|].
  rewrite <- Hl. apply Sorted_StronglySorted in Hs; [|apply _]. inversion Hs as [|? ? ? Hle]; subst. constructor; [done|exact Hle].
Qed.

Lemma group_run (s : store) a : healthy s -> 0 <= a < 2 ^ 63 -> exists l d,
  sum_pcap_group a CLEANER_GROUP_INTERVAL a (cs_db s) = Done ((0, sum_rows (take CLEANER_GROUP_INTERVAL l) a 0), d) /\
  rdb_ok d /\ rtables d = rtables (cs_db s) /\ l ≡ₚ filter (fun r => a < stamp r) (rows s) /\ Sorted (by_column 0) l.
Proof.
  intros [Hok Ht Hr] Ha. unfold sum_pcap_group. destruct (pcap_prepare_run _ Hok Ht) as (d1 & E1 & Hok1 & R1).
  erewrite bind_run by exact E1. cbn [negb]. destruct (bind_two_run d1 Hok1) as (d2 & E2 & Hok2 & R2). erewrite bind_run by exact E2. cbn [negb].
  rewrite s64_small by done. set (p := fun r : row => a <? _). destruct (select_pcap_run d2 p CLEANER_GROUP_INTERVAL Hok2) as (d3 & l & E3 & Hok3 & R3 & Hl & Hs).
  erewrite bind_run by exact E3. cbn [fst snd]. exists l, d3. split; [done|]. split; [done|]. rewrite R3, R2, R1. split; [done|]. split; [|done].
  rewrite Hl. unfold rows. rewrite R2, R1. erewrite list_filter_iff; [done|]. intros r. unfold p, stamp. by rewrite Is_true_true, Z.ltb_lt.
Qed.

(** The oldest row and the newer ones. *)
Lemma oldest_first (l : list row) r : NoDup (stamp <$> l) -> r ∈ l -> Forall (fun x => stamp r <= stamp x) l ->
  l ≡ₚ r :: filter (fun x => stamp r < stamp x) l.
Proof.
  intros Hnd Hin Hmin. apply elem_of_Permutation in Hin as [k Hk]. rewrite Hk in Hmin, Hnd |- *. rewrite fmap_cons in Hnd.
  apply list.NoDup_cons in Hnd as [Hr _]. apply list.Forall_cons in Hmin as [_ Hmin]. rewrite filter_cons_False by lia.
  rewrite filter_all; [done|]. intros x Hx. eapply Forall_forall in Hmin; [|exact Hx].
  assert (stamp r <> stamp x); [|lia]. intros E. apply Hr. rewrite E. by apply list_elem_of_fmap_2.
Qed.

(** A round of counting that sees all the rows: the sum is the size of all of
    them, and the time it goes on from is that of the newest one. *)
Lemma counting_run (s : store) ctx : healthy s -> cs_cleaner s = Some ctx -> next_timestamp ctx = 0 ->
  NoDup (stamp <$> rows s) -> (2 <= length (rows s) <= CLEANER_GROUP_INTERVAL)%nat -> Forall (fun r => 0 < stamp r) (rows s) ->
  exists a s1 s2 ctx2, start_counting ctx s = Done (a, s1) /\ count_group a s1 = Done (tt, s2) /\
    healthy s2 /\ rows s2 = rows s /\ cs_cleaner s2 = Some ctx2 /\ store_size ctx2 = store_size ctx /\
    store_sum ctx2 = size_of (rows s) /\ 0 <= low_timestamp ctx2 < 2 ^ 63 /\ low_timestamp ctx2 <= next_timestamp ctx2 /\
    Forall (fun r => stamp r <= next_timestamp ctx2) (rows s).
Proof.
  intros Hh Hc Hnext Hnd Hlen Hpos. pose proof (h_rows s Hh) as Hrows.
  destruct (first_run s Hh) as (r & d1 & E1 & Hok1 & R1 & Hr & Hmin); [by destruct (rows s); [cbn in Hlen; lia|]|].
  assert (0 < stamp r) as Hr0 by (by eapply Forall_forall in Hpos).
  assert (row_ok r) as Hrow by (by eapply Forall_forall in Hrows). destruct (row_stamp r Hrow) as (Hrb & _).
  assert (exists s1, start_counting ctx s = Done (stamp r, s1) /\ rdb_ok (cs_db s1) /\ rtables (cs_db s1) = rtables (cs_db s) /\
    cs_cleaner s1 = Some {| cleaner_path := cleaner_path ctx; store_size := store_size ctx; low_timestamp := stamp r;
                            store_sum := column_int r 2; next_timestamp := 0 |}) as (s1 & Es & Hok1' & R1' & Hc1).
  { eexists. split; [|split; [|split]].
    - unfold start_counting. rewrite Hnext. cbn [Z.eqb]. erewrite bind_run by (unfold st_db; rewrite E1; done). cbn [fst snd].
      erewrite bind_run by done. done.
    - exact Hok1.
    - exact R1.
    - cbn. by rewrite Hc. }
  destruct (healthy_same s s1 Hh Hok1' R1') as [Hh1 Hs1].
  destruct (group_run s1 (stamp r) Hh1 Hrb) as (l & d2 & E2 & Hok2 & R2 & Hl & Hs). rewrite Hs1 in Hl.
  pose proof (oldest_first (rows s) r Hnd Hr Hmin) as Hp. rewrite <- Hl in Hp.
  assert (length (rows s) = S (length l)) as Hll by (by rewrite Hp). rewrite take_ge in E2 by lia.
  assert (Forall row_ok l) as Hlok by (rewrite Hp in Hrows; by apply list.Forall_cons in Hrows as [_ ?]).
  pose proof (size_bound l Hlok) as Hsz. assert (zlen l < 1024) as Hz by (unfold zlen, CLEANER_GROUP_INTERVAL in *; lia).
  rewrite sum_rows_run in E2 by (done || lia). destruct (last l) as [x|] eqn:Elast; [|apply last_None in Elast; subst l; cbn in Hll; lia].
  rewrite fmap_last, Elast in E2. cbn [default fmap option_fmap option_map] in E2. unfold id in E2. rewrite Z.add_0_l in E2.
  assert (stamp r < stamp x) as Hx.
  { apply last_Some_elem_of in Elast. rewrite Hl in Elast. by apply list_elem_of_filter in Elast as [? _]. }
  exists (stamp r), s1. eexists _, _. split; [exact Es|]. split.
  { unfold count_group. rewrite (proj2 (Z.eqb_neq _ _)) by lia. erewrite bind_run by (unfold st_db; rewrite E2; done). cbn [fst snd Z.ltb Z.compare].
    rewrite (proj2 (Z.eqb_neq _ _)) by lia. cbn [negb]. erewrite bind_run by done. cbn [cs_cleaner upd_db]. rewrite Hc1. done. }
  set (s2 := upd_cleaner _ _). assert (healthy s2 /\ rows s2 = rows s1) as [Hh2 Hs2] by (apply (healthy_same s1); [done|exact Hok2|exact R2]).
  split; [done|]. split; [by rewrite Hs2|]. split; [cbn; rewrite Hc1; done|]. cbn [store_size store_sum low_timestamp next_timestamp].
  pose proof (size_perm _ _ Hp) as Htot. cbn [size_of foldr] in Htot. fold (size_of l) in Htot.
  assert (0 <= column_int r 2 < 2 ^ 32) as Hcr by (destruct Hrow as (? & ? & ? & ? & -> & _ & ?); cbn; lia).
  rewrite (wrap_small 64) by lia. split; [done|]. split; [lia|]. split; [lia|]. split; [lia|].
  rewrite Hp. constructor; [lia|by apply sorted_last].
Qed.

(** The cleaner hangs when it has something to do and can see all of it:
    whenever the table holds at least two and at most as many packets as are
    summed up at a time, with different timestamps, and they reach the size of
    the store, the handler that the event loop calls does not return. *)
Theorem cleaner_hangs (s : store) ctx fuel : healthy s -> cs_cleaner s = Some ctx -> next_timestamp ctx = 0 ->
  NoDup (stamp <$> rows s) -> (2 <= length (rows s) <= CLEANER_GROUP_INTERVAL)%nat -> Forall (fun r => 0 < stamp r) (rows s) ->
  store_size ctx <= size_of (rows s) -> eloop_tout_cleaner_handler fuel s = Fault OutOfFuel.
Proof.
  intros Hh Hc Hnext Hnd Hlen Hpos Hsize.
  destruct (counting_run s ctx Hh Hc Hnext Hnd Hlen Hpos) as (a & s1 & s2 & ctx2 & E1 & E2 & Hh2 & Hs2 & Hc2 & Hsz & Hsum & Hlow & Hle & Hmax).
  unfold eloop_tout_cleaner_handler. erewrite bind_run by done. cbv beta. rewrite Hc.
  erewrite bind_run by exact E1. erewrite bind_run by exact E2. erewrite bind_run by done. cbv beta. rewrite Hc2.
  rewrite (proj2 (Z.leb_le _ _)) by lia. apply bind_fault, bind_fault. by apply clean_loop_runs_on; rewrite ?Hs2.
Qed.

(** ** Files and rows *)

Definition file_name (uuid : list Z) : list Z := uuid ++ PCAP_EXTENSION.
Definition file_row (uuid : list Z) (h : pcap_pkthdr) : row :=
  [CInt (s64 (os_to_timestamp (ts_sec h) (ts_usec h))); CText (file_name uuid); CInt (s64 (caplen h)); CInt (s64 (len h))].

(** A capture header with a time and a length as they come; a queued packet; an
    identifier. *)
Definition header_ok (h : pcap_pkthdr) : Prop := os_to_timestamp (ts_sec h) (ts_usec h) < 2 ^ 63 /\ 0 <= caplen h < 2 ^ 32.
Definition packet_ok (p : pcap_pkthdr * list Z) : Prop := header_ok p.1 /\ zlen p.2 = caplen p.1.
Definition uuid_ok (u : list Z) : Prop := (SLASH ∉ u) /\ zlen u < MAX_RANDOM_UUID_LEN.

Lemma file_name_plain u : uuid_ok u -> plain_name (file_name u).
Proof.
  intros [Hs _]. unfold file_name. split; [by intros [_ ?]%app_nil|]. split; [|split].
  - intros [H|H]%elem_of_app; [done|]. revert H. apply (bool_decide_unpack _). by vm_compute.
  - intros H. apply (f_equal length) in H. rewrite length_app in H. cbn in H. lia.
  - intros H. apply (f_equal length) in H. rewrite length_app in H. cbn in H. lia.
Qed.

Lemma file_row_ok u h : header_ok h -> row_ok (file_row u h).
Proof.
  intros [Ht Hc]. assert (0 <= os_to_timestamp (ts_sec h) (ts_usec h)) as H0 by (apply wrap_bound; lia).
  eexists _, _, _, _. split; [done|]. rewrite !s64_small by lia. done.
Qed.

Record store_inv (dir : list Z) (s : store) : Prop := {
  si_healthy : healthy s;
  si_dir : dir <> [];
  si_named : Forall named (rows s);
  si_nodup : NoDup ((fun r => column_text r 1) <$> rows s);
  si_files : Forall (fun r => is_Some (dk_files (cs_disk s) !! row_path dir r)) (rows s);
  si_env : exists rs, cs_env s = Env [] rs;
  si_uuid : forall n, uuid_ok (cs_uuid s n);
  si_pcap : forall c, cs_pcap s = Some c -> pcap_path c = dir /\ forall q, pcap_q c = Some q -> queue_wf q /\ Forall packet_ok (queue_items q);
  si_cleaner : forall c, cs_cleaner s = Some c -> cleaner_path c = dir /\ 0 <= low_timestamp c < 2 ^ 63 /\ 0 <= next_timestamp c < 2 ^ 63
}.

(** A row is entered unless its name is taken. *)
Lemma entry_run (d : rdb) l u h : rdb_ok d -> rtables d !! t_name pcap_table = Some l -> exists d',
  save_sqlite_pcap_entry (file_name u) (os_to_timestamp (ts_sec h) (ts_usec h)) (caplen h) (len h) d = Done (0, d') /\ rdb_ok d' /\
  ((fits pcap_table l (file_row u h) /\ rtables d' = <[t_name pcap_table := l ++ [file_row u h]]> (rtables d)) \/
   (~ fits pcap_table l (file_row u h) /\ rtables d' = rtables d)).
Proof.
  intros Hok Hl. unfold save_sqlite_pcap_entry. destruct (pcap_prepare_run d Hok) as (d1 & E1 & Hok1 & R1); [by exists l|].
  erewrite bind_run by exact E1. cbn [negb].
  match goal with |- context [bind_params PCAP_INSERT_INTO ?bs []] =>
    destruct (bind_params_ok PCAP_INSERT_INTO bs [] d1 Hok1) as (d2 & E2 & R2 & Hok2) end.
  { repeat (constructor; [set_solver|]). constructor. }
  erewrite bind_run by exact E2. cbn beta iota. erewrite bind_run by done. eexists. split; [done|].
  change (bound_row PCAP_INSERT_INTO _) with (file_row u h).
  destruct (insert_ok pcap_table (file_row u h) d2 Hok2) as [Hi Hok3]. split; [done|].
  pose proof (insert_rows pcap_table (file_row u h) d2) as Hr. cbv zeta in Hr. rewrite R2, R1 in *.
  destruct (rdb_insert pcap_table (file_row u h) d2).1 eqn:E.
  - left. destruct Hr as (l' & Hl' & Hf & ->). rewrite Hl in Hl'. by injection Hl' as <-.
  - right. split; [|done]. intros Hf. by specialize (Hi l Hl Hf).
Qed.

(** A name that is free, as the key of the table sees it. *)
Lemma fits_name l u h : Forall row_ok l ->
  fits pcap_table l (file_row u h) <-> (Some (file_name u) ∉ (fun r => column_text r 1) <$> l).
Proof.
  intros Hl. split.
  - intros [_ Hk] Hin. apply list_elem_of_fmap in Hin as (r & Hn & Hr). specialize (Hk ltac:(cbn; set_solver)).
    eapply Forall_forall in Hk; [|exact Hr]. destruct (proj1 (Forall_forall _ _) Hl r Hr) as (t & n & c & k & -> & _).
    injection Hn as Hn. apply Hk. cbn. by rewrite Hn.
  - intros Hin. split; [cbn; set_solver|]. intros _. apply Forall_forall. intros r Hr E. apply Hin.
    destruct (proj1 (Forall_forall _ _) Hl r Hr) as (t & n & c & k & -> & _). injection E as ->.
    apply list_elem_of_fmap. by exists [CInt t; CText (file_name u); CInt c; CInt k].
Qed.

(** The invariant after a change of files and rows. *)
Lemma inv_change dir (s s' : store) : store_inv dir s -> healthy s' -> Forall named (rows s') ->
  NoDup ((fun r => column_text r 1) <$> rows s') -> Forall (fun r => is_Some (dk_files (cs_disk s') !! row_path dir r)) (rows s') ->
  cs_env s' = cs_env s -> cs_uuid s' = cs_uuid s -> cs_pcap s' = cs_pcap s -> cs_cleaner s' = cs_cleaner s -> store_inv dir s'.
Proof. intros [] ? ? ? ? E1 E2 E3 E4. split; rewrite ?E1, ?E2, ?E3, ?E4; done. Qed.

Lemma insert_files (dir : list Z) (f : gmap (list Z) (pcap_pkthdr * list Z)) p x (l : list row) :
  Forall (fun r => is_Some (f !! row_path dir r)) l -> Forall (fun r => is_Some (<[p := x]> f !! row_path dir r)) l.
Proof. intros H. eapply Forall_impl; [exact H|]. intros r Hr. rewrite lookup_insert_is_Some. destruct (decide (p = row_path dir r)); auto. Qed.

(** With a new row. *)
Lemma inv_add dir (s s' : store) u h x : store_inv dir s -> rdb_ok (cs_db s') -> uuid_ok u -> header_ok h ->
  (Some (file_name u) ∉ (fun r => column_text r 1) <$> rows s) ->
  rtables (cs_db s') = <[t_name pcap_table := rows s ++ [file_row u h]]> (rtables (cs_db s)) ->
  dk_files (cs_disk s') = <[row_path dir (file_row u h) := x]> (dk_files (cs_disk s)) ->
  cs_env s' = cs_env s -> cs_uuid s' = cs_uuid s -> cs_pcap s' = cs_pcap s -> cs_cleaner s' = cs_cleaner s ->
  store_inv dir s' /\ rows s' = rows s ++ [file_row u h].
Proof.
  intros Hi Hok Hu Hh Hnew Hr Hf He1 He2 He3 He4. assert (rows s' = rows s ++ [file_row u h]) as E by (unfold rows at 1; by rewrite Hr, lookup_insert_eq).
  split; [|done]. pose proof Hi as [[_ _ Hrows] _ Hnamed Hnd Hfiles _ _ _ _].
  apply (inv_change dir s); try done; rewrite ?E.
  - split; [done|rewrite Hr, lookup_insert_eq; by eexists|]. rewrite E. apply Forall_app. split; [done|]. apply Forall_singleton. by apply file_row_ok.
  - apply Forall_app. split; [done|]. apply Forall_singleton. exists (file_name u). split; [done|by apply file_name_plain].
  - rewrite fmap_app. apply NoDup_app. split; [done|]. split; [|apply NoDup_singleton]. intros y Hy ->%list_elem_of_singleton. done.
  - rewrite Hf. apply Forall_app. split; [by apply insert_files|]. apply Forall_singleton. rewrite lookup_insert_eq. by eexists.
Qed.

(** Writing the file: it is there, or the disk said no. *)
Lemma dump_run (s : store) path h data : zlen data = caplen h -> exists z k, dump_file_pcap path h data s = Done (z, upd_disk k s) /\
  ((z = -1 /\ dk_files k = dk_files (cs_disk s) /\ dk_answers (cs_disk s) <> []) \/
   (z = 0 /\ dk_files k = <[path := (h, data)]> (dk_files (cs_disk s)) /\ (dk_answers (cs_disk s) = [] -> dk_answers k = []))).
Proof.
  intros Hlen. assert (rd data 0 (caplen h) = Done data) as Hrd.
  { apply rd_done. rewrite <- Hlen. pose proof (zlen_nonneg data). split; [lia|]. split; [lia|]. split; [lia|].
    change (Z.to_nat 0) with 0%nat. rewrite drop_0, take_ge; [done|]. unfold zlen. lia. }
  unfold dump_file_pcap. erewrite bind_run by (rewrite Hrd; apply lift_run).
  destruct (cs_disk s) as [ans dirs files] eqn:Ed.
  assert (exists z k, write_file path (h, data) (cs_disk s) = Done (z, k) /\
    ((z <> 0 /\ dk_files k = files /\ ans <> []) \/ (z = 0 /\ dk_files k = <[path := (h, data)]> files /\ (ans = [] -> dk_answers k = []))))
    as (z & k & E & Hk).
  { rewrite Ed. unfold write_file. erewrite bind_run by done. cbn [dk_answers dk_dirs dk_files]. destruct ans as [|a ans]; cbn [head default tail]; unfold id.
    - eexists _, _. split; [done|]. by right.
    - destruct (Z.eqb_spec a 0); (eexists _, _; split; [done|]); [right|left]; done. }
  erewrite bind_run by (unfold st_disk; rewrite E; done). exists (if z =? 0 then 0 else -1), k. split; [done|].
  destruct Hk as [(Hz & H)|(-> & H)]; [left; by rewrite (proj2 (Z.eqb_neq _ _))|by right].
Qed.

Lemma save_data_inv dir (s : store) h data : store_inv dir s -> packet_ok (h, data) -> let u := cs_uuid s (cs_count s) in
  exists r s', save_pcap_file_data dir h data s = Done (r, s') /\ store_inv dir s' /\ cs_pcap s' = cs_pcap s /\ cs_uuid s' = cs_uuid s /\
    cs_count s' = S (cs_count s) /\ cs_eloop s' = cs_eloop s /\
    (dk_answers (cs_disk s) = [] -> (Some (file_name u) ∉ (fun r => column_text r 1) <$> rows s) ->
     dk_answers (cs_disk s') = [] /\ rows s' = rows s ++ [file_row u h] /\
     dk_files (cs_disk s') = <[row_path dir (file_row u h) := (h, data)]> (dk_files (cs_disk s))).
Proof.
  intros Hi [Hh Hlen] u. cbn [fst snd] in *. pose proof Hi as [[Hok [l Hl] Hrows] Hdir Hnamed Hnd Hfiles [rs He] Hu _ _].
  pose proof (Hu (cs_count s)) as Hu0. fold u in Hu0. assert (rows s = l) as El by (unfold rows; by rewrite Hl).
  unfold save_pcap_file_data, construct_pcap_file_name. cbv zeta.
  erewrite bind_run; cycle 1.
  { erewrite bind_run by done. fold u. rewrite strcat_fits; [apply lift_run|]. destruct Hu0 as [_ Hz].
    change (zlen PCAP_EXTENSION) with 5. unfold MAX_PCAP_FILE_NAME_LENGTH, MAX_RANDOM_UUID_LEN in *. lia. }
  fold (file_name u). erewrite bind_run by (unfold st_env; cbn [cs_env upd_count]; rewrite He, construct_path_run by (done || by apply file_name_plain); done).
  destruct (dump_run (upd_env (Env [] rs) (upd_count (S (cs_count s)) s)) (folder dir ++ SLASH :: file_name u) h data Hlen) as (z & k & E2 & Hk).
  erewrite bind_run by exact E2. destruct Hk as [(-> & Hk & Ha)|(-> & Hk & Ha)]; cbn [Z.ltb Z.compare].
  - eexists _, _. split; [done|]. split; [apply (inv_change dir s); try done; cbn; by rewrite Hk|]. do 4 (split; [done|]). intros Ha'. by apply Ha in Ha'.
  - destruct (entry_run (cs_db s) l u h Hok Hl) as (d' & E3 & Hok' & Hcase). rewrite (fits_name l u h) in Hcase by (by rewrite <- El).
    unfold st_db. cbn [cs_db upd_disk upd_env upd_count]. rewrite E3. eexists _, _. split; [done|]. set (s' := upd_db _ _).
    rewrite <- El in Hcase. destruct Hcase as [[Hnew Hr]|[Hold Hr]].
    + destruct (inv_add dir s s' u h (h, data)) as [Hi' Hrows']; try done. do 5 (split; [done|]). intros Ha' _. by split; [apply Ha|].
    + destruct (healthy_same s s') as [Hh' Hs']; [by apply si_healthy in Hi|done|done|].
      split; [|do 4 (split; [done|]); intros _ H; by destruct (Hold H)]. apply (inv_change dir s); try done; rewrite ?Hs'; try done.
      unfold s'. cbn [cs_disk upd_db upd_disk]. rewrite Hk. by apply insert_files.
Qed.

(** What saving some packets makes of rows and files; the identifiers are taken
    from number [n] on. *)
Fixpoint saved (dir : list Z) (uuid : nat -> list Z) (n : nat) (ts : list (pcap_pkthdr * list Z))
    (l : list row) (f : gmap (list Z) (pcap_pkthdr * list Z)) : list row * gmap (list Z) (pcap_pkthdr * list Z) :=
  match ts with
  | [] => (l, f)
  | p :: rest => saved dir uuid (S n) rest (l ++ [file_row (uuid n) p.1]) (<[row_path dir (file_row (uuid n) p.1) := p]> f)
  end.

(** The next [n] identifiers are new. *)
Definition fresh_uuids (n : nat) (s : store) : Prop :=
  NoDup (cs_uuid s <$> seq (cs_count s) n) /\
  Forall (fun u => Some (file_name u) ∉ (fun r => column_text r 1) <$> rows s) (cs_uuid s <$> seq (cs_count s) n).

Lemma inv_queue dir (s : store) c q : store_inv dir s -> cs_pcap s = Some c -> queue_wf q -> Forall packet_ok (queue_items q) ->
  store_inv dir (upd_pcap (Some {| pcap_path := pcap_path c; pcap_q := Some q |}) s).
Proof.
  intros [[] ? ? ? ? ? ? Hp ?] Hc Hwf Hq. destruct (Hp c Hc) as [Hd _]. split; try done. intros c' [= <-]. split; [done|]. intros q' [= <-]. done.
Qed.

Lemma drain_inv dir ts : forall fuel (s : store) ctx c q, store_inv dir s -> pcap_path ctx = dir -> cs_pcap s = Some c -> pcap_q c = Some q ->
  queue_items q = ts -> (length ts <= fuel)%nat ->
  exists s' c' q', drain_pcap fuel ctx s = Done (tt, s') /\ store_inv dir s' /\ cs_pcap s' = Some c' /\ pcap_q c' = Some q' /\ queue_items q' = [] /\
    cs_eloop s' = cs_eloop s /\
    (dk_answers (cs_disk s) = [] -> fresh_uuids (length ts) s ->
     (rows s', dk_files (cs_disk s')) = saved dir (cs_uuid s) (cs_count s) ts (rows s) (dk_files (cs_disk s))).
Proof.
  induction ts as [|p ts IH]; intros fuel s ctx c q Hi Hd Hc Hq Hts Hf.
  - assert (dl_nodes q = []) as Hn by (unfold queue_items in Hts; by destruct (dl_nodes q)).
    exists s, c, q. split; [|done]. destruct fuel; cbn [drain_pcap]; (erewrite bind_run by done); cbv beta;
      rewrite Hc; cbn [mbind option_bind]; rewrite Hq; unfold is_pcap_queue_empty; by rewrite bool_decide_true.
  - destruct fuel as [|fuel]; [cbn in Hf; lia|]. destruct (si_pcap dir s Hi c Hc) as [Hdir Hqs]. destruct (Hqs q Hq) as [Hwf Hok].
    rewrite Hts in Hok. apply list.Forall_cons in Hok as [Hp Hok].
    destruct (first_spec q p ts Hwf Hts) as (a & q1 & H1 & H2 & Hwf1 & Hi1). destruct p as [h data].
    cbn [drain_pcap]. erewrite bind_run by done. cbv beta. rewrite Hc. cbn [mbind option_bind]. rewrite Hq.
    unfold is_pcap_queue_empty, pop_pcap_queue. rewrite bool_decide_false by (unfold dl_list_first in H1; by destruct (dl_nodes q)).
    cbn [Z.ltb Z.compare]. rewrite H1. cbn [fst snd]. rewrite Hd.
    destruct (save_data_inv dir s h data Hi Hp) as (r & s1 & E1 & Hi1' & Hc1 & Hu1 & Hn1 & Hl1 & Hsv). erewrite bind_run by exact E1.
    unfold free_pcap_queue_el. rewrite H2. erewrite bind_run by apply lift_run. erewrite bind_run by done. rewrite Hc1, Hc. cbn [fmap option_fmap option_map].
    rewrite <- Hi1 in Hok. set (s2 := upd_pcap _ s1).
    destruct (IH fuel s2 ctx {| pcap_path := pcap_path c; pcap_q := Some q1 |} q1) as (s3 & c3 & q3 & E3 & Hi3 & Hc3 & Hq3 & Hqi3 & Hl3 & Hs3);
      [apply inv_queue; [done|congruence|done|done]|done|done|done|done|cbn in Hf; lia|].
    exists s3, c3, q3. split; [exact E3|]. do 4 (split; [done|]). split; [by rewrite Hl3|].
    intros Ha [Hnd Hnew]. cbn [length seq] in Hnd, Hnew. rewrite fmap_cons in Hnd, Hnew.
    apply list.NoDup_cons in Hnd as [Hout Hnd]. apply list.Forall_cons in Hnew as [Hn0 Hnew]. destruct (Hsv Ha Hn0) as (Ha1 & Hr1 & Hf1).
    rewrite Hs3; cbn [saved cs_uuid cs_count cs_disk s2 upd_pcap fst]; change (rows s2) with (rows s1); [by rewrite Hr1, Hf1, Hu1, Hn1|done|].
    unfold fresh_uuids. cbn [cs_uuid cs_count s2 upd_pcap]. change (rows s2) with (rows s1). rewrite Hu1, Hn1, Hr1. split; [done|].
    apply Forall_forall. intros u Hin. rewrite fmap_app. intros [H|H]%elem_of_app; [by eapply Forall_forall in Hnew|].
    apply list_elem_of_singleton in H. cbn in H. injection H as H. unfold file_name in H. apply app_inv_tail in H. by subst u.
Qed.

(** When the timer of the pcap middleware goes off, with database, disk and
    memory at work and new identifiers: each packet that waits is written to a
    file of its own, with its header and all the bytes captured, and entered in
    the table with its time, the name of that file and its lengths, in the order
    of arrival; nothing waits any more and the timer is set again. *)
Theorem packets_saved dir (s : store) c q : store_inv dir s -> cs_pcap s = Some c -> pcap_q c = Some q ->
  dk_answers (cs_disk s) = [] -> fresh_uuids (length (queue_items q)) s ->
  exists s' c' q', eloop_tout_pcap_handler s = Done (tt, s') /\ cs_pcap s' = Some c' /\ pcap_q c' = Some q' /\ queue_items q' = [] /\
    (rows s', dk_files (cs_disk s')) = saved dir (cs_uuid s) (cs_count s) (queue_items q) (rows s) (dk_files (cs_disk s)) /\
    cs_eloop s' = (register_timeout PCAP_PROCESS_INTERVAL eloop_tout_pcap (cs_eloop s)).2.
Proof.
  intros Hi Hc Hq Ha Hf. destruct (si_pcap dir s Hi c Hc) as [Hd _].
  destruct (drain_inv dir (queue_items q) (length (dl_nodes q)) s c c q Hi Hd Hc Hq eq_refl) as (s1 & c1 & q1 & E & _ & Hc1 & Hq1 & Hi1 & Hl1 & Hs1).
  { unfold queue_items. by rewrite length_fmap. }
  unfold eloop_tout_pcap_handler. erewrite bind_run by done. cbv beta. rewrite Hc, Hq. erewrite bind_run by exact E. erewrite bind_run by done.
  eexists _, c1, q1. split; [done|]. split; [done|]. split; [done|]. split; [done|]. split; [by apply Hs1|]. cbn. by rewrite Hl1.
Qed.

(** ** Any run of the two middlewares *)

(** A round of the cleaner removes files of rows that it also deletes. *)
Lemma round_inv dir fuel ctx a (s : store) : store_inv dir s -> cleaner_path ctx = dir -> 0 <= a < 2 ^ 63 -> a <= next_timestamp ctx ->
  exists b s', clean_loop (S fuel) ctx a s = clean_loop fuel ctx b s' /\ store_inv dir s' /\ 0 <= b < 2 ^ 63 /\ cs_cleaner s' = cs_cleaner s.
Proof.
  intros Hi Hd Ha Hle. pose proof Hi as [Hh Hdir Hnamed Hnd Hfiles [rs He] _ _ _].
  destruct (clean_round fuel ctx a s Hh Ha Hle) as (b & s1 & E & Hh1 & Hb & Hr1 & _ & d & k & e & -> & Hk).
  destruct (Hk rs He) as [-> Hkeep]; [by rewrite Hd|done|]. exists b. eexists. split; [exact E|]. split; [|split; [lia|done]].
  rewrite Hd in Hkeep. clear Hk E. apply (inv_change dir s); try done; rewrite Hr1.
  - apply Forall_forall. intros r [_ Hin]%list_elem_of_filter. by eapply Forall_forall in Hnamed.
  - eapply sublist_NoDup; [exact Hnd|]. apply fmap_sublist, sublist_filter.
  - apply Forall_forall. intros r [Hout Hin]%list_elem_of_filter. cbn [cs_disk upd_db upd_env upd_disk]. rewrite Hkeep.
    + by eapply Forall_forall in Hfiles.
    + intros r' Hin' Hbet Heq. assert (column_text r 1 = column_text r' 1) as Hn.
      { destruct (proj1 (Forall_forall _ _) Hnamed r Hin) as (n & Hn & _), (proj1 (Forall_forall _ _) Hnamed r' Hin') as (n' & Hn' & _).
        unfold row_path in Heq. rewrite Hn, Hn' in *. by apply app_inv_head in Heq as [= ->]. }
      apply list_elem_of_lookup in Hin as [i Hri], Hin' as [j Hrj].
      assert (i = j) as ->; [|assert (r = r') as -> by congruence; done].
      eapply (NoDup_lookup _ i j (column_text r 1) Hnd); rewrite list_lookup_fmap, ?Hri, ?Hrj; [done|by rewrite Hn].
Qed.

Lemma clean_loop_inv dir fuel ctx : cleaner_path ctx = dir -> forall a (s s' : store) r, store_inv dir s -> 0 <= a < 2 ^ 63 ->
  clean_loop fuel ctx a s = Done (r, s') -> store_inv dir s'.
Proof.
  intros Hd. induction fuel as [|fuel IH]; intros a s s' r Hi Ha.
  - cbn [clean_loop]. destruct (_ <? _); [|done]. by intros [= _ <-].
  - destruct (Z.lt_ge_cases (next_timestamp ctx) a) as [Hlt|Hge].
    + cbn [clean_loop]. rewrite (proj2 (Z.ltb_lt _ _)) by done. by intros [= _ <-].
    + destruct (round_inv dir fuel ctx a s Hi Hd Ha Hge) as (b & s1 & -> & Hi1 & Hb & _). by apply IH.
Qed.

Lemma inv_counters dir (s : store) low sum next : store_inv dir s -> 0 <= low < 2 ^ 63 -> 0 <= next < 2 ^ 63 -> exists s',
  set_counters low sum next s = Done (tt, s') /\ store_inv dir s' /\ cs_db s' = cs_db s.
Proof.
  intros [[] ? ? ? ? ? ? ? Hc] Hl Hn. eexists. split; [done|]. split; [|done]. split; try done. cbn. intros c.
  destruct (cs_cleaner s) as [c0|]; [|done]. intros [= <-]. cbn. by destruct (Hc c0 eq_refl) as [? _].
Qed.

Lemma inv_db dir (s : store) d : store_inv dir s -> rdb_ok d -> rtables d = rtables (cs_db s) -> store_inv dir (upd_db d s).
Proof.
  intros Hi Hok R. destruct (healthy_same s (upd_db d s) (si_healthy dir s Hi) Hok R) as [Hh E]. pose proof Hi as [_ _ Hnamed Hnd Hfiles _ _ _ _].
  apply (inv_change dir s); try done; by rewrite E.
Qed.

Lemma start_counting_inv dir (s : store) ctx : store_inv dir s -> 0 <= next_timestamp ctx < 2 ^ 63 -> exists a s1,
  start_counting ctx s = Done (a, s1) /\ store_inv dir s1 /\ 0 <= a < 2 ^ 63.
Proof.
  intros Hi Hn. unfold start_counting. destruct (next_timestamp ctx =? 0); [|by exists (next_timestamp ctx), s].
  destruct (decide (rows s = [])) as [Hnil|Hne].
  - pose proof (si_healthy dir s Hi) as [Hok Ht _]. destruct (pcap_prepare_run _ Hok Ht) as (d1 & E1 & Hok1 & R1).
    destruct (select_pcap_run d1 (fun _ => true) 1 Hok1) as (d2 & l & E2 & Hok2 & R2 & Hl & _).
    assert (l = []) as -> by (rewrite R1 in Hl; fold (rows s) in Hl; rewrite Hnil in Hl; by apply Permutation_nil_r in Hl).
    assert (get_first_pcap_entry 0 0 (cs_db s) = Done ((1, (0, 0)), d2)) as E.
    { unfold get_first_pcap_entry. erewrite bind_run by exact E1. cbn [negb]. by erewrite bind_run by exact E2. }
    erewrite bind_run by (unfold st_db; rewrite E; done). cbn [fst snd].
    destruct (inv_counters dir (upd_db d2 s) 0 0 0) as (s1 & E3 & Hi1 & _); [apply inv_db; [done..|by rewrite R2]|lia|lia|].
    erewrite bind_run by exact E3. by exists 0, s1.
  - destruct (first_run s (si_healthy dir s Hi) Hne) as (r & d & E & Hok & R & Hr & _).
    pose proof (h_rows s (si_healthy dir s Hi)) as Hrows. destruct (row_stamp r (proj1 (Forall_forall _ _) Hrows r Hr)) as [Hb _].
    erewrite bind_run by (unfold st_db; rewrite E; done). cbn [fst snd].
    destruct (inv_counters dir (upd_db d s) (stamp r) (column_int r 2) 0) as (s1 & E3 & Hi1 & _); [by apply inv_db|done|lia|].
    erewrite bind_run by exact E3. by exists (stamp r), s1.
Qed.

Lemma sum_rows_range l : Forall row_ok l -> forall a n, 0 <= a < 2 ^ 63 -> 0 <= (sum_rows l a n).1 < 2 ^ 63.
Proof.
  induction 1 as [|r l Hr _ IH]; intros a n Ha; [done|]. destruct (row_stamp r Hr) as (Hb & Hu & _).
  apply (IH (u64 (stamp r)) (u64 (n + column_int r 2))). by rewrite Hu.
Qed.

Lemma count_group_inv dir (s s' : store) a : store_inv dir s -> 0 <= a < 2 ^ 63 -> count_group a s = Done (tt, s') -> store_inv dir s'.
Proof.
  intros Hi Ha. unfold count_group. destruct (a =? 0); [by intros [= <-]|].
  pose proof (si_healthy dir s Hi) as Hh. destruct (group_run s a Hh Ha) as (l & d & E & Hok & R & Hl & _).
  erewrite bind_run by (unfold st_db; rewrite E; done). cbn [fst snd Z.ltb Z.compare].
  assert (store_inv dir (upd_db d s)) as Hi1 by (by apply inv_db).
  destruct (negb _) eqn:Hne; [|by intros [= <-]]. erewrite bind_run by done. cbn [cs_cleaner upd_db].
  destruct (cs_cleaner s) as [c|] eqn:Hc; [|done]. destruct (si_cleaner dir s Hi c Hc) as (_ & Hlow & _).
  assert (0 <= (sum_rows (take CLEANER_GROUP_INTERVAL l) a 0).1 < 2 ^ 63) as Hht.
  { assert (Forall row_ok (take CLEANER_GROUP_INTERVAL l)) as Hlok.
    { apply Forall_take. rewrite Hl. apply Forall_forall. intros r [_ Hin]%list_elem_of_filter. pose proof (h_rows s Hh) as Hr.
      by eapply Forall_forall in Hr. }
    by apply sum_rows_range. }
  destruct (inv_counters dir (upd_db d s) (low_timestamp c) (u64 (store_sum c + (sum_rows (take CLEANER_GROUP_INTERVAL l) a 0).2))
    _ Hi1 Hlow Hht) as (s1 & -> & Hi2 & _). by intros [= <-].
Qed.

Lemma cleaner_handler_inv dir fuel (s s' : store) : store_inv dir s -> eloop_tout_cleaner_handler fuel s = Done (tt, s') -> store_inv dir s'.
Proof.
  intros Hi. unfold eloop_tout_cleaner_handler. erewrite bind_run by done. cbv beta. destruct (cs_cleaner s) as [c|] eqn:Hc; [|done].
  destruct (si_cleaner dir s Hi c Hc) as (_ & _ & Hn). destruct (start_counting_inv dir s c Hi Hn) as (a & s1 & E1 & Hi1 & Ha).
  erewrite bind_run by exact E1. intros H. apply bind_done in H as ([] & s2 & E2 & H).
  pose proof (count_group_inv dir s1 s2 a Hi1 Ha E2) as Hi2. erewrite bind_run in H by done. cbv beta in H.
  destruct (cs_cleaner s2) as [c2|] eqn:Hc2; [|done]. destruct (si_cleaner dir s2 Hi2 c2 Hc2) as (Hd & Hlow & _).
  apply bind_done in H as ([] & s3 & E3 & H). assert (store_inv dir s3) as Hi3.
  { destruct (_ <=? _); [|by injection E3 as <-]. apply bind_done in E3 as (r & s4 & E4 & E3).
    pose proof (clean_loop_inv dir fuel c2 Hd _ _ _ _ Hi2 Hlow E4) as Hi4.
    destruct (inv_counters dir s4 0 0 0 Hi4) as (s5 & E5 & Hi5 & _); [lia|lia|]. rewrite E5 in E3. by injection E3 as <-. }
  erewrite bind_run in H by done. injection H as <-. destruct Hi3 as [[]]. by split.
Qed.

Lemma process_inv dir header packet (s s' : store) r : store_inv dir s -> header_ok header ->
  process_pcap_middleware header packet s = Done (r, s') -> store_inv dir s'.
Proof.
  intros Hi Hh. unfold process_pcap_middleware. erewrite bind_run by done. cbv beta. destruct (cs_pcap s) as [c|] eqn:Hc; [|by intros [= _ <-]].
  destruct (si_env dir s Hi) as [rs He]. destruct (si_pcap dir s Hi c Hc) as [Hd Hq].
  intros (x & s1 & E1 & H)%bind_done. unfold st_env, push_pcap_queue in E1. rewrite He in E1. destruct (pcap_q c) as [q|] eqn:Eq.
  - destruct (Hq q eq_refl) as [Hwf Hok]. destruct (push_tail_spec (header, take (Z.to_nat (caplen header)) packet) q Hwf) as [Hwf' Hi'].
    unfold init_pcap_queue in E1. erewrite bind_run in E1 by (erewrite bind_run by apply malloc_nil; done).
    cbn beta iota in E1. erewrite bind_run in E1 by apply malloc_nil. cbn [negb] in E1.
    destruct (rd packet 0 (caplen header)) as [data|] eqn:Hrd; [|done]. erewrite bind_run in E1 by apply lift_run.
    injection E1 as <- <-. cbn [fst snd] in H. erewrite bind_run in H by done. injection H as _ <-. rewrite <- He. cbn [cs_pcap upd_env]. rewrite Hc.
    apply rd_done in Hrd as (_ & H0 & Hle & ->). change (Z.to_nat 0) with 0%nat in *. rewrite drop_0 in *.
    change (store_inv dir (upd_env (cs_env s) (upd_pcap (Some {| pcap_path := pcap_path c;
      pcap_q := Some (push_tail (header, take (Z.to_nat (caplen header)) packet) q) |}) s))).
    assert (forall t : store, store_inv dir t -> cs_env t = cs_env s -> store_inv dir (upd_env (cs_env s) t)) as Hsame
      by (intros t Ht Het; destruct t; cbn in *; by subst).
    apply Hsame; [|done]. apply inv_queue; [done..|]. rewrite Hi'. apply Forall_app. split; [done|]. apply Forall_singleton. split; [done|].
    cbn [fst snd]. unfold zlen in *. rewrite length_take. lia.
  - injection E1 as <- <-. erewrite bind_run in H by done. injection H as _ <-. cbn. rewrite Hc. cbn.
    pose proof Hi as [[] ? ? ? ? ? ? ? ?]. split; try done; [by eexists|]. intros c' [= <-]. cbn. by split.
Qed.

Inductive capture_step (s s' : store) : Prop :=
| step_capture header packet r : header_ok header -> process_pcap_middleware header packet s = Done (r, s') -> capture_step s s'
| step_pcap_timer : eloop_tout_pcap_handler s = Done (tt, s') -> capture_step s s'
| step_cleaner_timer fuel : eloop_tout_cleaner_handler fuel s = Done (tt, s') -> capture_step s s'.

Lemma pcap_step_inv dir (s s' : store) : store_inv dir s -> capture_step s s' -> store_inv dir s'.
Proof.
  intros Hi [header packet r Hh H|H|fuel H]; [by eapply process_inv| |by eapply cleaner_handler_inv].
  unfold eloop_tout_pcap_handler in H. erewrite bind_run in H by done. cbv beta in H. destruct (cs_pcap s) as [c|] eqn:Hc; [|done].
  destruct (si_pcap dir s Hi c Hc) as [Hd _]. apply bind_done in H as ([] & s1 & E1 & H). erewrite bind_run in H by done. injection H as <-.
  assert (store_inv dir s1) as Hi1; [|destruct Hi1 as [[]]; by split]. destruct (pcap_q c) as [q|] eqn:Hq.
  - destruct (drain_inv dir (queue_items q) (length (dl_nodes q)) s c c q Hi Hd Hc Hq eq_refl) as (s2 & c2 & q2 & E & Hi2 & _);
      [unfold queue_items; by rewrite length_fmap|]. rewrite E in E1. by injection E1 as <-.
  - cbn [drain_pcap] in E1. erewrite bind_run in E1 by done. cbv beta in E1. rewrite Hc in E1. cbn [mbind option_bind] in E1. by rewrite Hq in E1.
Qed.

End pcap_proofs.

(** ** Samples *)

Definition sample_row (t : Z) (name : string) : row := [CInt t; CText (cstr name); CInt 600000; CInt 600000].
Definition sample_dir : list Z := cstr "/tmp/db/capture".
Definition sample_cleaner (low next : Z) : cleaner_middleware_context :=
  {| cleaner_path := sample_dir; store_size := CLEANER_STORE_SIZE * 1024; low_timestamp := low; store_sum := 0; next_timestamp := next |}.
Definition sample_packet : pcap_pkthdr * list Z := ({| ts_sec := 1; ts_usec := 2; caplen := 3; len := 60 |}, [1; 2; 3]).
Definition sample_store (l : list row) (files : gmap (list Z) (pcap_pkthdr * list Z)) :
    capture_store (DB := list_reldb) (CQ := list_dl_list (pcap_pkthdr * list Z)) (CT := list_eloop capture_timer) :=
  {| cs_db := {[cstr "pcap" := l]}; cs_disk := Build_disk [] [] files; cs_eloop := []; cs_env := Env [] []; cs_uuid n := cstr "c";
     cs_count := 0; cs_pcap := Some {| pcap_path := sample_dir; pcap_q := Some [(0%nat, sample_packet)] |};
     cs_cleaner := Some (sample_cleaner 0 0) |}.
Definition sample_rows : list row := [sample_row 5 "a.pcap"; sample_row 9 "b.pcap"].

Lemma sample_healthy files : healthy (sample_store sample_rows files).
Proof.
  split; [done|by eexists|]. change (Forall row_ok sample_rows). repeat (constructor; [eexists _, _, _, _; split; [done|by vm_compute]|]). constructor.
Qed.

Lemma clean_capture_terminates_witness : exists last s', clean_capture 2 (sample_cleaner 5 5) (sample_store sample_rows ∅) = Done (0, s') /\ 5 < last.
Proof.
  pose proof (clean_capture_terminates (sample_store sample_rows ∅) (sample_cleaner 5 5) (sample_healthy ∅) ltac:(cbn; lia) ltac:(cbn; lia)) as H.
  rewrite decide_True in H.
  - destruct (H 2%nat) as (last & s' & E & Hl & _); [change (2 <= 2)%nat; lia|]. by exists last, s'.
  - change (Exists (fun r => 5 < stamp r) sample_rows). right. left. by vm_compute.
Defined.

Lemma cleaner_hangs_witness : eloop_tout_cleaner_handler 100 (sample_store sample_rows ∅) = Fault OutOfFuel.
Proof.
  refine (cleaner_hangs (sample_store sample_rows ∅) (sample_cleaner 0 0) 100 (sample_healthy ∅) eq_refl eq_refl _ _ _ _).
  - change (NoDup [5; 9]). apply (bool_decide_unpack _). by vm_compute.
  - change (2 <= 2 <= 1024)%nat. lia.
  - change (Forall (fun r => 0 < stamp r) sample_rows). repeat constructor; by vm_compute.
  - by vm_compute.
Defined.

Definition sample_full := sample_store sample_rows
  (<[cstr "/tmp/db/capture/a.pcap" := sample_packet]> {[cstr "/tmp/db/capture/b.pcap" := sample_packet]}).

Lemma sample_pcap_inv : store_inv sample_dir sample_full.
Proof.
  split.
  - apply sample_healthy.
  - done.
  - change (Forall named sample_rows). repeat (constructor; [eexists; split; [done|]; repeat split; try done; apply (bool_decide_unpack _); by vm_compute|]).
    constructor.
  - change (NoDup [Some (cstr "a.pcap"); Some (cstr "b.pcap")]). apply (bool_decide_unpack _). by vm_compute.
  - change (Forall (fun r => is_Some ((<[cstr "/tmp/db/capture/a.pcap" := sample_packet]> {[cstr "/tmp/db/capture/b.pcap" := sample_packet]}
      : gmap (list Z) (pcap_pkthdr * list Z)) !! row_path sample_dir r)) sample_rows).
    repeat (constructor; [exists sample_packet; by vm_compute|]). constructor.
  - by eexists.
  - intros n. split; [apply (bool_decide_unpack _); by vm_compute|done].
  - intros c [= <-]. split; [done|]. intros q [= <-]. split; [apply NoDup_singleton|]. repeat constructor; by vm_compute.
  - intros c [= <-]. by vm_compute.
Qed.

Lemma packets_saved_witness : exists s', eloop_tout_pcap_handler sample_full = Done (tt, s') /\
  rows s' = sample_rows ++ [file_row (cstr "c") sample_packet.1].
Proof.
  destruct (packets_saved sample_dir sample_full _ [(0%nat, sample_packet)] sample_pcap_inv eq_refl eq_refl eq_refl) as (s' & c' & q' & E & _ & _ & _ & H & _).
  - split; [apply NoDup_singleton|]. apply Forall_singleton. apply (bool_decide_unpack _). by vm_compute.
  - exists s'. split; [exact E|]. by injection H as H _.
Defined.

