(* ===== verification/Process.v ===== *)
(** Processes: [list_dir], [is_proc_app], [is_proc_running], [signal_process],
    [kill_process], [run_process], [make_file_exec_fd] and [read_file_string] of
    [src/utils/os.c].

    The model of the machine has what each listing of [/proc] shows, what the
    links [exe] and the files [cmdline] of the processes say, and what the calls
    of the operating system answer.  The child of [fork] is not modelled, only
    what its parent learns about it.  The theorem: a signal goes to exactly the
    processes whose program has the name, except to the program itself and the
    leader of its group. *)
From stdpp Require Import strings numbers base list gmap.
From Stdlib Require Import ZArith Lia.
From S2P Require Import Prelude Os Paths Text Extern Mappers.

(** [strtoul] in base 10, and the conversion to the 32-bit [pid_t]. *)
Fixpoint skip_spaces (s : list Z) : list Z :=
  match s with
  | c :: rest => if (c =? 32) || ((9 <=? c) && (c <=? 13)) then skip_spaces rest else s
  | [] => []
  end.
Definition strtoul (s : list Z) : Z :=
  let s := skip_spaces s in
  let n := atoi_digits (match s with c :: r => if (c =? 45) || (c =? 43) then r else s | [] => [] end) 0 in
  if 2 ^ 64 - 1 <? n then 2 ^ 64 - 1
  else match s with c :: _ => if c =? 45 then u64 (- n) else n | [] => n end.
Definition s32 (z : Z) : Z := (z + 2 ^ 31) mod 2 ^ 32 - 2 ^ 31.

(** How the parent sees a new process: it could not be made, it has ended with
    a status, or it runs. *)
Inductive start := START_FAILED | START_EXITED (status : Z) | START_RUNNING.

Record host := {
  ho_listing : nat -> option (list (list Z));   (* what listing number [n] of /proc shows *)
  ho_count : nat;
  ho_realpath : list Z -> option (list Z);
  ho_argv0 : list Z -> option (list Z);         (* the first string of a file *)
  ho_pid : Z;
  ho_pgid : Z;
  ho_answers : list Z;                          (* of readdir, closedir, kill, stat *)
  ho_starts : list start;
  ho_signals : list (Z * Z);
  ho_runs : list (list (list Z));
  ho_env : env
}.
#[local] Abbreviation Ho := (prog host).

Definition ho_get {A} (f : host -> A) : Ho A := fun h => Done (f h, h).
Definition ho_alloc {A} (m : prog env A) : Ho A := fun h =>
  match m (ho_env h) with
  | Fault f => Fault f
  | Done (a, e) =>
      Done (a, {| ho_listing := ho_listing h; ho_count := ho_count h; ho_realpath := ho_realpath h; ho_argv0 := ho_argv0 h;
                  ho_pid := ho_pid h; ho_pgid := ho_pgid h; ho_answers := ho_answers h; ho_starts := ho_starts h;
                  ho_signals := ho_signals h; ho_runs := ho_runs h; ho_env := e |})
  end.
Definition ho_call : Ho Z := fun h =>
  Done (default 0 (head (ho_answers h)),
        {| ho_listing := ho_listing h; ho_count := ho_count h; ho_realpath := ho_realpath h; ho_argv0 := ho_argv0 h;
           ho_pid := ho_pid h; ho_pgid := ho_pgid h; ho_answers := tail (ho_answers h); ho_starts := ho_starts h;
           ho_signals := ho_signals h; ho_runs := ho_runs h; ho_env := ho_env h |}).
Definition opendir_proc : Ho (option (list (list Z))) := fun h =>
  Done (ho_listing h (ho_count h),
        {| ho_listing := ho_listing h; ho_count := S (ho_count h); ho_realpath := ho_realpath h; ho_argv0 := ho_argv0 h;
           ho_pid := ho_pid h; ho_pgid := ho_pgid h; ho_answers := ho_answers h; ho_starts := ho_starts h;
           ho_signals := ho_signals h; ho_runs := ho_runs h; ho_env := ho_env h |}).
Definition log_signal (pid sig : Z) : Ho unit := fun h =>
  Done (tt, {| ho_listing := ho_listing h; ho_count := ho_count h; ho_realpath := ho_realpath h; ho_argv0 := ho_argv0 h;
               ho_pid := ho_pid h; ho_pgid := ho_pgid h; ho_answers := ho_answers h; ho_starts := ho_starts h;
               ho_signals := ho_signals h ++ [(pid, sig)]; ho_runs := ho_runs h; ho_env := ho_env h |}).
Definition fork_exec (argv : list (list Z)) : Ho start := fun h =>
  Done (default START_RUNNING (head (ho_starts h)),
        {| ho_listing := ho_listing h; ho_count := ho_count h; ho_realpath := ho_realpath h; ho_argv0 := ho_argv0 h;
           ho_pid := ho_pid h; ho_pgid := ho_pgid h; ho_answers := ho_answers h; ho_starts := tail (ho_starts h);
           ho_signals := ho_signals h; ho_runs := ho_runs h ++ [argv]; ho_env := ho_env h |}).
Definition kill (pid sig : Z) : Ho Z :=
  e ← ho_call;
  if e =? 0 then _ ← log_signal pid sig; mret 0 else mret (-1).

(** ** Directories *)

(** The callback gets an accumulator and gives back whether to go on. *)
Fixpoint list_loop {A} (dirpath : list Z) (fn : list Z -> A -> Ho (bool * A)) (entries : list (list Z)) (acc : A) : Ho (Z * A) :=
  match entries with
  | [] => e ← ho_call; mret (if e =? 0 then 0 else -1, acc)
  | d :: rest =>
      if bool_decide (d = cstr "." \/ d = cstr "..") then list_loop dirpath fn rest acc
      else
        path ← ho_alloc (construct_path (Some dirpath) (Some d));
        match path with
        | None => mret (-1, acc)
        | Some p =>
            x ← fn p acc;
            if negb x.1 then mret (-1, x.2) else list_loop dirpath fn rest x.2
        end
  end.

(** [list_dir], for [/proc]. *)
Definition list_dir {A} (fn : list Z -> A -> Ho (bool * A)) (acc : A) : Ho (Z * A) :=
  l ← opendir_proc;
  match l with
  | None => mret (-1, acc)
  | Some entries =>
      x ← list_loop (cstr "/proc") fn entries acc;
      c ← ho_call;
      if negb (c =? 0) then mret (-1, x.2) else mret x
  end.

(** ** Processes by name *)

Definition is_cmdline_procname (pid_cmdline_file proc_name : list Z) (h : host) : bool :=
  match ho_argv0 h pid_cmdline_file with
  | None => false
  | Some argv0 => bool_decide (basename argv0 = proc_name)
  end.

Definition LONG_MAX : Z := 2 ^ 63 - 1.

Definition is_proc_app (path proc_name : list Z) (h : host) : Z :=
  let parsed := strtoul (basename (clip MAX_OS_PATH_LEN path)) in
  let pid := s32 parsed in
  if (LONG_MAX <=? parsed) || (parsed =? 0) || negb (pid =? parsed) then 0
  else
    match ho_realpath h (clip (MAX_OS_PATH_LEN - 1) (path ++ cstr "/exe")) with
    | None => 0
    | Some resolved =>
        if bool_decide (basename resolved = proc_name) then pid
        else if is_cmdline_procname (clip (MAX_OS_PATH_LEN - 1) (path ++ cstr "/cmdline")) proc_name h then pid
        else 0
    end.

Definition find_dir_proc_fn (proc_name path : list Z) (proc_running : Z) : Ho (bool * Z) :=
  pid ← ho_get (is_proc_app path proc_name);
  mret (true, if pid =? 0 then proc_running else 1).

Definition is_proc_running (name : list Z) : Ho Z :=
  x ← list_dir (find_dir_proc_fn name) 0;
  mret (if x.1 =? -1 then -1 else x.2).

Definition signal_dir_fn (proc_name : list Z) (sig : Z) (path : list Z) (_ : unit) : Ho (bool * unit) :=
  current_pid ← ho_get ho_pid;
  current_pid_group ← ho_get ho_pgid;
  pid ← ho_get (is_proc_app path proc_name);
  if negb (pid =? 0) && negb (current_pid =? pid) && negb (pid =? current_pid_group) then
    r ← kill pid sig;
    mret (negb (r =? -1), tt)
  else mret (true, tt).

Definition signal_process (proc_name : option (list Z)) (sig : Z) : Ho bool :=
  match proc_name with
  | None => mret false
  | Some name =>
      if bool_decide (name = cstr ".") then mret false
      else
        n ← lift_outcome (os_strnlen_s (name ++ [0]) MAX_OS_PATH_LEN);
        if n =? 0 then mret false
        else
          x ← list_dir (signal_dir_fn name sig) tt;
          mret (negb (x.1 =? -1))
  end.

Definition SIGHUP : Z := 1.
Definition SIGTERM : Z := 15.
Definition kill_process (proc_name : list Z) : Ho bool := signal_process (Some proc_name) SIGTERM.

(** The text of the arguments is only logged. *)
Definition run_process (argv : option (list (list Z))) : Ho Z :=
  match argv with
  | None | Some [] | Some ([] :: _) => mret (-1)
  | Some a =>
      e ← ho_call;
      if negb (e =? 0) then mret (-1)
      else
        _ ← ho_alloc (string_array2string (Some a));
        s ← fork_exec a;
        mret (match s with START_FAILED => -1 | START_EXITED status => status | START_RUNNING => 0 end)
  end.

(** ** Files *)

(** [make_file_exec_fd]: [fstat] and [fchmod]. *)
Definition make_file_exec_fd {A} : prog (disk A) Z :=
  e1 ← answer;
  if negb (e1 =? 0) then mret (-1)
  else e2 ← answer; mret (if e2 =? 0 then 0 else -1).

(** A disk with text files, and memory. *)
Definition files : Type := disk (list Z) * env.
Definition fs_disk {B} (m : prog (disk (list Z)) B) : prog files B := fun se =>
  match m se.1 with Done (b, d) => Done (b, (d, se.2)) | Fault f => Fault f end.
Definition fs_env {B} (m : prog env B) : prog files B := fun se =>
  match m se.2 with Done (b, e) => Done (b, (se.1, e)) | Fault f => Fault f end.
Definition fs_lookup (path : list Z) : prog files (option (list Z)) := fun se => Done (dk_files se.1 !! path, se).

(** [fopen] and reading it all; a file that is not there cannot be opened. *)
Definition read_file (path : list Z) : prog files (option (list Z)) :=
  e ← fs_disk answer;
  content ← fs_lookup path;
  match content with
  | Some c => if negb (e =? 0) then mret None else ok ← fs_env malloc; mret (if (ok : bool) then Some c else None)
  | None => mret None
  end.

(** The content up to its first zero byte, as a string. *)
Definition read_file_string (path : list Z) : prog files (option (list Z)) :=
  data ← read_file path;
  match data with
  | None => mret None
  | Some c => ok ← fs_env malloc; mret (if (ok : bool) then Some (until_nul c) else None)
  end.

(** ** Who gets a signal *)

(** A process of the machine with a program of this name. *)
Definition runs_program (h : host) (name : list Z) (d : list Z) (pid : Z) : Prop :=
  strtoul d = pid /\ 0 < pid < 2 ^ 31 /\
  exists exe, ho_realpath h (cstr "/proc/" ++ d ++ cstr "/exe") = Some exe /\
    (basename exe = name \/ exists argv0, ho_argv0 h (cstr "/proc/" ++ d ++ cstr "/cmdline") = Some argv0 /\ basename argv0 = name).

Lemma clip_short size s : zlen s < size -> clip size s = s.
Proof. intros H. unfold clip. apply take_ge. unfold zlen in H. lia. Qed.

Lemma strtoul_bound s : 0 <= strtoul s < 2 ^ 64.
Proof.
  assert (forall ds n, 0 <= n -> 0 <= atoi_digits ds n) as Hd.
  { induction ds as [|c ds IH]; intros n Hn; cbn; [done|]. destruct (isdigit c) eqn:E; [|done]. apply IH. unfold isdigit in E. lia. }
  unfold strtoul. cbv zeta. match goal with |- context [atoi_digits ?ds 0] => pose proof (Hd ds 0 ltac:(lia)) as H; set (n := atoi_digits ds 0) in * end.
  destruct (Z.ltb_spec (2 ^ 64 - 1) n); [lia|]. destruct (skip_spaces s) as [|c r]; [lia|]. destruct (c =? 45); [apply wrap_bound; lia|lia].
Qed.

Lemma is_proc_app_spec h name d : plain_name d -> zlen d < 256 ->
  let pid := is_proc_app (cstr "/proc/" ++ d) name h in
  0 <= pid /\ forall p, runs_program h name d p <-> pid <> 0 /\ pid = p.
Proof.
  intros (Hne & Hs & _) Hlen. unfold is_proc_app. cbv zeta.
  assert (zlen (cstr "/proc/" ++ d) = 6 + zlen d) as Hl by (by rewrite zlen_app).
  rewrite clip_short by (unfold MAX_OS_PATH_LEN; lia). 
  assert (forall x, zlen x < 16 -> clip (MAX_OS_PATH_LEN - 1) ((cstr "/proc/" ++ d) ++ x) = (cstr "/proc/" ++ d) ++ x) as Hc.
  { intros x Hx. apply clip_short. rewrite zlen_app, Hl. unfold MAX_OS_PATH_LEN. lia. }
  rewrite !Hc by done.
  change (cstr "/proc/") with (cstr "/proc" ++ [SLASH]). rewrite <- !app_assoc. cbn [app]. rewrite basename_file by done.
  unfold runs_program. change (cstr "/proc/") with (cstr "/proc" ++ [SLASH]). rewrite <- !app_assoc. cbn [app].
  pose proof (strtoul_bound d). destruct (_ || _) eqn:Hbad.
  { split; [done|]. intros p. split; [|by intros []]. intros (<- & Hp & _). exfalso. unfold LONG_MAX, s32 in Hbad.
    rewrite Z.mod_small in Hbad by lia. lia. }
  rewrite !orb_false_iff, negb_false_iff in Hbad. destruct Hbad as [[H1 H2] H3]. apply Z.eqb_eq in H3. rewrite H3.
  assert (0 < strtoul d < 2 ^ 31) as Hp.
  { unfold s32 in H3. pose proof (Z.mod_pos_bound (strtoul d + 2 ^ 31) (2 ^ 32)). lia. }
  set (exe := ho_realpath h _). destruct exe as [e|]; [|split; [done|]; intros p; split; [by intros (_ & _ & ? & ? & _)|by intros []]].
  case_bool_decide as He; [split; [lia|]; intros p; split; [intros (<- & _); split; [lia|done]|]|].
  { intros [_ <-]. split; [done|]. split; [done|]. exists e. auto. }
  unfold is_cmdline_procname. set (argv0 := ho_argv0 h _). destruct argv0 as [a|].
  - case_bool_decide as Ha; (split; [lia|]); intros p.
    + split; [intros (<- & _); split; [lia|done]|]. intros [_ <-]. split; [done|]. split; [done|]. exists e. split; [done|]. right. by exists a.
    + split; [|by intros []]. intros (_ & _ & e' & [= <-] & [?|(a' & [= <-] & ?)]); done.
  - split; [done|]. intros p. split; [|by intros []]. intros (_ & _ & e' & [= <-] & [?|(a' & ? & _)]); done.
Qed.

Definition entry_ok (d : list Z) : Prop := d = cstr "." \/ d = cstr ".." \/ (plain_name d /\ zlen d < 256).
Definition with_signals (l : list (Z * Z)) (h : host) : host :=
  {| ho_listing := ho_listing h; ho_count := ho_count h; ho_realpath := ho_realpath h; ho_argv0 := ho_argv0 h;
     ho_pid := ho_pid h; ho_pgid := ho_pgid h; ho_answers := ho_answers h; ho_starts := ho_starts h;
     ho_signals := ho_signals h ++ l; ho_runs := ho_runs h; ho_env := ho_env h |}.

Lemma proc_path d rs : plain_name d -> construct_path (Some (cstr "/proc")) (Some d) (Env [] rs) = Done (Some (cstr "/proc/" ++ d), Env [] rs).
Proof. intros H. rewrite construct_path_run by done. by rewrite (eq_refl : folder (cstr "/proc") = cstr "/proc"). Qed.

Lemma with_signals_nil h : with_signals [] h = h.
Proof. unfold with_signals. rewrite app_nil_r. by destruct h. Qed.

Lemma alloc_same {A} (m : prog env A) h a : m (ho_env h) = Done (a, ho_env h) -> ho_alloc m h = Done (a, h).
Proof. intros H. unfold ho_alloc. rewrite H. by destruct h. Qed.

Lemma call_same h : ho_answers h = [] -> ho_call h = Done (0, h).
Proof. intros H. unfold ho_call. rewrite H. destruct h; cbn in *. by subst. Qed.

(** What the callback does with one process. *)
Lemma signal_fn_run name sig d h : ho_answers h = [] -> plain_name d -> zlen d < 256 -> exists l,
  signal_dir_fn name sig (cstr "/proc/" ++ d) tt h = Done ((true, tt), with_signals ((fun p => (p, sig)) <$> l) h) /\
  l `sublist_of` [strtoul d] /\
  forall p, p ∈ l <-> p <> ho_pid h /\ p <> ho_pgid h /\ runs_program h name d p.
Proof.
  intros Ha Hp Hd. destruct (is_proc_app_spec h name d Hp Hd) as [H0 Hspec]. unfold signal_dir_fn.
  do 3 (erewrite bind_run by done). cbv beta. set (pid := is_proc_app _ _ _) in *.
  destruct (negb _ && negb _ && negb _) eqn:E.
  - rewrite !andb_true_iff, !negb_true_iff, !Z.eqb_neq in E. destruct E as [[E1 E2] E3]. exists [pid].
    erewrite bind_run by (unfold kill; erewrite bind_run by (by apply call_same); cbn [Z.eqb]; erewrite bind_run by done; done).
    split; [done|]. assert (runs_program h name d pid) as Hr by (by apply Hspec). split; [destruct Hr as [-> _]; done|].
    intros p. rewrite list_elem_of_singleton. split; [intros ->; auto|]. intros (_ & _ & [_ ->]%Hspec). done.
  - exists []. rewrite fmap_nil, with_signals_nil. split; [done|]. split; [apply sublist_nil_l|]. intros p. split; [by intros ?%elem_of_nil|].
    intros (Hn1 & Hn2 & [Hn3 <-]%Hspec). exfalso. rewrite !andb_false_iff, !negb_false_iff, !Z.eqb_eq in E. naive_solver.
Qed.

Lemma runs_program_signals h name d p l : runs_program (with_signals l h) name d p <-> runs_program h name d p.
Proof. done. Qed.

Lemma signal_loop name sig entries : Forall entry_ok entries -> forall h rs, ho_answers h = [] -> ho_env h = Env [] rs -> exists l,
  list_loop (cstr "/proc") (signal_dir_fn name sig) entries tt h = Done ((0, tt), with_signals ((fun p => (p, sig)) <$> l) h) /\
  l `sublist_of` (strtoul <$> entries) /\
  forall p, p ∈ l <-> p <> ho_pid h /\ p <> ho_pgid h /\ exists d, d ∈ entries /\ plain_name d /\ runs_program h name d p.
Proof.
  induction 1 as [|d entries Hd _ IH]; intros h rs Ha He; cbn [list_loop].
  - exists []. rewrite fmap_nil, with_signals_nil. erewrite bind_run by (by apply call_same). split; [done|]. split; [done|].
    intros p. split; [by intros ?%elem_of_nil|]. by intros (_ & _ & d & ?%elem_of_nil & _).
  - case_bool_decide as Hdot.
    + destruct (IH h rs Ha He) as (l & E & Hsub & Hl). exists l. split; [done|]. split; [rewrite fmap_cons; by apply sublist_cons|].
      intros p. rewrite Hl. split; intros (H1 & H2 & d' & Hin & Hp & Hr); (split; [done|]; split; [done|]; exists d').
      * split; [by right|done].
      * apply elem_of_cons in Hin as [->|Hin]; [destruct Hp as (_ & _ & ? & ?); naive_solver|done].
    + destruct Hd as [?|[?|[Hp Hlen]]]; [naive_solver|naive_solver|].
      erewrite bind_run by (apply alloc_same; rewrite He; by apply proc_path).
      destruct (signal_fn_run name sig d h Ha Hp Hlen) as (l1 & E1 & Hs1 & Hl1). erewrite bind_run by exact E1. cbn [fst snd negb].
      destruct (IH (with_signals ((fun p => (p, sig)) <$> l1) h) rs Ha He) as (l2 & E2 & Hs2 & Hl2). exists (l1 ++ l2).
      split; [rewrite E2; unfold with_signals; cbn; by rewrite fmap_app, app_assoc|].
      split; [change (strtoul <$> d :: entries) with ([strtoul d] ++ (strtoul <$> entries)); by apply sublist_app|].
      intros p. rewrite elem_of_app, Hl1, Hl2. cbn [ho_pid ho_pgid with_signals]. split.
      * intros [(H1 & H2 & Hr)|(H1 & H2 & d' & Hin & Hp' & Hr)]; (split; [done|]; split; [done|]).
        -- exists d. split; [left|done].
        -- exists d'. split; [by right|done].
      * intros (H1 & H2 & d' & [->|Hin]%elem_of_cons & Hp' & Hr); [by left|right]. split; [done|]. split; [done|]. by exists d'.
Qed.

Lemma find_nul_str s : (0 ∉ s) -> forall k, find_nul (s ++ [0]) k = Done (if (length s <? k)%nat then Some (length s) else None).
Proof.
  induction s as [|c s IH]; intros Hs k; destruct k as [|k]; try done. cbn [app find_nul length].
  rewrite (proj2 (Z.eqb_neq c 0)) by (intros ->; apply Hs; left). rewrite IH by (intros H; apply Hs; by right).
  change (S (length s) <? S k)%nat with (length s <? k)%nat. by destruct (length s <? k)%nat.
Qed.

Lemma os_strnlen_total s : (0 ∉ s) -> exists n, os_strnlen_s (s ++ [0]) MAX_OS_PATH_LEN = Done n /\ (s <> [] -> n <> 0).
Proof.
  intros Hs. unfold os_strnlen_s. rewrite find_nul_str by done. destruct (_ <? _)%nat; eexists; (split; [done|]); [|done].
  intros Hne. destruct s; [done|]. cbn [length]. lia.
Qed.

Definition next_listing (h : host) : host :=
  {| ho_listing := ho_listing h; ho_count := S (ho_count h); ho_realpath := ho_realpath h; ho_argv0 := ho_argv0 h;
     ho_pid := ho_pid h; ho_pgid := ho_pgid h; ho_answers := ho_answers h; ho_starts := ho_starts h;
     ho_signals := ho_signals h; ho_runs := ho_runs h; ho_env := ho_env h |}.

Lemma signal_process_run h name sig entries rs : name <> [] -> name <> cstr "." -> (0 ∉ name) -> ho_answers h = [] -> ho_env h = Env [] rs ->
  ho_listing h (ho_count h) = Some entries -> Forall entry_ok entries ->
  exists l, signal_process (Some name) sig h = Done (true, with_signals ((fun p => (p, sig)) <$> l) (next_listing h)) /\
    l `sublist_of` (strtoul <$> entries) /\
    forall p, p ∈ l <-> p <> ho_pid h /\ p <> ho_pgid h /\ exists d, d ∈ entries /\ plain_name d /\ runs_program h name d p.
Proof.
  intros Hne Hdot Hz Ha He Hl Hent. unfold signal_process. rewrite bool_decide_false by done.
  destruct (os_strnlen_total name) as (n & En & Hn); [done|]. erewrite bind_run by (rewrite En; apply lift_run).
  rewrite (proj2 (Z.eqb_neq _ _)) by auto.
  destruct (signal_loop name sig entries Hent (next_listing h) rs Ha He) as (l & E & Hsub & Hmem).
  erewrite bind_run; cycle 1.
  { unfold list_dir. erewrite bind_run by (unfold opendir_proc; rewrite Hl; done). cbn beta iota. erewrite bind_run by exact E.
    erewrite bind_run by (apply call_same; exact Ha). done. }
  exists l. split; [done|]. split; [done|]. exact Hmem.
Qed.

(** Signalling a program by its name: every process in the listing of [/proc]
    whose executable, or first argument, has that base name gets the signal, at
    most once for each entry; nobody else does, and neither does the calling
    process nor the leader of its group. *)
Theorem signal_process_exact h name sig entries rs : name <> [] -> name <> cstr "." -> (0 ∉ name) -> ho_answers h = [] -> ho_env h = Env [] rs ->
  ho_listing h (ho_count h) = Some entries -> Forall entry_ok entries ->
  exists h' l, signal_process (Some name) sig h = Done (true, h') /\ ho_signals h' = ho_signals h ++ ((fun p => (p, sig)) <$> l) /\
    l `sublist_of` (strtoul <$> entries) /\
    forall p, p ∈ l <-> p <> ho_pid h /\ p <> ho_pgid h /\ exists d, d ∈ entries /\ plain_name d /\ runs_program h name d p.
Proof.
  intros. destruct (signal_process_run h name sig entries rs) as (l & E & H'); [done..|]. eexists _, l. split; [exact E|done].
Qed.

(** ** Is it running *)

Definition shows (h : host) (name : list Z) (entries : list (list Z)) : Prop := exists d p, d ∈ entries /\ plain_name d /\ runs_program h name d p.

Lemma find_loop name entries : Forall entry_ok entries -> forall h rs r, ho_answers h = [] -> ho_env h = Env [] rs -> r = 0 \/ r = 1 ->
  exists r', list_loop (cstr "/proc") (find_dir_proc_fn name) entries r h = Done ((0, r'), h) /\ (r' = 0 \/ r' = 1) /\
    (r' = 1 <-> r = 1 \/ shows h name entries).
Proof.
  induction 1 as [|d entries Hd _ IH]; intros h rs r Ha He Hr; cbn [list_loop].
  - exists r. erewrite bind_run by (by apply call_same). split; [done|]. split; [done|]. split; [auto|]. intros [?|(d & p & ?%elem_of_nil & _)]; done.
  - case_bool_decide as Hdot.
    + destruct (IH h rs r Ha He Hr) as (r' & E & Hr' & Hi). exists r'. split; [done|]. split; [done|]. rewrite Hi. split.
      * intros [?|(d' & p & Hin & H)]; [by left|right]. exists d', p. split; [by right|done].
      * intros [?|(d' & p & [->|Hin]%elem_of_cons & Hp & H)]; [by left|destruct Hp as (_ & _ & ? & ?); naive_solver|right]. by exists d', p.
    + destruct Hd as [?|[?|[Hp Hlen]]]; [naive_solver|naive_solver|].
      erewrite bind_run by (apply alloc_same; rewrite He; by apply proc_path).
      destruct (is_proc_app_spec h name d Hp Hlen) as [H0 Hspec]. erewrite bind_run; cycle 1.
      { unfold find_dir_proc_fn. erewrite bind_run by done. done. }
      cbn [fst snd negb]. set (pid := is_proc_app _ _ _) in *. destruct (IH h rs (if pid =? 0 then r else 1) Ha He) as (r' & E & Hr' & Hi);
        [destruct (pid =? 0); auto|]. exists r'. split; [done|]. split; [done|]. rewrite Hi. split.
      * intros [Hone|(d' & p & Hin & H)].
        -- destruct (Z.eqb_spec pid 0) as [|Hne]; [by left|right]. exists d, pid. split; [left|]. split; [done|]. by apply Hspec.
        -- right. exists d', p. split; [by right|done].
      * intros [->|(d' & p & [->|Hin]%elem_of_cons & Hp' & H)]; [left; by destruct (pid =? 0)|left|right; by exists d', p].
        apply Hspec in H as [Hne _]. by rewrite (proj2 (Z.eqb_neq _ _)).
Qed.

Lemma is_proc_running_run h name entries rs : ho_answers h = [] -> ho_env h = Env [] rs -> ho_listing h (ho_count h) = Some entries -> Forall entry_ok entries ->
  exists r, is_proc_running name h = Done (r, next_listing h) /\ (r = 0 \/ r = 1) /\ (r = 1 <-> shows h name entries).
Proof.
  intros Ha He Hl Hent. destruct (find_loop name entries Hent (next_listing h) rs 0 Ha He) as (r & E & Hr & Hi); [by left|].
  exists r. split; [|split; [done|]; rewrite Hi; split; [intros [?|H]; [lia|exact H]|by right]].
  unfold is_proc_running. erewrite bind_run; cycle 1.
  { unfold list_dir. erewrite bind_run by (unfold opendir_proc; rewrite Hl; done). cbn beta iota. erewrite bind_run by exact E.
    erewrite bind_run by (apply call_same; exact Ha). done. }
  done.
Qed.

Definition sample_host : host :=
  {| ho_listing _ := Some [cstr "."; cstr ".."; cstr "self"; cstr "12"; cstr "40"]; ho_count := 0;
     ho_realpath p := if bool_decide (p = cstr "/proc/40/exe") then Some (cstr "/usr/sbin/dnsmasq") else Some (cstr "/sbin/init");
     ho_argv0 _ := None; ho_pid := 12; ho_pgid := 12; ho_answers := []; ho_starts := []; ho_signals := []; ho_runs := []; ho_env := Env [] [] |}.

Lemma signal_process_exact_witness : exists h' l, signal_process (Some (cstr "dnsmasq")) SIGHUP sample_host = Done (true, h') /\
  ho_signals h' = (fun p => (p, SIGHUP)) <$> l /\ l = [40].
Proof.
  destruct (signal_process_exact sample_host (cstr "dnsmasq") SIGHUP [cstr "."; cstr ".."; cstr "self"; cstr "12"; cstr "40"] [])
    as (h' & l & E & Hs & _).
  - done.
  - done.
  - apply (bool_decide_unpack _). by vm_compute.
  - done.
  - done.
  - done.
  - repeat (constructor; [first [by left|right; by left|right; right; repeat split; try done; apply (bool_decide_unpack _); by vm_compute]|]). constructor.
  - exists h', l. split; [exact E|]. split; [exact Hs|]. vm_compute in E. injection E as <-. cbn in Hs.
    destruct l as [|a [|b l]]; try done. by injection Hs as <-.
Defined.
