(* ===== verification/Dhcp.v ===== *)
(** The DHCP service: [dnsmasq.c], [dhcp_config_utils.c] and [dhcp_service.c] of
    [src/dhcp], in the build without UCI.

    The service writes a configuration and a script for [dnsmasq], starts or
    signals its process, and removes the lease of a station from its lease file.
    The theorems: the text of the configuration, with interface names that fit
    and differ for different VLANs; reading back the ranges of a configuration
    line; and that removing a lease takes out the first line with the address
    and nothing else. *)
From stdpp Require Import strings numbers base list gmap.
From Stdlib Require Import ZArith Lia.
From S2P Require Import Prelude Os Paths Text Net Extern Mappers Process.

Definition PROCESS_RESTART_TIME : Z := 5.
Definition MAX_DHCP_CHECK_COUNT : nat := 100.
Definition DNSMASQ_BIND_DYNAMIC_OPTION : list Z := cstr "--bind-dynamic".
Definition DNSMASQ_NO_DAEMON_OPTION : list Z := cstr "--no-daemon".
Definition DNSMASQ_CONF_FILE_OPTION : list Z := cstr "-C".
Definition MAX_VLANID_CHARS : Z := 4.
Definition DHCP_LEASE_TIME_SIZE : Z := 10.

Record config_dhcpinfo_t := {
  dh_vlanid : Z;
  ip_addr_low : list Z;
  ip_addr_upp : list Z;
  dh_subnet_mask : list Z;
  lease_time : list Z
}.

Record dhcp_conf := {
  dhcp_bin_path : list Z;
  dhcp_conf_path : list Z;
  dhcp_script_path : list Z;
  dhcp_leasefile_path : list Z;
  dh_interface_prefix : list Z;
  wifi_interface : list Z;
  config_dhcpinfo_array : list config_dhcpinfo_t
}.

(** ** Reading a range ([dhcp_config_utils.c]) *)

Fixpoint take_while (p : Z -> bool) (s : list Z) : list Z :=
  match s with c :: t => if p c then c :: take_while p t else [] | [] => [] end.

(** The conversions of [sscanf]: [%d], [%21[0123456789.]] and [%9s], each with
    what is left of the input. *)
Definition scan_d (s : list Z) : option (Z * list Z) :=
  let s := skip_spaces s in
  let '(sign, ds) := match s with
                     | c :: r => if c =? 45 then (-1, r) else if c =? 43 then (1, r) else (1, s)
                     | [] => (1, [])
                     end in
  match ds with
  | c :: _ =>
      if isdigit c then
        let digits := take_while isdigit ds in
        Some (s32 (Z.max (- 2 ^ 63) (Z.min (2 ^ 63 - 1) (sign * atoi_digits digits 0))), drop (length digits) ds)
      else None
  | [] => None
  end.
Definition is_space (c : Z) : bool := (c =? 32) || ((9 <=? c) && (c <=? 13)).
Definition scan_set (p : Z -> bool) (width : nat) (s : list Z) : option (list Z * list Z) :=
  match take_while p (take width s) with
  | [] => None
  | w => Some (w, drop (length w) s)
  end.
Definition scan_comma (s : list Z) : option (list Z) :=
  match s with c :: r => if c =? 44 then Some r else None | [] => None end.
Definition ip_char (c : Z) : bool := isdigit c || (c =? 46).

(** A comma and an address. *)
Definition scan_ip (s : list Z) : option (list Z * list Z) :=
  r ← scan_comma s; scan_set ip_char (Z.to_nat (OS_INET_ADDRSTRLEN - 1)) r.

Definition get_config_dhcpinfo (info : list Z) : option config_dhcpinfo_t :=
  '(vlanid, s0) ← scan_d info;
  '(low, s1) ← scan_ip s0;
  '(upp, s2) ← scan_ip s1;
  '(mask, s3) ← scan_ip s2;
  s4 ← scan_comma s3;
  '(lease, _) ← scan_set (fun c => negb (is_space c)) (Z.to_nat (DHCP_LEASE_TIME_SIZE - 1)) (skip_spaces s4);
  mret {| dh_vlanid := vlanid; ip_addr_low := low; ip_addr_upp := upp; dh_subnet_mask := mask; lease_time := lease |}.

(** ** The configuration ([dnsmasq.c]) *)

(** The result and the characters in the array of [IF_NAMESIZE]. *)
Definition define_dhcp_interface_name (dconf : dhcp_conf) (vlanid : Z) : Z * list Z :=
  let text :=
    match wifi_interface dconf with
    | [] => take (Z.to_nat (IF_NAMESIZE - 1 - MAX_VLANID_CHARS)) (dh_interface_prefix dconf) ++ fmt_d vlanid
    | w => if negb (vlanid =? 0) then take (Z.to_nat (IF_NAMESIZE - 2 - MAX_VLANID_CHARS)) w ++ cstr "." ++ fmt_d vlanid
           else w
    end in
  (if IF_NAMESIZE <=? zlen text then -1 else 0, clip IF_NAMESIZE text).

Definition NL : list Z := [10].

(** The lines of the ranges, up to one whose interface has no name. *)
Fixpoint range_lines (dconf : dhcp_conf) (l : list config_dhcpinfo_t) : Z * list Z :=
  match l with
  | [] => (0, [])
  | el :: rest =>
      let n := define_dhcp_interface_name dconf (u16 (dh_vlanid el)) in
      if n.1 <? 0 then (-1, [])
      else
        let r := range_lines dconf rest in
        (r.1, cstr "dhcp-range=" ++ n.2 ++ cstr "," ++ ip_addr_low el ++ cstr "," ++ ip_addr_upp el ++ cstr "," ++
              dh_subnet_mask el ++ cstr "," ++ lease_time el ++ NL ++ r.2)
  end.

Definition conf_head (dconf : dhcp_conf) (dns_server_array : list (list Z)) : list Z :=
  cstr "no-resolv" ++ NL ++ concat ((fun p => cstr "server=" ++ p ++ NL) <$> dns_server_array) ++
  cstr "dhcp-leasefile=" ++ dhcp_leasefile_path dconf ++ NL ++ cstr "dhcp-script=" ++ dhcp_script_path dconf ++ NL.

Definition generate_dnsmasq_conf (dconf : dhcp_conf) (dns_server_array : list (list Z)) : prog (disk (list Z)) Z :=
  let r := range_lines dconf (config_dhcpinfo_array dconf) in
  fp ← write_file (dhcp_conf_path dconf) (conf_head dconf dns_server_array ++ r.2);
  if negb (fp =? 0) then mret (-1) else mret r.1.

Definition TAB : list Z := [9].
Definition QUOTE : list Z := [34].

(** [DNSMASQ_SCRIPT_STR] with the path of the control socket. *)
Definition script_text (sockpath : list Z) : list Z :=
  cstr "#!/bin/sh" ++ NL ++
  cstr "sockpath=" ++ QUOTE ++ sockpath ++ QUOTE ++ NL ++
  cstr "str=" ++ QUOTE ++ cstr "SET_IP $1 $2 $3" ++ QUOTE ++ NL ++
  NL ++
  cstr "nccheck=`nc -help 2>&1 >/dev/null | grep 'OpenBSD netcat'`" ++ NL ++
  cstr "if [ -z " ++ QUOTE ++ cstr "$nccheck" ++ QUOTE ++ cstr " ]" ++ NL ++
  cstr "then" ++ NL ++
  TAB ++ cstr "echo " ++ QUOTE ++ cstr "Using socat" ++ QUOTE ++ NL ++
  TAB ++ cstr "command=" ++ QUOTE ++ cstr "socat - UNIX-CLIENT:$sockpath" ++ QUOTE ++ NL ++
  cstr "else" ++ NL ++
  TAB ++ cstr "echo " ++ QUOTE ++ cstr "Using netcat" ++ QUOTE ++ NL ++
  TAB ++ cstr "command=" ++ QUOTE ++ cstr "nc -uU $sockpath -w2 -W1" ++ QUOTE ++ NL ++
  cstr "fi" ++ NL ++
  NL ++
  cstr "echo " ++ QUOTE ++ cstr "Sending $str ..." ++ QUOTE ++ NL ++
  cstr "echo $str | $command" ++ NL.

Definition generate_dnsmasq_script (script_path supervisor_control_path : list Z) : prog (disk (list Z)) Z :=
  fp ← write_file script_path (script_text supervisor_control_path);
  if negb (fp =? 0) then mret (-1)
  else r ← make_file_exec_fd; mret (if r =? -1 then -1 else 0).

Definition get_dnsmasq_args (dnsmasq_bin_path dnsmasq_conf_path : list Z) : list (list Z) :=
  [dnsmasq_bin_path; DNSMASQ_BIND_DYNAMIC_OPTION; DNSMASQ_NO_DAEMON_OPTION; DNSMASQ_CONF_FILE_OPTION; dnsmasq_conf_path].

(** ** The process *)

(** The machine, the disk, and the two static variables. *)
Record dnsmasq := {
  dm_host : host;
  dm_disk : disk (list Z);
  dnsmasq_proc_name : list Z;
  dns_process_started : bool
}.
#[local] Abbreviation Dm := (prog dnsmasq).

Definition dm_on_host {A} (m : prog host A) : Dm A := fun s =>
  match m (dm_host s) with
  | Fault f => Fault f
  | Done (a, h) => Done (a, {| dm_host := h; dm_disk := dm_disk s; dnsmasq_proc_name := dnsmasq_proc_name s;
                               dns_process_started := dns_process_started s |})
  end.
Definition dm_on_disk {A} (m : prog (disk (list Z)) A) : Dm A := fun s =>
  match m (dm_disk s) with
  | Fault f => Fault f
  | Done (a, d) => Done (a, {| dm_host := dm_host s; dm_disk := d; dnsmasq_proc_name := dnsmasq_proc_name s;
                               dns_process_started := dns_process_started s |})
  end.
Definition dm_get {A} (f : dnsmasq -> A) : Dm A := fun s => Done (f s, s).
Definition set_proc_name (n : list Z) : Dm unit := fun s =>
  Done (tt, {| dm_host := dm_host s; dm_disk := dm_disk s; dnsmasq_proc_name := n; dns_process_started := dns_process_started s |}).
Definition set_started (b : bool) : Dm unit := fun s =>
  Done (tt, {| dm_host := dm_host s; dm_disk := dm_disk s; dnsmasq_proc_name := dnsmasq_proc_name s; dns_process_started := b |}).

(** [tries] is how many are left of [MAX_DHCP_CHECK_COUNT]. *)
Fixpoint check_loop (name : list Z) (tries : nat) : prog host Z :=
  match tries with
  | O => mret 0
  | S tries =>
      running ← is_proc_running name;
      if running <? 0 then mret (-1)
      else if running =? 0 then check_loop name tries
      else mret running
  end.
Definition check_dhcp_running (name : list Z) : prog host Z := check_loop name MAX_DHCP_CHECK_COUNT.

(** [None] for [goto error], otherwise the process was started. *)
Fixpoint start_loop (fuel : nat) (argv : list (list Z)) (proc_name : list Z) : prog host (option unit) :=
  match fuel with
  | O => fail_with OutOfFuel
  | S fuel =>
      ret ← run_process (Some argv);
      if 0 <? ret then mret None
      else if ret =? 0 then mret (Some tt)
      else
        k ← kill_process proc_name;
        if negb k then mret None else start_loop fuel argv proc_name
  end.

(** The name of the process, or NULL. *)
Definition run_dhcp_process (fuel : nat) (bin_path conf_path : list Z) : Dm (option (list Z)) :=
  let process_argv := get_dnsmasq_args bin_path conf_path in
  copy ← dm_on_host (ho_alloc (copy_argv (Some process_argv)));
  match copy with
  | None => mret None
  | Some _ =>
      _ ← set_proc_name (clip (MAX_OS_PATH_LEN - 1) (basename (clip (MAX_OS_PATH_LEN - 1) bin_path)));
      name ← dm_get dnsmasq_proc_name;
      k ← dm_on_host (kill_process name);
      if negb k then mret None
      else
        st ← dm_on_host (start_loop fuel process_argv name);
        match st with
        | None => mret None
        | Some _ =>
            running ← dm_on_host (check_dhcp_running (basename bin_path));
            if running <=? 0 then mret None
            else _ ← set_started true; mret (Some name)
        end
  end.

Definition kill_dhcp_process : Dm bool :=
  started ← dm_get dns_process_started;
  if (started : bool) then
    _ ← set_started false;
    name ← dm_get dnsmasq_proc_name;
    dm_on_host (kill_process name)
  else mret true.

Definition signal_dhcp_process (bin_path : list Z) : Dm Z :=
  _ ← set_proc_name (clip MAX_OS_PATH_LEN (basename (clip MAX_OS_PATH_LEN bin_path)));
  name ← dm_get dnsmasq_proc_name;
  ok ← dm_on_host (signal_process (Some name) SIGHUP);
  mret (if (ok : bool) then 0 else -1).

(** ** Leases *)

Fixpoint strstr (s needle : list Z) : option nat :=
  if bool_decide (needle `prefix_of` s) then Some 0%nat
  else match s with [] => None | _ :: t => S <$> strstr t needle end.

(** [start] goes back to the begin of its line, [finish] on to that of the
    next. *)
Fixpoint line_begin (out : list Z) (start : nat) : nat :=
  match start with
  | O => O
  | S before => if default 0 (out !! before) =? 10 then start else line_begin out before
  end.
Fixpoint line_end (rest : list Z) (finish : nat) : nat :=
  match rest with
  | [] => finish
  | c :: t => if c =? 10 then S finish else line_end t (S finish)
  end.

Definition clear_dhcp_lease_entry (mac_addr leasefile_path : option (list Z)) : prog files Z :=
  match mac_addr, leasefile_path with
  | Some mac, Some path =>
      out ← read_file_string path;
      match out with
      | None => mret (-1)
      | Some o =>
          match strstr o mac, mac with
          | Some start, _ :: _ =>
              let finish := line_end (drop (S start) o) (S start) in
              let start := line_begin o start in
              e ← fs_disk (write_file path (take start o ++ drop finish o));
              mret (if e =? 0 then 0 else -1)
          | _, _ => mret 0
          end
      end
  | _, _ => mret (-1)
  end.

(** ** The service ([dhcp_service.c]) *)

Definition run_dhcp (fuel : nat) (dconf : dhcp_conf) (dns_server_array : list (list Z)) (supervisor_control_path : list Z)
    (exec_dhcp : bool) : Dm Z :=
  c ← dm_on_disk (generate_dnsmasq_conf dconf dns_server_array);
  if c <? 0 then mret (-1)
  else
    s ← dm_on_disk (generate_dnsmasq_script (dhcp_script_path dconf) supervisor_control_path);
    if s <? 0 then mret (-1)
    else if exec_dhcp then
      r ← run_dhcp_process fuel (dhcp_bin_path dconf) (dhcp_conf_path dconf);
      mret (match r with None => -1 | Some _ => 0 end)
    else signal_dhcp_process (dhcp_bin_path dconf).

Definition close_dhcp : Dm bool := kill_dhcp_process.

Definition clear_dhcp_lease (mac_addr : option (list Z)) (dconf : dhcp_conf) : prog files Z :=
  clear_dhcp_lease_entry mac_addr (Some (dhcp_leasefile_path dconf)).

(** ** Reading back a range *)

Lemma take_while_app p a c r : Forall (fun x => p x = true) a -> p c = false -> take_while p (a ++ c :: r) = a.
Proof. induction 1 as [|x a Hx _ IH]; intros Hc; cbn; [by rewrite Hc|]. rewrite Hx. by rewrite IH. Qed.
Lemma take_while_all p a : Forall (fun x => p x = true) a -> take_while p a = a.
Proof. induction 1 as [|x a Hx _ IH]; cbn; [done|]. by rewrite Hx, IH. Qed.

Lemma scan_d_fmt n r : - 2 ^ 31 <= n < 2 ^ 31 -> scan_d (fmt_d n ++ 44 :: r) = Some (n, 44 :: r).
Proof.
  intros Hn. assert (forall m, 0 <= m <= 2 ^ 31 -> exists c t, fmt_u m = c :: t /\ isdigit c = true /\
    take_while isdigit (fmt_u m ++ 44 :: r) = fmt_u m /\ atoi_digits (fmt_u m) 0 = m) as Hu.
  { intros m Hm. pose proof (fmt_u_digits m ltac:(lia) ltac:(lia)) as Hd. pose proof (fmt_u_nonempty m ltac:(lia) ltac:(lia)).
    pose proof (take_while_app isdigit (fmt_u m) 44 r Hd eq_refl) as Ht. pose proof (atoi_digits_fmt m ltac:(lia) ltac:(lia)) as Ha.
    destruct (fmt_u m) as [|c t] eqn:E; [done|]. apply list.Forall_cons in Hd as [Hc _]. by exists c, t. }
  assert (forall c, isdigit c = true -> 48 <= c <= 57) as Hdig by (unfold isdigit; intros; lia).
  unfold scan_d, fmt_d. destruct (Z.ltb_spec n 0).
  - destruct (Hu (- n)) as (c & t & E & Hc & Ht & Ha); [lia|]. cbn [app skip_spaces]. cbn [Z.eqb Pos.eqb orb andb Z.leb Z.compare Pos.compare Pos.compare_cont].
    rewrite E in *. cbn [app] in *. rewrite Hc, Ht, Ha.
    change (c :: t ++ 44 :: r) with ((c :: t) ++ 44 :: r). rewrite drop_app_length. f_equal. f_equal.
    rewrite Z.max_r, Z.min_r by lia. unfold s32. rewrite Z.mod_small by lia. lia.
  - destruct (Hu n) as (c & t & E & Hc & Ht & Ha); [lia|]. pose proof (Hdig c Hc). rewrite E in *. cbn [app skip_spaces] in *.
    rewrite (proj2 (Z.eqb_neq c 32)), (proj2 (Z.leb_gt c 13)), andb_false_r by lia. cbn [orb].
    rewrite (proj2 (Z.eqb_neq c 45)), (proj2 (Z.eqb_neq c 43)) by lia. rewrite Hc, Ht, Ha.
    change (c :: t ++ 44 :: r) with ((c :: t) ++ 44 :: r). rewrite drop_app_length. f_equal. f_equal.
    rewrite Z.max_r, Z.min_r by lia. unfold s32. rewrite Z.mod_small by lia. lia.
Qed.

Lemma scan_ip_word w r : w <> [] -> zlen w < OS_INET_ADDRSTRLEN -> Forall (fun c => ip_char c = true) w ->
  scan_ip (44 :: w ++ 44 :: r) = Some (w, 44 :: r).
Proof.
  intros Hne Hl Hw. unfold scan_ip, scan_set. cbn [scan_comma Z.eqb Pos.eqb mbind option_bind].
  assert (take_while ip_char (take (Z.to_nat (OS_INET_ADDRSTRLEN - 1)) (w ++ 44 :: r)) = w) as ->.
  { rewrite take_app, take_ge by (unfold zlen, OS_INET_ADDRSTRLEN in *; lia).
    destruct (Z.to_nat (OS_INET_ADDRSTRLEN - 1) - length w)%nat as [|k]; cbn [take]; [rewrite app_nil_r; by apply take_while_all|].
    by apply take_while_app. }
  destruct w as [|c t]; [done|]. by rewrite drop_app_length.
Qed.

(** A range with an interface number and fields of the lengths of the record. *)
Record info_ok (i : config_dhcpinfo_t) : Prop := {
  io_vlan : - 2 ^ 31 <= dh_vlanid i < 2 ^ 31;
  io_ips : Forall (fun w => w <> [] /\ zlen w < OS_INET_ADDRSTRLEN /\ Forall (fun c => ip_char c = true) w)
             [ip_addr_low i; ip_addr_upp i; dh_subnet_mask i];
  io_lease : lease_time i <> [] /\ zlen (lease_time i) < DHCP_LEASE_TIME_SIZE /\ Forall (fun c => is_space c = false) (lease_time i)
}.
Definition print_info (i : config_dhcpinfo_t) : list Z :=
  fmt_d (dh_vlanid i) ++ cstr "," ++ ip_addr_low i ++ cstr "," ++ ip_addr_upp i ++ cstr "," ++ dh_subnet_mask i ++ cstr "," ++ lease_time i.

(** A range of the configuration file is read back as it was written: number,
    two addresses, mask and lease time, separated by commas. *)
Theorem dhcpinfo_roundtrip i : info_ok i -> get_config_dhcpinfo (print_info i) = Some i.
Proof.
  intros [Hv Hips (Hne & Hll & Hl)]. apply list.Forall_cons in Hips as [(L1 & L2 & L3) Hips].
  apply list.Forall_cons in Hips as [(U1 & U2 & U3) Hips]. apply list.Forall_cons in Hips as [(M1 & M2 & M3) _].
  unfold get_config_dhcpinfo, print_info. change (cstr ",") with [44]. cbn [app].
  rewrite scan_d_fmt by done. cbn [mbind option_bind]. do 3 (rewrite scan_ip_word by done; cbn [mbind option_bind]).
  cbn [scan_comma Z.eqb Pos.eqb mbind option_bind].
  assert (skip_spaces (lease_time i) = lease_time i) as ->.
  { destruct (lease_time i) as [|c t]; [done|]. apply list.Forall_cons in Hl as [Hc _]. cbn [skip_spaces]. unfold is_space in Hc. by rewrite Hc. }
  unfold scan_set. rewrite take_ge by (unfold zlen, DHCP_LEASE_TIME_SIZE in *; lia).
  rewrite take_while_all by (eapply Forall_impl; [exact Hl|]; cbn; by intros ? ->).
  destruct (lease_time i) as [|c t] eqn:E; [done|]. cbn [mbind option_bind]. rewrite <- E. by destruct i.
Qed.

(** ** Leases *)

(** The text of a file with these lines. *)
Definition text_of (ls : list (list Z)) : list Z := concat ((fun l => l ++ NL) <$> ls).
Definition mentions (mac l : list Z) : Prop := exists a b, l = a ++ mac ++ b.

Lemma strstr_prefix s n : n `prefix_of` s -> strstr s n = Some 0%nat.
Proof. intros H. destruct s; cbn [strstr]; by rewrite bool_decide_true. Qed.

Lemma strstr_some s n : is_Some (strstr s n) <-> mentions n s.
Proof.
  split.
  - intros [i Hi]. revert i Hi. induction s as [|c s IH]; intros i; cbn; (case_bool_decide as Hp; [intros _; destruct Hp as [b ->]; by exists [], b|]); [done|].
    intros (j & Hj & ->)%fmap_Some. destruct (IH j Hj) as (a & b & ->). by exists (c :: a), b.
  - intros (a & b & ->). induction a as [|c a IH]; cbn.
    + rewrite strstr_prefix; [by eexists|]. by eexists.
    + case_bool_decide; [by eexists|]. destruct IH as [i ->]. by eexists.
Qed.

Lemma strstr_bound s n i : strstr s n = Some i -> (i + length n <= length s)%nat.
Proof.
  revert i. induction s as [|c s IH]; intros i; cbn; (case_bool_decide as Hp; [intros [= <-]; by apply prefix_length in Hp|]); [done|].
  intros (j & Hj & ->)%fmap_Some. apply IH in Hj. lia.
Qed.

Lemma prefix_line n l t : (10 ∉ n) -> n `prefix_of` (l ++ 10 :: t) <-> n `prefix_of` l.
Proof.
  revert l. induction n as [|c n IH]; intros l Hn; [split; intros; apply prefix_nil|]. destruct l as [|x l]; cbn.
  - split; [|by intros ?%prefix_nil_inv]. intros [k Hk]. injection Hk as <- _. exfalso. apply Hn. left.
  - assert (10 ∉ n) as Hn' by (intros H; apply Hn; by right). split; intros H.
    + apply prefix_cons_inv_1 in H as Hc. apply prefix_cons_inv_2 in H. rewrite Hc. apply prefix_cons. by apply IH.
    + apply prefix_cons_inv_1 in H as Hc. apply prefix_cons_inv_2 in H. rewrite Hc. apply prefix_cons. by apply IH.
Qed.

(** A search goes through the lines one by one. *)
Lemma strstr_line n l t : n <> [] -> (10 ∉ n) ->
  strstr (l ++ 10 :: t) n = match strstr l n with Some i => Some i | None => (fun k => length l + 1 + k)%nat <$> strstr t n end.
Proof.
  intros Hne Hn. induction l as [|c l IH].
  - cbn [app strstr]. rewrite (bool_decide_ext _ _ (prefix_line n [] t Hn)). case_bool_decide as Hp; [done|].
    by destruct (strstr t n).
  - cbn [app strstr]. rewrite (bool_decide_ext (n `prefix_of` c :: l ++ 10 :: t) (n `prefix_of` c :: l) (prefix_line n (c :: l) t Hn)).
    case_bool_decide; [done|]. rewrite IH. destruct (strstr l n); [done|]. by destruct (strstr t n).
Qed.

Lemma line_begin_spec A l X i : (A = [] \/ last A = Some 10) -> (10 ∉ l) -> (i <= length l)%nat -> line_begin (A ++ l ++ X) (length A + i) = length A.
Proof.
  intros HA Hl. induction i as [|i IH]; intros Hi.
  - rewrite Nat.add_0_r. destruct HA as [->|HA]; [done|]. destruct A as [|x A' _] using rev_ind; [done|]. rewrite last_snoc in HA. injection HA as ->.
    rewrite length_app, Nat.add_1_r. cbn [line_begin]. rewrite <- app_assoc. cbn [app]. by rewrite list_lookup_middle.
  - rewrite Nat.add_succ_r. cbn [line_begin]. rewrite lookup_app_r by lia. replace (length A + i - length A)%nat with i by lia.
    rewrite lookup_app_l by lia. destruct (l !! i) as [c|] eqn:E; [|apply lookup_ge_None in E; lia]. cbn.
    rewrite (proj2 (Z.eqb_neq c 10)) by (intros ->; apply Hl; by eapply list_elem_of_lookup_2). apply IH. lia.
Qed.

Lemma line_end_spec x B f : (10 ∉ x) -> line_end (x ++ 10 :: B) f = (f + length x + 1)%nat.
Proof.
  revert f. induction x as [|c x IH]; intros f Hx; cbn [app line_end length]; [cbn; lia|].
  rewrite (proj2 (Z.eqb_neq c 10)) by (intros ->; apply Hx; left). rewrite IH by (intros H; apply Hx; by right). lia.
Qed.

Lemma text_of_app a b : text_of (a ++ b) = text_of a ++ text_of b.
Proof. unfold text_of. by rewrite fmap_app, concat_app. Qed.
Lemma text_of_end ls : text_of ls = [] \/ last (text_of ls) = Some 10.
Proof.
  destruct ls as [|l ls _] using rev_ind; [by left|right]. rewrite text_of_app. unfold text_of at 2. cbn. rewrite app_nil_r, app_assoc. apply last_snoc.
Qed.

(** Where the search ends: nowhere, or in the first line with the address. *)
Lemma strstr_text mac ls : mac <> [] -> (10 ∉ mac) ->
  (strstr (text_of ls) mac = None /\ Forall (fun l => ~ mentions mac l) ls) \/
  exists ls1 l ls2 i, ls = ls1 ++ l :: ls2 /\ Forall (fun l => ~ mentions mac l) ls1 /\ mentions mac l /\
    strstr (text_of ls) mac = Some (length (text_of ls1) + i)%nat /\ (i < length l)%nat.
Proof.
  intros Hne Hn. induction ls as [|l ls IH].
  - left. split; [|constructor]. cbn. case_bool_decide as Hp; [|done]. by apply prefix_nil_inv in Hp.
  - assert (text_of (l :: ls) = l ++ 10 :: text_of ls) as -> by (unfold text_of; cbn; by rewrite <- app_assoc).
    rewrite strstr_line by done. destruct (strstr l mac) as [i|] eqn:E.
    + right. exists [], l, ls, i. split; [done|]. split; [constructor|]. split; [apply strstr_some; by eexists|]. split; [done|].
      apply strstr_bound in E. destruct mac; [done|]. cbn in E. lia.
    + assert (~ mentions mac l) as Hl by (intros H; apply strstr_some in H as [? H]; congruence).
      destruct IH as [[-> Hall]|(ls1 & l' & ls2 & i & -> & Hall & Hm & -> & Hi)]; [left|right]; [by repeat constructor|].
      exists (l :: ls1), l', ls2, i. split; [done|]. split; [by constructor|]. split; [done|]. split; [|done].
      unfold text_of. cbn. rewrite !length_app. cbn. f_equal. unfold text_of. lia.
Qed.

(** Cutting out the line around a place in it. *)
Lemma cut_line A l B i : (A = [] \/ last A = Some 10) -> (10 ∉ l) -> (i < length l)%nat ->
  let o := A ++ l ++ 10 :: B in
  take (line_begin o (length A + i)) o ++ drop (line_end (drop (S (length A + i)) o) (S (length A + i))) o = A ++ B.
Proof.
  intros HA Hl Hi o. unfold o. rewrite line_begin_spec by (done || lia). rewrite take_app_length. f_equal.
  assert (drop (S (length A + i)) (A ++ l ++ 10 :: B) = drop (S i) l ++ 10 :: B) as ->.
  { rewrite <- Nat.add_succ_r, <- drop_drop, drop_app_length. rewrite drop_app_le by lia. done. }
  rewrite line_end_spec by (intros H; apply Hl; rewrite <- (take_drop (S i) l); apply elem_of_app; by right). rewrite length_drop.
  replace (S (length A + i) + (length l - S i) + 1)%nat with (length A + (length l + 1))%nat by lia.
  rewrite <- drop_drop, drop_app_length, <- drop_drop, drop_app_length. done.
Qed.

(** Removing the lease of a station: when the lease file consists of lines and
    some of them mention the address, the first of these is taken out and all
    others stay as they are and in their order; without such a line the file is
    not touched. *)
Theorem clear_lease_correct mac path ls (d : disk (list Z)) rs : mac <> [] -> (10 ∉ mac) -> Forall (fun l => 10 ∉ l) ls ->
  Forall (fun c => c <> 0) (text_of ls) -> dk_answers d = [] -> dk_files d !! path = Some (text_of ls) ->
  exists d', clear_dhcp_lease_entry (Some mac) (Some path) (d, Env [] rs) = Done (0, (d', Env [] rs)) /\
    ((Forall (fun l => ~ mentions mac l) ls /\ dk_files d' = dk_files d) \/
     exists ls1 l ls2, ls = ls1 ++ l :: ls2 /\ Forall (fun l => ~ mentions mac l) ls1 /\ mentions mac l /\
       dk_files d' = <[path := text_of (ls1 ++ ls2)]> (dk_files d)).
Proof.
  intros Hne Hn Hls Hz Ha Hf. unfold clear_dhcp_lease_entry. erewrite bind_run; cycle 1.
  { unfold read_file_string. erewrite bind_run; cycle 1.
    { unfold read_file. erewrite bind_run by done. erewrite bind_run by done. cbn [dk_files fst]. rewrite Hf, Ha. cbn [head default]. unfold id.
      cbn [Z.eqb negb]. erewrite bind_run by done. done. }
    cbn beta iota. erewrite bind_run by done. done. }
  rewrite until_nul_id by done. destruct mac as [|m mac0]; [done|]. set (mac := m :: mac0) in *.
  destruct (strstr_text mac ls Hne Hn) as [[-> Hall]|(ls1 & l & ls2 & i & -> & Hall & Hm & -> & Hi)].
  - eexists. split; [done|]. left. split; [done|]. done.
  - apply list.Forall_app in Hls as [_ Hls]. apply list.Forall_cons in Hls as [Hl _].
    assert (text_of (ls1 ++ l :: ls2) = text_of ls1 ++ l ++ 10 :: text_of ls2) as Et.
    { rewrite text_of_app. unfold text_of at 2. cbn. by rewrite <- app_assoc. }
    rewrite Et in *. cbv zeta. rewrite (cut_line (text_of ls1) l (text_of ls2) i) by (done || apply text_of_end).
    erewrite bind_run by (unfold fs_disk, write_file; erewrite bind_run by done; cbn [dk_answers fst]; rewrite ?Ha; done).
    eexists. split; [done|]. right. exists ls1, l, ls2. rewrite text_of_app. done.
Qed.

(** ** The configuration *)

Lemma fmt_u_inj n m : 0 <= n < 10 ^ 19 -> 0 <= m < 10 ^ 19 -> fmt_u n = fmt_u m -> n = m.
Proof. intros Hn Hm E. rewrite <- (atoi_digits_fmt n), <- (atoi_digits_fmt m) by lia. by rewrite E. Qed.

Lemma vlan_digits v : 0 <= v <= 9999 -> fmt_d v = fmt_u v /\ 0 < zlen (fmt_u v) <= 4.
Proof.
  intros Hv. unfold fmt_d. rewrite (proj2 (Z.ltb_ge v 0)) by lia. split; [done|].
  pose proof (zlen_fmt_u_bound 4 v ltac:(lia) ltac:(lia)). pose proof (fmt_u_nonempty v ltac:(lia) ltac:(lia)).
  unfold zlen. destruct (fmt_u v); [done|]. cbn [length] in *. lia.
Qed.

(** A name is made for every number of up to four digits, and it fits. *)
Lemma interface_name_ok dconf v : 0 <= v <= 9999 -> zlen (wifi_interface dconf) < IF_NAMESIZE -> exists n,
  define_dhcp_interface_name dconf v = (0, n) /\ 0 < zlen n < IF_NAMESIZE.
Proof.
  intros Hv Hw. destruct (vlan_digits v Hv) as [E Hd]. unfold define_dhcp_interface_name. cbv zeta. set (text := match _ with [] => _ | _ => _ end).
  assert (0 < zlen text < IF_NAMESIZE) as Ht.
  { unfold text. rewrite E. destruct (wifi_interface dconf) as [|c w]; [|destruct (negb _)]; rewrite ?zlen_app; unfold IF_NAMESIZE, MAX_VLANID_CHARS in *.
    - unfold zlen at 1 3. rewrite length_take. lia.
    - change (zlen (cstr ".")) with 1. unfold zlen at 1 3. rewrite length_take. cbn [length]. lia.
    - rewrite zlen_cons in *. pose proof (zlen_nonneg w). lia. }
  exists text. rewrite (proj2 (Z.leb_gt _ _)) by lia. rewrite clip_short by lia. done.
Qed.

(** For a wireless interface of up to ten characters names tell VLANs apart. *)
Lemma interface_name_inj dconf v w : 0 <= v <= 9999 -> 0 <= w <= 9999 -> zlen (wifi_interface dconf) <= 10 ->
  (define_dhcp_interface_name dconf v).2 = (define_dhcp_interface_name dconf w).2 -> v = w.
Proof.
  intros Hv Hw Hl. destruct (vlan_digits v Hv) as [Ev Hdv], (vlan_digits w Hw) as [Ew Hdw].
  destruct (interface_name_ok dconf v Hv) as (n & En & _); [unfold IF_NAMESIZE; lia|].
  destruct (interface_name_ok dconf w Hw) as (m & Em & _); [unfold IF_NAMESIZE; lia|].
  unfold define_dhcp_interface_name in *. cbv zeta in *. cbn [snd].
  assert (forall t, (IF_NAMESIZE <=? zlen t) = false -> clip IF_NAMESIZE t = t) as Hclip by (intros t Ht; apply clip_short; lia).
  assert (forall t x, ((if IF_NAMESIZE <=? zlen t then -1 else 0), clip IF_NAMESIZE t) = (0, x) -> clip IF_NAMESIZE t = t) as Hc.
  { intros t x. destruct (IF_NAMESIZE <=? zlen t) eqn:E; [done|]. intros _. by apply Hclip. }
  rewrite (Hc _ _ En), (Hc _ _ Em), Ev, Ew. assert (0 <= v < 10 ^ 19 /\ 0 <= w < 10 ^ 19) as [Bv Bw] by lia.
  destruct (wifi_interface dconf) as [|c x]; [intros H%app_inv_head; by apply fmt_u_inj|].
  rewrite (take_ge (c :: x)) by (unfold zlen, IF_NAMESIZE, MAX_VLANID_CHARS in *; lia).
  assert (forall y, (c :: x) ++ cstr "." ++ y <> c :: x) as Hneq.
  { intros y H. apply (f_equal length) in H. rewrite !length_app in H. cbn in H. lia. }
  destruct (Z.eqb_spec v 0), (Z.eqb_spec w 0); cbn [negb]; [lia|intros H; by destruct (Hneq (fmt_u w))|intros H; by destruct (Hneq (fmt_u v))|].
  intros H%app_inv_head%app_inv_head. by apply fmt_u_inj.
Qed.

Definition range_line (name : list Z) (el : config_dhcpinfo_t) : list Z :=
  cstr "dhcp-range=" ++ name ++ cstr "," ++ ip_addr_low el ++ cstr "," ++ ip_addr_upp el ++ cstr "," ++
  dh_subnet_mask el ++ cstr "," ++ lease_time el ++ NL.

Lemma range_lines_run dconf l : zlen (wifi_interface dconf) < IF_NAMESIZE -> Forall (fun el => 0 <= dh_vlanid el <= 9999) l ->
  let names := (fun el => (define_dhcp_interface_name dconf (dh_vlanid el)).2) <$> l in
  range_lines dconf l = (0, concat (zip_with range_line names l)) /\ Forall (fun n => 0 < zlen n < IF_NAMESIZE) names.
Proof.
  intros Hw. induction 1 as [|el l Hv _ IH]; [done|]. cbv zeta in *. destruct IH as [IH Hn]. destruct (interface_name_ok dconf _ Hv Hw) as (n & E & Hb).
  rewrite fmap_cons. cbn [range_lines zip_with concat]. rewrite (wrap_small 16) by lia. rewrite E, IH. cbn [fst snd Z.ltb Z.compare].
  split; [|by constructor]. f_equal. unfold range_line. by rewrite <- !app_assoc.
Qed.

(** The configuration of the DHCP server: for ranges of different VLANs with
    numbers of up to four digits it is written completely, each range on the
    interface of its VLAN, and no interface name is too long or used twice. *)
Theorem dnsmasq_conf_correct dconf servers (d : disk (list Z)) : dk_answers d = [] -> zlen (wifi_interface dconf) <= 10 ->
  Forall (fun el => 0 <= dh_vlanid el <= 9999) (config_dhcpinfo_array dconf) -> NoDup (dh_vlanid <$> config_dhcpinfo_array dconf) ->
  exists names d', generate_dnsmasq_conf dconf servers d = Done (0, d') /\
    dk_files d' = <[dhcp_conf_path dconf := conf_head dconf servers ++ concat (zip_with range_line names (config_dhcpinfo_array dconf))]> (dk_files d) /\
    length names = length (config_dhcpinfo_array dconf) /\ NoDup names /\ Forall (fun n => 0 < zlen n < IF_NAMESIZE) names.
Proof.
  intros Ha Hw Hv Hnd. destruct (range_lines_run dconf _ ltac:(unfold IF_NAMESIZE; lia) Hv) as [E Hn].
  eexists _, _. unfold generate_dnsmasq_conf. cbv zeta. rewrite E. cbn [fst snd]. split.
  { erewrite bind_run by (unfold write_file; erewrite bind_run by done; rewrite Ha; done). done. }
  split; [done|]. split; [by rewrite length_fmap|]. split; [|exact Hn].
  revert Hv Hnd. generalize (config_dhcpinfo_array dconf). clear -Hw. intros l Hv Hnd.
  induction Hv as [|el l Hv Hl IH]; [constructor|]. rewrite fmap_cons in *. apply list.NoDup_cons in Hnd as [Hout Hnd]. constructor; [|by apply IH].
  intros (el' & E & Hin)%list_elem_of_fmap. apply Hout. rewrite (interface_name_inj dconf (dh_vlanid el) (dh_vlanid el')); [by apply list_elem_of_fmap_2|done| |done|done].
  by eapply Forall_forall in Hl.
Qed.

(** ** Starting the server *)

(** A machine on which every call works and every listing can be read. *)
Record host_ok (h : host) : Prop := {
  hk_answers : ho_answers h = [];
  hk_env : mallocs (ho_env h) = [];
  hk_listing : forall n, exists entries, ho_listing h n = Some entries /\ Forall entry_ok entries
}.

(** The program shows up in a listing. *)
Definition seen (h : host) (name : list Z) (n : nat) : Prop := exists entries, ho_listing h n = Some entries /\ shows h name entries.

Definition later (k : nat) (h : host) : host :=
  {| ho_listing := ho_listing h; ho_count := ho_count h + k; ho_realpath := ho_realpath h; ho_argv0 := ho_argv0 h;
     ho_pid := ho_pid h; ho_pgid := ho_pgid h; ho_answers := ho_answers h; ho_starts := ho_starts h;
     ho_signals := ho_signals h; ho_runs := ho_runs h; ho_env := ho_env h |}.

Lemma check_loop_run name tries : forall h, host_ok h -> exists r k, check_loop name tries h = Done (r, later k h) /\ (k <= tries)%nat /\
  (r = 0 \/ r = 1) /\ (r = 1 <-> exists n, (n < tries)%nat /\ seen h name (ho_count h + n)).
Proof.
  induction tries as [|tries IH]; intros h [Ha He Hl]; cbn [check_loop].
  - exists 0, 0%nat. split; [unfold later; rewrite Nat.add_0_r; by destruct h|]. split; [done|]. split; [by left|].
    split; [done|]. intros (n & Hn & _). lia.
  - destruct (Hl (ho_count h)) as (entries & Hent & Hok). destruct (ho_env h) as [ms rs] eqn:Henv. cbn in He. subst ms.
    destruct (is_proc_running_run h name entries rs Ha Henv Hent Hok) as (r & E & Hr & Hi). erewrite bind_run by exact E.
    destruct Hr as [-> | ->]; cbn [Z.ltb Z.compare Z.eqb].
    + destruct (IH (next_listing h)) as (r & k & E' & Hk & Hr & Hi'); [split; [exact Ha|cbn; by rewrite Henv|exact Hl]|]. exists r, (S k).
      split; [rewrite E'; unfold later; cbn; by rewrite Nat.add_succ_r|]. split; [lia|]. split; [done|]. rewrite Hi'. cbn [ho_count next_listing]. split.
      * intros (n & Hn & Hs). exists (S n). split; [lia|]. by rewrite Nat.add_succ_r.
      * intros (n & Hn & Hs). destruct n as [|n].
        -- exfalso. rewrite Nat.add_0_r in Hs. destruct Hs as (entries' & Hent' & Hs). rewrite Hent in Hent'. injection Hent' as <-. by apply Hi in Hs.
        -- exists n. split; [lia|]. by rewrite Nat.add_succ_r in Hs.
    + exists 1, 1%nat. split; [unfold later, next_listing; by rewrite Nat.add_1_r|]. split; [lia|]. split; [by right|]. split; [|done]. intros _.
      exists 0%nat. split; [lia|]. rewrite Nat.add_0_r. exists entries. split; [done|]. by apply Hi.
Qed.

(** The server is looked for at most a hundred times, and it is found exactly
    when one of these listings of the processes shows its program. *)
Theorem check_dhcp_running_bounded name h : host_ok h -> exists r h', check_dhcp_running name h = Done (r, h') /\
  (ho_count h' <= ho_count h + 100)%nat /\ (r = 0 \/ r = 1) /\
  (r = 1 <-> exists n, (n < 100)%nat /\ seen h name (ho_count h + n)).
Proof.
  intros Hok. destruct (check_loop_run name 100 h Hok) as (r & k & E & Hk & Hr & Hi). exists r, (later k h). split; [exact E|].
  split; [cbn; lia|]. done.
Qed.

(** A program with a name one can look for. *)
Definition program_ok (bin : list Z) : Prop :=
  zlen bin < MAX_OS_PATH_LEN - 1 /\ bin <> [] /\ Forall (fun c => c <> 0) bin /\ basename bin <> [] /\ basename bin <> cstr "." /\
  Forall (fun c => c <> 0) (basename bin) /\ zlen (basename bin) < MAX_OS_PATH_LEN - 1.

Lemma array_text_run l rs : string_array2string (Some l) (Env [] rs) = Done (Some (flat 32 l), Env [] rs).
Proof.
  unfold string_array2string. erewrite bind_run by apply malloc_nil. rewrite (total_chars_flat 32), append_strings_spec. cbn [negb].
  change (zlen (@nil Z)) with 0. rewrite decide_True by (right; lia). done.
Qed.

Lemma start_once argv name h fuel rs : ho_answers h = [] -> ho_env h = Env [] rs -> ho_starts h = [] -> (0 < fuel)%nat ->
  (exists bin rest, argv = bin :: rest /\ bin <> []) ->
  start_loop fuel argv name h = Done (Some tt,
    {| ho_listing := ho_listing h; ho_count := ho_count h; ho_realpath := ho_realpath h; ho_argv0 := ho_argv0 h;
       ho_pid := ho_pid h; ho_pgid := ho_pgid h; ho_answers := ho_answers h; ho_starts := ho_starts h;
       ho_signals := ho_signals h; ho_runs := ho_runs h ++ [argv]; ho_env := ho_env h |}).
Proof.
  intros Ha He Hs Hf (bin & rest & -> & Hne). destruct fuel as [|fuel]; [lia|]. destruct bin as [|c bin]; [done|]. cbn [start_loop].
  erewrite bind_run; cycle 1.
  { unfold run_process. erewrite bind_run by (by apply call_same). cbn [Z.eqb negb].
    erewrite bind_run by (apply alloc_same; rewrite He; apply array_text_run). erewrite bind_run by done. done. }
  rewrite Hs. cbn [Z.ltb Z.compare Z.eqb head default tail]. done.
Qed.

(** The process itself. *)
Lemma run_dhcp_process_run bin conf s fuel : host_ok (dm_host s) -> ho_starts (dm_host s) = [] -> program_ok bin -> (0 < fuel)%nat ->
  exists r s' l, run_dhcp_process fuel bin conf s = Done (r, s') /\ dm_disk s' = dm_disk s /\
    ho_signals (dm_host s') = ho_signals (dm_host s) ++ ((fun p => (p, SIGTERM)) <$> l) /\
    (forall p, p ∈ l <-> p <> ho_pid (dm_host s) /\ p <> ho_pgid (dm_host s) /\ exists entries d,
       ho_listing (dm_host s) (ho_count (dm_host s)) = Some entries /\ d ∈ entries /\ plain_name d /\ runs_program (dm_host s) (basename bin) d p) /\
    ho_runs (dm_host s') = ho_runs (dm_host s) ++ [get_dnsmasq_args bin conf] /\
    (is_Some r <-> exists n, (n < 100)%nat /\ seen (dm_host s) (basename bin) (S (ho_count (dm_host s)) + n)) /\
    (is_Some r -> dns_process_started s' = true).
Proof.
  intros [Ha He Hl] Hst (Hb1 & Hb2 & Hb3 & Hb4 & Hb5 & Hb6 & Hb7) Hf. destruct s as [h disk0 nm0 st0]. cbn [dm_host dm_disk] in *.
  destruct (ho_env h) as [ms rs] eqn:Henv. cbn in He. subst ms. destruct (Hl (ho_count h)) as (entries & Hent & Hok).
  unfold run_dhcp_process. cbv zeta.
  destruct (copy_argv_run (get_dnsmasq_args bin conf) (Env [] rs)) as (ok & e' & Hm & Hc). rewrite malloc_nil in Hm. injection Hm as <- <-.
  erewrite bind_run by (unfold dm_on_host; cbn [dm_host]; erewrite alloc_same by (rewrite Henv; exact Hc); done). cbn beta iota.
  erewrite bind_run by done. erewrite bind_run by done. cbn [dnsmasq_proc_name]. rewrite !clip_short by (rewrite ?clip_short; lia).
  assert (0 ∉ basename bin) as H0 by (intros H; eapply Forall_forall in Hb6; [|exact H]; done).
  destruct (signal_process_run h (basename bin) SIGTERM entries rs) as (l & Ek & _ & Hmem); [done..|].
  erewrite bind_run by (unfold dm_on_host, kill_process; cbn [dm_host]; rewrite Ek; done). cbn [negb].
  erewrite bind_run; cycle 1.
  { unfold dm_on_host. cbn [dm_host]. rewrite start_once with (rs := rs); [done|exact Ha|exact Henv|exact Hst|done|]. by eexists _, _. }
  cbn beta iota. set (h2 := {| ho_listing := ho_listing (with_signals _ _) |}).
  destruct (check_loop_run (basename bin) 100 h2) as (r & k & Ec & Hk & Hr & Hi).
  { split; [exact Ha|cbn; by rewrite Henv|exact Hl]. }
  erewrite bind_run by (unfold dm_on_host, check_dhcp_running; cbn [dm_host]; unfold MAX_DHCP_CHECK_COUNT; rewrite Ec; done).
  assert (forall n, seen h2 (basename bin) (ho_count h2 + n) <-> seen h (basename bin) (S (ho_count h) + n)) as Hseen by done.
  destruct Hr as [-> | ->]; cbn [Z.leb Z.compare].
  - eexists None, _, l. split; [done|]. split; [done|]. split; [done|]. split.
    { intros p. rewrite Hmem. split; intros (H1 & H2 & H3); (split; [done|split; [done|]]); [|].
      - destruct H3 as (d & H3). by exists entries, d.
      - destruct H3 as (entries' & d & H4 & H3). rewrite Hent in H4. injection H4 as <-. by exists d. }
    split; [done|]. split; [|by intros []]. split; [by intros []|]. intros (n & Hn & Hs). exfalso.
    assert (0 = 1) as H01 by (apply Hi; exists n; by rewrite Hseen). lia.
  - erewrite bind_run by done. eexists (Some _), _, l. split; [done|]. split; [done|]. split; [done|]. split.
    { intros p. rewrite Hmem. split; intros (H1 & H2 & H3); (split; [done|split; [done|]]); [|].
      - destruct H3 as (d & H3). by exists entries, d.
      - destruct H3 as (entries' & d & H4 & H3). rewrite Hent in H4. injection H4 as <-. by exists d. }
    split; [done|]. split; [|done]. split; [|by eexists]. intros _. destruct (proj1 Hi eq_refl) as (n & Hn & Hs). exists n. by rewrite <- Hseen.
Qed.

Lemma script_written p c dirs fls :
  generate_dnsmasq_script p c {| dk_answers := []; dk_dirs := dirs; dk_files := fls |} =
  Done (0, {| dk_answers := []; dk_dirs := dirs; dk_files := <[p := script_text c]> fls |}).
Proof. reflexivity. Qed.

(** C33. Starting the DHCP server on a machine where everything works: the
    configuration and the script are written; the servers that run under the
    name of the program get SIGTERM, and only they; the new one is started once,
    with the configuration as its argument; and the result is 0, and the server
    noted as started, exactly when one of a hundred listings shows the program. *)
Theorem run_dhcp_starts dconf servers ctrl s fuel : let bin := dhcp_bin_path dconf in
  host_ok (dm_host s) -> ho_starts (dm_host s) = [] -> dk_answers (dm_disk s) = [] -> program_ok bin -> (0 < fuel)%nat ->
  zlen (wifi_interface dconf) < IF_NAMESIZE -> Forall (fun el => 0 <= dh_vlanid el <= 9999) (config_dhcpinfo_array dconf) ->
  exists r s' l, run_dhcp fuel dconf servers ctrl true s = Done (r, s') /\
    dk_files (dm_disk s') = <[dhcp_script_path dconf := script_text ctrl]> (<[dhcp_conf_path dconf :=
      conf_head dconf servers ++ (range_lines dconf (config_dhcpinfo_array dconf)).2]> (dk_files (dm_disk s))) /\
    ho_signals (dm_host s') = ho_signals (dm_host s) ++ ((fun p => (p, SIGTERM)) <$> l) /\
    (forall p, p ∈ l <-> p <> ho_pid (dm_host s) /\ p <> ho_pgid (dm_host s) /\ exists entries d,
       ho_listing (dm_host s) (ho_count (dm_host s)) = Some entries /\ d ∈ entries /\ plain_name d /\ runs_program (dm_host s) (basename bin) d p) /\
    ho_runs (dm_host s') = ho_runs (dm_host s) ++ [get_dnsmasq_args bin (dhcp_conf_path dconf)] /\
    (r = 0 <-> exists n, (n < 100)%nat /\ seen (dm_host s) (basename bin) (S (ho_count (dm_host s)) + n)) /\
    (r = 0 -> dns_process_started s' = true).
Proof.
  intros bin Hok Hst Hd Hb Hf Hw Hv. destruct (dm_disk s) as [dans dirs fls] eqn:Ed. cbn in Hd. subst dans. unfold run_dhcp.
  destruct (range_lines_run dconf _ Hw Hv) as [Er _]. erewrite bind_run; cycle 1.
  { unfold dm_on_disk. rewrite Ed. unfold generate_dnsmasq_conf. cbv zeta. rewrite Er. cbn [fst snd].
    erewrite bind_run by (unfold write_file; erewrite bind_run by done; done). done. }
  cbn [Z.ltb Z.compare].
  erewrite bind_run by (unfold dm_on_disk; cbn [dm_disk]; rewrite script_written; done).
  cbn [Z.ltb Z.compare Z.eqb]. set (s2 := {| dm_host := _ |}).
  destruct (run_dhcp_process_run bin (dhcp_conf_path dconf) s2 fuel Hok Hst Hb Hf) as (r & s3 & l & E & Hdisk & Hsig & Hmem & Hruns & Hiff & Hstart).
  erewrite bind_run by exact E. eexists _, s3, l. split; [done|]. rewrite Hdisk, Er. split; [done|]. split; [exact Hsig|]. split; [exact Hmem|].
  split; [exact Hruns|]. split; [etrans; [|exact Hiff]|].
  - destruct r; split; intros H; try done; try (by eexists); by destruct H.
  - intros H. apply Hstart. destruct r; [by eexists|done].
Qed.

(** ** Samples *)

Definition sample_range (v : Z) : config_dhcpinfo_t :=
  {| dh_vlanid := v; ip_addr_low := cstr "10.0.1.2"; ip_addr_upp := cstr "10.0.1.254"; dh_subnet_mask := cstr "255.255.255.0";
     lease_time := cstr "24h" |}.
Definition sample_conf : dhcp_conf :=
  {| dhcp_bin_path := cstr "/usr/sbin/dnsmasq"; dhcp_conf_path := cstr "/tmp/dnsmasq.conf"; dhcp_script_path := cstr "/tmp/exec.sh";
     dhcp_leasefile_path := cstr "/tmp/leases"; dh_interface_prefix := cstr "br"; wifi_interface := cstr "wlan0";
     config_dhcpinfo_array := [sample_range 0; sample_range 1] |}.
Definition sample_leases : list (list Z) := [cstr "1 aa:01 10.0.1.5 *"; cstr "2 aa:02 10.0.1.6 *"; cstr "3 aa:03 10.0.1.7 *"].
Definition sample_disk : disk (list Z) :=
  {| dk_answers := []; dk_dirs := []; dk_files := {[ cstr "/tmp/leases" := text_of sample_leases ]} |}.
Definition sample_dnsmasq : dnsmasq :=
  {| dm_host := sample_host; dm_disk := sample_disk; dnsmasq_proc_name := []; dns_process_started := false |}.

Lemma sample_host_ok : host_ok sample_host.
Proof.
  split; [done|done|]. intros n. eexists. split; [done|].
  repeat (constructor; [first [by left|right; by left|right; right; repeat split; try done; apply (bool_decide_unpack _); by vm_compute]|]). constructor.
Qed.

Lemma sample_host_shows n : seen sample_host (cstr "dnsmasq") n.
Proof.
  eexists. split; [done|]. exists (cstr "40"), 40. split; [by do 4 right; left|].
  split; [apply (bool_decide_unpack _); by vm_compute|].
  split; [by vm_compute|]. split; [done|]. exists (cstr "/usr/sbin/dnsmasq"). split; [by vm_compute|]. left. by vm_compute.
Qed.

Lemma dhcpinfo_roundtrip_witness : get_config_dhcpinfo (cstr "1,10.0.1.2,10.0.1.254,255.255.255.0,24h") = Some (sample_range 1).
Proof. apply (dhcpinfo_roundtrip (sample_range 1)). split; [done|apply (bool_decide_unpack _); by vm_compute|]. apply (bool_decide_unpack _); by vm_compute. Defined.

Lemma clear_lease_correct_witness : exists d', clear_dhcp_lease_entry (Some (cstr "aa:02")) (Some (cstr "/tmp/leases")) (sample_disk, Env [] []) = Done (0, (d', Env [] [])) /\
  dk_files d' !! cstr "/tmp/leases" = Some (text_of [cstr "1 aa:01 10.0.1.5 *"; cstr "3 aa:03 10.0.1.7 *"]).
Proof.
  destruct (clear_lease_correct (cstr "aa:02") (cstr "/tmp/leases") sample_leases sample_disk []) as (d' & E & _).
  - done.
  - apply (bool_decide_unpack _); by vm_compute.
  - apply (bool_decide_unpack _); by vm_compute.
  - apply (bool_decide_unpack _); by vm_compute.
  - done.
  - by vm_compute.
  - exists d'. split; [exact E|]. vm_compute in E. injection E as <-. by vm_compute.
Defined.

Lemma dnsmasq_conf_correct_witness : exists names d', generate_dnsmasq_conf sample_conf [cstr "8.8.8.8"] sample_disk = Done (0, d') /\
  dk_files d' !! cstr "/tmp/dnsmasq.conf" = Some (conf_head sample_conf [cstr "8.8.8.8"] ++ concat (zip_with range_line names [sample_range 0; sample_range 1])) /\ NoDup names.
Proof.
  destruct (dnsmasq_conf_correct sample_conf [cstr "8.8.8.8"] sample_disk) as (names & d' & E & Hf & _ & Hn & _).
  - done.
  - by vm_compute.
  - apply (bool_decide_unpack _); by vm_compute.
  - apply (bool_decide_unpack _); by vm_compute.
  - exists names, d'. split; [exact E|]. split; [rewrite Hf; by rewrite lookup_insert_eq|done].
Defined.

Lemma check_dhcp_running_bounded_witness : exists h', check_dhcp_running (cstr "dnsmasq") sample_host = Done (1, h') /\ (ho_count h' <= 100)%nat.
Proof.
  destruct (check_dhcp_running_bounded (cstr "dnsmasq") sample_host sample_host_ok) as (r & h' & E & Hc & _ & Hi).
  assert (r = 1) as -> by (apply Hi; exists 0%nat; split; [lia|apply sample_host_shows]). by exists h'.
Defined.

Lemma run_dhcp_starts_witness : exists s', run_dhcp 1 sample_conf [cstr "8.8.8.8"] (cstr "/tmp/ctrl") true sample_dnsmasq = Done (0, s') /\
  ho_runs (dm_host s') = [get_dnsmasq_args (cstr "/usr/sbin/dnsmasq") (cstr "/tmp/dnsmasq.conf")] /\ dns_process_started s' = true.
Proof.
  destruct (run_dhcp_starts sample_conf [cstr "8.8.8.8"] (cstr "/tmp/ctrl") sample_dnsmasq 1) as (r & s' & l & E & _ & _ & _ & Hr & Hi & Hs).
  - apply sample_host_ok.
  - done.
  - done.
  - repeat split; try done; apply (bool_decide_unpack _); by vm_compute.
  - lia.
  - by vm_compute.
  - apply (bool_decide_unpack _); by vm_compute.
  - assert (r = 0) as -> by (apply Hi; exists 0%nat; split; [lia|apply sample_host_shows]). exists s'. split; [exact E|]. split; [exact Hr|]. by apply Hs.
Defined.
