(* ===== verification/MdnsName.v ===== *)
(** Names in multicast DNS packets: [copy_mdns_query_name],
    [get_mdns_query_offset] and [decode_mdns_query_name] of
    [src/capture/middlewares/header_middleware/mdns_decoder.c].

    A name is a sequence of labels that ends with a zero byte, at the end of the
    packet, or with a pointer to where the rest of the name is.  The decoder
    follows a pointer by calling itself, without a limit: here a [fuel] bounds
    the labels and the pointers together.  [name_at] says what a name is.  The
    theorems: the decoder returns exactly on names, with their labels put
    together; a name takes no more steps than the packet has bytes, so that this
    much fuel is enough; and on a chain of labels and pointers that comes back
    to where it was no fuel is. *)
From stdpp Require Import strings numbers base list gmap relations.
From Stdlib Require Import ZArith Lia.
From S2P Require Import Prelude Text Extern Queue.

Definition COMPRESSION_FLAG : Z := 0xC0.
Definition COMPRESSION_FLAG_BIT7 : Z := 0x80.
Definition COMPRESSION_FLAG_BIT6 : Z := 0x40.

Definition get_mdns_query_offset (low high : Z) : Z := Z.lor (u16 (Z.shiftl low 8)) high.

Definition is_pointer (p : Z) : bool :=
  negb (Z.land p COMPRESSION_FLAG_BIT7 =? 0) && negb (Z.land p COMPRESSION_FLAG_BIT6 =? 0).

(** [strncpy] of [n] bytes from [off]: it reads up to a zero byte and fills up
    with zeros. *)
Definition strncpy (buf : list Z) (off n : Z) : outcome (list Z) :=
  let avail := take (Z.to_nat n) (drop (Z.to_nat off) buf) in
  let s := until_nul avail in
  if (zlen avail =? n) || (zlen s <? zlen avail) then Done (s ++ zeros (Z.to_nat n - length s))
  else Fault OutOfBounds.

Section names.
Context {L : DlList (option (list Z))} (payload : list Z) (len : Z).

(** The string made of the label of [n] bytes at [start], with its dot. *)
Definition label_at (start n : Z) : outcome (list Z) :=
  match strncpy payload (start + 1) n with
  | Fault f => Fault f
  | Done s => Done (until_nul (s ++ [46]))
  end.

Definition copy_mdns_query_name (start : Z) : prog env (Z * option (list Z)) :=
  n ← lift_outcome (rd1 payload start);
  if n =? 0 then mret (0, None)
  else
    ok ← malloc;
    if negb ok then mret (-1, None)
    else s ← lift_outcome (label_at start n); mret (0, Some s).

(** Pushes a string, if there is one; the queue is freed when that fails. *)
Definition push_name (sq : string_queue) (qname : option (list Z)) : prog env (option string_queue) :=
  match qname with
  | None => mret (Some sq)
  | Some s =>
      x ← push_string_queue (Some sq) (Some s);
      if x.1 <? 0 then _ ← lift_outcome (free_string_queue x.2); mret None else mret x.2
  end.

(** What the decoder does around its loop: the return value, where the name
    ends and the name. *)
Definition query_name (loop : Z -> string_queue -> prog env (option (Z * string_queue))) (first : Z) :
    prog env (Z * Z * option (list Z)) :=
  q ← init_string_queue (-1);
  match q with
  | None => mret (-1, first, None)
  | Some sq =>
      r ← loop first sq;
      match r with
      | None => mret (-1, first, None)
      | Some (i, sq') =>
          out ← concat_string_queue (Some sq') (-1);
          _ ← lift_outcome (free_string_queue (Some sq'));
          mret (0, i, out)
      end
  end.

Fixpoint name_loop (fuel : nat) (i : Z) (sq : string_queue) : prog env (option (Z * string_queue)) :=
  if i <? len then
    p ← lift_outcome (rd1 payload i);
    if p =? 0 then mret (Some (i, sq))
    else
      match fuel with
      | O => fail_with OutOfFuel
      | S fuel =>
          if is_pointer p then
            high ← lift_outcome (rd1 payload (i + 1));
            let off := get_mdns_query_offset (Z.land p (255 - COMPRESSION_FLAG)) high in
            r ← query_name (name_loop fuel) off;
            if r.1.1 <? 0 then _ ← lift_outcome (free_string_queue (Some sq)); mret None
            else
              x ← push_name sq r.2;
              mret (match x with None => None | Some sq' => Some (i + 1, sq') end)
          else
            r ← copy_mdns_query_name i;
            if r.1 <? 0 then _ ← lift_outcome (free_string_queue (Some sq)); mret None
            else
              x ← push_name sq r.2;
              match x with None => mret None | Some sq' => name_loop fuel (i + (p + 1)) sq' end
      end
  else mret (Some (i, sq)).

Definition decode_mdns_query_name (fuel : nat) (first : Z) : prog env (Z * Z * option (list Z)) :=
  query_name (name_loop fuel) first.

(** ** What a name is *)

(** The name at [i] has the labels [ls], its own part of the packet stops at
    [stop], and it takes [k] labels and pointers. *)
Inductive name_at : Z -> list (list Z) -> Z -> nat -> Prop :=
| name_end i : len <= i -> name_at i [] i 0
| name_root i : i < len -> rd1 payload i = Done 0 -> name_at i [] i 0
| name_label i n s ls stop k :
    i < len -> rd1 payload i = Done n -> n <> 0 -> is_pointer n = false ->
    label_at i n = Done s -> name_at (i + (n + 1)) ls stop k -> name_at i (s :: ls) stop (S k)
| name_pointer i n m ls stop k :
    i < len -> rd1 payload i = Done n -> n <> 0 -> is_pointer n = true -> rd1 payload (i + 1) = Done m ->
    name_at (get_mdns_query_offset (Z.land n (255 - COMPRESSION_FLAG)) m) ls stop k ->
    name_at i ls (i + 1) (S k).

(** The name as a string; a name without labels is none. *)
Definition spelled (ls : list (list Z)) : option (list Z) :=
  match ls with [] => None | _ => Some (concat ls) end.

(** A queue without a limit that holds [l]. *)
Definition holds (sq : string_queue) (l : list (list Z)) : Prop := squeue_rep sq l /\ max_length sq = -1.

Lemma holds_init : holds {| max_length := -1; sq_list := dl_list_init |} [].
Proof.
  destruct (queue_init (L := L)) as [Hwf Hi]. split; [|done]. split; [split; [done|cbn; lia]|exact Hi].
Qed.

Lemma push_name_run sq l qname r : holds sq l ->
  exists sq', push_name sq qname (Env [] r) = Done (Some sq', Env [] r) /\
    holds sq' (l ++ match qname with None => [] | Some s => [s] end).
Proof.
  intros [[Hwf Hi] Hm]. destruct qname as [s|]; cbn [push_name]; [|by exists sq; rewrite app_nil_r].
  destruct (push_run sq s (Env [] r) Hwf) as (ret & q' & e' & E & [_ He] & Hwf' & Hm' & _).
  destruct (He eq_refl) as (-> & -> & Hi'). exists q'. erewrite bind_run by exact E. cbn [fst snd].
  split; [done|]. split; [|congruence]. split; [done|]. rewrite Hi', Hi, Hm. unfold evict.
  rewrite andb_false_r. by rewrite fmap_app.
Qed.

Lemma free_run sq l : holds sq l -> free_string_queue (Some sq) = Done tt.
Proof.
  intros [[Hwf Hi] Hm]. unfold free_string_queue, empty_string_queue.
  destruct (empty_loop_spec (length (dl_nodes (sq_list sq))) sq l (-1) 0) as (q' & -> & _); try done.
  apply (f_equal length) in Hi. unfold queue_items in Hi. rewrite !length_fmap in Hi. lia.
Qed.

Lemma concat_holds sq l r : holds sq l ->
  concat_string_queue (Some sq) (-1) (Env [] r) = Done (spelled l, Env [] r).
Proof.
  intros [[Hwf Hi] Hm]. cbn [concat_string_queue]. rewrite (concat_queue_run _ l) by done. cbn [Z.ltb Z.compare].
  by destruct l.
Qed.

(** ** The decoder on names *)

(** Two ways to cut a string into pieces. *)
Definition same_spelling (l ls : list (list Z)) : Prop := concat l = concat ls /\ (l = [] <-> ls = []).

Lemma same_spelled l ls : same_spelling l ls -> spelled l = spelled ls.
Proof.
  intros [Hc Hn]. destruct l, ls; try done; [by destruct (proj1 Hn eq_refl)|by destruct (proj2 Hn eq_refl)|].
  unfold spelled. by rewrite Hc.
Qed.

Lemma query_name_run loop first i ls r :
  (forall sq, holds sq [] -> exists sq' l, loop first sq (Env [] r) = Done (Some (i, sq'), Env [] r) /\
     holds sq' l /\ same_spelling l ls) ->
  query_name loop first (Env [] r) = Done ((0, i, spelled ls), Env [] r).
Proof.
  intros H. unfold query_name. erewrite bind_run by (unfold init_string_queue; erewrite bind_run by apply malloc_nil; done).
  cbn beta iota. destruct (H _ holds_init) as (sq1 & l & E & Hh & Hs).
  erewrite bind_run by exact E. cbn beta iota. erewrite bind_run by (by apply concat_holds).
  erewrite bind_run by (erewrite free_run by exact Hh; apply lift_run). by rewrite (same_spelled l ls).
Qed.

Lemma copy_run i n s r : rd1 payload i = Done n -> n <> 0 -> label_at i n = Done s ->
  copy_mdns_query_name i (Env [] r) = Done ((0, Some s), Env [] r).
Proof.
  intros Hn H0 Hs. unfold copy_mdns_query_name. rewrite Hn. erewrite bind_run by apply lift_run.
  destruct (Z.eqb_spec n 0); [done|]. erewrite bind_run by apply malloc_nil. cbn [negb]. rewrite Hs. done.
Qed.

Lemma loop_run i ls stop k : name_at i ls stop k -> forall fuel sq l r, (k <= fuel)%nat -> holds sq l ->
  exists sq' l', name_loop fuel i sq (Env [] r) = Done (Some (stop, sq'), Env [] r) /\ holds sq' (l ++ l') /\
    same_spelling l' ls.
Proof.
  induction 1 as [i Hi|i Hi H0|i n s ls stop k Hi Hn H0 Hp Hs Hna IH|i n m ls stop k Hi Hn H0 Hp Hm Hna IH];
    intros fuel sq l r Hk Hh.
  - exists sq, []. rewrite app_nil_r. split; [|done]. destruct fuel; cbn [name_loop];
      (destruct (Z.ltb_spec i len); [lia|done]).
  - exists sq, []. rewrite app_nil_r. split; [|done]. destruct fuel; cbn [name_loop];
      (destruct (Z.ltb_spec i len); [|lia]); rewrite H0; by erewrite bind_run by apply lift_run.
  - destruct fuel as [|fuel]; [lia|]. cbn [name_loop]. destruct (Z.ltb_spec i len); [|lia]. rewrite Hn.
    erewrite bind_run by apply lift_run. destruct (Z.eqb_spec n 0); [done|]. rewrite Hp.
    erewrite bind_run by (by eapply copy_run). cbn [fst snd Z.ltb Z.compare].
    destruct (push_name_run sq l (Some s) r Hh) as (sq1 & E1 & Hh1). erewrite bind_run by exact E1. cbn beta iota.
    destruct (IH fuel sq1 (l ++ [s]) r) as (sq2 & l2 & E2 & Hh2 & Hc & Hl); [lia|done|].
    exists sq2, (s :: l2). rewrite <- app_assoc in Hh2. split; [done|]. split; [done|]. split; [cbn; by rewrite Hc|done].
  - destruct fuel as [|fuel]; [lia|]. cbn [name_loop]. destruct (Z.ltb_spec i len); [|lia]. rewrite Hn.
    erewrite bind_run by apply lift_run. destruct (Z.eqb_spec n 0); [done|]. rewrite Hp, Hm.
    erewrite bind_run by apply lift_run. cbv zeta.
    erewrite bind_run; cycle 1.
    { apply query_name_run. intros sq0 H00. destruct (IH fuel sq0 [] r) as (sq1 & l1 & E1 & Hh1 & Hs1); [lia|done|].
      by exists sq1, l1. }
    cbn [fst snd Z.ltb Z.compare]. destruct (push_name_run sq l (spelled ls) r Hh) as (sq1 & E1 & Hh1).
    erewrite bind_run by exact E1. exists sq1, (match spelled ls with None => [] | Some s => [s] end).
    split; [done|]. split; [done|]. destruct ls; [done|]. split; [apply app_nil_r|done].
Qed.

(** The loop returns only on names. *)
Lemma loop_returns fuel : forall i sq l r x, holds sq l -> name_loop fuel i sq (Env [] r) = Done x ->
  exists ls stop k, name_at i ls stop k /\ (k <= fuel)%nat.
Proof.
  induction fuel as [|fuel IH]; intros i sq l r x Hh H; cbn [name_loop] in H;
    (destruct (Z.ltb_spec i len) as [Hi|Hi]; [|exists [], i, O; split; [by constructor|lia]]);
    destruct x as [o e']; apply bind_done in H as (p & e1 & Hp & H);
    (destruct (rd1 payload i) as [n|] eqn:Hn; [|done]); injection Hp as <- <-;
    (destruct (Z.eqb_spec n 0) as [->|H0]; [exists [], i, O; split; [by constructor|lia]|]); [done|].
  destruct (is_pointer n) eqn:Hptr.
  - apply bind_done in H as (m & e1 & Hm & H). destruct (rd1 payload (i + 1)) as [m'|] eqn:Hm'; [|done].
    injection Hm as <- <-. cbv zeta in H. apply bind_done in H as (y & e1 & Hq & H).
    unfold query_name in Hq. erewrite bind_run in Hq by (unfold init_string_queue; erewrite bind_run by apply malloc_nil; done).
    cbn beta iota in Hq. apply bind_done in Hq as (z & e2 & Hl & _).
    destruct (IH _ _ [] r _ holds_init Hl) as (ls & stop & k & Hna & Hk).
    exists ls, (i + 1), (S k). split; [by eapply name_pointer|lia].
  - apply bind_done in H as (y & e1 & Hc & H). unfold copy_mdns_query_name in Hc. rewrite Hn in Hc.
    erewrite bind_run in Hc by apply lift_run. destruct (Z.eqb_spec n 0); [done|].
    erewrite bind_run in Hc by apply malloc_nil. cbn [negb] in Hc. destruct (label_at i n) as [s|] eqn:Hs; [|done].
    injection Hc as <- <-. cbn [fst snd Z.ltb Z.compare] in H.
    destruct (push_name_run sq l (Some s) r Hh) as (sq1 & E1 & Hh1). erewrite bind_run in H by exact E1. cbn beta iota in H.
    destruct (IH _ _ _ r _ Hh1 H) as (ls & stop & k & Hna & Hk).
    exists (s :: ls), stop, (S k). split; [by eapply name_label|lia].
Qed.

(** ** How many steps a name takes *)

(** The same byte, read twice. *)
Ltac same_byte :=
  repeat match goal with
  | H1 : rd1 payload ?i = Done ?a, H2 : rd1 payload ?i = Done ?b |- _ =>
      first [constr_eq a b; clear H2|rewrite H1 in H2; injection H2 as ?; subst]
  end.

Lemma name_steps i ls stop k : name_at i ls stop k -> forall ls' stop' k', name_at i ls' stop' k' -> k = k'.
Proof.
  induction 1 as [i Hi|i Hi H0|i n s ls stop k Hi Hn H0 Hp Hs Hna IH|i n m ls stop k Hi Hn H0 Hp Hm Hna IH];
    intros ls' stop' k' H'; inversion H'; subst; same_byte; try done; try lia; try congruence; f_equal; eauto.
Qed.

Lemma offset_nonneg n m : is_byte n -> is_byte m -> 0 <= get_mdns_query_offset (Z.land n (255 - COMPRESSION_FLAG)) m.
Proof.
  intros Hn Hm. unfold get_mdns_query_offset. apply Z.lor_nonneg. split; [|apply Hm]. by apply Z.mod_pos_bound.
Qed.

Lemma rd1_byte i n : bytes payload -> rd1 payload i = Done n -> is_byte n.
Proof.
  unfold rd1. intros Hb. destruct (payload !! _) eqn:E; [|done]. destruct (0 <=? i); [|done]. intros [= <-].
  by eapply Forall_lookup_1.
Qed.

(** The places a name goes through are different places of the packet. *)
Lemma name_places i ls stop k : bytes payload -> name_at i ls stop k -> 0 <= i ->
  exists ps, length ps = k /\ NoDup ps /\
    Forall (fun p => 0 <= p < len /\ exists ls' stop' k', name_at p ls' stop' k' /\ (k' <= k)%nat) ps.
Proof.
  intros Hb. induction 1 as [i Hi|i Hi H0|i n s ls stop k Hi Hn H0 Hp Hs Hna IH|i n m ls stop k Hi Hn H0 Hp Hm Hna IH];
    intros H0i; [exists []; repeat constructor|exists []; repeat constructor|..].
  all: assert (name_at i _ _ (S k)) as Hi' by (by econstructor);
    destruct IH as (ps & Hl & Hd & Hf); [pose proof (rd1_byte _ _ Hb Hn) as [? ?]; try lia|].
  2: apply offset_nonneg; by eapply rd1_byte.
  all: exists (i :: ps); (split; [cbn; congruence|]); split.
  1,3: apply NoDup_cons_2; [|done]; intros Hin; rewrite Forall_forall in Hf;
    destruct (Hf i Hin) as (_ & ls' & stop' & k' & Hna' & Hk'); pose proof (name_steps _ _ _ _ Hi' _ _ _ Hna'); lia.
  all: constructor; [split; [lia|do 3 eexists; split; [exact Hi'|done]]|]; eapply Forall_impl; [exact Hf|];
    intros p (Hp' & ls' & stop' & k' & Hna' & Hk'); split; [done|]; exists ls', stop', k'; split; [done|lia].
Qed.

Lemma name_bound i ls stop k : bytes payload -> name_at i ls stop k -> 0 <= i -> (k <= Z.to_nat len)%nat.
Proof.
  intros Hb Hna Hi. destruct (name_places i ls stop k Hb Hna Hi) as (ps & <- & Hd & Hf).
  enough (length (Z.to_nat <$> ps) <= length (seq 0 (Z.to_nat len)))%nat as H by (by rewrite length_fmap, length_seq in H).
  apply submseteq_length, NoDup_submseteq.
  - eapply NoDup_fmap_2_strong; [|done]. intros x y Hx Hy Hxy. rewrite Forall_forall in Hf.
    destruct (Hf x Hx) as [? _], (Hf y Hy) as [? _]. lia.
  - intros p (x & -> & Hx)%list_elem_of_fmap. rewrite Forall_forall in Hf. destruct (Hf x Hx) as [? _].
    apply elem_of_seq. lia.
Qed.

(** From one place to the next. *)
Inductive hop : Z -> Z -> Prop :=
| hop_label i n : i < len -> rd1 payload i = Done n -> n <> 0 -> is_pointer n = false -> hop i (i + (n + 1))
| hop_pointer i n m : i < len -> rd1 payload i = Done n -> n <> 0 -> is_pointer n = true ->
    rd1 payload (i + 1) = Done m -> hop i (get_mdns_query_offset (Z.land n (255 - COMPRESSION_FLAG)) m).

Lemma hop_steps i j : hop i j -> forall ls stop k, name_at i ls stop k ->
  exists ls' stop' k', name_at j ls' stop' k' /\ (k' < k)%nat.
Proof.
  intros Hh ls stop k Hna. inversion Hna; subst; inversion Hh; subst; same_byte; try lia; try congruence; eauto 6.
Qed.

Lemma hops_steps i j : tc hop i j -> forall ls stop k, name_at i ls stop k ->
  exists ls' stop' k', name_at j ls' stop' k' /\ (k' < k)%nat.
Proof.
  induction 1 as [i j Hh|i j j' Hh _ IH]; intros ls stop k Hna; [by eapply hop_steps|].
  destruct (hop_steps _ _ Hh _ _ _ Hna) as (ls1 & stop1 & k1 & H1 & Hk1).
  destruct (IH _ _ _ H1) as (ls2 & stop2 & k2 & H2 & Hk2). exists ls2, stop2, k2. split; [done|lia].
Qed.

(** C39. The decoder of names in multicast DNS packets returns exactly on names,
    and then with the name: as soon as some amount of fuel lets it return,
    fuel for as many steps as the packet has bytes does, the place it reports
    is where the name stops, and the string is that of its labels, each with a
    dot behind it, in the order in which pointers lead to them. *)
Theorem decode_mdns_query_name_correct first r : bytes payload -> 0 <= first ->
  (forall fuel x, decode_mdns_query_name fuel first (Env [] r) = Done x ->
     exists ls stop k, name_at first ls stop k) /\
  (forall ls stop k fuel, name_at first ls stop k -> (Z.to_nat len <= fuel)%nat ->
     decode_mdns_query_name fuel first (Env [] r) = Done ((0, stop, spelled ls), Env [] r)).
Proof.
  intros Hb Hf. split.
  - intros fuel [y e'] H. unfold decode_mdns_query_name, query_name in H.
    erewrite bind_run in H by (unfold init_string_queue; erewrite bind_run by apply malloc_nil; done).
    cbn beta iota in H. apply bind_done in H as (z & e2 & Hl & _).
    destruct (loop_returns _ _ _ [] r _ holds_init Hl) as (ls & stop & k & Hna & _). eauto.
  - intros ls stop k fuel Hna Hk. apply query_name_run. intros sq Hh. pose proof (name_bound _ _ _ _ Hb Hna Hf).
    destruct (loop_run _ _ _ _ Hna fuel sq [] r) as (sq' & l' & E & Hh' & Hs); [lia|done|]. by exists sq', l'.
Qed.

(** There is no limit on how often pointers are followed: on a name whose
    labels and pointers lead back to where it starts the decoder never
    returns, whatever the fuel, and the recursion of the code does not end. *)
Theorem decode_mdns_query_name_diverges first r : tc hop first first ->
  forall fuel, returns (decode_mdns_query_name fuel first (Env [] r)) = false.
Proof.
  intros Hc fuel. destruct (decode_mdns_query_name fuel first (Env [] r)) as [[y e']|] eqn:H; [|done]. exfalso.
  unfold decode_mdns_query_name, query_name in H.
  erewrite bind_run in H by (unfold init_string_queue; erewrite bind_run by apply malloc_nil; done).
  cbn beta iota in H. apply bind_done in H as (z & e2 & Hl & _).
  destruct (loop_returns _ _ _ [] r _ holds_init Hl) as (ls & stop & k & Hna & _).
  destruct (hops_steps _ _ Hc _ _ _ Hna) as (ls' & stop' & k' & Hna' & Hk').
  pose proof (name_steps _ _ _ _ Hna _ _ _ Hna'). lia.
Qed.
End names.

(** ** Samples *)

(** [foo], and a pointer to [local]. *)
Definition sample_name : list Z := [3; 102; 111; 111; 0xC0; 8; 0; 0; 5; 108; 111; 99; 97; 108; 0].

Lemma sample_name_at : name_at sample_name 15 0 [cstr "foo."; cstr "local."] 5 3.
Proof.
  eapply name_label with (n := 3); [lia|done..|]. eapply name_pointer with (n := 0xC0) (m := 8); [lia|done..|].
  eapply name_label with (n := 5); [vm_compute; done|done..|]. by apply name_root.
Qed.

Lemma decode_mdns_query_name_correct_witness :
  @decode_mdns_query_name (list_dl_list _) sample_name 15 15 0 (Env [] []) =
    Done ((0, 5, Some (cstr "foo.local.")), Env [] []).
Proof.
  apply (proj2 (@decode_mdns_query_name_correct (list_dl_list _) sample_name 15 0 []
    ltac:(repeat constructor; by vm_compute) ltac:(lia)) _ _ _ 15%nat sample_name_at ltac:(by vm_compute)).
Defined.

(** A pointer to itself, and a label in front of a pointer to the label. *)
Lemma decode_mdns_query_name_diverges_witness :
  (forall fuel, returns (@decode_mdns_query_name (list_dl_list _) [0xC0; 0] 2 fuel 0 (Env [] [])) = false) /\
  (forall fuel, returns (@decode_mdns_query_name (list_dl_list _) [1; 97; 0xC0; 0] 4 fuel 0 (Env [] [])) = false).
Proof.
  split; intros fuel.
  - apply (@decode_mdns_query_name_diverges (list_dl_list _) [0xC0; 0] 2 0 []).
    apply tc_once. apply (hop_pointer [0xC0; 0] 2 0 0xC0 0); [lia|done..].
  - apply (@decode_mdns_query_name_diverges (list_dl_list _) [1; 97; 0xC0; 0] 4 0 []).
    eapply tc_l; [apply (hop_label _ 4 0 1); [lia|done..]|]. apply tc_once.
    apply (hop_pointer [1; 97; 0xC0; 0] 4 2 0xC0 0); [lia|done..].
Defined.
