(* ===== verification/BridgeList.v ===== *)
(** The list of bridged devices of [src/supervisor/bridge_list.c].

    A bridge between two devices is a pair of directed edges, kept as nodes of
    an intrusive list ([Extern]).  The theorem says that the list implements a
    finite symmetric and irreflexive relation on MAC addresses: adding,
    removing, testing and listing act on it as on a set of edges, no node is
    freed twice, and the code's two-edge bookkeeping never gets out of step. *)
From stdpp Require Import strings numbers base list gmap.
From Stdlib Require Import ZArith Lia.
From S2P Require Import Prelude Extern.

Record bridge_mac_tuple := {
  src_addr : list Z;
  dst_addr : list Z
}.

#[export] Instance bridge_mac_tuple_eq_dec : EqDecision bridge_mac_tuple.
Proof. solve_decision. Defined.

Section bridge_list.
Context {L : DlList bridge_mac_tuple}.
#[local] Abbreviation bridge_mac_list := (@dl_list _ L).
#[local] Abbreviation mac := (list Z).

(** The two edges found: the addresses of their nodes. *)
Record bridge_mac_list_tuple := {
  left_edge : option nat;
  right_edge : option nat
}.

Definition init_bridge_list : prog env (option bridge_mac_list) :=
  ok ← malloc;
  if negb ok then mret None else mret (Some dl_list_init).

(** Unlinks and frees a node; freeing a node that is not there any more is a
    second free of its memory. *)
Definition bridge_mac_list_free (e : option nat) (ml : bridge_mac_list) :
    outcome bridge_mac_list :=
  match e with
  | None => Done ml
  | Some p =>
      if bool_decide (p ∈ (dl_nodes ml).*1) then Done (dl_list_del p ml)
      else Fault UseAfterFree
  end.

(** Frees the first node as long as there is one; [fuel] is the number of
    nodes. *)
Fixpoint free_nodes (fuel : nat) (ml : bridge_mac_list) : outcome bridge_mac_list :=
  match dl_nodes ml, fuel with
  | [], _ => Done ml
  | _, O => Fault UseAfterFree
  | e :: _, S fuel =>
      match bridge_mac_list_free (Some e.1) ml with
      | Done ml' => free_nodes fuel ml'
      | Fault f => Fault f
      end
  end.
Definition free_bridge_list (ml : option bridge_mac_list) : outcome (option bridge_mac_list) :=
  match ml with
  | None => Done None
  | Some l =>
      match free_nodes (length (dl_nodes l)) l with
      | Done _ => Done None
      | Fault f => Fault f
      end
  end.

Definition compare_edge (e : bridge_mac_tuple) (mac_addr_left mac_addr_right : mac) : bool :=
  bool_decide (src_addr e = mac_addr_left) && bool_decide (dst_addr e = mac_addr_right).

Definition get_bridge_mac (ml : option bridge_mac_list) (mac_addr_left mac_addr_right : option mac) :
    bridge_mac_list_tuple :=
  match ml, mac_addr_left, mac_addr_right with
  | Some l, Some lmac, Some rmac =>
      foldl (fun ret e =>
               let ret' := if compare_edge e.2 lmac rmac
                           then {| left_edge := Some e.1; right_edge := right_edge ret |}
                           else ret in
               if compare_edge e.2 rmac lmac
               then {| left_edge := left_edge ret'; right_edge := Some e.1 |}
               else ret')
            {| left_edge := None; right_edge := None |} (dl_nodes l)
  | _, _, _ => {| left_edge := None; right_edge := None |}
  end.

(** Both edges are there. *)
Definition both (t : bridge_mac_list_tuple) : bool :=
  match left_edge t, right_edge t with Some _, Some _ => true | _, _ => false end.

Definition check_bridge_exist (ml : option bridge_mac_list)
    (mac_addr_left mac_addr_right : option mac) : Z :=
  if both (get_bridge_mac ml mac_addr_left mac_addr_right) then 1 else 0.

(** When the second allocation fails the first node is lost, not linked. *)
Definition add_bridge_mac (ml : option bridge_mac_list)
    (mac_addr_left mac_addr_right : option mac) : prog env (Z * option bridge_mac_list) :=
  match ml, mac_addr_left, mac_addr_right with
  | Some l, Some lmac, Some rmac =>
      if bool_decide (lmac = rmac) then mret (-1, ml)
      else if both (get_bridge_mac ml mac_addr_left mac_addr_right) then mret (0, ml)
      else
        ok ← malloc;
        if negb ok then mret (-1, ml)
        else
          ok ← malloc;
          if negb ok then mret (-1, ml)
          else
            let src_el := fresh_addr (dl_nodes l) in
            let dst_el := S src_el in
            let l1 := dl_list_add src_el {| src_addr := lmac; dst_addr := rmac |} l in
            let l2 := dl_list_add dst_el {| src_addr := rmac; dst_addr := lmac |} l1 in
            mret (1, Some l2)
  | _, _, _ => mret (-1, ml)
  end.

Definition remove_bridge_mac (ml : option bridge_mac_list)
    (mac_addr_left mac_addr_right : option mac) : outcome (Z * option bridge_mac_list) :=
  match ml, mac_addr_left, mac_addr_right with
  | Some l, Some lmac, Some rmac =>
      let e := get_bridge_mac ml mac_addr_left mac_addr_right in
      match bridge_mac_list_free (left_edge e) l with
      | Fault f => Fault f
      | Done l1 =>
          match bridge_mac_list_free (right_edge e) l1 with
          | Fault f => Fault f
          | Done l2 => Done (0, Some l2)
          end
      end
  | _, _, _ => Done (-1, ml)
  end.

(** The number of destinations and the array of them. *)
Definition get_src_mac_list (ml : option bridge_mac_list) (src : mac) : Z * list mac :=
  match ml with
  | None => (-1, [])
  | Some l =>
      let arr := dst_addr <$> filter (fun e => src = src_addr e) (dl_nodes l).*2 in
      (zlen arr, arr)
  end.

Definition get_all_bridge_edges (ml : option bridge_mac_list) : Z * list bridge_mac_tuple :=
  match ml with
  | None => (-1, [])
  | Some l => (zlen (dl_nodes l), (dl_nodes l).*2)
  end.

(** ** The relation a list stands for *)

Definition pair_of (t : bridge_mac_tuple) : mac * mac := (src_addr t, dst_addr t).
Definition edges (ml : bridge_mac_list) : gset (mac * mac) :=
  list_to_set (pair_of <$> (dl_nodes ml).*2).

(** Nodes do not share memory, every edge is there once, with its reverse, and
    no device is bridged to itself. *)
Record bridge_wf (ml : bridge_mac_list) : Prop := {
  bw_addrs : NoDup (dl_nodes ml).*1;
  bw_once : NoDup (pair_of <$> (dl_nodes ml).*2);
  bw_sym l r : (l, r) ∈ edges ml -> (r, l) ∈ edges ml;
  bw_irrefl l r : (l, r) ∈ edges ml -> l <> r
}.

Lemma pair_of_inj : Inj (=) (=) pair_of.
Proof. by intros [] [] [=-> ->]. Qed.

Lemma compare_edge_spec e l r : compare_edge e l r = bool_decide (pair_of e = (l, r)).
Proof. unfold compare_edge, pair_of. repeat case_bool_decide; naive_solver. Qed.

(** The last node with a given edge, as the loop leaves it. *)
Definition last_edge (l r : mac) (nodes : list (nat * bridge_mac_tuple)) : option nat :=
  fst <$> last (filter (fun e => pair_of e.2 = (l, r)) nodes).

Lemma get_bridge_mac_loop l r nodes a b :
  foldl (fun ret e =>
           let ret' := if compare_edge e.2 l r
                       then {| left_edge := Some e.1; right_edge := right_edge ret |} else ret in
           if compare_edge e.2 r l
           then {| left_edge := left_edge ret'; right_edge := Some e.1 |} else ret')
        {| left_edge := a; right_edge := b |} nodes =
  {| left_edge := match last_edge l r nodes with Some p => Some p | None => a end;
     right_edge := match last_edge r l nodes with Some p => Some p | None => b end |}.
Proof.
  unfold last_edge.
  induction nodes as [|[p e] nodes IH] using rev_ind; [done|].
  rewrite foldl_app, !filter_app, !filter_cons, !filter_nil. simpl foldl. rewrite IH.
  cbn [snd fst].
  destruct (decide (pair_of e = (l, r))) as [H1|H1];
  destruct (decide (pair_of e = (r, l))) as [H2|H2];
  rewrite !compare_edge_spec, ?(bool_decide_true _ H1), ?(bool_decide_false _ H1),
    ?(bool_decide_true _ H2), ?(bool_decide_false _ H2), ?last_snoc, ?app_nil_r; done.
Qed.

Lemma get_bridge_mac_spec ml l r :
  get_bridge_mac (Some ml) (Some l) (Some r) =
  {| left_edge := last_edge l r (dl_nodes ml); right_edge := last_edge r l (dl_nodes ml) |}.
Proof.
  unfold get_bridge_mac. rewrite get_bridge_mac_loop. by do 2 destruct (last_edge _ _ _).
Qed.

Lemma elem_of_edges ml l r :
  (l, r) ∈ edges ml <-> exists p e, (p, e) ∈ dl_nodes ml /\ pair_of e = (l, r).
Proof.
  unfold edges. rewrite elem_of_list_to_set, list_elem_of_fmap. setoid_rewrite list_elem_of_fmap.
  split.
  - intros (e & He & [p e'] & -> & Hin). by exists p, e'.
  - intros (p & e & Hin & He). exists e. split; [done|]. by exists (p, e).
Qed.

Lemma last_edge_some ml l r p :
  last_edge l r (dl_nodes ml) = Some p -> exists e, (p, e) ∈ dl_nodes ml /\ pair_of e = (l, r).
Proof.
  unfold last_edge. intros ([q e] & Hl & ->)%fmap_Some.
  apply last_Some_elem_of, list_elem_of_filter in Hl as [He Hin]. by exists e.
Qed.

Lemma last_edge_none ml l r :
  last_edge l r (dl_nodes ml) = None <-> (l, r) ∉ edges ml.
Proof.
  unfold last_edge. rewrite fmap_None, last_None, elem_of_edges. split.
  - intros Hf (p & e & Hin & He).
    assert ((p, e) ∈ filter (fun e => pair_of e.2 = (l, r)) (dl_nodes ml)) as Hx
      by (by apply list_elem_of_filter).
    rewrite Hf in Hx. by apply elem_of_nil in Hx.
  - intros Hn. apply filter_none. intros [p e] Hin He. apply Hn.
    by exists p, e.
Qed.

(** A node that the search found for an edge, or the absence of the edge. *)
Definition names (o : option nat) (l r : mac) (ml : bridge_mac_list) : Prop :=
  match o with
  | Some p => exists e, (p, e) ∈ dl_nodes ml /\ pair_of e = (l, r)
  | None => (l, r) ∉ edges ml
  end.

Lemma last_edge_names ml l r : names (last_edge l r (dl_nodes ml)) l r ml.
Proof.
  destruct (last_edge l r (dl_nodes ml)) eqn:He; [by apply last_edge_some|by apply last_edge_none].
Qed.

Lemma names_edge o l r ml : names o l r ml -> (is_Some o <-> (l, r) ∈ edges ml).
Proof.
  destruct o as [p|]; cbn.
  - intros (e & ? & ?). split; [|done]. intros _. apply elem_of_edges. by exists p, e.
  - intros Hn. split; [by intros [? ?]|done].
Qed.

Lemma both_spec ml l r : bridge_wf ml ->
  both (get_bridge_mac (Some ml) (Some l) (Some r)) = bool_decide ((l, r) ∈ edges ml).
Proof.
  intros Hwf. rewrite get_bridge_mac_spec. unfold both. cbn [left_edge right_edge].
  pose proof (names_edge _ _ _ _ (last_edge_names ml l r)) as H1.
  pose proof (names_edge _ _ _ _ (last_edge_names ml r l)) as H2.
  destruct (last_edge l r (dl_nodes ml)) as [p|]; cycle 1.
  { rewrite bool_decide_false; [done|]. intros Hin%H1. by destruct Hin. }
  rewrite bool_decide_true by (by apply H1).
  destruct (last_edge r l (dl_nodes ml)) as [q|]; [done|].
  assert (is_Some (@None nat)) as [? ?]; [|done]. by apply H2, bw_sym, H1.
Qed.

Lemma NoDup_fst_eq {A B} (x : list (A * B)) a b c :
  NoDup x.*1 -> (a, b) ∈ x -> (a, c) ∈ x -> b = c.
Proof.
  intros Hnd [i Hi]%list_elem_of_lookup [j Hj]%list_elem_of_lookup.
  assert (i = j) as ->; [|congruence].
  eapply (NoDup_lookup x.*1); rewrite ?list_lookup_fmap, ?Hi, ?Hj; done.
Qed.

Lemma NoDup_snd_eq (x : list (nat * bridge_mac_tuple)) p q e f :
  NoDup (pair_of <$> x.*2) -> (p, e) ∈ x -> (q, f) ∈ x -> pair_of e = pair_of f -> p = q.
Proof.
  intros Hnd [i Hi]%list_elem_of_lookup [j Hj]%list_elem_of_lookup He.
  assert (i = j) as ->; [|congruence].
  eapply (NoDup_lookup (pair_of <$> x.*2)); rewrite ?list_lookup_fmap, ?Hi, ?Hj; [done|done|].
  cbn. by rewrite He.
Qed.

(** Freeing the node of an edge takes the edge out and nothing else. *)
Lemma free_edge o l r ml :
  NoDup (dl_nodes ml).*1 -> NoDup (pair_of <$> (dl_nodes ml).*2) -> names o l r ml ->
  exists ml', bridge_mac_list_free o ml = Done ml' /\
    dl_nodes ml' = filter (fun n => pair_of n.2 <> (l, r)) (dl_nodes ml).
Proof.
  intros Ha Ho Hn. unfold bridge_mac_list_free. destruct o as [p|]; cbn in Hn.
  - destruct Hn as (e & Hin & He).
    rewrite bool_decide_true by (apply list_elem_of_fmap; by exists (p, e)).
    eexists. split; [done|]. rewrite dl_del_nodes. apply filter_ext_in.
    intros [q f] Hf. cbn. split; intros Hne Heq; apply Hne.
    + exact (NoDup_snd_eq _ q p f e Ho Hf Hin (eq_trans Heq (eq_sym He))).
    + subst q. by rewrite (NoDup_fst_eq _ _ _ _ Ha Hf Hin).
  - exists ml. split; [done|]. symmetry. apply filter_all. intros [q f] Hf Heq. apply Hn.
    apply elem_of_edges. by exists q, f.
Qed.

Lemma edges_filter ml ml' l r :
  dl_nodes ml' = filter (fun n => pair_of n.2 <> (l, r)) (dl_nodes ml) ->
  edges ml' = edges ml ∖ {[(l, r)]}.
Proof.
  intros Hn. apply set_eq. intros [a b].
  rewrite elem_of_difference, elem_of_singleton, !elem_of_edges, Hn. split.
  - intros (p & e & [Hne Hin]%list_elem_of_filter & He). cbn in Hne.
    split; [by exists p, e|congruence].
  - intros [(p & e & Hin & He) Hne]. exists p, e. split; [|done].
    apply list_elem_of_filter. cbn. split; [congruence|done].
Qed.

Lemma nodup_filter_edges ml ml' l r :
  dl_nodes ml' = filter (fun n => pair_of n.2 <> (l, r)) (dl_nodes ml) ->
  NoDup (dl_nodes ml).*1 -> NoDup (pair_of <$> (dl_nodes ml).*2) ->
  NoDup (dl_nodes ml').*1 /\ NoDup (pair_of <$> (dl_nodes ml').*2).
Proof.
  intros -> Ha Ho. split; [by apply NoDup_fmap_filter|].
  rewrite <- list_fmap_compose in Ho |- *. by apply NoDup_fmap_filter.
Qed.

Lemma remove_bridge_spec ml l r : bridge_wf ml ->
  exists ml', remove_bridge_mac (Some ml) (Some l) (Some r) = Done (0, Some ml') /\
    bridge_wf ml' /\ edges ml' = edges ml ∖ {[(l, r); (r, l)]}.
Proof.
  intros [Ha Ho Hs Hi]. unfold remove_bridge_mac. rewrite get_bridge_mac_spec. cbn [left_edge right_edge].
  destruct (free_edge _ l r ml Ha Ho (last_edge_names ml l r)) as (m1 & -> & N1).
  destruct (nodup_filter_edges _ _ _ _ N1 Ha Ho) as [Ha1 Ho1].
  assert (names (last_edge r l (dl_nodes ml)) r l m1) as Hn.
  { pose proof (last_edge_names ml r l) as Hn. unfold names in *.
    destruct (last_edge r l (dl_nodes ml)) as [q|].
    - destruct Hn as (f & Hin & Hf). exists f. split; [|done]. rewrite N1.
      apply list_elem_of_filter. split; [|done]. cbn. rewrite Hf. intros [= -> _].
      apply (Hi l l); [|done]. apply elem_of_edges. by exists q, f.
    - rewrite (edges_filter _ _ _ _ N1). set_solver. }
  destruct (free_edge _ r l m1 Ha1 Ho1 Hn) as (m2 & -> & N2). exists m2. split; [done|].
  assert (edges m2 = edges ml ∖ {[(l, r); (r, l)]}) as Hed.
  { rewrite (edges_filter _ _ _ _ N2), (edges_filter _ _ _ _ N1). set_solver. }
  split; [|done]. destruct (nodup_filter_edges _ _ _ _ N2 Ha1 Ho1) as [Ha2 Ho2].
  split; [done|done|..]; intros a b; rewrite Hed; [|set_solver].
  intros Hab. apply elem_of_difference in Hab as [Hab Hne]. apply elem_of_difference.
  split; [by apply Hs|]. set_solver.
Qed.

Lemma add_bridge_nodes ml l r p q :
  p ∉ (dl_nodes ml).*1 -> q ∉ (dl_nodes ml).*1 -> p <> q -> l <> r -> bridge_wf ml ->
  (l, r) ∉ edges ml ->
  let ml' := dl_list_add q {| src_addr := r; dst_addr := l |}
               (dl_list_add p {| src_addr := l; dst_addr := r |} ml) in
  bridge_wf ml' /\ edges ml' = edges ml ∪ {[(l, r); (r, l)]}.
Proof.
  intros Hp Hq Hpq Hlr [Ha Ho Hs Hi] Hnew ml'.
  assert (dl_nodes ml' = (q, {| src_addr := r; dst_addr := l |})
            :: (p, {| src_addr := l; dst_addr := r |}) :: dl_nodes ml) as Hn
    by (unfold ml'; by rewrite !dl_add_nodes).
  assert (edges ml' = edges ml ∪ {[(l, r); (r, l)]}) as Hed.
  { unfold edges. rewrite Hn, !fmap_cons. cbn [list_to_set foldr fst snd fmap].
    unfold pair_of at 1 2. cbn. set_solver. }
  assert ((r, l) ∉ edges ml) as Hnew' by (intros H%Hs; done).
  split; [|done]. split.
  - rewrite Hn, !fmap_cons. cbn. apply NoDup_cons. split; [set_solver|].
    apply NoDup_cons. done.
  - rewrite Hn, !fmap_cons. cbn. unfold edges in Hnew, Hnew'.
    rewrite elem_of_list_to_set in Hnew, Hnew'. apply NoDup_cons. split.
    + unfold pair_of at 1 2. cbn. intros [[=]|?]%elem_of_cons; [congruence|done].
    + apply NoDup_cons. done.
  - intros a b. rewrite Hed. set_unfold. naive_solver.
  - intros a b. rewrite Hed. set_unfold. naive_solver.
Qed.

Lemma add_bridge_spec ml l r e : bridge_wf ml ->
  exists z ml' e', add_bridge_mac (Some ml) (Some l) (Some r) e = Done ((z, Some ml'), e') /\
    env_ok e e' (l <> r -> z <> -1) /\ bridge_wf ml' /\
    ((z = 1 /\ l <> r /\ ((l, r) ∉ edges ml) /\ edges ml' = edges ml ∪ {[(l, r); (r, l)]}) \/
     (z = 0 /\ l <> r /\ ((l, r) ∈ edges ml) /\ ml' = ml) \/
     (z = -1 /\ ml' = ml)).
Proof.
  intros Hwf. unfold add_bridge_mac. case_bool_decide as Hlr.
  { exists (-1), ml, e. split; [done|]. split; [by apply env_ok_refl|]. by split; [|right; right]. }
  rewrite both_spec by done. case_bool_decide as Hin.
  { exists 0, ml, e. split; [done|]. split; [by apply env_ok_refl|]. by split; [|right; left]. }
  destruct (malloc_ok e) as ([] & e1 & M1 & K1);
    erewrite bind_run by exact M1; cbn beta iota delta [negb]; cycle 1.
  { exists (-1), ml, e1. split; [done|]. split; [by eapply env_ok_mono|]. by split; [|right; right]. }
  destruct (malloc_ok e1) as ([] & e2 & M2 & K2);
    erewrite bind_run by exact M2; cbn beta iota delta [negb]; cycle 1.
  { exists (-1), ml, e2. split; [done|]. split; [|by split; [|right; right]].
    eapply env_ok_mono; [by eapply env_ok_trans|done]. }
  eexists 1, _, e2. split; [done|]. split.
  { eapply env_ok_mono; [by eapply env_ok_trans|done]. }
  edestruct (add_bridge_nodes ml l r (fresh_addr (dl_nodes ml)) (S (fresh_addr (dl_nodes ml))))
    as [Hw He]; [apply fresh_addr_notin|intros H%fresh_addr_new; lia|lia|done|done|done|].
  split; [exact Hw|left]. auto.
Qed.

Lemma free_nodes_all n ml : NoDup (dl_nodes ml).*1 -> (length (dl_nodes ml) <= n)%nat ->
  exists ml', free_nodes n ml = Done ml' /\ dl_nodes ml' = [].
Proof.
  revert ml. induction n as [|n IH]; intros ml Hnd Hn; cbn [free_nodes];
    destruct (dl_nodes ml) as [|[p e] l] eqn:Hl; cbn in Hn; [by exists ml|lia|by exists ml|].
  unfold bridge_mac_list_free. rewrite bool_decide_true by (rewrite Hl; left).
  cbn in Hnd. apply NoDup_cons in Hnd as [Hp Hnd].
  assert (dl_nodes (dl_list_del p ml) = l) as Hd.
  { rewrite dl_del_nodes, Hl, filter_cons_False by (cbn; auto). apply filter_all.
    intros [q f] Hq. cbn. intros ->. apply Hp. apply list_elem_of_fmap. by exists (p, f). }
  apply IH; cbn [fst]; rewrite Hd; [done|lia].
Qed.

(**  The list of bridges implements a finite, symmetric and irreflexive
    relation on devices.  On a well-formed list, whatever the allocator answers:
    adding a bridge inserts both directions and answers 1, answers 0 for a
    bridge that is there, and leaves the list alone when it answers -1, which
    happens only for equal addresses or when memory is short; removing takes
    both directions out; the test is membership; the listings give every
    neighbour and every edge once; and freeing the list releases each node
    exactly once. *)
Theorem bridge_list_refines_graph ml l r e : bridge_wf ml ->
  (exists z ml' e', add_bridge_mac (Some ml) (Some l) (Some r) e = Done ((z, Some ml'), e') /\
     env_ok e e' (l <> r -> z <> -1) /\ bridge_wf ml' /\
     ((z = 1 /\ l <> r /\ ((l, r) ∉ edges ml) /\ edges ml' = edges ml ∪ {[(l, r); (r, l)]}) \/
      (z = 0 /\ l <> r /\ ((l, r) ∈ edges ml) /\ ml' = ml) \/
      (z = -1 /\ ml' = ml))) /\
  (exists ml', remove_bridge_mac (Some ml) (Some l) (Some r) = Done (0, Some ml') /\
     bridge_wf ml' /\ edges ml' = edges ml ∖ {[(l, r); (r, l)]}) /\
  check_bridge_exist (Some ml) (Some l) (Some r) = (if bool_decide ((l, r) ∈ edges ml) then 1 else 0) /\
  (exists arr, get_src_mac_list (Some ml) l = (zlen arr, arr) /\ NoDup arr /\
     forall x, x ∈ arr <-> (l, x) ∈ edges ml) /\
  (exists arr, get_all_bridge_edges (Some ml) = (Z.of_nat (size (edges ml)), arr) /\
     NoDup arr /\ forall x, x ∈ arr <-> pair_of x ∈ edges ml) /\
  free_bridge_list (Some ml) = Done None.
Proof.
  intros Hwf. pose proof pair_of_inj. split; [by apply add_bridge_spec|].
  split; [by apply remove_bridge_spec|]. split; [unfold check_bridge_exist; by rewrite both_spec|].
  destruct Hwf as [Ha Ho _ _]. split_and!.
  - eexists. split; [done|]. split.
    + apply (NoDup_fmap_1 (pair l)). rewrite <- list_fmap_compose.
      eapply (NoDup_fmap_filter pair_of (fun e => l = src_addr e)) in Ho.
      erewrite list_fmap_ext; [exact Ho|]. intros i x Hx.
      apply list_elem_of_lookup_2, list_elem_of_filter in Hx as [-> _]. done.
    + intros x. unfold edges. rewrite elem_of_list_to_set, !list_elem_of_fmap.
      setoid_rewrite list_elem_of_filter. split.
      * intros (t & -> & -> & Ht). by exists t.
      * intros (t & [= -> ->] & Ht). by exists t.
  - exists (dl_nodes ml).*2. unfold get_all_bridge_edges. split.
    + f_equal. unfold edges. rewrite size_list_to_set by done. unfold zlen. by rewrite !length_fmap.
    + split; [by eapply NoDup_fmap_1|]. intros x. unfold edges.
      rewrite elem_of_list_to_set, (list_elem_of_fmap_inj pair_of). done.
  - cbn. by destruct (free_nodes_all (length (dl_nodes ml)) ml Ha (le_n _)) as (? & -> & _).
Qed.

Lemma init_bridge_wf : bridge_wf dl_list_init /\ edges dl_list_init = ∅.
Proof.
  assert (edges dl_list_init = ∅) as He by (unfold edges; by rewrite dl_init_nodes).
  split; [|done]. split; rewrite ?dl_init_nodes, ?He; try constructor; set_solver.
Qed.
End bridge_list.

Definition mac_a : list Z := [2; 0; 0; 0; 0; 1].
Definition mac_b : list Z := [2; 0; 0; 0; 0; 2].
Definition sample_bridges : @dl_list _ (list_dl_list bridge_mac_tuple) :=
  [(2%nat, {| src_addr := mac_b; dst_addr := mac_a |});
   (1%nat, {| src_addr := mac_a; dst_addr := mac_b |})].

Lemma sample_bridges_wf : bridge_wf sample_bridges.
Proof.
  apply (add_bridge_nodes (L := list_dl_list _) dl_list_init mac_a mac_b 1 2);
    rewrite ?dl_init_nodes; try done; try apply init_bridge_wf; cbn; by intros ?%elem_of_nil.
Qed.

Lemma bridge_list_refines_graph_witness :
  exists ml', remove_bridge_mac (Some sample_bridges) (Some mac_a) (Some mac_b) = Done (0, Some ml') /\
    bridge_wf ml' /\ edges ml' = edges sample_bridges ∖ {[(mac_a, mac_b); (mac_b, mac_a)]}.
Proof.
  apply (bridge_list_refines_graph sample_bridges mac_a mac_b (Env [] []) sample_bridges_wf).
Defined.
