(* ===== verification/Firewall.v ===== *)
(** What the supervisor relies on from the firewall service
    ([src/firewall/firewall_service.h]).

    The class has the four operations the supervisor calls, an invariant of the
    firewall's state, and the two sets of rules an implementation maintains:
    the addresses that are masqueraded and the pairs of addresses that may talk
    to each other.  The laws say that the calls return and what a successful
    call does to the sets; a failed call may leave anything that satisfies the
    invariant.  [FirewallService]
    has the implementation. *)
From stdpp Require Import strings numbers base list gmap.
From Stdlib Require Import ZArith Lia.
From S2P Require Import Prelude.

Class Firewall := {
  fw : Type;
  fw_add_nat : list Z -> prog fw Z;
  fw_remove_nat : list Z -> prog fw Z;
  fw_add_bridge : list Z -> list Z -> prog fw Z;
  fw_remove_bridge : list Z -> list Z -> prog fw Z
}.

(** [fw_addr] are the texts of addresses an implementation keeps as they are. *)
Class FirewallSpec (F : Firewall) := {
  fw_inv : fw -> Prop;
  fw_addr : list Z -> Prop;
  fw_nat : fw -> gset (list Z);
  fw_bridges : fw -> gset (list Z * list Z);
  fw_returns a b f : fw_inv f -> fw_addr a -> fw_addr b ->
    (exists x, fw_add_nat a f = Done x) /\ (exists x, fw_remove_nat a f = Done x) /\
    (exists x, fw_add_bridge a b f = Done x) /\ (exists x, fw_remove_bridge a b f = Done x);
  fw_add_nat_spec ip f r f' :
    fw_inv f -> fw_addr ip -> fw_add_nat ip f = Done (r, f') ->
    fw_inv f' /\
    (0 <= r -> fw_nat f' = fw_nat f ∪ {[ip]} /\ fw_bridges f' = fw_bridges f);
  fw_remove_nat_spec ip f r f' :
    fw_inv f -> fw_addr ip -> fw_remove_nat ip f = Done (r, f') ->
    fw_inv f' /\
    (0 <= r -> fw_nat f' = fw_nat f ∖ {[ip]} /\ fw_bridges f' = fw_bridges f);
  fw_add_bridge_spec a b f r f' :
    fw_inv f -> fw_addr a -> fw_addr b -> a <> b -> fw_add_bridge a b f = Done (r, f') ->
    fw_inv f' /\
    (0 <= r -> fw_bridges f' = fw_bridges f ∪ {[(a, b); (b, a)]} /\ fw_nat f' = fw_nat f);
  fw_remove_bridge_spec a b f r f' :
    fw_inv f -> fw_addr a -> fw_addr b -> a <> b -> fw_remove_bridge a b f = Done (r, f') ->
    fw_inv f' /\
    (0 <= r -> fw_bridges f' = fw_bridges f ∖ {[(a, b); (b, a)]} /\ fw_nat f' = fw_nat f)
}.

(** ** An instance *)

(** The two sets themselves: every call succeeds. *)
#[export] Instance set_firewall : Firewall := {|
  fw := gset (list Z) * gset (list Z * list Z);
  fw_add_nat ip := fun f => Done (0, (f.1 ∪ {[ip]}, f.2));
  fw_remove_nat ip := fun f => Done (0, (f.1 ∖ {[ip]}, f.2));
  fw_add_bridge a b := fun f => Done (0, (f.1, f.2 ∪ {[(a, b); (b, a)]}));
  fw_remove_bridge a b := fun f => Done (0, (f.1, f.2 ∖ {[(a, b); (b, a)]}))
|}.

#[export, refine] Instance set_firewall_spec : FirewallSpec set_firewall := {|
  fw_inv _ := True;
  fw_addr _ := True;
  fw_nat f := f.1;
  fw_bridges f := f.2
|}.
Proof. 1: intros; by repeat split; eexists. all: intros; simplify_eq/=; done. Defined.
