(* ===== verification/Iptables.v ===== *)
(** The packet filter: [src/utils/iptables.c], the commands it runs
    ([run_argv_command] of [src/utils/os.c]) and the firewall service on top
    ([src/firewall/firewall_service.c], the build without UCI).

    The [iptables] program and the system calls that start it are the class
    [System].  The code learns the rules of a chain by parsing the text that
    [iptables -L] prints, and edits the chain by rule number. *)
From stdpp Require Import strings numbers base list gmap.
From Stdlib Require Import ZArith Lia.
From S2P Require Import Prelude Os Text Net Extern Mappers Firewall.

Definition PIPE_BUF : Z := 4096.
Definition LONG_MAX : Z := 2 ^ 63 - 1.
Definition LONG_MIN : Z := - 2 ^ 63.

(** [strtol] in base 10: the value, whether it was out of range, and whether
    there was a number at all. *)
Definition strtol10 (s : list Z) : Z * bool * bool :=
  let number (neg : bool) (l : list Z) :=
    let v := if neg then - atoi_digits l 0 else atoi_digits l 0 in
    let some := match l with c :: _ => isdigit c | [] => false end in
    if LONG_MAX <? v then (LONG_MAX, true, some)
    else if v <? LONG_MIN then (LONG_MIN, true, some)
    else (v, false, some) in
  match skip_space s with
  | c :: rest =>
      if c =? 45 then number true rest
      else if c =? 43 then number false rest
      else number false (c :: rest)
  | [] => (0, false, false)
  end.

(** ** Starting a program *)

(** [spawn argv piped] is a run of [run_command] from [pipe] to the last
    [close]: the exit status and the pieces [read] returns from the pipe, or
    nothing when a system call fails.  The program is carried out, or not. *)
Class System := {
  sys : Type;
  check_file_exists : list Z -> sys -> bool;
  spawn : list (list Z) -> bool -> sys -> option (Z * list (list Z)) * sys
}.

Record iptables_columns := {
  num : Z;
  target : list Z;
  col_in : list Z;
  col_out : list Z;
  source : list Z;
  destination : list Z
}.

Definition row_zero : iptables_columns :=
  {| num := 0; target := []; col_in := []; col_out := []; source := []; destination := [] |}.

Record iptables_context := {
  iptables_path : list Z;
  rule_list : list iptables_columns;
  exec_iptables : bool
}.

(** The chains the code edits. *)
Inductive chain := FORWARD | POSTROUTING.
#[export] Instance chain_eq_dec : EqDecision chain.
Proof. solve_decision. Defined.

Section iptables.
Context {SY : System}.

(** The context with the system it runs on. *)
Record ipw := { ip_ctx : iptables_context; ip_sys : sys; ip_env : env }.

#[local] Abbreviation Ipt := (prog ipw).

Definition ip_ask {A} (f : iptables_context -> A) : Ipt A := fun w => Done (f (ip_ctx w), w).
Definition ip_mem {A} (m : prog env A) : Ipt A := fun w =>
  match m (ip_env w) with
  | Done (a, e) => Done (a, {| ip_ctx := ip_ctx w; ip_sys := ip_sys w; ip_env := e |})
  | Fault f => Fault f
  end.
Definition set_rule_list (l : list iptables_columns) : Ipt unit := fun w =>
  Done (tt, {| ip_ctx := {| iptables_path := iptables_path (ip_ctx w); rule_list := l;
                            exec_iptables := exec_iptables (ip_ctx w) |};
               ip_sys := ip_sys w; ip_env := ip_env w |}).

Definition process_callback_fn : Type := list Z -> Ipt unit.

(** The callback gets every piece that is read; without a buffer the first
    [read] fails. *)
Fixpoint for_pieces (fn : process_callback_fn) (pieces : list (list Z)) : Ipt unit :=
  match pieces with
  | [] => mret tt
  | p :: rest => _ ← fn p; for_pieces fn rest
  end.
Definition read_command_output (pieces : list (list Z)) (fn : option process_callback_fn) : Ipt unit :=
  ok ← ip_mem malloc;
  if negb ok then mret tt
  else match fn with None => mret tt | Some f => for_pieces f pieces end.

Definition run_command (argv : list (list Z)) (fn : option process_callback_fn) : Ipt Z :=
  match argv with
  | [] => mret 1
  | command :: _ => fun w =>
      if negb (check_file_exists command (ip_sys w)) then Done (-1, w)
      else
        let (o, s) := spawn argv (match fn with Some _ => true | None => false end) (ip_sys w) in
        let w' := {| ip_ctx := ip_ctx w; ip_sys := s; ip_env := ip_env w |} in
        match o with
        | None => Done (1, w')
        | Some (status, pieces) => (_ ← read_command_output pieces fn; mret status) w'
        end
  end.

Definition run_argv_command (path : list Z) (argv : list (list Z))
    (fn : option process_callback_fn) : Ipt Z :=
  ok ← ip_mem malloc;
  if negb ok then mret (-1)
  else
    let full_arg := path :: argv in
    copy ← ip_mem (copy_argv (Some full_arg));
    match copy with
    | None => mret (-1)
    | Some _ =>
        _ ← lift_outcome (log_run_command full_arg);
        status ← run_command full_arg fn;
        mret (if status =? 0 then 0 else -1)
    end.

(** ** Reading a listing *)

(** One word of a row in the given state. *)
Definition process_word (state : Z) (row : iptables_columns) (p : list Z) : Z * iptables_columns :=
  if state =? 0 then
    let '(n, erange, some) := strtol10 p in
    let row' := {| num := n; target := target row; col_in := col_in row; col_out := col_out row;
                   source := source row; destination := destination row |} in
    if erange then (10, row') else if negb some then (10, row') else (1, row')
  else if state =? 1 then (2, row)
  else if state =? 2 then (3, row)
  else if state =? 3 then
    (4, {| num := num row; target := clip 20 p; col_in := col_in row; col_out := col_out row;
           source := source row; destination := destination row |})
  else if state =? 4 then (5, row)
  else if state =? 5 then (6, row)
  else if state =? 6 then
    (7, {| num := num row; target := target row; col_in := clip IF_NAMESIZE p;
           col_out := col_out row; source := source row; destination := destination row |})
  else if state =? 7 then
    (8, {| num := num row; target := target row; col_in := col_in row;
           col_out := clip IF_NAMESIZE p; source := source row; destination := destination row |})
  else if state =? 8 then
    (9, {| num := num row; target := target row; col_in := col_in row; col_out := col_out row;
           source := clip OS_INET_ADDRSTRLEN p; destination := destination row |})
  else if state =? 9 then
    (10, {| num := num row; target := target row; col_in := col_in row; col_out := col_out row;
            source := source row; destination := clip OS_INET_ADDRSTRLEN p |})
  else (state, row).

Fixpoint process_words (state : Z) (row : iptables_columns) (words : list (list Z)) : iptables_columns :=
  match words with
  | [] => row
  | p :: rest =>
      if zlen p =? 0 then process_words state row rest
      else let (state', row') := process_word state row p in process_words state' row' rest
  end.

Definition process_rule_column (column : list Z) : prog env iptables_columns :=
  x ← split_string_array (Some column) 32 (Some []);
  if x.1 <? 0 then mret row_zero
  else mret (process_words 0 row_zero (default [] x.2)).

(** The lines after two steps of [utarray_next]; past the last line it starts
    again. *)
Definition after_headers (lines : list (list Z)) : list (list Z) :=
  match lines with
  | _ :: _ :: rest => rest
  | _ => lines
  end.

(** The rows are appended to the list as they are read. *)
Fixpoint process_lines (lines : list (list Z)) : Ipt Z :=
  match lines with
  | [] => mret 0
  | p :: rest =>
      if 1 <? zlen p then
        row ← ip_mem (process_rule_column p);
        if num row =? 0 then mret (-1)
        else
          l ← ip_ask rule_list;
          _ ← set_rule_list (l ++ [row]);
          process_lines rest
      else process_lines rest
  end.

Definition process_rule_lines (rule_str : list Z) : Ipt Z :=
  x ← ip_mem (split_string_array (Some rule_str) 10 (Some []));
  if x.1 <? 0 then mret (-1)
  else if 2 <? x.1 then process_lines (after_headers (default [] x.2))
  else mret 0.

Definition list_rule_cb : process_callback_fn := fun buf =>
  ok ← ip_mem malloc;
  if negb ok then fail_with NullDeref
  else
    _ ← set_rule_list [];
    r ← process_rule_lines (until_nul buf);
    if r <? 0 then set_rule_list [] else mret tt.

(** ** Commands *)

Definition run_iptables (argv : list (list Z)) (fn : option process_callback_fn) : Ipt Z :=
  ex ← ip_ask exec_iptables;
  path ← ip_ask iptables_path;
  if (ex : bool) then run_argv_command path argv fn else mret 0.

Definition basic_flush_rules : list (list (list Z)) :=
  fmap (M := list) cstr <$>
  [["-P"; "INPUT"; "ACCEPT"]; ["-P"; "FORWARD"; "ACCEPT"]; ["-P"; "OUTPUT"; "ACCEPT"];
   ["-F"; "-t"; "nat"]; ["-F"; "-t"; "mangle"]; ["-F"]; ["-X"];
   ["-A"; "FORWARD"; "-t"; "filter"; "--src"; "224.0.0.0/4"; "--dst"; "224.0.0.0/4"; "-j";
    "ACCEPT"]]%string.

Fixpoint run_all (cmds : list (list (list Z))) : Ipt Z :=
  match cmds with
  | [] => mret 0
  | c :: rest => r ← run_iptables c None; if r <? 0 then mret (-1) else run_all rest
  end.
Definition flush_iptables : Ipt Z := run_all basic_flush_rules.

Definition reject_rule (ifname : list Z) : list (list Z) :=
  [cstr "-A"; cstr "FORWARD"; cstr "-t"; cstr "filter"; cstr "-i"; ifname; cstr "-j"; cstr "REJECT"].

Definition add_baseif_rules (ifinfo_array : option (list config_ifinfo_t)) : Ipt Z :=
  match ifinfo_array with
  | None => mret 0
  | Some arr => run_all (reject_rule ∘ ci_ifname <$> arr)
  end.
(** Runs code on a context that is created for it. *)
Definition with_context {A} (c : iptables_context) (m : Ipt A) :
    prog (sys * env) (A * iptables_context) := fun se =>
  match m {| ip_ctx := c; ip_sys := se.1; ip_env := se.2 |} with
  | Done (a, w) => Done ((a, ip_ctx w), (ip_sys w, ip_env w))
  | Fault f => Fault f
  end.
Definition on_env {A} (m : prog env A) : prog (sys * env) A := fun se =>
  match m se.2 with Done (a, e) => Done (a, (se.1, e)) | Fault f => Fault f end.

Definition iptables_init (path : option (list Z)) (ifinfo_array : option (list config_ifinfo_t))
    (exec : bool) : prog (sys * env) (option iptables_context) :=
  match path with
  | None => mret None
  | Some path =>
      if zlen path =? 0 then mret None
      else
        ok ← on_env malloc;
        if negb ok then fail_with NullDeref
        else
          let ctx := {| iptables_path := clip MAX_OS_PATH_LEN path; rule_list := [];
                        exec_iptables := exec |} in
          r ← with_context ctx flush_iptables;
          if r.1 <? 0 then mret None
          else
            r ← with_context r.2 (add_baseif_rules ifinfo_array);
            if r.1 <? 0 then mret None else mret (Some r.2)
  end.

Definition chain_name (c : chain) : list Z :=
  match c with FORWARD => cstr "FORWARD" | POSTROUTING => cstr "POSTROUTING" end.
Definition chain_table (c : chain) : list Z :=
  match c with FORWARD => cstr "filter" | POSTROUTING => cstr "nat" end.

Definition list_rule (c : chain) : list (list Z) :=
  [cstr "-L"; chain_name c; cstr "-t"; chain_table c; cstr "--line-numbers"; cstr "-n"; cstr "-v"].

Definition get_rules (c : chain) : Ipt Z :=
  r ← run_iptables (list_rule c) (Some list_rule_cb);
  if r <? 0 then mret (-1)
  else
    l ← ip_ask rule_list;
    mret (if zlen l =? 0 then -1 else 0).
Definition get_filter_rules : Ipt Z := get_rules FORWARD.
Definition get_nat_rules : Ipt Z := get_rules POSTROUTING.

Fixpoint find_rule (rlist : list iptables_columns) (sip sif dip dif tgt : list Z) : Z :=
  match rlist with
  | [] => 0
  | el :: rest =>
      if bool_decide (col_in el = sif) && bool_decide (col_out el = dif) &&
         bool_decide (source el = sip) && bool_decide (destination el = dip) &&
         bool_decide (target el = tgt)
      then num el else find_rule rest sip sif dip dif tgt
  end.

Fixpoint find_baseif_rulenum (rlist : list iptables_columns) (ifname : list Z) : Z :=
  match rlist with
  | [] => 0
  | el :: rest =>
      if bool_decide (col_in el = ifname) && bool_decide (col_out el = cstr "*") &&
         bool_decide (target el = cstr "REJECT")
      then num el else find_baseif_rulenum rest ifname
  end.

(** [sprintf] of a number into the array [num_buf]. *)
Definition num_buf (n : Z) : outcome (list Z) :=
  match wr (zeros 10) 0 (fmt_d n ++ [0]) with
  | Done b => Done (until_nul b)
  | Fault f => Fault f
  end.

Definition delete_args (c : chain) (n : list Z) : list (list Z) :=
  [cstr "-D"; chain_name c; n; cstr "-t"; chain_table c].
Definition bridge_args (n sip dip sif dif : list Z) : list (list Z) :=
  [cstr "-I"; cstr "FORWARD"; n; cstr "-t"; cstr "filter"; cstr "--src"; sip; cstr "--dst"; dip;
   cstr "-i"; sif; cstr "-o"; dif; cstr "-j"; cstr "ACCEPT"].
Definition nat_args (n sip nif : list Z) : list (list Z) :=
  [cstr "-I"; cstr "POSTROUTING"; n; cstr "-t"; cstr "nat"; cstr "--src"; sip; cstr "--dst";
   cstr "0.0.0.0/0"; cstr "-o"; nif; cstr "-j"; cstr "MASQUERADE"].

Definition delete_bridge_rule (sip sif dip dif : list Z) : Ipt Z :=
  r ← get_filter_rules;
  ex ← ip_ask exec_iptables;
  if (r <? 0) && (ex : bool) then mret (-1)
  else
    l ← ip_ask rule_list;
    let n := find_rule l sip sif dip dif (cstr "ACCEPT") in
    if (n =? 0) && ex then mret 0
    else
      b ← lift_outcome (num_buf n);
      r ← run_iptables (delete_args FORWARD b) None;
      mret (if r <? 0 then -1 else 0).

Definition iptables_delete_bridge (sip sif dip dif : list Z) : Ipt Z :=
  r ← delete_bridge_rule sip sif dip dif;
  if r <? 0 then mret (-1)
  else
    r ← delete_bridge_rule dip dif sip sif;
    mret (if r <? 0 then -1 else 0).

Definition add_bridge_rule (sip sif dip dif : list Z) : Ipt Z :=
  v ← lift_outcome (validate_ipv4_string sip);
  if negb v then mret (-1)
  else
    v ← lift_outcome (validate_ipv4_string dip);
    if negb v then mret (-1)
    else
      r ← get_filter_rules;
      ex ← ip_ask exec_iptables;
      if (r <? 0) && (ex : bool) then mret (-1)
      else
        l ← ip_ask rule_list;
        let n := find_baseif_rulenum l sif in
        let n := if (n =? 0) && ex then n + 1 else n in
        b ← lift_outcome (num_buf n);
        r ← run_iptables (bridge_args b sip dip sif dif) None;
        mret (if r <? 0 then -1 else 0).

Definition iptables_add_bridge (sip sif dip dif : list Z) : Ipt Z :=
  _ ← iptables_delete_bridge sip sif dip dif;
  r ← add_bridge_rule sip sif dip dif;
  if r <? 0 then mret (-1)
  else
    r ← add_bridge_rule dip dif sip sif;
    if r <? 0 then _ ← delete_bridge_rule sip sif dip dif; mret (-1)
    else mret 0.

Definition anywhere : list Z := cstr "0.0.0.0/0".

Definition iptables_delete_nat (sip sif nif : list Z) : Ipt Z :=
  r ← iptables_delete_bridge sip sif anywhere nif;
  if r <? 0 then mret (-1)
  else
    r ← get_nat_rules;
    ex ← ip_ask exec_iptables;
    if (r <? 0) && (ex : bool) then mret 0
    else
      l ← ip_ask rule_list;
      let n := find_rule l sip (cstr "*") anywhere nif (cstr "MASQUERADE") in
      if (n =? 0) && ex then mret 0
      else
        b ← lift_outcome (num_buf n);
        r ← run_iptables (delete_args POSTROUTING b) None;
        mret (if r <? 0 then -1 else 0).

Definition iptables_add_nat (sip sif nif : list Z) : Ipt Z :=
  r ← iptables_delete_nat sip sif nif;
  if r <? 0 then mret (-1)
  else
    r ← add_bridge_rule sip sif anywhere nif;
    if r <? 0 then mret (-1)
    else
      r ← run_iptables (bridge_args (cstr "1") anywhere sip nif sif) None;
      if r <? 0 then _ ← iptables_delete_bridge sip sif anywhere nif; mret (-1)
      else
        r ← run_iptables (nat_args (cstr "1") sip nif) None;
        if r <? 0 then _ ← iptables_delete_bridge sip sif anywhere nif; mret (-1)
        else mret 0.

(** ** The service *)

(** The members of [struct fwctx] that do not change. *)
Record fwctx := {
  fc_ifinfo : list config_ifinfo_t;
  nat_interface : list Z
}.

Definition run_firewall : Ipt Z := mret 0.

(** The NULL checks of the arguments are [None]s. *)
Definition fw_init_context (if_mapper vlan_mapper bin_paths : option unit)
    (iptables_bin : option (list Z)) (ifinfo : option (list config_ifinfo_t))
    (nat_bridge nat_if path : option (list Z)) (exec_firewall : bool) :
    prog (sys * env) (option (fwctx * iptables_context)) :=
  match if_mapper, vlan_mapper, bin_paths, ifinfo, nat_bridge, nat_if, path with
  | Some _, Some _, Some _, Some arr, Some _, Some nif, Some _ =>
      ok ← on_env malloc;
      if negb ok then mret None
      else
        match iptables_bin with
        | None => mret None
        | Some bin =>
            o ← iptables_init (Some bin) (Some arr) exec_firewall;
            mret (match o with
                  | None => None
                  | Some ctx => Some ({| fc_ifinfo := arr; nat_interface := nif |}, ctx)
                  end)
        end
  | _, _, _, _, _, _, _ => mret None
  end.

Section service.
Context (fc : fwctx).

(** [get_ifname_from_ip] into an array of the caller. *)
Definition ifname_of (ip : list Z) : option (list Z) :=
  let (r, n) := get_ifname_from_ip (Some (fc_ifinfo fc)) (Some ip) (Some []) in
  if r <? 0 then None else n.

Definition fw_add_nat_ipt (ip_addr : list Z) : Ipt Z :=
  match ifname_of ip_addr with
  | None => mret (-1)
  | Some ifname =>
      r ← iptables_add_nat ip_addr ifname (nat_interface fc);
      if r <? 0 then mret (-1)
      else r ← run_firewall; mret (if r <? 0 then -1 else 0)
  end.

Definition fw_remove_nat_ipt (ip_addr : list Z) : Ipt Z :=
  match ifname_of ip_addr with
  | None => mret (-1)
  | Some ifname =>
      r ← iptables_delete_nat ip_addr ifname (nat_interface fc);
      if r <? 0 then mret (-1)
      else r ← run_firewall; mret (if r <? 0 then -1 else 0)
  end.

Definition fw_add_bridge_ipt (ip_left ip_right : list Z) : Ipt Z :=
  match ifname_of ip_left with
  | None => mret (-1)
  | Some if_left =>
      match ifname_of ip_right with
      | None => mret (-1)
      | Some if_right =>
          r ← iptables_add_bridge ip_left if_left ip_right if_right;
          if r <? 0 then mret (-1)
          else r ← run_firewall; mret (if r <? 0 then -1 else 0)
      end
  end.

Definition fw_remove_bridge_ipt (ip_left ip_right : list Z) : Ipt Z :=
  match ifname_of ip_left with
  | None => mret (-1)
  | Some if_left =>
      match ifname_of ip_right with
      | None => mret (-1)
      | Some if_right =>
          r ← iptables_delete_bridge ip_left if_left ip_right if_right;
          if r <? 0 then mret (-1)
          else r ← run_firewall; mret (if r <? 0 then -1 else 0)
      end
  end.
End service.

(** What the supervisor calls. *)
Definition iptables_firewall (fc : fwctx) : Firewall := {|
  fw := ipw;
  fw_add_nat := fw_add_nat_ipt fc;
  fw_remove_nat := fw_remove_nat_ipt fc;
  fw_add_bridge := fw_add_bridge_ipt fc;
  fw_remove_bridge := fw_remove_bridge_ipt fc
|}.
End iptables.

(** [fw_set_ip_forward]: what [open] and the system calls on the file answer;
    the result and the byte written, if any. *)
Definition fw_set_ip_forward (read_flag : option Z) (lseek_ok write_ok : bool) : Z * option Z :=
  match read_flag with
  | None => (-1, None)
  | Some c =>
      if c =? 48 then
        if lseek_ok then if write_ok then (0, Some 49) else (-1, None) else (-1, None)
      else (0, None)
  end.
