(* ===== verification/Filter.v ===== *)
(** What the packet filter's code does to the rules.

    [IptablesSpec] states what the [iptables] program does with the commands of
    [Iptables]: which rules a chain has after each of them, and that a listing
    shows the rules of a chain, one per line, in one piece.  Against it the code
    is shown to read the rules back correctly, and to insert and delete exactly
    the rules it means to; [FirewallService] builds on it. *)
From stdpp Require Import strings numbers base list gmap.
From Stdlib Require Import ZArith Lia.
From S2P Require Import Prelude Os Text Net Extern Mappers Firewall Iptables.

(** ** Rules and commands *)

Record rule := {
  r_target : list Z;
  r_in : list Z;
  r_out : list Z;
  r_src : list Z;
  r_dst : list Z
}.
#[export] Instance rule_eq_dec : EqDecision rule.
Proof. solve_decision. Defined.

Record chains := { forward : list rule; postrouting : list rule }.
Definition rules_of (c : chain) (f : chains) : list rule :=
  match c with FORWARD => forward f | POSTROUTING => postrouting f end.
Definition set_rules (c : chain) (l : list rule) (f : chains) : chains :=
  match c with
  | FORWARD => {| forward := l; postrouting := postrouting f |}
  | POSTROUTING => {| forward := forward f; postrouting := l |}
  end.

Definition any_if : list Z := cstr "*".
Definition bridge_rule (sip sif dip dif : list Z) : rule :=
  {| r_target := cstr "ACCEPT"; r_in := sif; r_out := dif; r_src := sip; r_dst := dip |}.
Definition nat_rule (sip nif : list Z) : rule :=
  {| r_target := cstr "MASQUERADE"; r_in := any_if; r_out := nif; r_src := sip; r_dst := anywhere |}.
Definition if_reject (ifname : list Z) : rule :=
  {| r_target := cstr "REJECT"; r_in := ifname; r_out := any_if; r_src := anywhere; r_dst := anywhere |}.
Definition multicast : list Z := cstr "224.0.0.0/4".
Definition multicast_rule : rule := bridge_rule multicast any_if multicast any_if.

(** The commands the code runs, with rule numbers as numbers. *)
Inductive command :=
| SetPolicy (c : list Z)
| FlushNat
| FlushMangle
| Flush
| DeleteChains
| AppendMulticast
| AppendReject (ifname : list Z)
| InsertBridge (k : Z) (sip sif dip dif : list Z)
| InsertNat (k : Z) (sip nif : list Z)
| Delete (c : chain) (k : Z)
| ListChain (c : chain).

Definition args_of (cmd : command) : list (list Z) :=
  match cmd with
  | SetPolicy c => [cstr "-P"; c; cstr "ACCEPT"]
  | FlushNat => [cstr "-F"; cstr "-t"; cstr "nat"]
  | FlushMangle => [cstr "-F"; cstr "-t"; cstr "mangle"]
  | Flush => [cstr "-F"]
  | DeleteChains => [cstr "-X"]
  | AppendMulticast =>
      [cstr "-A"; cstr "FORWARD"; cstr "-t"; cstr "filter"; cstr "--src"; multicast;
       cstr "--dst"; multicast; cstr "-j"; cstr "ACCEPT"]
  | AppendReject ifname => reject_rule ifname
  | InsertBridge k sip sif dip dif => bridge_args (fmt_d k) sip dip sif dif
  | InsertNat k sip nif => nat_args (fmt_d k) sip nif
  | Delete c k => delete_args c (fmt_d k)
  | ListChain c => list_rule c
  end.

(** A bound on the rules of a chain; the kernel's tables end far below it. *)
Definition MAX_RULES : Z := 10 ^ 9 - 1.

(** A rule at position [k], counted from one. *)
Definition insert_rule (k : Z) (r : rule) (l : list rule) : option (list rule) :=
  if (1 <=? k) && (k <=? zlen l + 1) && (zlen l <? MAX_RULES) then
    Some (take (Z.to_nat (k - 1)) l ++ r :: drop (Z.to_nat (k - 1)) l)
  else None.
Definition delete_rule (k : Z) (l : list rule) : option (list rule) :=
  if (1 <=? k) && (k <=? zlen l) then
    Some (take (Z.to_nat (k - 1)) l ++ drop (Z.to_nat k) l)
  else None.

(** What a command does to the chains, if it can be carried out.  [show] is the
    form in which the program keeps and prints an address. *)
Definition effect (show : list Z -> list Z) (cmd : command) (f : chains) : option chains :=
  match cmd with
  | SetPolicy _ | FlushMangle | DeleteChains | ListChain _ => Some f
  | FlushNat => Some (set_rules POSTROUTING [] f)
  | Flush => Some (set_rules FORWARD [] f)
  | AppendMulticast =>
      l ← insert_rule (zlen (forward f) + 1) multicast_rule (forward f);
      Some (set_rules FORWARD l f)
  | AppendReject ifname =>
      l ← insert_rule (zlen (forward f) + 1) (if_reject ifname) (forward f);
      Some (set_rules FORWARD l f)
  | InsertBridge k sip sif dip dif =>
      l ← insert_rule k (bridge_rule (show sip) sif (show dip) dif) (forward f);
      Some (set_rules FORWARD l f)
  | InsertNat k sip nif =>
      l ← insert_rule k (nat_rule (show sip) nif) (postrouting f);
      Some (set_rules POSTROUTING l f)
  | Delete c k => l ← delete_rule k (rules_of c f); Some (set_rules c l f)
  end.

(** ** Listings *)

(** A word of a listing: not empty, without blanks, and short. *)
Definition word (n : Z) (w : list Z) : Prop :=
  0 < zlen w < n /\ Forall (fun c => c <> 0 /\ c <> 10 /\ c <> 32) w.
Definition printable (r : rule) : Prop :=
  word 20 (r_target r) /\ word IF_NAMESIZE (r_in r) /\ word IF_NAMESIZE (r_out r) /\
  word OS_INET_ADDRSTRLEN (r_src r) /\ word OS_INET_ADDRSTRLEN (r_dst r).

Definition nonempty (w : list Z) : Prop := w <> [].
#[export] Instance nonempty_dec w : Decision (nonempty w).
Proof. destruct w; [right|left]; unfold nonempty; [tauto|done]. Defined.

(** The row of the [k]-th rule: the number, two counters, the target, two more
    columns, the interfaces and the addresses; what follows is free. *)
Definition row_shows (k : Z) (r : rule) (row : list Z) : Prop :=
  1 < zlen row /\ Forall (fun c => c <> 0 /\ c <> 10) row /\
  exists pkts bytes prot opt extra,
    filter nonempty (split_on 32 [] row) =
      [fmt_d k; pkts; bytes; r_target r; prot; opt; r_in r; r_out r; r_src r; r_dst r] ++ extra.

Inductive rows_show : Z -> list rule -> list (list Z) -> Prop :=
| rows_nil k : rows_show k [] []
| rows_cons k r rules row rows : row_shows k r row -> rows_show (k + 1) rules rows ->
    rows_show k (r :: rules) (row :: rows).

Definition listing (rules : list rule) (text : list Z) : Prop :=
  exists h1 h2 rows, Forall (fun c => c <> 0 /\ c <> 10) h1 /\ Forall (fun c => c <> 0 /\ c <> 10) h2 /\
    rows_show 1 rules rows /\
    text = h1 ++ 10 :: h2 ++ 10 :: concat ((fun row => row ++ [10]) <$> rows).

(** Numbers the code can print into its array. *)
Definition numbered (cmd : command) : Prop :=
  match cmd with
  | InsertBridge k _ _ _ _ | InsertNat k _ _ | Delete _ k => 0 <= k < 10 ^ 9
  | _ => True
  end.

(** What the code relies on from the program.  Addresses in canonical form, and
    the network [0.0.0.0/0], are kept as they are.  The path of the program is
    short enough for the command line to fit the buffer of the log. *)
Class IptablesSpec (SY : System) := {
  ipt_path : list Z;
  path_short : zlen ipt_path <= 100;
  rules : sys -> chains;
  show : list Z -> list Z;
  show_quad q : zlen q = 4 -> bytes q -> show (inet_ntop q) = inet_ntop q;
  show_anywhere : show anywhere = anywhere;
  path_exists s : check_file_exists ipt_path s = true;
  spawn_done cmd piped s f : numbered cmd -> effect show cmd (rules s) = Some f ->
    exists pieces s', spawn (ipt_path :: args_of cmd) piped s = (Some (0, pieces), s') /\ rules s' = f;
  spawn_refused cmd piped s : numbered cmd -> effect show cmd (rules s) = None ->
    exists status pieces s', spawn (ipt_path :: args_of cmd) piped s = (Some (status, pieces), s') /\
      status <> 0 /\ rules s' = rules s;
  spawn_list c s status pieces s' :
    Forall printable (rules_of c (rules s)) -> zlen (rules_of c (rules s)) <= MAX_RULES ->
    spawn (ipt_path :: list_rule c) true s = (Some (status, pieces), s') ->
    exists text, pieces = [text] /\ listing (rules_of c (rules s)) text
}.

(** ** Reading the rules back *)

Definition columns_of (k : Z) (r : rule) : iptables_columns :=
  {| num := k; target := r_target r; col_in := r_in r; col_out := r_out r;
     source := r_src r; destination := r_dst r |}.

Lemma clip_word n w : word n w -> clip n w = w.
Proof. intros [Hl _]. unfold clip. apply take_ge. unfold zlen in Hl. lia. Qed.

Lemma strtol10_fmt k : 1 <= k < 10 ^ 18 -> strtol10 (fmt_d k) = (k, false, true).
Proof.
  intros Hk. unfold fmt_d. rewrite (proj2 (Z.ltb_ge _ _)) by lia.
  destruct (fmt_u_head k) as (c & rest & Hf & Hc); [lia..|].
  unfold strtol10. rewrite Hf. cbn [skip_space].
  assert (isspace c = false) as -> by (unfold isspace; lia).
  rewrite !(proj2 (Z.eqb_neq c _)) by lia. rewrite <- Hf, atoi_digits_fmt by lia.
  rewrite (proj2 (Z.ltb_ge LONG_MAX k)), (proj2 (Z.ltb_ge k LONG_MIN)) by (unfold LONG_MAX, LONG_MIN; lia).
  do 2 f_equal. apply isdigit_range. lia.
Qed.

Lemma process_words_filter words : forall st row,
  process_words st row words = process_words st row (filter nonempty words).
Proof.
  induction words as [|w words IH]; intros st row; [done|]. rewrite filter_cons. cbn [process_words].
  destruct w as [|c w].
  - rewrite decide_False by (unfold nonempty; tauto). apply IH.
  - rewrite decide_True by done. cbn [process_words].
    rewrite (proj2 (Z.eqb_neq (zlen (c :: w)) 0)) by (rewrite zlen_cons; pose proof (zlen_nonneg w); lia).
    destruct (process_word st row (c :: w)). apply IH.
Qed.

Lemma process_words_done row words : process_words 10 row words = row.
Proof. induction words as [|w words IH]; cbn; [done|]. by destruct (_ =? _). Qed.

Lemma process_words_step st row w ws : nonempty w ->
  process_words st row (w :: ws) =
    let (st', row') := process_word st row w in process_words st' row' ws.
Proof.
  destruct w as [|c w]; [by intros H; destruct (H eq_refl)|]. intros _. cbn [process_words].
  by rewrite (proj2 (Z.eqb_neq (zlen (c :: w)) 0)) by (rewrite zlen_cons; pose proof (zlen_nonneg w); lia).
Qed.

Lemma process_rule_column_run k r row e : mallocs e = [] -> 1 <= k < 10 ^ 18 -> printable r ->
  row_shows k r row -> process_rule_column row e = Done (columns_of k r, e).
Proof.
  intros He Hk (Ht & Hi & Ho & Hs & Hd) (_ & _ & pkts & cnt & prot & opt & extra & Hw).
  unfold process_rule_column. erewrite bind_run by (by apply split_array_run). cbn [fst snd].
  rewrite (proj2 (Z.ltb_ge _ _)) by apply zlen_nonneg. cbn [default]. unfold id.
  assert (Forall nonempty (filter nonempty (split_on 32 [] row))) as Hne.
  { apply list.Forall_forall. by intros w [? _]%list_elem_of_filter. }
  rewrite process_words_filter. rewrite Hw in *. cbn [app] in *.
  repeat match goal with H : Forall nonempty (_ :: _) |- _ => apply list.Forall_cons in H as [? H] end.
  rewrite process_words_step by done. unfold process_word at 1. rewrite strtol10_fmt by done. cbn -[process_words].
  do 9 (rewrite process_words_step by done; unfold process_word at 1; cbn -[process_words]).
  rewrite process_words_done, !clip_word by done. done.
Qed.

(** The rules as the code sees them, numbered from [k]. *)
Fixpoint columns_from (k : Z) (l : list rule) : list iptables_columns :=
  match l with [] => [] | r :: rest => columns_of k r :: columns_from (k + 1) rest end.

Lemma find_rule_columns sip sif dip dif tgt l : forall k,
  find_rule (columns_from k l) sip sif dip dif tgt =
    match list_find (eq {| r_target := tgt; r_in := sif; r_out := dif; r_src := sip; r_dst := dip |}) l with
    | Some (i, _) => k + Z.of_nat i
    | None => 0
    end.
Proof.
  induction l as [|r l IH]; intros k; [done|]. cbn [columns_from find_rule list_find].
  cbn [columns_of col_in col_out source destination target num].
  case_decide as Hd.
  - subst r. cbn. rewrite !bool_decide_true by done. cbn. lia.
  - rewrite IH. destruct (_ && _) eqn:Hb.
    + exfalso. apply Hd. rewrite !andb_true_iff, !bool_decide_eq_true in Hb.
      destruct r; cbn in Hb. destruct Hb as [[[[-> ->] ->] ->] ->]. done.
    + destruct (list_find _ l) as [[i x]|]; cbn; [lia|done].
Qed.

(** Rejects what comes in on an interface. *)
Definition rejects (ifname : list Z) (r : rule) : Prop :=
  r_in r = ifname /\ r_out r = any_if /\ r_target r = cstr "REJECT".
#[export] Instance rejects_dec ifname r : Decision (rejects ifname r).
Proof. unfold rejects. apply _. Defined.

Lemma find_baseif_columns ifname l : forall k,
  find_baseif_rulenum (columns_from k l) ifname =
    match list_find (rejects ifname) l with Some (i, _) => k + Z.of_nat i | None => 0 end.
Proof.
  induction l as [|r l IH]; intros k; [done|]. cbn [columns_from find_baseif_rulenum list_find].
  cbn [columns_of col_in col_out target num]. case_decide as Hd.
  - destruct Hd as (-> & -> & ->). cbn. rewrite !bool_decide_true by done. cbn. lia.
  - rewrite IH. destruct (_ && _) eqn:Hb.
    + exfalso. apply Hd. rewrite !andb_true_iff, !bool_decide_eq_true in Hb.
      unfold rejects. tauto.
    + destruct (list_find _ l) as [[i x]|]; cbn; [lia|done].
Qed.

(** The list without the first copy of a rule. *)
Definition remove_first (ρ : rule) (l : list rule) : list rule :=
  match list_find (eq ρ) l with Some (i, _) => take i l ++ drop (S i) l | None => l end.

(** The list with a rule in front of the one that rejects its interface, or
    first. *)
Definition place (ρ : rule) (l : list rule) : list rule :=
  let i := match list_find (rejects (r_in ρ)) l with Some (i, _) => i | None => O end in
  take i l ++ ρ :: drop i l.

Lemma list_find_lt {A} (P : A -> Prop) `{!forall x, Decision (P x)} l i x :
  list_find P l = Some (i, x) -> (i < length l)%nat.
Proof. intros (Hl & _)%list_find_Some. by eapply lookup_lt_Some. Qed.

Lemma num_buf_run n : 0 <= n < 10 ^ 9 -> num_buf n = Done (fmt_d n).
Proof.
  intros Hn. unfold num_buf, fmt_d. rewrite (proj2 (Z.ltb_ge _ _)) by lia.
  pose proof (zlen_fmt_u_bound 9 n ltac:(simpl; lia) ltac:(lia)) as Hl.
  rewrite wr_head by (unfold zeros; rewrite length_app, length_replicate; simpl; lia).
  rewrite <- app_assoc. cbn [app]. rewrite until_nul_app; [done|].
  apply digits_nonzero, fmt_u_digits; lia.
Qed.

Lemma place_perm ρ l : place ρ l ≡ₚ ρ :: l.
Proof. unfold place. set (i := match _ with Some _ => _ | None => _ end). by rewrite <- Permutation_middle, take_drop. Qed.

Lemma remove_first_perm ρ l : ρ ∈ l -> l ≡ₚ ρ :: remove_first ρ l.
Proof.
  intros Hin. unfold remove_first. destruct (list_find (eq ρ) l) as [[i x]|] eqn:Hf.
  - apply list_find_Some in Hf as (Hl & <- & _).
    rewrite <- (take_drop_middle l i ρ Hl) at 1. by rewrite <- Permutation_middle.
  - apply list_find_None in Hf. rewrite list.Forall_forall in Hf. by destruct (Hf ρ Hin).
Qed.

Lemma remove_first_absent ρ l : ρ ∉ l -> remove_first ρ l = l.
Proof.
  intros Hin. unfold remove_first. destruct (list_find (eq ρ) l) as [[i x]|] eqn:Hf; [|done].
  apply list_find_Some in Hf as (Hl & <- & _). by apply list_elem_of_lookup_2 in Hl.
Qed.

(** The accepting rules of a chain; the code keeps each at most once. *)
Definition accepting (r : rule) : Prop := r_target r = cstr "ACCEPT".
#[export] Instance accepting_dec r : Decision (accepting r).
Proof. unfold accepting. apply _. Defined.
Definition distinct (l : list rule) : Prop := NoDup (filter accepting l).

Lemma distinct_perm l l' : l ≡ₚ l' -> distinct l <-> distinct l'.
Proof. unfold distinct. intros ->. done. Qed.

Lemma distinct_cons ρ l : accepting ρ -> distinct (ρ :: l) <-> (ρ ∉ l) /\ distinct l.
Proof.
  intros Ha. unfold distinct. rewrite filter_cons, decide_True, NoDup_cons by done.
  rewrite list_elem_of_filter. tauto.
Qed.

Lemma remove_first_distinct ρ l : accepting ρ -> distinct l ->
  distinct (remove_first ρ l) /\ forall x, x ∈ remove_first ρ l <-> x ∈ l /\ x <> ρ.
Proof.
  intros Ha Hd. destruct (decide (ρ ∈ l)) as [Hin|Hin].
  - pose proof (remove_first_perm ρ l Hin) as Hp. rewrite (distinct_perm _ _ Hp), distinct_cons in Hd by done.
    destruct Hd as [Hn Hd]. split; [done|]. intros x.
    assert (x ∈ l <-> x = ρ \/ x ∈ remove_first ρ l) as -> by (by rewrite <- elem_of_cons, <- Hp).
    split; [intros Hx; split; [by right|by intros ->]|tauto].
  - rewrite remove_first_absent by done. split; [done|]. intros x. split; [|tauto].
    intros Hx. split; [done|]. by intros ->.
Qed.

Lemma place_distinct ρ l : accepting ρ -> distinct l -> ρ ∉ l ->
  distinct (place ρ l) /\ forall x, x ∈ place ρ l <-> x = ρ \/ x ∈ l.
Proof.
  intros Ha Hd Hn. rewrite (distinct_perm _ _ (place_perm ρ l)), distinct_cons by done.
  split; [done|]. intros x. by rewrite place_perm, elem_of_cons.
Qed.

Lemma zlen_flat_cons s l : zlen (flat 32 (s :: l)) = zlen s + 1 + zlen (flat 32 l).
Proof. rewrite flat_cons, zlen_app, zlen_cons. lia. Qed.

(** The length of a command line whose words are literals or bounded. *)
Ltac line_length :=
  unfold args_of, delete_args, bridge_args, nat_args, chain_name, chain_table, anywhere, reject_rule;
  rewrite !zlen_flat_cons; change (zlen (flat 32 [])) with 0;
  repeat match goal with |- context [zlen (cstr ?s)] =>
    let n := eval vm_compute in (zlen (cstr s)) in change (zlen (cstr s)) with n end.

Section filter.
Context {SY : System} {IS : IptablesSpec SY}.
#[local] Abbreviation world := (ipw (SY := SY)).
#[local] Abbreviation now w := (rules (ip_sys w)).

(** The context works on the program, and memory lasts. *)
Record armed (w : world) : Prop := {
  rd_exec : exec_iptables (ip_ctx w) = true;
  rd_path : iptables_path (ip_ctx w) = ipt_path;
  rd_mem : mallocs (ip_env w) = []
}.

(** Moreover the chains are sane. *)
Record ready (w : world) : Prop := {
  rd_armed : armed w;
  rd_rules c : Forall printable (rules_of c (now w)) /\ zlen (rules_of c (now w)) <= MAX_RULES
}.

(** The same chains, context and memory; only the list of rules may differ. *)
Definition same_but_list (w w' : world) : Prop :=
  ip_env w' = ip_env w /\ exec_iptables (ip_ctx w') = exec_iptables (ip_ctx w) /\
  iptables_path (ip_ctx w') = iptables_path (ip_ctx w) /\ ip_sys w' = ip_sys w.

Lemma process_lines_run rows : forall k l w,
  mallocs (ip_env w) = [] -> rows_show k l rows -> 1 <= k -> k + zlen l < 10 ^ 18 -> Forall printable l ->
  exists w', process_lines (rows ++ [[]]) w = Done (0, w') /\
    rule_list (ip_ctx w') = rule_list (ip_ctx w) ++ columns_from k l /\ same_but_list w w'.
Proof.
  induction rows as [|row rows IH]; intros k l w Hmem Hrows Hk Hl Hp; inversion Hrows as [|? r l' ? ? Hrow Hrest]; subst.
  - exists w. cbn. rewrite app_nil_r. done.
  - apply list.Forall_cons in Hp as [Hr Hp]. rewrite zlen_cons in Hl. pose proof (zlen_nonneg l').
    cbn [app process_lines]. pose proof (proj1 Hrow) as Hlen. rewrite (proj2 (Z.ltb_lt _ _)) by done.
    erewrite bind_run by (unfold ip_mem; by rewrite (process_rule_column_run k r row _ Hmem) by (done || lia)).
    cbn [columns_of num]. rewrite (proj2 (Z.eqb_neq _ _)) by lia.
    erewrite bind_run by done. cbn beta. erewrite bind_run by done. cbn beta.
    match goal with |- context [process_lines _ ?x] => destruct (IH (k + 1) l' x) as (w' & Hrun & Hl' & Hs) end;
      [done|done|lia|lia|done|].
    exists w'. split; [exact Hrun|]. split; [|done]. rewrite Hl'. cbn. by rewrite <- app_assoc.
Qed.

Lemma split_rows k l rows : rows_show k l rows ->
  split_on 10 [] (concat ((fun row => row ++ [10]) <$> rows)) = rows ++ [[]].
Proof.
  induction 1 as [|k r l row rows (_ & Hb & _) _ IH]; [done|]. cbn [fmap list_fmap concat].
  rewrite <- app_assoc. cbn [app]. rewrite split_on_cut; [by rewrite IH|].
  intros Hin. rewrite list.Forall_forall in Hb. by destruct (Hb _ Hin).
Qed.

Lemma line_free h : Forall (fun c => c <> 0 /\ c <> 10) h -> 10 ∉ h.
Proof. intros Hh Hin. rewrite list.Forall_forall in Hh. by destruct (Hh _ Hin). Qed.

Lemma rows_nul_free k l rows : rows_show k l rows ->
  Forall (fun c => c <> 0) (concat ((fun row => row ++ [10]) <$> rows)).
Proof.
  induction 1 as [|k r l row rows (_ & Hb & _) _ IH]; [constructor|]. cbn [fmap list_fmap concat].
  apply Forall_app. split; [|exact IH]. apply Forall_app. split; [|by repeat constructor].
  eapply Forall_impl; [exact Hb|]. by intros c [? _].
Qed.

Lemma ip_malloc_run (w : world) : mallocs (ip_env w) = [] -> ip_mem malloc w = Done (true, w).
Proof. unfold ip_mem. destruct w as [c s [m r]]. cbn. by intros ->. Qed.

Lemma list_rule_cb_run l text w : mallocs (ip_env w) = [] -> listing l text ->
  Forall printable l -> zlen l <= MAX_RULES ->
  exists w', list_rule_cb text w = Done (tt, w') /\
    rule_list (ip_ctx w') = columns_from 1 l /\ same_but_list w w'.
Proof.
  intros Hmem (h1 & h2 & rows & H1 & H2 & Hrows & ->) Hp Hl. unfold list_rule_cb.
  erewrite bind_run by (by apply ip_malloc_run). cbn [negb]. erewrite bind_run by done. cbn beta.
  rewrite until_nul_id.
  2: { apply Forall_app. split; [eapply Forall_impl; [exact H1|]; by intros c [? _]|].
       constructor; [done|]. apply Forall_app. split; [eapply Forall_impl; [exact H2|]; by intros c [? _]|].
       constructor; [done|]. by eapply rows_nul_free. }
  match goal with |- context [(process_rule_lines _ ≫= _) ?x] => set (w0 := x) end.
  assert (mallocs (ip_env w0) = []) as Hmem0 by done.
  destruct (process_lines_run rows 1 l w0 Hmem0 Hrows) as (w' & Hrun & Hlist & Hs);
    [lia|unfold MAX_RULES in *; lia|done|].
  assert (process_rule_lines (h1 ++ 10 :: h2 ++ 10 :: concat ((fun row => row ++ [10]) <$> rows)) w0 =
    Done (0, w')) as Hlines.
  { unfold process_rule_lines.
    erewrite bind_run by (unfold ip_mem; by erewrite split_array_run by done). cbn [fst snd default].
    unfold id. rewrite !split_on_cut by (by apply line_free). rewrite (split_rows _ _ _ Hrows). cbn [app].
    rewrite !zlen_cons. pose proof (zlen_nonneg (rows ++ [[]])) as Hn. rewrite zlen_app in *.
    change (zlen [[]]) with 1 in *. pose proof (zlen_nonneg rows).
    rewrite (proj2 (Z.ltb_ge _ 0)), (proj2 (Z.ltb_lt 2 _)) by lia.
    cbn [after_headers]. rewrite <- Hrun. by destruct w0. }
  erewrite bind_run by exact Hlines. by exists w'.
Qed.
(** ** Running a command *)

Lemma copy_argv_env l e o e' : mallocs e = [] -> copy_argv (Some l) e = Done (o, e') -> e' = e /\ o <> None.
Proof.
  intros He. unfold copy_argv. destruct e as [m r]. cbn in He. subst m.
  erewrite bind_run by done. cbn [negb]. unfold lift_outcome. intros H. prog_inv.
  case_match; simplify_eq. done.
Qed.

Lemma run_iptables_inv cmd fn (w w' : world) r : armed w -> run_iptables (args_of cmd) fn w = Done (r, w') ->
  exists o s', spawn (ipt_path :: args_of cmd) (match fn with Some _ => true | None => false end)
      (ip_sys w) = (o, s') /\
    forall status pieces, o = Some (status, pieces) ->
      r = (if status =? 0 then 0 else -1) /\
      read_command_output pieces fn {| ip_ctx := ip_ctx w; ip_sys := s'; ip_env := ip_env w |} =
        Done (tt, w').
Proof.
  intros [Hex Hpath Hmem]. unfold run_iptables, ip_ask. do 2 (erewrite bind_run by done; cbn beta).
  rewrite Hex, Hpath. unfold run_argv_command. erewrite bind_run by (by apply ip_malloc_run). cbn [negb].
  intros (o & w1 & Hcopy & H)%bind_done. unfold ip_mem in Hcopy.
  destruct (copy_argv _ (ip_env w)) as [[o' e]|] eqn:Hc; [|done]. injection Hcopy as <- <-.
  apply copy_argv_env in Hc as [-> Ho]; [|done]. destruct o' as [c|]; [|done].
  apply bind_done in H as (t & w2 & Hlog & H). unfold lift_outcome in Hlog.
  destruct (log_run_command _); [|done]. injection Hlog as <- <-.
  apply bind_done in H as (st & w3 & Hrun & H). injection H as <- <-. unfold run_command in Hrun.
  cbn [ip_sys] in Hrun. rewrite path_exists in Hrun. cbn [negb] in Hrun.
  destruct (spawn _ _ (ip_sys w)) as [o s'] eqn:Hsp. exists o, s'. split; [done|].
  intros status pieces ->. apply bind_done in Hrun as ([] & w4 & Hread & H). by injection H as <- <-.
Qed.

(** A command that is not a listing: it is carried out, or refused. *)
Lemma run_command_inv cmd (w w' : world) r : armed w -> numbered cmd ->
  run_iptables (args_of cmd) None w = Done (r, w') ->
  ip_ctx w' = ip_ctx w /\ ip_env w' = ip_env w /\
  match effect show cmd (now w) with
  | Some f => r = 0 /\ now w' = f
  | None => r = -1 /\ now w' = now w
  end.
Proof.
  intros Hw Hn Hrun. destruct (run_iptables_inv _ _ _ _ _ Hw Hrun) as (o & s' & Hsp & Hr).
  assert (forall status pieces, o = Some (status, pieces) ->
    r = (if status =? 0 then 0 else -1) /\
    w' = {| ip_ctx := ip_ctx w; ip_sys := s'; ip_env := ip_env w |}) as Hr'.
  { intros status pieces Ho. destruct (Hr _ _ Ho) as [-> Hread]. split; [done|].
    unfold read_command_output in Hread. erewrite bind_run in Hread by (apply ip_malloc_run; exact (rd_mem w Hw)).
    by injection Hread as <-. }
  destruct (effect show cmd (now w)) as [f|] eqn:Hf.
  - destruct (spawn_done cmd false (ip_sys w) f Hn Hf) as (pieces & s1 & Hsp1 & Hf1).
    rewrite Hsp1 in Hsp. injection Hsp as <- <-. by destruct (Hr' _ _ eq_refl) as [-> ->].
  - destruct (spawn_refused cmd false (ip_sys w) Hn Hf) as (st & pieces & s1 & Hsp1 & Hst & Hf1).
    rewrite Hsp1 in Hsp. injection Hsp as <- <-. destruct (Hr' _ _ eq_refl) as [-> ->].
    by rewrite (proj2 (Z.eqb_neq _ _)).
Qed.

Lemma get_rules_inv c (w w' : world) r : ready w -> get_rules c w = Done (r, w') ->
  ready w' /\ now w' = now w /\ rule_list (ip_ctx w') = columns_from 1 (rules_of c (now w)) /\
  r = if bool_decide (rules_of c (now w) = []) then -1 else 0.
Proof.
  intros Hw. unfold get_rules. intros (r1 & w1 & Hrun & H)%bind_done.
  change (list_rule c) with (args_of (ListChain c)) in Hrun.
  destruct (run_iptables_inv _ _ _ _ _ (rd_armed w Hw) Hrun) as (o & s' & Hsp & Hr).
  destruct (spawn_done (ListChain c) true (ip_sys w) (now w)) as (pieces & s1 & Hsp1 & Hf1); [done|done|].
  rewrite Hsp1 in Hsp. injection Hsp as <- <-. destruct (Hr _ _ eq_refl) as [-> Hread].
  destruct (rd_rules w Hw c) as [Hp Hl].
  destruct (spawn_list c (ip_sys w) 0 pieces s1 Hp Hl Hsp1) as (text & -> & Htext).
  unfold read_command_output in Hread. erewrite bind_run in Hread by (apply ip_malloc_run; exact (rd_mem w (rd_armed w Hw))).
  cbn [negb] in Hread.
  destruct (list_rule_cb_run _ _ {| ip_ctx := ip_ctx w; ip_sys := s1; ip_env := ip_env w |}
    (rd_mem w (rd_armed w Hw)) Htext Hp Hl) as (w2 & Hcb & Hlist & He & Hex & Hpa & Hsy).
  cbn [for_pieces] in Hread. erewrite bind_run in Hread by exact Hcb. injection Hread as <-.
  unfold ip_ask in H. cbn [Z.eqb Z.ltb Z.compare] in H. erewrite bind_run in H by done.
  injection H as <- <-. rewrite Hlist. cbn in Hsy. rewrite Hsy, Hf1.
  destruct Hw as [[G1 G2 G3] G4]. split; [|split; [done|split; [done|]]].
  - split; [split|]; rewrite ?Hex, ?Hpa, ?He, ?Hsy, ?Hf1; done.
  - destruct (rules_of c (now w)) as [|x l]; [done|]. rewrite bool_decide_false by done.
    cbn [columns_from]. rewrite zlen_cons. pose proof (zlen_nonneg (columns_from (1 + 1) l)).
    by rewrite (proj2 (Z.eqb_neq _ _)) by lia.
Qed.
(** *** Commands do not fault *)

Definition runs {A} (m : prog world A) (w : world) : Prop := exists a w', m w = Done (a, w').

(** The command line with its spaces. *)
Definition short (cmd : command) : Prop := zlen (flat 32 (args_of cmd)) <= 150.

Lemma run_total cmd fn (w : world) : armed w -> short cmd ->
  (forall pieces s', (exists status, spawn (ipt_path :: args_of cmd)
       (match fn with Some _ => true | None => false end) (ip_sys w) = (Some (status, pieces), s')) ->
     runs (read_command_output pieces fn) {| ip_ctx := ip_ctx w; ip_sys := s'; ip_env := ip_env w |}) ->
  runs (run_iptables (args_of cmd) fn) w.
Proof.
  intros [Hex Hpath Hmem] Hs Hread. unfold runs, run_iptables, ip_ask.
  do 2 (erewrite bind_run by done; cbn beta). rewrite Hex, Hpath. unfold run_argv_command.
  erewrite bind_run by (by apply ip_malloc_run). cbn [negb].
  destruct (copy_argv_run (ipt_path :: args_of cmd) (ip_env w)) as (ok & e & Hm & Hcopy).
  destruct (malloc_ok (ip_env w)) as (ok' & e' & Hm' & [_ He]). destruct (He Hmem) as [-> ->].
  rewrite Hm' in Hm. injection Hm as <- <-.
  erewrite bind_run by (unfold ip_mem; rewrite Hcopy; done). cbn beta iota.
  rewrite log_run_command_fits.
  2: { rewrite flat_cons, zlen_app, zlen_cons. unfold short in Hs. pose proof path_short. lia. }
  erewrite bind_run by done. cbn beta.
  assert (runs (run_command (ipt_path :: args_of cmd) fn) w) as (st & w1 & Hrun).
  { unfold runs, run_command. rewrite path_exists. cbn [negb].
    destruct (spawn _ _ (ip_sys w)) as [[[status pieces]|] s'] eqn:Hsp; [|by eexists _, _].
    destruct (Hread pieces s') as ([] & w1 & Hr); [by exists status|].
    erewrite bind_run by exact Hr. by eexists _, _. }
  destruct w as [c s e]. cbn [ip_ctx ip_sys ip_env] in *. erewrite bind_run by exact Hrun. by eexists _, _.
Qed.

Lemma run_none_total cmd (w : world) : armed w -> short cmd -> runs (run_iptables (args_of cmd) None) w.
Proof.
  intros Hw Hs. apply run_total; [done|done|]. intros pieces s' _. unfold runs, read_command_output.
  erewrite bind_run by (apply ip_malloc_run; exact (rd_mem w Hw)). by eexists _, _.
Qed.

Lemma get_rules_total c (w : world) : ready w -> runs (get_rules c) w.
Proof.
  intros Hw. unfold runs, get_rules. change (list_rule c) with (args_of (ListChain c)).
  destruct (run_total (ListChain c) (Some list_rule_cb) w (rd_armed w Hw)) as (r & w' & Hrun).
  - destruct c; by vm_compute.
  - intros pieces s' [status Hsp]. destruct (rd_rules w Hw c) as [Hp Hl].
    destruct (spawn_list c (ip_sys w) status pieces s' Hp Hl Hsp) as (text & -> & Htext).
    unfold runs, read_command_output. erewrite bind_run by (apply ip_malloc_run; exact (rd_mem w (rd_armed w Hw))).
    cbn [negb for_pieces].
    destruct (list_rule_cb_run _ _ {| ip_ctx := ip_ctx w; ip_sys := s'; ip_env := ip_env w |}
      (rd_mem w (rd_armed w Hw)) Htext Hp Hl) as (w2 & Hcb & _).
    erewrite bind_run by exact Hcb. by eexists _, _.
  - erewrite bind_run by exact Hrun. destruct (r <? 0); [by eexists _, _|].
    unfold ip_ask. erewrite bind_run by done. by eexists _, _.
Qed.

(** ** Editing a chain *)

(** The state after a chain has been replaced. *)
Definition chain_is (c : chain) (l : list rule) (w w' : world) : Prop :=
  ready w' /\ now w' = set_rules c l (now w).

Lemma set_rules_id c f : set_rules c (rules_of c f) f = f.
Proof. by destruct c, f. Qed.
Lemma rules_of_set c d l f : rules_of d (set_rules c l f) = if decide (c = d) then l else rules_of d f.
Proof. destruct c, d; by case_decide. Qed.

Lemma ready_edit c l (w w' : world) : ready w -> ip_ctx w' = ip_ctx w -> ip_env w' = ip_env w ->
  now w' = set_rules c l (now w) -> Forall printable l -> zlen l <= MAX_RULES -> chain_is c l w w'.
Proof.
  intros [[G1 G2 G3] G4] H1 H2 H3 Hp Hl. split; [|done].
  split; [split|]; rewrite ?H1, ?H2, ?H3; try done. intros d. rewrite rules_of_set. case_decide; [done|]. apply G4.
Qed.

Lemma delete_inv c ρ (w w' : world) r i x : ready w ->
  list_find (eq ρ) (rules_of c (now w)) = Some (i, x) ->
  run_iptables (delete_args c (fmt_d (1 + Z.of_nat i))) None w = Done (r, w') ->
  r = 0 /\ chain_is c (remove_first ρ (rules_of c (now w))) w w'.
Proof.
  intros Hw Hf Hrun. unfold remove_first. rewrite Hf. pose proof (list_find_lt _ _ _ _ Hf) as Hi.
  destruct (rd_rules w Hw c) as [Hp Hl]. set (l := rules_of c (now w)) in *.
  change (delete_args _ _) with (args_of (Delete c (1 + Z.of_nat i))) in Hrun.
  apply run_command_inv in Hrun as (H1 & H2 & H3); [|apply Hw|cbn; unfold MAX_RULES, zlen in Hl; lia].
  cbn [effect] in H3. unfold delete_rule in H3. fold l in H3. unfold zlen in H3.
  rewrite !(proj2 (Z.leb_le _ _)) in H3 by lia. cbn in H3. destruct H3 as [-> H3]. split; [done|].
  replace (Z.to_nat (1 + Z.of_nat i - 1)) with i in H3 by lia.
  replace (Z.to_nat (1 + Z.of_nat i)) with (S i) in H3 by lia.
  apply ready_edit; try done.
  - apply Forall_app. split; [by apply Forall_take|by apply Forall_drop].
  - unfold zlen in *. rewrite length_app, length_take, length_drop. lia.
Qed.

Lemma delete_bridge_rule_inv sip sif dip dif (w w' : world) r : ready w ->
  delete_bridge_rule sip sif dip dif w = Done (r, w') ->
  r = (if bool_decide (forward (now w) = []) then -1 else 0) /\
  chain_is FORWARD (remove_first (bridge_rule sip sif dip dif) (forward (now w))) w w'.
Proof.
  intros Hw. unfold delete_bridge_rule. intros (r1 & w1 & Hget & H)%bind_done.
  apply get_rules_inv in Hget as (Hw1 & Hn1 & Hlist & ->); [|done]. cbn [rules_of] in *.
  unfold ip_ask in H. erewrite bind_run in H by done. rewrite (rd_exec w1 (rd_armed w1 Hw1)) in H.
  case_bool_decide as He; cbn [Z.ltb Z.compare andb] in H.
  { injection H as <- <-. split; [done|]. split; [done|]. rewrite Hn1. destruct (now w). cbn in *. by subst. }
  erewrite bind_run in H by done. rewrite Hlist, find_rule_columns in H.
  fold (bridge_rule sip sif dip dif) in H. unfold remove_first.
  destruct (list_find _ (forward (now w))) as [[i x]|] eqn:Hf.
  - rewrite (proj2 (Z.eqb_neq _ _)) in H by lia. cbn [andb] in H.
    pose proof (list_find_lt _ _ _ _ Hf) as Hi. destruct (rd_rules w Hw FORWARD) as [_ Hl]. cbn in Hl.
    rewrite num_buf_run in H by (unfold MAX_RULES, zlen in Hl; lia).
    erewrite bind_run in H by done. apply bind_done in H as (r2 & w2 & Hrun & H).
    rewrite <- Hn1 in Hf. apply (delete_inv FORWARD _ _ _ _ _ _ Hw1 Hf) in Hrun as [-> [Hw2 Hn2]].
    injection H as <- <-. split; [done|]. split; [done|]. rewrite Hn2, Hn1.
    unfold remove_first. rewrite <- Hn1. cbn [rules_of]. by rewrite Hf.
  - cbn in H. injection H as <- <-. split; [done|]. split; [done|].
    by rewrite Hn1, (set_rules_id FORWARD).
Qed.
Definition bridge_ok (sip sif dip dif : list Z) : Prop :=
  printable (bridge_rule sip sif dip dif) /\ show sip = sip /\ show dip = dip.

Lemma insert_bridge_inv i sip sif dip dif (w w' : world) r : ready w -> bridge_ok sip sif dip dif ->
  (i <= length (forward (now w)))%nat -> 1 + Z.of_nat i < 10 ^ 9 ->
  run_iptables (bridge_args (fmt_d (1 + Z.of_nat i)) sip dip sif dif) None w = Done (r, w') ->
  (r = -1 /\ ready w' /\ now w' = now w) \/
  (r = 0 /\ chain_is FORWARD (take i (forward (now w)) ++ bridge_rule sip sif dip dif ::
                             drop i (forward (now w))) w w').
Proof.
  intros Hw (Hp & Hs1 & Hs2) Hi Hk Hrun. destruct (rd_rules w Hw FORWARD) as [Hpr Hl]. cbn [rules_of] in *.
  change (bridge_args _ _ _ _ _) with (args_of (InsertBridge (1 + Z.of_nat i) sip sif dip dif)) in Hrun.
  apply run_command_inv in Hrun as (H1 & H2 & H3); [|apply Hw|cbn; lia].
  cbn [effect] in H3. rewrite Hs1, Hs2 in H3. unfold insert_rule in H3.
  rewrite !(proj2 (Z.leb_le _ _)) in H3 by (unfold zlen; lia). cbn [andb] in H3.
  destruct (Z.ltb_spec (zlen (forward (now w))) MAX_RULES) as [Hm|Hm]; cbn in H3; destruct H3 as [-> H3].
  - right. split; [done|]. replace (Z.to_nat (1 + Z.of_nat i - 1)) with i in H3 by lia.
    apply ready_edit; try done.
    + apply Forall_app. split; [by apply Forall_take|]. constructor; [done|by apply Forall_drop].
    + unfold zlen in *. rewrite length_app, length_take. cbn [length]. rewrite length_drop. lia.
  - left. split; [done|]. split; [|done]. destruct Hw as [[G1 G2 G3] G4].
    split; [split|]; rewrite ?H1, ?H2, ?H3; done.
Qed.

Lemma add_bridge_rule_inv sip sif dip dif (w w' : world) r : ready w -> bridge_ok sip sif dip dif ->
  validate_ipv4_string sip = Done true -> validate_ipv4_string dip = Done true ->
  add_bridge_rule sip sif dip dif w = Done (r, w') ->
  (r = -1 /\ ready w' /\ now w' = now w) \/
  (r = 0 /\ chain_is FORWARD (place (bridge_rule sip sif dip dif) (forward (now w))) w w').
Proof.
  intros Hw Hok Hv1 Hv2. unfold add_bridge_rule. rewrite Hv1, Hv2.
  do 2 (erewrite bind_run by done; cbn [negb]). intros (r1 & w1 & Hget & H)%bind_done.
  apply get_rules_inv in Hget as (Hw1 & Hn1 & Hlist & ->); [|done]. cbn [rules_of] in *.
  unfold ip_ask in H. erewrite bind_run in H by done. rewrite (rd_exec w1 (rd_armed w1 Hw1)) in H.
  case_bool_decide as He; cbn [Z.ltb Z.compare andb] in H.
  { injection H as <- <-. by left. }
  erewrite bind_run in H by done. rewrite Hlist, find_baseif_columns in H. unfold place. cbn [r_in bridge_rule].
  destruct (rd_rules w Hw FORWARD) as [_ Hl]. cbn [rules_of] in Hl.
  set (i := match list_find (rejects sif) (forward (now w)) with Some (i, _) => i | None => O end).
  assert ((i <= length (forward (now w)))%nat /\ 1 + Z.of_nat i < 10 ^ 9) as [Hi Hk].
  { unfold MAX_RULES, zlen in Hl. subst i. destruct (list_find _ _) as [[i x]|] eqn:Hf; [|lia].
    apply list_find_lt in Hf. lia. }
  match type of H with context [num_buf ?n] => assert (n = 1 + Z.of_nat i) as Hnum end.
  { subst i. destruct (list_find _ _) as [[i x]|]; [|done]. by rewrite (proj2 (Z.eqb_neq _ _)) by lia. }
  rewrite Hnum in H. rewrite num_buf_run in H by lia.
  erewrite bind_run in H by done. apply bind_done in H as (r2 & w2 & Hrun & H). injection H as <- <-.
  rewrite <- Hn1 in *. destruct (insert_bridge_inv i _ _ _ _ _ _ _ Hw1 Hok Hi Hk Hrun) as [(-> & Hw2 & Hn2)|[-> Hc]].
  - left. done.
  - right. split; [done|]. destruct Hc as [Hw2 Hn2]. split; [done|]. by rewrite Hn2, Hn1.
Qed.

Lemma delete_bridge_inv sip sif dip dif (w w' : world) r : ready w ->
  iptables_delete_bridge sip sif dip dif w = Done (r, w') ->
  chain_is FORWARD (remove_first (bridge_rule dip dif sip sif)
                      (remove_first (bridge_rule sip sif dip dif) (forward (now w)))) w w'.
Proof.
  intros Hw. unfold iptables_delete_bridge. intros (r1 & w1 & H1 & H)%bind_done.
  apply delete_bridge_rule_inv in H1 as [-> [Hw1 Hn1]]; [|done].
  case_bool_decide as He; cbn [Z.ltb Z.compare] in H.
  - injection H as <- <-. split; [done|]. rewrite Hn1, He. done.
  - apply bind_done in H as (r2 & w2 & H2 & H).
    apply delete_bridge_rule_inv in H2 as [-> [Hw2 Hn2]]; [|done]. injection H as <- <-.
    split; [done|]. rewrite Hn2, Hn1. done.
Qed.
(** *** Edits do not fault *)

Lemma zlen_number k : 0 <= k < 10 ^ 9 -> zlen (fmt_d k) <= 9.
Proof.
  intros Hk. unfold fmt_d, zlen. rewrite (proj2 (Z.ltb_ge _ _)) by lia.
  pose proof (zlen_fmt_u_bound 9 k ltac:(simpl; lia) ltac:(lia)). lia.
Qed.

Lemma short_delete c k : 0 <= k < 10 ^ 9 -> short (Delete c k).
Proof. intros Hk%zlen_number. unfold short. destruct c; line_length; lia. Qed.

Lemma short_bridge k sip sif dip dif : 0 <= k < 10 ^ 9 -> bridge_ok sip sif dip dif ->
  short (InsertBridge k sip sif dip dif).
Proof.
  intros Hk%zlen_number ((_ & [Hi _] & [Ho _] & [Hs _] & [Hd _]) & _). cbn in *.
  unfold IF_NAMESIZE, OS_INET_ADDRSTRLEN in *. unfold short. line_length. lia.
Qed.

Lemma short_nat k sip nif : 0 <= k < 10 ^ 9 -> printable (nat_rule sip nif) -> short (InsertNat k sip nif).
Proof.
  intros Hk%zlen_number (_ & _ & [Ho _] & [Hs _] & _). cbn in *.
  unfold IF_NAMESIZE, OS_INET_ADDRSTRLEN in *. unfold short. line_length. lia.
Qed.

Lemma total_bind {A B} (m : prog world A) (k : A -> prog world B) w :
  runs m w -> (forall a w', m w = Done (a, w') -> runs (k a) w') -> runs (m ≫= k) w.
Proof.
  intros (a & w1 & Hm) Hk. destruct (Hk a w1 Hm) as (b & w2 & H2). exists b, w2.
  by erewrite bind_run by exact Hm.
Qed.
Lemma total_ret {A} (a : A) (w : world) : runs (mret a) w.
Proof. by eexists _, _. Qed.

(** The number of the rule that is found is one of the chain. *)
Lemma found_number c (l : list iptables_columns) (w : world) ρ : ready w ->
  l = columns_from 1 (rules_of c (now w)) ->
  0 <= find_rule l (r_src ρ) (r_in ρ) (r_dst ρ) (r_out ρ) (r_target ρ) < 10 ^ 9.
Proof.
  intros Hw ->. rewrite find_rule_columns. destruct (rd_rules w Hw c) as [_ Hl]. unfold MAX_RULES, zlen in Hl.
  destruct (list_find _ _) as [[i x]|] eqn:Hf; [|lia]. apply list_find_lt in Hf. lia.
Qed.

Lemma delete_bridge_rule_total sip sif dip dif (w : world) : ready w ->
  runs (delete_bridge_rule sip sif dip dif) w.
Proof.
  intros Hw. unfold delete_bridge_rule. apply total_bind; [by apply get_rules_total|].
  intros r w1 (Hw1 & Hn1 & Hlist & _)%get_rules_inv; [|done].
  apply total_bind; [by eexists _, _|]. intros ex w2 [= <- <-].
  destruct (_ && _); [apply total_ret|]. apply total_bind; [by eexists _, _|]. intros l w2 [= <- <-]. cbv zeta.
  rewrite <- Hn1 in Hlist. pose proof (found_number FORWARD _ w1 (bridge_rule sip sif dip dif) Hw1 Hlist) as Hk.
  cbn [r_src r_in r_dst r_out r_target bridge_rule] in Hk.
  destruct (_ && _); [apply total_ret|]. rewrite num_buf_run by done.
  apply total_bind; [by eexists _, _|]. intros b w2 [= <- <-].
  apply total_bind; [apply (run_none_total (Delete FORWARD _)); [by apply rd_armed|by apply short_delete]|].
  intros. apply total_ret.
Qed.

Lemma delete_bridge_total sip sif dip dif (w : world) : ready w ->
  runs (iptables_delete_bridge sip sif dip dif) w.
Proof.
  intros Hw. unfold iptables_delete_bridge. apply total_bind; [by apply delete_bridge_rule_total|].
  intros r w1 [_ [Hw1 _]]%delete_bridge_rule_inv; [|done]. destruct (r <? 0); [apply total_ret|].
  apply total_bind; [by apply delete_bridge_rule_total|]. intros. apply total_ret.
Qed.

Lemma add_bridge_rule_total sip sif dip dif (w : world) : ready w -> bridge_ok sip sif dip dif ->
  validate_ipv4_string sip = Done true -> validate_ipv4_string dip = Done true ->
  runs (add_bridge_rule sip sif dip dif) w.
Proof.
  intros Hw Hok Hv1 Hv2. unfold add_bridge_rule. rewrite Hv1, Hv2.
  do 2 (apply total_bind; [by eexists _, _|]; intros ? ? [= <- <-]; cbn [negb]).
  apply total_bind; [by apply get_rules_total|]. intros r w1 (Hw1 & Hn1 & Hlist & _)%get_rules_inv; [|done].
  apply total_bind; [by eexists _, _|]. intros ex w2 [= <- <-].
  destruct (_ && _); [apply total_ret|]. apply total_bind; [by eexists _, _|]. intros l w2 [= <- <-]. cbv zeta.
  match goal with |- context [num_buf ?n] => assert (0 <= n < 10 ^ 9) as Hk end.
  { rewrite Hlist, find_baseif_columns. destruct (rd_rules w Hw FORWARD) as [_ Hl]. unfold MAX_RULES, zlen in Hl.
    cbn [rules_of] in *. destruct (list_find _ _) as [[i x]|] eqn:Hf; [|destruct (_ && _); lia].
    apply list_find_lt in Hf. rewrite (proj2 (Z.eqb_neq _ _)) by lia. cbn [andb]. lia. }
  rewrite num_buf_run by done. apply total_bind; [by eexists _, _|]. intros b w2 [= <- <-].
  apply total_bind; [apply (run_none_total (InsertBridge _ _ _ _ _)); [by apply rd_armed|by apply short_bridge]|].
  intros. apply total_ret.
Qed.

Lemma add_bridge_total sip sif dip dif (w : world) : ready w ->
  bridge_ok sip sif dip dif -> bridge_ok dip dif sip sif ->
  validate_ipv4_string sip = Done true -> validate_ipv4_string dip = Done true ->
  runs (iptables_add_bridge sip sif dip dif) w.
Proof.
  intros Hw Hok1 Hok2 Hv1 Hv2. unfold iptables_add_bridge.
  apply total_bind; [by apply delete_bridge_total|]. intros r w1 [Hw1 _]%delete_bridge_inv; [|done].
  apply total_bind; [by apply add_bridge_rule_total|]. intros r1 w2 H2.
  assert (ready w2) as Hw2 by (apply add_bridge_rule_inv in H2 as [(_ & ? & _)|[_ [? _]]]; done).
  destruct (r1 <? 0); [apply total_ret|]. apply total_bind; [by apply add_bridge_rule_total|]. intros r2 w3 H3.
  assert (ready w3) as Hw3 by (apply add_bridge_rule_inv in H3 as [(_ & ? & _)|[_ [? _]]]; done).
  destruct (r2 <? 0); [|apply total_ret]. apply total_bind; [by apply delete_bridge_rule_total|].
  intros. apply total_ret.
Qed.

(** The chains the code leaves behind: ready, and each accepting rule and each
    NAT rule once. *)
Record tidy (w : world) : Prop := {
  td_ready : ready w;
  td_forward : distinct (forward (now w));
  td_nat : NoDup (postrouting (now w))
}.

(** [w'] has the same NAT rules, and the rule [x] is in its forward chain as [Q]
    says. *)
Definition forwards (w w' : world) (Q : rule -> Prop) : Prop :=
  tidy w' /\ postrouting (now w') = postrouting (now w) /\ forall x, x ∈ forward (now w') <-> Q x.

Lemma delete_bridge_tidy sip sif dip dif (w w' : world) r : tidy w ->
  iptables_delete_bridge sip sif dip dif w = Done (r, w') ->
  forwards w w' (fun x => x ∈ forward (now w) /\ x <> bridge_rule sip sif dip dif /\
                        x <> bridge_rule dip dif sip sif).
Proof.
  intros [Hw Hf Hn] H. apply delete_bridge_inv in H as [Hw' Hn']; [|done].
  destruct (remove_first_distinct (bridge_rule sip sif dip dif) _ eq_refl Hf) as [Hd1 Hm1].
  destruct (remove_first_distinct (bridge_rule dip dif sip sif) _ eq_refl Hd1) as [Hd2 Hm2].
  split; [split; rewrite ?Hn'; done|]. rewrite Hn'. split; [done|]. cbn [forward set_rules].
  intros x. rewrite Hm2, Hm1. tauto.
Qed.

Lemma delete_rule_tidy sip sif dip dif (w w' : world) r : tidy w ->
  delete_bridge_rule sip sif dip dif w = Done (r, w') ->
  forwards w w' (fun x => x ∈ forward (now w) /\ x <> bridge_rule sip sif dip dif).
Proof.
  intros [Hw Hf Hn] H. apply delete_bridge_rule_inv in H as [_ [Hw' Hn']]; [|done].
  destruct (remove_first_distinct (bridge_rule sip sif dip dif) _ eq_refl Hf) as [Hd1 Hm1].
  split; [split; rewrite ?Hn'; done|]. rewrite Hn'. done.
Qed.

Lemma add_rule_tidy sip sif dip dif (w w' : world) r : tidy w -> bridge_ok sip sif dip dif ->
  validate_ipv4_string sip = Done true -> validate_ipv4_string dip = Done true ->
  bridge_rule sip sif dip dif ∉ forward (now w) ->
  add_bridge_rule sip sif dip dif w = Done (r, w') ->
  (r = -1 /\ tidy w' /\ now w' = now w) \/
  (r = 0 /\ forwards w w' (fun x => x = bridge_rule sip sif dip dif \/ x ∈ forward (now w))).
Proof.
  intros [Hw Hf Hn] Hok Hv1 Hv2 Hni H.
  apply add_bridge_rule_inv in H as [(-> & Hw' & Hn')|[-> [Hw' Hn']]]; [| |done..].
  - left. split; [done|]. split; [|done]. by split; rewrite ?Hn'.
  - right. split; [done|]. destruct (place_distinct (bridge_rule sip sif dip dif) _ eq_refl Hf Hni) as [Hd Hm].
    split; [by split; rewrite ?Hn'|]. rewrite Hn'. done.
Qed.

Lemma add_bridge_tidy sip sif dip dif (w w' : world) r : tidy w ->
  bridge_ok sip sif dip dif -> bridge_ok dip dif sip sif -> sip <> dip ->
  validate_ipv4_string sip = Done true -> validate_ipv4_string dip = Done true ->
  iptables_add_bridge sip sif dip dif w = Done (r, w') ->
  tidy w' /\ (0 <= r -> forwards w w' (fun x => x ∈ forward (now w) \/ x = bridge_rule sip sif dip dif \/
                                     x = bridge_rule dip dif sip sif)).
Proof.
  intros Ht Hok1 Hok2 Hne Hv1 Hv2. unfold iptables_add_bridge.
  intros (r0 & w0 & H0 & H)%bind_done. apply delete_bridge_tidy in H0 as (Ht0 & Hp0 & Hm0); [|done].
  apply bind_done in H as (r1 & w1 & H1 & H).
  apply add_rule_tidy in H1 as [(-> & Ht1 & _)|(-> & Ht1 & Hp1 & Hm1)]; [| |done..|rewrite Hm0; tauto].
  { injection H as <- <-. split; [done|lia]. }
  change (0 <? 0) with false in H. cbv iota in H. apply bind_done in H as (r2 & w2 & H2 & H).
  apply add_rule_tidy in H2 as [(-> & Ht2 & _)|(-> & Ht2 & Hp2 & Hm2)]; [| |done..|].
  - cbn in H. apply bind_done in H as (r3 & w3 & H3 & H).
    apply delete_rule_tidy in H3 as [Ht3 _]; [|done]. injection H as <- <-. split; [done|lia].
  - injection H as <- <-. split; [done|]. intros _. split; [done|]. split; [congruence|].
    intros x. rewrite Hm2, Hm1, Hm0.
    destruct (decide (x = bridge_rule sip sif dip dif)), (decide (x = bridge_rule dip dif sip sif)); tauto.
  - rewrite Hm1, Hm0. intros [Heq|?]; [|tauto]. by injection Heq as _ _ ?.
Qed.
(** The forward chain after a bridge has been added, rule by rule. *)
Lemma add_bridge_lists sip sif dip dif (w w' : world) : ready w ->
  bridge_ok sip sif dip dif -> bridge_ok dip dif sip sif ->
  validate_ipv4_string sip = Done true -> validate_ipv4_string dip = Done true ->
  iptables_add_bridge sip sif dip dif w = Done (0, w') ->
  let ρ1 := bridge_rule sip sif dip dif in let ρ2 := bridge_rule dip dif sip sif in
  chain_is FORWARD (place ρ2 (place ρ1 (remove_first ρ2 (remove_first ρ1 (forward (now w)))))) w w'.
Proof.
  intros Hw Hok1 Hok2 Hv1 Hv2 H. unfold iptables_add_bridge in H.
  apply bind_done in H as (r0 & w0 & H0 & H). apply delete_bridge_inv in H0 as [Hw0 Hn0]; [|done].
  apply bind_done in H as (r1 & w1 & H1 & H).
  apply add_bridge_rule_inv in H1 as [(-> & _)|[-> [Hw1 Hn1]]]; [done| |done..].
  change (0 <? 0) with false in H. cbv iota in H. apply bind_done in H as (r2 & w2 & H2 & H).
  apply add_bridge_rule_inv in H2 as [(-> & _)|[-> [Hw2 Hn2]]]; [| |done..].
  - cbn in H. by apply bind_done in H as (r3 & w3 & _ & [= ?]).
  - injection H as <-. split; [done|]. rewrite Hn2, Hn1, Hn0. done.
Qed.

(** ** NAT *)

Lemma tidy_edit_nat l (w w' : world) : tidy w -> chain_is POSTROUTING l w w' -> NoDup l ->
  tidy w' /\ forward (now w') = forward (now w) /\ postrouting (now w') = l.
Proof. intros [Hw Hf Hn] [Hw' Hn'] Hl. rewrite Hn'. split; [|done]. by split; rewrite ?Hn'. Qed.

Lemma remove_first_nodup ρ l : NoDup l ->
  NoDup (remove_first ρ l) /\ forall x, x ∈ remove_first ρ l <-> x ∈ l /\ x <> ρ.
Proof.
  intros Hd. destruct (decide (ρ ∈ l)) as [Hin|Hin].
  - pose proof (remove_first_perm ρ l Hin) as Hp. rewrite Hp, NoDup_cons in Hd.
    destruct Hd as [Hn Hd]. split; [done|]. intros x.
    assert (x ∈ l <-> x = ρ \/ x ∈ remove_first ρ l) as -> by (by rewrite <- elem_of_cons, <- Hp).
    split; [intros Hx; split; [by right|by intros ->]|tauto].
  - rewrite remove_first_absent by done. split; [done|]. intros x. split; [|tauto].
    intros Hx. split; [done|]. by intros ->.
Qed.

(** [w'] has the forward rules [Q] and the NAT rules [N]. *)
Definition chains_have (w' : world) (Q N : rule -> Prop) : Prop :=
  tidy w' /\ (forall x, x ∈ forward (now w') <-> Q x) /\ (forall x, x ∈ postrouting (now w') <-> N x).

Lemma delete_nat_tidy sip sif nif (w w' : world) r : tidy w ->
  iptables_delete_nat sip sif nif w = Done (r, w') ->
  tidy w' /\ (0 <= r -> chains_have w'
    (fun x => x ∈ forward (now w) /\ x <> bridge_rule sip sif anywhere nif /\
              x <> bridge_rule anywhere nif sip sif)
    (fun x => x ∈ postrouting (now w) /\ x <> nat_rule sip nif)).
Proof.
  intros Ht. unfold iptables_delete_nat. intros (r0 & w0 & H0 & H)%bind_done.
  apply delete_bridge_tidy in H0 as (Ht0 & Hp0 & Hm0); [|done].
  destruct (r0 <? 0); [injection H as <- <-; split; [done|lia]|].
  apply bind_done in H as (r1 & w1 & H1 & H).
  apply get_rules_inv in H1 as (Hw1 & Hn1 & Hlist & ->); [|apply Ht0]. cbn [rules_of] in *.
  assert (tidy w1) as Ht1 by (destruct Ht0; split; rewrite ?Hn1; done).
  unfold ip_ask in H. erewrite bind_run in H by done. rewrite (rd_exec w1 (rd_armed w1 Hw1)) in H.
  destruct (remove_first_nodup (nat_rule sip nif) _ (td_nat _ Ht0)) as [Hd Hm]. rewrite Hp0 in *.
  assert (nat_rule sip nif ∉ postrouting (now w) -> chains_have w1
    (fun x => x ∈ forward (now w) /\ x <> bridge_rule sip sif anywhere nif /\
              x <> bridge_rule anywhere nif sip sif)
    (fun x => x ∈ postrouting (now w) /\ x <> nat_rule sip nif)) as Hkeep.
  { intros Hni. split; [done|]. rewrite Hn1. split; [done|]. intros x. rewrite <- Hm, Hp0.
    by rewrite remove_first_absent. }
  case_bool_decide as He; cbn [Z.ltb Z.compare andb] in H.
  { injection H as <- <-. split; [done|]. intros _. apply Hkeep. rewrite He. apply not_elem_of_nil. }
  erewrite bind_run in H by done. rewrite Hlist, find_rule_columns in H.
  fold (nat_rule sip nif) in H. change (cstr "*") with any_if in H. fold (nat_rule sip nif) in H.
  destruct (list_find _ (postrouting (now w))) as [[i x]|] eqn:Hf.
  - rewrite (proj2 (Z.eqb_neq _ _)) in H by lia. cbn [andb] in H.
    pose proof (list_find_lt _ _ _ _ Hf) as Hi. destruct (rd_rules w1 Hw1 POSTROUTING) as [_ Hl].
    cbn [rules_of] in Hl. rewrite Hn1, Hp0 in Hl.
    rewrite num_buf_run in H by (unfold MAX_RULES, zlen in Hl; lia).
    erewrite bind_run in H by done. apply bind_done in H as (r2 & w2 & Hrun & H).
    rewrite <- Hp0, <- Hn1 in Hf. apply (delete_inv POSTROUTING _ _ _ _ _ _ Hw1 Hf) in Hrun as [-> Hc].
    injection H as <- <-. cbn [rules_of] in Hc. rewrite Hn1, Hp0 in Hc.
    destruct (tidy_edit_nat _ _ _ Ht1 Hc Hd) as (Ht2 & Hf2 & Hp2). split; [done|]. intros _.
    split; [done|]. rewrite Hf2, Hp2, Hn1. done.
  - cbn in H. injection H as <- <-. split; [done|]. intros _. apply Hkeep.
    apply list_find_None in Hf. rewrite list.Forall_forall in Hf. intros Hin. by destruct (Hf _ Hin).
Qed.
Lemma insert_nat_inv sip nif (w w' : world) r : tidy w -> printable (nat_rule sip nif) -> show sip = sip ->
  nat_rule sip nif ∉ postrouting (now w) ->
  run_iptables (nat_args (cstr "1") sip nif) None w = Done (r, w') ->
  tidy w' /\ forward (now w') = forward (now w) /\
  (0 <= r -> forall x, x ∈ postrouting (now w') <-> x = nat_rule sip nif \/ x ∈ postrouting (now w)).
Proof.
  intros Ht Hp Hs Hni Hrun. destruct (rd_rules w (td_ready w Ht) POSTROUTING) as [Hpr Hl]. cbn [rules_of] in *.
  change (nat_args _ _ _) with (args_of (InsertNat 1 sip nif)) in Hrun.
  apply run_command_inv in Hrun as (H1 & H2 & H3); [|apply rd_armed, Ht|cbn; lia].
  cbn [effect] in H3. rewrite Hs in H3. unfold insert_rule in H3. pose proof (zlen_nonneg (postrouting (now w))).
  rewrite !(proj2 (Z.leb_le _ _)) in H3 by lia. cbn [andb] in H3.
  destruct (Z.ltb_spec (zlen (postrouting (now w))) MAX_RULES) as [Hm|Hm]; cbn in H3; destruct H3 as [-> H3].
  - assert (chain_is POSTROUTING (nat_rule sip nif :: postrouting (now w)) w w') as Hc.
    { apply ready_edit; try done; [apply Ht|by constructor|rewrite zlen_cons; lia]. }
    apply tidy_edit_nat in Hc as (Ht' & Hf & Hpo); [|done|constructor; [done|apply Ht]].
    split; [done|]. split; [done|]. intros _ x. by rewrite Hpo, elem_of_cons.
  - split; [|rewrite H3; split; [done|lia]]. destruct Ht as [[[G1 G2 G3] G4] Hf Hn].
    split; [split; [split|]|..]; rewrite ?H1, ?H2, ?H3; done.
Qed.

Lemma insert_first_tidy sip sif dip dif (w w' : world) r : tidy w -> bridge_ok sip sif dip dif ->
  bridge_rule sip sif dip dif ∉ forward (now w) ->
  run_iptables (bridge_args (cstr "1") sip dip sif dif) None w = Done (r, w') ->
  (r = -1 /\ tidy w' /\ now w' = now w) \/
  (r = 0 /\ forwards w w' (fun x => x = bridge_rule sip sif dip dif \/ x ∈ forward (now w))).
Proof.
  intros [Hw Hf Hn] Hok Hni Hrun. change (cstr "1") with (fmt_d (1 + Z.of_nat 0)) in Hrun.
  destruct (insert_bridge_inv 0 _ _ _ _ _ _ _ Hw Hok ltac:(lia) ltac:(lia) Hrun) as [(-> & Hw' & Hn')|[-> [Hw' Hn']]].
  - left. split; [done|]. split; [|done]. by split; rewrite ?Hn'.
  - right. split; [done|]. rewrite take_0, drop_0 in Hn'. cbn [app] in Hn'. split; [split; rewrite ?Hn'; try done|].
    + by apply distinct_cons.
    + rewrite Hn'. split; [done|]. intros x. cbn [forward set_rules]. by rewrite elem_of_cons.
Qed.

Lemma add_nat_tidy sip sif nif (w w' : world) r : tidy w ->
  bridge_ok sip sif anywhere nif -> bridge_ok anywhere nif sip sif -> printable (nat_rule sip nif) ->
  sip <> anywhere -> validate_ipv4_string sip = Done true ->
  iptables_add_nat sip sif nif w = Done (r, w') ->
  tidy w' /\ (0 <= r -> chains_have w'
    (fun x => x ∈ forward (now w) \/ x = bridge_rule sip sif anywhere nif \/
              x = bridge_rule anywhere nif sip sif)
    (fun x => x ∈ postrouting (now w) \/ x = nat_rule sip nif)).
Proof.
  intros Ht Hok1 Hok2 Hpn Hne Hv. unfold iptables_add_nat. intros (r0 & w0 & H0 & H)%bind_done.
  apply delete_nat_tidy in H0 as [Ht0 Hm0]; [|done].
  destruct (Z.ltb_spec r0 0); [injection H as <- <-; split; [done|lia]|].
  destruct Hm0 as (_ & Hf0 & Hp0); [lia|]. apply bind_done in H as (r1 & w1 & H1 & H).
  apply add_rule_tidy in H1 as [(-> & Ht1 & _)|(-> & Ht1 & Hp1 & Hf1)]; [| |done..|rewrite Hf0; tauto].
  { injection H as <- <-. split; [done|lia]. }
  change (0 <? 0) with false in H. cbv iota in H. apply bind_done in H as (r2 & w2 & H2 & H).
  apply insert_first_tidy in H2 as [(-> & Ht2 & _)|(-> & Ht2 & Hp2 & Hf2)]; [| |done..|].
  2: { change (0 <? 0) with false in H. cbv iota in H. apply bind_done in H as (r3 & w3 & H3 & H).
       apply insert_nat_inv in H3 as (Ht3 & Hf3 & Hp3); [|done|done|apply Hok1|rewrite Hp2, Hp1, Hp0; tauto].
       destruct (Z.ltb_spec r3 0).
       { apply bind_done in H as (r4 & w4 & H4 & H). apply delete_bridge_tidy in H4 as [Ht4 _]; [|done].
         injection H as <- <-. split; [done|lia]. }
       injection H as <- <-. split; [done|]. intros _. split; [done|]. rewrite Hf3.
       split; intros x.
       - rewrite Hf2, Hf1, Hf0.
         destruct (decide (x = bridge_rule sip sif anywhere nif)),
           (decide (x = bridge_rule anywhere nif sip sif)); tauto.
       - rewrite Hp3, Hp2, Hp1, Hp0 by lia. destruct (decide (x = nat_rule sip nif)); tauto. }
  - cbn in H. apply bind_done in H as (r4 & w4 & H4 & H). apply delete_bridge_tidy in H4 as [Ht4 _]; [|done].
    injection H as <- <-. split; [done|lia].
  - rewrite Hf1, Hf0. intros [Heq|?]; [|tauto]. injection Heq as _ _ ?. by apply Hne.
Qed.

Lemma delete_nat_total sip sif nif (w : world) : tidy w -> runs (iptables_delete_nat sip sif nif) w.
Proof.
  intros Ht. unfold iptables_delete_nat. apply total_bind; [apply delete_bridge_total, Ht|].
  intros r w1 [Ht1 _]%delete_bridge_tidy; [|done]. destruct (r <? 0); [apply total_ret|].
  apply total_bind; [apply get_rules_total, Ht1|]. intros r1 w2 (Hw2 & Hn2 & Hlist & _)%get_rules_inv; [|apply Ht1].
  apply total_bind; [by eexists _, _|]. intros ex w3 [= <- <-].
  destruct (_ && _); [apply total_ret|]. apply total_bind; [by eexists _, _|]. intros l w3 [= <- <-]. cbv zeta.
  rewrite <- Hn2 in Hlist. pose proof (found_number POSTROUTING _ w2 (nat_rule sip nif) Hw2 Hlist) as Hk.
  cbn [r_src r_in r_dst r_out r_target nat_rule] in Hk.
  destruct (_ && _); [apply total_ret|]. rewrite num_buf_run by done.
  apply total_bind; [by eexists _, _|]. intros b w3 [= <- <-].
  apply total_bind; [apply (run_none_total (Delete POSTROUTING _)); [by apply rd_armed|by apply short_delete]|].
  intros. apply total_ret.
Qed.

Lemma add_nat_total sip sif nif (w : world) : tidy w ->
  bridge_ok sip sif anywhere nif -> bridge_ok anywhere nif sip sif -> printable (nat_rule sip nif) ->
  validate_ipv4_string sip = Done true -> sip <> anywhere ->
  runs (iptables_add_nat sip sif nif) w.
Proof.
  intros Ht Hok1 Hok2 Hp Hv Hne. unfold iptables_add_nat. apply total_bind; [by apply delete_nat_total|].
  intros r0 w0 [Ht0 Hm0]%delete_nat_tidy; [|done]. destruct (Z.ltb_spec r0 0); [apply total_ret|].
  destruct Hm0 as (_ & Hf0 & Hp0); [lia|].
  apply total_bind; [by apply add_bridge_rule_total; [apply Ht0|..]|]. intros r1 w1 H1.
  apply add_rule_tidy in H1 as [(-> & Ht1 & _)|(-> & Ht1 & Hp1 & Hf1)]; [apply total_ret| |done..|rewrite Hf0; tauto].
  change (0 <? 0) with false. cbv iota.
  apply total_bind; [apply (run_none_total (InsertBridge 1 _ _ _ _)); [apply rd_armed, Ht1|by apply short_bridge]|].
  intros r2 w2 H2. apply insert_first_tidy in H2 as [(-> & Ht2 & _)|(-> & Ht2 & Hp2 & Hf2)]; [| |done..|].
  - cbn. apply total_bind; [apply delete_bridge_total, Ht2|]. intros. apply total_ret.
  - change (0 <? 0) with false. cbv iota.
    apply total_bind; [apply (run_none_total (InsertNat 1 _ _)); [apply rd_armed, Ht2|by apply short_nat]|].
    intros r3 w3 H3. apply insert_nat_inv in H3 as (Ht3 & _); [|done|done|apply Hok1|rewrite Hp2, Hp1, Hp0; tauto].
    destruct (r3 <? 0); [|apply total_ret]. apply total_bind; [apply delete_bridge_total, Ht3|].
    intros. apply total_ret.
  - rewrite Hf1, Hf0. intros [Heq|?]; [|tauto]. injection Heq as _ _ ?. by apply Hne.
Qed.
End filter.
