(* ===== verification/FirewallService.v ===== *)
(** The firewall service keeps its promise.

    On top of [Filter]: the service implements the interface [FirewallSpec] that
    the supervisor relies on, a bridge opens the way between two devices and
    nothing else, and an [iptables] that satisfies [IptablesSpec]. *)
From stdpp Require Import strings numbers base list gmap.
From Stdlib Require Import ZArith Lia.
From S2P Require Import Prelude Os Text Net Extern Mappers Firewall Iptables Filter.

(** ** The service implements the interface *)

Lemma quad_valid a : dotted_quad a -> validate_ipv4_string a = Done true.
Proof. intros (q & Hl & Hb & ->). by apply validate_ntop. Qed.

Lemma quad_not_anywhere a : dotted_quad a -> a <> anywhere.
Proof.
  intros (q & Hl & Hb & ->) He. destruct (ntop_no_slash q Hb) as [_ Hs]. rewrite He in Hs.
  rewrite list.Forall_forall in Hs. apply (Hs 47); [|done]. apply (bool_decide_unpack _). by vm_compute.
Qed.

Section service.
Context {SY : System} {IS : IptablesSpec SY} (fc : fwctx).
#[local] Abbreviation world := (ipw (SY := SY)).
#[local] Abbreviation now w := (rules (ip_sys w)).

(** The interface names fit their arrays and are words. *)
Definition config_ok : Prop :=
  Forall (fun p => word IF_NAMESIZE (ci_ifname p)) (fc_ifinfo fc) /\ word IF_NAMESIZE (nat_interface fc).

Lemma quad_show a : dotted_quad a -> show a = a.
Proof. intros (q & Hl & Hb & ->). by apply show_quad. Qed.

Lemma find_ifinfo_in arr ip r p : find_ifinfo arr ip = (r, Some p) -> p ∈ arr.
Proof.
  induction arr as [|q arr IH]; cbn [find_ifinfo]; [done|].
  destruct (ip_2_nbo (ci_ip_addr q) _ _) as [r1 a1]. destruct (r1 <? 0); [done|].
  destruct (ip_2_nbo ip _ _) as [r2 a2]. destruct (r2 <? 0); [done|].
  destruct (_ =? _); [intros [= _ <-]; by left|]. intros H. right. by apply IH.
Qed.

Lemma ifname_word a i : config_ok -> ifname_of fc a = Some i -> word IF_NAMESIZE i.
Proof.
  intros [Hc _]. unfold ifname_of, get_ifname_from_ip.
  destruct (find_ifinfo (fc_ifinfo fc) a) as [r [p|]] eqn:Hf.
  - destruct r; [|done..]. cbn. intros [= <-]. apply find_ifinfo_in in Hf.
    rewrite list.Forall_forall in Hc. by apply Hc.
  - by destruct r.
Qed.

Lemma ifname_anywhere : ifname_of fc anywhere = None.
Proof.
  unfold ifname_of, get_ifname_from_ip.
  assert (forall arr, exists r, find_ifinfo arr anywhere = (r, None)) as Hf.
  { induction arr as [|q arr IH]; cbn [find_ifinfo]; [by eexists|].
    destruct (ip_2_nbo (ci_ip_addr q) _ _) as [r1 a1]. destruct (r1 <? 0); [by eexists|].
    assert (exists a, ip_2_nbo anywhere (ci_subnet_mask q) (Some 0) = (-1, a)) as [a ->]; [|by eexists].
    unfold ip_2_nbo. destruct (_ =? _); [by eexists|].
    assert ((inet_network anywhere =? INADDR_NONE) = true) as -> by (by vm_compute). by eexists. }
  destruct (Hf (fc_ifinfo fc)) as [r ->]. by destruct r.
Qed.
Lemma quad_word a : dotted_quad a -> word OS_INET_ADDRSTRLEN a.
Proof.
  intros (q & Hl & Hb & ->). split.
  - pose proof (zlen_inet_ntop q Hl Hb). unfold OS_INET_ADDRSTRLEN. split; [|lia].
    destruct q as [|x q]; [done|]. apply list.Forall_cons in Hb as [Hx _]. unfold is_byte in Hx.
    pose proof (fmt_u_nonempty x ltac:(lia) ltac:(lia)) as Hne. cbn [inet_ntop].
    destruct (fmt_u x) as [|c f]; [done|]. destruct q; cbn [app]; rewrite zlen_cons;
      match goal with |- 0 < 1 + zlen ?l => pose proof (zlen_nonneg l); lia end.
  - eapply Forall_impl; [by apply inet_ntop_digits|]. intros c [Hc| ->]; [|done].
    apply isdigit_range in Hc. lia.
Qed.

Lemma anywhere_word : word OS_INET_ADDRSTRLEN anywhere.
Proof. split; [done|]. by repeat constructor. Qed.

Lemma target_word : word 20 (cstr "ACCEPT") /\ word 20 (cstr "MASQUERADE") /\ word IF_NAMESIZE any_if.
Proof. repeat split; by repeat constructor. Qed.

Lemma bridge_ok_words a i b j : config_ok -> word OS_INET_ADDRSTRLEN a -> word OS_INET_ADDRSTRLEN b ->
  show a = a -> show b = b -> word IF_NAMESIZE i -> word IF_NAMESIZE j -> bridge_ok a i b j.
Proof.
  intros Hc Ha Hb Hsa Hsb Hi Hj. split; [|done]. destruct target_word as (Ht & _). done.
Qed.

(** The pair of addresses a rule connects, if it is a bridge rule between the
    interfaces of the addresses. *)
Definition pair_of (r : rule) : option (list Z * list Z) :=
  match ifname_of fc (r_src r), ifname_of fc (r_dst r) with
  | Some i, Some j =>
      if bool_decide (r = bridge_rule (r_src r) i (r_dst r) j) then Some (r_src r, r_dst r) else None
  | _, _ => None
  end.
Definition masqueraded (r : rule) : option (list Z) :=
  if bool_decide (r = nat_rule (r_src r) (nat_interface fc)) then Some (r_src r) else None.

Definition bridges (w : world) : gset (list Z * list Z) := list_to_set (omap pair_of (forward (now w))).
Definition nats (w : world) : gset (list Z) := list_to_set (omap masqueraded (postrouting (now w))).

Lemma elem_bridges w a b : (a, b) ∈ bridges w <->
  exists i j, ifname_of fc a = Some i /\ ifname_of fc b = Some j /\ bridge_rule a i b j ∈ forward (now w).
Proof.
  unfold bridges. rewrite elem_of_list_to_set, list_elem_of_omap. split.
  - intros (r & Hin & Hp). unfold pair_of in Hp.
    destruct (ifname_of fc (r_src r)) as [i|] eqn:Hi; [|done].
    destruct (ifname_of fc (r_dst r)) as [j|] eqn:Hj; [|done].
    case_bool_decide as Hr; [|done]. injection Hp as <- <-. exists i, j. by rewrite <- Hr.
  - intros (i & j & Hi & Hj & Hin). exists (bridge_rule a i b j). split; [done|]. unfold pair_of.
    cbn [r_src r_dst bridge_rule]. rewrite Hi, Hj. by rewrite bool_decide_true.
Qed.

Lemma elem_nats w a : a ∈ nats w <-> nat_rule a (nat_interface fc) ∈ postrouting (now w).
Proof.
  unfold nats. rewrite elem_of_list_to_set, list_elem_of_omap. split.
  - intros (r & Hin & Hp). unfold masqueraded in Hp. case_bool_decide as Hr; [|done].
    injection Hp as <-. by rewrite <- Hr.
  - intros Hin. exists (nat_rule a (nat_interface fc)). split; [done|]. unfold masqueraded.
    by rewrite bool_decide_true.
Qed.

(** The forward rules with two bridge rules more or less. *)
Lemma bridges_ext (w' : world) (S : gset (list Z * list Z)) :
  (forall a b i j, ifname_of fc a = Some i -> ifname_of fc b = Some j ->
     bridge_rule a i b j ∈ forward (now w') <-> (a, b) ∈ S) ->
  (forall a b, (a, b) ∈ S -> is_Some (ifname_of fc a) /\ is_Some (ifname_of fc b)) ->
  bridges w' = S.
Proof.
  intros H1 H2. apply set_eq. intros [a b]. rewrite elem_bridges. split.
  - intros (i & j & Hi & Hj & Hin). by eapply H1.
  - intros Hin. destruct (H2 a b Hin) as [[i Hi] [j Hj]]. exists i, j. split; [done|]. split; [done|].
    by eapply H1.
Qed.
Lemma bridges_anywhere (w w' : world) i nif a :
  (forall x, x ∈ forward (now w') <-> x ∈ forward (now w) \/ x = bridge_rule a i anywhere nif \/
     x = bridge_rule anywhere nif a i) \/
  (forall x, x ∈ forward (now w') <-> x ∈ forward (now w) /\ x <> bridge_rule a i anywhere nif /\
     x <> bridge_rule anywhere nif a i) ->
  bridges w' = bridges w.
Proof.
  intros Hx. apply set_eq. intros [b c]. rewrite !elem_bridges.
  pose proof ifname_anywhere as Hany.
  enough (forall k l, ifname_of fc b = Some k -> ifname_of fc c = Some l ->
    bridge_rule b k c l ∈ forward (now w') <-> bridge_rule b k c l ∈ forward (now w)) as He.
  { split; intros (k & l & Hk & Hl & Hin); exists k, l; (split; [done|]); (split; [done|]);
      by apply (He k l Hk Hl). }
  intros k l Hk Hl.
  assert (bridge_rule b k c l <> bridge_rule a i anywhere nif) by (intros [= -> -> -> ->]; congruence).
  assert (bridge_rule b k c l <> bridge_rule anywhere nif a i) by (intros [= -> -> -> ->]; congruence).
  destruct Hx as [Hx|Hx]; rewrite Hx; tauto.
Qed.

Lemma bridge_rule_pair a i b j a' i' b' j' :
  ifname_of fc a = Some i -> ifname_of fc b = Some j -> ifname_of fc a' = Some i' ->
  ifname_of fc b' = Some j' ->
  bridge_rule a' i' b' j' = bridge_rule a i b j <-> (a', b') = (a, b).
Proof.
  intros Ha Hb Ha' Hb'. split; [by intros [= _ _ -> ->]|]. intros [= -> ->].
  rewrite Ha in Ha'. rewrite Hb in Hb'. congruence.
Qed.

Lemma bridges_pair (w w' : world) a i b j (add : bool) :
  ifname_of fc a = Some i -> ifname_of fc b = Some j ->
  (forall x, x ∈ forward (now w') <->
     if add then x ∈ forward (now w) \/ x = bridge_rule a i b j \/ x = bridge_rule b j a i
     else x ∈ forward (now w) /\ x <> bridge_rule a i b j /\ x <> bridge_rule b j a i) ->
  bridges w' = if add then bridges w ∪ {[(a, b); (b, a)]} else bridges w ∖ {[(a, b); (b, a)]}.
Proof.
  intros Ha Hb Hx. apply bridges_ext.
  - intros c d k l Hk Hl. rewrite Hx.
    pose proof (bridge_rule_pair a i b j c k d l Ha Hb Hk Hl) as H1.
    pose proof (bridge_rule_pair b j a i c k d l Hb Ha Hk Hl) as H2.
    assert (bridge_rule c k d l ∈ forward (now w) <-> (c, d) ∈ bridges w) as H3.
    { rewrite elem_bridges. split; [by exists k, l|]. intros (k' & l' & Hk' & Hl' & ?). congruence. }
    destruct add; [rewrite H3, H1, H2|rewrite H3]; set_solver.
  - intros c d. destruct add.
    + rewrite !elem_of_union, elem_bridges, !elem_of_singleton.
      intros [(k & l & Hk & Hl & _)|[[= -> ->]|[= -> ->]]]; rewrite ?Hk, ?Hl, ?Ha, ?Hb; by eexists.
    + rewrite elem_of_difference, elem_bridges. intros [(k & l & Hk & Hl & _) _]. rewrite Hk, Hl. by eexists.
Qed.
(** The four operations keep the chains tidy and do to the sets of the
    interface what it says. *)
Lemma service_nat_spec (Hc : config_ok) (add : bool) ip (w w' : world) r : tidy w -> dotted_quad ip ->
  (if add then fw_add_nat_ipt fc ip else fw_remove_nat_ipt fc ip) w = Done (r, w') ->
  tidy w' /\ (0 <= r -> nats w' = (if add then nats w ∪ {[ip]} else nats w ∖ {[ip]}) /\
                       bridges w' = bridges w).
Proof.
  intros Ht Hq. assert (word OS_INET_ADDRSTRLEN ip /\ show ip = ip) as [Hw Hs]
    by (split; [by apply quad_word|by apply quad_show]).
  pose proof anywhere_word as Haw. pose proof show_anywhere as Has. pose proof (proj2 Hc) as Hn.
  destruct target_word as (Hta & Htm & Hti). set (nif := nat_interface fc) in *.
  assert (forall i, ifname_of fc ip = Some i -> word IF_NAMESIZE i) as Hi
    by (intros i; by apply ifname_word).
  destruct add; unfold fw_add_nat_ipt, fw_remove_nat_ipt;
    (destruct (ifname_of fc ip) as [i|] eqn:Hif; [|intros [= <- <-]; split; [done|lia]]);
    specialize (Hi i eq_refl); intros (r1 & w1 & H1 & H)%bind_done.
  - apply add_nat_tidy in H1 as [Ht1 Hm]; [|done|by apply bridge_ok_words|by apply bridge_ok_words|done|
      by apply quad_not_anywhere|by apply quad_valid].
    destruct (Z.ltb_spec r1 0); [injection H as <- <-; split; [done|lia]|].
    injection H as <- <-. split; [done|]. intros _. destruct (Hm ltac:(lia)) as (_ & Hf & Hp). split.
    + apply set_eq. intros a. rewrite elem_nats, Hp, elem_of_union, elem_nats, elem_of_singleton.
      fold nif. split; intros [?|Heq]; [by left|right|by left|right]; [by injection Heq|by subst].
    + eapply bridges_anywhere. by left.
  - apply delete_nat_tidy in H1 as [Ht1 Hm]; [|done].
    destruct (Z.ltb_spec r1 0); [injection H as <- <-; split; [done|lia]|].
    injection H as <- <-. split; [done|]. intros _. destruct (Hm ltac:(lia)) as (_ & Hf & Hp). split.
    + apply set_eq. intros a. rewrite elem_nats, Hp, elem_of_difference, elem_nats, elem_of_singleton.
      fold nif. split; intros [? Hne]; (split; [done|]); [by intros ->|]. intros Heq. apply Hne. by injection Heq.
    + eapply bridges_anywhere. by right.
Qed.

Lemma service_bridge_spec (Hc : config_ok) (add : bool) a b (w w' : world) r : tidy w ->
  dotted_quad a -> dotted_quad b -> a <> b ->
  (if add then fw_add_bridge_ipt fc a b else fw_remove_bridge_ipt fc a b) w = Done (r, w') ->
  tidy w' /\ (0 <= r -> bridges w' = (if add then bridges w ∪ {[(a, b); (b, a)]}
                                     else bridges w ∖ {[(a, b); (b, a)]}) /\ nats w' = nats w).
Proof.
  intros Ht Ha Hb Hne. pose proof (quad_word a Ha). pose proof (quad_word b Hb).
  pose proof (quad_show a Ha). pose proof (quad_show b Hb).
  destruct add; unfold fw_add_bridge_ipt, fw_remove_bridge_ipt;
    (destruct (ifname_of fc a) as [i|] eqn:Hi; [|intros [= <- <-]; split; [done|lia]]);
    (destruct (ifname_of fc b) as [j|] eqn:Hj; [|intros [= <- <-]; split; [done|lia]]);
    pose proof (ifname_word a i Hc Hi); pose proof (ifname_word b j Hc Hj);
    intros (r1 & w1 & Hrun & Hrest)%bind_done.
  - apply add_bridge_tidy in Hrun as [Ht1 Hm]; [|done|by apply bridge_ok_words|by apply bridge_ok_words|done|
      by apply quad_valid|by apply quad_valid].
    destruct (Z.ltb_spec r1 0); [injection Hrest as <- <-; split; [done|lia]|].
    injection Hrest as <- <-. split; [done|]. intros _. destruct (Hm ltac:(lia)) as (_ & Hp & Hf).
    split; [by eapply (bridges_pair w w1 a i b j true)|]. apply set_eq. intros x. by rewrite !elem_nats, Hp.
  - apply delete_bridge_tidy in Hrun as (Ht1 & Hp & Hf); [|done].
    destruct (Z.ltb_spec r1 0); [injection Hrest as <- <-; split; [done|lia]|].
    injection Hrest as <- <-. split; [done|]. intros _.
    split; [by eapply (bridges_pair w w1 a i b j false)|]. apply set_eq. intros x. by rewrite !elem_nats, Hp.
Qed.

(** The operations return. *)
Lemma service_total (Hc : config_ok) a b (w : world) : tidy w -> dotted_quad a -> dotted_quad b ->
  runs (fw_add_nat_ipt fc a) w /\ runs (fw_remove_nat_ipt fc a) w /\
  runs (fw_add_bridge_ipt fc a b) w /\ runs (fw_remove_bridge_ipt fc a b) w.
Proof.
  intros Ht Ha Hb. pose proof (quad_word a Ha). pose proof (quad_word b Hb).
  pose proof (quad_show a Ha). pose proof (quad_show b Hb). pose proof anywhere_word.
  pose proof show_anywhere. pose proof (proj2 Hc) as Hn. destruct target_word as (Hta & Htm & Hti).
  assert (forall r (w1 : world), runs (if (r <? 0) then mret (-1) else
    (r ← run_firewall; mret (if r <? 0 then -1 else 0))) w1) as Hend
    by (intros r w1; destruct (r <? 0); by eexists _, _).
  unfold fw_add_nat_ipt, fw_remove_nat_ipt, fw_add_bridge_ipt, fw_remove_bridge_ipt.
  destruct (ifname_of fc a) as [i|] eqn:Hi; [|repeat split; apply total_ret].
  pose proof (ifname_word a i Hc Hi).
  split; [|split].
  - apply total_bind; [|intros; apply Hend]. apply add_nat_total;
      [done|by apply bridge_ok_words|by apply bridge_ok_words|done|by apply quad_valid|by apply quad_not_anywhere].
  - apply total_bind; [|intros; apply Hend]. by apply delete_nat_total.
  - destruct (ifname_of fc b) as [j|] eqn:Hj; [|split; apply total_ret]. pose proof (ifname_word b j Hc Hj).
    split; (apply total_bind; [|intros; apply Hend]).
    + apply add_bridge_total; [apply Ht|by apply bridge_ok_words|by apply bridge_ok_words|by apply quad_valid..].
    + apply delete_bridge_total, Ht.
Qed.


#[refine] Definition iptables_firewall_spec (Hc : config_ok) : FirewallSpec (iptables_firewall fc) := {|
  fw_inv := tidy : @fw (iptables_firewall fc) -> Prop;
  fw_addr := dotted_quad;
  fw_nat := nats : @fw (iptables_firewall fc) -> _;
  fw_bridges := bridges : @fw (iptables_firewall fc) -> _
|}.
Proof.
  - intros a b f Ht Ha Hb. destruct (service_total Hc a b f Ht Ha Hb) as ((r1 & f1 & H1) & (r2 & f2 & H2) &
      (r3 & f3 & H3) & (r4 & f4 & H4)). by repeat split; eexists.
  - intros ip f r f' Ht Hq H. by apply (service_nat_spec Hc true ip f f' r).
  - intros ip f r f' Ht Hq H. by apply (service_nat_spec Hc false ip f f' r).
  - intros a b f r f' Ht Ha Hb Hne H. by apply (service_bridge_spec Hc true a b f f' r).
  - intros a b f r f' Ht Ha Hb Hne H. by apply (service_bridge_spec Hc false a b f f' r).
Defined.
End service.

(** ** Packets *)

Record packet := { p_in : list Z; p_out : list Z; p_src : list Z; p_dst : list Z }.

Section verdict.
(** [in_net net a]: the address lies in the network; every address lies in
    [0.0.0.0/0] and an address in itself. *)
Context (in_net : list Z -> list Z -> bool).
Hypothesis in_anywhere : forall a, in_net anywhere a = true.
Hypothesis in_itself : forall a, dotted_quad a -> in_net a a = true.

Definition if_match (r p : list Z) : bool := bool_decide (r = any_if) || bool_decide (r = p).
Definition matches (r : rule) (p : packet) : bool :=
  if_match (r_in r) (p_in p) && if_match (r_out r) (p_out p) &&
  in_net (r_src r) (p_src p) && in_net (r_dst r) (p_dst p).

(** The target of the first rule that matches; the policy is to accept. *)
Fixpoint verdict (l : list rule) (p : packet) : list Z :=
  match l with
  | [] => cstr "ACCEPT"
  | r :: rest => if matches r p then r_target r else verdict rest p
  end.

(** A forward chain as [iptables_init] and the bridge commands build it. *)
Definition base_chain (l : list rule) : Prop :=
  Forall (fun r => accepting r \/ exists i, i <> any_if /\ r = if_reject i) l.

Lemma verdict_app l1 l2 p : verdict (l1 ++ l2) p =
  if existsb (fun r => matches r p) l1 then verdict l1 p else verdict l2 p.
Proof.
  induction l1 as [|r l1 IH]; [done|]. cbn. destruct (matches r p); [done|]. exact IH.
Qed.

Lemma verdict_middle_other l1 ρ l2 p : matches ρ p = false ->
  verdict (l1 ++ ρ :: l2) p = verdict (l1 ++ l2) p.
Proof. intros Hm. rewrite !verdict_app. cbn. by rewrite Hm. Qed.

Lemma verdict_middle_accept l1 ρ l2 p : accepting ρ ->
  verdict (l1 ++ l2) p = cstr "ACCEPT" -> verdict (l1 ++ ρ :: l2) p = cstr "ACCEPT".
Proof. rewrite !verdict_app. intros Ha. destruct (existsb _ l1); [done|]. cbn. by destruct (matches ρ p). Qed.

Lemma place_other ρ l p : matches ρ p = false -> verdict (place ρ l) p = verdict l p.
Proof. intros Hm. unfold place. set (i := match _ with Some _ => _ | None => _ end). by rewrite verdict_middle_other, take_drop. Qed.

Lemma place_accept ρ l p : accepting ρ -> verdict l p = cstr "ACCEPT" -> verdict (place ρ l) p = cstr "ACCEPT".
Proof.
  intros Ha Hv. unfold place. set (i := match _ with Some _ => _ | None => _ end).
  apply verdict_middle_accept; [done|]. by rewrite take_drop.
Qed.

Lemma remove_other ρ l p : matches ρ p = false -> verdict (remove_first ρ l) p = verdict l p.
Proof.
  intros Hm. unfold remove_first. destruct (list_find (eq ρ) l) as [[i x]|] eqn:Hf; [|done].
  apply list_find_Some in Hf as (Hl & <- & _). rewrite <- (take_drop_middle l i ρ Hl) at 3.
  by rewrite verdict_middle_other.
Qed.

(** In front of the rule that rejects its interface, a rule decides. *)
Lemma place_opens ρ l p : base_chain l -> accepting ρ -> matches ρ p = true -> p_in p = r_in ρ ->
  verdict (place ρ l) p = cstr "ACCEPT".
Proof.
  intros Hb Ha Hm Hin. unfold place.
  assert (forall l1, base_chain l1 -> Forall (fun r => ~ rejects (r_in ρ) r) l1 ->
    forall l2, verdict (l1 ++ ρ :: l2) p = cstr "ACCEPT") as Hgo.
  { induction l1 as [|r l1 IH]; intros Hb1 Hn l2; cbn [app verdict]; [by rewrite Hm|].
    apply list.Forall_cons in Hb1 as [Hr Hb1]. apply list.Forall_cons in Hn as [Hnr Hn].
    destruct Hr as [Hr|(i & Hi & ->)]; [destruct (matches r p); [done|by apply IH]|].
    assert (matches (if_reject i) p = false) as ->; [|by apply IH].
    unfold matches, if_match. cbn [if_reject r_in]. rewrite bool_decide_false by done.
    rewrite bool_decide_false; [done|]. intros ->. by apply Hnr. }
  destruct (list_find (rejects (r_in ρ)) l) as [[i x]|] eqn:Hf.
  - apply Hgo; [by apply Forall_take|]. apply list_find_Some in Hf as (Hl & _ & Hlt).
    apply list.Forall_forall. intros r (j & Hj)%list_elem_of_lookup. rewrite lookup_take_Some in Hj.
    destruct Hj as [Hj1 Hj2]. eapply Hlt; eassumption.
  - apply (Hgo []); constructor.
Qed.

(** Without a rule that lets it pass, a packet of an interface with a reject
    rule is rejected. *)
Lemma verdict_closed l p : base_chain l -> if_reject (p_in p) ∈ l ->
  (forall r, r ∈ l -> accepting r -> matches r p = false) -> verdict l p = cstr "REJECT".
Proof.
  induction l as [|r l IH]; intros Hb Hin Hno; [by apply elem_of_nil in Hin|].
  apply list.Forall_cons in Hb as [Hr Hb]. cbn [verdict]. destruct (matches r p) eqn:Hm.
  - destruct Hr as [Hr|(i & _ & ->)]; [|done]. rewrite Hno in Hm; [done|by left|done].
  - apply IH; [done| |intros x Hx; apply Hno; by right]. apply elem_of_cons in Hin as [<-|Hin]; [|done].
    exfalso. revert Hm. unfold matches, if_match. cbn [if_reject r_in r_out r_src r_dst].
    rewrite !in_anywhere, (bool_decide_true (p_in p = p_in p)) by done.
    rewrite orb_true_r. cbn. by rewrite bool_decide_true.
Qed.
Lemma base_remove ρ l : base_chain l -> base_chain (remove_first ρ l).
Proof.
  intros Hb. unfold remove_first. destruct (list_find _ l) as [[i x]|]; [|done].
  apply Forall_app. split; [by apply Forall_take|by apply Forall_drop].
Qed.
Lemma base_place ρ l : accepting ρ -> base_chain l -> base_chain (place ρ l).
Proof. intros Ha Hb. unfold base_chain. rewrite place_perm. constructor; [by left|done]. Qed.

Lemma bridge_matches a i b j : dotted_quad a -> dotted_quad b ->
  matches (bridge_rule a i b j) {| p_in := i; p_out := j; p_src := a; p_dst := b |} = true.
Proof.
  intros Ha Hb. unfold matches, if_match. cbn [bridge_rule r_in r_out r_src r_dst p_in p_out p_src p_dst].
  rewrite !in_itself, (bool_decide_true (i = i)), (bool_decide_true (j = j)) by done.
  by rewrite !orb_true_r.
Qed.

Context {SY : System} {IS : IptablesSpec SY} (fc : fwctx).
#[local] Abbreviation world := (ipw (SY := SY)).
#[local] Abbreviation now w := (rules (ip_sys w)).

Lemma service_add_inv (w w' : world) a b i j : ifname_of fc a = Some i -> ifname_of fc b = Some j ->
  fw_add_bridge_ipt fc a b w = Done (0, w') -> iptables_add_bridge a i b j w = Done (0, w').
Proof.
  intros Hi Hj. unfold fw_add_bridge_ipt. rewrite Hi, Hj. intros (r & w1 & H1 & H)%bind_done.
  destruct (Z.ltb_spec r 0); [done|]. injection H as <-. rewrite H1. do 2 f_equal.
  revert H1. unfold iptables_add_bridge. intros H1. prog_inv. case_match; prog_inv; [lia|].
  case_match; prog_inv; lia.
Qed.

Lemma service_remove_inv (w w' : world) a b i j : ifname_of fc a = Some i -> ifname_of fc b = Some j ->
  fw_remove_bridge_ipt fc a b w = Done (0, w') -> exists r, iptables_delete_bridge a i b j w = Done (r, w').
Proof.
  intros Hi Hj. unfold fw_remove_bridge_ipt. rewrite Hi, Hj. intros (r & w1 & H1 & H)%bind_done.
  destruct (Z.ltb_spec r 0); [done|]. injection H as <-. by exists r.
Qed.

End verdict.

(** ** Starting up *)

Section init.
Context {SY : System} {IS : IptablesSpec SY}.
#[local] Abbreviation world := (ipw (SY := SY)).
#[local] Abbreviation now w := (rules (ip_sys w)).

Fixpoint effects (cmds : list command) (f : chains) : option chains :=
  match cmds with
  | [] => Some f
  | c :: rest => match effect show c f with Some g => effects rest g | None => None end
  end.

Lemma run_all_run cmds : forall (w : world) f, armed w -> Forall (fun c => short c /\ numbered c) cmds ->
  effects cmds (now w) = Some f ->
  exists w', run_all (args_of <$> cmds) w = Done (0, w') /\ ip_ctx w' = ip_ctx w /\
    ip_env w' = ip_env w /\ now w' = f.
Proof.
  induction cmds as [|c cmds IH]; intros w f Hw Hc He; cbn [fmap list_fmap run_all].
  - exists w. injection He as <-. done.
  - apply list.Forall_cons in Hc as [[Hs Hn] Hc]. cbn [effects] in He.
    destruct (effect show c (now w)) as [g|] eqn:Hg; [|done].
    destruct (run_none_total c w Hw Hs) as (r & w1 & Hrun). pose proof Hrun as Hinv.
    apply run_command_inv in Hinv as (H1 & H2 & H3); [|done|done]. rewrite Hg in H3. destruct H3 as [-> H3].
    assert (armed w1) as Hw1 by (destruct Hw; split; by rewrite ?H1, ?H2).
    destruct (IH w1 f Hw1 Hc) as (w' & Hrun' & E1 & E2 & E3); [by rewrite H3|].
    exists w'. erewrite bind_run by exact Hrun. change (0 <? 0) with false. cbv iota.
    rewrite E1, E2. done.
Qed.

Definition startup : list command :=
  [SetPolicy (cstr "INPUT"); SetPolicy (cstr "FORWARD"); SetPolicy (cstr "OUTPUT");
   FlushNat; FlushMangle; Flush; DeleteChains; AppendMulticast].

Lemma append_effects names : forall f, zlen (forward f) + zlen names <= MAX_RULES ->
  effects (AppendReject <$> names) f =
    Some {| forward := forward f ++ (if_reject <$> names); postrouting := postrouting f |}.
Proof.
  induction names as [|i names IH]; intros f Hl; cbn [fmap list_fmap effects].
  - rewrite app_nil_r. by destruct f.
  - rewrite zlen_cons in Hl. pose proof (zlen_nonneg names). pose proof (zlen_nonneg (forward f)).
    cbn [effect]. unfold insert_rule. rewrite !(proj2 (Z.leb_le _ _)), (proj2 (Z.ltb_lt _ _)) by lia.
    cbn [andb mbind option_bind]. replace (zlen (forward f) + 1 - 1) with (zlen (forward f)) by lia.
    rewrite to_nat_zlen, take_ge, drop_ge by lia. rewrite IH.
    + cbn. by rewrite <- app_assoc.
    + cbn [forward set_rules]. rewrite zlen_app. change (zlen [if_reject i]) with 1. lia.
Qed.

Lemma with_context_run {A} (m : prog world A) c s e a w : m {| ip_ctx := c; ip_sys := s; ip_env := e |} = Done (a, w) ->
  with_context c m (s, e) = Done ((a, ip_ctx w), (ip_sys w, ip_env w)).
Proof. unfold with_context. cbn. by intros ->. Qed.

Lemma reject_words i : word IF_NAMESIZE i -> printable (if_reject i) /\ short (AppendReject i).
Proof.
  intros Hi. split.
  - destruct target_word as (_ & _ & Hany). pose proof anywhere_word.
    split; [split; [done|by repeat constructor]|]. done.
  - destruct Hi as [Hi _]. unfold IF_NAMESIZE in Hi. unfold short. line_length. lia.
Qed.

Lemma closed_tidy arr (w : world) : armed w -> zlen arr < MAX_RULES ->
  Forall (fun p => word IF_NAMESIZE (ci_ifname p)) arr ->
  now w = {| forward := multicast_rule :: (if_reject ∘ ci_ifname <$> arr); postrouting := [] |} -> tidy w.
Proof.
  intros Hw Hlen Hnames Hn. split; [split; [done|]|..].
  - intros c. rewrite Hn. destruct c; cbn [rules_of forward postrouting]; [|by split; [constructor|done]].
    split; [constructor; [repeat split; by repeat constructor|]|].
    + apply list.Forall_forall. intros r (p & -> & Hp)%list_elem_of_fmap.
      rewrite list.Forall_forall in Hnames. by apply reject_words, Hnames.
    + rewrite zlen_cons. unfold zlen in *. rewrite length_fmap. lia.
  - rewrite Hn. cbn [forward]. apply distinct_cons; [done|]. split.
    + intros (p & Hr & _)%list_elem_of_fmap. by injection Hr.
    + unfold distinct. clear. induction arr as [|p arr IH]; [constructor|]. cbn [fmap list_fmap].
      rewrite filter_cons, decide_False by (by intros ?). exact IH.
  - rewrite Hn. constructor.
Qed.

(**  After [iptables_init] the filter is closed: the forward chain lets
    multicast pass and then rejects whatever comes in on one of the configured
    interfaces, in their order, there are no NAT rules, and the chains are tidy,
    whatever rules the system had before. *)
Theorem iptables_init_correct arr s e :
  0 < zlen ipt_path -> mallocs e = [] -> zlen arr < MAX_RULES ->
  Forall (fun p => word IF_NAMESIZE (ci_ifname p)) arr ->
  exists ctx s', iptables_init (Some ipt_path) (Some arr) true (s, e) = Done (Some ctx, (s', e)) /\
    tidy {| ip_ctx := ctx; ip_sys := s'; ip_env := e |} /\
    forward (rules s') = multicast_rule :: (if_reject ∘ ci_ifname <$> arr) /\
    postrouting (rules s') = [].
Proof.
  intros Hpath Hmem Hlen Hnames. unfold iptables_init.
  rewrite (proj2 (Z.eqb_neq _ _)) by lia.
  destruct (malloc_ok e) as (ok & e' & Hm & [_ He]). destruct (He Hmem) as [-> ->].
  erewrite bind_run by (unfold on_env; cbn [snd]; rewrite Hm; done). cbn [negb]. cbv zeta.
  replace (clip MAX_OS_PATH_LEN ipt_path) with ipt_path.
  2: { unfold clip. rewrite take_ge; [done|]. pose proof path_short. unfold MAX_OS_PATH_LEN, zlen in *. lia. }
  set (ctx := {| iptables_path := ipt_path; rule_list := []; exec_iptables := true |}).
  set (w0 := {| ip_ctx := ctx; ip_sys := s; ip_env := e |}).
  destruct (run_all_run startup w0 {| forward := [multicast_rule]; postrouting := [] |})
    as (w1 & H1 & C1 & E1 & N1); [done| |done|].
  { repeat (constructor; [split; [by vm_compute|done]|]). constructor. }
  assert (flush_iptables w0 = Done (0, w1)) as Hfl by exact H1.
  erewrite bind_run by (by apply with_context_run). cbn [fst snd]. change (0 <? 0) with false. cbv iota.
  assert (armed w1) as Hw1 by (split; by rewrite ?C1, ?E1).
  destruct (run_all_run (AppendReject <$> (ci_ifname <$> arr)) w1
    {| forward := multicast_rule :: (if_reject ∘ ci_ifname <$> arr); postrouting := [] |})
    as (w2 & H2 & C2 & E2 & N2).
  { done. }
  { apply list.Forall_forall. intros c (i & -> & (p & -> & Hp)%list_elem_of_fmap)%list_elem_of_fmap.
    split; [|done]. rewrite list.Forall_forall in Hnames. by apply reject_words, Hnames. }
  { rewrite N1, append_effects; cbn [forward postrouting app].
    - by rewrite <- list_fmap_compose.
    - change (zlen [multicast_rule]) with 1. unfold zlen in *. rewrite length_fmap. lia. }
  rewrite <- !list_fmap_compose in H2.
  assert (add_baseif_rules (Some arr) w1 = Done (0, w2)) as Hadd by exact H2.
  erewrite bind_run by (apply with_context_run; destruct w1; exact Hadd). cbn [fst snd].
  exists (ip_ctx w2), (ip_sys w2). rewrite E2, E1, N2. split; [done|]. split; [|done].
  assert (tidy w2) as Ht; [|by destruct w2; cbn in *; subst].
  apply (closed_tidy arr); [split; by rewrite ?C2, ?C1, ?E2, ?E1|done|done|done].
Qed.
End init.

(** ** A program *)

(** The [iptables] of a system that is nothing but its chains. *)
Definition parse_chain (name : list Z) : chain :=
  if bool_decide (name = cstr "FORWARD") then FORWARD else POSTROUTING.

Definition parse_args (args : list (list Z)) : option command :=
  match args with
  | [a] => Some (if bool_decide (a = cstr "-F") then Flush else DeleteChains)
  | [a; b; c] =>
      Some (if bool_decide (a = cstr "-P") then SetPolicy b
            else if bool_decide (c = cstr "nat") then FlushNat else FlushMangle)
  | [_; c; n; _; _] => Some (Delete (parse_chain c) (atoi n))
  | [_; c; _; _; _; _; _] => Some (ListChain (parse_chain c))
  | [_; _; _; _; _; i; _; _] => Some (AppendReject i)
  | [_; _; _; _; _; _; _; _; _; _] => Some AppendMulticast
  | [_; _; n; _; _; _; sip; _; _; _; nif; _; _] => Some (InsertNat (atoi n) sip nif)
  | [_; _; n; _; _; _; sip; _; dip; _; sif; _; dif; _; _] => Some (InsertBridge (atoi n) sip sif dip dif)
  | _ => None
  end.

Lemma parse_args_of cmd : numbered cmd -> parse_args (args_of cmd) = Some cmd.
Proof.
  assert (forall k, 0 <= k < 10 ^ 9 -> atoi (fmt_d k) = k) as Hatoi.
  { intros k Hk. unfold fmt_d. rewrite (proj2 (Z.ltb_ge _ _)) by lia. apply atoi_fmt_u; lia. }
  destruct cmd as [| | | | | | | | |c k|c]; cbn [numbered args_of]; intros Hk; try done.
  - cbn. by rewrite Hatoi.
  - cbn. by rewrite Hatoi.
  - cbn. rewrite Hatoi by done. by destruct c.
  - by destruct c.
Qed.

Definition print_row (k : Z) (r : rule) : list Z :=
  fmt_d k ++ 32 :: cstr "0" ++ 32 :: cstr "0" ++ 32 :: r_target r ++ 32 :: cstr "all" ++ 32 :: cstr "--" ++
  32 :: r_in r ++ 32 :: r_out r ++ 32 :: r_src r ++ 32 :: r_dst r.
Fixpoint print_rows (k : Z) (l : list rule) : list (list Z) :=
  match l with [] => [] | r :: rest => print_row k r :: print_rows (k + 1) rest end.
Definition print_listing (l : list rule) : list Z :=
  cstr "Chain" ++ 10 :: cstr "num" ++ 10 :: concat ((fun row => row ++ [10]) <$> print_rows 1 l).

#[export] Instance chains_system : System := {|
  sys := chains;
  check_file_exists _ _ := true;
  spawn argv piped s :=
    match parse_args (tail argv) with
    | Some cmd =>
        match effect id cmd s with
        | Some f => (Some (0, match cmd with ListChain c => [print_listing (rules_of c s)] | _ => [] end), f)
        | None => (Some (1, []), s)
        end
    | None => (Some (2, []), s)
    end
|}.

Lemma word_no_space n w : word n w -> (32 ∉ w) /\ w <> [].
Proof.
  intros [Hl Hw]. split; [|by intros ->; destruct Hl]. intros Hin.
  rewrite list.Forall_forall in Hw. by destruct (Hw 32 Hin) as (_ & _ & ?).
Qed.
Lemma word_free n w : word n w -> Forall (fun c => c <> 0 /\ c <> 10) w.
Proof. intros [_ Hw]. eapply Forall_impl; [exact Hw|]. by intros c (? & ? & _). Qed.

Lemma number_word k : 0 <= k < 10 ^ 18 -> word 20 (fmt_d k).
Proof.
  intros Hk. unfold fmt_d. rewrite (proj2 (Z.ltb_ge _ _)) by lia. split.
  - pose proof (zlen_fmt_u_bound 18 k ltac:(simpl; lia) ltac:(lia)) as Hl.
    pose proof (fmt_u_nonempty k ltac:(lia) ltac:(lia)). unfold zlen. destruct (fmt_u k); [done|].
    cbn [length] in *. lia.
  - eapply Forall_impl; [apply fmt_u_digits; lia|]. intros c Hc%isdigit_range. lia.
Qed.

Lemma print_row_shows k r : 0 <= k < 10 ^ 18 -> printable r -> row_shows k r (print_row k r).
Proof.
  intros Hk (Ht & Hi & Ho & Hs & Hd). pose proof (number_word k Hk) as Hn.
  unfold row_shows, print_row. split; [|split].
  - rewrite zlen_app, zlen_cons, zlen_app. destruct Hn as [? _].
    match goal with |- context [zlen (32 :: ?x)] => pose proof (zlen_nonneg (32 :: x)) end.
    change (zlen (cstr "0")) with 1. lia.
  - repeat first [apply Forall_app; split|apply List.Forall_cons_iff; split];
      try (by eapply word_free); by repeat constructor.
  - exists (cstr "0"), (cstr "0"), (cstr "all"), (cstr "--"), [].
    destruct (word_no_space _ _ Hn), (word_no_space _ _ Ht), (word_no_space _ _ Hi), (word_no_space _ _ Ho),
      (word_no_space _ _ Hs), (word_no_space _ _ Hd).
    assert (forall s : list Z, bool_decide (32 ∉ s) = true -> 32 ∉ s) as Hlit
      by (intros s; apply bool_decide_eq_true).
    rewrite split_on_cut by done. rewrite 2 split_on_cut by (by apply Hlit).
    rewrite split_on_cut by done. rewrite 2 split_on_cut by (by apply Hlit).
    rewrite 3 split_on_cut by done. rewrite split_on_last by done. cbn [app].
    rewrite !filter_cons, !decide_True by done. done.
Qed.

Lemma print_rows_show l : forall k, 0 <= k -> k + zlen l <= 10 ^ 18 -> Forall printable l ->
  rows_show k l (print_rows k l).
Proof.
  induction l as [|r l IH]; intros k Hk Hl Hp; cbn [print_rows]; [constructor|].
  apply list.Forall_cons in Hp as [Hr Hp]. rewrite zlen_cons in Hl. pose proof (zlen_nonneg l).
  constructor; [apply print_row_shows; [lia|done]|]. apply IH; [lia|lia|done].
Qed.

#[export, refine] Instance chains_spec : IptablesSpec chains_system := {|
  ipt_path := cstr "/sbin/iptables";
  rules := fun s : @sys chains_system => (s : chains);
  show := id
|}.
Proof.
  - by vm_compute.
  - done.
  - done.
  - done.
  - intros cmd piped s f Hn Hf. cbn [spawn chains_system tail]. rewrite parse_args_of by done.
    rewrite Hf. by eexists _, _.
  - intros cmd piped s Hn Hf. cbn [spawn chains_system tail]. rewrite parse_args_of by done.
    rewrite Hf. by eexists _, _, _.
  - intros c s status pieces s' Hp Hl. change (list_rule c) with (args_of (ListChain c)).
    cbn [spawn chains_system tail]. rewrite parse_args_of by done. cbn [effect].
    intros [= <- <- <-]. eexists. split; [done|].
    exists (cstr "Chain"), (cstr "num"), (print_rows 1 (rules_of c s)).
    split; [by repeat constructor|]. split; [by repeat constructor|]. split; [|done].
    apply print_rows_show; [lia|unfold MAX_RULES in Hl; lia|done].
Defined.

(** ** A firewall *)

Definition sample_fw : fwctx :=
  {| fc_ifinfo :=
       [{| ci_vlanid := 1; ci_ifname := cstr "br1"; ci_brname := cstr "br1"; ci_ip_addr := cstr "10.0.1.1";
           ci_brd_addr := cstr "10.0.1.255"; ci_subnet_mask := cstr "255.255.255.0" |};
        {| ci_vlanid := 2; ci_ifname := cstr "br2"; ci_brname := cstr "br2"; ci_ip_addr := cstr "10.0.2.1";
           ci_brd_addr := cstr "10.0.2.255"; ci_subnet_mask := cstr "255.255.255.0" |}];
     nat_interface := cstr "eth0" |}.

Definition sample_ipw : ipw :=
  {| ip_ctx := {| iptables_path := cstr "/sbin/iptables"; rule_list := []; exec_iptables := true |};
     ip_sys := {| forward := [multicast_rule; if_reject (cstr "br1"); if_reject (cstr "br2")];
                  postrouting := [] |} : @sys chains_system;
     ip_env := Env [] [] |}.

Definition addr1 : list Z := cstr "10.0.1.7".
Definition addr2 : list Z := cstr "10.0.2.9".

Lemma sample_names : Forall (fun p => word IF_NAMESIZE (ci_ifname p)) (fc_ifinfo sample_fw).
Proof. repeat (constructor; [split; [done|by repeat constructor]|]). constructor. Qed.
Lemma sample_config_ok : config_ok sample_fw.
Proof. split; [apply sample_names|]. split; [done|by repeat constructor]. Qed.
Lemma sample_tidy : tidy sample_ipw.
Proof. by apply (closed_tidy (fc_ifinfo sample_fw)); [|..|apply sample_names|]. Qed.
Lemma sample_quads : dotted_quad addr1 /\ dotted_quad addr2.
Proof. split; [exists [10; 0; 1; 7]|exists [10; 0; 2; 9]]; (split; [done|]); (split; [by repeat constructor|done]). Qed.

Lemma iptables_init_correct_witness : exists ctx s',
  iptables_init (SY := chains_system) (Some (cstr "/sbin/iptables")) (Some (fc_ifinfo sample_fw)) true
    ({| forward := [nat_rule addr1 addr2]; postrouting := [] |}, Env [] []) = Done (Some ctx, (s', Env [] [])) /\
  forward (rules s') = [multicast_rule; if_reject (cstr "br1"); if_reject (cstr "br2")].
Proof.
  destruct (iptables_init_correct (SY := chains_system) (fc_ifinfo sample_fw)
    {| forward := [nat_rule addr1 addr2]; postrouting := [] |} (Env [] []))
    as (ctx & s' & Hrun & _ & Hf & _); [by vm_compute|done|by vm_compute|apply sample_names|].
  exists ctx, s'. split; [exact Hrun|exact Hf].
Defined.



(** ** Long listings *)

Section pieces.
Context {SY : System}.
#[local] Abbreviation world := (ipw (SY := SY)).

(** Everything but the list of rules. *)
Definition rest_is (p : list Z) (ex : bool) (s : sys) (e : env) (w : world) : Prop :=
  iptables_path (ip_ctx w) = p /\ exec_iptables (ip_ctx w) = ex /\ ip_sys w = s /\ ip_env w = e.

Lemma keeps_ip_mem {A} p ex s e (m : prog env A) : (forall a e', m e = Done (a, e') -> e' = e) ->
  keeps (rest_is p ex s e) (ip_mem m).
Proof.
  intros Hm w a w' (H1 & H2 & H3 & H4). unfold ip_mem. rewrite H4.
  destruct (m e) as [[x e']|]; [|done]. rewrite (Hm x e' eq_refl). by intros [= _ <-].
Qed.

Lemma keeps_list_rule_cb p ex s e buf : mallocs e = [] -> keeps (rest_is p ex s e) (list_rule_cb buf).
Proof.
  intros He. destruct (malloc_ok e) as (ok & e0 & Hm & [_ Hok]). destruct (Hok He) as [-> ->].
  assert (keeps (rest_is p ex s e) (ip_mem malloc)) as K1.
  { apply keeps_ip_mem. intros a e' Ha. rewrite Hm in Ha. by injection Ha as <- <-. }
  assert (forall l, keeps (rest_is p ex s e) (set_rule_list l)) as K2.
  { intros l w a w' (H1 & H2 & H3 & H4) [= _ <-]. done. }
  assert (forall A (f : _ -> A), keeps (rest_is p ex s e) (ip_ask f)) as K3.
  { by intros A f w a w' Hw [= _ <-]. }
  assert (forall str sep, keeps (rest_is p ex s e) (ip_mem (split_string_array (Some str) sep (Some [])))) as K4.
  { intros str sep. apply keeps_ip_mem. intros a e'. rewrite split_array_run by done. by intros [= _ <-]. }
  assert (forall row, keeps (rest_is p ex s e) (ip_mem (process_rule_column row))) as K5.
  { intros row. apply keeps_ip_mem. intros a e'. unfold process_rule_column.
    erewrite bind_run by (by apply split_array_run). by destruct (_ <? _); intros [= _ <-]. }
  assert (forall lines, keeps (rest_is p ex s e) (process_lines lines)) as K6.
  { induction lines; cbn [process_lines]; keeps_tac. }
  unfold list_rule_cb, process_rule_lines. keeps_tac.
Qed.

Lemma list_rule_cb_unfold buf (w : world) : mallocs (ip_env w) = [] ->
  list_rule_cb buf w =
    (r ← process_rule_lines (until_nul buf); if r <? 0 then set_rule_list [] else mret tt)
      {| ip_ctx := {| iptables_path := iptables_path (ip_ctx w); rule_list := [];
                      exec_iptables := exec_iptables (ip_ctx w) |};
         ip_sys := ip_sys w; ip_env := ip_env w |}.
Proof. intros Hmem. unfold list_rule_cb. by erewrite bind_run by (by apply ip_malloc_run). Qed.

(**  Only the last piece of a listing counts.  The output of [iptables -L] is
    read in pieces of at most [PIPE_BUF] bytes and [list_rule_cb] is called for
    each; it clears the list of rules every time.  So after a listing that is
    read in two pieces the code sees exactly the rules it would see had the
    second piece been the whole listing, and a rule shown in the first piece is
    not found: [delete_bridge_rule] then reports success without deleting it. *)
Theorem long_listing_keeps_last_piece p1 p2 (w w' : world) : mallocs (ip_env w) = [] ->
  for_pieces list_rule_cb [p1; p2] w = Done (tt, w') ->
  exists w2, for_pieces list_rule_cb [p2] w = Done (tt, w2) /\
    rule_list (ip_ctx w') = rule_list (ip_ctx w2).
Proof.
  intros Hmem. cbn [for_pieces]. intros ([] & w1 & H1 & ([] & w2 & H2 & H)%bind_done)%bind_done.
  injection H as ->. apply (keeps_list_rule_cb (iptables_path (ip_ctx w)) (exec_iptables (ip_ctx w)) (ip_sys w)
    (ip_env w) _ Hmem) in H1 as (E1 & E2 & E3 & E4); [|done].
  exists w'. split; [|done]. enough (list_rule_cb p2 w = Done (tt, w')) as Hrun by (by erewrite bind_run by exact Hrun).
  rewrite <- H2, !list_rule_cb_unfold by (by rewrite ?E4). by rewrite E1, E2, E3, E4.
Qed.
End pieces.

Lemma long_listing_keeps_last_piece_witness :
  mallocs (ip_env sample_ipw) = [] /\ exists w' w2,
  for_pieces list_rule_cb [print_listing [if_reject (cstr "br1")]; cstr "rest"] sample_ipw = Done (tt, w') /\
  for_pieces list_rule_cb [cstr "rest"] sample_ipw = Done (tt, w2) /\
  rule_list (ip_ctx w') = rule_list (ip_ctx w2).
Proof.
  split; [reflexivity|].
  pose proof (after_run (for_pieces list_rule_cb [print_listing [if_reject (cstr "br1")]; cstr "rest"])
    sample_ipw tt ltac:(by vm_compute)) as Hrun.
  destruct (long_listing_keeps_last_piece _ _ sample_ipw _ eq_refl Hrun) as (w2 & H2 & Hl).
  eexists _, w2. split; [exact Hrun|]. split; [exact H2|exact Hl].
Defined.
