(* ===== verification/Supervisor.v ===== *)
(** The supervisor: the state and the commands of [src/supervisor/].

    [supervisor_context] keeps the members the commands read or write.  The
    tables, the bridge list and the timers are those of [Mappers], [BridgeList]
    and [Extern]; the firewall is the interface [Firewall].  The other services
    (access point, DHCP leases, capture threads, secrets, the database, the
    sockets and the clock) are an environment: every call to them is recorded in
    order, and its answer is any function of the calls made so far. *)
From stdpp Require Import strings numbers base list gmap.
From Stdlib Require Import ZArith Lia.
From S2P Require Import Prelude Os Text Net Extern Mappers BridgeList Firewall.

(** ** Hashes ([src/utils/hash.c]) *)

Definition md_mix (block state : Z) : Z :=
  Z.lxor (u32 (state * block)) (u32 (u32 (Z.shiftl state 3) + Z.shiftr block 2)).

(** A little-endian word; the high bytes of the last block keep the value of
    the previous one. *)
Definition le_word (l : list Z) : Z := foldr (fun b n => b + 256 * n) 0 l.
Definition overlay (l : list Z) (block : Z) : Z :=
  le_word l + 256 ^ zlen l * (block / 256 ^ zlen l).

Fixpoint md_hash_loop (fuel : nat) (msg : list Z) (block state : Z) : Z :=
  match fuel with
  | O => state
  | S fuel' =>
      if 4 <=? zlen msg then
        let block' := le_word (take 4 msg) in
        md_hash_loop fuel' (drop 4 msg) block' (md_mix block' state)
      else if negb (zlen msg =? 0) then md_mix (overlay msg block) state
      else state
  end.
Definition md_hash (msg : list Z) : Z := md_hash_loop (S (length msg)) msg 0 0xA5A5A5A5.

Definition sdbm_hash (msg : list Z) : Z :=
  foldl (fun hash b => u32 (b + u32 (Z.shiftl hash 6) + u32 (Z.shiftl hash 16) - hash)) 0 msg.

(** ** Data *)

Definition MAX_DEVICE_LABEL_SIZE : Z := 255.
Definition TICKET_PASSPHRASE_SIZE : Z := 16.
Definition TICKET_TIMEOUT : Z := 60.
Definition MAX_SEND_EVENTS_BUF_SIZE : Z := 4096.
Definition MACSTR_LEN : Z := 18.

Inductive SOCKET_TYPE := SOCKET_TYPE_NONE | SOCKET_TYPE_DOMAIN | SOCKET_TYPE_UDP.
#[export] Instance socket_type_eq_dec : EqDecision SOCKET_TYPE.
Proof. solve_decision. Defined.

(** [ca_path] are the bytes from [sun_path] to the end of the address union,
    with the padding that follows it. *)
Record client_address := {
  ca_path : list Z;
  ca_port : Z;
  ca_addr : list Z;
  ca_len : Z;
  ca_type : SOCKET_TYPE
}.

Record auth_ticket := {
  passphrase : list Z;
  passphrase_len : Z;
  device_label : list Z;
  ticket_vlanid : Z
}.

(** The pointer [context->ticket]. *)
Inductive ticket_ptr :=
| no_ticket
| live_ticket (t : auth_ticket)
| dangling_ticket.

Inductive VLAN_ALLOCATION_TYPE := VLAN_ALLOCATE_RANDOM | VLAN_ALLOCATE_HASH.
Inductive DHCP_IP_TYPE := DHCP_IP_NONE | DHCP_IP_NEW | DHCP_IP_OLD | DHCP_IP_DEL | DHCP_IP_ARP.
Inductive SUBSCRIBER_EVENT := SUBSCRIBER_EVENT_NONE | SUBSCRIBER_EVENT_IP | SUBSCRIBER_EVENT_AP.

(** The values of the enumerations, as they are printed. *)
Definition status_num (s : ap_connection_status) : Z :=
  match s with AP_DEFAULT_STATUS => 0 | AP_CONNECTED_STATUS => 1 | AP_DISCONNECTED_STATUS => 2 end.
Definition dhcp_num (t : DHCP_IP_TYPE) : Z :=
  match t with
  | DHCP_IP_NONE => 0 | DHCP_IP_NEW => 1 | DHCP_IP_OLD => 2 | DHCP_IP_DEL => 3 | DHCP_IP_ARP => 4
  end.

(** What the event loop calls back. *)
Inductive sup_timer := eloop_ticket_timeout_handler_cb.
#[export] Instance sup_timer_eq_dec : EqDecision sup_timer.
Proof. solve_decision. Defined.

(** Assignments to the members of a connection record. *)
Definition with_status (s : ap_connection_status) (i : mac_conn_info) : mac_conn_info :=
  {| mi_status := s; mi_vlanid := mi_vlanid i; mi_nat := mi_nat i;
     mi_allow_connection := mi_allow_connection i; mi_pass := mi_pass i;
     mi_pass_len := mi_pass_len i; mi_ip_addr := mi_ip_addr i;
     mi_ip_sec_addr := mi_ip_sec_addr i; mi_ifname := mi_ifname i; mi_label := mi_label i;
     mi_id := mi_id i; mi_join_timestamp := mi_join_timestamp i |}.
Definition with_access (vlan : Z) (nat allow : bool) (i : mac_conn_info) : mac_conn_info :=
  {| mi_status := mi_status i; mi_vlanid := vlan; mi_nat := nat;
     mi_allow_connection := allow; mi_pass := mi_pass i;
     mi_pass_len := mi_pass_len i; mi_ip_addr := mi_ip_addr i;
     mi_ip_sec_addr := mi_ip_sec_addr i; mi_ifname := mi_ifname i; mi_label := mi_label i;
     mi_id := mi_id i; mi_join_timestamp := mi_join_timestamp i |}.
Definition with_vlanid (v : Z) (i : mac_conn_info) := with_access v (mi_nat i) (mi_allow_connection i) i.
Definition with_nat (b : bool) (i : mac_conn_info) := with_access (mi_vlanid i) b (mi_allow_connection i) i.
Definition with_allow (b : bool) (i : mac_conn_info) := with_access (mi_vlanid i) (mi_nat i) b i.
Definition with_pass (p : list Z) (n : Z) (i : mac_conn_info) : mac_conn_info :=
  {| mi_status := mi_status i; mi_vlanid := mi_vlanid i; mi_nat := mi_nat i;
     mi_allow_connection := mi_allow_connection i; mi_pass := p;
     mi_pass_len := n; mi_ip_addr := mi_ip_addr i;
     mi_ip_sec_addr := mi_ip_sec_addr i; mi_ifname := mi_ifname i; mi_label := mi_label i;
     mi_id := mi_id i; mi_join_timestamp := mi_join_timestamp i |}.
Definition with_net (ip sec ifn : list Z) (i : mac_conn_info) : mac_conn_info :=
  {| mi_status := mi_status i; mi_vlanid := mi_vlanid i; mi_nat := mi_nat i;
     mi_allow_connection := mi_allow_connection i; mi_pass := mi_pass i;
     mi_pass_len := mi_pass_len i; mi_ip_addr := ip;
     mi_ip_sec_addr := sec; mi_ifname := ifn; mi_label := mi_label i;
     mi_id := mi_id i; mi_join_timestamp := mi_join_timestamp i |}.
Definition with_ident (label id : list Z) (t : Z) (i : mac_conn_info) : mac_conn_info :=
  {| mi_status := mi_status i; mi_vlanid := mi_vlanid i; mi_nat := mi_nat i;
     mi_allow_connection := mi_allow_connection i; mi_pass := mi_pass i;
     mi_pass_len := mi_pass_len i; mi_ip_addr := mi_ip_addr i;
     mi_ip_sec_addr := mi_ip_sec_addr i; mi_ifname := mi_ifname i; mi_label := label;
     mi_id := id; mi_join_timestamp := t |}.

(** [os_memcpy] of the first [n] bytes of [src] over an array. *)
Definition memcpy (dst src : list Z) (n : Z) : outcome (list Z) :=
  match rd src 0 n with
  | Done l => wr dst 0 l
  | Fault f => Fault f
  end.

(** ** The services around the supervisor *)

Inductive call :=
| clear_dhcp_lease (mac_str : list Z)
| check_sta_ap_command (mac_str : list Z)
| disconnect_ap_command (mac_str : list Z)
| run_capture_thread (ifname : list Z)
| put_crypt_pair (key value : list Z)
| save_sqlite_macconn_entry (conn : mac_conn)
| write_socket_data (sock : Z) (data : list Z) (addr : client_address)
| uuid_generate
| gettimeofday.

(** Answers depend on the calls made so far, the latest first.  [usable n] is
    the size of the block the allocator hands out for [n] bytes. *)
Class Services := {
  WITH_CRYPTO_SERVICE : bool;
  answer : list call -> call -> Z;
  answer_pid : list call -> Z;
  answer_uuid : list call -> list Z;
  answer_time : list call -> Z * Z;
  usable : Z -> Z;
  answer_uuid_len h : zlen (answer_uuid h) = 36;
  answer_uuid_str h : Forall (fun c => 0 < c < 128) (answer_uuid h);
  usable_enough n : n <= usable n
}.

Section supervisor.
Context {MU : Uthash (list Z) mac_conn_info} {VU : Uthash Z vlan_conn}.
Context {BL : DlList bridge_mac_tuple} {EL : Eloop sup_timer}.
Context {FW : Firewall} {SV : Services}.

Record supervisor_context := {
  mac_mapper : @hash _ _ _ MU;
  vlan_mapper : @hash _ _ _ VU;
  bridge_list : @dl_list _ BL;
  ticket : ticket_ptr;
  subscribers_array : option (list client_address);
  allow_all_connections : bool;
  allow_all_nat : bool;
  exec_capture : bool;
  allocate_vlans : bool;
  wpa_passphrase : list Z;
  wpa_passphrase_len : Z;
  default_open_vlanid : Z;
  config_ifinfo_array : list config_ifinfo_t;
  domain_sock : Z;
  udp_sock : Z
}.

(** The context with the resources it works on; [s_calls] has the latest call
    first. *)
Record sup := {
  s_ctx : supervisor_context;
  s_fw : fw;
  s_eloop : @eloop _ _ EL;
  s_env : env;
  s_calls : list call
}.

#[local] Abbreviation Sup := (prog sup).

Definition set_mac_mapper (m : @hash _ _ _ MU) (c : supervisor_context) : supervisor_context :=
  {| mac_mapper := m; vlan_mapper := vlan_mapper c; bridge_list := bridge_list c;
     ticket := ticket c; subscribers_array := subscribers_array c;
     allow_all_connections := allow_all_connections c; allow_all_nat := allow_all_nat c;
     exec_capture := exec_capture c; allocate_vlans := allocate_vlans c;
     wpa_passphrase := wpa_passphrase c; wpa_passphrase_len := wpa_passphrase_len c;
     default_open_vlanid := default_open_vlanid c;
     config_ifinfo_array := config_ifinfo_array c; domain_sock := domain_sock c;
     udp_sock := udp_sock c |}.
Definition set_vlan_mapper (m : @hash _ _ _ VU) (c : supervisor_context) : supervisor_context :=
  {| mac_mapper := mac_mapper c; vlan_mapper := m; bridge_list := bridge_list c;
     ticket := ticket c; subscribers_array := subscribers_array c;
     allow_all_connections := allow_all_connections c; allow_all_nat := allow_all_nat c;
     exec_capture := exec_capture c; allocate_vlans := allocate_vlans c;
     wpa_passphrase := wpa_passphrase c; wpa_passphrase_len := wpa_passphrase_len c;
     default_open_vlanid := default_open_vlanid c;
     config_ifinfo_array := config_ifinfo_array c; domain_sock := domain_sock c;
     udp_sock := udp_sock c |}.
Definition set_bridge_list (l : @dl_list _ BL) (c : supervisor_context) : supervisor_context :=
  {| mac_mapper := mac_mapper c; vlan_mapper := vlan_mapper c; bridge_list := l;
     ticket := ticket c; subscribers_array := subscribers_array c;
     allow_all_connections := allow_all_connections c; allow_all_nat := allow_all_nat c;
     exec_capture := exec_capture c; allocate_vlans := allocate_vlans c;
     wpa_passphrase := wpa_passphrase c; wpa_passphrase_len := wpa_passphrase_len c;
     default_open_vlanid := default_open_vlanid c;
     config_ifinfo_array := config_ifinfo_array c; domain_sock := domain_sock c;
     udp_sock := udp_sock c |}.
Definition set_ticket (t : ticket_ptr) (c : supervisor_context) : supervisor_context :=
  {| mac_mapper := mac_mapper c; vlan_mapper := vlan_mapper c; bridge_list := bridge_list c;
     ticket := t; subscribers_array := subscribers_array c;
     allow_all_connections := allow_all_connections c; allow_all_nat := allow_all_nat c;
     exec_capture := exec_capture c; allocate_vlans := allocate_vlans c;
     wpa_passphrase := wpa_passphrase c; wpa_passphrase_len := wpa_passphrase_len c;
     default_open_vlanid := default_open_vlanid c;
     config_ifinfo_array := config_ifinfo_array c; domain_sock := domain_sock c;
     udp_sock := udp_sock c |}.
Definition set_subscribers (l : option (list client_address)) (c : supervisor_context) :
    supervisor_context :=
  {| mac_mapper := mac_mapper c; vlan_mapper := vlan_mapper c; bridge_list := bridge_list c;
     ticket := ticket c; subscribers_array := l;
     allow_all_connections := allow_all_connections c; allow_all_nat := allow_all_nat c;
     exec_capture := exec_capture c; allocate_vlans := allocate_vlans c;
     wpa_passphrase := wpa_passphrase c; wpa_passphrase_len := wpa_passphrase_len c;
     default_open_vlanid := default_open_vlanid c;
     config_ifinfo_array := config_ifinfo_array c; domain_sock := domain_sock c;
     udp_sock := udp_sock c |}.

(** ** Running code of the parts *)

Definition ask {A} (f : supervisor_context -> A) : Sup A := fun s => Done (f (s_ctx s), s).
Definition on_ctx (f : supervisor_context -> supervisor_context) : Sup unit := fun s =>
  Done (tt, {| s_ctx := f (s_ctx s); s_fw := s_fw s; s_eloop := s_eloop s; s_env := s_env s;
               s_calls := s_calls s |}).
Definition env_do {A} (m : prog env A) : Sup A := fun s =>
  match m (s_env s) with
  | Done (a, e) => Done (a, {| s_ctx := s_ctx s; s_fw := s_fw s; s_eloop := s_eloop s;
                               s_env := e; s_calls := s_calls s |})
  | Fault f => Fault f
  end.
Definition fw_do (m : prog fw Z) : Sup Z := fun s =>
  match m (s_fw s) with
  | Done (a, w) => Done (a, {| s_ctx := s_ctx s; s_fw := w; s_eloop := s_eloop s;
                               s_env := s_env s; s_calls := s_calls s |})
  | Fault f => Fault f
  end.
(** A call with the answer [get] reads from the history. *)
Definition ask_service {A} (c : call) (get : list call -> A) : Sup A := fun s =>
  Done (get (s_calls s),
        {| s_ctx := s_ctx s; s_fw := s_fw s; s_eloop := s_eloop s; s_env := s_env s;
           s_calls := c :: s_calls s |}).
Definition do_call (c : call) : Sup Z := ask_service c (fun h => answer h c).

(** ** Utilities ([supervisor_utils.c]) *)

(** [random] is what [rand] returns. *)
Definition allocate_vlan (mac : list Z) (type : VLAN_ALLOCATION_TYPE) (random : Z) : Sup Z :=
  arr ← ask config_ifinfo_array;
  vlan0 ← ask default_open_vlanid;
  let len := zlen arr in
  if len <=? 1 then mret vlan0
  else
    ok ← env_do malloc;
    if negb ok then mret (-1)
    else
      let vlan_arr := ci_vlanid <$> arr in
      let idx := match type with
                 | VLAN_ALLOCATE_RANDOM => os_get_random_int_range 0 len random
                 | VLAN_ALLOCATE_HASH => sdbm_hash mac mod len
                 end in
      lift_outcome (match (if idx <? 0 then None else vlan_arr !! Z.to_nat idx) with
                    | Some v => Done v
                    | None => Fault OutOfBounds
                    end).

Definition save_to_crypt (info : mac_conn_info) : Sup Z :=
  value ← lift_outcome (rd (mi_pass info) 0 (mi_pass_len info));
  r ← do_call (put_crypt_pair (mi_id info) value);
  mret (if r <? 0 then -1 else 0).

Definition save_mac_mapper (conn : mac_conn) : Sup Z :=
  conn ← (if bool_decide (mi_id (mac_info conn) = []) then
            id ← ask_service uuid_generate answer_uuid;
            mret {| mac_addr := mac_addr conn;
                    mac_info := with_ident (mi_label (mac_info conn)) id
                                  (mi_join_timestamp (mac_info conn)) (mac_info conn) |}
          else mret conn);
  mapper ← ask mac_mapper;
  x ← env_do (put_mac_mapper (Some mapper) conn);
  _ ← on_ctx (set_mac_mapper (default mapper x.2));
  if negb x.1 then mret (-1)
  else
    oc ← (if WITH_CRYPTO_SERVICE then
            r ← save_to_crypt (mac_info conn);
            mret (if r <? 0 then None
                  else Some {| mac_addr := mac_addr conn;
                               mac_info := with_pass (zeros (Z.to_nat AP_SECRET_LEN)) 0
                                             (mac_info conn) |})
          else mret (Some conn));
    match oc with
    | None => mret (-1)
    | Some conn' =>
        r ← do_call (save_sqlite_macconn_entry conn');
        mret (if r <? 0 then -1 else 0)
    end.

(** [init_default_mac_info] with the defaults of the context. *)
Definition default_info : Sup mac_conn_info :=
  v ← ask default_open_vlanid;
  n ← ask allow_all_nat;
  mret (init_default_mac_info v n).

(** [get_mac_mapper] on the table of the context: the return value and the
    record left in [*info]. *)
Definition get_mac (mac : list Z) (info : mac_conn_info) : Sup (Z * mac_conn_info) :=
  mapper ← ask mac_mapper;
  let (r, o) := get_mac_mapper (Some mapper) (Some mac) (Some info) in
  mret (r, default info o).

Definition get_vlan (vlanid : Z) : Sup (Z * vlan_conn) :=
  mapper ← ask vlan_mapper;
  let unset := {| vc_vlanid := 0; vc_ifname := []; vc_capture_pid := 0 |} in
  let (r, o) := get_vlan_mapper (Some mapper) vlanid (Some unset) in
  mret (r, default unset o).

(** ** Events ([subscriber_events.c]) *)

(** [memcmp] of two arrays of the same length. *)
Fixpoint memcmp (a b : list Z) : Z :=
  match a, b with
  | x :: a', y :: b' => if x =? y then memcmp a' b' else x - y
  | _, _ => 0
  end.

Definition compare_client_addresses (a b : client_address) : Z :=
  if bool_decide (ca_type a = ca_type b) then
    match ca_type a with
    | SOCKET_TYPE_DOMAIN =>
        memcmp (take (Z.to_nat (ca_len a)) (ca_path a)) (take (Z.to_nat (ca_len a)) (ca_path b))
    | SOCKET_TYPE_UDP =>
        if negb (ca_port a =? ca_port b) then if ca_port a <? ca_port b then -1 else 1
        else memcmp (ca_addr a) (ca_addr b)
    | SOCKET_TYPE_NONE => -1
    end
  else -1.

Definition sort_subscribers_array (a b : client_address) : Z :=
  if negb (ca_len a =? ca_len b) then
    if ca_len a <? ca_len b then -1 else (if ca_len b <? ca_len a then 1 else 0)
  else compare_client_addresses a b.

(** [bsearch] between [l] and [u], behind [utarray_find]; the interval shrinks
    in every round. *)
Fixpoint bsearch (fuel : nat) (key : client_address) (arr : list client_address) (l u : nat) :
    option client_address :=
  match fuel with
  | O => None
  | S fuel' =>
      if (l <? u)%nat then
        let idx := Nat.div2 (l + u) in
        match arr !! idx with
        | None => None
        | Some el =>
            let comparison := sort_subscribers_array key el in
            if comparison <? 0 then bsearch fuel' key arr l idx
            else if 0 <? comparison then bsearch fuel' key arr (S idx) u
            else Some el
        end
      else None
  end.
Definition utarray_find (key : client_address) (arr : list client_address) :
    option client_address := bsearch (S (length arr)) key arr 0 (length arr).

Fixpoint sort_insert (x : client_address) (l : list client_address) : list client_address :=
  match l with
  | [] => [x]
  | y :: rest => if sort_subscribers_array x y <=? 0 then x :: l else y :: sort_insert x rest
  end.
Definition utarray_sort (l : list client_address) : list client_address :=
  foldr sort_insert [] l.

Definition add_events_subscriber (addr : client_address) : Sup Z :=
  arr ← ask subscribers_array;
  match arr with
  | None => fail_with NullDeref
  | Some l =>
      match utarray_find addr l with
      | Some _ => mret 0
      | None => _ ← on_ctx (set_subscribers (Some (utarray_sort (l ++ [addr])))); mret 0
      end
  end.

Fixpoint send_to_all (buf : list Z) (l : list client_address) : Sup unit :=
  match l with
  | [] => mret tt
  | p :: rest =>
      ds ← ask domain_sock;
      us ← ask udp_sock;
      _ ← do_call (write_socket_data (if bool_decide (ca_type p = SOCKET_TYPE_DOMAIN) then ds else us)
                     buf p);
      send_to_all buf rest
  end.

(** [args] is the formatted text.  The block is one byte short of what
    [sprintf] writes: the two strings, a space, a newline and the NUL. *)
Definition send_events (name args : list Z) : Sup Z :=
  arr ← ask subscribers_array;
  match arr with
  | None => mret 0
  | Some l =>
      let args_buf := clip MAX_SEND_EVENTS_BUF_SIZE args in
      ok ← env_do malloc;
      if negb ok then mret (-1)
      else
        let size := usable (zlen name + zlen args_buf + 2) in
        let text := name ++ [32] ++ args_buf ++ [10] in
        send_buf ← lift_outcome (wr (zeros (Z.to_nat size)) 0 (text ++ [0]));
        _ ← send_to_all (until_nul send_buf) l;
        mret 0
  end.

Definition send_events_subscriber (type : SUBSCRIBER_EVENT) (args : list Z) : Sup Z :=
  match type with
  | SUBSCRIBER_EVENT_IP => send_events (cstr "IP") args
  | SUBSCRIBER_EVENT_AP => send_events (cstr "AP") args
  | SUBSCRIBER_EVENT_NONE => mret (-1)
  end.

(** ** Network commands ([network_commands.c]) *)

Definition free_ticket : Sup unit :=
  t ← ask ticket;
  match t with
  | no_ticket => mret tt
  | live_ticket _ => on_ctx (set_ticket no_ticket)
  | dangling_ticket => fail_with UseAfterFree
  end.

Definition eloop_ticket_timeout_handler : Sup unit := free_ticket.

Definition accept_mac_cmd (mac : list Z) (vlanid : Z) : Sup Z :=
  info0 ← default_info;
  let mac_str := macstr mac in
  x ← get_mac mac info0;
  if x.1 <? 0 then mret (-1)
  else
    let info := with_vlanid vlanid (with_allow true x.2) in
    v ← get_vlan (mi_vlanid info);
    if v.1 <=? 0 then mret (-1)
    else
      let info' := with_net (mi_ip_addr info) (mi_ip_sec_addr info) (vc_ifname v.2) info in
      r ← save_mac_mapper {| mac_addr := mac; mac_info := info' |};
      if r <? 0 then mret (-1)
      else
        r ← do_call (clear_dhcp_lease mac_str);
        if r <? 0 then mret (-1)
        else
          r ← do_call (check_sta_ap_command mac_str);
          if r =? 0 then
            r ← do_call (disconnect_ap_command mac_str);
            if r <? 0 then mret (-1) else mret 0
          else mret 0.

Definition deny_mac_cmd (mac : list Z) : Sup Z :=
  info0 ← default_info;
  let mac_str := macstr mac in
  x ← get_mac mac info0;
  r ← save_mac_mapper {| mac_addr := mac; mac_info := with_allow false x.2 |};
  if r <? 0 then mret (-1)
  else
    r ← do_call (disconnect_ap_command mac_str);
    if r <? 0 then mret (-1) else mret 0.

Definition add_nat_ip (ip : list Z) : Sup Z :=
  valid ← lift_outcome (validate_ipv4_string ip);
  if (valid : bool) then
    r ← fw_do (fw_add_nat ip);
    if r <? 0 then mret (-1) else mret 0
  else mret 0.

Definition remove_nat_ip (ip : list Z) : Sup Z :=
  valid ← lift_outcome (validate_ipv4_string ip);
  if (valid : bool) then
    r ← fw_do (fw_remove_nat ip);
    if r <? 0 then mret (-1) else mret 0
  else mret 0.

Definition add_nat_cmd (mac : list Z) : Sup Z :=
  info0 ← default_info;
  x ← get_mac mac info0;
  if x.1 <? 0 then mret (-1)
  else
    let info := with_nat true x.2 in
    r ← add_nat_ip (mi_ip_addr info);
    if r <? 0 then mret (-1)
    else
      r ← add_nat_ip (mi_ip_sec_addr info);
      if r <? 0 then mret (-1)
      else
        r ← save_mac_mapper {| mac_addr := mac; mac_info := info |};
        if r <? 0 then mret (-1) else mret 0.

Definition remove_nat_cmd (mac : list Z) : Sup Z :=
  info0 ← default_info;
  x ← get_mac mac info0;
  if x.1 <? 0 then mret (-1)
  else
    let info := with_nat false x.2 in
    r ← remove_nat_ip (mi_ip_addr info);
    if r <? 0 then mret (-1)
    else
      r ← remove_nat_ip (mi_ip_sec_addr info);
      if r <? 0 then mret (-1)
      else
        r ← save_mac_mapper {| mac_addr := mac; mac_info := info |};
        if r <? 0 then mret (-1) else mret 0.

Definition assign_psk_cmd (mac pass : list Z) (pass_len : Z) : Sup Z :=
  info0 ← default_info;
  x ← get_mac mac info0;
  p ← lift_outcome (memcpy (mi_pass x.2) pass pass_len);
  r ← save_mac_mapper {| mac_addr := mac; mac_info := with_pass p pass_len x.2 |};
  if r <? 0 then mret (-1) else mret 0.

Definition clear_psk_cmd (mac : list Z) : Sup Z :=
  info0 ← default_info;
  x ← get_mac mac info0;
  r ← save_mac_mapper {| mac_addr := mac;
                         mac_info := with_pass (zeros (Z.to_nat AP_SECRET_LEN)) 0 x.2 |};
  if r <? 0 then mret (-1) else mret 0.

Definition add_bridge_ip (ip_left ip_right : list Z) : Sup Z :=
  v1 ← lift_outcome (validate_ipv4_string ip_left);
  v2 ← (if (v1 : bool) then lift_outcome (validate_ipv4_string ip_right) else mret false);
  if (v2 : bool) then
    r ← fw_do (fw_add_bridge ip_left ip_right);
    if r <? 0 then mret (-1) else mret 0
  else mret 0.

Definition delete_bridge_ip (ip_left ip_right : list Z) : Sup Z :=
  v1 ← lift_outcome (validate_ipv4_string ip_left);
  v2 ← (if (v1 : bool) then lift_outcome (validate_ipv4_string ip_right) else mret false);
  if (v2 : bool) then
    r ← fw_do (fw_remove_bridge ip_left ip_right);
    if r <? 0 then mret (-1) else mret 0
  else mret 0.

(** Calls in turn, up to the first that fails. *)
Fixpoint until_fail (l : list (Sup Z)) : Sup Z :=
  match l with
  | [] => mret 0
  | m :: rest => r ← m; if r <? 0 then mret (-1) else until_fail rest
  end.

(** An operation on the four pairs of addresses of two devices. *)
Definition on_pairs (op : list Z -> list Z -> Sup Z) (l r : mac_conn_info) : Sup Z :=
  until_fail [op (mi_ip_addr l) (mi_ip_addr r);
              op (mi_ip_addr l) (mi_ip_sec_addr r);
              op (mi_ip_sec_addr l) (mi_ip_addr r);
              op (mi_ip_sec_addr l) (mi_ip_sec_addr r)].

(** The records of both devices, if both are there.  The uninitialised
    [struct mac_conn_info] is read only when it has been filled. *)
Definition both_records (left_mac right_mac : list Z) :
    Sup (option (mac_conn_info * mac_conn_info)) :=
  let unset := init_default_mac_info 0 false in
  l ← get_mac left_mac unset;
  if l.1 =? 1 then
    r ← get_mac right_mac unset;
    mret (if r.1 =? 1 then Some (l.2, r.2) else None)
  else mret None.

Definition add_bridge_mac_cmd (left_mac right_mac : list Z) : Sup Z :=
  bl ← ask bridge_list;
  x ← env_do (add_bridge_mac (Some bl) (Some left_mac) (Some right_mac));
  _ ← on_ctx (set_bridge_list (default bl x.2));
  if 0 <=? x.1 then
    o ← both_records left_mac right_mac;
    match o with
    | Some (l, r) => on_pairs add_bridge_ip l r
    | None => mret 0
    end
  else mret (-1).

Definition add_bridge_ip_cmd (left_ip right_ip : list Z) : Sup Z :=
  mapper ← ask mac_mapper;
  l ← lift_outcome (get_ip_mapper (Some mapper) (Some left_ip) (Some []));
  if l.1 <? 0 then mret (-1)
  else if l.1 =? 0 then mret (-1)
  else
    r ← lift_outcome (get_ip_mapper (Some mapper) (Some right_ip) (Some []));
    if r.1 <? 0 then mret (-1)
    else if r.1 =? 0 then mret (-1)
    else
      bl ← ask bridge_list;
      if 0 <? check_bridge_exist (Some bl) l.2 r.2 then mret 0
      else
        z ← add_bridge_mac_cmd (default [] l.2) (default [] r.2);
        if z <? 0 then mret (-1) else mret 0.

Definition remove_bridge_cmd (left_mac right_mac : list Z) : Sup Z :=
  bl ← ask bridge_list;
  x ← lift_outcome (remove_bridge_mac (Some bl) (Some left_mac) (Some right_mac));
  _ ← on_ctx (set_bridge_list (default bl x.2));
  if 0 <=? x.1 then
    o ← both_records left_mac right_mac;
    match o with
    | Some (l, r) => on_pairs delete_bridge_ip l r
    | None => mret 0
    end
  else mret (-1).

Fixpoint remove_bridges (mac : list Z) (l : list mac_conn) : Sup unit :=
  match l with
  | [] => mret tt
  | el :: rest => _ ← remove_bridge_cmd mac (mac_addr el); remove_bridges mac rest
  end.

Definition clear_bridges_cmd (mac : list Z) : Sup Z :=
  mapper ← ask mac_mapper;
  x ← env_do (get_mac_list mapper None);
  _ ← remove_bridges mac (default [] x.2);
  mret 0.

Definition register_ticket_timeout : Sup Z := fun s =>
  let re := register_timeout TICKET_TIMEOUT eloop_ticket_timeout_handler_cb (s_eloop s) in
  Done (re.1, {| s_ctx := s_ctx s; s_fw := s_fw s; s_eloop := re.2; s_env := s_env s;
                 s_calls := s_calls s |}).

(** The passphrase array of the new ticket.  On the last two failures the
    memory is freed and the pointer is kept. *)
Definition register_ticket_cmd (mac label : list Z) (vlanid : Z) : Sup (option (list Z)) :=
  t ← ask ticket;
  match t with
  | no_ticket =>
      ok ← env_do malloc;
      if negb ok then mret None
      else
        if MAX_DEVICE_LABEL_SIZE <? zlen label + 1 then fail_with OutOfBounds
        else
          d ← env_do (os_get_random_number_s TICKET_PASSPHRASE_SIZE);
          match d with
          | None => _ ← on_ctx (set_ticket dangling_ticket); mret None
          | Some digits =>
              pass ← lift_outcome (wr (zeros (Z.to_nat AP_SECRET_LEN)) 0 digits);
              r ← register_ticket_timeout;
              if r <? 0 then _ ← on_ctx (set_ticket dangling_ticket); mret None
              else
                _ ← on_ctx (set_ticket (live_ticket
                       {| passphrase := pass; passphrase_len := TICKET_PASSPHRASE_SIZE;
                          device_label := label; ticket_vlanid := vlanid |}));
                mret (Some pass)
          end
  | _ => mret None
  end.

(** ** System commands ([system_commands.c]) *)

(** The addresses of a record after a lease event, and whether the address
    became the primary one; [inl] is an early return. *)
Definition set_ip_addrs (info : mac_conn_info) (ip : list Z) (type : DHCP_IP_TYPE) :
    Z + (list Z * list Z * bool) :=
  match type with
  | DHCP_IP_NEW | DHCP_IP_OLD =>
      if bool_decide (mi_ip_addr info = ip) then inl 0
      else if bool_decide (mi_ip_sec_addr info = ip) then inl 0
      else if zlen (mi_ip_addr info) =? 0 then
        inr (clip OS_INET_ADDRSTRLEN ip, mi_ip_sec_addr info, true)
      else if zlen (mi_ip_sec_addr info) =? 0 then
        inr (mi_ip_addr info, clip OS_INET_ADDRSTRLEN ip, false)
      else inl (-1)
  | DHCP_IP_DEL =>
      inr (if bool_decide (mi_ip_addr info = ip) then [] else mi_ip_addr info,
           if bool_decide (mi_ip_sec_addr info = ip) then [] else mi_ip_sec_addr info, false)
  | DHCP_IP_ARP => inl 0
  | DHCP_IP_NONE => inl (-1)
  end.

(** The rules of one bridged neighbour. *)
Fixpoint update_bridges (add : bool) (ip : list Z) (neighbours : list (list Z)) : Sup Z :=
  match neighbours with
  | [] => mret 0
  | p :: rest =>
      x ← get_mac p (init_default_mac_info 0 false);
      if x.1 =? 1 then
        let op := if add then add_bridge_ip ip else delete_bridge_ip ip in
        r ← until_fail [op (mi_ip_addr x.2); op (mi_ip_sec_addr x.2)];
        if r <? 0 then mret (-1) else update_bridges add ip rest
      else update_bridges add ip rest
  end.

Definition set_ip_cmd (mac ip : list Z) (type : DHCP_IP_TYPE) : Sup Z :=
  let add := match type with DHCP_IP_NEW | DHCP_IP_OLD => true | _ => false end in
  info0 ← default_info;
  arr ← ask config_ifinfo_array;
  let (r0, ifn) := get_ifname_from_ip (Some arr) (Some ip) (Some []) in
  if r0 <? 0 then mret (-1)
  else
    x ← get_mac mac info0;
    if x.1 <? 0 then mret (-1)
    else
      match set_ip_addrs x.2 ip type with
      | inl r => mret r
      | inr (ip1, ip2, primary) =>
          let info := with_net ip1 ip2 (default [] ifn) x.2 in
          r ← save_mac_mapper {| mac_addr := mac; mac_info := info |};
          if r <? 0 then mret (-1)
          else
            r ← (if add then
                   send_events_subscriber SUBSCRIBER_EVENT_IP
                     (macstr mac ++ [32] ++ ip ++ [32] ++ fmt_d (dhcp_num type) ++ [32] ++
                      fmt_d (Z.b2z primary))
                 else mret 0);
            if r <? 0 then mret (-1)
            else
              r ← (if add && mi_nat info then add_nat_ip ip
                   else if negb add && mi_nat info then remove_nat_ip ip
                   else mret 0);
              if r <? 0 then mret (-1)
              else
                bl ← ask bridge_list;
                let (n, neighbours) := get_src_mac_list (Some bl) mac in
                if n <? 0 then mret (-1) else update_bridges add ip neighbours
      end.

Definition ping_cmd : Sup (option (list Z)) :=
  ok ← env_do malloc;
  mret (if (ok : bool) then Some (cstr "PONG" ++ [10]) else None).

Definition subscribe_events_cmd (addr : client_address) : Sup Z := add_events_subscriber addr.

(** ** The service ([supervisor.c]) *)

Definition configure_mac_info (allow : bool) (vlanid pass_len : Z) (pass : list Z)
    (label : option (list Z)) (info : mac_conn_info) : outcome mac_conn_info :=
  match memcpy (mi_pass info) pass pass_len with
  | Fault f => Fault f
  | Done p =>
      let i := with_pass p pass_len (with_vlanid vlanid (with_allow allow info)) in
      Done (match label with
            | Some l => with_ident l (mi_id i) (mi_join_timestamp i) i
            | None => i
            end)
  end.

(** The thread number, or a failure. *)
Definition run_analyser (ifname : list Z) : Sup (Z * Z) :=
  pid ← ask_service (run_capture_thread ifname)
          (fun h => (answer h (run_capture_thread ifname), answer_pid h));
  mret (if pid.1 <? 0 then -1 else 0, pid.2).

Definition schedule_analyser (vlanid : Z) : Sup Z :=
  v ← get_vlan vlanid;
  if v.1 <=? 0 then mret (-1)
  else if vc_capture_pid v.2 =? 0 then
    r ← run_analyser (vc_ifname v.2);
    if negb (r.1 =? 0) then mret (-1)
    else
      mapper ← ask vlan_mapper;
      x ← env_do (put_vlan_mapper (Some mapper)
                    (Some {| vc_vlanid := vc_vlanid v.2; vc_ifname := vc_ifname v.2;
                             vc_capture_pid := r.2 |}));
      _ ← on_ctx (set_vlan_mapper (default mapper x.2));
      if negb x.1 then mret (-1) else mret 0
  else mret 0.

(** [os_get_timestamp]; [gettimeofday] answers seconds and microseconds, and
    the call fails when its answer is not zero. *)
Definition os_get_timestamp : Sup (Z * Z) :=
  x ← ask_service gettimeofday (fun h => (answer h gettimeofday, answer_time h));
  mret (if x.1 =? 0 then (0, os_to_timestamp x.2.1 x.2.2) else (-1, 0)).

(** The return value and the record with its time stamp. *)
Definition save_device_vlan (mac : list Z) (info : mac_conn_info) : Sup (Z * mac_conn_info) :=
  ec ← ask exec_capture;
  r ← (if (ec : bool) then schedule_analyser (mi_vlanid info) else mret 0);
  if r <? 0 then mret (-1, info)
  else
    t ← os_get_timestamp;
    let info' := with_ident (mi_label info) (mi_id info) t.2 info in
    if t.1 <? 0 then mret (-1, info')
    else
      r ← save_mac_mapper {| mac_addr := mac; mac_info := info' |};
      if r <? 0 then mret (-1, info') else mret (0, info').

(** Saves the record and answers with it, or with VLAN -1. *)
Definition save_or_reject (mac : list Z) (info : mac_conn_info) : Sup mac_conn_info :=
  x ← save_device_vlan mac info;
  mret (if x.1 <? 0 then with_vlanid (-1) x.2 else x.2).

(** The ticket behind the pointer. *)
Definition deref_ticket (t : ticket_ptr) : outcome (option auth_ticket) :=
  match t with
  | no_ticket => Done None
  | live_ticket t => Done (Some t)
  | dangling_ticket => Fault UseAfterFree
  end.

Definition get_mac_conn_cmd (mac : list Z) : Sup mac_conn_info :=
  av ← ask allocate_vlans;
  vlan0 ← ask default_open_vlanid;
  alloc_vlanid ← (if (av : bool) then allocate_vlan mac VLAN_ALLOCATE_HASH 0 else mret vlan0);
  nat ← ask allow_all_nat;
  all ← ask allow_all_connections;
  wpa ← ask wpa_passphrase;
  wpa_len ← ask wpa_passphrase_len;
  x ← get_mac mac (init_default_mac_info alloc_vlanid nat);
  let '(find_mac, info) := x in
  if (all : bool) && ((find_mac =? 0) || ((find_mac =? 1) && mi_allow_connection info)) then
    info' ← (if find_mac =? 0 then
               lift_outcome (configure_mac_info true alloc_vlanid wpa_len wpa None info)
             else if (find_mac =? 1) && (mi_pass_len info =? 0) then
               p ← lift_outcome (memcpy (mi_pass info) wpa wpa_len);
               mret (with_pass p wpa_len info)
             else mret info);
    save_or_reject mac info'
  else if negb all && ((find_mac =? 1) && mi_allow_connection info && negb (mi_pass_len info =? 0)) then
    save_or_reject mac info
  else if negb all && (find_mac =? -1) then mret (with_vlanid (-1) info)
  else if negb all &&
          ((find_mac =? 0) ||
           ((find_mac =? 1) && mi_allow_connection info && (mi_pass_len info =? 0))) then
    let info1 := with_allow true info in
    tp ← ask ticket;
    t ← lift_outcome (deref_ticket tp);
    match t with
    | Some t =>
        p ← lift_outcome (memcpy (mi_pass info1) (passphrase t) (passphrase_len t));
        let info2 := with_ident (device_label t) (mi_id info1) (mi_join_timestamp info1)
                       (with_pass p (passphrase_len t) (with_vlanid (ticket_vlanid t) info1)) in
        _ ← free_ticket;
        save_or_reject mac info2
    | None =>
        p ← lift_outcome (memcpy (mi_pass info1) wpa wpa_len);
        save_or_reject mac (with_pass p wpa_len (with_vlanid alloc_vlanid info1))
    end
  else mret (with_vlanid (-1) info).

Definition ap_service_callback (mac : list Z) (status : ap_connection_status) : Sup unit :=
  x ← get_mac mac (init_default_mac_info 0 false);
  _ ← (if 0 <? x.1 then
         save_mac_mapper {| mac_addr := mac; mac_info := with_status status x.2 |}
       else mret 0);
  _ ← send_events_subscriber SUBSCRIBER_EVENT_AP
        (macstr mac ++ [32] ++ fmt_d (status_num status));
  mret tt.
End supervisor.
