(* ===== verification/CmdProcessor.v ===== *)
(** The command processor of the supervisor ([src/supervisor/cmd_processor.c])
    and the handler of its control sockets ([process_received_data] of
    [src/supervisor/supervisor.c]).

    A datagram is cut into words; the first names the command, the others are
    its arguments.  Every handler checks its arguments, runs the command of
    [Supervisor] and answers on the socket.  The handlers of the commands of the
    secret store are in [CryptCommands]. *)
From stdpp Require Import strings numbers base list gmap.
From Stdlib Require Import ZArith Lia.
From S2P Require Import Prelude Os Text Net Extern Mappers BridgeList Firewall Supervisor.

Definition CMD_DELIMITER : Z := 32.
Definition OK_REPLY : list Z := cstr "OK" ++ [10].
Definition FAIL_REPLY : list Z := cstr "FAIL" ++ [10].

(** The size of the array [temp] of a line. *)
Definition LINE_SIZE : Z := 255.

(** The words of a buffer; trailing white space is cut off first. *)
Definition process_domain_buffer (domain_buffer : option (list Z)) (sep : Z) :
    prog env (option (list (list Z))) :=
  match domain_buffer with
  | None => mret None
  | Some buf =>
      if zlen buf =? 0 then mret None
      else
        ok ← malloc;
        if negb ok then mret None
        else
          x ← split_string_array (rtrim (Some (until_nul buf)) None) sep (Some []);
          if x.1 <? 0 then mret None else mret x.2
  end.

(** One line of [GET_MAP] and [GET_ALL]. *)
Definition map_line (mac : list Z) (info : mac_conn_info) : list Z :=
  (if mi_allow_connection info then cstr "a" else cstr "d") ++ [44] ++ macstr mac ++ [44] ++
  mi_ip_addr info ++ [44] ++ mi_ip_sec_addr info ++ [44] ++ fmt_d (mi_vlanid info) ++ [44] ++
  fmt_d (Z.b2z (mi_nat info)) ++ [44] ++ mi_label info ++ [44] ++ mi_id info ++ [44] ++
  fmt_d (if mi_pass_len info =? 0 then 0 else 1) ++ [44] ++ fmt_u (mi_join_timestamp info) ++
  [44] ++ fmt_d (status_num (mi_status info)) ++ [10].

Definition bridge_line (t : bridge_mac_tuple) : list Z :=
  macstr (src_addr t) ++ [44] ++ macstr (dst_addr t) ++ [10].

(** What [snprintf] leaves in the array [temp]. *)
Definition temp_array (text : list Z) : list Z :=
  clip LINE_SIZE text ++ zeros (Z.to_nat LINE_SIZE - length (clip LINE_SIZE text)).

Section cmd_processor.
Context {MU : Uthash (list Z) mac_conn_info} {VU : Uthash Z vlan_conn}.
Context {BL : DlList bridge_mac_tuple} {EL : Eloop sup_timer}.
Context {FW : Firewall} {SV : Services}.

#[local] Abbreviation Sup := (prog (sup (MU := MU) (VU := VU) (BL := BL))).

(** A command handler gets the socket, the client and the arguments. *)
Definition process_cmd_fn : Type := Z -> client_address -> list (list Z) -> Sup Z.

Definition reply (sock : Z) (addr : client_address) (data : list Z) : Sup Z :=
  do_call (write_socket_data sock data addr).

(** The answer to a command that returned [r]. *)
Definition reply_status (sock : Z) (addr : client_address) (r : Z) : Sup Z :=
  if r <? 0 then reply sock addr FAIL_REPLY else reply sock addr OK_REPLY.

Definition write_newline_socket_data (sock : Z) (data : list Z) (addr : client_address) : Sup Z :=
  o ← env_do (string_append_char (Some data) 10);
  match o with
  | None => reply sock addr FAIL_REPLY
  | Some msg => reply sock addr (until_nul msg)
  end.

(** [hwaddr_aton2] of an argument: the address if it does not fail. *)
Definition arg_mac (arg : list Z) : Sup (option (list Z)) :=
  x ← lift_outcome (edge_hwaddr_aton2 (arg ++ [0]));
  mret (if x.1 =? -1 then None else Some x.2).

(** [strtoul] and [is_number] of an argument. *)
Definition arg_int (arg : list Z) : option Z :=
  match strtoul10 arg with
  | Some v => if is_number (Some arg) then Some (to_int v) else None
  | None => None
  end.

(** A handler whose first argument is a MAC address; the rest of the arguments
    is passed on. *)
Definition with_mac (sock : Z) (addr : client_address) (args : list (list Z))
    (k : list Z -> list (list Z) -> Sup Z) : Sup Z :=
  match args with
  | [] => reply sock addr FAIL_REPLY
  | a :: rest =>
      o ← arg_mac a;
      match o with
      | None => reply sock addr FAIL_REPLY
      | Some mac => k mac rest
      end
  end.

Definition process_ping_cmd : process_cmd_fn := fun sock addr _ =>
  r ← ping_cmd;
  match r with
  | Some text => reply sock addr text
  | None => reply sock addr FAIL_REPLY
  end.

Definition process_subscribe_events_cmd : process_cmd_fn := fun sock addr _ =>
  r ← subscribe_events_cmd addr;
  reply_status sock addr r.

Definition process_accept_mac_cmd : process_cmd_fn := fun sock addr args =>
  with_mac sock addr args (fun mac rest =>
    match rest with
    | [] => reply sock addr FAIL_REPLY
    | v :: _ =>
        match arg_int v with
        | Some vlanid => r ← accept_mac_cmd mac vlanid; reply_status sock addr r
        | None => reply sock addr FAIL_REPLY
        end
    end).

Definition process_deny_mac_cmd : process_cmd_fn := fun sock addr args =>
  with_mac sock addr args (fun mac _ => r ← deny_mac_cmd mac; reply_status sock addr r).

Definition process_add_nat_cmd : process_cmd_fn := fun sock addr args =>
  with_mac sock addr args (fun mac _ => r ← add_nat_cmd mac; reply_status sock addr r).

Definition process_remove_nat_cmd : process_cmd_fn := fun sock addr args =>
  with_mac sock addr args (fun mac _ => r ← remove_nat_cmd mac; reply_status sock addr r).

Definition process_assign_psk_cmd : process_cmd_fn := fun sock addr args =>
  with_mac sock addr args (fun mac rest =>
    match rest with
    | [] => reply sock addr FAIL_REPLY
    | psk :: _ =>
        let pass_len := zlen psk in
        if (pass_len <=? AP_SECRET_LEN) && negb (pass_len =? 0) then
          r ← assign_psk_cmd mac psk pass_len;
          reply_status sock addr r
        else reply sock addr FAIL_REPLY
    end).

(** The size [snprintf] returns is that of the whole text, whatever fits. *)
Definition process_get_map_cmd : process_cmd_fn := fun sock addr args =>
  info0 ← default_info;
  with_mac sock addr args (fun mac _ =>
    x ← get_mac mac info0;
    if x.1 =? 1 then
      let text := map_line mac x.2 in
      data ← lift_outcome (rd (temp_array text) 0 (zlen text));
      reply sock addr data
    else if x.1 =? 0 then reply sock addr OK_REPLY
    else reply sock addr FAIL_REPLY).

(** Appends lines to a reply that is reallocated for each: [total] bytes are
    allocated for [buf]. *)
Fixpoint append_lines (lines : list (list Z)) (total : Z) (buf : list Z) :
    Sup (option (list Z)) :=
  match lines with
  | [] => mret (Some buf)
  | text :: rest =>
      let total' := total + zlen text + 1 in
      ok ← env_do malloc;
      if negb ok then mret None
      else
        buf' ← lift_outcome (strcat total' buf (clip LINE_SIZE text));
        append_lines rest total' buf'
  end.

Definition process_get_all_cmd : process_cmd_fn := fun sock addr _ =>
  mapper ← ask mac_mapper;
  x ← env_do (get_mac_list mapper None);
  match x.2 with
  | None => reply sock addr OK_REPLY
  | Some mac_list =>
      ok ← env_do malloc;
      if negb ok then mret (-1)
      else
        o ← append_lines ((fun el => map_line (mac_addr el) (mac_info el)) <$> mac_list) 0 [];
        match o with
        | None => mret (-1)
        | Some buf => reply sock addr buf
        end
  end.

Definition dhcp_type (arg : list Z) : option DHCP_IP_TYPE :=
  let s := clip 4 arg in
  if bool_decide (s = cstr "add") then Some DHCP_IP_NEW
  else if bool_decide (s = cstr "old") then Some DHCP_IP_OLD
  else if bool_decide (s = cstr "del") then Some DHCP_IP_DEL
  else if bool_decide (s = cstr "arp") then Some DHCP_IP_ARP
  else None.

Definition process_set_ip_cmd : process_cmd_fn := fun sock addr args =>
  match args with
  | [] => reply sock addr FAIL_REPLY
  | ty :: rest =>
      match dhcp_type ty with
      | None => reply sock addr FAIL_REPLY
      | Some DHCP_IP_ARP => reply sock addr OK_REPLY
      | Some ip_type =>
          with_mac sock addr rest (fun mac rest' =>
            match rest' with
            | [] => reply sock addr FAIL_REPLY
            | ip :: _ =>
                valid ← lift_outcome (validate_ipv4_string ip);
                if (valid : bool) then
                  r ← set_ip_cmd mac ip ip_type;
                  reply_status sock addr r
                else reply sock addr FAIL_REPLY
            end)
      end
  end.

Definition process_add_bridge_cmd : process_cmd_fn := fun sock addr args =>
  match args with
  | [] => reply sock addr FAIL_REPLY
  | a :: rest =>
      o ← arg_mac a;
      match o with
      | Some left_addr =>
          with_mac sock addr rest (fun right_addr _ =>
            r ← add_bridge_mac_cmd left_addr right_addr;
            reply_status sock addr r)
      | None =>
          v ← lift_outcome (validate_ipv4_string a);
          if (v : bool) then
            match rest with
            | [] => reply sock addr FAIL_REPLY
            | b :: _ =>
                v' ← lift_outcome (validate_ipv4_string b);
                if (v' : bool) then
                  r ← add_bridge_ip_cmd (clip OS_INET_ADDRSTRLEN a) (clip OS_INET_ADDRSTRLEN b);
                  reply_status sock addr r
                else reply sock addr FAIL_REPLY
            end
          else reply sock addr FAIL_REPLY
      end
  end.

Definition process_remove_bridge_cmd : process_cmd_fn := fun sock addr args =>
  with_mac sock addr args (fun left_addr rest =>
    with_mac sock addr rest (fun right_addr _ =>
      r ← remove_bridge_cmd left_addr right_addr;
      reply_status sock addr r)).

Definition process_clear_bridges_cmd : process_cmd_fn := fun sock addr args =>
  with_mac sock addr args (fun mac _ => r ← clear_bridges_cmd mac; reply_status sock addr r).

Definition process_get_bridges_cmd : process_cmd_fn := fun sock addr _ =>
  bl ← ask bridge_list;
  let (n, arr) := get_all_bridge_edges (Some bl) in
  if n <=? 0 then reply sock addr FAIL_REPLY
  else
    o ← append_lines (bridge_line <$> arr) 0 [];
    match o with
    | None => mret (-1)
    | Some buf => reply sock addr buf
    end.

Definition process_register_ticket_cmd : process_cmd_fn := fun sock addr args =>
  with_mac sock addr args (fun mac rest =>
    match rest with
    | [] => reply sock addr FAIL_REPLY
    | label :: rest' =>
        n ← lift_outcome (os_strnlen_s (label ++ [0]) MAX_DEVICE_LABEL_SIZE);
        if n <? MAX_DEVICE_LABEL_SIZE then
          match rest' with
          | [] => reply sock addr FAIL_REPLY
          | v :: _ =>
              match arg_int v with
              | None => reply sock addr FAIL_REPLY
              | Some vlanid =>
                  o ← register_ticket_cmd mac (clip MAX_DEVICE_LABEL_SIZE label) vlanid;
                  match o with
                  | Some pass => write_newline_socket_data sock (until_nul pass) addr
                  | None => reply sock addr FAIL_REPLY
                  end
              end
          end
        else reply sock addr FAIL_REPLY
    end).

Definition process_clear_psk_cmd : process_cmd_fn := fun sock addr args =>
  with_mac sock addr args (fun mac _ => r ← clear_psk_cmd mac; reply_status sock addr r).

Definition get_command_function (cmd : list Z) : option process_cmd_fn :=
  let named (s : string) := bool_decide (cmd = cstr s) in
  if named "PING_SUPERVISOR" then Some process_ping_cmd
  else if named "SUBSCRIBE_EVENTS" then Some process_subscribe_events_cmd
  else if named "ACCEPT_MAC" then Some process_accept_mac_cmd
  else if named "DENY_MAC" then Some process_deny_mac_cmd
  else if named "ADD_NAT" then Some process_add_nat_cmd
  else if named "REMOVE_NAT" then Some process_remove_nat_cmd
  else if named "ASSIGN_PSK" then Some process_assign_psk_cmd
  else if named "GET_MAP" then Some process_get_map_cmd
  else if named "GET_ALL" then Some process_get_all_cmd
  else if named "SET_IP" then Some process_set_ip_cmd
  else if named "ADD_BRIDGE" then Some process_add_bridge_cmd
  else if named "REMOVE_BRIDGE" then Some process_remove_bridge_cmd
  else if named "CLEAR_BRIDGE" then Some process_clear_bridges_cmd
  else if named "GET_BRIDGES" then Some process_get_bridges_cmd
  else if named "REGISTER_TICKET" then Some process_register_ticket_cmd
  else if named "CLEAR_PSK" then Some process_clear_psk_cmd
  else None.

(** [available] is what [ioctl] stores, [recv] the datagram that is read and
    its sender. *)
Definition process_received_data (sock : Z) (available : option Z)
    (recv : option (list Z * client_address)) : Sup Z :=
  match available with
  | None => mret (-1)
  | Some n =>
      ok ← env_do malloc;
      if negb ok then mret (-1)
      else
        match recv with
        | None => mret (-1)
        | Some (data, claddr) =>
            o ← env_do (process_domain_buffer (Some (take (Z.to_nat n) data)) CMD_DELIMITER);
            match o with
            | None => mret (-1)
            | Some [] => fail_with NullDeref
            | Some (cmd :: args) =>
                match get_command_function cmd with
                | None => mret 0
                | Some cfn => r ← cfn sock claddr args; mret (if r =? -1 then -1 else 0)
                end
            end
        end
  end.

(** The result is only logged. *)
Definition eloop_read_domain_handler (sock : Z) (available : option Z)
    (recv : option (list Z * client_address)) : Sup unit :=
  _ ← process_received_data sock available recv; mret tt.
Definition eloop_read_udp_handler (sock : Z) (available : option Z)
    (recv : option (list Z * client_address)) : Sup unit :=
  _ ← process_received_data sock available recv; mret tt.
End cmd_processor.

(** The commands one by one, from the function that was found for one. *)
Ltac command_cases Hget :=
  unfold get_command_function in Hget;
  repeat match type of Hget with
  | (if bool_decide (?cmd = _) then _ else _) = _ =>
      let Hc := fresh in
      destruct (bool_decide (cmd = _)) eqn:Hc in Hget;
      [apply bool_decide_eq_true in Hc; injection Hget as <-; subst cmd|clear Hc]
  end; [..|done].
