(* ===== verification/SupervisorInv.v ===== *)
(** Invariants of the supervisor.

    [sup_inv D] holds of a supervisor state when its tables are finite maps,
    its bridge list is a symmetric relation, every connection record and the
    ticket fit the arrays that hold them, a live ticket has its timeout pending,
    and every device of [D] is recorded as denied.  Every command, every station
    that asks to join, every notification of the access point and the timeout of
    the ticket preserve it, as long as no device of [D] is accepted again. *)
From stdpp Require Import strings numbers base list gmap.
From Stdlib Require Import ZArith Lia.
From S2P Require Import Prelude Os Text Net Extern Mappers BridgeList Firewall Supervisor CmdProcessor.

(** A secret of [n] bytes in its array. *)
Definition secret_ok (p : list Z) (n : Z) : Prop :=
  bytes p /\ zlen p = AP_SECRET_LEN /\ 0 <= n <= AP_SECRET_LEN.

(** A connection record whose strings fit their arrays. *)
Record info_ok (i : mac_conn_info) : Prop := {
  io_pass : secret_ok (mi_pass i) (mi_pass_len i);
  io_ip : zlen (mi_ip_addr i) < OS_INET_ADDRSTRLEN;
  io_ip_sec : zlen (mi_ip_sec_addr i) < OS_INET_ADDRSTRLEN;
  io_label : zlen (mi_label i) < MAX_DEVICE_LABEL_SIZE;
  io_id : zlen (mi_id i) <= 36
}.

Definition ticket_ok (t : ticket_ptr) (ts : list (Z * sup_timer)) : Prop :=
  match t with
  | live_ticket t =>
      secret_ok (passphrase t) (passphrase_len t) /\
      zlen (device_label t) < MAX_DEVICE_LABEL_SIZE /\
      exists secs, (secs, eloop_ticket_timeout_handler_cb) ∈ ts
  | _ => True
  end.

Lemma zlen_clip n s : 0 < n -> zlen (clip n s) < n.
Proof. intros Hn. unfold clip, zlen. rewrite length_take. lia. Qed.

Lemma secret_zeros : secret_ok (zeros (Z.to_nat AP_SECRET_LEN)) 0.
Proof.
  split; [|done]. apply Forall_forall. intros x ->%elem_of_replicate_inv. unfold is_byte. lia.
Qed.

Lemma default_ok v n : info_ok (init_default_mac_info v n).
Proof. split; [apply secret_zeros|done..]. Qed.

Lemma with_pass_ok p n i : secret_ok p n -> info_ok i -> info_ok (with_pass p n i).
Proof. intros Hp []. by split. Qed.
Lemma with_access_ok v n a i : info_ok i -> info_ok (with_access v n a i).
Proof. intros []. by split. Qed.
Lemma with_status_ok st i : info_ok i -> info_ok (with_status st i).
Proof. intros []. by split. Qed.
Lemma with_net_ok ip sec ifn i : info_ok i ->
  zlen ip < OS_INET_ADDRSTRLEN -> zlen sec < OS_INET_ADDRSTRLEN -> info_ok (with_net ip sec ifn i).
Proof. intros []. by split. Qed.
Lemma with_ident_ok l id t i : info_ok i ->
  zlen l < MAX_DEVICE_LABEL_SIZE -> zlen id <= 36 -> info_ok (with_ident l id t i).
Proof. intros []. by split. Qed.

(** Copying a secret that fits over the array of a record. *)
Lemma memcpy_ok dst src n p k : secret_ok dst k -> bytes src -> 0 <= n <= AP_SECRET_LEN ->
  memcpy dst src n = Done p -> secret_ok p n.
Proof.
  intros (Hb & Hl & _) Hs Hn. unfold memcpy. destruct (rd src 0 n) as [l|] eqn:Hr; [|done].
  intros Hw. split; [|split; [|done]].
  - eapply bytes_wr; [| |exact Hw]; [done|]. by eapply bytes_rd.
  - unfold zlen. apply length_wr in Hw. rewrite Hw. done.
Qed.

Section inv.
Context {MU : Uthash (list Z) mac_conn_info} {VU : Uthash Z vlan_conn}.
Context {BL : DlList bridge_mac_tuple} {EL : Eloop sup_timer}.
Context {FW : Firewall} {SV : Services}.
Context (D : list Z -> Prop).

#[local] Abbreviation Sup := (prog (sup (MU := MU) (VU := VU) (BL := BL))).
#[local] Abbreviation mac_map c := (hash_map (mac_mapper c)).

Record ctx_inv (c : supervisor_context (MU := MU) (VU := VU) (BL := BL))
    (ts : list (Z * sup_timer)) : Prop := {
  ci_macs : hash_wf (mac_mapper c);
  ci_vlans : hash_wf (vlan_mapper c);
  ci_bridges : bridge_wf (bridge_list c);
  ci_infos : map_Forall (fun _ => info_ok) (mac_map c);
  ci_denied : forall m, D m -> exists i, mac_map c !! m = Some i /\ mi_allow_connection i = false;
  ci_ticket : ticket_ok (ticket c) ts;
  ci_wpa : secret_ok (wpa_passphrase c) (wpa_passphrase_len c)
}.
Definition sup_inv (s : sup) : Prop := ctx_inv (s_ctx s) (timeouts (s_eloop s)).

(** ** The primitives *)

Lemma yields_ask {A} (f : supervisor_context -> A) (Q : A -> Prop) :
  (forall c ts, ctx_inv c ts -> Q (f c)) -> yields sup_inv (ask f) Q.
Proof. intros HQ s a s' Hs [= <- <-]. split; [done|]. by eapply HQ. Qed.

Lemma keeps_ask {A} (f : supervisor_context -> A) : keeps sup_inv (ask f).
Proof. by intros s a s' Hs [= _ <-]. Qed.

Lemma yields_env {A} (m : prog env A) (Q : A -> Prop) :
  (forall e a e', m e = Done (a, e') -> Q a) -> yields sup_inv (env_do m) Q.
Proof.
  intros HQ s a s' Hs. unfold env_do. destruct (m (s_env s)) as [[b e]|] eqn:Hm; [|done].
  intros [= <- <-]. split; [exact Hs|]. by eapply HQ.
Qed.

Lemma keeps_env {A} (m : prog env A) : keeps sup_inv (env_do m).
Proof. by apply yields_keeps, yields_env. Qed.

Lemma keeps_fw m : keeps sup_inv (fw_do m).
Proof. intros s a s' Hs. unfold fw_do. destruct (m (s_fw s)) as [[]|]; [|done]. by intros [= _ <-]. Qed.

Lemma yields_service {A} c (get : list call -> A) (Q : A -> Prop) :
  (forall h, Q (get h)) -> yields sup_inv (ask_service c get) Q.
Proof. intros HQ s a s' Hs [= <- <-]. done. Qed.

Lemma keeps_service {A} c (get : list call -> A) : keeps sup_inv (ask_service c get).
Proof. by intros s a s' Hs [= _ <-]. Qed.

Lemma keeps_call c : keeps sup_inv (do_call c).
Proof. by intros s a s' Hs [= _ <-]. Qed.

Lemma keeps_on_ctx f : (forall c ts, ctx_inv c ts -> ctx_inv (f c) ts) -> keeps sup_inv (on_ctx f).
Proof. intros Hf s a s' Hs [= _ <-]. by apply Hf. Qed.

#[local] Hint Resolve keeps_ask keeps_env keeps_fw keeps_call : keeps.

(** ** Records *)

(** The record of a denied device says so. *)
Definition shut (mac : list Z) (i : mac_conn_info) : Prop :=
  D mac -> mi_allow_connection i = false.

Lemma yields_get_mac mac info : info_ok info ->
  yields sup_inv (get_mac mac info)
    (fun x => info_ok x.2 /\ shut mac x.2 /\ (x.1 = 1 \/ (x.1 = 0 /\ x.2 = info /\ ~ D mac))).
Proof.
  intros Hi s x s' Hs. unfold get_mac, ask. erewrite bind_run by done. cbn beta.
  rewrite get_mac_mapper_lookup. destruct (mac_map (s_ctx s) !! mac) as [i|] eqn:Hl;
    intros [= <- <-]; (split; [exact Hs|]); cbn.
  - split; [by eapply (ci_infos _ _ Hs)|]. split; [|by left]. intros Hd.
    destruct (ci_denied _ _ Hs mac Hd) as (j & Hj & Ha). unfold id. congruence.
  - split; [done|]. assert (~ D mac) as Hn.
    { intros Hd. destruct (ci_denied _ _ Hs mac Hd) as (j & Hj & _). congruence. }
    split; [by intros Hd|]. by right.
Qed.

Lemma ctx_inv_put c ts conn h :
  ctx_inv c ts -> info_ok (mac_info conn) -> shut (mac_addr conn) (mac_info conn) ->
  hash_wf h -> hash_map h = <[mac_addr conn := mac_info conn]> (mac_map c) ->
  ctx_inv (set_mac_mapper h c) ts.
Proof.
  intros [] Hi Hd Hw Hm. split; cbn; try done.
  - rewrite Hm. by apply map_Forall_insert_2.
  - intros m Hdm. rewrite Hm. destruct (decide (m = mac_addr conn)) as [->|Hne].
    + exists (mac_info conn). rewrite lookup_insert_eq. split; [done|]. by apply Hd.
    + rewrite lookup_insert_ne by done. auto.
Qed.

Lemma ctx_inv_same_macs c ts h : ctx_inv c ts -> hash_wf h -> hash_map h = mac_map c ->
  ctx_inv (set_mac_mapper h c) ts.
Proof. intros [] Hw Hm. split; cbn; rewrite ?Hm; done. Qed.

Lemma keeps_put {A} conn (k : bool * option (@hash _ _ _ MU) -> Sup A) :
  info_ok (mac_info conn) -> shut (mac_addr conn) (mac_info conn) ->
  (forall x, keeps sup_inv (k x)) ->
  keeps sup_inv (mapper ← ask mac_mapper;
                 x ← env_do (put_mac_mapper (Some mapper) conn);
                 _ ← on_ctx (set_mac_mapper (default mapper x.2));
                 k x).
Proof.
  intros Hi Hd Hk s a s' Hs. unfold ask. erewrite bind_run by done. cbn beta.
  destruct (put_mac_mapper_spec (mac_mapper (s_ctx s)) conn (s_env s) (ci_macs _ _ Hs))
    as (b & h & e & Hrun & _ & Hw & Hm).
  erewrite bind_run by (unfold env_do; rewrite Hrun; done). cbn beta.
  erewrite bind_run by done. intros H. eapply Hk; [|exact H].
  unfold sup_inv. cbn. unfold id. destruct b.
  - by eapply ctx_inv_put.
  - by apply ctx_inv_same_macs.
Qed.

Lemma keeps_save mac i : info_ok i -> shut mac i ->
  keeps sup_inv (save_mac_mapper {| mac_addr := mac; mac_info := i |}).
Proof.
  intros Hi Hd. unfold save_mac_mapper.
  eapply keeps_yields with (Q := fun c => mac_addr c = mac /\ info_ok (mac_info c) /\ shut mac (mac_info c)).
  - cbn [mac_info mac_addr]. case_bool_decide.
    + eapply yields_bind; [eapply (yields_service _ _ (fun id => zlen id <= 36))|].
      { intros h. rewrite answer_uuid_len. lia. }
      intros id Hid. apply yields_ret. split; [done|]. split; [|done].
      cbn. apply with_ident_ok; [done|apply Hi|done].
    + by apply yields_ret.
  - intros conn (<- & Hc & Hd'). apply keeps_put; [done|done|]. intros x.
    unfold save_to_crypt. keeps_tac.
Qed.

Lemma yields_default : yields sup_inv default_info info_ok.
Proof.
  unfold default_info. do 2 (apply yields_bind'; [apply keeps_ask|]; intros ?).
  apply yields_ret, default_ok.
Qed.

(** A command that reads the record of a device and goes on with it. *)
Lemma keeps_with_record {A} mac (k : Z * mac_conn_info -> Sup A) :
  (forall x, info_ok x.2 -> shut mac x.2 -> keeps sup_inv (k x)) ->
  keeps sup_inv (info0 ← default_info; x ← get_mac mac info0; k x).
Proof.
  intros Hk. eapply keeps_yields; [apply yields_default|]. intros info0 H0.
  eapply keeps_yields; [by apply yields_get_mac|]. intros x (H1 & H2 & _). auto.
Qed.

Lemma keeps_get_mac mac i : keeps sup_inv (get_mac mac i).
Proof. unfold get_mac. keeps_tac. Qed.
Lemma keeps_get_vlan v : keeps sup_inv (get_vlan v).
Proof. unfold get_vlan. keeps_tac. Qed.
#[local] Hint Resolve keeps_get_mac keeps_get_vlan : keeps.

(** ** The commands *)

Lemma keeps_accept mac vlanid : ~ D mac -> keeps sup_inv (accept_mac_cmd mac vlanid).
Proof.
  intros Hn. unfold accept_mac_cmd. apply keeps_with_record. intros x Hx Hd. keeps_tac.
  apply keeps_save; [|by intros Hd']. apply with_net_ok; [|apply Hx|apply Hx].
  by do 2 apply with_access_ok.
Qed.

Lemma keeps_deny mac : keeps sup_inv (deny_mac_cmd mac).
Proof.
  unfold deny_mac_cmd. apply keeps_with_record. intros x Hx Hd. keeps_tac.
  apply keeps_save; [by apply with_access_ok|done].
Qed.

Lemma keeps_add_nat_ip ip : keeps sup_inv (add_nat_ip ip).
Proof. unfold add_nat_ip. keeps_tac. Qed.
Lemma keeps_remove_nat_ip ip : keeps sup_inv (remove_nat_ip ip).
Proof. unfold remove_nat_ip. keeps_tac. Qed.
Lemma keeps_add_bridge_ip l r : keeps sup_inv (add_bridge_ip l r).
Proof. unfold add_bridge_ip. keeps_tac. Qed.
Lemma keeps_delete_bridge_ip l r : keeps sup_inv (delete_bridge_ip l r).
Proof. unfold delete_bridge_ip. keeps_tac. Qed.
#[local] Hint Resolve keeps_add_nat_ip keeps_remove_nat_ip keeps_add_bridge_ip
  keeps_delete_bridge_ip : keeps.

Lemma keeps_add_nat mac : keeps sup_inv (add_nat_cmd mac).
Proof.
  unfold add_nat_cmd. apply keeps_with_record. intros x Hx Hd. keeps_tac.
  apply keeps_save; [by apply with_access_ok|done].
Qed.
Lemma keeps_remove_nat mac : keeps sup_inv (remove_nat_cmd mac).
Proof.
  unfold remove_nat_cmd. apply keeps_with_record. intros x Hx Hd. keeps_tac.
  apply keeps_save; [by apply with_access_ok|done].
Qed.

Lemma keeps_assign_psk mac pass n : bytes pass -> 0 <= n <= AP_SECRET_LEN ->
  keeps sup_inv (assign_psk_cmd mac pass n).
Proof.
  intros Hb Hn. unfold assign_psk_cmd. apply keeps_with_record. intros x Hx Hd.
  eapply keeps_yields; [apply yields_lift; intros p Hp; exact Hp|]. intros p Hp. keeps_tac.
  apply keeps_save; [|done]. apply with_pass_ok; [|done].
  eapply memcpy_ok; [apply Hx|done|done|exact Hp].
Qed.

Lemma keeps_clear_psk mac : keeps sup_inv (clear_psk_cmd mac).
Proof.
  unfold clear_psk_cmd. apply keeps_with_record. intros x Hx Hd. keeps_tac.
  apply keeps_save; [|done]. apply with_pass_ok; [apply secret_zeros|done].
Qed.

Lemma ctx_inv_bridges c ts bl : ctx_inv c ts -> bridge_wf bl -> ctx_inv (set_bridge_list bl c) ts.
Proof. intros [] Hb. by split. Qed.
Lemma ctx_inv_ticket c ts t : ctx_inv c ts -> ticket_ok t ts -> ctx_inv (set_ticket t c) ts.
Proof. intros [] Hb. by split. Qed.
Lemma ctx_inv_vlans c ts h : ctx_inv c ts -> hash_wf h -> ctx_inv (set_vlan_mapper h c) ts.
Proof. intros [] Hb. by split. Qed.

Lemma keeps_both_records l r : keeps sup_inv (both_records l r).
Proof. unfold both_records. keeps_tac. Qed.

Lemma keeps_until_fail l : Forall (keeps sup_inv) l -> keeps sup_inv (until_fail l).
Proof. induction 1; cbn [until_fail]; keeps_tac. Qed.

Lemma keeps_on_pairs op l r : (forall a b, keeps sup_inv (op a b)) -> keeps sup_inv (on_pairs op l r).
Proof. intros Hop. apply keeps_until_fail. do 4 (constructor; [apply Hop|]). constructor. Qed.
#[local] Hint Resolve keeps_both_records keeps_on_pairs : keeps.

Lemma keeps_add_bridge l r : keeps sup_inv (add_bridge_mac_cmd l r).
Proof.
  intros s a s' Hs. unfold add_bridge_mac_cmd, ask. erewrite bind_run by done. cbn beta.
  destruct (add_bridge_spec (bridge_list (s_ctx s)) l r (s_env s) (ci_bridges _ _ Hs))
    as (z & bl & e & Hrun & _ & Hw & _).
  erewrite bind_run by (unfold env_do; rewrite Hrun; done). cbn beta.
  erewrite bind_run by done. revert a s'.
  match goal with |- forall a s', ?m ?s = _ -> _ => cut (keeps sup_inv m) end.
  { intros Hk a s' H. eapply Hk; [|exact H]. by apply ctx_inv_bridges. }
  keeps_tac.
Qed.

Lemma keeps_remove_bridge l r : keeps sup_inv (remove_bridge_cmd l r).
Proof.
  intros s a s' Hs. unfold remove_bridge_cmd, ask. erewrite bind_run by done. cbn beta.
  destruct (remove_bridge_spec (bridge_list (s_ctx s)) l r (ci_bridges _ _ Hs))
    as (bl & -> & Hw & _).
  erewrite bind_run by done. cbn beta. erewrite bind_run by done. revert a s'.
  match goal with |- forall a s', ?m ?s = _ -> _ => cut (keeps sup_inv m) end.
  { intros Hk a s' H. eapply Hk; [|exact H]. by apply ctx_inv_bridges. }
  keeps_tac.
Qed.
#[local] Hint Resolve keeps_add_bridge keeps_remove_bridge : keeps.

Lemma keeps_add_bridge_ip_cmd l r : keeps sup_inv (add_bridge_ip_cmd l r).
Proof. unfold add_bridge_ip_cmd. keeps_tac. Qed.

Lemma keeps_clear_bridges mac : keeps sup_inv (clear_bridges_cmd mac).
Proof.
  unfold clear_bridges_cmd. keeps_tac. generalize (default [] a0.2). intros l.
  induction l; cbn [remove_bridges]; keeps_tac.
Qed.

Lemma digits_secret digits p : bytes digits ->
  wr (zeros (Z.to_nat AP_SECRET_LEN)) 0 digits = Done p -> secret_ok p TICKET_PASSPHRASE_SIZE.
Proof.
  intros Hb Hw. destruct secret_zeros as (Hz & Hzl & _). split; [|split; [|done]].
  - eapply bytes_wr; [| |exact Hw]; done.
  - unfold zlen. apply length_wr in Hw. rewrite Hw. done.
Qed.

Lemma random_digits_bytes n e l e' :
  os_get_random_number_s n e = Done (Some l, e') -> bytes l.
Proof.
  unfold os_get_random_number_s. intros H. prog_inv. case_match; prog_inv; [done|].
  apply Forall_forall. intros b (y & -> & _)%list_elem_of_fmap. unfold is_byte.
  pose proof (Z.mod_pos_bound y 10). lia.
Qed.

Lemma keeps_register_ticket mac label vlanid : keeps sup_inv (register_ticket_cmd mac label vlanid).
Proof.
  unfold register_ticket_cmd. apply keeps_bind; [apply keeps_ask|]. intros t.
  destruct t; [|keeps_tac..]. apply keeps_bind; [apply keeps_env|]. intros [|]; cbn [negb]; [|keeps_tac].
  destruct (Z.ltb_spec MAX_DEVICE_LABEL_SIZE (zlen label + 1)) as [|Hlab]; [keeps_tac|].
  eapply keeps_yields;
    [apply (yields_env _ (fun o => match o with Some l => bytes l | None => True end));
     intros e [l|] e' He; [by eapply random_digits_bytes|done]|].
  intros [digits|] Hd; cycle 1.
  { keeps_tac. by apply keeps_on_ctx; intros; apply ctx_inv_ticket. }
  eapply keeps_yields; [apply yields_lift; intros p Hp; exact Hp|]. intros p Hp.
  intros s a s' Hs. unfold register_ticket_timeout at 1.
  pose proof (register_timeouts TICKET_TIMEOUT eloop_ticket_timeout_handler_cb (s_eloop s)) as Hr.
  destruct (register_timeout _ _ (s_eloop s)) as [r el] eqn:He. cbn in Hr.
  erewrite bind_run by (rewrite He; done). cbn beta iota delta [fst].
  assert (forall c, ctx_inv c (timeouts (s_eloop s)) -> ctx_inv c (timeouts el)) as Hmore.
  { intros c []. split; try done. destruct (ticket c); try done. unfold ticket_ok in *.
    destruct ci_ticket0 as (? & ? & secs & Hin). split; [done|]. split; [done|]. exists secs.
    destruct Hr as [[_ ->]|[_ ->]]; [by right|done]. }
  destruct (Z.ltb_spec r 0) as [Hneg|Hpos]; unfold on_ctx; intros H; prog_inv; simplify_eq/=.
  - apply ctx_inv_ticket; [by apply Hmore|done].
  - apply ctx_inv_ticket; [by apply Hmore|]. cbn.
    split; [|split; [unfold MAX_DEVICE_LABEL_SIZE in *; lia|]].
    + by eapply digits_secret.
    + exists TICKET_TIMEOUT. destruct Hr as [[_ ->]|[-> _]]; [by left|lia].
Qed.
#[local] Hint Resolve keeps_deny keeps_add_nat keeps_remove_nat keeps_clear_psk
  keeps_add_bridge_ip_cmd keeps_clear_bridges keeps_register_ticket : keeps.

(** ** Events *)

Lemma keeps_subscribe addr : keeps sup_inv (subscribe_events_cmd addr).
Proof.
  unfold subscribe_events_cmd, add_events_subscriber. keeps_tac.
  apply keeps_on_ctx. intros c ts []. by split.
Qed.

Lemma keeps_send_to_all buf l : keeps sup_inv (send_to_all buf l).
Proof. induction l; cbn [send_to_all]; keeps_tac. Qed.
#[local] Hint Resolve keeps_subscribe keeps_send_to_all : keeps.

Lemma keeps_send_events ty args : keeps sup_inv (send_events_subscriber ty args).
Proof. unfold send_events_subscriber, send_events. keeps_tac. Qed.
#[local] Hint Resolve keeps_send_events : keeps.

Lemma keeps_update_bridges add ip l : keeps sup_inv (update_bridges add ip l).
Proof.
  induction l; cbn [update_bridges]; keeps_tac.
  apply keeps_until_fail. destruct add; do 2 (constructor; [auto with keeps|]); constructor.
Qed.
#[local] Hint Resolve keeps_update_bridges : keeps.

Lemma set_ip_addrs_ok info ip ty ip1 ip2 b : info_ok info ->
  set_ip_addrs info ip ty = inr (ip1, ip2, b) ->
  zlen ip1 < OS_INET_ADDRSTRLEN /\ zlen ip2 < OS_INET_ADDRSTRLEN.
Proof.
  intros [_ H1 H2 _ _]. unfold set_ip_addrs.
  repeat case_match; intros; simplify_eq; split; try done; by apply zlen_clip.
Qed.

Lemma keeps_set_ip mac ip ty : keeps sup_inv (set_ip_cmd mac ip ty).
Proof.
  unfold set_ip_cmd. eapply keeps_yields; [apply yields_default|]. intros info0 H0.
  apply keeps_bind; [apply keeps_ask|]. intros arr.
  destruct (get_ifname_from_ip _ _ _) as [r0 ifn]. destruct (r0 <? 0); [keeps_tac|].
  eapply keeps_yields; [by apply yields_get_mac|]. intros x (Hx & Hd & _).
  destruct (x.1 <? 0); [keeps_tac|].
  destruct (set_ip_addrs x.2 ip ty) as [r|[[ip1 ip2] b]] eqn:Hip; [keeps_tac|].
  destruct (set_ip_addrs_ok _ _ _ _ _ _ Hx Hip) as [Hi1 Hi2].
  apply keeps_bind; [apply keeps_save; [by apply with_net_ok|done]|]. keeps_tac.
Qed.
#[local] Hint Resolve keeps_set_ip : keeps.

(** ** Stations, the access point and the timeout *)

Lemma keeps_free_ticket : keeps sup_inv free_ticket.
Proof.
  unfold free_ticket. keeps_tac. apply keeps_on_ctx. intros. by apply ctx_inv_ticket.
Qed.

Lemma keeps_schedule_analyser v : keeps sup_inv (schedule_analyser v).
Proof.
  unfold schedule_analyser, run_analyser. apply keeps_bind; [auto with keeps|]. intros x.
  destruct (x.1 <=? 0); [keeps_tac|]. destruct (vc_capture_pid x.2 =? 0); [|keeps_tac].
  apply keeps_bind; [apply keeps_bind; [apply keeps_service|keeps_tac]|].
  intros r. destruct (negb _); [keeps_tac|]. intros s a s' Hs. unfold ask.
  erewrite bind_run by done. cbn beta.
  destruct (put_vlan_mapper_spec (vlan_mapper (s_ctx s))
    {| vc_vlanid := vc_vlanid x.2; vc_ifname := vc_ifname x.2; vc_capture_pid := r.2 |}
    (s_env s) (ci_vlans _ _ Hs)) as (b & h & e & Hrun & _ & Hw & _).
  erewrite bind_run by (unfold env_do; rewrite Hrun; done). cbn beta.
  erewrite bind_run by done. cbn.
  destruct b; intros [= _ <-]; unfold sup_inv; cbn; unfold id; by apply ctx_inv_vlans.
Qed.
#[local] Hint Resolve keeps_free_ticket keeps_schedule_analyser : keeps.

Lemma keeps_timestamp : keeps sup_inv os_get_timestamp.
Proof.
  unfold os_get_timestamp. apply keeps_bind; [apply keeps_service|keeps_tac].
Qed.

Lemma yields_save_device mac i : info_ok i -> shut mac i ->
  yields sup_inv (save_device_vlan mac i) (fun x => info_ok x.2).
Proof.
  intros Hi Hd. unfold save_device_vlan. apply yields_bind'; [keeps_tac|]. intros ec.
  apply yields_bind'; [keeps_tac|]. intros r. destruct (r <? 0); [by apply yields_ret|].
  apply yields_bind'; [apply keeps_timestamp|]. intros t.
  assert (info_ok (with_ident (mi_label i) (mi_id i) t.2 i)) by (apply with_ident_ok; [done|apply Hi..]).
  destruct (t.1 <? 0); [by apply yields_ret|].
  apply yields_bind'; [by apply keeps_save|]. intros r'. by destruct (r' <? 0); apply yields_ret.
Qed.

Lemma yields_save_or_reject mac i : info_ok i -> shut mac i ->
  yields sup_inv (save_or_reject mac i) info_ok.
Proof.
  intros Hi Hd. unfold save_or_reject. eapply yields_bind; [by apply yields_save_device|].
  intros x Hx. apply yields_ret. destruct (x.1 <? 0); [by apply with_access_ok|done].
Qed.

Lemma keeps_allocate mac ty r : keeps sup_inv (allocate_vlan mac ty r).
Proof. unfold allocate_vlan. keeps_tac. Qed.

Lemma yields_copy_pass dst src n k : secret_ok dst k -> secret_ok src n ->
  yields sup_inv (lift_outcome (memcpy dst src n)) (fun p => secret_ok p n).
Proof. intros Hd (Hs & _ & Hn). apply yields_lift. intros p Hp. by eapply memcpy_ok. Qed.

Lemma yields_configured wpa n v info : info_ok info -> secret_ok wpa n ->
  yields sup_inv (lift_outcome (configure_mac_info true v n wpa None info)) info_ok.
Proof.
  intros Hi (Hb & _ & Hn). apply yields_lift. intros j. unfold configure_mac_info.
  destruct (memcpy _ _ _) as [p|] eqn:Hm; [|done]. intros [= <-].
  apply with_pass_ok; [|by do 2 apply with_access_ok]. eapply memcpy_ok; [apply Hi|done..].
Qed.

(** The branch of devices without a passphrase of their own. *)
Lemma yields_ticket_branch mac info wpa n v : info_ok info -> secret_ok wpa n -> ~ D mac ->
  yields sup_inv
    (let info1 := with_allow true info in
     tp ← ask ticket;
     t ← lift_outcome (deref_ticket tp);
     match t with
     | Some t =>
         p ← lift_outcome (memcpy (mi_pass info1) (passphrase t) (passphrase_len t));
         let info2 := with_ident (device_label t) (mi_id info1) (mi_join_timestamp info1)
                        (with_pass p (passphrase_len t) (with_vlanid (ticket_vlanid t) info1)) in
         _ ← free_ticket;
         save_or_reject mac info2
     | None =>
         p ← lift_outcome (memcpy (mi_pass info1) wpa n);
         save_or_reject mac (with_pass p n (with_vlanid v info1))
     end) info_ok.
Proof.
  intros Hi Hw Hd. cbv zeta.
  eapply yields_bind with (Q := fun tp => exists ts, ticket_ok tp ts).
  { apply yields_ask. intros c ts []. by exists ts. }
  intros tp [ts Ht]. eapply yields_bind with
    (Q := fun o => match o with Some t => ticket_ok (live_ticket t) ts | None => True end).
  { apply yields_lift. by destruct tp; intros ? [= <-]. }
  intros [t|].
  - intros (Hs & Hl & _). eapply yields_bind; [apply (yields_copy_pass _ _ _ _ (io_pass _ Hi) Hs)|].
    intros p Hp. apply yields_bind'; [auto with keeps|]. intros _.
    apply yields_save_or_reject; [|by intros ?]. apply with_ident_ok; [|done|apply Hi].
    apply with_pass_ok; [done|]. by do 2 apply with_access_ok.
  - intros _. eapply yields_bind; [apply (yields_copy_pass _ _ _ _ (io_pass _ Hi) Hw)|].
    intros p Hp. apply yields_save_or_reject; [|by intros ?].
    apply with_pass_ok; [done|]. by do 2 apply with_access_ok.
Qed.

(** A device that is found shut is the only one that may be denied. *)
Lemma denied_found mac find_mac info : shut mac info ->
  (find_mac = 1 \/ (find_mac = 0 /\ ~ D mac)) ->
  ~ D mac \/ (find_mac = 1 /\ mi_allow_connection info = false).
Proof.
  intros Hd [->|[-> ?]]; [|by left].
  destruct (mi_allow_connection info) eqn:Ha; [|by right]. left. intros Hdm. by rewrite Hd in Ha.
Qed.

Lemma yields_known mac find_mac info wpa n v : info_ok info -> secret_ok wpa n -> ~ D mac ->
  yields sup_inv
    (info' ← (if find_mac =? 0 then lift_outcome (configure_mac_info true v n wpa None info)
              else if (find_mac =? 1) && (mi_pass_len info =? 0) then
                p ← lift_outcome (memcpy (mi_pass info) wpa n);
                mret (with_pass p n info)
              else mret info);
     save_or_reject mac info') info_ok.
Proof.
  intros Hi Hw Hn.
  eapply yields_bind; [|intros j Hj; apply yields_save_or_reject; [exact Hj|by intros ?]].
  destruct (find_mac =? 0); [by apply yields_configured|].
  destruct (_ && _); [|by apply yields_ret].
  eapply yields_bind; [apply (yields_copy_pass _ _ _ _ (io_pass _ Hi) Hw)|].
  intros p Hp. by apply yields_ret, with_pass_ok.
Qed.

Lemma yields_get_mac_conn mac : yields sup_inv (get_mac_conn_cmd mac) info_ok.
Proof.
  unfold get_mac_conn_cmd. do 2 (apply yields_bind'; [apply keeps_ask|]; intros ?).
  apply yields_bind'; [pose proof keeps_allocate; keeps_tac|]. intros v.
  apply yields_bind'; [apply keeps_ask|]; intros nat.
  apply yields_bind'; [apply keeps_ask|]; intros all.
  intros s j s' Hs. unfold ask at 1 2. do 2 (erewrite bind_run by done; cbn beta).
  pose proof (ci_wpa _ _ Hs) as Hw. 
  revert Hw. generalize (wpa_passphrase (s_ctx s)), (wpa_passphrase_len (s_ctx s)). intros wpa n Hw.
  match goal with |- ?m s = _ -> _ => cut (yields sup_inv m info_ok); [intros Hy; by apply Hy|] end.
  eapply yields_bind; [apply yields_get_mac, default_ok|]. intros [find_mac info] (Hi & Hd & Hf).
  cbn [fst snd] in *. destruct (denied_found mac find_mac info) as [Hn|[-> Ha]]; [done|tauto| |].
  - destruct (_ && _); [by apply yields_known|].
    destruct (_ && _); [by apply yields_save_or_reject|].
    destruct (_ && _); [by apply yields_ret, with_access_ok|].
    destruct (_ && _); [by apply yields_ticket_branch|]. by apply yields_ret, with_access_ok.
  - rewrite Ha. destruct all; cbn; by apply yields_ret, with_access_ok.
Qed.

Lemma keeps_ap_callback mac st : keeps sup_inv (ap_service_callback mac st).
Proof.
  unfold ap_service_callback. eapply keeps_yields; [apply yields_get_mac, default_ok|].
  intros x (Hi & Hd & _). apply keeps_bind; [|keeps_tac].
  destruct (0 <? x.1); [|keeps_tac]. apply keeps_save; [by apply with_status_ok|done].
Qed.

(** ** The command processor *)

Lemma keeps_reply sock addr data : keeps sup_inv (reply sock addr data).
Proof. apply keeps_call. Qed.
#[local] Hint Resolve keeps_reply : keeps.

Lemma keeps_reply_status sock addr r : keeps sup_inv (reply_status sock addr r).
Proof. unfold reply_status. keeps_tac. Qed.
#[local] Hint Resolve keeps_reply_status : keeps.

Lemma keeps_newline sock data addr : keeps sup_inv (write_newline_socket_data sock data addr).
Proof. unfold write_newline_socket_data. keeps_tac. Qed.

Lemma keeps_append_lines lines : forall total buf, keeps sup_inv (append_lines lines total buf).
Proof. induction lines; intros total buf; cbn [append_lines]; keeps_tac. Qed.

(** The address [hwaddr_aton2] reads from an argument. *)
Definition arg_names (a mac : list Z) : Prop :=
  exists r, edge_hwaddr_aton2 (a ++ [0]) = Done (r, mac) /\ r <> -1.

Lemma yields_arg_mac a :
  yields sup_inv (arg_mac a) (fun o => match o with Some mac => arg_names a mac | None => True end).
Proof.
  eapply yields_bind; [apply yields_lift; intros x Hx; exact Hx|]. intros [r mac] Hx.
  apply yields_ret. cbn [fst snd] in *. destruct (Z.eqb_spec r (-1)); [done|]. by exists r.
Qed.

Lemma keeps_with_mac sock addr args k :
  (forall a rest mac, args = a :: rest -> arg_names a mac -> keeps sup_inv (k mac rest)) ->
  keeps sup_inv (with_mac sock addr args k).
Proof.
  intros Hk. unfold with_mac. destruct args as [|a rest]; [keeps_tac|].
  eapply keeps_yields; [apply yields_arg_mac|]. intros [mac|] Hm; [by eapply Hk|keeps_tac].
Qed.

(** The words of a command that accepts a device. *)
Definition accepts (mac : list Z) (words : list (list Z)) : Prop :=
  match words with
  | cmd :: a :: _ => cmd = cstr "ACCEPT_MAC" /\ arg_names a mac
  | _ => False
  end.

Definition all_bytes (words : list (list Z)) : Prop := Forall bytes words.

Lemma keeps_process_accept sock addr args :
  (forall mac, D mac -> ~ accepts mac (cstr "ACCEPT_MAC" :: args)) ->
  keeps sup_inv (process_accept_mac_cmd sock addr args).
Proof.
  intros Hacc. apply keeps_with_mac. intros a rest mac -> Hm.
  pose proof (keeps_accept mac) as Hk. keeps_tac. apply Hk. intros Hd. by apply (Hacc mac Hd).
Qed.

Lemma keeps_process_psk sock addr args : all_bytes args ->
  keeps sup_inv (process_assign_psk_cmd sock addr args).
Proof.
  intros Hb. apply keeps_with_mac. intros a rest mac -> _. apply list.Forall_cons in Hb as [_ Hb].
  destruct rest as [|psk rest]; [keeps_tac|]. apply list.Forall_cons in Hb as [Hp _]. cbv zeta.
  destruct (Z.leb_spec (zlen psk) AP_SECRET_LEN); cbn [andb]; [|keeps_tac].
  pose proof (zlen_nonneg psk).
  pose proof (keeps_assign_psk mac psk (zlen psk) Hp ltac:(lia)). keeps_tac.
Qed.

Lemma keeps_process_with_mac sock addr args (k : list Z -> list (list Z) -> Sup Z) :
  (forall mac rest, keeps sup_inv (k mac rest)) -> keeps sup_inv (with_mac sock addr args k).
Proof. intros Hk. apply keeps_with_mac. auto. Qed.
#[local] Hint Resolve keeps_process_with_mac keeps_newline keeps_append_lines : keeps.

Ltac keeps_cases := repeat (keeps_tac; match goal with
  | |- keeps _ (with_mac _ _ _ _) => apply keeps_process_with_mac; intros
  | |- keeps _ (let (_, _) := ?x in _) => destruct x end); keeps_tac.

Lemma keeps_command cmd cfn sock addr args : get_command_function cmd = Some cfn ->
  all_bytes args -> (forall mac, D mac -> ~ accepts mac (cmd :: args)) ->
  keeps sup_inv (cfn sock addr args).
Proof.
  intros Hget Hb Hacc. command_cases Hget.
  all: try by apply keeps_process_accept. all: try by apply keeps_process_psk.
  all: unfold process_ping_cmd, ping_cmd, process_subscribe_events_cmd, process_deny_mac_cmd,
    process_add_nat_cmd, process_remove_nat_cmd, process_get_map_cmd, process_get_all_cmd,
    process_set_ip_cmd, process_add_bridge_cmd, process_remove_bridge_cmd,
    process_clear_bridges_cmd, process_get_bridges_cmd, process_register_ticket_cmd,
    process_clear_psk_cmd, arg_mac, default_info; keeps_cases.
Qed.
End inv.
