(* ===== verification/MacDb.v ===== *)
(** The connection records on disk: [sqlite_macconn_writer.c] of
    [src/supervisor], and the part of [src/runctl.c] that fills the table of MAC
    addresses from them when the program starts.

    Whatever the supervisor changes in a record is written to the table
    [instance], one row for a station.  The theorems: reading gives back what was
    written last for each station, except for what the statement does not ask
    for; and a program that is started again has the stations, with their VLANs,
    names and permissions, that the one before it had saved. *)
From stdpp Require Import strings numbers base list gmap.
From Stdlib Require Import ZArith Lia.
From S2P Require Import Prelude Os Text Net Extern Reldb Mappers Decoder Capture Pcap Process Firewall Supervisor CmdProcessor SupervisorInv.

(** ** Statements ([sqlite_macconn_writer.h]) *)

Definition MACCONN_CREATE_TABLE : create_table :=
  {| ct_table := {| t_name := cstr "instance"; t_key := [0; 1]%nat; t_not_null := [0; 1]%nat |};
     ct_columns := [("id", TEXT); ("mac", TEXT); ("status", INTEGER); ("vlanid", INTEGER); ("primaryip", TEXT);
       ("secondaryip", TEXT); ("nat", INTEGER); ("allow", INTEGER); ("label", TEXT); ("timestamp", INTEGER);
       ("pass", TEXT)] |}.
Definition MACCONN_INSERT_INTO : list string :=
  ["id"; "mac"; "status"; "vlanid"; "primaryip"; "secondaryip"; "nat"; "allow"; "label"; "timestamp"; "pass"].
(** The condition of the deletion, on the column [mac]. *)
Definition MACCONN_DELETE_FROM (mac : list Z) (r : row) : bool := bool_decide (column_text r 1 = Some mac).
Definition MACCONN_SELECT_FROM : list string := ["mac"; "id"; "status"; "vlanid"; "nat"; "allow"; "label"; "pass"].

#[local] Abbreviation instance := (ct_table MACCONN_CREATE_TABLE).

(** The columns of a row that the selection asks for, in its order. *)
Fixpoint column_of (name : string) (cols : list (string * column_type)) (r : row) : cell :=
  match cols, r with
  | c :: cols, x :: r => if decide (c.1 = name) then x else column_of name cols r
  | _, _ => CNull
  end.
Definition selected (r : row) : row :=
  (fun name => column_of name (ct_columns MACCONN_CREATE_TABLE) r) <$> MACCONN_SELECT_FROM.

Definition status_int (s : ap_connection_status) : Z :=
  match s with AP_DEFAULT_STATUS => 0 | AP_CONNECTED_STATUS => 1 | AP_DISCONNECTED_STATUS => 2 end.
(** The enumeration has no other values. *)
Definition int_status (z : Z) : outcome ap_connection_status :=
  if z =? 0 then Done AP_DEFAULT_STATUS
  else if z =? 1 then Done AP_CONNECTED_STATUS
  else if z =? 2 then Done AP_DISCONNECTED_STATUS
  else Fault Indeterminate.

(** An array read as a string: its end must be inside. *)
Definition array_string (a : list Z) : outcome (list Z) :=
  if bool_decide (0 ∈ a) then Done (until_nul a) else Fault OutOfBounds.

Section macconn_db.
Context {DB : Reldb}.

Definition open_sqlite_macconn_db : prog rdb Z :=
  ok ← on_db (rdb_create instance); mret (if negb ok then -1 else 0).

Definition entry_binds (conn : mac_conn) : list binding :=
  let info := mac_info conn in
  [checked_text "id" (mi_id info); checked_text "mac" (macstr (mac_addr conn));
   checked_int "status" (status_int (mi_status info)); checked_int "vlanid" (mi_vlanid info);
   checked_text "primaryip" (mi_ip_addr info); checked_text "secondaryip" (mi_ip_sec_addr info);
   checked_int "nat" (Z.b2z (mi_nat info)); checked_int "allow" (Z.b2z (mi_allow_connection info));
   checked_text "label" (mi_label info); checked_int "timestamp" (mi_join_timestamp info)].

(** The results of both steps are not looked at. *)
Definition save_sqlite_macconn_entry (conn : mac_conn) : prog rdb Z :=
  let mac_buf := macstr (mac_addr conn) in
  ok ← on_db (rdb_prepare instance);
  if negb ok then mret (-1)
  else
    ok ← on_db rdb_bind;
    if negb ok then mret (-1)
    else
      _ ← on_db (rdb_delete instance (MACCONN_DELETE_FROM mac_buf));
      ok ← on_db (rdb_prepare instance);
      if negb ok then mret (-1)
      else
        o ← bind_params MACCONN_INSERT_INTO (entry_binds conn) [];
        match o with
        | None => mret (-1)
        | Some bound =>
            pass ← lift_outcome (array_string (mi_pass (mac_info conn)));
            o ← bind_params MACCONN_INSERT_INTO [checked_text "pass" pass] bound;
            match o with
            | None => mret (-1)
            | Some bound => _ ← on_db (rdb_insert instance (bound_row MACCONN_INSERT_INTO bound)); mret 0
            end
        end.

(** One row of the result; [None] when its MAC address cannot be read. *)
Definition macconn_entry (res : row) : prog rdb (option mac_conn) :=
  match column_text res 0 with
  | None => fail_with NullDeref
  | Some mac =>
      x ← lift_outcome (edge_hwaddr_aton2 (mac ++ [0]));
      if x.1 =? -1 then mret None
      else
        let id := match column_text res 1 with Some value => clip MAX_RANDOM_UUID_LEN value | None => [] end in
        status ← lift_outcome (int_status (s32 (column_int res 2)));
        let label := match column_text res 6 with Some value => clip MAX_DEVICE_LABEL_SIZE value | None => [] end in
        p ← match column_text res 7 with
            | Some value =>
                c ← lift_outcome (edge_os_strlcpy (zeros (Z.to_nat AP_SECRET_LEN)) value AP_SECRET_LEN);
                n ← lift_outcome (os_strnlen_s (value ++ [0]) AP_SECRET_LEN);
                mret (c.2, n)
            | None => mret (zeros (Z.to_nat AP_SECRET_LEN), 0)
            end;
        mret (Some {| mac_addr := x.2;
          mac_info := {| mi_status := status; mi_vlanid := s32 (column_int res 3);
            mi_nat := negb (s32 (column_int res 4) =? 0); mi_allow_connection := negb (s32 (column_int res 5) =? 0);
            mi_pass := p.1; mi_pass_len := p.2; mi_ip_addr := []; mi_ip_sec_addr := []; mi_ifname := [];
            mi_label := label; mi_id := id; mi_join_timestamp := 0 |} |})
  end.

(** The loop over the rows. *)
Fixpoint macconn_entries (rows : list row) (entries : list mac_conn) : prog rdb (Z * list mac_conn) :=
  match rows with
  | [] => mret (0, entries)
  | r :: rows =>
      o ← macconn_entry (selected r);
      match o with
      | None => mret (-1, entries)
      | Some el => macconn_entries rows (entries ++ [el])
      end
  end.

(** A selection that stops early is taken for a complete one. *)
Definition get_sqlite_macconn_entries : prog rdb (Z * list mac_conn) :=
  ok ← on_db (rdb_prepare instance);
  if negb ok then mret (-1, [])
  else
    x ← on_db (fun d => rdb_select instance (fun _ => true) 0 (length (default [] (rtables d !! t_name instance))) d);
    macconn_entries x.1 [].
End macconn_db.

(** ** Reading the stations at the start ([runctl.c]) *)

Section runctl.
Context {DB : Reldb} {MU : Uthash (list Z) mac_conn_info} {VU : Uthash Z vlan_conn} {SV : Services}.
(** What [get_crypt_pair] finds for a key, and the local variable [vlan_conn]
    before anything is written to it. *)
Context (crypt : list Z -> option (list Z)) (uninit : vlan_conn).

(** The connections with the interfaces of their VLANs, or [None] for -1. *)
Fixpoint init_mac_mapper_ifnames (connections : list mac_conn) (vlan_mapper : @hash _ _ _ VU) : option (list mac_conn) :=
  match connections with
  | [] => Some []
  | p :: rest =>
      let info := mac_info p in
      let (ret, conn) := get_vlan_mapper (Some vlan_mapper) (mi_vlanid info) (Some uninit) in
      if ret <? 0 then None
      else if ret =? 0 then None
      else
        let ifname := vc_ifname (default uninit conn) in
        cons {| mac_addr := mac_addr p; mac_info := with_net (mi_ip_addr info) (mi_ip_sec_addr info) ifname info |}
          <$> init_mac_mapper_ifnames rest vlan_mapper
  end.

(** The record with the passphrase, or [None] for -1. *)
Definition get_crypt_wpa_passphrase (info : mac_conn_info) : outcome (option mac_conn_info) :=
  match crypt (mi_id info) with
  | None => Done (Some info)
  | Some value =>
      if zlen value <=? AP_SECRET_LEN then
        match memcpy (mi_pass info) value (zlen value) with
        | Done p => Done (Some (with_pass p (zlen value) info))
        | Fault f => Fault f
        end
      else Done None
  end.

(** The part of the context that is used. *)
Record boot := { macconn_db : rdb; boot_macs : @hash _ _ _ MU; boot_vlans : @hash _ _ _ VU; boot_env : env }.
#[local] Abbreviation Boot := (prog boot).
Definition boot_db {A} (m : prog rdb A) : Boot A := fun b =>
  match m (macconn_db b) with
  | Fault f => Fault f
  | Done (a, d) => Done (a, {| macconn_db := d; boot_macs := boot_macs b; boot_vlans := boot_vlans b; boot_env := boot_env b |})
  end.
Definition boot_put (conn : mac_conn) : Boot bool := fun b =>
  match put_mac_mapper (Some (boot_macs b)) conn (boot_env b) with
  | Fault f => Fault f
  | Done (x, e) => Done (x.1, {| macconn_db := macconn_db b; boot_macs := default (boot_macs b) x.2;
                                 boot_vlans := boot_vlans b; boot_env := e |})
  end.

Fixpoint add_connections (mac_conn_arr : list mac_conn) : Boot Z :=
  match mac_conn_arr with
  | [] => mret 0
  | p :: rest =>
      o ← lift_outcome (if WITH_CRYPTO_SERVICE then get_crypt_wpa_passphrase (mac_info p) else Done (Some (mac_info p)));
      match o with
      | None => mret (-1)
      | Some info =>
          ok ← boot_put {| mac_addr := mac_addr p; mac_info := info |};
          if negb ok then mret (-1) else add_connections rest
      end
  end.

Definition get_boot_vlans : Boot (@hash _ _ _ VU) := fun b => Done (boot_vlans b, b).
Definition create_mac_mapper : Boot Z :=
  x ← boot_db get_sqlite_macconn_entries;
  if x.1 <? 0 then mret (-1)
  else
    vlans ← get_boot_vlans;
    match init_mac_mapper_ifnames x.2 vlans with
    | None => mret (-1)
    | Some arr => add_connections arr
    end.
End runctl.

(** ** Saving and reading *)

(** A record as it is kept in memory: six bytes of address, strings that fit
    their arrays, a terminated passphrase. *)
Record conn_ok (c : mac_conn) : Prop := {
  co_mac : bytes (mac_addr c) /\ zlen (mac_addr c) = ETHER_ADDR_LEN;
  co_vlanid : - 2 ^ 31 <= mi_vlanid (mac_info c) < 2 ^ 31;
  co_id : zlen (mi_id (mac_info c)) < MAX_RANDOM_UUID_LEN;
  co_label : zlen (mi_label (mac_info c)) < MAX_DEVICE_LABEL_SIZE;
  co_pass : zlen (mi_pass (mac_info c)) = AP_SECRET_LEN /\ 0 ∈ mi_pass (mac_info c)
}.

Definition conn_okb (c : mac_conn) : bool :=
  bool_decide (bytes (mac_addr c) /\ zlen (mac_addr c) = ETHER_ADDR_LEN) &&
  bool_decide (- 2 ^ 31 <= mi_vlanid (mac_info c) < 2 ^ 31) && bool_decide (zlen (mi_id (mac_info c)) < MAX_RANDOM_UUID_LEN) &&
  bool_decide (zlen (mi_label (mac_info c)) < MAX_DEVICE_LABEL_SIZE) &&
  bool_decide (zlen (mi_pass (mac_info c)) = AP_SECRET_LEN /\ 0 ∈ mi_pass (mac_info c)).
Lemma conns_ok_dec l : forallb conn_okb l = true -> Forall conn_ok l.
Proof.
  induction l as [|c l IH]; [constructor|]. cbn [forallb]. unfold conn_okb at 1. rewrite !andb_true_iff, !bool_decide_eq_true.
  intros [((((? & ?) & ?) & ?) & ?) Hl]. constructor; [by split|auto].
Qed.

Definition row_of (c : mac_conn) : row :=
  let i := mac_info c in
  [CText (mi_id i); CText (macstr (mac_addr c)); CInt (status_int (mi_status i)); CInt (s64 (mi_vlanid i));
   CText (mi_ip_addr i); CText (mi_ip_sec_addr i); CInt (Z.b2z (mi_nat i)); CInt (Z.b2z (mi_allow_connection i));
   CText (mi_label i); CInt (s64 (mi_join_timestamp i)); CText (until_nul (mi_pass i))].

(** What reading gives back of a record. *)
Definition kept_pass (p : list Z) : list Z :=
  let s := until_nul p in s ++ zeros (Z.to_nat AP_SECRET_LEN - length s).
Definition kept (i : mac_conn_info) : mac_conn_info :=
  {| mi_status := mi_status i; mi_vlanid := mi_vlanid i; mi_nat := mi_nat i; mi_allow_connection := mi_allow_connection i;
     mi_pass := kept_pass (mi_pass i); mi_pass_len := zlen (until_nul (mi_pass i)); mi_ip_addr := []; mi_ip_sec_addr := [];
     mi_ifname := []; mi_label := mi_label i; mi_id := mi_id i; mi_join_timestamp := 0 |}.
Definition kept_conn (c : mac_conn) : mac_conn := {| mac_addr := mac_addr c; mac_info := kept (mac_info c) |}.

(** The records that a sequence of savings leaves, as a map and as the list of
    the rows. *)
Definition records_of (cs : list mac_conn) : gmap (list Z) mac_conn_info :=
  foldl (fun m c => <[mac_addr c := mac_info c]> m) ∅ cs.
Definition replace_conn (l : list mac_conn) (c : mac_conn) : list mac_conn := filter (fun x => mac_addr x <> mac_addr c) l ++ [c].
Definition pairs (l : list mac_conn) : list (list Z * mac_conn_info) := (fun c => (mac_addr c, mac_info c)) <$> l.

Lemma macstr_inj a b : bytes a -> bytes b -> zlen a = 6 -> zlen b = 6 -> macstr a = macstr b -> a = b.
Proof.
  intros Ha Hb La Lb E.
  assert (forall m, bytes m -> zlen m = 6 -> hwaddr_loop 6 (macstr m ++ [0]) = Done (Some [0], m)) as Hp.
  { intros m Hm Hl. replace 6%nat with (length m) by (unfold zlen in Hl; lia). by apply hwaddr_loop_macstr. }
  pose proof (Hp a Ha La) as Pa. rewrite E, Hp in Pa by done. congruence.
Qed.

Lemma aton2_macstr m : bytes m -> zlen m = ETHER_ADDR_LEN -> edge_hwaddr_aton2 (macstr m ++ [0]) = Done (17, m).
Proof.
  intros Hb Hl. by destruct (edge_hwaddr_aton2_correct [0] m [0]) as [_ ->]; [left|done..|].
Qed.

Section saved.
Context {DB : Reldb}.

Lemma entry_row c :
  bound_row MACCONN_INSERT_INTO (reverse ((fun b => (b_param b, b_cell b)) <$> [checked_text "pass" (until_nul (mi_pass (mac_info c)))]) ++
    reverse ((fun b => (b_param b, b_cell b)) <$> entry_binds c) ++ []) = row_of c.
Proof. unfold row_of. by destruct c as [mac [[] v [] [] p n a b i l d t]]. Qed.

Lemma row_mac c : column_text (row_of c) 1 = Some (macstr (mac_addr c)).
Proof. done. Qed.

(** The row of a station goes with those of others. *)
Lemma row_fits c l : fits instance (filter (fun r => negb (MACCONN_DELETE_FROM (macstr (mac_addr c)) r)) l) (row_of c).
Proof.
  split.
  - intros Hin. by repeat (apply elem_of_cons in Hin as [Hin|Hin]; [done|]); apply elem_of_nil in Hin.
  - intros _. apply Forall_forall. intros r [Hr _]%list_elem_of_filter E. apply Is_true_true, negb_true_iff in Hr.
    unfold MACCONN_DELETE_FROM in Hr. apply bool_decide_eq_false in Hr. apply Hr. unfold column_text.
    injection E as _ E. by destruct (r !! 1%nat) as [[]|]; simplify_eq/=.
Qed.

(** The last part of the saving: the passphrase and the insertion. *)
Definition insert_entry (conn : mac_conn) (bound : list (string * cell)) : prog rdb Z :=
  pass ← lift_outcome (array_string (mi_pass (mac_info conn)));
  o ← bind_params MACCONN_INSERT_INTO [checked_text "pass" pass] bound;
  match o with
  | None => mret (-1)
  | Some bound => _ ← on_db (rdb_insert instance (bound_row MACCONN_INSERT_INTO bound)); mret 0
  end.

(** A database in order comes to it without the row of the station. *)
Lemma save_head c (d : rdb) l : rdb_ok d -> rtables d !! t_name instance = Some l ->
  exists d', save_sqlite_macconn_entry c d = insert_entry c (reverse ((fun b => (b_param b, b_cell b)) <$> entry_binds c) ++ []) d' /\ rdb_ok d' /\
    rtables d' !! t_name instance = Some (filter (fun r => negb (MACCONN_DELETE_FROM (macstr (mac_addr c)) r)) l).
Proof.
  intros Hok Hl. unfold save_sqlite_macconn_entry. cbv zeta.
  destruct (prepare_ok instance d Hok) as [E1 Hok1]; [by exists l|]. pose proof (prepare_rows instance d) as R1.
  erewrite bind_run by done. cbv beta. rewrite E1. cbn [negb]. generalize dependent (rdb_prepare instance d).2. intros d1 Hok1 R1.
  destruct (bind_ok d1 Hok1) as [E2 Hok2]. pose proof (bind_rows d1) as R2.
  erewrite bind_run by done. cbv beta. rewrite E2. cbn [negb]. generalize dependent (rdb_bind d1).2. intros d2 Hok2 R2.
  set (p := MACCONN_DELETE_FROM (macstr (mac_addr c))).
  destruct (delete_ok instance p d2 Hok2) as [E3 Hok3]. pose proof (delete_rows instance p d2) as R3. cbv zeta in R3. rewrite E3 in R3.
  erewrite bind_run by done. cbv beta. generalize dependent (rdb_delete instance p d2).2. intros d3 Hok3 R3.
  rewrite R2, R1, Hl in R3. cbn [default] in R3. set (l' := filter _ l) in *.
  destruct (prepare_ok instance d3 Hok3) as [E4 Hok4]; [rewrite R3; rewrite lookup_insert_eq; by eexists|]. pose proof (prepare_rows instance d3) as R4.
  erewrite bind_run by done. cbv beta. rewrite E4. cbn [negb]. generalize dependent (rdb_prepare instance d3).2. intros d4 Hok4 R4.
  destruct (bind_params_ok MACCONN_INSERT_INTO (entry_binds c) [] d4 Hok4) as (d5 & E5 & R5 & Hok5).
  { apply Forall_forall. intros b Hb. by repeat (apply elem_of_cons in Hb as [->|Hb]; [apply (bool_decide_unpack _); by vm_compute|]); apply elem_of_nil in Hb. }
  erewrite bind_run by exact E5. exists d5. split; [done|]. split; [done|]. rewrite R5, R4, R3. apply lookup_insert_eq.
Qed.

(** Saving replaces the row of the station. *)
Lemma save_entry_run c (d : rdb) l : rdb_ok d -> rtables d !! t_name instance = Some l -> 0 ∈ mi_pass (mac_info c) ->
  exists d', save_sqlite_macconn_entry c d = Done (0, d') /\ rdb_ok d' /\
    rtables d' !! t_name instance = Some (filter (fun r => negb (MACCONN_DELETE_FROM (macstr (mac_addr c)) r)) l ++ [row_of c]).
Proof.
  intros Hok Hl Hp. destruct (save_head c d l Hok Hl) as (d5 & -> & Hok5 & R5). unfold insert_entry. set (l' := filter _ l) in *.
  erewrite bind_run by (unfold array_string; rewrite bool_decide_true by done; apply lift_run).
  destruct (bind_params_ok MACCONN_INSERT_INTO [checked_text "pass" (until_nul (mi_pass (mac_info c)))]
    (reverse ((fun b => (b_param b, b_cell b)) <$> entry_binds c) ++ []) d5 Hok5) as (d6 & E6 & R6 & Hok6).
  { constructor; [|constructor]. apply (bool_decide_unpack _). by vm_compute. }
  erewrite bind_run by exact E6. cbv beta iota. rewrite entry_row. erewrite bind_run by done. eexists. split; [done|].
  destruct (insert_ok instance (row_of c) d6 Hok6) as [E7 Hok7]. split; [exact Hok7|].
  pose proof (insert_rows instance (row_of c) d6) as R7. cbv zeta in R7. rewrite (E7 l') in R7; [|by rewrite R6|by apply row_fits].
  destruct R7 as (l2 & Hl2 & _ & ->). rewrite lookup_insert_eq. rewrite R6 in Hl2. congruence.
Qed.

Lemma array_end p : 0 ∈ p -> zlen (until_nul p) < zlen p /\ nul_free (until_nul p).
Proof.
  induction p as [|c p IH]; [by intros ?%elem_of_nil|]. cbn [until_nul]. intros Hin.
  destruct (Z.eqb_spec c 0) as [->|Hc]; [rewrite zlen_cons, zlen_nil; split; [pose proof (zlen_nonneg p); lia|done]|].
  apply elem_of_cons in Hin as [E|Hin]; [by subst|]. destruct (IH Hin). rewrite !zlen_cons. split; [lia|by constructor].
Qed.

Lemma s32_s64 z : - 2 ^ 31 <= z < 2 ^ 31 -> s32 (s64 z) = z.
Proof. intros Hz. unfold s32, s64. rewrite (Z.mod_small (z + 2 ^ 63)) by lia. rewrite Z.mod_small by lia. lia. Qed.
Lemma s32_b2z b : negb (s32 (Z.b2z b) =? 0) = b.
Proof. by destruct b. Qed.
Lemma int_status_int s : int_status (s32 (status_int s)) = Done s.
Proof. by destruct s. Qed.

Lemma strnlen_short s n : nul_free s -> zlen s < n -> os_strnlen_s (s ++ [0]) n = Done (zlen s).
Proof.
  intros Hs Hn. unfold os_strnlen_s. rewrite find_nul_str by (intros H0; by eapply (proj1 (Forall_forall _ _) Hs)).
  rewrite (proj2 (Nat.ltb_lt _ _)) by (unfold zlen in Hn; lia). done.
Qed.

Lemma strlcpy_padded n s : zlen s < n ->
  edge_os_strlcpy (zeros (Z.to_nat n)) s n = Done (zlen s, s ++ zeros (Z.to_nat n - length s)).
Proof.
  intros Hn. unfold edge_os_strlcpy. rewrite (proj2 (Z.leb_le _ _)) by lia. unfold zeros. rewrite wr_head by zlen_lia.
  rewrite <- app_assoc, length_app, drop_replicate. cbn [length app]. do 4 f_equal. unfold zlen in Hn.
  by replace (Z.to_nat n - length s)%nat with (S (Z.to_nat n - (length s + 1))) by lia.
Qed.

(** A row that was written is read back. *)
Lemma macconn_entry_run c (d : rdb) : conn_ok c -> macconn_entry (selected (row_of c)) d = Done (Some (kept_conn c), d).
Proof.
  intros [[Hb Hm] Hv Hi Hl [Hp H0]]. destruct (array_end _ H0) as [Hn Hf]. rewrite Hp in Hn. unfold macconn_entry.
  change (selected (row_of c)) with [CText (macstr (mac_addr c)); CText (mi_id (mac_info c));
    CInt (status_int (mi_status (mac_info c))); CInt (s64 (mi_vlanid (mac_info c))); CInt (Z.b2z (mi_nat (mac_info c)));
    CInt (Z.b2z (mi_allow_connection (mac_info c))); CText (mi_label (mac_info c)); CText (until_nul (mi_pass (mac_info c)))].
  unfold column_text, column_int. cbn [lookup list_lookup].
  erewrite bind_run by (rewrite aton2_macstr by done; apply lift_run). cbn [fst snd]. rewrite (proj2 (Z.eqb_neq _ _)) by done.
  erewrite bind_run by (rewrite int_status_int; apply lift_run).
  erewrite bind_run; [|erewrite bind_run by (rewrite strlcpy_padded by done; apply lift_run);
    erewrite bind_run by (rewrite strnlen_short by done; apply lift_run); done].
  rewrite s32_s64, !s32_b2z, !clip_short by done. done.
Qed.

(** The database has exactly these records, one for a station. *)
Record db_holds (d : rdb) (l : list mac_conn) : Prop := {
  dh_ok : rdb_ok d;
  dh_rows : rtables d !! t_name instance = Some (row_of <$> l);
  dh_conns : Forall conn_ok l;
  dh_macs : NoDup (mac_addr <$> l)
}.

Lemma filter_rows c l : conn_ok c -> Forall conn_ok l ->
  filter (fun r => negb (MACCONN_DELETE_FROM (macstr (mac_addr c)) r)) (row_of <$> l) =
  row_of <$> filter (fun x => mac_addr x <> mac_addr c) l.
Proof.
  intros [[Hb Hm] _ _ _ _]. induction 1 as [|x l [[Hbx Hmx] _ _ _ _] _ IH]; [done|]. rewrite fmap_cons, !filter_cons.
  rewrite IH. destruct (decide (mac_addr x = mac_addr c)) as [E|E].
  - rewrite !decide_False; [done|by auto|]. unfold MACCONN_DELETE_FROM. rewrite row_mac, E, bool_decide_true by done. by intros [].
  - rewrite !decide_True; [done|done|]. unfold MACCONN_DELETE_FROM. rewrite row_mac, bool_decide_false; [done|].
    intros [= E']. apply E. by apply macstr_inj.
Qed.

Lemma save_holds c d l : db_holds d l -> conn_ok c ->
  exists d', save_sqlite_macconn_entry c d = Done (0, d') /\ db_holds d' (replace_conn l c).
Proof.
  intros [Hok Hr Hc Hn] Hk. destruct (save_entry_run c d _ Hok Hr) as (d' & E & Hok' & Hr'); [apply Hk|].
  exists d'. split; [exact E|]. rewrite filter_rows in Hr' by done. unfold replace_conn. split; [done| | |].
  - by rewrite fmap_app.
  - apply Forall_app. split; [|by constructor]. apply Forall_forall. intros x [_ Hx]%list_elem_of_filter. by eapply Forall_forall in Hx.
  - rewrite fmap_app. apply NoDup_app. split_and!; [by apply NoDup_fmap_filter| |apply NoDup_singleton].
    intros m (x & Em & [Hx _]%list_elem_of_filter)%list_elem_of_fmap Hm%list_elem_of_singleton. congruence.
Qed.

Lemma open_holds (d : rdb) : rdb_ok d -> rtables d !! t_name instance = None ->
  exists d', open_sqlite_macconn_db d = Done (0, d') /\ db_holds d' [].
Proof.
  intros Hok Hn. unfold open_sqlite_macconn_db. destruct (create_ok instance d Hok) as [E Hok'].
  pose proof (create_rows instance d) as Hr. cbv zeta in Hr. rewrite E, Hn in Hr.
  erewrite bind_run by done. cbv beta. rewrite E. eexists. split; [done|]. split; [done| |constructor|constructor].
  rewrite Hr. apply lookup_insert_eq.
Qed.

Lemma entries_run l : forall (d : rdb) acc, Forall conn_ok l ->
  macconn_entries (row_of <$> l) acc d = Done ((0, acc ++ (kept_conn <$> l)), d).
Proof.
  induction l as [|c l IH]; intros d acc Hl; cbn [fmap list_fmap macconn_entries]; [by rewrite app_nil_r|].
  apply list.Forall_cons in Hl as [Hc Hl]. erewrite bind_run by (by apply macconn_entry_run). cbv beta iota.
  rewrite IH by done. by rewrite <- app_assoc.
Qed.

Lemma get_entries_run d l : db_holds d l ->
  exists d' l', get_sqlite_macconn_entries d = Done ((0, kept_conn <$> l'), d') /\ l' ≡ₚ l /\ db_holds d' l.
Proof.
  intros [Hok Hr Hc Hn]. unfold get_sqlite_macconn_entries.
  destruct (prepare_ok instance d Hok) as [E1 Hok1]; [by eexists|]. pose proof (prepare_rows instance d) as R1.
  erewrite bind_run by done. cbv beta. rewrite E1. cbn [negb]. generalize dependent (rdb_prepare instance d).2. intros d1 Hok1 R1.
  erewrite bind_run by done. cbv beta. rewrite R1, Hr. cbn [default]. set (n := length _).
  destruct (select_ok instance (fun _ => true) 0 n d1 Hok1) as [Hs Hok2].
  destruct (select_rows instance (fun _ => true) 0 n d1) as (R2 & rs & Hp & _ & _ & Ht). rewrite (Ht Hs).
  rewrite R1, Hr in Hp. cbn [default] in Hp. rewrite filter_all in Hp by done.
  assert (take n rs = rs) as -> by (apply take_ge; apply Permutation_length in Hp; unfold n; lia).
  apply Permutation_map_inv in Hp as (l' & -> & Hl').
  rewrite entries_run by (by rewrite <- Hl'). exists (rdb_select instance (fun _ => true) 0 n d1).2, l'.
  split; [done|]. split; [done|]. split; [done| |done|done]. by rewrite R2, R1.
Qed.

Fixpoint save_entries (cs : list mac_conn) : prog rdb Z :=
  match cs with
  | [] => mret 0
  | c :: cs => r ← save_sqlite_macconn_entry c; if r <? 0 then mret (-1) else save_entries cs
  end.

Lemma save_entries_holds cs : forall d l, db_holds d l -> Forall conn_ok cs ->
  exists d', save_entries cs d = Done (0, d') /\ db_holds d' (foldl replace_conn l cs).
Proof.
  induction cs as [|c cs IH]; intros d l Hd Hcs; cbn [save_entries foldl]; [by exists d|].
  apply list.Forall_cons in Hcs as [Hc Hcs]. destruct (save_holds c d l Hd Hc) as (d1 & E & Hd1).
  erewrite bind_run by exact E. by apply IH.
Qed.
End saved.

(** ** Lists of records as maps *)

#[local] Abbreviation as_map l := (list_to_map (M := gmap (list Z) mac_conn_info) (pairs l)).

Lemma pairs_macs l : (pairs l).*1 = mac_addr <$> l.
Proof. unfold pairs. by rewrite <- list_fmap_compose. Qed.

Lemma as_map_replace l c : as_map (replace_conn l c) = <[mac_addr c := mac_info c]> (as_map l).
Proof.
  unfold replace_conn, pairs. rewrite fmap_app, list_to_map_app. apply map_eq. intros m. cbn [fmap list_fmap list_to_map foldr fst snd].
  rewrite lookup_union. induction l as [|x l IH]; [cbn; by rewrite lookup_empty, (left_id None _)|].
  rewrite filter_cons, fmap_cons. cbn [list_to_map foldr fst snd]. case_decide as Hx.
  - rewrite fmap_cons. cbn [list_to_map foldr fst snd]. rewrite insert_insert_ne by done.
    destruct (decide (m = mac_addr x)) as [->|Hm]; [|by rewrite !(lookup_insert_ne _ (mac_addr x)) by done].
    rewrite !lookup_insert_eq. apply union_Some_l.
  - by rewrite Hx, insert_insert_eq.
Qed.

Lemma as_map_records cs : forall l, as_map (foldl replace_conn l cs) = foldl (fun m c => <[mac_addr c := mac_info c]> m) (as_map l) cs.
Proof. induction cs as [|c cs IH]; intros l; cbn [foldl]; [done|]. by rewrite IH, as_map_replace. Qed.

Lemma as_map_fmap f g l : (forall c, mac_addr (f c) = mac_addr c) -> (forall c, mac_info (f c) = g (mac_info c)) ->
  as_map (f <$> l) = g <$> as_map l.
Proof.
  intros Hf Hg. induction l as [|c l IH]; [cbn; by rewrite fmap_empty|]. unfold pairs in *. rewrite !fmap_cons. cbn [list_to_map foldr fst snd].
  by rewrite fmap_insert, IH, Hf, Hg.
Qed.

Lemma as_map_perm l l' : NoDup (mac_addr <$> l) -> l' ≡ₚ l -> as_map l' = as_map l.
Proof. intros Hn Hp. apply list_to_map_proper; [|unfold pairs; by rewrite Hp]. rewrite pairs_macs. by rewrite Hp. Qed.

Lemma as_map_foldl l : forall m : gmap (list Z) mac_conn_info, NoDup (mac_addr <$> l) ->
  foldl (fun m c => <[mac_addr c := mac_info c]> m) m l = as_map l ∪ m.
Proof.
  induction l as [|c l IH]; intros m Hn; cbn [foldl]; [cbn; by rewrite (left_id_L ∅ _)|].
  rewrite fmap_cons in Hn. apply NoDup_cons in Hn as [Hc Hn]. rewrite IH by done. unfold pairs. rewrite fmap_cons. cbn [list_to_map foldr fst snd].
  rewrite <- insert_union_l. symmetry. apply insert_union_r. fold (pairs l). apply not_elem_of_list_to_map_1. by rewrite pairs_macs.
Qed.

(** ** The properties *)

(** C25. Of a database that was just made, any records that are saved in any order
    are read back: one for each station, the one that was saved last, with its
    status, VLAN, permissions, label, identifier and passphrase. *)
Theorem macconn_refines_map {DB : Reldb} (d : rdb) cs :
  rdb_ok d -> rtables d !! t_name (ct_table MACCONN_CREATE_TABLE) = None -> Forall conn_ok cs ->
  exists d1 d2 d3 es, open_sqlite_macconn_db d = Done (0, d1) /\ save_entries cs d1 = Done (0, d2) /\
    get_sqlite_macconn_entries d2 = Done ((0, es), d3) /\ NoDup (mac_addr <$> es) /\
    list_to_map (pairs es) = kept <$> records_of cs.
Proof.
  intros Hok Hn Hcs. destruct (open_holds d Hok Hn) as (d1 & E1 & H1).
  destruct (save_entries_holds cs d1 [] H1 Hcs) as (d2 & E2 & H2).
  destruct (get_entries_run d2 _ H2) as (d3 & l & E3 & Hl & H3).
  exists d1, d2, d3, (kept_conn <$> l). split; [exact E1|]. split; [exact E2|]. split; [exact E3|]. split.
  - rewrite <- list_fmap_compose. change (mac_addr ∘ kept_conn) with mac_addr. rewrite Hl. apply H2.
  - rewrite (as_map_fmap kept_conn kept) by done. rewrite (as_map_perm _ _ (dh_macs _ _ H2) Hl), as_map_records. done.
Qed.

Definition empty_macconn_db : @rdb list_reldb := {[ cstr "instance" := [] ]}.
Definition sample_conn (vlanid : Z) (pass : list Z) : mac_conn :=
  {| mac_addr := [2; 0; 0; 0; 0; 1];
     mac_info := {| mi_status := AP_CONNECTED_STATUS; mi_vlanid := vlanid; mi_nat := true; mi_allow_connection := false;
       mi_pass := pass; mi_pass_len := zlen (until_nul pass); mi_ip_addr := cstr "10.0.3.7"; mi_ip_sec_addr := []; mi_ifname := cstr "br3";
       mi_label := cstr "camera"; mi_id := replicate 36 97; mi_join_timestamp := 12 |} |}.

Lemma macconn_refines_map_witness : exists d1 d2 d3 es,
  save_entries [sample_conn 3 (zeros 64); sample_conn 4 (cstr "secret" ++ zeros 58)] d1 = Done (0, d2) /\
  get_sqlite_macconn_entries (DB := list_reldb) d2 = Done ((0, es), d3) /\
  (fun i => (mi_vlanid i, mi_pass_len i)) <$> (list_to_map (pairs es) : gmap (list Z) mac_conn_info) !! [2; 0; 0; 0; 0; 1] = Some (4, 6).
Proof.
  destruct (macconn_refines_map (∅ : @rdb list_reldb) [sample_conn 3 (zeros 64); sample_conn 4 (cstr "secret" ++ zeros 58)])
    as (d1 & d2 & d3 & es & E1 & E2 & E3 & Hn & Hm); [done|done|apply conns_ok_dec; by vm_compute|].
  exists d1, d2, d3, es. split; [exact E2|]. split; [exact E3|]. rewrite Hm. by vm_compute.
Defined.

(** An array that the passphrase fills up has no end: saving it reads on behind
    the array.  [assign_psk_cmd] admits such passphrases. *)
Theorem full_passphrase_overruns {DB : Reldb} (d : rdb) c l :
  rdb_ok d -> rtables d !! t_name (ct_table MACCONN_CREATE_TABLE) = Some l -> (0 ∉ mi_pass (mac_info c)) ->
  save_sqlite_macconn_entry c d = Fault OutOfBounds.
Proof.
  intros Hok Hl Hp. destruct (save_head c d l Hok Hl) as (d5 & -> & _). unfold insert_entry, array_string. by rewrite bool_decide_false.
Qed.
Lemma full_passphrase_overruns_witness : save_sqlite_macconn_entry (sample_conn 3 (replicate 64 120)) empty_macconn_db = Fault OutOfBounds.
Proof. apply (full_passphrase_overruns empty_macconn_db _ []); [done|done|]. apply (bool_decide_unpack _). by vm_compute. Defined.

Section restart.
Context {DB : Reldb} {MU : Uthash (list Z) mac_conn_info} {VU : Uthash Z vlan_conn} {SV : Services}.
Context (crypt : list Z -> option (list Z)) (uninit : vlan_conn).

(** A record after the start: the interface is that of the VLAN, and a
    passphrase in the secret store replaces the one of the record. *)
Definition with_ifname (vlans : gmap Z vlan_conn) (i : mac_conn_info) : mac_conn_info :=
  with_net (mi_ip_addr i) (mi_ip_sec_addr i) (vc_ifname (default uninit (vlans !! mi_vlanid i))) i.
Definition with_stored_secret (i : mac_conn_info) : mac_conn_info :=
  if WITH_CRYPTO_SERVICE then
    match crypt (mi_id i) with
    | Some v => with_pass (v ++ drop (length v) (mi_pass i)) (zlen v) i
    | None => i
    end
  else i.
Definition restored (vlans : gmap Z vlan_conn) (i : mac_conn_info) : mac_conn_info := with_stored_secret (with_ifname vlans (kept i)).
Definition on_info (f : mac_conn_info -> mac_conn_info) (c : mac_conn) : mac_conn := {| mac_addr := mac_addr c; mac_info := f (mac_info c) |}.

Lemma ifnames_run (vm : @hash _ _ _ VU) l : Forall (fun c => is_Some (hash_map vm !! mi_vlanid (mac_info c))) l ->
  init_mac_mapper_ifnames uninit l vm = Some (on_info (with_ifname (hash_map vm)) <$> l).
Proof.
  induction 1 as [|c l [v Hv] _ IH]; [done|]. cbn [init_mac_mapper_ifnames get_vlan_mapper]. rewrite hash_find_map, Hv. cbn.
  rewrite IH. unfold with_ifname at 2, on_info at 2. by rewrite Hv.
Qed.

Lemma secret_run i : zlen (mi_pass i) = AP_SECRET_LEN -> (forall v, crypt (mi_id i) = Some v -> zlen v <= AP_SECRET_LEN) ->
  (if WITH_CRYPTO_SERVICE then get_crypt_wpa_passphrase crypt i else Done (Some i)) = Done (Some (with_stored_secret i)).
Proof.
  intros Hp Hc. unfold with_stored_secret, get_crypt_wpa_passphrase. destruct WITH_CRYPTO_SERVICE; [|done].
  destruct (crypt (mi_id i)) as [v|]; [|done]. specialize (Hc v eq_refl). rewrite (proj2 (Z.leb_le _ _)) by done.
  unfold memcpy. replace (rd v 0 (zlen v)) with (Done v) by (rewrite <- (app_nil_r v) at 2; symmetry; by apply (rd_app [] v [])).
  rewrite wr_head by (unfold zlen in *; lia). done.
Qed.

Lemma add_stations_run l : forall (b : boot), hash_wf (boot_macs b) -> mallocs (boot_env b) = [] ->
  Forall (fun c => zlen (mi_pass (mac_info c)) = AP_SECRET_LEN /\
                   forall v, crypt (mi_id (mac_info c)) = Some v -> zlen v <= AP_SECRET_LEN) l ->
  exists b', add_connections crypt l b = Done (0, b') /\ hash_wf (boot_macs b') /\
    hash_map (boot_macs b') = foldl (fun m c => <[mac_addr c := mac_info c]> m) (hash_map (boot_macs b)) (on_info with_stored_secret <$> l).
Proof.
  induction l as [|c l IH]; intros b Hw He Hl; cbn [add_connections]; [by exists b|].
  apply list.Forall_cons in Hl as [[Hp Hs] Hl]. erewrite bind_run by (rewrite secret_run by done; apply lift_run). cbv beta iota.
  destruct (put_mac_mapper_spec (boot_macs b) (on_info with_stored_secret c) (boot_env b) Hw) as (ok & h & e & E & [Hext Hok] & Hw' & Hm).
  destruct (Hok He) as [-> ->].
  erewrite bind_run by (unfold boot_put; fold (on_info with_stored_secret c); rewrite E; done). cbn [fst snd negb].
  destruct (IH {| macconn_db := macconn_db b; boot_macs := h; boot_vlans := boot_vlans b; boot_env := boot_env b |} Hw' He Hl) as (b' & E' & Hw2 & Hm2).
  exists b'. split; [exact E'|]. split; [done|]. rewrite Hm2. cbn. by rewrite Hm.
Qed.

Lemma kept_pass_len p : zlen p = AP_SECRET_LEN -> 0 ∈ p -> zlen (kept_pass p) = AP_SECRET_LEN.
Proof. intros Hl H0. destruct (array_end p H0). unfold kept_pass, zeros. rewrite zlen_app, zlen_replicate. unfold zlen in *. lia. Qed.

Lemma create_run (b : boot) l : db_holds (macconn_db b) l -> hash_wf (boot_macs b) -> mallocs (boot_env b) = [] ->
  Forall (fun c => is_Some (hash_map (boot_vlans b) !! mi_vlanid (mac_info c))) l ->
  (forall k v, crypt k = Some v -> zlen v <= AP_SECRET_LEN) ->
  exists b', create_mac_mapper crypt uninit b = Done (0, b') /\ hash_wf (boot_macs b') /\
    hash_map (boot_macs b') = (restored (hash_map (boot_vlans b)) <$> as_map l) ∪ hash_map (boot_macs b).
Proof.
  intros Hd Hw He Hv Hc. unfold create_mac_mapper. destruct (get_entries_run _ _ Hd) as (d & l' & E & Hl & _).
  erewrite bind_run by (unfold boot_db; rewrite E; done). cbn [fst snd].
  change (0 <? 0) with false. cbv iota. erewrite bind_run by done. cbn [boot_vlans]. set (r := restored (hash_map (boot_vlans b))).
  rewrite ifnames_run by (apply Forall_fmap; cbn; by rewrite Hl).
  set (b1 := {| macconn_db := d |}). destruct (add_stations_run (on_info (with_ifname (hash_map (boot_vlans b))) <$> (kept_conn <$> l')) b1) as (b' & E' & Hw' & Hm); [done|done| |].
  { do 2 apply Forall_fmap. cbn. rewrite Hl. apply Forall_forall. intros c Hin. split; [|by intros v ?%Hc].
    destruct Hd as [_ _ Hd _]. eapply Forall_forall in Hd as [_ _ _ _ [? ?]]; [|done]. by apply kept_pass_len. }
  exists b'. split; [exact E'|]. split; [exact Hw'|]. rewrite Hm.
  assert (on_info with_stored_secret <$> (on_info (with_ifname (hash_map (boot_vlans b))) <$> (kept_conn <$> l')) = on_info r <$> l') as ->
    by (by rewrite <- !list_fmap_compose). rewrite as_map_foldl.
  - rewrite (as_map_fmap (on_info r) r), (as_map_perm _ _ (dh_macs _ _ Hd) Hl); done.
  - rewrite <- list_fmap_compose. change (mac_addr ∘ _) with mac_addr. rewrite Hl. apply Hd.
Qed.
End restart.
