(* ===== verification/Sockctl.v ===== *)
(** Unix domain and UDP sockets: [sockctl.c] of [src/utils].

    The operating system is a table of sockets with the datagrams that wait on
    them, a disk with directories and socket files, and the answers of the calls
    that can fail. One program listens at a path and answers what it is sent;
    other programs may send datagrams of their own at any time. Both builds are
    modelled: with abstract addresses (Linux) and with a temporary directory for
    each socket.

    The theorems: an exchange of a command and its reply, which leaves no socket,
    file or temporary directory behind; and what a datagram of another program
    does to it. *)
From stdpp Require Import strings numbers base list gmap.
From Stdlib Require Import ZArith Lia.
From S2P Require Import Prelude Os Paths Text Net Extern Mappers Process Supervisor.

Definition SOCK_EXTENSION : list Z := cstr ".sock".
Definition TMP_UNIX_SOCK_FOLDER_PREFIX : list Z := cstr "/tmp/edgesec/tmp-unix-socks.".
Definition TMP_UNIX_SOCK_FOLDER_TEMPLATE : list Z := TMP_UNIX_SOCK_FOLDER_PREFIX ++ cstr "XXXXXX".
Definition TMP_UNIX_SOCK_NAME : list Z := cstr "client-socket" ++ SOCK_EXTENSION.
(** The size of [sun_path]. *)
Definition SUN_PATH_LEN : Z := 108.

(** ** The system *)

(** [Path] has the bytes of [sun_path]; an abstract address starts with a zero
    byte. *)
Inductive address := Unnamed | Path (p : list Z) | Inet (port : Z) (ip : list Z).
#[export] Instance address_eq_dec : EqDecision address.
Proof. solve_decision. Defined.

Record socket_t := {
  so_type : SOCKET_TYPE;
  so_addr : address;
  so_queue : list (list Z * address)    (* data and sender *)
}.

(** [sy_names] are the names that [mkdtemp] and the automatic binding come up
    with, and [sy_stray] the datagrams of other programs that arrive while
    [select] waits. *)
Record sys (H : Type) := {
  sy_socks : gmap Z socket_t;
  sy_next : Z;
  sy_disk : disk unit;
  sy_names : list (list Z);
  sy_stray : list (option (list Z * address));
  sy_sent : list (address * list Z);
  sy_peer : H;
  sy_env : env
}.
Arguments sy_socks {_}.
Arguments sy_next {_}.
Arguments sy_disk {_}.
Arguments sy_names {_}.
Arguments sy_stray {_}.
Arguments sy_sent {_}.
Arguments sy_peer {_}.
Arguments sy_env {_}.
Arguments Build_sys {_}.

(** The program that listens: where, and what it does with a datagram. *)
Class Peer (H : Type) := {
  peer_addr : address;
  peer_step : H -> list Z -> H * option (list Z)
}.

Section sockctl.
Context {H : Type} {P : Peer H}.
(** Whether [USE_ABSTRACT_UNIX_DOMAIN_SOCKETS] is defined. *)
Context (abstract : bool).
#[local] Abbreviation So := (prog (sys H)).

Definition sy_get {A} (f : sys H -> A) : So A := fun s => Done (f s, s).
Definition on_sys {A} (f : sys H -> A * sys H) : So A := fun s => Done (f s).
Definition set_socks (f : gmap Z socket_t -> gmap Z socket_t) : So unit := fun s =>
  Done (tt, Build_sys (f (sy_socks s)) (sy_next s) (sy_disk s) (sy_names s) (sy_stray s) (sy_sent s) (sy_peer s) (sy_env s)).
Definition on_disk {A} (m : prog (disk unit) A) : So A := fun s =>
  match m (sy_disk s) with
  | Fault f => Fault f
  | Done (a, d) => Done (a, Build_sys (sy_socks s) (sy_next s) d (sy_names s) (sy_stray s) (sy_sent s) (sy_peer s) (sy_env s))
  end.
Definition on_env {A} (m : prog env A) : So A := fun s =>
  match m (sy_env s) with
  | Fault f => Fault f
  | Done (a, e) => Done (a, Build_sys (sy_socks s) (sy_next s) (sy_disk s) (sy_names s) (sy_stray s) (sy_sent s) (sy_peer s) e)
  end.
(** Whether the next call works. *)
Definition works : So bool := e ← on_disk Paths.answer; mret (e =? 0).
Definition new_name : So (option (list Z)) := fun s =>
  Done (head (sy_names s),
        Build_sys (sy_socks s) (sy_next s) (sy_disk s) (tail (sy_names s)) (sy_stray s) (sy_sent s) (sy_peer s) (sy_env s)).

Definition socket (type : SOCKET_TYPE) : So Z :=
  ok ← works;
  if (ok : bool) then on_sys (fun s =>
    (sy_next s, Build_sys (<[sy_next s := {| so_type := type; so_addr := Unnamed; so_queue := [] |}]> (sy_socks s))
                  (sy_next s + 1) (sy_disk s) (sy_names s) (sy_stray s) (sy_sent s) (sy_peer s) (sy_env s)))
  else mret (-1).

Definition named (a : address) (k : socket_t) : socket_t := {| so_type := so_type k; so_addr := a; so_queue := so_queue k |}.
Definition set_files (f : gmap (list Z) unit -> gmap (list Z) unit) : prog (disk unit) unit := fun d =>
  Done (tt, Build_disk (dk_answers d) (dk_dirs d) (f (dk_files d))).

(** Without an address the system finds an abstract one. A path makes a socket
    file, which must not be there. *)
Definition bind (sock : Z) (a : address) : So Z :=
  ok ← works;
  if negb ok then mret (-1)
  else
    match a with
    | Unnamed =>
        n ← new_name;
        match n with
        | None => mret (-1)
        | Some name => _ ← set_socks (alter (named (Path (0 :: name))) sock); mret 0
        end
    | Path ((c :: _) as p) =>
        if c =? 0 then _ ← set_socks (alter (named a) sock); mret 0
        else
          d ← sy_get sy_disk;
          match dk_files d !! p with
          | Some _ => mret (-1)
          | None => _ ← on_disk (set_files (<[p := tt]>)); _ ← set_socks (alter (named a) sock); mret 0
          end
    | _ => _ ← set_socks (alter (named a) sock); mret 0
    end.

Definition close (sock : Z) : So Z :=
  ok ← works;
  _ ← set_socks (delete sock);
  mret (if (ok : bool) then 0 else -1).

Definition unlink (path : list Z) : So Z :=
  ok ← works;
  d ← sy_get sy_disk;
  match dk_files d !! path with
  | Some _ => if (ok : bool) then _ ← on_disk (set_files (delete path)); mret 0 else mret (-1)
  | None => mret (-1)
  end.

Definition empty_dir (path : list Z) (d : disk unit) : bool :=
  bool_decide (path ∈ dk_dirs d /\ map_Forall (fun p _ => ~ (path ++ [SLASH]) `prefix_of` p) (dk_files d)).
Definition rmdir (path : list Z) : So Z :=
  ok ← works;
  d ← sy_get sy_disk;
  if ok && empty_dir path d then
    _ ← on_disk (fun d => Done (tt, Build_disk (dk_answers d) (filter (fun p => p <> path) (dk_dirs d)) (dk_files d)));
    mret 0
  else mret (-1).

(** The directory that is made from a template with six characters to fill in. *)
Definition mkdtemp (template : list Z) : So (option (list Z)) :=
  ok ← works;
  n ← new_name;
  match n with
  | Some name =>
      let dir := take (length template - 6) template ++ name in
      if (ok : bool) then
        _ ← on_disk (fun d => Done (tt, Build_disk (dk_answers d) (dk_dirs d ++ [dir]) (dk_files d)));
        mret (Some dir)
      else mret None
  | None => mret None
  end.

Definition enqueue (m : list Z * address) (k : socket_t) : socket_t :=
  {| so_type := so_type k; so_addr := so_addr k; so_queue := so_queue k ++ [m] |}.

(** What is sent to the program that listens is answered at once, into the queue
    of the sender; nobody listens elsewhere. *)
Definition sendto (sock : Z) (data : list Z) (a : address) : So Z :=
  ok ← works;
  if negb ok || negb (bool_decide (a = peer_addr)) then mret (-1)
  else on_sys (fun s =>
    let r := peer_step (sy_peer s) data in
    let socks := match r.2 with
                 | Some reply => alter (enqueue (reply, peer_addr)) sock (sy_socks s)
                 | None => sy_socks s
                 end in
    (zlen data, Build_sys socks (sy_next s) (sy_disk s) (sy_names s) (sy_stray s) (sy_sent s ++ [(a, data)]) r.1 (sy_env s))).

Definition push_front (m : option (list Z * address)) (k : socket_t) : socket_t :=
  {| so_type := so_type k; so_addr := so_addr k; so_queue := option_list m ++ so_queue k |}.

(** Whether a datagram waits when the time is up; -1 for a failure. *)
Definition select (sock : Z) : So Z :=
  ok ← works;
  if negb ok then mret (-1)
  else on_sys (fun s =>
    let socks := alter (push_front (mjoin (head (sy_stray s)))) sock (sy_socks s) in
    (match socks !! sock with Some {| so_queue := _ :: _ |} => 1 | _ => 0 end,
     Build_sys socks (sy_next s) (sy_disk s) (sy_names s) (tail (sy_stray s)) (sy_sent s) (sy_peer s) (sy_env s))).

(** [FIONREAD]: the length of the first datagram. *)
Definition ioctl_fionread (sock : Z) : So (option Z) :=
  ok ← works;
  if negb ok then mret None
  else
    k ← sy_get (fun s => sy_socks s !! sock);
    mret (Some (match k with Some {| so_queue := m :: _ |} => u32 (zlen m.1) | _ => 0 end)).

Definition dequeue (k : socket_t) : socket_t := {| so_type := so_type k; so_addr := so_addr k; so_queue := tail (so_queue k) |}.

(** [None] for -1; otherwise the bytes that fit, and the sender. *)
Definition recvfrom (sock : Z) (data_len : Z) : So (option (list Z * address)) :=
  ok ← works;
  k ← sy_get (fun s => sy_socks s !! sock);
  match k with
  | Some {| so_queue := m :: _ |} =>
      if (ok : bool) then _ ← set_socks (alter dequeue sock); mret (Some (take (Z.to_nat data_len) m.1, m.2)) else mret None
  | _ => mret None
  end.

(** ** The functions of [sockctl.c] *)

(** [init_domain_addr]: a string in [sun_path]. *)
Definition init_domain_addr (addr : list Z) : address := Path (clip SUN_PATH_LEN addr).

Definition create_tmp_domain_socket_path : So (option (list Z)) :=
  _ ← on_disk (make_dirs_to_path (Some TMP_UNIX_SOCK_FOLDER_TEMPLATE));
  d ← mkdtemp TMP_UNIX_SOCK_FOLDER_TEMPLATE;
  match d with
  | None => mret None
  | Some socket_dir => on_env (concat_paths (Some socket_dir) (Some TMP_UNIX_SOCK_NAME))
  end.

Definition cleanup_tmp_domain_socket_path (socket_path : list Z) : So Z :=
  u ← unlink socket_path;
  if negb (u =? 0) then mret (-1)
  else if negb (bool_decide (TMP_UNIX_SOCK_FOLDER_PREFIX `prefix_of` socket_path)) then mret 0
  else
    r ← rmdir (dirname (clip MAX_OS_PATH_LEN socket_path));
    mret (if r =? 0 then 0 else -1).

(** When there is no temporary path the new socket is not closed. *)
Definition create_domain_client (path : option (list Z)) : So Z :=
  sock ← socket SOCKET_TYPE_DOMAIN;
  if sock =? -1 then mret (-1)
  else
    claddr ← (match path with
              | None =>
                  if abstract then mret (Some Unnamed)
                  else
                    tmp_socket_path ← create_tmp_domain_socket_path;
                    mret (init_domain_addr <$> tmp_socket_path)
              | Some p => mret (Some (init_domain_addr p))
              end);
    match claddr with
    | None => mret (-1)
    | Some a =>
        b ← bind sock a;
        if b =? -1 then _ ← close sock; mret (-1) else mret sock
    end.

(** [remove] of a file that is not there is no failure. *)
Definition create_domain_server (server_path : list Z) : So Z :=
  sfd ← socket SOCKET_TYPE_DOMAIN;
  if sfd =? -1 then mret (-1)
  else if SUN_PATH_LEN - 1 <? zlen server_path then _ ← close sfd; mret (-1)
  else
    e ← on_disk Paths.answer;
    if negb (e =? 0) && negb (e =? ENOENT) then _ ← close sfd; mret (-1)
    else
      _ ← (if e =? 0 then on_disk (set_files (delete server_path)) else mret tt);
      b ← bind sfd (init_domain_addr server_path);
      if b =? -1 then _ ← close sfd; mret (-1) else mret sfd.

(** A socket whose file cannot be removed stays open. *)
Definition close_domain_socket (unix_domain_socket_fd : Z) : So Z :=
  ok ← works;
  k ← sy_get (fun s => sy_socks s !! unix_domain_socket_fd);
  match k with
  | None => mret (-1)
  | Some k =>
      if negb ok then mret (-1)
      else if negb (bool_decide (so_type k = SOCKET_TYPE_DOMAIN)) then mret (-1)
      else
        c ← (match so_addr k with
             | Path ((b :: _) as p) => if b =? 0 then mret 0 else cleanup_tmp_domain_socket_path (until_nul p)
             | _ => mret 0
             end);
        if negb (c =? 0) then mret (-1) else close unix_domain_socket_fd
  end.

(** The call in the middle is [disable_pmtu_discovery]. *)
Definition create_udp_server (port : Z) : So Z :=
  sfd ← socket SOCKET_TYPE_UDP;
  if sfd =? -1 then mret (-1)
  else
    ok ← works;
    if negb ok then _ ← close sfd; mret (-1)
    else
      b ← bind sfd (Inet (u16 port) [0; 0; 0; 0]);
      if b =? -1 then _ ← close sfd; mret (-1) else mret sfd.

Definition read_socket_domain (sock data_len : Z) : So (option (list Z * address)) := recvfrom sock data_len.
Definition read_socket_udp (sock data_len : Z) : So (option (list Z * address)) := recvfrom sock data_len.
Definition read_socket_data (sock data_len : Z) (type : SOCKET_TYPE) : So (option (list Z * address)) :=
  match type with
  | SOCKET_TYPE_DOMAIN => read_socket_domain sock data_len
  | SOCKET_TYPE_UDP => read_socket_udp sock data_len
  | SOCKET_TYPE_NONE => mret None
  end.

(** [strcpy] from the [sun_path] of a sender. Nothing has been written there when
    nothing was received, or when the sender has no address; and without a zero
    byte the copy leaves the array. *)
Definition copy_sun_path (r : option (list Z * address)) : outcome (list Z) :=
  match r with
  | Some (_, Path p) => if SUN_PATH_LEN <=? zlen (until_nul p) then Fault OutOfBounds else Done (until_nul p)
  | _ => Fault Indeterminate
  end.

(** The bytes, [None] for -1, and the new content of [addr]. *)
Definition read_domain_data_s (sock data_len : Z) (addr : option (list Z)) : So (option (list Z) * option (list Z)) :=
  match addr with
  | None => mret (None, None)
  | Some _ =>
      r ← read_socket_data sock data_len SOCKET_TYPE_DOMAIN;
      p ← lift_outcome (copy_sun_path r);
      mret (fst <$> r, Some p)
  end.

Definition write_socket_domain (sock : Z) (data : list Z) (addr : address) : So Z := sendto sock data addr.
Definition write_socket_udp (sock : Z) (data : list Z) (addr : address) : So Z := sendto sock data addr.
(** The socket functions of the supervisor take the address with its type. *)
Definition send_socket_data (sock : Z) (data : option (list Z)) (addr : option address) (type : SOCKET_TYPE) : So Z :=
  match data, addr with
  | Some d, Some a =>
      match type with
      | SOCKET_TYPE_DOMAIN => write_socket_domain sock d a
      | SOCKET_TYPE_UDP => write_socket_udp sock d a
      | SOCKET_TYPE_NONE => mret (-1)
      end
  | _, _ => mret (-1)
  end.

Definition write_domain_data_s (sock : Z) (data : list Z) (addr : option (list Z)) : So Z :=
  match addr with
  | None => mret (-1)
  | Some p => send_socket_data sock (Some data) (Some (init_domain_addr p)) SOCKET_TYPE_DOMAIN
  end.

(** The received bytes in a block of zeros of [bytes_available + 1] bytes, as a
    string. *)
Definition rec_string (bytes_available : Z) (data : list Z) : outcome (list Z) :=
  match wr (zeros (Z.to_nat (u32 (bytes_available + 1)))) 0 data with Done b => Done (until_nul b) | Fault f => Fault f end.

(** From [select] on; the reply and the path. *)
Definition read_reply (sfd : Z) (socket_path : list Z) : So (option (list Z) * list Z) :=
  w ← select sfd;
  if negb (w =? 1) then mret (None, socket_path)
  else
    n ← ioctl_fionread sfd;
    match n with
    | None => mret (None, socket_path)
    | Some bytes_available =>
        ok ← on_env malloc;
        if negb ok then mret (None, socket_path)
        else
          x ← read_domain_data_s sfd bytes_available (Some socket_path);
          let path := default socket_path x.2 in
          match x.1 with
          | None => mret (None, path)
          | Some data =>
              rec ← lift_outcome (rec_string bytes_available data);
              ok2 ← on_env malloc;
              mret (if (ok2 : bool) then rtrim (Some rec) None else None, path)
          end
    end.

(** The result, the reply and what is in [socket_path] afterwards. *)
Definition writeread_domain_data_str (socket_path write_str : list Z) : So (Z * option (list Z) * list Z) :=
  sfd ← create_domain_client None;
  if sfd =? -1 then mret (-1, None, socket_path)
  else
    send_count ← write_domain_data_s sfd write_str (Some socket_path);
    x ← (if (send_count <? 0) || negb (send_count =? zlen write_str) then mret (None, socket_path) else read_reply sfd socket_path);
    _ ← close_domain_socket sfd;
    mret (match x.1 with Some _ => 0 | None => -1 end, x.1, x.2).
End sockctl.

(** ** An exchange *)

Section exchange.
Context {H : Type} {P : Peer H} (abstract : bool).

(** A system on which every call works. *)
#[local] Abbreviation mk k n dirs fls names stray sent h rs :=
  (Build_sys k n (Build_disk [] dirs fls) names stray sent h (Env [] rs)).

Definition tmp_dir (name : list Z) : list Z := TMP_UNIX_SOCK_FOLDER_PREFIX ++ name.
Definition tmp_sock (name : list Z) : list Z := tmp_dir name ++ SLASH :: TMP_UNIX_SOCK_NAME.
Definition client_addr (name : list Z) : address := if abstract then Path (0 :: name) else Path (tmp_sock name).
(** [mkdir] is called for the directories on the way each time. *)
Definition tmp_parents : list (list Z) := if abstract then [] else [cstr "/tmp"; cstr "/tmp/edgesec"].

(** A name for a new socket: a directory of that name is new, and empty. *)
Definition fresh_name (name : list Z) (dirs : list (list Z)) (fls : gmap (list Z) unit) : Prop :=
  abstract = false -> length name = 6%nat /\ (SLASH ∉ name) /\ Forall (fun c => c <> 0) name /\ (tmp_dir name ∉ dirs) /\
    map_Forall (fun p _ => ~ (tmp_dir name ++ [SLASH]) `prefix_of` p) fls.

Lemma tmp_sock_dir name : SLASH ∉ name -> length name = 6%nat -> dirname (clip MAX_OS_PATH_LEN (tmp_sock name)) = tmp_dir name.
Proof.
  intros Hs Hl. rewrite clip_short; cycle 1.
  { unfold tmp_sock, tmp_dir, zlen. rewrite !length_app. cbn [length]. rewrite Hl. by vm_compute. }
  unfold tmp_sock. rewrite dirname_file by (apply (bool_decide_unpack _); by vm_compute).
  destruct (drop_slashes (reverse (tmp_dir name))) as [|c t] eqn:E.
  - exfalso. unfold tmp_dir in E. rewrite reverse_app in E. rewrite drop_slashes_end in E; [by apply app_nil in E as [_ ?]| |done]. by destruct name.
  - rewrite <- E. unfold tmp_dir. rewrite reverse_app, drop_slashes_end; [|by destruct name|done]. by rewrite <- reverse_app, reverse_involutive.
Qed.

Lemma parents_made : forall (dirs : list (list Z)) (fls : gmap (list Z) unit),
  make_dirs_to_path (Some TMP_UNIX_SOCK_FOLDER_TEMPLATE) (Build_disk [] dirs fls) =
  Done (0, Build_disk [] ((dirs ++ [cstr "/tmp"]) ++ [cstr "/tmp/edgesec"]) fls).
Proof. intros. reflexivity. Qed.

Lemma works_run k n dirs fls names stray sent (h : H) rs :
  works (mk k n dirs fls names stray sent h rs) = Done (true, mk k n dirs fls names stray sent h rs).
Proof. reflexivity. Qed.

Lemma answer_run k n dirs fls names stray sent (h : H) rs :
  on_disk Paths.answer (mk k n dirs fls names stray sent h rs) = Done (0, mk k n dirs fls names stray sent h rs).
Proof. reflexivity. Qed.

Lemma socket_run ty k n dirs fls names stray sent (h : H) rs :
  socket ty (mk k n dirs fls names stray sent h rs) =
  Done (n, mk (<[n := {| so_type := ty; so_addr := Unnamed; so_queue := [] |}]> k) (n + 1) dirs fls names stray sent h rs).
Proof. reflexivity. Qed.

Lemma bind_path_run sock p k n dirs fls names stray sent (h : H) rs : fls !! p = None -> Forall (fun c => c <> 0) p -> p <> [] ->
  bind sock (Path p) (mk k n dirs fls names stray sent h rs) =
  Done (0, mk (alter (named (Path p)) sock k) n dirs (<[p := tt]> fls) names stray sent h rs).
Proof.
  intros Hp H0 Hne. destruct p as [|c p]; [done|]. apply list.Forall_cons in H0 as [H0 _]. unfold bind. erewrite bind_run by apply works_run.
  cbn [negb]. rewrite (proj2 (Z.eqb_neq c 0)) by done. erewrite bind_run by reflexivity. cbn [sy_disk dk_files]. by rewrite Hp.
Qed.

Lemma bind_auto_run sock name k n dirs fls names stray sent (h : H) rs :
  bind sock Unnamed (mk k n dirs fls (name :: names) stray sent h rs) =
  Done (0, mk (alter (named (Path (0 :: name))) sock k) n dirs fls names stray sent h rs).
Proof. reflexivity. Qed.

Lemma tmp_sock_ok name dirs fls : abstract = false -> fresh_name name dirs fls ->
  fls !! tmp_sock name = None /\ Forall (fun c => c <> 0) (tmp_sock name) /\ tmp_sock name <> [] /\ zlen (tmp_sock name) < SUN_PATH_LEN.
Proof.
  intros Ha Hf. destruct (Hf Ha) as (Hl & Hs & H0 & Hd & Hfl). split; [|split; [|split]].
  - destruct (fls !! tmp_sock name) eqn:E; [|done]. exfalso. eapply Hfl; [exact E|]. unfold tmp_sock. exists TMP_UNIX_SOCK_NAME. by rewrite <- app_assoc.
  - unfold tmp_sock, tmp_dir. rewrite !Forall_app. split; [split; [|done]|]; apply (bool_decide_unpack _); by vm_compute.
  - done.
  - unfold tmp_sock, tmp_dir, zlen. rewrite !length_app. cbn [length]. rewrite Hl. by vm_compute.
Qed.

Lemma mkdtemp_run k n dirs fls name names stray sent (h : H) rs :
  mkdtemp TMP_UNIX_SOCK_FOLDER_TEMPLATE (mk k n dirs fls (name :: names) stray sent h rs) =
  Done (Some (tmp_dir name), mk k n (dirs ++ [tmp_dir name]) fls names stray sent h rs).
Proof. reflexivity. Qed.

Lemma tmp_path_run k n dirs fls name names stray sent (h : H) rs : length name = 6%nat ->
  create_tmp_domain_socket_path (mk k n dirs fls (name :: names) stray sent h rs) =
  Done (Some (tmp_sock name), mk k n (dirs ++ [cstr "/tmp"; cstr "/tmp/edgesec"; tmp_dir name]) fls names stray sent h rs).
Proof.
  intros Hl. unfold create_tmp_domain_socket_path. erewrite bind_run by (unfold on_disk; cbn [sy_disk]; rewrite parents_made; reflexivity).
  cbn [sy_socks sy_next sy_names sy_stray sy_sent sy_peer sy_env]. erewrite bind_run by apply mkdtemp_run. cbn beta iota.
  unfold on_env. cbn [sy_env]. rewrite concat_paths_run. rewrite decide_False by (unfold tmp_dir; by destruct name). rewrite <- !app_assoc. done.
Qed.

Lemma client_run k n dirs fls name names stray sent (h : H) rs : 0 <= n -> fresh_name name dirs fls ->
  create_domain_client abstract None (mk k n dirs fls (name :: names) stray sent h rs) =
  Done (n, mk (<[n := {| so_type := SOCKET_TYPE_DOMAIN; so_addr := client_addr name; so_queue := [] |}]> k) (n + 1)
             (dirs ++ tmp_parents ++ (if abstract then [] else [tmp_dir name]))
             (if abstract then fls else <[tmp_sock name := tt]> fls) names stray sent h rs).
Proof.
  intros Hn Hf. unfold create_domain_client, client_addr, tmp_parents. erewrite bind_run by apply socket_run.
  rewrite (proj2 (Z.eqb_neq n (-1))) by lia. destruct abstract eqn:Ha.
  - erewrite bind_run by reflexivity. cbn beta iota. erewrite bind_run by apply bind_auto_run. rewrite alter_insert_eq, app_nil_r. done.
  - destruct (Hf Ha) as (Hl & _). destruct (tmp_sock_ok name dirs fls Ha Hf) as (T1 & T2 & T3 & T4).
    erewrite bind_run by (erewrite bind_run by (by apply tmp_path_run); reflexivity). cbn beta iota. cbn [fmap option_fmap option_map].
    unfold init_domain_addr. rewrite clip_short by done. erewrite bind_run by (by apply bind_path_run). rewrite alter_insert_eq. done.
Qed.

Lemma unlink_run p k n dirs fls names stray sent (h : H) rs : fls !! p = Some tt ->
  unlink p (mk k n dirs fls names stray sent h rs) = Done (0, mk k n dirs (delete p fls) names stray sent h rs).
Proof. intros Hp. unfold unlink. erewrite bind_run by apply works_run. erewrite bind_run by reflexivity. cbn [sy_disk dk_files]. by rewrite Hp. Qed.

Lemma rmdir_run p k n dirs fls names stray sent (h : H) rs : p ∈ dirs -> map_Forall (fun q _ => ~ (p ++ [SLASH]) `prefix_of` q) fls ->
  rmdir p (mk k n dirs fls names stray sent h rs) = Done (0, mk k n (filter (fun q => q <> p) dirs) fls names stray sent h rs).
Proof.
  intros Hp Hf. unfold rmdir. erewrite bind_run by apply works_run. erewrite bind_run by reflexivity. cbn [sy_disk]. unfold empty_dir.
  rewrite bool_decide_true by (cbn [dk_dirs dk_files]; done). done.
Qed.

Lemma close_fd_run fd k n dirs fls names stray sent (h : H) rs :
  close fd (mk k n dirs fls names stray sent h rs) = Done (0, mk (delete fd k) n dirs fls names stray sent h rs).
Proof. reflexivity. Qed.

Lemma tmp_dir_parents name : length name = 6%nat -> tmp_dir name ∉ tmp_parents.
Proof.
  intros Hl Hq. assert (length (tmp_dir name) = 34%nat) as E by (unfold tmp_dir; rewrite length_app, Hl; by vm_compute).
  unfold tmp_parents in Hq. destruct abstract; [by apply elem_of_nil in Hq|]. rewrite !elem_of_cons, elem_of_nil in Hq.
  destruct Hq as [Hq|[Hq|[]]]; rewrite Hq in E; by vm_compute in E.
Qed.

Lemma cleanup_run k n dirs fls name names stray sent (h : H) rs : abstract = false -> fresh_name name dirs fls ->
  cleanup_tmp_domain_socket_path (tmp_sock name) (mk k n (dirs ++ tmp_parents ++ [tmp_dir name]) (<[tmp_sock name := tt]> fls) names stray sent h rs) =
  Done (0, mk k n (dirs ++ tmp_parents) fls names stray sent h rs).
Proof.
  intros Ha Hf. destruct (Hf Ha) as (Hl & Hs & H0 & Hd & Hfl). destruct (tmp_sock_ok name dirs fls Ha Hf) as (T1 & T2 & T3 & T4).
  unfold cleanup_tmp_domain_socket_path. erewrite bind_run by (apply unlink_run, lookup_insert_eq). cbn [Z.eqb negb].
  rewrite bool_decide_true by (unfold tmp_sock, tmp_dir; eexists; by rewrite <- !app_assoc). cbn [negb].
  rewrite tmp_sock_dir, delete_insert_id by done. erewrite bind_run; cycle 1.
  { apply rmdir_run; [|done]. rewrite !elem_of_app. right. right. by left. }
  cbn [Z.eqb]. rewrite !filter_app, (filter_all _ dirs), (filter_all _ tmp_parents), (filter_none _ [tmp_dir name]), app_nil_r; [done| | |].
  - by intros q ->%list_elem_of_singleton [].
  - intros q Hq ->. by eapply tmp_dir_parents.
  - by intros q Hq ->.
Qed.

(** Closing takes the socket out of the table, and its file and directory off the
    disk. *)
Lemma close_run k n q dirs fls name names stray sent (h : H) rs n' : fresh_name name dirs fls ->
  close_domain_socket n (mk (<[n := {| so_type := SOCKET_TYPE_DOMAIN; so_addr := client_addr name; so_queue := q |}]> k) n'
    (dirs ++ tmp_parents ++ (if abstract then [] else [tmp_dir name]))
    (if abstract then fls else <[tmp_sock name := tt]> fls) names stray sent h rs) =
  Done (0, mk (delete n k) n' (dirs ++ tmp_parents) fls names stray sent h rs).
Proof.
  intros Hf. unfold close_domain_socket, client_addr. erewrite bind_run by apply works_run. erewrite bind_run by reflexivity.
  cbn [sy_socks]. rewrite lookup_insert_eq. cbn [negb so_type so_addr]. rewrite bool_decide_true by done. cbn [negb].
  pose proof (cleanup_run (<[n := {| so_type := SOCKET_TYPE_DOMAIN; so_addr := Path (tmp_sock name); so_queue := q |}]> k) n' dirs fls name names stray sent h rs) as Hc.
  destruct abstract eqn:Ha.
  - erewrite bind_run by reflexivity. cbn [Z.eqb negb]. rewrite !app_nil_r, close_fd_run. by rewrite delete_insert_eq.
  - destruct (tmp_sock_ok name dirs fls Ha Hf) as (T1 & T2 & T3 & T4). erewrite bind_run; cycle 1.
    { change (tmp_sock name) with (47 :: tail (tmp_sock name)) at 1. cbn [Z.eqb Pos.eqb]. rewrite until_nul_id by done. by apply Hc. }
    cbn [Z.eqb negb]. rewrite close_fd_run. by rewrite delete_insert_eq.
Qed.

(** The datagram that is read: that of another program, if one is first. *)
Definition first_datagram (stray : list (option (list Z * address))) (q : list (list Z * address)) : option (list Z * address) :=
  head (option_list (mjoin (head stray)) ++ q).
(** One that can be read: it has a sender with a path. *)
Definition readable (m : option (list Z * address)) : Prop :=
  match m with
  | None => True
  | Some (d, Path p) => zlen (until_nul p) < SUN_PATH_LEN /\ zlen d < 2 ^ 32 - 1
  | Some _ => False
  end.
Definition reply_of (m : option (list Z * address)) : option (list Z) := m ≫= fun x => rtrim (Some (until_nul x.1)) None.
Definition sender_of (m : option (list Z * address)) (path : list Z) : list Z :=
  match m with Some (_, Path p) => until_nul p | _ => path end.

Lemma until_nul_zero d : until_nul (d ++ [0]) = until_nul d.
Proof. induction d as [|c d IH]; [done|]. cbn. by rewrite IH. Qed.

Lemma rec_string_run d : zlen d < 2 ^ 32 - 1 -> rec_string (u32 (zlen d)) d = Done (until_nul d).
Proof.
  intros Hd. pose proof (zlen_nonneg d). unfold rec_string. rewrite (wrap_small 32 (zlen d)), wrap_small by lia.
  replace (Z.to_nat (zlen d + 1)) with (length d + 1)%nat by (unfold zlen; lia). unfold zeros. rewrite replicate_add, wr_head; cycle 1.
  { rewrite length_app, !length_replicate. lia. }
  rewrite drop_app_length'; [by rewrite until_nul_zero|by rewrite length_replicate].
Qed.

#[local] Abbreviation client a q := {| so_type := SOCKET_TYPE_DOMAIN; so_addr := a; so_queue := q |}.
Lemma select_sock_run a q k n dirs fls names stray sent (h : H) rs : let q0 := option_list (mjoin (head stray)) ++ q in
  select n (mk (<[n := client a q]> k) (n + 1) dirs fls names stray sent h rs) =
  Done (match q0 with [] => 0 | _ => 1 end, mk (<[n := client a q0]> k) (n + 1) dirs fls names (tail stray) sent h rs).
Proof.
  intros q0. unfold select. erewrite bind_run by apply works_run. cbn [negb]. unfold on_sys. cbn [sy_stray sy_socks]. rewrite alter_insert_eq, lookup_insert_eq.
  unfold push_front. cbn [so_type so_addr so_queue sy_next sy_disk sy_names sy_sent sy_peer sy_env]. fold q0. by destruct q0.
Qed.

Lemma recv_run a d from q len k n dirs fls names stray sent (h : H) rs :
  recvfrom n len (mk (<[n := client a ((d, from) :: q)]> k) (n + 1) dirs fls names stray sent h rs) =
  Done (Some (take (Z.to_nat len) d, from), mk (<[n := client a q]> k) (n + 1) dirs fls names stray sent h rs).
Proof.
  unfold recvfrom. erewrite bind_run by apply works_run. erewrite bind_run by reflexivity. cbn [sy_socks]. rewrite lookup_insert_eq.
  cbn beta iota. erewrite bind_run by reflexivity. cbn [sy_socks]. by rewrite alter_insert_eq.
Qed.

Lemma read_reply_run sock q sp k n dirs fls names stray sent (h : H) rs : let m := first_datagram stray q in readable m ->
  exists q', read_reply n sp (mk (<[n := client sock q]> k) (n + 1) dirs fls names stray sent h rs) =
  Done ((reply_of m, sender_of m sp), mk (<[n := client sock q']> k) (n + 1) dirs fls names (tail stray) sent h rs).
Proof.
  intros m Hm. unfold read_reply. subst m. unfold first_datagram in *. set (q0 := option_list _ ++ q) in *.
  erewrite bind_run by apply select_sock_run. fold q0.
  clearbody q0. destruct q0 as [|[d a] q1]; cbn [head] in Hm |- *; cbn [Z.eqb negb].
  { by exists []. }
  destruct a as [|p|]; [done| |done]. destruct Hm as [Hp Hd]. cbn [Z.eqb Pos.eqb negb].
  erewrite bind_run; cycle 1.
  { unfold ioctl_fionread. erewrite bind_run by apply works_run. cbn [negb]. erewrite bind_run by reflexivity. cbn [sy_socks]. rewrite lookup_insert_eq. reflexivity. }
  cbn beta iota. erewrite bind_run by reflexivity. cbn [negb]. erewrite bind_run; cycle 1.
  { unfold read_domain_data_s, read_socket_data, read_socket_domain. erewrite bind_run by apply recv_run.
    erewrite bind_run by (cbn [copy_sun_path snd]; rewrite (proj2 (Z.leb_gt _ _)) by done; apply lift_run). reflexivity. }
  cbn [fst snd fmap option_fmap option_map default]. rewrite take_ge by (rewrite wrap_small by (pose proof (zlen_nonneg d); lia); by rewrite to_nat_zlen).
  erewrite bind_run by (rewrite rec_string_run by done; apply lift_run). erewrite bind_run by reflexivity. cbn [default].
  by exists q1.
Qed.

Lemma send_run a sp cmd k n dirs fls names stray sent (h : H) rs : peer_addr = Path sp -> zlen sp < SUN_PATH_LEN ->
  write_domain_data_s n cmd (Some sp) (mk (<[n := client a []]> k) (n + 1) dirs fls names stray sent h rs) =
  Done (zlen cmd, mk (<[n := client a (option_list ((fun r => (r, Path sp)) <$> (peer_step h cmd).2))]> k) (n + 1)
                    dirs fls names stray (sent ++ [(Path sp, cmd)]) (peer_step h cmd).1 rs).
Proof.
  intros Hp Hl. unfold write_domain_data_s, send_socket_data, write_socket_domain, init_domain_addr. rewrite clip_short by done.
  unfold sendto. erewrite bind_run by apply works_run. rewrite bool_decide_true by done. cbn [negb orb]. unfold on_sys.
  cbn [sy_socks sy_next sy_disk sy_names sy_stray sy_sent sy_peer sy_env]. destruct (peer_step h cmd) as [h' [r|]]; cbn [fst snd fmap option_fmap option_map option_list]; [|done].
  by rewrite alter_insert_eq, Hp.
Qed.

(** The datagram an exchange reads. *)
Definition exchanged (sp cmd : list Z) (stray : list (option (list Z * address))) (h : H) : option (list Z * address) :=
  first_datagram stray (option_list ((fun r => (r, Path sp)) <$> (peer_step h cmd).2)).

Lemma exchange_run sp cmd k n dirs fls name names stray sent (h : H) rs : peer_addr = Path sp -> zlen sp < SUN_PATH_LEN ->
  0 <= n -> k !! n = None -> fresh_name name dirs fls -> let m := exchanged sp cmd stray h in readable m ->
  writeread_domain_data_str abstract sp cmd (mk k n dirs fls (name :: names) stray sent h rs) =
  Done ((match m with Some _ => 0 | None => -1 end, reply_of m, sender_of m sp),
        mk k (n + 1) (dirs ++ tmp_parents) fls names (tail stray) (sent ++ [(Path sp, cmd)]) (peer_step h cmd).1 rs).
Proof.
  intros Hp Hl Hn Hk Hf m Hm. unfold writeread_domain_data_str. erewrite bind_run by (by apply client_run).
  rewrite (proj2 (Z.eqb_neq n (-1))) by lia. erewrite bind_run by (by apply send_run).
  rewrite (proj2 (Z.ltb_ge _ _)) by apply zlen_nonneg. rewrite Z.eqb_refl. cbn [orb negb].
  destruct (read_reply_run (client_addr name) (option_list ((fun r => (r, Path sp)) <$> (peer_step h cmd).2)) sp k n
    (dirs ++ tmp_parents ++ (if abstract then [] else [tmp_dir name])) (if abstract then fls else <[tmp_sock name := tt]> fls)
    names stray (sent ++ [(Path sp, cmd)]) (peer_step h cmd).1 rs Hm) as (q' & E). fold (exchanged sp cmd stray h) in E. fold m in E.
  erewrite bind_run by exact E. erewrite bind_run by (by apply close_run). rewrite delete_id by done.
  cbn [fst snd]. by destruct m as [[d [|p|]]|].
Qed.
(** Where nobody listens. *)
Lemma exchange_refused sp cmd k n dirs fls name names stray sent (h : H) rs : peer_addr <> Path sp -> zlen sp < SUN_PATH_LEN ->
  0 <= n -> k !! n = None -> fresh_name name dirs fls ->
  writeread_domain_data_str abstract sp cmd (mk k n dirs fls (name :: names) stray sent h rs) =
  Done ((-1, None, sp), mk k (n + 1) (dirs ++ tmp_parents) fls names stray sent h rs).
Proof.
  intros Hp Hl Hn Hk Hf. unfold writeread_domain_data_str. erewrite bind_run by (by apply client_run).
  rewrite (proj2 (Z.eqb_neq n (-1))) by lia. erewrite bind_run; cycle 1.
  { unfold write_domain_data_s, send_socket_data, write_socket_domain, init_domain_addr, sendto. rewrite clip_short by done.
    erewrite bind_run by apply works_run. rewrite bool_decide_false by done. reflexivity. }
  cbn [Z.ltb Z.compare orb]. erewrite bind_run by reflexivity. erewrite bind_run by (by apply close_run). by rewrite delete_id.
Qed.

Lemma server_run sp k n dirs fls names stray sent (h : H) rs : 0 <= n -> nul_free sp -> sp <> [] -> zlen sp < SUN_PATH_LEN ->
  create_domain_server sp (mk k n dirs fls names stray sent h rs) =
  Done (n, mk (<[n := client (Path sp) []]> k) (n + 1) dirs (<[sp := tt]> fls) names stray sent h rs).
Proof.
  intros Hn H0 Hne Hl. unfold create_domain_server. erewrite bind_run by apply socket_run. rewrite (proj2 (Z.eqb_neq n (-1))) by lia.
  rewrite (proj2 (Z.ltb_ge _ _)) by (unfold SUN_PATH_LEN in *; lia). erewrite bind_run by apply answer_run. cbn [Z.eqb negb andb].
  rewrite (bind_run _ _ _ tt (mk (<[n := client Unnamed []]> k) (n + 1) dirs (delete sp fls) names stray sent h rs)) by reflexivity. unfold init_domain_addr. rewrite clip_short by done.
  erewrite bind_run by (apply bind_path_run; [apply lookup_delete_eq|done|done]). rewrite alter_insert_eq, insert_delete_eq. done.
Qed.

Lemma close_path_run sp k n n' dirs fls names stray sent (h : H) rs : nul_free sp -> sp <> [] -> ~ TMP_UNIX_SOCK_FOLDER_PREFIX `prefix_of` sp ->
  close_domain_socket n (mk (<[n := client (Path sp) []]> k) n' dirs (<[sp := tt]> fls) names stray sent h rs) =
  Done (0, mk (delete n k) n' dirs (delete sp fls) names stray sent h rs).
Proof.
  intros H0 Hne Hpre. unfold close_domain_socket. erewrite bind_run by apply works_run. erewrite bind_run by reflexivity. cbn [sy_socks].
  rewrite lookup_insert_eq. cbn [negb so_type so_addr]. rewrite bool_decide_true by done. cbn [negb]. destruct sp as [|c sp]; [done|].
  pose proof H0 as [Hc _]%list.Forall_cons. rewrite (proj2 (Z.eqb_neq c 0)) by done. rewrite until_nul_id by done.
  erewrite bind_run; cycle 1.
  { unfold cleanup_tmp_domain_socket_path. erewrite bind_run by (apply unlink_run, lookup_insert_eq). cbn [Z.eqb negb].
    rewrite bool_decide_false by done. reflexivity. }
  cbn [Z.eqb negb]. rewrite close_fd_run, delete_insert_eq, delete_insert_eq. done.
Qed.
End exchange.

(** ** Properties *)

Section properties.
Context {H : Type} {P : Peer H}.

(** Every call works, and a name for a new socket is at hand. *)
Record sys_ok (abstract : bool) (s : sys H) : Prop := {
  sk_answers : dk_answers (sy_disk s) = [];
  sk_env : mallocs (sy_env s) = [];
  sk_next : 0 <= sy_next s;
  sk_new : sy_socks s !! sy_next s = None;
  sk_name : exists name names, sy_names s = name :: names /\ fresh_name abstract name (dk_dirs (sy_disk s)) (dk_files (sy_disk s))
}.

(** No socket, file or directory is left that was not there; the parents of the
    temporary directory are made if need be. *)
Record same_resources (abstract : bool) (s s' : sys H) : Prop := {
  sr_socks : sy_socks s' = sy_socks s;
  sr_files : dk_files (sy_disk s') = dk_files (sy_disk s);
  sr_dirs : dk_dirs (sy_disk s') = dk_dirs (sy_disk s) ++ tmp_parents abstract
}.

Lemma exchange_ok abstract sp cmd s : sys_ok abstract s -> peer_addr = Path sp -> zlen sp < SUN_PATH_LEN ->
  let m := exchanged sp cmd (sy_stray s) (sy_peer s) in readable m ->
  exists s', writeread_domain_data_str abstract sp cmd s = Done ((match m with Some _ => 0 | None => -1 end, reply_of m, sender_of m sp), s') /\
    same_resources abstract s s' /\ sy_peer s' = (peer_step (sy_peer s) cmd).1 /\ sy_sent s' = sy_sent s ++ [(Path sp, cmd)] /\
    sy_next s' = sy_next s + 1 /\ sy_names s' = tail (sy_names s) /\ sy_stray s' = tail (sy_stray s) /\ sy_env s' = sy_env s /\ dk_answers (sy_disk s') = [].
Proof.
  intros [Ha He Hn Hk (name & names & Hnm & Hf)] Hp Hl m Hm. destruct s as [k n [ans dirs fls] nms stray sent h [ms rs]]. cbn in *. subst.
  eexists. split; [by apply exchange_run|]. done.
Qed.

(** The same for [m] exchanges in a row, without datagrams of others. *)
Record sys_ready (abstract : bool) (m : nat) (s : sys H) : Prop := {
  sd_answers : dk_answers (sy_disk s) = [];
  sd_env : mallocs (sy_env s) = [];
  sd_next : 0 <= sy_next s;
  sd_new : forall i, sy_next s <= i -> sy_socks s !! i = None;
  sd_names : (m <= length (sy_names s))%nat /\
    Forall (fun name => fresh_name abstract name (dk_dirs (sy_disk s)) (dk_files (sy_disk s))) (take m (sy_names s));
  sd_stray : sy_stray s = []
}.

Lemma ready_ok abstract m s : sys_ready abstract (S m) s -> sys_ok abstract s.
Proof.
  intros [Ha He Hn Hk [Hl Hf] _]. split; [done|done|done|by apply Hk|]. destruct (sy_names s) as [|name names]; [cbn in Hl; lia|].
  exists name, names. split; [done|]. cbn [take] in Hf. by apply list.Forall_cons in Hf as [Hf _].
Qed.

Lemma fresh_parents abstract name dirs fls : fresh_name abstract name dirs fls -> fresh_name abstract name (dirs ++ tmp_parents abstract) fls.
Proof.
  intros Hf Ha. destruct (Hf Ha) as (Hl & Hs & H0 & Hd & Hfl). split; [done|]. split; [done|]. split; [done|]. split; [|done].
  rewrite elem_of_app. intros [Hq|Hq]; [done|]. by eapply tmp_dir_parents.
Qed.

Lemma exchange_ready abstract m sp cmd reply s : sys_ready abstract (S m) s -> peer_addr = Path sp -> nul_free sp -> zlen sp < SUN_PATH_LEN ->
  (peer_step (sy_peer s) cmd).2 = Some reply -> zlen reply < 2 ^ 32 - 1 ->
  exists s', writeread_domain_data_str abstract sp cmd s = Done ((0, rtrim (Some (until_nul reply)) None, sp), s') /\
    sys_ready abstract m s' /\ sy_peer s' = (peer_step (sy_peer s) cmd).1 /\ sy_sent s' = sy_sent s ++ [(Path sp, cmd)] /\
    sy_socks s' = sy_socks s /\ dk_files (sy_disk s') = dk_files (sy_disk s).
Proof.
  intros Hs Hp H0 Hl Hr Hrl. assert (exchanged sp cmd (sy_stray s) (sy_peer s) = Some (reply, Path sp)) as Em.
  { unfold exchanged, first_datagram. by rewrite (sd_stray _ _ _ Hs), Hr. }
  destruct (exchange_ok abstract sp cmd s) as (s' & E & [Hk Hf Hd] & Hpeer & Hsent & Hn & Hnm & Hst & He & Ha); [by eapply ready_ok|done|done|..].
  { rewrite Em. cbn. by rewrite until_nul_id. }
  exists s'. rewrite Em in E. cbn [reply_of sender_of mbind option_bind fst] in E. rewrite (until_nul_id sp) in E by done.
  split; [exact E|]. destruct Hs as [Sa Se Sn Sk [Sl Sf] Ss]. split; [|done]. split.
  - done.
  - by rewrite He.
  - lia.
  - intros i Hi. rewrite Hk. apply Sk. lia.
  - rewrite Hnm. destruct (sy_names s) as [|name names]; [cbn in Sl; lia|]. cbn [take length tail] in *. split; [lia|].
    apply list.Forall_cons in Sf as [_ Sf]. eapply Forall_impl; [exact Sf|]. intros nm Hfr. rewrite Hd, Hf. by apply fresh_parents.
  - by rewrite Hst, Ss.
Qed.

(** A socket that stays open, and a first datagram sent on it. *)
Lemma client_send_ready abstract m sp cmd s : sys_ready abstract (S m) s -> peer_addr = Path sp -> zlen sp < SUN_PATH_LEN ->
  exists s1 s2, create_domain_client abstract None s = Done (sy_next s, s1) /\
    write_domain_data_s (sy_next s) cmd (Some sp) s1 = Done (zlen cmd, s2) /\ is_Some (sy_socks s2 !! sy_next s) /\
    sy_sent s2 = sy_sent s ++ [(Path sp, cmd)] /\ sy_peer s2 = (peer_step (sy_peer s) cmd).1.
Proof.
  intros [Ha He Hn Hk [Hl Hf] _] Hp Hsp. destruct s as [k n [ans dirs fls] nms stray sent h [ms rs]]. cbn in *. subst ans ms.
  destruct nms as [|name names]; [cbn in Hl; lia|]. cbn [take] in Hf. apply list.Forall_cons in Hf as [Hf _].
  eexists _, _. split; [by apply client_run|]. split; [by apply send_run|]. cbn. split; [|done]. rewrite lookup_insert_eq. by eexists.
Qed.

(** C34. A command and its reply over a Unix domain socket: the program at the path
    gets the command once, the reply is its answer without trailing white space,
    the path stays as it is, and no socket, socket file or temporary directory is
    left behind, in either build. *)
Theorem writeread_correct abstract sp cmd reply s : sys_ok abstract s -> peer_addr = Path sp -> nul_free sp -> zlen sp < SUN_PATH_LEN ->
  mjoin (head (sy_stray s)) = None -> (peer_step (sy_peer s) cmd).2 = Some reply -> zlen reply < 2 ^ 32 - 1 ->
  exists s', writeread_domain_data_str abstract sp cmd s = Done ((0, rtrim (Some (until_nul reply)) None, sp), s') /\
    same_resources abstract s s' /\ sy_peer s' = (peer_step (sy_peer s) cmd).1 /\ sy_sent s' = sy_sent s ++ [(Path sp, cmd)].
Proof.
  intros Hs Hp H0 Hl Hst Hr Hrl. assert (exchanged sp cmd (sy_stray s) (sy_peer s) = Some (reply, Path sp)) as Em.
  { unfold exchanged, first_datagram. by rewrite Hst, Hr. }
  destruct (exchange_ok abstract sp cmd s) as (s' & E & Hres & Hpeer & Hsent & _); [done..| |].
  { rewrite Em. cbn. by rewrite until_nul_id. }
  exists s'. rewrite Em in E. cbn [reply_of sender_of mbind option_bind fst] in E. by rewrite (until_nul_id sp) in E.
Qed.

(** A datagram of another program that reaches the socket first is taken for
    the reply, although the program at the path was sent the command and has
    carried it out; and the path of the caller is replaced by the sender's, so
    that the next command goes to the other program. *)
Theorem stray_datagram_redirects abstract sp cmd data from s rest : sys_ok abstract s -> peer_addr = Path sp -> zlen sp < SUN_PATH_LEN ->
  sy_stray s = Some (data, Path from) :: rest -> nul_free from -> zlen from < SUN_PATH_LEN -> zlen data < 2 ^ 32 - 1 ->
  exists s', writeread_domain_data_str abstract sp cmd s = Done ((0, rtrim (Some (until_nul data)) None, from), s') /\
    sy_peer s' = (peer_step (sy_peer s) cmd).1.
Proof.
  intros Hs Hp Hl Hst H0 Hf Hd. assert (exchanged sp cmd (sy_stray s) (sy_peer s) = Some (data, Path from)) as Em.
  { unfold exchanged, first_datagram. by rewrite Hst. }
  destruct (exchange_ok abstract sp cmd s) as (s' & E & Hres & Hpeer & Hsent & _); [done..| |].
  { rewrite Em. cbn. by rewrite until_nul_id. }
  exists s'. rewrite Em in E. cbn [reply_of sender_of mbind option_bind fst] in E. by rewrite (until_nul_id from) in E.
Qed.

(** A server socket replaces a file of an earlier run at its path, and closing
    it removes the file again. *)
Theorem server_replaces_file abstract sp (s : sys H) : sys_ok abstract s -> nul_free sp -> sp <> [] -> zlen sp < SUN_PATH_LEN ->
  ~ TMP_UNIX_SOCK_FOLDER_PREFIX `prefix_of` sp ->
  exists s1 s2, create_domain_server sp s = Done (sy_next s, s1) /\
    so_addr <$> sy_socks s1 !! sy_next s = Some (Path sp) /\ dk_files (sy_disk s1) = <[sp := tt]> (dk_files (sy_disk s)) /\
    close_domain_socket (sy_next s) s1 = Done (0, s2) /\
    sy_socks s2 = sy_socks s /\ dk_files (sy_disk s2) = delete sp (dk_files (sy_disk s)).
Proof.
  intros [Ha He Hn Hk _] H0 Hne Hl Hpre. destruct s as [k n [ans dirs fls] nms stray sent h [ms rs]]. cbn in *. subst ans ms.
  pose proof (server_run sp k n dirs fls nms stray sent h rs Hn H0 Hne Hl) as E1.
  pose proof (close_path_run sp k n (n + 1) dirs (delete sp fls) nms stray sent h rs H0 Hne Hpre) as E2. rewrite insert_delete_eq in E2.
  eexists _, _. split; [exact E1|]. split; [cbn; by rewrite lookup_insert_eq|]. split; [done|]. split; [exact E2|].
  cbn [sy_socks sy_disk dk_files]. by rewrite delete_id, delete_delete_eq.
Qed.
End properties.

(** ** Samples *)

(** A program that sends back what it gets, with a line feed. *)
#[local] Instance echo : Peer nat := {| peer_addr := Path (cstr "/run/echo"); peer_step h d := (S h, Some (d ++ [10])) |}.
Definition sample_sys (stray : list (option (list Z * address))) : sys nat :=
  Build_sys ∅ 5 (Build_disk [] [] {[ cstr "/run/old" := tt ]}) [cstr "aB3xYz"] stray [] 0%nat (Env [] []).

Lemma sample_sys_ok abstract stray : sys_ok abstract (sample_sys stray).
Proof.
  split; [done|done|done|done|]. exists (cstr "aB3xYz"), []. split; [done|]. intros _. split; [done|].
  do 2 (split; [apply (bool_decide_unpack _); by vm_compute|]). split; [apply (bool_decide_unpack _); by vm_compute|].
  cbn [sample_sys sy_disk dk_files]. intros p x [<- _]%lookup_singleton_Some. apply (bool_decide_unpack _). by vm_compute.
Qed.

Lemma writeread_correct_witness : exists s', writeread_domain_data_str false (cstr "/run/echo") (cstr "PING") (sample_sys []) =
  Done ((0, Some (cstr "PING"), cstr "/run/echo"), s') /\ same_resources false (sample_sys []) s'.
Proof.
  destruct (writeread_correct false (cstr "/run/echo") (cstr "PING") (cstr "PING" ++ [10]) (sample_sys [])) as (s' & E & Hr & _).
  - apply sample_sys_ok.
  - done.
  - apply (bool_decide_unpack _); by vm_compute.
  - done.
  - done.
  - done.
  - done.
  - exists s'. split; [|exact Hr]. rewrite E. by vm_compute.
Defined.

Lemma stray_datagram_redirects_witness : exists s',
  writeread_domain_data_str true (cstr "/run/echo") (cstr "PING") (sample_sys [Some (cstr "OK", Path (cstr "/tmp/other"))]) =
  Done ((0, Some (cstr "OK"), cstr "/tmp/other"), s') /\ sy_peer s' = 1%nat.
Proof.
  destruct (stray_datagram_redirects true (cstr "/run/echo") (cstr "PING") (cstr "OK") (cstr "/tmp/other")
    (sample_sys [Some (cstr "OK", Path (cstr "/tmp/other"))]) []) as (s' & E & Hp).
  - apply sample_sys_ok.
  - done.
  - done.
  - done.
  - apply (bool_decide_unpack _); by vm_compute.
  - done.
  - done.
  - exists s'. split; [|by rewrite Hp]. rewrite E. by vm_compute.
Defined.

Lemma server_replaces_file_witness : exists s1 s2, create_domain_server (cstr "/run/old") (sample_sys []) = Done (5, s1) /\
  close_domain_socket 5 s1 = Done (0, s2) /\ dk_files (sy_disk s2) = ∅.
Proof.
  destruct (server_replaces_file true (cstr "/run/old") (sample_sys [])) as (s1 & s2 & E1 & _ & _ & E2 & _ & Hf).
  - apply sample_sys_ok.
  - apply (bool_decide_unpack _); by vm_compute.
  - done.
  - done.
  - apply (bool_decide_unpack _); by vm_compute.
  - exists s1, s2. split; [exact E1|]. split; [exact E2|]. rewrite Hf. by vm_compute.
Defined.
