(* ===== verification/MdnsRecords.v ===== *)
(** Questions and records of multicast DNS packets, and what the mDNS service
    remembers of them: [decode_mdns_queries] and [decode_mdns_answers] of
    [src/capture/middlewares/header_middleware/mdns_decoder.c],
    [src/dns/mdns_list.c], [src/dns/mdns_mapper.c] and
    [src/dns/command_mapper.c].

    The memory of the service is a table from addresses to lists of names, each
    asked for or answered.  [learn] is what a question or a record adds to it:
    a name that is already there under the same address and in the same role is
    not added again.  The lemmas say that the table does just that, that the
    lookup the bridge commands depend on finds an answer exactly when there is
    one, and what the packet decoders make of a packet that is laid out as
    names with their records. *)
From stdpp Require Import strings numbers base list gmap.
From Stdlib Require Import ZArith Lia.
From S2P Require Import Prelude Os Text Net Extern Queue Mappers Decoder MdnsName Supervisor.

Definition MAX_WEB_PATH_LEN : Z := 2048.
Definition IP_ALEN : Z := 4.

Record mdns_query_entry := { qe_qtype : Z; qe_qname : list Z }.
Record mdns_answer_entry := { ae_ttl : Z; ae_rrtype : Z; ae_rrname : list Z; ae_ip : list Z }.

(** ** The packet *)

Section entries.
Context {L : DlList (option (list Z))} (payload : list Z) (plen : Z).

(** [strcpy] into the array of an entry. *)
Definition entry_name (name : list Z) : outcome (list Z) :=
  if zlen name <? MAX_WEB_PATH_LEN then Done name else Fault OutOfBounds.

(** [n] queries are left, at [i]; the return value, the place behind them and
    the array. *)
Fixpoint decode_mdns_queries (n : nat) (i : Z) (queries : list mdns_query_entry) :
    prog env (Z * Z * list mdns_query_entry) :=
  match n with
  | O => mret (0, i, queries)
  | S n =>
      r ← decode_mdns_query_name payload plen (Z.to_nat plen) i;
      if r.1.1 <? 0 then mret (-1, i, queries)
      else
        let i := r.1.2 + 1 in
        match r.2 with
        | None => decode_mdns_queries n (i + 4) queries
        | Some qname =>
            meta ← lift_outcome (rd payload i 2);
            name ← lift_outcome (entry_name qname);
            decode_mdns_queries n (i + 4) (queries ++ [{| qe_qtype := be16_at meta 0; qe_qname := name |}])
        end
  end.

(** The address of a record; zeros for one that is not an address record. *)
Definition answer_ip (i rrtype rdlength : Z) : outcome (list Z) :=
  if (rrtype =? 1) && (rdlength =? IP_ALEN) then rd payload i IP_ALEN else Done (zeros 4).

Fixpoint decode_mdns_answers (n : nat) (i : Z) (answers : list mdns_answer_entry) :
    prog env (Z * Z * list mdns_answer_entry) :=
  match n with
  | O => mret (0, i, answers)
  | S n =>
      r ← decode_mdns_query_name payload plen (Z.to_nat plen) i;
      if r.1.1 <? 0 then mret (-1, i, answers)
      else
        let i := r.1.2 + 1 in
        match r.2 with
        | None =>
            meta ← lift_outcome (rd payload (i + 8) 2);
            decode_mdns_answers n (i + 10 + be16_at meta 0) answers
        | Some rrname =>
            meta ← lift_outcome (rd payload i 10);
            name ← lift_outcome (entry_name rrname);
            ip ← lift_outcome (answer_ip (i + 10) (be16_at meta 0) (be16_at meta 8));
            decode_mdns_answers n (i + 10 + be16_at meta 8)
              (answers ++ [{| ae_ttl := be32_at meta 4; ae_rrtype := be16_at meta 0; ae_rrname := name; ae_ip := ip |}])
        end
  end.

(** *** What the packet says *)

(** [n] questions from [i] to [j]; a question for the root is passed over. *)
Inductive queries_at : nat -> Z -> list mdns_query_entry -> Z -> Prop :=
| queries_none i : queries_at 0 i [] i
| queries_root n i stop k qs j :
    0 <= i -> name_at payload plen i [] stop k -> queries_at n (stop + 5) qs j -> queries_at (S n) i qs j
| queries_name n i ls stop k meta qs j :
    0 <= i -> name_at payload plen i ls stop k -> ls <> [] -> zlen (concat ls) < MAX_WEB_PATH_LEN ->
    rd payload (stop + 1) 2 = Done meta -> queries_at n (stop + 5) qs j ->
    queries_at (S n) i ({| qe_qtype := be16_at meta 0; qe_qname := concat ls |} :: qs) j.

Inductive answers_at : nat -> Z -> list mdns_answer_entry -> Z -> Prop :=
| answers_none i : answers_at 0 i [] i
| answers_root n i stop k meta ans j :
    0 <= i -> name_at payload plen i [] stop k -> rd payload (stop + 1 + 8) 2 = Done meta ->
    answers_at n (stop + 1 + 10 + be16_at meta 0) ans j -> answers_at (S n) i ans j
| answers_name n i ls stop k meta ip ans j :
    0 <= i -> name_at payload plen i ls stop k -> ls <> [] -> zlen (concat ls) < MAX_WEB_PATH_LEN ->
    rd payload (stop + 1) 10 = Done meta ->
    answer_ip (stop + 1 + 10) (be16_at meta 0) (be16_at meta 8) = Done ip ->
    answers_at n (stop + 1 + 10 + be16_at meta 8) ans j ->
    answers_at (S n) i
      ({| ae_ttl := be32_at meta 4; ae_rrtype := be16_at meta 0; ae_rrname := concat ls; ae_ip := ip |} :: ans) j.

Lemma name_run i ls stop k r : bytes payload -> 0 <= i -> name_at payload plen i ls stop k ->
  decode_mdns_query_name payload plen (Z.to_nat plen) i (Env [] r) = Done ((0, stop, spelled ls), Env [] r).
Proof.
  intros Hb Hi Hna. apply query_name_run. intros sq Hh. pose proof (name_bound _ _ _ _ _ _ Hb Hna Hi).
  destruct (loop_run _ _ _ _ _ _ Hna (Z.to_nat plen) sq [] r) as (sq' & l' & E & Hh' & Hs); [lia|done|].
  by exists sq', l'.
Qed.

Lemma entry_name_run name : zlen name < MAX_WEB_PATH_LEN -> entry_name name = Done name.
Proof. intros H. unfold entry_name. by destruct (Z.ltb_spec (zlen name) MAX_WEB_PATH_LEN); [|lia]. Qed.

Lemma decode_mdns_queries_run n i qs j r : bytes payload -> queries_at n i qs j -> forall acc,
  decode_mdns_queries n i acc (Env [] r) = Done ((0, j, acc ++ qs), Env [] r).
Proof.
  intros Hb. induction 1 as [i|n i stop k qs j Hi Hna Hq IH|n i ls stop k meta qs j Hi Hna Hne Hlen Hm Hq IH]; intros acc.
  - by rewrite app_nil_r.
  - cbn [decode_mdns_queries]. erewrite bind_run by (by eapply name_run). cbn [fst snd Z.ltb Z.compare spelled].
    replace (stop + 1 + 4) with (stop + 5) by lia. apply IH.
  - cbn [decode_mdns_queries]. erewrite bind_run by (by eapply name_run). cbn [fst snd Z.ltb Z.compare].
    destruct ls as [|s ls]; [done|]. cbn [spelled]. rewrite Hm. erewrite bind_run by apply lift_run.
    rewrite entry_name_run by done. erewrite bind_run by apply lift_run. cbv beta.
    replace (stop + 1 + 4) with (stop + 5) by lia. rewrite IH. by rewrite <- app_assoc.
Qed.

Lemma decode_mdns_answers_run n i ans j r : bytes payload -> answers_at n i ans j -> forall acc,
  decode_mdns_answers n i acc (Env [] r) = Done ((0, j, acc ++ ans), Env [] r).
Proof.
  intros Hb. induction 1 as [i|n i stop k meta ans j Hi Hna Hm Hq IH|n i ls stop k meta ip ans j Hi Hna Hne Hlen Hm Hip Hq IH];
    intros acc.
  - by rewrite app_nil_r.
  - cbn [decode_mdns_answers]. erewrite bind_run by (by eapply name_run). cbn [fst snd Z.ltb Z.compare spelled].
    rewrite Hm. erewrite bind_run by apply lift_run. apply IH.
  - cbn [decode_mdns_answers]. erewrite bind_run by (by eapply name_run). cbn [fst snd Z.ltb Z.compare].
    destruct ls as [|s ls]; [done|]. cbn [spelled]. rewrite Hm. erewrite bind_run by apply lift_run.
    rewrite entry_name_run by done. erewrite bind_run by apply lift_run. cbv beta. rewrite Hip.
    erewrite bind_run by apply lift_run. cbv beta. rewrite IH. by rewrite <- app_assoc.
Qed.
End entries.

(** ** Names of an address ([mdns_list.c]) *)

Inductive MDNS_REQUEST_TYPE := MDNS_REQUEST_NONE | MDNS_REQUEST_QUERY | MDNS_REQUEST_ANSWER.
#[export] Instance mdns_request_eq : EqDecision MDNS_REQUEST_TYPE.
Proof. solve_decision. Defined.

(** A field that the caller leaves uninitialised is [None]. *)
Record mdns_list_info := {
  li_request : MDNS_REQUEST_TYPE;
  li_ttl : option Z;
  li_rrtype : option Z;
  li_qtype : option Z;
  li_name : list Z
}.

(** The two fields that entries are compared by. *)
Definition same_info (a b : mdns_list_info) : bool :=
  bool_decide (li_request a = li_request b) && bool_decide (li_name a = li_name b).

Section mdns_list.
Context {ML : DlList mdns_list_info}.
#[local] Abbreviation mdns_list := (@dl_list _ ML).

Definition init_mdns_list : prog env (option mdns_list) :=
  ok ← malloc; mret (if (ok : bool) then Some dl_list_init else None).

Definition push_mdns_list (mlist : option mdns_list) (info : option mdns_list_info) :
    prog env (Z * option mdns_list) :=
  match mlist, info with
  | None, _ | _, None => mret (-1, mlist)
  | Some l, Some x =>
      if existsb (fun el => same_info el x) (queue_items l) then mret (0, mlist)
      else
        el ← init_mdns_list;
        match el with
        | None => mret (-1, mlist)
        | Some _ =>
            copied ← malloc;
            if negb copied then mret (-1, mlist) else mret (0, Some (push_tail x l))
        end
  end.

Definition check_mdns_list_req (mlist : option mdns_list) (request : MDNS_REQUEST_TYPE) : Z :=
  match mlist with
  | None => -1
  | Some l => if existsb (fun el => bool_decide (li_request el = request)) (queue_items l) then 1 else 0
  end.

(** The head is freed after its elements. *)
Definition free_mdns_list (mlist : mdns_list) : outcome mdns_list :=
  free_all_nodes (length (dl_nodes mlist)) mlist.

(** A name is kept once for each role, in the order of arrival. *)
Definition add_info (x : mdns_list_info) (l : list mdns_list_info) : list mdns_list_info :=
  if existsb (fun el => same_info el x) l then l else l ++ [x].

Definition list_ok (l : mdns_list) : Prop := queue_wf l.

Lemma push_mdns_list_run l x e : list_ok l -> exists r l' e',
  push_mdns_list (Some l) (Some x) e = Done ((r, Some l'), e') /\ list_ok l' /\
  env_ok e e' (r = 0) /\
  (r = -1 /\ l' = l \/ r = 0 /\ queue_items l' = add_info x (queue_items l)).
Proof.
  intros Hl. unfold push_mdns_list, add_info. destruct (existsb _ (queue_items l)).
  - exists 0, l, e. split; [done|]. split; [done|]. split; [by apply env_ok_refl|]. by right.
  - unfold init_mdns_list. destruct (malloc_ok e) as (ok & e1 & H1 & K1).
    erewrite bind_run by (by erewrite bind_run by exact H1). destruct ok; cbn beta iota.
    + destruct (malloc_ok e1) as (ok & e2 & H2 & K2). erewrite bind_run by exact H2.
      pose proof (env_ok_trans _ _ _ _ _ K1 K2) as K. destruct (push_tail_spec x l Hl) as [Hwf Hi].
      destruct ok; cbn [negb].
      * exists 0, (push_tail x l), e2. split; [done|]. split; [done|]. split; [by eapply env_ok_mono|]. by right.
      * exists (-1), l, e2. split; [done|]. split; [done|]. split; [by eapply env_ok_mono|]. by left.
    + exists (-1), l, e1. split; [done|]. split; [done|]. split; [by eapply env_ok_mono|]. by left.
Qed.
End mdns_list.

(** ** The mapper ([mdns_mapper.c]) *)

Section mdns_mapper.
Context {ML : DlList mdns_list_info} {MM : Uthash (list Z) (@dl_list _ ML)}.
#[local] Abbreviation hmap_mdns_conn := (@hash _ _ _ MM).

(** A new list that could not be filled is left allocated; the table does not
    change. *)
Definition put_mdns_info (imap : hmap_mdns_conn) (ip : list Z) (info : mdns_list_info) :
    prog env (Z * hmap_mdns_conn) :=
  match HASH_FIND ip imap with
  | None =>
      ok ← malloc;
      if negb ok then mret (-1, imap)
      else
        l ← init_mdns_list;
        match l with
        | None => mret (-1, imap)
        | Some _ =>
            x ← push_mdns_list l (Some info);
            if x.1 <? 0 then mret (-1, imap)
            else mret (0, HASH_ADD ip (default dl_list_init x.2) imap)
        end
  | Some l =>
      x ← push_mdns_list (Some l) (Some info);
      if x.1 <? 0 then mret (-1, imap) else mret (0, hash_store ip (default l x.2) imap)
  end.

Definition query_info (query : mdns_query_entry) : mdns_list_info :=
  {| li_request := MDNS_REQUEST_QUERY; li_ttl := None; li_rrtype := None; li_qtype := Some (qe_qtype query);
     li_name := qe_qname query |}.
Definition answer_info (answer : mdns_answer_entry) : mdns_list_info :=
  {| li_request := MDNS_REQUEST_ANSWER; li_ttl := Some (ae_ttl answer); li_rrtype := Some (ae_rrtype answer);
     li_qtype := None; li_name := ae_rrname answer |}.

Definition put_mdns_query_mapper (imap : option hmap_mdns_conn) (ip : option (list Z))
    (query : option mdns_query_entry) : prog env (Z * option hmap_mdns_conn) :=
  match imap, ip, query with
  | Some h, Some a, Some q =>
      x ← put_mdns_info h a (query_info q); mret (if x.1 <? 0 then -1 else 0, Some x.2)
  | _, _, _ => mret (-1, imap)
  end.
Definition put_mdns_answer_mapper (imap : option hmap_mdns_conn) (ip : option (list Z))
    (answer : option mdns_answer_entry) : prog env (Z * option hmap_mdns_conn) :=
  match imap, ip, answer with
  | Some h, Some a, Some q =>
      x ← put_mdns_info h a (answer_info q); mret (if x.1 <? 0 then -1 else 0, Some x.2)
  | _, _, _ => mret (-1, imap)
  end.

Definition check_mdns_mapper_req (imap : option hmap_mdns_conn) (ip : option (list Z))
    (request : MDNS_REQUEST_TYPE) : Z :=
  match imap, ip with
  | Some h, Some a =>
      match HASH_FIND a h with
      | None => 0
      | Some l => let ret := check_mdns_list_req (Some l) request in if ret <? 0 then -1 else ret
      end
  | _, _ => -1
  end.

Fixpoint free_mdns_items (items : list (list Z * @dl_list _ ML)) (imap : hmap_mdns_conn) : outcome hmap_mdns_conn :=
  match items with
  | [] => Done imap
  | current :: rest =>
      match free_mdns_list current.2 with
      | Fault f => Fault f
      | Done _ => free_mdns_items rest (HASH_DEL current.1 imap)
      end
  end.
Definition free_mdns_mapper (imap : hmap_mdns_conn) : outcome hmap_mdns_conn :=
  free_mdns_items (hash_items imap) imap.

(** *** The mapper as a map *)

Definition mapper_ok (imap : hmap_mdns_conn) : Prop :=
  hash_wf imap /\ forall ip l, hash_map imap !! ip = Some l -> list_ok l.
Definition records (imap : hmap_mdns_conn) : gmap (list Z) (list mdns_list_info) := queue_items <$> hash_map imap.

(** What is known of an address after one more name. *)
Definition learn (ip : list Z) (x : mdns_list_info) (m : gmap (list Z) (list mdns_list_info)) :
    gmap (list Z) (list mdns_list_info) := <[ip := add_info x (default [] (m !! ip))]> m.

Lemma put_mdns_info_run imap ip x e : mapper_ok imap -> exists r imap' e',
  put_mdns_info imap ip x e = Done ((r, imap'), e') /\ mapper_ok imap' /\ env_ok e e' (r = 0) /\
  (r = -1 /\ imap' = imap \/ r = 0 /\ records imap' = learn ip x (records imap)).
Proof.
  intros [Hwf Hl]. unfold put_mdns_info, learn, records. rewrite lookup_fmap. destruct (HASH_FIND ip imap) as [l|] eqn:Hf.
  - pose proof Hf as Hm. rewrite hash_find_map in Hm. rewrite Hm.
    destruct (push_mdns_list_run l x e (Hl ip l Hm)) as (r & l' & e' & E & Hl' & He & Hr).
    erewrite bind_run by exact E. cbn [fst snd default].
    destruct (hash_store_wf ip l' imap Hwf) as [Hwf' Hm']; [by rewrite Hf|].
    destruct Hr as [[-> ->]|[-> Hi]]; cbn [Z.ltb Z.compare].
    + exists (-1), imap, e'. split; [done|]. split; [done|]. split; [done|]. by left.
    + exists 0, (hash_store ip l' imap), e'. split; [done|]. split; [|split; [done|right; split; [done|]]].
      * split; [done|]. rewrite Hm'. intros ip2 l2. rewrite lookup_insert_Some. intros [[_ <-]|[_ H]]; [done|by eapply Hl].
      * rewrite Hm', fmap_insert, Hi. done.
  - pose proof Hf as Hm. rewrite hash_find_map in Hm. rewrite Hm. cbn [fmap option_fmap option_map default].
    destruct (malloc_ok e) as (ok & e1 & H1 & K1). erewrite bind_run by exact H1. destruct ok; cbn [negb].
    2:{ exists (-1), imap, e1. split; [done|]. split; [done|]. split; [by eapply env_ok_mono|]. by left. }
    unfold init_mdns_list. destruct (malloc_ok e1) as (ok & e2 & H2 & K2).
    erewrite bind_run by (by erewrite bind_run by exact H2). pose proof (env_ok_trans _ _ _ _ _ K1 K2) as K. destruct ok; cbn beta iota.
    2:{ exists (-1), imap, e2. split; [done|]. split; [done|]. split; [by eapply env_ok_mono|]. by left. }
    destruct (queue_init (L := ML)) as [Hq Hqi].
    destruct (push_mdns_list_run dl_list_init x e2 Hq) as (r & l' & e' & E & Hl' & He & Hr).
    pose proof (env_ok_trans _ _ _ _ _ K He) as K'. erewrite bind_run by exact E. cbn [fst snd default].
    destruct (hash_add_wf ip l' imap Hwf Hf) as [Hwf' Hm'].
    destruct Hr as [[-> ->]|[-> Hi]]; cbn [Z.ltb Z.compare].
    + exists (-1), imap, e'. split; [done|]. split; [done|]. split; [done|]. by left.
    + exists 0, (HASH_ADD ip l' imap), e'. split; [done|]. split; [|split; [done|right; split; [done|]]].
      * split; [done|]. rewrite Hm'. intros ip2 l2. rewrite lookup_insert_Some. intros [[_ <-]|[_ H]]; [done|by eapply Hl].
      * rewrite Hm', fmap_insert, Hi, Hqi. done.
Qed.

(** Whether an address has a name in a role. *)
Definition has_role (m : gmap (list Z) (list mdns_list_info)) (ip : list Z) (request : MDNS_REQUEST_TYPE) : bool :=
  existsb (fun el => bool_decide (li_request el = request)) (default [] (m !! ip)).

Lemma check_mdns_mapper_run imap ip request :
  check_mdns_mapper_req (Some imap) (Some ip) request = Z.b2z (has_role (records imap) ip request).
Proof.
  unfold check_mdns_mapper_req, has_role, records. rewrite lookup_fmap, hash_find_map.
  destruct (hash_map imap !! ip) as [l|]; cbn; [|done]. by destruct (existsb _ _).
Qed.

Lemma has_role_learn m ip x ip2 request :
  has_role (learn ip x m) ip2 request = has_role m ip2 request || (bool_decide (ip = ip2) && bool_decide (li_request x = request)).
Proof.
  unfold has_role, learn. destruct (decide (ip = ip2)) as [->|Hne].
  - rewrite lookup_insert_eq, bool_decide_true by done. cbn [default andb]. unfold add_info.
    destruct (existsb (fun el => same_info el x) _) eqn:E.
    + apply existsb_exists in E as (y & Hy & Hs). unfold same_info in Hs. apply andb_true_iff in Hs as [Hs _].
      apply bool_decide_eq_true in Hs. destruct (bool_decide_reflect (li_request x = request)) as [Hr|]; [|by rewrite orb_false_r].
      rewrite orb_true_r. apply existsb_exists. exists y. split; [done|]. apply bool_decide_eq_true. congruence.
    + unfold id. rewrite existsb_app. cbn [existsb]. by rewrite orb_false_r.
  - by rewrite lookup_insert_ne, bool_decide_false, orb_false_r by done.
Qed.
End mdns_mapper.

(** ** Commands that were sent ([command_mapper.c]) *)

Section command_mapper.
Context {CM : Uthash Z bool}.
#[local] Abbreviation hmap_command_conn := (@hash _ _ _ CM).

(** A command is remembered by its hash. *)
Definition put_command_mapper (hmap : option hmap_command_conn) (command : option (list Z)) :
    prog env (Z * option hmap_command_conn) :=
  match hmap, command with
  | Some h, Some c =>
      match HASH_FIND (md_hash c) h with
      | None =>
          ok ← malloc;
          if negb ok then mret (-1, hmap) else mret (0, Some (HASH_ADD (md_hash c) true h))
      | Some _ => mret (0, hmap)
      end
  | _, _ => mret (-1, hmap)
  end.

Definition check_command_mapper (hmap : option hmap_command_conn) (command : option (list Z)) : Z :=
  match hmap, command with
  | Some h, Some c => match HASH_FIND (md_hash c) h with Some _ => 1 | None => 0 end
  | _, _ => -1
  end.

Definition free_command_mapper (hmap : hmap_command_conn) : hmap_command_conn :=
  foldl (fun h k => HASH_DEL k h) hmap (hash_items hmap).*1.

(** The hashes of the commands that were put. *)
Definition known_commands (hmap : hmap_command_conn) : gset Z := dom (hash_map hmap).

Lemma check_command_run hmap command :
  check_command_mapper (Some hmap) (Some command) = Z.b2z (bool_decide (md_hash command ∈ known_commands hmap)).
Proof.
  unfold check_command_mapper, known_commands. rewrite hash_find_map.
  destruct (hash_map hmap !! md_hash command) eqn:E.
  - rewrite bool_decide_true; [done|]. apply elem_of_dom. by rewrite E.
  - rewrite bool_decide_false; [done|]. by apply not_elem_of_dom.
Qed.

Lemma put_command_run hmap command e : hash_wf hmap -> exists r hmap' e',
  put_command_mapper (Some hmap) (Some command) e = Done ((r, Some hmap'), e') /\ hash_wf hmap' /\ env_ok e e' (r = 0) /\
  (r = -1 /\ hmap' = hmap \/ r = 0 /\ known_commands hmap' = {[md_hash command]} ∪ known_commands hmap).
Proof.
  intros Hwf. unfold put_command_mapper. destruct (HASH_FIND _ hmap) eqn:Hf.
  - exists 0, hmap, e. split; [done|]. split; [done|]. split; [by apply env_ok_refl|]. right. split; [done|].
    rewrite hash_find_map in Hf. unfold known_commands. apply elem_of_dom_2 in Hf. set_solver.
  - destruct (malloc_ok e) as (ok & e1 & H1 & K1). erewrite bind_run by exact H1.
    destruct (hash_add_wf _ true hmap Hwf Hf) as [Hwf' Hm'].
    destruct ok; cbn [negb].
    + eexists 0, _, e1. split; [done|]. split; [exact Hwf'|]. split; [by eapply env_ok_mono|]. right. split; [done|].
      unfold known_commands. by rewrite Hm', dom_insert_L.
    + exists (-1), hmap, e1. split; [done|]. split; [done|]. split; [by eapply env_ok_mono|]. by left.
Qed.
End command_mapper.
