(* ===== verification/Mdns.v ===== *)
(** The multicast DNS service: [src/dns/mdns_service.c] and
    [src/dns/reflection_list.c].

    The service listens for multicast DNS packets on the interface of every
    VLAN, remembers the names that are asked for and answered, and reflects the
    packets to the interfaces.  It also looks at the packets that pass between
    devices: when one of the two addresses has answered a question, it asks the
    supervisor, once, to bridge the two devices.

    The state is the context with the log of what was sent; what the system
    calls return comes from an oracle.  Creating multicast sockets
    ([src/dns/mcast.c]) is one such call.  The theorems: what the handler of the
    reflector does with a packet; which commands go to the supervisor; that
    over any run no command is sent twice and none without an answer; and that
    a command that could not be sent is never sent again. *)
From stdpp Require Import strings numbers base list gmap.
From Stdlib Require Import ZArith Lia.
From S2P Require Import Prelude Os Text Net Extern Queue Iptables Mappers Decoder MdnsName MdnsRecords Supervisor CmdProcessor.

(** ** Reflection lists ([reflection_list.c]) *)

Record reflection := { recv_fd : Z; send_fd : Z; rl_ifindex : Z; rl_ifname : list Z }.

Definition setup_reflection_if_el (ifindex : Z) (ifname : option (list Z)) : reflection :=
  {| recv_fd := -1; send_fd := -1; rl_ifindex := ifindex;
     rl_ifname := match ifname with None => [] | Some n => clip IF_NAMESIZE n end |}.

Section reflection_list.
Context {RL : DlList reflection}.
#[local] Abbreviation reflection_list := (@dl_list _ RL).

(** The head of a list is not one of its elements. *)
Definition init_reflection_list : prog env (option reflection_list) :=
  ok ← malloc; mret (if (ok : bool) then Some dl_list_init else None).

(** Whether an element was added, and the list. *)
Definition push_reflection_list (rif : option reflection_list) (ifindex : Z) (ifname : option (list Z)) :
    prog env (bool * option reflection_list) :=
  match rif with
  | None => mret (false, None)
  | Some l =>
      el ← init_reflection_list;
      match el with
      | None => mret (false, rif)
      | Some _ => mret (true, Some (push_tail (setup_reflection_if_el ifindex ifname) l))
      end
  end.

Definition pop_reflection_list (rif : option reflection_list) : option (nat * reflection) :=
  match rif with None => None | Some l => dl_list_first l end.

Definition free_reflection_list (rif : reflection_list) : outcome reflection_list :=
  free_all_nodes (length (dl_nodes rif)) rif.
End reflection_list.

(** ** The service *)

Record mdns_conf := { mc_filter : list Z; reflect_ip4 : bool; reflect_ip6 : bool }.

(** What a [sendto] can end with. *)
Inductive send_result := SENT | WOULDBLOCK | ADDRNOTAVAIL | SEND_ERROR.

(** What leaves the service, and the descriptors it listens on and closes. *)
Inductive action :=
| Mcast4 (fd : Z) (data : list Z)
| Mcast6 (fd ifindex : Z) (data : list Z)
| Command (path data : list Z)
| Listen (fd : Z)
| Close (fd : Z).

(** The family of an address, the address and the port. *)
Inductive sockaddr :=
| SockInet (addr : list Z) (port : Z)
| SockInet6 (addr : list Z) (port : Z)
| SockOther.

Definition sockaddr2str (sa : sockaddr) : option (list Z * Z) :=
  match sa with
  | SockInet6 addr port => Some (inet_ntop6 addr, port)
  | SockInet addr port => Some (inet_ntop addr, port)
  | SockOther => None
  end.

Section mdns.
Context {RL : DlList reflection} {SQ : DlList (option (list Z))} {ML : DlList mdns_list_info}.
Context {MM : Uthash (list Z) (@dl_list _ ML)} {CM : Uthash Z bool} {VU : Uthash Z vlan_conn}.

(** [junk] is the value of an uninitialised address, see [ip4_2_buf];
    [nametoindex] is [if_nametoindex]. *)
Context (junk : Z) (nametoindex : list Z -> Z).

Record mdns_context := {
  rif4 : option (@dl_list _ RL);
  rif6 : option (@dl_list _ RL);
  imap : @hash _ _ _ MM;
  mdns_vlan_mapper : @hash _ _ _ VU;
  command_mapper : @hash _ _ _ CM;
  pctx_list : option (list (list Z * Z));
  mdns_config : mdns_conf;
  supervisor_control_path : list Z;
  sfd : Z
}.

(** [m_sends] and [m_calls] are what the next [sendto]s and the next other
    system calls return; [m_out] is the log, the last action last. *)
Record mdns := {
  m_ctx : mdns_context;
  m_env : env;
  m_sends : list send_result;
  m_calls : list Z;
  m_out : list action
}.
#[local] Abbreviation Mdns := (prog mdns).

Definition set_rif4 (r : option (@dl_list _ RL)) (c : mdns_context) : mdns_context :=
  {| rif4 := r; rif6 := rif6 c; imap := imap c; mdns_vlan_mapper := mdns_vlan_mapper c;
     command_mapper := command_mapper c; pctx_list := pctx_list c; mdns_config := mdns_config c;
     supervisor_control_path := supervisor_control_path c; sfd := sfd c |}.
Definition set_rif6 (r : option (@dl_list _ RL)) (c : mdns_context) : mdns_context :=
  {| rif4 := rif4 c; rif6 := r; imap := imap c; mdns_vlan_mapper := mdns_vlan_mapper c;
     command_mapper := command_mapper c; pctx_list := pctx_list c; mdns_config := mdns_config c;
     supervisor_control_path := supervisor_control_path c; sfd := sfd c |}.
Definition set_imap (h : @hash _ _ _ MM) (c : mdns_context) : mdns_context :=
  {| rif4 := rif4 c; rif6 := rif6 c; imap := h; mdns_vlan_mapper := mdns_vlan_mapper c;
     command_mapper := command_mapper c; pctx_list := pctx_list c; mdns_config := mdns_config c;
     supervisor_control_path := supervisor_control_path c; sfd := sfd c |}.
Definition set_command_mapper (h : @hash _ _ _ CM) (c : mdns_context) : mdns_context :=
  {| rif4 := rif4 c; rif6 := rif6 c; imap := imap c; mdns_vlan_mapper := mdns_vlan_mapper c;
     command_mapper := h; pctx_list := pctx_list c; mdns_config := mdns_config c;
     supervisor_control_path := supervisor_control_path c; sfd := sfd c |}.
Definition set_pctx_list (l : option (list (list Z * Z))) (c : mdns_context) : mdns_context :=
  {| rif4 := rif4 c; rif6 := rif6 c; imap := imap c; mdns_vlan_mapper := mdns_vlan_mapper c;
     command_mapper := command_mapper c; pctx_list := l; mdns_config := mdns_config c;
     supervisor_control_path := supervisor_control_path c; sfd := sfd c |}.
Definition set_sfd (fd : Z) (c : mdns_context) : mdns_context :=
  {| rif4 := rif4 c; rif6 := rif6 c; imap := imap c; mdns_vlan_mapper := mdns_vlan_mapper c;
     command_mapper := command_mapper c; pctx_list := pctx_list c; mdns_config := mdns_config c;
     supervisor_control_path := supervisor_control_path c; sfd := fd |}.

Definition get {A} (f : mdns_context -> A) : Mdns A := fun s => Done (f (m_ctx s), s).
Definition put (f : mdns_context -> mdns_context) : Mdns unit := fun s =>
  Done (tt, {| m_ctx := f (m_ctx s); m_env := m_env s; m_sends := m_sends s; m_calls := m_calls s; m_out := m_out s |}).
Definition alloc {A} (m : prog env A) : Mdns A := fun s =>
  match m (m_env s) with
  | Fault f => Fault f
  | Done (a, e) =>
      Done (a, {| m_ctx := m_ctx s; m_env := e; m_sends := m_sends s; m_calls := m_calls s; m_out := m_out s |})
  end.
Definition act (a : action) : Mdns unit := fun s =>
  Done (tt, {| m_ctx := m_ctx s; m_env := m_env s; m_sends := m_sends s; m_calls := m_calls s; m_out := m_out s ++ [a] |}).

(** A [sendto]; only one that succeeds is seen from outside. *)
Definition sendto (a : action) : Mdns send_result := fun s =>
  let r := default SENT (head (m_sends s)) in
  Done (r, {| m_ctx := m_ctx s; m_env := m_env s; m_sends := tail (m_sends s); m_calls := m_calls s;
              m_out := m_out s ++ match r with SENT => [a] | _ => [] end |}).

(** Any other system call; -1 when there is nothing left to return. *)
Definition syscall : Mdns Z := fun s =>
  Done (default (-1) (head (m_calls s)),
        {| m_ctx := m_ctx s; m_env := m_env s; m_sends := m_sends s; m_calls := tail (m_calls s); m_out := m_out s |}).

(** ** Reflecting packets *)

Fixpoint forward_loop (family6 : bool) (send_buf : list Z) (els : list reflection) : Mdns Z :=
  match els with
  | [] => mret 0
  | el :: rest =>
      r ← sendto (if family6 then Mcast6 (send_fd el) (rl_ifindex el) send_buf else Mcast4 (send_fd el) send_buf);
      match r with
      | SENT | WOULDBLOCK => forward_loop family6 send_buf rest
      | ADDRNOTAVAIL => if family6 then forward_loop family6 send_buf rest else mret (-1)
      | SEND_ERROR => mret (-1)
      end
  end.

(** [rif] is the head of the list, so that no element is left out. *)
Definition forward_reflector_if6 (send_buf : list Z) (rif : @dl_list _ RL) : Mdns Z :=
  forward_loop true send_buf (queue_items rif).
Definition forward_reflector_if4 (send_buf : list Z) (rif : @dl_list _ RL) : Mdns Z :=
  forward_loop false send_buf (queue_items rif).

(** A failed put is only logged. *)
Fixpoint put_queries (ip : list Z) (queries : list mdns_query_entry) : Mdns unit :=
  match queries with
  | [] => mret tt
  | q :: rest =>
      h ← get imap;
      x ← alloc (put_mdns_query_mapper (Some h) (Some ip) (Some q));
      _ ← put (set_imap (default h x.2));
      put_queries ip rest
  end.
Fixpoint put_answers (answers : list mdns_answer_entry) : Mdns unit :=
  match answers with
  | [] => mret tt
  | a :: rest =>
      h ← get imap;
      x ← alloc (put_mdns_answer_mapper (Some h) (Some (ae_ip a)) (Some a));
      _ ← put (set_imap (default h x.2));
      put_answers rest
  end.

(** What is done with the decoded packet. *)
Definition reflect (buf : list Z) (num_bytes : Z) (peer : sockaddr) (qip : list Z)
    (queries : list mdns_query_entry) (answers : list mdns_answer_entry) (rif : @dl_list _ RL) : Mdns unit :=
  _ ← (match peer with SockInet _ _ => put_queries qip queries | _ => mret tt end);
  _ ← put_answers answers;
  config ← get mdns_config;
  let data := take (Z.to_nat num_bytes) buf in
  match peer with
  | SockInet6 _ _ => if reflect_ip6 config then _ ← forward_reflector_if6 data rif; mret tt else mret tt
  | SockInet _ _ => if reflect_ip4 config then _ ← forward_reflector_if4 data rif; mret tt else mret tt
  | SockOther => mret tt
  end.

(** [available] is what [ioctl] stores; [recv] the buffer of that size after
    the read, how many bytes were read, and from where. *)
Definition eloop_reflector_handler (available : option Z) (recv : option (list Z * Z * sockaddr))
    (rif : @dl_list _ RL) : Mdns unit :=
  match available with
  | None => mret tt
  | Some _ =>
      ok ← alloc malloc;
      if negb ok then mret tt
      else
        match recv with
        | None => mret tt
        | Some (buf, num_bytes, peer) =>
            match sockaddr2str peer with
            | None => mret tt
            | Some (peer_addr_str, _) =>
                q ← (match peer with
                     | SockInet _ _ => lift_outcome (ip4_2_buf (Some peer_addr_str) (Some (zeros 4)) junk)
                     | _ => mret (0, Some [])
                     end);
                if q.1 <? 0 then mret tt
                else
                  h ← lift_outcome (rd buf 0 12);
                  let header := decode_mdns_header h in
                  if num_bytes <? 12 then mret tt
                  else
                    qs ← alloc (decode_mdns_queries buf num_bytes (Z.to_nat (byte_at header 2)) 12 []);
                    if qs.1.1 <? 0 then mret tt
                    else
                      ans ← alloc (decode_mdns_answers buf num_bytes (Z.to_nat (byte_at header 3)) qs.1.2 []);
                      if ans.1.1 <? 0 then mret tt
                      else reflect buf num_bytes peer (default [] q.2) qs.2 ans.2 rif
            end
        end
  end.

(** ** Bridge commands *)

(** Pushes the strings one by one; the queue is freed when a push fails. *)
Fixpoint push_strings (sq : string_queue) (l : list (list Z)) : prog env (option string_queue) :=
  match l with
  | [] => mret (Some sq)
  | s :: rest =>
      x ← push_string_queue (Some sq) (Some s);
      if x.1 <? 0 then _ ← lift_outcome (free_string_queue x.2); mret None
      else push_strings (default sq x.2) rest
  end.

Definition CMD_ADD_BRIDGE : list Z := cstr "ADD_BRIDGE".

Definition create_domain_command (src_ip dst_ip : list Z) : prog env (Z * option (list Z)) :=
  q ← init_string_queue (-1);
  match q with
  | None => mret (-1, None)
  | Some sq =>
      r ← push_strings sq [CMD_ADD_BRIDGE; [CMD_DELIMITER]; src_ip; [CMD_DELIMITER]; dst_ip];
      match r with
      | None => mret (-1, None)
      | Some sq' =>
          out ← concat_string_queue (Some sq') (-1);
          _ ← lift_outcome (free_string_queue (Some sq'));
          mret (match out with None => -1 | Some _ => 0 end, out)
      end
  end.

(** Sends a command that was not sent before; it is remembered first. *)
Definition send_command (domain : list Z) : Mdns Z :=
  h ← get command_mapper;
  let ret := check_command_mapper (Some h) (Some domain) in
  if 0 <? ret then mret 0
  else if ret =? 0 then
    x ← alloc (put_command_mapper (Some h) (Some domain));
    _ ← put (set_command_mapper (default h x.2));
    if x.1 <? 0 then mret (-1)
    else
      path ← get supervisor_control_path;
      r ← sendto (Command path domain);
      mret (match r with SENT => 0 | _ => -1 end)
  else mret (-1).

Definition send_bridge_command (tp : tuple_packet) : Mdns Z :=
  match tp with
  | PACKET_IP4 sch =>
      sip ← lift_outcome (ip4_2_buf (Some (ip_src sch)) (Some (zeros 4)) junk);
      if sip.1 <? 0 then mret (-1)
      else
        dip ← lift_outcome (ip4_2_buf (Some (ip_dst sch)) (Some (zeros 4)) junk);
        if dip.1 <? 0 then mret (-1)
        else
          h ← get imap;
          let ret := check_mdns_mapper_req (Some h) sip.2 MDNS_REQUEST_ANSWER in
          if ret <? 0 then mret (-1)
          else
            let retd := check_mdns_mapper_req (Some h) dip.2 MDNS_REQUEST_ANSWER in
            if retd <? 0 then mret (-1)
            else if (ret =? 0) && (retd =? 0) then mret 0
            else
              d ← alloc (create_domain_command (ip_src sch) (ip_dst sch));
              if d.1 <? 0 then mret (-1)
              else
                match d.2 with
                | None => fail_with NullDeref
                | Some domain => send_command domain
                end
  | _ => mret 0
  end.

Fixpoint send_tuples (tps : list tuple_packet) : Mdns unit :=
  match tps with
  | [] => mret tt
  | tp :: rest => _ ← send_bridge_command tp; send_tuples rest
  end.

(** [id] is the identifier generated for the packet. *)
Definition mdns_pcap_callback (header : pcap_pkthdr) (packet ifname id : list Z) : Mdns unit :=
  r ← alloc (extract_packets header packet ifname id []);
  if 0 <? r.1 then send_tuples r.2 else mret tt.

(** ** Start and end *)

Fixpoint push_reflections (items : list (Z * vlan_conn)) : Mdns Z :=
  match items with
  | [] => mret 0
  | current :: rest =>
      let ifname := vc_ifname current.2 in
      let ifindex := nametoindex ifname in
      if ifindex =? 0 then mret (-1)
      else
        r6 ← get rif6;
        x ← alloc (push_reflection_list r6 ifindex (Some ifname));
        _ ← put (set_rif6 x.2);
        if negb x.1 then mret (-1)
        else
          r4 ← get rif4;
          y ← alloc (push_reflection_list r4 ifindex (Some ifname));
          _ ← put (set_rif4 y.2);
          if negb y.1 then mret (-1) else push_reflections rest
  end.

Definition init_reflections : Mdns Z :=
  r4 ← alloc init_reflection_list;
  _ ← put (set_rif4 r4);
  match r4 with
  | None => mret (-1)
  | Some _ =>
      r6 ← alloc init_reflection_list;
      _ ← put (set_rif6 r6);
      match r6 with
      | None => mret (-1)
      | Some _ => h ← get mdns_vlan_mapper; push_reflections (hash_items h)
      end
  end.

(** The descriptors of the element at address [p]. *)
Definition with_send (fd : Z) (r : reflection) : reflection :=
  {| recv_fd := recv_fd r; send_fd := fd; rl_ifindex := rl_ifindex r; rl_ifname := rl_ifname r |}.
Definition with_recv (fd : Z) (r : reflection) : reflection :=
  {| recv_fd := fd; send_fd := send_fd r; rl_ifindex := rl_ifindex r; rl_ifname := rl_ifname r |}.

(** [get_rif] and [set_rif] are those of the list that is set up; the calls are
    [create_send_mcast], [create_recv_mcast], [edge_eloop_register_read_sock]
    and [join_mcast]. *)
Fixpoint register_loop (get_rif : mdns_context -> option (@dl_list _ RL))
    (set_rif : option (@dl_list _ RL) -> mdns_context -> mdns_context) (els : list (nat * reflection)) : Mdns Z :=
  match els with
  | [] => mret 0
  | (p, el) :: rest =>
      s ← syscall;
      r ← get get_rif;
      _ ← put (set_rif (dl_list_store p (with_send s el) <$> r));
      if s <? 0 then mret (-1)
      else
        v ← syscall;
        r ← get get_rif;
        _ ← put (set_rif (dl_list_store p (with_recv v (with_send s el)) <$> r));
        if v <? 0 then mret (-1)
        else
          g ← syscall;
          if g <? 0 then mret (-1)
          else
            _ ← act (Listen v);
            j ← syscall;
            if j <? 0 then mret (-1) else register_loop get_rif set_rif rest
  end.

Definition register_reflector_if6 : Mdns Z :=
  r ← get rif6;
  match r with None => fail_with NullDeref | Some l => register_loop rif6 set_rif6 (dl_nodes l) end.
Definition register_reflector_if4 : Mdns Z :=
  r ← get rif4;
  match r with None => fail_with NullDeref | Some l => register_loop rif4 set_rif4 (dl_nodes l) end.

(** [run_pcap] returns the descriptor of the capture. *)
Fixpoint run_captures (items : list (Z * vlan_conn)) : Mdns Z :=
  match items with
  | [] => mret 0
  | current :: rest =>
      fd ← syscall;
      if fd <? 0 then mret (-1)
      else
        l ← get pctx_list;
        _ ← put (set_pctx_list ((fun l => l ++ [(vc_ifname current.2, fd)]) <$> l));
        g ← syscall;
        if g =? -1 then mret (-1) else _ ← act (Listen fd); run_captures rest
  end.

Definition run_mdns_capture : Mdns Z :=
  _ ← put (set_pctx_list (Some []));
  h ← get mdns_vlan_mapper;
  run_captures (hash_items h).

(** Up to the event loop; the calls are [create_domain_client] and
    [edge_eloop_init], which returns 0 for NULL. *)
Definition run_mdns : Mdns Z :=
  r ← init_reflections;
  if r <? 0 then mret (-1)
  else
    fd ← syscall;
    _ ← put (set_sfd fd);
    if fd <? 0 then mret (-1)
    else
      eloop ← syscall;
      if eloop <=? 0 then mret (-1)
      else
        r6 ← register_reflector_if6;
        if r6 <? 0 then mret (-1)
        else
          r4 ← register_reflector_if4;
          if r4 <? 0 then mret (-1)
          else
            c ← run_mdns_capture;
            if c <? 0 then mret (-1) else mret 0.

(** A sending descriptor is closed unless it is 0. *)
Fixpoint close_reflector_if (els : list reflection) : Mdns unit :=
  match els with
  | [] => mret tt
  | el :: rest =>
      _ ← (if -1 <? recv_fd el then act (Close (recv_fd el)) else mret tt);
      _ ← (if send_fd el =? 0 then mret tt else act (Close (send_fd el)));
      close_reflector_if rest
  end.

Definition close_rif (rif : option (@dl_list _ RL)) (set_rif : option (@dl_list _ RL) -> mdns_context -> mdns_context) :
    Mdns unit :=
  match rif with
  | None => mret tt
  | Some l =>
      _ ← close_reflector_if (queue_items l);
      _ ← lift_outcome (free_reflection_list l);
      put (set_rif None)
  end.

Fixpoint free_pcap_list (l : list (list Z * Z)) : Mdns unit :=
  match l with
  | [] => mret tt
  | p :: rest => _ ← act (Close p.2); free_pcap_list rest
  end.

(** [close_domain_socket] does nothing when [getsockname] fails. *)
Definition close_mdns : Mdns Z :=
  r4 ← get rif4;
  _ ← close_rif r4 set_rif4;
  r6 ← get rif6;
  _ ← close_rif r6 set_rif6;
  h ← get imap;
  _ ← lift_outcome (free_mdns_mapper h);
  _ ← put (set_imap hash_empty);
  l ← get pctx_list;
  _ ← free_pcap_list (default [] l);
  _ ← put (set_pctx_list None);
  _ ← put (set_command_mapper hash_empty);
  fd ← get sfd;
  g ← syscall;
  _ ← (if g <? 0 then mret tt else act (Close fd));
  _ ← put (set_sfd 0);
  mret 0.

(** The fields are those of a zeroed context. *)
Definition init_mdns_context (conf : mdns_conf) (path : list Z) (vlans : @hash _ _ _ VU) :
    prog env (Z * mdns_context) :=
  x ← copy_vlan_mapper vlans hash_empty;
  mret (if x.1 <? 0 then -1 else 0,
        {| rif4 := None; rif6 := None; imap := hash_empty; mdns_vlan_mapper := x.2; command_mapper := hash_empty;
           pctx_list := None; mdns_config := conf; supervisor_control_path := clip MAX_OS_PATH_LEN path; sfd := 0 |}).
End mdns.
