(* ===== verification/MdnsInv.v ===== *)
(** Theorems about the multicast DNS service of [Mdns]: what its handlers do
    with a packet, and what holds over any run of them. *)
From stdpp Require Import strings numbers base list gmap.
From Stdlib Require Import ZArith Lia.
From S2P Require Import Prelude Os Text Net Extern Queue Iptables Mappers Decoder MdnsName MdnsRecords Supervisor CmdProcessor Mdns.

Section mdns_inv.
Context {RL : DlList reflection} {SQ : DlList (option (list Z))} {ML : DlList mdns_list_info}.
Context {MM : Uthash (list Z) (@dl_list _ ML)} {CM : Uthash Z bool} {VU : Uthash Z vlan_conn}.
Context (junk : Z).
#[local] Abbreviation state := (mdns (RL := RL) (MM := MM) (CM := CM) (VU := VU)).

(** The state with other contents in some of its parts. *)
Definition with_imap (h : @hash _ _ _ MM) (e : env) (s : state) : state :=
  {| m_ctx := set_imap h (m_ctx s); m_env := e; m_sends := m_sends s; m_calls := m_calls s; m_out := m_out s |}.

Lemma alloc_run {A} (m : prog env A) (s : state) a e : m (m_env s) = Done (a, e) ->
  alloc m s = Done (a, {| m_ctx := m_ctx s; m_env := e; m_sends := m_sends s; m_calls := m_calls s; m_out := m_out s |}).
Proof. intros H. unfold alloc. by rewrite H. Qed.

(** ** Learning *)

(** Roles are never lost. *)
Definition grows (m m' : gmap (list Z) (list mdns_list_info)) : Prop :=
  forall ip request, has_role m ip request = true -> has_role m' ip request = true.

Lemma grows_refl m : grows m m.
Proof. by intros ? ?. Qed.
Lemma grows_learn ip x m : grows m (learn ip x m).
Proof. intros ip2 request H. by rewrite has_role_learn, H. Qed.
Lemma grows_trans m1 m2 m3 : grows m1 m2 -> grows m2 m3 -> grows m1 m3.
Proof. unfold grows. auto. Qed.

(** One put, as both loops do it: the table becomes [h], the allocator [e]. *)
Definition learns (todo : gmap (list Z) (list mdns_list_info) -> gmap (list Z) (list mdns_list_info)) (s : state)
    (h : @hash _ _ _ MM) (e : env) : Prop :=
  mapper_ok h /\ grows (records (imap (m_ctx s))) (records h) /\
  env_ok (m_env s) e (records h = todo (records (imap (m_ctx s)))).

Lemma put_one_run ip x (s : state) : mapper_ok (imap (m_ctx s)) -> exists r h e,
  put_mdns_info (imap (m_ctx s)) ip x (m_env s) = Done ((r, h), e) /\ learns (learn ip x) s h e.
Proof.
  intros Hok. destruct (put_mdns_info_run (imap (m_ctx s)) ip x (m_env s) Hok) as (r & h & e & E & Hh & He & Hr).
  exists r, h, e. split; [done|]. split; [done|]. split.
  - destruct Hr as [[_ ->]|[_ ->]]; [apply grows_refl|apply grows_learn].
  - eapply env_ok_mono; [exact He|]. intros ->. by destruct Hr as [[? _]|[_ ?]].
Qed.

Lemma learns_trans f g (s : state) h1 e1 h2 e2 : learns f s h1 e1 -> learns g (with_imap h1 e1 s) h2 e2 ->
  learns (fun m => g (f m)) s h2 e2.
Proof.
  intros (H1 & G1 & [R1 K1]) (H2 & G2 & [R2 K2]). split; [done|]. split; [by eapply grows_trans|].
  cbn [with_imap m_env m_ctx set_imap imap] in *. split; [congruence|]. intros Hm. destruct (K1 Hm) as [-> <-]. by apply K2.
Qed.

Lemma put_queries_run ip qs : forall s : state, mapper_ok (imap (m_ctx s)) -> exists h e,
  put_queries ip qs s = Done (tt, with_imap h e s) /\
  learns (fun m => foldl (fun m q => learn ip (query_info q) m) m qs) s h e.
Proof.
  induction qs as [|q qs IH]; intros s Hok.
  - exists (imap (m_ctx s)), (m_env s). split; [by destruct s as [[]]|]. split; [done|]. split; [apply grows_refl|by apply env_ok_refl].
  - cbn [put_queries]. erewrite bind_run by done. cbv beta.
    destruct (put_one_run ip (query_info q) s Hok) as (r & h & e & E & Hl).
    erewrite bind_run by (apply alloc_run; cbn [put_mdns_query_mapper]; erewrite bind_run by exact E; done).
    cbn [fst snd default]. erewrite bind_run by done. cbv beta.
    destruct (IH (with_imap h e s) (proj1 Hl)) as (h2 & e2 & E2 & Hl2).
    exists h2, e2. split; [exact E2|]. exact (learns_trans _ _ _ _ _ _ _ Hl Hl2).
Qed.

Lemma put_answers_run ans : forall s : state, mapper_ok (imap (m_ctx s)) -> exists h e,
  put_answers ans s = Done (tt, with_imap h e s) /\
  learns (fun m => foldl (fun m a => learn (ae_ip a) (answer_info a) m) m ans) s h e.
Proof.
  induction ans as [|a ans IH]; intros s Hok.
  - exists (imap (m_ctx s)), (m_env s). split; [by destruct s as [[]]|]. split; [done|]. split; [apply grows_refl|by apply env_ok_refl].
  - cbn [put_answers]. erewrite bind_run by done. cbv beta.
    destruct (put_one_run (ae_ip a) (answer_info a) s Hok) as (r & h & e & E & Hl).
    erewrite bind_run by (apply alloc_run; cbn [put_mdns_answer_mapper]; erewrite bind_run by exact E; done).
    cbn [fst snd default]. erewrite bind_run by done. cbv beta.
    destruct (IH (with_imap h e s) (proj1 Hl)) as (h2 & e2 & E2 & Hl2).
    exists h2, e2. split; [exact E2|]. exact (learns_trans _ _ _ _ _ _ _ Hl Hl2).
Qed.

(** ** Forwarding *)

(** Some multicast packets left, and [sends] of the oracle is still there. *)
Definition with_sent (sends : list send_result) (l : list action) (s : state) : state :=
  {| m_ctx := m_ctx s; m_env := m_env s; m_sends := sends; m_calls := m_calls s; m_out := m_out s ++ l |}.

Definition is_command (a : action) : bool := match a with Command _ _ => true | _ => false end.

Definition mcast (family6 : bool) (data : list Z) (el : reflection) : action :=
  if family6 then Mcast6 (send_fd el) (rl_ifindex el) data else Mcast4 (send_fd el) data.

Lemma with_sent_twice s1 s2 l1 l2 s : with_sent s2 l2 (with_sent s1 l1 s) = with_sent s2 (l1 ++ l2) s.
Proof. unfold with_sent. cbn. by rewrite <- app_assoc. Qed.

(** What one send adds to the log. *)
Definition sent_if (r : send_result) (a : action) : list action := match r with SENT => [a] | _ => [] end.

Lemma sendto_run a (s : state) : sendto a s =
  Done (default SENT (head (m_sends s)),
        with_sent (tail (m_sends s)) (sent_if (default SENT (head (m_sends s))) a) s).
Proof. done. Qed.

Lemma forward_run family6 data els : forall s : state, exists r sends l,
  forward_loop family6 data els s = Done (r, with_sent sends l s) /\ filter is_command l = [] /\
  (m_sends s = [] -> r = 0 /\ sends = [] /\ l = mcast family6 data <$> els).
Proof.
  induction els as [|el els IH]; intros s.
  - exists 0, (m_sends s), []. unfold with_sent. rewrite app_nil_r. split; [by destruct s|]. split; [done|]. by intros ->.
  - cbn [forward_loop]. fold (mcast family6 data el). erewrite bind_run by apply sendto_run. cbv beta.
    set (r := default SENT (head (m_sends s))). set (s1 := with_sent _ _ s).
    assert (forall l, filter is_command (sent_if r (mcast family6 data el) ++ l) = filter is_command l) as Hf
      by (intros l; by destruct r, family6).
    assert (exists x sends l, forward_loop family6 data els s1 = Done (x, with_sent sends l s) /\ filter is_command l = [] /\
      (m_sends s = [] -> x = 0 /\ sends = [] /\ l = mcast family6 data <$> el :: els)) as Hgo.
    { destruct (IH s1) as (x & sends & l & E & Hl & Hr). exists x, sends, (sent_if r (mcast family6 data el) ++ l).
      rewrite E, Hf. split; [by unfold s1; rewrite with_sent_twice|]. split; [done|].
      intros Hs. destruct Hr as (-> & -> & ->); [unfold s1; cbn; by rewrite Hs|]. unfold r. by rewrite Hs. }
    assert (r <> SENT -> exists x sends l, Done (-1, s1) = Done (x, with_sent sends l s) /\ filter is_command l = [] /\
      (m_sends s = [] -> x = 0 /\ sends = [] /\ l = mcast family6 data <$> el :: els)) as Hstop.
    { intros Hr. exists (-1), (tail (m_sends s)), (sent_if r (mcast family6 data el)). split; [done|].
      split; [by destruct r, family6|]. intros Hs. exfalso. apply Hr. unfold r. by rewrite Hs. }
    destruct r; try exact Hgo; [destruct family6; [exact Hgo|]|]; by apply Hstop.
Qed.

(** ** The reflector *)

(** The handler of the reflector on a packet from an IPv4 address that is
    laid out as names with their records, when memory and the network allow
    it: every question is remembered under the address it came from and every
    record under the address it carries, names that are known already are not
    remembered twice, and the packet goes out unchanged on every interface of
    the list if reflecting is configured, the interface it came from
    included. *)
Theorem reflector_learns_and_forwards (s : state) buf addr port rif qs ans j k n r : bytes buf ->
  zlen addr = 4 -> bytes addr -> mapper_ok (imap (m_ctx s)) -> m_env s = Env [] r -> m_sends s = [] -> 12 <= zlen buf ->
  queries_at buf (zlen buf) (Z.to_nat (be16_at buf 4)) 12 qs j ->
  answers_at buf (zlen buf) (Z.to_nat (be16_at buf 6)) j ans k ->
  exists h, eloop_reflector_handler junk (Some n) (Some (buf, zlen buf, SockInet addr port)) rif s =
      Done (tt, with_sent [] (if reflect_ip4 (mdns_config (m_ctx s)) then (fun el => Mcast4 (send_fd el) buf) <$> queue_items rif
                              else []) (with_imap h (Env [] r) s)) /\
    records h = foldl (fun m a => learn (ae_ip a) (answer_info a) m)
                  (foldl (fun m q => learn addr (query_info q) m) (records (imap (m_ctx s))) qs) ans.
Proof.
  intros Hb Hl Hba Hok He Hs H12 Hq Ha. destruct s as [c e sends calls out]. cbn [m_ctx m_env m_sends] in *. subst e sends.
  unfold eloop_reflector_handler. erewrite bind_run by (by apply alloc_run; apply malloc_nil). cbn [negb m_ctx m_env m_sends m_calls m_out sockaddr2str].
  rewrite ip4_2_buf_ntop by done. erewrite bind_run by apply lift_run. cbn [fst snd default Z.ltb Z.compare].
  destruct (rd_total buf 0 12) as (h12 & E12 & _); [lia..|]. rewrite E12. erewrite bind_run by apply lift_run. cbv zeta.
  destruct (Z.ltb_spec (zlen buf) 12); [lia|]. apply rd_done in E12 as (_ & _ & _ & ->).
  replace (byte_at (decode_mdns_header _) 2) with (be16_at buf 4)
    by (unfold decode_mdns_header, be16_at; cbn [fmap list_fmap seq]; unfold byte_at at 3; cbn [nth]; by rewrite !byte_at_sub by lia).
  replace (byte_at (decode_mdns_header _) 3) with (be16_at buf 6)
    by (unfold decode_mdns_header, be16_at; cbn [fmap list_fmap seq]; unfold byte_at at 3; cbn [nth]; by rewrite !byte_at_sub by lia).
  erewrite bind_run by (apply alloc_run; by apply decode_mdns_queries_run). cbn [fst snd Z.ltb Z.compare app m_ctx m_env m_sends m_calls m_out].
  erewrite bind_run by (apply alloc_run; by apply decode_mdns_answers_run). cbn [fst snd Z.ltb Z.compare app m_ctx m_env m_sends m_calls m_out].
  set (s0 := {| m_ctx := c; m_env := Env [] r; m_sends := []; m_calls := calls; m_out := out |}).
  unfold reflect. destruct (put_queries_run addr qs s0 Hok) as (h1 & e1 & E1 & L1). erewrite bind_run by exact E1. cbv beta.
  destruct (put_answers_run ans (with_imap h1 e1 s0) (proj1 L1)) as (h2 & e2 & E2 & L2). erewrite bind_run by exact E2. cbv beta.
  destruct (learns_trans _ _ _ _ _ _ _ L1 L2) as (Hok2 & _ & [_ Hm]). destruct (Hm eq_refl) as [-> Hrec].
  exists h2. split; [|exact Hrec]. erewrite bind_run by done. cbv beta zeta.
  change (mdns_config (m_ctx (with_imap h2 (m_env s0) (with_imap h1 e1 s0)))) with (mdns_config c).
  rewrite to_nat_zlen, firstn_all. cbn [m_ctx s0]. destruct (reflect_ip4 (mdns_config c)).
  - unfold forward_reflector_if4. destruct (forward_run false buf (queue_items rif) (with_imap h2 (m_env s0) (with_imap h1 e1 s0)))
      as (x & sends & l & E & _ & Hx). destruct (Hx eq_refl) as (-> & -> & ->). erewrite bind_run by exact E. done.
  - unfold with_sent, with_imap. cbn. by rewrite app_nil_r.
Qed.

(** ** Bridge commands *)

Definition bridge_command (src dst : list Z) : list Z :=
  CMD_ADD_BRIDGE ++ [CMD_DELIMITER] ++ src ++ [CMD_DELIMITER] ++ dst.

Lemma push_strings_run l r : forall sq k, holds sq k -> exists sq',
  push_strings sq l (Env [] r) = Done (Some sq', Env [] r) /\ holds sq' (k ++ l).
Proof.
  induction l as [|x l IH]; intros sq k Hh; [exists sq; by rewrite app_nil_r|].
  destruct (push_name_run sq k (Some x) r Hh) as (sq1 & E1 & Hh1). cbn [push_name push_strings] in *.
  apply bind_done in E1 as ([z q1] & e1 & E1 & E2). erewrite bind_run by exact E1. cbn [fst snd] in *.
  destruct (z <? 0); [by apply bind_done in E2 as (? & ? & _ & ?)|]. injection E2 as -> ->. cbn [default].
  destruct (IH sq1 (k ++ [x]) Hh1) as (sq2 & E3 & Hh2). exists sq2. split; [exact E3|]. by rewrite <- app_assoc in Hh2.
Qed.

Lemma create_domain_command_run src dst r :
  create_domain_command src dst (Env [] r) = Done ((0, Some (bridge_command src dst)), Env [] r).
Proof.
  unfold create_domain_command. erewrite bind_run by (unfold init_string_queue; erewrite bind_run by apply malloc_nil; done).
  cbn beta iota. edestruct push_strings_run as (sq' & E & Hh); [apply holds_init|]. erewrite bind_run by exact E. cbn beta iota.
  erewrite bind_run by (by apply concat_holds). erewrite bind_run by (erewrite free_run by exact Hh; apply lift_run).
  cbn [app spelled concat]. unfold bridge_command. by rewrite app_nil_r.
Qed.

(** Whatever the allocator does, a string that comes out of a queue is made of
    strings that went in. *)
Lemma concat_loop_inv nodes : forall num acc e out e',
  concat_loop nodes (-1) num acc e = Done (Some out, e') ->
  exists l, nodes.*2 = Some <$> l /\ (acc = None /\ l = [] \/ out = default [] acc ++ concat l).
Proof.
  induction nodes as [|[p o] nodes IH]; intros num acc e out e' H; cbn [concat_loop] in H.
  - injection H as -> _. exists []. split; [done|]. right. by rewrite app_nil_r.
  - rewrite more_all in H. destruct o as [x|]; [|done]. apply bind_done in H as (ok & e1 & _ & H).
    destruct ok; cbn [negb] in H; [|done]. apply IH in H as (l & Hl & [[? _]| ->]); [done|].
    exists (x :: l). split; [cbn; by rewrite Hl|]. right. cbn. by rewrite <- app_assoc.
Qed.

(** A queue without a limit, with the strings that could be copied. *)
Definition queued (sq : string_queue) (l : list (list Z)) : Prop :=
  squeue_wf sq /\ max_length sq = -1 /\ length (queue_items (sq_list sq)) = length l /\
  forall l', queue_items (sq_list sq) = Some <$> l' -> l' = l.

Lemma push_strings_inv l : forall sq k e sq' e', queued sq k -> push_strings sq l e = Done (Some sq', e') -> queued sq' (k ++ l).
Proof.
  induction l as [|x l IH]; intros sq k e sq' e' Hq H; cbn [push_strings] in H; [injection H as <- _; by rewrite app_nil_r|].
  destruct Hq as (Hwf & Hm & Hlen & Hall). destruct (push_run sq x e Hwf) as (r & q1 & e1 & E & _ & Hwf1 & Hm1 & Hr).
  erewrite bind_run in H by exact E. cbn [fst snd default] in H. destruct Hr as [[-> ->]|[-> (o & Ho & Hi)]]; cbn in H.
  - by apply bind_done in H as (? & ? & _ & ?).
  - replace (k ++ x :: l) with ((k ++ [x]) ++ l) by (by rewrite <- app_assoc). eapply IH; [|exact H].
    unfold evict in Hi. rewrite Hm, andb_false_r in Hi. split; [done|]. split; [congruence|]. rewrite Hi.
    split; [rewrite !length_app, Hlen; done|]. intros l' Hl'. destruct (exists_last (l := l')) as (l2 & y & ->).
    { intros ->. apply (f_equal length) in Hl'. rewrite length_app in Hl'. cbn in Hl'. lia. }
    rewrite fmap_app in Hl'. apply app_inj_tail in Hl' as [Hl' Hy]. rewrite (Hall l2 Hl'). f_equal. destruct Ho as [->| ->]; cbn in Hy; congruence.
Qed.

Lemma create_domain_command_inv src dst e r out e' : create_domain_command src dst e = Done ((r, out), e') ->
  r = -1 \/ (r = 0 /\ out = Some (bridge_command src dst)).
Proof.
  unfold create_domain_command. intros H. apply bind_done in H as (q & e1 & H1 & H).
  unfold init_string_queue in H1. apply bind_done in H1 as (ok & e2 & _ & H1). injection H1 as <- <-.
  destruct ok; [|injection H as <- _ _; by left]. apply bind_done in H as (q' & e3 & H2 & H).
  destruct q' as [sq'|]; [|injection H as <- _ _; by left]. apply bind_done in H as (o & e4 & H3 & H).
  apply bind_done in H as (? & ? & _ & H). injection H as <- <- _. destruct o as [str|]; [right|by left]. split; [done|].
  assert (queued {| max_length := -1; sq_list := dl_list_init |} []) as Hq0.
  { destruct (queue_init (L := SQ)) as [Hwf Hi]. split; [split; [done|cbn; lia]|]. split; [done|]. cbn [sq_list]. rewrite Hi.
    split; [done|]. by intros [|? ?]. }
  destruct (push_strings_inv _ _ _ _ _ _ Hq0 H2) as (_ & _ & Hlen & Hall). cbn [concat_string_queue] in H3.
  destruct (concat_loop_inv _ _ _ _ _ _ H3) as (l & Hl & [[_ ->]| ->]).
  - unfold queue_items in Hlen. rewrite Hl in Hlen. done.
  - rewrite (Hall l Hl). cbn [app default concat]. unfold bridge_command. by rewrite app_nil_r.
Qed.

Definition with_commands (h : @hash _ _ _ CM) (e : env) (s : state) : state :=
  {| m_ctx := set_command_mapper h (m_ctx s); m_env := e; m_sends := m_sends s; m_calls := m_calls s; m_out := m_out s |}.

(** What is known of the commands before and after one may have been sent: the
    log grows by [l]. *)
Definition commanded (d : list Z) (s : state) (h : @hash _ _ _ CM) (l : list action) : Prop :=
  let path := supervisor_control_path (m_ctx s) in
  let known := known_commands (command_mapper (m_ctx s)) in
  hash_wf h /\ (l = [] \/ l = [Command path d] /\ md_hash d ∉ known) /\
  known_commands h ⊆ {[md_hash d]} ∪ known /\ known ⊆ known_commands h /\
  (l <> [] -> md_hash d ∈ known_commands h).

Lemma send_command_run d (s : state) : hash_wf (command_mapper (m_ctx s)) -> exists r h e sends l,
  send_command d s = Done (r, with_sent sends l (with_commands h e s)) /\ commanded d s h l /\
  env_ok (m_env s) e (m_sends s = [] -> r = 0 /\ sends = [] /\
    (md_hash d ∉ known_commands (command_mapper (m_ctx s)) -> l = [Command (supervisor_control_path (m_ctx s)) d])).
Proof.
  intros Hwf. unfold send_command. erewrite bind_run by done. cbv beta zeta. rewrite check_command_run.
  destruct (bool_decide_reflect (md_hash d ∈ known_commands (command_mapper (m_ctx s)))) as [Hin|Hni]; cbn [Z.b2z Z.ltb Z.compare Z.eqb].
  - exists 0, (command_mapper (m_ctx s)), (m_env s), (m_sends s), [].
    split; [destruct s as [[]]; unfold with_sent, with_commands; cbn; by rewrite app_nil_r|].
    split; [split; [done|]; split; [by left|]; split; [set_solver|]; done|]. by apply env_ok_refl.
  - destruct (put_command_run (command_mapper (m_ctx s)) d (m_env s) Hwf) as (r & h & e & E & Hh & He & Hr).
    erewrite bind_run by (by apply alloc_run; exact E). cbn [fst snd default].
    erewrite bind_run by done. cbv beta. destruct Hr as [[-> ->]|[-> Hk]]; cbn [Z.ltb Z.compare].
    + exists (-1), (command_mapper (m_ctx s)), e, (m_sends s), [].
      split; [destruct s as [[]]; unfold with_sent, with_commands; cbn; by rewrite app_nil_r|].
      split; [split; [done|]; split; [by left|]; split; [set_solver|]; done|]. by eapply env_ok_mono; [exact He|].
    + erewrite bind_run by done. cbv beta. erewrite bind_run by apply sendto_run. cbv beta.
      set (x := default SENT (head (m_sends s))). eexists _, h, e, (tail (m_sends s)), (sent_if x _). split; [done|]. split.
      * split; [done|]. rewrite Hk. split; [destruct x; cbn [sent_if]; auto|]. split; [done|]. set_solver.
      * eapply env_ok_mono; [exact He|]. intros _ Hs. unfold x. by rewrite Hs.
Qed.

Lemma send_command_known d (s : state) : md_hash d ∈ known_commands (command_mapper (m_ctx s)) ->
  send_command d s = Done (0, s).
Proof.
  intros H. unfold send_command. erewrite bind_run by done. cbv beta zeta. by rewrite check_command_run, bool_decide_true.
Qed.

(** The addresses of a tuple, when it is one of IPv4. *)
Definition addresses (src dst sip dip : list Z) : Prop :=
  ip4_2_buf (Some src) (Some (zeros 4)) junk = Done (0, Some sip) /\
  ip4_2_buf (Some dst) (Some (zeros 4)) junk = Done (0, Some dip).

(** One of the two has answered a question. *)
Definition wanted (s : state) (sip dip : list Z) : bool :=
  has_role (records (imap (m_ctx s))) sip MDNS_REQUEST_ANSWER || has_role (records (imap (m_ctx s))) dip MDNS_REQUEST_ANSWER.

Lemma send_bridge_run sch a b (s : state) r : ip_src sch = inet_ntop a -> ip_dst sch = inet_ntop b ->
  zlen a = 4 -> bytes a -> zlen b = 4 -> bytes b -> hash_wf (command_mapper (m_ctx s)) ->
  m_env s = Env [] r -> m_sends s = [] ->
  let command := bridge_command (inet_ntop a) (inet_ntop b) in
  let known := known_commands (command_mapper (m_ctx s)) in
  (wanted s a b = true -> (md_hash command ∉ known) ->
    exists h, send_bridge_command junk (PACKET_IP4 sch) s =
        Done (0, with_sent [] [Command (supervisor_control_path (m_ctx s)) command] (with_commands h (Env [] r) s)) /\
      hash_wf h /\ known_commands h = {[md_hash command]} ∪ known) /\
  (wanted s a b = false \/ md_hash command ∈ known -> send_bridge_command junk (PACKET_IP4 sch) s = Done (0, s)).
Proof.
  intros Hsrc Hdst Ha Hba Hb Hbb Hwf He Hs command known. unfold send_bridge_command. rewrite Hsrc, Hdst.
  rewrite (ip4_2_buf_ntop a), (ip4_2_buf_ntop b) by done.
  do 2 (erewrite bind_run by apply lift_run; cbn [fst snd Z.ltb Z.compare]).
  erewrite bind_run by done. cbv beta zeta. rewrite !check_mdns_mapper_run. unfold wanted.
  assert (alloc (create_domain_command (inet_ntop a) (inet_ntop b)) s = Done ((0, Some command), s)) as Hc.
  { erewrite alloc_run by (rewrite He; apply create_domain_command_run).
    destruct s as [c e0 sd cl ou]. cbn [m_env] in He. by subst e0. }
  assert ((md_hash command ∉ known) -> exists h, send_command command s =
        Done (0, with_sent [] [Command (supervisor_control_path (m_ctx s)) command] (with_commands h (Env [] r) s)) /\
      hash_wf h /\ known_commands h = {[md_hash command]} ∪ known) as Hnew.
  { intros Hk. destruct (send_command_run command s Hwf) as (x & h & e & sends & l & E & (Hh & _ & Hk1 & Hk2 & Hk3) & [_ Hx]).
    destruct (Hx ltac:(by rewrite He)) as [-> Hy]. destruct (Hy Hs) as (-> & -> & Hl). rewrite (Hl Hk) in *. rewrite He in E.
    exists h. split; [exact E|]. split; [done|]. specialize (Hk3 ltac:(done)). set_solver. }
  destruct (has_role _ a _), (has_role _ b _); cbn [Z.b2z Z.ltb Z.compare Z.eqb andb orb]; (split; [intros Hw Hk|intros Hw]); try done.
  all: erewrite bind_run by exact Hc; first [by apply Hnew|apply send_command_known; by destruct Hw].
Qed.

(** A packet between two addresses makes the service send a bridge command
    to the supervisor exactly if one of them has answered a multicast question
    and the command was not sent before; the command names the two addresses
    and is remembered.  In every other case nothing changes. *)
Theorem send_bridge_command_correct sch a b (s : state) r : ip_src sch = inet_ntop a -> ip_dst sch = inet_ntop b ->
  zlen a = 4 -> bytes a -> zlen b = 4 -> bytes b -> hash_wf (command_mapper (m_ctx s)) ->
  m_env s = Env [] r -> m_sends s = [] ->
  let command := bridge_command (inet_ntop a) (inet_ntop b) in
  if wanted s a b && bool_decide (md_hash command ∉ known_commands (command_mapper (m_ctx s))) then
    exists h, send_bridge_command junk (PACKET_IP4 sch) s =
        Done (0, with_sent [] [Command (supervisor_control_path (m_ctx s)) command] (with_commands h (Env [] r) s)) /\
      hash_wf h /\ known_commands h = {[md_hash command]} ∪ known_commands (command_mapper (m_ctx s))
  else send_bridge_command junk (PACKET_IP4 sch) s = Done (0, s).
Proof.
  intros Hsrc Hdst Ha Hba Hb Hbb Hwf He Hs command.
  destruct (send_bridge_run sch a b s r Hsrc Hdst Ha Hba Hb Hbb Hwf He Hs) as [H1 H2]. fold command in H1, H2.
  destruct (wanted s a b); [|by apply H2; left]. cbn [andb]. case_bool_decide as Hk; [by apply H1|]. apply H2. right.
  by destruct (decide (md_hash command ∈ known_commands (command_mapper (m_ctx s)))).
Qed.

(** ** Runs *)

Definition command_of (a : action) : option (list Z) := match a with Command _ d => Some d | _ => None end.
Definition commands (s : state) : list (list Z) := omap command_of (m_out s).

(** A command of the log: it was remembered, and one of its addresses has
    answered a question. *)
Definition justified (s : state) (d : list Z) : Prop :=
  md_hash d ∈ known_commands (command_mapper (m_ctx s)) /\
  exists src dst sip dip, d = bridge_command src dst /\ addresses src dst sip dip /\ wanted s sip dip = true.

Record mdns_inv (s : state) : Prop := {
  inv_imap : mapper_ok (imap (m_ctx s));
  inv_hash : hash_wf (command_mapper (m_ctx s));
  inv_just : Forall (justified s) (commands s);
  inv_once : NoDup (commands s)
}.

(** Names may be learnt; the commands stay. *)
Record only_learns (s s' : state) : Prop := {
  ol_imap : mapper_ok (imap (m_ctx s'));
  ol_grows : grows (records (imap (m_ctx s))) (records (imap (m_ctx s')));
  ol_cmds : command_mapper (m_ctx s') = command_mapper (m_ctx s);
  ol_log : commands s' = commands s
}.

Lemma only_learns_refl s : mapper_ok (imap (m_ctx s)) -> only_learns s s.
Proof. intros H. split; [done|apply grows_refl|done..]. Qed.

Lemma commands_quiet l (s : state) sends : filter is_command l = [] -> commands (with_sent sends l s) = commands s.
Proof.
  intros Hl. unfold commands, with_sent. cbn [m_out]. rewrite omap_app. enough (omap command_of l = []) as -> by apply app_nil_r.
  induction l as [|a l IH]; [done|]. destruct a; cbn in *; try done; by apply IH.
Qed.

Lemma wanted_grows s s' sip dip : grows (records (imap (m_ctx s))) (records (imap (m_ctx s'))) ->
  wanted s sip dip = true -> wanted s' sip dip = true.
Proof. intros Hg. unfold wanted. rewrite !orb_true_iff. intros [H|H]; [left|right]; by apply Hg. Qed.

Lemma only_learns_inv s s' : mdns_inv s -> only_learns s s' -> mdns_inv s'.
Proof.
  intros [H1 H2 H3 H4] [L1 L2 L3 L4]. split; [done|by rewrite L3| |by rewrite L4]. rewrite L4.
  eapply Forall_impl; [exact H3|]. intros d (Hk & src & dst & sip & dip & -> & Ha & Hw). split; [by rewrite L3|].
  exists src, dst, sip, dip. split; [done|]. split; [done|]. by eapply wanted_grows.
Qed.

Lemma keeps_alloc {A} s0 (m : prog env A) : keeps (only_learns s0) (alloc m).
Proof.
  intros s a s' HP H. unfold alloc in H. destruct (m (m_env s)) as [[x e]|]; [|done]. injection H as _ <-. by destruct HP.
Qed.
Lemma keeps_get {A} s0 (f : mdns_context -> A) : keeps (only_learns s0) (get f).
Proof. by intros s a s' HP [= _ <-]. Qed.
#[local] Hint Resolve keeps_alloc keeps_get : keeps.

Lemma only_learns_imap s0 s f h e : only_learns s0 s -> learns f s h e -> only_learns s0 (with_imap h e s).
Proof. intros [L1 L2 L3 L4] (Hh & Hg & _). split; [done|by eapply grows_trans|done..]. Qed.

Lemma keeps_put_queries s0 ip qs : keeps (only_learns s0) (put_queries ip qs).
Proof.
  intros s a s' HP H. destruct (put_queries_run ip qs s (ol_imap _ _ HP)) as (h & e & E & Hl).
  rewrite E in H. injection H as _ <-. by eapply only_learns_imap.
Qed.
Lemma keeps_put_answers s0 ans : keeps (only_learns s0) (put_answers ans).
Proof.
  intros s a s' HP H. destruct (put_answers_run ans s (ol_imap _ _ HP)) as (h & e & E & Hl).
  rewrite E in H. injection H as _ <-. by eapply only_learns_imap.
Qed.
Lemma keeps_forward s0 six data els : keeps (only_learns s0) (forward_loop six data els).
Proof.
  intros s a s' [L1 L2 L3 L4] H. destruct (forward_run six data els s) as (r & sends & l & E & Hl & _).
  rewrite E in H. injection H as _ <-. split; [done..|]. by rewrite commands_quiet.
Qed.
#[local] Hint Resolve keeps_put_queries keeps_put_answers keeps_forward : keeps.

Lemma keeps_reflector s0 available recv rif : keeps (only_learns s0) (eloop_reflector_handler junk available recv rif).
Proof. unfold eloop_reflector_handler, reflect, forward_reflector_if6, forward_reflector_if4. keeps_tac. Qed.

(** A bridge command keeps the invariant. *)
Lemma keeps_send_command src dst sip dip s a s' : mdns_inv s -> addresses src dst sip dip -> wanted s sip dip = true ->
  send_command (bridge_command src dst) s = Done (a, s') -> mdns_inv s'.
Proof.
  intros [H1 H2 H3 H4] Ha Hw H. set (d := bridge_command src dst) in *.
  destruct (send_command_run d s H2) as (r & h & e & sends & l & E & (Hh & Hl & Hk1 & Hk2 & Hk3) & _).
  rewrite E in H. injection H as _ <-.
  assert (forall x, justified s x -> justified (with_sent sends l (with_commands h e s)) x) as Hj.
  { intros x (Hx & Hex). split; [by apply Hk2|exact Hex]. }
  assert (commands (with_sent sends l (with_commands h e s)) = commands s ++ omap command_of l) as Hc
    by (unfold commands; cbn; by rewrite omap_app).
  split; [done|done|rewrite Hc..].
  - apply Forall_app. split; [by eapply Forall_impl|]. destruct Hl as [->|[-> _]]; [constructor|].
    apply Forall_singleton. split; [by apply Hk3|]. by exists src, dst, sip, dip.
  - destruct Hl as [->|[-> Hni]]; [by rewrite app_nil_r|]. apply NoDup_app. split; [done|]. split; [|apply NoDup_singleton].
    intros x Hx ->%list_elem_of_singleton. rewrite Forall_forall in H3. by destruct (H3 d Hx) as [? _].
Qed.

Lemma inv_same s s' : mdns_inv s -> m_ctx s' = m_ctx s -> m_out s' = m_out s -> mdns_inv s'.
Proof.
  intros Hi Hc Ho. eapply only_learns_inv; [exact Hi|]. destruct Hi.
  split; [by rewrite Hc|rewrite Hc; apply grows_refl|by rewrite Hc|unfold commands; by rewrite Ho].
Qed.

Lemma keeps_send_bridge tp : keeps mdns_inv (send_bridge_command junk tp).
Proof.
  intros s a s' HP H. unfold send_bridge_command in H. destruct tp as [| |sch| | | | | | | |]; try (injection H as _ <-; exact HP).
  apply bind_done in H as ([z1 sip] & s1 & E1 & H). destruct (ip4_2_buf (Some (ip_src sch)) _ _) as [w1|] eqn:F1; [|done]. injection E1 as -> <-.
  cbn [fst snd] in H. destruct (z1 <? 0) eqn:G1; [injection H as _ <-; exact HP|].
  apply bind_done in H as ([z2 dip] & s1 & E2 & H). destruct (ip4_2_buf (Some (ip_dst sch)) _ _) as [w2|] eqn:F2; [|done]. injection E2 as -> <-.
  cbn [fst snd] in H. destruct (z2 <? 0) eqn:G2; [injection H as _ <-; exact HP|].
  assert (forall ip z o, ip4_2_buf (Some ip) (Some (zeros 4)) junk = Done (z, o) -> (z <? 0) = false -> z = 0 /\ exists b, o = Some b) as Hres.
  { intros ip z o. unfold ip4_2_buf. destruct (validate_ipv4_string ip) as [[]|]; [| |done]; intros [= <- <-]; [eauto|done]. }
  destruct (Hres _ _ _ F1 G1) as (-> & sb & ->), (Hres _ _ _ F2 G2) as (-> & db & ->).
  erewrite bind_run in H by done. cbv beta zeta in H. rewrite !check_mdns_mapper_run in H.
  assert (wanted s sb db = true \/ s' = s) as [Hw| ->]; [|clear Hres|exact HP].
  { unfold wanted. destruct (has_role _ sb _), (has_role _ db _); cbn in H |- *; auto. right. by injection H as _ <-. }
  assert (exists x s1, alloc (create_domain_command (ip_src sch) (ip_dst sch)) s = Done (x, s1) /\
    (if x.1 <? 0 then mret (-1) else match x.2 with None => fail_with NullDeref | Some domain => send_command domain end) s1 = Done (a, s'))
    as ([r out] & s1 & Ea & H').
  { unfold wanted in Hw. destruct (has_role _ sb _), (has_role _ db _); cbn in H, Hw; try done; apply bind_done in H; done. }
  clear H. unfold alloc in Ea. destruct (create_domain_command _ _ _) as [[x e]|] eqn:Ec; [|done]. injection Ea as -> <-.
  apply create_domain_command_inv in Ec. cbn [fst snd] in H'. destruct Ec as [->|[-> ->]]; cbn [Z.ltb Z.compare] in H'.
  - injection H' as _ <-. by apply (inv_same s).
  - refine (keeps_send_command (ip_src sch) (ip_dst sch) sb db _ a s' _ (conj F1 F2) _ H'); [by apply (inv_same s)|exact Hw].
Qed.

Lemma keeps_pcap_callback header packet ifname id : keeps mdns_inv (mdns_pcap_callback junk header packet ifname id).
Proof.
  assert (forall tps, keeps mdns_inv (send_tuples junk tps)) as Ht.
  { induction tps as [|tp tps IH]; cbn [send_tuples]; keeps_tac. apply keeps_send_bridge. }
  apply keeps_bind; [|intros a; destruct (0 <? a.1); auto with keeps].
  intros s a s' HP H. unfold alloc in H. destruct (extract_packets _ _ _ _ _ _) as [[x e]|]; [|done]. injection H as _ <-.
  by apply (inv_same s).
Qed.

(** One event of the service: a datagram on one of its multicast sockets, or a
    packet that was captured between devices. *)
Inductive mdns_step (s s' : state) : Prop :=
| step_datagram available recv rif :
    rif4 (m_ctx s) = Some rif \/ rif6 (m_ctx s) = Some rif ->
    eloop_reflector_handler junk available recv rif s = Done (tt, s') -> mdns_step s s'
| step_capture header packet ifname id :
    mdns_pcap_callback junk header packet ifname id s = Done (tt, s') -> mdns_step s s'.

(** C32. Over any run of the service, whatever datagrams and packets come in and
    whatever memory and sockets do: no bridge command goes to the supervisor
    twice, and every one that does names two addresses of which one has
    answered a multicast question. *)
Theorem mdns_commands_once s s' : mdns_inv s -> rtc mdns_step s s' ->
  NoDup (commands s') /\ Forall (justified s') (commands s').
Proof.
  intros Hi Hr. enough (mdns_inv s') by (by destruct H). induction Hr as [|s1 s2 s3 Hs _ IH]; [done|]. apply IH.
  destruct Hs as [available recv rif _ H|header packet ifname id H].
  - eapply only_learns_inv; [exact Hi|]. eapply keeps_reflector; [|exact H]. apply only_learns_refl, Hi.
  - by eapply keeps_pcap_callback.
Qed.

(** A bridge command that could not be sent is remembered as if it had been:
    later packets between the same addresses send nothing, although the
    network works again. *)
Theorem failed_command_lost d (s : state) r rest : hash_wf (command_mapper (m_ctx s)) -> m_env s = Env [] r ->
  md_hash d ∉ known_commands (command_mapper (m_ctx s)) -> m_sends s = SEND_ERROR :: rest ->
  exists s', send_command d s = Done (-1, s') /\ m_out s' = m_out s /\ send_command d s' = Done (0, s').
Proof.
  intros Hwf He Hk Hs. unfold send_command at 1. erewrite bind_run by done. cbv beta zeta.
  rewrite check_command_run, bool_decide_false by done. cbn [Z.b2z Z.ltb Z.compare Z.eqb].
  destruct (put_command_run (command_mapper (m_ctx s)) d (m_env s) Hwf) as (x & h & e & E & Hh & [_ Hx] & Hr).
  erewrite bind_run by (by apply alloc_run; exact E). cbn [fst snd default]. erewrite bind_run by done. cbv beta.
  destruct (Hx ltac:(by rewrite He)) as [-> ->]. cbn [Z.ltb Z.compare]. erewrite bind_run by done. cbv beta.
  erewrite bind_run by apply sendto_run. cbn [m_sends]. rewrite Hs. cbn [head default].
  eexists. split; [done|]. split; [cbn; by rewrite app_nil_r|]. apply send_command_known. cbn.
  destruct Hr as [[? _]|[_ ->]]; [done|set_solver].
Qed.
End mdns_inv.

(** ** Packets that are read past their end *)

(** A datagram of fewer than twelve bytes is looked at before its size is. *)
Lemma short_datagram_overruns {RL : DlList reflection} {SQ : DlList (option (list Z))} {ML : DlList mdns_list_info}
    {MM : Uthash (list Z) (@dl_list _ ML)} {CM : Uthash Z bool} {VU : Uthash Z vlan_conn}
    junk n buf addr port rif (s : mdns (RL := RL) (MM := MM) (CM := CM) (VU := VU)) r :
  zlen addr = 4 -> bytes addr -> m_env s = Env [] r -> zlen buf < 12 ->
  eloop_reflector_handler junk (Some n) (Some (buf, zlen buf, SockInet addr port)) rif s = Fault OutOfBounds.
Proof.
  intros Hl Hb He Hs. unfold eloop_reflector_handler. erewrite bind_run by (apply alloc_run; rewrite He; apply malloc_nil).
  cbn [negb sockaddr2str]. rewrite ip4_2_buf_ntop by done. erewrite bind_run by apply lift_run.
  cbn [fst snd Z.ltb Z.compare]. unfold rd. destruct (Z.leb_spec (0 + 12) (zlen buf)); [lia|]. by rewrite andb_false_r.
Qed.

(** A name of 33 labels with 63 bytes each does not fit the array of an entry. *)
Definition long_name : list Z := concat (replicate 33 (63 :: replicate 63 97)) ++ [0; 0; 1; 0; 1].

Lemma long_name_overruns :
  @decode_mdns_queries (list_dl_list _) long_name (zlen long_name) 1 0 [] (Env [] []) = Fault OutOfBounds.
Proof. vm_compute. reflexivity. Qed.

(** ** Samples *)

#[local] Abbreviation sample_state := (mdns (RL := list_dl_list reflection)
  (MM := list_uthash (list Z) (@dl_list _ (list_dl_list mdns_list_info))) (CM := list_uthash Z bool)
  (VU := list_uthash Z vlan_conn)).

(** Two interfaces; nothing is known yet. *)
Definition sample_rif : @dl_list _ (list_dl_list reflection) :=
  [(1%nat, {| recv_fd := 10; send_fd := 11; rl_ifindex := 1; rl_ifname := cstr "br0" |});
   (2%nat, {| recv_fd := 12; send_fd := 13; rl_ifindex := 2; rl_ifname := cstr "br1" |})].

Definition sample_mdns : sample_state :=
  {| m_ctx := {| rif4 := Some sample_rif; rif6 := None; imap := hash_empty; mdns_vlan_mapper := hash_empty;
                 command_mapper := hash_empty; pctx_list := None;
                 mdns_config := {| mc_filter := []; reflect_ip4 := true; reflect_ip6 := true |};
                 supervisor_control_path := cstr "/tmp/edgesec"; sfd := 9 |};
     m_env := Env [] []; m_sends := []; m_calls := []; m_out := [] |}.

(** A question for foo.local, and a record with its address 10.0.1.7. *)
Definition sample_datagram : list Z :=
  [0; 0; 0x84; 0; 0; 1; 0; 1; 0; 0; 0; 0] ++ [3; 102; 111; 111; 5; 108; 111; 99; 97; 108; 0] ++ [0; 1; 0; 1] ++
  [0xC0; 12; 0; 1; 0; 1; 0; 0; 0; 120; 0; 4; 10; 0; 1; 7].

Definition sample_question : mdns_query_entry := {| qe_qtype := 1; qe_qname := cstr "foo.local." |}.
Definition sample_record : mdns_answer_entry :=
  {| ae_ttl := 120; ae_rrtype := 1; ae_rrname := cstr "foo.local."; ae_ip := [10; 0; 1; 7] |}.

Lemma sample_foo_local : name_at sample_datagram 43 12 [cstr "foo."; cstr "local."] 22 2.
Proof.
  eapply name_label with (n := 3); [vm_compute; done|done..|].
  eapply name_label with (n := 5); [vm_compute; done|done..|]. by apply name_root.
Qed.

Lemma sample_queries : queries_at sample_datagram 43 1 12 [sample_question] 27.
Proof.
  eapply (queries_name _ _ 0 12 [cstr "foo."; cstr "local."] 22 2 [0; 1] []); [lia|apply sample_foo_local|done|by vm_compute|done|].
  apply (queries_none _ _ 27).
Qed.

Lemma sample_answers : answers_at sample_datagram 43 1 27 [sample_record] 43.
Proof.
  eapply (answers_name _ _ 0 27 [cstr "foo."; cstr "local."] 28 3 [0; 1; 0; 1; 0; 0; 0; 120; 0; 4] [10; 0; 1; 7] []); [lia| |done|by vm_compute|done|done|].
  - eapply name_pointer with (n := 0xC0) (m := 12); [vm_compute; done|done..|]. apply sample_foo_local.
  - apply (answers_none _ _ 43).
Qed.

Lemma reflector_learns_and_forwards_witness : exists h,
  eloop_reflector_handler 0 (SQ := list_dl_list _) (Some 43)
    (Some (sample_datagram, 43, SockInet [10; 0; 2; 9] 5353)) sample_rif sample_mdns =
    Done (tt, with_sent [] [Mcast4 11 sample_datagram; Mcast4 13 sample_datagram] (with_imap h (Env [] []) sample_mdns)) /\
  records h !! [10; 0; 1; 7] = Some [answer_info sample_record] /\ records h !! [10; 0; 2; 9] = Some [query_info sample_question].
Proof.
  destruct (reflector_learns_and_forwards (SQ := list_dl_list _) 0 sample_mdns sample_datagram [10; 0; 2; 9] 5353 sample_rif
    [sample_question] [sample_record] 27 43 43 []) as (h & E & Hr).
  - repeat constructor; by vm_compute.
  - done.
  - repeat constructor; by vm_compute.
  - split; [apply hash_empty_wf|]. by intros ? ?.
  - done.
  - done.
  - by vm_compute.
  - exact sample_queries.
  - exact sample_answers.
  - exists h. split; [exact E|]. rewrite Hr. split; by vm_compute.
Defined.

(** What the service knows after the sample. *)
Definition sample_informed : sample_state :=
  with_imap [([10; 0; 1; 7], [(1%nat, answer_info sample_record)])] (Env [] []) sample_mdns.

Definition sample_tuple : ip4_schema :=
  {| ip4_id := []; ip_src := inet_ntop [10; 0; 2; 9]; ip_dst := inet_ntop [10; 0; 1; 7]; ip_hl := 5; ip_v := 4; ip_tos := 0;
     ip_len := 20; ip_id := 0; ip_off := 0; ip_ttl := 64; ip_p := 6; ip_sum := 0 |}.

Lemma send_bridge_command_correct_witness : exists h,
  send_bridge_command 0 (SQ := list_dl_list _) (PACKET_IP4 sample_tuple) sample_informed =
    Done (0, with_sent [] [Command (cstr "/tmp/edgesec") (cstr "ADD_BRIDGE 10.0.2.9 10.0.1.7")]
               (with_commands h (Env [] []) sample_informed)).
Proof.
  destruct (send_bridge_command_correct (SQ := list_dl_list _) 0 sample_tuple [10; 0; 2; 9] [10; 0; 1; 7] sample_informed []
    eq_refl eq_refl eq_refl ltac:(repeat constructor; by vm_compute) eq_refl ltac:(repeat constructor; by vm_compute)
    hash_empty_wf eq_refl eq_refl) as (h & E & _).
  exists h. exact E.
Defined.

Lemma sample_mdns_inv : mdns_inv 0 sample_mdns.
Proof. split; [split; [apply hash_empty_wf|by intros ? ?]|apply hash_empty_wf|constructor|constructor]. Qed.

Lemma mdns_commands_once_witness : exists s', rtc (mdns_step (SQ := list_dl_list _) 0) sample_mdns s' /\ NoDup (commands s').
Proof.
  assert (rtc (mdns_step (SQ := list_dl_list _) 0) sample_mdns
    (after (eloop_reflector_handler 0 (SQ := list_dl_list _) (Some 43)
      (Some (sample_datagram, 43, SockInet [10; 0; 2; 9] 5353)) sample_rif) sample_mdns)) as Hr.
  { apply rtc_once. eapply step_datagram; [by left|]. apply after_run. vm_compute. reflexivity. }
  eexists. split; [exact Hr|]. apply (mdns_commands_once 0 _ _ sample_mdns_inv Hr).
Defined.

Definition sample_unreachable : sample_state :=
  {| m_ctx := m_ctx sample_informed; m_env := Env [] []; m_sends := [SEND_ERROR]; m_calls := []; m_out := [] |}.

Lemma failed_command_lost_witness : exists s',
  send_command (cstr "ADD_BRIDGE 10.0.2.9 10.0.1.7") sample_unreachable = Done (-1, s') /\ m_out s' = [] /\
  send_command (cstr "ADD_BRIDGE 10.0.2.9 10.0.1.7") s' = Done (0, s').
Proof.
  apply (failed_command_lost (cstr "ADD_BRIDGE 10.0.2.9 10.0.1.7") sample_unreachable [] [] hash_empty_wf eq_refl);
    [apply (bool_decide_unpack _); by vm_compute|reflexivity].
Defined.
