(* ===== verification/Wpabuf.v ===== *)
(** The growable byte buffers of [src/radius/wpabuf.c] and [wpabuf.h], with the
    byte-order helpers of [src/radius/common.h].

    A buffer is the record of the C structure; its data area is the list of the
    bytes that were allocated for it, so that [wb_size] and the length of
    [wb_buf] are two different things, which the invariant [wpabuf_wf] relates.
    The specification of a buffer is the list [content] of the bytes in use and
    its capacity; the lemmas below show what each operation does to them.
    Built without [WPA_TRACE]; [size_t] has 64 bits. *)
From stdpp Require Import base list strings numbers.
From Stdlib Require Import ZArith Lia.
From S2P Require Import Prelude Os.

(** ** Byte order ([common.h]) *)

Definition WPA_PUT_LE16 (val : Z) : list Z := [Z.land val 255; u8 (Z.shiftr val 8)].
Definition WPA_PUT_LE32 (val : Z) : list Z :=
  [Z.land val 255; Z.land (Z.shiftr val 8) 255; Z.land (Z.shiftr val 16) 255;
   Z.land (Z.shiftr val 24) 255].
Definition WPA_PUT_LE64 (val : Z) : list Z :=
  [Z.land val 255; u8 (Z.shiftr val 8); u8 (Z.shiftr val 16); u8 (Z.shiftr val 24);
   u8 (Z.shiftr val 32); u8 (Z.shiftr val 40); u8 (Z.shiftr val 48); u8 (Z.shiftr val 56)].
Definition WPA_PUT_BE16 (val : Z) : list Z := [u8 (Z.shiftr val 8); Z.land val 255].
Definition WPA_PUT_BE24 (val : Z) : list Z :=
  [Z.land (Z.shiftr val 16) 255; Z.land (Z.shiftr val 8) 255; Z.land val 255].
Definition WPA_PUT_BE32 (val : Z) : list Z :=
  [Z.land (Z.shiftr val 24) 255; Z.land (Z.shiftr val 16) 255;
   Z.land (Z.shiftr val 8) 255; Z.land val 255].
Definition WPA_PUT_BE64 (val : Z) : list Z :=
  [u8 (Z.shiftr val 56); u8 (Z.shiftr val 48); u8 (Z.shiftr val 40); u8 (Z.shiftr val 32);
   u8 (Z.shiftr val 24); u8 (Z.shiftr val 16); u8 (Z.shiftr val 8); Z.land val 255].

Definition WPA_GET_BE32 (a : list Z) : Z :=
  match a with
  | a0 :: a1 :: a2 :: a3 :: _ =>
      Z.lor (Z.lor (Z.lor (Z.shiftl a0 24) (Z.shiftl a1 16)) (Z.shiftl a2 8)) a3
  | _ => 0
  end.
Definition WPA_GET_BE24 (a : list Z) : Z :=
  match a with
  | a0 :: a1 :: a2 :: _ => Z.lor (Z.lor (Z.shiftl a0 16) (Z.shiftl a1 8)) a2
  | _ => 0
  end.

(** ** The buffer *)

Record wpabuf := {
  wb_size : Z;
  wb_used : Z;
  wb_buf : list Z;
  wb_ext : bool     (** [WPABUF_FLAG_EXT_DATA] *)
}.

Definition sizeof_wpabuf : Z := 32.

Definition wpabuf_size (buf : wpabuf) : Z := wb_size buf.
Definition wpabuf_len (buf : wpabuf) : Z := wb_used buf.
Definition wpabuf_tailroom (buf : wpabuf) : Z := u64 (wb_size buf - wb_used buf).

(** The bytes an [os_zalloc] of a header and [len] bytes leaves for the data:
    the sum of the request is taken modulo the width of [size_t]. *)
Definition wpabuf_alloc (len : Z) : prog env (option wpabuf) :=
  ok ← malloc;
  if negb ok then mret None
  else mret (Some {| wb_size := len; wb_used := 0;
                     wb_buf := replicate (Z.to_nat (u64 (sizeof_wpabuf + len) - sizeof_wpabuf)) 0;
                     wb_ext := false |}).

Definition wpabuf_alloc_ext_data (data : list Z) (len : Z) : prog env (option wpabuf) :=
  ok ← malloc;
  if negb ok then mret None
  else mret (Some {| wb_size := len; wb_used := len; wb_buf := data; wb_ext := true |}).

Definition wpabuf_set (data : list Z) (len : Z) : wpabuf :=
  {| wb_size := len; wb_used := len; wb_buf := data; wb_ext := true |}.

(** [realloc] keeps the bytes of the old object up to the smaller of the two
    sizes; the rest is indeterminate until the [memset]. *)
Definition wpabuf_resize (_buf : option wpabuf) (add_len : Z) :
    prog env (Z * option wpabuf) :=
  match _buf with
  | None =>
      b ← wpabuf_alloc add_len;
      mret (match b with None => -1 | Some _ => 0 end, b)
  | Some buf =>
      let need := u64 (wb_used buf + add_len) in
      if wb_size buf <? need then
        let room := if wb_ext buf then need
                    else u64 (sizeof_wpabuf + wb_used buf + add_len) - sizeof_wpabuf in
        ok ← malloc;
        if negb ok then mret (-1, Some buf)
        else
          let nbuf := take (Z.to_nat room) (wb_buf buf) ++
                      replicate (Z.to_nat (room - zlen (wb_buf buf))) 0 in
          nbuf ← lift_outcome (wr nbuf (wb_used buf) (replicate (Z.to_nat add_len) 0));
          mret (0, Some {| wb_size := need; wb_used := wb_used buf; wb_buf := nbuf;
                           wb_ext := wb_ext buf |})
      else mret (0, Some buf)
  end.

(** The offset of the reserved bytes and the buffer after it. *)
Definition wpabuf_put (buf : wpabuf) (len : Z) : outcome (Z * wpabuf) :=
  let tmp := wpabuf_len buf in
  let used := u64 (wb_used buf + len) in
  if wb_size buf <? used then Fault WpabufOverflow
  else Done (tmp, {| wb_size := wb_size buf; wb_used := used; wb_buf := wb_buf buf;
                     wb_ext := wb_ext buf |}).

(** Writing through a pointer into the data area. *)
Definition wpabuf_write (buf : wpabuf) (off : Z) (data : list Z) : outcome wpabuf :=
  match wr (wb_buf buf) off data with
  | Done b => Done {| wb_size := wb_size buf; wb_used := wb_used buf; wb_buf := b;
                      wb_ext := wb_ext buf |}
  | Fault f => Fault f
  end.

(** [wpabuf_put] of the length of [data], then the stores. *)
Definition wpabuf_put_bytes (buf : wpabuf) (data : list Z) : outcome wpabuf :=
  match wpabuf_put buf (zlen data) with
  | Done (pos, buf') => wpabuf_write buf' pos data
  | Fault f => Fault f
  end.

Definition wpabuf_put_u8 (buf : wpabuf) (data : Z) : outcome wpabuf :=
  wpabuf_put_bytes buf [data].
Definition wpabuf_put_le16 (buf : wpabuf) (data : Z) := wpabuf_put_bytes buf (WPA_PUT_LE16 data).
Definition wpabuf_put_le32 (buf : wpabuf) (data : Z) := wpabuf_put_bytes buf (WPA_PUT_LE32 data).
Definition wpabuf_put_le64 (buf : wpabuf) (data : Z) := wpabuf_put_bytes buf (WPA_PUT_LE64 data).
Definition wpabuf_put_be16 (buf : wpabuf) (data : Z) := wpabuf_put_bytes buf (WPA_PUT_BE16 data).
Definition wpabuf_put_be24 (buf : wpabuf) (data : Z) := wpabuf_put_bytes buf (WPA_PUT_BE24 data).
Definition wpabuf_put_be32 (buf : wpabuf) (data : Z) := wpabuf_put_bytes buf (WPA_PUT_BE32 data).
Definition wpabuf_put_be64 (buf : wpabuf) (data : Z) := wpabuf_put_bytes buf (WPA_PUT_BE64 data).

(** [data] is the source object, or a null pointer. *)
Definition wpabuf_put_data (buf : wpabuf) (data : option (list Z)) (len : Z) : outcome wpabuf :=
  match data with
  | None => Done buf
  | Some src =>
      match wpabuf_put buf len with
      | Done (pos, buf') =>
          match rd src 0 len with
          | Done l => wpabuf_write buf' pos l
          | Fault f => Fault f
          end
      | Fault f => Fault f
      end
  end.

Definition wpabuf_put_buf (dst src : wpabuf) : outcome wpabuf :=
  wpabuf_put_data dst (Some (wb_buf src)) (wpabuf_len src).

Definition wpabuf_put_str (dst : wpabuf) (str : list Z) : outcome wpabuf :=
  wpabuf_put_data dst (Some str) (zlen str).

Definition wpabuf_alloc_copy (data : option (list Z)) (len : Z) : prog env (option wpabuf) :=
  buf ← wpabuf_alloc len;
  match buf with
  | None => mret None
  | Some b => b' ← lift_outcome (wpabuf_put_data b data len); mret (Some b')
  end.

Definition wpabuf_dup (src : wpabuf) : prog env (option wpabuf) :=
  buf ← wpabuf_alloc (wpabuf_len src);
  match buf with
  | None => mret None
  | Some b =>
      b' ← lift_outcome (wpabuf_put_data b (Some (wb_buf src)) (wpabuf_len src));
      mret (Some b')
  end.

(** The bytes of the object when it is released. *)
Definition wpabuf_clear_free (buf : option wpabuf) : outcome (option (list Z)) :=
  match buf with
  | None => Done None
  | Some b =>
      match wr (wb_buf b) 0 (replicate (Z.to_nat (wpabuf_len b)) 0) with
      | Done l => Done (Some l)
      | Fault f => Fault f
      end
  end.

(** Both arguments are released; the result is a new buffer or [a] itself. *)
Definition wpabuf_concat (a b : option wpabuf) : prog env (option wpabuf) :=
  match b with
  | None => mret a
  | Some b =>
      let len := u64 (match a with Some a => wpabuf_len a | None => 0 end + wpabuf_len b) in
      n ← wpabuf_alloc len;
      match n with
      | None => mret None
      | Some n =>
          n1 ← lift_outcome (match a with Some a => wpabuf_put_buf n a | None => Done n end);
          n2 ← lift_outcome (wpabuf_put_buf n1 b);
          mret (Some n2)
      end
  end.

Definition wpabuf_zeropad (buf : option wpabuf) (len : Z) : prog env (option wpabuf) :=
  match buf with
  | None => mret None
  | Some buf =>
      let blen := wpabuf_len buf in
      if len <=? blen then mret (Some buf)
      else
        ret ← wpabuf_alloc len;
        match ret with
        | None => mret None
        | Some ret =>
            r1 ← lift_outcome (wpabuf_put_bytes ret (replicate (Z.to_nat (len - blen)) 0));
            r2 ← lift_outcome (wpabuf_put_buf r1 buf);
            mret (Some r2)
        end
  end.

(** [text] is what the format expands to; [vsnprintf] stores at most
    [size - used] bytes of it, the last one a NUL. *)
Definition wpabuf_printf (buf : wpabuf) (text : list Z) : outcome wpabuf :=
  let room := u64 (wb_size buf - wb_used buf) in
  let res := zlen text in
  let stored := if room <=? 0 then [] else take (Z.to_nat (room - 1)) text ++ [0] in
  match wpabuf_write buf (wb_used buf) stored with
  | Fault f => Fault f
  | Done buf' =>
      if room <=? res then Fault WpabufOverflow
      else Done {| wb_size := wb_size buf'; wb_used := u64 (wb_used buf' + res);
                   wb_buf := wb_buf buf'; wb_ext := wb_ext buf' |}
  end.

Definition wpabuf_parse_bin (buf : list Z) : prog env (option wpabuf) :=
  let len := zlen buf in
  if negb (Z.land len 1 =? 0) then mret None
  else
    let len := len / 2 in
    ret ← wpabuf_alloc len;
    match ret with
    | None => mret None
    | Some ret =>
        pr ← lift_outcome (wpabuf_put ret len);
        hr ← lift_outcome (edge_hexstr2bin buf (drop (Z.to_nat pr.1) (wb_buf pr.2)) len);
        if negb (hr.1 =? 0) then mret None
        else
          b ← lift_outcome (wpabuf_write pr.2 pr.1 hr.2);
          mret (Some b)
    end.

(** [memcmp] of the [wb_size] bytes of the two areas: zero or not. *)
Definition wpabuf_cmp (a b : option wpabuf) : outcome bool :=
  match a, b with
  | None, None => Done true
  | Some a, Some b =>
      if wpabuf_size a =? wpabuf_size b then
        match rd (wb_buf a) 0 (wpabuf_size a), rd (wb_buf b) 0 (wpabuf_size a) with
        | Done x, Done y => Done (bool_decide (x = y))
        | Fault f, _ => Fault f
        | _, Fault f => Fault f
        end
      else Done false
  | _, _ => Done false
  end.

(** ** Invariant and abstraction *)

(** No object is larger than [PTRDIFF_MAX]. *)
Definition PTRDIFF_MAX : Z := 2 ^ 63 - 1.

Record wpabuf_wf (b : wpabuf) : Prop := {
  wf_used : 0 <= wb_used b <= wb_size b;
  wf_area : zlen (wb_buf b) = wb_size b;
  wf_max : wb_size b <= PTRDIFF_MAX - sizeof_wpabuf;
  wf_bytes : bytes (wb_buf b)
}.

(** The bytes in use. *)
Definition content (b : wpabuf) : list Z := take (Z.to_nat (wb_used b)) (wb_buf b).

Lemma u64_small z : 0 <= z <= 2 * PTRDIFF_MAX -> u64 z = z.
Proof. unfold PTRDIFF_MAX. intros. apply wrap_small. lia. Qed.

Lemma zlen_content b : wpabuf_wf b -> zlen (content b) = wb_used b.
Proof. intros [Hu Ha _ _]. unfold content. zlen_lia. Qed.

Lemma bytes_content b : wpabuf_wf b -> bytes (content b).
Proof. intros Hwf. by apply Forall_take, wf_bytes. Qed.

(** The area is the content followed by free space. *)
Lemma wb_buf_split b : wpabuf_wf b ->
  exists free, wb_buf b = content b ++ free /\ zlen free = wb_size b - wb_used b /\ bytes free.
Proof.
  intros [Hu Ha _ Hb]. exists (drop (Z.to_nat (wb_used b)) (wb_buf b)).
  unfold content. rewrite take_drop. split; [done|]. split; [zlen_lia|].
  by apply Forall_drop.
Qed.

Lemma content_app l free size ext :
  content {| wb_size := size; wb_used := zlen l; wb_buf := l ++ free; wb_ext := ext |} = l.
Proof. unfold content. simpl. rewrite to_nat_zlen. apply take_app_length. Qed.

Lemma wf_app l free size ext :
  zlen l + zlen free = size -> size <= PTRDIFF_MAX - sizeof_wpabuf ->
  bytes l -> bytes free ->
  wpabuf_wf {| wb_size := size; wb_used := zlen l; wb_buf := l ++ free; wb_ext := ext |}.
Proof.
  intros. pose proof (zlen_nonneg l). pose proof (zlen_nonneg free).
  constructor; simpl; rewrite ?zlen_app; try lia. by apply Forall_app.
Qed.

(** ** Appending *)

Lemma put_bytes_spec b data : wpabuf_wf b -> zlen data <= PTRDIFF_MAX -> bytes data ->
  (wb_size b < wb_used b + zlen data /\ wpabuf_put_bytes b data = Fault WpabufOverflow) \/
  (wb_used b + zlen data <= wb_size b /\
   exists b', wpabuf_put_bytes b data = Done b' /\ wpabuf_wf b' /\
     content b' = content b ++ data /\ wb_size b' = wb_size b /\
     wb_used b' = wb_used b + zlen data /\ wb_ext b' = wb_ext b).
Proof.
  intros Hwf Hd Hb. pose proof (wf_used b Hwf). pose proof (wf_max b Hwf).
  pose proof (zlen_nonneg data). unfold wpabuf_put_bytes, wpabuf_put, sizeof_wpabuf in *.
  rewrite u64_small by (unfold PTRDIFF_MAX in *; lia).
  destruct (Z.ltb_spec (wb_size b) (wb_used b + zlen data)); [by left|right].
  split; [done|]. destruct (wb_buf_split b Hwf) as (free & Hs & Hf & Hbf).
  unfold wpabuf_write, wpabuf_len. simpl. rewrite Hs.
  rewrite <- (take_drop (length data) free), wr_app; cycle 1.
  { by rewrite zlen_content. }
  { zlen_lia. }
  eexists. split; [done|].
  replace (wb_used b + zlen data) with (zlen (content b ++ data))
    by (rewrite zlen_app, zlen_content; [lia|done]).
  rewrite app_assoc, content_app. split; [|done].
  apply wf_app.
  - rewrite zlen_app, zlen_content by done. zlen_lia.
  - unfold sizeof_wpabuf. lia.
  - apply Forall_app. split; [by apply bytes_content|done].
  - by apply Forall_drop.
Qed.

Lemma put_bytes_fits b data : wpabuf_wf b -> bytes data ->
  wb_used b + zlen data <= wb_size b ->
  exists b', wpabuf_put_bytes b data = Done b' /\ wpabuf_wf b' /\
    content b' = content b ++ data /\ wb_size b' = wb_size b /\
    wb_used b' = wb_used b + zlen data /\ wb_ext b' = wb_ext b.
Proof.
  intros Hwf Hb Hfit. pose proof (wf_used b Hwf). pose proof (wf_max b Hwf).
  destruct (put_bytes_spec b data) as [[? _]|[_ H']]; try done; try lia.
  unfold sizeof_wpabuf in *. lia.
Qed.

(** Copying from an object is appending the bytes read. *)
Lemma put_data_bytes b src len l : rd src 0 len = Done l ->
  wpabuf_put_data b (Some src) len = wpabuf_put_bytes b l.
Proof.
  intros Hr. unfold wpabuf_put_data, wpabuf_put_bytes. rewrite Hr.
  apply rd_done in Hr as (_ & ? & ? & ->).
  replace (zlen (take (Z.to_nat len) (drop (Z.to_nat 0) src))) with len; [done|].
  zlen_lia.
Qed.

Lemma put_buf_bytes dst src : wpabuf_wf src ->
  wpabuf_put_buf dst src = wpabuf_put_bytes dst (content src).
Proof.
  intros Hwf. apply put_data_bytes, rd_done. unfold wpabuf_len.
  pose proof (wf_used src Hwf). pose proof (wf_area src Hwf).
  repeat split; try lia.
Qed.

(** A sequence of appends, as the message builders perform them. *)
Fixpoint put_all (b : wpabuf) (datas : list (list Z)) : outcome wpabuf :=
  match datas with
  | [] => Done b
  | d :: rest =>
      match wpabuf_put_bytes b d with
      | Done b' => put_all b' rest
      | Fault f => Fault f
      end
  end.

(**  A buffer implements a byte sequence of bounded capacity: any sequence
    of appends on a well-formed buffer either fits, and then the content grows
    by exactly the appended bytes and the buffer stays well formed with the
    same capacity, or it aborts in [wpabuf_overflow], before any store outside
    the area. *)
Theorem wpabuf_append_refines b datas :
  wpabuf_wf b -> Forall (fun d => bytes d /\ zlen d <= PTRDIFF_MAX) datas ->
  if decide (wb_used b + zlen (concat datas) <= wb_size b) then
    exists b', put_all b datas = Done b' /\ wpabuf_wf b' /\
      content b' = content b ++ concat datas /\ wb_size b' = wb_size b
  else put_all b datas = Fault WpabufOverflow.
Proof.
  intros Hwf Hd. revert b Hwf. induction Hd as [|d rest [Hb Hl] _ IH]; intros b Hwf.
  - simpl. pose proof (wf_used b Hwf). rewrite decide_True by (change (zlen (@nil Z)) with 0; lia).
    exists b. by rewrite app_nil_r.
  - simpl. rewrite zlen_app. pose proof (zlen_nonneg (concat rest)).
    destruct (put_bytes_spec b d Hwf Hl Hb) as [[? ->]|(? & b1 & -> & Hw & Hc & Hs & Hu & _)].
    { by rewrite decide_False by lia. }
    specialize (IH b1 Hw). rewrite Hs, Hu, Hc in IH.
    replace (wb_used b + zlen d + zlen (concat rest)) with
      (wb_used b + (zlen d + zlen (concat rest))) in IH by lia.
    case_decide; [|done]. by rewrite <- app_assoc in IH.
Qed.

Lemma wpabuf_append_refines_witness :
  let b := {| wb_size := 4; wb_used := 1; wb_buf := [7; 0; 0; 0]; wb_ext := false |} in
  if decide (wb_used b + zlen (concat [[1; 2]; [3]]) <= wb_size b) then
    exists b', put_all b [[1; 2]; [3]] = Done b' /\ wpabuf_wf b' /\
      content b' = content b ++ concat [[1; 2]; [3]] /\ wb_size b' = wb_size b
  else put_all b [[1; 2]; [3]] = Fault WpabufOverflow.
Proof.
  apply (wpabuf_append_refines
    {| wb_size := 4; wb_used := 1; wb_buf := [7; 0; 0; 0]; wb_ext := false |} [[1; 2]; [3]]).
  - constructor; simpl; try done. by repeat constructor.
  - repeat constructor; done.
Defined.

(** ** Allocation *)

(** A new buffer is empty, of the capacity asked for, or null. *)
Definition fresh_buf (len : Z) (b : wpabuf) : Prop :=
  wpabuf_wf b /\ content b = [] /\ wb_size b = len /\ wb_used b = 0 /\
  wb_buf b = replicate (Z.to_nat len) 0.

Lemma wpabuf_alloc_spec len e : 0 <= len <= PTRDIFF_MAX - sizeof_wpabuf ->
  exists ob e', wpabuf_alloc len e = Done (ob, e') /\ env_ok e e' (ob <> None) /\
    forall b, ob = Some b -> fresh_buf len b.
Proof.
  intros Hlen. destruct (malloc_done e) as (ok & e' & Hm & Hr & Hok).
  unfold wpabuf_alloc. erewrite bind_run by done. destruct ok; cbn [negb]; cycle 1.
  { eexists _, _. split; [done|]. split; [|done]. split; [done|]. by intros [??]%Hok. }
  eexists _, _. split; [done|]. split.
  { split; [done|]. intros H. by destruct (Hok H) as [_ ->]. }
  intros b [= <-]. rewrite u64_small by (unfold sizeof_wpabuf in *; lia).
  split; cycle 1.
  { split; [done|]. split; [done|]. split; [done|]. simpl. f_equal. lia. }
  constructor; simpl; try lia; unfold sizeof_wpabuf in *.
  - zlen_lia.
  - apply Forall_replicate. unfold is_byte. lia.
Qed.

Lemma wpabuf_resize_spec b add_len e :
  wpabuf_wf b -> 0 <= add_len -> wb_used b + add_len <= PTRDIFF_MAX - sizeof_wpabuf ->
  exists r b' e', wpabuf_resize (Some b) add_len e = Done ((r, Some b'), e') /\
    env_ok e e' (r = 0) /\
    (r = -1 /\ b' = b \/
     r = 0 /\ wpabuf_wf b' /\ content b' = content b /\ wb_size b <= wb_size b' /\
     wb_used b' = wb_used b /\ wb_used b' + add_len <= wb_size b').
Proof.
  intros Hwf Hadd Hmax. pose proof (wf_used b Hwf). pose proof (wf_max b Hwf).
  unfold sizeof_wpabuf in *.
  destruct (malloc_done e) as (ok & e1 & Hm & Hrd & Hok).
  unfold wpabuf_resize. rewrite u64_small by lia.
  destruct (Z.ltb_spec (wb_size b) (wb_used b + add_len)) as [Hlt|Hge]; cycle 1.
  { exists 0, b, e. split; [done|]. split; [by apply env_ok_refl|].
    right. split; [done|]. split; [done|]. split; [done|]. lia. }
  set (room := if wb_ext b then _ else _).
  assert (room = wb_used b + add_len) as ->.
  { subst room. unfold sizeof_wpabuf. destruct (wb_ext b); [done|]. rewrite u64_small; lia. }
  erewrite bind_run by done. destruct ok; cbn [negb]; cycle 1.
  { exists (-1), b, e1. split; [done|]. split; [|by left].
    split; [done|]. intros He. by destruct (Hok He). }
  destruct (wb_buf_split b Hwf) as (free & Hs & Hf & Hbf).
  pose proof (zlen_content b Hwf). rewrite Hs, zlen_app.
  replace (take (Z.to_nat (wb_used b + add_len)) (content b ++ free)) with (content b ++ free)
    by (symmetry; apply take_ge; zlen_lia).
  rewrite <- app_assoc, <- (app_nil_r (free ++ _)), wr_app; [|lia|zlen_lia].
  erewrite bind_run by done. rewrite app_nil_r.
  eexists _, _, e1. split; [done|]. split.
  { split; [done|]. intros He. by destruct (Hok He). }
  right. simpl. replace (wb_used b) with (zlen (content b)) by lia. rewrite content_app.
  split; [done|]. split; [|split; [done|lia]]. apply wf_app.
  - rewrite zlen_replicate. lia.
  - unfold sizeof_wpabuf. lia.
  - by apply bytes_content.
  - apply Forall_replicate. unfold is_byte. lia.
Qed.

(**  [wpabuf_resize] never faults on a well-formed buffer.  When it returns
    0 the content is unchanged and [add_len] more bytes can be appended without
    aborting; when it returns -1 the buffer is untouched. *)
Theorem wpabuf_resize_correct b add_len e :
  wpabuf_wf b -> 0 <= add_len -> wb_used b + add_len <= PTRDIFF_MAX - sizeof_wpabuf ->
  exists b' e',
    (wpabuf_resize (Some b) add_len e = Done ((-1, Some b), e') \/
     wpabuf_resize (Some b) add_len e = Done ((0, Some b'), e') /\
     wpabuf_wf b' /\ content b' = content b /\ wb_size b <= wb_size b' /\
     add_len <= wpabuf_tailroom b').
Proof.
  intros Hwf Hadd Hmax.
  destruct (wpabuf_resize_spec b add_len e) as (r & b' & e' & Hr & _ & Hc); [done..|].
  exists b', e'. destruct Hc as [[-> ->]|(-> & Hw & Hc & Hs & Hu & Ht)]; [by left|right].
  split; [done|]. split; [done|]. split; [done|]. split; [done|].
  pose proof (wf_used b' Hw). pose proof (wf_max b' Hw). unfold wpabuf_tailroom.
  rewrite u64_small by (unfold sizeof_wpabuf in *; lia). lia.
Qed.

Definition wpabuf_example : wpabuf :=
  {| wb_size := 2; wb_used := 2; wb_buf := [7; 9]; wb_ext := false |}.
Lemma wpabuf_example_wf : wpabuf_wf wpabuf_example.
Proof. constructor; simpl; try done. by repeat constructor. Qed.

Lemma wpabuf_resize_correct_witness :
  exists b' e',
    (wpabuf_resize (Some wpabuf_example) 3 (Env [] []) = Done ((-1, Some wpabuf_example), e') \/
     wpabuf_resize (Some wpabuf_example) 3 (Env [] []) = Done ((0, Some b'), e') /\
     wpabuf_wf b' /\ content b' = content wpabuf_example /\
     wb_size wpabuf_example <= wb_size b' /\ 3 <= wpabuf_tailroom b').
Proof.
  apply (wpabuf_resize_correct wpabuf_example 3 (Env [] [])).
  - exact wpabuf_example_wf.
  - lia.
  - vm_compute. congruence.
Defined.

(** Building a new buffer from byte strings that fill it. *)
Lemma alloc_put_all len datas e :
  Forall bytes datas -> zlen (concat datas) = len -> len <= PTRDIFF_MAX - sizeof_wpabuf ->
  exists ob e', wpabuf_alloc len e = Done (ob, e') /\
    (mallocs e = [] -> ob <> None) /\
    forall b, ob = Some b ->
      exists b', put_all b datas = Done b' /\ wpabuf_wf b' /\ content b' = concat datas /\
        wb_size b' = len.
Proof.
  intros Hb Hl Hmax. pose proof (zlen_nonneg (concat datas)).
  destruct (wpabuf_alloc_spec len e) as (ob & e' & Ha & [_ Hok] & Hf); [lia|].
  exists ob, e'. split; [done|]. split; [by intros ?; apply Hok|]. intros b ->.
  destruct (Hf b eq_refl) as (Hwf & Hc & Hsz & Hu & _). clear - Hb Hl Hmax Hwf Hc Hsz Hu.
  assert (forall c, wpabuf_wf c -> wb_size c = len ->
    wb_used c + zlen (concat datas) <= len ->
    exists b', put_all c datas = Done b' /\ wpabuf_wf b' /\
      content b' = content c ++ concat datas /\ wb_size b' = len) as Hgen.
  { clear Hwf Hc Hsz Hu Hl b. induction Hb as [|d rest Hd _ IH]; intros c Hwf Hs Hle.
    - exists c. by rewrite app_nil_r.
    - simpl in *. rewrite zlen_app in Hle. pose proof (zlen_nonneg (concat rest)).
      destruct (put_bytes_fits c d Hwf Hd) as (c1 & -> & Hw & Hc1 & Hs1 & Hu1 & _); [lia|].
      destruct (IH c1) as (b' & Hp & Hw' & Hc' & Hs'); [done|lia|lia|].
      exists b'. by rewrite Hp, Hc', Hc1, <- app_assoc. }
  destruct (Hgen b) as (b' & Hp & Hw & Hc' & Hs'); [done..|lia|].
  exists b'. by rewrite Hp, Hc', Hc.
Qed.

(** A copy holds the first [len] bytes of the source. *)
Lemma wpabuf_alloc_copy_spec data len e :
  bytes data -> 0 <= len <= zlen data -> len <= PTRDIFF_MAX - sizeof_wpabuf ->
  exists ob e', wpabuf_alloc_copy (Some data) len e = Done (ob, e') /\
    env_ok e e' (ob <> None) /\
    forall b, ob = Some b -> wpabuf_wf b /\ content b = take (Z.to_nat len) data /\
      wb_used b = len /\ wb_size b = len.
Proof.
  intros Hb Hlen Hmax.
  destruct (wpabuf_alloc_spec len e) as (ob & e' & Ha & Henv & Hf); [lia|].
  unfold wpabuf_alloc_copy. erewrite bind_run by exact Ha.
  destruct ob as [b|]; [|by eexists _, _].
  destruct (Hf b eq_refl) as (Hwf & Hc & Hs & Hu & _). cbn beta iota.
  rewrite (put_data_bytes b data len (take (Z.to_nat len) data)); cycle 1.
  { apply rd_done. repeat split; lia. }
  destruct (put_bytes_fits b (take (Z.to_nat len) data) Hwf)
    as (b' & Hp & Hw & Hc' & Hs' & Hu' & _); [by apply Forall_take|zlen_lia|].
  rewrite Hp. erewrite bind_run by done. eexists _, _. split; [done|].
  split; [by eapply env_ok_mono|]. intros ? [= <-]. rewrite Hc', Hc, Hs', Hu', Hu.
  split; [done|]. split; [done|]. split; [zlen_lia|done].
Qed.

Section building.
Context (a b : wpabuf) (r : list (list Z)) (Ha : wpabuf_wf a) (Hb : wpabuf_wf b).

Lemma wpabuf_concat_spec : wb_used a + wb_used b <= PTRDIFF_MAX - sizeof_wpabuf ->
  exists n e', wpabuf_concat (Some a) (Some b) (Env [] r) = Done (Some n, e') /\ wpabuf_wf n /\
    content n = content a ++ content b.
Proof.
  intros Hsum. unfold sizeof_wpabuf in *.
  pose proof (zlen_content a Ha). pose proof (zlen_content b Hb).
  pose proof (wf_used a Ha). pose proof (wf_used b Hb).
  destruct (alloc_put_all (u64 (wb_used a + wb_used b)) [content a; content b] (Env [] r))
    as (ob & e' & Hal & Hok & Hput).
  { repeat constructor; by apply bytes_content. }
  { rewrite u64_small by lia. simpl. rewrite app_nil_r, zlen_app. lia. }
  { rewrite u64_small; unfold sizeof_wpabuf; lia. }
  destruct ob as [n|]; [|by destruct (Hok eq_refl)].
  destruct (Hput n eq_refl) as (n2 & Hp & Hw & Hc & _). simpl in Hp, Hc.
  exists n2, e'. unfold wpabuf_concat. erewrite bind_run by exact Hal.
  cbn beta iota. rewrite (put_buf_bytes n a) by done.
  destruct (wpabuf_put_bytes n (content a)) as [n1|] eqn:Hn1; [|done].
  erewrite bind_run by done. rewrite put_buf_bytes by done.
  destruct (wpabuf_put_bytes n1 (content b)) as [n3|] eqn:Hn3; [|done].
  injection Hp as ->. by rewrite app_nil_r in Hc.
Qed.

Lemma wpabuf_dup_spec :
  exists n e', wpabuf_dup a (Env [] r) = Done (Some n, e') /\ wpabuf_wf n /\
    content n = content a.
Proof.
  pose proof (zlen_content a Ha). pose proof (wf_used a Ha). pose proof (wf_max a Ha).
  destruct (alloc_put_all (wb_used a) [content a] (Env [] r)) as (ob & e' & Hal & Hok & Hput).
  { repeat constructor; by apply bytes_content. }
  { simpl. rewrite app_nil_r. lia. }
  { lia. }
  destruct ob as [n|]; [|by destruct (Hok eq_refl)].
  destruct (Hput n eq_refl) as (n2 & Hp & Hw & Hc & _). simpl in Hp, Hc.
  exists n2, e'. unfold wpabuf_dup. erewrite bind_run by exact Hal.
  cbn beta iota. change (wpabuf_put_data n (Some (wb_buf a)) (wpabuf_len a)) with (wpabuf_put_buf n a).
  rewrite put_buf_bytes by done.
  destruct (wpabuf_put_bytes n (content a)) as [n1|] eqn:Hn1; [|done].
  injection Hp as ->. by rewrite app_nil_r in Hc.
Qed.

Lemma wpabuf_zeropad_spec len : 0 <= len <= PTRDIFF_MAX - sizeof_wpabuf ->
  exists n e', wpabuf_zeropad (Some a) len (Env [] r) = Done (Some n, e') /\ wpabuf_wf n /\
    content n = replicate (Z.to_nat (len - wb_used a)) 0 ++ content a.
Proof.
  intros Hlen. pose proof (zlen_content a Ha). pose proof (wf_used a Ha).
  unfold wpabuf_zeropad, wpabuf_len. destruct (Z.leb_spec len (wb_used a)).
  { exists a, (Env [] r). by replace (Z.to_nat (len - wb_used a)) with 0%nat by lia. }
  destruct (alloc_put_all len [replicate (Z.to_nat (len - wb_used a)) 0; content a] (Env [] r))
    as (ob & e' & Hal & Hok & Hput).
  { repeat constructor; [|by apply bytes_content].
    apply Forall_replicate. unfold is_byte. lia. }
  { simpl. rewrite app_nil_r, zlen_app, zlen_replicate. lia. }
  { lia. }
  destruct ob as [n|]; [|by destruct (Hok eq_refl)].
  destruct (Hput n eq_refl) as (n2 & Hp & Hw & Hc & _). simpl in Hp, Hc.
  exists n2, e'. erewrite bind_run by exact Hal. cbn beta iota.
  destruct (wpabuf_put_bytes n (replicate _ 0)) as [n1|] eqn:Hn1; [|done].
  erewrite bind_run by done. rewrite put_buf_bytes by done.
  destruct (wpabuf_put_bytes n1 (content a)) as [n3|] eqn:Hn3; [|done].
  injection Hp as ->. by rewrite app_nil_r in Hc.
Qed.
End building.

(**  Concatenation, copy and zero padding: when memory lasts, the content of
    [wpabuf_concat a b] is the concatenation of the contents, [wpabuf_dup]
    copies the content, and [wpabuf_zeropad] prefixes just enough zeros to
    reach the length asked for. *)
Theorem wpabuf_concat_dup_zeropad a b len r :
  wpabuf_wf a -> wpabuf_wf b -> 0 <= len <= PTRDIFF_MAX - sizeof_wpabuf ->
  wb_used a + wb_used b <= PTRDIFF_MAX - sizeof_wpabuf ->
  (exists n e', wpabuf_concat (Some a) (Some b) (Env [] r) = Done (Some n, e') /\
     wpabuf_wf n /\ content n = content a ++ content b) /\
  (exists n e', wpabuf_dup a (Env [] r) = Done (Some n, e') /\ wpabuf_wf n /\
     content n = content a) /\
  (exists n e', wpabuf_zeropad (Some a) len (Env [] r) = Done (Some n, e') /\ wpabuf_wf n /\
     content n = replicate (Z.to_nat (len - wb_used a)) 0 ++ content a).
Proof.
  intros Ha Hb Hlen Hsum.
  split; [by apply wpabuf_concat_spec|].
  split; [by apply wpabuf_dup_spec|by apply wpabuf_zeropad_spec].
Qed.

Lemma wpabuf_concat_dup_zeropad_witness :
  exists n e', wpabuf_zeropad (Some wpabuf_example) 4 (Env [] []) = Done (Some n, e') /\
    wpabuf_wf n /\ content n = [0; 0] ++ content wpabuf_example.
Proof.
  apply (wpabuf_concat_dup_zeropad wpabuf_example wpabuf_example 4 []);
    [exact wpabuf_example_wf|exact wpabuf_example_wf|vm_compute; split; congruence
    |vm_compute; congruence].
Defined.

(** ** Hexadecimal text *)

Lemma length_hexify l : length (hexify l) = (2 * length l)%nat.
Proof. induction l; simpl; lia. Qed.

(**  [wpabuf_parse_bin] reads back the hexadecimal text of any byte string
    into a well-formed buffer with that content, and rejects text of odd
    length. *)
Theorem wpabuf_parse_bin_correct l r :
  bytes l -> zlen l <= PTRDIFF_MAX - sizeof_wpabuf ->
  (exists b e', wpabuf_parse_bin (hexify l) (Env [] r) = Done (Some b, e') /\
     wpabuf_wf b /\ content b = l) /\
  (forall c, wpabuf_parse_bin (c :: hexify l) (Env [] r) = Done (None, Env [] r)).
Proof.
  intros Hb Hl. unfold wpabuf_parse_bin.
  assert (forall x, Z.land x 1 = x mod 2) as Hland by (intros; apply (land_ones_mod x 1); lia).
  rewrite Hland. replace (zlen (hexify l)) with (2 * zlen l) by (unfold zlen; rewrite length_hexify; lia).
  split; cycle 1.
  { intros c. rewrite zlen_cons, Hland.
    replace (zlen (hexify l)) with (2 * zlen l) by (unfold zlen; rewrite length_hexify; lia).
    rewrite (proj2 (Z.eqb_neq _ 0)); [done|zdiv_lia]. }
  rewrite (proj2 (Z.eqb_eq _ 0)) by zdiv_lia. cbn [negb].
  replace (2 * zlen l / 2) with (zlen l) by zdiv_lia. pose proof (zlen_nonneg l).
  destruct (wpabuf_alloc_spec (zlen l) (Env [] r)) as (ob & e' & Hal & [_ Hok] & Hfr); [lia|].
  erewrite bind_run by exact Hal.
  destruct ob as [n|]; [|by destruct (proj2 (Hok eq_refl))].
  destruct (Hfr n eq_refl) as (Hwf & Hc & Hs & Hu & _). pose proof (wf_area n Hwf).
  destruct (put_bytes_fits n l) as (n1 & Hp & Hw & Hc1 & _); [done..|lia|].
  unfold wpabuf_put_bytes, wpabuf_put, wpabuf_len in *.
  destruct (wb_size n <? _); [done|]. erewrite bind_run by done. cbn [fst snd wb_buf].
  rewrite Hu in *. unfold edge_hexstr2bin. rewrite to_nat_zlen.
  rewrite <- (app_nil_r (hexify l)), hexstr2bin_loop_hexify by done.
  rewrite wr_head by zlen_lia. erewrite bind_run by done. cbn [fst snd negb Z.eqb].
  replace (drop (length l) _) with (@nil Z) by (symmetry; apply drop_ge; zlen_lia).
  rewrite app_nil_r, Hp. erewrite bind_run by done.
  exists n1, e'. by rewrite Hc1, Hc.
Qed.

Lemma wpabuf_parse_bin_correct_witness :
  exists b e', wpabuf_parse_bin (cstr "00ff1a") (Env [] []) = Done (Some b, e') /\
     wpabuf_wf b /\ content b = [0; 255; 26].
Proof.
  apply (wpabuf_parse_bin_correct [0; 255; 26] []).
  - repeat constructor; vm_compute; congruence.
  - vm_compute. congruence.
Defined.

(** ** Comparison *)

(** [wpabuf_cmp] compares the whole data areas, not the bytes in use: two
    buffers with the same content and different capacities differ. *)
Lemma wpabuf_cmp_capacity a b :
  wpabuf_wf a -> wpabuf_wf b -> content a = content b -> wb_size a <> wb_size b ->
  wpabuf_cmp (Some a) (Some b) = Done false.
Proof.
  intros _ _ _ Hs. unfold wpabuf_cmp, wpabuf_size. by rewrite (proj2 (Z.eqb_neq _ _)).
Qed.

(** ** Network byte order *)

(** The big-endian stores are undone by the loads. *)
Lemma wpa_be32_roundtrip v rest : 0 <= v < 2 ^ 32 ->
  WPA_GET_BE32 (WPA_PUT_BE32 v ++ rest) = v.
Proof.
  unfold WPA_GET_BE32, WPA_PUT_BE32. simpl app. cbv iota.
  rewrite !land_ff, !Z.shiftr_div_pow2, !Z.shiftl_mul_pow2 by lia.
  change (2 ^ 8) with 256. change (2 ^ 16) with 65536. change (2 ^ 24) with 16777216.
  change (2 ^ 32) with 4294967296. intros Hv.
  rewrite (lor_low 24 (_ * 16777216)), (lor_low 16 (_ * 16777216 + _)), (lor_low 8)
    by (simpl Z.pow; zdiv_lia). zdiv_lia.
Qed.

Lemma wpa_be24_roundtrip v rest : 0 <= v < 2 ^ 24 ->
  WPA_GET_BE24 (WPA_PUT_BE24 v ++ rest) = v.
Proof.
  unfold WPA_GET_BE24, WPA_PUT_BE24. simpl app. cbv iota.
  rewrite !land_ff, !Z.shiftr_div_pow2, !Z.shiftl_mul_pow2 by lia.
  change (2 ^ 8) with 256. change (2 ^ 16) with 65536. change (2 ^ 24) with 16777216.
  intros Hv.
  rewrite (lor_low 16 (_ * 65536)), (lor_low 8) by (simpl Z.pow; zdiv_lia). zdiv_lia.
Qed.
