(* ===== verification/RadiusMsg.v ===== *)
(** RADIUS messages: construction, parsing and attribute access
    ([src/radius/radius.c], [radius.h]).

    A message is its buffer, the offsets of its attributes and the capacity of
    the offset array.  Pointers into the buffer are offsets; every access is
    checked against the allocated area, so a theorem that an operation ends in
    [Done] is a memory-safety theorem.  Each operation returns the message as
    it leaves it, on the error paths too.

    [msg_rep m hdr attrs] relates a message to its abstract value: the twenty
    header bytes and the list of its attributes, each a type and a value.  The
    operations are shown to implement the corresponding list operations.
    [msg_wf] is the weaker invariant that also survives a failed allocation in
    the middle of an update, and is enough for every reader to be safe. *)
From stdpp Require Import base list strings numbers.
From Stdlib Require Import ZArith Lia.
From S2P Require Import Prelude Os Text Wpabuf.

(** ** Constants ([radius.h]) *)

Definition RADIUS_CODE_ACCESS_REQUEST := 1.
Definition RADIUS_CODE_ACCESS_ACCEPT := 2.
Definition RADIUS_CODE_ACCESS_REJECT := 3.
Definition RADIUS_CODE_ACCESS_CHALLENGE := 11.
Definition RADIUS_ATTR_USER_NAME := 1.
Definition RADIUS_ATTR_USER_PASSWORD := 2.
Definition RADIUS_ATTR_STATE := 24.
Definition RADIUS_ATTR_VENDOR_SPECIFIC := 26.
Definition RADIUS_ATTR_PROXY_STATE := 33.
Definition RADIUS_ATTR_EGRESS_VLANID := 56.
Definition RADIUS_ATTR_TUNNEL_TYPE := 64.
Definition RADIUS_ATTR_TUNNEL_MEDIUM_TYPE := 65.
Definition RADIUS_ATTR_TUNNEL_PASSWORD := 69.
Definition RADIUS_ATTR_EAP_MESSAGE := 79.
Definition RADIUS_ATTR_MESSAGE_AUTHENTICATOR := 80.
Definition RADIUS_ATTR_TUNNEL_PRIVATE_GROUP_ID := 81.
Definition RADIUS_TUNNEL_TAGS := 32.
Definition RADIUS_TUNNEL_TYPE_VLAN := 13.
Definition RADIUS_TUNNEL_MEDIUM_TYPE_802 := 6.
Definition RADIUS_DEFAULT_MSG_SIZE := 1024.
Definition RADIUS_DEFAULT_ATTR_COUNT := 16.

(** [sizeof(struct radius_hdr)]: code, identifier, length, authenticator. *)
Definition HDR_LEN := 20.
Definition OFF_LENGTH := 2.
Definition OFF_AUTHENTICATOR := 4.
(** [sizeof(struct radius_attr_hdr)]: type and length. *)
Definition ATTR_HDR_LEN := 2.
Definition RADIUS_MAX_ATTR_LEN := 255 - ATTR_HDR_LEN.

(** ** The message *)

Record radius_msg := {
  msg_buf : wpabuf;
  attr_pos : list Z;     (** the first [attr_used] entries of the array *)
  attr_size : Z          (** entries allocated for the array *)
}.

Definition attr_used (msg : radius_msg) : Z := zlen (attr_pos msg).

Definition with_buf (msg : radius_msg) (b : wpabuf) : radius_msg :=
  {| msg_buf := b; attr_pos := attr_pos msg; attr_size := attr_size msg |}.

Abbreviation M := (prog env).

(** Storing through [msg->hdr], and reading bytes of the buffer. *)
Definition msg_write (msg : radius_msg) (off : Z) (data : list Z) : M radius_msg :=
  b ← lift_outcome (wpabuf_write (msg_buf msg) off data);
  mret (with_buf msg b).
Definition msg_read (msg : radius_msg) (off n : Z) : M (list Z) :=
  lift_outcome (rd (wb_buf (msg_buf msg)) off n).
(** [wpabuf_head] for [wpabuf_len] bytes. *)
Definition msg_content (msg : radius_msg) : M (list Z) :=
  msg_read msg 0 (wpabuf_len (msg_buf msg)).

(** [host_to_be16] of a length, and [be_to_host16] of two bytes. *)
Definition be16 (l : list Z) : Z := match l with [a; b] => a * 256 + b | _ => 0 end.
Definition set_length (msg : radius_msg) : M radius_msg :=
  msg_write msg OFF_LENGTH (WPA_PUT_BE16 (u16 (wpabuf_len (msg_buf msg)))).

Definition radius_msg_set_hdr (msg : radius_msg) (code identifier : Z) : M radius_msg :=
  m1 ← msg_write msg 0 [u8 code];
  msg_write m1 1 [u8 identifier].

(** The attribute array of a message whose buffer is [buf]. *)
Definition radius_msg_initialize (buf : wpabuf) : M (option radius_msg) :=
  ok ← malloc;
  if negb ok then mret None
  else mret (Some {| msg_buf := buf; attr_pos := []; attr_size := RADIUS_DEFAULT_ATTR_COUNT |}).

Definition radius_msg_new (code identifier : Z) : M (option radius_msg) :=
  ok ← malloc;
  if negb ok then mret None
  else
    ob ← wpabuf_alloc RADIUS_DEFAULT_MSG_SIZE;
    match ob with
    | None => mret None
    | Some b =>
        om ← radius_msg_initialize b;
        match om with
        | None => mret None
        | Some msg =>
            pb ← lift_outcome (wpabuf_put (msg_buf msg) HDR_LEN);
            m ← radius_msg_set_hdr (with_buf msg pb.2) code identifier;
            mret (Some m)
        end
    end.

(** The array grows by doubling; the store is into its allocated part. *)
Definition radius_msg_add_attr_to_array (msg : radius_msg) (attr : Z) : M (Z * radius_msg) :=
  om ← (if attr_size msg <=? attr_used msg then
          let nlen := u64 (attr_size msg * 2) in
          ok ← malloc;
          if negb ok then mret None
          else mret (Some {| msg_buf := msg_buf msg; attr_pos := attr_pos msg;
                             attr_size := nlen |})
        else mret (Some msg));
  match om with
  | None => mret (-1, msg)
  | Some m =>
      if attr_used m <? attr_size m then
        mret (0, {| msg_buf := msg_buf m; attr_pos := attr_pos m ++ [attr];
                    attr_size := attr_size m |})
      else fail_with OutOfBounds
  end.

(** The result is the offset of the new attribute, or null. *)
Definition radius_msg_add_attr (msg : radius_msg) (type : Z) (data : option (list Z))
    (data_len : Z) : M (option Z * radius_msg) :=
  if RADIUS_MAX_ATTR_LEN <? data_len then mret (None, msg)
  else
    let buf_needed := ATTR_HDR_LEN + data_len in
    ob ← (if wpabuf_tailroom (msg_buf msg) <? buf_needed then
            r ← wpabuf_resize (Some (msg_buf msg)) buf_needed;
            mret (if r.1 <? 0 then None else r.2)
          else mret (Some (msg_buf msg)));
    match ob with
    | None => mret (None, msg)
    | Some b =>
        pb ← lift_outcome (wpabuf_put b ATTR_HDR_LEN);
        b1 ← lift_outcome (wpabuf_write pb.2 pb.1 [u8 type; u8 (ATTR_HDR_LEN + data_len)]);
        b2 ← lift_outcome (wpabuf_put_data b1 data data_len);
        rm ← radius_msg_add_attr_to_array (with_buf msg b2) pb.1;
        mret (if rm.1 =? 0 then Some pb.1 else None, rm.2)
    end.

(** The loop over the attributes of a received message.  Every round advances
    by at least two bytes, so the number of bytes left is enough fuel; running
    out of it would be a fault. *)
Fixpoint radius_msg_parse_attrs (fuel : nat) (msg : radius_msg) (pos end_ : Z) :
    M (option radius_msg) :=
  if end_ <=? pos then mret (Some msg)
  else
    match fuel with
    | O => fail_with OutOfBounds
    | S fuel =>
        if end_ - pos <? ATTR_HDR_LEN then mret None
        else
          len ← lift_outcome (rd1 (wb_buf (msg_buf msg)) (pos + 1));
          if (end_ - pos <? len) || (len <? ATTR_HDR_LEN) then mret None
          else
            rm ← radius_msg_add_attr_to_array msg pos;
            if rm.1 =? 0 then radius_msg_parse_attrs fuel rm.2 (pos + len) end_
            else mret None
    end.

Definition radius_msg_parse (data : option (list Z)) (len : Z) : M (option radius_msg) :=
  match data with
  | None => mret None
  | Some data =>
      if len <? HDR_LEN then mret None
      else
        lb ← lift_outcome (rd data OFF_LENGTH 2);
        let msg_len := be16 lb in
        if (msg_len <? HDR_LEN) || (len <? msg_len) then mret None
        else
          ok ← malloc;
          if negb ok then mret None
          else
            ob ← wpabuf_alloc_copy (Some data) msg_len;
            match ob with
            | None => mret None
            | Some b =>
                om ← radius_msg_initialize b;
                match om with
                | None => mret None
                | Some msg =>
                    radius_msg_parse_attrs (Z.to_nat (wpabuf_len (msg_buf msg))) msg
                      HDR_LEN (wpabuf_len (msg_buf msg))
                end
            end
  end.

(** ** Loops over the attributes

    [for (i = 0; i < msg->attr_used; i++)] with the attribute header read at
    the top of the body.  The body gets the offset, the type and the length;
    [inl] continues with a new accumulator, [inr] leaves the loop. *)
Fixpoint attr_loop {A R} (buf : wpabuf) (body : Z -> Z -> Z -> A -> M (A + R))
    (positions : list Z) (acc : A) : M (A + R) :=
  match positions with
  | [] => mret (inl acc)
  | pos :: rest =>
      ty ← lift_outcome (rd1 (wb_buf buf) pos);
      len ← lift_outcome (rd1 (wb_buf buf) (pos + 1));
      r ← body pos ty len acc;
      match r with
      | inl acc' => attr_loop buf body rest acc'
      | inr out => mret (inr out)
      end
  end.

Definition for_attrs {A R} (msg : radius_msg) (body : Z -> Z -> Z -> A -> M (A + R))
    (acc : A) : M (A + R) :=
  attr_loop (msg_buf msg) body (attr_pos msg) acc.

(** The result of a loop that is never left early. *)
Definition from_inl {A} (r : A + False) : A :=
  match r with inl a => a | inr f => match f with end end.

(** The pieces of at most [RADIUS_MAX_ATTR_LEN] bytes; every round consumes a
    byte, so the length of the data is enough fuel. *)
Fixpoint radius_msg_add_eap_loop (fuel : nat) (msg : radius_msg) (data : list Z) :
    M (Z * radius_msg) :=
  if zlen data <=? 0 then mret (1, msg)
  else
    match fuel with
    | O => fail_with OutOfBounds
    | S fuel =>
        let len := if RADIUS_MAX_ATTR_LEN <? zlen data then RADIUS_MAX_ATTR_LEN
                   else zlen data in
        r ← radius_msg_add_attr msg RADIUS_ATTR_EAP_MESSAGE (Some data) len;
        match r.1 with
        | None => mret (0, r.2)
        | Some _ => radius_msg_add_eap_loop fuel r.2 (drop (Z.to_nat len) data)
        end
    end.

Definition radius_msg_add_eap (msg : radius_msg) (data : list Z) : M (Z * radius_msg) :=
  radius_msg_add_eap_loop (length data) msg data.

Definition is_eap (ty len : Z) : bool :=
  (ty =? RADIUS_ATTR_EAP_MESSAGE) && (ATTR_HDR_LEN <? len).

Definition radius_msg_get_eap (msg : option radius_msg) : M (option wpabuf) :=
  match msg with
  | None => mret None
  | Some msg =>
      r1 ← for_attrs (R := False) msg
        (fun _ ty len acc => mret (inl (if is_eap ty len then acc + (len - ATTR_HDR_LEN) else acc)))
        0;
      let len := u64 (from_inl r1) in
      if len =? 0 then mret None
      else
        oe ← wpabuf_alloc len;
        match oe with
        | None => mret None
        | Some eap =>
            r2 ← for_attrs (R := False) msg
              (fun pos ty len acc =>
                 if is_eap ty len then
                   d ← msg_read msg (pos + ATTR_HDR_LEN) (len - ATTR_HDR_LEN);
                   e ← lift_outcome (wpabuf_put_data acc (Some d) (len - ATTR_HDR_LEN));
                   mret (inl e)
                 else mret (inl acc))
              eap;
            mret (Some (from_inl r2))
        end
  end.

Definition radius_msg_copy_attr (dst src : radius_msg) (type : Z) : M (Z * radius_msg) :=
  r ← for_attrs src
    (fun pos ty len (acc : Z * radius_msg) =>
       if (ty =? type) && (ATTR_HDR_LEN <=? len) then
         d ← msg_read src (pos + ATTR_HDR_LEN) (len - ATTR_HDR_LEN);
         a ← radius_msg_add_attr acc.2 type (Some d) (len - ATTR_HDR_LEN);
         match a.1 with
         | None => mret (inr a.2)
         | Some _ => mret (inl (acc.1 + 1, a.2))
         end
       else mret (inl acc))
    (0, dst);
  mret (match r with inl acc => acc | inr m => (-1, m) end).

Definition radius_msg_make_authenticator (msg : radius_msg) : M (Z * radius_msg) :=
  r ← edge_os_get_random 16;
  m ← msg_write msg OFF_AUTHENTICATOR r.2;
  mret (r.1, m).

(** The first attribute of a type, after [start] if it is given: its offset
    and length. *)
Definition find_attr (msg : radius_msg) (type : Z) (start : option Z) : M (option (Z * Z)) :=
  r ← for_attrs msg
    (fun pos ty len (_ : unit) =>
       if (ty =? type) && (match start with None => true | Some s => s <? pos end)
       then mret (inr (pos, len)) else mret (inl tt))
    tt;
  mret (match r with inl _ => None | inr a => Some a end).

(** [buf] is the destination object of [len] bytes or more, or null. *)
Definition radius_msg_get_attr (msg : radius_msg) (type : Z) (buf : option (list Z))
    (len : Z) : M (Z * option (list Z)) :=
  a ← find_attr msg type None;
  match a with
  | None => mret (-1, buf)
  | Some (pos, alen) =>
      if alen <? ATTR_HDR_LEN then mret (-1, buf)
      else
        let dlen := alen - ATTR_HDR_LEN in
        match buf with
        | None => mret (dlen, None)
        | Some b =>
            d ← msg_read msg (pos + ATTR_HDR_LEN) (if len <? dlen then len else dlen);
            b' ← lift_outcome (wr b 0 d);
            mret (dlen, Some b')
        end
  end.

(** The offset and the length of the value, or failure. *)
Definition radius_msg_get_attr_ptr (msg : radius_msg) (type : Z) (start : option Z) :
    M (option (Z * Z)) :=
  a ← find_attr msg type start;
  match a with
  | None => mret None
  | Some (pos, alen) =>
      if alen <? ATTR_HDR_LEN then mret None
      else mret (Some (pos + ATTR_HDR_LEN, alen - ATTR_HDR_LEN))
  end.

Definition radius_msg_add_attr_int32 (msg : radius_msg) (type value : Z) : M (Z * radius_msg) :=
  r ← radius_msg_add_attr msg type (Some (WPA_PUT_BE32 value)) 4;
  mret (match r.1 with Some _ => 1 | None => 0 end, r.2).

Definition radius_msg_get_attr_int32 (msg : radius_msg) (type : Z) : M (option Z) :=
  r ← radius_msg_get_attr msg type (Some [0; 0; 0; 0]) 4;
  if negb (r.1 =? 4) then mret None
  else mret (WPA_GET_BE32 <$> r.2).

Definition radius_msg_count_attr (msg : radius_msg) (type min_len : Z) : M Z :=
  r ← for_attrs (R := False) msg
    (fun _ ty len count =>
       mret (inl (if (ty =? type) && (u64 (ATTR_HDR_LEN + min_len) <=? len)
                  then count + 1 else count)))
    0;
  mret (from_inl r).

(** The types listed in [attrs], up to its zero terminator. *)
Definition radius_msg_find_unlisted_attr (msg : radius_msg) (attrs : list Z) : M Z :=
  r ← for_attrs msg
    (fun _ ty _ (_ : unit) =>
       if bool_decide (ty ∈ attrs) then mret (inl tt) else mret (inr ty))
    tt;
  mret (match r with inl _ => 0 | inr ty => ty end).

Definition radius_gen_session_id (len : Z) : M (Z * list Z) := edge_os_get_random len.

(** Copies of attribute data; a null [attr] array is [None].  The loop stops
    at the first copy that cannot be allocated. *)
Fixpoint radius_copy_class_loop (src : list (list Z)) : M (list (list Z)) :=
  match src with
  | [] => mret []
  | d :: rest =>
      ok ← malloc;
      if negb ok then mret []
      else r ← radius_copy_class_loop rest; mret (d :: r)
  end.

Definition radius_copy_class (dst src : option (list (list Z))) :
    M (Z * option (list (list Z))) :=
  match src with
  | None => mret (0, dst)
  | Some l =>
      ok ← malloc;
      if negb ok then mret (-1, None)
      else r ← radius_copy_class_loop l; mret (0, Some r)
  end.

(** ** VLAN attributes *)

Record radius_tunnel_attrs := {
  tag_used : Z;
  tun_type : Z;
  medium_type : Z;
  vlanid : Z
}.

Definition tunnel_zero : radius_tunnel_attrs :=
  {| tag_used := 0; tun_type := 0; medium_type := 0; vlanid := 0 |}.

(** What the loop of [radius_msg_get_vlanid] updates: the tunnels, the untagged
    VLAN and the tagged VLANs stored so far. *)
Record vlan_state := {
  vs_tunnel : list radius_tunnel_attrs;
  vs_untagged : Z;
  vs_tagged : list Z
}.

Definition set_tunnel (s : vlan_state) (i : nat)
    (f : radius_tunnel_attrs -> radius_tunnel_attrs) : vlan_state :=
  {| vs_tunnel := alter f i (vs_tunnel s); vs_untagged := vs_untagged s;
     vs_tagged := vs_tagged s |}.

(** One attribute with a value of at least one byte; [tagged] has room for
    [numtagged] entries (none when the pointer is null). *)
Definition vlan_attr (numtagged : Z) (ty len : Z) (data : list Z) (s : vlan_state) :
    vlan_state :=
  let tag := hd 0 data in
  let tun := Z.to_nat (if RADIUS_TUNNEL_TAGS <=? tag then 0 else tag) in
  if ty =? RADIUS_ATTR_TUNNEL_TYPE then
    if negb (len =? 6) then s
    else set_tunnel s tun (fun t =>
      {| tag_used := tag_used t + 1; tun_type := WPA_GET_BE24 (drop 1 data);
         medium_type := medium_type t; vlanid := vlanid t |})
  else if ty =? RADIUS_ATTR_TUNNEL_MEDIUM_TYPE then
    if negb (len =? 6) then s
    else set_tunnel s tun (fun t =>
      {| tag_used := tag_used t + 1; tun_type := tun_type t;
         medium_type := WPA_GET_BE24 (drop 1 data); vlanid := vlanid t |})
  else if ty =? RADIUS_ATTR_TUNNEL_PRIVATE_GROUP_ID then
    let data := if tag <? RADIUS_TUNNEL_TAGS then drop 1 data else data in
    if 10 <=? zlen data then s
    else
      let vlan_id := atoi (until_nul data) in
      if vlan_id <=? 0 then s
      else set_tunnel s tun (fun t =>
        {| tag_used := tag_used t + 1; tun_type := tun_type t;
           medium_type := medium_type t; vlanid := vlan_id |})
  else if ty =? RADIUS_ATTR_EGRESS_VLANID then
    if negb (len =? 6) then s
    else
      let vlan_id := WPA_GET_BE24 (drop 1 data) in
      if vlan_id <=? 0 then s
      else if tag =? 0x32 then
        {| vs_tunnel := vs_tunnel s; vs_untagged := vlan_id; vs_tagged := vs_tagged s |}
      else if (tag =? 0x31) && (zlen (vs_tagged s) <? numtagged) then
        {| vs_tunnel := vs_tunnel s; vs_untagged := vs_untagged s;
           vs_tagged := vs_tagged s ++ [vlan_id] |}
      else s
  else s.

(** The tunnel with the lowest tag that describes an 802 VLAN. *)
Fixpoint first_vlan (tunnel : list radius_tunnel_attrs) : option Z :=
  match tunnel with
  | [] => None
  | t :: rest =>
      if negb (tag_used t =? 0) && (tun_type t =? RADIUS_TUNNEL_TYPE_VLAN) &&
         (medium_type t =? RADIUS_TUNNEL_MEDIUM_TYPE_802) && (0 <? vlanid t)
      then Some (vlanid t) else first_vlan rest
  end.

(** [qsort] with [cmp_int]. *)
Fixpoint insert_sorted (x : Z) (l : list Z) : list Z :=
  match l with
  | y :: rest => if x <=? y then x :: l else y :: insert_sorted x rest
  | [] => [x]
  end.
Definition qsort (l : list Z) : list Z := foldr insert_sorted [] l.

(** The return value, the untagged VLAN and the array of tagged ones. *)
Definition radius_msg_get_vlanid (msg : radius_msg) (numtagged : Z) : M (Z * Z * list Z) :=
  r ← for_attrs msg
    (fun pos ty len s =>
       if len <? ATTR_HDR_LEN then mret (inr s)
       else if len <? 3 then mret (inl s)
       else
         data ← msg_read msg (pos + ATTR_HDR_LEN) (len - ATTR_HDR_LEN);
         mret (inl (vlan_attr numtagged ty len data s)))
    {| vs_tunnel := replicate 32 tunnel_zero; vs_untagged := 0; vs_tagged := [] |};
  let pad l := l ++ replicate (Z.to_nat (numtagged - zlen l)) 0 in
  match r with
  | inr s => mret (-1, vs_untagged s, pad (vs_tagged s))
  | inl s =>
      let untagged := default (vs_untagged s) (first_vlan (vs_tunnel s)) in
      mret (if (0 <? untagged) || (0 <? zlen (vs_tagged s)) then 1 else 0,
            untagged, pad (qsort (vs_tagged s)))
  end.

(** ** Invariant and representation *)

(** An attribute header at offset [p] of the bytes in use, whose value lies
    inside them. *)
Definition attr_at (c : list Z) (p : Z) : Prop :=
  HDR_LEN <= p /\ exists t len,
    c !! Z.to_nat p = Some t /\ c !! Z.to_nat (p + 1) = Some len /\
    ATTR_HDR_LEN <= len /\ p + len <= zlen c.

Record msg_wf (m : radius_msg) : Prop := {
  mw_buf : wpabuf_wf (msg_buf m);
  mw_hdr : HDR_LEN <= wb_used (msg_buf m);
  mw_attrs : Forall (attr_at (content (msg_buf m))) (attr_pos m);
  mw_room : zlen (attr_pos m) <= attr_size m <= Z.max 16 (2 * zlen (attr_pos m));
  mw_size : 0 < attr_size m;
  mw_short : 2 * zlen (attr_pos m) <= wb_used (msg_buf m)
}.

(** Type and value of an attribute, and its bytes on the wire. *)
Abbreviation attr := (Z * list Z)%type.
Definition attr_ok (a : attr) : Prop :=
  is_byte a.1 /\ bytes a.2 /\ zlen a.2 <= RADIUS_MAX_ATTR_LEN.
Definition encode_attr (a : attr) : list Z := a.1 :: (ATTR_HDR_LEN + zlen a.2) :: a.2.
Definition encode (attrs : list attr) : list Z := concat (encode_attr <$> attrs).
Fixpoint positions (off : Z) (attrs : list attr) : list Z :=
  match attrs with
  | [] => []
  | a :: rest => off :: positions (off + zlen (encode_attr a)) rest
  end.

Record msg_rep (m : radius_msg) (hdr : list Z) (attrs : list attr) : Prop := {
  rep_wf : msg_wf m;
  rep_hdr : zlen hdr = HDR_LEN;
  rep_content : content (msg_buf m) = hdr ++ encode attrs;
  rep_pos : attr_pos m = positions HDR_LEN attrs;
  rep_attrs : Forall attr_ok attrs
}.

Lemma zlen_encode_attr a : zlen (encode_attr a) = ATTR_HDR_LEN + zlen a.2.
Proof. unfold encode_attr, ATTR_HDR_LEN. zlen_lia. Qed.

Lemma encode_app x y : encode (x ++ y) = encode x ++ encode y.
Proof. unfold encode. by rewrite fmap_app, concat_app. Qed.

Lemma encode_single a : encode [a] = encode_attr a.
Proof. unfold encode. simpl. by rewrite app_nil_r. Qed.

Lemma encode_cons a x : encode (a :: x) = encode_attr a ++ encode x.
Proof. done. Qed.

Lemma positions_app x y : forall off,
  positions off (x ++ y) = positions off x ++ positions (off + zlen (encode x)) y.
Proof.
  induction x as [|a x IH]; intros off; simpl.
  - f_equal. change (encode []) with (@nil Z). change (zlen (@nil Z)) with 0. lia.
  - rewrite IH, encode_cons, zlen_app. do 3 f_equal. lia.
Qed.

Lemma zlen_positions x : forall off, zlen (positions off x) = zlen x.
Proof. induction x; intros; simpl; rewrite ?zlen_cons, ?IHx; done. Qed.

Lemma bytes_encode_attr a : attr_ok a -> bytes (encode_attr a).
Proof.
  intros (Ht & Hd & Hl). pose proof (zlen_nonneg a.2). constructor; [done|].
  constructor; [|done]. unfold RADIUS_MAX_ATTR_LEN, ATTR_HDR_LEN, is_byte in *. lia.
Qed.

Lemma bytes_encode x : Forall attr_ok x -> bytes (encode x).
Proof.
  induction 1; [constructor|]. rewrite encode_cons. apply Forall_app.
  split; [by apply bytes_encode_attr|done].
Qed.

Lemma attr_at_app c x p : attr_at c p -> attr_at (c ++ x) p.
Proof.
  intros (Hp & t & len & Ht & Hl & H2 & Hle). split; [done|]. exists t, len.
  rewrite !lookup_app_l by (eapply lookup_lt_Some; eassumption).
  repeat split; try done. pose proof (zlen_nonneg x). rewrite zlen_app. lia.
Qed.

(** Reading inside the bytes in use. *)
Lemma rd_content b off n : wpabuf_wf b -> 0 <= off -> 0 <= n -> off + n <= wb_used b ->
  rd (wb_buf b) off n = rd (content b) off n.
Proof.
  intros Hwf H1 H2 H3. pose proof (zlen_content b Hwf) as Hc.
  destruct (wb_buf_split b Hwf) as (free & Hs & Hf & _).
  pose proof (zlen_nonneg free).
  trans (Done (take (Z.to_nat n) (drop (Z.to_nat off) (content b)))).
  - apply rd_done. repeat split; try lia.
    + rewrite Hs, zlen_app. lia.
    + rewrite Hs at 1. rewrite drop_app_le, take_app_le by zlen_lia. done.
  - symmetry. apply rd_done. repeat split; lia.
Qed.

Lemma rd1_content b p x : wpabuf_wf b -> 0 <= p ->
  content b !! Z.to_nat p = Some x -> rd1 (wb_buf b) p = Done x.
Proof.
  intros Hwf Hp Hl. unfold rd1. unfold content in Hl.
  apply lookup_take_Some in Hl as [-> _]. by rewrite (proj2 (Z.leb_le _ _)).
Qed.

(** The value of an attribute in a buffer laid out around it. *)
Lemma lookup_mid {A} (pre : list A) x post : (pre ++ x :: post) !! length pre = Some x.
Proof. by rewrite list_lookup_middle. Qed.

Lemma attr_at_mid pre a post :
  HDR_LEN <= zlen pre -> attr_at (pre ++ encode_attr a ++ post) (zlen pre).
Proof.
  intros Hp. pose proof (zlen_nonneg a.2). pose proof (zlen_nonneg post).
  split; [done|]. exists a.1, (ATTR_HDR_LEN + zlen a.2).
  unfold encode_attr. simpl. repeat split.
  - rewrite to_nat_zlen. apply lookup_mid.
  - change (a.1 :: ?l) with ([a.1] ++ l). rewrite app_assoc.
    replace (Z.to_nat (zlen pre + 1)) with (length (pre ++ [a.1])) by zlen_lia.
    apply lookup_mid.
  - lia.
  - rewrite zlen_app, !zlen_cons, zlen_app. unfold ATTR_HDR_LEN. lia.
Qed.

Lemma attrs_at_positions attrs : forall pre,
  HDR_LEN <= zlen pre ->
  Forall (attr_at (pre ++ encode attrs)) (positions (zlen pre) attrs).
Proof.
  induction attrs as [|a rest IH]; intros pre Hp; simpl; constructor.
  - rewrite encode_cons. by apply attr_at_mid.
  - rewrite encode_cons, app_assoc. replace (zlen pre + zlen (encode_attr a)) with
      (zlen (pre ++ encode_attr a)) by apply zlen_app.
    apply IH. pose proof (zlen_nonneg (encode_attr a)). rewrite zlen_app. lia.
Qed.

(** ** Adding attributes *)

Lemma add_to_array_spec m p e :
  zlen (attr_pos m) <= attr_size m <= Z.max 16 (2 * zlen (attr_pos m)) ->
  0 < attr_size m -> zlen (attr_pos m) < 2 ^ 62 ->
  exists r m' e', radius_msg_add_attr_to_array m p e = Done ((r, m'), e') /\
    env_ok e e' (r = 0) /\ msg_buf m' = msg_buf m /\
    (r = -1 /\ m' = m \/
     r = 0 /\ attr_pos m' = attr_pos m ++ [p] /\
     zlen (attr_pos m') <= attr_size m' <= Z.max 16 (2 * zlen (attr_pos m')) /\
     0 < attr_size m').
Proof.
  intros Hroom Hsize Hmax. unfold radius_msg_add_attr_to_array, attr_used.
  destruct (Z.leb_spec (attr_size m) (zlen (attr_pos m))) as [Hfull|Hfree].
  - rewrite (wrap_small 64) by lia.
    destruct (malloc_done e) as (ok & e1 & Hm & Hr & Hok). destruct ok.
    + erewrite bind_run by (erewrite bind_run by done; done). cbn [attr_size attr_pos negb].
      rewrite (proj2 (Z.ltb_lt _ _)) by lia.
      eexists _, _, _. split; [done|]. split.
      { split; [done|]. intros He. by destruct (Hok He) as [_ ->]. }
      split; [done|]. right. cbn [attr_pos attr_size]. rewrite zlen_app.
      change (zlen [p]) with 1. split; [done|]. split; [done|]. lia.
    + erewrite bind_run by (erewrite bind_run by done; done). cbn [negb].
      eexists _, _, _. split; [done|]. split.
      { split; [done|]. intros He. by destruct (Hok He) as [? _]. }
      split; [done|]. by left.
  - erewrite bind_run by done. cbn beta iota. unfold attr_used. rewrite (proj2 (Z.ltb_lt _ _)) by lia.
    eexists _, _, _. split; [done|]. split; [by apply env_ok_refl|].
    split; [done|]. right. cbn [attr_pos attr_size]. rewrite zlen_app.
    change (zlen [p]) with 1. split; [done|]. split; [done|]. lia.
Qed.

(** Making room in the buffer. *)
Lemma make_room_spec b need e :
  wpabuf_wf b -> 0 <= need -> wb_used b + need <= PTRDIFF_MAX - sizeof_wpabuf ->
  exists ob e',
    ((if wpabuf_tailroom b <? need then
        r ← wpabuf_resize (Some b) need;
        mret (if r.1 <? 0 then None else r.2)
      else mret (Some b)) : M (option wpabuf)) e = Done (ob, e') /\
    env_ok e e' (ob <> None) /\
    forall b', ob = Some b' -> wpabuf_wf b' /\ content b' = content b /\
      wb_used b' = wb_used b /\ wb_used b' + need <= wb_size b'.
Proof.
  intros Hwf Hn Hmax. pose proof (wf_used b Hwf). pose proof (wf_max b Hwf).
  assert (wpabuf_tailroom b = wb_size b - wb_used b) as Ht.
  { apply u64_small. unfold PTRDIFF_MAX, sizeof_wpabuf in *. lia. }
  destruct (Z.ltb_spec (wpabuf_tailroom b) need) as [Hlt|Hge].
  - destruct (wpabuf_resize_spec b need e Hwf Hn Hmax) as (r & b' & e' & Hr & Henv & Hcase).
    erewrite bind_run by exact Hr. cbn [fst snd].
    destruct Hcase as [[-> ->]|(-> & Hw & Hc & Hsz & Hu & Htr)].
    + eexists _, _. split; [done|]. split; [|done].
      destruct Henv as [Hrd Hz]. split; [done|]. intros He. by destruct (Hz He).
    + eexists _, _. split; [done|]. split.
      * destruct Henv as [Hrd Hz]. split; [done|]. intros He. destruct (Hz He). done.
      * intros b2 [= <-]. repeat split; try done; try lia; apply Hw.
  - eexists _, _. split; [done|]. split; [by apply env_ok_refl|].
    intros b' [= <-]. split; [done|]. split; [done|]. lia.
Qed.

(** Room for one more attribute of any length. *)
Definition msg_small (m : radius_msg) : Prop :=
  wb_used (msg_buf m) + 255 <= PTRDIFF_MAX - sizeof_wpabuf.

Lemma bytes_pair a b : is_byte a -> is_byte b -> bytes [a; b].
Proof. intros. constructor; [done|]. constructor; [done|]. constructor. Qed.

(** Appending bytes to the buffer keeps the invariant, and so does entering
    the appended attribute in the array. *)
Lemma msg_wf_grow m b x :
  msg_wf m -> wpabuf_wf b -> content b = content (msg_buf m) ++ x -> msg_wf (with_buf m b).
Proof.
  intros Hwf Hb Hc. assert (wb_used (msg_buf m) <= wb_used b) as Hle.
  { rewrite <- (zlen_content _ (mw_buf m Hwf)), <- (zlen_content _ Hb), Hc, zlen_app.
    pose proof (zlen_nonneg x). lia. }
  pose proof (mw_hdr m Hwf). pose proof (mw_short m Hwf).
  constructor; simpl; try apply Hwf; try done; try lia.
  rewrite Hc. eapply Forall_impl; [|exact (mw_attrs m Hwf)]. intros. by apply attr_at_app.
Qed.

Lemma msg_wf_add m m' t d :
  msg_wf m -> wpabuf_wf (msg_buf m') ->
  content (msg_buf m') = content (msg_buf m) ++ encode_attr (t, d) ->
  attr_pos m' = attr_pos m ++ [wb_used (msg_buf m)] ->
  zlen (attr_pos m') <= attr_size m' <= Z.max 16 (2 * zlen (attr_pos m')) ->
  0 < attr_size m' -> msg_wf m'.
Proof.
  intros Hwf Hb Hc Hpos Hroom Hsz. pose proof (zlen_nonneg d).
  assert (wb_used (msg_buf m') = wb_used (msg_buf m) + (2 + zlen d)) as Hu.
  { rewrite <- (zlen_content _ (mw_buf m Hwf)), <- (zlen_content _ Hb), Hc, zlen_app,
      zlen_encode_attr. done. }
  pose proof (mw_hdr m Hwf). pose proof (mw_short m Hwf).
  constructor; try done; try lia.
  - rewrite Hc, Hpos. apply Forall_app. split.
    + eapply Forall_impl; [|exact (mw_attrs m Hwf)]. intros. by apply attr_at_app.
    + constructor; [|done]. rewrite <- (zlen_content _ (mw_buf m Hwf)).
      rewrite <- (app_nil_r (encode_attr _)). apply attr_at_mid.
      by rewrite zlen_content by apply Hwf.
  - rewrite Hpos, zlen_app. change (zlen [_]) with 1. lia.
Qed.

(** What an addition does to a message: nothing but a possibly appended tail
    when it fails, one more attribute when it succeeds. *)
Lemma add_attr_spec m t data d e :
  msg_wf m -> msg_small m -> attr_ok (t, d) -> rd data 0 (zlen d) = Done d ->
  exists r m' e', radius_msg_add_attr m t (Some data) (zlen d) e = Done ((r, m'), e') /\
    env_ok e e' (r <> None) /\ msg_wf m' /\
    (r = None /\ attr_pos m' = attr_pos m /\
       (exists x, content (msg_buf m') = content (msg_buf m) ++ x /\ zlen x <= 255) \/
     r = Some (wb_used (msg_buf m)) /\
       attr_pos m' = attr_pos m ++ [wb_used (msg_buf m)] /\
       content (msg_buf m') = content (msg_buf m) ++ encode_attr (t, d)).
Proof.
  intros Hwf Hsm (Ht & Hd & Hl) Hrd. unfold msg_small in Hsm. simpl in Ht, Hd, Hl.
  pose proof (zlen_nonneg d). pose proof (mw_buf m Hwf) as Hb.
  unfold radius_msg_add_attr, RADIUS_MAX_ATTR_LEN, ATTR_HDR_LEN in *.
  rewrite (proj2 (Z.ltb_ge _ _)) by lia. cbv zeta.
  destruct (make_room_spec (msg_buf m) (2 + zlen d) e Hb) as (ob & e1 & Hroom & Henv & Hob);
    [lia|lia|].
  erewrite bind_run by exact Hroom. destruct ob as [b|]; cycle 1.
  { exists None, m, e1. split; [done|]. split.
    { destruct Henv as [? Hn]. split; [done|]. intros He. by destruct (Hn He). }
    split; [done|]. left. split; [done|]. split; [done|]. exists []. by rewrite app_nil_r. }
  destruct (Hob b eq_refl) as (Hw & Hc & Hu & Hfit).
  destruct (put_bytes_fits b [t; 2 + zlen d] Hw) as (b1 & Hp1 & Hw1 & Hc1 & Hs1 & Hu1 & _).
  { apply bytes_pair; [done|]. unfold is_byte. lia. }
  { change (zlen [_; _]) with 2. lia. }
  destruct (put_bytes_fits b1 d Hw1 Hd) as (b2 & Hp2 & Hw2 & Hc2 & Hs2 & Hu2 & _).
  { rewrite Hu1, Hs1. change (zlen [_; _]) with 2. lia. }
  unfold wpabuf_put_bytes in Hp1. change (zlen [t; 2 + zlen d]) with 2 in *.
  unfold wpabuf_put in *. destruct (wb_size b <? _); [done|].
  erewrite bind_run by done. cbn [fst snd]. rewrite !u8_id by (unfold is_byte in *; lia).
  rewrite Hp1. erewrite bind_run by done. rewrite (put_data_bytes b1 data _ d Hrd), Hp2.
  erewrite bind_run by done.
  pose proof (mw_short m Hwf) as Hshort. pose proof (wf_max _ Hb). pose proof (wf_used _ Hb).
  destruct (add_to_array_spec (with_buf m b2) (wpabuf_len b) e1)
    as (r & m' & e2 & Ha & Henv2 & Hbuf & Hcase);
    [apply Hwf|apply Hwf|simpl; unfold PTRDIFF_MAX, sizeof_wpabuf in *; lia|].
  erewrite bind_run by exact Ha. cbn [fst snd with_buf msg_buf attr_pos] in *.
  assert (content b2 = content (msg_buf m) ++ encode_attr (t, d)) as Hcont.
  { rewrite Hc2, Hc1, Hc, <- app_assoc. done. }
  assert (wpabuf_len b = wb_used (msg_buf m)) as Hlen by done || (unfold wpabuf_len; lia).
  rewrite Hlen in *.
  assert (env_ok e e2 (r = 0)) as He2 by (eapply env_ok_trans; eassumption).
  destruct Hcase as [[-> ->]|(-> & Hpos & Hroom' & Hsz')].
  - exists None, (with_buf m b2), e2. split; [done|]. split.
    { destruct He2 as [? Hn]. split; [done|]. intros He. by destruct (Hn He). }
    split; [by eapply msg_wf_grow|].
    left. split; [done|]. split; [done|]. exists (encode_attr (t, d)).
    split; [done|]. rewrite zlen_encode_attr. unfold ATTR_HDR_LEN. simpl. lia.
  - exists (Some (wb_used (msg_buf m))), m', e2. split; [done|]. split.
    { destruct He2 as [? Hn]. split; [done|]. intros He. by destruct (Hn He). }
    split; [|right; by rewrite Hbuf]. apply (msg_wf_add m m' t d); rewrite ?Hbuf; done.
Qed.

Lemma rep_used m hdr attrs : msg_rep m hdr attrs ->
  wb_used (msg_buf m) = HDR_LEN + zlen (encode attrs).
Proof.
  intros H. rewrite <- (zlen_content _ (mw_buf m (rep_wf _ _ _ H))).
  rewrite (rep_content _ _ _ H), zlen_app, (rep_hdr _ _ _ H). done.
Qed.

Lemma rep_add m m' hdr attrs t d :
  msg_rep m hdr attrs -> msg_wf m' -> attr_ok (t, d) ->
  attr_pos m' = attr_pos m ++ [wb_used (msg_buf m)] ->
  content (msg_buf m') = content (msg_buf m) ++ encode_attr (t, d) ->
  msg_rep m' hdr (attrs ++ [(t, d)]).
Proof.
  intros Hrep Hwf Hok Hpos Hc. constructor; try done; try apply Hrep.
  - by rewrite Hc, (rep_content _ _ _ Hrep), encode_app, encode_single, app_assoc.
  - rewrite Hpos, (rep_pos _ _ _ Hrep), positions_app, (rep_used _ _ _ Hrep). done.
  - apply Forall_app. split; [apply Hrep|by repeat constructor; apply Hok].
Qed.

Lemma add_attr_rep m hdr attrs t data d e :
  msg_rep m hdr attrs -> msg_small m -> attr_ok (t, d) -> rd data 0 (zlen d) = Done d ->
  mallocs e = [] ->
  exists m', radius_msg_add_attr m t (Some data) (zlen d) e =
      Done ((Some (HDR_LEN + zlen (encode attrs)), m'), e) /\
    msg_rep m' hdr (attrs ++ [(t, d)]).
Proof.
  intros Hrep Hsm Hok Hrd He.
  destruct (add_attr_spec m t data d e) as (r & m' & e' & Hrun & Henv & Hwf & Hc);
    [apply Hrep|done..|].
  destruct Henv as [_ Henv]. destruct (Henv He) as [-> Hr].
  destruct Hc as [[-> _]|(-> & Hpos & Hcont)]; [done|].
  exists m'. rewrite Hrun, (rep_used _ _ _ Hrep). split; [done|]. by eapply rep_add.
Qed.

(**  [radius_msg_add_attr] on a well-formed message: whatever the allocator
    answers it does not fault and keeps the message well formed; a value of
    more than 253 bytes is refused and nothing changes; and when memory lasts
    the attribute, with its type and value, is appended to the attribute list
    and its offset returned. *)
Theorem radius_msg_add_attr_correct m hdr attrs t d e :
  msg_rep m hdr attrs -> msg_small m -> is_byte t -> bytes d ->
  if decide (zlen d <= RADIUS_MAX_ATTR_LEN) then
    (exists r m' e', radius_msg_add_attr m t (Some d) (zlen d) e = Done ((r, m'), e') /\
       msg_wf m') /\
    (mallocs e = [] ->
     exists m', radius_msg_add_attr m t (Some d) (zlen d) e =
         Done ((Some (HDR_LEN + zlen (encode attrs)), m'), e) /\
       msg_rep m' hdr (attrs ++ [(t, d)]))
  else radius_msg_add_attr m t (Some d) (zlen d) e = Done ((None, m), e).
Proof.
  intros Hrep Hsm Ht Hd.
  assert (rd d 0 (zlen d) = Done d) as Hrd.
  { rewrite <- (app_nil_r d) at 1. by apply (rd_app [] d []). }
  case_decide as Hl.
  - split.
    + destruct (add_attr_spec m t d d e) as (r & m' & e' & Hrun & _ & Hwf & _);
        [apply Hrep|done..|]. eauto.
    + intros. by apply add_attr_rep.
  - unfold radius_msg_add_attr. by rewrite (proj2 (Z.ltb_lt _ _)) by lia.
Qed.

(** ** New messages *)

Definition hdr_bytes (code identifier len : Z) (authenticator : list Z) : list Z :=
  code :: identifier :: WPA_PUT_BE16 len ++ authenticator.

(** Buffers that differ at most in the values of the bytes in use. *)
Definition same_frame (b b' : wpabuf) : Prop :=
  wb_size b' = wb_size b /\ wb_used b' = wb_used b /\ wb_ext b' = wb_ext b /\
  drop (Z.to_nat (wb_used b)) (wb_buf b') = drop (Z.to_nat (wb_used b)) (wb_buf b).

Definition msg_frame (m m' : radius_msg) : Prop :=
  same_frame (msg_buf m) (msg_buf m') /\ attr_pos m' = attr_pos m /\
  attr_size m' = attr_size m.

Lemma msg_frame_refl m : msg_frame m m.
Proof. done. Qed.

Lemma msg_frame_trans m1 m2 m3 : msg_frame m1 m2 -> msg_frame m2 m3 -> msg_frame m1 m3.
Proof.
  intros ((S1 & U1 & E1 & D1) & P1 & Z1) ((S2 & U2 & E2 & D2) & P2 & Z2).
  rewrite U1 in D2. repeat split; congruence.
Qed.

(** A message is determined by what it represents and its frame. *)
Lemma rep_frame_eq m m' hdr attrs :
  msg_rep m hdr attrs -> msg_rep m' hdr attrs -> msg_frame m m' -> m' = m.
Proof.
  intros Hr Hr' ((Hs & Hu & He & Hd) & Hp & Hz).
  assert (content (msg_buf m') = content (msg_buf m)) as Hc.
  { by rewrite (rep_content _ _ _ Hr), (rep_content _ _ _ Hr'). }
  assert (wb_buf (msg_buf m') = wb_buf (msg_buf m)) as Hb.
  { rewrite <- (take_drop (Z.to_nat (wb_used (msg_buf m))) (wb_buf (msg_buf m'))).
    rewrite <- (take_drop (Z.to_nat (wb_used (msg_buf m))) (wb_buf (msg_buf m))), Hd.
    unfold content in Hc. rewrite Hu in Hc. by rewrite Hc. }
  destruct m as [[] ? ?], m' as [[] ? ?]. simpl in *. by subst.
Qed.

(** Overwriting bytes in use keeps the buffer well formed. *)
Lemma write_content b pre old post data :
  wpabuf_wf b -> content b = pre ++ old ++ post -> length data = length old -> bytes data ->
  exists b', wpabuf_write b (zlen pre) data = Done b' /\ wpabuf_wf b' /\
    content b' = pre ++ data ++ post /\ same_frame b b'.
Proof.
  intros Hwf Hc Hl Hd. destruct (wb_buf_split b Hwf) as (free & Hs & Hf & Hbf).
  pose proof (bytes_content b Hwf) as Hbc. pose proof (zlen_content b Hwf) as Hz.
  pose proof (wf_max b Hwf). rewrite Hc in *.
  assert (wb_used b = zlen (pre ++ data ++ post)) as Hu by (rewrite <- Hz; zlen_lia).
  unfold wpabuf_write, same_frame. rewrite Hs, <- !app_assoc, wr_app by done.
  eexists. split; [done|]. cbn [wb_used wb_size wb_ext wb_buf].
  replace (pre ++ data ++ post ++ free) with ((pre ++ data ++ post) ++ free)
    by (by rewrite <- !app_assoc).
  replace (pre ++ old ++ post ++ free) with ((pre ++ old ++ post) ++ free)
    by (by rewrite <- !app_assoc).
  apply Forall_app in Hbc as [Hb1 Hb2]. apply Forall_app in Hb2 as [Hb2 Hb3].
  split.
  { rewrite Hu. apply wf_app; [lia|done| |done].
    apply Forall_app. split; [done|]. by apply Forall_app. }
  split; [by rewrite Hu at 1; rewrite content_app|]. repeat split.
  rewrite Hu at 1. rewrite <- Hz, !to_nat_zlen, !drop_app_length. done.
Qed.

(** Overwriting bytes of the header keeps the representation. *)
Lemma msg_write_hdr m hdr attrs pre old post data e :
  msg_rep m hdr attrs -> hdr = pre ++ old ++ post -> length data = length old -> bytes data ->
  exists m', msg_write m (zlen pre) data e = Done (m', e) /\
    msg_rep m' (pre ++ data ++ post) attrs /\ msg_frame m m'.
Proof.
  intros Hrep Hh Hl Hd. pose proof (rep_content _ _ _ Hrep) as Hc.
  pose proof (rep_wf _ _ _ Hrep) as Hwf. pose proof (rep_hdr _ _ _ Hrep) as Hlen.
  rewrite Hh, <- !app_assoc in Hc.
  destruct (write_content (msg_buf m) pre old (post ++ encode attrs) data)
    as (b' & Hw & Hwf' & Hc' & Hfr); [apply Hwf|done..|].
  unfold msg_write. rewrite Hw. erewrite bind_run by done. eexists. split; [done|].
  split; [|done]. destruct Hfr as (Hs & Hu & _).
  assert (zlen (pre ++ data ++ post) = HDR_LEN) as Hlen'.
  { rewrite <- Hlen, Hh. zlen_lia. }
  assert (content b' = (pre ++ data ++ post) ++ encode attrs) as Hc2.
  { by rewrite Hc', <- !app_assoc. }
  constructor; simpl; try done; try apply Hrep.
  constructor; simpl; rewrite ?Hu; try done; try apply Hwf.
  rewrite (rep_pos _ _ _ Hrep), Hc2, <- Hlen'. apply attrs_at_positions. lia.
Qed.

(** Overwriting the value of an attribute by one of the same length. *)
Lemma msg_write_value m hdr pre t d post data e :
  msg_rep m hdr (pre ++ (t, d) :: post) -> length data = length d -> bytes data ->
  exists m', msg_write m (HDR_LEN + zlen (encode pre) + ATTR_HDR_LEN) data e = Done (m', e) /\
    msg_rep m' hdr (pre ++ (t, data) :: post) /\ msg_frame m m'.
Proof.
  intros Hrep Hl Hd. pose proof (rep_wf _ _ _ Hrep) as Hwf.
  assert (zlen data = zlen d) as Hz by zlen_lia.
  set (before := hdr ++ encode pre ++ [t; 2 + zlen d]).
  assert (content (msg_buf m) = before ++ d ++ encode post) as Hc.
  { subst before. rewrite (rep_content _ _ _ Hrep), encode_app, encode_cons, <- !app_assoc. done. }
  destruct (write_content (msg_buf m) before d (encode post) data)
    as (b' & Hw & Hwf' & Hc' & Hfr); [apply Hwf|done..|].
  assert (HDR_LEN + zlen (encode pre) + ATTR_HDR_LEN = zlen before) as ->.
  { subst before. rewrite !zlen_app, (rep_hdr _ _ _ Hrep). change (zlen [_; _]) with 2.
    unfold ATTR_HDR_LEN. lia. }
  unfold msg_write. rewrite Hw. erewrite bind_run by done. eexists. split; [done|].
  split; [|done]. destruct Hfr as (Hs & Hu & _).
  assert (content b' = hdr ++ encode (pre ++ (t, data) :: post)) as Hc2.
  { rewrite Hc'. subst before. rewrite encode_app, encode_cons, <- !app_assoc.
    unfold encode_attr. simpl. by rewrite Hz. }
  assert (forall off, positions off (pre ++ (t, data) :: post) =
    positions off (pre ++ (t, d) :: post)) as Hpos.
  { intros off. rewrite !positions_app. simpl. by rewrite !zlen_encode_attr; simpl; rewrite Hz. }
  constructor; simpl; try done; try apply Hrep.
  - constructor; simpl; rewrite ?Hu; try done; try apply Hwf.
    rewrite (rep_pos _ _ _ Hrep), Hc2, <- Hpos, <- (rep_hdr _ _ _ Hrep).
    apply attrs_at_positions. pose proof (rep_hdr _ _ _ Hrep). lia.
  - by rewrite Hpos, (rep_pos _ _ _ Hrep).
  - pose proof (rep_attrs _ _ _ Hrep) as Ha. apply Forall_app in Ha as [H1 H2].
    apply List.Forall_cons_iff in H2 as [(Ht & _ & Hmax) H2].
    apply Forall_app. split; [done|]. apply List.Forall_cons_iff. split; [|done].
    split; [done|]. split; [done|]. simpl in *. lia.
Qed.

Lemma msg_initialize_spec b e :
  exists om e', radius_msg_initialize b e = Done (om, e') /\ env_ok e e' (om <> None) /\
    forall m, om = Some m -> msg_buf m = b /\ attr_pos m = [] /\ attr_size m = 16.
Proof.
  destruct (malloc_done e) as (ok & e' & Hm & Hr & Hok). unfold radius_msg_initialize.
  erewrite bind_run by done. destruct ok; cbn [negb].
  - eexists _, _. split; [done|]. split; [|by intros m [= <-]].
    split; [done|]. intros He. by destruct (Hok He) as [_ ->].
  - eexists _, _. split; [done|]. split; [|done].
    split; [done|]. intros He. by destruct (Hok He).
Qed.

(** A message with an empty array over a well-formed buffer. *)
Lemma msg_rep_empty m hdr :
  wpabuf_wf (msg_buf m) -> zlen hdr = HDR_LEN -> content (msg_buf m) = hdr ->
  attr_pos m = [] -> attr_size m = 16 -> msg_rep m hdr [].
Proof.
  intros Hwf Hl Hc Hp Hs. assert (wb_used (msg_buf m) = HDR_LEN) as Hu.
  { rewrite <- (zlen_content _ Hwf). by rewrite Hc. }
  constructor; try done.
  - constructor; rewrite ?Hp, ?Hs, ?Hu; done.
  - by rewrite Hc, app_nil_r.
Qed.

Lemma bytes_zeros n : bytes (zeros n).
Proof. apply Forall_replicate. unfold is_byte. lia. Qed.

(** Reserving the header of a new message exposes the zeros it was allocated
    with. *)
Lemma put_header b : fresh_buf RADIUS_DEFAULT_MSG_SIZE b ->
  exists b', wpabuf_put b HDR_LEN = Done (0, b') /\ wpabuf_wf b' /\ content b' = zeros 20.
Proof.
  intros (Hwf & _ & Hs & Hu & Hb). unfold wpabuf_put, wpabuf_len, content. rewrite Hu, Hs.
  change (RADIUS_DEFAULT_MSG_SIZE <? u64 (0 + HDR_LEN)) with false. cbv iota.
  eexists. split; [done|]. cbn [wb_used wb_buf]. rewrite Hb. split; [|done].
  destruct Hwf. constructor; cbn [wb_used wb_buf wb_size]; rewrite <- ?Hb, ?Hs in *; try done.
Qed.

Lemma set_hdr_spec m a b rest attrs code identifier e :
  msg_rep m (a :: b :: rest) attrs -> is_byte code -> is_byte identifier ->
  exists m', radius_msg_set_hdr m code identifier e = Done (m', e) /\
    msg_rep m' (code :: identifier :: rest) attrs.
Proof.
  intros Hrep Hc Hi. unfold radius_msg_set_hdr. rewrite !u8_id by done.
  destruct (msg_write_hdr m _ _ [] [a] (b :: rest) [code] e Hrep)
    as (m1 & Hw & Hrep1 & _); [done..|by constructor|].
  erewrite bind_run by exact Hw.
  destruct (msg_write_hdr m1 _ _ [code] [b] rest [identifier] e Hrep1)
    as (m2 & Hw2 & Hrep2 & _); [done..|by constructor|].
  by exists m2.
Qed.

Lemma radius_msg_new_spec code identifier e : is_byte code -> is_byte identifier ->
  exists om e', radius_msg_new code identifier e = Done (om, e') /\ env_ok e e' (om <> None) /\
    forall m, om = Some m -> msg_rep m (code :: identifier :: zeros 18) [].
Proof.
  intros Hcode Hid. unfold radius_msg_new.
  destruct (malloc_ok e) as (ok & e1 & Hm & Henv0). erewrite bind_run by done.
  destruct ok; cbn [negb]; cycle 1.
  { eexists _, _. split; [done|]. split; [|done]. by eapply env_ok_mono. }
  destruct (wpabuf_alloc_spec RADIUS_DEFAULT_MSG_SIZE e1) as (ob & e2 & Ha & Henv1 & Hf);
    [by vm_compute; split|].
  erewrite bind_run by exact Ha. pose proof (env_ok_trans _ _ _ _ _ Henv0 Henv1) as Henv2.
  destruct ob as [b|]; cycle 1.
  { eexists _, _. split; [done|]. split; [|done]. by eapply env_ok_mono. }
  destruct (msg_initialize_spec b e2) as (om & e3 & Hi & Henv3 & Hmsg).
  erewrite bind_run by exact Hi. pose proof (env_ok_trans _ _ _ _ _ Henv2 Henv3) as Henv4.
  destruct om as [m0|]; cycle 1.
  { eexists _, _. split; [done|]. split; [|done]. by eapply env_ok_mono. }
  destruct (Hmsg m0 eq_refl) as (-> & Hpos & Hsize).
  destruct (put_header b (Hf b eq_refl)) as (b1 & Hp & Hw1 & Hc1).
  erewrite bind_run by (by rewrite Hp). cbn [snd].
  pose proof (msg_rep_empty (with_buf m0 b1) (zeros 20) Hw1 eq_refl Hc1 Hpos Hsize) as Hrep.
  destruct (set_hdr_spec _ _ _ _ _ code identifier e3 Hrep Hcode Hid) as (m & Hset & Hm').
  erewrite bind_run by exact Hset. eexists _, _. split; [done|]. split.
  - by eapply env_ok_mono.
  - by intros ? [= <-].
Qed.

(** ** Parsing *)

(** One attribute at the front of a byte sequence. *)
Lemma encode_inj_cons t len rest attrs :
  t :: len :: rest = encode attrs ->
  exists d attrs', attrs = (t, d) :: attrs' /\ len = ATTR_HDR_LEN + zlen d /\
    rest = d ++ encode attrs'.
Proof.
  destruct attrs as [|[t' d] attrs']; [done|]. rewrite encode_cons. unfold encode_attr. simpl.
  intros [= -> -> ->]. eauto.
Qed.

Lemma split_attr rest len : bytes rest -> ATTR_HDR_LEN <= len <= zlen rest ->
  rest !! 1%nat = Some len ->
  exists t d rest', rest = encode_attr (t, d) ++ rest' /\ len = ATTR_HDR_LEN + zlen d /\
    attr_ok (t, d) /\ bytes rest'.
Proof.
  unfold ATTR_HDR_LEN. intros Hb Hlen Hl. destruct rest as [|t [|len' rest]]; try done.
  simpl in Hl. injection Hl as ->.
  apply List.Forall_cons_iff in Hb as [Ht Hb]. apply List.Forall_cons_iff in Hb as [Hlb Hb].
  exists t, (take (Z.to_nat (len - 2)) rest), (drop (Z.to_nat (len - 2)) rest).
  assert (zlen (take (Z.to_nat (len - 2)) rest) = len - 2) as Hz by zlen_lia.
  unfold encode_attr, ATTR_HDR_LEN. simpl. rewrite Hz. split.
  { rewrite take_drop. do 2 f_equal. lia. }
  split; [lia|]. split; [|by apply Forall_drop].
  split; [done|]. split; [by apply Forall_take|].
  simpl. rewrite Hz. unfold RADIUS_MAX_ATTR_LEN, ATTR_HDR_LEN, is_byte in *. lia.
Qed.

Lemma encode_short attrs : 2 * zlen attrs <= zlen (encode attrs).
Proof.
  induction attrs as [|a rest IH]; [done|].
  rewrite encode_cons, zlen_cons, zlen_app, zlen_encode_attr.
  pose proof (zlen_nonneg a.2). unfold ATTR_HDR_LEN. lia.
Qed.

(** The state of the parsing loop: the array holds the attributes [attrs]
    found before offset [pos], [rest] is still to be read. *)
Record parsing (m : radius_msg) (hdr : list Z) (attrs : list attr) (rest : list Z) : Prop := {
  pa_wf : msg_wf m;
  pa_hdr : zlen hdr = HDR_LEN;
  pa_content : content (msg_buf m) = hdr ++ encode attrs ++ rest;
  pa_pos : attr_pos m = positions HDR_LEN attrs;
  pa_attrs : Forall attr_ok attrs
}.

Lemma parsing_rep m hdr attrs : parsing m hdr attrs [] -> msg_rep m hdr attrs.
Proof. intros []. constructor; try done. by rewrite app_nil_r in pa_content0. Qed.

Lemma parsing_step m m' hdr attrs t d rest :
  parsing m hdr attrs (encode_attr (t, d) ++ rest) -> attr_ok (t, d) ->
  msg_buf m' = msg_buf m -> attr_pos m' = attr_pos m ++ [HDR_LEN + zlen (encode attrs)] ->
  zlen (attr_pos m') <= attr_size m' <= Z.max 16 (2 * zlen (attr_pos m')) ->
  0 < attr_size m' -> parsing m' hdr (attrs ++ [(t, d)]) rest.
Proof.
  intros Hpa Hok Hbuf Hpos Hroom Hsz.
  pose proof (pa_wf _ _ _ _ Hpa) as Hwf. pose proof (pa_content _ _ _ _ Hpa) as Hc.
  pose proof (pa_hdr _ _ _ _ Hpa) as Hh.
  assert (attr_pos m' = positions HDR_LEN (attrs ++ [(t, d)])) as Hp'.
  { by rewrite Hpos, (pa_pos _ _ _ _ Hpa), positions_app. }
  assert (content (msg_buf m') = hdr ++ encode (attrs ++ [(t, d)]) ++ rest) as Hc'.
  { by rewrite Hbuf, Hc, encode_app, encode_single, <- app_assoc. }
  constructor; try done; cycle 1.
  { apply Forall_app. split; [apply Hpa|]. by repeat constructor; apply Hok. }
  assert (wpabuf_wf (msg_buf m')) as Hwb by (rewrite Hbuf; apply Hwf).
  constructor; try done.
  - rewrite Hbuf. apply Hwf.
  - rewrite Hp', Hc', app_assoc, <- Hh.
    eapply Forall_impl; [|apply attrs_at_positions; lia]. intros. by apply attr_at_app.
  - rewrite <- (zlen_content _ Hwb), Hc', Hp', zlen_positions, !zlen_app.
    pose proof (encode_short (attrs ++ [(t, d)])). pose proof (zlen_nonneg rest).
    pose proof (zlen_nonneg hdr). rewrite zlen_app in *. lia.
Qed.

Lemma parsing_len m hdr attrs t len rest :
  parsing m hdr attrs (t :: len :: rest) ->
  rd1 (wb_buf (msg_buf m)) (HDR_LEN + zlen (encode attrs) + 1) = Done len.
Proof.
  intros Hpa. pose proof (pa_wf _ _ _ _ Hpa) as Hwf. pose proof (zlen_nonneg (encode attrs)).
  apply rd1_content; [apply Hwf|unfold HDR_LEN; lia|].
  rewrite (pa_content _ _ _ _ Hpa). change (t :: len :: rest) with ([t] ++ len :: rest).
  rewrite !app_assoc. rewrite <- (pa_hdr _ _ _ _ Hpa).
  replace (Z.to_nat _) with (length ((hdr ++ encode attrs) ++ [t])) by zlen_lia.
  apply lookup_mid.
Qed.

(** The state from which the array grows. *)
Lemma parsing_array m hdr attrs rest p e : parsing m hdr attrs rest ->
  exists r m' e', radius_msg_add_attr_to_array m p e = Done ((r, m'), e') /\
    env_ok e e' (r = 0) /\ msg_buf m' = msg_buf m /\
    (r = -1 /\ m' = m \/
     r = 0 /\ attr_pos m' = attr_pos m ++ [p] /\
     zlen (attr_pos m') <= attr_size m' <= Z.max 16 (2 * zlen (attr_pos m')) /\
     0 < attr_size m').
Proof.
  intros Hpa. pose proof (pa_wf _ _ _ _ Hpa) as Hwf. pose proof (mw_buf m Hwf) as Hb.
  apply add_to_array_spec; try apply Hwf.
  pose proof (mw_short m Hwf). pose proof (wf_used _ Hb). pose proof (wf_max _ Hb).
  unfold PTRDIFF_MAX, sizeof_wpabuf in *. lia.
Qed.

(** The loop accepts exactly the bytes that are a sequence of attributes. *)
Lemma parse_attrs_spec hdr fuel : forall m attrs rest e,
  parsing m hdr attrs rest -> bytes rest -> (length rest <= fuel)%nat ->
  exists om e', radius_msg_parse_attrs fuel m (HDR_LEN + zlen (encode attrs))
      (HDR_LEN + zlen (encode attrs) + zlen rest) e = Done (om, e') /\
    env_ok e e' (om = None -> forall attrs', rest <> encode attrs') /\
    forall m', om = Some m' -> exists attrs', rest = encode attrs' /\
      msg_rep m' hdr (attrs ++ attrs').
Proof.
  induction fuel as [|fuel IH]; intros m attrs rest e Hpa Hb Hfuel;
    simpl radius_msg_parse_attrs; pose proof (zlen_nonneg rest);
    destruct (Z.leb_spec (HDR_LEN + zlen (encode attrs) + zlen rest)
                (HDR_LEN + zlen (encode attrs))) as [Hend|Hmore].
  1, 3: assert (rest = []) as -> by (destruct rest; [done|zlen_lia]);
    eexists _, _; (split; [done|]); (split; [by apply env_ok_refl|]);
    intros m' [= <-]; exists []; rewrite app_nil_r; split; [done|by apply parsing_rep].
  { zlen_lia. }
  set (pos := HDR_LEN + zlen (encode attrs)) in *.
  replace (pos + zlen rest - pos) with (zlen rest) by lia.
  destruct (Z.ltb_spec (zlen rest) ATTR_HDR_LEN) as [Hsh|Hsh].
  { eexists _, _. split; [done|]. split; [|done]. apply env_ok_refl. intros _ l ->.
    pose proof (encode_short l). unfold ATTR_HDR_LEN in *. destruct l; [|zlen_lia].
    change (encode []) with (@nil Z) in *. zlen_lia. }
  destruct rest as [|t [|len rest]]; try (unfold ATTR_HDR_LEN in *; zlen_lia).
  pose proof (parsing_len _ _ _ _ _ _ Hpa) as Hrd. fold pos in Hrd.
  erewrite bind_run by (by rewrite Hrd).
  destruct ((zlen (t :: len :: rest) <? len) || (len <? ATTR_HDR_LEN)) eqn:Hbad.
  { eexists _, _. split; [done|]. split; [|done]. apply env_ok_refl. intros _ l Hl.
    apply encode_inj_cons in Hl as (d & l' & -> & -> & ->). unfold ATTR_HDR_LEN in *.
    pose proof (zlen_nonneg d). pose proof (zlen_nonneg (encode l')). zlen_lia. }
  apply orb_false_iff in Hbad as [Hb1 Hb2]. apply Z.ltb_ge in Hb1, Hb2.
  destruct (split_attr (t :: len :: rest) len Hb) as (t' & d & rest' & Heq & Hlen & Hok & Hbr);
    [lia|done|].
  destruct (parsing_array m hdr attrs _ pos e Hpa) as (r & m1 & e1 & Ha & Henv & Hbuf & Hcase).
  erewrite bind_run by exact Ha. cbn [fst snd].
  destruct Hcase as [[-> ->]|(-> & Hpos & Hroom & Hsz)].
  { eexists _, _. split; [done|]. split; [|done]. by eapply env_ok_mono. }
  rewrite Heq in *.
  pose proof (parsing_step m m1 hdr attrs t' d rest' Hpa Hok Hbuf Hpos Hroom Hsz) as Hpa1.
  assert (length rest' <= fuel)%nat as Hf1.
  { rewrite length_app in Hfuel. unfold encode_attr in Hfuel. simpl in Hfuel. lia. }
  destruct (IH m1 (attrs ++ [(t', d)]) rest' e1 Hpa1 Hbr Hf1) as (om & e2 & Hrun & Henv2 & Hsome).
  replace (HDR_LEN + zlen (encode (attrs ++ [(t', d)]))) with (pos + len) in Hrun.
  2: { rewrite encode_app, encode_single, zlen_app, zlen_encode_attr. subst pos. simpl. lia. }
  exists om, e2. rewrite zlen_app, zlen_encode_attr. cbn [snd]. cbn [Z.eqb]. split.
  { rewrite <- Hrun. f_equal. lia. }
  split.
  - eapply env_ok_mono; [by eapply env_ok_trans|]. intros Hnone Hom l Hl.
    unfold encode_attr in Hl. apply encode_inj_cons in Hl as (d2 & l' & -> & Hd2 & Hr).
    cbn [fst snd] in *. apply app_inj_1 in Hr as [-> ->]; [|zlen_lia].
    by apply (Hnone Hom l').
  - intros m' Hm'. destruct (Hsome m' Hm') as (l & -> & Hrep).
    exists ((t', d) :: l). rewrite <- app_assoc in Hrep. done.
Qed.

(** The byte string [data] starts with a RADIUS packet: a header, whose length
    field covers the header and the attributes, and the attributes. *)
Definition packet (data hdr : list Z) (attrs : list attr) : Prop :=
  zlen hdr = HDR_LEN /\
  be16 (take 2 (drop 2 data)) = zlen (hdr ++ encode attrs) /\
  exists trailing, data = (hdr ++ encode attrs) ++ trailing.

Lemma be16_range l : bytes l -> 0 <= be16 l < 65536.
Proof.
  intros Hb. unfold be16. destruct l as [|a [|b [|]]]; try lia.
  apply List.Forall_cons_iff in Hb as [Ha Hb]. apply List.Forall_cons_iff in Hb as [Hb _].
  unfold is_byte in *. lia.
Qed.

(** The loop started on the copied bytes. *)
Lemma parse_copied data n m e :
  n = be16 (take 2 (drop 2 data)) -> HDR_LEN <= n <= zlen data ->
  wpabuf_wf (msg_buf m) -> content (msg_buf m) = take (Z.to_nat n) data ->
  wb_used (msg_buf m) = n -> attr_pos m = [] -> attr_size m = 16 ->
  exists om e', radius_msg_parse_attrs (Z.to_nat n) m HDR_LEN n e = Done (om, e') /\
    env_ok e e' (om = None -> forall hdr attrs, ~ packet data hdr attrs) /\
    forall m', om = Some m' -> exists hdr attrs, packet data hdr attrs /\ msg_rep m' hdr attrs.
Proof.
  unfold HDR_LEN. intros Hn Hrange Hwf Hc Hu Hpos Hsize.
  set (hdr := take 20 data). set (rest := drop 20 (take (Z.to_nat n) data)).
  assert (zlen hdr = 20) as Hh by (subst hdr; zlen_lia).
  assert (zlen rest = n - 20) as Hr by (subst rest; zlen_lia).
  assert (take (Z.to_nat n) data = hdr ++ rest) as Hsplit.
  { subst hdr rest. rewrite <- (take_drop 20 (take (Z.to_nat n) data)) at 1.
    rewrite take_take. do 2 f_equal. lia. }
  assert (parsing m hdr [] rest) as Hpa.
  { constructor; try done; [|by rewrite Hc, Hsplit].
    constructor; rewrite ?Hpos, ?Hsize, ?Hu; try done;
      change (zlen (@nil Z)) with 0; unfold HDR_LEN; lia. }
  assert (bytes rest) as Hbr.
  { pose proof (bytes_content _ Hwf) as Hb. rewrite Hc, Hsplit in Hb.
    by apply Forall_app in Hb as [_ ?]. }
  destruct (parse_attrs_spec hdr (Z.to_nat n) m [] rest e Hpa Hbr) as (om & e' & Hrun & Henv & Hs);
    [zlen_lia|].
  change (zlen (encode [])) with 0 in Hrun. unfold HDR_LEN in Hrun.
  replace (20 + 0 + zlen rest) with n in Hrun by lia.
  exists om, e'. split; [done|]. split.
  - eapply env_ok_mono; [done|]. intros Hno Hom h l (Hlh & Hlen & tr & Hd).
    apply (Hno Hom l). rewrite Hlen in Hn. rewrite Hn, Hd, to_nat_zlen, take_app_length in Hsplit.
    apply app_inj_1 in Hsplit as [_ ->]; [done|]. unfold HDR_LEN in Hlh. zlen_lia.
  - intros m' Hm. destruct (Hs m' Hm) as (l & Hl & Hrep). exists hdr, l. split; [|done].
    split; [done|]. rewrite <- Hl, <- Hsplit, <- Hn. split; [zlen_lia|].
    exists (drop (Z.to_nat n) data). by rewrite take_drop.
Qed.

Lemma radius_msg_parse_spec data e : bytes data ->
  exists om e', radius_msg_parse (Some data) (zlen data) e = Done (om, e') /\
    env_ok e e' (om = None -> forall hdr attrs, ~ packet data hdr attrs) /\
    forall m, om = Some m -> exists hdr attrs, packet data hdr attrs /\ msg_rep m hdr attrs.
Proof.
  intros Hb. unfold radius_msg_parse.
  assert (forall hdr attrs, packet data hdr attrs -> HDR_LEN <= zlen (hdr ++ encode attrs) <= zlen data)
    as Hpk.
  { intros hdr attrs (Hh & _ & tr & ->). pose proof (zlen_nonneg (encode attrs)).
    pose proof (zlen_nonneg tr). rewrite !zlen_app. lia. }
  destruct (Z.ltb_spec (zlen data) HDR_LEN) as [Hshort|Hlong].
  { eexists _, _. split; [done|]. split; [|done]. apply env_ok_refl.
    intros _ hdr attrs Hp. apply Hpk in Hp. lia. }
  erewrite bind_run; cycle 1.
  { unfold OFF_LENGTH, HDR_LEN in *.
    rewrite (proj2 (rd_done data 2 2 (take 2 (drop 2 data)))); [done|]. repeat split; lia. }
  remember (be16 (take 2 (drop 2 data))) as n eqn:Hn.
  assert (0 <= n < 65536) as Hn16.
  { rewrite Hn. by apply be16_range, Forall_take, Forall_drop. }
  destruct ((n <? HDR_LEN) || (zlen data <? n)) eqn:Hbad.
  { eexists _, _. split; [done|]. split; [|done]. apply env_ok_refl.
    intros _ hdr attrs Hp. pose proof (Hpk _ _ Hp). destruct Hp as (_ & Hn' & _).
    unfold HDR_LEN in *. lia. }
  apply orb_false_iff in Hbad as [Hb1 Hb2]. apply Z.ltb_ge in Hb1, Hb2.
  destruct (malloc_ok e) as (ok & e1 & Hm & Henv0). erewrite bind_run by done.
  destruct ok; cbn [negb]; cycle 1.
  { eexists _, _. split; [done|]. split; [|done]. by eapply env_ok_mono. }
  destruct (wpabuf_alloc_copy_spec data n e1 Hb) as (ob & e2 & Ha & Henv1 & Hf);
    [lia|unfold PTRDIFF_MAX, sizeof_wpabuf; lia|].
  erewrite bind_run by exact Ha. pose proof (env_ok_trans _ _ _ _ _ Henv0 Henv1) as Henv2.
  destruct ob as [b|]; cycle 1.
  { eexists _, _. split; [done|]. split; [|done]. by eapply env_ok_mono. }
  destruct (Hf b eq_refl) as (Hwf & Hcont & Hu & _).
  destruct (msg_initialize_spec b e2) as (om & e3 & Hi & Henv3 & Hmsg).
  erewrite bind_run by exact Hi. pose proof (env_ok_trans _ _ _ _ _ Henv2 Henv3) as Henv4.
  destruct om as [m0|]; cycle 1.
  { eexists _, _. split; [done|]. split; [|done]. by eapply env_ok_mono. }
  destruct (Hmsg m0 eq_refl) as (Hbuf & Hpos & Hsize). cbn beta iota.
  unfold wpabuf_len. rewrite Hbuf, Hu.
  destruct (parse_copied data n m0 e3) as (om & e4 & Hrun & Henv5 & Hs);
    [done|lia|by rewrite Hbuf..|done|done|].
  exists om, e4. split; [done|]. split; [by eapply env_ok_trans|done].
Qed.

(** C23.  [radius_msg_parse] never faults, whatever bytes arrive and whatever the
    allocator answers.  A message it returns represents the packet at the
    start of the data (header, length field and attributes); and when memory
    lasts it returns null only if the data does not start with a packet. *)
Theorem radius_msg_parse_correct data e :
  bytes data ->
  exists om e', radius_msg_parse (Some data) (zlen data) e = Done (om, e') /\
    (forall m, om = Some m -> exists hdr attrs, packet data hdr attrs /\ msg_rep m hdr attrs) /\
    (mallocs e = [] -> om = None -> forall hdr attrs, ~ packet data hdr attrs).
Proof.
  intros Hb. destruct (radius_msg_parse_spec data e Hb) as (om & e' & Hrun & [_ Henv] & Hs).
  exists om, e'. split; [done|]. split; [done|]. intros He. by apply Henv.
Qed.

Lemma radius_msg_parse_correct_witness :
  exists om e', radius_msg_parse (Some (1 :: 7 :: 0 :: 23 :: zeros 16 ++ [1; 3; 97])) 
      (zlen (1 :: 7 :: 0 :: 23 :: zeros 16 ++ [1; 3; 97])) (Env [] []) = Done (om, e') /\
    (forall m, om = Some m -> exists hdr attrs,
       packet (1 :: 7 :: 0 :: 23 :: zeros 16 ++ [1; 3; 97]) hdr attrs /\ msg_rep m hdr attrs) /\
    ([] = @nil bool -> om = None -> forall hdr attrs,
       ~ packet (1 :: 7 :: 0 :: 23 :: zeros 16 ++ [1; 3; 97]) hdr attrs).
Proof.
  apply (radius_msg_parse_correct (1 :: 7 :: 0 :: 23 :: zeros 16 ++ [1; 3; 97]) (Env [] [])).
  repeat constructor; vm_compute; congruence.
Defined.

(** ** A concrete message *)

(** An Access-Request without attributes. *)
Definition sample_msg : radius_msg :=
  {| msg_buf := {| wb_size := 20; wb_used := 20; wb_buf := [1; 7; 0; 20] ++ zeros 16;
                   wb_ext := false |};
     attr_pos := []; attr_size := 16 |}.

Lemma sample_rep : msg_rep sample_msg ([1; 7; 0; 20] ++ zeros 16) [].
Proof.
  apply msg_rep_empty; try done. constructor; try done. by repeat constructor.
Qed.

Lemma sample_small : msg_small sample_msg.
Proof. by vm_compute. Qed.

Lemma radius_msg_add_attr_correct_witness :
  exists m', radius_msg_add_attr sample_msg 1 (Some (cstr "user")) 4 (Env [] []) =
      Done ((Some 20, m'), Env [] []) /\
    msg_rep m' ([1; 7; 0; 20] ++ zeros 16) [(1, cstr "user")].
Proof.
  refine (proj2 (radius_msg_add_attr_correct sample_msg ([1; 7; 0; 20] ++ zeros 16) [] 1
    (cstr "user") (Env [] []) sample_rep sample_small _ _) eq_refl).
  - split; done.
  - repeat constructor; done.
Defined.
