(* ===== verification/RadiusAttr.v ===== *)
(** What the readers of a RADIUS message compute ([src/radius/radius.c]): the
    loops over the attributes of a represented message are loops over its
    attribute list, EAP messages survive fragmentation, an attribute that was
    added is found again, and the VLAN of a tunnel is read back. *)
From stdpp Require Import base list strings numbers.
From Stdlib Require Import ZArith Lia.
From S2P Require Import Prelude Os Wpabuf RadiusMsg.

(** ** Loops over represented attributes *)

(** A loop over the attribute list, with the same early exit. *)
Fixpoint pure_loop {A R} (f : attr -> A -> A + R) (attrs : list attr) (acc : A) : A + R :=
  match attrs with
  | [] => inl acc
  | a :: rest =>
      match f a acc with
      | inl acc' => pure_loop f rest acc'
      | inr r => inr r
      end
  end.

(** Reading the header and the value of a represented attribute. *)
Section read_attr.
Context (m : radius_msg) (hdr : list Z) (pre : list attr) (t : Z) (d : list Z) (post : list attr).
Hypothesis Hrep : msg_rep m hdr (pre ++ (t, d) :: post).

Lemma rep_split : content (msg_buf m) = (hdr ++ encode pre) ++ t :: (2 + zlen d) :: d ++ encode post.
Proof. by rewrite (rep_content _ _ _ Hrep), encode_app, encode_cons, app_assoc. Qed.

Lemma zlen_pre : zlen (hdr ++ encode pre) = HDR_LEN + zlen (encode pre).
Proof. by rewrite zlen_app, (rep_hdr _ _ _ Hrep). Qed.

Lemma read_type : rd1 (wb_buf (msg_buf m)) (HDR_LEN + zlen (encode pre)) = Done t.
Proof.
  pose proof (zlen_nonneg (encode pre)).
  apply rd1_content; [apply Hrep|unfold HDR_LEN; lia|].
  rewrite rep_split, <- zlen_pre, to_nat_zlen. apply lookup_mid.
Qed.

Lemma read_len : rd1 (wb_buf (msg_buf m)) (HDR_LEN + zlen (encode pre) + 1) = Done (2 + zlen d).
Proof.
  pose proof (zlen_nonneg (encode pre)).
  apply rd1_content; [apply Hrep|unfold HDR_LEN; lia|].
  rewrite rep_split. change (t :: ?l) with ([t] ++ l). rewrite app_assoc, <- zlen_pre.
  replace (Z.to_nat _) with (length ((hdr ++ encode pre) ++ [t])) by zlen_lia.
  apply lookup_mid.
Qed.

Lemma read_value e :
  msg_read m (HDR_LEN + zlen (encode pre) + ATTR_HDR_LEN) (2 + zlen d - ATTR_HDR_LEN) e = Done (d, e).
Proof.
  pose proof (zlen_nonneg (encode pre)). pose proof (zlen_nonneg d).
  pose proof (zlen_nonneg (encode post)). unfold msg_read.
  pose proof (mw_buf m (rep_wf _ _ _ Hrep)) as Hb.
  assert (rd (wb_buf (msg_buf m)) (HDR_LEN + zlen (encode pre) + ATTR_HDR_LEN)
    (2 + zlen d - ATTR_HDR_LEN) = Done d) as ->; [|done].
  rewrite rd_content; try done; unfold HDR_LEN, ATTR_HDR_LEN in *; try lia.
  - rewrite rep_split. change (t :: 2 + zlen d :: d ++ encode post) with
      ([t; 2 + zlen d] ++ d ++ encode post). rewrite app_assoc. apply rd_app; [|lia].
    rewrite zlen_app. pose proof zlen_pre. unfold HDR_LEN in *. change (zlen [_; _]) with 2. lia.
  - rewrite <- (zlen_content _ Hb), rep_split. autorewrite with zlen.
    pose proof (rep_hdr _ _ _ Hrep). unfold HDR_LEN in *. lia.
Qed.
End read_attr.

(** Reading anywhere in the bytes in use. *)
Lemma rep_read_slice m hdr attrs pre mid post e :
  msg_rep m hdr attrs -> hdr ++ encode attrs = pre ++ mid ++ post ->
  msg_read m (zlen pre) (zlen mid) e = Done (mid, e).
Proof.
  intros Hrep Hc. unfold msg_read. pose proof (mw_buf m (rep_wf _ _ _ Hrep)) as Hb.
  rewrite rd_content; [|done|apply zlen_nonneg..|].
  - rewrite (rep_content _ _ _ Hrep), Hc, rd_app by done. done.
  - rewrite <- (zlen_content _ Hb), (rep_content _ _ _ Hrep), Hc, !zlen_app.
    pose proof (zlen_nonneg post). lia.
Qed.

Lemma rep_read1 m hdr attrs pre x post :
  msg_rep m hdr attrs -> hdr ++ encode attrs = pre ++ x :: post ->
  rd1 (wb_buf (msg_buf m)) (zlen pre) = Done x.
Proof.
  intros Hrep Hc. apply rd1_content; [apply Hrep|apply zlen_nonneg|].
  rewrite (rep_content _ _ _ Hrep), Hc, to_nat_zlen. apply lookup_mid.
Qed.

Lemma attr_loop_pure {A R} m hdr (body : Z -> Z -> Z -> A -> M (A + R)) f post : forall pre acc e,
  msg_rep m hdr (pre ++ post) ->
  (forall pre' t d post' acc e, pre ++ post = pre' ++ (t, d) :: post' ->
     body (HDR_LEN + zlen (encode pre')) t (2 + zlen d) acc e = Done (f (t, d) acc, e)) ->
  attr_loop (msg_buf m) body (positions (HDR_LEN + zlen (encode pre)) post) acc e =
    Done (pure_loop f post acc, e).
Proof.
  induction post as [|[t d] post IH]; intros pre acc e Hrep Hbody; [done|]. simpl.
  rewrite (read_type m hdr pre t d post Hrep). erewrite bind_run by done.
  rewrite (read_len m hdr pre t d post Hrep). erewrite bind_run by done.
  erewrite bind_run by (by eapply Hbody). destruct (f (t, d) acc) as [acc'|r]; [|done].
  replace (HDR_LEN + zlen (encode pre) + zlen (encode_attr (t, d))) with
    (HDR_LEN + zlen (encode (pre ++ [(t, d)])))
    by (rewrite encode_app, encode_single, zlen_app; lia).
  apply IH; rewrite <- app_assoc; done.
Qed.

Lemma for_attrs_pure {A R} m hdr attrs (body : Z -> Z -> Z -> A -> M (A + R)) f acc e :
  msg_rep m hdr attrs ->
  (forall pre t d post acc e, attrs = pre ++ (t, d) :: post ->
     body (HDR_LEN + zlen (encode pre)) t (2 + zlen d) acc e = Done (f (t, d) acc, e)) ->
  for_attrs m body acc e = Done (pure_loop f attrs acc, e).
Proof.
  intros Hrep Hbody. unfold for_attrs. rewrite (rep_pos _ _ _ Hrep).
  apply (attr_loop_pure m hdr body f attrs [] acc e); done.
Qed.

(** The invariant rule for a loop over represented attributes: [Inv pre] holds
    before the attribute after [pre], [Exit] when the loop is left early. *)
Lemma attr_loop_inv {A R} m hdr (body : Z -> Z -> Z -> A -> M (A + R))
    (Inv : list attr -> A -> env -> Prop) (Exit : R -> env -> Prop) post : forall pre acc e,
  msg_rep m hdr (pre ++ post) ->
  (forall pre' t d post' acc e, pre ++ post = pre' ++ (t, d) :: post' -> Inv pre' acc e ->
     exists r e', body (HDR_LEN + zlen (encode pre')) t (2 + zlen d) acc e = Done (r, e') /\
       match r with inl acc' => Inv (pre' ++ [(t, d)]) acc' e' | inr x => Exit x e' end) ->
  Inv pre acc e ->
  exists r e', attr_loop (msg_buf m) body (positions (HDR_LEN + zlen (encode pre)) post) acc e =
      Done (r, e') /\
    match r with inl acc' => Inv (pre ++ post) acc' e' | inr x => Exit x e' end.
Proof.
  induction post as [|[t d] post IH]; intros pre acc e Hrep Hbody Hinv.
  { rewrite app_nil_r. by eexists (inl acc), e. }
  simpl. rewrite (read_type m hdr pre t d post Hrep). erewrite bind_run by done.
  rewrite (read_len m hdr pre t d post Hrep). erewrite bind_run by done.
  destruct (Hbody pre t d post acc e eq_refl Hinv) as (r & e' & Hrun & Hr).
  erewrite bind_run by exact Hrun. destruct r as [acc'|x]; [|by eexists (inr x), e'].
  replace (HDR_LEN + zlen (encode pre) + zlen (encode_attr (t, d))) with
    (HDR_LEN + zlen (encode (pre ++ [(t, d)])))
    by (rewrite encode_app, encode_single, zlen_app; lia).
  replace (pre ++ (t, d) :: post) with ((pre ++ [(t, d)]) ++ post) in *
    by (by rewrite <- app_assoc).
  by apply IH.
Qed.

Lemma for_attrs_inv {A R} m hdr attrs (body : Z -> Z -> Z -> A -> M (A + R))
    (Inv : list attr -> A -> env -> Prop) (Exit : R -> env -> Prop) acc e :
  msg_rep m hdr attrs ->
  (forall pre t d post acc e, attrs = pre ++ (t, d) :: post -> Inv pre acc e ->
     exists r e', body (HDR_LEN + zlen (encode pre)) t (2 + zlen d) acc e = Done (r, e') /\
       match r with inl acc' => Inv (pre ++ [(t, d)]) acc' e' | inr x => Exit x e' end) ->
  Inv [] acc e ->
  exists r e', for_attrs m body acc e = Done (r, e') /\
    match r with inl acc' => Inv attrs acc' e' | inr x => Exit x e' end.
Proof.
  intros Hrep Hbody Hinv. unfold for_attrs. rewrite (rep_pos _ _ _ Hrep).
  by apply (attr_loop_inv m hdr body Inv Exit attrs [] acc e).
Qed.

(** ** EAP *)

(** The EAP payload of an attribute list. *)
Definition eap_payload (attrs : list attr) : list Z :=
  concat ((fun a => if a.1 =? RADIUS_ATTR_EAP_MESSAGE then a.2 else []) <$> attrs).

Lemma eap_payload_app x y : eap_payload (x ++ y) = eap_payload x ++ eap_payload y.
Proof. unfold eap_payload. by rewrite fmap_app, concat_app. Qed.

(** [is_eap] skips empty values, which carry nothing. *)
Lemma eap_step t d :
  eap_payload [(t, d)] = if is_eap t (2 + zlen d) then d else [].
Proof.
  unfold eap_payload, is_eap, ATTR_HDR_LEN. simpl. rewrite app_nil_r.
  destruct (t =? RADIUS_ATTR_EAP_MESSAGE); [|done]. simpl.
  destruct (Z.ltb_spec 2 (2 + zlen d)); [done|]. destruct d; [done|zlen_lia].
Qed.

Lemma zlen_eap_payload attrs : zlen (eap_payload attrs) <= zlen (encode attrs).
Proof.
  induction attrs as [|[t d] rest IH] using rev_ind; [done|].
  rewrite eap_payload_app, encode_app, encode_single, !zlen_app, zlen_encode_attr, eap_step.
  unfold ATTR_HDR_LEN. pose proof (zlen_nonneg d). simpl. case_match; zlen_lia.
Qed.

Lemma get_eap_len m hdr attrs e : msg_rep m hdr attrs ->
  for_attrs (R := False) m
    (fun _ ty len acc => mret (inl (if is_eap ty len then acc + (len - ATTR_HDR_LEN) else acc)))
    0 e = Done (inl (zlen (eap_payload attrs)), e).
Proof.
  intros Hrep.
  destruct (for_attrs_inv (R := False) m hdr attrs
    (fun _ ty len acc => mret (inl (if is_eap ty len then acc + (len - ATTR_HDR_LEN) else acc)))
    (fun pre acc e' => acc = zlen (eap_payload pre) /\ e' = e) (fun _ _ => False) 0 e Hrep)
    as (r & e' & -> & Hr); [|done|].
  - intros pre t d post acc e0 _ [-> ->]. eexists _, _. split; [done|]. split; [|done].
    rewrite eap_payload_app, zlen_app, eap_step. unfold ATTR_HDR_LEN.
    case_match; [lia|]. change (zlen (@nil Z)) with 0. lia.
  - destruct r as [acc|[]]. by destruct Hr as [-> ->].
Qed.

Lemma radius_msg_get_eap_rep m hdr attrs e :
  msg_rep m hdr attrs -> mallocs e = [] -> eap_payload attrs <> [] ->
  exists b, radius_msg_get_eap (Some m) e = Done (Some b, e) /\ wpabuf_wf b /\
    content b = eap_payload attrs.
Proof.
  intros Hrep He Hne. pose proof (mw_buf m (rep_wf _ _ _ Hrep)) as Hb.
  assert (0 < zlen (eap_payload attrs) <= PTRDIFF_MAX - sizeof_wpabuf) as Hlen.
  { split; [destruct (eap_payload attrs); [done|]; zlen_lia|].
    pose proof (rep_used _ _ _ Hrep). pose proof (zlen_eap_payload attrs).
    pose proof (wf_used _ Hb). pose proof (wf_max _ Hb). unfold HDR_LEN in *. lia. }
  unfold radius_msg_get_eap. erewrite bind_run by (by eapply get_eap_len).
  cbn [from_inl]. rewrite u64_small by (unfold sizeof_wpabuf in *; lia).
  rewrite (proj2 (Z.eqb_neq _ 0)) by lia.
  destruct (wpabuf_alloc_spec (zlen (eap_payload attrs)) e) as (ob & e1 & Ha & [_ Hok] & Hf); [lia|].
  destruct (Hok He) as [-> Hob]. erewrite bind_run by exact Ha. destruct ob as [b|]; [|done].
  destruct (Hf b eq_refl) as (Hwf & Hc & Hs & Hu & _). cbn beta iota.
  match goal with |- context [for_attrs m ?f b] => set (body := f) end.
  destruct (for_attrs_inv (R := False) m hdr attrs body
    (fun pre acc e' => wpabuf_wf acc /\ content acc = eap_payload pre /\
       wb_size acc = zlen (eap_payload attrs) /\ e' = e) (fun _ _ => False) b e Hrep)
    as (r & e' & Hrun & Hr).
  - intros pre t d post acc e0 Hat (Hwa & Hca & Hsa & ->). subst body. cbn beta.
    pose proof (eap_step t d) as Hstep. rewrite eap_payload_app, Hstep, <- Hca.
    destruct (is_eap t (2 + zlen d)).
    2: { eexists _, _. split; [done|]. by rewrite app_nil_r. }
    subst attrs. erewrite bind_run by (by eapply read_value). unfold ATTR_HDR_LEN.
    rewrite (put_data_bytes acc d _ d) by
      (rewrite <- (app_nil_r d) at 1; apply (rd_app [] d []); [done|lia]).
    destruct (put_bytes_fits acc d Hwa) as (b2 & Hp & Hw2 & Hc2 & Hs2 & _).
    + pose proof (rep_attrs _ _ _ Hrep) as Hat. apply Forall_app in Hat as [_ Hat].
      apply List.Forall_cons_iff in Hat as [(_ & ? & _) _]. done.
    + rewrite Hsa, <- (zlen_content _ Hwa), Hca, cons_middle, !eap_payload_app, Hstep, !zlen_app.
      pose proof (zlen_nonneg (eap_payload post)). lia.
    + rewrite Hp. erewrite bind_run by done. eexists _, _. split; [done|].
      cbn beta iota. by rewrite Hc2, Hs2.
  - done.
  - erewrite bind_run by exact Hrun. destruct r as [b'|[]]. destruct Hr as (Hw & Hc' & _ & ->).
    by exists b'.
Qed.

Lemma rd_all (d : list Z) : rd d 0 (zlen d) = Done d.
Proof. rewrite <- (app_nil_r d) at 1. by apply (rd_app [] d []). Qed.

(** The first bytes of an object. *)
Lemma rd_take (d : list Z) n : 0 <= n <= zlen d -> rd d 0 n = Done (take (Z.to_nat n) d).
Proof. intros. apply rd_done. repeat split; lia. Qed.

Lemma add_eap_loop_rep hdr fuel : forall m attrs data e,
  msg_rep m hdr attrs -> bytes data -> mallocs e = [] -> (length data <= fuel)%nat ->
  wb_used (msg_buf m) + 3 * zlen data + 255 <= PTRDIFF_MAX - sizeof_wpabuf ->
  exists m' chunks, radius_msg_add_eap_loop fuel m data e = Done ((1, m'), e) /\
    msg_rep m' hdr (attrs ++ ((fun c => (RADIUS_ATTR_EAP_MESSAGE, c)) <$> chunks)) /\
    concat chunks = data.
Proof.
  induction fuel as [|fuel IH]; intros m attrs data e Hrep Hb He Hf Hsm;
    simpl radius_msg_add_eap_loop; pose proof (zlen_nonneg data);
    destruct (Z.leb_spec (zlen data) 0) as [Hz|Hz].
  1, 3: assert (data = []) as -> by (destruct data; [done|zlen_lia]);
    exists m, []; by rewrite app_nil_r.
  { zlen_lia. }
  set (len := if RADIUS_MAX_ATTR_LEN <? zlen data then _ else _).
  assert (0 < len <= RADIUS_MAX_ATTR_LEN /\ len <= zlen data) as [Hlen Hle].
  { subst len. destruct (Z.ltb_spec RADIUS_MAX_ATTR_LEN (zlen data));
      unfold RADIUS_MAX_ATTR_LEN, ATTR_HDR_LEN in *; lia. }
  set (c := take (Z.to_nat len) data).
  assert (zlen c = len) as Hc by (subst c; zlen_lia).
  destruct (add_attr_rep m hdr attrs RADIUS_ATTR_EAP_MESSAGE data c e) as (m1 & Hrun & Hrep1);
    [done| | |rewrite Hc; apply rd_take; lia|done|].
  { unfold msg_small. lia. }
  { split; [done|]. split; [by apply Forall_take|]. simpl. lia. }
  rewrite Hc in Hrun. erewrite bind_run by exact Hrun. cbn [fst snd].
  destruct (IH m1 (attrs ++ [(RADIUS_ATTR_EAP_MESSAGE, c)]) (drop (Z.to_nat len) data) e)
    as (m2 & cs & Hrun2 & Hrep2 & Hcs); [done|by apply Forall_drop|done|zlen_lia| |].
  { rewrite (rep_used _ _ _ Hrep1), encode_app, encode_single, zlen_app, zlen_encode_attr.
    rewrite (rep_used _ _ _ Hrep) in Hsm. simpl. rewrite Hc. unfold ATTR_HDR_LEN.
    replace (zlen (drop (Z.to_nat len) data)) with (zlen data - len) by zlen_lia. lia. }
  exists m2, (c :: cs). split; [done|]. rewrite <- app_assoc in Hrep2. split; [done|].
  simpl. rewrite Hcs. apply take_drop.
Qed.

Lemma eap_payload_chunks cs :
  eap_payload ((fun c => (RADIUS_ATTR_EAP_MESSAGE, c)) <$> cs) = concat cs.
Proof. induction cs as [|c cs IH]; [done|]. simpl. by rewrite <- IH. Qed.

(**  EAP round trip: an EAP packet of any length added to a message, in as
    many EAP-Message attributes as it takes, is what [radius_msg_get_eap]
    reassembles from a message that carried no EAP before. *)
Theorem radius_msg_eap_roundtrip m hdr attrs data e :
  msg_rep m hdr attrs -> eap_payload attrs = [] -> bytes data -> data <> [] ->
  mallocs e = [] ->
  wb_used (msg_buf m) + 3 * zlen data + 255 <= PTRDIFF_MAX - sizeof_wpabuf ->
  exists m' b, radius_msg_add_eap m data e = Done ((1, m'), e) /\
    radius_msg_get_eap (Some m') e = Done (Some b, e) /\ content b = data.
Proof.
  intros Hrep Hno Hb Hne He Hsm.
  destruct (add_eap_loop_rep hdr (length data) m attrs data e) as (m' & cs & Hrun & Hrep' & Hcs);
    [done..|].
  destruct (radius_msg_get_eap_rep m' _ _ e Hrep' He) as (b & Hget & _ & Hc).
  { by rewrite eap_payload_app, Hno, eap_payload_chunks, Hcs. }
  exists m', b. split; [done|]. split; [done|].
  by rewrite Hc, eap_payload_app, Hno, eap_payload_chunks, Hcs.
Qed.

Lemma radius_msg_eap_roundtrip_witness :
  exists m' b, radius_msg_add_eap sample_msg (replicate 300 7) (Env [] []) =
      Done ((1, m'), Env [] []) /\
    radius_msg_get_eap (Some m') (Env [] []) = Done (Some b, Env [] []) /\
    content b = replicate 300 7.
Proof.
  apply (radius_msg_eap_roundtrip sample_msg ([1; 7; 0; 20] ++ zeros 16) []).
  - exact sample_rep.
  - reflexivity.
  - apply Forall_replicate. unfold is_byte. lia.
  - discriminate.
  - reflexivity.
  - vm_compute. congruence.
Defined.

(** ** Finding attributes *)

(** The first attribute of a type splits the list in one way. *)
Lemma first_split_unique (t : Z) (pre : list attr) : forall d post (pre' : list attr) d' post',
  pre ++ (t, d) :: post = pre' ++ (t, d') :: post' ->
  Forall (fun a => a.1 <> t) pre -> Forall (fun a => a.1 <> t) pre' ->
  pre = pre' /\ d = d' /\ post = post'.
Proof.
  induction pre as [|a pre IH]; intros d post [|b pre'] d' post' Heq Hp Hp'; simpl in Heq.
  - by simplify_eq.
  - simplify_eq. by apply List.Forall_cons_iff in Hp' as [? _].
  - simplify_eq. by apply List.Forall_cons_iff in Hp as [? _].
  - injection Heq as -> Heq. apply List.Forall_cons_iff in Hp as [_ Hp], Hp' as [_ Hp'].
    by destruct (IH _ _ _ _ _ Heq Hp Hp') as (-> & -> & ->).
Qed.

(** The first attribute of a type. *)
Definition first_attr (t : Z) (attrs : list attr) : option (list Z) :=
  snd <$> List.find (fun a => a.1 =? t) attrs.

Lemma find_attr_rep m hdr attrs t e : msg_rep m hdr attrs ->
  exists r, find_attr m t None e = Done (r, e) /\
    match first_attr t attrs with
    | None => r = None
    | Some d => exists pre t' post, attrs = pre ++ (t', d) :: post /\
        r = Some (HDR_LEN + zlen (encode pre), 2 + zlen d)
    end.
Proof.
  intros Hrep. unfold find_attr.
  match goal with |- context [for_attrs m ?f tt] => set (body := f) end.
  destruct (for_attrs_inv m hdr attrs body
    (fun pre _ e' => first_attr t pre = None /\ e' = e)
    (fun x e' => e' = e /\ exists pre t' d post, attrs = pre ++ (t', d) :: post /\
       x = (HDR_LEN + zlen (encode pre), 2 + zlen d) /\ first_attr t attrs = Some d)
    tt e Hrep) as (r & e' & Hrun & Hr); [|done|].
  - intros pre t' d post [] e0 Hat [Hnone ->]. subst body. cbn beta. rewrite andb_true_r.
    assert (forall l, first_attr t (pre ++ l) = first_attr t l) as Hskip.
    { intros l. unfold first_attr in *. revert Hnone. clear.
      induction pre as [|a pre IH]; simpl; [done|]. by destruct (a.1 =? t). }
    destruct (Z.eqb_spec t' t) as [->|Hne].
    + eexists _, _. split; [done|]. cbn beta iota. split; [done|].
      exists pre, t, d, post. split; [done|]. split; [done|].
      rewrite Hat, Hskip. unfold first_attr. simpl. by rewrite Z.eqb_refl.
    + eexists _, _. split; [done|]. cbn beta iota. split; [|done].
      rewrite Hskip. unfold first_attr. simpl. by rewrite (proj2 (Z.eqb_neq _ _)).
  - erewrite bind_run by exact Hrun. destruct r as [[]|x].
    + destruct Hr as [-> ->]. by eexists.
    + destruct Hr as (-> & pre & t' & d & post & Hat & -> & ->). eexists. split; [done|].
      by exists pre, t', post.
Qed.

Lemma get_attr_rep m hdr attrs t buf len e d :
  msg_rep m hdr attrs -> first_attr t attrs = Some d -> 0 <= len <= zlen buf ->
  radius_msg_get_attr m t (Some buf) len e =
    Done ((zlen d, Some (take (Z.to_nat len) d ++
             drop (length (take (Z.to_nat len) d)) buf)), e).
Proof.
  intros Hrep Hf Hlen. destruct (find_attr_rep m hdr attrs t e Hrep) as (r & Hrun & Hr).
  rewrite Hf in Hr. destruct Hr as (pre & t' & post & Hat & ->). subst attrs.
  unfold radius_msg_get_attr. erewrite bind_run by exact Hrun. cbn beta iota.
  pose proof (zlen_nonneg d). unfold ATTR_HDR_LEN.
  rewrite (proj2 (Z.ltb_ge _ _)) by lia. replace (2 + zlen d - 2) with (zlen d) by lia.
  pose proof (read_value m hdr pre t' d post Hrep e) as Hv. unfold ATTR_HDR_LEN in Hv.
  replace (2 + zlen d - 2) with (zlen d) in Hv by lia.
  assert (msg_read m (HDR_LEN + zlen (encode pre) + 2)
    (if len <? zlen d then len else zlen d) e = Done (take (Z.to_nat len) d, e)) as Hread.
  { destruct (Z.ltb_spec len (zlen d)).
    - unfold msg_read in *. destruct (rd _ _ (zlen d)) as [x|] eqn:Hx; [|done].
      injection Hv as ->. apply rd_done in Hx as (H1 & H2 & H3 & Hx).
      rewrite (proj2 (rd_done _ _ len (take (Z.to_nat len) d))); [done|].
      repeat split; try lia. rewrite Hx at 1. rewrite take_take. f_equal. lia.
    - rewrite Hv, take_ge by zlen_lia. done. }
  erewrite bind_run by exact Hread. rewrite wr_head by zlen_lia. done.
Qed.

(** What is added is found: after [radius_msg_add_attr_int32] of a type the
    message did not have, [radius_msg_get_attr_int32] returns the value, for
    every 32-bit value. *)
Theorem radius_msg_int32_roundtrip m hdr attrs t v e :
  msg_rep m hdr attrs -> msg_small m -> first_attr t attrs = None -> is_byte t ->
  0 <= v < 2 ^ 32 -> mallocs e = [] ->
  exists m', radius_msg_add_attr_int32 m t v e = Done ((1, m'), e) /\
    msg_rep m' hdr (attrs ++ [(t, WPA_PUT_BE32 v)]) /\
    radius_msg_get_attr_int32 m' t e = Done (Some v, e).
Proof.
  intros Hrep Hsm Hno Ht Hv He.
  destruct (add_attr_rep m hdr attrs t (WPA_PUT_BE32 v) (WPA_PUT_BE32 v) e) as (m' & Hrun & Hrep');
    [done|done| |apply rd_all|done|].
  { split; [done|]. split; [|done]. unfold WPA_PUT_BE32.
    repeat apply Forall_cons_2; try apply Forall_nil_2; rewrite land_ff; unfold is_byte; zdiv_lia. }
  exists m'. unfold radius_msg_add_attr_int32. erewrite bind_run by exact Hrun.
  split; [done|]. split; [done|].
  unfold radius_msg_get_attr_int32.
  erewrite bind_run; cycle 1.
  { eapply (get_attr_rep m' hdr _ t [0; 0; 0; 0] 4 e (WPA_PUT_BE32 v)); [exact Hrep'| |done].
    unfold first_attr in *. clear - Hno. induction attrs as [|a l IH]; simpl in *.
    - by rewrite Z.eqb_refl.
    - destruct (a.1 =? t); [done|]. by apply IH. }
  cbn [fst snd]. change (zlen (WPA_PUT_BE32 v)) with 4. change (negb (4 =? 4)) with false.
  cbv iota. change (take (Z.to_nat 4) (WPA_PUT_BE32 v) ++ _) with (WPA_PUT_BE32 v ++ []).
  change (WPA_GET_BE32 <$> Some ?x) with (Some (WPA_GET_BE32 x)).
  by rewrite wpa_be32_roundtrip.
Qed.

Lemma radius_msg_int32_roundtrip_witness :
  exists m', radius_msg_add_attr_int32 sample_msg 27 3600 (Env [] []) =
      Done ((1, m'), Env [] []) /\
    msg_rep m' ([1; 7; 0; 20] ++ zeros 16) [(27, WPA_PUT_BE32 3600)] /\
    radius_msg_get_attr_int32 m' 27 (Env [] []) = Done (Some 3600, Env [] []).
Proof.
  apply (radius_msg_int32_roundtrip sample_msg ([1; 7; 0; 20] ++ zeros 16) []).
  - exact sample_rep.
  - exact sample_small.
  - reflexivity.
  - split; done.
  - lia.
  - reflexivity.
Defined.
