(* ===== verification/RadiusAuth.v ===== *)
(** Authentication of RADIUS messages ([src/radius/radius.c]): the Message-
    Authenticator attribute (HMAC-MD5 over the whole message), the response
    authenticator and the accounting authenticators, made by the [finish]
    operations and checked by the [verify] operations.

    The theorems state completeness (what one side makes the other accepts),
    soundness (what is accepted carries the digest that the RFCs prescribe) and
    that verification leaves the message as it was, although it patches the
    buffer while it computes. *)
From stdpp Require Import base list strings numbers.
From Stdlib Require Import ZArith Lia.
From S2P Require Import Prelude Os Md5 Wpabuf RadiusMsg RadiusAttr.

(** ** Digests over the buffer *)

(** [hmac_md5] of the bytes in use, stored after the attribute header. *)
Definition store_hmac (msg : radius_msg) (secret : list Z) (attr : Z) : M radius_msg :=
  c ← msg_content msg;
  match edge_hmac_md5 secret c with
  | Some mac => msg_write msg (attr + ATTR_HDR_LEN) mac
  | None => mret msg
  end.

(** [md5_vector] of code, identifier and length, the authenticator [auth], the
    attributes and the secret. *)
Definition md5_response (msg : radius_msg) (auth secret : list Z) : M (list Z) :=
  h ← msg_read msg 0 4;
  a ← msg_read msg HDR_LEN (u64 (wpabuf_len (msg_buf msg) - HDR_LEN));
  mret (edge_md5_vector [h; auth; a; secret]).

(** [md5_vector] of the bytes in use and the secret. *)
Definition md5_message (msg : radius_msg) (secret : list Z) : M (list Z) :=
  c ← msg_content msg;
  mret (edge_md5_vector [c; secret]).

Definition too_long (msg : radius_msg) : bool := 65535 <? wpabuf_len (msg_buf msg).

(** ** Finishing *)

Definition add_msg_auth (msg : radius_msg) : M (option Z * radius_msg) :=
  radius_msg_add_attr msg RADIUS_ATTR_MESSAGE_AUTHENTICATOR (Some (zeros 16)) MD5_MAC_LEN.

Definition radius_msg_finish (msg : radius_msg) (secret : option (list Z)) :
    M (Z * radius_msg) :=
  match secret with
  | Some secret =>
      r ← add_msg_auth msg;
      match r.1 with
      | None => mret (-1, r.2)
      | Some attr =>
          m1 ← set_length r.2;
          m2 ← store_hmac m1 secret attr;
          mret (if too_long m2 then -1 else 0, m2)
      end
  | None =>
      m1 ← set_length msg;
      mret (if too_long m1 then -1 else 0, m1)
  end.

(** [req_authenticator] is an object of at least 16 bytes. *)
Definition radius_msg_finish_srv (msg : radius_msg) (secret req_authenticator : list Z) :
    M (Z * radius_msg) :=
  r ← add_msg_auth msg;
  match r.1 with
  | None => mret (-1, r.2)
  | Some attr =>
      m1 ← set_length r.2;
      ra ← lift_outcome (rd req_authenticator 0 16);
      m2 ← msg_write m1 OFF_AUTHENTICATOR ra;
      m3 ← store_hmac m2 secret attr;
      h ← md5_response m3 ra secret;
      m4 ← msg_write m3 OFF_AUTHENTICATOR h;
      mret (if too_long m4 then -1 else 0, m4)
  end.

(** [req_hdr] is the header of the request. *)
Definition radius_msg_finish_das_resp (msg : radius_msg) (secret req_hdr : list Z) :
    M (Z * radius_msg) :=
  r ← add_msg_auth msg;
  match r.1 with
  | None => mret (-1, r.2)
  | Some attr =>
      m1 ← set_length r.2;
      ra ← lift_outcome (rd req_hdr OFF_AUTHENTICATOR 16);
      m2 ← msg_write m1 OFF_AUTHENTICATOR ra;
      m3 ← store_hmac m2 secret attr;
      h ← md5_message m3 secret;
      m4 ← msg_write m3 OFF_AUTHENTICATOR h;
      mret (if too_long m4 then -1 else 0, m4)
  end.

Definition radius_msg_finish_acct (msg : radius_msg) (secret : list Z) : M radius_msg :=
  m1 ← set_length msg;
  m2 ← msg_write m1 OFF_AUTHENTICATOR (zeros 16);
  h ← md5_message m2 secret;
  msg_write m2 OFF_AUTHENTICATOR h.

Definition radius_msg_finish_acct_resp (msg : radius_msg) (secret req_authenticator : list Z) :
    M radius_msg :=
  m1 ← set_length msg;
  ra ← lift_outcome (rd req_authenticator 0 16);
  m2 ← msg_write m1 OFF_AUTHENTICATOR ra;
  h ← md5_message m2 secret;
  msg_write m2 OFF_AUTHENTICATOR h.

(** ** Verification *)

Definition msg_authenticator (msg : radius_msg) : M (list Z) :=
  msg_read msg OFF_AUTHENTICATOR 16.

Definition radius_msg_verify_acct_req (msg : radius_msg) (secret : list Z) : M Z :=
  h ← md5_response msg (zeros 16) secret;
  a ← msg_authenticator msg;
  c ← lift_outcome (edge_os_memcmp_const a h MD5_MAC_LEN);
  mret (if c =? 0 then 0 else 1).

(** The loop that looks for the Message-Authenticator: its offset if there is
    one, [inr] if there are several. *)
Definition find_msg_auth (msg : radius_msg) : M (option Z + unit) :=
  for_attrs msg
    (fun pos ty _ (acc : option Z) =>
       if ty =? RADIUS_ATTR_MESSAGE_AUTHENTICATOR then
         match acc with
         | Some _ => mret (inr tt)
         | None => mret (inl (Some pos))
         end
       else mret (inl acc))
    None.

Definition radius_msg_verify_das_req (msg : radius_msg) (secret : list Z)
    (require_message_authenticator : bool) : M (Z * radius_msg) :=
  v ← radius_msg_verify_acct_req msg secret;
  if negb (v =? 0) then mret (1, msg)
  else
    r ← find_msg_auth msg;
    match r with
    | inr _ => mret (1, msg)
    | inl None => mret (if require_message_authenticator then 1 else 0, msg)
    | inl (Some attr) =>
        orig ← msg_read msg (attr + ATTR_HDR_LEN) MD5_MAC_LEN;
        m1 ← msg_write msg (attr + ATTR_HDR_LEN) (zeros 16);
        orig_authenticator ← msg_authenticator m1;
        m2 ← msg_write m1 OFF_AUTHENTICATOR (zeros 16);
        c ← msg_content m2;
        let auth := default (zeros 16) (edge_hmac_md5 secret c) in
        m3 ← msg_write m2 (attr + ATTR_HDR_LEN) orig;
        m4 ← msg_write m3 OFF_AUTHENTICATOR orig_authenticator;
        d ← lift_outcome (edge_os_memcmp_const orig auth MD5_MAC_LEN);
        mret (if d =? 0 then 0 else 1, m4)
    end.

(** [req_auth] is the request authenticator, or null. *)
Definition radius_msg_verify_msg_auth (msg : radius_msg) (secret : list Z)
    (req_auth : option (list Z)) : M (Z * radius_msg) :=
  r ← find_msg_auth msg;
  match r with
  | inr _ => mret (1, msg)
  | inl None => mret (1, msg)
  | inl (Some attr) =>
      orig ← msg_read msg (attr + ATTR_HDR_LEN) MD5_MAC_LEN;
      m1 ← msg_write msg (attr + ATTR_HDR_LEN) (zeros 16);
      om2 ← (match req_auth with
             | Some ra =>
                 oa ← msg_authenticator m1;
                 ra16 ← lift_outcome (rd ra 0 16);
                 m ← msg_write m1 OFF_AUTHENTICATOR ra16;
                 mret (m, Some oa)
             | None => mret (m1, None)
             end);
      c ← msg_content om2.1;
      match edge_hmac_md5 secret c with
      | None => mret (1, om2.1)
      | Some auth =>
          m3 ← msg_write om2.1 (attr + ATTR_HDR_LEN) orig;
          m4 ← (match om2.2 with
                | Some oa => msg_write m3 OFF_AUTHENTICATOR oa
                | None => mret m3
                end);
          d ← lift_outcome (edge_os_memcmp_const orig auth MD5_MAC_LEN);
          mret (if d =? 0 then 0 else 1, m4)
      end
  end.

(** [sent_msg] is the request the message answers; [auth] asks for the
    Message-Authenticator as well. *)
Definition radius_msg_verify (msg : radius_msg) (secret : list Z)
    (sent_msg : option radius_msg) (auth : bool) : M (Z * radius_msg) :=
  match sent_msg with
  | None => mret (1, msg)
  | Some sent =>
      sa ← msg_authenticator sent;
      r ← (if auth then radius_msg_verify_msg_auth msg secret (Some sa) else mret (0, msg));
      if negb (r.1 =? 0) then mret (1, r.2)
      else
        h ← md5_response r.2 sa secret;
        a ← msg_authenticator r.2;
        c ← lift_outcome (edge_os_memcmp_const h a MD5_MAC_LEN);
        mret (if c =? 0 then 0 else 1, r.2)
  end.

(** ** The buffer of a represented message *)

Section rep.
Context (m : radius_msg) (h4 auth : list Z) (attrs : list attr).
Hypothesis Hrep : msg_rep m (h4 ++ auth) attrs.
Hypothesis Hh4 : zlen h4 = 4.

Lemma rep_auth_len : zlen auth = 16.
Proof. pose proof (rep_hdr _ _ _ Hrep). rewrite zlen_app in *. unfold HDR_LEN in *. lia. Qed.

Lemma msg_content_rep e : msg_content m e = Done ((h4 ++ auth) ++ encode attrs, e).
Proof.
  unfold msg_content, msg_read, wpabuf_len. pose proof (mw_buf m (rep_wf _ _ _ Hrep)) as Hb.
  pose proof (wf_used _ Hb). rewrite rd_content by (done || lia).
  rewrite <- (zlen_content _ Hb), (rep_content _ _ _ Hrep), rd_all. done.
Qed.

Lemma msg_authenticator_rep e : msg_authenticator m e = Done (auth, e).
Proof.
  unfold msg_authenticator, OFF_AUTHENTICATOR. rewrite <- Hh4, <- rep_auth_len at 1.
  apply (rep_read_slice m _ _ h4 auth (encode attrs) e Hrep). by rewrite <- app_assoc.
Qed.

Lemma md5_response_rep a secret e :
  md5_response m a secret e = Done (edge_md5_vector [h4; a; encode attrs; secret], e).
Proof.
  unfold md5_response. pose proof (mw_buf m (rep_wf _ _ _ Hrep)) as Hb.
  pose proof (zlen_nonneg (encode attrs)). pose proof (wf_used _ Hb). pose proof (wf_max _ Hb).
  erewrite bind_run; cycle 1.
  { rewrite <- Hh4. apply (rep_read_slice m _ _ [] h4 (auth ++ encode attrs) e Hrep). by rewrite <- app_assoc. }
  unfold wpabuf_len. rewrite (rep_used _ _ _ Hrep), u64_small
    by (pose proof (rep_used _ _ _ Hrep); unfold HDR_LEN, sizeof_wpabuf in *; lia).
  replace (HDR_LEN + zlen (encode attrs) - HDR_LEN) with (zlen (encode attrs)) by lia.
  erewrite bind_run; cycle 1.
  { rewrite <- (rep_hdr _ _ _ Hrep). apply (rep_read_slice m _ _ (h4 ++ auth) (encode attrs) [] e Hrep).
    by rewrite app_nil_r. }
  done.
Qed.

Lemma md5_message_rep secret e :
  md5_message m secret e = Done (edge_md5_vector [(h4 ++ auth) ++ encode attrs; secret], e).
Proof. unfold md5_message. by erewrite bind_run by apply msg_content_rep. Qed.

Lemma write_authenticator a e : bytes a -> zlen a = 16 ->
  exists m', msg_write m OFF_AUTHENTICATOR a e = Done (m', e) /\
    msg_rep m' (h4 ++ a) attrs /\ msg_frame m m'.
Proof.
  intros Ha Hl. pose proof rep_auth_len. unfold OFF_AUTHENTICATOR. rewrite <- Hh4.
  destruct (msg_write_hdr m _ _ h4 auth [] a e Hrep) as (m' & Hw & Hr & Hf);
    [by rewrite app_nil_r|zlen_lia|done|].
  exists m'. by rewrite app_nil_r in Hr.
Qed.
End rep.

(** The four first bytes of the header with the length field set. *)
Definition hdr4 (code identifier len : Z) : list Z :=
  code :: identifier :: WPA_PUT_BE16 (u16 len).

Lemma zlen_hdr4 c i n : zlen (hdr4 c i n) = 4.
Proof. done. Qed.

Lemma set_length_rep m c i l1 l2 auth attrs e :
  msg_rep m ([c; i; l1; l2] ++ auth) attrs ->
  exists m', set_length m e = Done (m', e) /\
    msg_rep m' (hdr4 c i (HDR_LEN + zlen (encode attrs)) ++ auth) attrs /\ msg_frame m m'.
Proof.
  intros Hrep. unfold set_length, wpabuf_len. rewrite (rep_used _ _ _ Hrep).
  destruct (msg_write_hdr m _ _ [c; i] [l1; l2] auth
    (WPA_PUT_BE16 (u16 (HDR_LEN + zlen (encode attrs)))) e Hrep) as (m' & Hw & Hr & Hf).
  - done.
  - done.
  - unfold WPA_PUT_BE16. apply bytes_pair; [apply u8_byte|].
    rewrite land_ff. unfold is_byte. zdiv_lia.
  - by exists m'.
Qed.

Definition MA := RADIUS_ATTR_MESSAGE_AUTHENTICATOR.
Definition ma_free (attrs : list attr) : Prop := Forall (fun a => a.1 <> MA) attrs.

(** The Message-Authenticator of RFC 2869: HMAC-MD5 over the message in which
    the attribute's own value is zero. *)
Definition rfc2869_mac (secret hdr : list Z) (pre post : list attr) : list Z :=
  default [] (edge_hmac_md5 secret (hdr ++ encode (pre ++ (MA, zeros 16) :: post))).

Lemma rfc2869_mac_some secret hdr pre post :
  edge_hmac_md5 secret (hdr ++ encode (pre ++ (MA, zeros 16) :: post)) =
    Some (rfc2869_mac secret hdr pre post) /\
  length (rfc2869_mac secret hdr pre post) = 16%nat /\ bytes (rfc2869_mac secret hdr pre post).
Proof.
  unfold rfc2869_mac.
  destruct (edge_hmac_md5_some secret (hdr ++ encode (pre ++ (MA, zeros 16) :: post)))
    as (mac & -> & Hl & Hb). done.
Qed.

Lemma store_hmac_rep m h4 auth pre post secret e :
  msg_rep m (h4 ++ auth) (pre ++ (MA, zeros 16) :: post) ->
  exists m', store_hmac m secret (HDR_LEN + zlen (encode pre)) e = Done (m', e) /\
    msg_rep m' (h4 ++ auth) (pre ++ (MA, rfc2869_mac secret (h4 ++ auth) pre post) :: post) /\
    msg_frame m m'.
Proof.
  intros Hrep. unfold store_hmac. erewrite bind_run by (by eapply msg_content_rep).
  destruct (rfc2869_mac_some secret (h4 ++ auth) pre post) as (-> & Hl & Hb).
  by apply (msg_write_value m _ pre MA (zeros 16) post).
Qed.

(** ** Looking for the Message-Authenticator *)

Definition ma_count (attrs : list attr) : nat :=
  length (List.filter (fun a => a.1 =? MA) attrs).

Lemma ma_count_app x y : ma_count (x ++ y) = (ma_count x + ma_count y)%nat.
Proof. unfold ma_count. by rewrite List.filter_app, length_app. Qed.

Lemma ma_free_count attrs : ma_free attrs <-> ma_count attrs = 0%nat.
Proof.
  unfold ma_free, ma_count. induction attrs as [|a rest IH]; simpl.
  { split; [done|constructor]. }
  rewrite List.Forall_cons_iff, IH. destruct (Z.eqb_spec a.1 MA); simpl; intuition lia.
Qed.

(** The outcome of the search, by the number of such attributes. *)
Lemma find_msg_auth_rep m hdr attrs e : msg_rep m hdr attrs ->
  exists r, find_msg_auth m e = Done (r, e) /\
    match r with
    | inl None => ma_count attrs = 0%nat
    | inl (Some p) => exists pre d post, attrs = pre ++ (MA, d) :: post /\
        ma_free pre /\ ma_free post /\ p = HDR_LEN + zlen (encode pre)
    | inr _ => (2 <= ma_count attrs)%nat
    end.
Proof.
  intros Hrep. unfold find_msg_auth.
  match goal with |- context [for_attrs m ?f None] => set (body := f) end.
  destruct (for_attrs_inv m hdr attrs body
    (fun pre acc e' => e' = e /\
       match acc with
       | None => ma_free pre
       | Some p => exists pre1 d pre2, pre = pre1 ++ (MA, d) :: pre2 /\ ma_free pre1 /\
           ma_free pre2 /\ p = HDR_LEN + zlen (encode pre1)
       end)
    (fun _ e' => e' = e /\ (2 <= ma_count attrs)%nat) None e Hrep)
    as (r & e' & Hrun & Hr).
  - intros pre t d post acc e0 Hat [-> Hacc]. subst body. cbn beta.
    destruct (Z.eqb_spec t RADIUS_ATTR_MESSAGE_AUTHENTICATOR) as [->|Hne].
    + destruct acc as [p|].
      * destruct Hacc as (pre1 & d1 & pre2 & -> & _ & _ & _).
        eexists _, _. split; [done|]. cbn beta iota. split; [done|].
        rewrite Hat, !ma_count_app. unfold ma_count. simpl. lia.
      * eexists _, _. split; [done|]. cbn beta iota. split; [done|].
        exists pre, d, []. repeat split; try done. constructor.
    + eexists _, _. split; [done|]. cbn beta iota. split; [done|]. destruct acc as [p|].
      * destruct Hacc as (pre1 & d1 & pre2 & -> & H1 & H2 & ->).
        exists pre1, d1, (pre2 ++ [(t, d)]). rewrite <- app_assoc. repeat split; try done.
        apply Forall_app. split; [done|]. by constructor.
      * apply Forall_app. split; [done|]. by constructor.
  - split; [done|constructor].
  - exists r. destruct r as [[p|]|[]]; destruct Hr as [-> Hr]; (split; [done|]).
    + done.
    + by apply ma_free_count.
    + done.
Qed.

Lemma ma_split_unique pre d post pre' d' post' :
  pre ++ (MA, d) :: post = pre' ++ (MA, d') :: post' ->
  ma_free pre -> ma_free post -> pre = pre' /\ d = d' /\ post = post'.
Proof.
  revert pre'. induction pre as [|a pre IH]; intros [|a' pre'] Heq Hf Hp; simpl in Heq.
  - by simplify_eq.
  - simplify_eq. apply Forall_app in Hp as [_ Hp]. by apply List.Forall_cons_iff in Hp as [? _].
  - simplify_eq. by apply List.Forall_cons_iff in Hf as [? _].
  - simplify_eq. apply List.Forall_cons_iff in Hf as [_ Hf].
    by destruct (IH pre') as (-> & -> & ->).
Qed.

Lemma find_msg_auth_one m hdr pre d post e :
  msg_rep m hdr (pre ++ (MA, d) :: post) -> ma_free pre -> ma_free post ->
  find_msg_auth m e = Done (inl (Some (HDR_LEN + zlen (encode pre))), e).
Proof.
  intros Hrep H1 H2. destruct (find_msg_auth_rep m _ _ e Hrep) as (r & -> & Hr).
  apply ma_free_count in H1 as C1. apply ma_free_count in H2 as C2.
  assert (ma_count (pre ++ (MA, d) :: post) = 1%nat) as Hc.
  { rewrite ma_count_app, C1. unfold ma_count in *. simpl. lia. }
  destruct r as [[p|]|[]]; try lia.
  destruct Hr as (pre' & d' & post' & Heq & _ & _ & ->).
  by destruct (ma_split_unique _ _ _ _ _ _ Heq H1 H2) as (-> & _ & _).
Qed.

Lemma memcmp_mac a b : bytes a -> bytes b -> zlen a = 16 -> zlen b = 16 ->
  exists r, edge_os_memcmp_const a b MD5_MAC_LEN = Done r /\ (r = 0 <-> a = b).
Proof.
  intros Ha Hb La Lb. unfold MD5_MAC_LEN.
  apply memcmp_const_eq; try done; [rewrite <- La|rewrite <- Lb]; apply rd_all.
Qed.

Lemma bytes_hdr m hdr attrs : msg_rep m hdr attrs -> bytes hdr.
Proof.
  intros Hrep. pose proof (bytes_content _ (mw_buf m (rep_wf _ _ _ Hrep))) as Hb.
  rewrite (rep_content _ _ _ Hrep) in Hb. by apply Forall_app in Hb as [? _].
Qed.

(** [verify] on a message with one Message-Authenticator of the right size:
    the answer, and the message as it was. *)
Lemma verify_msg_auth_rep m h4 auth pre d post secret req e :
  msg_rep m (h4 ++ auth) (pre ++ (MA, d) :: post) -> zlen h4 = 4 -> zlen d = 16 ->
  ma_free pre -> ma_free post ->
  match req with Some ra => bytes ra /\ 16 <= zlen ra | None => True end ->
  let a := match req with Some ra => take 16 ra | None => auth end in
  radius_msg_verify_msg_auth m secret req e =
    Done ((if decide (d = rfc2869_mac secret (h4 ++ a) pre post) then 0 else 1, m), e).
Proof.
  intros Hrep Hh4 Hd Hpre Hpost Hreq a. pose proof (rep_auth_len m h4 auth _ Hrep Hh4) as Hauth.
  unfold radius_msg_verify_msg_auth.
  erewrite bind_run by (by eapply find_msg_auth_one). cbn beta iota.
  pose proof (rep_attrs _ _ _ Hrep) as Hat. apply Forall_app in Hat as [_ Hat].
  apply List.Forall_cons_iff in Hat as [(_ & Hbd & _) _]. simpl in Hbd.
  erewrite bind_run; cycle 1.
  { pose proof (read_value m _ pre MA d post Hrep e) as Hv. rewrite Hd in Hv. exact Hv. }
  destruct (msg_write_value m _ pre MA d post (zeros 16) e Hrep) as (m1 & Hw1 & Hrep1 & Hf1);
    [zlen_lia|apply bytes_zeros|].
  erewrite bind_run by exact Hw1.
  match goal with |- context [(?x ≫= _) e] => set (patch := x) end.
  assert (exists m2 oa, patch e = Done ((m2, oa), e) /\
    msg_rep m2 (h4 ++ a) (pre ++ (MA, zeros 16) :: post) /\ msg_frame m1 m2 /\
    oa = match req with Some _ => Some auth | None => None end) as (m2 & oa & Hp & Hrep2 & Hf2 & ->).
  { subst patch a. destruct req as [ra|]; [|by eexists _, _].
    destruct Hreq as [Hbra Hlra]. erewrite bind_run by (by eapply msg_authenticator_rep).
    rewrite rd_take by lia. erewrite bind_run by done.
    destruct (write_authenticator m1 h4 auth _ Hrep1 Hh4 (take 16 ra) e) as (m2 & Hw2 & Hr2 & Hf2);
      [by apply Forall_take|zlen_lia|].
    erewrite bind_run by exact Hw2. by eexists _, _. }
  erewrite bind_run by exact Hp. cbn [fst snd].
  erewrite bind_run by (by eapply msg_content_rep).
  destruct (rfc2869_mac_some secret (h4 ++ a) pre post) as (-> & Hml & Hmb).
  destruct (msg_write_value m2 _ pre MA (zeros 16) post d e Hrep2) as (m3 & Hw3 & Hrep3 & Hf3);
    [zlen_lia|done|].
  erewrite bind_run by exact Hw3.
  match goal with |- context [(?x ≫= _) e] => set (restore := x) end.
  assert (restore e = Done (m, e)) as Hres.
  { assert (msg_frame m m3) as Hf by eauto using msg_frame_trans. subst restore a.
    destruct req as [ra|]; cbn beta iota.
    - pose proof (bytes_hdr _ _ _ Hrep) as Hbh. apply Forall_app in Hbh as [_ Hba].
      destruct (write_authenticator m3 h4 (take 16 ra) _ Hrep3 Hh4 auth e) as (m4 & -> & Hr4 & Hf4);
        [done..|].
      by rewrite (rep_frame_eq m m4 _ _ Hrep Hr4) by eauto using msg_frame_trans.
    - by rewrite (rep_frame_eq m m3 _ _ Hrep Hrep3). }
  erewrite bind_run by exact Hres.
  destruct (memcmp_mac d (rfc2869_mac secret (h4 ++ a) pre post)) as (r & Hcmp & Hr);
    [done..|zlen_lia|].
  rewrite Hcmp. erewrite bind_run by done.
  case_decide as Hdec; destruct (Z.eqb_spec r 0); intuition congruence.
Qed.

(** ** Soundness and completeness of the Message-Authenticator check *)

Lemma rfc2869_mac_hmac secret hdr pre post :
  zlen secret < 2 ^ 32 -> zlen (hdr ++ encode (pre ++ (MA, zeros 16) :: post)) < 2 ^ 32 ->
  rfc2869_mac secret hdr pre post =
    rfc2104.hmac secret (hdr ++ encode (pre ++ (MA, zeros 16) :: post)).
Proof. intros Hs Hm. unfold rfc2869_mac. by rewrite edge_hmac_md5_spec. Qed.

Lemma zlen_encode_value pre t d d' post : zlen d = zlen d' ->
  zlen (encode (pre ++ (t, d) :: post)) = zlen (encode (pre ++ (t, d') :: post)).
Proof.
  intros Hl. rewrite !encode_app, !encode_cons, !zlen_app, !zlen_encode_attr. simpl. lia.
Qed.

Lemma verify_msg_auth_spec m h4 auth attrs secret req e :
  msg_rep m (h4 ++ auth) attrs -> zlen h4 = 4 ->
  Forall (fun a => a.1 = MA -> zlen a.2 = 16) attrs ->
  match req with Some ra => bytes ra /\ 16 <= zlen ra | None => True end ->
  zlen secret < 2 ^ 32 -> HDR_LEN + zlen (encode attrs) < 2 ^ 32 ->
  let hdr := h4 ++ match req with Some ra => take 16 ra | None => auth end in
  exists r, radius_msg_verify_msg_auth m secret req e = Done ((r, m), e) /\
    (r = 0 \/ r = 1) /\
    (r = 0 <-> exists pre d post, attrs = pre ++ (MA, d) :: post /\
       ma_free pre /\ ma_free post /\
       d = rfc2104.hmac secret (hdr ++ encode (pre ++ (MA, zeros 16) :: post))).
Proof.
  intros Hrep Hh4 Hall Hreq Hs Hm hdr.
  assert (zlen hdr = HDR_LEN) as Hhdr.
  { pose proof (rep_auth_len m h4 auth _ Hrep Hh4). subst hdr. unfold HDR_LEN.
    destruct req; zlen_lia. }
  destruct (find_msg_auth_rep m _ _ e Hrep) as (r & Hfind & Hr).
  destruct r as [[p|]|[]].
  - destruct Hr as (pre & d & post & -> & Hpre & Hpost & _).
    apply Forall_app in Hall as [_ Hall]. apply List.Forall_cons_iff in Hall as [Hd _].
    specialize (Hd eq_refl). simpl in Hd.
    rewrite (verify_msg_auth_rep m h4 auth pre d post) by done. fold hdr.
    rewrite rfc2869_mac_hmac; [|done|].
    2: { rewrite zlen_app, (zlen_encode_value pre MA (zeros 16) d post) by done. lia. }
    eexists. split; [done|]. split; [case_decide; auto|]. split.
    + case_decide; [|done]. intros _. by exists pre, d, post.
    + intros (pre' & d' & post' & Heq & _ & _ & Hd').
      destruct (ma_split_unique _ _ _ _ _ _ Heq Hpre Hpost) as (<- & <- & <-).
      by rewrite decide_True.
  - exists 1. unfold radius_msg_verify_msg_auth. erewrite bind_run by exact Hfind.
    split; [done|]. split; [by right|]. split; [done|].
    intros (pre & d & post & -> & _). rewrite ma_count_app in Hr. unfold ma_count in Hr.
    simpl in Hr. lia.
  - exists 1. unfold radius_msg_verify_msg_auth. erewrite bind_run by exact Hfind.
    split; [done|]. split; [by right|]. split; [done|].
    intros (pre & d & post & -> & Hpre & Hpost & _). apply ma_free_count in Hpre, Hpost.
    rewrite ma_count_app in Hr. unfold ma_count in *. simpl in Hr. lia.
Qed.

(**  [radius_msg_verify_msg_auth] accepts exactly the messages that carry
    one Message-Authenticator attribute whose value is the HMAC-MD5 (RFC 2104)
    of the message with that value zeroed and, when a request authenticator is
    given, with it in the header.  It never faults when the attributes of that
    type have 16-byte values, and it leaves the message exactly as it was. *)
Theorem radius_msg_verify_msg_auth_correct m h4 auth attrs secret req e :
  msg_rep m (h4 ++ auth) attrs -> zlen h4 = 4 ->
  Forall (fun a => a.1 = MA -> zlen a.2 = 16) attrs ->
  match req with Some ra => bytes ra /\ 16 <= zlen ra | None => True end ->
  zlen secret < 2 ^ 32 -> HDR_LEN + zlen (encode attrs) < 2 ^ 32 ->
  let hdr := h4 ++ match req with Some ra => take 16 ra | None => auth end in
  exists r, radius_msg_verify_msg_auth m secret req e = Done ((r, m), e) /\
    (r = 0 \/ r = 1) /\
    (r = 0 <-> exists pre d post, attrs = pre ++ (MA, d) :: post /\
       ma_free pre /\ ma_free post /\
       d = rfc2104.hmac secret (hdr ++ encode (pre ++ (MA, zeros 16) :: post))).
Proof. apply verify_msg_auth_spec. Qed.

Lemma radius_msg_verify_msg_auth_correct_witness :
  exists r, radius_msg_verify_msg_auth sample_msg (cstr "radius") None (Env [] []) =
      Done ((r, sample_msg), Env [] []) /\
    (r = 0 \/ r = 1) /\
    (r = 0 <-> exists pre d post, [] = pre ++ (MA, d) :: post /\
       ma_free pre /\ ma_free post /\
       d = rfc2104.hmac (cstr "radius")
             (([1; 7; 0; 20] ++ zeros 16) ++ encode (pre ++ (MA, zeros 16) :: post))).
Proof.
  apply (radius_msg_verify_msg_auth_correct sample_msg [1; 7; 0; 20] (zeros 16) []
    (cstr "radius") None).
  - exact sample_rep.
  - reflexivity.
  - constructor.
  - exact I.
  - reflexivity.
  - reflexivity.
Defined.

(** ** What [finish] makes, [verify] accepts *)

(** The length of a message once the Message-Authenticator is added. *)
Definition finished_len (attrs : list attr) : Z := HDR_LEN + zlen (encode attrs) + 18.

Section finish.
Context (m : radius_msg) (c i l1 l2 : Z) (auth : list Z) (attrs : list attr) (e : env).
Hypothesis Hrep : msg_rep m ([c; i; l1; l2] ++ auth) attrs.
Hypothesis Hfree : ma_free attrs.
Hypothesis He : mallocs e = [].
(** The finished message fits a RADIUS packet. *)
Hypothesis Hfit : finished_len attrs <= 65535.

Lemma add_msg_auth_rep :
  exists m', add_msg_auth m e = Done ((Some (HDR_LEN + zlen (encode attrs)), m'), e) /\
    msg_rep m' ([c; i; l1; l2] ++ auth) (attrs ++ [(MA, zeros 16)]).
Proof.
  apply (add_attr_rep m _ attrs MA (zeros 16) (zeros 16) e); try done.
  - unfold msg_small. rewrite (rep_used _ _ _ Hrep). unfold finished_len, PTRDIFF_MAX, sizeof_wpabuf in *. lia.
  - split; [done|]. split; [apply bytes_zeros|done].
Qed.

Lemma zlen_with_mac d : zlen d = 16 ->
  HDR_LEN + zlen (encode (attrs ++ [(MA, d)])) = finished_len attrs.
Proof.
  intros Hd. unfold finished_len. rewrite encode_app, encode_single, zlen_app, zlen_encode_attr.
  simpl. rewrite Hd. unfold ATTR_HDR_LEN. lia.
Qed.

(** Adding the attribute and setting the length. *)
Lemma finish_prefix :
  exists m1 m2, add_msg_auth m e = Done ((Some (HDR_LEN + zlen (encode attrs)), m1), e) /\
    set_length m1 e = Done (m2, e) /\
    msg_rep m2 (hdr4 c i (finished_len attrs) ++ auth) (attrs ++ [(MA, zeros 16)]).
Proof.
  destruct add_msg_auth_rep as (m1 & Hadd & Hrep1).
  destruct (set_length_rep m1 c i l1 l2 auth _ e Hrep1) as (m2 & Hset & Hrep2 & _).
  rewrite zlen_with_mac in Hrep2 by done. by exists m1, m2.
Qed.

Lemma not_too_long m' hdr d : zlen d = 16 ->
  msg_rep m' hdr (attrs ++ [(MA, d)]) -> too_long m' = false.
Proof.
  intros Hd Hr. unfold too_long, wpabuf_len. rewrite (rep_used _ _ _ Hr), zlen_with_mac by done.
  apply Z.ltb_ge. lia.
Qed.

Lemma radius_msg_finish_rep secret :
  exists m', radius_msg_finish m (Some secret) e = Done ((0, m'), e) /\
    msg_rep m' (hdr4 c i (finished_len attrs) ++ auth)
      (attrs ++ [(MA, rfc2869_mac secret (hdr4 c i (finished_len attrs) ++ auth) attrs [])]).
Proof.
  destruct finish_prefix as (m1 & m2 & Hadd & Hset & Hrep2).
  unfold radius_msg_finish. erewrite bind_run by exact Hadd. cbn [fst snd].
  erewrite bind_run by exact Hset.
  destruct (store_hmac_rep m2 _ auth attrs [] secret e Hrep2) as (m3 & Hst & Hrep3 & _).
  erewrite bind_run by exact Hst. exists m3. split; [|done].
  destruct (rfc2869_mac_some secret (hdr4 c i (finished_len attrs) ++ auth) attrs []) as (_ & Hl & _).
  erewrite not_too_long; [done| |exact Hrep3]. unfold zlen. by rewrite Hl.
Qed.
End finish.

(**  Message-Authenticator completeness: a message finished with a shared
    secret is accepted by [radius_msg_verify_msg_auth] with the same secret,
    its length field is the length of the packet, and its attributes are those
    it had plus the Message-Authenticator. *)
Theorem radius_msg_finish_verifies m c i l1 l2 auth attrs secret e :
  msg_rep m ([c; i; l1; l2] ++ auth) attrs -> ma_free attrs -> mallocs e = [] ->
  finished_len attrs <= 65535 ->
  exists m' mac, radius_msg_finish m (Some secret) e = Done ((0, m'), e) /\
    msg_rep m' (hdr4 c i (finished_len attrs) ++ auth) (attrs ++ [(MA, mac)]) /\
    radius_msg_verify_msg_auth m' secret None e = Done ((0, m'), e).
Proof.
  intros Hrep Hfree He Hfit.
  destruct (radius_msg_finish_rep m c i l1 l2 auth attrs e Hrep He Hfit secret)
    as (m' & Hfin & Hrep').
  eexists m', _. split; [done|]. split; [done|].
  destruct (rfc2869_mac_some secret
    (hdr4 c i (finished_len attrs) ++ auth) attrs []) as (_ & Hl & _).
  rewrite (verify_msg_auth_rep m' _ auth attrs _ [] secret None e Hrep');
    [|done|unfold zlen; by rewrite Hl|done|constructor|done].
  by rewrite decide_True.
Qed.

Lemma radius_msg_finish_verifies_witness :
  exists m' mac, radius_msg_finish sample_msg (Some (cstr "radius")) (Env [] []) =
      Done ((0, m'), Env [] []) /\
    msg_rep m' (hdr4 1 7 38 ++ zeros 16) [(MA, mac)] /\
    radius_msg_verify_msg_auth m' (cstr "radius") None (Env [] []) =
      Done ((0, m'), Env [] []).
Proof.
  apply (radius_msg_finish_verifies sample_msg 1 7 0 20 (zeros 16) []).
  - exact sample_rep.
  - constructor.
  - reflexivity.
  - vm_compute. congruence.
Defined.

Lemma memcmp_md5 h a : bytes h -> bytes a -> zlen h = 16 -> zlen a = 16 -> h = a ->
  edge_os_memcmp_const h a MD5_MAC_LEN = Done 0.
Proof.
  intros Hh Ha Lh La Heq. destruct (memcmp_mac h a) as (r & Hr & Hiff); [done..|].
  rewrite Hr. f_equal. by apply Hiff.
Qed.

Lemma zlen_md5 l : zlen (edge_md5_vector l) = 16.
Proof. unfold zlen. by rewrite edge_md5_vector_length. Qed.

(** A response whose authenticator is the MD5 digest over the request's
    authenticator, and whose Message-Authenticator is right, is accepted. *)
Lemma radius_msg_verify_accepts m h4 pre d post secret sent sh4 sa sattrs e :
  let attrs := pre ++ (MA, d) :: post in
  msg_rep m (h4 ++ edge_md5_vector [h4; sa; encode attrs; secret]) attrs -> zlen h4 = 4 ->
  msg_rep sent (sh4 ++ sa) sattrs -> zlen sh4 = 4 ->
  ma_free pre -> ma_free post -> d = rfc2869_mac secret (h4 ++ sa) pre post ->
  radius_msg_verify m secret (Some sent) true e = Done ((0, m), e).
Proof.
  intros attrs Hrep Hh4 Hsent Hsh4 Hpre Hpost Hd.
  pose proof (rep_auth_len sent sh4 sa _ Hsent Hsh4) as Hsa.
  pose proof (bytes_hdr _ _ _ Hsent) as Hbsa. apply Forall_app in Hbsa as [_ Hbsa].
  unfold radius_msg_verify. erewrite bind_run by (by eapply msg_authenticator_rep).
  destruct (rfc2869_mac_some secret (h4 ++ sa) pre post) as (_ & Hml & _).
  erewrite bind_run; cycle 1.
  { rewrite (verify_msg_auth_rep m h4 _ pre d post secret (Some sa) e Hrep);
      [|done|subst d; unfold zlen; by rewrite Hml|done|done|split; [done|lia]].
    rewrite (take_ge sa) by zlen_lia. rewrite decide_True by done. done. }
  cbn [fst snd]. change (negb (0 =? 0)) with false. cbv iota.
  erewrite bind_run by (by eapply md5_response_rep).
  erewrite bind_run by (by eapply msg_authenticator_rep).
  rewrite memcmp_md5; try done; try apply edge_md5_vector_bytes; try apply zlen_md5.
Qed.

Lemma finish_srv_rep m c i l1 l2 auth attrs secret sent sh4 sa sattrs e :
  msg_rep m ([c; i; l1; l2] ++ auth) attrs -> ma_free attrs -> mallocs e = [] ->
  finished_len attrs <= 65535 ->
  msg_rep sent (sh4 ++ sa) sattrs -> zlen sh4 = 4 ->
  exists m' ra mac, radius_msg_finish_srv m secret sa e = Done ((0, m'), e) /\
    msg_rep m' (hdr4 c i (finished_len attrs) ++ ra) (attrs ++ [(MA, mac)]) /\
    radius_msg_verify m' secret (Some sent) true e = Done ((0, m'), e).
Proof.
  intros Hrep Hfree He Hfit Hsent Hsh4.
  pose proof (rep_auth_len sent sh4 sa _ Hsent Hsh4) as Hsa.
  pose proof (bytes_hdr _ _ _ Hsent) as Hbsa. apply Forall_app in Hbsa as [_ Hbsa].
  destruct (finish_prefix m c i l1 l2 auth attrs e Hrep He Hfit)
    as (m1 & m2 & Hadd & Hset & Hrep2).
  unfold radius_msg_finish_srv. erewrite bind_run by exact Hadd. cbn [fst snd].
  erewrite bind_run by exact Hset. rewrite <- Hsa, rd_all. erewrite bind_run by done.
  destruct (write_authenticator m2 _ auth _ Hrep2 eq_refl sa e) as (m3 & Hw3 & Hrep3 & _);
    [done..|].
  erewrite bind_run by exact Hw3.
  destruct (store_hmac_rep m3 _ sa attrs [] secret e Hrep3) as (m4 & Hst & Hrep4 & _).
  erewrite bind_run by exact Hst.
  erewrite bind_run by (eapply md5_response_rep; [exact Hrep4|done]).
  match goal with |- context [msg_write m4 _ ?x] =>
    destruct (write_authenticator m4 _ sa _ Hrep4 eq_refl x e) as (m5 & Hw5 & Hrep5 & _) end;
    [apply edge_md5_vector_bytes|apply zlen_md5|].
  erewrite bind_run by exact Hw5. eexists m5, _, _.
  destruct (rfc2869_mac_some secret (hdr4 c i (finished_len attrs) ++ sa) attrs []) as (_ & Hl & _).
  erewrite (not_too_long attrs Hfit m5); [|by unfold zlen; rewrite Hl|exact Hrep5].
  split; [done|]. split; [exact Hrep5|].
  eapply radius_msg_verify_accepts; try exact Hrep5; try exact Hsent; try done. constructor.
Qed.

(**  Response completeness: an answer finished by the server with
    [radius_msg_finish_srv] over the request's authenticator is accepted by
    [radius_msg_verify] against that request, with both the response
    authenticator and the Message-Authenticator checked. *)
Theorem radius_msg_finish_srv_verifies m c i l1 l2 auth attrs secret sent sh4 sa sattrs e :
  msg_rep m ([c; i; l1; l2] ++ auth) attrs -> ma_free attrs -> mallocs e = [] ->
  finished_len attrs <= 65535 ->
  msg_rep sent (sh4 ++ sa) sattrs -> zlen sh4 = 4 ->
  exists m', radius_msg_finish_srv m secret sa e = Done ((0, m'), e) /\
    radius_msg_verify m' secret (Some sent) true e = Done ((0, m'), e).
Proof.
  intros Hrep Hfree He Hfit Hsent Hsh4.
  destruct (finish_srv_rep m c i l1 l2 auth attrs secret sent sh4 sa sattrs e)
    as (m' & ra & mac & Hfin & _ & Hver); [done..|]. by exists m'.
Qed.

Lemma radius_msg_finish_srv_verifies_witness :
  exists m', radius_msg_finish_srv sample_msg (cstr "radius") (zeros 16) (Env [] []) =
      Done ((0, m'), Env [] []) /\
    radius_msg_verify m' (cstr "radius") (Some sample_msg) true (Env [] []) =
      Done ((0, m'), Env [] []).
Proof.
  apply (radius_msg_finish_srv_verifies sample_msg 1 7 0 20 (zeros 16) [] (cstr "radius")
    sample_msg [1; 7; 0; 20] (zeros 16) []).
  - exact sample_rep.
  - constructor.
  - reflexivity.
  - vm_compute. congruence.
  - exact sample_rep.
  - reflexivity.
Defined.

(** MD5 does not depend on how the message is cut. *)
Lemma md5_message_response h4 a enc secret :
  zlen h4 = 4 -> zlen a = 16 -> zlen enc < 2 ^ 16 -> zlen secret < 2 ^ 32 ->
  edge_md5_vector [(h4 ++ a) ++ enc; secret] = edge_md5_vector [h4; a; enc; secret].
Proof.
  intros H1 H2 H3 H4. rewrite !edge_md5_vector_spec.
  - f_equal. simpl. by rewrite <- !app_assoc.
  - repeat apply Forall_cons_2; try apply Forall_nil_2; lia.
  - apply Forall_cons_2; [rewrite !zlen_app; lia|]. by apply Forall_cons_2.
Qed.

(** Writing the authenticator [a], then the digest over the message with it. *)
Lemma acct_authenticator m h4 auth attrs a secret e :
  msg_rep m (h4 ++ auth) attrs -> zlen h4 = 4 -> bytes a -> zlen a = 16 ->
  exists m2 m3, msg_write m OFF_AUTHENTICATOR a e = Done (m2, e) /\
    md5_message m2 secret e = Done (edge_md5_vector [(h4 ++ a) ++ encode attrs; secret], e) /\
    msg_write m2 OFF_AUTHENTICATOR (edge_md5_vector [(h4 ++ a) ++ encode attrs; secret]) e =
      Done (m3, e) /\
    msg_rep m3 (h4 ++ edge_md5_vector [(h4 ++ a) ++ encode attrs; secret]) attrs.
Proof.
  intros Hrep Hh4 Hba Ha.
  destruct (write_authenticator m h4 auth attrs Hrep Hh4 a e Hba Ha) as (m2 & Hw2 & Hrep2 & _).
  destruct (write_authenticator m2 h4 a attrs Hrep2 Hh4
    (edge_md5_vector [(h4 ++ a) ++ encode attrs; secret]) e) as (m3 & Hw3 & Hrep3 & _);
    [apply edge_md5_vector_bytes|apply zlen_md5|].
  exists m2, m3. split; [done|]. split; [by eapply md5_message_rep|]. done.
Qed.

(**  Accounting completeness: a request finished by
    [radius_msg_finish_acct] is accepted by [radius_msg_verify_acct_req], and a
    response finished by [radius_msg_finish_acct_resp] over the request's
    authenticator is accepted by [radius_msg_verify] against that request. *)
Theorem radius_msg_acct_verifies m c i l1 l2 auth attrs secret sent sh4 sa sattrs e :
  msg_rep m ([c; i; l1; l2] ++ auth) attrs ->
  zlen (encode attrs) < 2 ^ 16 -> zlen secret < 2 ^ 32 ->
  msg_rep sent (sh4 ++ sa) sattrs -> zlen sh4 = 4 ->
  (exists m', radius_msg_finish_acct m secret e = Done (m', e) /\
     radius_msg_verify_acct_req m' secret e = Done (0, e)) /\
  (exists m', radius_msg_finish_acct_resp m secret sa e = Done (m', e) /\
     radius_msg_verify m' secret (Some sent) false e = Done ((0, m'), e)).
Proof.
  intros Hrep Henc Hsec Hsent Hsh4.
  pose proof (rep_auth_len sent sh4 sa _ Hsent Hsh4) as Hsa.
  pose proof (bytes_hdr _ _ _ Hsent) as Hbsa. apply Forall_app in Hbsa as [_ Hbsa].
  destruct (set_length_rep m c i l1 l2 auth attrs e Hrep) as (m1 & Hset & Hrep1 & _).
  split.
  - destruct (acct_authenticator m1 _ auth attrs (zeros 16) secret e Hrep1 eq_refl)
      as (m2 & m3 & Hw2 & Hmd & Hw3 & Hrep3); [apply bytes_zeros|done|].
    exists m3. unfold radius_msg_finish_acct. erewrite bind_run by exact Hset.
    erewrite bind_run by exact Hw2. erewrite bind_run by exact Hmd. split; [done|].
    rewrite md5_message_response in Hrep3 by done.
    unfold radius_msg_verify_acct_req. erewrite bind_run by (by eapply md5_response_rep).
    erewrite bind_run by (by eapply msg_authenticator_rep).
    rewrite memcmp_md5; try done; try apply edge_md5_vector_bytes; try apply zlen_md5.
  - destruct (acct_authenticator m1 _ auth attrs sa secret e Hrep1 eq_refl)
      as (m2 & m3 & Hw2 & Hmd & Hw3 & Hrep3); [done..|].
    exists m3. unfold radius_msg_finish_acct_resp. erewrite bind_run by exact Hset.
    rewrite <- Hsa, rd_all. erewrite bind_run by done.
    erewrite bind_run by exact Hw2. erewrite bind_run by exact Hmd. split; [done|].
    rewrite md5_message_response in Hrep3 by done.
    unfold radius_msg_verify. erewrite bind_run by (by eapply msg_authenticator_rep).
    erewrite bind_run by done. cbn [fst snd]. change (negb (0 =? 0)) with false. cbv iota.
    erewrite bind_run by (by eapply md5_response_rep).
    erewrite bind_run by (by eapply msg_authenticator_rep).
    rewrite memcmp_md5; try done; try apply edge_md5_vector_bytes; try apply zlen_md5.
Qed.

Lemma radius_msg_acct_verifies_witness :
  exists m', radius_msg_finish_acct sample_msg (cstr "radius") (Env [] []) =
      Done (m', Env [] []) /\
    radius_msg_verify_acct_req m' (cstr "radius") (Env [] []) = Done (0, Env [] []).
Proof.
  apply (radius_msg_acct_verifies sample_msg 1 7 0 20 (zeros 16) [] (cstr "radius")
    sample_msg [1; 7; 0; 20] (zeros 16) []).
  - exact sample_rep.
  - reflexivity.
  - reflexivity.
  - exact sample_rep.
  - reflexivity.
Defined.

(** ** A Message-Authenticator that is too short *)

(**  The check reads and writes 16 bytes after the attribute header without
    looking at the attribute's length: on a received message, whose buffer is
    exactly as long as the packet, a Message-Authenticator of fewer than 16
    bytes at the end of the packet makes it leave the buffer. *)
Theorem verify_msg_auth_overruns m hdr pre d secret req e :
  msg_rep m hdr (pre ++ [(MA, d)]) -> ma_free pre -> zlen d < 16 ->
  wb_size (msg_buf m) = wb_used (msg_buf m) ->
  radius_msg_verify_msg_auth m secret req e = Fault OutOfBounds.
Proof.
  intros Hrep Hpre Hd Hsz. unfold radius_msg_verify_msg_auth.
  erewrite bind_run by (eapply find_msg_auth_one; [exact Hrep|done|constructor]).
  cbn beta iota. unfold mbind, prog_bind, msg_read, lift_outcome, rd.
  rewrite (wf_area _ (mw_buf m (rep_wf _ _ _ Hrep))), Hsz, (rep_used _ _ _ Hrep).
  rewrite (proj2 (Z.leb_gt (_ + MD5_MAC_LEN) _)).
  - by rewrite !andb_false_r.
  - rewrite encode_app, encode_single, zlen_app, zlen_encode_attr.
    unfold ATTR_HDR_LEN, MD5_MAC_LEN. simpl. lia.
Qed.

(** The packet of the witness: an Access-Request whose only attribute is an
    empty Message-Authenticator. *)
Definition short_ma_packet : list Z := [1; 7; 0; 22] ++ zeros 16 ++ [80; 2].

Lemma short_ma_parsed :
  exists m, radius_msg_parse (Some short_ma_packet) (zlen short_ma_packet) (Env [] []) =
      Done (Some m, Env [] []) /\
    msg_rep m ([1; 7; 0; 22] ++ zeros 16) [(MA, [])] /\
    wb_size (msg_buf m) = wb_used (msg_buf m).
Proof.
  eexists. split; [vm_compute; reflexivity|]. split; [|done].
  constructor; try done.
  - constructor; try done.
    + constructor; try done. repeat constructor; done.
    + constructor; [|constructor]. split; [done|]. by exists 80, 2.
  - repeat constructor; done.
Qed.

Lemma verify_msg_auth_overruns_witness :
  exists m, radius_msg_parse (Some short_ma_packet) (zlen short_ma_packet) (Env [] []) =
      Done (Some m, Env [] []) /\
    radius_msg_verify_msg_auth m (cstr "radius") None (Env [] []) = Fault OutOfBounds.
Proof.
  destruct short_ma_parsed as (m & Hp & Hrep & Hsz). exists m. split; [exact Hp|].
  apply (verify_msg_auth_overruns m ([1; 7; 0; 22] ++ zeros 16) [] [] (cstr "radius") None).
  - exact Hrep.
  - constructor.
  - reflexivity.
  - exact Hsz.
Defined.
