(* ===== verification/RadiusCrypt.v ===== *)
(** Keys and passwords in RADIUS messages ([src/radius/radius.c]): vendor
    specific attributes, the salted encryption of MS-MPPE keys and tunnel
    passwords (RFC 2548, RFC 2868) and the hiding of User-Password (RFC 2865).

    All of them xor 16-byte blocks with a chain of MD5 digests.  The theorems
    are the round trips: what one side encrypts, with its in-place loop over a
    buffer, the other side decrypts to the same key or password. *)
From stdpp Require Import base list strings numbers.
From Stdlib Require Import ZArith Lia.
From S2P Require Import Prelude Os Md5 Wpabuf RadiusMsg RadiusAttr RadiusAuth.

(** ** Constants ([radius.h]) *)

Definition RADIUS_VENDOR_ID_CISCO := 9.
Definition RADIUS_CISCO_AV_PAIR := 1.
Definition RADIUS_VENDOR_ID_MICROSOFT := 311.
Definition RADIUS_VENDOR_ATTR_MS_MPPE_SEND_KEY := 16.
Definition RADIUS_VENDOR_ATTR_MS_MPPE_RECV_KEY := 17.
Definition RADIUS_VENDOR_ID_WFA := 40808.

(** ** Vendor attributes *)

(** The loop over the sub-attributes of one Vendor-Specific attribute; every
    round consumes two bytes or more, so [left] bytes are enough fuel. *)
Fixpoint vendor_scan (fuel : nat) (msg : radius_msg) (subtype pos left : Z) :
    M (option (Z * Z)) :=
  if left <? 2 then mret None
  else
    match fuel with
    | O => fail_with OutOfBounds
    | S fuel =>
        vendor_type ← lift_outcome (rd1 (wb_buf (msg_buf msg)) pos);
        vendor_length ← lift_outcome (rd1 (wb_buf (msg_buf msg)) (pos + 1));
        if (left <? vendor_length) || (vendor_length <? 2) then mret None
        else if negb (vendor_type =? subtype) then
          vendor_scan fuel msg subtype (pos + vendor_length) (left - vendor_length)
        else mret (Some (pos + 2, vendor_length - 2))
    end.

(** [inr] leaves the loop: with the copy of the value, or without it when the
    copy cannot be allocated. *)
Definition radius_msg_get_vendor_attr (msg : option radius_msg) (vendor subtype : Z) :
    M (option (list Z)) :=
  match msg with
  | None => mret None
  | Some msg =>
      r ← for_attrs msg
        (fun pos ty len (_ : unit) =>
           if negb (ty =? RADIUS_ATTR_VENDOR_SPECIFIC) || (len <? ATTR_HDR_LEN)
           then mret (inl tt)
           else
             let left := len - ATTR_HDR_LEN in
             if left <? 4 then mret (inl tt)
             else
               vid ← msg_read msg (pos + ATTR_HDR_LEN) 4;
               if negb (WPA_GET_BE32 vid =? vendor) then mret (inl tt)
               else
                 s ← vendor_scan (Z.to_nat left) msg subtype (pos + ATTR_HDR_LEN + 4) (left - 4);
                 match s with
                 | None => mret (inl tt)
                 | Some (p, n) =>
                     ok ← malloc;
                     if negb ok then mret (inr None)
                     else d ← msg_read msg p n; mret (inr (Some d))
                 end)
        tt;
      mret (match r with inl _ => None | inr d => d end)
  end.

(** ** Block chains *)

Definition xor_bytes (a b : list Z) : list Z := zip_with Z.lxor a b.

(** The loop of [decrypt_ms_key] over [n] blocks: the digest of the first block
    is over the secret and [prev], of the next ones over the secret and the
    preceding block of cipher text. *)
Fixpoint decrypt_blocks (secret : list Z) (prev : list (list Z)) (c : list Z) (n : nat) :
    list Z :=
  match n with
  | O => []
  | S n =>
      let hash := edge_md5_vector (secret :: prev) in
      xor_bytes (take 16 c) hash ++ decrypt_blocks secret [take 16 c] (drop 16 c) n
  end.

(** The loop of [encrypt_ms_key], in place: [p] is the buffer from [pos] on. *)
Fixpoint encrypt_blocks (secret : list Z) (prev : list (list Z)) (p : list Z) (n : nat) :
    list Z :=
  match n with
  | O => p
  | S n =>
      let hash := edge_md5_vector (secret :: prev) in
      let c := xor_bytes (take 16 p) hash in
      c ++ encrypt_blocks secret [c] (drop 16 p) n
  end.

(** [key] starts with the salt; the result is the key. *)
Definition decrypt_ms_key (key : list Z) (len : Z) (req_authenticator secret : list Z) :
    M (option (list Z)) :=
  if len <? 2 + 16 then mret None
  else
    let left := len - 2 in
    if negb (left mod 16 =? 0) then mret None
    else
      ok ← malloc;
      if negb ok then mret None
      else
        salt ← lift_outcome (rd key 0 2);
        c ← lift_outcome (rd key 2 left);
        ra ← lift_outcome (rd req_authenticator 0 MD5_MAC_LEN);
        let plain := decrypt_blocks secret [ra; salt] c (Z.to_nat (left / 16)) in
        p0 ← lift_outcome (rd1 plain 0);
        if (p0 =? 0) || (left - 1 <? p0) then mret None
        else
          ok ← malloc;
          if negb ok then mret None
          else res ← lift_outcome (rd plain 1 p0); mret (Some res).

(** [ebuf] is the destination from the pointer on; the result is the length of
    the cipher text and the destination. *)
Definition encrypt_ms_key (key : list Z) (key_len salt : Z)
    (req_authenticator secret ebuf : list Z) : outcome (Z * list Z) :=
  let len := 1 + key_len in
  let len := if negb (Z.land len 0x0f =? 0) then Z.land len 0xf0 + 16 else len in
  match rd key 0 key_len, rd req_authenticator 0 MD5_MAC_LEN with
  | Done k, Done ra =>
      match wr ebuf 0 (zeros (Z.to_nat len)) with
      | Done b1 =>
          match wr b1 0 [u8 key_len] with
          | Done b2 =>
              match wr b2 1 k with
              | Done b3 =>
                  Done (len, encrypt_blocks secret [ra; WPA_PUT_BE16 salt] b3
                               (Z.to_nat (len / 16)))
              | Fault f => Fault f
              end
          | Fault f => Fault f
          end
      | Fault f => Fault f
      end
  | Fault f, _ => Fault f
  | _, Fault f => Fault f
  end.

Record radius_ms_mppe_keys := {
  ms_send : option (list Z);
  ms_recv : option (list Z)
}.

Definition get_ms_key (msg : radius_msg) (subtype : Z) (ra secret : list Z) :
    M (option (list Z)) :=
  key ← radius_msg_get_vendor_attr (Some msg) RADIUS_VENDOR_ID_MICROSOFT subtype;
  match key with
  | None => mret None
  | Some k => decrypt_ms_key k (zlen k) ra secret
  end.

Definition radius_msg_get_ms_keys (msg sent_msg : option radius_msg) (secret : list Z) :
    M (option radius_ms_mppe_keys) :=
  match msg, sent_msg with
  | Some msg, Some sent =>
      ok ← malloc;
      if negb ok then mret None
      else
        ra ← msg_authenticator sent;
        s ← get_ms_key msg RADIUS_VENDOR_ATTR_MS_MPPE_SEND_KEY ra secret;
        r ← get_ms_key msg RADIUS_VENDOR_ATTR_MS_MPPE_RECV_KEY ra secret;
        mret (Some {| ms_send := s; ms_recv := r |})
  | _, _ => mret None
  end.

Definition radius_msg_get_cisco_keys (msg sent_msg : option radius_msg) (secret : list Z) :
    M (option radius_ms_mppe_keys) :=
  match msg, sent_msg with
  | Some msg, Some sent =>
      ok ← malloc;
      if negb ok then mret None
      else
        key ← radius_msg_get_vendor_attr (Some msg) RADIUS_VENDOR_ID_CISCO RADIUS_CISCO_AV_PAIR;
        match key with
        | Some k =>
            if (zlen k =? 51) && bool_decide (take 17 k = cstr "leap:session-key=") then
              ra ← msg_authenticator sent;
              r ← decrypt_ms_key (drop 17 k) (zlen k - 17) ra secret;
              mret (Some {| ms_send := None; ms_recv := r |})
            else mret (Some {| ms_send := None; ms_recv := None |})
        | None => mret (Some {| ms_send := None; ms_recv := None |})
        end
  | _, _ => mret None
  end.

(** The two random bytes of a salt, as a little-endian integer. *)
Definition salt_of (l : list Z) : Z :=
  match l with [a; b] => Z.lor a (Z.shiftl b 8) | _ => 0 end.

(** One key attribute, in the buffer allocated for it: vendor id, vendor type
    and length, salt, cipher text. *)
Definition add_mppe_key (msg : radius_msg) (vendor_type salt : Z)
    (req_authenticator secret key : list Z) : M (option Z * radius_msg) :=
  let hlen := 8 in
  let buf := zeros (Z.to_nat (hlen + zlen key + 16)) in
  b1 ← lift_outcome (wr buf 0 (WPA_PUT_BE32 RADIUS_VENDOR_ID_MICROSOFT));
  b2 ← lift_outcome (wr b1 4 [vendor_type]);
  b3 ← lift_outcome (wr b2 6 (WPA_PUT_BE16 salt));
  el ← lift_outcome (encrypt_ms_key key (zlen key) salt req_authenticator secret (drop 8 b3));
  b4 ← lift_outcome (wr b3 8 el.2);
  b5 ← lift_outcome (wr b4 5 [u8 (hlen + el.1 - 4)]);
  radius_msg_add_attr msg RADIUS_ATTR_VENDOR_SPECIFIC (Some b5) (hlen + el.1).

Definition radius_msg_add_mppe_keys (msg : radius_msg)
    (req_authenticator secret send_key recv_key : list Z) : M (Z * radius_msg) :=
  ok ← malloc;
  if negb ok then mret (0, msg)
  else
    rs ← edge_os_get_random 2;
    if rs.1 <? 0 then mret (0, msg)
    else
      let salt := Z.lor (salt_of rs.2) 0x8000 in
      a1 ← add_mppe_key msg RADIUS_VENDOR_ATTR_MS_MPPE_SEND_KEY salt req_authenticator secret
             send_key;
      match a1.1 with
      | None => mret (0, a1.2)
      | Some _ =>
          ok ← malloc;
          if negb ok then mret (0, a1.2)
          else
            a2 ← add_mppe_key a1.2 RADIUS_VENDOR_ATTR_MS_MPPE_RECV_KEY (Z.lxor salt 1)
                   req_authenticator secret recv_key;
            match a2.1 with
            | None => mret (0, a2.2)
            | Some _ => mret (1, a2.2)
            end
      end.

Definition radius_msg_add_wfa (msg : radius_msg) (subtype : Z) (data : list Z) :
    M (Z * radius_msg) :=
  let alen := 4 + 2 + zlen data in
  ok ← malloc;
  if negb ok then mret (0, msg)
  else
    let buf := WPA_PUT_BE32 RADIUS_VENDOR_ID_WFA ++ [u8 subtype; u8 (2 + zlen data)] ++ data in
    a ← radius_msg_add_attr msg RADIUS_ATTR_VENDOR_SPECIFIC (Some buf) alen;
    mret (match a.1 with None => 0 | Some _ => 1 end, a.2).

(** [buf] is the destination object; [buf_len] the length the caller gives. *)
Definition radius_user_password_hide (msg : radius_msg) (data secret buf : list Z)
    (buf_len : Z) : M (Z * list Z) :=
  if buf_len <? zlen data + 16 then mret (-1, buf)
  else
    b1 ← lift_outcome (wr buf 0 data);
    let padlen := zlen data mod 16 in
    bl ← (if negb (padlen =? 0) && (zlen data <? buf_len) then
            b ← lift_outcome (wr b1 (zlen data) (zeros (Z.to_nat (16 - padlen))));
            mret (b, zlen data + (16 - padlen))
          else mret (b1, zlen data));
    ra ← msg_authenticator msg;
    (* the first block is encrypted whatever the length *)
    let n := Z.to_nat (Z.max 1 (bl.2 / 16)) in
    if 16 * Z.of_nat n <=? zlen bl.1 then
      mret (bl.2, encrypt_blocks secret [ra] bl.1 n)
    else fail_with OutOfBounds.

(** [stack] is what the uninitialised 128-byte array holds. *)
Definition radius_msg_add_attr_user_password (msg : radius_msg) (data secret stack : list Z) :
    M (option Z * radius_msg) :=
  r ← radius_user_password_hide msg data secret stack 128;
  if r.1 <? 0 then mret (None, msg)
  else radius_msg_add_attr msg RADIUS_ATTR_USER_PASSWORD (Some r.2) r.1.

(** ** Tunnel passwords *)

(** The [n]-th attribute whose value is a tag, a salt and whole blocks: the
    offset and the length of its value. *)
Definition find_tunnel_password (msg : radius_msg) (n : Z) : M (option (Z * Z)) :=
  r ← for_attrs msg
    (fun pos ty len j =>
       if negb (ty =? RADIUS_ATTR_TUNNEL_PASSWORD) then mret (inl j)
       else if len <=? 5 then mret (inl j)
       else
         let dlen := len - ATTR_HDR_LEN in
         if (dlen <=? 3) || negb (dlen mod 16 =? 3) then mret (inl j)
         else if j + 1 <=? n then mret (inl (j + 1))
         else mret (inr (pos + ATTR_HDR_LEN, dlen)))
    0;
  mret (match r with inl _ => None | inr f => Some f end).

(** The blocks after the first, from the last one back, in place: [k] blocks
    remain, the last at offset [3 + 16 * k]. *)
Fixpoint tunnel_decrypt (secret buf : list Z) (k : nat) : outcome (list Z) :=
  match k with
  | O => Done buf
  | S k' =>
      let pos := 3 + 16 * Z.of_nat k in
      match rd buf (pos - 16) 16, rd buf pos 16 with
      | Done prev, Done blk =>
          match wr buf pos (xor_bytes blk (edge_md5_vector [secret; prev])) with
          | Done buf' => tunnel_decrypt secret buf' k'
          | Fault f => Fault f
          end
      | Fault f, _ => Fault f
      | _, Fault f => Fault f
      end
  end.

(** The password, and the value left in [*keylen] if it is set. *)
Definition radius_msg_get_tunnel_password (msg : radius_msg) (secret : list Z)
    (sent_msg : radius_msg) (n : Z) : M (option (list Z) * option Z) :=
  f ← find_tunnel_password msg n;
  match f with
  | None => mret (None, None)
  | Some (off, buflen) =>
      ok ← malloc;
      if negb ok then mret (None, None)
      else
        buf ← msg_read msg off buflen;
        b1 ← lift_outcome (tunnel_decrypt secret buf (Z.to_nat ((buflen - 3) / 16 - 1)));
        (* the pointer is now at the first block *)
        ra ← msg_authenticator sent_msg;
        salt ← lift_outcome (rd b1 1 2);
        blk ← lift_outcome (rd b1 3 16);
        b2 ← lift_outcome (wr b1 3 (xor_bytes blk (edge_md5_vector [secret; ra; salt])));
        keylen ← lift_outcome (rd1 b2 3);
        if buflen <=? 3 + keylen then mret (None, Some keylen)
        else if keylen =? 0 then mret (None, Some keylen)
        else
          ok ← malloc;
          if negb ok then mret (None, Some keylen)
          else p ← lift_outcome (rd b2 4 keylen); mret (Some p, Some keylen)
  end.

(** ** Block chains are inverted *)

Lemma length_xor_bytes a b : length (xor_bytes a b) = Nat.min (length a) (length b).
Proof. apply length_zip_with. Qed.

Lemma xor_bytes_twice a b : (length a <= length b)%nat -> xor_bytes (xor_bytes a b) b = a.
Proof.
  revert b. induction a as [|x a IH]; intros [|y b] Hl; simpl in *; try done; [lia|].
  f_equal; [|apply IH; lia]. by rewrite Z.lxor_assoc, Z.lxor_nilpotent, Z.lxor_0_r.
Qed.

Lemma bytes_xor a b : bytes a -> bytes b -> bytes (xor_bytes a b).
Proof.
  intros Ha. revert b. induction Ha as [|x a Hx _ IH]; intros b Hb; [constructor|].
  destruct Hb as [|y b Hy Hb]; [constructor|]. simpl. constructor; [|by apply IH].
  by apply byte_lxor.
Qed.

(** A block of sixteen bytes xored with a digest. *)
Lemma length_xor_md5 a l : length a = 16%nat -> length (xor_bytes a (edge_md5_vector l)) = 16%nat.
Proof. intros. rewrite length_xor_bytes, edge_md5_vector_length. lia. Qed.

Lemma length_encrypt_blocks secret n : forall prev p,
  (16 * n <= length p)%nat -> length (encrypt_blocks secret prev p n) = length p.
Proof.
  induction n as [|n IH]; intros prev p Hp; [done|]. simpl.
  rewrite length_app, length_xor_md5, IH; rewrite ?length_drop, ?length_take; lia.
Qed.

Lemma bytes_encrypt_blocks secret n : forall prev p,
  bytes p -> bytes (encrypt_blocks secret prev p n).
Proof.
  induction n as [|n IH]; intros prev p Hp; [done|]. simpl. apply Forall_app. split.
  - apply bytes_xor; [by apply Forall_take|apply edge_md5_vector_bytes].
  - apply IH. by apply Forall_drop.
Qed.

(** Encryption leaves what follows the blocks alone. *)
Lemma encrypt_blocks_app secret n : forall prev p q,
  length p = (16 * n)%nat ->
  encrypt_blocks secret prev (p ++ q) n = encrypt_blocks secret prev p n ++ q.
Proof.
  induction n as [|n IH]; intros prev p q Hp.
  - by destruct p.
  - simpl. rewrite take_app_le, drop_app_le by lia. rewrite IH by (rewrite length_drop; lia).
    by rewrite app_assoc.
Qed.

Lemma decrypt_encrypt_blocks secret n : forall prev p,
  length p = (16 * n)%nat -> decrypt_blocks secret prev (encrypt_blocks secret prev p n) n = p.
Proof.
  induction n as [|n IH]; intros prev p Hp; [by destruct p|]. simpl.
  set (c := xor_bytes (take 16 p) (edge_md5_vector (secret :: prev))).
  assert (length c = 16%nat) as Hc by (apply length_xor_md5; rewrite length_take; lia).
  rewrite (take_app_le _ _ 16), (drop_app_le _ _ 16) by lia.
  rewrite (take_ge c), (drop_ge c) by lia. rewrite app_nil_l, IH by (rewrite length_drop; lia).
  subst c. rewrite xor_bytes_twice, take_drop; [done|].
  rewrite edge_md5_vector_length, length_take. lia.
Qed.

(** ** MS-MPPE keys *)

Definition round16 (n : Z) : Z := 16 * ((n + 15) / 16).

(** The length computation of [encrypt_ms_key]. *)
Lemma encrypt_len n : 0 < n <= 256 ->
  (if negb (Z.land n 0x0f =? 0) then Z.land n 0xf0 + 16 else n) = round16 n.
Proof.
  intros Hn. unfold round16. rewrite land_0f.
  replace 0xf0 with (Z.shiftl (2 ^ 4 - 1) 4) by done.
  assert (Z.land n (Z.shiftl (2 ^ 4 - 1) 4) = Z.shiftl (Z.land (Z.shiftr n 4) (2 ^ 4 - 1)) 4) as ->.
  { rewrite Z.shiftl_land. apply Z.bits_inj'. intros k Hk.
    rewrite !Z.land_spec, !Z.shiftl_spec by done. destruct (Z.ltb_spec k 4).
    - by rewrite !(Z.testbit_neg_r _ (k - 4)), !andb_false_r by lia.
    - rewrite Z.shiftr_spec by lia. by replace (k - 4 + 4) with k by lia. }
  rewrite land_ones_mod, Z.shiftr_div_pow2, Z.shiftl_mul_pow2 by lia.
  change (2 ^ 4) with 16. destruct (Z.eqb_spec (n mod 16) 0); simpl negb; cbv iota; zdiv_lia.
Qed.

(** The plain text: the length of the key, the key and zeros up to a block. *)
Definition ms_plain (key : list Z) : list Z :=
  zlen key :: key ++ zeros (Z.to_nat (round16 (1 + zlen key) - (1 + zlen key))).

Lemma length_ms_plain key : zlen (ms_plain key) = round16 (1 + zlen key).
Proof.
  unfold ms_plain. rewrite zlen_cons, zlen_app. unfold zeros. rewrite zlen_replicate.
  pose proof (zlen_nonneg key). unfold round16. zdiv_lia.
Qed.

Lemma ms_plain_blocks key :
  length (ms_plain key) = (16 * Z.to_nat (round16 (1 + zlen key) / 16))%nat.
Proof.
  pose proof (length_ms_plain key) as Hp. pose proof (zlen_nonneg key).
  rewrite <- (to_nat_zlen (ms_plain key)), Hp. unfold round16. zdiv_lia.
Qed.

Lemma encrypt_ms_key_spec key salt ra secret ebuf :
  zlen key <= 255 -> zlen ra = 16 -> round16 (1 + zlen key) <= zlen ebuf ->
  encrypt_ms_key key (zlen key) salt ra secret ebuf =
    Done (round16 (1 + zlen key),
      encrypt_blocks secret [ra; WPA_PUT_BE16 salt] (ms_plain key)
        (Z.to_nat (round16 (1 + zlen key) / 16)) ++
      drop (Z.to_nat (round16 (1 + zlen key))) ebuf).
Proof.
  intros Hk Hra Hebuf. pose proof (zlen_nonneg key).
  unfold encrypt_ms_key, MD5_MAC_LEN. rewrite encrypt_len by lia.
  rewrite rd_all, (rd_take ra 16), (take_ge ra) by zlen_lia.
  set (L := round16 (1 + zlen key)) in *.
  assert (1 + zlen key <= L /\ L mod 16 = 0) as [HL HL16] by (subst L; unfold round16; zdiv_lia).
  rewrite wr_head by (unfold zeros; zlen_lia).
  replace (length (zeros (Z.to_nat L))) with (Z.to_nat L) by (unfold zeros; by rewrite length_replicate).
  set (tl := drop (Z.to_nat L) ebuf).
  replace (zeros (Z.to_nat L)) with ([0] ++ zeros (length key) ++ zeros (Z.to_nat (L - (1 + zlen key)))).
  2: { unfold zeros. change [0] with (replicate 1 0). rewrite <- !replicate_add. f_equal. zlen_lia. }
  rewrite <- !app_assoc. change (wr ([0] ++ ?p) 0 ?d) with (wr ([] ++ [0] ++ p) 0 d).
  rewrite (wr_app [] [0]) by done. rewrite app_nil_l.
  rewrite (wr_app [u8 (zlen key)] (zeros (length key))) by (unfold zeros; by rewrite ?length_replicate).
  rewrite u8_id by (unfold is_byte; lia). do 2 f_equal.
  replace ([zlen key] ++ key ++ zeros (Z.to_nat (L - (1 + zlen key))) ++ tl) with (ms_plain key ++ tl).
  2: { unfold ms_plain. fold L. simpl. by rewrite <- app_assoc. }
  apply encrypt_blocks_app, ms_plain_blocks.
Qed.

Lemma decrypt_ms_key_spec key salt ra secret e :
  1 <= zlen key <= 255 -> zlen ra = 16 -> mallocs e = [] ->
  let c := encrypt_blocks secret [ra; WPA_PUT_BE16 salt] (ms_plain key)
             (Z.to_nat (round16 (1 + zlen key) / 16)) in
  decrypt_ms_key (WPA_PUT_BE16 salt ++ c) (zlen (WPA_PUT_BE16 salt ++ c)) ra secret e =
    Done (Some key, e).
Proof.
  intros Hk Hra He c. pose proof (length_ms_plain key) as Hp.
  set (L := round16 (1 + zlen key)) in *.
  assert (1 + zlen key <= L /\ L mod 16 = 0) as [HL HL16] by (subst L; unfold round16; zdiv_lia).
  pose proof (ms_plain_blocks key) as Hlp. fold L in Hlp.
  assert (zlen c = L) as Hc.
  { unfold zlen, c. rewrite length_encrypt_blocks by lia. exact Hp. }
  unfold decrypt_ms_key. rewrite zlen_app, Hc. change (zlen (WPA_PUT_BE16 salt)) with 2.
  rewrite (proj2 (Z.ltb_ge _ _)) by zdiv_lia. replace (2 + L - 2) with L by lia.
  rewrite HL16. cbn [Z.eqb negb]. destruct e as [ms rs]. simpl in He. subst ms.
  erewrite bind_run by done. cbn [negb].
  erewrite bind_run; [|by rewrite (rd_app [] (WPA_PUT_BE16 salt) c)].
  erewrite bind_run; [|by rewrite <- (app_nil_r (WPA_PUT_BE16 salt ++ c)), <- app_assoc,
    (rd_app (WPA_PUT_BE16 salt) c [])].
  unfold MD5_MAC_LEN. erewrite bind_run; [|by rewrite <- Hra, rd_all].
  unfold c. rewrite decrypt_encrypt_blocks by done. erewrite bind_run by done.
  rewrite (proj2 (Z.eqb_neq _ 0)) by lia. rewrite (proj2 (Z.ltb_ge _ _)) by lia. cbn [orb].
  erewrite bind_run by done. cbn [negb].
  erewrite bind_run; [done|]. unfold ms_plain.
  change (zlen key :: key ++ ?z) with ([zlen key] ++ key ++ z).
  by rewrite (rd_app [zlen key] key).
Qed.

(**  Key encryption round trip: for every key of 1 to 255 bytes and every
    salt, [encrypt_ms_key] fills a large enough buffer without leaving it, and
    [decrypt_ms_key] of the salt and the cipher text returns the key. *)
Theorem ms_key_roundtrip key salt ra secret ebuf e :
  1 <= zlen key <= 255 -> zlen ra = 16 -> zlen key + 16 <= zlen ebuf -> mallocs e = [] ->
  exists elen out, encrypt_ms_key key (zlen key) salt ra secret ebuf = Done (elen, out) /\
    length out = length ebuf /\ 0 <= elen <= zlen key + 16 /\
    decrypt_ms_key (WPA_PUT_BE16 salt ++ take (Z.to_nat elen) out) (2 + elen) ra secret e =
      Done (Some key, e).
Proof.
  intros Hk Hra Hebuf He. pose proof (length_ms_plain key) as Hp.
  assert (round16 (1 + zlen key) <= zlen key + 16) as HL by (unfold round16; zdiv_lia).
  set (c := encrypt_blocks secret [ra; WPA_PUT_BE16 salt] (ms_plain key)
             (Z.to_nat (round16 (1 + zlen key) / 16))).
  assert (zlen c = round16 (1 + zlen key)) as Hc.
  { unfold zlen at 1, c. rewrite length_encrypt_blocks; [exact Hp|]. by rewrite ms_plain_blocks. }
  rewrite encrypt_ms_key_spec by lia. fold c. rewrite <- Hc in *.
  eexists _, _. split; [done|]. split; [zlen_lia|]. split; [pose proof (zlen_nonneg c); lia|].
  rewrite to_nat_zlen, take_app_length.
  replace (2 + zlen c) with (zlen (WPA_PUT_BE16 salt ++ c)) by (rewrite zlen_app; done).
  by apply decrypt_ms_key_spec.
Qed.

Lemma ms_key_roundtrip_witness :
  exists elen out, encrypt_ms_key (cstr "passphrase") 10 0x8001 (zeros 16) (cstr "radius")
      (zeros 40) = Done (elen, out) /\
    length out = 40%nat /\ 0 <= elen <= 26 /\
    decrypt_ms_key (WPA_PUT_BE16 0x8001 ++ take (Z.to_nat elen) out) (2 + elen) (zeros 16)
      (cstr "radius") (Env [] []) = Done (Some (cstr "passphrase"), Env [] []).
Proof.
  apply (ms_key_roundtrip (cstr "passphrase") 0x8001 (zeros 16) (cstr "radius") (zeros 40)
    (Env [] [])).
  - vm_compute. split; congruence.
  - reflexivity.
  - vm_compute. congruence.
  - reflexivity.
Defined.

(** ** Tunnel passwords *)

(** The last block of a chain. *)
Lemma decrypt_blocks_snoc secret k : forall p d blk,
  length p = 16%nat -> length d = (16 * k)%nat -> length blk = 16%nat ->
  decrypt_blocks secret [p] (d ++ blk) (S k) =
    decrypt_blocks secret [p] d k ++
    xor_bytes blk (edge_md5_vector [secret; drop (16 * k) (p ++ d)]).
Proof.
  induction k as [|k IH]; intros p d blk Hp Hd Hb.
  - destruct d; [|done]. simpl. by rewrite take_ge, app_nil_r, app_nil_r by lia.
  - assert (exists d1 d2, d = d1 ++ d2 /\ length d1 = 16%nat /\ length d2 = (16 * k)%nat)
      as (d1 & d2 & -> & H1 & H2).
    { exists (take 16 d), (drop 16 d). rewrite take_drop, length_take, length_drop. split; [done|lia]. }
    cbn [decrypt_blocks] in *.
    rewrite <- !app_assoc, !(take_app_le d1), !(take_ge d1), !(drop_app_le d1), !(drop_ge d1) by lia.
    rewrite app_nil_l. f_equal. rewrite IH by done. f_equal. do 3 f_equal.
    replace (16 * S k)%nat with (length p + 16 * k)%nat by lia. by rewrite drop_app_add.
Qed.

Lemma tunnel_decrypt_spec secret pre k : forall c suffix,
  zlen pre = 3 -> length c = (16 * (k + 1))%nat ->
  tunnel_decrypt secret (pre ++ c ++ suffix) k =
    Done (pre ++ take 16 c ++ decrypt_blocks secret [take 16 c] (drop 16 c) k ++ suffix).
Proof.
  induction k as [|k IH]; intros c suffix Hpre Hc.
  { simpl. rewrite take_ge by lia. done. }
  assert (exists c1 p blk, c = c1 ++ p ++ blk /\ length c1 = (16 * k)%nat /\
    length p = 16%nat /\ length blk = 16%nat) as (c1 & p & blk & -> & H1 & Hp & Hb).
  { exists (take (16 * k) c), (take 16 (drop (16 * k) c)), (drop 16 (drop (16 * k) c)).
    rewrite !take_drop, !length_take, !length_drop. split; [done|lia]. }
  cbn [tunnel_decrypt].
  replace (pre ++ (c1 ++ p ++ blk) ++ suffix) with ((pre ++ c1) ++ p ++ (blk ++ suffix))
    by (by rewrite <- !app_assoc).
  rewrite (rd_app (pre ++ c1) p) by zlen_lia. rewrite (app_assoc (pre ++ c1) p).
  rewrite (rd_app ((pre ++ c1) ++ p) blk), wr_app by
    first [zlen_lia|rewrite length_xor_md5; lia].
  rewrite <- (app_assoc (pre ++ c1)), <- (app_assoc pre), (app_assoc c1 p).
  rewrite IH by (rewrite ?length_app; lia). do 2 f_equal.
  assert (length (take 16 (c1 ++ p)) = 16%nat) as Ht by (rewrite length_take, length_app; lia).
  replace (take 16 (c1 ++ p ++ blk)) with (take 16 (c1 ++ p))
    by (rewrite (app_assoc c1 p), (take_app_le (c1 ++ p)); [done|rewrite length_app; lia]).
  f_equal. replace (drop 16 (c1 ++ p ++ blk)) with (drop 16 (c1 ++ p) ++ blk)
    by (rewrite (app_assoc c1 p), (drop_app_le (c1 ++ p)); [done|rewrite length_app; lia]).
  rewrite decrypt_blocks_snoc by first [done|rewrite length_drop, length_app; lia].
  rewrite <- app_assoc. do 4 f_equal.
  rewrite take_drop. by rewrite <- H1, drop_app_length.
Qed.

Lemma find_tunnel_password_rep m hdr pre v post e :
  msg_rep m hdr (pre ++ (RADIUS_ATTR_TUNNEL_PASSWORD, v) :: post) ->
  Forall (fun a => a.1 <> RADIUS_ATTR_TUNNEL_PASSWORD) pre -> 3 < zlen v -> zlen v mod 16 = 3 ->
  find_tunnel_password m 0 e = Done (Some (HDR_LEN + zlen (encode pre) + ATTR_HDR_LEN, zlen v), e).
Proof.
  intros Hrep Hpre Hv Hmod. unfold find_tunnel_password.
  match goal with |- context [for_attrs m ?f 0] => set (body := f) end.
  destruct (for_attrs_inv m hdr _ body (fun q j e' => e' = e /\ j = 0 /\
      Forall (fun a => a.1 <> RADIUS_ATTR_TUNNEL_PASSWORD) q)
    (fun x e' => e' = e /\ x = (HDR_LEN + zlen (encode pre) + ATTR_HDR_LEN, zlen v)) 0 e Hrep)
    as (r & e' & Hrun & Hr).
  - intros q t d post' j e0 Hat (-> & -> & Hq). subst body. cbn beta.
    destruct (Z.eqb_spec t RADIUS_ATTR_TUNNEL_PASSWORD) as [->|Hne]; cbn [negb].
    + assert (q = pre /\ d = v) as [-> ->].
      { by destruct (first_split_unique _ _ _ _ _ _ _ Hat Hpre Hq) as (<- & <- & _). }
      unfold ATTR_HDR_LEN. rewrite (proj2 (Z.leb_gt _ 5)) by lia.
      replace (2 + zlen v - 2) with (zlen v) by lia.
      rewrite (proj2 (Z.leb_gt _ 3)), Hmod by lia.
      change ((0 + 1 <=? 0)) with false. cbn [Z.eqb negb orb Pos.eqb].
      eexists _, _. split; [done|]. done.
    + eexists _, _. split; [done|]. cbn beta iota. split; [done|]. split; [done|].
      apply Forall_app. split; [done|]. by constructor.
  - done.
  - erewrite bind_run by exact Hrun. destruct r as [j|x].
    + destruct Hr as (_ & _ & Hall). apply Forall_app in Hall as [_ Hall].
      by apply List.Forall_cons_iff in Hall as [? _].
    + by destruct Hr as [-> ->].
Qed.

(** The value of a Tunnel-Password attribute: tag, salt, cipher text. *)
Definition tunnel_value (tag salt : Z) (ra secret key : list Z) : list Z :=
  [tag] ++ WPA_PUT_BE16 salt ++
  encrypt_blocks secret [ra; WPA_PUT_BE16 salt] (ms_plain key)
    (Z.to_nat (round16 (1 + zlen key) / 16)).

Lemma zlen_tunnel_value tag salt ra secret key :
  zlen (tunnel_value tag salt ra secret key) = 3 + round16 (1 + zlen key).
Proof.
  unfold tunnel_value. rewrite !zlen_app. change (zlen [tag]) with 1.
  change (zlen (WPA_PUT_BE16 salt)) with 2.
  assert (zlen (encrypt_blocks secret [ra; WPA_PUT_BE16 salt] (ms_plain key)
    (Z.to_nat (round16 (1 + zlen key) / 16))) = round16 (1 + zlen key)) as ->; [|lia].
  unfold zlen at 1. rewrite length_encrypt_blocks by (by rewrite ms_plain_blocks).
  apply length_ms_plain.
Qed.

(** Decrypting the value in place, last block first, is decrypting the chain. *)
Lemma tunnel_blocks secret prev c k : length c = (16 * S k)%nat ->
  decrypt_blocks secret prev c (S k) =
    xor_bytes (take 16 c) (edge_md5_vector (secret :: prev)) ++
    decrypt_blocks secret [take 16 c] (drop 16 c) k.
Proof. done. Qed.

Lemma get_tunnel_password_rep m hdr pre post tag salt secret sent sh4 sa sattrs key e :
  msg_rep m hdr (pre ++ (RADIUS_ATTR_TUNNEL_PASSWORD,
                         tunnel_value tag salt sa secret key) :: post) ->
  Forall (fun a => a.1 <> RADIUS_ATTR_TUNNEL_PASSWORD) pre ->
  msg_rep sent (sh4 ++ sa) sattrs -> zlen sh4 = 4 -> 1 <= zlen key <= 239 -> mallocs e = [] ->
  radius_msg_get_tunnel_password m secret sent 0 e = Done ((Some key, Some (zlen key)), e).
Proof.
  intros Hrep Hpre Hsent Hsh4 Hk He.
  set (L := round16 (1 + zlen key)).
  assert (1 + zlen key <= L /\ L mod 16 = 0 /\ 16 <= L) as (HL & HL16 & HL0)
    by (subst L; unfold round16; zdiv_lia).
  pose proof (zlen_tunnel_value tag salt sa secret key) as Hv. fold L in Hv.
  unfold radius_msg_get_tunnel_password.
  erewrite bind_run; [|eapply find_tunnel_password_rep; [exact Hrep|done|lia|zdiv_lia]].
  destruct e as [ms rs]. simpl in He. subst ms. erewrite bind_run by done. cbn [negb].
  erewrite bind_run; cycle 1.
  { pose proof (read_value m _ pre _ _ post Hrep (Env [] rs)) as Hr. unfold ATTR_HDR_LEN in *.
    rewrite Hv in *. replace (2 + (3 + L) - 2) with (3 + L) in Hr by lia. exact Hr. }
  rewrite Hv. unfold tunnel_value. fold L.
  set (c := encrypt_blocks secret [sa; WPA_PUT_BE16 salt] (ms_plain key) (Z.to_nat (L / 16))).
  assert (length c = (16 * Z.to_nat (L / 16))%nat) as Hc.
  { subst c. rewrite length_encrypt_blocks; rewrite ms_plain_blocks; done. }
  replace ((3 + L - 3) / 16 - 1) with (L / 16 - 1) by (f_equal; f_equal; lia).
  rewrite (app_assoc [tag]), <- (app_nil_r c).
  rewrite tunnel_decrypt_spec by first [done|zdiv_lia]. erewrite bind_run by done.
  erewrite bind_run by (by eapply msg_authenticator_rep).
  erewrite bind_run; [|by rewrite <- app_assoc, (rd_app [tag] (WPA_PUT_BE16 salt))].
  assert (length (take 16 c) = 16%nat) as Ht by (rewrite length_take; zdiv_lia).
  erewrite bind_run; [|by rewrite (rd_app ([tag] ++ WPA_PUT_BE16 salt) (take 16 c)) by zlen_lia].
  erewrite bind_run; [|by rewrite wr_app by first [done|rewrite length_xor_md5; lia]].
  replace (Z.to_nat (L / 16)) with (S (Z.to_nat (L / 16 - 1))) in Hc by zdiv_lia.
  rewrite app_nil_r, <- tunnel_blocks by done.
  replace (S (Z.to_nat (L / 16 - 1))) with (Z.to_nat (L / 16)) by zdiv_lia. subst c.
  rewrite decrypt_encrypt_blocks by apply ms_plain_blocks. unfold ms_plain. fold L.
  erewrite bind_run by done. rewrite (proj2 (Z.leb_gt _ _)), (proj2 (Z.eqb_neq _ 0)) by lia.
  erewrite bind_run by done. cbn [negb]. erewrite bind_run; [done|].
  change (zlen key :: key ++ ?z) with ([zlen key] ++ key ++ z).
  by rewrite (app_assoc ([tag] ++ WPA_PUT_BE16 salt) [zlen key]), rd_app by done.
Qed.

(** C38.  Tunnel-Password round trip: the value the server builds for a password
    of 1 to 239 bytes (tag, salt and the encrypted blocks) is decrypted by
    [radius_msg_get_tunnel_password], which works backwards in place, to that
    password and its length, whatever other attributes surround it. *)
Theorem tunnel_password_roundtrip m hdr pre post tag salt secret sent sh4 sa sattrs key e :
  msg_rep m hdr (pre ++ (RADIUS_ATTR_TUNNEL_PASSWORD,
                         tunnel_value tag salt sa secret key) :: post) ->
  Forall (fun a => a.1 <> RADIUS_ATTR_TUNNEL_PASSWORD) pre ->
  msg_rep sent (sh4 ++ sa) sattrs -> zlen sh4 = 4 -> 1 <= zlen key <= 239 -> mallocs e = [] ->
  radius_msg_get_tunnel_password m secret sent 0 e = Done ((Some key, Some (zlen key)), e).
Proof. apply get_tunnel_password_rep. Qed.

(** A message with a Tunnel-Password, built by [radius_msg_add_attr]. *)
Definition sample_tunnel : list Z :=
  tunnel_value 0 0x8001 (zeros 16) (cstr "radius") (cstr "passphrase").

Lemma sample_tunnel_length : zlen sample_tunnel = 19.
Proof. unfold sample_tunnel. by rewrite zlen_tunnel_value. Qed.

Lemma sample_tunnel_ok : attr_ok (RADIUS_ATTR_TUNNEL_PASSWORD, sample_tunnel).
Proof.
  split; [done|]. split; [|cbn [snd]; by rewrite sample_tunnel_length].
  apply Forall_app. split; [by repeat constructor|]. apply Forall_app.
  split; [by repeat constructor|]. apply bytes_encrypt_blocks. by repeat constructor.
Qed.

Lemma tunnel_password_roundtrip_witness :
  exists m', radius_msg_add_attr sample_msg RADIUS_ATTR_TUNNEL_PASSWORD (Some sample_tunnel)
      (zlen sample_tunnel) (Env [] []) = Done ((Some 20, m'), Env [] []) /\
    radius_msg_get_tunnel_password m' (cstr "radius") sample_msg 0 (Env [] []) =
      Done ((Some (cstr "passphrase"), Some 10), Env [] []).
Proof.
  destruct (add_attr_rep sample_msg ([1; 7; 0; 20] ++ zeros 16) [] RADIUS_ATTR_TUNNEL_PASSWORD
    sample_tunnel sample_tunnel (Env [] []) sample_rep sample_small sample_tunnel_ok
    (rd_all sample_tunnel) eq_refl) as (m' & Hrun & Hrep).
  exists m'. split; [exact Hrun|].
  apply (tunnel_password_roundtrip m' ([1; 7; 0; 20] ++ zeros 16) [] [] 0 0x8001
    (cstr "radius") sample_msg [1; 7; 0; 20] (zeros 16) [] (cstr "passphrase") (Env [] [])).
  - exact Hrep.
  - constructor.
  - exact sample_rep.
  - reflexivity.
  - vm_compute. split; congruence.
  - reflexivity.
Defined.

(** ** User-Password *)

(**  User-Password hiding is reversible as RFC 2865 prescribes: for every
    password of 1 to 112 bytes the hidden value has the length rounded up to
    whole blocks, and xoring its blocks with the chain of digests that starts
    from the secret and the request authenticator gives the password padded
    with zeros; a longer password is refused. *)
Theorem user_password_hide_roundtrip m h4 auth attrs data secret buf e :
  msg_rep m (h4 ++ auth) attrs -> zlen h4 = 4 -> zlen buf = 128 -> 1 <= zlen data ->
  if decide (zlen data <= 112) then
    exists n out, radius_user_password_hide m data secret buf 128 e = Done ((n, out), e) /\
      n = round16 (zlen data) /\
      decrypt_blocks secret [auth] (take (Z.to_nat n) out) (Z.to_nat (n / 16)) =
        data ++ zeros (Z.to_nat (n - zlen data))
  else radius_user_password_hide m data secret buf 128 e = Done ((-1, buf), e).
Proof.
  intros Hrep Hh4 Hbuf Hd. unfold radius_user_password_hide. case_decide as Hmax; cycle 1.
  { by rewrite (proj2 (Z.ltb_lt _ _)) by lia. }
  rewrite (proj2 (Z.ltb_ge _ _)) by lia. rewrite wr_head by zlen_lia.
  erewrite bind_run by done. cbv zeta.
  set (n := round16 (zlen data)). set (tl := drop (Z.to_nat n) buf).
  assert (zlen data <= n <= 112 /\ n mod 16 = 0 /\ n < zlen data + 16) as (Hn & Hn16 & Hn2)
    by (subst n; unfold round16; zdiv_lia).
  match goal with |- context [(?x ≫= _) e] => set (pad := x) end.
  assert (pad e = Done ((data ++ zeros (Z.to_nat (n - zlen data)) ++ tl, n), e)) as Hpad.
  { subst pad tl. rewrite (proj2 (Z.ltb_lt (zlen data) 128)) by lia.
    destruct (Z.eqb_spec (zlen data mod 16) 0) as [Hz|Hz]; cbn [negb andb].
    - replace n with (zlen data) by zdiv_lia. by rewrite Z.sub_diag, to_nat_zlen.
    - replace (16 - zlen data mod 16) with (n - zlen data) by zdiv_lia.
      rewrite <- (take_drop (Z.to_nat (n - zlen data)) (drop (length data) buf)).
      rewrite wr_app by (unfold zeros; first [done|zlen_lia]). erewrite bind_run by done.
      rewrite drop_drop. replace (length data + Z.to_nat (n - zlen data))%nat with (Z.to_nat n)
        by zlen_lia. by replace (zlen data + (n - zlen data)) with n by lia. }
  erewrite bind_run by exact Hpad. erewrite bind_run by (by eapply msg_authenticator_rep).
  cbn [fst snd]. replace (Z.max 1 (n / 16)) with (n / 16) by zdiv_lia.
  assert (length (data ++ zeros (Z.to_nat (n - zlen data))) = (16 * Z.to_nat (n / 16))%nat) as Hl.
  { rewrite length_app. unfold zeros. rewrite length_replicate, <- to_nat_zlen. zdiv_lia. }
  rewrite (proj2 (Z.leb_le _ _)) by (rewrite app_assoc, zlen_app; zlen_lia).
  eexists _, _. split; [done|]. split; [done|].
  rewrite app_assoc, encrypt_blocks_app by done.
  rewrite take_app_le, take_ge by (rewrite length_encrypt_blocks; [|lia]; zdiv_lia).
  by apply decrypt_encrypt_blocks.
Qed.

Lemma user_password_hide_roundtrip_witness :
  exists n out, radius_user_password_hide sample_msg (cstr "secret") (cstr "radius") (zeros 128)
      128 (Env [] []) = Done ((n, out), Env [] []) /\
    n = round16 6 /\
    decrypt_blocks (cstr "radius") [zeros 16] (take (Z.to_nat n) out) (Z.to_nat (n / 16)) =
      cstr "secret" ++ zeros (Z.to_nat (n - 6)).
Proof.
  apply (user_password_hide_roundtrip sample_msg [1; 7; 0; 20] (zeros 16) []
    (cstr "secret") (cstr "radius") (zeros 128) (Env [] [])).
  - exact sample_rep.
  - reflexivity.
  - reflexivity.
  - vm_compute. congruence.
Defined.

(** ** MS-MPPE key attributes *)

(** The value of a vendor attribute with one sub-attribute. *)
Definition vendor_value (vendor subtype : Z) (data : list Z) : list Z :=
  WPA_PUT_BE32 vendor ++ [subtype; 2 + zlen data] ++ data.

Section vendor.
Context (m : radius_msg) (hdr : list Z) (pre post : list attr) (vendor st : Z) (data : list Z).
Hypothesis Hrep :
  msg_rep m hdr (pre ++ (RADIUS_ATTR_VENDOR_SPECIFIC, vendor_value vendor st data) :: post).

Let pos := HDR_LEN + zlen (encode pre).

Lemma vendor_layout : hdr ++ encode (pre ++ (RADIUS_ATTR_VENDOR_SPECIFIC,
    vendor_value vendor st data) :: post) =
  (hdr ++ encode pre ++ [RADIUS_ATTR_VENDOR_SPECIFIC; 8 + zlen data]) ++
  WPA_PUT_BE32 vendor ++ [st; 2 + zlen data] ++ data ++ encode post.
Proof.
  rewrite encode_app, encode_cons. unfold encode_attr, vendor_value, ATTR_HDR_LEN. cbn [fst snd].
  rewrite !zlen_app. change (zlen (WPA_PUT_BE32 vendor)) with 4. change (zlen [_; _]) with 2.
  replace (2 + (4 + (2 + zlen data))) with (8 + zlen data) by lia. by rewrite <- !app_assoc.
Qed.

Lemma zlen_before :
  zlen (hdr ++ encode pre ++ [RADIUS_ATTR_VENDOR_SPECIFIC; 8 + zlen data]) = pos + ATTR_HDR_LEN.
Proof.
  rewrite !zlen_app, (rep_hdr _ _ _ Hrep). subst pos. change (zlen [_; _]) with 2.
  unfold ATTR_HDR_LEN. lia.
Qed.

Lemma vendor_read_id e : msg_read m (pos + ATTR_HDR_LEN) 4 e = Done (WPA_PUT_BE32 vendor, e).
Proof.
  rewrite <- zlen_before. eapply (rep_read_slice m hdr _ _ (WPA_PUT_BE32 vendor)); [exact Hrep|].
  apply vendor_layout.
Qed.

Lemma vendor_read_type : rd1 (wb_buf (msg_buf m)) (pos + ATTR_HDR_LEN + 4) = Done st.
Proof.
  rewrite <- zlen_before.
  replace (zlen _ + 4) with (zlen ((hdr ++ encode pre ++
    [RADIUS_ATTR_VENDOR_SPECIFIC; 8 + zlen data]) ++ WPA_PUT_BE32 vendor))
    by (by rewrite (zlen_app _ (WPA_PUT_BE32 vendor))).
  eapply (rep_read1 m hdr _ _ _ ((2 + zlen data) :: data ++ encode post)); [exact Hrep|].
  rewrite vendor_layout, <- !app_assoc. done.
Qed.

Lemma vendor_read_length :
  rd1 (wb_buf (msg_buf m)) (pos + ATTR_HDR_LEN + 4 + 1) = Done (2 + zlen data).
Proof.
  rewrite <- zlen_before.
  replace (zlen _ + 4 + 1) with (zlen ((hdr ++ encode pre ++
    [RADIUS_ATTR_VENDOR_SPECIFIC; 8 + zlen data]) ++ WPA_PUT_BE32 vendor ++ [st]))
    by (rewrite (zlen_app _ (WPA_PUT_BE32 vendor ++ [st])); change (zlen (_ ++ [st])) with 5; lia).
  eapply (rep_read1 m hdr _ _ _ (data ++ encode post)); [exact Hrep|].
  rewrite vendor_layout, <- !app_assoc. done.
Qed.

Lemma vendor_read_data e :
  msg_read m (pos + ATTR_HDR_LEN + 4 + 2) (zlen data) e = Done (data, e).
Proof.
  rewrite <- zlen_before.
  replace (zlen _ + 4 + 2) with (zlen ((hdr ++ encode pre ++
    [RADIUS_ATTR_VENDOR_SPECIFIC; 8 + zlen data]) ++ WPA_PUT_BE32 vendor ++ [st; 2 + zlen data]))
    by (rewrite (zlen_app _ (WPA_PUT_BE32 vendor ++ [st; 2 + zlen data]));
        change (zlen (_ ++ [st; 2 + zlen data])) with 6; lia).
  eapply (rep_read_slice m hdr _ _ data (encode post)); [exact Hrep|].
  rewrite vendor_layout, <- !app_assoc. done.
Qed.

(** The scan stops at the sub-attribute, or passes over it and ends. *)
Lemma vendor_scan_rep subtype fuel e :
  vendor_scan (S (S fuel)) m subtype (pos + ATTR_HDR_LEN + 4) (2 + zlen data) e =
    Done (if decide (st = subtype) then Some (pos + ATTR_HDR_LEN + 4 + 2, zlen data) else None, e).
Proof.
  pose proof (zlen_nonneg data). remember (S fuel) as fuel1 eqn:Hf1. simpl vendor_scan.
  rewrite (proj2 (Z.ltb_ge _ 2)) by lia.
  rewrite vendor_read_type. erewrite bind_run by done.
  rewrite vendor_read_length. erewrite bind_run by done.
  rewrite (proj2 (Z.ltb_ge (2 + zlen data) (2 + zlen data))), (proj2 (Z.ltb_ge _ 2)) by lia.
  cbn [orb]. case_decide as Hd.
  - rewrite (proj2 (Z.eqb_eq _ _)) by done. cbn [negb].
    by replace (2 + zlen data - 2) with (zlen data) by lia.
  - rewrite (proj2 (Z.eqb_neq _ _)) by done. cbn [negb].
    replace (2 + zlen data - (2 + zlen data)) with 0 by lia. by subst fuel1.
Qed.
End vendor.

(** Attributes the search for a sub-attribute passes over. *)
Definition vendor_skip (vendor subtype : Z) (a : attr) : Prop :=
  a.1 <> RADIUS_ATTR_VENDOR_SPECIFIC \/
  exists st d, a = (RADIUS_ATTR_VENDOR_SPECIFIC, vendor_value vendor st d) /\ st <> subtype.

Lemma vendor_not_skip vendor subtype data :
  ~ vendor_skip vendor subtype (RADIUS_ATTR_VENDOR_SPECIFIC, vendor_value vendor subtype data).
Proof.
  intros [Hne|(st & d & Heq & Hst)]; [done|]. injection Heq as Heq.
  unfold vendor_value in Heq. simpl in Heq. by simplify_eq.
Qed.

(** The first element without a property splits a list in one way. *)
Lemma prefix_cases {A} (P : A -> Prop) pre x post : forall q y post',
  pre ++ x :: post = q ++ y :: post' -> Forall P pre -> Forall P q -> ~ P x ->
  (q = pre /\ y = x) \/ P y.
Proof.
  induction pre as [|a pre IH]; intros [|b q] y post' Heq Hpre Hq Hx; simpl in Heq.
  - injection Heq as -> _. by left.
  - injection Heq as -> _. by apply List.Forall_cons_iff in Hq as [? _].
  - injection Heq as -> _. right. by apply List.Forall_cons_iff in Hpre as [? _].
  - injection Heq as -> Heq. apply List.Forall_cons_iff in Hpre as [_ Hpre], Hq as [_ Hq].
    destruct (IH _ _ _ Heq Hpre Hq Hx) as [[-> ->]|?]; auto.
Qed.

Lemma get_vendor_attr_rep m hdr pre vendor st data post e :
  msg_rep m hdr (pre ++ (RADIUS_ATTR_VENDOR_SPECIFIC, vendor_value vendor st data) :: post) ->
  Forall (vendor_skip vendor st) pre -> 0 <= vendor < 2 ^ 32 -> mallocs e = [] ->
  radius_msg_get_vendor_attr (Some m) vendor st e = Done (Some data, e).
Proof.
  intros Hrep Hpre Hvend He. unfold radius_msg_get_vendor_attr.
  match goal with |- context [for_attrs m ?f tt] => set (body := f) end.
  destruct (for_attrs_inv m hdr _ body
    (fun q _ e' => e' = e /\ Forall (vendor_skip vendor st) q)
    (fun x e' => e' = e /\ x = Some data) tt e Hrep) as (r & e' & Hrun & Hr).
  - assert (forall q st' d' post' e0,
      msg_rep m hdr (q ++ (RADIUS_ATTR_VENDOR_SPECIFIC, vendor_value vendor st' d') :: post') ->
      e0 = e -> exists r, body (HDR_LEN + zlen (encode q)) RADIUS_ATTR_VENDOR_SPECIFIC
        (2 + zlen (vendor_value vendor st' d')) tt e0 = Done (r, e) /\
        r = if decide (st' = st) then inr (Some d') else inl tt) as Hstep.
    { intros q st' d' post' e0 Hrq ->. subst body. cbn beta. pose proof (zlen_nonneg d').
      assert (zlen (vendor_value vendor st' d') = 6 + zlen d') as ->.
      { unfold vendor_value. rewrite !zlen_app. change (zlen [_; _]) with 2.
        change (zlen (WPA_PUT_BE32 vendor)) with 4. lia. }
      rewrite Z.eqb_refl. unfold ATTR_HDR_LEN. cbn [negb orb].
      rewrite (proj2 (Z.ltb_ge _ 2)), (proj2 (Z.ltb_ge _ 4)) by lia.
      erewrite bind_run by (by eapply (vendor_read_id m hdr q post' vendor st' d')).
      pose proof (wpa_be32_roundtrip vendor [] Hvend) as Hv. rewrite app_nil_r in Hv.
      rewrite Hv, Z.eqb_refl. cbn [negb].
      replace (2 + (6 + zlen d') - 2 - 4) with (2 + zlen d') by lia.
      replace (Z.to_nat (2 + (6 + zlen d') - 2)) with (S (S (Z.to_nat (4 + zlen d')))) by lia.
      erewrite bind_run by (by eapply (vendor_scan_rep m hdr q post' vendor st' d')).
      case_decide; [|by eexists]. destruct e as [ms rs]. simpl in He. subst ms.
      erewrite bind_run by done. cbn [negb].
      erewrite bind_run by (by eapply (vendor_read_data m hdr q post' vendor st' d')).
      by eexists. }
    intros q t d post' [] e0 Hat [-> Hq].
    destruct (prefix_cases _ _ _ _ _ _ _ Hat Hpre Hq (vendor_not_skip vendor st data))
      as [[-> Heq]|Hskip].
    + injection Heq as -> ->. destruct (Hstep pre st data post e Hrep eq_refl) as (r & Hb & ->).
      rewrite decide_True in Hb by done. by eexists _, _.
    + destruct Hskip as [Hne|(st' & d' & Heq & Hst)].
      * exists (inl tt), e. split.
        { subst body. cbn beta. simpl in Hne. by rewrite (proj2 (Z.eqb_neq _ _)). }
        split; [done|]. apply Forall_app. split; [done|]. constructor; [by left|done].
      * injection Heq as -> ->. rewrite Hat in Hrep.
        destruct (Hstep q st' d' post' e Hrep eq_refl) as (r & Hb & ->).
        rewrite decide_False in Hb by done. eexists _, _. split; [exact Hb|]. split; [done|].
        apply Forall_app. split; [done|]. constructor; [|done]. right. by exists st', d'.
  - done.
  - erewrite bind_run by exact Hrun. destruct r as [u|x]; destruct Hr as [-> Hr].
    + apply Forall_app in Hr as [_ Hr]. apply List.Forall_cons_iff in Hr as [Hr _].
      by apply vendor_not_skip in Hr.
    + by rewrite Hr.
Qed.

(** The payload of a key attribute: the salt and the cipher text. *)
Definition ms_payload (salt : Z) (ra secret key : list Z) : list Z :=
  WPA_PUT_BE16 salt ++ encrypt_blocks secret [ra; WPA_PUT_BE16 salt] (ms_plain key)
    (Z.to_nat (round16 (1 + zlen key) / 16)).

Lemma zlen_ms_payload salt ra secret key :
  zlen (ms_payload salt ra secret key) = 2 + round16 (1 + zlen key).
Proof.
  pose proof (zlen_tunnel_value 0 salt ra secret key) as H. unfold tunnel_value in H.
  rewrite zlen_app in H. change (zlen [0]) with 1 in H. unfold ms_payload. lia.
Qed.

Lemma bytes_be16 v : bytes (WPA_PUT_BE16 v).
Proof.
  unfold WPA_PUT_BE16. apply bytes_pair; [apply u8_byte|]. rewrite land_ff.
  unfold is_byte. zdiv_lia.
Qed.

Lemma bytes_ms_payload salt ra secret key : bytes key -> zlen key <= 255 ->
  bytes (ms_payload salt ra secret key).
Proof.
  intros Hb Hk. apply Forall_app. split; [apply bytes_be16|]. apply bytes_encrypt_blocks.
  pose proof (zlen_nonneg key). constructor; [unfold is_byte; lia|].
  apply Forall_app. split; [done|apply bytes_zeros].
Qed.

(** The buffer that [radius_msg_add_mppe_keys] fills for a key. *)
Lemma add_mppe_key_rep m hdr attrs st salt ra secret key e :
  msg_rep m hdr attrs -> msg_small m -> is_byte st -> zlen ra = 16 ->
  bytes key -> zlen key <= 239 -> mallocs e = [] ->
  exists p m', add_mppe_key m st salt ra secret key e = Done ((Some p, m'), e) /\
    msg_rep m' hdr (attrs ++ [(RADIUS_ATTR_VENDOR_SPECIFIC,
      vendor_value RADIUS_VENDOR_ID_MICROSOFT st (ms_payload salt ra secret key))]).
Proof.
  intros Hrep Hsm Hst Hra Hbk Hk He. pose proof (zlen_nonneg key) as Hk0.
  set (vid := WPA_PUT_BE32 RADIUS_VENDOR_ID_MICROSOFT).
  set (v := vendor_value RADIUS_VENDOR_ID_MICROSOFT st (ms_payload salt ra secret key)).
  pose proof (zlen_ms_payload salt ra secret key) as Hpl.
  set (L := round16 (1 + zlen key)) in *.
  assert (1 + zlen key <= L <= zlen key + 16 /\ L <= 240) as [HL HL2]
    by (subst L; unfold round16; zdiv_lia).
  assert (zlen v = 8 + L) as Hv.
  { subst v. unfold vendor_value. rewrite !zlen_app, Hpl. change (zlen [_; _]) with 2. 
    change (zlen (WPA_PUT_BE32 _)) with 4. lia. }
  unfold add_mppe_key. cbv zeta. set (rest := zeros (Z.to_nat (zlen key + 16))).
  replace (zeros (Z.to_nat (8 + zlen key + 16))) with ([] ++ zeros 4 ++ zeros 1 ++ zeros 1 ++ zeros 2 ++ rest).
  2: { subst rest. unfold zeros. rewrite app_nil_l, <- !replicate_add. f_equal. lia. }
  rewrite (wr_app [] (zeros 4)) by done. erewrite bind_run by done. fold vid.
  rewrite app_nil_l, (wr_app vid (zeros 1)) by done. erewrite bind_run by done.
  replace (vid ++ [st] ++ zeros 1 ++ zeros 2 ++ rest) with
    ((vid ++ [st] ++ zeros 1) ++ zeros 2 ++ rest) by (by rewrite <- !app_assoc).
  rewrite (wr_app (vid ++ [st] ++ zeros 1) (zeros 2)) by done. erewrite bind_run by done.
  set (head := (vid ++ [st] ++ zeros 1) ++ WPA_PUT_BE16 salt).
  replace ((vid ++ [st] ++ zeros 1) ++ WPA_PUT_BE16 salt ++ rest) with (head ++ rest)
    by (by subst head; rewrite <- !app_assoc).
  change (drop 8 (head ++ rest)) with rest.
  assert (zlen rest = zlen key + 16) as Hrest by (subst rest; unfold zeros; rewrite zlen_replicate; lia).
  rewrite encrypt_ms_key_spec by (fold L; lia). fold L. erewrite bind_run by done. cbn [fst snd].
  set (c := encrypt_blocks secret [ra; WPA_PUT_BE16 salt] (ms_plain key) (Z.to_nat (L / 16))).
  assert (zlen c = L) as Hc.
  { subst c. unfold zlen. rewrite length_encrypt_blocks by (rewrite ms_plain_blocks; done).
    apply length_ms_plain. }
  replace (head ++ rest) with (head ++ rest ++ []) by (by rewrite app_nil_r).
  rewrite (wr_app head rest) by (first [done|zlen_lia]).
  erewrite bind_run by done. subst head. rewrite app_nil_r.
  set (tail := drop (Z.to_nat L) rest).
  replace (((vid ++ [st] ++ zeros 1) ++ WPA_PUT_BE16 salt) ++ c ++ tail) with
    ((vid ++ [st]) ++ zeros 1 ++ WPA_PUT_BE16 salt ++ c ++ tail) by (by rewrite <- !app_assoc).
  rewrite (wr_app (vid ++ [st]) (zeros 1)) by done. erewrite bind_run by done.
  rewrite u8_id by (unfold is_byte; lia).
  replace (8 + L - 4) with (2 + zlen (ms_payload salt ra secret key)) by lia.
  replace ((vid ++ [st]) ++ [2 + zlen (ms_payload salt ra secret key)] ++
    WPA_PUT_BE16 salt ++ c ++ tail) with (v ++ tail)
    by (subst v; unfold vendor_value, ms_payload; fold L c vid; by rewrite <- !app_assoc).
  rewrite <- Hv.
  destruct (add_attr_rep m hdr attrs RADIUS_ATTR_VENDOR_SPECIFIC (v ++ tail) v e)
    as (m' & Hrun & Hrep'); [done|done| | |done|by eauto].
  - split; [done|]. split; [|simpl; rewrite Hv; unfold RADIUS_MAX_ATTR_LEN, ATTR_HDR_LEN; lia].
    subst v. unfold vendor_value. apply Forall_app. split; [repeat constructor; done|].
    apply Forall_app. split; [apply bytes_pair; [done|unfold is_byte; lia]|].
    apply bytes_ms_payload; [done|lia].
  - by apply (rd_app [] v tail).
Qed.

Lemma get_ms_key_rep m hdr pre post st salt ra secret key e :
  msg_rep m hdr (pre ++ (RADIUS_ATTR_VENDOR_SPECIFIC,
    vendor_value RADIUS_VENDOR_ID_MICROSOFT st (ms_payload salt ra secret key)) :: post) ->
  Forall (vendor_skip RADIUS_VENDOR_ID_MICROSOFT st) pre ->
  zlen ra = 16 -> 1 <= zlen key <= 255 -> mallocs e = [] ->
  get_ms_key m st ra secret e = Done (Some key, e).
Proof.
  intros Hrep Hpre Hra Hk He. unfold get_ms_key.
  erewrite bind_run by (by eapply get_vendor_attr_rep). by apply decrypt_ms_key_spec.
Qed.

(** The room an added key attribute takes. *)
Lemma rep_used_key m m' hdr hdr' attrs st salt ra secret key :
  msg_rep m hdr attrs -> zlen key <= 239 ->
  msg_rep m' hdr' (attrs ++ [(RADIUS_ATTR_VENDOR_SPECIFIC,
    vendor_value RADIUS_VENDOR_ID_MICROSOFT st (ms_payload salt ra secret key))]) ->
  wb_used (msg_buf m') <= wb_used (msg_buf m) + 255.
Proof.
  intros Hrep Hk Hrep'. rewrite (rep_used _ _ _ Hrep'), (rep_used _ _ _ Hrep).
  rewrite encode_app, encode_single, zlen_app, zlen_encode_attr. cbn [snd].
  unfold vendor_value. rewrite !zlen_app, zlen_ms_payload. change (zlen [_; _]) with 2.
  change (zlen (WPA_PUT_BE32 _)) with 4. unfold ATTR_HDR_LEN, round16. zdiv_lia.
Qed.

(**  MPPE key round trip: the keys that [radius_msg_add_mppe_keys] puts in an
    Access-Accept, encrypted under the request's authenticator, are what
    [radius_msg_get_ms_keys] gets from it, for keys of 1 to 239 bytes and
    whatever salt is drawn. *)
Theorem mppe_keys_roundtrip m hdr attrs secret send_key recv_key sent sh4 sa sattrs s0 s1 rs :
  msg_rep m hdr attrs -> wb_used (msg_buf m) + 510 <= PTRDIFF_MAX - sizeof_wpabuf ->
  Forall (fun a => a.1 <> RADIUS_ATTR_VENDOR_SPECIFIC) attrs ->
  msg_rep sent (sh4 ++ sa) sattrs -> zlen sh4 = 4 ->
  bytes send_key -> 1 <= zlen send_key <= 239 -> bytes recv_key -> 1 <= zlen recv_key <= 239 ->
  exists m', radius_msg_add_mppe_keys m sa secret send_key recv_key (Env [] ([s0; s1] :: rs)) =
      Done ((1, m'), Env [] rs) /\
    radius_msg_get_ms_keys (Some m') (Some sent) secret (Env [] rs) =
      Done (Some {| ms_send := Some send_key; ms_recv := Some recv_key |}, Env [] rs).
Proof.
  intros Hrep Hsm Hfree Hsent Hsh4 Hbs Hls Hbr Hlr.
  pose proof (rep_auth_len sent sh4 sa _ Hsent Hsh4) as Hsa.
  unfold radius_msg_add_mppe_keys. erewrite bind_run by done. cbn [negb].
  erewrite bind_run by done. change (zlen [s0; s1] <? 2) with false. cbn [fst snd Z.ltb Z.compare].
  set (salt := Z.lor _ 0x8000).
  destruct (add_mppe_key_rep m hdr attrs RADIUS_VENDOR_ATTR_MS_MPPE_SEND_KEY salt sa secret
    send_key (Env [] rs)) as (p1 & m1 & Hrun1 & Hrep1);
    [done|unfold msg_small; lia|done|done|done|lia|done|].
  pose proof (rep_used_key _ _ _ _ _ _ _ _ _ _ Hrep (proj2 Hls) Hrep1).
  erewrite bind_run by exact Hrun1. cbn [fst snd]. erewrite bind_run by done. cbn [negb].
  destruct (add_mppe_key_rep m1 hdr _ RADIUS_VENDOR_ATTR_MS_MPPE_RECV_KEY (Z.lxor salt 1) sa secret
    recv_key (Env [] rs) Hrep1) as (p2 & m2 & Hrun2 & Hrep2);
    [unfold msg_small; lia|done|done|done|lia|done|].
  erewrite bind_run by exact Hrun2. cbn [fst snd]. exists m2. split; [done|].
  assert (forall st, Forall (vendor_skip RADIUS_VENDOR_ID_MICROSOFT st) attrs) as Hskip.
  { intros st. eapply Forall_impl; [|exact Hfree]. intros a Ha. by left. }
  unfold radius_msg_get_ms_keys. erewrite bind_run by done. cbn [negb].
  erewrite bind_run by (by eapply msg_authenticator_rep).
  erewrite bind_run; cycle 1.
  { rewrite <- app_assoc in Hrep2. eapply (get_ms_key_rep m2 hdr attrs); [exact Hrep2|..];
      [done|done|lia|done]. }
  erewrite bind_run; [done|].
  eapply (get_ms_key_rep m2 hdr _ []); [exact Hrep2|..]; [|done|lia|done].
  apply Forall_app. split; [done|]. constructor; [|done]. right. by eexists _, _.
Qed.

Lemma mppe_keys_roundtrip_witness :
  exists m', radius_msg_add_mppe_keys sample_msg (zeros 16) (cstr "radius") (cstr "sendkey")
      (cstr "recvkey") (Env [] [[1; 2]]) = Done ((1, m'), Env [] []) /\
    radius_msg_get_ms_keys (Some m') (Some sample_msg) (cstr "radius") (Env [] []) =
      Done (Some {| ms_send := Some (cstr "sendkey"); ms_recv := Some (cstr "recvkey") |},
            Env [] []).
Proof.
  apply (mppe_keys_roundtrip sample_msg ([1; 7; 0; 20] ++ zeros 16) [] (cstr "radius")
    (cstr "sendkey") (cstr "recvkey") sample_msg [1; 7; 0; 20] (zeros 16) [] 1 2 []).
  - exact sample_rep.
  - vm_compute. congruence.
  - constructor.
  - exact sample_rep.
  - reflexivity.
  - repeat constructor; done.
  - vm_compute. split; congruence.
  - repeat constructor; done.
  - vm_compute. split; congruence.
Defined.
