(* ===== verification/RadiusServer.v ===== *)
(** The RADIUS authentication server ([src/radius/radius_server.c]): clients,
    sessions and their timers, duplicate detection, the decision on a station
    (MAC ACL) and the statistics.

    The state is a [world]: the server data, the event loop ([Extern.Eloop]),
    the environment of the allocating code, the datagrams sent so far and the
    state of the supervisor behind the [conn_fn] callback.  A client is its
    index in the list of clients; a session is the address of its allocation,
    so that a timer can outlive a session in the model as it could in memory,
    and an access through such a pointer is a fault. *)
From stdpp Require Import strings numbers base list gmap.
From Stdlib Require Import ZArith Lia.
From S2P Require Import Prelude Os Text Net Extern Mappers Md5 Wpabuf RadiusMsg RadiusAttr RadiusAuth RadiusCrypt.

Definition RADIUS_SESSION_TIMEOUT : Z := 60.
Definition RADIUS_SESSION_MAINTAIN : Z := 5.
Definition RADIUS_MAX_SESSION : Z := 1000.
Definition RADIUS_MAX_MSG_LEN : Z := 4096.
Definition RADIUS_ATTR_CALLING_STATION_ID : Z := 31.
Definition RADIUS_ATTR_TUNNEL_VALUE : Z := 13.
Definition RADIUS_ATTR_TUNNEL_MEDIUM_VALUE : Z := 6.

(** ** Text ([common.h]) *)

(** The characters [printf_encode] writes for a byte. *)
Definition encode_char (b : Z) : list Z :=
  if b =? 34 then [92; 34]
  else if b =? 92 then [92; 92]
  else if b =? 27 then [92; 101]
  else if b =? 10 then [92; 110]
  else if b =? 13 then [92; 114]
  else if b =? 9 then [92; 116]
  else if (32 <=? b) && (b <=? 126) then [b]
  else [92; 120] ++ fmt_02x b.

(** The string written to an array of [maxlen] bytes; [n] characters are
    written already. *)
Fixpoint printf_encode_loop (maxlen : Z) (data : list Z) (n : Z) : list Z :=
  match data with
  | [] => []
  | b :: rest =>
      if maxlen <=? n + 4 then []
      else encode_char b ++ printf_encode_loop maxlen rest (n + zlen (encode_char b))
  end.
Definition printf_encode (maxlen : Z) (data : list Z) : list Z := printf_encode_loop maxlen data 0.

(** ** Attributes of an Access-Accept *)

Record hostapd_radius_attr := {
  ra_type : Z;
  ra_val : option wpabuf
}.

Definition get_password_attribute (req_authenticator secret key : list Z) (key_len : Z) :
    M (option hostapd_radius_attr) :=
  let packet_len := u16 (3 + 1 + key_len + 15) in
  r ← edge_os_get_random 2;
  if r.1 <? 0 then mret None
  else
    let salt := Z.lor (salt_of r.2) 0x8000 in
    ok ← malloc;
    if negb ok then mret None
    else
      b1 ← lift_outcome (wr (zeros (Z.to_nat packet_len)) 1 (WPA_PUT_BE16 salt));
      el ← lift_outcome (encrypt_ms_key key key_len salt req_authenticator secret (drop 3 b1));
      b2 ← lift_outcome (wr b1 3 el.2);
      ok ← malloc;
      if negb ok then mret None
      else
        v ← wpabuf_alloc_copy (Some b2) (3 + el.1);
        mret (Some {| ra_type := RADIUS_ATTR_TUNNEL_PASSWORD; ra_val := v |}).

(** A value of four bytes, left unset when the buffer cannot be allocated. *)
Definition be32_value (v : Z) : M (option wpabuf) :=
  ob ← wpabuf_alloc 4;
  match ob with
  | None => mret None
  | Some b => b' ← lift_outcome (wpabuf_put_be32 b v); mret (Some b')
  end.

(** The list of the three attributes.  [sprintf] writes the number and its NUL
    into [id_str], an array of five characters. *)
Definition get_vlan_attribute (vlan_id : Z) : M (option (list hostapd_radius_attr)) :=
  ok ← malloc;
  if negb ok then mret None
  else
    v1 ← be32_value RADIUS_ATTR_TUNNEL_VALUE;
    ok ← malloc;
    if negb ok then mret None
    else
      v2 ← be32_value RADIUS_ATTR_TUNNEL_MEDIUM_VALUE;
      ok ← malloc;
      if negb ok then mret None
      else
        id_str ← lift_outcome (wr (zeros 5) 0 (fmt_d vlan_id ++ [0]));
        v3 ← wpabuf_alloc_copy (Some id_str) (zlen (until_nul id_str));
        mret (Some [{| ra_type := RADIUS_ATTR_TUNNEL_TYPE; ra_val := v1 |};
                    {| ra_type := RADIUS_ATTR_TUNNEL_MEDIUM_TYPE; ra_val := v2 |};
                    {| ra_type := RADIUS_ATTR_TUNNEL_PRIVATE_GROUP_ID; ra_val := v3 |}]).

(** ** Data *)

Inductive counter :=
| access_requests | invalid_requests | dup_access_requests | access_accepts
| access_rejects | access_challenges | malformed_access_requests
| bad_authenticators | packets_dropped | unknown_types.

#[export] Instance counter_eq_dec : EqDecision counter.
Proof. solve_decision. Defined.

(** The 32-bit statistics counters, by name. *)
Definition radius_server_counters : Type := counter -> Z.
Definition bump (k : counter) (c : radius_server_counters) : radius_server_counters :=
  fun j => if decide (j = k) then u32 (c j + 1) else c j.

(** The members the code writes. *)
Record radius_session := {
  sess_id : Z;
  username : option (list Z);
  nas_ip : option (list Z);
  sess_mac : list Z;
  last_from_port : Z;
  last_identifier : Z;
  last_reply : option radius_msg;
  last_authenticator : list Z;
  macacl : bool
}.

Section data.
Context {W : Type}.

Record radius_client := {
  cl_addr : Z;
  cl_mask : Z;
  shared_secret : list Z;
  sessions : list (nat * radius_session);
  cl_counters : radius_server_counters;
  conn_fn : option (list Z -> prog W mac_conn_info)
}.

Record radius_server_data := {
  auth_sock : Z;
  clients : list radius_client;
  next_sess_id : Z;
  num_sess : Z;
  start_time : os_reltime;
  srv_counters : radius_server_counters
}.
End data.
Arguments radius_client : clear implicits.
Arguments radius_server_data : clear implicits.

(** What the event loop calls back, with the session it is registered for. *)
Inductive timer :=
| radius_server_session_timeout_cb (sess : nat)
| radius_server_session_remove_timeout_cb (sess : nat).

#[export] Instance timer_eq_dec : EqDecision timer.
Proof. solve_decision. Defined.

Section server.
Context {W : Type} {E : Eloop timer}.
#[local] Abbreviation client := (radius_client W).
#[local] Abbreviation server := (radius_server_data W).

(** [w_sendto] answers whether the coming calls of [sendto] succeed (success
    once exhausted); [w_sent] are the datagrams sent: address, port, bytes. *)
Record world := {
  w_srv : server;
  w_eloop : @eloop _ _ E;
  w_env : env;
  w_sendto : list bool;
  w_sent : list (Z * Z * list Z);
  w_conn : W
}.

#[local] Abbreviation Srv := (prog world).

Definition with_srv (f : server -> server) (w : world) : world :=
  {| w_srv := f (w_srv w); w_eloop := w_eloop w; w_env := w_env w; w_sendto := w_sendto w;
     w_sent := w_sent w; w_conn := w_conn w |}.
Definition with_eloop (f : @eloop _ _ E -> @eloop _ _ E) (w : world) : world :=
  {| w_srv := w_srv w; w_eloop := f (w_eloop w); w_env := w_env w; w_sendto := w_sendto w;
     w_sent := w_sent w; w_conn := w_conn w |}.
Definition with_env (e : env) (w : world) : world :=
  {| w_srv := w_srv w; w_eloop := w_eloop w; w_env := e; w_sendto := w_sendto w;
     w_sent := w_sent w; w_conn := w_conn w |}.
Definition with_conn (c : W) (w : world) : world :=
  {| w_srv := w_srv w; w_eloop := w_eloop w; w_env := w_env w; w_sendto := w_sendto w;
     w_sent := w_sent w; w_conn := c |}.

Definition modify (f : world -> world) : Srv unit := fun w => Done (tt, f w).
Definition asks {A} (f : server -> A) : Srv A := fun w => Done (f (w_srv w), w).
(** Message and buffer code runs in the environment of the world. *)
Definition in_env {A} (m : M A) : Srv A := fun w =>
  match m (w_env w) with
  | Done (a, e) => Done (a, with_env e w)
  | Fault f => Fault f
  end.

(** Members of the server data. *)
Definition set_clients (f : list client -> list client) (d : server) : server :=
  {| auth_sock := auth_sock d; clients := f (clients d); next_sess_id := next_sess_id d;
     num_sess := num_sess d; start_time := start_time d; srv_counters := srv_counters d |}.
Definition set_num_sess (f : Z -> Z) (d : server) : server :=
  {| auth_sock := auth_sock d; clients := clients d; next_sess_id := next_sess_id d;
     num_sess := f (num_sess d); start_time := start_time d; srv_counters := srv_counters d |}.
Definition set_next_sess_id (f : Z -> Z) (d : server) : server :=
  {| auth_sock := auth_sock d; clients := clients d; next_sess_id := f (next_sess_id d);
     num_sess := num_sess d; start_time := start_time d; srv_counters := srv_counters d |}.
Definition set_srv_counters (f : radius_server_counters -> radius_server_counters)
    (d : server) : server :=
  {| auth_sock := auth_sock d; clients := clients d; next_sess_id := next_sess_id d;
     num_sess := num_sess d; start_time := start_time d; srv_counters := f (srv_counters d) |}.

Definition set_sessions (f : list (nat * radius_session) -> list (nat * radius_session))
    (c : client) : client :=
  {| cl_addr := cl_addr c; cl_mask := cl_mask c; shared_secret := shared_secret c;
     sessions := f (sessions c); cl_counters := cl_counters c; conn_fn := conn_fn c |}.
Definition set_cl_counters (f : radius_server_counters -> radius_server_counters)
    (c : client) : client :=
  {| cl_addr := cl_addr c; cl_mask := cl_mask c; shared_secret := shared_secret c;
     sessions := sessions c; cl_counters := f (cl_counters c); conn_fn := conn_fn c |}.

Definition the_client (c : nat) : Srv client := fun w =>
  match clients (w_srv w) !! c with
  | Some cl => Done (cl, w)
  | None => Fault NullDeref
  end.
Definition upd_client (c : nat) (f : client -> client) : Srv unit :=
  modify (with_srv (set_clients (alter f c))).

(** [data->counters.x++] and [client->counters.x++]. *)
Definition count_srv (k : counter) : Srv unit := modify (with_srv (set_srv_counters (bump k))).
Definition count (k : counter) (c : nat) : Srv unit :=
  _ ← count_srv k; upd_client c (set_cl_counters (bump k)).

(** The session at an address, looked for in the list of a client. *)
Definition find_sess (p : nat) (l : list (nat * radius_session)) : option radius_session :=
  snd <$> head (filter (fun x => x.1 = p) l).
Definition the_session (c p : nat) : Srv radius_session := fun w =>
  match clients (w_srv w) !! c with
  | Some cl => match find_sess p (sessions cl) with
               | Some s => Done (s, w)
               | None => Fault UseAfterFree
               end
  | None => Fault NullDeref
  end.
Definition upd_session (c p : nat) (f : radius_session -> radius_session) : Srv unit :=
  upd_client c (set_sessions (fmap (fun x => if decide (x.1 = p) then (x.1, f x.2) else x))).

Definition all_sessions (d : server) : list (nat * radius_session) :=
  clients d ≫= sessions.

(** The client a session belongs to. *)
Definition owner (d : server) (p : nat) : option nat :=
  fst <$> list_find (fun cl : client => p ∈ (sessions cl).*1) (clients d).

Definition sendto (addr port : Z) (b : list Z) : Srv Z := fun w =>
  let ok := match w_sendto w with [] => true | x :: _ => x end in
  Done (if ok then zlen b else -1,
        {| w_srv := w_srv w; w_eloop := w_eloop w; w_env := w_env w;
           w_sendto := tail (w_sendto w);
           w_sent := if ok then w_sent w ++ [(addr, port, b)] else w_sent w;
           w_conn := w_conn w |}).

(** ** Clients and sessions *)

Fixpoint get_client_loop (cs : list client) (addr : Z) (i : nat) : option nat :=
  match cs with
  | [] => None
  | c :: rest =>
      if Z.land (cl_addr c) (cl_mask c) =? Z.land addr (cl_mask c) then Some i
      else get_client_loop rest addr (S i)
  end.
Definition radius_server_get_client (d : server) (addr : Z) : option nat :=
  get_client_loop (clients d) addr 0.

Fixpoint radius_server_get_session (ss : list (nat * radius_session)) (id : Z) : option nat :=
  match ss with
  | [] => None
  | s :: rest => if sess_id s.2 =? id then Some s.1 else radius_server_get_session rest id
  end.

(** The session is unlinked by the caller. *)
Definition radius_server_session_free (p : nat) : Srv unit :=
  _ ← modify (with_eloop (cancel_timeout (radius_server_session_timeout_cb p)));
  _ ← modify (with_eloop (cancel_timeout (radius_server_session_remove_timeout_cb p)));
  modify (with_srv (set_num_sess (fun n => n - 1))).

Definition radius_server_session_remove (p : nat) : Srv unit := fun w =>
  match owner (w_srv w) p with
  | None => Fault UseAfterFree
  | Some c =>
      (_ ← modify (with_eloop (cancel_timeout (radius_server_session_remove_timeout_cb p)));
       _ ← upd_client c (set_sessions (filter (fun x => x.1 <> p)));
       radius_server_session_free p) w
  end.

Definition radius_server_session_remove_timeout (p : nat) : Srv unit :=
  radius_server_session_remove p.
Definition radius_server_session_timeout (p : nat) : Srv unit :=
  radius_server_session_remove p.

Definition session_zero (id : Z) : radius_session :=
  {| sess_id := id; username := None; nas_ip := None;
     sess_mac := zeros (Z.to_nat ETHER_ADDR_LEN); last_from_port := 0; last_identifier := 0;
     last_reply := None; last_authenticator := zeros 16; macacl := false |}.

(** The result of registering the timeout is not looked at. *)
Definition radius_server_new_session (c : nat) : Srv (option nat) := fun w =>
  let d := w_srv w in
  if RADIUS_MAX_SESSION <=? num_sess d then Done (None, w)
  else
    (ok ← in_env malloc;
     if negb ok then mret None
     else
       let p := fresh_addr (all_sessions d) in
       let s := session_zero (next_sess_id d) in
       _ ← modify (with_srv (set_next_sess_id (fun n => u32 (n + 1))));
       _ ← upd_client c (set_sessions (cons (p, s)));
       _ ← modify (with_eloop (fun e => (register_timeout RADIUS_SESSION_TIMEOUT
                                            (radius_server_session_timeout_cb p) e).2));
       _ ← modify (with_srv (set_num_sess (fun n => n + 1)));
       mret (Some p)) w.

Definition session_named (name : list Z) (s : radius_session) : radius_session :=
  {| sess_id := sess_id s; username := Some name; nas_ip := nas_ip s; sess_mac := sess_mac s;
     last_from_port := last_from_port s; last_identifier := last_identifier s;
     last_reply := last_reply s; last_authenticator := last_authenticator s; macacl := true |}.
Definition session_from (ip : list Z) (s : radius_session) : radius_session :=
  {| sess_id := sess_id s; username := username s; nas_ip := Some ip; sess_mac := sess_mac s;
     last_from_port := last_from_port s; last_identifier := last_identifier s;
     last_reply := last_reply s; last_authenticator := last_authenticator s;
     macacl := macacl s |}.
Definition session_station (mac : list Z) (s : radius_session) : radius_session :=
  {| sess_id := sess_id s; username := username s; nas_ip := nas_ip s; sess_mac := mac;
     last_from_port := last_from_port s; last_identifier := last_identifier s;
     last_reply := last_reply s; last_authenticator := last_authenticator s;
     macacl := macacl s |}.

(** The MAC address in the value of Calling-Station-Id: at most 17 characters
    are copied to an array of 18 zero bytes.  A failed conversion leaves the
    address zero. *)
Definition station_mac (id : list Z) : outcome (list Z) :=
  let buf := take 17 id ++ zeros (18 - Nat.min 17 (length id)) in
  match edge_hwaddr_aton2 buf with
  | Fault f => Fault f
  | Done (r, out) => Done (if r <? 0 then zeros (Z.to_nat ETHER_ADDR_LEN) else out)
  end.

(** [macacl] is set before the user name is allocated; the two writes are one
    here, since a session whose name cannot be allocated is removed. *)
Definition radius_server_get_new_session (c : nat) (msg : radius_msg) (from_addr : list Z) :
    Srv (option nat) :=
  user ← in_env (radius_msg_get_attr_ptr msg RADIUS_ATTR_USER_NAME None);
  match user with
  | None => mret None
  | Some (upos, user_len) =>
      sess ← radius_server_new_session c;
      match sess with
      | None => mret None
      | Some p =>
          ok ← in_env malloc;
          if negb ok then _ ← radius_server_session_remove p; mret None
          else
            name ← in_env (msg_read msg upos user_len);
            _ ← upd_session c p (session_named (printf_encode (user_len * 4 + 1) name));
            ok ← in_env malloc;
            if negb ok then _ ← radius_server_session_remove p; mret None
            else
              _ ← upd_session c p (session_from from_addr);
              id ← in_env (radius_msg_get_attr_ptr msg RADIUS_ATTR_CALLING_STATION_ID None);
              match id with
              | None => mret (Some p)
              | Some (ipos, id_len) =>
                  v ← in_env (msg_read msg ipos id_len);
                  mac ← lift_outcome (station_mac v);
                  _ ← upd_session c p (session_station mac);
                  mret (Some p)
              end
      end
  end.

(** ** The decision *)

(** The loop that adds the attributes to the reply: [None] when one does not
    fit.  [wpabuf_head] of a value that could not be allocated is an access
    through a null pointer. *)
Fixpoint add_attributes (msg : radius_msg) (attrs : list hostapd_radius_attr) :
    M (option radius_msg) :=
  match attrs with
  | [] => mret (Some msg)
  | a :: rest =>
      match ra_val a with
      | None => fail_with NullDeref
      | Some v =>
          r ← radius_msg_add_attr msg (ra_type a) (Some (wb_buf v)) (wpabuf_len v);
          match r.1 with
          | None => mret None
          | Some _ => add_attributes r.2 rest
          end
      end
  end.

(** The identifier of a message. *)
Definition msg_identifier (msg : radius_msg) : M Z :=
  lift_outcome (rd1 (wb_buf (msg_buf msg)) 1).
Definition msg_code (msg : radius_msg) : M Z :=
  lift_outcome (rd1 (wb_buf (msg_buf msg)) 0).

(** The reply without the attributes of an accepted station. *)
Definition new_reply (code : Z) (request : radius_msg) : M (option radius_msg) :=
  id ← msg_identifier request;
  om ← radius_msg_new code id;
  match om with
  | None => mret None
  | Some msg =>
      r ← radius_msg_copy_attr msg request RADIUS_ATTR_PROXY_STATE;
      if r.1 <? 0 then mret None else mret (Some r.2)
  end.

(** Runs [conn_fn] on the state behind it. *)
Definition call_conn (f : list Z -> prog W mac_conn_info) (mac : list Z) :
    Srv mac_conn_info := fun w =>
  match f mac (w_conn w) with
  | Done (i, c) => Done (i, with_conn c w)
  | Fault x => Fault x
  end.

(** The attributes of an accepted station: the three of its VLAN and its
    password. *)
Definition accept_attributes (auth secret : list Z) (i : mac_conn_info) :
    M (option (list hostapd_radius_attr)) :=
  va ← get_vlan_attribute (u16 (mi_vlanid i));
  match va with
  | None => mret None
  | Some attrs =>
      pa ← get_password_attribute auth secret (mi_pass i) (mi_pass_len i);
      match pa with
      | None => mret None
      | Some pass_attr => mret (Some (attrs ++ [pass_attr]))
      end
  end.

(** The reply to a request of a station whose connection record is [i]. *)
Definition macacl_reply (secret : list Z) (i : mac_conn_info) (request : radius_msg) :
    M (option radius_msg) :=
  auth ← msg_authenticator request;
  oa ← (if 0 <=? mi_vlanid i then
          a ← accept_attributes auth secret i;
          mret (match a with None => None | Some l => Some (RADIUS_CODE_ACCESS_ACCEPT, l) end)
        else mret (Some (RADIUS_CODE_ACCESS_REJECT, [])));
  match oa with
  | None => mret None
  | Some (code0, attrs) =>
      pw ← radius_msg_get_attr_ptr request RADIUS_ATTR_USER_PASSWORD None;
      let code := match pw with None => RADIUS_CODE_ACCESS_REJECT | Some _ => code0 end in
      om ← new_reply code request;
      match om with
      | None => mret None
      | Some msg =>
          om2 ← (if code =? RADIUS_CODE_ACCESS_ACCEPT then add_attributes msg attrs
                 else mret (Some msg));
          match om2 with
          | None => mret None
          | Some msg2 =>
              (* a failure of the next call is only logged *)
              r ← radius_msg_finish_srv msg2 secret auth;
              mret (Some r.2)
          end
      end
  end.

Definition radius_server_macacl (c p : nat) (request : radius_msg) : Srv (option radius_msg) :=
  cl ← the_client c;
  s ← the_session c p;
  match conn_fn cl with
  | None => mret None
  | Some f =>
      i ← call_conn f (sess_mac s);
      in_env (macacl_reply (shared_secret cl) i request)
  end.

(** ** Requests *)

Definition msg_bytes (msg : radius_msg) : M (list Z) := msg_content msg.

(** The source of a datagram: address and port. *)
Definition radius_server_reject (c : nat) (request : radius_msg) (from from_port : Z) : Srv Z :=
  cl ← the_client c;
  auth ← in_env (msg_authenticator request);
  om ← in_env (new_reply RADIUS_CODE_ACCESS_REJECT request);
  match om with
  | None => mret (-1)
  | Some msg =>
      r ← in_env (radius_msg_finish_srv msg (shared_secret cl) auth);
      _ ← count access_rejects c;
      b ← in_env (msg_bytes r.2);
      n ← sendto from from_port b;
      mret (if n <? 0 then -1 else 0)
  end.

Definition session_replied (reply : radius_msg) (port id : Z) (auth : list Z)
    (s : radius_session) : radius_session :=
  {| sess_id := sess_id s; username := username s; nas_ip := nas_ip s; sess_mac := sess_mac s;
     last_from_port := port; last_identifier := id; last_reply := Some reply;
     last_authenticator := auth; macacl := macacl s |}.

(** The session a request names with its State attribute, and whether it has
    one. *)
Definition request_session (c : nat) (msg : radius_msg) (force_sess : option nat) :
    Srv (option nat * bool) :=
  match force_sess with
  | Some p => mret (Some p, false)
  | None =>
      r ← in_env (radius_msg_get_attr msg RADIUS_ATTR_STATE (Some (zeros 4)) 4);
      cl ← the_client c;
      mret (if r.1 =? 4
            then radius_server_get_session (sessions cl) (WPA_GET_BE32 (default [] r.2))
            else None,
            0 <=? r.1)
  end.

(** [is_complete] is never set, so no removal is scheduled here, and the reply
    is not null where the code tests it again. *)
Definition radius_server_request (msg : radius_msg) (from from_port : Z) (c : nat)
    (from_addr : list Z) (force_sess : option nat) : Srv Z :=
  rs ← request_session c msg force_sess;
  let '(found, state_included) := rs in
  os ← (match found with
        | Some p => mret (Some p)
        | None =>
            if (state_included : bool) then mret None
            else radius_server_get_new_session c msg from_addr
        end);
  match os with
  | None => _ ← radius_server_reject c msg from from_port; mret (-1)
  | Some p =>
      s ← the_session c p;
      id ← in_env (msg_identifier msg);
      auth ← in_env (msg_authenticator msg);
      if (last_from_port s =? from_port) && (last_identifier s =? id) &&
         bool_decide (last_authenticator s = auth) then
        _ ← count dup_access_requests c;
        match last_reply s with
        | Some reply => b ← in_env (msg_bytes reply); _ ← sendto from from_port b; mret 0
        | None => mret (-1)
        end
      else
        om ← radius_server_macacl c p msg;
        match om with
        | None => mret (-1)
        | Some reply =>
            code ← in_env (msg_code reply);
            _ ← (if code =? RADIUS_CODE_ACCESS_ACCEPT then count access_accepts c
                 else if code =? RADIUS_CODE_ACCESS_REJECT then count access_rejects c
                 else if code =? RADIUS_CODE_ACCESS_CHALLENGE then count access_challenges c
                 else mret tt);
            b ← in_env (msg_bytes reply);
            _ ← sendto from from_port b;
            _ ← upd_session c p (session_replied reply from_port id auth);
            mret 0
        end
  end.

(** A datagram that [recvfrom] returns: source address and port, and the bytes,
    of which the first [RADIUS_MAX_MSG_LEN] are kept.  The parser is given the
    bytes received as its object: the rest of the buffer is uninitialised, and
    reading there would be a fault. *)
Definition datagram : Type := Z * Z * list Z.

Definition radius_server_receive_auth (recv : option datagram) : Srv unit :=
  ok ← in_env malloc;
  if negb ok then mret tt
  else
    match recv with
    | None => mret tt
    | Some (from, from_port, bytes) =>
        let data := take (Z.to_nat RADIUS_MAX_MSG_LEN) bytes in
        let abuf := inet_ntop (in_addr_bytes from) in
        oc ← asks (fun d => radius_server_get_client d from);
        match oc with
        | None => count_srv invalid_requests
        | Some c =>
            om ← in_env (radius_msg_parse (Some data) (zlen data));
            match om with
            | None => count malformed_access_requests c
            | Some msg =>
                code ← in_env (msg_code msg);
                if negb (code =? RADIUS_CODE_ACCESS_REQUEST) then count unknown_types c
                else
                  _ ← count access_requests c;
                  cl ← the_client c;
                  v ← in_env (radius_msg_verify_msg_auth msg (shared_secret cl) None);
                  if negb (v.1 =? 0) then count bad_authenticators c
                  else
                    _ ← radius_server_request v.2 from from_port c abuf None;
                    mret tt
            end
        end
    end.

(** ** Set up and tear down *)

Definition radius_server_free_sessions (l : list (nat * radius_session)) : Srv unit :=
  foldr (fun s k => _ ← radius_server_session_free s.1; k) (mret tt) l.

Definition radius_server_free_clients (l : list client) : Srv unit :=
  foldr (fun c k => _ ← radius_server_free_sessions (sessions c); k) (mret tt) l.

(** The close of the socket is not part of the state. *)
Definition radius_server_deinit : Srv unit := fun w =>
  (_ ← radius_server_free_clients (clients (w_srv w));
   modify (with_srv (set_clients (fun _ => [])))) w.
End server.
Arguments world : clear implicits.

Record radius_conf := {
  radius_port : Z;
  radius_client_ip : list Z;
  radius_client_mask : Z;
  radius_server_ip : list Z;
  radius_server_mask : Z;
  radius_secret : list Z
}.

(** [for (i = 0; i < n; i++) val |= 1U << (31 - i)]. *)
Definition mask_bits (n : nat) : Z :=
  foldl (fun val i => Z.lor val (Z.shiftl 1 (31 - Z.of_nat i))) 0 (seq 0 n).

Definition init_radius_client {W} (conf : radius_conf)
    (f : option (list Z -> prog W mac_conn_info)) : M (option (radius_client W)) :=
  match inet_aton (radius_client_ip conf) with
  | None => mret None
  | Some a =>
      ok ← malloc;
      if negb ok then mret None
      else
        ok ← malloc;
        if negb ok then mret None
        else mret (Some {| cl_addr := htonl a;
                           cl_mask := htonl (mask_bits (Z.to_nat (radius_client_mask conf)));
                           shared_secret := radius_secret conf; sessions := [];
                           cl_counters := fun _ => 0; conn_fn := f |})
  end.

(** [sock] is what [radius_server_open_socket] returns and [reg] what
    [edge_eloop_register_read_sock] does.  A failure frees the clients, which
    have no sessions yet. *)
Definition radius_server_init {W} (now : os_reltime) (cs : list (radius_client W))
    (sock reg : Z) : M (option (radius_server_data W)) :=
  ok ← malloc;
  if negb ok then mret None
  else
    match cs with
    | [] => mret None
    | _ =>
        if sock <? 0 then mret None
        else if negb (reg =? 0) then mret None
        else mret (Some {| auth_sock := sock; clients := cs; next_sess_id := 0; num_sess := 0;
                           start_time := now; srv_counters := fun _ => 0 |})
    end.
