(* ===== verification/Ap.v ===== *)
(** The access point service: [hostapd.c] and [ap_service.c] of [src/ap], in the
    build without UCI.

    The service writes the configuration of [hostapd], starts or signals its
    process, sends it commands over its control socket and reads its events,
    which it hands to a callback of the supervisor. [hostapd] itself is the
    program at the other end of the socket: what it does with a command is a
    parameter, with the documented behaviour of its control interface as laws.

    The theorems: the configuration file has each setting once, whatever the
    values; an event is reported to the supervisor with its station and status;
    disconnecting a station; starting the access point; and how a datagram of
    another program diverts the commands. *)
From stdpp Require Import strings numbers base list gmap.
From Stdlib Require Import ZArith Lia.
From S2P Require Import Prelude Os Paths Text Net Extern Mappers Process Dhcp Supervisor Sockctl RadiusServer.

Definition AP_NAME_LEN : Z := 32.
Definition OS_HOST_NAME_MAX : Z := 64.
Definition HOSTAPD_LOG_FILE_OPTION : list Z := cstr "-f".
Definition MAX_AP_CHECK_COUNT : nat := 5.
Definition AP_STA_DISCONNECTED : list Z := cstr "AP-STA-DISCONNECTED".
Definition AP_STA_CONNECTED : list Z := cstr "AP-STA-CONNECTED".
Definition ATTACH_AP_COMMAND : list Z := cstr "ATTACH".
Definition STA_AP_COMMAND : list Z := cstr "STA".
Definition GENERIC_AP_COMMAND_OK_REPLY : list Z := cstr "OK".
Definition GENERIC_AP_COMMAND_FAIL_REPLY : list Z := cstr "FAIL".
Definition PING_AP_COMMAND : list Z := cstr "PING".
Definition PING_AP_COMMAND_REPLY : list Z := cstr "PONG".
Definition DENYACL_ADD_COMMAND : list Z := cstr "DENY_ACL ADD_MAC".
Definition DENYACL_DEL_COMMAND : list Z := cstr "DENY_ACL DEL_MAC".

Record apconf := {
  ap_bin_path : list Z;
  ap_file_path : list Z;
  ap_log_path : list Z;
  ctrl_interface_path : list Z;
  ap_interface : list Z;
  ap_device : list Z;
  ap_ssid : list Z;
  ap_wpa_passphrase : list Z;
  ap_driver : list Z;
  hw_mode : list Z;
  channel : Z;
  wmm_enabled : Z;
  auth_algs : Z;
  wpa : Z;
  wpa_key_mgmt : list Z;
  rsn_pairwise : list Z;
  ctrl_interface : list Z;
  macaddr_acl : Z;
  dynamic_vlan : Z;
  vlan_bridge : list Z;
  vlan_file : list Z;
  logger_stdout : Z;
  logger_stdout_level : Z;
  logger_syslog : Z;
  logger_syslog_level : Z;
  ignore_broadcast_ssid : Z;
  wpa_psk_radius : Z;
  vlan_tagged_interface : list Z
}.

(** ** The files of [hostapd] ([hostapd.c]) *)

Definition generate_vlan_conf (vlan_file interface : list Z) : prog (disk (list Z)) Z :=
  e ← write_file vlan_file (cstr "*" ++ TAB ++ interface ++ cstr ".#" ++ NL);
  mret (if e =? 0 then 0 else -1).

(** The settings in the order they are written. *)
Definition hostapd_settings (hconf : apconf) (rconf : radius_conf) : list (list Z * list Z) :=
  [(cstr "interface", ap_interface hconf);
   (cstr "driver", ap_driver hconf);
   (cstr "ssid", ap_ssid hconf);
   (cstr "hw_mode", hw_mode hconf);
   (cstr "channel", fmt_d (channel hconf));
   (cstr "wmm_enabled", fmt_d (wmm_enabled hconf));
   (cstr "auth_algs", fmt_d (auth_algs hconf));
   (cstr "wpa", fmt_d (wpa hconf));
   (cstr "wpa_key_mgmt", wpa_key_mgmt hconf);
   (cstr "rsn_pairwise", rsn_pairwise hconf);
   (cstr "ctrl_interface", ctrl_interface hconf);
   (cstr "own_ip_addr", radius_client_ip rconf);
   (cstr "auth_server_addr", radius_server_ip rconf);
   (cstr "auth_server_port", fmt_d (radius_port rconf));
   (cstr "auth_server_shared_secret", radius_secret rconf);
   (cstr "macaddr_acl", fmt_d (macaddr_acl hconf));
   (cstr "dynamic_vlan", fmt_d (dynamic_vlan hconf));
   (cstr "vlan_bridge", vlan_bridge hconf);
   (cstr "vlan_file", vlan_file hconf);
   (cstr "logger_stdout", fmt_d (logger_stdout hconf));
   (cstr "logger_stdout_level", fmt_d (logger_stdout_level hconf));
   (cstr "logger_syslog", fmt_d (logger_syslog hconf));
   (cstr "logger_syslog_level", fmt_d (logger_syslog_level hconf));
   (cstr "ignore_broadcast_ssid", fmt_d (ignore_broadcast_ssid hconf));
   (cstr "wpa_psk_radius", fmt_d (wpa_psk_radius hconf))] ++
  match vlan_tagged_interface hconf with
  | [] => []
  | v => [(cstr "vlan_naming", cstr "1"); (cstr "vlan_tagged_interface", v)]
  end.
Definition setting_line (kv : list Z * list Z) : list Z := kv.1 ++ cstr "=" ++ kv.2.

Definition generate_hostapd_conf (hconf : apconf) (rconf : radius_conf) : prog (disk (list Z)) Z :=
  e ← write_file (ap_file_path hconf) (text_of (setting_line <$> hostapd_settings hconf rconf));
  mret (if e =? 0 then 0 else -1).

Definition get_hostapd_args (hostapd_bin_path hostapd_file_path hostapd_log_path : list Z) : list (list Z) :=
  match hostapd_log_path with
  | [] => [hostapd_bin_path; hostapd_file_path]
  | log => [hostapd_bin_path; HOSTAPD_LOG_FILE_OPTION; log; hostapd_file_path]
  end.

(** The restarts after a start that could not be made; [None] for a failure of
    [kill_process]. *)
Fixpoint ap_start_loop (fuel : nat) (argv : list (list Z)) (proc_name : list Z) : prog host (option Z) :=
  match fuel with
  | O => fail_with OutOfFuel
  | S fuel =>
      ret ← run_process (Some argv);
      if ret <? 0 then
        k ← kill_process proc_name;
        if negb k then mret None else ap_start_loop fuel argv proc_name
      else mret (Some ret)
  end.

(** ** The state of the service *)

(** The machine, the disk, the sockets, the configuration in the supervisor
    context, the two static variables, the socket for the events, the sockets the
    event loop reads, and what the callback works on. *)
Record ap_state (H X : Type) := {
  as_host : host;
  as_disk : disk (list Z);
  as_sys : sys H;
  as_hostname : option (list Z);
  as_hconf : apconf;
  hostapd_proc_name : list Z;
  ap_process_started : bool;
  ap_sock : Z;
  as_loop : list Z;
  as_ctx : X
}.
Arguments as_host {_ _}.
Arguments as_disk {_ _}.
Arguments as_sys {_ _}.
Arguments as_hostname {_ _}.
Arguments as_hconf {_ _}.
Arguments hostapd_proc_name {_ _}.
Arguments ap_process_started {_ _}.
Arguments ap_sock {_ _}.
Arguments as_loop {_ _}.
Arguments as_ctx {_ _}.
Arguments Build_ap_state {_ _}.

Definition with_ctrl_path (p : list Z) (c : apconf) : apconf :=
  {| ap_bin_path := ap_bin_path c; ap_file_path := ap_file_path c; ap_log_path := ap_log_path c; ctrl_interface_path := p;
     ap_interface := ap_interface c; ap_device := ap_device c; ap_ssid := ap_ssid c; ap_wpa_passphrase := ap_wpa_passphrase c;
     ap_driver := ap_driver c; hw_mode := hw_mode c; channel := channel c; wmm_enabled := wmm_enabled c; auth_algs := auth_algs c;
     wpa := wpa c; wpa_key_mgmt := wpa_key_mgmt c; rsn_pairwise := rsn_pairwise c; ctrl_interface := ctrl_interface c;
     macaddr_acl := macaddr_acl c; dynamic_vlan := dynamic_vlan c; vlan_bridge := vlan_bridge c; vlan_file := vlan_file c;
     logger_stdout := logger_stdout c; logger_stdout_level := logger_stdout_level c; logger_syslog := logger_syslog c;
     logger_syslog_level := logger_syslog_level c; ignore_broadcast_ssid := ignore_broadcast_ssid c;
     wpa_psk_radius := wpa_psk_radius c; vlan_tagged_interface := vlan_tagged_interface c |}.
Definition with_ssid (n : list Z) (c : apconf) : apconf :=
  {| ap_bin_path := ap_bin_path c; ap_file_path := ap_file_path c; ap_log_path := ap_log_path c;
     ctrl_interface_path := ctrl_interface_path c; ap_interface := ap_interface c; ap_device := ap_device c; ap_ssid := n;
     ap_wpa_passphrase := ap_wpa_passphrase c; ap_driver := ap_driver c; hw_mode := hw_mode c; channel := channel c;
     wmm_enabled := wmm_enabled c; auth_algs := auth_algs c; wpa := wpa c; wpa_key_mgmt := wpa_key_mgmt c;
     rsn_pairwise := rsn_pairwise c; ctrl_interface := ctrl_interface c; macaddr_acl := macaddr_acl c;
     dynamic_vlan := dynamic_vlan c; vlan_bridge := vlan_bridge c; vlan_file := vlan_file c; logger_stdout := logger_stdout c;
     logger_stdout_level := logger_stdout_level c; logger_syslog := logger_syslog c; logger_syslog_level := logger_syslog_level c;
     ignore_broadcast_ssid := ignore_broadcast_ssid c; wpa_psk_radius := wpa_psk_radius c;
     vlan_tagged_interface := vlan_tagged_interface c |}.

(** [tries] is how many are left of [MAX_AP_CHECK_COUNT]; the call is
    [check_sock_file_exists]. *)
Fixpoint ap_check_loop (name : list Z) (running : Z) (tries : nat) : prog host Z :=
  missing ← (if running =? 0 then mret true else e ← ho_call; mret (negb (e =? 0)));
  match tries with
  | O => mret running
  | S tries =>
      if (missing : bool) then
        r ← is_proc_running name;
        if r <? 0 then mret (-1) else ap_check_loop name r tries
      else mret running
  end.
Definition check_ap_running (name : list Z) : prog host Z := ap_check_loop name 0 MAX_AP_CHECK_COUNT.

Section ap.
Context {H X : Type} {P : Peer H} (abstract : bool).
#[local] Abbreviation AP := (prog (ap_state H X)).

Definition ap_get {A} (f : ap_state H X -> A) : AP A := fun s => Done (f s, s).
Definition ap_on_host {A} (m : prog host A) : AP A := fun s =>
  match m (as_host s) with
  | Fault f => Fault f
  | Done (a, h) => Done (a, Build_ap_state h (as_disk s) (as_sys s) (as_hostname s) (as_hconf s) (hostapd_proc_name s)
                              (ap_process_started s) (ap_sock s) (as_loop s) (as_ctx s))
  end.
Definition ap_on_disk {A} (m : prog (disk (list Z)) A) : AP A := fun s =>
  match m (as_disk s) with
  | Fault f => Fault f
  | Done (a, d) => Done (a, Build_ap_state (as_host s) d (as_sys s) (as_hostname s) (as_hconf s) (hostapd_proc_name s)
                              (ap_process_started s) (ap_sock s) (as_loop s) (as_ctx s))
  end.
Definition ap_on_sys {A} (m : prog (sys H) A) : AP A := fun s =>
  match m (as_sys s) with
  | Fault f => Fault f
  | Done (a, y) => Done (a, Build_ap_state (as_host s) (as_disk s) y (as_hostname s) (as_hconf s) (hostapd_proc_name s)
                              (ap_process_started s) (ap_sock s) (as_loop s) (as_ctx s))
  end.
Definition ap_on_ctx {A} (m : prog X A) : AP A := fun s =>
  match m (as_ctx s) with
  | Fault f => Fault f
  | Done (a, x) => Done (a, Build_ap_state (as_host s) (as_disk s) (as_sys s) (as_hostname s) (as_hconf s) (hostapd_proc_name s)
                              (ap_process_started s) (ap_sock s) (as_loop s) x)
  end.
Definition set_hconf (f : apconf -> apconf) : AP unit := fun s =>
  Done (tt, Build_ap_state (as_host s) (as_disk s) (as_sys s) (as_hostname s) (f (as_hconf s)) (hostapd_proc_name s)
              (ap_process_started s) (ap_sock s) (as_loop s) (as_ctx s)).
Definition set_ap_proc (name : list Z) : AP unit := fun s =>
  Done (tt, Build_ap_state (as_host s) (as_disk s) (as_sys s) (as_hostname s) (as_hconf s) name
              (ap_process_started s) (ap_sock s) (as_loop s) (as_ctx s)).
Definition set_ap_started (b : bool) : AP unit := fun s =>
  Done (tt, Build_ap_state (as_host s) (as_disk s) (as_sys s) (as_hostname s) (as_hconf s) (hostapd_proc_name s)
              b (ap_sock s) (as_loop s) (as_ctx s)).
Definition set_ap_sock (fd : Z) : AP unit := fun s =>
  Done (tt, Build_ap_state (as_host s) (as_disk s) (as_sys s) (as_hostname s) (as_hconf s) (hostapd_proc_name s)
              (ap_process_started s) fd (as_loop s) (as_ctx s)).
Definition add_reader (fd : Z) : AP unit := fun s =>
  Done (tt, Build_ap_state (as_host s) (as_disk s) (as_sys s) (as_hostname s) (as_hconf s) (hostapd_proc_name s)
              (ap_process_started s) (ap_sock s) (as_loop s ++ [fd]) (as_ctx s)).
(** [edge_eloop_register_read_sock]. *)
Definition register_read_sock (fd : Z) : AP Z :=
  e ← ap_on_disk Paths.answer;
  if negb (e =? 0) then mret (-1) else _ ← add_reader fd; mret 0.

(** ** The process ([hostapd.c]) *)

Definition ap_name (hconf : apconf) : list Z := clip MAX_OS_PATH_LEN (basename (clip MAX_OS_PATH_LEN (ap_bin_path hconf))).

Definition run_ap_process (fuel : nat) : AP Z :=
  hconf ← ap_get as_hconf;
  let process_argv := get_hostapd_args (ap_bin_path hconf) (ap_file_path hconf) (ap_log_path hconf) in
  copy ← ap_on_host (ho_alloc (copy_argv (Some process_argv)));
  match copy with
  | None => mret (-1)
  | Some _ =>
      _ ← set_ap_proc (ap_name hconf);
      name ← ap_get hostapd_proc_name;
      k ← ap_on_host (kill_process name);
      if negb k then mret (-1)
      else
        ret ← ap_on_host (ap_start_loop fuel process_argv name);
        match ret with
        | None => mret (-1)
        | Some ret => if 0 <? ret then mret (-1) else _ ← set_ap_started true; mret 0
        end
  end.

Definition kill_ap_process : AP bool :=
  started ← ap_get ap_process_started;
  if (started : bool) then
    _ ← set_ap_started false;
    name ← ap_get hostapd_proc_name;
    ap_on_host (kill_process name)
  else mret true.

Definition signal_ap_process : AP Z :=
  hconf ← ap_get as_hconf;
  _ ← set_ap_proc (ap_name hconf);
  name ← ap_get hostapd_proc_name;
  ok ← ap_on_host (signal_process (Some name) SIGHUP);
  mret (if (ok : bool) then 0 else -1).

(** ** Commands ([ap_service.c]) *)

(** [writeread_domain_data_str] on the path of the configuration, which it
    overwrites. *)
Definition ap_exchange (cmd : list Z) : AP (Z * option (list Z)) :=
  hconf ← ap_get as_hconf;
  x ← ap_on_sys (writeread_domain_data_str abstract (ctrl_interface_path hconf) cmd);
  _ ← set_hconf (with_ctrl_path x.2);
  mret x.1.

Definition ping_ap_command : AP Z :=
  x ← ap_exchange PING_AP_COMMAND;
  if x.1 <? 0 then mret (-1)
  else
    match x.2 with
    | None => fail_with NullDeref
    | Some reply => mret (if bool_decide (reply = PING_AP_COMMAND_REPLY) then 0 else -1)
    end.

Definition denyacl_ap_command (cmd : list Z) (mac_addr : option (list Z)) : AP Z :=
  match mac_addr with
  | None => mret (-1)
  | Some mac =>
      ok ← ap_on_sys (on_env malloc);
      if negb ok then mret (-1)
      else
        x ← ap_exchange (cmd ++ cstr " " ++ mac);
        if x.1 <? 0 then mret (-1)
        else
          match x.2 with
          | None => fail_with NullDeref
          | Some reply => mret (if bool_decide (reply = GENERIC_AP_COMMAND_OK_REPLY) then 0 else -1)
          end
  end.
Definition denyacl_add_ap_command (mac_addr : option (list Z)) : AP Z := denyacl_ap_command DENYACL_ADD_COMMAND mac_addr.
Definition denyacl_del_ap_command (mac_addr : option (list Z)) : AP Z := denyacl_ap_command DENYACL_DEL_COMMAND mac_addr.

(** [disconnect_ap_command]; the supervisor has its call under that name. *)
Definition disconnect_station (mac_addr : option (list Z)) : AP Z :=
  a ← denyacl_add_ap_command mac_addr;
  if a <? 0 then mret (-1)
  else
    d ← denyacl_del_ap_command mac_addr;
    if d <? 0 then mret (-1) else mret 0.

Definition check_sta_ap_command (mac_addr : option (list Z)) : AP Z :=
  match mac_addr with
  | None => mret (-1)
  | Some mac =>
      ok ← ap_on_sys (on_env malloc);
      if negb ok then mret (-1)
      else
        x ← ap_exchange (STA_AP_COMMAND ++ cstr " " ++ mac);
        if x.1 <? 0 then mret (-1)
        else
          match x.2 with
          | None => fail_with NullDeref
          | Some reply =>
              if bool_decide (reply = GENERIC_AP_COMMAND_FAIL_REPLY) then mret (-1)
              else mret (match reply with [] => -1 | _ => 0 end)
          end
  end.

(** ** Events *)

(** The text is searched as a whole for the second name. The address that was
    found, if the result is 0. *)
Definition find_ap_status (ap_answer : list Z) : prog env (option (list Z * ap_connection_status)) :=
  x ← split_string_array (Some ap_answer) 32 (Some []);
  if x.1 <=? 1 then mret None
  else
    match x.2 with
    | Some (status_string :: rest) =>
        let status :=
          match strstr status_string AP_STA_CONNECTED, strstr ap_answer AP_STA_DISCONNECTED with
          | Some _, _ => Some AP_CONNECTED_STATUS
          | None, Some _ => Some AP_DISCONNECTED_STATUS
          | None, None => None
          end in
        match status, rest with
        | Some st, mac_address_string :: _ =>
            y ← lift_outcome (edge_hwaddr_aton2 (mac_address_string ++ [0]));
            mret (if y.1 <? 0 then None else Some (y.2, st))
        | _, _ => mret None
        end
    | _ => mret None
    end.

Context (fn : list Z -> ap_connection_status -> prog X unit).

(** The path of the configuration is overwritten here too. *)
Definition ap_sock_handler (sock : Z) : AP unit :=
  n ← ap_on_sys (ioctl_fionread sock);
  match n with
  | None => mret tt
  | Some bytes_available =>
      ok ← ap_on_sys (on_env malloc);
      if negb ok then mret tt
      else
        hconf ← ap_get as_hconf;
        x ← ap_on_sys (read_domain_data_s sock bytes_available (Some (ctrl_interface_path hconf)));
        _ ← set_hconf (with_ctrl_path (default (ctrl_interface_path hconf) x.2));
        match x.1 with
        | None => mret tt
        | Some data =>
            rec ← lift_outcome (rec_string bytes_available data);
            match rtrim (Some rec) None with
            | None => mret tt
            | Some trimmed =>
                f ← ap_on_sys (on_env (find_ap_status trimmed));
                match f with
                | Some (mac, status) => ap_on_ctx (fn mac status)
                | None => mret tt
                end
            end
        end
  end.

(** The command is sent with its terminator. *)
Definition register_ap_event : AP Z :=
  fd ← ap_on_sys (create_domain_client abstract None);
  _ ← set_ap_sock fd;
  if fd =? -1 then mret (-1)
  else
    r ← register_read_sock fd;
    if r =? -1 then mret (-1)
    else
      hconf ← ap_get as_hconf;
      w ← ap_on_sys (write_domain_data_s fd (ATTACH_AP_COMMAND ++ [0]) (Some (ctrl_interface_path hconf)));
      if negb (w =? zlen ATTACH_AP_COMMAND + 1) then mret (-1) else mret 0.

Definition get_hostname : AP (option (list Z)) :=
  n ← ap_get as_hostname;
  match n with
  | Some name => mret (if OS_HOST_NAME_MAX <=? zlen name then None else Some name)
  | None => mret None
  end.

Definition run_ap (fuel : nat) (rconf : radius_conf) (exec_ap generate_ssid : bool) : AP Z :=
  hconf ← ap_get as_hconf;
  v ← ap_on_disk (generate_vlan_conf (vlan_file hconf) (ap_interface hconf));
  if v <? 0 then mret (-1)
  else
    h ← (if generate_ssid then
           n ← get_hostname;
           match n with
           | None => mret (-1)
           | Some hostname => _ ← set_hconf (with_ssid (clip AP_NAME_LEN hostname)); mret 0
           end
         else mret 0);
    if h <? 0 then mret (-1)
    else
      hconf ← ap_get as_hconf;
      g ← ap_on_disk (generate_hostapd_conf hconf rconf);
      if g <? 0 then mret (-1)
      else
        res ← (if exec_ap then run_ap_process fuel else signal_ap_process);
        _ ← (if res =? 0 then ping_ap_command else mret 0);
        _ ← register_ap_event;
        mret res.

Definition close_ap : AP bool :=
  fd ← ap_get ap_sock;
  _ ← (if negb (fd =? -1) then _ ← ap_on_sys (close_domain_socket fd); set_ap_sock (-1) else mret tt);
  kill_ap_process.
End ap.
