(* ===== verification/RadiusServerInv.v ===== *)
(** The invariant of the RADIUS server: the session count is the number of
    sessions and stays within the limit, no timer outlives its session, and the
    server's counters are the sums of its clients'.

    The server is a step relation: a step receives a datagram or lets a pending
    timeout fire.  The invariant is proved for every reachable state by rule
    induction, from lemmas that each operation keeps it. *)
From stdpp Require Import strings numbers base list gmap.
From Stdlib Require Import ZArith Lia.
From S2P Require Import Prelude Os Text Net Extern Mappers Md5 Wpabuf RadiusMsg RadiusAttr RadiusAuth RadiusCrypt RadiusServer.

Definition timer_sess (t : timer) : nat :=
  match t with
  | radius_server_session_timeout_cb p | radius_server_session_remove_timeout_cb p => p
  end.

Section inv.
Context {W : Type} {E : Eloop timer}.
#[local] Abbreviation client := (radius_client W).
#[local] Abbreviation server := (radius_server_data W).
#[local] Abbreviation wld := (world W E).

Definition sum_counters (k : counter) (cs : list client) : Z :=
  foldr (fun c n => cl_counters c k + n) 0 cs.

Record srv_inv (d : server) (ts : list (Z * timer)) : Prop := {
  inv_num : num_sess d = zlen (all_sessions d);
  inv_max : num_sess d <= RADIUS_MAX_SESSION;
  inv_nodup : NoDup (all_sessions d).*1;
  inv_timers : forall t, t ∈ ts -> timer_sess t.2 ∈ (all_sessions d).*1;
  inv_counters : forall k, k <> invalid_requests ->
    srv_counters d k = u32 (sum_counters k (clients d))
}.

Definition world_inv (w : wld) : Prop := srv_inv (w_srv w) (timeouts (w_eloop w)).

(** The invariant, and a client index that is in range. *)
Definition good (c : nat) (w : wld) : Prop :=
  world_inv w /\ is_Some (clients (w_srv w) !! c).

(** ** Lists with one element changed *)

Lemma list_alter_split {A} (l : list A) (f : A -> A) c x : l !! c = Some x ->
  exists l1 l2, l = l1 ++ x :: l2 /\ alter f c l = l1 ++ f x :: l2.
Proof.
  intros Hc. exists (take c l), (drop (S c) l). split; [by rewrite take_drop_middle|].
  rewrite <- (take_drop_middle l c x Hc) at 1.
  assert (length (take c l) = c) as Hl by (apply lookup_lt_Some in Hc; rewrite length_take; lia).
  rewrite alter_app_r_alt by lia. by rewrite Hl, Nat.sub_diag.
Qed.

Lemma all_sessions_app (l1 : list client) c l2 d : clients d = l1 ++ c :: l2 ->
  all_sessions d = (l1 ≫= sessions) ++ sessions c ++ (l2 ≫= sessions).
Proof. unfold all_sessions. intros ->. by rewrite bind_app. Qed.

Lemma sum_counters_app k (l1 l2 : list client) :
  sum_counters k (l1 ++ l2) = sum_counters k l1 + sum_counters k l2.
Proof. induction l1 as [|c l1 IH]; simpl; [done|]. rewrite IH. lia. Qed.

Lemma u32_bump a x : u32 (u32 a + 1) = u32 (a - x + u32 (x + 1)).
Proof. unfold wrap. zdiv_lia. Qed.

(** ** Operations that keep the invariant *)

(** Code that runs in the environment does not touch the server. *)
Lemma keeps_in_env {A} c (m : M A) : keeps (good c) (in_env (E := E) m).
Proof.
  intros w a w' Hw. unfold in_env. destruct (m (w_env w)) as [[x e]|]; by intros [= _ <-].
Qed.

Lemma keeps_the_client c c' : keeps (good c) (the_client (E := E) c').
Proof. intros w a w' Hw. unfold the_client. case_match; by intros [= _ <-]. Qed.

Lemma keeps_the_session c c' p : keeps (good c) (the_session (E := E) c' p).
Proof. intros w a w' Hw. unfold the_session. by repeat case_match; intros [= _ <-]. Qed.

Lemma keeps_sendto c a p b : keeps (good c) (sendto (E := E) a p b).
Proof. intros w x w' Hw. unfold sendto. by intros [= _ <-]. Qed.

Lemma keeps_call_conn c f mac : keeps (good c) (call_conn (E := E) f mac).
Proof. intros w x w' Hw. unfold call_conn. destruct (f mac (w_conn w)) as [[i c']|]; [by intros [= _ <-]|done]. Qed.

Lemma keeps_asks {A} c (f : server -> A) : keeps (good c) (asks (E := E) f).
Proof. intros w x w' Hw. by intros [= _ <-]. Qed.

(** Changing a session in place. *)
Lemma sessions_fmap_addr p f (l : list (nat * radius_session)) :
  ((fun x => if decide (x.1 = p) then (x.1, f x.2) else x) <$> l).*1 = l.*1.
Proof.
  rewrite <- list_fmap_compose. apply list_fmap_ext. intros i [q s] _. simpl. by case_decide.
Qed.

Lemma alter_in_range {A} (l : list A) f c c' : is_Some (l !! c) -> is_Some (alter f c' l !! c).
Proof. rewrite !lookup_lt_is_Some, length_alter. done. Qed.

Lemma good_upd c w cl f :
  good c w -> clients (w_srv w) !! c = Some cl ->
  (sessions (f cl)).*1 = (sessions cl).*1 -> cl_counters (f cl) = cl_counters cl ->
  good c (with_srv (set_clients (alter f c)) w).
Proof.
  intros [[Hnum Hmax Hnd Ht Hk] Hc] Hcl Hs Hcnt. split; [|by apply alter_in_range].
  destruct (list_alter_split _ f c cl Hcl) as (l1 & l2 & Heq & Halt).
  set (d' := set_clients (alter f c) (w_srv w)).
  assert (clients d' = l1 ++ f cl :: l2) as Heq' by (subst d'; simpl; by rewrite Halt).
  assert ((all_sessions d').*1 = (all_sessions (w_srv w)).*1) as Hall.
  { rewrite (all_sessions_app l1 cl l2 _ Heq), (all_sessions_app l1 (f cl) l2 _ Heq').
    by rewrite !fmap_app, Hs. }
  assert (zlen (all_sessions d') = zlen (all_sessions (w_srv w))) as Hlen.
  { unfold zlen. rewrite <- (length_fmap fst), Hall. by rewrite length_fmap. }
  unfold world_inv. cbn [w_srv w_eloop with_srv]. fold d'.
  constructor; rewrite ?Hall, ?Hlen; try done.
  intros k Hne. rewrite Heq', sum_counters_app. change (srv_counters d') with (srv_counters (w_srv w)).
  rewrite Hk, Heq, sum_counters_app by done. simpl. by rewrite Hcnt.
Qed.

Lemma keeps_upd_session c p f : keeps (good c) (upd_session (E := E) c p f).
Proof.
  intros w a w' Hw [= _ <-]. destruct (proj2 Hw) as [cl Hcl]. eapply good_upd; [done..| |done].
  apply sessions_fmap_addr.
Qed.

Lemma keeps_count c k : k <> invalid_requests -> keeps (good c) (count (E := E) k c).
Proof.
  intros Hk w a w' [[Hnum Hmax Hnd Ht Hcnt] [cl Hcl]] (u & w1 & [= <- <-] & [= _ <-])%bind_done.
  split; [|by apply alter_in_range].
  destruct (list_alter_split _ (set_cl_counters (bump k)) c cl Hcl) as (l1 & l2 & Heq & Halt).
  unfold world_inv. cbn [w_srv w_eloop with_srv].
  set (d' := set_clients _ _).
  assert (all_sessions d' = all_sessions (w_srv w)) as Hall.
  { rewrite (all_sessions_app l1 cl l2 _ Heq).
    rewrite (all_sessions_app l1 (set_cl_counters (bump k) cl) l2); [done|exact Halt]. }
  constructor; rewrite ?Hall; try done. intros j Hj. subst d'.
  cbn [srv_counters clients set_clients set_srv_counters]. rewrite Halt, sum_counters_app.
  unfold bump at 1. rewrite Hcnt, Heq, sum_counters_app by done. simpl.
  unfold bump. case_decide; [|done]. rewrite (u32_bump _ (cl_counters cl j)). f_equal. lia.
Qed.

Lemma count_invalid_inv (w w' : wld) u :
  world_inv w -> count_srv invalid_requests w = Done (u, w') -> world_inv w'.
Proof.
  intros [Hnum Hmax Hnd Ht Hcnt] [= _ <-]. constructor; try done. intros k Hk. simpl.
  unfold bump. rewrite decide_False by done. by apply Hcnt.
Qed.

(** ** Sessions *)

Lemma owner_spec d p : p ∈ (all_sessions d).*1 ->
  exists c (cl : client), owner d p = Some c /\ clients d !! c = Some cl /\ p ∈ (sessions cl).*1.
Proof.
  intros ([q s] & Hp & Hin)%list_elem_of_fmap. simpl in Hp. subst q.
  unfold all_sessions in Hin. apply list_elem_of_bind in Hin as (cl & Hs & Hcl).
  destruct (list_find_elem_of (fun cl : client => p ∈ (sessions cl).*1) (clients d) cl)
    as [[i x] Hf]; [done|by apply list_elem_of_fmap; exists (p, s)|].
  exists i, x. unfold owner. rewrite Hf. split; [done|].
  by apply list_find_Some in Hf as (? & ? & _).
Qed.

Lemma owner_inv d p c : owner (W := W) d p = Some c ->
  exists cl, clients d !! c = Some cl /\ p ∈ (sessions cl).*1.
Proof.
  unfold owner. intros ([i x] & Hf & ->)%fmap_Some. exists x.
  by apply list_find_Some in Hf as (? & ? & _).
Qed.

(** The list without one of its elements, whose keys are distinct. *)
Lemma filter_out_one (l : list (nat * radius_session)) p : NoDup l.*1 -> p ∈ l.*1 ->
  zlen (filter (fun x => x.1 <> p) l) = zlen l - 1 /\
  forall q, q ∈ (filter (fun x => x.1 <> p) l).*1 <-> q ∈ l.*1 /\ q <> p.
Proof.
  induction l as [|[q s] l IH]; [by intros _ ?%elem_of_nil|].
  rewrite fmap_cons, list.NoDup_cons. intros [Hq Hnd] Hp. rewrite filter_cons. cbn [fst] in *.
  case_decide as Hd.
  - assert (p ∈ l.*1) as Hpl by (apply elem_of_cons in Hp as [?|?]; [congruence|done]). destruct (IH Hnd Hpl) as [Hl Hin].
    rewrite !zlen_cons, fmap_cons, Hl. split; [lia|]. intros r. cbn [fst].
    rewrite !elem_of_cons, Hin. split; [intros [->|[? ?]]|intros [[->|?] ?]]; auto.
  - subst q. rewrite filter_all.
    + split; [rewrite zlen_cons; lia|]. intros r. rewrite elem_of_cons. split.
      * intros Hr. split; [by right|]. by intros ->.
      * intros [[->|?] ?]; done.
    + intros [r s'] Hr Heq. simpl in Heq. subst r. apply Hq.
      apply list_elem_of_fmap. by exists (p, s').
Qed.

(** Unlinking the session at [p] from the list of its client. *)
Lemma unlink_inv d ts c (cl : client) p :
  srv_inv d ts -> clients d !! c = Some cl -> p ∈ (sessions cl).*1 ->
  let d' := set_clients (alter (set_sessions (filter (fun x => x.1 <> p))) c) d in
  zlen (all_sessions d') = zlen (all_sessions d) - 1 /\ NoDup (all_sessions d').*1 /\
  (forall q, q ∈ (all_sessions d').*1 <-> q ∈ (all_sessions d).*1 /\ q <> p) /\
  forall k, sum_counters k (clients d') = sum_counters k (clients d).
Proof.
  intros [Hnum Hmax Hnd Ht Hcnt] Hcl Hp d'.
  destruct (list_alter_split _ (set_sessions (filter (fun x => x.1 <> p))) c cl Hcl)
    as (l1 & l2 & Heq & Halt).
  assert (all_sessions d' = filter (fun x => x.1 <> p) (all_sessions d)) as Hall.
  { rewrite (all_sessions_app l1 cl l2 _ Heq).
    rewrite (all_sessions_app l1 (set_sessions (filter (fun x => x.1 <> p)) cl) l2); [|exact Halt].
    rewrite (all_sessions_app l1 cl l2 _ Heq), !fmap_app in Hnd.
    apply NoDup_app in Hnd as (_ & H1 & Hnd). apply NoDup_app in Hnd as (_ & H2 & _).
    assert (forall l : list (nat * radius_session), p ∉ l.*1 -> filter (fun x => x.1 <> p) l = l)
      as Hid.
    { intros l Hl. apply filter_all. intros x Hx Heqp. apply Hl. rewrite <- Heqp.
      by apply list_elem_of_fmap_2. }
    rewrite !filter_app. f_equal; [|f_equal].
    - symmetry. apply Hid. intros Hin. apply (H1 _ Hin), elem_of_app. by left.
    - symmetry. apply Hid. by apply H2. }
  rewrite Hall. destruct (filter_out_one (all_sessions d) p Hnd) as [Hlen Hin].
  { rewrite (all_sessions_app l1 cl l2 _ Heq), !fmap_app. apply elem_of_app. right.
    apply elem_of_app. by left. }
  split; [done|]. split; [by apply NoDup_fmap_filter|]. split; [done|].
  intros k. subst d'. cbn [clients set_clients]. rewrite Halt, Heq, !sum_counters_app. done.
Qed.

(** Removing a session from a state with the invariant: it is gone, together
    with its timers. *)
Lemma session_remove_run (w : wld) p : world_inv w -> p ∈ (all_sessions (w_srv w)).*1 ->
  exists w', radius_server_session_remove p w = Done (tt, w') /\ world_inv w' /\
    length (clients (w_srv w')) = length (clients (w_srv w)) /\
    (forall q, q ∈ (all_sessions (w_srv w')).*1 <-> q ∈ (all_sessions (w_srv w)).*1 /\ q <> p).
Proof.
  intros Hinv Hp. destruct (owner_spec _ _ Hp) as (c & cl & Ho & Hcl & Hpc).
  unfold radius_server_session_remove. rewrite Ho.
  eexists. split; [done|].
  destruct (unlink_inv _ _ c cl p Hinv Hcl Hpc) as (Hlen & Hnd' & Hin & Hsum).
  destruct Hinv as [Hnum Hmax Hnd Ht Hcnt].
  split; [|split; [cbn; by rewrite length_alter|exact Hin]].
  unfold world_inv. cbn [w_srv w_eloop with_srv with_eloop]. rewrite !cancel_timeouts.
  constructor; cbn [num_sess set_num_sess].
  - cbn [num_sess set_clients]. rewrite Hnum. symmetry. exact Hlen.
  - cbn [num_sess set_clients]. lia.
  - exact Hnd'.
  - intros t Hmem. apply list_elem_of_filter in Hmem as [N1 Hmem].
    apply list_elem_of_filter in Hmem as [N2 Hmem]. apply list_elem_of_filter in Hmem as [_ Hmem].
    apply Hin. split; [by apply Ht|]. intros Heq. destruct t as [secs [q|q]]; simpl in *; subst; done.
  - intros k Hk. cbn [srv_counters clients set_num_sess]. cbn [srv_counters set_clients].
    rewrite (Hcnt k Hk). f_equal. symmetry. apply Hsum.
Qed.

Lemma keeps_session_remove c p : keeps (good c) (radius_server_session_remove (E := E) p).
Proof.
  intros w a w' [Hinv Hc] Hrun. destruct (owner (w_srv w) p) as [c'|] eqn:Ho.
  - destruct (owner_inv _ _ _ Ho) as (cl & Hcl & Hp).
    destruct (session_remove_run w p Hinv) as (w2 & Hrun2 & Hinv2 & Hlen & _).
    { destruct (list_alter_split _ id c' cl Hcl) as (l1 & l2 & Heq & _).
      rewrite (all_sessions_app l1 cl l2 _ Heq), !fmap_app. apply elem_of_app. right.
      apply elem_of_app. by left. }
    rewrite Hrun2 in Hrun. injection Hrun as _ <-. split; [done|].
    apply lookup_lt_is_Some. rewrite Hlen. by apply lookup_lt_is_Some.
  - unfold radius_server_session_remove in Hrun. by rewrite Ho in Hrun.
Qed.

(** A new session has a new address, and the room for it was checked. *)
Lemma keeps_new_session c : keeps (good c) (radius_server_new_session (E := E) c).
Proof.
  intros w a w' Hw. unfold radius_server_new_session.
  destruct (Z.leb_spec RADIUS_MAX_SESSION (num_sess (w_srv w))) as [|Hroom]; [by intros [= _ <-]|].
  intros (ok & w1 & Hm & Hrest)%bind_done. pose proof (keeps_in_env c malloc w ok w1 Hw Hm) as Hw1.
  destruct ok; cbn [negb] in Hrest; [|rewrite ret_run in Hrest; by injection Hrest as _ <-].
  assert (w_srv w1 = w_srv w /\ w_eloop w1 = w_eloop w) as [Hs He].
  { unfold in_env in Hm. destruct (malloc (w_env w)) as [[x e]|]; [|done].
    by injection Hm as _ <-. }
  rewrite <- Hs in Hrest, Hroom. clear w Hw Hm Hs He.
  destruct Hw1 as [[Hnum Hmax Hnd Ht Hcnt] [cl Hcl]].
  injection Hrest as _ <-. set (p := fresh_addr (all_sessions (w_srv w1))).
  set (s := session_zero (next_sess_id (w_srv w1))).
  destruct (list_alter_split _ (set_sessions (cons (p, s))) c cl Hcl) as (l1 & l2 & Heq & Halt).
  split; [|by apply alter_in_range].
  unfold world_inv. cbn [w_srv w_eloop with_srv with_eloop]. set (d' := set_num_sess _ _).
  assert (all_sessions d' ≡ₚ (p, s) :: all_sessions (w_srv w1)) as Hall.
  { rewrite (all_sessions_app l1 cl l2 _ Heq).
    rewrite (all_sessions_app l1 (set_sessions (cons (p, s)) cl) l2); [|exact Halt].
    simpl. by rewrite <- Permutation_middle. }
  assert ((all_sessions d').*1 ≡ₚ p :: (all_sessions (w_srv w1)).*1) as Hall1 by (by rewrite Hall).
  constructor.
  - subst d'. cbn. rewrite Hnum. unfold zlen. setoid_rewrite (Permutation_length Hall). simpl. lia.
  - subst d'. cbn. lia.
  - rewrite Hall1. apply list.NoDup_cons. split; [apply fresh_addr_notin|done].
  - intros t Hmem. rewrite Hall1. apply elem_of_cons.
    destruct (register_timeouts RADIUS_SESSION_TIMEOUT (radius_server_session_timeout_cb p)
      (w_eloop w1)) as [[_ Hp]|[_ Hp]]; rewrite Hp in Hmem; [|by right; apply Ht].
    apply elem_of_cons in Hmem as [->|Hmem]; [by left|by right; apply Ht].
  - intros k Hk. subst d'. cbn [srv_counters clients set_num_sess set_clients set_next_sess_id].
    rewrite (Hcnt k Hk), Heq at 1. rewrite Halt, !sum_counters_app. done.
Qed.

#[local] Hint Resolve keeps_in_env keeps_the_client keeps_the_session keeps_sendto keeps_call_conn
  keeps_asks keeps_upd_session keeps_session_remove keeps_new_session : keeps.
#[local] Hint Extern 2 (keeps _ (count _ _)) => (apply keeps_count; discriminate) : keeps.

Lemma keeps_get_new_session c msg addr :
  keeps (good c) (radius_server_get_new_session (E := E) c msg addr).
Proof. unfold radius_server_get_new_session. keeps_tac. Qed.

Lemma keeps_macacl c p msg : keeps (good c) (radius_server_macacl (E := E) c p msg).
Proof. unfold radius_server_macacl. keeps_tac. Qed.

Lemma keeps_reject c msg a p : keeps (good c) (radius_server_reject (E := E) c msg a p).
Proof. unfold radius_server_reject. keeps_tac. Qed.
#[local] Hint Resolve keeps_get_new_session keeps_macacl keeps_reject : keeps.

Lemma keeps_request c msg a p t fs :
  keeps (good c) (radius_server_request (E := E) msg a p c t fs).
Proof. unfold radius_server_request, request_session. keeps_tac. Qed.
#[local] Hint Resolve keeps_request : keeps.

Lemma get_client_range (cs : list client) addr : forall i c,
  get_client_loop cs addr i = Some c -> (i <= c < i + length cs)%nat.
Proof.
  induction cs as [|cl cs IH]; intros i c; simpl; [done|]. case_match.
  - intros [= <-]. lia.
  - intros Hc%IH. lia.
Qed.

(** ** Reachable states *)

(** The event loop has taken [t] off its list, which leaves [e], and calls the
    handler. *)
Definition fire (t : timer) (e : @eloop _ _ E) (w : wld) : outcome (unit * wld) :=
  match t with
  | radius_server_session_timeout_cb p => radius_server_session_timeout p
  | radius_server_session_remove_timeout_cb p => radius_server_session_remove_timeout p
  end (with_eloop (fun _ => e) w).

(** One step of the server: a datagram arrives (or [recvfrom] fails), or a
    pending timeout fires. *)
Inductive step : wld -> wld -> Prop :=
| step_receive recv w w' :
    radius_server_receive_auth recv w = Done (tt, w') -> step w w'
| step_timeout t e w w' :
    timeouts (w_eloop w) ≡ₚ t :: timeouts e -> fire t.2 e w = Done (tt, w') -> step w w'.

(** Just after [radius_server_init]: clients without sessions, no timers. *)
Definition initial (w : wld) : Prop :=
  exists now (cs : list client) sock reg e e',
    radius_server_init now cs sock reg e = Done (Some (w_srv w), e') /\
    Forall (fun c => sessions c = [] /\ cl_counters c = fun _ => 0) cs /\
    timeouts (w_eloop w) = [].

Lemma initial_inv w : initial w -> world_inv w.
Proof.
  intros (now & cs & sock & reg & e & e' & Hinit & Hcs & Ht). unfold radius_server_init in Hinit.
  apply bind_done in Hinit as (ok & e1 & _ & Hinit).
  destruct ok; cbn [negb] in Hinit; [|done]. destruct cs as [|c0 cs']; [done|].
  destruct (sock <? 0); [done|]. destruct (negb (reg =? 0)); [done|].
  injection Hinit as Hsrv _. unfold world_inv. rewrite <- Hsrv, Ht. set (cs := c0 :: cs') in *.
  assert (cs ≫= sessions = []) as Hnil.
  { clear Hsrv. clearbody cs. induction Hcs as [|c l [Hs _] _ IH]; [done|]. simpl. rewrite Hs. exact IH. }
  assert (forall k, sum_counters k cs = 0) as Hsum.
  { intros k. clear Hsrv Hnil. clearbody cs. induction Hcs as [|c l [_ Hk] _ IH]; [done|]. simpl.
    by rewrite Hk, IH. }
  constructor; unfold all_sessions; cbn [clients num_sess srv_counters]; rewrite ?Hnil; try done.
  - constructor.
  - by intros t ?%elem_of_nil.
  - intros k _. by rewrite Hsum.
Qed.

Lemma receive_inv recv w u w' :
  world_inv w -> radius_server_receive_auth recv w = Done (u, w') -> world_inv w'.
Proof.
  intros Hinv (ok & w1 & Hm & Hrest)%bind_done.
  assert (world_inv w1) as Hinv1.
  { unfold in_env in Hm. destruct (malloc (w_env w)) as [[x e]|]; [|done]. by injection Hm as _ <-. }
  destruct ok; cbn [negb] in Hrest; [|rewrite ret_run in Hrest; by injection Hrest as _ <-].
  destruct recv as [[[from port] data]|]; [|rewrite ret_run in Hrest; by injection Hrest as _ <-].
  apply bind_done in Hrest as (oc & w2 & [= <- <-] & Hrest).
  destruct (radius_server_get_client (w_srv w1) from) as [c|] eqn:Hc;
    [|by eapply count_invalid_inv].
  apply get_client_range in Hc. assert (good c w1) as Hgood.
  { split; [done|]. apply lookup_lt_is_Some. lia. }
  enough (good c w') as [? _] by done. revert Hgood Hrest.
  match goal with |- _ -> ?m w1 = _ -> _ => enough (keeps (good c) m) as Hk by apply Hk end.
  keeps_tac.
Qed.

Lemma fire_run t e w : world_inv w -> timeouts (w_eloop w) ≡ₚ t :: timeouts e ->
  exists w', fire t.2 e w = Done (tt, w') /\ world_inv w'.
Proof.
  intros Hinv Ht. set (w1 := with_eloop (fun _ => e) w).
  assert (world_inv w1) as Hinv1.
  { destruct Hinv as [? ? ? Htm ?]. constructor; try done. intros t' Ht'. apply Htm. rewrite Ht.
    by right. }
  destruct (session_remove_run w1 (timer_sess t.2) Hinv1) as (w' & Hrun & Hinv' & _).
  { apply (inv_timers _ _ Hinv). rewrite Ht. by left. }
  exists w'. split; [|done]. unfold fire. destruct t as [secs [p|p]]; exact Hrun.
Qed.

Lemma reachable_inv w0 w : initial w0 -> rtc step w0 w -> world_inv w.
Proof.
  intros Hi Hr. apply initial_inv in Hi. induction Hr as [w|w1 w2 w3 Hs _ IH]; [done|].
  apply IH. destruct Hs as [recv w w' Hrun|t e w w' Ht Hrun]; [by eapply receive_inv|].
  destruct (fire_run t e w Hi Ht) as (w'' & Hrun' & Hinv). rewrite Hrun' in Hrun.
  by injection Hrun as <-.
Qed.

End inv.

(** A server with one client, for 10.0.0.0/8. *)
Definition sample_client : radius_client unit :=
  {| cl_addr := 10; cl_mask := 255; shared_secret := cstr "radius"; sessions := [];
     cl_counters := fun _ => 0;
     conn_fn := Some (fun _ u => Done (init_default_mac_info 7 true, u)) |}.

Definition sample_world : world unit (list_eloop timer) :=
  {| w_srv := {| auth_sock := 3; clients := [sample_client]; next_sess_id := 0; num_sess := 0;
                 start_time := {| sec := 0; usec := 0 |}; srv_counters := fun _ => 0 |};
     w_eloop := []; w_env := Env [] []; w_sendto := []; w_sent := []; w_conn := tt |}.

(** A datagram from a known client that is too short to be a message. *)
Definition sample_short : option datagram := Some (10, 1812, [1; 2; 3]).

