(* ===== verification/RadiusReply.v ===== *)
(** What the RADIUS server answers ([src/radius/radius_server.c]): the contents
    of an Access-Accept and of an Access-Reject as the access point reads them,
    who can make the server act at all, what happens to a retransmission, and
    the text it keeps of a user name. *)
From stdpp Require Import strings numbers base list gmap.
From Stdlib Require Import ZArith Lia.
From S2P Require Import Prelude Os Text Net Extern Mappers Md5 Wpabuf RadiusMsg RadiusAttr RadiusAuth RadiusCrypt RadiusServer RadiusServerInv.

(** ** Attribute values *)

(** The attribute record holds the type and value of [a]. *)
Definition val_rep (h : hostapd_radius_attr) (a : attr) : Prop :=
  ra_type h = a.1 /\ exists b, ra_val h = Some b /\ wpabuf_wf b /\ content b = a.2.

Lemma alloc_copy_run data len r : bytes data -> 0 <= len <= zlen data -> len <= 2 ^ 32 ->
  exists b, wpabuf_alloc_copy (Some data) len (Env [] r) = Done (Some b, Env [] r) /\
    wpabuf_wf b /\ content b = take (Z.to_nat len) data.
Proof.
  intros Hb Hl Hm.
  destruct (wpabuf_alloc_copy_spec data len (Env [] r) Hb Hl) as (ob & e & Hrun & [_ He] & Hs);
    [unfold PTRDIFF_MAX, sizeof_wpabuf; lia|].
  destruct (He eq_refl) as [-> Hne]. destruct ob as [b|]; [|done]. exists b. split; [done|].
  destruct (Hs b eq_refl) as (? & ? & _). done.
Qed.

Lemma be32_value_run v r : exists b, be32_value v (Env [] r) = Done (Some b, Env [] r) /\
  wpabuf_wf b /\ content b = WPA_PUT_BE32 v.
Proof.
  destruct (wpabuf_alloc_spec 4 (Env [] r)) as (ob & e & Hrun & [_ He] & Hs); [done|].
  destruct (He eq_refl) as [-> Hne]. destruct ob as [b|]; [|done].
  destruct (Hs b eq_refl) as (Hwf & Hc & Hsz & Hu & _).
  destruct (put_bytes_fits b (WPA_PUT_BE32 v)) as (b' & Hput & Hwf' & Hc' & _); [done| | |].
  - unfold WPA_PUT_BE32. rewrite !land_ff. repeat constructor; apply (Z.mod_pos_bound _ 256); lia.
  - rewrite Hu, Hsz. done.
  - exists b'. unfold be32_value. erewrite bind_run by exact Hrun. unfold wpabuf_put_be32.
    rewrite Hput. rewrite Hc in Hc'. done.
Qed.

(** The attributes of a VLAN: its number has at most four digits. *)
Definition vlan_attrs (v : Z) : list attr :=
  [(RADIUS_ATTR_TUNNEL_TYPE, WPA_PUT_BE32 RADIUS_ATTR_TUNNEL_VALUE);
   (RADIUS_ATTR_TUNNEL_MEDIUM_TYPE, WPA_PUT_BE32 RADIUS_ATTR_TUNNEL_MEDIUM_VALUE);
   (RADIUS_ATTR_TUNNEL_PRIVATE_GROUP_ID, fmt_u v)].

Lemma digits_bytes l : Forall (fun c => isdigit c = true) l -> bytes l.
Proof.
  intros Hl. eapply Forall_impl; [exact Hl|]. intros c Hc%isdigit_range. unfold is_byte. lia.
Qed.

Lemma get_vlan_attribute_run v r : 0 <= v <= 9999 ->
  exists l, get_vlan_attribute v (Env [] r) = Done (Some l, Env [] r) /\
    Forall2 val_rep l (vlan_attrs v).
Proof.
  intros Hv. unfold get_vlan_attribute. do 1 (erewrite bind_run by done; cbn [negb]).
  destruct (be32_value_run RADIUS_ATTR_TUNNEL_VALUE r) as (b1 & H1 & Hw1 & Hc1).
  erewrite bind_run by exact H1. erewrite bind_run by done. cbn [negb].
  destruct (be32_value_run RADIUS_ATTR_TUNNEL_MEDIUM_VALUE r) as (b2 & H2 & Hw2 & Hc2).
  erewrite bind_run by exact H2. erewrite bind_run by done. cbn [negb].
  unfold fmt_d. rewrite (proj2 (Z.ltb_ge _ _)) by lia.
  pose proof (zlen_fmt_u_bound 4 v ltac:(simpl; lia) ltac:(lia)) as Hl.
  pose proof (fmt_u_digits v ltac:(lia) ltac:(lia)) as Hd.
  rewrite wr_head by (unfold zeros; rewrite length_app, length_replicate; simpl; lia).
  erewrite bind_run by done. rewrite <- app_assoc. cbn [app].
  rewrite until_nul_app by (by apply digits_nonzero).
  destruct (alloc_copy_run (fmt_u v ++ 0 :: drop (length (fmt_u v ++ [0])) (zeros 5))
    (zlen (fmt_u v)) r) as (b3 & H3 & Hw3 & Hc3).
  - apply Forall_app. split; [by apply digits_bytes|]. constructor; [done|].
    apply Forall_drop, bytes_zeros.
  - rewrite zlen_app. pose proof (zlen_nonneg (fmt_u v)).
    pose proof (zlen_nonneg (0 :: drop (length (fmt_u v ++ [0])) (zeros 5))). lia.
  - unfold zlen. lia.
  - erewrite bind_run by exact H3. rewrite to_nat_zlen, take_app_length in Hc3.
    eexists. split; [done|].
    repeat (constructor; [split; [done|by eexists]|]). constructor.
Qed.

(** The random bytes of a salt. *)
Definition salt_from (s0 s1 : Z) : Z := Z.lor (salt_of [u8 s0; u8 s1]) 0x8000.

Lemma get_password_attribute_run auth secret pass n s0 s1 r :
  zlen auth = 16 -> bytes pass -> 0 <= n <= zlen pass -> n <= 239 ->
  exists h, get_password_attribute auth secret pass n (Env [] ([s0; s1] :: r)) =
      Done (Some h, Env [] r) /\
    val_rep h (RADIUS_ATTR_TUNNEL_PASSWORD,
      tunnel_value 0 (salt_from s0 s1) auth secret (take (Z.to_nat n) pass)).
Proof.
  intros Hauth Hb Hn Hmax. unfold get_password_attribute. erewrite bind_run by done.
  change (zlen [s0; s1] <? 2) with false. cbn [fst snd]. change (0 <? 0) with false. cbv iota.
  erewrite bind_run by done. cbn [negb].
  change (u8 <$> take (Z.to_nat 2) [s0; s1]) with [u8 s0; u8 s1]. fold (salt_from s0 s1).
  set (salt := salt_from s0 s1). set (key := take (Z.to_nat n) pass).
  assert (zlen key = n) as Hk by (subst key; zlen_lia).
  set (L := round16 (1 + n)).
  assert (1 + n <= L <= n + 16) as HL by (subst L; unfold round16; zdiv_lia).
  rewrite (wrap_small 16) by lia. set (rest := zeros (Z.to_nat (n + 16))).
  replace (zeros (Z.to_nat (3 + 1 + n + 15))) with ([0] ++ zeros 2 ++ rest).
  2: { subst rest. unfold zeros. change [0] with (replicate 1 0). rewrite <- !replicate_add.
       f_equal. lia. }
  rewrite wr_app by done. erewrite bind_run by done.
  change (drop 3 ([0] ++ WPA_PUT_BE16 salt ++ rest)) with rest.
  assert (zlen rest = n + 16) as Hrest by (subst rest; unfold zeros; rewrite zlen_replicate; lia).
  assert (encrypt_ms_key pass n salt auth secret rest = encrypt_ms_key key (zlen key) salt auth secret rest)
    as ->.
  { unfold encrypt_ms_key. rewrite (proj2 (rd_done pass 0 n key)) by (repeat split; lia).
    by rewrite rd_all, Hk. }
  rewrite encrypt_ms_key_spec by (rewrite ?Hk; fold L; lia). rewrite Hk. fold L.
  erewrite bind_run by done. cbn [fst snd].
  set (c := encrypt_blocks secret [auth; WPA_PUT_BE16 salt] (ms_plain key) (Z.to_nat (L / 16))).
  assert (zlen c = L) as Hc.
  { subst c L. rewrite <- Hk. unfold zlen at 1.
    rewrite length_encrypt_blocks by (by rewrite ms_plain_blocks). apply length_ms_plain. }
  replace ([0] ++ WPA_PUT_BE16 salt ++ rest) with (([0] ++ WPA_PUT_BE16 salt) ++ rest ++ [])
    by (by rewrite app_nil_r).
  rewrite wr_app by (first [done|zlen_lia]). erewrite bind_run by done.
  erewrite bind_run by done. cbn [negb]. rewrite app_nil_r.
  assert (([0] ++ WPA_PUT_BE16 salt) ++ c = tunnel_value 0 salt auth secret key) as Htv.
  { unfold tunnel_value. rewrite Hk. fold L. by rewrite <- app_assoc. }
  rewrite app_assoc, Htv.
  assert (zlen (tunnel_value 0 salt auth secret key) = 3 + L) as Hlt by (by rewrite zlen_tunnel_value, Hk).
  destruct (alloc_copy_run (tunnel_value 0 salt auth secret key ++ drop (Z.to_nat L) rest) (3 + L) r)
    as (b & Hrun & Hwf & Hcb).
  - apply Forall_app. split; [|subst rest; apply Forall_drop, bytes_zeros]. rewrite <- Htv.
    apply Forall_app. split; [constructor; [done|apply bytes_be16]|].
    apply bytes_encrypt_blocks. constructor; [unfold is_byte; lia|].
    apply Forall_app. split; [by apply Forall_take|apply bytes_zeros].
  - rewrite zlen_app. pose proof (zlen_nonneg (drop (Z.to_nat L) rest)). lia.
  - lia.
  - erewrite bind_run by exact Hrun. eexists. split; [done|]. split; [done|]. exists b.
    split; [done|]. split; [done|]. by rewrite Hcb, <- Hlt, to_nat_zlen, take_app_length.
Qed.

Definition accept_attrs (salt : Z) (auth secret : list Z) (i : mac_conn_info) : list attr :=
  vlan_attrs (mi_vlanid i) ++
  [(RADIUS_ATTR_TUNNEL_PASSWORD,
    tunnel_value 0 salt auth secret (take (Z.to_nat (mi_pass_len i)) (mi_pass i)))].

(** A connection record with a VLAN of at most four digits and a password that
    lies in its array. *)
Definition admitted (i : mac_conn_info) : Prop :=
  0 <= mi_vlanid i <= 9999 /\ bytes (mi_pass i) /\ zlen (mi_pass i) = AP_SECRET_LEN /\
  0 <= mi_pass_len i <= AP_SECRET_LEN.

Lemma accept_attributes_run auth secret i s0 s1 r : zlen auth = 16 -> admitted i ->
  exists l, accept_attributes auth secret i (Env [] ([s0; s1] :: r)) = Done (Some l, Env [] r) /\
    Forall2 val_rep l (accept_attrs (salt_from s0 s1) auth secret i).
Proof.
  intros Hauth (Hv & Hb & Hl & Hn). unfold accept_attributes, AP_SECRET_LEN in *.
  rewrite (wrap_small 16) by lia.
  destruct (get_vlan_attribute_run (mi_vlanid i) ([s0; s1] :: r) Hv) as (va & Hva & Hrep).
  erewrite bind_run by exact Hva.
  destruct (get_password_attribute_run auth secret (mi_pass i) (mi_pass_len i) s0 s1 r)
    as (h & Hh & Hreph); [done|done|lia|lia|].
  erewrite bind_run by exact Hh. eexists. split; [done|].
  apply Forall2_app; [done|]. by constructor.
Qed.

(** ** The reply message *)

Lemma rep_small m hdr attrs : msg_rep m hdr attrs -> zlen (encode attrs) <= 2 ^ 32 -> msg_small m.
Proof.
  intros Hrep Hl. unfold msg_small. rewrite (rep_used _ _ _ Hrep).
  unfold HDR_LEN, PTRDIFF_MAX, sizeof_wpabuf. lia.
Qed.

Lemma zlen_encode_app x y : zlen (encode (x ++ y)) = zlen (encode x) + zlen (encode y).
Proof. by rewrite encode_app, zlen_app. Qed.

Lemma add_attributes_run l attrs : Forall2 val_rep l attrs -> forall m hdr pre r,
  msg_rep m hdr pre -> Forall attr_ok attrs -> zlen (encode (pre ++ attrs)) <= 2 ^ 32 ->
  exists m', add_attributes m l (Env [] r) = Done (Some m', Env [] r) /\
    msg_rep m' hdr (pre ++ attrs).
Proof.
  induction 1 as [|h [t d] l attrs (Ht & b & Hb & Hwf & Hc) _ IH]; intros m hdr pre r Hrep Hok Hlen;
    cbn [add_attributes].
  { exists m. rewrite app_nil_r. done. }
  apply list.Forall_cons in Hok as [Ha Hok]. rewrite Hb. cbn [fst snd] in *.
  pose proof (wf_used b Hwf). pose proof (zlen_content b Hwf) as Hzl. rewrite Hc in Hzl.
  pose proof (zlen_nonneg (encode ((t, d) :: attrs))).
  rewrite zlen_encode_app in Hlen.
  destruct (add_attr_rep m hdr pre t (wb_buf b) d (Env [] r)) as (m1 & Hrun & Hrep1);
    [done|by eapply rep_small; [done|lia]|done| |done|].
  { rewrite Hzl. rewrite rd_content by (done || lia). rewrite Hc, <- Hzl. apply rd_all. }
  rewrite Ht. unfold wpabuf_len. rewrite <- Hzl. erewrite bind_run by exact Hrun. cbn [fst snd].
  destruct (IH m1 hdr (pre ++ [(t, d)]) r Hrep1 Hok) as (m' & Hrun' & Hrep').
  { rewrite <- app_assoc. cbn [app]. by rewrite zlen_encode_app. }
  exists m'. rewrite <- app_assoc in Hrep'. done.
Qed.

Abbreviation of_type t := (filter (fun a : attr => a.1 = t)).

Lemma zlen_encode_filter t attrs : zlen (encode (of_type t attrs)) <= zlen (encode attrs).
Proof.
  induction attrs as [|a attrs IH]; [done|]. rewrite filter_cons, (encode_cons a attrs), zlen_app.
  pose proof (zlen_nonneg (encode_attr a)). case_decide; [|lia]. rewrite encode_cons, zlen_app. lia.
Qed.

(** The attributes of one type are copied, in order. *)
Lemma copy_attr_rep dst dhdr dattrs src shdr sattrs t r :
  msg_rep dst dhdr dattrs -> msg_rep src shdr sattrs ->
  zlen (encode dattrs) + zlen (encode sattrs) <= 2 ^ 32 ->
  exists m', radius_msg_copy_attr dst src t (Env [] r) =
      Done ((zlen (of_type t sattrs), m'), Env [] r) /\
    msg_rep m' dhdr (dattrs ++ of_type t sattrs).
Proof.
  intros Hd Hs Hlen. unfold radius_msg_copy_attr.
  match goal with |- context [for_attrs src ?f _] => set (body := f) end.
  destruct (for_attrs_inv src shdr sattrs body
    (fun pre acc e => e = Env [] r /\ acc.1 = zlen (of_type t pre) /\
       msg_rep acc.2 dhdr (dattrs ++ of_type t pre)) (fun _ _ => False) (0, dst) (Env [] r) Hs)
    as (res & e & Hrun & Hres).
  - intros pre t' d post [n m] e Hat (-> & Hn & Hm). cbn [fst snd] in *. subst body. cbn beta.
    pose proof (zlen_nonneg d). unfold ATTR_HDR_LEN. rewrite (proj2 (Z.leb_le 2 _)), andb_true_r by lia.
    rewrite filter_app, filter_cons. cbn [fst].
    destruct (Z.eqb_spec t' t) as [->|Hne].
    + rewrite decide_True by done. rewrite Hat in Hs.
      pose proof (read_value src shdr pre t d post Hs (Env [] r)) as Hread.
      unfold ATTR_HDR_LEN in Hread. erewrite bind_run by exact Hread.
      replace (2 + zlen d - 2) with (zlen d) by lia.
      pose proof (rep_attrs _ _ _ Hs) as Hok. apply Forall_app in Hok as [_ Hok].
      apply list.Forall_cons in Hok as [Hok _].
      destruct (add_attr_rep m dhdr _ t d d (Env [] r) Hm) as (m' & Hadd & Hm').
      * eapply rep_small; [exact Hm|]. rewrite zlen_encode_app. pose proof (zlen_encode_filter t pre).
        rewrite Hat, zlen_encode_app in Hlen. pose proof (zlen_nonneg (encode ((t, d) :: post))). lia.
      * done.
      * apply rd_all.
      * done.
      * erewrite bind_run by exact Hadd. cbn [fst snd]. eexists _, _. split; [done|].
        cbn [fst snd]. rewrite filter_nil. split; [done|]. rewrite zlen_app, <- Hn.
        split; [done|]. by rewrite app_assoc.
    + rewrite decide_False by done. rewrite filter_nil, app_nil_r. by eexists _, _.
  - rewrite app_nil_r. done.
  - erewrite bind_run by exact Hrun. destruct res as [[n m]|]; [|done].
    cbn [fst snd] in Hres. destruct Hres as (-> & -> & Hm). by exists m.
Qed.

Lemma msg_identifier_rep m c i rest attrs e : msg_rep m (c :: i :: rest) attrs ->
  msg_identifier m e = Done (i, e) /\ msg_code m e = Done (c, e).
Proof.
  intros Hrep. unfold msg_identifier, msg_code.
  pose proof (rep_read1 m _ attrs [c] i (rest ++ encode attrs) Hrep eq_refl) as H1.
  pose proof (rep_read1 m _ attrs [] c (i :: rest ++ encode attrs) Hrep eq_refl) as H0.
  change (zlen [c]) with 1 in H1. change (zlen (@nil Z)) with 0 in H0. by rewrite H0, H1.
Qed.

Lemma new_reply_run code req c i rest sattrs r : is_byte code ->
  msg_rep req (c :: i :: rest) sattrs -> zlen (encode sattrs) <= 2 ^ 16 ->
  exists m, new_reply code req (Env [] r) = Done (Some m, Env [] r) /\
    msg_rep m (code :: i :: zeros 18) (of_type RADIUS_ATTR_PROXY_STATE sattrs).
Proof.
  intros Hcode Hrep Hlen. unfold new_reply.
  erewrite bind_run by (by apply (msg_identifier_rep _ _ _ _ _ (Env [] r) Hrep)).
  assert (is_byte i) as Hi.
  { pose proof (bytes_hdr _ _ _ Hrep) as Hb. apply list.Forall_cons in Hb as [_ Hb].
    by apply list.Forall_cons in Hb as [? _]. }
  destruct (radius_msg_new_spec code i (Env [] r) Hcode Hi) as (om & e & Hrun & [_ He] & Hs).
  destruct (He eq_refl) as [-> Hne]. destruct om as [m0|]; [|done].
  erewrite bind_run by exact Hrun. cbn beta iota.
  destruct (copy_attr_rep m0 _ [] req _ sattrs RADIUS_ATTR_PROXY_STATE r (Hs m0 eq_refl) Hrep)
    as (m & Hcopy & Hm); [change (zlen (encode [])) with 0; lia|].
  erewrite bind_run by exact Hcopy. cbn [fst snd].
  rewrite (proj2 (Z.ltb_ge _ _)) by apply zlen_nonneg. by exists m.
Qed.

(** Whether an attribute of a type is there. *)
Lemma get_attr_ptr_rep m hdr attrs t e : msg_rep m hdr attrs ->
  exists o, radius_msg_get_attr_ptr m t None e = Done (o, e) /\
    (o = None <-> of_type t attrs = []).
Proof.
  intros Hrep. unfold radius_msg_get_attr_ptr.
  destruct (find_attr_rep m hdr attrs t e Hrep) as (r & Hrun & Hr). erewrite bind_run by exact Hrun.
  assert (first_attr t attrs = None <-> of_type t attrs = []) as Hiff.
  { unfold first_attr. clear. induction attrs as [|a attrs IH]; [done|]. simpl. rewrite filter_cons.
    destruct (Z.eqb_spec a.1 t); [rewrite decide_True by done|rewrite decide_False by done]; done. }
  destruct (first_attr t attrs) as [d|].
  - destruct Hr as (pre & t' & post & _ & ->). pose proof (zlen_nonneg d). unfold ATTR_HDR_LEN.
    rewrite (proj2 (Z.ltb_ge _ _)) by lia. eexists. split; [done|]. rewrite <- Hiff. done.
  - subst r. eexists. split; [done|]. rewrite <- Hiff. done.
Qed.

(** ** Reading the VLAN *)

Definition vlan_step (n : Z) (a : attr) (s : vlan_state) : vlan_state + vlan_state :=
  if zlen a.2 <? 1 then inl s else inl (vlan_attr n a.1 (2 + zlen a.2) a.2 s).

Lemma get_vlanid_rep m hdr attrs n e : msg_rep m hdr attrs ->
  exists s, pure_loop (vlan_step n) attrs {| vs_tunnel := replicate 32 tunnel_zero;
      vs_untagged := 0; vs_tagged := [] |} = inl s /\
    radius_msg_get_vlanid m n e =
      (let untagged := default (vs_untagged s) (first_vlan (vs_tunnel s)) in
       let pad l := l ++ replicate (Z.to_nat (n - zlen l)) 0 in
       Done ((if (0 <? untagged) || (0 <? zlen (vs_tagged s)) then 1 else 0, untagged,
              pad (qsort (vs_tagged s))), e)).
Proof.
  intros Hrep. unfold radius_msg_get_vlanid.
  match goal with |- context [for_attrs m ?f ?x] => set (body := f); set (s0 := x) end.
  assert (forall l s, exists s', pure_loop (vlan_step n) l s = inl s') as Htot.
  { induction l as [|a l IH]; intros s; cbn [pure_loop]; [by exists s|]. unfold vlan_step at 1.
    destruct (zlen a.2 <? 1); apply IH. }
  destruct (Htot attrs s0) as [s Hs]. exists s. split; [done|].
  erewrite bind_run; [|rewrite (for_attrs_pure m hdr attrs body (vlan_step n) s0 e Hrep), Hs; [done|]].
  - done.
  - intros pre t d post acc e0 Hat. subst body. cbn beta. pose proof (zlen_nonneg d).
    unfold ATTR_HDR_LEN, vlan_step. cbn [fst snd]. rewrite (proj2 (Z.ltb_ge _ 2)) by lia.
    destruct (Z.ltb_spec (2 + zlen d) 3), (Z.ltb_spec (zlen d) 1); try lia; [done|].
    rewrite Hat in Hrep. pose proof (read_value m hdr pre t d post Hrep e0) as Hread.
    unfold ATTR_HDR_LEN in Hread. by erewrite bind_run by exact Hread.
Qed.

(** Attributes that do not speak of VLANs. *)
Definition vlan_free (a : attr) : Prop :=
  a.1 <> RADIUS_ATTR_TUNNEL_TYPE /\ a.1 <> RADIUS_ATTR_TUNNEL_MEDIUM_TYPE /\
  a.1 <> RADIUS_ATTR_TUNNEL_PRIVATE_GROUP_ID /\ a.1 <> RADIUS_ATTR_EGRESS_VLANID.

Lemma vlan_step_free n a s : vlan_free a -> vlan_step n a s = inl s.
Proof.
  intros (H1 & H2 & H3 & H4). unfold vlan_step, vlan_attr. destruct (_ <? _); [done|].
  by rewrite !(proj2 (Z.eqb_neq _ _)).
Qed.

Lemma pure_loop_app {A R} (f : attr -> A -> A + R) x y : forall acc,
  pure_loop f (x ++ y) acc =
    match pure_loop f x acc with inl acc' => pure_loop f y acc' | inr r => inr r end.
Proof. induction x as [|a x IH]; intros acc; simpl; [done|]. by destruct (f a acc). Qed.

Lemma pure_loop_free n l s : Forall vlan_free l -> pure_loop (vlan_step n) l s = inl s.
Proof.
  induction 1 as [|a l Ha _ IH]; cbn [pure_loop]; [done|]. by rewrite vlan_step_free.
Qed.

(** What the access point reads from the VLAN attributes. *)
Lemma get_vlanid_vlan_attrs m hdr pre post v n e :
  msg_rep m hdr (pre ++ vlan_attrs v ++ post) -> Forall vlan_free pre -> Forall vlan_free post ->
  1 <= v <= 9999 -> 0 <= n ->
  radius_msg_get_vlanid m n e = Done ((1, v, replicate (Z.to_nat n) 0), e).
Proof.
  intros Hrep Hpre Hpost Hv Hn. destruct (get_vlanid_rep m hdr _ n e Hrep) as (s & Hs & ->).
  rewrite pure_loop_app, pure_loop_free, pure_loop_app in Hs by done.
  pose proof (zlen_fmt_u_bound 4 v ltac:(simpl; lia) ltac:(lia)) as Hl.
  pose proof (fmt_u_digits v ltac:(lia) ltac:(lia)) as Hd.
  destruct (fmt_u_head v) as (c & rest & Hf & Hc); [lia..|].
  assert (vlan_attr n RADIUS_ATTR_TUNNEL_PRIVATE_GROUP_ID (2 + zlen (fmt_u v)) (fmt_u v)
    {| vs_tunnel := {| tag_used := 2; tun_type := 13; medium_type := 6; vlanid := 0 |}
         :: replicate 31 tunnel_zero; vs_untagged := 0; vs_tagged := [] |} =
    {| vs_tunnel := {| tag_used := 3; tun_type := 13; medium_type := 6; vlanid := v |}
         :: replicate 31 tunnel_zero; vs_untagged := 0; vs_tagged := [] |}) as Hgid.
  { unfold vlan_attr. change (RADIUS_ATTR_TUNNEL_PRIVATE_GROUP_ID =? RADIUS_ATTR_TUNNEL_TYPE) with false.
    change (RADIUS_ATTR_TUNNEL_PRIVATE_GROUP_ID =? RADIUS_ATTR_TUNNEL_MEDIUM_TYPE) with false.
    rewrite Z.eqb_refl. cbv zeta iota. assert (hd 0 (fmt_u v) = c) as -> by (by rewrite Hf).
    unfold RADIUS_TUNNEL_TAGS. rewrite (proj2 (Z.leb_le 32 c)), (proj2 (Z.ltb_ge c 32)) by lia.
    rewrite (proj2 (Z.leb_gt 10 _)) by (unfold zlen; lia).
    rewrite until_nul_id by (by apply digits_nonzero). rewrite atoi_fmt_u by lia.
    rewrite (proj2 (Z.leb_gt v _)) by lia. done. }
  assert (1 <= zlen (fmt_u v)) as H1 by (rewrite Hf, zlen_cons; pose proof (zlen_nonneg rest); lia).
  unfold vlan_attrs in Hs. cbn [pure_loop] in Hs.
  assert (forall s1 s2, vlan_attr n RADIUS_ATTR_TUNNEL_PRIVATE_GROUP_ID (2 + zlen (fmt_u v)) (fmt_u v) s1
    = s2 -> vlan_step n (RADIUS_ATTR_TUNNEL_PRIVATE_GROUP_ID, fmt_u v) s1 = inl s2) as Hstep.
  { intros s1 s2 <-. unfold vlan_step. cbn [fst snd]. by rewrite (proj2 (Z.ltb_ge _ _)) by lia. }
  change (vlan_step n (RADIUS_ATTR_TUNNEL_TYPE, _) _) with
    (inl (B := vlan_state) {| vs_tunnel := {| tag_used := 1; tun_type := 13; medium_type := 0; vlanid := 0 |}
       :: replicate 31 tunnel_zero; vs_untagged := 0; vs_tagged := [] |}) in Hs.
  cbv iota beta in Hs.
  change (vlan_step n (RADIUS_ATTR_TUNNEL_MEDIUM_TYPE, _) _) with
    (inl (B := vlan_state) {| vs_tunnel := {| tag_used := 2; tun_type := 13; medium_type := 6; vlanid := 0 |}
       :: replicate 31 tunnel_zero; vs_untagged := 0; vs_tagged := [] |}) in Hs.
  cbv iota beta in Hs. rewrite (Hstep _ _ Hgid), pure_loop_free in Hs by done. injection Hs as <-.
  cbn [vs_tunnel vs_untagged vs_tagged].
  assert (forall l, first_vlan ({| tag_used := 3; tun_type := 13; medium_type := 6; vlanid := v |} :: l)
    = Some v) as ->.
  { intros l. cbn [first_vlan vlanid]. by rewrite (proj2 (Z.ltb_lt 0 v)) by lia. }
  cbn [default]. unfold id. rewrite (proj2 (Z.ltb_lt 0 v)) by lia. cbn [orb qsort foldr app].
  change (zlen (@nil Z)) with 0. by rewrite Z.sub_0_r.
Qed.

(** ** The decision on a station *)

Section reply.
Context (secret : list Z) (i : mac_conn_info) (req : radius_msg).
Context (c id l1 l2 : Z) (auth : list Z) (sattrs : list attr).
Hypothesis Hreq : msg_rep req ([c; id; l1; l2] ++ auth) sattrs.
Hypothesis Hlen : zlen (encode sattrs) <= RADIUS_MAX_MSG_LEN.

Let proxies := of_type RADIUS_ATTR_PROXY_STATE sattrs.

Lemma proxies_type a : a ∈ proxies -> a.1 = RADIUS_ATTR_PROXY_STATE.
Proof. intros [? _]%list_elem_of_filter. done. Qed.

Lemma proxies_ma_free : ma_free proxies.
Proof. apply list.Forall_forall. intros a ->%proxies_type. done. Qed.

Lemma proxies_vlan_free : Forall vlan_free proxies.
Proof. apply list.Forall_forall. intros a Ha%proxies_type. unfold vlan_free. by rewrite Ha. Qed.

Lemma proxies_len : zlen (encode proxies) <= 4096.
Proof. pose proof (zlen_encode_filter RADIUS_ATTR_PROXY_STATE sattrs). unfold RADIUS_MAX_MSG_LEN in *. subst proxies. lia. Qed.

Lemma accept_attrs_ok salt : admitted i ->
  Forall attr_ok (accept_attrs salt auth secret i) /\ ma_free (accept_attrs salt auth secret i) /\
  zlen (encode (accept_attrs salt auth secret i)) <= 1024.
Proof.
  intros (Hv & Hb & Hl & Hn). unfold AP_SECRET_LEN, accept_attrs in *.
  set (key := take (Z.to_nat (mi_pass_len i)) (mi_pass i)).
  assert (zlen key <= 64) as Hk by (subst key; zlen_lia).
  pose proof (zlen_nonneg key) as Hk0.
  pose proof (zlen_tunnel_value 0 salt auth secret key) as Htv.
  assert (round16 (1 + zlen key) <= 80) as Hr by (unfold round16; zdiv_lia).
  pose proof (zlen_fmt_u_bound 4 (mi_vlanid i) ltac:(simpl; lia) ltac:(lia)) as Hf.
  assert (bytes (tunnel_value 0 salt auth secret key)) as Hbt.
  { apply Forall_app. split; [by repeat constructor|]. apply Forall_app. split; [apply bytes_be16|].
    apply bytes_encrypt_blocks. constructor; [unfold is_byte; lia|].
    apply Forall_app. split; [by apply Forall_take|apply bytes_zeros]. }
  split; [|split].
  - constructor; [split; [done|split; [by repeat constructor|done]]|].
    constructor; [split; [done|split; [by repeat constructor|done]]|].
    unfold attr_ok, RADIUS_MAX_ATTR_LEN, ATTR_HDR_LEN. cbn [fst snd].
    constructor; [split; [done|split; [apply digits_bytes, fmt_u_digits; lia|]]|].
    { cbn [snd]. unfold zlen. lia. }
    constructor; [split; [done|split; [exact Hbt|cbn [snd]; rewrite Htv; lia]]|constructor].
  - repeat constructor; done.
  - unfold vlan_attrs. cbn [app]. rewrite !encode_cons, !zlen_app.
    rewrite !zlen_encode_attr. cbn [snd]. rewrite Htv. unfold ATTR_HDR_LEN.
    change (zlen (WPA_PUT_BE32 _)) with 4. change (zlen (encode [])) with 0. unfold zlen at 1. lia.
Qed.

(** The end of every reply: finished over the request's authenticator, it is
    accepted by the client that sent the request. *)
Lemma finish_reply code attrs m r : is_byte code ->
  msg_rep m (code :: id :: zeros 18) attrs -> ma_free attrs -> zlen (encode attrs) <= 8192 ->
  exists m' ra mac, radius_msg_finish_srv m secret auth (Env [] r) = Done ((0, m'), Env [] r) /\
    msg_rep m' (hdr4 code id (finished_len attrs) ++ ra) (attrs ++ [(MA, mac)]) /\
    radius_msg_verify m' secret (Some req) true (Env [] r) = Done ((0, m'), Env [] r).
Proof.
  intros Hcode Hrep Hfree Hl.
  apply (finish_srv_rep m code id 0 0 (zeros 16) attrs secret req [c; id; l1; l2] auth sattrs);
    try done. unfold finished_len, HDR_LEN. lia.
Qed.

Definition has_password : Prop := of_type RADIUS_ATTR_USER_PASSWORD sattrs <> [].

Lemma macacl_reply_accept s0 s1 r : admitted i -> has_password ->
  exists reply ra mac n,
    macacl_reply secret i req (Env [] ([s0; s1] :: r)) = Done (Some reply, Env [] r) /\
    msg_rep reply (hdr4 RADIUS_CODE_ACCESS_ACCEPT id n ++ ra)
      (proxies ++ accept_attrs (salt_from s0 s1) auth secret i ++ [(MA, mac)]) /\
    radius_msg_verify reply secret (Some req) true (Env [] r) = Done ((0, reply), Env [] r).
Proof.
  intros Hadm Hpw. pose proof (rep_auth_len req _ auth _ Hreq eq_refl) as Hauth.
  unfold macacl_reply. erewrite bind_run by (by eapply msg_authenticator_rep).
  destruct (accept_attributes_run auth secret i s0 s1 r Hauth Hadm) as (l & Hacc & Hl).
  rewrite (proj2 (Z.leb_le 0 (mi_vlanid i))) by apply Hadm.
  erewrite bind_run by (erewrite bind_run by exact Hacc; done). cbn beta iota.
  destruct (get_attr_ptr_rep req _ sattrs RADIUS_ATTR_USER_PASSWORD (Env [] r) Hreq)
    as (o & Hptr & Ho). erewrite bind_run by exact Hptr.
  destruct o as [p|]; [|by exfalso; apply Hpw, Ho]. cbn beta iota zeta.
  destruct (new_reply_run RADIUS_CODE_ACCESS_ACCEPT req c id ([l1; l2] ++ auth) sattrs r)
    as (m & Hnew & Hm); [done|done|unfold RADIUS_MAX_MSG_LEN in *; lia|].
  erewrite bind_run by exact Hnew. rewrite Z.eqb_refl.
  destruct (accept_attrs_ok (salt_from s0 s1) Hadm) as (Hok & Hfree & Hal).
  pose proof proxies_len. pose proof proxies_ma_free as Hpf.
  destruct (add_attributes_run l _ Hl m _ proxies r Hm Hok) as (m2 & Hadd & Hm2).
  { rewrite zlen_encode_app. lia. }
  erewrite bind_run by exact Hadd.
  destruct (finish_reply RADIUS_CODE_ACCESS_ACCEPT _ m2 r ltac:(done) Hm2)
    as (m3 & ra & mac & Hfin & Hm3 & Hver).
  { apply Forall_app. by split. }
  { rewrite zlen_encode_app. lia. }
  erewrite bind_run by exact Hfin. rewrite <- app_assoc in Hm3. by eexists m3, ra, mac, _.
Qed.

Lemma macacl_reply_reject s0 s1 r : admitted i \/ mi_vlanid i < 0 ->
  mi_vlanid i < 0 \/ ~ has_password ->
  exists reply ra mac n e,
    macacl_reply secret i req (Env [] ([s0; s1] :: r)) = Done (Some reply, e) /\
    msg_rep reply (hdr4 RADIUS_CODE_ACCESS_REJECT id n ++ ra) (proxies ++ [(MA, mac)]) /\
    radius_msg_verify reply secret (Some req) true e = Done ((0, reply), e).
Proof.
  intros Hadm Hrej. pose proof (rep_auth_len req _ auth _ Hreq eq_refl) as Hauth.
  unfold macacl_reply. erewrite bind_run by (by eapply msg_authenticator_rep).
  match goal with |- context [(?x ≫= _) (Env [] _)] => set (choice := x) end.
  assert (exists code l r', choice (Env [] ([s0; s1] :: r)) = Done (Some (code, l), Env [] r') /\
    (mi_vlanid i < 0 -> code = RADIUS_CODE_ACCESS_REJECT)) as (code & l & r' & Hch & Hcode).
  { subst choice. destruct (Z.leb_spec 0 (mi_vlanid i)).
    - destruct Hadm as [Hadm|]; [|lia].
      destruct (accept_attributes_run auth secret i s0 s1 r Hauth Hadm) as (l & Hacc & _).
      eexists _, l, r. split; [by erewrite bind_run by exact Hacc|lia].
    - by eexists _, [], ([s0; s1] :: r). }
  erewrite bind_run by exact Hch. cbn beta iota.
  destruct (get_attr_ptr_rep req _ sattrs RADIUS_ATTR_USER_PASSWORD (Env [] r') Hreq)
    as (o & Hptr & Ho). erewrite bind_run by exact Hptr. cbv zeta.
  assert ((match o with None => RADIUS_CODE_ACCESS_REJECT | Some _ => code end) =
    RADIUS_CODE_ACCESS_REJECT) as ->.
  { destruct o; [|done]. destruct Hrej as [?|Hno]; [by apply Hcode|]. exfalso. apply Hno.
    intros ?. by apply Ho in H. }
  destruct (new_reply_run RADIUS_CODE_ACCESS_REJECT req c id ([l1; l2] ++ auth) sattrs r')
    as (m & Hnew & Hm); [done|done|unfold RADIUS_MAX_MSG_LEN in *; lia|].
  erewrite bind_run by exact Hnew. change (_ =? _) with false. cbv iota. erewrite bind_run by done.
  cbn beta iota.
  destruct (finish_reply RADIUS_CODE_ACCESS_REJECT _ m r' ltac:(done) Hm proxies_ma_free)
    as (m3 & ra & mac & Hfin & Hm3 & Hver); [etrans; [apply proxies_len|done]|].
  erewrite bind_run by exact Hfin. by eexists m3, ra, mac, _, _.
Qed.
End reply.

(** Replies without VLAN or password attributes. *)
Lemma get_vlanid_none m hdr attrs n e : msg_rep m hdr attrs -> Forall vlan_free attrs -> 0 <= n ->
  radius_msg_get_vlanid m n e = Done ((0, 0, replicate (Z.to_nat n) 0), e).
Proof.
  intros Hrep Hfree Hn. destruct (get_vlanid_rep m hdr attrs n e Hrep) as (s & Hs & ->).
  rewrite pure_loop_free in Hs by done. injection Hs as <-.
  change (first_vlan _) with (@None Z). cbn. by rewrite Z.sub_0_r.
Qed.

Lemma get_tunnel_password_none m hdr attrs secret sent e : msg_rep m hdr attrs ->
  Forall (fun a => a.1 <> RADIUS_ATTR_TUNNEL_PASSWORD) attrs ->
  radius_msg_get_tunnel_password m secret sent 0 e = Done ((None, None), e).
Proof.
  intros Hrep Hfree.
  assert (find_tunnel_password m 0 e = Done (None, e)) as Hfind;
    [|unfold radius_msg_get_tunnel_password; by erewrite bind_run by exact Hfind].
  unfold find_tunnel_password.
  match goal with |- context [for_attrs m ?f 0] => set (body := f) end.
  assert (for_attrs m body 0 e = Done (inl 0, e)) as Hrun; [|by erewrite bind_run by exact Hrun].
  rewrite (for_attrs_pure m hdr attrs body (fun _ j => inl j) 0 e Hrep).
  - do 2 f_equal. clear. induction attrs as [|a l IH]; [done|]. exact IH.
  - intros pre t d post j e0 ->. apply Forall_app in Hfree as [_ Hfree].
    apply list.Forall_cons in Hfree as [Hne _]. simpl in Hne. subst body. cbn beta.
    by rewrite (proj2 (Z.eqb_neq _ _)).
Qed.

(** What the access point that sent [req] reads in a reply: the VLAN and the
    password of [i], or a refusal without either. *)
Definition grants (secret : list Z) (i : mac_conn_info) (req reply : radius_msg) (e : env) : Prop :=
  msg_code reply e = Done (RADIUS_CODE_ACCESS_ACCEPT, e) /\
  (1 <= mi_vlanid i -> radius_msg_get_vlanid reply 0 e = Done ((1, mi_vlanid i, []), e)) /\
  (1 <= mi_pass_len i -> radius_msg_get_tunnel_password reply secret req 0 e =
     Done ((Some (take (Z.to_nat (mi_pass_len i)) (mi_pass i)), Some (mi_pass_len i)), e)).
Definition refuses (secret : list Z) (req reply : radius_msg) (e : env) : Prop :=
  msg_code reply e = Done (RADIUS_CODE_ACCESS_REJECT, e) /\
  radius_msg_get_vlanid reply 0 e = Done ((0, 0, []), e) /\
  radius_msg_get_tunnel_password reply secret req 0 e = Done ((None, None), e).

Lemma macacl_reply_spec secret i req c id l1 l2 auth sattrs s0 s1 r :
  msg_rep req ([c; id; l1; l2] ++ auth) sattrs -> zlen (encode sattrs) <= RADIUS_MAX_MSG_LEN ->
  admitted i \/ mi_vlanid i < 0 ->
  exists reply e, macacl_reply secret i req (Env [] ([s0; s1] :: r)) = Done (Some reply, e) /\
    radius_msg_verify reply secret (Some req) true e = Done ((0, reply), e) /\
    if decide (0 <= mi_vlanid i /\ has_password sattrs) then grants secret i req reply e
    else refuses secret req reply e.
Proof.
  intros Hreq Hlen Hi. case_decide as Hd.
  - destruct Hd as [Hv Hpw]. destruct Hi as [Hadm|]; [|lia].
    destruct (macacl_reply_accept secret i req c id l1 l2 auth sattrs Hreq Hlen s0 s1 r Hadm Hpw)
      as (reply & ra & mac & n & Hrun & Hrep & Hver).
    exists reply, (Env [] r). split; [done|]. split; [done|].
    split; [by apply (msg_identifier_rep _ _ _ _ _ _ Hrep)|].
    destruct Hadm as (Hv' & Hb & Hl & Hn). unfold accept_attrs in Hrep. split; intros H1.
    + rewrite <- app_assoc in Hrep. eapply (get_vlanid_vlan_attrs _ _ _ _ _ 0); [exact Hrep|..];
        [by apply proxies_vlan_free| |lia|done].
      repeat constructor; done.
    + rewrite <- app_assoc, (app_assoc _ (vlan_attrs _)) in Hrep. unfold AP_SECRET_LEN in *.
      set (key := take _ (mi_pass i)) in *.
      assert (zlen key = mi_pass_len i) as Hk by (subst key; zlen_lia).
      rewrite <- Hk. eapply get_tunnel_password_rep; [exact Hrep|..]; [|exact Hreq|done|lia|done].
      apply Forall_app. split; [|repeat constructor; done].
      apply list.Forall_forall. intros a ->%proxies_type. done.
  - assert (mi_vlanid i < 0 \/ ~ has_password sattrs) as Hrej.
    { destruct (Z.lt_ge_cases (mi_vlanid i) 0); [by left|]. right. tauto. }
    destruct (macacl_reply_reject secret i req c id l1 l2 auth sattrs Hreq Hlen s0 s1 r Hi Hrej)
      as (reply & ra & mac & n & e & Hrun & Hrep & Hver).
    exists reply, e. split; [done|]. split; [done|].
    split; [by apply (msg_identifier_rep _ _ _ _ _ _ Hrep)|]. split.
    + eapply get_vlanid_none; [exact Hrep| |done]. apply Forall_app.
      split; [apply proxies_vlan_free|repeat constructor; done].
    + eapply get_tunnel_password_none; [exact Hrep|]. apply Forall_app.
      split; [|repeat constructor; done]. apply list.Forall_forall. intros a ->%proxies_type. done.
Qed.

(** C2.  The server's decision as the access point reads it.  For every parsed
    request and every answer of the supervisor (a VLAN of at most four digits
    with a password in its array, or a refusal), when memory lasts, the reply
    passes both checks of [radius_msg_verify] against the request.  It is an
    Access-Accept exactly when the supervisor gave a VLAN and the request
    carries a User-Password: the access point then reads the VLAN number from
    it and decrypts the station's password.  Otherwise it is an Access-Reject
    that grants no VLAN and reveals no password. *)
Theorem macacl_reply_correct secret i req c id l1 l2 auth sattrs s0 s1 r :
  msg_rep req ([c; id; l1; l2] ++ auth) sattrs -> zlen (encode sattrs) <= RADIUS_MAX_MSG_LEN ->
  admitted i \/ mi_vlanid i < 0 ->
  exists reply e, macacl_reply secret i req (Env [] ([s0; s1] :: r)) = Done (Some reply, e) /\
    radius_msg_verify reply secret (Some req) true e = Done ((0, reply), e) /\
    if decide (0 <= mi_vlanid i /\ has_password sattrs) then grants secret i req reply e
    else refuses secret req reply e.
Proof. apply macacl_reply_spec. Qed.

Definition sample_admitted : mac_conn_info :=
  {| mi_status := AP_CONNECTED_STATUS; mi_vlanid := 7; mi_nat := false;
     mi_allow_connection := true; mi_pass := cstr "12345678" ++ zeros 56; mi_pass_len := 8;
     mi_ip_addr := []; mi_ip_sec_addr := []; mi_ifname := []; mi_label := []; mi_id := [];
     mi_join_timestamp := 0 |}.

Lemma macacl_reply_correct_witness :
  exists req reply e,
    radius_msg_add_attr sample_msg RADIUS_ATTR_USER_PASSWORD (Some (zeros 16)) 16 (Env [] []) =
      Done ((Some 20, req), Env [] []) /\
    macacl_reply (cstr "radius") sample_admitted req (Env [] [[1; 2]]) = Done (Some reply, e) /\
    msg_code reply e = Done (RADIUS_CODE_ACCESS_ACCEPT, e) /\
    radius_msg_get_vlanid reply 0 e = Done ((1, 7, []), e) /\
    radius_msg_get_tunnel_password reply (cstr "radius") req 0 e =
      Done ((Some (cstr "12345678"), Some 8), e).
Proof.
  destruct (add_attr_rep sample_msg ([1; 7; 0; 20] ++ zeros 16) [] RADIUS_ATTR_USER_PASSWORD
    (zeros 16) (zeros 16) (Env [] []) sample_rep sample_small) as (req & Hadd & Hreq).
  - split; [done|]. split; [apply bytes_zeros|done].
  - apply rd_all.
  - reflexivity.
  - exists req.
    destruct (macacl_reply_correct (cstr "radius") sample_admitted req 1 7 0 20 (zeros 16)
      [(RADIUS_ATTR_USER_PASSWORD, zeros 16)] 1 2 []) as (reply & e & Hrun & _ & Hres).
    + exact Hreq.
    + vm_compute. congruence.
    + left. split; [done|]. split; [by repeat constructor|]. split; done.
    + exists reply, e. split; [exact Hadd|]. split; [exact Hrun|].
      rewrite decide_True in Hres by (split; [done|by vm_compute]).
      destruct Hres as (Hcode & Hvlan & Hpass). split; [exact Hcode|].
      split; [apply Hvlan; done|apply Hpass; done].
Defined.

(** ** Who can make the server act *)

Section receive.
Context {W : Type} {E : Eloop timer}.
#[local] Abbreviation wld := (world W E).

(** Nothing was sent, the supervisor was not asked, no session was touched. *)
Definition untouched (w w' : wld) : Prop :=
  w_sent w' = w_sent w /\ w_conn w' = w_conn w /\
  sessions <$> clients (w_srv w') = sessions <$> clients (w_srv w).

Lemma in_env_inv {A} (m : M A) (w w' : wld) a : in_env m w = Done (a, w') ->
  exists e, m (w_env w) = Done (a, e) /\ w' = with_env e w.
Proof. unfold in_env. destruct (m (w_env w)) as [[x e]|]; [|done]. intros [= <- <-]. by exists e. Qed.

Lemma untouched_count k c (w w' : wld) u : count k c w = Done (u, w') -> untouched w w'.
Proof.
  intros [= _ <-]. split; [done|]. split; [done|]. cbn.
  apply list_eq. intros j. rewrite !list_lookup_fmap, list_lookup_alter. case_decide; [subst j|done].
  by destruct (clients (w_srv w) !! c).
Qed.

Lemma untouched_count_srv k (w w' : wld) u : count_srv k w = Done (u, w') -> untouched w w'.
Proof. by intros [= _ <-]. Qed.

Lemma get_client_secret (d : radius_server_data W) addr c : radius_server_get_client d addr = Some c ->
  exists cl, clients d !! c = Some cl /\ Z.land (cl_addr cl) (cl_mask cl) = Z.land addr (cl_mask cl).
Proof.
  unfold radius_server_get_client.
  assert (forall cs i, get_client_loop (W := W) cs addr i = Some c -> (i <= c)%nat /\
    exists cl, cs !! (c - i)%nat = Some cl /\ Z.land (cl_addr cl) (cl_mask cl) = Z.land addr (cl_mask cl))
    as Hloop.
  { induction cs as [|cl cs IH]; intros i; simpl; [done|].
    destruct (Z.eqb_spec (Z.land (cl_addr cl) (cl_mask cl)) (Z.land addr (cl_mask cl))).
    - intros [= ->]. split; [done|]. exists cl. by rewrite Nat.sub_diag.
    - intros [Hle (cl' & Hcl' & ?)]%IH. split; [lia|]. exists cl'. split; [|done].
      by replace (c - i)%nat with (S (c - S i)) by lia. }
  intros [_ (cl & Hcl & ?)]%Hloop. rewrite Nat.sub_0_r in Hcl. by exists cl.
Qed.

(** The packet is an Access-Request with one Message-Authenticator, the right
    HMAC-MD5 under [secret]. *)
Definition authentic (secret data : list Z) : Prop :=
  exists id l1 l2 auth pre d post,
    packet data ([RADIUS_CODE_ACCESS_REQUEST; id; l1; l2] ++ auth) (pre ++ (MA, d) :: post) /\
    d = rfc2104.hmac secret (([RADIUS_CODE_ACCESS_REQUEST; id; l1; l2] ++ auth) ++
                             encode (pre ++ (MA, zeros 16) :: post)).

Lemma receive_rejects from port data (w w' : wld) u :
  zlen data <= RADIUS_MAX_MSG_LEN ->
  radius_server_receive_auth (Some (from, port, data)) w = Done (u, w') ->
  untouched w w' \/
  exists c cl msg m2 e1 e2 e3, radius_server_get_client (w_srv w) from = Some c /\
    clients (w_srv w) !! c = Some cl /\
    radius_msg_parse (Some data) (zlen data) e1 = Done (Some msg, e2) /\
    msg_code msg e2 = Done (RADIUS_CODE_ACCESS_REQUEST, e2) /\
    radius_msg_verify_msg_auth msg (shared_secret cl) None e2 = Done ((0, m2), e3).
Proof.
  intros Hlen (ok & w1 & (e1 & _ & ->)%in_env_inv & Hrest)%bind_done.
  destruct ok; cbn [negb] in Hrest; [|rewrite ret_run in Hrest; left; by injection Hrest as _ <-].
  rewrite take_ge in Hrest by (unfold RADIUS_MAX_MSG_LEN in *; zlen_lia).
  apply bind_done in Hrest as (oc & w2 & [= <- <-] & Hrest).
  cbn [w_srv with_env] in Hrest. destruct (radius_server_get_client (w_srv w) from) as [c|] eqn:Hc;
    [|left; eapply (untouched_count_srv _ (with_env e1 w)); exact Hrest].
  apply bind_done in Hrest as (om & w3 & (e2 & Hparse & ->)%in_env_inv & Hrest).
  destruct om as [msg|]; [|left; eapply (untouched_count _ _ (with_env e2 (with_env e1 w))); exact Hrest].
  apply bind_done in Hrest as (code & w4 & (e3 & Hcode & ->)%in_env_inv & Hrest).
  assert (e3 = e2) as ->.
  { unfold msg_code, lift_outcome in Hcode. cbn [w_env with_env] in Hcode.
    destruct (rd1 _ _); [|done]. by injection Hcode as _ <-. }
  destruct (Z.eqb_spec code RADIUS_CODE_ACCESS_REQUEST) as [Hreq|]; cbn [negb] in Hrest;
    [|left; eapply (untouched_count _ _ (with_env e2 (with_env e2 (with_env e1 w)))); exact Hrest].
  rewrite Hreq in Hcode. apply bind_done in Hrest as (u5 & w5 & Hcount & Hrest). pose proof Hcount as Hunt.
  apply untouched_count in Hunt. destruct (get_client_secret _ _ _ Hc) as (cl & Hcl & _).
  apply bind_done in Hrest as (cl' & w6 & Hthe & Hrest).
  assert (shared_secret cl' = shared_secret cl /\ w6 = w5 /\ w_env w5 = e2) as (Hsec & -> & He5).
  { injection Hcount as _ <-. unfold the_client in Hthe. cbn in Hthe, Hcl.
    rewrite list_lookup_alter_eq, Hcl in Hthe. injection Hthe as <- <-. done. }
  apply bind_done in Hrest as (v & w7 & (e7 & Hver & ->)%in_env_inv & Hrest).
  rewrite Hsec, He5 in Hver.
  destruct v as [r m2]. cbn [fst snd] in Hrest.
  destruct (Z.eqb_spec r 0) as [Hr|]; cbn [negb] in Hrest.
  - right. rewrite Hr in Hver. exists c, cl, msg, m2, e1, e2, e7. done.
  - left. apply untouched_count in Hrest. destruct Hunt as (A1 & A2 & A3), Hrest as (B1 & B2 & B3).
    cbn in *. split; [congruence|]. split; congruence.
Qed.

End receive.

(** An Access-Request without attributes, so without authentication. *)
Definition sample_plain : list Z := [1; 7; 0; 20] ++ zeros 16.


(** ** Retransmissions *)

Section duplicate.
Context {W : Type} {E : Eloop timer}.
#[local] Abbreviation wld := (world W E).

Lemma state_lookup m hdr attrs e s : msg_rep m hdr attrs ->
  first_attr RADIUS_ATTR_STATE attrs = Some (WPA_PUT_BE32 s) -> 0 <= s < 2 ^ 32 ->
  exists b, radius_msg_get_attr m RADIUS_ATTR_STATE (Some (zeros 4)) 4 e = Done ((4, Some b), e) /\
    WPA_GET_BE32 b = s.
Proof.
  intros Hrep Hst Hs. eexists. split.
  - rewrite (get_attr_rep m hdr attrs RADIUS_ATTR_STATE (zeros 4) 4 e _ Hrep Hst) by done. done.
  - pose proof (wpa_be32_roundtrip s [] Hs) as Hr. rewrite app_nil_r in Hr. exact Hr.
Qed.

End duplicate.

Definition sample_session : radius_session :=
  {| sess_id := 5; username := Some (cstr "user"); nas_ip := Some (cstr "10.0.0.1");
     sess_mac := zeros 6; last_from_port := 1812; last_identifier := 7;
     last_reply := Some sample_msg; last_authenticator := zeros 16; macacl := true |}.

Definition sample_busy : world unit (list_eloop timer) :=
  with_srv (set_clients (fun _ => [set_sessions (fun _ => [(1%nat, sample_session)]) sample_client]))
    sample_world.


(** ** User names *)

(** Reads back what [printf_encode] writes. *)
Fixpoint printf_decode (l : list Z) : list Z :=
  match l with
  | 92 :: 120 :: h :: m :: rest => 16 * hex2num h + hex2num m :: printf_decode rest
  | 92 :: 34 :: rest => 34 :: printf_decode rest
  | 92 :: 92 :: rest => 92 :: printf_decode rest
  | 92 :: 101 :: rest => 27 :: printf_decode rest
  | 92 :: 110 :: rest => 10 :: printf_decode rest
  | 92 :: 114 :: rest => 13 :: printf_decode rest
  | 92 :: 116 :: rest => 9 :: printf_decode rest
  | c :: rest => c :: printf_decode rest
  | [] => []
  end.

Lemma encode_char_spec b rest : is_byte b ->
  1 <= zlen (encode_char b) <= 4 /\ Forall (fun c => 32 <= c <= 126) (encode_char b) /\
  printf_decode (encode_char b ++ rest) = b :: printf_decode rest.
Proof.
  intros Hb. unfold is_byte in Hb.
  assert (b = Z.of_nat (Z.to_nat b) /\ (Z.to_nat b < 256)%nat) as [-> Hn] by lia.
  generalize dependent (Z.to_nat b). clear b Hb. intros n Hn.
  do 256 (destruct n as [|n]; [split; [by vm_compute|split; [|reflexivity]];
    repeat constructor; by vm_compute|]). lia.
Qed.

Lemma printf_encode_loop_spec data : forall maxlen n, bytes data -> 0 <= n ->
  n + 4 * zlen data < maxlen ->
  let out := printf_encode_loop maxlen data n in
  n + zlen out < maxlen /\ Forall (fun c => 32 <= c <= 126) out /\ printf_decode out = data.
Proof.
  induction data as [|b data IH]; intros maxlen n Hb Hn Hlen; cbn [printf_encode_loop].
  { rewrite zlen_nil in *. split; [lia|]. by split; [constructor|]. }
  apply list.Forall_cons in Hb as [Hb Hbs]. rewrite zlen_cons in Hlen. pose proof (zlen_nonneg data).
  rewrite (proj2 (Z.leb_gt _ _)) by lia.
  destruct (encode_char_spec b [] Hb) as (Hl & Hp & _).
  destruct (IH maxlen (n + zlen (encode_char b)) Hbs) as (H1 & H2 & H3); [lia|lia|].
  rewrite zlen_app. split; [lia|]. split; [by apply Forall_app|].
  destruct (encode_char_spec b (printf_encode_loop maxlen data (n + zlen (encode_char b))) Hb)
    as (_ & _ & ->). by rewrite H3.
Qed.

(**  The user name kept with a session is a faithful printable text: for a
    name of [n] bytes, in the array of [4 n + 1] bytes allocated for it,
    [printf_encode] never runs out of room, its output with its NUL fits, every
    character is printable ASCII, and the name can be read back from it, so
    that different names never look the same. *)
Theorem printf_encode_correct data :
  bytes data ->
  let out := printf_encode (zlen data * 4 + 1) data in
  zlen out + 1 <= zlen data * 4 + 1 /\ Forall (fun c => 32 <= c <= 126) out /\
  printf_decode out = data.
Proof.
  intros Hb. destruct (printf_encode_loop_spec data (zlen data * 4 + 1) 0 Hb) as (H1 & H2 & H3);
    [lia|lia|]. unfold printf_encode. split; [lia|done].
Qed.

Lemma printf_encode_correct_witness :
  printf_encode 9 [97; 34] = [97; 92; 34] /\ printf_decode (printf_encode 9 [97; 34]) = [97; 34].
Proof.
  split; [reflexivity|]. apply (printf_encode_correct [97; 34]). by repeat constructor.
Defined.
