(* ===== verification/Access.v ===== *)
(** Who gets onto the network.

    The supervisor as a labelled transition system: the event loop hands it a
    datagram of a control socket, a station that asks to join, a notification of
    the access point or the timeout of the ticket.  The invariant of
    [SupervisorInv] holds in every state that can be reached, and a device that
    was denied is turned away until a command accepts it again; the last part
    composes this with the RADIUS server, whose callback [get_mac_conn_cmd] is. *)
From stdpp Require Import strings numbers base list gmap.
From Stdlib Require Import ZArith Lia.
From S2P Require Import Prelude Os Text Net Extern Mappers BridgeList Firewall Supervisor CmdProcessor SupervisorInv.

(** ** Words of a datagram *)

Lemma until_nul_Forall (P : Z -> Prop) l : Forall P l -> Forall P (until_nul l).
Proof.
  induction 1 as [|c l Hc _ IH]; cbn [until_nul]; [constructor|].
  destruct (c =? 0); [constructor|]. by constructor.
Qed.

Lemma rtrim_Forall (P : Z -> Prop) s seps t : Forall P s -> rtrim (Some s) seps = Some t -> Forall P t.
Proof.
  intros Hs [= <-]. apply Forall_reverse. apply Forall_reverse in Hs.
  generalize dependent (reverse s). intros l. induction 1 as [|c l Hc Hl IH]; cbn [rtrim_loop];
    [constructor|]. case_bool_decide; [done|]. by constructor.
Qed.

Lemma domain_buffer_bytes buf sep e words e' : bytes buf ->
  process_domain_buffer (Some buf) sep e = Done (Some words, e') -> all_bytes words.
Proof.
  intros Hb. unfold process_domain_buffer. destruct (_ =? _); [done|]. intros H. prog_inv.
  case_match; prog_inv; [done|]. unfold split_string_array in *.
  destruct (rtrim (Some (until_nul buf)) None) as [t|] eqn:Ht; [|done]. prog_inv.
  case_match; prog_inv; [done|]. cbn [fst snd] in *. simplify_eq.
  eapply split_loop_Forall; [..|eassumption]; [|constructor..].
  eapply rtrim_Forall; [|exact Ht]. by apply until_nul_Forall.
Qed.

Section access.
Context {MU : Uthash (list Z) mac_conn_info} {VU : Uthash Z vlan_conn}.
Context {BL : DlList bridge_mac_tuple} {EL : Eloop sup_timer}.
Context {FW : Firewall} {SV : Services}.

#[local] Abbreviation state := (sup (MU := MU) (VU := VU) (BL := BL)).
#[local] Abbreviation mac_map c := (hash_map (mac_mapper c)).

(** ** Events *)

(** What the event loop delivers.  [available] and [recv] are what the system
    calls on the socket answer. *)
Inductive event :=
| datagram (sock : Z) (available : option Z) (recv : option (list Z * client_address))
| station (mac : list Z)
| ap_status (mac : list Z) (status : ap_connection_status)
| ticket_timeout.

Definition with_timers (el : @eloop _ _ EL) (s : state) : state :=
  {| s_ctx := s_ctx s; s_fw := s_fw s; s_eloop := el; s_env := s_env s; s_calls := s_calls s |}.

(** A timer that fires is no longer pending when its handler runs. *)
Inductive step : state -> event -> state -> Prop :=
| step_datagram sock available recv s r s' :
    match recv with Some (data, _) => bytes data | None => True end ->
    process_received_data sock available recv s = Done (r, s') ->
    step s (datagram sock available recv) s'
| step_station mac s i s' : get_mac_conn_cmd mac s = Done (i, s') -> step s (station mac) s'
| step_ap mac st s u s' : ap_service_callback mac st s = Done (u, s') ->
    step s (ap_status mac st) s'
| step_timeout secs el s u s' :
    timeouts (s_eloop s) ≡ₚ (secs, eloop_ticket_timeout_handler_cb) :: timeouts el ->
    eloop_ticket_timeout_handler (with_timers el s) = Done (u, s') ->
    step s ticket_timeout s'.

Inductive run : state -> list event -> state -> Prop :=
| run_nil s : run s [] s
| run_cons s ev s1 evs s2 : step s ev s1 -> run s1 evs s2 -> run s (ev :: evs) s2.

(** The event is a datagram whose words may be an [ACCEPT_MAC] of the device. *)
Definition accepted_by (mac : list Z) (ev : event) : Prop :=
  match ev with
  | datagram _ (Some n) (Some (data, _)) =>
      exists e words e', process_domain_buffer (Some (take (Z.to_nat n) data)) CMD_DELIMITER e =
        Done (Some words, e') /\ accepts mac words
  | _ => False
  end.

(** ** The invariant *)

Lemma keeps_received D sock available recv :
  match recv with Some (data, _) => bytes data | None => True end ->
  (forall m, D m -> ~ accepted_by m (datagram sock available recv)) ->
  keeps (sup_inv D) (process_received_data sock available recv).
Proof.
  intros Hb Hacc. unfold process_received_data. destruct available as [n|]; [|by apply keeps_ret].
  apply keeps_bind; [apply keeps_env|]. intros ok. destruct ok; cbn [negb]; [|by apply keeps_ret].
  destruct recv as [[data addr]|]; [|by apply keeps_ret].
  eapply keeps_yields with (Q := fun o => forall words, o = Some words ->
    all_bytes words /\ forall m, D m -> ~ accepts m words).
  { apply yields_env. intros e o e' He words ->. split.
    - eapply domain_buffer_bytes; [|exact He]. by apply Forall_take.
    - intros m Hd Ha. apply (Hacc m Hd). by exists e, words, e'. }
  intros [[|cmd args]|] Hw; [by intros s a s' _ ?| |by apply keeps_ret].
  destruct (Hw _ eq_refl) as [Hwb Hna]. apply list.Forall_cons in Hwb as [_ Hwb].
  destruct (get_command_function cmd) as [cfn|] eqn:Hc; [|by apply keeps_ret].
  apply keeps_bind; [by eapply keeps_command|]. intros r. by apply keeps_ret.
Qed.

Lemma timeout_inv D secs el s u s' : sup_inv D s ->
  timeouts (s_eloop s) ≡ₚ (secs, eloop_ticket_timeout_handler_cb) :: timeouts el ->
  eloop_ticket_timeout_handler (with_timers el s) = Done (u, s') -> sup_inv D s'.
Proof.
  intros Hs Hp. unfold eloop_ticket_timeout_handler, free_ticket, ask.
  erewrite bind_run by done. cbn beta. cbn [s_ctx with_timers].
  destruct Hs. destruct (ticket (s_ctx s)) eqn:Ht; [| |done].
  - intros [= _ <-]. split; try done. cbn. by rewrite Ht.
  - intros [= _ <-]. by split.
Qed.

Lemma step_inv D s ev s' : sup_inv D s -> step s ev s' ->
  (forall m, D m -> ~ accepted_by m ev) -> sup_inv D s'.
Proof.
  intros Hs Hstep Hacc. inversion Hstep; subst.
  - by eapply keeps_received.
  - by eapply yields_get_mac_conn.
  - by eapply keeps_ap_callback.
  - by eapply timeout_inv.
Qed.

Lemma run_inv D s evs s' : sup_inv D s -> run s evs s' ->
  Forall (fun ev => forall m, D m -> ~ accepted_by m ev) evs -> sup_inv D s'.
Proof.
  intros Hs Hrun. induction Hrun as [|s ev s1 evs s2 Hstep _ IH]; [done|].
  intros [Hev Hevs]%list.Forall_cons. apply IH; [|done]. by eapply step_inv.
Qed.
(** ** Saving a record *)

(** The record as it is stored: a device without an identity gets one. *)
Definition identified (id : list Z) (i : mac_conn_info) : mac_conn_info :=
  if bool_decide (mi_id i = []) then with_ident (mi_label i) id (mi_join_timestamp i) i else i.

Lemma identified_access id i :
  mi_vlanid (identified id i) = mi_vlanid i /\
  mi_allow_connection (identified id i) = mi_allow_connection i /\
  mi_pass (identified id i) = mi_pass i /\ mi_pass_len (identified id i) = mi_pass_len i.
Proof. unfold identified. by case_bool_decide. Qed.

(** Only the allocator and the calls have moved. *)
Definition quiet (s s' : state) : Prop :=
  s_ctx s' = s_ctx s /\ s_fw s' = s_fw s /\ s_eloop s' = s_eloop s.

(** The table is the map [m], and nothing else of the state has moved. *)
Definition stored (s s' : state) (m : gmap (list Z) mac_conn_info) : Prop :=
  exists h, s_ctx s' = set_mac_mapper h (s_ctx s) /\ hash_wf h /\ hash_map h = m /\
    s_fw s' = s_fw s /\ s_eloop s' = s_eloop s.

Lemma stored_quiet s0 s s1 s' m : quiet s0 s -> stored s s1 m -> quiet s1 s' -> stored s0 s' m.
Proof.
  intros (A1 & A2 & A3) (h & H1 & H2 & H3 & H4 & H5) (E1 & E2 & E3). exists h.
  rewrite E1, E2, E3, <- A1, <- A2, <- A3. done.
Qed.

Definition status01 (r : Z) : Prop := r = 0 \/ r = -1.

Lemma sign_status r : status01 (if r <? 0 then -1 else 0).
Proof. destruct (r <? 0); [by right|by left]. Qed.

(** No call to a service fails. *)
Definition reliable : Prop := forall h c, answer h c = 0.

(** The secret store and the database after the table. *)
Lemma save_tail conn s : secret_ok (mi_pass (mac_info conn)) (mi_pass_len (mac_info conn)) ->
  exists r s', (oc ← (if WITH_CRYPTO_SERVICE then
            r ← save_to_crypt (mac_info conn);
            mret (if r <? 0 then None
                  else Some {| mac_addr := mac_addr conn;
                               mac_info := with_pass (zeros (Z.to_nat AP_SECRET_LEN)) 0
                                             (mac_info conn) |})
          else mret (Some conn));
    match oc with
    | None => mret (-1)
    | Some conn' =>
        r ← do_call (save_sqlite_macconn_entry conn');
        mret (if r <? 0 then -1 else 0)
    end) s = Done (r, s') /\ status01 r /\ quiet s s' /\ (reliable -> r = 0).
Proof.
  intros (_ & Hl & Hn). destruct WITH_CRYPTO_SERVICE.
  - destruct (rd (mi_pass (mac_info conn)) 0 (mi_pass_len (mac_info conn))) as [v|] eqn:Hr;
      [|by rewrite (proj2 (rd_done _ _ _ _)) in Hr by (repeat split; lia)].
    unfold save_to_crypt. rewrite Hr.
    erewrite bind_run by (erewrite bind_run by (erewrite bind_run by done; done); done).
    cbn beta. match goal with |- context [match (if ?b then _ else _) with _ => _ end] => destruct b eqn:Hb end.
    + eexists _, _. split; [done|]. split; [by right|]. split; [done|].
      intros Hrel. by rewrite Hrel in Hb.
    + erewrite bind_run by done. eexists _, _. split; [done|]. split; [apply sign_status|].
      split; [done|]. intros Hrel. by rewrite Hrel.
  - erewrite bind_run by done. cbn beta iota. erewrite bind_run by done.
    eexists _, _. split; [done|]. split; [apply sign_status|]. split; [done|].
    intros Hrel. by rewrite Hrel.
Qed.

Lemma save_run mac i s : hash_wf (mac_mapper (s_ctx s)) ->
  secret_ok (mi_pass i) (mi_pass_len i) ->
  exists r s', save_mac_mapper {| mac_addr := mac; mac_info := i |} s = Done (r, s') /\
    status01 r /\
    ((r = -1 /\ stored s s' (mac_map (s_ctx s))) \/
     stored s s' (<[mac := identified (answer_uuid (s_calls s)) i]> (mac_map (s_ctx s)))) /\
    (mallocs (s_env s) = [] -> reliable -> r = 0).
Proof.
  intros Hwf Hp. unfold save_mac_mapper.
  set (i' := identified (answer_uuid (s_calls s)) i).
  match goal with |- context [(?m ≫= _) s] => assert (exists s0,
    m s = Done ({| mac_addr := mac; mac_info := i' |}, s0) /\ quiet s s0 /\
      s_env s0 = s_env s) as (s0 & Hid & Hq & He0) end.
  { subst i'. unfold identified. cbn [mac_info]. case_bool_decide; (eexists; split; [reflexivity|done]). }
  erewrite bind_run by exact Hid. cbn beta. unfold ask. erewrite bind_run by done. cbn beta.
  destruct (put_mac_mapper_spec (mac_mapper (s_ctx s0)) {| mac_addr := mac; mac_info := i' |} (s_env s0))
    as (b & h & e & Hrun & [_ He] & Hw & Hm); [by destruct Hq as [-> _]|].
  erewrite bind_run by (unfold env_do; rewrite Hrun; done). cbn beta.
  erewrite bind_run by done. cbn [fst snd default]. unfold id.
  match goal with |- context [(if negb b then _ else _) ?x] => set (s1 := x) end.
  assert (stored s0 s1 (hash_map h)) as Hst by (by exists h).
  replace (s_ctx s0) with (s_ctx s) in Hm by (by destruct Hq as [-> _]). rewrite Hm in Hst.
  destruct b; cbn [negb].
  - destruct (save_tail {| mac_addr := mac; mac_info := i' |} s1) as (r & s' & Htail & Hr & Hq' & Hrel).
    { subst i'. cbn [mac_info]. by destruct (identified_access (answer_uuid (s_calls s)) i) as (_ & _ & -> & ->). }
    eexists r, s'. split; [exact Htail|]. split; [done|]. split; [|by intros _].
    right. by eapply stored_quiet.
  - eexists _, _. split; [done|]. split; [by right|].
    split; [left; split; [done|by eapply stored_quiet]|]. intros Hmem. rewrite He0 in He.
    by destruct (He Hmem).
Qed.

(** What the table says of a device, or the default. *)
Definition found (mac : list Z) (d : mac_conn_info) (s : state) : Z * mac_conn_info :=
  match mac_map (s_ctx s) !! mac with Some i => (1, i) | None => (0, d) end.

Lemma get_mac_run mac d s : get_mac mac d s = Done (found mac d s, s).
Proof.
  unfold get_mac, ask, found. erewrite bind_run by done. cbn beta.
  rewrite get_mac_mapper_lookup. by destruct (mac_map (s_ctx s) !! mac).
Qed.

Definition default_of (s : state) : mac_conn_info :=
  init_default_mac_info (default_open_vlanid (s_ctx s)) (allow_all_nat (s_ctx s)).

Lemma found_ok mac d s D : sup_inv D s -> info_ok d -> info_ok (found mac d s).2.
Proof.
  intros Hs Hd. unfold found. destruct (mac_map (s_ctx s) !! mac) eqn:Hl; [|done].
  by eapply (ci_infos _ _ _ Hs).
Qed.

(** ** Denied devices *)

Definition denied (mac : list Z) (s : state) : Prop :=
  exists i, mac_map (s_ctx s) !! mac = Some i /\ mi_allow_connection i = false.

Lemma denied_inv mac s : sup_inv (fun _ => False) s -> denied mac s -> sup_inv (eq mac) s.
Proof. intros [] Hd. split; try done. by intros m <-. Qed.

Lemma deny_run mac s D : sup_inv D s ->
  exists r s', deny_mac_cmd mac s = Done (r, s') /\ status01 r /\ (r = 0 -> denied mac s').
Proof.
  intros Hs. unfold deny_mac_cmd.
  erewrite bind_run with (a := default_of s) by done. cbn beta zeta.
  erewrite bind_run by apply get_mac_run.
  pose proof (found_ok mac (default_of s) s D Hs (default_ok _ _)) as Hi. cbn beta.
  set (i := (found mac (default_of s) s).2) in *.
  destruct (save_run mac (with_allow false i) s (ci_macs _ _ _ Hs) (io_pass _ Hi))
    as (r & s' & Hrun & Hr & Hst & _).
  erewrite bind_run by exact Hrun. destruct (Z.ltb_spec r 0).
  { eexists _, _. split; [done|]. split; [by right|done]. }
  destruct Hst as [[-> _]|(h & Hc & _ & Hm & _)]; [done|].
  erewrite bind_run by done. destruct (_ <? 0); eexists _, _; (split; [done|]); [by split; [right|]|].
  split; [by left|]. intros _. exists (identified (answer_uuid (s_calls s)) (with_allow false i)).
  cbn. rewrite Hc. cbn. rewrite Hm, lookup_insert_eq. split; [done|].
  by destruct (identified_access (answer_uuid (s_calls s)) (with_allow false i)) as (_ & -> & _).
Qed.

(** ** Asking to join *)

Lemma sdbm_nonneg msg : 0 <= sdbm_hash msg.
Proof.
  unfold sdbm_hash. assert (forall h, 0 <= h -> 0 <= foldl (fun hash b =>
    u32 (b + u32 (Z.shiftl hash 6) + u32 (Z.shiftl hash 16) - hash)) h msg) as H; [|by apply H].
  induction msg as [|b msg IH]; intros h Hh; [done|]. apply IH. by apply Z.mod_pos_bound.
Qed.

(** The hash picks one of the configured VLANs. *)
Lemma allocate_run mac s : exists v s', allocate_vlan mac VLAN_ALLOCATE_HASH 0 s = Done (v, s') /\
  quiet s s' /\ s_calls s' = s_calls s.
Proof.
  unfold allocate_vlan, ask. do 2 (erewrite bind_run by done; cbn beta).
  destruct (Z.leb_spec (zlen (config_ifinfo_array (s_ctx s))) 1) as [|Hl]; [by eexists _, _|].
  destruct (malloc_ok (s_env s)) as (ok & e & Hm & _).
  erewrite bind_run by (unfold env_do; rewrite Hm; done). cbn beta.
  destruct ok; cbn [negb]; [|by eexists _, _].
  set (arr := config_ifinfo_array (s_ctx s)) in *.
  pose proof (Z.mod_pos_bound (sdbm_hash mac) (zlen arr) ltac:(lia)) as Hb.
  rewrite (proj2 (Z.ltb_ge _ 0)) by lia.
  destruct (lookup_lt_is_Some_2 (ci_vlanid <$> arr) (Z.to_nat (sdbm_hash mac mod zlen arr))) as [v Hv].
  { rewrite length_fmap. unfold zlen in *. lia. }
  rewrite Hv. by eexists _, _.
Qed.

Lemma denied_rejected mac s : denied mac s ->
  exists i s', get_mac_conn_cmd mac s = Done (i, s') /\ mi_vlanid i = -1 /\ quiet s s' /\
    s_calls s' = s_calls s.
Proof.
  intros (i & Hl & Ha). unfold get_mac_conn_cmd, ask. do 2 (erewrite bind_run by done; cbn beta).
  match goal with |- context [(?m ≫= _) s] => assert (exists v s0,
    m s = Done (v, s0) /\ quiet s s0 /\ s_calls s0 = s_calls s) as (v & s0 & Hv & Hq & Hcalls) end.
  { destruct (allocate_vlans (s_ctx s)); [apply allocate_run|by eexists _, _]. }
  erewrite bind_run by exact Hv. cbn beta. do 4 (erewrite bind_run by done; cbn beta).
  erewrite bind_run by apply get_mac_run. unfold found.
  assert (s_ctx s0 = s_ctx s) as Hc by apply Hq.
  rewrite Hc, Hl. rewrite Ha. eexists _, s0. cbn [andb orb Z.eqb Pos.eqb negb].
  destruct (allow_all_connections (s_ctx s)); cbn; by split.
Qed.
(** Nothing but the VLAN table has moved. *)
Definition but_vlans (s s' : state) : Prop :=
  exists h, hash_wf h /\ s_ctx s' = set_vlan_mapper h (s_ctx s) /\ s_fw s' = s_fw s /\
    s_eloop s' = s_eloop s.

Lemma quiet_but_vlans s s' : hash_wf (vlan_mapper (s_ctx s)) -> quiet s s' -> but_vlans s s'.
Proof. intros Hw (H1 & H2 & H3). exists (vlan_mapper (s_ctx s)). rewrite H1. by destruct (s_ctx s). Qed.

Lemma get_vlan_run v s : exists x, get_vlan v s = Done (x, s).
Proof.
  unfold get_vlan, ask. erewrite bind_run by done. cbn beta. destruct (get_vlan_mapper _ _ _).
  by eexists.
Qed.

Lemma schedule_run v s : hash_wf (vlan_mapper (s_ctx s)) ->
  exists r s', schedule_analyser v s = Done (r, s') /\ status01 r /\ but_vlans s s'.
Proof.
  intros Hw. unfold schedule_analyser. destruct (get_vlan_run v s) as [x Hx].
  erewrite bind_run by exact Hx.
  assert (forall r s', status01 r -> quiet s s' -> exists r' s'', Done (r, s') = Done (r', s'') /\
    status01 r' /\ but_vlans s s'') as Hq.
  { intros r s' Hr Hq. eexists _, _. split; [done|]. split; [done|]. by apply quiet_but_vlans. }
  destruct (x.1 <=? 0); [apply Hq; [by right|done]|].
  destruct (vc_capture_pid x.2 =? 0); [|apply Hq; [by left|done]].
  unfold run_analyser. erewrite bind_run by (erewrite bind_run by done; done). cbn [fst snd].
  destruct (negb _); [apply Hq; [by right|done]|]. unfold ask. erewrite bind_run by done. cbn beta.
  match goal with |- context [put_vlan_mapper (Some ?h) (Some ?c)] =>
    destruct (put_vlan_mapper_spec h c (s_env s) Hw) as (b & h' & e & Hrun & _ & Hw' & _) end.
  erewrite bind_run by (unfold env_do; cbn [s_env]; rewrite Hrun; done). cbn beta.
  erewrite bind_run by done. cbn [fst snd default]. unfold id.
  destruct b; (eexists _, _; split; [done|]); (split; [(by left) || (by right)|]); by exists h'.
Qed.

Lemma timestamp_run s : exists r t s', os_get_timestamp s = Done ((r, t), s') /\ status01 r /\
  quiet s s' /\ s_env s' = s_env s /\ (reliable -> r = 0).
Proof.
  unfold os_get_timestamp, ask_service. erewrite bind_run by done. cbn [fst snd].
  destruct (Z.eqb_spec (answer (s_calls s) gettimeofday) 0) as [|Hne]; eexists _, _, _; (split; [done|]).
  - by split; [left|].
  - split; [by right|]. split; [done|]. split; [done|]. intros Hrel. by rewrite Hrel in Hne.
Qed.

Lemma memcpy_run dst src n k : secret_ok dst k -> secret_ok src n ->
  memcpy dst src n = Done (take (Z.to_nat n) src ++ drop (Z.to_nat n) dst).
Proof.
  intros (_ & Hd & _) (_ & Hs & Hn). unfold memcpy.
  rewrite (proj2 (rd_done src 0 n (take (Z.to_nat n) src))) by (repeat split; lia).
  rewrite (proj2 (wr_done _ _ _ (take (Z.to_nat n) src ++ drop (Z.to_nat n) dst))); [done|].
  unfold AP_SECRET_LEN, zlen in *. rewrite length_take. split; [done|]. split; [lia|].
  change (take (Z.to_nat 0) dst) with (@nil Z). cbn [app]. do 2 f_equal. lia.
Qed.
(** The record of a device that joins at time [t]. *)
Definition stamped (t : Z) (i : mac_conn_info) : mac_conn_info :=
  with_ident (mi_label i) (mi_id i) t i.

(** Only the tables have moved; [m] are the devices. *)
Definition tables (s s' : state) (m : gmap (list Z) mac_conn_info) : Prop :=
  hash_wf (mac_mapper (s_ctx s')) /\ mac_map (s_ctx s') = m /\
  bridge_list (s_ctx s') = bridge_list (s_ctx s) /\ ticket (s_ctx s') = ticket (s_ctx s) /\
  s_fw s' = s_fw s /\ s_eloop s' = s_eloop s.

Lemma tables_stored s0 s s' m : but_vlans s0 s -> stored s s' m -> tables s0 s' m.
Proof.
  intros (g & _ & A1 & A2 & A3) (h & H1 & H2 & H3 & H4 & H5). unfold tables.
  rewrite H1, H4, H5, A1, A2, A3. done.
Qed.

Lemma tables_quiet s0 s s' : hash_wf (mac_mapper (s_ctx s0)) -> but_vlans s0 s -> quiet s s' ->
  tables s0 s' (mac_map (s_ctx s0)).
Proof.
  intros Hw (g & _ & A1 & A2 & A3) (H1 & H2 & H3). unfold tables. rewrite H1, H2, H3, A1, A2, A3. done.
Qed.

Lemma save_device_run mac j s D : sup_inv D s -> info_ok j ->
  exists r j' s' m, save_device_vlan mac j s = Done ((r, j'), s') /\ tables s s' m /\
    status01 r /\
    (r = 0 -> exists t id, j' = stamped t j /\ m = <[mac := identified id j']> (mac_map (s_ctx s))) /\
    (exec_capture (s_ctx s) = false -> mallocs (s_env s) = [] -> reliable -> r = 0).
Proof.
  intros Hs Hj. unfold save_device_vlan, ask. pose proof (ci_vlans _ _ _ Hs) as Hv.
  pose proof (ci_macs _ _ _ Hs) as Hm. erewrite bind_run by done. cbn beta.
  assert (exists r s1, (if exec_capture (s_ctx s) then schedule_analyser (mi_vlanid j) else mret 0) s =
    Done (r, s1) /\ status01 r /\ but_vlans s s1 /\
    (exec_capture (s_ctx s) = false -> r = 0 /\ s1 = s)) as (r & s1 & Hrun & Hr & Hb & Hec).
  { destruct (exec_capture (s_ctx s)).
    - destruct (schedule_run (mi_vlanid j) s Hv) as (r & s1 & ? & ? & ?). by exists r, s1.
    - eexists 0, s. split; [done|]. split; [by left|]. split; [by apply quiet_but_vlans|done]. }
  erewrite bind_run by exact Hrun. destruct Hr as [->| ->]; cycle 1.
  { eexists _, _, s1, _. split; [done|]. split; [by eapply tables_quiet|].
    split; [by right|]. split; [done|]. intros He. by destruct (Hec He). }
  destruct (timestamp_run s1) as (r & t & s2 & Ht & Hr & Hq & Henv & Hrel).
  change (0 <? 0) with false. cbv iota. erewrite bind_run by exact Ht. cbn [fst snd].
  destruct Hr as [->| ->]; cycle 1.
  { eexists _, _, s2, _. split; [done|]. split; [by eapply tables_quiet|].
    split; [by right|]. split; [done|]. intros _ _ Hrl. by apply Hrel in Hrl. }
  change (0 <? 0) with false. cbv iota. fold (stamped t j).
  destruct Hb as (g & Hg & Hc1 & Hf1 & He1). destruct Hq as (Hc2 & Hf2 & He2).
  destruct (save_run mac (stamped t j) s2) as (r & s3 & Hsave & Hr & Hst & Hok);
    [by rewrite Hc2, Hc1|apply Hj|]. erewrite bind_run by exact Hsave.
  assert (but_vlans s s2) as Hb2 by (exists g; rewrite Hc2, Hf2, He2; done).
  assert (mac_map (s_ctx s2) = mac_map (s_ctx s)) as Hmm by (by rewrite Hc2, Hc1). rewrite Hmm in Hst.
  exists r, (stamped t j), s3. destruct Hr as [->| ->].
  - destruct Hst as [[? _]|Hst]; [done|]. eexists. split; [done|]. split; [by eapply tables_stored|].
    split; [by left|]. split; [|done]. intros _. by eexists _, _.
  - assert (exists m, stored s2 s3 m) as [m Hst'] by (destruct Hst as [[_ ?]|?]; by eexists).
    exists m. split; [done|]. split; [by eapply tables_stored|].
    split; [by right|]. split; [done|]. intros He Hmem Hrl. destruct (Hec He) as [_ ->].
    rewrite Henv in Hok. by apply Hok in Hmem.
Qed.

(** The device joins: its record is stored and handed back with its time. *)
Definition joined (s : state) (mac : list Z) (j i : mac_conn_info)
    (m : gmap (list Z) mac_conn_info) : Prop :=
  exists t id, i = stamped t j /\ m = <[mac := identified id i]> (mac_map (s_ctx s)).

(** From [s], the device joins with the record [j] or is rejected, which takes
    a failure of a service. *)
Definition answered (s : state) (mac : list Z) (j i : mac_conn_info) (s' : state) : Prop :=
  exists m, tables s s' m /\ (mi_vlanid i = -1 \/ joined s mac j i m) /\
    (exec_capture (s_ctx s) = false -> reliable -> joined s mac j i m).

Lemma save_or_reject_run mac j s D : sup_inv D s -> mallocs (s_env s) = [] -> info_ok j ->
  exists i s', save_or_reject mac j s = Done (i, s') /\ answered s mac j i s'.
Proof.
  intros Hs Hmem Hj.
  destruct (save_device_run mac j s D Hs Hj) as (r & j' & s' & m & Hrun & Ht & Hr & H0 & Hrel).
  unfold save_or_reject. erewrite bind_run by exact Hrun. cbn [fst snd].
  destruct Hr as [->| ->].
  - eexists _, s'. split; [done|]. exists m. pose proof (H0 eq_refl). split; [done|]. by split; [right|].
  - eexists _, s'. split; [done|]. exists m. split; [done|]. split; [by left|].
    intros He Hrl. by pose proof (Hrel He Hmem Hrl).
Qed.

(** ** The policy *)

(** The VLAN a new device is given. *)
Definition vlan_for (c : supervisor_context) (mac : list Z) : Z :=
  let arr := config_ifinfo_array c in
  if allocate_vlans c && (1 <? zlen arr) then
    default 0 ((ci_vlanid <$> arr) !! Z.to_nat (sdbm_hash mac mod zlen arr))
  else default_open_vlanid c.

Definition with_secret (p : list Z) (n : Z) (i : mac_conn_info) : mac_conn_info :=
  with_pass (take (Z.to_nat n) p ++ drop (Z.to_nat n) (mi_pass i)) n i.

(** The record of a device without a passphrase of its own, in a network that
    does not admit everybody, and whether the ticket is used up. *)
Definition first_join (c : supervisor_context) (v : Z) (i : mac_conn_info) : mac_conn_info * bool :=
  match ticket c with
  | live_ticket t =>
      (with_ident (device_label t) (mi_id i) (mi_join_timestamp i)
         (with_secret (passphrase t) (passphrase_len t) (with_access (ticket_vlanid t) (mi_nat i) true i)),
       true)
  | _ => (with_secret (wpa_passphrase c) (wpa_passphrase_len c) (with_access v (mi_nat i) true i), false)
  end.

(** What a device that asks to join gets: nothing, or a record. *)
Definition policy (c : supervisor_context) (mac : list Z) : option (mac_conn_info * bool) :=
  let v := vlan_for c mac in
  let shared := with_secret (wpa_passphrase c) (wpa_passphrase_len c) in
  match mac_map c !! mac with
  | Some i =>
      if mi_allow_connection i then
        if mi_pass_len i =? 0 then
          Some (if allow_all_connections c then (shared i, false) else first_join c v i)
        else Some (i, false)
      else None
  | None =>
      let i := init_default_mac_info v (allow_all_nat c) in
      Some (if allow_all_connections c then (shared (with_access v (mi_nat i) true i), false)
            else first_join c v i)
  end.

Definition without_ticket (s : state) : state :=
  {| s_ctx := set_ticket no_ticket (s_ctx s); s_fw := s_fw s; s_eloop := s_eloop s;
     s_env := s_env s; s_calls := s_calls s |}.

Lemma vlan_for_run mac s : mallocs (s_env s) = [] ->
  (if allocate_vlans (s_ctx s) then allocate_vlan mac VLAN_ALLOCATE_HASH 0
   else mret (default_open_vlanid (s_ctx s))) s = Done (vlan_for (s_ctx s) mac, s).
Proof.
  intros Hmem. unfold vlan_for. destruct (allocate_vlans (s_ctx s)); cbn [andb]; [|done].
  unfold allocate_vlan, ask. do 2 (erewrite bind_run by done; cbn beta).
  set (arr := config_ifinfo_array (s_ctx s)).
  destruct (Z.leb_spec (zlen arr) 1) as [|Hl], (Z.ltb_spec 1 (zlen arr)); try lia; [done|].
  destruct (malloc_ok (s_env s)) as (ok & e & Hm & [_ He]). destruct (He Hmem) as [-> ->].
  erewrite bind_run by (unfold env_do; rewrite Hm; done). cbn [negb].
  pose proof (Z.mod_pos_bound (sdbm_hash mac) (zlen arr) ltac:(lia)) as Hb.
  rewrite (proj2 (Z.ltb_ge _ 0)) by lia.
  destruct (lookup_lt_is_Some_2 (ci_vlanid <$> arr) (Z.to_nat (sdbm_hash mac mod zlen arr))) as [v Hv].
  { rewrite length_fmap. unfold zlen in *. lia. }
  rewrite Hv. by destruct s.
Qed.
Lemma with_secret_ok p n i : secret_ok p n -> info_ok i -> info_ok (with_secret p n i).
Proof.
  intros Hp Hi. apply with_pass_ok; [|done]. pose proof (memcpy_run _ _ _ _ (io_pass _ Hi) Hp) as Hm.
  destruct Hp as (Hb & _ & Hn). by eapply memcpy_ok; [apply Hi|..|exact Hm].
Qed.

(** A record that the shared passphrase completes, stored. *)
Lemma shared_run mac i s D : sup_inv D s -> mallocs (s_env s) = [] -> info_ok i ->
  exists r s', (p ← lift_outcome (memcpy (mi_pass i) (wpa_passphrase (s_ctx s)) (wpa_passphrase_len (s_ctx s)));
    save_or_reject mac (with_pass p (wpa_passphrase_len (s_ctx s)) i)) s = Done (r, s') /\
    answered s mac (with_secret (wpa_passphrase (s_ctx s)) (wpa_passphrase_len (s_ctx s)) i) r s'.
Proof.
  intros Hs Hmem Hi. pose proof (ci_wpa _ _ _ Hs) as Hw.
  rewrite (memcpy_run _ _ _ _ (io_pass _ Hi) Hw). erewrite bind_run by done.
  eapply save_or_reject_run; [done|done|]. by apply with_secret_ok.
Qed.

Lemma ticket_run mac v i s D : sup_inv D s -> mallocs (s_env s) = [] ->
  ticket (s_ctx s) <> dangling_ticket -> info_ok i ->
  exists r s', (let info1 := with_allow true i in
    tp ← ask ticket;
    t ← lift_outcome (deref_ticket tp);
    match t with
    | Some t =>
        p ← lift_outcome (memcpy (mi_pass info1) (passphrase t) (passphrase_len t));
        let info2 := with_ident (device_label t) (mi_id info1) (mi_join_timestamp info1)
                       (with_pass p (passphrase_len t) (with_vlanid (ticket_vlanid t) info1)) in
        _ ← free_ticket;
        save_or_reject mac info2
    | None =>
        p ← lift_outcome (memcpy (mi_pass info1) (wpa_passphrase (s_ctx s)) (wpa_passphrase_len (s_ctx s)));
        save_or_reject mac (with_pass p (wpa_passphrase_len (s_ctx s)) (with_vlanid v info1))
    end) s = Done (r, s') /\
    let (j, used) := first_join (s_ctx s) v i in
    answered (if used then without_ticket s else s) mac j r s'.
Proof.
  intros Hs Hmem Hd Hi. cbv zeta. unfold ask, first_join. erewrite bind_run by done. cbn beta.
  pose proof (ci_ticket _ _ _ Hs) as Ht. destruct (ticket (s_ctx s)) as [|t|] eqn:Htk; [| |done].
  - erewrite bind_run by done. cbn beta iota.
    eapply (shared_run mac (with_vlanid v (with_allow true i))); [done|done|].
    by do 2 apply with_access_ok.
  - erewrite bind_run by done. cbn beta iota. destruct Ht as (Hp & Hl & _).
    change (mi_pass (with_allow true i)) with (mi_pass i).
    rewrite (memcpy_run _ _ _ _ (io_pass _ Hi) Hp). erewrite bind_run by done.
    assert (free_ticket s = Done (tt, without_ticket s)) as Hf.
    { unfold free_ticket, ask. erewrite bind_run by done. cbn beta. by rewrite Htk. }
    erewrite bind_run by exact Hf. cbn beta.
    eapply (save_or_reject_run mac _ (without_ticket s) D); [|done|].
    + by apply (ctx_inv_ticket D (s_ctx s)).
    + apply with_ident_ok; [|done|apply Hi].
      apply (with_secret_ok (passphrase t) (passphrase_len t)
        (with_access (ticket_vlanid t) (mi_nat i) true i)); [done|by apply with_access_ok].
Qed.
Lemma decision_run mac s :
  sup_inv (fun _ => False) s -> mallocs (s_env s) = [] -> ticket (s_ctx s) <> dangling_ticket ->
  exists i s', get_mac_conn_cmd mac s = Done (i, s') /\
    match policy (s_ctx s) mac with
    | None => mi_vlanid i = -1 /\ quiet s s'
    | Some (j, used) => answered (if used then without_ticket s else s) mac j i s'
    end.
Proof.
  intros Hs Hmem Hd. unfold get_mac_conn_cmd, policy, ask.
  do 2 (erewrite bind_run by done; cbn beta). erewrite bind_run by (by apply vlan_for_run). cbn beta.
  set (v := vlan_for (s_ctx s) mac). do 4 (erewrite bind_run by done; cbn beta).
  erewrite bind_run by apply get_mac_run. pose proof (ci_wpa _ _ _ Hs) as Hw.
  pose proof (found_ok mac (init_default_mac_info v (allow_all_nat (s_ctx s))) s _ Hs (default_ok _ _)) as Hi.
  unfold found in *. destruct (mac_map (s_ctx s) !! mac) as [i|]; cbn [fst snd] in Hi.
  - change (1 =? 0) with false. change (1 =? 1) with true. change (1 =? -1) with false. cbn [andb orb].
    destruct (mi_allow_connection i) eqn:Ha; cycle 1.
    { eexists _, s. destruct (allow_all_connections (s_ctx s)); cbn; by split. }
    destruct (allow_all_connections (s_ctx s)); cbn [andb negb]; destruct (mi_pass_len i =? 0) eqn:Hp; cbn [negb].
    + rewrite (memcpy_run _ _ _ _ (io_pass _ Hi) Hw).
      erewrite bind_run by (erewrite bind_run by done; done).
      eapply save_or_reject_run; [done|done|]. by apply with_secret_ok.
    + erewrite bind_run by done. by eapply save_or_reject_run.
    + destruct (ticket_run mac v i s _ Hs Hmem Hd Hi) as (r & s' & Hrun & Hans). exists r, s'.
      split; [exact Hrun|]. by destruct (first_join (s_ctx s) v i).
    + by eapply save_or_reject_run.
  - set (d := init_default_mac_info v (allow_all_nat (s_ctx s))) in *.
    change (0 =? 0) with true. change (0 =? 1) with false. change (0 =? -1) with false.
    destruct (allow_all_connections (s_ctx s)); cbn [andb orb negb].
    + unfold configure_mac_info. rewrite (memcpy_run _ _ _ _ (io_pass _ Hi) Hw). erewrite bind_run by done.
      eapply save_or_reject_run; [done|done|].
      apply (with_secret_ok _ _ (with_access v (mi_nat d) true d)); [done|by apply with_access_ok].
    + destruct (ticket_run mac v d s _ Hs Hmem Hd Hi) as (r & s' & Hrun & Hans). exists r, s'.
      split; [exact Hrun|]. by destruct (first_join (s_ctx s) v d).
Qed.

(** C4.  The decision on a station that asks to join.  When memory lasts and the
    ticket is not dangling, [get_mac_conn_cmd] always answers, and it follows
    [policy]: a device that is recorded as denied is turned away and nothing
    changes; a device with a passphrase keeps its record; a device without one
    gets the shared passphrase in a network that admits everybody, and otherwise
    the VLAN, passphrase and label of the pending ticket, which is used up, or,
    without a ticket, the shared passphrase and the VLAN for new devices.  The
    record is stored with the time and returned; the device is rejected instead
    only if a service fails.  Bridges, firewall and timers stay as they are. *)
Theorem station_decision mac s :
  sup_inv (fun _ => False) s -> mallocs (s_env s) = [] -> ticket (s_ctx s) <> dangling_ticket ->
  exists i s', get_mac_conn_cmd mac s = Done (i, s') /\
    match policy (s_ctx s) mac with
    | None => mi_vlanid i = -1 /\ quiet s s'
    | Some (j, used) => answered (if used then without_ticket s else s) mac j i s'
    end.
Proof. apply decision_run. Qed.
(** C5.  In every state the supervisor can reach from a state that satisfies the
    invariant, by any sequence of datagrams on its control sockets, stations
    that ask to join, notifications of the access point and ticket timeouts, the
    invariant holds: the tables are finite maps, the bridges are a symmetric
    relation, the strings and secrets of all records and of the ticket fit their
    arrays, a live ticket has a timeout pending, and every device of [D] is
    recorded as denied unless a datagram accepted one of them. *)
Theorem supervisor_invariant D s evs s' :
  sup_inv D s -> run s evs s' ->
  Forall (fun ev => forall m, D m -> ~ accepted_by m ev) evs -> sup_inv D s'.
Proof. apply run_inv. Qed.

(** C3.  A device that was denied is turned away until it is accepted again.
    After a successful [DENY_MAC], whatever happens, as long as no datagram is
    an [ACCEPT_MAC] of that device, a request of the device to join is answered,
    with VLAN -1, and changes nothing. *)
Theorem denied_until_accepted mac s0 s1 evs s :
  sup_inv (fun _ => False) s0 -> deny_mac_cmd mac s0 = Done (0, s1) -> run s1 evs s ->
  Forall (fun ev => ~ accepted_by mac ev) evs ->
  exists i s', get_mac_conn_cmd mac s = Done (i, s') /\ mi_vlanid i = -1 /\ quiet s s'.
Proof.
  intros Hs Hdeny Hrun Hevs. destruct (deny_run mac s0 _ Hs) as (r & s1' & Hd & _ & Hden).
  rewrite Hdeny in Hd. injection Hd as <- <-.
  assert (sup_inv (eq mac) s) as Hinv.
  { eapply run_inv; [|done|].
    - apply denied_inv; [|by apply Hden]. by eapply keeps_deny.
    - eapply Forall_impl; [exact Hevs|]. by intros ev Hev m <-. }
  destruct (denied_rejected mac s) as (i & s' & Hget & Hv & Hq & _); [by apply (ci_denied _ _ _ Hinv)|].
  by exists i, s'.
Qed.

(** ** Tickets *)

Lemma random_number_inv n e l e' : 0 <= n -> os_get_random_number_s n e = Done (Some l, e') ->
  zlen l = n /\ Forall (fun c => isdigit c = true) l /\ mallocs e' = mallocs e.
Proof.
  intros Hn. unfold os_get_random_number_s. intros (r & e1 & Hr & H)%bind_done.
  unfold edge_os_get_random in Hr. destruct (randoms e) as [|x rs]; injection Hr as <- <-; [done|].
  cbn [fst snd] in H. destruct (Z.ltb_spec (zlen x) n) as [|Hx]; [done|].
  injection H as <- <-. split; [|split; [|done]].
  - unfold zlen in *. rewrite !length_fmap, length_take. lia.
  - apply list.Forall_forall. intros c (y & -> & _)%list_elem_of_fmap. unfold isdigit.
    pose proof (Z.mod_pos_bound y 10). lia.
Qed.

Lemma register_inv mac label v s pass s1 :
  register_ticket_cmd mac label v s = Done (Some pass, s1) ->
  exists digits, pass = digits ++ zeros 48 /\ zlen digits = TICKET_PASSPHRASE_SIZE /\
    Forall (fun c => isdigit c = true) digits /\ ticket (s_ctx s) = no_ticket /\
    s_ctx s1 = set_ticket (live_ticket {| passphrase := pass; passphrase_len := TICKET_PASSPHRASE_SIZE;
                  device_label := label; ticket_vlanid := v |}) (s_ctx s) /\
    timeouts (s_eloop s1) ≡ₚ (TICKET_TIMEOUT, eloop_ticket_timeout_handler_cb) :: timeouts (s_eloop s) /\
    s_fw s1 = s_fw s /\ (mallocs (s_env s) = [] -> mallocs (s_env s1) = []).
Proof.
  unfold register_ticket_cmd, ask. erewrite bind_run by done. cbn beta.
  destruct (ticket (s_ctx s)); [|done..].
  destruct (malloc_ok (s_env s)) as (ok & e1 & Hm & [_ He]).
  erewrite bind_run by (unfold env_do; rewrite Hm; done). cbn beta.
  destruct ok; cbn [negb]; [|done]. destruct (_ <? _); [done|].
  unfold env_do at 1. intros H. apply bind_done in H as (o & s2 & Hr & H). cbn [s_env] in Hr.
  destruct (os_get_random_number_s TICKET_PASSPHRASE_SIZE e1) as [[o' e2]|] eqn:Hrnd; [|done].
  injection Hr as <- <-. destruct o' as [digits|]; [|by prog_inv].
  apply random_number_inv in Hrnd as (Hl & Hd & Hmem); [|done].
  assert (wr (zeros (Z.to_nat AP_SECRET_LEN)) 0 digits = Done (digits ++ zeros 48)) as Hw.
  { apply wr_done. rewrite Hl. split; [done|]. split; [done|].
    replace (length digits) with 16%nat by (unfold zlen, TICKET_PASSPHRASE_SIZE in Hl; lia). done. }
  rewrite Hw in H. erewrite bind_run in H by done. cbn beta in H.
  unfold register_ticket_timeout in H. erewrite bind_run in H by done. cbn [s_eloop] in H.
  pose proof (register_timeouts TICKET_TIMEOUT eloop_ticket_timeout_handler_cb (s_eloop s)) as Ht.
  cbv zeta in Ht. destruct Ht as [[Hr Ht]|[Hr Ht]]; rewrite Hr in H; [|by prog_inv].
  injection H as <- <-. exists digits. split; [done|]. split; [done|]. split; [done|]. split; [done|].
  split; [done|]. split; [exact Ht|]. split; [done|]. intros Hmm. cbn. rewrite Hmem.
  by destruct (He Hmm) as [-> _].
Qed.

(** C29.  A ticket admits one device.  In a network that does not admit everybody,
    once [REGISTER_TICKET] has answered with a passphrase (sixteen digits), the
    next device without a passphrase of its own joins with the VLAN, the
    passphrase and the label of the ticket, and the ticket is gone.  Its timeout
    stays pending. *)
Theorem ticket_admits_one mac label v s pass s1 m :
  sup_inv (fun _ => False) s -> mallocs (s_env s) = [] -> reliable ->
  allow_all_connections (s_ctx s) = false -> exec_capture (s_ctx s) = false ->
  register_ticket_cmd mac label v s = Done (Some pass, s1) ->
  match mac_map (s_ctx s) !! m with
  | Some i => mi_allow_connection i = true /\ mi_pass_len i = 0
  | None => True
  end ->
  exists i s2, get_mac_conn_cmd m s1 = Done (i, s2) /\
    mi_vlanid i = v /\ mi_label i = label /\ mi_pass_len i = TICKET_PASSPHRASE_SIZE /\
    take 16 (mi_pass i) = take 16 pass /\ Forall (fun c => isdigit c = true) (take 16 pass) /\
    (exists id, mac_map (s_ctx s2) !! m = Some (identified id i)) /\
    ticket (s_ctx s2) = no_ticket /\
    timeouts (s_eloop s2) ≡ₚ (TICKET_TIMEOUT, eloop_ticket_timeout_handler_cb) :: timeouts (s_eloop s).
Proof.
  intros Hs Hmem Hrel Hall Hec Hreg Hm. pose proof Hreg as Hinv.
  apply (keeps_register_ticket (fun _ => False)) in Hinv; [|done].
  apply register_inv in Hreg as (digits & -> & Hl & Hd & _ & Hc & Ht & _ & Hm1).
  destruct (decision_run m s1) as (i & s2 & Hrun & Hans); [done|by apply Hm1|by rewrite Hc|].
  set (d := init_default_mac_info (vlan_for (s_ctx s1) m) (allow_all_nat (s_ctx s1))).
  assert (exists i0, policy (s_ctx s1) m = Some (first_join (s_ctx s1) (vlan_for (s_ctx s1) m) i0))
    as (i0 & Hpol).
  { unfold policy. replace (mac_map (s_ctx s1)) with (mac_map (s_ctx s)) by (by rewrite Hc).
    replace (allow_all_connections (s_ctx s1)) with false by (by rewrite Hc).
    destruct (mac_map (s_ctx s) !! m) as [i0|]; [|by exists d].
    destruct Hm as [-> ->]. by exists i0. }
  rewrite Hpol in Hans. unfold first_join in Hans. rewrite Hc in Hans. cbn [ticket set_ticket] in Hans.
  destruct Hans as (mm & (_ & <- & _ & Htk & _ & He) & _ & Hj).
  destruct Hj as (t & id & -> & Hmm); [by cbn; rewrite Hc|done|].
  eexists _, s2. split; [exact Hrun|]. split; [done|]. split; [done|]. split; [done|].
  assert (length digits = 16%nat) as Hlen by (unfold zlen, TICKET_PASSPHRASE_SIZE in Hl; lia).
  assert (take 16 (digits ++ zeros 48) = digits) as Htd by (by apply take_app_length').
  cbn [mi_pass stamped with_ident with_secret with_pass passphrase passphrase_len].
  change (Z.to_nat TICKET_PASSPHRASE_SIZE) with 16%nat. rewrite Htd, take_app_length' by done.
  split; [done|]. split; [done|]. split; [|split; [done|by rewrite He]].
  exists id. by rewrite Hmm, lookup_insert_eq.
Qed.

(** ** Malformed commands *)

Definition mac_commands : list (list Z) :=
  cstr <$> ["ACCEPT_MAC"; "DENY_MAC"; "ADD_NAT"; "REMOVE_NAT"; "ASSIGN_PSK"; "GET_MAP";
            "REMOVE_BRIDGE"; "CLEAR_BRIDGE"; "REGISTER_TICKET"; "CLEAR_PSK"]%string.

(** The state after one answer on a socket. *)
Definition answered_with (s : state) (sock : Z) (data : list Z) (addr : client_address) : state :=
  {| s_ctx := s_ctx s; s_fw := s_fw s; s_eloop := s_eloop s; s_env := s_env s;
     s_calls := write_socket_data sock data addr :: s_calls s |}.

Definition no_mac (args : list (list Z)) : Prop :=
  match args with
  | [] => True
  | a :: _ => exists m, edge_hwaddr_aton2 (a ++ [0]) = Done (-1, m)
  end.

Lemma with_mac_refused sock addr args k s : no_mac args ->
  exists r, with_mac sock addr args k s = Done (r, answered_with s sock FAIL_REPLY addr).
Proof.
  unfold with_mac. destruct args as [|a rest]; [by eexists|]. intros [m Hm]. unfold arg_mac.
  erewrite bind_run by (rewrite Hm; erewrite bind_run by done; done). cbn. by eexists.
Qed.

(**  A command that needs a MAC address and comes without one, or with a text
    that is not a MAC address, has no effect: the state is unchanged, no service
    and no firewall is called, and exactly one [FAIL] is sent to the client. *)
Theorem malformed_mac_refused cmd cfn sock addr args s :
  cmd ∈ mac_commands -> get_command_function cmd = Some cfn -> no_mac args ->
  exists r, cfn sock addr args s = Done (r, answered_with s sock FAIL_REPLY addr).
Proof.
  intros Hin Hget Hno. command_cases Hget.
  all: try by apply with_mac_refused.
  all: exfalso; apply (bool_decide_pack _) in Hin; vm_compute in Hin; exact Hin.
Qed.
End access.

(** ** A supervisor *)

#[export, refine] Instance sample_services : Services := {|
  WITH_CRYPTO_SERVICE := true;
  answer _ _ := 0;
  answer_pid _ := 7;
  answer_uuid _ := replicate 36 97;
  answer_time _ := (1, 0);
  usable n := n + 8
|}.
Proof.
  - reflexivity.
  - intros _. by apply Forall_replicate.
  - intros n. lia.
Defined.

Definition sample_context : supervisor_context :=
  {| mac_mapper := (hash_empty : @hash _ _ _ (list_uthash (list Z) mac_conn_info));
     vlan_mapper := (hash_empty : @hash _ _ _ (list_uthash Z vlan_conn));
     bridge_list := (dl_list_init : @dl_list _ (list_dl_list bridge_mac_tuple));
     ticket := no_ticket; subscribers_array := Some []; allow_all_connections := false;
     allow_all_nat := false; exec_capture := false; allocate_vlans := false;
     wpa_passphrase := cstr "1234567890" ++ zeros 54; wpa_passphrase_len := 10;
     default_open_vlanid := 3; config_ifinfo_array := []; domain_sock := 5; udp_sock := 6 |}.

Definition sample_sup : sup :=
  {| s_ctx := sample_context; s_fw := (∅, ∅) : @fw set_firewall;
     s_eloop := [] : @eloop _ _ (list_eloop sup_timer);
     s_env := Env [] [[1; 2; 3; 4; 5; 6; 7; 8; 9; 10; 11; 12; 13; 14; 15; 16]]; s_calls := [] |}.

Definition sample_station : list Z := [2; 0; 0; 0; 0; 1].

Lemma sample_sup_inv : sup_inv (fun _ => False) sample_sup.
Proof.
  split; try done; try apply hash_empty_wf.
  - apply init_bridge_wf.
  - split; [by repeat constructor|]. split; [reflexivity|]. split; reflexivity || done.
Qed.

Lemma station_decision_witness :
  exists i s', get_mac_conn_cmd sample_station sample_sup = Done (i, s') /\ mi_vlanid i = 3 /\
    mi_pass_len i = 10.
Proof.
  destruct (station_decision sample_station sample_sup sample_sup_inv eq_refl ltac:(done))
    as (i & s' & Hrun & (m & _ & _ & (t & id & -> & _))); [done|done|].
  by eexists _, s'.
Defined.

Lemma ticket_admits_one_witness : exists pass s1 i s2,
  register_ticket_cmd [] (cstr "camera") 9 sample_sup = Done (Some pass, s1) /\
  get_mac_conn_cmd sample_station s1 = Done (i, s2) /\ mi_vlanid i = 9 /\
  ticket (s_ctx s2) = no_ticket.
Proof.
  assert (exists pass s1, register_ticket_cmd [] (cstr "camera") 9 sample_sup = Done (Some pass, s1))
    as (pass & s1 & Hreg) by (eexists _, _; reflexivity).
  destruct (ticket_admits_one (SV := sample_services) [] (cstr "camera") 9 sample_sup pass s1 sample_station sample_sup_inv
    eq_refl (fun _ _ => eq_refl) eq_refl eq_refl Hreg I) as (i & s2 & Hrun & Hv & _ & _ & _ & _ & _ & Ht & _).
  exists pass, s1, i, s2. done.
Defined.

Lemma denied_until_accepted_witness : exists s1 s2 i s3,
  deny_mac_cmd sample_station sample_sup = Done (0, s1) /\
  run s1 [station sample_station; ap_status sample_station AP_CONNECTED_STATUS] s2 /\
  get_mac_conn_cmd sample_station s2 = Done (i, s3) /\ mi_vlanid i = -1.
Proof.
  assert (exists s1 s2, deny_mac_cmd sample_station sample_sup = Done (0, s1) /\
    run s1 [station sample_station; ap_status sample_station AP_CONNECTED_STATUS] s2)
    as (s1 & s2 & Hd & Hrun).
  { exists (after (deny_mac_cmd sample_station) sample_sup). eexists.
    split; [apply after_run; vm_compute; reflexivity|].
    econstructor; [eapply step_station, after_run; vm_compute; reflexivity|].
    econstructor; [eapply step_ap, after_run; vm_compute; reflexivity|]. constructor. }
  destruct (denied_until_accepted sample_station sample_sup s1 _ s2 sample_sup_inv Hd Hrun)
    as (i & s3 & Hget & Hv & _).
  { repeat constructor; by intros ?. }
  exists s1, s2, i, s3. done.
Defined.

Lemma supervisor_invariant_witness : exists s1,
  run sample_sup [datagram 5 (Some 25)
    (Some (cstr "DENY_MAC 02:00:00:00:00:01", {| ca_path := []; ca_port := 0; ca_addr := [];
             ca_len := 0; ca_type := SOCKET_TYPE_DOMAIN |})); station sample_station] s1 /\
  sup_inv (fun _ => False) s1.
Proof.
  match goal with |- exists s1, run _ ?evs s1 /\ _ => assert (exists s1, run sample_sup evs s1) as [s1 Hrun] end.
  { eexists. econstructor; [eapply step_datagram; [|apply after_run; vm_compute; reflexivity]|].
    - apply (bool_decide_unpack _). by vm_compute.
    - econstructor; [eapply step_station, after_run; vm_compute; reflexivity|]. constructor. }
  exists s1. split; [exact Hrun|].
  apply (supervisor_invariant _ _ _ _ sample_sup_inv Hrun). repeat constructor; by intros ?.
Defined.

Lemma malformed_mac_refused_witness : exists r,
  process_deny_mac_cmd 5 {| ca_path := []; ca_port := 0; ca_addr := []; ca_len := 0;
    ca_type := SOCKET_TYPE_DOMAIN |} [cstr "02:00:00"] sample_sup =
  Done (r, answered_with sample_sup 5 FAIL_REPLY {| ca_path := []; ca_port := 0; ca_addr := [];
    ca_len := 0; ca_type := SOCKET_TYPE_DOMAIN |}).
Proof.
  apply (malformed_mac_refused (cstr "DENY_MAC")); [|reflexivity|].
  - apply (bool_decide_unpack _). by vm_compute.
  - eexists. reflexivity.
Defined.
