(* ===== verification/Restart.v ===== *)
(** The supervisor and its database: what a run has changed is what the next one
    starts with.

    [synced] says of a supervisor that its table of stations agrees with the
    records it has saved, up to what the database does not keep.  Every event
    preserves it, provided that the secret store does not fail.  With the
    database and the start of [MacDb] this gives the theorem: after any run and a
    restart, every station has the VLAN, the permissions, the label, the
    identifier and the status it had, and no other station is known. *)
From stdpp Require Import strings numbers base list gmap.
From Stdlib Require Import ZArith Lia.
From S2P Require Import Prelude Os Text Net Extern Reldb Mappers Decoder Capture BridgeList Firewall Supervisor CmdProcessor SupervisorInv Access MacDb.

(** What is kept of a record. *)
Definition durable (i : mac_conn_info) : ap_connection_status * Z * bool * bool * list Z * list Z :=
  (mi_status i, mi_vlanid i, mi_nat i, mi_allow_connection i, mi_label i, mi_id i).

(** The records in the calls of a supervisor, the first one first. *)
Definition saved_conn (c : call) : option mac_conn :=
  match c with Supervisor.save_sqlite_macconn_entry conn => Some conn | _ => None end.
Definition saved_conns (h : list call) : list mac_conn := reverse (omap saved_conn h).

(** The records after more of them were saved. *)
Definition records_from (base : gmap (list Z) mac_conn_info) (cs : list mac_conn) : gmap (list Z) mac_conn_info :=
  foldl (fun m c => <[mac_addr c := mac_info c]> m) base cs.

Lemma records_snoc base cs c : records_from base (cs ++ [c]) = <[mac_addr c := mac_info c]> (records_from base cs).
Proof. unfold records_from. by rewrite foldl_app. Qed.

Lemma saved_cons c conn h : saved_conn c = Some conn -> saved_conns (c :: h) = saved_conns h ++ [conn].
Proof. intros E. unfold saved_conns. cbn [omap list_omap]. by rewrite E, reverse_cons. Qed.
Lemma saved_skip c h : saved_conn c = None -> saved_conns (c :: h) = saved_conns h.
Proof. intros E. unfold saved_conns. cbn [omap list_omap]. by rewrite E. Qed.

Section restart.
Context {MU : Uthash (list Z) mac_conn_info} {VU : Uthash Z vlan_conn}.
Context {BL : DlList bridge_mac_tuple} {EL : Eloop sup_timer}.
Context {FW : Firewall} {SV : Services}.
#[local] Abbreviation state := (sup (MU := MU) (VU := VU) (BL := BL)).

Definition store_works : Prop := forall h k v, 0 <= answer h (put_crypt_pair k v).
Context (Hstore : store_works).

(** [base] has the records of the database before the first of the calls. *)
Context (base : gmap (list Z) mac_conn_info).

Record synced (s : state) : Prop := {
  sy_macs : hash_wf (mac_mapper (s_ctx s));
  sy_same : durable <$> hash_map (mac_mapper (s_ctx s)) = durable <$> records_from base (saved_conns (s_calls s))
}.

Lemma synced_ask {A} (f : supervisor_context -> A) : keeps synced (ask f).
Proof. by intros s a s' Hs [= _ <-]. Qed.
Lemma synced_env {A} (m : prog env A) : keeps synced (env_do m).
Proof. intros s a s' [Hw Hm]. unfold env_do. destruct (m (s_env s)) as [[]|]; [|done]. by intros [= _ <-]. Qed.
Lemma synced_fw m : keeps synced (fw_do m).
Proof. intros s a s' [Hw Hm]. unfold fw_do. destruct (m (s_fw s)) as [[]|]; [|done]. by intros [= _ <-]. Qed.
Lemma synced_service {A} c (get : list call -> A) : saved_conn c = None -> keeps synced (ask_service c get).
Proof. intros Hc s a s' [Hw Hm] [= _ <-]. split; cbn [s_ctx s_calls]; [done|]. by rewrite saved_skip. Qed.
Lemma synced_call c : saved_conn c = None -> keeps synced (do_call c).
Proof. apply synced_service. Qed.
Lemma synced_on_ctx f : (forall c, mac_mapper (f c) = mac_mapper c) -> keeps synced (on_ctx f).
Proof. intros Hf s a s' [Hw Hm] [= _ <-]. split; cbn [s_ctx s_calls]; by rewrite Hf. Qed.
#[local] Hint Resolve synced_ask synced_env synced_fw synced_service synced_call synced_on_ctx : keeps.

(** Nothing but the record's secret is lost on the way to the database. *)
Lemma synced_put conn h s s' : synced s -> hash_wf h -> hash_map h = <[mac_addr conn := mac_info conn]> (hash_map (mac_mapper (s_ctx s))) ->
  mac_mapper (s_ctx s') = h ->
  (exists conn', mac_addr conn' = mac_addr conn /\ durable (mac_info conn') = durable (mac_info conn) /\
     saved_conns (s_calls s') = saved_conns (s_calls s) ++ [conn']) -> synced s'.
Proof.
  intros [Hw Hm] Hw' Hh E (conn' & Ea & Ed & Es). split; [by rewrite E|].
  by rewrite E, Hh, Es, records_snoc, !fmap_insert, Hm, Ea, Ed.
Qed.

Lemma synced_save conn : keeps synced (save_mac_mapper conn).
Proof.
  unfold save_mac_mapper. apply keeps_bind; [keeps_tac|]. clear conn. intros conn s a s' Hs. unfold ask.
  erewrite bind_run by done. cbn beta.
  destruct (put_mac_mapper_spec (mac_mapper (s_ctx s)) conn (s_env s) (sy_macs _ Hs)) as (b & h & e & Hrun & _ & Hw & Hm).
  erewrite bind_run by (unfold env_do; rewrite Hrun; done). cbn beta. erewrite bind_run by done. cbn [fst snd default].
  destruct b; cbn [negb]; [|intros [= _ <-]; split; cbn; [done|]; unfold id; rewrite Hm; apply Hs].
  destruct WITH_CRYPTO_SERVICE.
  - unfold save_to_crypt. destruct (rd (mi_pass (mac_info conn)) 0 (mi_pass_len (mac_info conn))) as [v|f]; cycle 1.
    { intros H. by apply bind_done in H as (? & ? & H & _); apply bind_done in H as (? & ? & H & _); apply bind_done in H as (? & ? & H & _). }
    erewrite bind_run by (erewrite bind_run by (erewrite bind_run by done; erewrite bind_run by done; done); done).
    cbn beta. rewrite (proj2 (Z.ltb_ge _ _)) by (pose proof (Hstore (s_calls s) (mi_id (mac_info conn)) v); cbn; case_match; lia).
    cbv iota. erewrite bind_run by done. intros [= _ <-]. eapply (synced_put conn h s); [done..|].
    eexists. split; [|split; [|cbn [s_calls]; rewrite (saved_cons (Supervisor.save_sqlite_macconn_entry _) _ _ eq_refl), (saved_skip (put_crypt_pair _ _) _ eq_refl); reflexivity]]; done.
  - erewrite bind_run by done. cbv iota beta. erewrite bind_run by done. intros [= _ <-].
    eapply (synced_put conn h s); [done..|]. eexists. split; [|split; [|by apply saved_cons]]; done.
Qed.
#[local] Hint Resolve synced_save : keeps.

(** ** Commands and events *)

Lemma synced_get_mac mac i : keeps synced (get_mac mac i).
Proof. unfold get_mac. keeps_tac. Qed.
Lemma synced_get_vlan v : keeps synced (get_vlan v).
Proof. unfold get_vlan. keeps_tac. Qed.
Lemma synced_default : keeps synced default_info.
Proof. unfold default_info. keeps_tac. Qed.
Lemma synced_until_fail l : Forall (keeps synced) l -> keeps synced (until_fail l).
Proof. induction 1; cbn [until_fail]; keeps_tac. Qed.
#[local] Hint Resolve synced_get_mac synced_get_vlan synced_default : keeps.
Lemma synced_both l r : keeps synced (both_records l r).
Proof. unfold both_records. keeps_tac. Qed.
Lemma synced_on_pairs op l r : (forall a b, keeps synced (op a b)) -> keeps synced (on_pairs op l r).
Proof. intros Hop. apply synced_until_fail. do 4 (constructor; [apply Hop|]). constructor. Qed.
Lemma synced_nat_ip ip : keeps synced (add_nat_ip ip) /\ keeps synced (remove_nat_ip ip).
Proof. unfold add_nat_ip, remove_nat_ip. split; keeps_tac. Qed.
Lemma synced_bridge_ip l r : keeps synced (add_bridge_ip l r) /\ keeps synced (delete_bridge_ip l r).
Proof. unfold add_bridge_ip, delete_bridge_ip. split; keeps_tac. Qed.
#[local] Hint Resolve synced_both synced_on_pairs : keeps.
#[local] Hint Extern 1 (keeps synced (add_nat_ip _)) => apply synced_nat_ip : keeps.
#[local] Hint Extern 1 (keeps synced (remove_nat_ip _)) => apply synced_nat_ip : keeps.
#[local] Hint Extern 1 (keeps synced (add_bridge_ip _ _)) => apply synced_bridge_ip : keeps.
#[local] Hint Extern 1 (keeps synced (delete_bridge_ip _ _)) => apply synced_bridge_ip : keeps.

Lemma synced_accept mac v : keeps synced (accept_mac_cmd mac v).
Proof. unfold accept_mac_cmd. keeps_tac. Qed.
Lemma synced_deny mac : keeps synced (deny_mac_cmd mac).
Proof. unfold deny_mac_cmd. keeps_tac. Qed.
Lemma synced_nat mac : keeps synced (add_nat_cmd mac) /\ keeps synced (remove_nat_cmd mac).
Proof. unfold add_nat_cmd, remove_nat_cmd. split; keeps_tac. Qed.
Lemma synced_psk mac p n : keeps synced (assign_psk_cmd mac p n) /\ keeps synced (clear_psk_cmd mac).
Proof. unfold assign_psk_cmd, clear_psk_cmd. split; keeps_tac. Qed.
Lemma synced_bridge l r : keeps synced (add_bridge_mac_cmd l r) /\ keeps synced (remove_bridge_cmd l r).
Proof. unfold add_bridge_mac_cmd, remove_bridge_cmd. split; keeps_tac. Qed.
#[local] Hint Resolve synced_accept synced_deny : keeps.
#[local] Hint Extern 1 (keeps synced (add_nat_cmd _)) => apply synced_nat : keeps.
#[local] Hint Extern 1 (keeps synced (remove_nat_cmd _)) => apply synced_nat : keeps.
#[local] Hint Extern 1 (keeps synced (assign_psk_cmd _ _ _)) => apply synced_psk : keeps.
#[local] Hint Extern 1 (keeps synced (clear_psk_cmd _)) => apply (synced_psk _ [] 0) : keeps.
#[local] Hint Extern 1 (keeps synced (add_bridge_mac_cmd _ _)) => apply synced_bridge : keeps.
#[local] Hint Extern 1 (keeps synced (remove_bridge_cmd _ _)) => apply synced_bridge : keeps.

Lemma synced_bridge_ips l r : keeps synced (add_bridge_ip_cmd l r).
Proof. unfold add_bridge_ip_cmd. keeps_tac. Qed.
Lemma synced_clear_bridges mac : keeps synced (clear_bridges_cmd mac).
Proof.
  unfold clear_bridges_cmd. keeps_tac. generalize (default [] a0.2). intros l. induction l; cbn [remove_bridges]; keeps_tac.
Qed.
Lemma synced_register_timeout : keeps synced register_ticket_timeout.
Proof. intros s a s' [Hw Hm]. unfold register_ticket_timeout. by intros [= _ <-]. Qed.
#[local] Hint Resolve synced_bridge_ips synced_clear_bridges synced_register_timeout : keeps.
Lemma synced_register mac label v : keeps synced (register_ticket_cmd mac label v).
Proof. unfold register_ticket_cmd. keeps_tac. Qed.
Lemma synced_subscribe addr : keeps synced (subscribe_events_cmd addr).
Proof. unfold subscribe_events_cmd, add_events_subscriber. keeps_tac. Qed.
Lemma synced_send_to_all buf l : keeps synced (send_to_all buf l).
Proof. induction l; cbn [send_to_all]; keeps_tac. Qed.
#[local] Hint Resolve synced_register synced_subscribe synced_send_to_all : keeps.
Lemma synced_send_events ty args : keeps synced (send_events_subscriber ty args).
Proof. unfold send_events_subscriber, send_events. keeps_tac. Qed.
Lemma synced_update_bridges add ip l : keeps synced (update_bridges add ip l).
Proof.
  induction l; cbn [update_bridges]; keeps_tac.
  apply synced_until_fail. destruct add; do 2 (constructor; [auto with keeps|]); constructor.
Qed.
#[local] Hint Resolve synced_send_events synced_update_bridges : keeps.
Lemma synced_set_ip mac ip ty : keeps synced (set_ip_cmd mac ip ty).
Proof. unfold set_ip_cmd. keeps_tac. Qed.
Lemma synced_free_ticket : keeps synced free_ticket.
Proof. unfold free_ticket. keeps_tac. Qed.
Lemma synced_analyser v : keeps synced (schedule_analyser v).
Proof. unfold schedule_analyser, run_analyser. keeps_tac. Qed.
Lemma synced_timestamp : keeps synced os_get_timestamp.
Proof. unfold os_get_timestamp. keeps_tac. Qed.
Lemma synced_allocate mac ty r : keeps synced (allocate_vlan mac ty r).
Proof. unfold allocate_vlan. keeps_tac. Qed.
#[local] Hint Resolve synced_set_ip synced_free_ticket synced_analyser synced_timestamp synced_allocate : keeps.
Lemma synced_save_or_reject mac i : keeps synced (save_or_reject mac i).
Proof. unfold save_or_reject, save_device_vlan. keeps_tac. Qed.
#[local] Hint Resolve synced_save_or_reject : keeps.
Lemma synced_station mac : keeps synced (get_mac_conn_cmd mac).
Proof. unfold get_mac_conn_cmd. keeps_tac. Qed.
Lemma synced_ap mac st : keeps synced (ap_service_callback mac st).
Proof. unfold ap_service_callback. keeps_tac. Qed.

Lemma synced_reply sock addr data : keeps synced (reply sock addr data).
Proof. by apply synced_call. Qed.
#[local] Hint Resolve synced_reply : keeps.
Lemma synced_reply_status sock addr r : keeps synced (reply_status sock addr r).
Proof. unfold reply_status. keeps_tac. Qed.
Lemma synced_newline sock data addr : keeps synced (write_newline_socket_data sock data addr).
Proof. unfold write_newline_socket_data. keeps_tac. Qed.
Lemma synced_append lines : forall total buf, keeps synced (append_lines lines total buf).
Proof. induction lines; intros total buf; cbn [append_lines]; keeps_tac. Qed.
#[local] Hint Resolve synced_reply_status synced_newline synced_append : keeps.
Lemma synced_with_mac sock addr args k : (forall mac rest, keeps synced (k mac rest)) -> keeps synced (with_mac sock addr args k).
Proof. intros Hk. unfold with_mac, arg_mac. keeps_tac. Qed.

#[local] Ltac synced_cases := repeat (keeps_tac; match goal with
  | |- keeps _ (with_mac _ _ _ _) => apply synced_with_mac; intros
  | |- keeps _ (let (_, _) := ?x in _) => destruct x end); keeps_tac.

Lemma synced_command cmd cfn sock addr args : get_command_function cmd = Some cfn -> keeps synced (cfn sock addr args).
Proof.
  intros Hget. command_cases Hget.
  all: unfold process_ping_cmd, ping_cmd, process_subscribe_events_cmd, process_deny_mac_cmd, process_accept_mac_cmd,
    process_assign_psk_cmd, process_add_nat_cmd, process_remove_nat_cmd, process_get_map_cmd, process_get_all_cmd,
    process_set_ip_cmd, process_add_bridge_cmd, process_remove_bridge_cmd,
    process_clear_bridges_cmd, process_get_bridges_cmd, process_register_ticket_cmd,
    process_clear_psk_cmd, arg_mac, default_info; synced_cases.
Qed.

Lemma synced_received sock available recv : keeps synced (process_received_data sock available recv).
Proof.
  unfold process_received_data. destruct available as [n|]; [|keeps_tac]. apply keeps_bind; [keeps_tac|]. intros ok.
  destruct ok; cbn [negb]; [|keeps_tac]. destruct recv as [[data addr]|]; [|keeps_tac].
  apply keeps_bind; [keeps_tac|]. intros [[|cmd args]|]; [by intros s a s' _ ?| |keeps_tac].
  destruct (get_command_function cmd) as [cfn|] eqn:Hc; [|keeps_tac]. apply keeps_bind; [by eapply synced_command|keeps_tac].
Qed.

Lemma synced_step s ev s' : synced s -> step s ev s' -> synced s'.
Proof.
  intros Hs Hstep. inversion Hstep as [sock available recv ? r ? _ H|mac ? i ? H|mac st ? u ? H|secs el ? u ? _ H]; subst.
  - by eapply synced_received.
  - by eapply synced_station.
  - by eapply synced_ap.
  - eapply synced_free_ticket; [|exact H]. by destruct Hs.
Qed.

Lemma synced_run s evs s' : synced s -> run s evs s' -> synced s'.
Proof. intros Hs Hrun. induction Hrun as [|s ev s1 evs s2 Hstep _ IH]; [done|]. apply IH. by eapply synced_step. Qed.
End restart.

(** ** The properties *)

Section properties.
Context {DB : Reldb} {MU : Uthash (list Z) mac_conn_info} {VU : Uthash Z vlan_conn}.
Context {BL : DlList bridge_mac_tuple} {EL : Eloop sup_timer}.
Context {FW : Firewall} {SV : Services}.
#[local] Abbreviation state := (sup (MU := MU) (VU := VU) (BL := BL)).
#[local] Abbreviation as_map l := (list_to_map (M := gmap (list Z) mac_conn_info) (pairs l)).
#[local] Abbreviation mac_map s := (hash_map (mac_mapper (s_ctx s))).

(** A supervisor as it starts, with the records [l] of its database. *)
Definition fresh_start (l : list mac_conn) (s : state) : Prop :=
  hash_wf (mac_mapper (s_ctx s)) /\ s_calls s = [] /\ durable <$> mac_map s = durable <$> as_map l.

(** A start that finds memory, the VLANs of the stations [m], and passphrases
    that fit. *)
Record bootable (crypt : list Z -> option (list Z)) (m : gmap (list Z) mac_conn_info) (b : boot) : Prop := {
  bt_macs : hash_wf (boot_macs b) /\ hash_map (boot_macs b) = ∅;
  bt_mem : mallocs (boot_env b) = [];
  bt_vlans : forall k i, m !! k = Some i -> is_Some (hash_map (boot_vlans b) !! mi_vlanid i);
  bt_crypt : forall k v, crypt k = Some v -> zlen v <= AP_SECRET_LEN
}.

Lemma durable_restored crypt uninit vlans i : durable (restored crypt uninit vlans i) = durable i.
Proof. unfold restored, with_stored_secret. destruct WITH_CRYPTO_SERVICE; [|done]. by destruct (crypt _). Qed.

Lemma durable_lookup (m m' : gmap (list Z) mac_conn_info) k i : durable <$> m = durable <$> m' -> m !! k = Some i ->
  exists j, m' !! k = Some j /\ durable j = durable i.
Proof.
  intros E Hk. assert ((durable <$> m) !! k = Some (durable i)) as H by (by rewrite lookup_fmap, Hk).
  rewrite E, lookup_fmap in H. destruct (m' !! k) as [j|]; [|done]. exists j. split; [done|]. cbn in H. congruence.
Qed.

Lemma restart_run l s0 evs s (d : rdb) : store_works -> fresh_start l s0 -> run s0 evs s -> db_holds d l ->
  Forall conn_ok (saved_conns (s_calls s)) ->
  exists d' l', save_entries (saved_conns (s_calls s)) d = Done (0, d') /\ db_holds d' l' /\
    forall crypt uninit b, macconn_db b = d' -> bootable crypt (mac_map s) b ->
    exists b', create_mac_mapper crypt uninit b = Done (0, b') /\ hash_wf (boot_macs b') /\
      durable <$> hash_map (boot_macs b') = durable <$> mac_map s /\ durable <$> hash_map (boot_macs b') = durable <$> as_map l'.
Proof.
  intros Hst (Hw0 & Hc0 & Hm0) Hrun Hd Hok.
  assert (synced (as_map l) s) as [Hw Hm] by (eapply synced_run; [done| |exact Hrun]; split; [done|by rewrite Hc0]).
  destruct (save_entries_holds _ d l Hd Hok) as (d' & E & Hd'). exists d'. eexists. split; [exact E|]. split; [exact Hd'|].
  intros crypt uninit b Hb [[Hwb Hmb] Hmem Hv Hcr]. set (l' := foldl replace_conn l _) in *.
  assert (as_map l' = records_from (as_map l) (saved_conns (s_calls s))) as Hl' by apply as_map_records. rewrite <- Hl' in Hm.
  destruct (create_run crypt uninit b l') as (b' & E' & Hw' & Hm'); [by rewrite Hb|done|done| |done|].
  { apply Forall_forall. intros c Hc. destruct (durable_lookup (as_map l') (mac_map s) (mac_addr c) (mac_info c)) as (j & Hj & Ej); [done| |].
    - apply elem_of_list_to_map_1; [rewrite pairs_macs; apply Hd'|]. apply list_elem_of_fmap. by exists c.
    - injection Ej as _ Ev _ _ _ _. rewrite <- Ev. by eapply Hv. }
  exists b'. split; [exact E'|]. split; [exact Hw'|]. rewrite Hm', Hmb, (right_id_L ∅ _), <- map_fmap_compose.
  assert (durable ∘ restored crypt uninit (hash_map (boot_vlans b)) <$> as_map l' = durable <$> as_map l') as ->; [|by rewrite Hm].
  apply map_fmap_ext. intros k i _. apply durable_restored.
Qed.

(** C11. What a supervisor knows of its stations survives a restart.  Take a
    supervisor that started with the records of its database and ran through any
    events, with a secret store that did not fail.  Its savings succeed, and a
    program that is started on the database they leave, with the VLANs of the
    stations configured, fills its table with the same stations: status, VLAN,
    NAT, permission, label and identifier of each are what they were.  So the
    new program starts again with the records of its database. *)
Theorem stations_survive_restart l s0 evs s (d : rdb) :
  store_works -> fresh_start l s0 -> run s0 evs s -> db_holds d l -> Forall conn_ok (saved_conns (s_calls s)) ->
  exists d' l', save_entries (saved_conns (s_calls s)) d = Done (0, d') /\ db_holds d' l' /\
    forall crypt uninit b, macconn_db b = d' -> bootable crypt (mac_map s) b ->
    exists b', create_mac_mapper crypt uninit b = Done (0, b') /\
      durable <$> hash_map (boot_macs b') = durable <$> mac_map s /\
      forall t : state, s_calls t = [] -> mac_mapper (s_ctx t) = boot_macs b' -> fresh_start l' t.
Proof.
  intros Hst H0 Hrun Hd Hok. destruct (restart_run l s0 evs s d Hst H0 Hrun Hd Hok) as (d' & l' & E & Hd' & Hb).
  exists d', l'. split; [exact E|]. split; [exact Hd'|]. intros crypt uninit b Eb Hbt.
  destruct (Hb crypt uninit b Eb Hbt) as (b' & E' & Hw & Hs & Hl). exists b'. split; [exact E'|]. split; [exact Hs|].
  intros t Ht Em. split; [by rewrite Em|]. split; [done|]. by rewrite Em.
Qed.

End properties.

(** ** A restart *)

Definition sample_vlans : @hash _ _ _ (list_uthash Z vlan_conn) :=
  HASH_ADD 3 {| vc_vlanid := 3; vc_ifname := cstr "br3"; vc_capture_pid := 0 |} hash_empty.
Definition sample_boot (d : @rdb list_reldb) : boot :=
  {| macconn_db := d; boot_macs := (hash_empty : @hash _ _ _ (list_uthash (list Z) mac_conn_info)); boot_vlans := sample_vlans;
     boot_env := Env [] [] |}.

Lemma empty_holds : db_holds empty_macconn_db [].
Proof. split; [done|done|constructor|constructor]. Qed.

Lemma sample_bootable (s : sup (MU := list_uthash _ _) (VU := list_uthash _ _) (BL := list_dl_list _)) d :
  map_Forall (fun _ i => mi_vlanid i = 3) (hash_map (mac_mapper (s_ctx s))) ->
  bootable (fun _ => None) (hash_map (mac_mapper (s_ctx s))) (sample_boot d).
Proof.
  intros Hv. split; [split; [apply hash_empty_wf|done]|done| |done].
  intros k i Hk%Hv. rewrite Hk, <- hash_find_map. by eexists.
Qed.

Definition no_vlan : vlan_conn := {| vc_vlanid := 0; vc_ifname := []; vc_capture_pid := 0 |}.
Definition after_join : sup := after (get_mac_conn_cmd sample_station) sample_sup.
Definition deny_data : list Z := cstr "DENY_MAC 02:00:00:00:00:01".
Definition sample_peer_addr : client_address := {| ca_path := []; ca_port := 0; ca_addr := []; ca_len := 0; ca_type := SOCKET_TYPE_DOMAIN |}.
Definition after_deny : sup := after (process_received_data 5 (Some 26) (Some (deny_data, sample_peer_addr))) after_join.

Lemma join_step : step sample_sup (station sample_station) after_join.
Proof. unfold after_join. eapply step_station, after_run. vm_compute. reflexivity. Qed.
Lemma deny_step : step after_join (datagram 5 (Some 26) (Some (deny_data, sample_peer_addr))) after_deny.
Proof.
  unfold after_deny. eapply step_datagram; [apply (bool_decide_unpack _); by vm_compute|]. eapply after_run. vm_compute. reflexivity.
Qed.

Lemma stations_survive_restart_witness : exists s d' b',
  run sample_sup [station sample_station] s /\ save_entries (saved_conns (s_calls s)) empty_macconn_db = Done (0, d') /\
  create_mac_mapper (fun _ => None) no_vlan (sample_boot d') = Done (0, b') /\
  durable <$> hash_map (boot_macs b') = durable <$> hash_map (mac_mapper (s_ctx s)).
Proof.
  assert (run sample_sup [station sample_station] after_join) as Hrun
    by (econstructor; [apply join_step|constructor]).
  destruct (stations_survive_restart [] sample_sup [station sample_station] after_join empty_macconn_db) as (d' & l' & E & Hd & Hb);
    [by intros|split; [apply hash_empty_wf|done]|exact Hrun|apply empty_holds|apply conns_ok_dec; by vm_compute|].
  destruct (Hb (fun _ => None) no_vlan (sample_boot d') eq_refl) as (b' & E' & Hs & _).
  { apply sample_bootable. apply (bool_decide_unpack _). by vm_compute. }
  exists after_join, d', b'. split; [exact Hrun|]. split; [exact E|]. split; [exact E'|exact Hs].
Defined.

