(* ===== verification/ApInv.v ===== *)
(** Properties of the access point service: its configuration file, its commands
    against a [hostapd] that behaves as documented, its events, and its start. *)
From stdpp Require Import strings numbers base list gmap.
From Stdlib Require Import ZArith Lia.
From S2P Require Import Prelude Os Paths Text Net Extern Mappers BridgeList Process Dhcp Firewall Supervisor SupervisorInv Sockctl RadiusServer Ap Access.

(** ** The configuration file *)

(** How [hostapd] reads it: lines, each with a name up to the first [=]. *)
Definition read_settings (text : list Z) : list (list Z * list Z) := omap (fun l => strchr l 61) (split_on 10 [] text).

Lemma read_settings_text kvs : Forall (fun kv => (10 ∉ kv.1) /\ (61 ∉ kv.1) /\ (10 ∉ kv.2)) kvs ->
  read_settings (text_of (setting_line <$> kvs)) = kvs.
Proof.
  unfold read_settings, text_of. induction 1 as [|[k v] kvs (Hk & He & Hv) _ IH]; [done|]. cbn [fst snd] in *.
  cbn [fmap list_fmap concat]. fold (setting_line (k, v)). rewrite <- app_assoc. change (NL ++ ?l) with (10 :: l).
  rewrite split_on_cut by (unfold setting_line; cbn [fst snd]; rewrite !elem_of_app; change (cstr "=") with [61]; rewrite list_elem_of_singleton; naive_solver).
  cbn [omap list_omap app]. unfold setting_line at 1. cbn [fst snd]. change (cstr "=" ++ v) with (61 :: v).
  rewrite strchr_app by (apply Forall_forall; intros x Hx ->; done). f_equal. exact IH.
Qed.

Lemma keys_ok hconf rconf : Forall (fun k => (10 ∉ k) /\ (61 ∉ k)) (hostapd_settings hconf rconf).*1 /\ NoDup (hostapd_settings hconf rconf).*1.
Proof.
  unfold hostapd_settings. rewrite fmap_app. destruct (vlan_tagged_interface hconf); cbn [fmap list_fmap fst app];
    split; apply (bool_decide_unpack _); by vm_compute.
Qed.

(** The configuration of [hostapd]: whatever the values, as long as none has a
    line feed, the file that is written has exactly the settings of the access
    point and of the RADIUS server, each name once. *)
Theorem hostapd_conf_correct hconf rconf (d : disk (list Z)) : dk_answers d = [] -> Forall (fun kv => 10 ∉ kv.2) (hostapd_settings hconf rconf) ->
  exists d' text, generate_hostapd_conf hconf rconf d = Done (0, d') /\ dk_files d' = <[ap_file_path hconf := text]> (dk_files d) /\
    read_settings text = hostapd_settings hconf rconf /\ NoDup (read_settings text).*1.
Proof.
  intros Ha Hv. destruct d as [ans dirs fls]. cbn in Ha. subst ans. eexists _, _. split; [reflexivity|]. split; [done|].
  destruct (keys_ok hconf rconf) as [Hk Hn]. rewrite read_settings_text; [done|]. rewrite Forall_fmap in Hk.
  eapply Forall_impl; [exact (proj2 (Forall_and _ _) (conj Hk Hv))|]. cbn. tauto.
Qed.

(** ** Events *)

(** An event as [hostapd] prints it: a level, a name, the station, and possibly
    more words. *)
Definition event_name (st : ap_connection_status) : list Z :=
  match st with AP_DISCONNECTED_STATUS => AP_STA_DISCONNECTED | _ => AP_STA_CONNECTED end.
Definition event_text (level : Z) (st : ap_connection_status) (mac more : list Z) : list Z :=
  cstr "<" ++ [level] ++ cstr ">" ++ event_name st ++ cstr " " ++ macstr mac ++ more.
Record event_ok (level : Z) (st : ap_connection_status) (mac more : list Z) : Prop := {
  eo_level : level ∈ cstr "0123456789";
  eo_status : st <> AP_DEFAULT_STATUS;
  eo_mac : bytes mac /\ zlen mac = 6;
  eo_more : more = [] \/ exists m c, more = 32 :: m ++ [c] /\ c ∉ [9; 10; 11; 12; 13; 32];
  eo_nul : nul_free more
}.

Lemma macstr_chars mac : bytes mac -> Forall (fun c => 48 <= c) (macstr mac).
Proof.
  assert (forall b, is_byte b -> Forall (fun c => 48 <= c) (fmt_02x b)) as Hb.
  { intros b [? ?]. assert (forall n, 0 <= n -> 48 <= hex_digit n) as Hd by (intros n Hn; unfold hex_digit; case_match; lia).
    repeat constructor; apply Hd; [by apply Z.div_pos|by apply Z.mod_pos_bound]. }
  induction 1 as [|b mac Hm _ IH]; [constructor|]. destruct mac; [by apply Hb|]. apply Forall_app. split; [by apply Hb|]. by constructor.
Qed.

Lemma event_words level st mac more : event_ok level st mac more -> exists words,
  split_on 32 [] (event_text level st mac more) = (cstr "<" ++ [level] ++ cstr ">" ++ event_name st) :: macstr mac :: words.
Proof.
  intros [Hl Hs [Hm _] Hmore _]. unfold event_text. rewrite !app_assoc. rewrite <- (app_assoc _ (cstr " ")), <- (app_assoc _ (_ ++ _) more).
  rewrite <- !app_assoc. change (cstr " " ++ ?t) with (32 :: t).
  replace (cstr "<" ++ [level] ++ cstr ">" ++ event_name st ++ 32 :: macstr mac ++ more)
    with ((cstr "<" ++ [level] ++ cstr ">" ++ event_name st) ++ 32 :: (macstr mac ++ more)) by (by rewrite <- !app_assoc).
  assert (32 ∉ macstr mac) as H32 by (intros H; assert (48 <= 32) by (by apply (proj1 (Forall_forall (fun c => 48 <= c) _) (macstr_chars mac Hm))); lia).
  rewrite split_on_cut; cycle 1.
  { intros H. apply elem_of_app in H as [H|H]; [revert H; apply (bool_decide_unpack _); by vm_compute|].
    apply elem_of_app in H as [<-%list_elem_of_singleton|H]; [revert Hl; apply (bool_decide_unpack _); by vm_compute|].
    revert H. destruct st; apply (bool_decide_unpack _); by vm_compute. }
  destruct Hmore as [-> | (m & c & -> & _)]; [rewrite app_nil_r, split_on_last by done|rewrite split_on_cut by done]; by eexists.
Qed.

Lemma event_status level st mac more : event_ok level st mac more ->
  match strstr (cstr "<" ++ [level] ++ cstr ">" ++ event_name st) AP_STA_CONNECTED, strstr (event_text level st mac more) AP_STA_DISCONNECTED with
  | Some _, _ => Some AP_CONNECTED_STATUS
  | None, Some _ => Some AP_DISCONNECTED_STATUS
  | None, None => None
  end = Some st.
Proof.
  intros [Hl Hs _ _ _]. destruct st; [done| |].
  - destruct (strstr _ AP_STA_CONNECTED) eqn:E; [done|]. exfalso.
    assert (is_Some (strstr (cstr "<" ++ [level] ++ cstr ">" ++ event_name AP_CONNECTED_STATUS) AP_STA_CONNECTED)) as [? H]; [|congruence].
    apply strstr_some. exists (cstr "<" ++ [level] ++ cstr ">"), []. by rewrite <- !app_assoc.
  - assert (strstr (cstr "<" ++ [level] ++ cstr ">" ++ event_name AP_DISCONNECTED_STATUS) AP_STA_CONNECTED = None) as ->.
    { vm_compute in Hl. repeat (apply elem_of_cons in Hl as [-> | Hl]; [by vm_compute|]). by apply elem_of_nil in Hl. }
    destruct (strstr (event_text _ _ _ _) _) eqn:E; [done|]. exfalso.
    assert (is_Some (strstr (event_text level AP_DISCONNECTED_STATUS mac more) AP_STA_DISCONNECTED)) as [? H]; [|congruence].
    apply strstr_some. exists (cstr "<" ++ [level] ++ cstr ">"), (cstr " " ++ macstr mac ++ more). unfold event_text. by rewrite <- !app_assoc.
Qed.

Lemma find_status_run level st mac more rs : event_ok level st mac more ->
  find_ap_status (event_text level st mac more) (Env [] rs) = Done (Some (mac, st), Env [] rs).
Proof.
  intros He. destruct (event_words _ _ _ _ He) as (words & Ew). unfold find_ap_status.
  erewrite bind_run by (by apply split_array_run). rewrite Ew. cbn [fst snd]. rewrite !zlen_cons.
  rewrite (proj2 (Z.leb_gt _ _)) by (pose proof (zlen_nonneg words); lia). rewrite (event_status _ _ _ _ He).
  destruct He as [_ _ [Hm Hl] _ _]. assert (edge_hwaddr_aton2 (macstr mac ++ [0]) = Done (zlen (macstr mac ++ [0]) - 1, mac)) as Ea.
  { unfold edge_hwaddr_aton2. replace (Z.to_nat ETHER_ADDR_LEN) with (length mac) by (unfold zlen in Hl; change ETHER_ADDR_LEN with 6; lia).
    by rewrite hwaddr_loop_macstr. }
  erewrite bind_run by (rewrite Ea; apply lift_run). cbn [fst snd]. rewrite zlen_app, (proj2 (Z.ltb_ge _ _)); [done|].
  change (zlen [0]) with 1. pose proof (zlen_nonneg (macstr mac)). lia.
Qed.

Lemma event_plain level st mac more : event_ok level st mac more ->
  nul_free (event_text level st mac more) /\ rtrim (Some (event_text level st mac more)) None = Some (event_text level st mac more).
Proof.
  intros [Hl Hs [Hm Hlen] Hmore Hnul]. pose proof (macstr_chars mac Hm) as Hc. split.
  - unfold event_text. rewrite !Forall_app. split_and!; try (apply (bool_decide_unpack _); by vm_compute); [| |eapply Forall_impl; [exact Hc|cbn; lia]|done].
    + constructor; [|constructor]. intros ->. revert Hl. apply (bool_decide_unpack _). by vm_compute.
    + destruct st; apply (bool_decide_unpack _); by vm_compute.
  - destruct Hmore as [-> | (m & c & -> & Hw)].
    + destruct (macstr mac) as [|x t _] eqn:E using rev_ind; [destruct mac as [|? [|? ?]]; done|]. unfold event_text. rewrite E, app_nil_r, !app_assoc.
      apply rtrim_id. apply Forall_app in Hc as [_ [Hx _]%list.Forall_cons]. intros H. set_unfold in H. lia.
    + unfold event_text. rewrite !app_assoc. change (32 :: m ++ [c]) with ((32 :: m) ++ [c]). rewrite app_assoc. by apply rtrim_id.
Qed.

Lemma same_path c : with_ctrl_path (ctrl_interface_path c) c = c.
Proof. by destruct c. Qed.

Section events.
Context {H X : Type} {P : Peer H} (fn : list Z -> ap_connection_status -> prog X unit).

(** A datagram waits on the socket, and the calls work. *)
Record waiting (sock : Z) (d from : list Z) (s : ap_state H X) : Prop := {
  wa_answers : dk_answers (sy_disk (as_sys s)) = [];
  wa_env : mallocs (sy_env (as_sys s)) = [];
  wa_first : exists k q, sy_socks (as_sys s) !! sock = Some k /\ so_queue k = (d, Path from) :: q;
  wa_from : nul_free from /\ zlen from < SUN_PATH_LEN;
  wa_len : zlen d < 2 ^ 32 - 1
}.
(** The state with the datagram read and the path of the sender stored. *)
Definition received (sock : Z) (from : list Z) (s : ap_state H X) : ap_state H X :=
  let y := as_sys s in
  Build_ap_state (as_host s) (as_disk s)
    (Build_sys (alter dequeue sock (sy_socks y)) (sy_next y) (sy_disk y) (sy_names y) (sy_stray y) (sy_sent y) (sy_peer y) (sy_env y))
    (as_hostname s) (with_ctrl_path from (as_hconf s)) (hostapd_proc_name s) (ap_process_started s) (ap_sock s) (as_loop s) (as_ctx s).

Lemma handler_run sock d from s t : waiting sock d from s -> rtrim (Some (until_nul d)) None = Some t ->
  ap_sock_handler fn sock s =
  (f ← ap_on_sys (on_env (find_ap_status t)); match f with Some (mac, st) => ap_on_ctx (fn mac st) | None => mret tt end) (received sock from s).
Proof.
  intros [Ha He (k & q & Hk & Hq) [H0 Hf] Hd] Ht. destruct s as [ho ds [ks n [ans dirs fls] nms stray sent h [ms rs]] hn c pn st ap lp cx].
  cbn [as_sys sy_disk sy_env sy_socks dk_answers mallocs] in Ha, He, Hk. subst ans ms. destruct k as [ty ad qu]. cbn in Hq. subst qu. unfold ap_sock_handler.
  erewrite bind_run; cycle 1.
  { unfold ap_on_sys. cbn [as_sys]. unfold ioctl_fionread. erewrite bind_run by apply works_run. cbn [negb]. erewrite bind_run by reflexivity.
    cbn [sy_socks]. rewrite Hk. reflexivity. }
  cbn beta iota. erewrite bind_run by reflexivity. cbn [negb]. erewrite bind_run by reflexivity. erewrite bind_run; cycle 1.
  { unfold ap_on_sys. cbn [as_sys]. unfold read_domain_data_s, read_socket_data, read_socket_domain. erewrite bind_run; cycle 1.
    { unfold recvfrom. erewrite bind_run by apply works_run. erewrite bind_run by reflexivity. cbn [sy_socks]. rewrite Hk. reflexivity. }
    erewrite bind_run by (cbn [copy_sun_path snd]; rewrite until_nul_id by done; rewrite (proj2 (Z.leb_gt _ _)) by done; apply lift_run). reflexivity. }
  erewrite bind_run by reflexivity. cbn [fst snd fmap option_fmap option_map default as_host as_disk as_hostname as_hconf hostapd_proc_name ap_process_started ap_sock as_loop as_ctx].
  rewrite take_ge by (rewrite wrap_small by (pose proof (zlen_nonneg d); lia); by rewrite to_nat_zlen).
  erewrite bind_run by (rewrite rec_string_run by done; apply lift_run). rewrite Ht. done.
Qed.

(** An event of the access point reaches the supervisor: of a datagram that
    [hostapd] sends for a station that connects or disconnects, the callback gets
    the station and its status, once, and nothing else changes. *)
Theorem ap_event_reported sock level st mac more s x : event_ok level st mac more ->
  waiting sock (event_text level st mac more) (ctrl_interface_path (as_hconf s)) s -> fn mac st (as_ctx s) = Done (tt, x) ->
  exists s', ap_sock_handler fn sock s = Done (tt, s') /\ as_ctx s' = x /\ as_hconf s' = as_hconf s /\
    sy_socks (as_sys s') = alter dequeue sock (sy_socks (as_sys s)) /\ sy_peer (as_sys s') = sy_peer (as_sys s).
Proof.
  intros He Hw Hfn. destruct (event_plain _ _ _ _ He) as [Hn Ht].
  rewrite (handler_run sock _ _ s _ Hw) by (rewrite until_nul_id by done; exact Ht).
  destruct Hw as [Ha Hm _ _ _]. destruct s as [ho ds [ks n [ans dirs fls] nms stray sent h [ms rs]] hn c pn sd ap lp cx].
  cbn [as_sys sy_disk sy_env dk_answers mallocs as_ctx] in Ha, Hm, Hfn. subst ans ms.
  unfold received. cbn [as_host as_disk as_sys as_hostname as_hconf hostapd_proc_name ap_process_started ap_sock as_loop as_ctx].
  erewrite bind_run by (unfold ap_on_sys, on_env; cbn [as_sys sy_env]; rewrite find_status_run by done; reflexivity). cbn beta iota.
  unfold ap_on_ctx. cbn [as_ctx]. rewrite Hfn. eexists. split; [reflexivity|]. cbn. by rewrite same_path.
Qed.

Lemma no_event t rs : (32 ∉ t) -> find_ap_status t (Env [] rs) = Done (None, Env [] rs).
Proof.
  intros Ht. unfold find_ap_status. erewrite bind_run by (by apply split_array_run). rewrite split_on_last by done. done.
Qed.

Lemma rtrim_sub (t : list Z) x seps : x ∉ t -> exists t', rtrim (Some t) seps = Some t' /\ x ∉ t'.
Proof.
  intros Hx. eexists. split; [reflexivity|]. rewrite elem_of_reverse. assert (x ∉ reverse t) as Hr by (by rewrite elem_of_reverse). clear Hx.
  induction (reverse t) as [|c l IH]; cbn [rtrim_loop]; [done|]. case_bool_decide; [|done]. apply IH. intros H'. apply Hr. by right.
Qed.

End events.

(** ** Events and the supervisor *)

Section supervised.
Context {H : Type} {P : Peer H}.
Context {MU : Uthash (list Z) mac_conn_info} {VU : Uthash Z vlan_conn}.
Context {BL : DlList bridge_mac_tuple} {EL : Eloop sup_timer}.
Context {FW : Firewall} {SV : Services}.
#[local] Abbreviation state := (sup (MU := MU) (VU := VU) (BL := BL)).

Lemma on_sys_ctx {A X} (m : prog (sys H) A) (s s' : ap_state H X) a : ap_on_sys m s = Done (a, s') -> as_ctx s' = as_ctx s.
Proof. unfold ap_on_sys. destruct (m (as_sys s)) as [[x y]|]; [|done]. by injection 1 as <- <-. Qed.

Lemma lift_same {S A} (o : outcome A) (s s' : S) a : lift_outcome o s = Done (a, s') -> s' = s.
Proof. unfold lift_outcome. destruct o; [|done]. by injection 1 as _ <-. Qed.

(** What the handler does to the supervisor: nothing, or one call of the callback. *)
Lemma handler_ctx {X} (fn : list Z -> ap_connection_status -> prog X unit) sock (s s' : ap_state H X) : ap_sock_handler fn sock s = Done (tt, s') ->
  as_ctx s' = as_ctx s \/ exists mac st, fn mac st (as_ctx s) = Done (tt, as_ctx s').
Proof.
  unfold ap_sock_handler. intros E. apply bind_done in E as (n & s1 & E1 & E). apply on_sys_ctx in E1. rewrite <- E1.
  destruct n as [n|]; [|injection E as <-; by left].
  apply bind_done in E as (ok & s2 & E2 & E). apply on_sys_ctx in E2. rewrite <- E2. destruct ok; cbn [negb] in E; [|injection E as <-; by left].
  apply bind_done in E as (c & s3 & E3 & E). injection E3 as <- <-. apply bind_done in E as (x & s4 & E4 & E). apply on_sys_ctx in E4. rewrite <- E4.
  apply bind_done in E as ([] & s5 & E5 & E). injection E5 as E5. assert (as_ctx s5 = as_ctx s4) as E5' by (by rewrite <- E5). rewrite <- E5'.
  destruct x.1 as [data|]; [|injection E as <-; by left]. apply bind_done in E as (r & s6 & E6 & E). apply lift_same in E6. subst s6.
  destruct (rtrim _ _) as [t|]; [|injection E as <-; by left]. apply bind_done in E as (f & s7 & E7 & E). apply on_sys_ctx in E7. rewrite <- E7.
  destruct f as [[mac st]|]; [|injection E as <-; by left]. right. exists mac, st. unfold ap_on_ctx in E.
  destruct (fn mac st (as_ctx s7)) as [[[] x']|] eqn:Ef; [|done]. by injection E as <-.
Qed.

End supervised.

(** ** Commands *)

(** The control interface of [hostapd], as its documentation has it: the stations
    that are connected, the addresses that are denied, and what the commands the
    service uses do to them. Replies end with a line feed. *)
Class Hostapd (H : Type) `{Peer H} := {
  stations : H -> gset (list Z);
  denied : H -> gset (list Z);
  ha_ping h : peer_step h PING_AP_COMMAND = (h, Some (PING_AP_COMMAND_REPLY ++ NL));
  ha_add h mac : bytes mac -> zlen mac = 6 ->
    let r := peer_step h (DENYACL_ADD_COMMAND ++ cstr " " ++ macstr mac) in
    r.2 = Some (GENERIC_AP_COMMAND_OK_REPLY ++ NL) /\
    denied r.1 = {[macstr mac]} ∪ denied h /\ stations r.1 = stations h ∖ {[macstr mac]};
  ha_del h mac : bytes mac -> zlen mac = 6 ->
    let r := peer_step h (DENYACL_DEL_COMMAND ++ cstr " " ++ macstr mac) in
    r.2 = Some (GENERIC_AP_COMMAND_OK_REPLY ++ NL) /\
    denied r.1 = denied h ∖ {[macstr mac]} /\ stations r.1 = stations h;
  ha_sta h mac : bytes mac -> zlen mac = 6 -> exists more,
    peer_step h (STA_AP_COMMAND ++ cstr " " ++ macstr mac) =
      (h, Some (if decide (macstr mac ∈ stations h) then macstr mac ++ NL ++ more else GENERIC_AP_COMMAND_FAIL_REPLY ++ NL)) /\
    zlen more < 2 ^ 16
}.

Lemma macstr_len mac : zlen mac = 6 -> zlen (macstr mac) = 17.
Proof. intros Hl. do 7 (destruct mac as [|? mac]; try done). cbn in Hl. rewrite !zlen_cons in Hl. pose proof (zlen_nonneg mac). lia. Qed.

(** Trimming a text keeps its first character, if that is not white space. *)
Lemma rtrim_first c t : c ∉ [9; 10; 11; 12; 13; 32] -> exists t', rtrim (Some (c :: t)) None = Some (c :: t').
Proof.
  intros Hc. unfold rtrim. rewrite reverse_cons. assert (forall l, exists l', rtrim_loop (l ++ [c]) [9; 10; 11; 12; 13; 32] = l' ++ [c]) as Hl.
  { induction l as [|x l (l' & IH)]; cbn [app rtrim_loop].
    - rewrite bool_decide_false by done. by exists [].
    - case_bool_decide; [by exists l'|]. by exists (x :: l). }
  destruct (Hl (reverse t)) as (l' & ->). exists (reverse l'). by rewrite reverse_app.
Qed.

Lemma macstr_head mac more : bytes mac -> zlen mac = 6 ->
  exists c t, rtrim (Some (until_nul (macstr mac ++ NL ++ more))) None = Some (c :: t) /\ c <> 70.
Proof.
  intros Hm Hl. destruct mac as [|b [|b' mac]]; [done..|]. apply list.Forall_cons in Hm as [Hb _].
  change (macstr (b :: b' :: mac)) with (hex_digit (b / 16) :: hex_digit (b mod 16) :: 58 :: macstr (b' :: mac)). cbn [app until_nul].
  assert (0 <= b / 16 < 16) as Hd by (split; [apply Z.div_pos|apply Z.div_lt_upper_bound]; unfold is_byte in Hb; lia).
  assert (48 <= hex_digit (b / 16) /\ hex_digit (b / 16) <> 70) as [Hd1 Hd2] by (unfold hex_digit; case_match; lia).
  rewrite (proj2 (Z.eqb_neq _ 0)) by lia. destruct (rtrim_first (hex_digit (b / 16)) (if hex_digit (b mod 16) =? 0 then [] else hex_digit (b mod 16) :: (if 58 =? 0 then [] else 58 :: until_nul (macstr (b' :: mac) ++ NL ++ more)))) as (t & E).
  - intros H. set_unfold in H. lia.
  - exists (hex_digit (b / 16)), t. split; [exact E|done].
Qed.

Section commands.
Context {H X : Type} {P : Peer H} {HA : Hostapd H} (abstract : bool).

Definition with_sys (y : sys H) (s : ap_state H X) : ap_state H X :=
  Build_ap_state (as_host s) (as_disk s) y (as_hostname s) (as_hconf s) (hostapd_proc_name s) (ap_process_started s) (ap_sock s) (as_loop s) (as_ctx s).

(** The service talks to [hostapd], and [m] exchanges can be made. *)
Record connected (m : nat) (s : ap_state H X) : Prop := {
  co_peer : peer_addr = Path (ctrl_interface_path (as_hconf s));
  co_path : nul_free (ctrl_interface_path (as_hconf s)) /\ zlen (ctrl_interface_path (as_hconf s)) < SUN_PATH_LEN;
  co_sys : sys_ready abstract m (as_sys s)
}.
(** What a command leaves as it is. *)
Record same_service (s s' : ap_state H X) : Prop := {
  ss_conf : as_hconf s' = as_hconf s;
  ss_socks : sy_socks (as_sys s') = sy_socks (as_sys s);
  ss_files : dk_files (sy_disk (as_sys s')) = dk_files (sy_disk (as_sys s));
  ss_ctx : as_ctx s' = as_ctx s
}.

Lemma ap_exchange_run m cmd reply s : connected (S m) s -> (peer_step (sy_peer (as_sys s)) cmd).2 = Some reply -> zlen reply < 2 ^ 32 - 1 ->
  exists y, ap_exchange abstract cmd s = Done ((0, rtrim (Some (until_nul reply)) None), with_sys y s) /\
    connected m (with_sys y s) /\ same_service s (with_sys y s) /\ sy_peer y = (peer_step (sy_peer (as_sys s)) cmd).1 /\
    sy_sent y = sy_sent (as_sys s) ++ [(peer_addr, cmd)].
Proof.
  intros [Hp [H0 Hl] Hs] Hr Hrl. destruct (exchange_ready _ m _ cmd reply _ Hs Hp H0 Hl Hr Hrl) as (y & E & Hy & Hpeer & Hsent & Hk & Hf).
  exists y. split; [|split; [|split; [|split]]].
  - unfold ap_exchange. erewrite bind_run by reflexivity. erewrite bind_run by (unfold ap_on_sys; rewrite E; reflexivity).
    erewrite bind_run by reflexivity. cbn [fst snd]. unfold with_sys.
    cbn [as_host as_disk as_sys as_hostname as_hconf hostapd_proc_name ap_process_started ap_sock as_loop as_ctx]. by rewrite same_path.
  - split; [exact Hp|done|exact Hy].
  - split; [done|exact Hk|exact Hf|done].
  - exact Hpeer.
  - by rewrite Hsent, Hp.
Qed.

Lemma malloc_sys m s : connected m s -> ap_on_sys (on_env malloc) s = Done (true, s).
Proof.
  intros [_ _ [_ He _ _ _ _]]. destruct s as [ho ds [ks n d nms stray sent h [ms rs]] hn c pn sd ap lp cx]. cbn in He. by subst ms.
Qed.

Lemma denyacl_run m cmd mac s : connected (S m) s -> (peer_step (sy_peer (as_sys s)) (cmd ++ cstr " " ++ mac)).2 = Some (GENERIC_AP_COMMAND_OK_REPLY ++ NL) ->
  exists y, denyacl_ap_command abstract cmd (Some mac) s = Done (0, with_sys y s) /\ connected m (with_sys y s) /\ same_service s (with_sys y s) /\
    sy_peer y = (peer_step (sy_peer (as_sys s)) (cmd ++ cstr " " ++ mac)).1 /\ sy_sent y = sy_sent (as_sys s) ++ [(peer_addr, cmd ++ cstr " " ++ mac)].
Proof.
  intros Hc Hr. destruct (ap_exchange_run m (cmd ++ cstr " " ++ mac) _ s Hc Hr) as (y & E & Hc' & Hs & Hp & Hsent); [done|].
  exists y. split; [|done]. unfold denyacl_ap_command. erewrite bind_run by (by eapply malloc_sys). cbn [negb]. erewrite bind_run by exact E.
  reflexivity.
Qed.

(** Disconnecting a station: [hostapd] gets the two commands, denies the
    station and then no longer denies it, so that it loses its connection and may
    come back; other stations and other denied addresses are as before, and so
    are the configuration, the sockets and the supervisor. *)
Theorem disconnect_correct mac s : connected 2 s -> bytes mac -> zlen mac = 6 ->
  exists s', disconnect_station abstract (Some (macstr mac)) s = Done (0, s') /\ same_service s s' /\
    stations (sy_peer (as_sys s')) = stations (sy_peer (as_sys s)) ∖ {[macstr mac]} /\
    denied (sy_peer (as_sys s')) = denied (sy_peer (as_sys s)) ∖ {[macstr mac]}.
Proof.
  intros Hc Hm Hl. destruct (ha_add (sy_peer (as_sys s)) mac Hm Hl) as (Hr & Hd & Hst).
  destruct (denyacl_run 1 DENYACL_ADD_COMMAND (macstr mac) s Hc Hr) as (y1 & E1 & Hc1 & Hs1 & Hp1 & _).
  destruct (ha_del (sy_peer y1) mac Hm Hl) as (Hr2 & Hd2 & Hst2).
  destruct (denyacl_run 0 DENYACL_DEL_COMMAND (macstr mac) (with_sys y1 s) Hc1 Hr2) as (y2 & E2 & Hc2 & Hs2 & Hp2 & _).
  exists (with_sys y2 (with_sys y1 s)). split.
  { unfold disconnect_station. erewrite bind_run by exact E1. cbn [Z.ltb Z.compare]. erewrite bind_run by exact E2. done. }
  split; [destruct Hs1, Hs2; split; congruence|]. cbn [with_sys as_sys] in *. rewrite Hp2, Hst2, Hd2, Hp1, Hst, Hd. split; [done|]. set_solver.
Qed.

(** Asking for a station is answered with success exactly when [hostapd] has
    it connected, and pinging with success; neither changes anything. *)
Theorem station_check_correct mac s : connected 2 s -> bytes mac -> zlen mac = 6 ->
  exists r s1 s2, check_sta_ap_command abstract (Some (macstr mac)) s = Done (r, s1) /\ (r = 0 \/ r = -1) /\
    (r = 0 <-> macstr mac ∈ stations (sy_peer (as_sys s))) /\ same_service s s1 /\ sy_peer (as_sys s1) = sy_peer (as_sys s) /\
    ping_ap_command abstract s1 = Done (0, s2) /\ same_service s s2 /\ sy_peer (as_sys s2) = sy_peer (as_sys s).
Proof.
  intros Hc Hm Hl. destruct (ha_sta (sy_peer (as_sys s)) mac Hm Hl) as (more & Hsta & Hmore).
  destruct (ap_exchange_run 1 _ _ s Hc (f_equal snd Hsta)) as (y1 & E1 & Hc1 & Hs1 & Hp1 & _).
  { destruct (decide _); [|done]. rewrite !zlen_app, (macstr_len mac) by done. change (zlen NL) with 1. lia. }
  destruct (ap_exchange_run 0 PING_AP_COMMAND (PING_AP_COMMAND_REPLY ++ NL) (with_sys y1 s) Hc1) as (y2 & E2 & Hc2 & Hs2 & Hp2 & _);
    [by rewrite ha_ping|done|].
  rewrite Hsta in Hp1. cbn [fst] in Hp1.
  exists (if decide (macstr mac ∈ stations (sy_peer (as_sys s))) then 0 else -1), (with_sys y1 s), (with_sys y2 (with_sys y1 s)). split; [|split; [|split; [|split; [done|split; [done|split; [|split]]]]]].
  - unfold check_sta_ap_command. erewrite bind_run by (by eapply malloc_sys). cbn [negb]. erewrite bind_run by exact E1. cbn [fst snd Z.ltb Z.compare].
    destruct (decide _) as [Hin|Hout]; [|reflexivity]. destruct (macstr_head mac more Hm Hl) as (c & t & -> & Hne). rewrite bool_decide_false; [done|].
    by injection 1 as ->.
  - destruct (decide _); auto.
  - destruct (decide _); split; done.
  - unfold ping_ap_command. erewrite bind_run by exact E2. reflexivity.
  - destruct Hs1, Hs2; split; congruence.
  - cbn [with_sys as_sys] in *. rewrite Hp2, ha_ping. cbn [fst]. done.
Qed.
End commands.

(** ** Starting *)

(** [kill_process] on a machine where the calls work. *)
Lemma kill_ok h name : host_ok h -> name <> [] -> name <> cstr "." -> (0 ∉ name) ->
  exists h', kill_process name h = Done (true, h') /\ host_ok h' /\ ho_starts h' = ho_starts h /\ ho_runs h' = ho_runs h.
Proof.
  intros [Ha He Hl] Hn Hd H0. destruct (ho_env h) as [ms rs] eqn:Henv. cbn in He. subst ms. destruct (Hl (ho_count h)) as (entries & Hent & Hok).
  destruct (signal_process_run h name SIGTERM entries rs) as (l & E & _); [done..|]. eexists. split; [exact E|].
  split; [|done]. split; [exact Ha|cbn; by rewrite Henv|exact Hl].
Qed.

Lemma run_process_ok h bin rest : host_ok h -> bin <> [] ->
  run_process (Some (bin :: rest)) h =
  Done (match default START_RUNNING (head (ho_starts h)) with START_FAILED => -1 | START_EXITED status => status | START_RUNNING => 0 end,
    {| ho_listing := ho_listing h; ho_count := ho_count h; ho_realpath := ho_realpath h; ho_argv0 := ho_argv0 h;
       ho_pid := ho_pid h; ho_pgid := ho_pgid h; ho_answers := ho_answers h; ho_starts := tail (ho_starts h);
       ho_signals := ho_signals h; ho_runs := ho_runs h ++ [bin :: rest]; ho_env := ho_env h |}).
Proof.
  intros [Ha He _] Hb. destruct (ho_env h) as [ms rs] eqn:Henv. cbn in He. subst ms. destruct bin as [|c bin]; [done|].
  unfold run_process. erewrite bind_run by (by apply call_same). cbn [Z.eqb negb].
  erewrite bind_run by (apply alloc_same; rewrite Henv; apply array_text_run). erewrite bind_run by reflexivity. by rewrite Henv.
Qed.

Lemma ap_start_run bin rest name k : bin <> [] -> name <> [] -> name <> cstr "." -> (0 ∉ name) -> forall h fuel,
  host_ok h -> ho_starts h = replicate k START_FAILED -> (k < fuel)%nat ->
  exists h', ap_start_loop fuel (bin :: rest) name h = Done (Some 0, h') /\ ho_runs h' = ho_runs h ++ replicate (S k) (bin :: rest) /\ host_ok h'.
Proof.
  intros Hb Hn Hd H0. induction k as [|k IH]; intros h fuel Hok Hst Hf; (destruct fuel as [|fuel]; [lia|]); cbn [ap_start_loop];
    erewrite bind_run by (by apply run_process_ok); rewrite Hst; cbn [replicate head from_option id tail].
  - eexists. split; [reflexivity|]. split; [done|]. destruct Hok as [Ha He Hl]. by split.
  - cbn [Z.ltb Z.compare].
    destruct (kill_ok {| ho_listing := ho_listing h; ho_count := ho_count h; ho_realpath := ho_realpath h; ho_argv0 := ho_argv0 h;
       ho_pid := ho_pid h; ho_pgid := ho_pgid h; ho_answers := ho_answers h; ho_starts := replicate k START_FAILED;
       ho_signals := ho_signals h; ho_runs := ho_runs h ++ [bin :: rest]; ho_env := ho_env h |} name) as (h1 & E1 & Hok1 & Hs1 & Hr1); [|done..|].
    { destruct Hok as [Ha He Hl]. by split. }
    erewrite bind_run by exact E1. cbn [negb]. destruct (IH h1 fuel) as (h' & E & Hr & Hok'); [done|by rewrite Hs1|lia|].
    exists h'. split; [exact E|]. split; [|done]. rewrite Hr, Hr1. cbn [ho_runs]. by rewrite <- app_assoc.
Qed.

(** The restarts end: a program that fails to start [k] times and then runs is
    started [k + 1] times, and the loop reports success. *)
Theorem ap_start_terminates bin rest name k : bin <> [] -> name <> [] -> name <> cstr "." -> (0 ∉ name) -> forall h fuel,
  host_ok h -> ho_starts h = replicate k START_FAILED -> (k < fuel)%nat ->
  exists h', ap_start_loop fuel (bin :: rest) name h = Done (Some 0, h') /\ ho_runs h' = ho_runs h ++ replicate (S k) (bin :: rest) /\ host_ok h'.
Proof. apply ap_start_run. Qed.

Section start.
Context {H X : Type} {P : Peer H} {HA : Hostapd H} (abstract : bool).

(** The state with a new machine, process name and flag. *)
Definition with_process (h : host) (name : list Z) (b : bool) (s : ap_state H X) : ap_state H X :=
  Build_ap_state h (as_disk s) (as_sys s) (as_hostname s) (as_hconf s) name b (ap_sock s) (as_loop s) (as_ctx s).

Lemma run_ap_process_run k fuel s : let c := as_hconf s in
  host_ok (as_host s) -> ho_starts (as_host s) = replicate k START_FAILED -> (k < fuel)%nat -> program_ok (ap_bin_path c) ->
  exists h', run_ap_process fuel s = Done (0, with_process h' (basename (ap_bin_path c)) true s) /\
    ho_runs h' = ho_runs (as_host s) ++ replicate (S k) (get_hostapd_args (ap_bin_path c) (ap_file_path c) (ap_log_path c)).
Proof.
  intros c Hok Hst Hf (B1 & B2 & B3 & B4 & B5 & B6 & B7). set (argv := get_hostapd_args _ _ _).
  assert (exists rest, argv = ap_bin_path c :: rest) as (rest & Hargv) by (unfold argv, get_hostapd_args; case_match; by eexists).
  assert (0 ∉ basename (ap_bin_path c)) as H0 by (intros Hin; by eapply (proj1 (Forall_forall _ _) B6)).
  destruct (kill_ok (as_host s) _ Hok B4 B5 H0) as (h1 & E1 & Hok1 & Hs1 & Hr1).
  destruct (ap_start_run (ap_bin_path c) rest _ k B2 B4 B5 H0 h1 fuel Hok1) as (h2 & E2 & Hr2 & _); [by rewrite Hs1|done|].
  exists h2. split; [|by rewrite Hr2, Hr1, Hargv]. unfold run_ap_process. erewrite bind_run by reflexivity. fold c argv.
  destruct (copy_argv_run argv (ho_env (as_host s))) as (ok & e' & Hm & Hc). pose proof (hk_env _ Hok) as He.
  destruct (ho_env (as_host s)) as [ms rs] eqn:Henv. cbn in He. subst ms. rewrite malloc_nil in Hm. injection Hm as <- <-.
  erewrite bind_run by (unfold ap_on_host; erewrite alloc_same by (rewrite Henv; exact Hc); reflexivity). cbn beta iota.
  erewrite bind_run by reflexivity. erewrite bind_run by reflexivity. cbn [hostapd_proc_name]. unfold ap_name.
  rewrite !clip_short by (rewrite ?clip_short; lia). erewrite bind_run by (unfold ap_on_host; cbn [as_host]; rewrite E1; reflexivity). cbn [negb].
  erewrite bind_run by (unfold ap_on_host; cbn [as_host]; rewrite Hargv, E2; reflexivity). cbn beta iota. reflexivity.
Qed.

Lemma register_run m (s : ap_state H X) : connected abstract (S m) s -> dk_answers (as_disk s) = [] ->
  exists s', register_ap_event abstract s = Done (0, s') /\ as_host s' = as_host s /\ as_disk s' = as_disk s /\ as_hconf s' = as_hconf s /\
    ap_process_started s' = ap_process_started s /\ as_loop s' = as_loop s ++ [ap_sock s'] /\ is_Some (sy_socks (as_sys s') !! ap_sock s') /\
    sy_sent (as_sys s') = sy_sent (as_sys s) ++ [(peer_addr, ATTACH_AP_COMMAND ++ [0])].
Proof.
  intros [Hp [H0 Hl] Hs] Hd. destruct (client_send_ready abstract m _ (ATTACH_AP_COMMAND ++ [0]) _ Hs Hp Hl) as (y1 & y2 & E1 & E2 & Hopen & Hsent & _).
  pose proof (sd_next _ _ _ Hs) as Hn. destruct s as [ho [ans dirs fls] y hn c pn sd ap lp cx]. cbn [as_disk dk_answers as_sys as_hconf] in *. subst ans.
  set (mk' (y : sys H) fd lp := Build_ap_state ho (Build_disk [] dirs fls) y hn c pn sd fd lp cx : ap_state H X). exists (mk' y2 (sy_next y) (lp ++ [sy_next y])). split.
  { unfold register_ap_event. rewrite (bind_run _ _ _ (sy_next y) (mk' y1 ap lp)) by (unfold ap_on_sys; cbn [as_sys]; by rewrite E1).
    rewrite (bind_run _ _ _ tt (mk' y1 (sy_next y) lp)) by done. rewrite (proj2 (Z.eqb_neq _ (-1))) by lia.
    rewrite (bind_run _ _ _ 0 (mk' y1 (sy_next y) (lp ++ [sy_next y]))) by done. cbn [Z.eqb]. rewrite (bind_run _ _ _ c (mk' y1 (sy_next y) (lp ++ [sy_next y]))) by done.
    rewrite (bind_run _ _ _ (zlen (ATTACH_AP_COMMAND ++ [0])) (mk' y2 (sy_next y) (lp ++ [sy_next y]))) by (unfold ap_on_sys; cbn [as_sys as_hconf mk']; by rewrite E2).
    done. }
  subst mk'. cbn [as_host as_disk as_hconf ap_process_started as_loop ap_sock as_sys]. by rewrite Hsent, Hp.
Qed.

Lemma ping_run m (s : ap_state H X) : connected abstract (S m) s -> exists y, ping_ap_command abstract s = Done (0, with_sys y s) /\ connected abstract m (with_sys y s) /\
  sy_sent y = sy_sent (as_sys s) ++ [(peer_addr, PING_AP_COMMAND)].
Proof.
  intros Hc. destruct (ap_exchange_run abstract m PING_AP_COMMAND (PING_AP_COMMAND_REPLY ++ NL) s Hc) as (y & E & Hc' & _ & _ & Hsent);
    [by rewrite ha_ping|done|]. exists y. split; [|done]. unfold ping_ap_command. erewrite bind_run by exact E. reflexivity.
Qed.

#[local] Abbreviation mk ho dirs fls y hn c pn sd ap lp cx := (Build_ap_state ho (Build_disk [] dirs fls) y hn c pn sd ap lp cx).
Lemma vlan_conf_run f i ho dirs fls y hn c pn sd ap lp cx :
  ap_on_disk (generate_vlan_conf f i) (mk ho dirs fls y hn c pn sd ap lp cx) =
  Done (0, mk ho dirs (<[f := cstr "*" ++ TAB ++ i ++ cstr ".#" ++ NL]> fls) y hn c pn sd ap lp cx : ap_state H X).
Proof. reflexivity. Qed.
Lemma hostapd_conf_run c' rconf ho dirs fls y hn c pn sd ap lp cx :
  ap_on_disk (generate_hostapd_conf c' rconf) (mk ho dirs fls y hn c pn sd ap lp cx) =
  Done (0, mk ho dirs (<[ap_file_path c' := text_of (setting_line <$> hostapd_settings c' rconf)]> fls) y hn c pn sd ap lp cx : ap_state H X).
Proof. reflexivity. Qed.

Lemma run_ap_conf fuel rconf gen hn y ho dirs fls c0 pn sd ap lp cx : zlen hn < OS_HOST_NAME_MAX ->
  let c := if gen : bool then with_ssid (clip AP_NAME_LEN hn) c0 else c0 in
  run_ap abstract fuel rconf true gen (Build_ap_state ho (Build_disk [] dirs fls) y (Some hn) c0 pn sd ap lp cx) =
  (res ← run_ap_process fuel; _ ← (if res =? 0 then ping_ap_command abstract else mret 0); _ ← register_ap_event abstract; mret res)
  (Build_ap_state ho (Build_disk [] dirs (<[ap_file_path c := text_of (setting_line <$> hostapd_settings c rconf)]>
      (<[vlan_file c := cstr "*" ++ TAB ++ ap_interface c ++ cstr ".#" ++ NL]> fls))) y (Some hn) c pn sd ap lp cx : ap_state H X).
Proof.
  intros Hl c. unfold run_ap. erewrite bind_run by reflexivity. cbn [as_hconf]. erewrite bind_run by apply vlan_conf_run. cbn [Z.ltb Z.compare].
  set (f1 := <[vlan_file c0 := _]> fls). rewrite (bind_run _ _ _ 0 (mk ho dirs f1 y (Some hn) c pn sd ap lp cx)); cycle 1.
  { subst c. destruct gen; [|done]. rewrite (bind_run _ _ _ (Some hn) (mk ho dirs f1 y (Some hn) c0 pn sd ap lp cx)); [done|].
    unfold get_hostname. erewrite bind_run by reflexivity. cbn [as_hostname]. by rewrite (proj2 (Z.leb_gt _ _)) by done. }
  cbn [Z.ltb Z.compare]. erewrite bind_run by reflexivity. cbn [as_hconf]. erewrite bind_run by apply hostapd_conf_run. cbn [Z.ltb Z.compare]. subst f1.
  replace (vlan_file c) with (vlan_file c0) by (subst c; by destruct gen). by replace (ap_interface c) with (ap_interface c0) by (subst c; by destruct gen).
Qed.

End start.

(** ** Samples *)

(** A [hostapd] with its stations and its denied addresses. *)
Definition after_word (w cmd : list Z) : option (list Z) :=
  if bool_decide ((w ++ cstr " ") `prefix_of` cmd) then Some (drop (length w + 1) cmd) else None.
Definition small_hostapd_step (h : gset (list Z) * gset (list Z)) (cmd : list Z) : (gset (list Z) * gset (list Z)) * option (list Z) :=
  let ok := Some (GENERIC_AP_COMMAND_OK_REPLY ++ NL) in
  match after_word DENYACL_ADD_COMMAND cmd, after_word DENYACL_DEL_COMMAND cmd, after_word STA_AP_COMMAND cmd with
  | Some m, _, _ => ((h.1 ∖ {[m]}, {[m]} ∪ h.2), ok)
  | _, Some m, _ => ((h.1, h.2 ∖ {[m]}), ok)
  | _, _, Some m => (h, Some (if decide (m ∈ h.1) then m ++ NL ++ cstr "flags=[AUTH]" else GENERIC_AP_COMMAND_FAIL_REPLY ++ NL))
  | _, _, _ => (h, Some (if bool_decide (cmd = PING_AP_COMMAND) then PING_AP_COMMAND_REPLY ++ NL else GENERIC_AP_COMMAND_OK_REPLY ++ NL))
  end.
Definition control_path : list Z := cstr "/run/hostapd/wlan0".
#[local] Instance small_peer : Peer (gset (list Z) * gset (list Z)) := {| peer_addr := Path control_path; peer_step := small_hostapd_step |}.

Lemma after_same w m : after_word w (w ++ cstr " " ++ m) = Some m.
Proof.
  unfold after_word. rewrite bool_decide_true by (exists m; by rewrite app_assoc). f_equal. rewrite app_assoc.
  replace (length w + 1)%nat with (length (w ++ cstr " ")) by (by rewrite length_app). by rewrite drop_app_length.
Qed.

#[local] Instance small_hostapd : Hostapd (gset (list Z) * gset (list Z)).
Proof.
  refine (Build_Hostapd _ _ fst snd _ _ _ _).
  - done.
  - intros h mac _ _. cbn zeta. unfold peer_step, small_peer, small_hostapd_step. rewrite after_same. done.
  - intros h mac _ _. cbn zeta. unfold peer_step, small_peer, small_hostapd_step. rewrite after_same.
    assert (after_word DENYACL_ADD_COMMAND (DENYACL_DEL_COMMAND ++ cstr " " ++ macstr mac) = None) as -> by done. done.
  - intros h mac _ _. exists (cstr "flags=[AUTH]"). unfold peer_step, small_peer, small_hostapd_step. rewrite after_same. done.
Defined.

Definition sample_apconf : apconf :=
  {| ap_bin_path := cstr "/usr/sbin/hostapd"; ap_file_path := cstr "/tmp/hostapd.conf"; ap_log_path := []; ctrl_interface_path := control_path;
     ap_interface := cstr "wlan0"; ap_device := []; ap_ssid := cstr "edge"; ap_wpa_passphrase := []; ap_driver := cstr "nl80211"; hw_mode := cstr "g";
     channel := 11; wmm_enabled := 1; auth_algs := 1; wpa := 2; wpa_key_mgmt := cstr "WPA-PSK"; rsn_pairwise := cstr "CCMP";
     ctrl_interface := cstr "/run/hostapd"; macaddr_acl := 2; dynamic_vlan := 1; vlan_bridge := cstr "br"; vlan_file := cstr "/tmp/hostapd.vlan";
     logger_stdout := -1; logger_stdout_level := 0; logger_syslog := -1; logger_syslog_level := 0; ignore_broadcast_ssid := 0;
     wpa_psk_radius := 2; vlan_tagged_interface := [] |}.
Definition sample_rconf : radius_conf :=
  {| radius_port := 1812; radius_client_ip := cstr "127.0.0.1"; radius_client_mask := 32; radius_server_ip := cstr "127.0.0.1";
     radius_server_mask := 32; radius_secret := cstr "secret" |}.
Definition sample_mac : list Z := [10; 27; 44; 61; 78; 95].
Definition sample_event : list Z := event_text 51 AP_CONNECTED_STATUS sample_mac [].

(** The callback notes what it is told. *)
Definition note (mac : list Z) (st : ap_connection_status) : prog (list (list Z * ap_connection_status)) unit := fun l => Done (tt, l ++ [(mac, st)]).
Definition sample_ap (q : list (list Z * address)) : ap_state (gset (list Z) * gset (list Z)) (list (list Z * ap_connection_status)) :=
  Build_ap_state sample_host (Build_disk [] [] ∅)
    (Build_sys {[ 3 := {| so_type := SOCKET_TYPE_DOMAIN; so_addr := Path (0 :: cstr "00001"); so_queue := q |} ]} 4 (Build_disk [] [] ∅)
       [cstr "00002"; cstr "00003"] [] [] ({[macstr sample_mac]}, ∅) (Env [] []))
    (Some (cstr "gateway")) sample_apconf [] false 3 [] [].

Lemma sample_event_ok : event_ok 51 AP_CONNECTED_STATUS sample_mac [].
Proof.
  split; [apply (bool_decide_unpack _); by vm_compute|done|split; [|done]; apply (bool_decide_unpack _); by vm_compute|by left|constructor].
Qed.

Lemma sample_waiting d from : nul_free from -> zlen from < SUN_PATH_LEN -> zlen d < 2 ^ 32 - 1 -> waiting 3 d from (sample_ap [(d, Path from)]).
Proof. intros. split; [done|done| |done|done]. eexists _, []. split; [apply lookup_singleton_eq|done]. Qed.

Lemma sample_connected q : connected true 2 (sample_ap q).
Proof.
  split; [done|split; [apply (bool_decide_unpack _); by vm_compute|done]|]. split; [done|done|done| |split; [done|by repeat constructor]|done].
  intros i Hi. cbn [sample_ap as_sys sy_next sy_socks] in *. apply lookup_singleton_ne. lia.
Qed.

Lemma hostapd_conf_correct_witness : exists d' text, generate_hostapd_conf sample_apconf sample_rconf (Build_disk [] [] ∅) = Done (0, d') /\
  dk_files d' !! cstr "/tmp/hostapd.conf" = Some text /\ (cstr "ssid", cstr "edge") ∈ read_settings text.
Proof.
  destruct (hostapd_conf_correct sample_apconf sample_rconf (Build_disk [] [] ∅)) as (d' & text & E & Hf & Hr & _).
  - done.
  - apply (bool_decide_unpack _); by vm_compute.
  - exists d', text. split; [exact E|]. split; [rewrite Hf; by rewrite lookup_insert_eq|]. rewrite Hr. by right; right; left.
Defined.

Lemma ap_event_reported_witness : exists s', ap_sock_handler note 3 (sample_ap [(sample_event, Path control_path)]) = Done (tt, s') /\
  as_ctx s' = [(sample_mac, AP_CONNECTED_STATUS)].
Proof.
  destruct (ap_event_reported note 3 51 AP_CONNECTED_STATUS sample_mac [] (sample_ap [(sample_event, Path control_path)]) [(sample_mac, AP_CONNECTED_STATUS)])
    as (s' & E & Hx & _).
  - apply sample_event_ok.
  - apply sample_waiting; [apply (bool_decide_unpack _); by vm_compute|done|done].
  - done.
  - exists s'. split; [exact E|exact Hx].
Defined.


Lemma disconnect_correct_witness : exists s', disconnect_station true (Some (macstr sample_mac)) (sample_ap []) = Done (0, s') /\
  macstr sample_mac ∉ stations (sy_peer (as_sys s')).
Proof.
  destruct (disconnect_correct true sample_mac (sample_ap [])) as (s' & E & _ & Hs & _).
  - apply sample_connected.
  - apply (bool_decide_unpack _); by vm_compute.
  - done.
  - exists s'. split; [exact E|]. rewrite Hs. rewrite elem_of_difference. intros [_ Hout]. apply Hout. by apply elem_of_singleton.
Defined.

Lemma station_check_correct_witness : exists s1, check_sta_ap_command true (Some (macstr sample_mac)) (sample_ap []) = Done (0, s1).
Proof.
  destruct (station_check_correct true sample_mac (sample_ap [])) as (r & s1 & s2 & E & _ & Hi & _).
  - apply sample_connected.
  - apply (bool_decide_unpack _); by vm_compute.
  - done.
  - exists s1. assert (r = 0) as <-; [|exact E]. apply Hi. change (macstr sample_mac ∈ ({[macstr sample_mac]} : gset (list Z))). by apply elem_of_singleton.
Defined.

Definition flaky_host : host :=
  {| ho_listing := ho_listing sample_host; ho_count := 0; ho_realpath := ho_realpath sample_host; ho_argv0 := ho_argv0 sample_host;
     ho_pid := 12; ho_pgid := 12; ho_answers := []; ho_starts := replicate 2 START_FAILED; ho_signals := []; ho_runs := []; ho_env := Env [] [] |}.
Lemma ap_start_terminates_witness : exists h', ap_start_loop 3 [cstr "/usr/sbin/hostapd"] (cstr "hostapd") flaky_host = Done (Some 0, h') /\
  length (ho_runs h') = 3%nat.
Proof.
  destruct (ap_start_terminates (cstr "/usr/sbin/hostapd") [] (cstr "hostapd") 2) with (h := flaky_host) (fuel := 3%nat) as (h' & E & Hr & _).
  - done.
  - done.
  - done.
  - apply (bool_decide_unpack _); by vm_compute.
  - destruct sample_host_ok as [_ _ Hl]. split; [done|done|exact Hl].
  - done.
  - lia.
  - exists h'. split; [exact E|]. by rewrite Hr.
Defined.


(** The event of a station, on a supervisor that has denied another. *)
Definition sample_supervised : ap_state (gset (list Z) * gset (list Z)) _ :=
  Build_ap_state sample_host (as_disk (sample_ap [])) (as_sys (sample_ap [(sample_event, Path control_path)])) None sample_apconf [] false 3 [] sample_sup.
