(* ===== verification/Bridging.v ===== *)
(** Bridges between devices and the rules of the firewall.

    The supervisor keeps the bridges as pairs of devices and asks the firewall
    for rules between their addresses.  Against the interface [FirewallSpec],
    [ADD_BRIDGE] and [REMOVE_BRIDGE] change the relation of the bridge list and
    the pairs of addresses of the firewall together. *)
From stdpp Require Import strings numbers base list gmap.
From Stdlib Require Import ZArith Lia.
From S2P Require Import Prelude Os Text Net Extern Mappers BridgeList Firewall Supervisor CmdProcessor SupervisorInv Access.

Section bridging.
Context {MU : Uthash (list Z) mac_conn_info} {VU : Uthash Z vlan_conn}.
Context {BL : DlList bridge_mac_tuple} {EL : Eloop sup_timer}.
Context {FW : Firewall} {FS : FirewallSpec FW} {SV : Services}.

#[local] Abbreviation state := (sup (MU := MU) (VU := VU) (BL := BL)).
#[local] Abbreviation mac_map c := (hash_map (mac_mapper c)).

(** An address field: empty, or an address of the firewall. *)
Definition addr_field (a : list Z) : Prop :=
  a = [] \/ (a <> [] /\ fw_addr a /\ validate_ipv4_string a = Done true).

(** The pairs between two address fields. *)
Definition link (a b : list Z) : gset (list Z * list Z) :=
  if bool_decide (a = [] \/ b = []) then ∅ else {[(a, b); (b, a)]}.
Definition pairs (l r : mac_conn_info) : gset (list Z * list Z) :=
  link (mi_ip_addr l) (mi_ip_addr r) ∪ link (mi_ip_addr l) (mi_ip_sec_addr r) ∪
  link (mi_ip_sec_addr l) (mi_ip_addr r) ∪ link (mi_ip_sec_addr l) (mi_ip_sec_addr r).

(** Pairs are added or taken away. *)
Definition edit {A} `{Countable A} (add : bool) (X Y : gset A) : gset A := if add then X ∪ Y else X ∖ Y.

Lemma edit_twice {A} `{Countable A} add (X Y Z : gset A) : edit add (edit add X Y) Z = edit add X (Y ∪ Z).
Proof. unfold edit. destruct add; apply set_eq; set_solver. Qed.
Lemma edit_empty {A} `{Countable A} add (X : gset A) : edit add X ∅ = X.
Proof. unfold edit. destruct add; apply set_eq; set_solver. Qed.

(** Only the firewall has moved, to the pairs [X]. *)
Definition rules_are (s s' : state) (X : gset (list Z * list Z)) : Prop :=
  fw_bridges (s_fw s') = X /\ fw_nat (s_fw s') = fw_nat (s_fw s).
Definition only_fw (s s' : state) : Prop :=
  fw_inv (s_fw s') /\ s_ctx s' = s_ctx s /\ s_eloop s' = s_eloop s.

Definition edit_ip (add : bool) (a b : list Z) : prog state Z :=
  if add then add_bridge_ip a b else delete_bridge_ip a b.

Lemma validate_empty : validate_ipv4_string [] = Done false.
Proof. reflexivity. Qed.

Lemma edit_ip_run add a b s : fw_inv (s_fw s) -> addr_field a -> addr_field b -> (a <> [] -> a <> b) ->
  exists r s', edit_ip add a b s = Done (r, s') /\ status01 r /\ only_fw s s' /\
    (r = 0 -> rules_are s s' (edit add (fw_bridges (s_fw s)) (link a b))).
Proof.
  intros Hf Ha Hb Hne.
  assert (link a b = ∅ -> exists r s', Done (0, s) = Done (r, s') /\ status01 r /\ only_fw s s' /\
    (r = 0 -> rules_are s s' (edit add (fw_bridges (s_fw s)) (link a b)))) as Hskip.
  { intros ->. exists 0, s. split; [done|]. split; [by left|]. split; [done|]. by rewrite edit_empty. }
  unfold edit_ip, add_bridge_ip, delete_bridge_ip.
  destruct Ha as [->|(Hna & Fa & Va)]; [rewrite validate_empty; by destruct add; apply Hskip|].
  rewrite Va. destruct Hb as [->|(Hnb & Fb & Vb)].
  { rewrite validate_empty. destruct add; apply Hskip; unfold link; by rewrite bool_decide_true by (by right). }
  rewrite Vb. destruct (fw_returns a b (s_fw s) Hf Fa Fb) as (_ & _ & ([r1 f1] & H1) & ([r2 f2] & H2)).
  assert (link a b = {[(a, b); (b, a)]}) as -> by (unfold link; rewrite bool_decide_false; [done|tauto]).
  destruct add.
  - destruct (fw_add_bridge_spec a b (s_fw s) r1 f1 Hf Fa Fb (Hne Hna) H1) as [Hi Hs].
    do 2 (erewrite bind_run by done; cbn beta iota).
    erewrite bind_run by (unfold fw_do; rewrite H1; done). cbn beta. destruct (Z.ltb_spec r1 0).
    + eexists _, _. split; [done|]. split; [by right|]. done.
    + eexists _, _. split; [done|]. split; [by left|]. split; [done|]. intros _. by apply Hs.
  - destruct (fw_remove_bridge_spec a b (s_fw s) r2 f2 Hf Fa Fb (Hne Hna) H2) as [Hi Hs].
    do 2 (erewrite bind_run by done; cbn beta iota).
    erewrite bind_run by (unfold fw_do; rewrite H2; done). cbn beta. destruct (Z.ltb_spec r2 0).
    + eexists _, _. split; [done|]. split; [by right|]. done.
    + eexists _, _. split; [done|]. split; [by left|]. split; [done|]. intros _. by apply Hs.
Qed.

Lemma only_fw_trans s1 s2 s3 : only_fw s1 s2 -> only_fw s2 s3 -> only_fw s1 s3.
Proof. unfold only_fw. intuition congruence. Qed.

(** The address fields of a record, and two records that share no address. *)
Definition fields (i : mac_conn_info) : list (list Z) := [mi_ip_addr i; mi_ip_sec_addr i].
Definition apart (l r : mac_conn_info) : Prop :=
  forall a b, a ∈ fields l -> b ∈ fields r -> addr_field a /\ addr_field b /\ (a <> [] -> a <> b).

(** Calls on a list of pairs of fields. *)
Lemma edit_list_run add (l : list (list Z * list Z)) s :
  fw_inv (s_fw s) ->
  Forall (fun p => addr_field p.1 /\ addr_field p.2 /\ (p.1 <> [] -> p.1 <> p.2)) l ->
  exists r s', until_fail ((fun p => edit_ip add p.1 p.2) <$> l) s = Done (r, s') /\ status01 r /\
    only_fw s s' /\
    (r = 0 -> rules_are s s' (edit add (fw_bridges (s_fw s)) (⋃ ((fun p => link p.1 p.2) <$> l)))).
Proof.
  intros Hf Hl. revert s Hf. induction Hl as [|[a b] l (Ha & Hb & Hne) _ IH]; intros s Hf; cbn [fmap list_fmap until_fail].
  { exists 0, s. split; [done|]. split; [by left|]. split; [done|]. intros _. split; [|done].
    symmetry. apply edit_empty. }
  cbn [fst snd] in *. destruct (edit_ip_run add a b s Hf Ha Hb Hne) as (r & s1 & Hr & Hst & Ho & Hs).
  erewrite bind_run by exact Hr. cbn beta. destruct Hst as [->| ->]; cbn [Z.ltb Z.compare].
  - destruct (IH s1 (proj1 Ho)) as (r2 & s2 & Hr2 & Hst2 & Ho2 & Hs2).
    exists r2, s2. split; [done|]. split; [done|]. split; [by eapply only_fw_trans|].
    intros H0. destruct (Hs eq_refl) as [E1 E2], (Hs2 H0) as [E3 E4]. split; [|congruence].
    by rewrite E3, E1, edit_twice.
  - exists (-1), s1. split; [done|]. split; [by right|]. by split.
Qed.

Lemma on_pairs_run add l r s : fw_inv (s_fw s) -> apart l r ->
  exists z s', on_pairs (edit_ip add) l r s = Done (z, s') /\ status01 z /\ only_fw s s' /\
    (z = 0 -> rules_are s s' (edit add (fw_bridges (s_fw s)) (pairs l r))).
Proof.
  intros Hf Hlr.
  destruct (edit_list_run add [(mi_ip_addr l, mi_ip_addr r); (mi_ip_addr l, mi_ip_sec_addr r);
    (mi_ip_sec_addr l, mi_ip_addr r); (mi_ip_sec_addr l, mi_ip_sec_addr r)] s Hf)
    as (z & s' & Hz & Hst & Ho & Hs).
  { do 4 (apply Forall_cons; split; [cbn [fst snd]; apply Hlr; unfold fields; set_solver|]).
    by apply Forall_nil. }
  exists z, s'. split; [exact Hz|]. split; [done|]. split; [done|]. intros H0.
  replace (pairs l r) with (⋃ ((fun p => link p.1 p.2) <$>
    [(mi_ip_addr l, mi_ip_addr r); (mi_ip_addr l, mi_ip_sec_addr r);
     (mi_ip_sec_addr l, mi_ip_addr r); (mi_ip_sec_addr l, mi_ip_sec_addr r)])); [by apply Hs|].
  unfold pairs. cbn. apply set_eq. set_solver.
Qed.

Lemma both_records_run l r s :
  both_records l r s =
  Done (match mac_map (s_ctx s) !! l, mac_map (s_ctx s) !! r with
        | Some i, Some j => Some (i, j) | _, _ => None end, s).
Proof.
  assert (forall m i, get_mac m i s = Done (match mac_map (s_ctx s) !! m with
    | Some j => (1, j) | None => (0, i) end, s)) as Hg.
  { intros m i. unfold get_mac, ask. erewrite bind_run by done. cbn beta.
    rewrite get_mac_mapper_lookup. by destruct (mac_map (s_ctx s) !! m). }
  unfold both_records. erewrite bind_run by apply Hg. cbn beta.
  destruct (mac_map (s_ctx s) !! l); [|done]. cbn [fst snd Z.eqb Pos.eqb].
  erewrite bind_run by apply Hg. cbn beta. by destruct (mac_map (s_ctx s) !! r).
Qed.

(** The pairs of addresses of two devices that both have a record. *)
Definition device_pairs (c : supervisor_context) (l r : list Z) : gset (list Z * list Z) :=
  match mac_map c !! l, mac_map c !! r with Some i, Some j => pairs i j | _, _ => ∅ end.
(** Two devices whose records, if any, share no address. *)
Definition devices_apart (c : supervisor_context) (l r : list Z) : Prop :=
  forall i j, mac_map c !! l = Some i -> mac_map c !! r = Some j -> apart i j.

(** What the two commands do once the list has been changed. *)
Lemma device_rules_run add l r s : fw_inv (s_fw s) -> devices_apart (s_ctx s) l r ->
  exists z s', (o ← both_records l r;
                match o with Some (i, j) => on_pairs (edit_ip add) i j | None => mret 0 end) s = Done (z, s') /\
    status01 z /\ only_fw s s' /\
    (z = 0 -> rules_are s s' (edit add (fw_bridges (s_fw s)) (device_pairs (s_ctx s) l r))).
Proof.
  intros Hf Ha. erewrite bind_run by apply both_records_run. cbn beta. unfold device_pairs.
  assert (exists z s', Done (0, s) = Done (z, s') /\ status01 z /\ only_fw s s' /\
    (z = 0 -> rules_are s s' (edit add (fw_bridges (s_fw s)) ∅))) as Hnone.
  { exists 0, s. split; [done|]. split; [by left|]. split; [done|]. by rewrite edit_empty. }
  destruct (mac_map (s_ctx s) !! l) as [i|] eqn:Hi; [|exact Hnone].
  destruct (mac_map (s_ctx s) !! r) as [j|] eqn:Hj; [|exact Hnone].
  by apply on_pairs_run, Ha.
Qed.

(** What a bridge command leaves: the relation of the list, the pairs of the
    firewall, and nothing else of the supervisor but them. *)
Definition bridged (add : bool) (l r : list Z) (s s' : state) : Prop :=
  edges (bridge_list (s_ctx s')) = edit add (edges (bridge_list (s_ctx s))) {[(l, r); (r, l)]} /\
  rules_are s s' (edit add (fw_bridges (s_fw s)) (device_pairs (s_ctx s) l r)).
Definition bridge_frame (s s' : state) : Prop :=
  bridge_wf (bridge_list (s_ctx s')) /\ fw_inv (s_fw s') /\ s_eloop s' = s_eloop s /\
  mac_mapper (s_ctx s') = mac_mapper (s_ctx s) /\ ticket (s_ctx s') = ticket (s_ctx s).

Lemma add_bridge_mac_run l r s : bridge_wf (bridge_list (s_ctx s)) -> fw_inv (s_fw s) -> devices_apart (s_ctx s) l r ->
  exists z s', add_bridge_mac_cmd l r s = Done (z, s') /\ status01 z /\ bridge_frame s s' /\
    (z = 0 -> l <> r /\ bridged true l r s s').
Proof.
  intros Hw Hf Ha. destruct (add_bridge_spec (bridge_list (s_ctx s)) l r (s_env s) Hw) as (z & ml & e & Hz & _ & Hml & Hc).
  unfold add_bridge_mac_cmd, ask. erewrite bind_run by done. cbn beta.
  erewrite bind_run by (unfold env_do; rewrite Hz; done). cbn [fst snd default].
  erewrite bind_run by done. cbn beta.
  destruct (Z.leb_spec 0 z) as [H0|H0]; cycle 1.
  { eexists _, _. split; [done|]. split; [by right|]. done. }
  edestruct (device_rules_run true l r) as (z2 & s2 & Hz2 & Hst & (Hf2 & Hc2 & He2) & Hs); [| |].
  3:{ exists z2, s2. split; [exact Hz2|]. split; [done|]. split.
      - unfold bridge_frame. by rewrite Hc2.
      - intros E0. split; [destruct Hc as [(?&?&?)|[(?&?&?)|[??]]]; lia || done|]. split; [|by apply Hs].
        rewrite Hc2. cbn. destruct Hc as [(_ & _ & _ & ->)|[(_ & _ & Hin & ->)|[??]]]; [done| |lia].
        destruct Hw as [_ _ Hsym _]. pose proof (Hsym _ _ Hin). unfold edit. set_solver. }
  - exact Hf.
  - exact Ha.
Qed.

Lemma remove_bridge_run l r s : bridge_wf (bridge_list (s_ctx s)) -> fw_inv (s_fw s) -> devices_apart (s_ctx s) l r ->
  exists z s', remove_bridge_cmd l r s = Done (z, s') /\ status01 z /\ bridge_frame s s' /\
    (z = 0 -> bridged false l r s s').
Proof.
  intros Hw Hf Ha. destruct (remove_bridge_spec (bridge_list (s_ctx s)) l r Hw) as (ml & Hz & Hml & He).
  unfold remove_bridge_cmd, ask. erewrite bind_run by done. cbn beta.
  erewrite bind_run by (unfold lift_outcome; rewrite Hz; done). cbn [fst snd default].
  erewrite bind_run by done. cbn beta. cbn [Z.leb Z.compare].
  edestruct (device_rules_run false l r) as (z2 & s2 & Hz2 & Hst & (Hf2 & Hc2 & He2) & Hs); [| |].
  3:{ exists z2, s2. split; [exact Hz2|]. split; [done|]. split.
      - unfold bridge_frame. by rewrite Hc2.
      - intros E0. split; [|by apply Hs]. by rewrite Hc2. }
  - exact Hf.
  - exact Ha.
Qed.

(** C10. Bridge commands keep the list of bridges and the rules of the firewall
    in step.  On two devices that share no address, [ADD_BRIDGE] and
    [REMOVE_BRIDGE] return; when they answer success, the relation of the list
    has gained, or lost, the edge in both directions, and the firewall has
    gained, or lost, exactly the pairs between the non-empty addresses of the
    two records, its translated addresses as before.  Whatever the answer, the
    list stays well formed and the tables, the ticket and the timers are as
    they were, and a device is never bridged to itself. *)
Theorem bridge_commands_correct l r s : bridge_wf (bridge_list (s_ctx s)) -> fw_inv (s_fw s) ->
  devices_apart (s_ctx s) l r ->
  (exists z s', add_bridge_mac_cmd l r s = Done (z, s') /\ status01 z /\ bridge_frame s s' /\
     (z = 0 -> l <> r /\ bridged true l r s s')) /\
  (exists z s', remove_bridge_cmd l r s = Done (z, s') /\ status01 z /\ bridge_frame s s' /\
     (z = 0 -> bridged false l r s s')).
Proof. intros Hw Hf Ha. split; [by apply add_bridge_mac_run|by apply remove_bridge_run]. Qed.
End bridging.

(** ** A sample: two devices with an address each *)

Definition with_addr (ip : list Z) : mac_conn_info :=
  {| mi_status := AP_CONNECTED_STATUS; mi_vlanid := 3; mi_nat := false; mi_allow_connection := true;
     mi_pass := zeros (Z.to_nat AP_SECRET_LEN); mi_pass_len := 0; mi_ip_addr := ip; mi_ip_sec_addr := [];
     mi_ifname := cstr "br3"; mi_label := []; mi_id := []; mi_join_timestamp := 0 |}.

Definition sample_peer : list Z := [2; 0; 0; 0; 0; 2].

Definition sample_pair : sup :=
  {| s_ctx := set_mac_mapper
       (HASH_ADD sample_peer (with_addr (cstr "10.0.3.8"))
         (HASH_ADD sample_station (with_addr (cstr "10.0.3.7"))
           (hash_empty : @hash _ _ _ (list_uthash (list Z) mac_conn_info)))) sample_context;
     s_fw := (∅, ∅) : @fw set_firewall;
     s_eloop := [] : @eloop _ _ (list_eloop sup_timer);
     s_env := Env [] []; s_calls := [] |}.

Lemma sample_lookup :
  hash_map (mac_mapper (s_ctx sample_pair)) !! sample_station = Some (with_addr (cstr "10.0.3.7")) /\
  hash_map (mac_mapper (s_ctx sample_pair)) !! sample_peer = Some (with_addr (cstr "10.0.3.8")).
Proof. rewrite <- !hash_find_map. split; vm_compute; reflexivity. Qed.

Lemma bridge_commands_correct_witness : exists s',
  add_bridge_mac_cmd sample_station sample_peer sample_pair = Done (0, s') /\
  (cstr "10.0.3.8", cstr "10.0.3.7") ∈ fw_bridges (s_fw s') /\
  (sample_peer, sample_station) ∈ edges (bridge_list (s_ctx s')).
Proof.
  destruct sample_lookup as [Hl Hr].
  destruct (bridge_commands_correct sample_station sample_peer sample_pair)
    as [(z & s' & Hrun & _ & _ & Hs) _].
  - apply init_bridge_wf.
  - done.
  - intros i j Hi Hj. rewrite Hl in Hi. rewrite Hr in Hj. injection Hi as <-. injection Hj as <-.
    intros a b Ha Hb. unfold fields in Ha, Hb. cbn in Ha, Hb.
    rewrite !elem_of_cons, elem_of_nil in Ha, Hb. unfold addr_field.
    destruct Ha as [->|[->|[]]], Hb as [->|[->|[]]]; split_and!; try (by left);
      try (right; split; [done|split; [exact I|vm_compute; reflexivity]]); done.
  - assert (add_bridge_mac_cmd sample_station sample_peer sample_pair =
      Done (0, after (add_bridge_mac_cmd sample_station sample_peer) sample_pair)) as H0
      by (apply after_run; vm_compute; reflexivity).
    rewrite Hrun in H0. injection H0 as -> _. exists s'. split; [exact Hrun|].
    destruct (Hs eq_refl) as (_ & He & Hf & _). rewrite He, Hf. unfold device_pairs. rewrite Hl, Hr. split.
    + apply elem_of_union_r. unfold pairs. do 3 apply elem_of_union_l.
      unfold link. rewrite bool_decide_false by (by intros [?|?]). by apply elem_of_union_r, elem_of_singleton.
    + by apply elem_of_union_r, elem_of_union_r, elem_of_singleton.
Defined.
