(* ===== verification/Discovery.v ===== *)
(** From a multicast answer to a bridge: the mDNS service with the supervisor
    behind it.

    The command that [send_bridge_command] of [Mdns] writes to the control
    socket of the supervisor is cut into words, taken as [ADD_BRIDGE] with two
    addresses, and carried out by [add_bridge_ip_cmd].  The theorem composes the
    two: what the service asks for is what the firewall gets. *)
From stdpp Require Import strings numbers base list gmap.
From Stdlib Require Import ZArith Lia.
From S2P Require Import Prelude Os Text Net Extern Queue Iptables Mappers BridgeList Firewall Decoder MdnsName MdnsRecords Supervisor CmdProcessor SupervisorInv Mdns MdnsInv Access Bridging.

(** ** A dotted address is not a MAC address *)

(** The one to three digits of a byte. *)
Definition is_digit (c : Z) : bool := (48 <=? c) && (c <=? 57).
Definition digit_groups (b : Z) : bool :=
  match fmt_u b with
  | [d] => is_digit d
  | [d; e] => is_digit d && is_digit e
  | [d; e; f] => is_digit d && is_digit e && is_digit f
  | _ => false
  end.

Lemma byte_groups b : is_byte b -> digit_groups b = true.
Proof.
  intros Hb. assert (forallb digit_groups (Z.of_nat <$> seq 0 256) = true) as H by (vm_compute; reflexivity).
  rewrite forallb_forall in H. apply H. apply list_elem_of_In, list_elem_of_fmap. exists (Z.to_nat b). unfold is_byte in Hb.
  split; [lia|]. apply elem_of_seq. lia.
Qed.

Lemma digit_facts d : is_digit d = true -> ((d =? 58) || (d =? 46) || (d =? 45)) = false /\ (hex2num d <? 0) = false.
Proof.
  unfold is_digit. rewrite andb_true_iff, !Z.leb_le. intros [H1 H2].
  assert (d ∈ Z.of_nat <$> seq 48 10) as Hd.
  { apply list_elem_of_fmap. exists (Z.to_nat d). split; [lia|]. apply elem_of_seq. lia. }
  assert (forallb (fun d => negb ((d =? 58) || (d =? 46) || (d =? 45)) && negb (hex2num d <? 0)) (Z.of_nat <$> seq 48 10) = true)
    as H by (vm_compute; reflexivity).
  rewrite forallb_forall in H. apply list_elem_of_In in Hd. specialize (H d Hd).
  apply andb_true_iff in H as [Ha Hb]. by apply negb_true_iff in Ha, Hb.
Qed.

(** What is left of the address, up to its NUL. *)
Definition tail_of (l : list Z) : list Z :=
  match l with [] => [0] | _ => 46 :: inet_ntop l ++ [0] end.

(** One byte of the loop, at a digit. *)
Lemma hwaddr_digit n d c t : is_digit d = true ->
  hwaddr_loop (S n) (d :: c :: t) =
  if hex2num c <? 0 then Done (None, [])
  else match hwaddr_loop n t with
       | Fault f => Fault f
       | Done (p, out) => Done (p, u8 (Z.lor (Z.shiftl (hex2num d) 4) (hex2num c)) :: out)
       end.
Proof. intros Hd. destruct (digit_facts d Hd) as [Hs Hh]. cbn [hwaddr_loop skip_separators]. by rewrite Hs, Hh. Qed.

Lemma hwaddr_refuses l : bytes l -> forall n, (length l < n)%nat -> exists out,
  hwaddr_loop n (match l with [] => [0] | _ => inet_ntop l ++ [0] end) = Done (None, out).
Proof.
  induction 1 as [|b l Hb Hl IH]; intros n Hn; [destruct n; [cbn in Hn; lia|by exists []]|].
  assert (inet_ntop (b :: l) ++ [0] = fmt_u b ++ tail_of l) as ->.
  { destruct l; [done|]. cbn [inet_ntop tail_of]. by rewrite <- app_assoc. }
  destruct n as [|n]; [cbn in Hn; lia|]. cbn [length] in Hn.
  assert (exists c t, tail_of l = c :: t /\ (hex2num c <? 0) = true) as (c & t & Ht & Hc).
  { destruct l; [by exists 0, []|]. by eexists 46, _. }
  assert (exists out, hwaddr_loop n (tail_of l) = Done (None, out)) as (out & Ho).
  { destruct (IH n) as [out Ho]; [lia|]. exists out. rewrite <- Ho. destruct n; [lia|]. by destruct l. }
  pose proof (byte_groups b Hb) as Hg. unfold digit_groups in Hg.
  destruct (fmt_u b) as [|d [|e [|f [|]]]]; try done; rewrite ?andb_true_iff in Hg; cbn [app].
  - rewrite Ht, hwaddr_digit, Hc by done. eauto.
  - destruct Hg as [Hd He]. rewrite hwaddr_digit by done. destruct (digit_facts e He) as [_ ->]. rewrite Ho. eauto.
  - destruct Hg as [[Hd He] Hf]. rewrite hwaddr_digit by done. destruct (digit_facts e He) as [_ ->].
    destruct n as [|n]; [lia|]. rewrite Ht, hwaddr_digit, Hc by done. eauto.
Qed.

Lemma ntop_not_mac a : zlen a = 4 -> bytes a -> exists out, edge_hwaddr_aton2 (inet_ntop a ++ [0]) = Done (-1, out).
Proof.
  intros Hl Hb. unfold edge_hwaddr_aton2. change (Z.to_nat ETHER_ADDR_LEN) with 6%nat.
  destruct (hwaddr_refuses a Hb 6) as [out Ho]; [unfold zlen in Hl; lia|]. exists out.
  destruct a; [done|]. by rewrite Ho.
Qed.

(** ** The words of the command *)

Lemma app_sep_inj (sep : Z) p q x y : (sep ∉ p) -> (sep ∉ q) -> p ++ sep :: x = q ++ sep :: y -> p = q /\ x = y.
Proof.
  revert q. induction p as [|c p IH]; intros [|d q] Hp Hq H; cbn in H.
  - by injection H as ->.
  - injection H as <- _. set_solver.
  - injection H as -> _. set_solver.
  - injection H as <- H. destruct (IH q) as [-> ->]; [set_solver..|done|done].
Qed.

Lemma join_inj sep ps : forall qs, ps <> [] -> qs <> [] -> Forall (fun p => sep ∉ p) ps -> Forall (fun p => sep ∉ p) qs ->
  join sep ps = join sep qs -> ps = qs.
Proof.
  induction ps as [|p ps IH]; intros [|q qs] Hp Hq Hfp Hfq H; try done.
  apply list.Forall_cons in Hfp as [Hp1 Hfp], Hfq as [Hq1 Hfq].
  destruct ps as [|p2 ps], qs as [|q2 qs].
  - cbn in H. by subst.
  - change (p = q ++ sep :: join sep (q2 :: qs)) in H. set_solver.
  - change (p ++ sep :: join sep (p2 :: ps) = q) in H. set_solver.
  - change (p ++ sep :: join sep (p2 :: ps) = q ++ sep :: join sep (q2 :: qs)) in H.
    apply app_sep_inj in H as [-> H]; [|done..]. f_equal. by apply IH.
Qed.

Lemma ntop_chars a : bytes a -> Forall (fun c => c <> 32 /\ c <> 0 /\ c ∉ [9; 10; 11; 12; 13; 32]) (inet_ntop a).
Proof.
  intros Hb. eapply Forall_impl; [by apply inet_ntop_digits|]. intros c Hc.
  assert (48 <= c <= 57 \/ c = 46) as H.
  { destruct Hc as [Hc|]; [left|by right]. unfold isdigit in Hc. apply andb_true_iff in Hc. lia. }
  split; [lia|]. split; [lia|]. rewrite !not_elem_of_cons. split_and!; try lia. apply not_elem_of_nil.
Qed.

Lemma command_words a b r : zlen a = 4 -> bytes a -> zlen b = 4 -> bytes b ->
  process_domain_buffer (Some (bridge_command (inet_ntop a) (inet_ntop b))) CMD_DELIMITER (Env [] r) =
    Done (Some [CMD_ADD_BRIDGE; inet_ntop a; inet_ntop b], Env [] r).
Proof.
  intros Ha Hba Hb Hbb. pose proof (ntop_chars a Hba) as Ca. pose proof (ntop_chars b Hbb) as Cb.
  set (cmd := bridge_command (inet_ntop a) (inet_ntop b)). unfold process_domain_buffer.
  assert (Forall (fun c => c <> 0) cmd) as Hz.
  { unfold cmd, bridge_command. repeat (apply Forall_app; split); try (by repeat constructor);
      (eapply Forall_impl; [eassumption|]); by intros ? (_ & ? & _). }
  rewrite until_nul_id by done.
  assert (exists s c, inet_ntop b = s ++ [c] /\ c ∉ [9; 10; 11; 12; 13; 32]) as (s & c & Hs & Hc).
  { destruct (exists_last (l := inet_ntop b)) as (s & c & E).
    - intros E. pose proof (validate_ntop b Hb Hbb) as Hv. rewrite E in Hv. done.
    - exists s, c. split; [done|]. rewrite E in Cb. apply Forall_app in Cb as [_ Cb]. by apply Forall_singleton in Cb as (_ & _ & ?). }
  assert (cmd = (CMD_ADD_BRIDGE ++ [CMD_DELIMITER] ++ inet_ntop a ++ [CMD_DELIMITER] ++ s) ++ [c]) as Hcmd
    by (unfold cmd, bridge_command; by rewrite Hs, <- !app_assoc).
  destruct (Z.eqb_spec (zlen cmd) 0); [unfold cmd, bridge_command in *; zlen_lia|].
  erewrite bind_run by apply malloc_nil. cbn [negb].
  assert (rtrim (Some cmd) None = Some cmd) as -> by (rewrite Hcmd; by apply rtrim_id).
  destruct (split_string_array_correct cmd CMD_DELIMITER [] r) as (ps & k & E & Hk & H1 & Hj & Hf).
  erewrite bind_run by exact E. cbn [fst snd app]. destruct (Z.ltb_spec k 0); [lia|]. rewrite ret_run. do 3 f_equal.
  apply (join_inj CMD_DELIMITER); [by intros ->|done|done| |exact Hj].
  assert (forall x, Forall (fun c => c <> 32 /\ c <> 0 /\ c ∉ [9; 10; 11; 12; 13; 32]) x -> CMD_DELIMITER ∉ x) as Hnd.
  { intros x Hx Hin. rewrite Forall_forall in Hx. by destruct (Hx _ Hin). }
  repeat constructor; [|by apply Hnd..]. apply (bool_decide_unpack _). by vm_compute.
Qed.

(** ** The supervisor on the command *)

Section discovery.
Context {MU : Uthash (list Z) mac_conn_info} {VU : Uthash Z vlan_conn}.
Context {BL : DlList bridge_mac_tuple} {EL : Eloop sup_timer}.
Context {FW : Firewall} {FS : FirewallSpec FW} {SV : Services}.
#[local] Abbreviation state := (sup (MU := MU) (VU := VU) (BL := BL)).
#[local] Abbreviation mac_map c := (hash_map (mac_mapper c)).

(** The one device with an address. *)
Definition owner (c : supervisor_context (MU := MU) (VU := VU) (BL := BL)) (ip l : list Z) : Prop :=
  (exists i, mac_map c !! l = Some i /\ has_ip ip i) /\
  forall m j, mac_map c !! m = Some j -> has_ip ip j -> m = l.

(** A supervisor that can look devices up by address. *)
Definition lookups_ok (t : state) : Prop :=
  hash_wf (mac_mapper (s_ctx t)) /\ bridge_wf (bridge_list (s_ctx t)) /\ fw_inv (s_fw t) /\
  forall m i, mac_map (s_ctx t) !! m = Some i -> Mappers.addr_field (mi_ip_addr i) /\ Mappers.addr_field (mi_ip_sec_addr i).

Lemma owner_run (t : state) ip l : lookups_ok t -> owner (s_ctx t) ip l ->
  get_ip_mapper (Some (mac_mapper (s_ctx t))) (Some ip) (Some []) = Done (1, Some l).
Proof.
  intros (Hwf & _ & _ & Hf) [(i & Hi & Hip) Hu].
  destruct (get_ip_mapper_correct (mac_mapper (s_ctx t)) ip [] Hwf Hf) as (r & m & -> & [(-> & j & Hj & Hjp)|(_ & _ & Hno)]).
  - by rewrite (Hu m j Hj Hjp).
  - by destruct (Hno l i Hi).
Qed.

(** An address of each of two devices is among the pairs between them. *)
Lemma device_pair (t : state) a b l r : owner (s_ctx t) a l -> owner (s_ctx t) b r -> a <> [] -> b <> [] ->
  (a, b) ∈ device_pairs (s_ctx t) l r /\ (b, a) ∈ device_pairs (s_ctx t) l r.
Proof.
  intros [(i & Hi & _ & Ha) _] [(j & Hj & _ & Hb) _] Hna Hnb. unfold device_pairs. rewrite Hi, Hj. unfold pairs.
  assert (link a b = {[(a, b); (b, a)]}) as Hl by (unfold link; rewrite bool_decide_false; [done|tauto]).
  destruct Ha as [->| ->], Hb as [->| ->]; rewrite Hl; set_solver.
Qed.

Lemma add_bridge_ip_run (t : state) a b l r : lookups_ok t -> owner (s_ctx t) a l -> owner (s_ctx t) b r -> a <> [] -> b <> [] ->
  devices_apart (s_ctx t) l r ->
  exists z t', add_bridge_ip_cmd a b t = Done (z, t') /\ status01 z /\
    (z = 0 -> (l, r) ∈ edges (bridge_list (s_ctx t')) /\
              (((l, r) ∉ edges (bridge_list (s_ctx t))) -> (a, b) ∈ fw_bridges (s_fw t') /\ (b, a) ∈ fw_bridges (s_fw t'))).
Proof.
  intros Hok Hl Hr Hna Hnb Hap. pose proof Hok as (_ & Hbw & Hfw & _). unfold add_bridge_ip_cmd. erewrite bind_run by done. cbv beta.
  rewrite (owner_run t a l), (owner_run t b r) by done.
  do 2 (erewrite bind_run by apply lift_run; cbn [fst snd Z.ltb Z.eqb Z.compare default]).
  erewrite bind_run by done. cbv beta. unfold check_bridge_exist. rewrite both_spec by done.
  case_bool_decide as Hin; cbn [Z.ltb Z.compare].
  { exists 0, t. split; [done|]. split; [by left|]. intros _. split; [done|]. by intros ?. }
  destruct (add_bridge_mac_run l r t Hbw Hfw Hap) as (z & t' & E & Hst & _ & Hz). cbn [default]. erewrite bind_run by exact E. cbv beta.
  destruct Hst as [->| ->]; cbn [Z.ltb Z.compare].
  - exists 0, t'. split; [done|]. split; [by left|]. intros _. destruct (Hz eq_refl) as (_ & He & Hb & _). rewrite He, Hb.
    destruct (device_pair t a b l r Hl Hr Hna Hnb). unfold edit. split; [set_solver|]. intros _. set_solver.
  - exists (-1), t'. split; [done|]. split; [by right|]. done.
Qed.

Lemma process_command_run (t : state) sock addr a b l r rnd : zlen a = 4 -> bytes a -> zlen b = 4 -> bytes b ->
  s_env t = Env [] rnd -> lookups_ok t -> owner (s_ctx t) (inet_ntop a) l -> owner (s_ctx t) (inet_ntop b) r ->
  devices_apart (s_ctx t) l r ->
  let data := bridge_command (inet_ntop a) (inet_ntop b) in
  exists z t' verdict calls, process_received_data sock (Some (zlen data)) (Some (data, addr)) t = Done (z, t') /\
    s_calls t' = write_socket_data sock verdict addr :: calls /\ (verdict = OK_REPLY \/ verdict = FAIL_REPLY) /\
    (verdict = OK_REPLY -> (l, r) ∈ edges (bridge_list (s_ctx t')) /\
       (((l, r) ∉ edges (bridge_list (s_ctx t))) ->
          (inet_ntop a, inet_ntop b) ∈ fw_bridges (s_fw t') /\ (inet_ntop b, inet_ntop a) ∈ fw_bridges (s_fw t'))).
Proof.
  intros Ha Hba Hb Hbb He Hok Hl Hr Hap data. destruct t as [c w el e calls]. cbn [s_env s_ctx s_fw] in *. subst e.
  unfold process_received_data. erewrite bind_run by (unfold env_do; cbn [s_env]; rewrite malloc_nil; done).
  cbn [negb s_ctx s_fw s_eloop s_calls]. rewrite to_nat_zlen, firstn_all.
  erewrite bind_run by (unfold env_do; cbn [s_env]; unfold data; rewrite command_words by done; done).
  cbn beta iota. replace (get_command_function CMD_ADD_BRIDGE) with (Some (process_add_bridge_cmd (MU := MU) (VU := VU) (BL := BL)))
    by reflexivity.
  cbn [s_ctx s_fw s_eloop s_calls]. set (t0 := Build_sup _ _ _ _ _).
  destruct (ntop_not_mac a Ha Hba) as [m Hm]. pose proof (zlen_inet_ntop a Ha Hba). pose proof (zlen_inet_ntop b Hb Hbb).
  assert (forall x, zlen (inet_ntop x) <= 15 -> clip OS_INET_ADDRSTRLEN (inet_ntop x) = inet_ntop x) as Hclip.
  { intros x Hx. unfold clip, OS_INET_ADDRSTRLEN, zlen in *. apply take_ge. lia. }
  assert (forall x, zlen x = 4 -> bytes x -> inet_ntop x <> []) as Hne.
  { intros x Hx Hbx E. pose proof (validate_ntop x Hx Hbx) as Hv. by rewrite E in Hv. }
  destruct (add_bridge_ip_run t0 (inet_ntop a) (inet_ntop b) l r Hok Hl Hr (Hne a Ha Hba) (Hne b Hb Hbb) Hap) as (z & t1 & E & Hst & Hz).
  erewrite bind_run; cycle 1.
  { unfold process_add_bridge_cmd. cbv beta iota. erewrite bind_run by (unfold arg_mac; rewrite Hm; erewrite bind_run by done; done).
    cbn [fst Z.eqb Pos.eqb]. rewrite (validate_ntop a) by done. erewrite bind_run by apply lift_run. cbn beta iota.
    rewrite (validate_ntop b) by done. erewrite bind_run by apply lift_run. cbn beta iota. rewrite !Hclip by done.
    erewrite bind_run by exact E. cbv beta. instantiate (1 := after (reply_status sock addr z) t1).
    instantiate (1 := answer (s_calls t1) (write_socket_data sock (if z <? 0 then FAIL_REPLY else OK_REPLY) addr)).
    unfold after, reply_status. by destruct (z <? 0). }
  cbv beta. eexists _, _, (if z <? 0 then FAIL_REPLY else OK_REPLY), (s_calls t1). split; [done|].
  split; [unfold after, reply_status; by destruct (z <? 0)|].
  split; [destruct (z <? 0); auto|]. destruct Hst as [-> | ->]; [intros _; by apply Hz|done].
Qed.

(** C15. From discovery to a bridge, end to end.  A packet passes between the
    addresses of two devices that are not bridged, and one of the addresses has
    answered a multicast question.  Then the mDNS service writes one command to
    the control socket of the supervisor, and the supervisor, on reading it,
    answers; if it answers [OK], the two devices are bridged and the firewall
    lets packets through between the two addresses in both directions. *)
Theorem discovery_bridges {RL : DlList reflection} {SQ : DlList (option (list Z))} {ML : DlList mdns_list_info}
    {MM : Uthash (list Z) (@dl_list _ ML)} {CM : Uthash Z bool}
    junk (s : mdns (RL := RL) (MM := MM) (CM := CM) (VU := VU)) sch a b rs (t : state) rt sock addr l r :
  zlen a = 4 -> bytes a -> zlen b = 4 -> bytes b -> ip_src sch = inet_ntop a -> ip_dst sch = inet_ntop b ->
  hash_wf (command_mapper (m_ctx s)) -> m_env s = Env [] rs -> m_sends s = [] -> wanted s a b = true ->
  let data := bridge_command (inet_ntop a) (inet_ntop b) in
  (md_hash data ∉ known_commands (command_mapper (m_ctx s))) ->
  s_env t = Env [] rt -> lookups_ok t -> owner (s_ctx t) (inet_ntop a) l -> owner (s_ctx t) (inet_ntop b) r ->
  devices_apart (s_ctx t) l r -> ((l, r) ∉ edges (bridge_list (s_ctx t))) ->
  exists s' z t' verdict calls,
    send_bridge_command junk (PACKET_IP4 sch) s = Done (0, s') /\
    m_out s' = m_out s ++ [Command (supervisor_control_path (m_ctx s)) data] /\
    process_received_data sock (Some (zlen data)) (Some (data, addr)) t = Done (z, t') /\
    s_calls t' = write_socket_data sock verdict addr :: calls /\ (verdict = OK_REPLY \/ verdict = FAIL_REPLY) /\
    (verdict = OK_REPLY -> (l, r) ∈ edges (bridge_list (s_ctx t')) /\
       (inet_ntop a, inet_ntop b) ∈ fw_bridges (s_fw t') /\ (inet_ntop b, inet_ntop a) ∈ fw_bridges (s_fw t')).
Proof.
  intros Ha Hba Hb Hbb Hsrc Hdst Hwf He Hs Hw data Hk Het Hok Hl Hr Hap Hne.
  destruct (process_command_run t sock addr a b l r rt Ha Hba Hb Hbb Het Hok Hl Hr Hap) as (z & t' & verdict & calls & E & Hc & Hv & Hok').
  destruct (send_bridge_run junk sch a b s rs Hsrc Hdst Ha Hba Hb Hbb Hwf He Hs) as [Hsend _].
  destruct (Hsend Hw Hk) as (h & E' & _). eexists _, z, t', verdict, calls. split; [exact E'|]. split; [done|].
  split; [exact E|]. split; [done|]. split; [done|]. intros HO. destruct (Hok' HO) as [? ?]. auto.
Qed.
End discovery.

(** ** A sample *)

Definition sample_finder : mdns (RL := list_dl_list reflection)
    (MM := list_uthash (list Z) (@dl_list _ (list_dl_list mdns_list_info))) (CM := list_uthash Z bool)
    (VU := list_uthash Z vlan_conn) :=
  with_imap [([10; 0; 3; 8], [(1%nat, answer_info sample_record)])] (Env [] []) sample_mdns.

Definition sample_packet : ip4_schema :=
  {| ip4_id := []; ip_src := inet_ntop [10; 0; 3; 7]; ip_dst := inet_ntop [10; 0; 3; 8]; ip_hl := 5; ip_v := 4; ip_tos := 0;
     ip_len := 20; ip_id := 0; ip_off := 0; ip_ttl := 64; ip_p := 6; ip_sum := 0 |}.

Lemma sample_records m i : hash_map (mac_mapper (s_ctx sample_pair)) !! m = Some i ->
  (m = sample_station /\ i = with_addr (cstr "10.0.3.7")) \/ (m = sample_peer /\ i = with_addr (cstr "10.0.3.8")).
Proof.
  unfold hash_map. cbn [sample_pair s_ctx mac_mapper set_mac_mapper]. intros H. apply elem_of_list_to_map_2 in H.
  cbn in H. rewrite !elem_of_cons in H. destruct H as [H|[H|H]]; [injection H as -> ->; by left|injection H as -> ->; by right|].
  by apply elem_of_nil in H.
Qed.

Lemma sample_apart : devices_apart (s_ctx sample_pair) sample_station sample_peer.
Proof.
  destruct sample_lookup as [Hl Hr]. intros i j Hi Hj. rewrite Hl in Hi. rewrite Hr in Hj. injection Hi as <-. injection Hj as <-.
  intros a b Ha Hb. unfold fields in Ha, Hb. cbn in Ha, Hb.
  rewrite !elem_of_cons, elem_of_nil in Ha, Hb. unfold addr_field.
  destruct Ha as [->|[->|[]]], Hb as [->|[->|[]]]; split_and!; try (by left);
    try (right; split; [done|split; [exact I|vm_compute; reflexivity]]); done.
Qed.

Lemma sample_owner ip m o : (ip = cstr "10.0.3.7" /\ m = sample_station /\ o = sample_peer) \/
    (ip = cstr "10.0.3.8" /\ m = sample_peer /\ o = sample_station) ->
  owner (s_ctx sample_pair) ip m.
Proof.
  destruct sample_lookup as [Hl Hr]. intros [(-> & -> & _)|(-> & -> & _)]; (split; [eexists; split; [eassumption|]|]).
  1,3: split; [vm_compute; reflexivity|by left].
  all: intros m' j Hm [_ Hj]; destruct (sample_records m' j Hm) as [[-> ->]|[-> ->]]; try done; exfalso;
    apply (bool_decide_pack _) in Hj; vm_compute in Hj; exact Hj.
Qed.

Lemma sample_lookups_ok : lookups_ok sample_pair.
Proof.
  split; [|split; [apply init_bridge_wf|split; [done|]]].
  - unfold hash_wf. apply (bool_decide_unpack _). by vm_compute.
  - intros m i Hm. destruct (sample_records m i Hm) as [[-> ->]|[-> ->]];
      split; (split; [repeat constructor; by vm_compute|by vm_compute]).
Qed.

Lemma discovery_bridges_witness : exists s' t' z calls,
  send_bridge_command 0 (SQ := list_dl_list _) (PACKET_IP4 sample_packet) sample_finder = Done (0, s') /\
  m_out s' = [Command (cstr "/tmp/edgesec") (cstr "ADD_BRIDGE 10.0.3.7 10.0.3.8")] /\
  process_received_data 5 (Some 28) (Some (cstr "ADD_BRIDGE 10.0.3.7 10.0.3.8",
    {| ca_path := []; ca_port := 0; ca_addr := []; ca_len := 0; ca_type := SOCKET_TYPE_DOMAIN |})) sample_pair = Done (z, t') /\
  s_calls t' = write_socket_data 5 OK_REPLY
    {| ca_path := []; ca_port := 0; ca_addr := []; ca_len := 0; ca_type := SOCKET_TYPE_DOMAIN |} :: calls /\
  (cstr "10.0.3.8", cstr "10.0.3.7") ∈ fw_bridges (s_fw t').
Proof.
  destruct (discovery_bridges (SQ := list_dl_list _) 0 sample_finder sample_packet [10; 0; 3; 7] [10; 0; 3; 8] [] sample_pair [] 5
    {| ca_path := []; ca_port := 0; ca_addr := []; ca_len := 0; ca_type := SOCKET_TYPE_DOMAIN |} sample_station sample_peer
    eq_refl ltac:(repeat constructor; by vm_compute) eq_refl ltac:(repeat constructor; by vm_compute) eq_refl eq_refl
    hash_empty_wf eq_refl eq_refl eq_refl ltac:(apply (bool_decide_unpack _); by vm_compute) eq_refl sample_lookups_ok
    ltac:(apply (sample_owner _ _ sample_peer); by left) ltac:(apply (sample_owner _ _ sample_station); by right) sample_apart
    ltac:(apply (bool_decide_unpack _); by vm_compute)) as (s' & z & t' & verdict & calls & E1 & E2 & E3 & E4 & _ & E6).
  assert (process_received_data 5 (Some 28) (Some (cstr "ADD_BRIDGE 10.0.3.7 10.0.3.8",
    {| ca_path := []; ca_port := 0; ca_addr := []; ca_len := 0; ca_type := SOCKET_TYPE_DOMAIN |})) sample_pair = Done (z, t'))
    as E3' by exact E3.
  assert (s_calls t' = s_calls (after (process_received_data 5 (Some 28) (Some (cstr "ADD_BRIDGE 10.0.3.7 10.0.3.8",
    {| ca_path := []; ca_port := 0; ca_addr := []; ca_len := 0; ca_type := SOCKET_TYPE_DOMAIN |}))) sample_pair)) as Hc.
  { unfold after. by rewrite E3'. }
  rewrite E4 in Hc. vm_compute in Hc. injection Hc as Hv ->. subst verdict.
  exists s', t', z, []. split; [exact E1|]. split; [exact E2|]. split; [exact E3'|]. split; [exact E4|].
  by apply E6.
Defined.
