(* ===== verification/Onboarding.v ===== *)
(** A station joins: the RADIUS server with the supervisor behind it.

    [radius_server_macacl] asks the callback of the client for the record of the
    station; in the program the callback is [get_mac_conn_cmd] of the
    supervisor.  The theorem composes the supervisor's decision ([Access]) with
    the reply of the server ([RadiusReply]): what the access point reads in the
    reply is the supervisor's policy. *)
From stdpp Require Import strings numbers base list gmap.
From Stdlib Require Import ZArith Lia.
From S2P Require Import Prelude Os Text Net Extern Mappers BridgeList Firewall Supervisor CmdProcessor SupervisorInv Access Md5 Wpabuf RadiusMsg RadiusAttr RadiusAuth RadiusCrypt RadiusServer RadiusReply.

Section onboarding.
Context {MU : Uthash (list Z) mac_conn_info} {VU : Uthash Z vlan_conn}.
Context {BL : DlList bridge_mac_tuple} {EL : Eloop sup_timer}.
Context {FW : Firewall} {SV : Services} {ER : Eloop timer}.

#[local] Abbreviation state := (sup (MU := MU) (VU := VU) (BL := BL)).
#[local] Abbreviation wld := (world state ER).

(** The session [p] of client [c], and the station it is for. *)
Definition session_of (w : wld) (c p : nat) (secret mac : list Z) : Prop :=
  exists cl sess, clients (w_srv w) !! c = Some cl /\ conn_fn cl = Some get_mac_conn_cmd /\
    shared_secret cl = secret /\ find_sess p (sessions cl) = Some sess /\ sess_mac sess = mac.

(** The supervisor works: its invariant holds, memory lasts, the ticket is not
    dangling, no capture thread has to be started and no service fails. *)
Definition working (s : state) : Prop :=
  sup_inv (fun _ => False) s /\ mallocs (s_env s) = [] /\ ticket (s_ctx s) <> dangling_ticket /\
  exec_capture (s_ctx s) = false /\ reliable.

Lemma macacl_run (w : wld) c p secret mac req i s' :
  session_of w c p secret mac -> get_mac_conn_cmd mac (w_conn w) = Done (i, s') ->
  radius_server_macacl c p req w =
    match macacl_reply secret i req (w_env w) with
    | Done (o, e) => Done (o, with_env e (with_conn s' w))
    | Fault f => Fault f
    end.
Proof.
  intros (cl & sess & Hcl & Hfn & <- & Hse & <-) Hget. unfold radius_server_macacl, the_client, the_session.
  erewrite bind_run by (by rewrite Hcl). cbn beta. erewrite bind_run by (by rewrite Hcl, Hse).
  rewrite Hfn. erewrite bind_run by (unfold call_conn; by rewrite Hget). done.
Qed.

(** The decision of a working supervisor: nothing happens, or the station joins
    with the record the policy gives it. *)
Lemma working_decision mac s : working s ->
  exists i s', get_mac_conn_cmd mac s = Done (i, s') /\ info_ok i /\
    match policy (s_ctx s) mac with
    | None => mi_vlanid i = -1 /\ quiet s s'
    | Some (j, used) => exists t id, i = stamped t j /\
        hash_map (mac_mapper (s_ctx s')) = <[mac := identified id i]> (hash_map (mac_mapper (s_ctx s))) /\
        ticket (s_ctx s') = if used : bool then no_ticket else ticket (s_ctx s)
    end.
Proof.
  intros (Hs & Hmem & Hd & Hec & Hrel). destruct (decision_run mac s Hs Hmem Hd) as (i & s' & Hrun & Hans).
  exists i, s'. split; [done|]. split; [by eapply yields_get_mac_conn|].
  destruct (policy (s_ctx s) mac) as [[j used]|]; [|done].
  destruct Hans as (m & (_ & <- & _ & Ht & _) & _ & Hj).
  destruct Hj as (t & id & -> & Hm); [by destruct used|done|].
  exists t, id. split; [done|]. rewrite Hm, Ht. by destruct used.
Qed.

(** C1.  Onboarding, end to end.  When an authenticated request of a station
    reaches [radius_server_macacl] and the callback of the client is the
    supervisor's [get_mac_conn_cmd], the server sends a reply that the access
    point accepts as genuine.  If the supervisor's policy admits the station and
    the request carries a User-Password, the access point reads in it exactly
    the VLAN and the passphrase of the policy, and the supervisor has stored the
    record; a station the policy turns away gets an Access-Reject that carries
    neither, and the supervisor's state is unchanged. *)
Theorem onboarding_correct (w : wld) c p secret mac req code id l1 l2 auth sattrs s0 s1 r :
  session_of w c p secret mac -> working (w_conn w) -> w_env w = Env [] ([s0; s1] :: r) ->
  msg_rep req ([code; id; l1; l2] ++ auth) sattrs -> zlen (encode sattrs) <= RADIUS_MAX_MSG_LEN ->
  match policy (s_ctx (w_conn w)) mac with Some (j, _) => 0 <= mi_vlanid j <= 9999 | None => True end ->
  exists reply w', radius_server_macacl c p req w = Done (Some reply, w') /\
    radius_msg_verify reply secret (Some req) true (w_env w') = Done ((0, reply), w_env w') /\
    match policy (s_ctx (w_conn w)) mac with
    | Some (j, _) =>
        (if decide (has_password sattrs) then grants secret j req reply (w_env w')
         else refuses secret req reply (w_env w')) /\
        exists t uuid, hash_map (mac_mapper (s_ctx (w_conn w'))) !! mac = Some (identified uuid (stamped t j))
    | None => refuses secret req reply (w_env w') /\ quiet (w_conn w) (w_conn w')
    end.
Proof.
  intros Hse Hw Henv Hreq Hlen Hv. destruct (working_decision mac _ Hw) as (i & s' & Hget & Hi & Hans).
  rewrite (macacl_run _ _ _ _ _ _ _ _ Hse Hget), Henv.
  destruct (policy (s_ctx (w_conn w)) mac) as [[j used]|].
  - destruct Hans as (t & uuid & -> & Hm & _).
    destruct (macacl_reply_spec secret (stamped t j) req code id l1 l2 auth sattrs s0 s1 r)
      as (reply & e & -> & Hver & Hdec); [done|done| |].
    { left. destruct (io_pass _ Hi) as (? & ? & ?). done. }
    eexists reply, _. split; [done|]. split; [done|]. split.
    + destruct (decide (has_password sattrs)) as [Hd|Hd].
      * by rewrite decide_True in Hdec by (split; [apply Hv|done]).
      * by rewrite decide_False in Hdec by tauto.
    + exists t, uuid. cbn. by rewrite Hm, lookup_insert_eq.
  - destruct Hans as [Hvl Hq].
    destruct (macacl_reply_spec secret i req code id l1 l2 auth sattrs s0 s1 r)
      as (reply & e & -> & Hver & Hdec); [done|done|right; lia|].
    eexists reply, _. split; [done|]. split; [done|]. split; [|done].
    rewrite decide_False in Hdec by lia. done.
Qed.
End onboarding.

(** ** A server *)

Definition sample_world : world sup (list_eloop timer) :=
  {| w_srv := {| auth_sock := 4;
       clients := [{| cl_addr := 0; cl_mask := 0; shared_secret := cstr "radius";
         sessions := [(3%nat, session_station sample_station (session_zero 0))];
         cl_counters := fun _ => 0; conn_fn := Some get_mac_conn_cmd |}];
       next_sess_id := 1; num_sess := 1; start_time := {| sec := 0; usec := 0 |};
       srv_counters := fun _ => 0 |};
     w_eloop := [] : @eloop _ _ (list_eloop timer); w_env := Env [] [[1; 2]]; w_sendto := []; w_sent := [];
     w_conn := sample_sup |}.

Lemma onboarding_correct_witness : exists req reply w',
  radius_msg_add_attr sample_msg RADIUS_ATTR_USER_PASSWORD (Some (zeros 16)) 16 (Env [] []) =
    Done ((Some 20, req), Env [] []) /\
  radius_server_macacl 0 3 req sample_world = Done (Some reply, w') /\
  radius_msg_get_vlanid reply 0 (w_env w') = Done ((1, 3, []), w_env w') /\
  radius_msg_get_tunnel_password reply (cstr "radius") req 0 (w_env w') =
    Done ((Some (cstr "1234567890"), Some 10), w_env w').
Proof.
  destruct (add_attr_rep sample_msg ([1; 7; 0; 20] ++ zeros 16) [] RADIUS_ATTR_USER_PASSWORD
    (zeros 16) (zeros 16) (Env [] []) sample_rep sample_small) as (req & Hadd & Hreq).
  - split; [done|]. split; [apply bytes_zeros|done].
  - apply rd_all.
  - reflexivity.
  - exists req.
    destruct (onboarding_correct sample_world 0 3 (cstr "radius") sample_station req 1 7 0 20 (zeros 16)
      [(RADIUS_ATTR_USER_PASSWORD, zeros 16)] 1 2 []) as (reply & w' & Hrun & _ & Hres & _).
    + by eexists _, _.
    + split; [apply sample_sup_inv|]. done.
    + reflexivity.
    + exact Hreq.
    + vm_compute. congruence.
    + split; vm_compute; congruence.
    + exists reply, w'. split; [exact Hadd|]. split; [exact Hrun|].
      rewrite decide_True in Hres by (by vm_compute). destruct Hres as (_ & Hv & Hp).
      split; [by apply Hv|by apply Hp].
Defined.
