(* ===== verification/Sqlite.v ===== *)
(** The database of the secret store: [src/crypt/sqlite_crypt_writer.c] with the
    helpers of [src/utils/sqliteu.c].

    SQLite is a parameter: tables are finite maps from a primary key to a row of
    columns, a statement may fail at each of its steps, and one that fails
    changes nothing.  On top of it the rows of the store and of the secrets are
    written and read as the C code does, errors included. *)
From stdpp Require Import strings numbers base list gmap.
From Stdlib Require Import ZArith Lia.
From S2P Require Import Prelude.

(** ** SQLite *)

(** Statements with their parameters bound; [None] is NULL.  The primary keys
    are declared NOT NULL, and no row has a key that equals NULL. *)
Inductive sql :=
| sql_find_table (name : list Z)
| sql_create (name : list Z)
| sql_delete (table : list Z) (key : option (list Z))
| sql_insert (table : list Z) (key : option (list Z)) (cols : list (option (list Z)))
| sql_select (table : list Z) (key : option (list Z)).

Inductive sql_result :=
| SQLITE_ROW (cols : list (option (list Z)))
| SQLITE_DONE
| SQLITE_FAIL.

Abbreviation row := (list (option (list Z))).
Abbreviation table := (gmap (list Z) row).
Abbreviation database := (gmap (list Z) table).

(** What a step may do: nothing when it fails, and what the statement says
    otherwise. *)
Definition step_spec (q : sql) (T : database) (r : sql_result) (T' : database) : Prop :=
  match r, q with
  | SQLITE_FAIL, _ => T' = T
  | SQLITE_ROW _, sql_find_table n => T' = T /\ is_Some (T !! n)
  | SQLITE_DONE, sql_find_table n => T' = T /\ T !! n = None
  | SQLITE_DONE, sql_create n => T !! n = None /\ T' = <[n := ∅]> T
  | SQLITE_DONE, sql_delete t (Some k) => exists m, T !! t = Some m /\ T' = <[t := delete k m]> T
  | SQLITE_DONE, sql_delete t None => T' = T
  | SQLITE_DONE, sql_insert t (Some k) c =>
      exists m, T !! t = Some m /\ m !! k = None /\ T' = <[t := <[k := c]> m]> T
  | SQLITE_ROW c, sql_select t (Some k) => T' = T /\ exists m, T !! t = Some m /\ m !! k = Some c
  | SQLITE_DONE, sql_select t (Some k) => T' = T /\ exists m, T !! t = Some m /\ m !! k = None
  | SQLITE_DONE, sql_select t None => T' = T
  | _, _ => False
  end.

(** A statement that a database in order has no reason to refuse. *)
Definition legal (q : sql) (T : database) : Prop :=
  match q with
  | sql_find_table _ => True
  | sql_create n => T !! n = None
  | sql_delete t _ | sql_select t _ => is_Some (T !! t)
  | sql_insert t (Some k) _ => exists m, T !! t = Some m /\ m !! k = None
  | sql_insert _ None _ => False
  end.

Class Sqlite := {
  db : Type;
  tables : db -> database;
  healthy : db -> Prop;
  sqlite3_open : db -> bool * db;
  sqlite3_prepare_v2 : sql -> db -> bool * db;
  sqlite3_bind_text : sql -> db -> bool * db;
  sqlite3_step : sql -> db -> sql_result * db;
  open_tables d : tables (sqlite3_open d).2 = tables d;
  prepare_tables q d : tables (sqlite3_prepare_v2 q d).2 = tables d;
  bind_tables q d : tables (sqlite3_bind_text q d).2 = tables d;
  step_tables q d : step_spec q (tables d) (sqlite3_step q d).1 (tables (sqlite3_step q d).2);
  open_healthy d : healthy d -> (sqlite3_open d).1 = true /\ healthy (sqlite3_open d).2;
  prepare_healthy q d : healthy d ->
    (sqlite3_prepare_v2 q d).1 = true /\ healthy (sqlite3_prepare_v2 q d).2;
  bind_healthy q d : healthy d ->
    (sqlite3_bind_text q d).1 = true /\ healthy (sqlite3_bind_text q d).2;
  step_healthy q d : healthy d ->
    (legal q (tables d) -> (sqlite3_step q d).1 <> SQLITE_FAIL) /\ healthy (sqlite3_step q d).2
}.

(** ** The writer *)

Definition CRYPT_STORE_TABLE_NAME : list Z := cstr "store".
Definition CRYPT_SECRETS_TABLE_NAME : list Z := cstr "secrets".

Record store_row := {
  sr_key : option (list Z);
  sr_value : option (list Z);
  sr_id : option (list Z);
  sr_iv : option (list Z)
}.

Record secrets_row := {
  se_id : option (list Z);
  se_value : option (list Z);
  se_salt : option (list Z);
  se_iv : option (list Z)
}.

Section writer.
Context {SQ : Sqlite}.

(** The database and the memory of the process. *)
#[local] Abbreviation Db := (prog (db * env)).

Definition in_db {A} (f : db -> A * db) : Db A := fun s =>
  Done ((f s.1).1, ((f s.1).2, s.2)).
Definition in_mem {A} (m : prog env A) : Db A := fun s =>
  match m s.2 with
  | Done (a, e) => Done (a, (s.1, e))
  | Fault f => Fault f
  end.

(** [os_strdup] of a column; NULL stays NULL. *)
Definition dup_column (c : option (list Z)) : Db (option (list Z)) :=
  match c with
  | None => mret None
  | Some t => ok ← in_mem malloc; mret (if (ok : bool) then Some t else None)
  end.

(** [sqlite3_exec]. *)
Definition execute_sqlite_query (q : sql) : Db Z :=
  ok ← in_db (sqlite3_prepare_v2 q);
  if negb ok then mret (-1)
  else
    r ← in_db (sqlite3_step q);
    mret (match r with SQLITE_FAIL => -1 | _ => 0 end).

Definition check_table_exists (name : list Z) : Db Z :=
  let q := sql_find_table name in
  ok ← in_db (sqlite3_prepare_v2 q);
  if negb ok then mret (-1)
  else
    ok ← in_db (sqlite3_bind_text q);
    if negb ok then mret (-1)
    else
      r ← in_db (sqlite3_step q);
      mret (match r with SQLITE_ROW _ => 1 | SQLITE_DONE => 0 | SQLITE_FAIL => -1 end).

(** Creates a table that is not there. *)
Definition ensure_table (name : list Z) : Db Z :=
  rc ← check_table_exists name;
  if rc =? 0 then
    r ← execute_sqlite_query (sql_create name);
    mret (if r <? 0 then -1 else 0)
  else mret (if rc <? 0 then -1 else 0).

Definition open_sqlite_crypt_db : Db Z :=
  ok ← in_db sqlite3_open;
  if negb ok then mret (-1)
  else
    r ← ensure_table CRYPT_STORE_TABLE_NAME;
    if r <? 0 then mret (-1) else ensure_table CRYPT_SECRETS_TABLE_NAME.

(** Binds [n] parameters of a statement, up to the first failure. *)
Fixpoint bind_all (n : nat) (q : sql) : Db bool :=
  match n with
  | O => mret true
  | S n' => ok ← in_db (sqlite3_bind_text q); if negb ok then mret false else bind_all n' q
  end.

(** A statement with [n] parameters whose step is not looked at. *)
Definition run_statement (n : nat) (q : sql) : Db Z :=
  ok ← in_db (sqlite3_prepare_v2 q);
  if negb ok then mret (-1)
  else
    ok ← bind_all n q;
    if negb ok then mret (-1)
    else _ ← in_db (sqlite3_step q); mret 0.

Definition save_sqlite_store_entry (row : store_row) : Db Z :=
  r ← run_statement 1 (sql_delete CRYPT_STORE_TABLE_NAME (sr_key row));
  if r <? 0 then mret (-1)
  else
    run_statement 4
      (sql_insert CRYPT_STORE_TABLE_NAME (sr_key row) [sr_value row; sr_id row; sr_iv row]).

Definition save_sqlite_secrets_entry (row : secrets_row) : Db Z :=
  run_statement 4
    (sql_insert CRYPT_SECRETS_TABLE_NAME (se_id row) [se_value row; se_salt row; se_iv row]).

(** The columns of the row with a key: [None] on failure, [Some None] when
    there is no such row. *)
Definition select_row (table key : list Z) : Db (option (option row)) :=
  ok ← in_db (sqlite3_prepare_v2 (sql_select table (Some key)));
  if negb ok then mret None
  else
    bound ← in_db (sqlite3_bind_text (sql_select table (Some key)));
    r ← in_db (sqlite3_step (sql_select table (if (bound : bool) then Some key else None)));
    mret (match r with
          | SQLITE_ROW c => Some (Some c)
          | SQLITE_DONE => Some None
          | SQLITE_FAIL => None
          end).

Definition column (c : row) (n : nat) : option (list Z) := default None (c !! n).

(** The row is allocated without a check. *)
Definition get_sqlite_store_row (key : list Z) : Db (option store_row) :=
  ok ← in_mem malloc;
  r ← select_row CRYPT_STORE_TABLE_NAME key;
  match r with
  | None => mret None
  | Some o =>
      if negb ok then fail_with NullDeref
      else
        match o with
        | None => mret (Some {| sr_key := None; sr_value := None; sr_id := None; sr_iv := None |})
        | Some c =>
            v ← dup_column (column c 0);
            i ← dup_column (column c 1);
            iv ← dup_column (column c 2);
            mret (Some {| sr_key := Some key; sr_value := v; sr_id := i; sr_iv := iv |})
        end
  end.

Definition get_sqlite_secrets_row (id : list Z) : Db (option secrets_row) :=
  ok ← in_mem malloc;
  r ← select_row CRYPT_SECRETS_TABLE_NAME id;
  match r with
  | None => mret None
  | Some o =>
      if negb ok then fail_with NullDeref
      else
        match o with
        | None => mret (Some {| se_id := None; se_value := None; se_salt := None; se_iv := None |})
        | Some c =>
            i ← dup_column (Some id);
            v ← dup_column (column c 0);
            sa ← dup_column (column c 1);
            iv ← dup_column (column c 2);
            mret (Some {| se_id := i; se_value := v; se_salt := sa; se_iv := iv |})
        end
  end.

(** ** What the writer does *)

(** A run that leaves the tables alone, keeps a database in order in order,
    and, with memory, leaves the environment alone. *)
Definition db_frame (s s' : db * env) : Prop :=
  (healthy s.1 -> healthy s'.1) /\ randoms s'.2 = randoms s.2 /\ (mallocs s.2 = [] -> s'.2 = s.2).
Definition db_same (s s' : db * env) : Prop := db_frame s s' /\ tables s'.1 = tables s.1.

Lemma db_frame_trans s1 s2 s3 : db_frame s1 s2 -> db_frame s2 s3 -> db_frame s1 s3.
Proof.
  intros (H1 & R1 & M1) (H2 & R2 & M2). split; [auto|]. split; [congruence|].
  intros Hm. pose proof (M1 Hm) as E1. rewrite <- E1. apply M2. by rewrite E1.
Qed.
Lemma db_same_refl s : db_same s s.
Proof. done. Qed.
Lemma db_same_trans s1 s2 s3 : db_same s1 s2 -> db_same s2 s3 -> db_same s1 s3.
Proof. intros [? ?] [? ?]. split; [by eapply db_frame_trans|congruence]. Qed.

(** The calls of SQLite. *)
Lemma in_db_prepare q s : exists ok s', in_db (sqlite3_prepare_v2 q) s = Done (ok, s') /\
  db_same s s' /\ (healthy s.1 -> ok = true).
Proof.
  eexists _, _. split; [done|]. split; [|by intros [? ?]%(prepare_healthy q)].
  split; [|apply prepare_tables]. split; [by intros [? ?]%(prepare_healthy q)|done].
Qed.

Lemma bind_all_run n q s : exists ok s', bind_all n q s = Done (ok, s') /\
  db_same s s' /\ (healthy s.1 -> ok = true).
Proof.
  revert s. induction n as [|n IH]; intros s; cbn [bind_all].
  { by exists true, s. }
  erewrite bind_run by done. cbn beta.
  destruct (IH ((sqlite3_bind_text q s.1).2, s.2)) as (ok & s' & Hr & Hs & Hk).
  assert (db_same s ((sqlite3_bind_text q s.1).2, s.2)) as H1.
  { split; [|apply bind_tables]. split; [by intros [? ?]%(bind_healthy q)|done]. }
  destruct (sqlite3_bind_text q s.1).1 eqn:Hb; cbn [negb].
  - exists ok, s'. split; [done|]. split; [by eapply db_same_trans|]. intros Hh. apply Hk. by apply H1.
  - eexists false, _. split; [done|]. split; [done|]. intros [Hh _]%(bind_healthy q). by rewrite Hb in Hh.
Qed.

Lemma in_mem_malloc s : exists ok s', in_mem malloc s = Done (ok, s') /\
  db_same s s' /\ (mallocs s.2 = [] -> ok = true).
Proof.
  destruct (malloc_done s.2) as (ok & e & Hm & Hr & Hk). exists ok, (s.1, e).
  unfold in_mem. rewrite Hm. split; [done|]. split; [|intros Hn; by destruct (Hk Hn)].
  split; [|done]. split; [done|]. split; [done|]. intros Hn. by destruct (Hk Hn).
Qed.

(** A statement whose step is not looked at: its effect may be missing although
    it answers success, but not in a database in order. *)
Lemma run_statement_run n q s : exists z s', run_statement n q s = Done (z, s') /\
  (z = 0 \/ z = -1) /\ db_frame s s' /\
  (tables s'.1 = tables s.1 \/ step_spec q (tables s.1) SQLITE_DONE (tables s'.1) \/
   exists c, step_spec q (tables s.1) (SQLITE_ROW c) (tables s'.1)) /\
  (healthy s.1 -> legal q (tables s.1) -> z = 0 /\
     exists r, r <> SQLITE_FAIL /\ step_spec q (tables s.1) r (tables s'.1)).
Proof.
  unfold run_statement. destruct (in_db_prepare q s) as (ok & s1 & H1 & S1 & K1).
  erewrite bind_run by exact H1. cbn beta. destruct ok; cbn [negb]; cycle 1.
  { exists (-1), s1. destruct S1 as [F1 T1]. split; [done|]. split; [by right|]. split; [done|].
    split; [by left|]. intros Hh. by specialize (K1 Hh). }
  destruct (bind_all_run n q s1) as (ok & s2 & H2 & S2 & K2).
  erewrite bind_run by exact H2. cbn beta. pose proof (db_same_trans _ _ _ S1 S2) as [F2 T2].
  destruct ok; cbn [negb]; cycle 1.
  { exists (-1), s2. split; [done|]. split; [by right|]. split; [done|]. split; [by left|].
    intros Hh. apply S1 in Hh. by specialize (K2 Hh). }
  erewrite bind_run by done. cbn beta. eexists 0, _. split; [done|]. split; [by left|].
  pose proof (step_tables q s2.1) as Hst. rewrite T2 in Hst. split; [|split].
  - eapply db_frame_trans; [exact F2|]. split; [|done]. intros Hh. by apply (step_healthy q).
  - cbn [fst]. destruct (sqlite3_step q s2.1).1; [right; right; by eexists|by right; left|by left].
  - intros Hh Hl. split; [done|]. eexists. split; [|exact Hst].
    apply step_healthy; [by apply F2|]. by rewrite T2.
Qed.

(** The rows of a table. *)
Definition rows_of (t : list Z) (s : db * env) : table := default ∅ (tables s.1 !! t).

(** A database in order with both tables. *)
Definition db_ready (s : db * env) : Prop :=
  healthy s.1 /\ is_Some (tables s.1 !! CRYPT_STORE_TABLE_NAME) /\
  is_Some (tables s.1 !! CRYPT_SECRETS_TABLE_NAME).

Lemma rows_of_same t s s' : db_same s s' -> rows_of t s' = rows_of t s.
Proof. intros [_ Ht]. unfold rows_of. by rewrite Ht. Qed.

Lemma db_ready_same s s' : db_same s s' -> db_ready s -> db_ready s'.
Proof. intros [[Hh _] Ht] (H1 & H2 & H3). unfold db_ready. rewrite Ht. auto. Qed.

(** Saving an entry: no other row, and no other table, is touched; in a
    database in order the row is there afterwards. *)
Lemma save_store_run key v i iv s :
  exists z s', save_sqlite_store_entry {| sr_key := Some key; sr_value := v; sr_id := i; sr_iv := iv |} s =
      Done (z, s') /\
    (z = 0 \/ z = -1) /\ db_frame s s' /\
    (forall k, k <> key ->
       rows_of CRYPT_STORE_TABLE_NAME s' !! k = rows_of CRYPT_STORE_TABLE_NAME s !! k) /\
    rows_of CRYPT_SECRETS_TABLE_NAME s' = rows_of CRYPT_SECRETS_TABLE_NAME s /\
    (db_ready s -> z = 0 /\ db_ready s' /\
       rows_of CRYPT_STORE_TABLE_NAME s' = <[key := [v; i; iv]]> (rows_of CRYPT_STORE_TABLE_NAME s)).
Proof.
  unfold save_sqlite_store_entry. cbn [sr_key sr_value sr_id sr_iv].
  destruct (run_statement_run 1 (sql_delete CRYPT_STORE_TABLE_NAME (Some key)) s)
    as (z1 & s1 & H1 & Hz1 & F1 & E1 & K1).
  erewrite bind_run by exact H1. cbn beta.
  assert ((forall k, k <> key -> rows_of CRYPT_STORE_TABLE_NAME s1 !! k = rows_of CRYPT_STORE_TABLE_NAME s !! k) /\
    rows_of CRYPT_SECRETS_TABLE_NAME s1 = rows_of CRYPT_SECRETS_TABLE_NAME s) as [R1 Q1].
  { unfold rows_of. destruct E1 as [->|[(m & Hm & ->)|(c & [])]]; [done|].
    rewrite lookup_insert_eq, lookup_insert_ne, Hm by done. split; [|done].
    intros k Hk. cbn. by rewrite lookup_delete_ne. }
  destruct (Z.ltb_spec z1 0) as [Hneg|Hpos].
  { exists (-1), s1. split; [done|]. split; [by right|]. split; [done|]. split; [done|]. split; [done|].
    intros (Hh & Ht & _). destruct (K1 Hh Ht) as [-> _]. lia. }
  destruct (run_statement_run 4 (sql_insert CRYPT_STORE_TABLE_NAME (Some key) [v; i; iv]) s1)
    as (z2 & s2 & H2 & Hz2 & F2 & E2 & K2).
  exists z2, s2. split; [exact H2|]. split; [done|]. split; [by eapply db_frame_trans|].
  assert ((forall k, k <> key -> rows_of CRYPT_STORE_TABLE_NAME s2 !! k = rows_of CRYPT_STORE_TABLE_NAME s1 !! k) /\
    rows_of CRYPT_SECRETS_TABLE_NAME s2 = rows_of CRYPT_SECRETS_TABLE_NAME s1) as [R2 Q2].
  { unfold rows_of. destruct E2 as [->|[(m & Hm & _ & ->)|(c & [])]]; [done|].
    rewrite lookup_insert_eq, lookup_insert_ne, Hm by done. split; [|done].
    intros k Hk. cbn. by rewrite lookup_insert_ne. }
  split; [|split].
  - intros k Hk. by rewrite R2, R1.
  - by rewrite Q2.
  - intros (Hh & (m & Hm) & Hs). destruct (K1 Hh (ex_intro _ m Hm)) as (_ & r & Hr & Hst).
    destruct r; [done| |done]. destruct Hst as (m' & Hm' & HT1). rewrite Hm in Hm'. injection Hm' as <-.
    destruct K2 as (-> & r2 & Hr2 & Hst2).
    { by apply F1. }
    { exists (delete key m). rewrite HT1, lookup_insert_eq, lookup_delete_eq. done. }
    destruct r2; [done| |done]. destruct Hst2 as (m2 & Hm2 & _ & HT2).
    rewrite HT1, lookup_insert_eq in Hm2. injection Hm2 as <-. split; [done|].
    unfold db_ready, rows_of. rewrite HT2, HT1, Hm, insert_insert_eq, lookup_insert_eq, insert_delete_eq.
    rewrite lookup_insert_ne by done. split; [|done]. split; [by apply F2, F1|]. by split; [eexists|].
Qed.

Lemma save_secrets_run id v sa iv s :
  exists z s', save_sqlite_secrets_entry {| se_id := id; se_value := v; se_salt := sa; se_iv := iv |} s =
      Done (z, s') /\
    (z = 0 \/ z = -1) /\ db_frame s s' /\
    rows_of CRYPT_STORE_TABLE_NAME s' = rows_of CRYPT_STORE_TABLE_NAME s /\
    (forall key, id = Some key -> db_ready s -> rows_of CRYPT_SECRETS_TABLE_NAME s !! key = None ->
       z = 0 /\ db_ready s' /\
       rows_of CRYPT_SECRETS_TABLE_NAME s' =
         <[key := [v; sa; iv]]> (rows_of CRYPT_SECRETS_TABLE_NAME s)).
Proof.
  unfold save_sqlite_secrets_entry. cbn [se_id se_value se_salt se_iv].
  destruct (run_statement_run 4 (sql_insert CRYPT_SECRETS_TABLE_NAME id [v; sa; iv]) s)
    as (z & s' & H & Hz & F & E & K).
  exists z, s'. split; [done|]. split; [done|]. split; [done|]. split.
  { unfold rows_of. destruct E as [->|[E|(c & [])]]; [done|]. destruct id as [id|]; [|done].
    destruct E as (m & _ & _ & ->). by rewrite lookup_insert_ne. }
  intros key -> (Hh & Ht & (m & Hm)) Hfree. unfold rows_of in Hfree. rewrite Hm in Hfree.
  destruct (K Hh) as (-> & r & Hr & Hst); [by exists m|].
  destruct r; [done| |done]. destruct Hst as (m' & Hm' & _ & HT). rewrite Hm in Hm'. injection Hm' as <-.
  split; [done|]. unfold db_ready, rows_of. rewrite HT, lookup_insert_eq, lookup_insert_ne, Hm by done.
  split; [|done]. split; [by apply F|]. by split; [|eexists].
Qed.

(** Reading a row changes nothing. *)
Lemma select_row_run t k s : exists o s', select_row t k s = Done (o, s') /\ db_same s s' /\
  (forall c, o = Some (Some c) -> rows_of t s !! k = Some c) /\
  (healthy s.1 -> is_Some (tables s.1 !! t) -> o = Some (rows_of t s !! k)).
Proof.
  unfold select_row. destruct (in_db_prepare (sql_select t (Some k)) s) as (ok & s1 & H1 & S1 & K1).
  erewrite bind_run by exact H1. cbn beta. destruct ok; cbn [negb]; cycle 1.
  { exists None, s1. split; [done|]. split; [done|]. split; [done|]. intros Hh. by specialize (K1 Hh). }
  erewrite bind_run by done. cbn beta. erewrite bind_run by done. cbn beta. cbn [fst snd].
  set (d2 := (sqlite3_bind_text _ s1.1).2). set (b := (sqlite3_bind_text _ s1.1).1).
  set (q := sql_select t (if b then Some k else None)).
  pose proof (step_tables q d2) as Hst.
  assert (tables d2 = tables s.1) as T2 by (unfold d2; rewrite bind_tables; apply S1).
  eexists _, _. split; [done|]. rewrite T2 in Hst. split; [split; [split|]|split].
  - intros Hh. apply S1 in Hh. by apply step_healthy, bind_healthy.
  - apply S1.
  - cbn [fst]. destruct (sqlite3_step q d2) as [[c| |] d3]; unfold q in Hst; cbn in *;
      destruct b; cbn in Hst; intuition congruence.
  - intros c Hc. unfold rows_of. destruct (sqlite3_step q d2) as [[c'| |] d3]; [|done|done].
    injection Hc as ->. unfold q in Hst. destruct b; cbn in Hst; [|done].
    destruct Hst as (_ & m & Hm & Hk). by rewrite Hm.
  - intros Hh Hs. pose proof (proj1 S1) as [Hh1 _].
    destruct (bind_healthy (sql_select t (Some k)) s1.1 (Hh1 Hh)) as [Hb Hh2].
    assert (b = true) as Eb by done. unfold q in *. rewrite Eb in *.
    destruct (step_healthy (sql_select t (Some k)) d2 Hh2) as [Hf _]. rewrite T2 in Hf. specialize (Hf Hs).
    unfold rows_of. destruct (sqlite3_step _ d2) as [[c'| |] d3]; cbn in *; [| |done];
      destruct Hst as (_ & m & Hm & Hk); rewrite Hm; cbn; by rewrite Hk.
Qed.

(** With memory, copies of columns are the columns. *)
Lemma dup_column_run c s : mallocs s.2 = [] -> dup_column c s = Done (c, s).
Proof.
  intros Hm. destruct c as [t|]; [|done]. cbn [dup_column].
  erewrite bind_run; [|unfold in_mem, malloc; rewrite Hm; done]. by destruct s.
Qed.

Lemma in_mem_malloc_nil s : mallocs s.2 = [] -> in_mem malloc s = Done (true, s).
Proof. intros Hm. unfold in_mem, malloc. rewrite Hm. by destruct s. Qed.

(** The row of a key in the table of the store. *)
Definition store_row_of (key : list Z) (o : option row) : store_row :=
  match o with
  | None => {| sr_key := None; sr_value := None; sr_id := None; sr_iv := None |}
  | Some c => {| sr_key := Some key; sr_value := column c 0; sr_id := column c 1; sr_iv := column c 2 |}
  end.
Definition secrets_row_of (id : list Z) (o : option row) : secrets_row :=
  match o with
  | None => {| se_id := None; se_value := None; se_salt := None; se_iv := None |}
  | Some c => {| se_id := Some id; se_value := column c 0; se_salt := column c 1; se_iv := column c 2 |}
  end.

Lemma get_store_row_run key s : mallocs s.2 = [] ->
  exists o s', get_sqlite_store_row key s = Done (o, s') /\ db_same s s' /\
    (forall r, o = Some r -> r = store_row_of key None \/
       exists c, rows_of CRYPT_STORE_TABLE_NAME s !! key = Some c /\ r = store_row_of key (Some c)) /\
    (db_ready s -> o = Some (store_row_of key (rows_of CRYPT_STORE_TABLE_NAME s !! key))).
Proof.
  intros Hm. unfold get_sqlite_store_row. erewrite bind_run by (by apply in_mem_malloc_nil). cbn beta.
  destruct (select_row_run CRYPT_STORE_TABLE_NAME key s) as (o & s' & H & S & Hc & K).
  erewrite bind_run by exact H. cbn beta. cbn [negb].
  assert (mallocs s'.2 = []) as Hm' by (destruct S as [(_ & _ & ->) _]; done).
  destruct o as [[c|]|].
  - erewrite bind_run by (by apply dup_column_run). cbn beta.
    erewrite bind_run by (by apply dup_column_run). cbn beta.
    erewrite bind_run by (by apply dup_column_run). cbn beta.
    eexists _, s'. split; [done|]. split; [done|]. split.
    + intros r [= <-]. right. exists c. split; [by apply Hc|done].
    + intros (Hh & Ht & _). by rewrite (Hc c eq_refl).
  - eexists _, s'. split; [done|]. split; [done|]. split; [intros r [= <-]; by left|].
    intros (Hh & Ht & _). by rewrite <- (inj Some _ _ (K Hh Ht)).
  - exists None, s'. split; [done|]. split; [done|]. split; [done|]. intros (Hh & Ht & _). by specialize (K Hh Ht).
Qed.

Lemma get_secrets_row_run id s : mallocs s.2 = [] ->
  exists o s', get_sqlite_secrets_row id s = Done (o, s') /\ db_same s s' /\
    (db_ready s -> o = Some (secrets_row_of id (rows_of CRYPT_SECRETS_TABLE_NAME s !! id))).
Proof.
  intros Hm. unfold get_sqlite_secrets_row. erewrite bind_run by (by apply in_mem_malloc_nil). cbn beta.
  destruct (select_row_run CRYPT_SECRETS_TABLE_NAME id s) as (o & s' & H & S & Hc & K).
  erewrite bind_run by exact H. cbn beta. cbn [negb].
  assert (mallocs s'.2 = []) as Hm' by (destruct S as [(_ & _ & ->) _]; done).
  destruct o as [[c|]|].
  - do 4 (erewrite bind_run by (by apply dup_column_run); cbn beta).
    eexists _, s'. split; [done|]. split; [done|]. intros (Hh & _ & Ht). by rewrite (Hc c eq_refl).
  - eexists _, s'. split; [done|]. split; [done|].
    intros (Hh & _ & Ht). by rewrite <- (inj Some _ _ (K Hh Ht)).
  - exists None, s'. split; [done|]. split; [done|]. intros (Hh & _ & Ht). by specialize (K Hh Ht).
Qed.

(** Opening makes the tables that are missing and keeps the rows. *)
Lemma ensure_table_run t s : healthy s.1 ->
  exists s', ensure_table t s = Done (0, s') /\ db_frame s s' /\
    tables s'.1 = <[t := rows_of t s]> (tables s.1).
Proof.
  intros Hh. unfold ensure_table, check_table_exists.
  destruct (in_db_prepare (sql_find_table t) s) as (ok & s1 & H1 & S1 & K1).
  erewrite bind_run; [|erewrite bind_run by exact H1; cbn beta; rewrite (K1 Hh); cbn [negb];
    erewrite bind_run by done; cbn beta; pose proof (proj1 (proj1 S1) Hh) as Hh1;
    rewrite (proj1 (bind_healthy (sql_find_table t) s1.1 Hh1)); cbn [negb];
    erewrite bind_run by done; done].
  cbn beta. cbn [fst snd]. pose proof (proj1 (proj1 S1) Hh) as Hh1.
  destruct (bind_healthy (sql_find_table t) s1.1 Hh1) as [_ Hh2].
  set (d2 := (sqlite3_bind_text _ s1.1).2) in *.
  assert (tables d2 = tables s.1) as T2 by (unfold d2; rewrite bind_tables; apply S1).
  destruct (step_healthy (sql_find_table t) d2 Hh2) as [Hf Hh3]. specialize (Hf I).
  pose proof (step_tables (sql_find_table t) d2) as Hst. rewrite T2 in Hst.
  assert (forall d, healthy d -> db_frame s (d, s1.2)) as Fd.
  { intros d Hd. destruct S1 as [(_ & R & M) _]. split; [done|]. by split. }
  destruct (sqlite3_step (sql_find_table t) d2) as [[c| |] d3]; cbn [fst snd] in *; [| |done].
  - eexists. split; [done|]. split; [by apply Fd|]. cbn [fst]. destruct Hst as [-> [m Hm]].
    unfold rows_of. rewrite Hm. cbn. by rewrite insert_id.
  - destruct Hst as [HT Hn]. cbn [Z.eqb].
    destruct (in_db_prepare (sql_create t) (d3, s1.2)) as (ok4 & s4 & H4 & S4 & K4).
    unfold execute_sqlite_query.
    erewrite bind_run; [|erewrite bind_run by exact H4; cbn beta; rewrite (K4 Hh3); cbn [negb];
      erewrite bind_run by done; done].
    cbn beta. pose proof (proj1 (proj1 S4) Hh3) as Hh4.
    destruct (step_healthy (sql_create t) s4.1 Hh4) as [Hf4 Hh5].
    pose proof (step_tables (sql_create t) s4.1) as Hst4.
    assert (tables s4.1 = tables s.1) as T4 by (by rewrite (proj2 S4); cbn [fst]).
    rewrite T4 in Hf4, Hst4. specialize (Hf4 Hn).
    destruct (sqlite3_step (sql_create t) s4.1) as [[c| |] d5]; cbn [fst snd] in *; [done| |done].
    eexists. split; [done|]. split.
    + eapply db_frame_trans; [apply (Fd d3 Hh3)|]. eapply db_frame_trans; [apply S4|].
      split; [done|]. by split.
    + cbn [fst]. destruct Hst4 as [_ ->]. unfold rows_of. by rewrite Hn.
Qed.

Lemma open_run s : healthy s.1 ->
  exists s', open_sqlite_crypt_db s = Done (0, s') /\ db_frame s s' /\ db_ready s' /\
    rows_of CRYPT_STORE_TABLE_NAME s' = rows_of CRYPT_STORE_TABLE_NAME s /\
    rows_of CRYPT_SECRETS_TABLE_NAME s' = rows_of CRYPT_SECRETS_TABLE_NAME s.
Proof.
  intros Hh. unfold open_sqlite_crypt_db. erewrite bind_run by done. cbn beta.
  destruct (open_healthy s.1 Hh) as [-> Hh1]. cbn [negb].
  set (s1 := ((sqlite3_open s.1).2, s.2)).
  assert (db_same s s1) as S1 by (split; [by split|apply open_tables]).
  destruct (ensure_table_run CRYPT_STORE_TABLE_NAME s1 Hh1) as (s2 & H2 & F2 & T2).
  erewrite bind_run by exact H2. cbn beta. cbn [Z.ltb Z.compare].
  destruct (ensure_table_run CRYPT_SECRETS_TABLE_NAME s2 (proj1 F2 Hh1)) as (s3 & H3 & F3 & T3).
  exists s3. split; [done|]. pose proof (db_frame_trans _ _ _ F2 F3) as F.
  split; [by eapply db_frame_trans; [apply S1|]|].
  unfold db_ready, rows_of. rewrite T3, T2, lookup_insert_eq.
  rewrite (lookup_insert_ne _ CRYPT_SECRETS_TABLE_NAME), lookup_insert_eq by done.
  unfold rows_of. rewrite T2, (lookup_insert_ne _ CRYPT_STORE_TABLE_NAME) by done.
  rewrite (proj2 S1). split; [|done]. split; [by apply F|]. by split; eexists.
Qed.
End writer.

(** ** An instance *)

(** Tables and, for each step, whether it goes wrong; without such answers every
    legal statement succeeds. *)
Record list_db := { ld_tables : database; ld_broken : list bool }.

#[export] Instance legal_dec q T : Decision (legal q T).
Proof.
  destruct q as [n|n|t k|t [k|] c|t k]; cbn; try apply _.
  destruct (T !! t) as [m|] eqn:Ht; [|right; by intros (m & ? & ?)].
  destruct (m !! k) eqn:Hk; [right; intros (m' & [= <-] & ?); congruence|left; by exists m].
Defined.

(** The answer to a legal statement and the tables after it. *)
Definition list_answer (q : sql) (T : database) : sql_result * database :=
  match q with
  | sql_find_table n => (match T !! n with Some _ => SQLITE_ROW [] | None => SQLITE_DONE end, T)
  | sql_create n => (SQLITE_DONE, <[n := ∅]> T)
  | sql_delete t (Some k) => (SQLITE_DONE, <[t := delete k (default ∅ (T !! t))]> T)
  | sql_delete t None => (SQLITE_DONE, T)
  | sql_insert t (Some k) c => (SQLITE_DONE, <[t := <[k := c]> (default ∅ (T !! t))]> T)
  | sql_insert t None c => (SQLITE_FAIL, T)
  | sql_select t (Some k) =>
      (match default ∅ (T !! t) !! k with Some c => SQLITE_ROW c | None => SQLITE_DONE end, T)
  | sql_select t None => (SQLITE_DONE, T)
  end.

Definition list_step (q : sql) (d : list_db) : sql_result * list_db :=
  let rest := tail (ld_broken d) in
  if bool_decide (legal q (ld_tables d)) && negb (default false (head (ld_broken d)))
  then let (r, T) := list_answer q (ld_tables d) in (r, {| ld_tables := T; ld_broken := rest |})
  else (SQLITE_FAIL, {| ld_tables := ld_tables d; ld_broken := rest |}).

Lemma list_answer_spec q T : legal q T ->
  step_spec q T (list_answer q T).1 (list_answer q T).2 /\ (list_answer q T).1 <> SQLITE_FAIL.
Proof.
  destruct q as [n|n|t [k|]|t [k|] c|t [k|]]; cbn; try done.
  - by destruct (T !! n) eqn:Hn.
  - intros [m Hm]. rewrite Hm. split; [by exists m|done].
  - intros (m & Hm & Hk). rewrite Hm. split; [by exists m|done].
  - intros [m Hm]. rewrite Hm. cbn. destruct (m !! k) eqn:Hk; cbn; split; eauto.
Qed.

Lemma list_step_broken q T b : list_step q {| ld_tables := T; ld_broken := true :: b |} =
  (SQLITE_FAIL, {| ld_tables := T; ld_broken := b |}).
Proof. unfold list_step. cbn [ld_tables ld_broken head tail default negb]. by rewrite andb_false_r. Qed.

Lemma list_step_legal q T b : legal q T -> list_step q {| ld_tables := T; ld_broken := false :: b |} =
  ((list_answer q T).1, {| ld_tables := (list_answer q T).2; ld_broken := b |}).
Proof.
  intros Hl. unfold list_step. cbn [ld_tables ld_broken head tail default negb].
  rewrite bool_decide_true by done. cbn [andb]. by destruct (list_answer q T).
Qed.

#[export, refine] Instance list_sqlite : Sqlite := {|
  db := list_db;
  tables := ld_tables;
  healthy d := ld_broken d = [];
  sqlite3_open d := (true, d);
  sqlite3_prepare_v2 _ d := (true, d);
  sqlite3_bind_text _ d := (true, d);
  sqlite3_step := list_step
|}.
Proof.
  all: try done.
  - intros q d. unfold list_step. case_bool_decide as Hl; [|done]. cbn [andb].
    destruct (default false (head (ld_broken d))); [done|]. cbn [negb].
    pose proof (list_answer_spec q (ld_tables d) Hl) as [Hs _].
    by destruct (list_answer q (ld_tables d)).
  - intros q d Hb. unfold list_step. rewrite Hb. cbn.
    pose proof (list_answer_spec q (ld_tables d)) as Hs.
    case_bool_decide as Hl; cbn; [|done]. destruct (Hs Hl) as [_ Hf].
    by destruct (list_answer q (ld_tables d)).
Defined.

Lemma list_statement n q T b r T' b' e : list_step q {| ld_tables := T; ld_broken := b |} =
    (r, {| ld_tables := T'; ld_broken := b' |}) ->
  run_statement (SQ := list_sqlite) n q ({| ld_tables := T; ld_broken := b |}, e) =
    Done (0, ({| ld_tables := T'; ld_broken := b' |}, e)).
Proof.
  intros H. unfold run_statement. erewrite bind_run by done. cbn beta. cbn [fst snd sqlite3_prepare_v2 list_sqlite negb].
  assert (forall s, bind_all (SQ := list_sqlite) n q s = Done (true, s)) as Hb.
  { induction n as [|n IH]; intros s; cbn [bind_all]; [done|]. erewrite bind_run by done. cbn. destruct s. apply IH. }
  erewrite bind_run by apply Hb. cbn beta. cbn [negb].
  erewrite bind_run; [done|]. unfold in_db. cbn [fst snd sqlite3_step list_sqlite]. by rewrite H.
Qed.
