(* ===== verification/Cryptou.v ===== *)
(** The cryptographic utilities: [src/utils/cryptou.c].

    OpenSSL is a parameter: AES-256-CBC with PKCS#7 padding, PBKDF2, key pairs
    with their PEM texts, signatures and certificates, with the laws its
    documentation states.  Its calls fail for lack of memory, which the
    allocation oracle of the environment decides.  The functions of the file are
    translated with the buffers they read and write. *)
From stdpp Require Import strings numbers base list gmap.
From Stdlib Require Import ZArith Lia.
From S2P Require Import Prelude.

Definition AES_BLOCK_SIZE : Z := 16.
Definition IV_SIZE : Z := AES_BLOCK_SIZE.
Definition SALT_SIZE : Z := 16.
Definition AES_KEY_SIZE : Z := 32.
Definition MAX_CERT_FIELD_SIZE : Z := 64.

(** The strings of the fields. *)
Record certificate_meta := {
  not_before : Z;
  not_after : Z;
  cm_c : list Z;
  cm_o : list Z;
  cm_ou : list Z;
  cm_cn : list Z
}.

Inductive CRYPTO_KEY_TYPE := CRYPTO_KEY_NONE | CRYPTO_KEY_RSA | CRYPTO_KEY_EC.

(** ** OpenSSL *)

Class Openssl := {
  (** The ciphertext, and what [EVP_DecryptUpdate] and [EVP_DecryptFinal_ex] put
      out; the latter refuses a wrong padding. *)
  aes_encrypt : list Z -> list Z -> list Z -> list Z;
  aes_decrypt_update : list Z -> list Z -> list Z -> list Z;
  aes_decrypt_final : list Z -> list Z -> list Z -> option (list Z);
  pbkdf2 : list Z -> list Z -> Z -> list Z;
  pkey : Type;
  public_part : pkey -> pkey;
  ec_keygen : list Z -> pkey;
  rsa_keygen : Z -> list Z -> pkey;
  pem_private : pkey -> list Z;
  pem_public : pkey -> list Z;
  pem_certificate : pkey -> certificate_meta -> list Z;
  read_private : list Z -> option pkey;
  read_public : list Z -> option pkey;
  signature_size : pkey -> Z;
  sign : pkey -> list Z -> list Z -> list Z;
  verify : pkey -> list Z -> list Z -> bool;
  aes_encrypt_len k iv p : zlen (aes_encrypt k iv p) = (zlen p / 16 + 1) * 16;
  aes_encrypt_bytes k iv p : bytes (aes_encrypt k iv p);
  aes_decrypt_len k iv c l : aes_decrypt_final k iv c = Some l ->
    zlen (aes_decrypt_update k iv c) + zlen l <= zlen c;
  aes_decrypt_update_len k iv c : zlen (aes_decrypt_update k iv c) <= zlen c;
  aes_decrypt_encrypt k iv p : bytes p -> exists l,
    aes_decrypt_final k iv (aes_encrypt k iv p) = Some l /\
    aes_decrypt_update k iv (aes_encrypt k iv p) ++ l = p;
  pbkdf2_len s salt n : 0 <= n -> zlen (pbkdf2 s salt n) = n;
  public_idem k : public_part (public_part k) = public_part k;
  pem_public_part k : pem_public (public_part k) = pem_public k;
  pem_text k m : Forall (fun c => 0 < c < 128) (pem_private k) /\
    Forall (fun c => 0 < c < 128) (pem_public k) /\
    Forall (fun c => 0 < c < 128) (pem_certificate k m);
  pem_nonempty k m : pem_private k <> [] /\ pem_public k <> [] /\ pem_certificate k m <> [];
  read_private_pem k : read_private (pem_private k) = Some k;
  read_public_pem k : read_public (pem_public k) = Some (public_part k);
  sign_len k d r : 0 < zlen (sign k d r) <= signature_size k;
  sign_bytes k d r : bytes (sign k d r);
  verify_sign k d r : verify (public_part k) d (sign k d r) = true
}.

(** ** Randomness *)

(** The return value and the bytes; on failure the buffer stays as it is. *)
Definition RAND_bytes (n : Z) : prog env (Z * option (list Z)) := fun e =>
  match randoms e with
  | [] => Done ((0, None), e)
  | l :: rs =>
      if zlen l <? n then Done ((0, None), Env (mallocs e) rs)
      else Done ((1, Some (u8 <$> take (Z.to_nat n) l)), Env (mallocs e) rs)
  end.

Definition crypto_geniv (iv_size : Z) := RAND_bytes iv_size.
Definition crypto_gensalt (salt_size : Z) := RAND_bytes salt_size.
Definition crypto_genkey (key_size : Z) := RAND_bytes key_size.

(** One call that may fail, after others that succeeded; its failure is the
    failure of the function, in the state reached. *)
Ltac evp_next K0 e' K :=
  match type of K0 with
  | env_ok _ ?e _ =>
      let ok := fresh "ok" in let H := fresh "Hcall" in let K1 := fresh "Kcall" in
      destruct (malloc_ok e) as (ok & e' & H & K1);
      pose proof (env_ok_trans _ _ _ _ _ K0 K1) as K;
      erewrite bind_run by exact H; cbn beta; destruct ok; cbn [negb];
      [|eexists _, _, e'; split; [reflexivity|]; split; [by eapply env_ok_mono|by left]]
  end.

Section cryptou.
Context {SSL : Openssl}.

(** A call that fails only for lack of memory. *)
Definition evp : prog env bool := malloc.

Definition crypto_buf2key (buf salt : list Z) (key_size : Z) : prog env (option (list Z)) :=
  ok ← evp;
  mret (if (ok : bool) then Some (pbkdf2 buf salt key_size) else None).

(** [out] is the object behind the output pointer; the result is the return
    value and the object. *)
Definition crypto_encrypt (inp key iv out : list Z) : prog env (Z * list Z) :=
  ok ← evp;
  if negb ok then mret (-1, out)
  else
    ok ← evp;
    if negb ok then mret (-1, out)
    else
      k ← lift_outcome (rd key 0 AES_KEY_SIZE);
      v ← lift_outcome (rd iv 0 IV_SIZE);
      ok ← evp;
      if negb ok then mret (-1, out)
      else
        let c := aes_encrypt k v inp in
        let len := zlen inp / AES_BLOCK_SIZE * AES_BLOCK_SIZE in
        out1 ← lift_outcome (wr out 0 (take (Z.to_nat len) c));
        ok ← evp;
        if negb ok then mret (-1, out1)
        else
          out2 ← lift_outcome (wr out1 len (drop (Z.to_nat len) c));
          mret (zlen c, out2).

Definition crypto_decrypt (inp key iv out : list Z) : prog env (Z * list Z) :=
  ok ← evp;
  if negb ok then mret (-1, out)
  else
    ok ← evp;
    if negb ok then mret (-1, out)
    else
      k ← lift_outcome (rd key 0 AES_KEY_SIZE);
      v ← lift_outcome (rd iv 0 IV_SIZE);
      ok ← evp;
      if negb ok then mret (-1, out)
      else
        let p := aes_decrypt_update k v inp in
        out1 ← lift_outcome (wr out 0 p);
        match aes_decrypt_final k v inp with
        | None => mret (-1, out1)
        | Some l =>
            out2 ← lift_outcome (wr out1 (zlen p) l);
            mret (zlen p + zlen l, out2)
        end.

(** ** Key pairs *)

(** [n] calls in turn, up to the first that fails. *)
Fixpoint evps (n : nat) : prog env bool :=
  match n with
  | O => mret true
  | S n' => ok ← evp; if negb ok then mret false else evps n'
  end.

(** The random bytes a key generation uses. *)
Definition entropy : prog env (option (list Z)) := fun e =>
  match randoms e with
  | [] => Done (None, e)
  | l :: rs => Done (Some (u8 <$> l), Env (mallocs e) rs)
  end.

Definition crypto_generate_rsa_key (bits : Z) : prog env (option pkey) :=
  ok ← evps 3;
  if negb ok then mret None
  else r ← entropy; mret (rsa_keygen bits <$> r).

Definition crypto_generate_ec_key : prog env (option pkey) :=
  ok ← evps 6;
  if negb ok then mret None
  else r ← entropy; mret (ec_keygen <$> r).

Definition crypto_generate_cert (k : pkey) (meta : certificate_meta) : prog env (option (pkey * certificate_meta)) :=
  ok ← evps 3;
  mret (if (ok : bool) then Some (k, meta) else None).

Definition crypto_key2evp (key : list Z) : prog env (option pkey) :=
  ok ← evps 2;
  if negb ok then mret None
  else
    match read_private key with
    | None => mret None
    | Some k => ok ← evp; mret (if (ok : bool) then Some k else None)
    end.

Definition crypto_priv2pub (k : pkey) : prog env (option pkey) :=
  ok ← evps 2;
  if negb ok then mret None
  else
    match read_public (pem_public k) with
    | None => mret None
    | Some p => ok ← evp; mret (if (ok : bool) then Some p else None)
    end.

Definition crypto_get_key_str (private : bool) (k : pkey) : prog env (option (list Z)) :=
  ok ← evps 2;
  if negb ok then mret None
  else
    ok ← malloc;
    mret (if (ok : bool) then Some (if private then pem_private k else pem_public k) else None).

(** The return value and the string behind the output pointer. *)
Definition crypto_generate_privkey_str (type : CRYPTO_KEY_TYPE) (bits : Z) :
    prog env (Z * option (list Z)) :=
  o ← match type with
      | CRYPTO_KEY_RSA => crypto_generate_rsa_key bits
      | _ => crypto_generate_ec_key
      end;
  match o with
  | None => mret (-1, None)
  | Some k =>
      t ← crypto_get_key_str true k;
      match t with
      | None => mret (-1, None)
      | Some text => mret (0, Some text)
      end
  end.

(** Success is answered even if the text could not be made. *)
Definition crypto_generate_pubkey_str (key : list Z) : prog env (Z * option (list Z)) :=
  o ← crypto_key2evp key;
  match o with
  | None => mret (-1, None)
  | Some privkey =>
      p ← crypto_priv2pub privkey;
      match p with
      | None => mret (-1, None)
      | Some pubkey => t ← crypto_get_key_str false pubkey; mret (0, t)
      end
  end.

Definition crypto_generate_cert_str (meta : certificate_meta) (key : list Z) :
    prog env (Z * option (list Z)) :=
  ok ← evp;
  if negb ok then mret (-1, None)
  else
    o ← crypto_key2evp key;
    match o with
    | None => mret (-1, None)
    | Some k =>
        x ← crypto_generate_cert k meta;
        match x with
        | None => mret (-1, None)
        | Some (k, meta) =>
            ok ← evp;
            if negb ok then mret (-1, None)
            else
              ok ← malloc;
              mret (if (ok : bool) then (0, Some (pem_certificate k meta)) else (-1, None))
        end
    end.

(** ** Signatures *)

Definition crypto_verify_data (key inp sig : list Z) : prog env Z :=
  o ← crypto_key2evp key;
  match o with
  | None => mret (-1)
  | Some privkey =>
      p ← crypto_priv2pub privkey;
      match p with
      | None => mret (-1)
      | Some pubkey =>
          ok ← evps 3;
          if negb ok then mret (-1)
          else mret (if verify pubkey inp sig then 0 else -1)
      end
  end.

(** The return value and the signature. *)
Definition crypto_sign_data (key inp : list Z) : prog env (Z * option (list Z)) :=
  o ← crypto_key2evp key;
  match o with
  | None => mret (-1, None)
  | Some k =>
      ok ← evps 4;
      if negb ok then mret (-1, None)
      else
        ok ← malloc;
        if negb ok then mret (-1, None)
        else
          r ← entropy;
          match r with
          | None => mret (-1, None)
          | Some r =>
              sig ← lift_outcome (wr (zeros (Z.to_nat (signature_size k))) 0 (sign k inp r));
              let sig_len := zlen (sign k inp r) in
              out ← lift_outcome (rd sig 0 sig_len);
              z ← crypto_verify_data key inp out;
              if z <? 0 then mret (-1, None) else mret (sig_len, Some out)
          end
  end.

(** ** Lemmas *)

Lemma evps_run n e : exists ok e', evps n e = Done (ok, e') /\ env_ok e e' (ok = true).
Proof.
  revert e. induction n as [|n IH]; intros e; cbn [evps]; [by exists true, e|].
  destruct (malloc_ok e) as (ok & e1 & H1 & K1). erewrite bind_run by exact H1. cbn beta.
  destruct ok; cbn [negb].
  - destruct (IH e1) as (ok2 & e2 & H2 & K2). exists ok2, e2. split; [done|]. by eapply env_ok_trans.
  - exists false, e1. by split.
Qed.

Lemma aes_encrypt_split k iv p : let c := aes_encrypt k iv p in
  let n := Z.to_nat (zlen p / AES_BLOCK_SIZE * AES_BLOCK_SIZE) in
  zlen (take n c) = zlen p / AES_BLOCK_SIZE * AES_BLOCK_SIZE /\ zlen c <= zlen p + AES_BLOCK_SIZE.
Proof.
  pose proof (aes_encrypt_len k iv p) as Hl. cbn zeta. unfold AES_BLOCK_SIZE. pose proof (zlen_nonneg p).
  split; [|zdiv_lia]. unfold zlen in *. rewrite length_take. zdiv_lia.
Qed.

Lemma wr_front (buf l : list Z) : zlen l <= zlen buf ->
  wr buf 0 l = Done (l ++ drop (length l) buf).
Proof. intros H. apply wr_done. split; [lia|]. split; [lia|]. done. Qed.

(** Two writes one after the other. *)
Lemma wr_twice (buf l k : list Z) : zlen l + zlen k <= zlen buf ->
  wr (l ++ drop (length l) buf) (zlen l) k = Done (l ++ k ++ drop (length l + length k) buf).
Proof.
  intros H. apply wr_done. pose proof (zlen_nonneg l). split; [done|]. split.
  - rewrite zlen_app. unfold zlen in *. rewrite length_drop. lia.
  - unfold zlen. rewrite Nat2Z.id, take_app_length, drop_app_add'.
    + by rewrite drop_drop.
    + done.
Qed.

Lemma rd_prefix (l : list Z) n : 0 <= n <= zlen l -> rd l 0 n = Done (take (Z.to_nat n) l).
Proof. intros H. apply rd_done. split; [lia|]. split; [lia|]. split; [lia|]. done. Qed.

(** The key and the initialisation vector behind their pointers. *)
Definition key_of (key : list Z) : list Z := take (Z.to_nat AES_KEY_SIZE) key.
Definition iv_of (iv : list Z) : list Z := take (Z.to_nat IV_SIZE) iv.

(** Encryption stays in its buffer and puts the ciphertext at its start, or
    fails for lack of memory. *)
Lemma crypto_encrypt_run inp key iv out e :
  AES_KEY_SIZE <= zlen key -> IV_SIZE <= zlen iv -> zlen inp + AES_BLOCK_SIZE <= zlen out ->
  let c := aes_encrypt (key_of key) (iv_of iv) inp in
  exists z out' e', crypto_encrypt inp key iv out e = Done ((z, out'), e') /\
    env_ok e e' (z <> -1) /\ (z = -1 \/ z = zlen c /\ exists t, out' = c ++ t).
Proof.
  intros Hk Hv Ho c. unfold crypto_encrypt.
  evp_next (env_ok_refl e True I) e1 K1.
  evp_next K1 e2 K2.
  erewrite bind_run by (rewrite rd_prefix by (unfold AES_KEY_SIZE in *; lia); done). cbn beta.
  erewrite bind_run by (rewrite rd_prefix by (unfold IV_SIZE, AES_BLOCK_SIZE in *; lia); done). cbn beta.
  evp_next K2 e3 K3.
  fold (key_of key) (iv_of iv) c.
  destruct (aes_encrypt_split (key_of key) (iv_of iv) inp) as [Hlen Hmax]. fold c in Hlen, Hmax.
  set (n := Z.to_nat (zlen inp / AES_BLOCK_SIZE * AES_BLOCK_SIZE)) in *.
  assert (zlen (take n c) + zlen (drop n c) = zlen c) as Hsum by (by rewrite <- zlen_app, take_drop).
  pose proof (zlen_nonneg (drop n c)).
  erewrite bind_run by (rewrite wr_front by lia; done). cbn beta.
  evp_next K3 e4 K4.
  erewrite bind_run by (rewrite <- Hlen, wr_twice by lia; done). cbn beta.
  eexists _, _, e4. split; [done|]. split.
  - eapply env_ok_mono; [done|]. intros _. pose proof (zlen_nonneg c). lia.
  - right. split; [done|]. rewrite app_assoc, take_drop. by eexists.
Qed.

(** Decryption into a buffer as long as the ciphertext: the plaintext at its
    start, or a failure. *)
Lemma crypto_decrypt_run inp key iv out e :
  AES_KEY_SIZE <= zlen key -> IV_SIZE <= zlen iv -> zlen inp <= zlen out ->
  exists z out' e', crypto_decrypt inp key iv out e = Done ((z, out'), e') /\
    env_ok e e' (aes_decrypt_final (key_of key) (iv_of iv) inp <> None -> z <> -1) /\
    (z = -1 \/ exists l t, aes_decrypt_final (key_of key) (iv_of iv) inp = Some l /\
       let p := aes_decrypt_update (key_of key) (iv_of iv) inp ++ l in
       z = zlen p /\ zlen p <= zlen inp /\ out' = p ++ t).
Proof.
  intros Hk Hv Ho. unfold crypto_decrypt.
  evp_next (env_ok_refl e True I) e1 K1.
  evp_next K1 e2 K2.
  erewrite bind_run by (rewrite rd_prefix by (unfold AES_KEY_SIZE in *; lia); done). cbn beta.
  erewrite bind_run by (rewrite rd_prefix by (unfold IV_SIZE, AES_BLOCK_SIZE in *; lia); done). cbn beta.
  evp_next K2 e3 K3.
  fold (key_of key) (iv_of iv).
  pose proof (aes_decrypt_update_len (key_of key) (iv_of iv) inp).
  pose proof (aes_decrypt_len (key_of key) (iv_of iv) inp) as Hfin.
  erewrite bind_run by (rewrite wr_front by lia; done). cbn beta.
  destruct (aes_decrypt_final (key_of key) (iv_of iv) inp) as [l|].
  - specialize (Hfin l eq_refl). erewrite bind_run by (rewrite wr_twice by lia; done). cbn beta.
    eexists _, _, e3. split; [done|]. split.
    + eapply env_ok_mono; [done|]. intros _ _. pose proof (zlen_nonneg l).
      pose proof (zlen_nonneg (aes_decrypt_update (key_of key) (iv_of iv) inp)). lia.
    + right. eexists l, _. split; [done|]. cbn zeta. rewrite zlen_app. split; [done|]. split; [done|].
      by rewrite <- app_assoc.
  - eexists _, _, e3. split; [done|]. split; [|by left]. by eapply env_ok_mono.
Qed.

(** Decrypting what was encrypted. *)
Lemma crypto_decrypt_encrypted p key iv out e :
  AES_KEY_SIZE <= zlen key -> IV_SIZE <= zlen iv -> bytes p ->
  let c := aes_encrypt (key_of key) (iv_of iv) p in
  zlen c <= zlen out ->
  exists z out' e', crypto_decrypt c key iv out e = Done ((z, out'), e') /\
    env_ok e e' (z <> -1) /\ (z = -1 \/ z = zlen p /\ exists t, out' = p ++ t).
Proof.
  intros Hk Hv Hp c Ho. destruct (crypto_decrypt_run c key iv out e Hk Hv Ho) as (z & out' & e' & H & K & Hz).
  destruct (aes_decrypt_encrypt (key_of key) (iv_of iv) p Hp) as (l & Hl & Hp'). fold c in Hl, Hp'.
  exists z, out', e'. split; [done|]. rewrite Hl in K. split; [by eapply env_ok_mono; [done|]; intros HK; apply HK|].
  destruct Hz as [Hz|(l' & t & Hl' & Hz & _ & Ho')]; [by left|right].
  rewrite Hl in Hl'. injection Hl' as <-. cbn zeta in *. rewrite Hp' in *. eauto.
Qed.

(** A key shorter than AES needs is read past its end. *)
Lemma crypto_encrypt_short_key inp key iv out e : mallocs e = [] -> zlen key < AES_KEY_SIZE ->
  crypto_encrypt inp key iv out e = Fault OutOfBounds.
Proof.
  intros Hm Hk. assert (evp e = Done (true, e)) as He by (unfold evp, malloc; by rewrite Hm).
  unfold crypto_encrypt. erewrite bind_run by exact He. cbn beta. cbn [negb].
  erewrite bind_run by exact He. cbn beta. cbn [negb].
  assert (rd key 0 AES_KEY_SIZE = Fault OutOfBounds) as Hr.
  { unfold rd. by rewrite (proj2 (Z.leb_gt (0 + AES_KEY_SIZE) (zlen key))) by lia. }
  unfold mbind, prog_bind at 1. by rewrite Hr.
Qed.

(** *** With memory *)

Lemma evps_nil n e : mallocs e = [] -> evps n e = Done (true, e).
Proof.
  intros Hm. induction n as [|n IH]; cbn [evps]; [done|].
  erewrite bind_run by (unfold evp, malloc; rewrite Hm; done). done.
Qed.
Lemma evp_nil e : mallocs e = [] -> evp e = Done (true, e).
Proof. intros Hm. unfold evp, malloc. by rewrite Hm. Qed.

Lemma key2evp_run k e : mallocs e = [] -> crypto_key2evp (pem_private k) e = Done (Some k, e).
Proof.
  intros Hm. unfold crypto_key2evp. erewrite bind_run by (by apply evps_nil). cbn beta. cbn [negb].
  rewrite read_private_pem. by erewrite bind_run by (by apply evp_nil).
Qed.

Lemma priv2pub_run k e : mallocs e = [] -> crypto_priv2pub k e = Done (Some (public_part k), e).
Proof.
  intros Hm. unfold crypto_priv2pub. erewrite bind_run by (by apply evps_nil). cbn beta. cbn [negb].
  rewrite read_public_pem. by erewrite bind_run by (by apply evp_nil).
Qed.

Lemma get_key_str_run b k e : mallocs e = [] ->
  crypto_get_key_str b k e = Done (Some (if b then pem_private k else pem_public k), e).
Proof.
  intros Hm. unfold crypto_get_key_str. erewrite bind_run by (by apply evps_nil). cbn beta. cbn [negb].
  by erewrite bind_run by (by apply evp_nil).
Qed.

Lemma privkey_str_run bits e r rs : mallocs e = [] -> randoms e = r :: rs ->
  crypto_generate_privkey_str CRYPTO_KEY_EC bits e =
    Done ((0, Some (pem_private (ec_keygen (u8 <$> r)))), Env [] rs).
Proof.
  intros Hm Hr. unfold crypto_generate_privkey_str, crypto_generate_ec_key.
  erewrite bind_run; cycle 1.
  { erewrite bind_run by (by apply evps_nil). cbn beta. cbn [negb].
    by erewrite bind_run by (unfold entropy; rewrite Hr, Hm; done). }
  cbn beta iota. cbn [fmap option_fmap option_map]. by erewrite bind_run by (by apply get_key_str_run).
Qed.

Lemma pubkey_str_run k e : mallocs e = [] ->
  crypto_generate_pubkey_str (pem_private k) e = Done ((0, Some (pem_public k)), e).
Proof.
  intros Hm. unfold crypto_generate_pubkey_str. erewrite bind_run by (by apply key2evp_run). cbn beta iota.
  erewrite bind_run by (by apply priv2pub_run). cbn beta iota.
  erewrite bind_run by (by apply get_key_str_run). cbn beta. by rewrite pem_public_part.
Qed.

Lemma cert_str_run meta k e : mallocs e = [] ->
  crypto_generate_cert_str meta (pem_private k) e = Done ((0, Some (pem_certificate k meta)), e).
Proof.
  intros Hm. unfold crypto_generate_cert_str, crypto_generate_cert.
  erewrite bind_run by (by apply evp_nil). cbn beta. cbn [negb].
  erewrite bind_run by (by apply key2evp_run). cbn beta iota.
  erewrite bind_run by (by erewrite bind_run by (by apply evps_nil)). cbn beta iota.
  erewrite bind_run by (by apply evp_nil). cbn beta. cbn [negb].
  by erewrite bind_run by (by apply evp_nil).
Qed.

(** A signature made with a private key is the one of the data, and it is
    given out only after it has been verified. *)
Lemma sign_data_run k d e r rs : mallocs e = [] -> randoms e = r :: rs ->
  crypto_sign_data (pem_private k) d e =
    Done ((zlen (sign k d (u8 <$> r)), Some (sign k d (u8 <$> r))), Env [] rs).
Proof.
  intros Hm Hr. unfold crypto_sign_data. erewrite bind_run by (by apply key2evp_run). cbn beta iota.
  erewrite bind_run by (by apply evps_nil). cbn beta. cbn [negb].
  erewrite bind_run by (by apply evp_nil). cbn beta. cbn [negb].
  erewrite bind_run by (unfold entropy; rewrite Hr, Hm; done). cbn beta iota.
  destruct (sign_len k d (u8 <$> r)) as [Hl1 Hl2].
  erewrite bind_run by (rewrite wr_front by (unfold zeros; rewrite zlen_replicate; lia); done). cbn beta zeta.
  erewrite bind_run.
  2:{ rewrite rd_prefix by (rewrite zlen_app; pose proof (zlen_nonneg (drop (length (sign k d (u8 <$> r))) (zeros (Z.to_nat (signature_size k))))); lia).
      unfold zlen. rewrite Nat2Z.id, take_app_length. done. }
  cbn beta. unfold crypto_verify_data.
  erewrite bind_run; [|erewrite bind_run by (by apply key2evp_run); cbn beta iota;
    erewrite bind_run by (by apply priv2pub_run); cbn beta iota;
    erewrite bind_run by (by apply evps_nil); cbn beta; cbn [negb]; done].
  cbn beta. by rewrite verify_sign.
Qed.
End cryptou.

(** ** An instance *)

(** Padding to whole blocks without a cipher, and keys that are numbers. *)
Definition pad_len (p : list Z) : nat := (16 - length p mod 16)%nat.
Definition padded (p : list Z) : list Z := (u8 <$> p) ++ replicate (pad_len p) (Z.of_nat (pad_len p)).
Definition unpadded (c : list Z) : option (list Z) :=
  let l := drop (length c - 16) c in
  match last l with
  | Some n => if (1 <=? n) && (n <=? 16) && (16 <=? zlen c) then Some (take (16 - Z.to_nat n) l) else None
  | None => None
  end.

Definition letters (n : nat) : list Z := replicate n 65.
Definition read_letters (c : Z) (l : list Z) : option nat :=
  if bool_decide (l = c :: letters (length l - 1)) then Some (length l - 1)%nat else None.

Lemma read_letters_run c n : read_letters c (c :: letters n) = Some n.
Proof.
  unfold read_letters, letters. cbn [length]. rewrite length_replicate.
  replace (S n - 1)%nat with n by lia. by rewrite bool_decide_true.
Qed.

Lemma pad_bounds p : (1 <= pad_len p <= 16)%nat /\ ((length p + pad_len p) = (length p / 16 + 1) * 16)%nat.
Proof.
  unfold pad_len. pose proof (Nat.mod_upper_bound (length p) 16 ltac:(lia)).
  pose proof (Nat.div_mod_eq (length p) 16). lia.
Qed.

Lemma length_padded p : (length (padded p) = (length p / 16 + 1) * 16)%nat.
Proof. unfold padded. rewrite length_app, length_fmap, length_replicate. apply pad_bounds. Qed.

Lemma unpadded_padded p : bytes p ->
  exists l, unpadded (padded p) = Some l /\ take (length (padded p) - 16) (padded p) ++ l = p.
Proof.
  intros Hp. destruct (pad_bounds p) as [Hb Hs].
  pose proof (length_padded p) as Hl. unfold unpadded.
  assert (u8 <$> p = p) as Hid.
  { rewrite <- (list_fmap_id p) at 2. apply list_fmap_ext. intros i x Hx.
    apply u8_id. by eapply Forall_lookup_1 in Hp. }
  assert (last (drop (length (padded p) - 16) (padded p)) = Some (Z.of_nat (pad_len p))) as ->.
  { rewrite last_lookup, lookup_drop, length_drop. replace (length (padded p) - 16 + _)%nat with (length p + (pad_len p - 1))%nat by lia.
    unfold padded. rewrite lookup_app_r by (rewrite length_fmap; lia). apply lookup_replicate_2.
    rewrite length_fmap. lia. }
  replace (1 <=? Z.of_nat (pad_len p)) with true by lia. replace (Z.of_nat (pad_len p) <=? 16) with true by lia.
  replace (16 <=? zlen (padded p)) with true by (unfold zlen; lia). cbn [andb]. eexists. split; [done|].
  rewrite Nat2Z.id, take_drop_commute.
  replace (length (padded p) - 16 + (16 - pad_len p))%nat with (length p) by lia.
  assert (take (length p) (padded p) = p) as Hp' by (unfold padded; rewrite Hid; apply take_app_length).
  rewrite Hp'.
  replace (take (length (padded p) - 16) (padded p)) with (take (length (padded p) - 16) p).
  - apply take_drop.
  - transitivity (take (length (padded p) - 16) (take (length p) (padded p))); [by rewrite Hp'|].
    rewrite take_take. f_equal. lia.
Qed.

#[export, refine] Instance toy_openssl : Openssl := {|
  aes_encrypt _ _ p := padded p;
  aes_decrypt_update _ _ c := take (length c - 16) c;
  aes_decrypt_final _ _ c := unpadded c;
  pbkdf2 _ _ n := zeros (Z.to_nat n);
  pkey := nat * bool;
  public_part k := (k.1, true);
  ec_keygen r := (length r, false);
  rsa_keygen _ r := (length r, false);
  pem_private k := (if k.2 then 80 else 75) :: letters k.1;
  pem_public k := 85 :: letters k.1;
  pem_certificate k _ := 67 :: letters k.1;
  read_private l :=
    match read_letters 75 l with
    | Some n => Some (n, false)
    | None => (fun n => (n, true)) <$> read_letters 80 l
    end;
  read_public l := (fun n => (n, true)) <$> read_letters 85 l;
  signature_size _ := 1;
  sign _ _ _ := [7];
  verify _ _ s := bool_decide (s = [7])
|}.
Proof.
  - intros _ _ p. unfold zlen. rewrite length_padded, !Nat2Z.inj_mul, Nat2Z.inj_add, Nat2Z.inj_div. lia.
  - intros _ _ p. unfold padded. destruct (pad_bounds p) as [Hb _]. apply Forall_app. split.
    + apply Forall_fmap, Forall_true. intros x. apply u8_byte.
    + apply Forall_replicate. unfold is_byte. lia.
  - intros _ _ c l. unfold unpadded. destruct (last _) as [n|] eqn:Hn; [|done].
    destruct (Z.leb_spec 1 n), (Z.leb_spec n 16), (Z.leb_spec 16 (zlen c)); cbn [andb]; try done.
    intros [= <-]. unfold zlen in *. rewrite !length_take, length_drop. lia.
  - intros _ _ c. unfold zlen. rewrite length_take. lia.
  - intros _ _ p. apply unpadded_padded.
  - intros _ _ n Hn. unfold zeros. rewrite zlen_replicate. lia.
  - done.
  - done.
  - intros [n b] _. cbn. split_and!; repeat constructor; try lia;
      try (by apply Forall_replicate); by destruct b.
  - intros k m. by destruct k as [n []].
  - intros [n []]; cbn -[read_letters letters]; [|by rewrite read_letters_run].
    unfold read_letters at 1. rewrite bool_decide_false by done. by rewrite read_letters_run.
  - intros [n b]. cbn -[read_letters letters]. by rewrite read_letters_run.
  - done.
  - intros _ _ _. repeat constructor; lia.
  - done.
Defined.
