(* ===== verification/Crypt.v ===== *)
(** The secret store: [src/crypt/crypt_service.c], with the drivers of the
    hardware element [src/crypt/generic_hsm_driver.c] and
    [src/crypt/zymkey4_driver.c].

    Secrets are encrypted with a master key and kept in the database of
    [Sqlite]; the master key is itself kept there, encrypted under a key derived
    from a secret of the user or by the hardware element.  The state is the
    database and the memory of the process. *)
From stdpp Require Import strings numbers base list gmap.
From Stdlib Require Import ZArith Lia.
From S2P Require Import Prelude Base64 Text Sqlite Cryptou.

Definition MAX_KEY_ID_SIZE : Z := 255.

(** [cc_key_id] and [crypto_key] are the arrays. *)
Record crypt_context := {
  hcontext : bool;
  cc_key_id : list Z;
  crypto_key : list Z
}.

Record crypt_pair := {
  cp_key : option (list Z);
  cp_value : option (list Z);
  cp_size : Z
}.

(** ** The hardware element *)

(** The library of the element is a parameter; each of its calls may fail. *)
Class Zymkey := {
  WITH_ZYMKEY4_HSM : bool;
  zk_lock : list Z -> list Z;
  zk_unlock : list Z -> option (list Z);
  zk_lock_bytes x : bytes (zk_lock x);
  zk_lock_nonempty x : zk_lock x <> [];
  zk_unlock_lock x : bytes x -> zk_unlock (zk_lock x) = Some x
}.

Section crypt.
Context {SQ : Sqlite} {SSL : Openssl} {ZK : Zymkey}.

#[local] Abbreviation Db := (prog (db * env)).

Definition init_zymkey4 : prog env bool :=
  ok ← malloc;
  if negb ok then mret false else malloc.

Definition generate_zymkey4_key (key_size : Z) : prog env (Z * option (list Z)) :=
  x ← RAND_bytes key_size;
  mret (if x.1 =? 1 then (0, x.2) else (-1, None)).

Definition encrypt_zymkey4_blob (inp : list Z) : prog env (Z * list Z) :=
  ok ← malloc;
  mret (if (ok : bool) then (0, zk_lock inp) else (-1, [])).

Definition decrypt_zymkey4_blob (inp : list Z) : prog env (Z * list Z) :=
  ok ← malloc;
  mret (if (ok : bool) then
          match zk_unlock inp with Some p => (0, p) | None => (-1, []) end
        else (-1, [])).

Definition init_hsm : prog env bool :=
  ok ← malloc;
  if negb ok then mret false
  else if WITH_ZYMKEY4_HSM then init_zymkey4 else mret false.

Definition generate_hsm_key (key_size : Z) : prog env (Z * option (list Z)) :=
  if WITH_ZYMKEY4_HSM then generate_zymkey4_key key_size else mret (-1, None).
Definition encrypt_hsm_blob (inp : list Z) : prog env (Z * list Z) :=
  if WITH_ZYMKEY4_HSM then encrypt_zymkey4_blob inp else mret (-1, []).
Definition decrypt_hsm_blob (inp : list Z) : prog env (Z * list Z) :=
  if WITH_ZYMKEY4_HSM then decrypt_zymkey4_blob inp else mret (-1, []).

(** ** The master key *)

Definition generate_user_key (user_secret user_key_salt : list Z) (user_key_size : Z) :
    prog env (option (list Z)) :=
  crypto_buf2key user_secret user_key_salt user_key_size.

(** A text column from bytes that may be missing. *)
Definition encode_column (b : option (list Z)) : prog env (option (list Z)) :=
  match b with None => mret None | Some l => base64_encode l end.

Definition prepare_secret_entry (key_id key salt iv : option (list Z)) :
    prog env (option secrets_row) :=
  ok ← malloc;
  if negb ok then mret None
  else
    id ← match key_id with
         | None => mret None
         | Some t => ok ← malloc; mret (if (ok : bool) then Some t else None)
         end;
    v ← encode_column key;
    s ← encode_column salt;
    i ← encode_column iv;
    mret (Some {| se_id := id; se_value := v; se_salt := s; se_iv := i |}).

(** One column of [extract_secret_entry]: the size and the bytes copied into an
    array of [cap] bytes; [None] is the failure of the decoder. *)
Definition extract_column (cap : Z) (text : option (list Z)) : prog env (option (Z * list Z)) :=
  match text with
  | None => mret (Some (0, zeros (Z.to_nat cap)))
  | Some t =>
      o ← base64_decode t;
      match o with
      | None => mret None
      | Some buf =>
          a ← lift_outcome (wr (zeros (Z.to_nat cap)) 0 buf);
          mret (Some (zlen buf, a))
      end
  end.

(** The sizes and the arrays for the key, the salt and the vector. *)
Definition extract_secret_entry (row : secrets_row) :
    prog env (option ((Z * list Z) * (Z * list Z) * (Z * list Z))) :=
  k ← extract_column (AES_KEY_SIZE + AES_BLOCK_SIZE) (se_value row);
  match k with
  | None => mret None
  | Some k =>
      s ← extract_column SALT_SIZE (se_salt row);
      match s with
      | None => mret None
      | Some s =>
          i ← extract_column IV_SIZE (se_iv row);
          mret (match i with None => None | Some i => Some (k, s, i) end)
      end
  end.

(** The return value and the array of the master key. *)
Definition extract_user_crypto_key_entry (row : secrets_row) (user_secret crypto_key : list Z) :
    prog env (Z * list Z) :=
  x ← extract_secret_entry row;
  match x with
  | None => mret (-1, crypto_key)
  | Some ((enc_size, enc), (salt_size, salt), (iv_size, iv)) =>
      if negb (salt_size =? SALT_SIZE) then mret (-1, crypto_key)
      else if negb (iv_size =? IV_SIZE) then mret (-1, crypto_key)
      else
        k ← generate_user_key user_secret salt AES_KEY_SIZE;
        match k with
        | None => mret (-1, crypto_key)
        | Some user_key =>
            inp ← lift_outcome (rd enc 0 enc_size);
            r ← crypto_decrypt inp user_key iv crypto_key;
            mret (if r.1 <? 0 then (-1, r.2) else r)
        end
  end.

Definition generate_user_crypto_key_entry (key_id : list Z) (user_secret crypto_key : list Z) :
    prog env (option secrets_row) :=
  x ← crypto_gensalt SALT_SIZE;
  match x.2 with
  | None => mret None
  | Some salt =>
      k ← generate_user_key user_secret salt AES_KEY_SIZE;
      match k with
      | None => mret None
      | Some user_key =>
          y ← crypto_geniv IV_SIZE;
          match y.2 with
          | None => mret None
          | Some iv =>
              inp ← lift_outcome (rd crypto_key 0 AES_KEY_SIZE);
              r ← crypto_encrypt inp user_key iv (zeros (Z.to_nat (AES_KEY_SIZE + AES_BLOCK_SIZE)));
              if r.1 <? 0 then mret None
              else
                enc ← lift_outcome (rd r.2 0 r.1);
                prepare_secret_entry (Some key_id) (Some enc) (Some salt) (Some iv)
          end
      end
  end.

(** [strncpy] into the array [key_id]. *)
Definition key_id_array (key_id : list Z) : list Z :=
  let t := take (Z.to_nat MAX_KEY_ID_SIZE) key_id in
  t ++ zeros (Z.to_nat MAX_KEY_ID_SIZE - length t).

(** The string in an array. *)
Definition c_string (a : list Z) : outcome (list Z) :=
  if bool_decide (0 ∈ a) then Done (until_nul a) else Fault OutOfBounds.

(** The array [crypto_key] of a new context. *)
Definition empty_key : list Z := zeros (Z.to_nat (AES_KEY_SIZE + AES_BLOCK_SIZE)).

(** A new master key, for a secret of the user or kept by the element: the array
    and whether the element is used. *)
Definition new_master_key (key_id user_secret : list Z) : Db (option (bool * list Z)) :=
  if negb (zlen user_secret =? 0) then
    x ← in_mem (crypto_genkey AES_KEY_SIZE);
    match x.2 with
    | None => mret None
    | Some k =>
        key ← lift_outcome (wr empty_key 0 k);
        o ← in_mem (generate_user_crypto_key_entry key_id user_secret key);
        match o with
        | None => mret None
        | Some row =>
            r ← save_sqlite_secrets_entry row;
            mret (if r <? 0 then None else Some (false, key))
        end
    end
  else
    ok ← in_mem init_hsm;
    if negb ok then mret None
    else
      x ← in_mem (generate_hsm_key AES_KEY_SIZE);
      match (if x.1 <? 0 then None else x.2) with
      | None => mret None
      | Some k =>
          key ← lift_outcome (wr empty_key 0 k);
          inp ← lift_outcome (rd key 0 AES_KEY_SIZE);
          b ← in_mem (encrypt_hsm_blob inp);
          if b.1 <? 0 then mret None
          else
            o ← in_mem (prepare_secret_entry (Some key_id) (Some b.2) None None);
            match o with
            | None => mret None
            | Some row =>
                r ← save_sqlite_secrets_entry row;
                mret (if r <? 0 then None else Some (true, key))
            end
      end.

Definition stored_master_key (row : secrets_row) (user_secret : list Z) :
    Db (option (bool * list Z)) :=
  if 0 <? zlen user_secret then
    r ← in_mem (extract_user_crypto_key_entry row user_secret empty_key);
    mret (if r.1 <? 0 then None else Some (false, r.2))
  else
    ok ← in_mem init_hsm;
    if negb ok then mret None
    else
      match se_value row with
      | None => mret None
      | Some t =>
          o ← in_mem (base64_decode t);
          match o with
          | None => mret None
          | Some buf =>
              b ← in_mem (decrypt_hsm_blob buf);
              if b.1 <? 0 then mret None
              else if negb (zlen b.2 =? AES_KEY_SIZE) then mret None
              else
                key ← lift_outcome (wr empty_key 0 b.2);
                mret (Some (true, key))
          end
      end.

Definition load_crypt_service (key_id : option (list Z)) (user_secret : list Z) :
    Db (option crypt_context) :=
  match key_id with
  | None => mret None
  | Some key_id =>
      r ← open_sqlite_crypt_db;
      if r <? 0 then mret None
      else
        ok ← in_mem malloc;
        if negb ok then mret None
        else
          o ← get_sqlite_secrets_row key_id;
          match o with
          | None => mret None
          | Some row =>
              k ← match se_id row with
                  | None => new_master_key key_id user_secret
                  | Some _ => stored_master_key row user_secret
                  end;
              mret (match k with
                    | None => None
                    | Some (h, key) =>
                        Some {| hcontext := h; cc_key_id := key_id_array key_id; crypto_key := key |}
                    end)
          end
  end.

(** ** Secrets *)

(** When the row cannot be read, [free_crypt_pair] looks at [pair->value],
    which was not assigned. *)
Definition get_crypt_pair (ctx : crypt_context) (key : option (list Z)) : Db (option crypt_pair) :=
  match key with
  | None | Some [] => mret None
  | Some key =>
      ok ← in_mem malloc;
      if negb ok then mret None
      else
        o ← get_sqlite_store_row key;
        match o with
        | None => fail_with Indeterminate
        | Some row =>
            match sr_key row, sr_value row with
            | Some _, Some v =>
                match sr_iv row with
                | None => fail_with NullDeref
                | Some i =>
                    iv ← in_mem (base64_decode i);
                    e ← in_mem (base64_decode v);
                    match e with
                    | None => fail_with Indeterminate
                    | Some enc =>
                        ok ← in_mem malloc;
                        if negb ok then mret None
                        else
                          r ← in_mem (crypto_decrypt enc (crypto_key ctx)
                                        (default (zeros (Z.to_nat IV_SIZE)) iv)
                                        (zeros (length enc)));
                          if r.1 <? 0 then mret None
                          else
                            p ← lift_outcome (rd r.2 0 r.1);
                            mret (Some {| cp_key := Some key; cp_value := Some p; cp_size := r.1 |})
                    end
                end
            | _, _ => mret (Some {| cp_key := Some key; cp_value := None; cp_size := 0 |})
            end
        end
  end.

(** The value and the vector of the row for a value, under a new vector. *)
Definition seal (ctx : crypt_context) (iv v : list Z) (size : Z) :
    prog env (option (option (list Z) * option (list Z))) :=
  ok ← malloc;
  if negb ok then mret None
  else
    inp ← lift_outcome (rd v 0 size);
    r ← crypto_encrypt inp (crypto_key ctx) iv (zeros (Z.to_nat (size + AES_BLOCK_SIZE)));
    if r.1 <? 0 then mret None
    else
      enc ← lift_outcome (rd r.2 0 r.1);
      vt ← base64_encode enc;
      it ← base64_encode iv;
      mret (Some (vt, it)).

Definition encrypt_value (ctx : crypt_context) (value : option (list Z)) (size : Z) :
    prog env (option (option (list Z) * option (list Z))) :=
  match value with
  | Some v =>
      if size =? 0 then mret (Some (None, None))
      else
        x ← crypto_geniv IV_SIZE;
        match x.2 with
        | None => mret None
        | Some iv => seal ctx iv v size
        end
  | None => mret (Some (None, None))
  end.

Definition put_crypt_pair (ctx : crypt_context) (cp : option crypt_pair) : Db Z :=
  match cp with
  | None => mret (-1)
  | Some cp =>
      match cp_key cp with
      | None | Some [] => mret (-1)
      | Some key =>
          o ← in_mem (encrypt_value ctx (cp_value cp) (cp_size cp));
          match o with
          | None => mret (-1)
          | Some (v, i) =>
              id ← lift_outcome (c_string (cc_key_id ctx));
              r ← save_sqlite_store_entry {| sr_key := Some key; sr_value := v; sr_id := Some id; sr_iv := i |};
              mret (if r <? 0 then -1 else 0)
          end
      end
  end.

(** ** What the store promises *)

(** A context that was loaded. *)
Definition ctx_ok (ctx : crypt_context) : Prop :=
  AES_KEY_SIZE <= zlen (crypto_key ctx) /\ 0 ∈ cc_key_id ctx.

Definition b64 (l : list Z) : list Z := base64_encode_loop base64_table false 0 l.

(** The row of a secret: nothing for the empty one, else the ciphertext under a
    vector of its own and that vector. *)
Definition row_holds (ctx : crypt_context) (v : list Z) (c : row) : Prop :=
  (v = [] /\ exists id, c = [None; id; None]) \/
  (v <> [] /\ exists iv id, zlen iv = IV_SIZE /\ bytes iv /\
     c = [Some (b64 (aes_encrypt (key_of (crypto_key ctx)) iv v)); id; Some (b64 iv)]).

(** The table represents a finite map of secrets. *)
Definition store_rep (ctx : crypt_context) (s : db * env) (M : gmap (list Z) (list Z)) : Prop :=
  forall k, match M !! k, rows_of CRYPT_STORE_TABLE_NAME s !! k with
            | Some v, Some c => bytes v /\ row_holds ctx v c
            | None, None => True
            | _, _ => False
            end.

Lemma store_rep_same ctx s s' M : db_same s s' -> store_rep ctx s M -> store_rep ctx s' M.
Proof. intros Hs Hr k. rewrite (rows_of_same _ _ _ Hs). apply Hr. Qed.

Lemma in_mem_run {A} (m : prog env A) s a e : m s.2 = Done (a, e) -> in_mem m s = Done (a, (s.1, e)).
Proof. intros H. unfold in_mem. by rewrite H. Qed.

(** With memory a program of the memory leaves no trace. *)
Lemma in_mem_nil {A} (m : prog env A) s a e (Q : Prop) : mallocs s.2 = [] ->
  m s.2 = Done (a, e) -> env_ok s.2 e Q -> in_mem m s = Done (a, s) /\ Q.
Proof.
  intros Hm H [_ K]. destruct (K Hm) as [-> HQ]. split; [|done].
  rewrite (in_mem_run _ _ _ _ H). by destruct s.
Qed.

Lemma aes_encrypt_nonempty k iv p : aes_encrypt k iv p <> [].
Proof.
  intros H. pose proof (aes_encrypt_len k iv p) as Hl. rewrite H, zlen_nil in Hl.
  pose proof (zlen_nonneg p). zdiv_lia.
Qed.

Lemma iv_of_full iv : zlen iv = IV_SIZE -> iv_of iv = iv.
Proof. intros H. unfold iv_of. apply take_ge. unfold zlen, IV_SIZE, AES_BLOCK_SIZE in *. lia. Qed.

(** Reading a secret. *)
Lemma get_crypt_pair_run ctx k s M : ctx_ok ctx -> k <> [] -> mallocs s.2 = [] -> db_ready s ->
  store_rep ctx s M ->
  exists s', get_crypt_pair ctx (Some k) s = Done (Some
      (match M !! k with
       | Some (b :: v) => {| cp_key := Some k; cp_value := Some (b :: v); cp_size := zlen (b :: v) |}
       | _ => {| cp_key := Some k; cp_value := None; cp_size := 0 |}
       end), s') /\ db_same s s'.
Proof.
  intros [Hkey _] Hk Hm Hr Hrep. unfold get_crypt_pair. destruct k as [|k0 k]; [done|].
  erewrite bind_run by (by apply in_mem_malloc_nil). cbn beta. cbn [negb].
  destruct (get_store_row_run (k0 :: k) s Hm) as (o & s1 & H1 & S1 & _ & K1). rewrite (K1 Hr) in H1.
  erewrite bind_run by exact H1. cbn beta iota.
  assert (mallocs s1.2 = []) as Hm1 by (destruct S1 as [(_ & _ & ->) _]; done).
  specialize (Hrep (k0 :: k)).
  destruct (M !! (k0 :: k)) as [v|], (rows_of CRYPT_STORE_TABLE_NAME s !! (k0 :: k)) as [c|]; try done;
    [|by exists s1].
  destruct Hrep as [Hb [(-> & id & ->)|(Hne & iv & id & Hiv & Hbiv & ->)]]; [by exists s1|].
  cbn [store_row_of sr_key sr_value sr_iv column lookup list_lookup default].
  cbn. set (enc := aes_encrypt (key_of (crypto_key ctx)) iv v).
  destruct (decode_encoded base64_table false iv s1.2) as (o1 & e1 & D1 & E1 & C1); [by left|done| |].
  { intros ->. done. }
  destruct (in_mem_nil _ _ _ _ _ Hm1 D1 E1) as [I1 N1]. destruct C1 as [->| ->]; [done|].
  erewrite bind_run by exact I1. cbn beta.
  destruct (decode_encoded base64_table false enc s1.2) as (o2 & e2 & D2 & E2 & C2);
    [by left|apply aes_encrypt_bytes|apply aes_encrypt_nonempty|].
  destruct (in_mem_nil _ _ _ _ _ Hm1 D2 E2) as [I2 N2]. destruct C2 as [->| ->]; [done|].
  erewrite bind_run by exact I2. cbn beta iota.
  erewrite bind_run by (by apply in_mem_malloc_nil). cbn beta. cbn [negb].
  destruct (crypto_decrypt_encrypted v (crypto_key ctx) iv (zeros (length enc)) s1.2)
    as (z & out & e3 & D3 & E3 & C3); [done|lia|done| |].
  { unfold zeros. rewrite zlen_replicate, iv_of_full by done. done. }
  rewrite iv_of_full in D3 by done. fold enc in D3.
  destruct (in_mem_nil _ _ _ _ _ Hm1 D3 E3) as [I3 N3]. destruct C3 as [?|[-> [t ->]]]; [done|].
  change (default (zeros (Z.to_nat IV_SIZE)) (Some iv)) with iv. erewrite bind_run by exact I3. cbn [fst snd].
  rewrite (proj2 (Z.ltb_ge _ _)) by apply zlen_nonneg.
  erewrite bind_run.
  2:{ rewrite rd_prefix by (rewrite zlen_app; pose proof (zlen_nonneg v); pose proof (zlen_nonneg t); lia).
      unfold zlen. rewrite Nat2Z.id, take_app_length. done. }
  exists s1. split; [|done]. by destruct v.
Qed.

(** The random bytes at hand. *)
Definition random_ready (n : Z) (e : env) : Prop :=
  match randoms e with r :: _ => n <= zlen r | [] => False end.

Lemma RAND_bytes_run n e : 0 <= n -> exists x e', RAND_bytes n e = Done (x, e') /\
  mallocs e' = mallocs e /\ randoms e' = tail (randoms e) /\
  (x.2 = None \/ exists b, x = (1, Some b) /\ zlen b = n /\ bytes b) /\
  (random_ready n e -> x.2 <> None).
Proof.
  intros Hn. unfold RAND_bytes, random_ready. destruct e as [ms [|r rs]]; cbn.
  { eexists _, _. split; [done|]. split; [done|]. split; [done|]. split; [by left|done]. }
  destruct (Z.ltb_spec (zlen r) n); eexists _, _; (split; [done|]; split; [done|]; split; [done|]); split;
    [by left|lia|right|done].
  eexists. split; [done|]. split.
  - unfold zlen in *. rewrite length_fmap, length_take. lia.
  - apply Forall_fmap, Forall_true. intros x. apply u8_byte.
Qed.

(** The bytes at the front of an object. *)
Lemma rd_front (l t : list Z) : rd (l ++ t) 0 (zlen l) = Done l.
Proof.
  rewrite rd_prefix by (rewrite zlen_app; pose proof (zlen_nonneg l); pose proof (zlen_nonneg t); lia).
  unfold zlen. by rewrite Nat2Z.id, take_app_length.
Qed.

(** Sealing a value stays in its buffers, and with memory the columns hold
    it. *)
Lemma seal_run ctx iv v e : AES_KEY_SIZE <= zlen (crypto_key ctx) -> zlen iv = IV_SIZE -> bytes iv ->
  v <> [] -> exists o e', seal ctx iv v (zlen v) e = Done (o, e') /\
    env_ok e e' (zlen v + AES_BLOCK_SIZE < SIZE_MAX / 4 -> o <> None /\
      forall vt it id, o = Some (vt, it) -> row_holds ctx v [vt; id; it]).
Proof.
  intros Hkey Hiv Hb Hne. unfold seal. destruct (malloc_ok e) as (ok & e1 & H1 & K1).
  erewrite bind_run by exact H1. cbn beta. destruct ok; cbn [negb]; cycle 1.
  { exists None, e1. split; [done|]. by eapply env_ok_mono. }
  pose proof (rd_front v []) as Hrd. rewrite app_nil_r in Hrd.
  erewrite bind_run by (rewrite Hrd; done). cbn beta. pose proof (zlen_nonneg v).
  destruct (crypto_encrypt_run v (crypto_key ctx) iv (zeros (Z.to_nat (zlen v + AES_BLOCK_SIZE))) e1)
    as (n & out & e2 & Hr2 & K2 & C2); [done|lia| |].
  { unfold zeros. rewrite zlen_replicate. unfold AES_BLOCK_SIZE. lia. }
  pose proof (env_ok_trans _ _ _ _ _ K1 K2) as K12.
  erewrite bind_run by exact Hr2. cbn [fst snd]. rewrite iv_of_full in C2 by done.
  set (c := aes_encrypt (key_of (crypto_key ctx)) iv v) in *.
  destruct C2 as [->|[-> [t ->]]].
  { exists None, e2. split; [done|]. by eapply env_ok_mono. }
  rewrite (proj2 (Z.ltb_ge _ _)) by apply zlen_nonneg.
  erewrite bind_run by (rewrite rd_front; done). cbn beta.
  destruct (encode_run base64_table false c e2) as (vt & e3 & H3 & K3 & C3).
  erewrite bind_run by exact H3. cbn beta. pose proof (env_ok_trans _ _ _ _ _ K12 K3) as K13.
  destruct (encode_run base64_table false iv e3) as (it & e4 & H4 & K4 & C4).
  erewrite bind_run by exact H4. cbn beta. eexists _, e4. split; [done|].
  split; [destruct K4 as [-> _]; apply K13|].
  intros Hm. destruct K13 as [_ K13], (K13 Hm) as [-> N3]. destruct K4 as [_ K4], (K4 Hm) as [-> N4].
  split; [done|]. intros Hlim. split; [done|]. intros ? ? id [= <- <-].
  pose proof (aes_encrypt_split (key_of (crypto_key ctx)) iv v) as [_ Hc]. fold c in Hc.
  destruct C3 as [->| ->]; [exfalso; apply N3; [lia|done]|].
  destruct C4 as [->| ->]; [exfalso; apply N4; [unfold IV_SIZE in *; lia|done]|].
  right. split; [done|]. by exists iv, id.
Qed.

Lemma encrypt_value_run ctx v e : AES_KEY_SIZE <= zlen (crypto_key ctx) ->
  exists o e', encrypt_value ctx (Some v) (zlen v) e = Done (o, e') /\
    (mallocs e = [] -> mallocs e' = [] /\
       (random_ready IV_SIZE e -> zlen v + AES_BLOCK_SIZE < SIZE_MAX / 4 -> o <> None /\
          forall vt it id, o = Some (vt, it) -> row_holds ctx v [vt; id; it])).
Proof.
  intros Hkey. unfold encrypt_value. destruct (Z.eqb_spec (zlen v) 0) as [H0|H0].
  { exists (Some (None, None)), e. split; [done|]. intros Hm. split; [done|]. intros _ _. split; [done|].
    intros ? ? id [= <- <-]. left. split; [by destruct v|by eexists]. }
  destruct (RAND_bytes_run IV_SIZE e ltac:(done)) as (x & e0 & H & Hm0 & _ & Hx & Hr).
  erewrite bind_run by exact H. cbn beta.
  destruct Hx as [Hx|(iv & -> & Hlen & Hb)].
  { rewrite Hx. exists None, e0. split; [done|]. intros Hm. split; [congruence|]. intros Hr'. by destruct (Hr Hr'). }
  cbn [snd]. destruct (seal_run ctx iv v e0) as (o & e1 & H1 & K1); [done|done|done|by intros ->|].
  exists o, e1. split; [done|]. intros Hm. destruct K1 as [_ K1]. rewrite Hm0 in K1.
  destruct (K1 Hm) as [-> N1]. split; [congruence|]. by intros _.
Qed.

Lemma c_string_run a : 0 ∈ a -> c_string a = Done (until_nul a).
Proof. intros H. unfold c_string. by rewrite bool_decide_true. Qed.

(** Writing a secret: whatever memory, randomness and the database do, it
    returns and touches no other secret; when they work, the secret is there. *)
Lemma put_crypt_pair_run ctx k v s : ctx_ok ctx -> k <> [] ->
  exists z s', put_crypt_pair ctx (Some {| cp_key := Some k; cp_value := Some v; cp_size := zlen v |}) s =
      Done (z, s') /\ (z = 0 \/ z = -1) /\ (healthy s.1 -> healthy s'.1) /\
    (forall k', k' <> k -> rows_of CRYPT_STORE_TABLE_NAME s' !! k' = rows_of CRYPT_STORE_TABLE_NAME s !! k') /\
    rows_of CRYPT_SECRETS_TABLE_NAME s' = rows_of CRYPT_SECRETS_TABLE_NAME s /\
    (mallocs s.2 = [] -> mallocs s'.2 = []) /\
    (mallocs s.2 = [] -> random_ready IV_SIZE s.2 -> zlen v + AES_BLOCK_SIZE < SIZE_MAX / 4 -> db_ready s ->
       z = 0 /\ db_ready s' /\
       exists c, rows_of CRYPT_STORE_TABLE_NAME s' !! k = Some c /\ row_holds ctx v c).
Proof.
  intros [Hkey Hid] Hk. unfold put_crypt_pair. cbn [cp_key cp_value cp_size]. destruct k as [|k0 k]; [done|].
  destruct (encrypt_value_run ctx v s.2 Hkey) as (o & e1 & H1 & K1).
  erewrite bind_run by (by apply in_mem_run). cbn beta.
  destruct o as [[vt it]|]; cycle 1.
  { exists (-1), (s.1, e1). split; [done|]. split; [by right|]. split; [done|]. split; [done|]. split; [done|].
    split; [intros Hm; by apply K1|]. intros Hm Hr Hl. destruct (K1 Hm) as [_ N]. by destruct (N Hr Hl). }
  erewrite bind_run by (rewrite c_string_run by done; done). cbn beta.
  destruct (save_store_run (k0 :: k) vt (Some (until_nul (cc_key_id ctx))) it (s.1, e1))
    as (z & s' & Hs & Hz & (F1 & F2 & F3) & Ho & Hsec & Hready).
  erewrite bind_run by exact Hs. cbn beta.
  exists (if z <? 0 then -1 else 0), s'. split; [done|]. split; [destruct (z <? 0); auto|].
  split; [done|]. split; [exact Ho|]. split; [exact Hsec|]. split.
  { intros Hm. destruct (K1 Hm) as [Hm1 _]. cbn [snd] in F3. by rewrite (F3 Hm1). }
  intros Hm Hr Hl (Hh & Ht & Ht2). destruct (K1 Hm) as [Hm1 N]. destruct (N Hr Hl) as [_ Hrow].
  destruct Hready as (-> & Hr' & Hrows); [done|]. split; [done|]. split; [done|].
  eexists. rewrite Hrows, lookup_insert_eq. split; [done|]. by apply Hrow.
Qed.


(** ** The master key *)

(** A program of the memory that succeeds when there is memory. *)
Lemma run_nil {A} (m : prog env A) e a e' (Q : Prop) : mallocs e = [] ->
  m e = Done (a, e') -> env_ok e e' Q -> m e = Done (a, e) /\ Q.
Proof. intros Hm H [_ K]. destruct (K Hm) as [-> HQ]. by split. Qed.

Lemma encode_nil l e : mallocs e = [] -> zlen l < SIZE_MAX / 4 -> base64_encode l e = Done (Some (b64 l), e).
Proof.
  intros Hm Hl. destruct (encode_run base64_table false l e) as (o & e' & H & K & C).
  destruct (run_nil _ _ _ _ _ Hm H K) as [H' N]. destruct C as [->| ->]; [by destruct (N Hl)|done].
Qed.

Lemma decode_nil l e : mallocs e = [] -> bytes l -> l <> [] -> base64_decode (b64 l) e = Done (Some l, e).
Proof.
  intros Hm Hb Hne. destruct (decode_encoded base64_table false l e) as (o & e' & H & K & C); [by left|done|done|].
  destruct (run_nil _ _ _ _ _ Hm H K) as [H' N]. by destruct C as [->| ->].
Qed.

Lemma extract_column_run cap l e : mallocs e = [] -> bytes l -> l <> [] -> zlen l <= cap ->
  extract_column cap (Some (b64 l)) e = Done (Some (zlen l, l ++ zeros (Z.to_nat (cap - zlen l))), e).
Proof.
  intros Hm Hb Hne Hc. unfold extract_column. erewrite bind_run by (by apply decode_nil). cbn beta iota.
  erewrite bind_run; [done|]. unfold zeros. rewrite wr_front by (rewrite zlen_replicate; lia).
  rewrite drop_replicate. unfold zlen. unfold lift_outcome. repeat f_equal. lia.
Qed.

Lemma user_key_run secret salt n e : mallocs e = [] ->
  generate_user_key secret salt n e = Done (Some (pbkdf2 secret salt n), e).
Proof. intros Hm. unfold generate_user_key, crypto_buf2key. by erewrite bind_run by (by apply evp_nil). Qed.

Lemma prepare_run id k sa iv e : mallocs e = [] -> zlen k < SIZE_MAX / 4 -> zlen sa < SIZE_MAX / 4 ->
  zlen iv < SIZE_MAX / 4 ->
  prepare_secret_entry (Some id) (Some k) (Some sa) (Some iv) e =
    Done (Some {| se_id := Some id; se_value := Some (b64 k); se_salt := Some (b64 sa); se_iv := Some (b64 iv) |}, e).
Proof.
  intros Hm H1 H2 H3. assert (malloc e = Done (true, e)) as Hok by (unfold malloc; by rewrite Hm).
  unfold prepare_secret_entry, encode_column. erewrite bind_run by exact Hok. cbn beta. cbn [negb].
  erewrite bind_run by (by erewrite bind_run by exact Hok). cbn beta.
  do 3 (erewrite bind_run by (by apply encode_nil); cbn beta). done.
Qed.

(** The row of a master key under a secret of the user. *)
Definition wraps (user_secret key : list Z) (c : row) : Prop :=
  exists salt iv, zlen salt = SALT_SIZE /\ bytes salt /\ zlen iv = IV_SIZE /\ bytes iv /\
    c = [Some (b64 (aes_encrypt (key_of (pbkdf2 user_secret salt AES_KEY_SIZE)) iv key));
         Some (b64 salt); Some (b64 iv)].

Lemma pbkdf2_ok s salt : AES_KEY_SIZE <= zlen (pbkdf2 s salt AES_KEY_SIZE).
Proof. by rewrite pbkdf2_len. Qed.

Lemma wrap_key_len k iv key : zlen key = AES_KEY_SIZE -> zlen (aes_encrypt k iv key) = 48.
Proof. intros H. by rewrite aes_encrypt_len, H. Qed.

Lemma generate_entry_run id secret key t r1 r2 rs : zlen key = AES_KEY_SIZE ->
  SALT_SIZE <= zlen r1 -> IV_SIZE <= zlen r2 ->
  exists c, wraps secret key c /\
    generate_user_crypto_key_entry id secret (key ++ t) (Env [] (r1 :: r2 :: rs)) =
      Done (Some (secrets_row_of id (Some c)), Env [] rs).
Proof.
  intros Hkey Hr1 Hr2. unfold generate_user_crypto_key_entry.
  destruct (RAND_bytes_run SALT_SIZE (Env [] (r1 :: r2 :: rs)) ltac:(done)) as (x & [m1 s1] & H1 & Hm1 & Hs1 & Hx & N1).
  cbn in Hm1, Hs1. subst m1 s1. erewrite bind_run by exact H1. cbn beta.
  destruct Hx as [Hx|(salt & -> & Hsl & Hsb)]; [by destruct (N1 Hr1)|]. cbn [snd].
  erewrite bind_run by (by apply user_key_run). cbn beta iota.
  destruct (RAND_bytes_run IV_SIZE (Env [] (r2 :: rs)) ltac:(done)) as (y & [m2 s2] & H2 & Hm2 & Hs2 & Hy & N2).
  cbn in Hm2, Hs2. subst m2 s2. erewrite bind_run by exact H2. cbn beta.
  destruct Hy as [Hy|(iv & -> & Hil & Hib)]; [by destruct (N2 Hr2)|]. cbn [snd].
  erewrite bind_run by (rewrite <- Hkey, rd_front; done). cbn beta.
  set (uk := pbkdf2 secret salt AES_KEY_SIZE).
  destruct (crypto_encrypt_run key uk iv (zeros (Z.to_nat (AES_KEY_SIZE + AES_BLOCK_SIZE))) (Env [] rs))
    as (n & out & e2 & H3 & K3 & C3); [apply pbkdf2_ok|lia| |].
  { rewrite Hkey. done. }
  destruct (run_nil _ (Env [] rs) _ _ _ eq_refl H3 K3) as [H3' N3]. erewrite bind_run by exact H3'. cbn [fst snd].
  destruct C3 as [->|[-> [t' ->]]]; [done|]. rewrite iv_of_full by done.
  pose proof (wrap_key_len (key_of uk) iv key Hkey) as Hc. rewrite Hc. cbn [Z.ltb Z.compare].
  erewrite bind_run by (rewrite <- Hc, rd_front; done). cbn beta.
  eexists. split; [by exists salt, iv|]. cbn [secrets_row_of]. apply prepare_run; [done|..].
  - by rewrite Hc.
  - by rewrite Hsl.
  - by rewrite Hil.
Qed.

Lemma extract_entry_run id secret key c out e : mallocs e = [] -> zlen key = AES_KEY_SIZE -> bytes key ->
  wraps secret key c -> zlen out = 48 ->
  exists t, extract_user_crypto_key_entry (secrets_row_of id (Some c)) secret out e =
    Done ((AES_KEY_SIZE, key ++ t), e).
Proof.
  intros Hm Hkey Hb (salt & iv & Hsl & Hsb & Hil & Hib & ->) Hout.
  unfold extract_user_crypto_key_entry, extract_secret_entry. cbn [secrets_row_of se_value se_salt se_iv column].
  cbn [lookup list_lookup default]. set (uk := pbkdf2 secret salt AES_KEY_SIZE).
  set (enc := aes_encrypt (key_of uk) iv key). cbn.
  pose proof (wrap_key_len (key_of uk) iv key Hkey) as Hc. fold enc in Hc.
  erewrite bind_run; cycle 1.
  { erewrite bind_run by (apply extract_column_run; [done|apply aes_encrypt_bytes|apply aes_encrypt_nonempty|by rewrite Hc]).
    cbn beta iota. erewrite bind_run by (apply extract_column_run; [done|done|by intros ->|lia]). cbn beta iota.
    by erewrite bind_run by (apply extract_column_run; [done|done|by intros ->|lia]). }
  cbn beta iota. rewrite Hsl, Hil, !Z.eqb_refl, !Z.sub_diag. cbn [negb]. rewrite !app_nil_r.
  erewrite bind_run by (by apply user_key_run). cbn beta iota. fold uk.
  erewrite bind_run by (rewrite rd_front; done). cbn beta.
  destruct (crypto_decrypt_encrypted key uk iv out e) as (z & out' & e' & H3 & K3 & C3);
    [apply pbkdf2_ok|lia|done|rewrite wrap_key_len by done; lia|].
  rewrite iv_of_full in H3 by done. fold enc in H3.
  destruct (run_nil _ _ _ _ _ Hm H3 K3) as [H3' N3]. erewrite bind_run by exact H3'. cbn [fst snd].
  destruct C3 as [->|[-> [t ->]]]; [done|]. exists t. by rewrite Hkey.
Qed.

Lemma empty_key_front k : zlen k = AES_KEY_SIZE -> wr empty_key 0 k = Done (k ++ zeros 16).
Proof.
  intros H. unfold empty_key, zeros. rewrite wr_front by (rewrite H, zlen_replicate; unfold AES_KEY_SIZE, AES_BLOCK_SIZE; lia).
  rewrite drop_replicate. repeat f_equal. unfold zlen, AES_KEY_SIZE, AES_BLOCK_SIZE in *. lia.
Qed.

(** Loading up to the choice between a new and a stored key. *)
Lemma load_opens id secret s : healthy s.1 -> mallocs s.2 = [] ->
  exists s1, db_ready s1 /\ s1.2 = s.2 /\
    rows_of CRYPT_STORE_TABLE_NAME s1 = rows_of CRYPT_STORE_TABLE_NAME s /\
    rows_of CRYPT_SECRETS_TABLE_NAME s1 = rows_of CRYPT_SECRETS_TABLE_NAME s /\
    load_crypt_service (Some id) secret s =
      (k ← match rows_of CRYPT_SECRETS_TABLE_NAME s !! id with
           | None => new_master_key id secret
           | Some c => stored_master_key (secrets_row_of id (Some c)) secret
           end;
       mret (match k with
             | None => None
             | Some (h, key) => Some {| hcontext := h; cc_key_id := key_id_array id; crypto_key := key |}
             end)) s1.
Proof.
  intros Hh Hm. unfold load_crypt_service.
  destruct (open_run s Hh) as (s1 & H1 & (F1 & F2 & F3) & Hr1 & R1 & R2).
  assert (mallocs s1.2 = []) as Hm1 by (rewrite F3; done).
  erewrite bind_run by exact H1. cbn beta. cbn [Z.ltb Z.compare].
  erewrite bind_run by (by apply in_mem_malloc_nil). cbn beta. cbn [negb].
  destruct (get_secrets_row_run id s1 Hm1) as (o & s2 & H2 & S2 & K2). rewrite (K2 Hr1) in H2.
  erewrite bind_run by exact H2. cbn beta iota. exists s2.
  split; [by eapply db_ready_same|]. split; [destruct S2 as [(_ & _ & S2) _]; rewrite (S2 Hm1); by apply F3|].
  rewrite !(rows_of_same _ _ _ S2). split; [done|]. split; [done|].
  rewrite R2. by destruct (rows_of CRYPT_SECRETS_TABLE_NAME s !! id).
Qed.

Lemma load_new id secret s r0 r1 r2 rs : healthy s.1 -> s.2 = Env [] (r0 :: r1 :: r2 :: rs) ->
  AES_KEY_SIZE <= zlen r0 -> SALT_SIZE <= zlen r1 -> IV_SIZE <= zlen r2 -> secret <> [] ->
  rows_of CRYPT_SECRETS_TABLE_NAME s !! id = None ->
  exists key c s', zlen key = AES_KEY_SIZE /\ bytes key /\ wraps secret key c /\
    load_crypt_service (Some id) secret s =
      Done (Some {| hcontext := false; cc_key_id := key_id_array id; crypto_key := key ++ zeros 16 |}, s') /\
    db_ready s' /\ mallocs s'.2 = [] /\
    rows_of CRYPT_STORE_TABLE_NAME s' = rows_of CRYPT_STORE_TABLE_NAME s /\
    rows_of CRYPT_SECRETS_TABLE_NAME s' = <[id := c]> (rows_of CRYPT_SECRETS_TABLE_NAME s).
Proof.
  intros Hh He H0 H1 H2 Hsec Hrow.
  destruct (load_opens id secret s Hh) as (s1 & Hr1 & He1 & R1 & R2 & ->); [by rewrite He|].
  rewrite Hrow. unfold new_master_key. rewrite He in He1.
  rewrite (proj2 (Z.eqb_neq _ 0)) by (destruct secret; [done|unfold zlen; cbn; lia]). cbn [negb].
  destruct (RAND_bytes_run AES_KEY_SIZE (Env [] (r0 :: r1 :: r2 :: rs)) ltac:(done))
    as (x & [m e] & Hx & Hm & Hs & C & N). cbn in Hm, Hs. subst m e.
  destruct C as [C|(key & -> & Hkl & Hkb)]; [by destruct (N H0)|].
  destruct (generate_entry_run id secret key (zeros 16) r1 r2 rs Hkl H1 H2) as (c & Hc & Hgen).
  destruct (save_secrets_run (Some id) (column c 0) (column c 1) (column c 2) (s1.1, Env [] rs))
    as (z & s' & Hsave & _ & (F1 & F2 & F3) & Rs & K).
  destruct (K id eq_refl) as (-> & Hr' & R3); [exact Hr1|rewrite <- R2 in Hrow; exact Hrow|].
  exists key, c, s'. split; [done|]. split; [done|]. split; [done|]. split.
  { erewrite bind_run; cycle 1.
    - erewrite bind_run by (apply in_mem_run; rewrite He1; exact Hx). cbn [snd].
      erewrite bind_run by (rewrite empty_key_front by done; done). cbn beta.
      erewrite bind_run by (apply in_mem_run; exact Hgen). cbn beta iota. by erewrite bind_run by exact Hsave.
    - done. }
  split; [done|]. split; [by rewrite F3|]. split; [by rewrite Rs, <- R1|].
  rewrite R3. destruct Hc as (salt & iv & _ & _ & _ & _ & ->). by rewrite <- R2.
Qed.

Lemma load_stored id secret key c s : healthy s.1 -> mallocs s.2 = [] -> secret <> [] ->
  rows_of CRYPT_SECRETS_TABLE_NAME s !! id = Some c -> zlen key = AES_KEY_SIZE -> bytes key ->
  wraps secret key c ->
  exists t s', load_crypt_service (Some id) secret s =
      Done (Some {| hcontext := false; cc_key_id := key_id_array id; crypto_key := key ++ t |}, s') /\
    db_ready s' /\ s'.2 = s.2 /\
    rows_of CRYPT_STORE_TABLE_NAME s' = rows_of CRYPT_STORE_TABLE_NAME s /\
    rows_of CRYPT_SECRETS_TABLE_NAME s' = rows_of CRYPT_SECRETS_TABLE_NAME s.
Proof.
  intros Hh Hm Hsec Hrow Hkl Hkb Hw.
  destruct (load_opens id secret s Hh Hm) as (s1 & Hr1 & He1 & R1 & R2 & ->). rewrite Hrow.
  unfold stored_master_key. rewrite (proj2 (Z.ltb_lt 0 _)) by (destruct secret; [done|unfold zlen; cbn; lia]).
  destruct (extract_entry_run id secret key c empty_key s1.2) as [t Ht]; [by rewrite He1|done|done|done|done|].
  exists t, s1. split.
  - erewrite bind_run; cycle 1.
    + erewrite bind_run by (apply in_mem_run; exact Ht). done.
    + by destruct s1.
  - done.
Qed.

Lemma key_id_array_string id : Forall (fun c => c <> 0) id -> zlen id < MAX_KEY_ID_SIZE ->
  0 ∈ key_id_array id.
Proof.
  intros _ Hl. unfold key_id_array, MAX_KEY_ID_SIZE, zlen in *. apply elem_of_app. right.
  apply elem_of_replicate. split; [done|]. rewrite length_take. lia.
Qed.

Lemma key_of_front key t : zlen key = AES_KEY_SIZE -> key_of (key ++ t) = key.
Proof.
  intros H. unfold key_of. rewrite <- H. unfold zlen. by rewrite Nat2Z.id, take_app_length.
Qed.

Lemma store_rep_key ctx ctx' s s' M : key_of (crypto_key ctx') = key_of (crypto_key ctx) ->
  rows_of CRYPT_STORE_TABLE_NAME s' = rows_of CRYPT_STORE_TABLE_NAME s ->
  store_rep ctx s M -> store_rep ctx' s' M.
Proof. intros Hk Hs Hr k. specialize (Hr k). unfold row_holds in *. by rewrite Hs, Hk. Qed.

(** C22. The master key survives a restart.  The first start with a secret of the
    user makes a master key, keeps it encrypted under a key derived from the
    secret, and leaves the stored secrets alone.  Any later start with the same
    secret, on a database that still has that row, loads a context in which
    every secret stored under the first one reads as before. *)
Theorem master_key_survives id secret s r0 r1 r2 rs :
  healthy s.1 -> s.2 = Env [] (r0 :: r1 :: r2 :: rs) ->
  AES_KEY_SIZE <= zlen r0 -> SALT_SIZE <= zlen r1 -> IV_SIZE <= zlen r2 ->
  secret <> [] -> Forall (fun c => c <> 0) id -> zlen id < MAX_KEY_ID_SIZE ->
  rows_of CRYPT_SECRETS_TABLE_NAME s !! id = None ->
  exists ctx s1, load_crypt_service (Some id) secret s = Done (Some ctx, s1) /\
    ctx_ok ctx /\ db_ready s1 /\ mallocs s1.2 = [] /\
    rows_of CRYPT_STORE_TABLE_NAME s1 = rows_of CRYPT_STORE_TABLE_NAME s /\
    forall s2, healthy s2.1 -> mallocs s2.2 = [] ->
      rows_of CRYPT_SECRETS_TABLE_NAME s2 = rows_of CRYPT_SECRETS_TABLE_NAME s1 ->
      exists ctx' s3, load_crypt_service (Some id) secret s2 = Done (Some ctx', s3) /\
        ctx_ok ctx' /\ db_ready s3 /\ forall M, store_rep ctx s2 M -> store_rep ctx' s3 M.
Proof.
  intros Hh He H0 H1 H2 Hsec Hid Hidl Hrow.
  destruct (load_new id secret s r0 r1 r2 rs Hh He H0 H1 H2 Hsec Hrow)
    as (key & c & s1 & Hkl & Hkb & Hw & Hload & Hr1 & Hm1 & R1 & R2).
  assert (forall t, ctx_ok {| hcontext := false; cc_key_id := key_id_array id; crypto_key := key ++ t |}) as Hok.
  { intros t. split; [|by apply key_id_array_string]. cbn [crypto_key]. rewrite zlen_app.
    pose proof (zlen_nonneg t). lia. }
  eexists _, s1. split; [exact Hload|]. split; [done|]. split; [done|]. split; [done|]. split; [done|].
  intros s2 Hh2 Hm2 Hsame.
  destruct (load_stored id secret key c s2) as (t & s3 & Hload3 & Hr3 & _ & R3 & _); try done.
  { by rewrite Hsame, R2, lookup_insert_eq. }
  eexists _, s3. split; [exact Hload3|]. split; [done|]. split; [done|]. intros M.
  apply store_rep_key; [|done]. cbn [crypto_key]. by rewrite !key_of_front.
Qed.
End crypt.

(** ** Samples *)

Lemma u8_bytes l : bytes l -> u8 <$> l = l.
Proof.
  induction 1 as [|x l Hx _ IH]; [done|]. rewrite fmap_cons, IH. f_equal. by apply u8_id.
Qed.

#[export, refine] Instance sample_zymkey : Zymkey := {|
  WITH_ZYMKEY4_HSM := true;
  zk_lock x := 1 :: (u8 <$> x);
  zk_unlock l := match l with 1 :: x => Some x | _ => None end
|}.
Proof.
  - intros x. constructor; [done|]. apply Forall_fmap, Forall_true. intros b. apply u8_byte.
  - done.
  - intros x Hx. by rewrite u8_bytes.
Defined.

Definition sample_db (rs : list (list Z)) : @db list_sqlite * env :=
  ({| ld_tables := {[CRYPT_STORE_TABLE_NAME := ∅; CRYPT_SECRETS_TABLE_NAME := ∅]}; ld_broken := [] |}, Env [] rs).

Definition sample_crypt : crypt_context :=
  {| hcontext := false; cc_key_id := key_id_array (cstr "main"); crypto_key := zeros 48 |}.

Lemma sample_db_ready rs : db_ready (sample_db rs).
Proof. by split; [|split; eexists]. Qed.

Lemma sample_store_rep ctx rs : store_rep ctx (sample_db rs) ∅.
Proof.
  intros k. rewrite lookup_empty. unfold rows_of, sample_db. cbn [fst tables list_sqlite ld_tables].
  rewrite lookup_insert_eq. cbn. by rewrite lookup_empty.
Qed.


Lemma master_key_survives_witness : exists ctx s1 ctx' s3,
  load_crypt_service (Some (cstr "main")) (cstr "secret") (sample_db [zeros 32; zeros 16; zeros 16]) = Done (Some ctx, s1) /\
  load_crypt_service (Some (cstr "main")) (cstr "secret") s1 = Done (Some ctx', s3).
Proof.
  destruct (master_key_survives (cstr "main") (cstr "secret") (sample_db [zeros 32; zeros 16; zeros 16])
    (zeros 32) (zeros 16) (zeros 16) []) as (ctx & s1 & H1 & _ & (Hh & _) & Hm & _ & Hre); try done.
  - repeat constructor; done.
  - destruct (Hre s1 Hh Hm eq_refl) as (ctx' & s3 & H3 & _). by exists ctx, s1, ctx', s3.
Defined.
