(* ===== verification/CryptCommands.v ===== *)
(** The commands of the secret store: [src/supervisor/crypt_commands.c] and the
    handlers of [src/supervisor/cmd_processor.c] that the build with
    [WITH_CRYPTO_SERVICE] adds.

    The state is that of [Crypt] and, for the handlers, the calls made on the
    socket.  Keys, certificates and signatures are texts and bytes of the
    store. *)
From stdpp Require Import strings numbers base list gmap.
From Stdlib Require Import ZArith Lia.
From S2P Require Import Prelude Base64 Os Text Access Supervisor CmdProcessor Sqlite Cryptou Crypt.

Section commands.
Context {SQ : Sqlite} {SSL : Openssl} {ZK : Zymkey} {SV : Services}.

#[local] Abbreviation Db := (prog (db * env)).

(** The value of a secret; [None] when it cannot be read or is empty. *)
Definition secret_value (ctx : crypt_context) (key : list Z) : Db (option (list Z)) :=
  o ← get_crypt_pair ctx (Some key);
  mret (match o with None => None | Some cp => cp_value cp end).

Definition put_value (ctx : crypt_context) (key value : list Z) : Db Z :=
  r ← put_crypt_pair ctx (Some {| cp_key := Some key; cp_value := Some value; cp_size := zlen value |});
  mret (if r <? 0 then -1 else 0).

Definition put_crypt_cmd (ctx : crypt_context) (key value : list Z) : Db Z :=
  o ← in_mem (base64_url_decode value);
  match o with
  | None => mret (-1)
  | Some v => put_value ctx key v
  end.

(** The return value and the text behind the output pointer. *)
Definition get_crypt_cmd (ctx : crypt_context) (key : list Z) : Db (Z * option (list Z)) :=
  o ← secret_value ctx key;
  match o with
  | None => mret (-1, None)
  | Some v =>
      t ← in_mem (base64_url_encode v false);
      mret (match t with None => (-1, None) | Some _ => (0, t) end)
  end.

(** The result of the random number generator is compared with 0 by [<], and
    its failure is 0. *)
Definition gen_randkey_cmd (ctx : crypt_context) (keyid : list Z) (size : Z) : Db Z :=
  ok ← in_mem malloc;
  if negb ok then mret (-1)
  else
    x ← in_mem (crypto_genkey size);
    if x.1 <? 0 then mret (-1)
    else
      match x.2 with
      | Some k => put_value ctx keyid k
      | None => if size =? 0 then put_value ctx keyid [] else fail_with Indeterminate
      end.

Definition gen_privkey_cmd (ctx : crypt_context) (keyid : list Z) (size : Z) : Db Z :=
  x ← in_mem (crypto_generate_privkey_str CRYPTO_KEY_EC (size * 8));
  if x.1 <? 0 then mret (-1)
  else
    match x.2 with
    | None => fail_with NullDeref
    | Some text => put_value ctx keyid text
    end.

Definition gen_pubkey_cmd (ctx : crypt_context) (pubid keyid : list Z) : Db Z :=
  o ← get_crypt_pair ctx (Some keyid);
  match o with
  | None => mret (-1)
  | Some cp =>
      x ← in_mem (crypto_generate_pubkey_str (default [] (cp_value cp)));
      if x.1 <? 0 then mret (-1)
      else
        match x.2 with
        | None => fail_with NullDeref
        | Some text => put_value ctx pubid text
        end
  end.

Definition gen_cert_cmd (ctx : crypt_context) (certid keyid : list Z) (meta : certificate_meta) : Db Z :=
  o ← get_crypt_pair ctx (Some keyid);
  match o with
  | None => mret (-1)
  | Some cp =>
      x ← in_mem (crypto_generate_cert_str meta (default [] (cp_value cp)));
      if x.1 <? 0 then mret (-1)
      else
        match x.2 with
        | None => fail_with NullDeref
        | Some text => put_value ctx certid text
        end
  end.

(** The key, the vector and the data of a blob command. *)
Definition blob_inputs (ctx : crypt_context) (keyid ivid blob : list Z) :
    Db (option (list Z * list Z * list Z)) :=
  k ← secret_value ctx keyid;
  match k with
  | None => mret None
  | Some key =>
      i ← secret_value ctx ivid;
      match i with
      | None => mret None
      | Some iv =>
          b ← in_mem (base64_url_decode blob);
          mret (match b with None => None | Some data => Some (key, iv, data) end)
      end
  end.

(** The text of the first [n] bytes of a buffer. *)
Definition encode_front (buf : list Z) (n : Z) : Db (option (list Z)) :=
  l ← lift_outcome (rd buf 0 n);
  in_mem (base64_url_encode l false).

Definition encrypt_blob_cmd (ctx : crypt_context) (keyid ivid blob : list Z) : Db (option (list Z)) :=
  x ← blob_inputs ctx keyid ivid blob;
  match x with
  | None => mret None
  | Some (key, iv, data) =>
      ok ← in_mem malloc;
      if negb ok then mret None
      else
        r ← in_mem (crypto_encrypt data key iv (zeros (Z.to_nat (zlen data + AES_BLOCK_SIZE))));
        if r.1 <? 0 then mret None else encode_front r.2 r.1
  end.

Definition decrypt_blob_cmd (ctx : crypt_context) (keyid ivid blob : list Z) : Db (option (list Z)) :=
  x ← blob_inputs ctx keyid ivid blob;
  match x with
  | None => mret None
  | Some (key, iv, data) =>
      ok ← in_mem malloc;
      if negb ok then mret None
      else
        r ← in_mem (crypto_decrypt data key iv (zeros (Z.to_nat (zlen data + AES_BLOCK_SIZE))));
        if r.1 <? 0 then mret None else encode_front r.2 r.1
  end.

Definition sign_blob_cmd (ctx : crypt_context) (keyid blob : list Z) : Db (option (list Z)) :=
  k ← secret_value ctx keyid;
  match k with
  | None => mret None
  | Some key =>
      b ← in_mem (base64_url_decode blob);
      match b with
      | None => mret None
      | Some data =>
          x ← in_mem (crypto_sign_data key data);
          if x.1 <? 0 then mret None
          else
            match x.2 with
            | None => fail_with NullDeref
            | Some sig => in_mem (base64_url_encode sig false)
            end
      end
  end.

(** ** The handlers *)

(** The store, the memory and the calls on the socket. *)
#[local] Abbreviation Cr := (prog ((db * env) * list call)).

Definition in_store {A} (m : Db A) : Cr A := fun s =>
  match m s.1 with
  | Done (a, d) => Done (a, (d, s.2))
  | Fault f => Fault f
  end.

Definition send (sock : Z) (addr : client_address) (data : list Z) : Cr Z := fun s =>
  let c := write_socket_data sock data addr in
  Done (answer s.2 c, (s.1, c :: s.2)).

Definition crypt_cmd_fn : Type := crypt_context -> Z -> client_address -> list (list Z) -> Cr Z.

(** [write_newline_socket_data]. *)
Definition send_line (sock : Z) (addr : client_address) (data : list Z) : Cr Z :=
  o ← in_store (in_mem (string_append_char (Some data) 10));
  match o with
  | None => send sock addr FAIL_REPLY
  | Some msg => send sock addr (until_nul msg)
  end.

(** [os_strdup] of an argument. *)
Definition with_copy (sock : Z) (addr : client_address) (k : Cr Z) : Cr Z :=
  ok ← in_store (in_mem malloc);
  if negb ok then send sock addr FAIL_REPLY else k.

Definition send_status (sock : Z) (addr : client_address) (r : Z) : Cr Z :=
  if r =? 0 then send sock addr OK_REPLY else send sock addr FAIL_REPLY.
Definition send_text (sock : Z) (addr : client_address) (t : option (list Z)) : Cr Z :=
  match t with
  | None => send sock addr FAIL_REPLY
  | Some text => send_line sock addr text
  end.

Definition trimmed (t : list Z) : list Z := default [] (rtrim (Some t) None).

Definition process_put_crypt_cmd : crypt_cmd_fn := fun ctx sock addr args =>
  match args with
  | [] => send sock addr FAIL_REPLY
  | key :: rest =>
      with_copy sock addr
        match rest with
        | [] => send sock addr FAIL_REPLY
        | value :: _ =>
            with_copy sock addr
              (if zlen (trimmed value) =? 0 then send sock addr FAIL_REPLY
               else r ← in_store (put_crypt_cmd ctx key (trimmed value)); send_status sock addr r)
        end
  end.

(** The key is trimmed in place. *)
Definition process_get_crypt_cmd : crypt_cmd_fn := fun ctx sock addr args =>
  match args with
  | [] => send sock addr FAIL_REPLY
  | key :: _ =>
      with_copy sock addr
        (if zlen (trimmed key) =? 0 then send sock addr FAIL_REPLY
         else
           x ← in_store (get_crypt_cmd ctx (trimmed key));
           send_text sock addr (if x.1 =? 0 then x.2 else None))
  end.

(** A key and its size. *)
Definition process_gen_key (cmd : crypt_context -> list Z -> Z -> Db Z) : crypt_cmd_fn :=
  fun ctx sock addr args =>
  match args with
  | [] => send sock addr FAIL_REPLY
  | keyid :: rest =>
      with_copy sock addr
        match rest with
        | [] => send sock addr FAIL_REPLY
        | size :: _ =>
            match strtoul10 size with
            | Some n =>
                if is_number (Some size)
                then r ← in_store (cmd ctx keyid (u8 n)); send_status sock addr r
                else send sock addr FAIL_REPLY
            | None => send sock addr FAIL_REPLY
            end
        end
  end.
Definition process_gen_randkey_cmd : crypt_cmd_fn := process_gen_key gen_randkey_cmd.
Definition process_gen_privkey_cmd : crypt_cmd_fn := process_gen_key gen_privkey_cmd.

Definition process_gen_pubkey_cmd : crypt_cmd_fn := fun ctx sock addr args =>
  match args with
  | [] => send sock addr FAIL_REPLY
  | pubid :: rest =>
      with_copy sock addr
        match rest with
        | [] => send sock addr FAIL_REPLY
        | keyid :: _ =>
            if zlen keyid =? 0 then send sock addr FAIL_REPLY
            else r ← in_store (gen_pubkey_cmd ctx pubid keyid); send_status sock addr r
        end
  end.

(** The common name is copied into an array of the certificate data. *)
Definition process_gen_cert_cmd : crypt_cmd_fn := fun ctx sock addr args =>
  match args with
  | [] => send sock addr FAIL_REPLY
  | certid :: rest =>
      with_copy sock addr
        match rest with
        | [] => send sock addr FAIL_REPLY
        | keyid :: rest' =>
            with_copy sock addr
              match rest' with
              | [] => send sock addr FAIL_REPLY
              | name :: _ =>
                  if zlen name =? 0 then send sock addr FAIL_REPLY
                  else
                    cn ← lift_outcome (strcat MAX_CERT_FIELD_SIZE [] name);
                    r ← in_store (gen_cert_cmd ctx certid keyid
                          {| not_before := 0; not_after := 31536000; cm_c := cstr "IE";
                             cm_o := cstr "nqmcyber"; cm_ou := cstr "R&D"; cm_cn := cn |});
                    send_status sock addr r
              end
        end
  end.

(** A key, a vector and a blob. *)
Definition process_blob (cmd : crypt_context -> list Z -> list Z -> list Z -> Db (option (list Z))) :
    crypt_cmd_fn := fun ctx sock addr args =>
  match args with
  | [] => send sock addr FAIL_REPLY
  | keyid :: rest =>
      with_copy sock addr
        match rest with
        | [] => send sock addr FAIL_REPLY
        | ivid :: rest' =>
            with_copy sock addr
              match rest' with
              | [] => send sock addr FAIL_REPLY
              | blob :: _ =>
                  if zlen blob =? 0 then send sock addr FAIL_REPLY
                  else t ← in_store (cmd ctx keyid ivid blob); send_text sock addr t
              end
        end
  end.
Definition process_encrypt_blob_cmd : crypt_cmd_fn := process_blob encrypt_blob_cmd.
Definition process_decrypt_blob_cmd : crypt_cmd_fn := process_blob decrypt_blob_cmd.

Definition process_sign_blob_cmd : crypt_cmd_fn := fun ctx sock addr args =>
  match args with
  | [] => send sock addr FAIL_REPLY
  | keyid :: rest =>
      with_copy sock addr
        match rest with
        | [] => send sock addr FAIL_REPLY
        | blob :: _ =>
            if zlen blob =? 0 then send sock addr FAIL_REPLY
            else t ← in_store (sign_blob_cmd ctx keyid blob); send_text sock addr t
        end
  end.

(** The commands that the build with the store adds to
    [get_command_function]. *)
Definition get_crypt_function (cmd : list Z) : option crypt_cmd_fn :=
  let named (s : string) := bool_decide (cmd = cstr s) in
  if named "PUT_CRYPT" then Some process_put_crypt_cmd
  else if named "GET_CRYPT" then Some process_get_crypt_cmd
  else if named "GEN_RANDKEY" then Some process_gen_randkey_cmd
  else if named "GEN_PRIVKEY" then Some process_gen_privkey_cmd
  else if named "GEN_PUBKEY" then Some process_gen_pubkey_cmd
  else if named "GEN_CERT" then Some process_gen_cert_cmd
  else if named "ENCRYPT_BLOB" then Some process_encrypt_blob_cmd
  else if named "DECRYPT_BLOB" then Some process_decrypt_blob_cmd
  else if named "SIGN_BLOB" then Some process_sign_blob_cmd
  else None.

(** ** Texts *)

Definition b64url (l : list Z) : list Z := base64_encode_loop base64_url_table false 0 l.

Lemma url_encode_nil l e : mallocs e = [] -> zlen l < SIZE_MAX / 4 ->
  base64_url_encode l false e = Done (Some (b64url l), e).
Proof.
  intros Hm Hl. destruct (encode_run base64_url_table false l e) as (o & e' & H & K & C).
  destruct (run_nil _ _ _ _ _ Hm H K) as [H' N]. destruct C as [->| ->]; [by destruct (N Hl)|done].
Qed.

Lemma url_decode_nil l e : mallocs e = [] -> bytes l -> l <> [] ->
  base64_url_decode (b64url l) e = Done (Some l, e).
Proof.
  intros Hm Hb Hne. destruct (decode_encoded base64_url_table false l e) as (o & e' & H & K & C);
    [by right|done|done|].
  destruct (run_nil _ _ _ _ _ Hm H K) as [H' N]. by destruct C as [->| ->].
Qed.

(** ** Runs with memory at hand *)

Lemma in_mem_nil' {A} (m : prog env A) s a : m s.2 = Done (a, s.2) -> in_mem m s = Done (a, s).
Proof. intros H. rewrite (in_mem_run _ _ _ _ H). by destruct s. Qed.

Lemma same_nil s s' : db_same s s' -> mallocs s.2 = [] -> mallocs s'.2 = [].
Proof. intros [(_ & _ & F) _] Hm. by rewrite F. Qed.

Section run.
Context (ctx : crypt_context) (Hctx : ctx_ok ctx).

Lemma secret_value_run k s M : k <> [] -> mallocs s.2 = [] -> db_ready s -> store_rep ctx s M ->
  exists s', secret_value ctx k s =
    Done (match M !! k with Some (b :: v) => Some (b :: v) | _ => None end, s') /\ db_same s s'.
Proof.
  intros Hk Hm Hr Hrep. destruct (get_crypt_pair_run ctx k s M Hctx Hk Hm Hr Hrep) as (s' & H & S).
  exists s'. split; [|done]. unfold secret_value. erewrite bind_run by exact H.
  by destruct (M !! k) as [[|b v]|].
Qed.

Lemma put_value_run k v s M : k <> [] -> bytes v -> mallocs s.2 = [] -> random_ready IV_SIZE s.2 ->
  zlen v + AES_BLOCK_SIZE < SIZE_MAX / 4 -> db_ready s -> store_rep ctx s M ->
  exists s', put_value ctx k v s = Done (0, s') /\ mallocs s'.2 = [] /\ db_ready s' /\
    store_rep ctx s' (<[k := v]> M).
Proof.
  intros Hk Hv Hm Hr Hl Hd Hrep.
  destruct (put_crypt_pair_run ctx k v s Hctx Hk) as (z & s' & Hrun & _ & _ & Ho & _ & Hm' & Hok).
  destruct (Hok Hm Hr Hl Hd) as (-> & Hd' & c & Hc & Hrow). exists s'. split; [|split; [auto|split; [done|]]].
  - unfold put_value. by erewrite bind_run by exact Hrun.
  - intros k'. destruct (decide (k' = k)) as [->|Hne].
    + rewrite lookup_insert_eq, Hc. by split.
    + rewrite lookup_insert_ne by done. rewrite Ho by done. apply Hrep.
Qed.

Lemma blob_inputs_run kid iid p key iv s M : kid <> [] -> iid <> [] -> mallocs s.2 = [] -> db_ready s ->
  store_rep ctx s M -> M !! kid = Some key -> key <> [] -> M !! iid = Some iv -> iv <> [] ->
  bytes p -> p <> [] ->
  exists s', blob_inputs ctx kid iid (b64url p) s = Done (Some (key, iv, p), s') /\ db_same s s'.
Proof.
  intros Hk Hi Hm Hr Hrep Hkey Hkn Hiv Hin Hp Hpn. unfold blob_inputs.
  destruct (secret_value_run kid s M Hk Hm Hr Hrep) as (s1 & H1 & S1). rewrite Hkey in H1.
  destruct key as [|k0 key]; [done|]. erewrite bind_run by exact H1. cbn beta iota.
  destruct (secret_value_run iid s1 M Hi (same_nil _ _ S1 Hm) (db_ready_same _ _ S1 Hr)
    (store_rep_same _ _ _ _ S1 Hrep)) as (s2 & H2 & S2). rewrite Hiv in H2.
  destruct iv as [|i0 iv]; [done|]. erewrite bind_run by exact H2. cbn beta iota.
  pose proof (db_same_trans _ _ _ S1 S2) as S12.
  erewrite bind_run by (apply in_mem_nil'; apply url_decode_nil; [by eapply same_nil|done|done]).
  by exists s2.
Qed.

Lemma encode_front_run l t s : mallocs s.2 = [] -> zlen l < SIZE_MAX / 4 ->
  encode_front (l ++ t) (zlen l) s = Done (Some (b64url l), s).
Proof.
  intros Hm Hl. unfold encode_front. erewrite bind_run by (rewrite rd_front; done). cbn beta.
  apply in_mem_nil'. by apply url_encode_nil.
Qed.

Lemma encrypt_blob_run kid iid p key iv s M : kid <> [] -> iid <> [] -> mallocs s.2 = [] -> db_ready s ->
  store_rep ctx s M -> M !! kid = Some key -> AES_KEY_SIZE <= zlen key -> M !! iid = Some iv ->
  IV_SIZE <= zlen iv -> bytes p -> p <> [] -> zlen p + AES_BLOCK_SIZE < SIZE_MAX / 4 ->
  exists s1, encrypt_blob_cmd ctx kid iid (b64url p) s =
      Done (Some (b64url (aes_encrypt (key_of key) (iv_of iv) p)), s1) /\ db_same s s1.
Proof.
  intros Hk Hi Hm Hr Hrep Hkey Hkl Hiv Hivl Hp Hpn Hl.
  destruct (blob_inputs_run kid iid p key iv s M) as (s1 & H1 & S1); try done; try (by intros ->).
  pose proof (same_nil _ _ S1 Hm) as Hm1. exists s1. split; [|done].
  pose proof (aes_encrypt_split (key_of key) (iv_of iv) p) as [_ Hc].
  unfold encrypt_blob_cmd. erewrite bind_run by exact H1. cbn beta iota.
  erewrite bind_run by (by apply in_mem_malloc_nil). cbn beta. cbn [negb].
  destruct (crypto_encrypt_run p key iv (zeros (Z.to_nat (zlen p + AES_BLOCK_SIZE))) s1.2)
    as (z & out & e & H2 & K2 & C2); [done|done| |].
  { unfold zeros. rewrite zlen_replicate. pose proof (zlen_nonneg p). unfold AES_BLOCK_SIZE. lia. }
  destruct (run_nil _ _ _ _ _ Hm1 H2 K2) as [H2' N2]. erewrite bind_run by (by apply in_mem_nil').
  cbn [fst snd]. destruct C2 as [->|[-> [t ->]]]; [done|].
  rewrite (proj2 (Z.ltb_ge _ _)) by apply zlen_nonneg. apply encode_front_run; [done|lia].
Qed.

Lemma decrypt_blob_run kid iid p key iv s M : kid <> [] -> iid <> [] -> mallocs s.2 = [] -> db_ready s ->
  store_rep ctx s M -> M !! kid = Some key -> AES_KEY_SIZE <= zlen key -> M !! iid = Some iv ->
  IV_SIZE <= zlen iv -> bytes p -> zlen p < SIZE_MAX / 4 ->
  exists s1, decrypt_blob_cmd ctx kid iid (b64url (aes_encrypt (key_of key) (iv_of iv) p)) s =
      Done (Some (b64url p), s1) /\ db_same s s1.
Proof.
  intros Hk Hi Hm Hr Hrep Hkey Hkl Hiv Hivl Hp Hl. set (c := aes_encrypt (key_of key) (iv_of iv) p).
  destruct (blob_inputs_run kid iid c key iv s M) as (s1 & H1 & S1); try done; try (by intros ->).
  { apply aes_encrypt_bytes. } { apply aes_encrypt_nonempty. }
  pose proof (same_nil _ _ S1 Hm) as Hm1. exists s1. split; [|done].
  unfold decrypt_blob_cmd. erewrite bind_run by exact H1. cbn beta iota.
  erewrite bind_run by (by apply in_mem_malloc_nil). cbn beta. cbn [negb].
  destruct (crypto_decrypt_encrypted p key iv (zeros (Z.to_nat (zlen c + AES_BLOCK_SIZE))) s1.2)
    as (z & out & e & H2 & K2 & C2); [done|done|done| |].
  { unfold zeros. rewrite zlen_replicate. fold c. pose proof (zlen_nonneg c). unfold AES_BLOCK_SIZE. lia. }
  destruct (run_nil _ _ _ _ _ Hm1 H2 K2) as [H2' N2]. erewrite bind_run by (by apply in_mem_nil').
  cbn [fst snd]. destruct C2 as [->|[-> [t ->]]]; [done|].
  rewrite (proj2 (Z.ltb_ge _ _)) by apply zlen_nonneg. by apply encode_front_run.
Qed.
End run.

(** Blobs are encrypted and decrypted with keys of the store.  With a key of
    at least the size AES needs and a vector of at least a block under the two
    names, [ENCRYPT_BLOB] of any data gives a text, [DECRYPT_BLOB] of that text
    gives the data back, and neither changes the store; with a shorter key
    [ENCRYPT_BLOB] reads past the end of it. *)
Theorem blob_roundtrip ctx kid iid p key iv s M : ctx_ok ctx -> kid <> [] -> iid <> [] ->
  mallocs s.2 = [] -> db_ready s -> store_rep ctx s M ->
  M !! kid = Some key -> key <> [] -> M !! iid = Some iv -> IV_SIZE <= zlen iv ->
  bytes p -> p <> [] -> zlen p + AES_BLOCK_SIZE < SIZE_MAX / 4 ->
  (AES_KEY_SIZE <= zlen key -> exists t s1 s2,
     encrypt_blob_cmd ctx kid iid (b64url p) s = Done (Some t, s1) /\
     decrypt_blob_cmd ctx kid iid t s1 = Done (Some (b64url p), s2) /\
     store_rep ctx s1 M /\ store_rep ctx s2 M) /\
  (zlen key < AES_KEY_SIZE -> encrypt_blob_cmd ctx kid iid (b64url p) s = Fault OutOfBounds).
Proof.
  intros Hctx Hk Hi Hm Hr Hrep Hkey Hkn Hiv Hivl Hp Hpn Hl. split; intros Hkl.
  - destruct (encrypt_blob_run ctx Hctx kid iid p key iv s M) as (s1 & H1 & S1); try done.
    destruct (decrypt_blob_run ctx Hctx kid iid p key iv s1 M) as (s2 & H2 & S2); try done.
    { by eapply same_nil. } { by eapply db_ready_same. } { by eapply store_rep_same. }
    { unfold AES_BLOCK_SIZE in Hl. lia. }
    eexists _, s1, s2. split; [exact H1|]. split; [exact H2|].
    split; [by eapply store_rep_same|]. eapply store_rep_same; [|done]. by eapply db_same_trans.
  - assert (iv <> []) as Hin by (by intros ->).
    destruct (blob_inputs_run ctx Hctx kid iid p key iv s M) as (s1 & H1 & S1); try done.
    pose proof (same_nil _ _ S1 Hm) as Hm1.
    unfold encrypt_blob_cmd. erewrite bind_run by exact H1. cbn beta iota.
    erewrite bind_run by (by apply in_mem_malloc_nil). cbn beta. cbn [negb].
    unfold mbind, prog_bind, in_mem. by rewrite crypto_encrypt_short_key.
Qed.

(** *** Texts of the protocol *)

Lemma b64url_chars l : Forall (fun c => 45 <= c <= 122) (b64url l).
Proof.
  apply encode_chars. intros i Hi. unfold tbl.
  assert (Forall (fun c => 45 <= c <= 122) base64_url_table) as Ht.
  { apply (bool_decide_unpack _). by vm_compute. }
  rewrite List.Forall_forall in Ht. apply Ht, nth_In. change (length base64_url_table) with 64%nat. lia.
Qed.

Lemma b64url_nonempty l : l <> [] -> b64url l <> [].
Proof. by destruct l as [|a [|b [|c l]]]. Qed.

Lemma trimmed_b64url l : l <> [] -> trimmed (b64url l) = b64url l.
Proof.
  intros Hl. unfold trimmed. pose proof (b64url_chars l) as Hc. pose proof (b64url_nonempty l Hl) as Hn.
  destruct (exists_last Hn) as (t & c & E). rewrite E in *. rewrite rtrim_id; [done|].
  apply Forall_app in Hc as [_ Hc]. inversion_clear Hc as [|? ? Hc' _]. set_unfold. lia.
Qed.

Section handlers.
Context (ctx : crypt_context) (Hctx : ctx_ok ctx) (sock : Z) (addr : client_address).

Lemma in_store_run {A} (m : Db A) s h a s' : m s = Done (a, s') -> in_store m (s, h) = Done (a, (s', h)).
Proof. intros H. unfold in_store. cbn [fst]. by rewrite H. Qed.

Lemma with_copy_run k s h : mallocs s.2 = [] -> with_copy sock addr k (s, h) = k (s, h).
Proof.
  intros Hm. unfold with_copy. by erewrite bind_run by (apply in_store_run; by apply in_mem_malloc_nil).
Qed.

Lemma send_line_run l s h : mallocs s.2 = [] -> Forall (fun c => c <> 0) l ->
  exists z, send_line sock addr l (s, h) = Done (z, (s, write_socket_data sock (l ++ [10]) addr :: h)).
Proof.
  intros Hm Hl. unfold send_line.
  erewrite bind_run by (apply in_store_run, in_mem_nil'; by apply string_append_char_run). cbn beta iota.
  replace (l ++ [10; 0]) with ((l ++ [10]) ++ [0]) by (by rewrite <- app_assoc).
  rewrite until_nul_app by (apply Forall_app; split; [done|repeat constructor; lia]). by eexists.
Qed.
End handlers.


(** Any certificate data, for the laws that take some. *)
Definition no_meta : certificate_meta :=
  {| not_before := 0; not_after := 0; cm_c := []; cm_o := []; cm_ou := []; cm_cn := [] |}.

Lemma pem_bytes l : Forall (fun c => 0 < c < 128) l -> bytes l.
Proof. intros H. eapply Forall_impl; [exact H|]. unfold is_byte. lia. Qed.

(** A secret that is there and not empty. *)
Lemma pair_found ctx k v s M : ctx_ok ctx -> k <> [] -> mallocs s.2 = [] -> db_ready s -> store_rep ctx s M ->
  M !! k = Some v -> v <> [] ->
  exists s', get_crypt_pair ctx (Some k) s =
    Done (Some {| cp_key := Some k; cp_value := Some v; cp_size := zlen v |}, s') /\ db_same s s'.
Proof.
  intros Hctx Hk Hm Hd Hrep Hv Hne.
  destruct (get_crypt_pair_run ctx k s M Hctx Hk Hm Hd Hrep) as (s' & H & S). rewrite Hv in H.
  destruct v; [done|]. by exists s'.
Qed.

Lemma random_same n s s' : db_same s s' -> random_ready n s.2 -> random_ready n s'.2.
Proof. intros [(_ & R & _) _]. unfold random_ready. by rewrite R. Qed.

(** A text made from a private key of the store. *)
Lemma derived_run (f : list Z -> prog env (Z * option (list Z))) ctx id kid k text s M :
  ctx_ok ctx -> kid <> [] -> id <> [] -> mallocs s.2 = [] -> random_ready IV_SIZE s.2 -> db_ready s ->
  store_rep ctx s M -> M !! kid = Some (pem_private k) ->
  (forall e, mallocs e = [] -> f (pem_private k) e = Done ((0, Some text), e)) ->
  Forall (fun c => 0 < c < 128) text -> zlen text + AES_BLOCK_SIZE < SIZE_MAX / 4 ->
  exists s', (o ← get_crypt_pair ctx (Some kid);
      match o with
      | None => mret (-1)
      | Some cp =>
          x ← in_mem (f (default [] (cp_value cp)));
          if x.1 <? 0 then mret (-1)
          else match x.2 with None => fail_with NullDeref | Some t => put_value ctx id t end
      end) s = Done (0, s') /\ store_rep ctx s' (<[id := text]> M).
Proof.
  intros Hctx Hk Hid Hm Hr Hd Hrep Hkey Hf Ht Hl.
  destruct (pair_found ctx kid _ s M Hctx Hk Hm Hd Hrep Hkey) as (s1 & H1 & S1);
    [apply (pem_nonempty k no_meta)|].
  pose proof (same_nil _ _ S1 Hm) as Hm1.
  destruct (put_value_run ctx Hctx id text s1 M) as (s2 & H2 & _ & _ & Hrep2); try done.
  { by apply pem_bytes. } { by eapply random_same. } { by eapply db_ready_same. } { by eapply store_rep_same. }
  exists s2. split; [|done]. erewrite bind_run by exact H1. cbn [cp_value default].
  erewrite bind_run by (apply in_mem_nil'; by apply Hf). done.
Qed.

Lemma sign_blob_run ctx kid k d s M r rs : ctx_ok ctx -> kid <> [] ->
  mallocs s.2 = [] -> randoms s.2 = r :: rs -> db_ready s -> store_rep ctx s M ->
  M !! kid = Some (pem_private k) -> pem_private k <> [] -> signature_size k < SIZE_MAX / 4 -> bytes d -> d <> [] ->
  exists s', sign_blob_cmd ctx kid (b64url d) s = Done (Some (b64url (sign k d (u8 <$> r))), s') /\
    store_rep ctx s' M.
Proof.
  intros Hctx Hk Hm Hr Hd Hrep Hkey Hne Hsz Hb Hdn. unfold sign_blob_cmd.
  destruct (secret_value_run ctx Hctx kid s M Hk Hm Hd Hrep) as (s1 & H1 & S1). rewrite Hkey in H1.
  destruct (pem_private k) as [|c t] eqn:Ek; [done|]. rewrite <- Ek in H1.
  pose proof (same_nil _ _ S1 Hm) as Hm1. erewrite bind_run by exact H1. cbn beta iota.
  erewrite bind_run by (apply in_mem_nil'; by apply url_decode_nil). cbn beta iota.
  assert (randoms s1.2 = r :: rs) as Hr1 by (destruct S1 as [(_ & -> & _) _]; done).
  erewrite bind_run by (apply in_mem_run; by apply sign_data_run). cbn [fst snd].
  destruct (sign_len k d (u8 <$> r)) as [Hl1 Hl2]. rewrite (proj2 (Z.ltb_ge _ _)) by lia.
  eexists. split; [apply in_mem_run; apply url_encode_nil; [done|lia]|].
  exact (store_rep_same _ _ _ _ S1 Hrep).
Qed.

(** The texts of a key are far from the size limit of the encoder. *)
Definition texts_fit (k : pkey) : Prop := forall m,
  zlen (pem_private k) + AES_BLOCK_SIZE < SIZE_MAX / 4 /\
  zlen (pem_public k) + AES_BLOCK_SIZE < SIZE_MAX / 4 /\
  zlen (pem_certificate k m) + AES_BLOCK_SIZE < SIZE_MAX / 4 /\ signature_size k < SIZE_MAX / 4.

(** C35. Key pairs of the store.  [GEN_PRIVKEY] puts a new private key under its
    name; from a private key of the store [GEN_PUBKEY] makes the public key and
    [GEN_CERT] a certificate and puts them under theirs, and [SIGN_BLOB] answers
    a signature of the data that the public key verifies. *)
Theorem key_commands_correct ctx kid id s M r rs : ctx_ok ctx -> kid <> [] -> id <> [] ->
  mallocs s.2 = [] -> randoms s.2 = r :: rs -> db_ready s -> store_rep ctx s M ->
  (forall size, random_ready IV_SIZE (Env [] rs) -> texts_fit (ec_keygen (u8 <$> r)) ->
     exists s', gen_privkey_cmd ctx kid size s = Done (0, s') /\
       store_rep ctx s' (<[kid := pem_private (ec_keygen (u8 <$> r))]> M)) /\
  (forall k, M !! kid = Some (pem_private k) -> texts_fit k ->
     (random_ready IV_SIZE s.2 ->
        (exists s', gen_pubkey_cmd ctx id kid s = Done (0, s') /\ store_rep ctx s' (<[id := pem_public k]> M)) /\
        (forall meta, exists s', gen_cert_cmd ctx id kid meta s = Done (0, s') /\
           store_rep ctx s' (<[id := pem_certificate k meta]> M))) /\
     (forall d, bytes d -> d <> [] ->
        exists sig s', sign_blob_cmd ctx kid (b64url d) s = Done (Some (b64url sig), s') /\
          verify (public_part k) d sig = true /\ store_rep ctx s' M)).
Proof.
  intros Hctx Hk Hid Hm Hr Hd Hrep. split; [|intros k Hkey Hpem; split].
  - intros size Hiv Hpem. set (k := ec_keygen (u8 <$> r)) in *.
    destruct (pem_text k no_meta) as [Ht _].
    destruct (put_value_run ctx Hctx kid (pem_private k) (s.1, Env [] rs) M) as (s' & H & _ & _ & Hrep'); try done.
    { by apply pem_bytes. } { by apply (Hpem no_meta). }
    exists s'. split; [|done]. unfold gen_privkey_cmd.
    by erewrite bind_run by (apply in_mem_run; by apply privkey_str_run).
  - intros Hiv. split.
    + apply (derived_run crypto_generate_pubkey_str ctx id kid k); try done.
      * intros e He. by apply pubkey_str_run.
      * by apply (pem_text k no_meta).
      * by apply (Hpem no_meta).
    + intros meta. apply (derived_run (crypto_generate_cert_str meta) ctx id kid k); try done.
      * intros e He. by apply cert_str_run.
      * by apply (pem_text k meta).
      * by apply (Hpem meta).
  - intros d Hb Hdn. eexists. destruct (sign_blob_run ctx kid k d s M r rs) as (s' & H & Hrep'); try done.
    + by apply (pem_nonempty k no_meta).
    + by apply (Hpem no_meta).
    + exists s'. split; [exact H|]. split; [apply verify_sign|done].
Qed.
End commands.

(** ** A write that is lost *)

(** The answer to a write does not depend on the insertion of the row.  When
    the database carries out the deletion of the old row and then refuses the
    new one, [put_crypt_pair] answers success and the secret is gone. *)
Theorem put_crypt_loses_secret {SSL : Openssl} ctx k v T m e : ctx_ok ctx -> k <> [] ->
  T !! CRYPT_STORE_TABLE_NAME = Some m -> mallocs e = [] -> random_ready IV_SIZE e ->
  zlen v + AES_BLOCK_SIZE < SIZE_MAX / 4 ->
  exists s', put_crypt_pair (SQ := list_sqlite) ctx
      (Some {| cp_key := Some k; cp_value := Some v; cp_size := zlen v |})
      ({| ld_tables := T; ld_broken := [false; true] |}, e) = Done (0, s') /\
    rows_of CRYPT_STORE_TABLE_NAME s' !! k = None.
Proof.
  intros [Hkey Hid] Hk HT Hm Hr Hl. unfold put_crypt_pair. cbn [cp_key cp_value cp_size]. destruct k as [|k0 k]; [done|].
  destruct (encrypt_value_run ctx v e Hkey) as (o & e1 & H1 & K1). destruct (K1 Hm) as [_ N].
  destruct (N Hr Hl) as [Ho _]. destruct o as [[vt it]|]; [|done].
  erewrite bind_run by (by apply in_mem_run). cbn beta iota.
  erewrite bind_run by (rewrite c_string_run by done; done). cbn beta.
  unfold save_sqlite_store_entry. cbn [sr_key].
  eexists. split.
  - erewrite bind_run; cycle 1.
    + erewrite bind_run by (eapply list_statement; apply list_step_legal; by exists m). cbn beta. cbn [Z.ltb Z.compare].
      eapply list_statement. apply list_step_broken.
    + done.
  - unfold rows_of. cbn [fst tables list_sqlite ld_tables list_answer snd].
    rewrite lookup_insert_eq. cbn. apply lookup_delete_eq.
Qed.


(** ** Samples *)

Definition sample_key : list Z := replicate 32 5.

(** The store with a key, a vector and a private key. *)
Definition sample_rows : table :=
  {[cstr "key" := [Some (b64 (aes_encrypt (key_of (crypto_key sample_crypt)) (zeros 16) sample_key)); None; Some (b64 (zeros 16))];
    cstr "iv" := [Some (b64 (aes_encrypt (key_of (crypto_key sample_crypt)) (zeros 16) (zeros 16))); None; Some (b64 (zeros 16))];
    cstr "ec" := [Some (b64 (aes_encrypt (key_of (crypto_key sample_crypt)) (zeros 16) (pem_private (4%nat, false)))); None; Some (b64 (zeros 16))]]}.
Definition sample_secrets : gmap (list Z) (list Z) :=
  {[cstr "key" := sample_key; cstr "iv" := zeros 16; cstr "ec" := pem_private (4%nat, false)]}.
Definition sample_store (rs : list (list Z)) : @db list_sqlite * env :=
  ({| ld_tables := {[CRYPT_STORE_TABLE_NAME := sample_rows; CRYPT_SECRETS_TABLE_NAME := ∅]}; ld_broken := [] |}, Env [] rs).

Lemma sample_crypt_ok : ctx_ok sample_crypt.
Proof. split; [done|]. apply (list_elem_of_lookup_2 _ 4%nat). reflexivity. Qed.

Lemma sample_store_ready rs : db_ready (sample_store rs).
Proof. by split; [|split; eexists]. Qed.

Lemma sample_store_holds rs : store_rep sample_crypt (sample_store rs) sample_secrets.
Proof.
  intros k. replace (rows_of CRYPT_STORE_TABLE_NAME (sample_store rs)) with sample_rows.
  2:{ unfold rows_of, sample_store. cbn [fst tables list_sqlite ld_tables]. by rewrite lookup_insert_eq. }
  unfold sample_rows, sample_secrets.
  assert (forall v, bytes v -> v <> [] -> bytes v /\ row_holds sample_crypt v
    [Some (b64 (aes_encrypt (key_of (crypto_key sample_crypt)) (zeros 16) v)); None; Some (b64 (zeros 16))]) as H.
  { intros v Hb Hn. split; [done|]. right. split; [done|]. exists (zeros 16), None. split; [done|].
    split; [by apply Forall_replicate|done]. }
  rewrite !lookup_insert. repeat case_decide; try (apply H; [|done]); try (by apply Forall_replicate).
  destruct (decide (cstr "ec" = k)) as [<-|Hne].
  - rewrite !lookup_singleton_eq. apply H; [|done]. apply pem_bytes. by apply (@pem_text toy_openssl (4%nat, false) no_meta).
  - by rewrite !lookup_singleton_ne.
Qed.

Lemma sample_secrets_key : sample_secrets !! cstr "key" = Some sample_key.
Proof. apply lookup_insert_eq. Qed.
Lemma sample_secrets_iv : sample_secrets !! cstr "iv" = Some (zeros 16).
Proof. vm_compute. reflexivity. Qed.
Lemma sample_secrets_ec : sample_secrets !! cstr "ec" = Some (@pem_private toy_openssl (4%nat, false)).
Proof. vm_compute. reflexivity. Qed.

Lemma blob_roundtrip_witness : exists t s1 s2,
  encrypt_blob_cmd sample_crypt (cstr "key") (cstr "iv") (b64url [1; 2; 3]) (sample_store []) = Done (Some t, s1) /\
  decrypt_blob_cmd sample_crypt (cstr "key") (cstr "iv") t s1 = Done (Some (b64url [1; 2; 3]), s2).
Proof.
  destruct (blob_roundtrip sample_crypt (cstr "key") (cstr "iv") [1; 2; 3] sample_key (zeros 16)
    (sample_store []) sample_secrets sample_crypt_ok ltac:(discriminate) ltac:(discriminate) eq_refl
    (sample_store_ready []) (sample_store_holds []) sample_secrets_key ltac:(discriminate) sample_secrets_iv
    ltac:(by vm_compute) ltac:(repeat constructor; lia) ltac:(discriminate) ltac:(by vm_compute)) as [Hok _].
  destruct (Hok ltac:(by vm_compute)) as (t & s1 & s2 & H1 & H2 & _).
  exists t, s1, s2. split; [exact H1|exact H2].
Defined.


Lemma key_commands_correct_witness : exists sig s',
  sign_blob_cmd sample_crypt (cstr "ec") (b64url [1; 2; 3]) (sample_store [zeros 16]) = Done (Some (b64url sig), s') /\
  @verify toy_openssl (4%nat, true) [1; 2; 3] sig = true.
Proof.
  destruct (key_commands_correct sample_crypt (cstr "ec") (cstr "pub") (sample_store [zeros 16]) sample_secrets
    (zeros 16) [] sample_crypt_ok ltac:(discriminate) ltac:(discriminate) eq_refl eq_refl
    (sample_store_ready _) (sample_store_holds _)) as [_ Hkey].
  destruct (Hkey (4%nat, false) sample_secrets_ec ltac:(intros m; by vm_compute)) as [_ Hs].
  destruct (Hs [1; 2; 3] ltac:(repeat constructor; lia) ltac:(discriminate)) as (sig & s' & H1 & H2 & _).
  exists sig, s'. split; [exact H1|exact H2].
Defined.

Lemma put_crypt_loses_secret_witness : exists s',
  put_crypt_pair (SQ := list_sqlite) sample_crypt
    (Some {| cp_key := Some (cstr "key"); cp_value := Some [7]; cp_size := 1 |})
    ({| ld_tables := {[CRYPT_STORE_TABLE_NAME := sample_rows]}; ld_broken := [false; true] |}, Env [] [zeros 16]) =
    Done (0, s') /\ rows_of CRYPT_STORE_TABLE_NAME s' !! cstr "key" = None.
Proof.
  exact (put_crypt_loses_secret sample_crypt (cstr "key") [7] {[CRYPT_STORE_TABLE_NAME := sample_rows]} sample_rows
    (Env [] [zeros 16]) sample_crypt_ok ltac:(discriminate) (lookup_singleton_eq _ _) eq_refl
    ltac:(by vm_compute) ltac:(by vm_compute)).
Defined.
