(* ===== verification/Config.v ===== *)
(** The configuration: [src/config.c].

    minIni reads the file; it is a parameter, with what its documentation says
    of it.  The fields of [struct app_config] are grouped here by the function
    that reads them.  A function that returns [false] is [None].

    The theorems: the interfaces of the file are read in their order, with the
    values that are written there; whatever the file says, the strings of a
    configuration that was loaded fit their arrays; and a line with too few
    parts is not reported but followed into a NULL pointer. *)
From stdpp Require Import strings numbers base list gmap.
From Stdlib Require Import ZArith Lia.
From S2P Require Import Prelude Os Text Net Extern Mappers Iptables Filter Process Dhcp Mdns RadiusServer Ap.

Definition MAX_FILTER_SIZE : Z := 4094.
Definition MAX_MIDDLEWARE_PARAMS_SIZE : Z := 4094.
Definition AP_DRIVE_LEN : Z := 20.
Definition AP_HWMODE_LEN : Z := 4.
Definition AP_WPA_KEY_MGMT_LEN : Z := 20.
Definition AP_RSN_PAIRWISE_LEN : Z := 20.
Definition RADIUS_SECRET_LEN : Z := 255.

(** [ini_gets] copies the value of a key, or the given string, into a buffer of
    [INI_BUFFERSIZE] characters; [ini_getkey] gives the key with a number, and
    nothing for numbers from [ini_nkeys] on. *)
Class MinIni := {
  INI_BUFFERSIZE : Z;
  ini_gets : list Z -> list Z -> list Z -> list Z;
  ini_getl : list Z -> list Z -> Z -> Z;
  ini_getbool : list Z -> list Z -> bool -> bool;
  ini_nkeys : list Z -> nat;
  ini_getkey : list Z -> nat -> list Z;
  ini_gets_len s k d : zlen (ini_gets s k d) < INI_BUFFERSIZE;
  ini_gets_str s k d : nul_free (ini_gets s k d);
  ini_getkey_end s i : ini_getkey s i = [] <-> (ini_nkeys s <= i)%nat
}.

Record system_conf := {
  create_interfaces : bool; ignore_if_error : bool; ap_detect : bool; set_ip_forward : bool; exec_ap : bool;
  generate_ssid : bool; exec_radius : bool; exec_dhcp : bool; cfg_exec_capture : bool; exec_mdns_forward : bool;
  exec_firewall : bool; cfg_allocate_vlans : bool; cfg_default_open_vlanid : Z; cfg_allow_all_connections : bool;
  cfg_allow_all_nat : bool; connection_db_path : list Z; crypt_db_path : list Z; pid_file_path : list Z;
  bin_path_array : list (list Z)
}.
Record supervisor_conf := { supervisor_control_port : Z; cfg_supervisor_control_path : list Z }.
Record nat_conf := { cfg_nat_bridge : list Z; cfg_nat_interface : list Z }.
Record interfaces_conf := { bridge_prefix : list Z; interface_prefix : list Z; cfg_config_ifinfo_array : list config_ifinfo_t }.
Record capture_conf := {
  capture_db_path : list Z; cfg_filter : list Z; middleware_params : list Z; promiscuous : bool; immediate : bool;
  buffer_timeout : Z
}.
Record app_config := {
  config_ini_path : list Z;
  system_config : system_conf;
  supervisor_config : supervisor_conf;
  nat_config : nat_conf;
  rconfig : radius_conf;
  hconfig : apconf;
  server_array : list (list Z);
  cfg_mdns_config : mdns_conf;
  dhcp_config : dhcp_conf;
  interfaces : interfaces_conf;
  capture_config : capture_conf;
  firewall_bin_path : list Z
}.

Section config.
Context {INI : MinIni}.
#[local] Abbreviation Cfg := (prog env).

(** A buffer with the value of a key.  When there is no memory for it minIni
    does nothing and returns 0. *)
Definition ini_value (section key def : string) : Cfg (option (list Z)) :=
  ok ← malloc; mret (if (ok : bool) then Some (ini_gets (cstr section) (cstr key) (cstr def)) else None).
(** [os_strlcpy] of the buffer into an array of [size] characters. *)
Definition copy_value (size : Z) (section key def : string) : Cfg (list Z) :=
  v ← ini_value section key def;
  match v with None => fail_with NullDeref | Some s => mret (clip size s) end.
(** The same, for a key that must be there. *)
Definition required_value (size : Z) (section key : string) : Cfg (option (list Z)) :=
  v ← ini_value section key "";
  match v with None | Some [] => mret None | Some s => mret (Some (clip size s)) end.
Definition int_value (section key : string) (def : Z) : Z := s32 (ini_getl (cstr section) (cstr key) def).
Definition flag_value (section key : string) (def : bool) : bool := ini_getbool (cstr section) (cstr key) def.

(** The names of the interface and the bridge are set later; [strtol] sets no
    error that is looked for.  [utarray_next] behind the last part is NULL. *)
Definition get_config_ifinfo (info : option (list Z)) : Cfg (option config_ifinfo_t) :=
  x ← split_string_array info 44 (Some []);
  if x.1 <? 0 then mret None
  else
    match default [] x.2 with
    | [] => mret None
    | p :: ip :: brd :: mask :: _ =>
        mret (Some {| ci_vlanid := s32 (strtol10 p).1.1; ci_ifname := []; ci_brname := [];
                      ci_ip_addr := clip OS_INET_ADDRSTRLEN ip; ci_brd_addr := clip OS_INET_ADDRSTRLEN brd;
                      ci_subnet_mask := clip OS_INET_ADDRSTRLEN mask |})
    | _ => fail_with NullDeref
    end.

(** The loops over the keys; [idx] counts up. *)
Fixpoint ifinfo_loop (fuel : nat) (idx : nat) (arr : list config_ifinfo_t) : Cfg (option (list config_ifinfo_t)) :=
  ok ← malloc;
  let key := if (ok : bool) then ini_getkey (cstr "interfaces") idx else [] in
  if bool_decide (key = []) then mret (Some arr)
  else
    match fuel with
    | O => fail_with OutOfFuel
    | S fuel =>
        ok ← malloc;
        let value := if (ok : bool) then Some (ini_gets (cstr "interfaces") key []) else None in
        if bool_decide (take 2 key = cstr "if") then
          o ← get_config_ifinfo value;
          match o with None => mret None | Some el => ifinfo_loop fuel (S idx) (arr ++ [el]) end
        else ifinfo_loop fuel (S idx) arr
    end.
Fixpoint dhcpinfo_loop (fuel : nat) (idx : nat) (arr : list config_dhcpinfo_t) : Cfg (option (list config_dhcpinfo_t)) :=
  ok ← malloc;
  let key := if (ok : bool) then ini_getkey (cstr "dhcp") idx else [] in
  if bool_decide (key = []) then mret (Some arr)
  else
    match fuel with
    | O => fail_with OutOfFuel
    | S fuel =>
        ok ← malloc;
        if bool_decide (take 9 key = cstr "dhcpRange") then
          if negb ok then fail_with NullDeref
          else
            match get_config_dhcpinfo (ini_gets (cstr "dhcp") key []) with
            | None => mret None
            | Some el => dhcpinfo_loop fuel (S idx) (arr ++ [el])
            end
        else dhcpinfo_loop fuel (S idx) arr
    end.

Definition load_interface_list : Cfg (option interfaces_conf) :=
  br ← required_value IF_NAMESIZE "interfaces" "bridgePrefix";
  match br with
  | None => mret None
  | Some br =>
      pre ← required_value IF_NAMESIZE "interfaces" "interfacePrefix";
      match pre with
      | None => mret None
      | Some pre =>
          o ← ifinfo_loop (ini_nkeys (cstr "interfaces")) 0 [];
          mret (arr ← o; Some {| bridge_prefix := br; interface_prefix := pre; cfg_config_ifinfo_array := arr |})
      end
  end.
Definition load_dhcp_list : Cfg (option (list config_dhcpinfo_t)) := dhcpinfo_loop (ini_nkeys (cstr "dhcp")) 0 [].

Definition load_radius_conf : Cfg radius_conf :=
  let port := int_value "radius" "port" 1812 in
  client ← copy_value OS_INET_ADDRSTRLEN "radius" "clientIP" "127.0.0.1";
  let cmask := int_value "radius" "clientMask" 32 in
  server ← copy_value OS_INET_ADDRSTRLEN "radius" "serverIP" "127.0.0.1";
  let smask := int_value "radius" "serverMask" 32 in
  secret ← copy_value RADIUS_SECRET_LEN "radius" "secret" "";
  mret {| radius_port := port; radius_client_ip := client; radius_client_mask := cmask; radius_server_ip := server;
          radius_server_mask := smask; radius_secret := secret |}.

(** [ctrl_interface_path] and [vlan_bridge] are set when the program starts. *)
Definition load_ap_conf : Cfg (option apconf) :=
  file ← required_value MAX_OS_PATH_LEN "ap" "apFilePath";
  match file with None => mret None | Some file =>
  bin ← required_value MAX_OS_PATH_LEN "ap" "apBinPath";
  match bin with None => mret None | Some bin =>
  log ← copy_value MAX_OS_PATH_LEN "ap" "apLogPath" "";
  ssid ← required_value AP_NAME_LEN "ap" "ssid";
  match ssid with None => mret None | Some ssid =>
  pass ← copy_value AP_SECRET_LEN "ap" "wpaPassphrase" "";
  interface ← copy_value IF_NAMESIZE "ap" "interface" "";
  device ← copy_value IF_NAMESIZE "ap" "device" "";
  tagged ← copy_value IF_NAMESIZE "ap" "vlanTaggedInterface" "";
  driver ← copy_value AP_DRIVE_LEN "ap" "driver" "nl80211";
  mode ← copy_value AP_HWMODE_LEN "ap" "hwMode" "g";
  mgmt ← copy_value AP_WPA_KEY_MGMT_LEN "ap" "wpaKeyMgmt" "WPA-PSK";
  pairwise ← copy_value AP_RSN_PAIRWISE_LEN "ap" "rsnPairwise" "CCMP";
  ctrl ← copy_value MAX_OS_PATH_LEN "ap" "ctrlInterface" "/var/run/hostapd";
  vlan ← required_value MAX_OS_PATH_LEN "ap" "vlanFile";
  match vlan with None => mret None | Some vlan =>
  mret (Some {| ap_bin_path := bin; ap_file_path := file; ap_log_path := log; ctrl_interface_path := []; ap_interface := interface;
    ap_device := device; ap_ssid := ssid; ap_wpa_passphrase := pass; ap_driver := driver; hw_mode := mode;
    channel := int_value "ap" "channel" 11; wmm_enabled := int_value "ap" "wmmEnabled" 1; auth_algs := int_value "ap" "authAlgs" 1;
    wpa := int_value "ap" "wpa" 2; wpa_key_mgmt := mgmt; rsn_pairwise := pairwise; ctrl_interface := ctrl;
    macaddr_acl := int_value "ap" "macaddrAcl" 2; dynamic_vlan := int_value "ap" "dynamicVlan" 1; vlan_bridge := []; vlan_file := vlan;
    logger_stdout := int_value "ap" "loggerStdout" (-1); logger_stdout_level := int_value "ap" "loggerStdoutLevel" 0;
    logger_syslog := int_value "ap" "loggerSyslog" (-1); logger_syslog_level := int_value "ap" "loggerSyslogLevel" 0;
    ignore_broadcast_ssid := int_value "ap" "ignoreBroadcastSsid" 0; wpa_psk_radius := int_value "ap" "wpaPskRadius" 2;
    vlan_tagged_interface := tagged |})
  end end end end.

(** The parts of a value; a missing buffer is a NULL string. *)
Definition split_value (v : option (list Z)) (sep : Z) : Cfg (option (list (list Z))) :=
  x ← split_string_array v sep (Some []);
  if x.1 <? 0 then mret None else mret (Some (default [] x.2)).
Definition load_dns_conf : Cfg (option (list (list Z))) :=
  v ← ini_value "dns" "servers" "";
  split_value v 44.

(** The array of the filter is shorter than the size that is given for it. *)
Definition load_mdns_conf : Cfg (option mdns_conf) :=
  let ip4 := flag_value "dns" "mdnsReflectIp4" false in
  let ip6 := flag_value "dns" "mdnsReflectIp6" false in
  v ← ini_value "dns" "mdnsFilter" "";
  match v with
  | None | Some [] => mret None
  | Some value =>
      x ← lift_outcome (edge_os_strlcpy (zeros (Z.to_nat MAX_FILTER_SIZE)) value MAX_OS_PATH_LEN);
      mret (Some {| mc_filter := until_nul x.2; reflect_ip4 := ip4; reflect_ip6 := ip6 |})
  end.

(** The interface prefix and the WiFi interface are set when the program
    starts. *)
Definition load_dhcp_conf : Cfg (option dhcp_conf) :=
  conf ← required_value MAX_OS_PATH_LEN "dhcp" "dhcpConfigPath";
  match conf with None => mret None | Some conf =>
  bin ← required_value MAX_OS_PATH_LEN "dhcp" "dhcpBinPath";
  match bin with None => mret None | Some bin =>
  script ← required_value MAX_OS_PATH_LEN "dhcp" "dhcpScriptPath";
  match script with None => mret None | Some script =>
  lease ← required_value MAX_OS_PATH_LEN "dhcp" "dhcpLeasefilePath";
  match lease with None => mret None | Some lease =>
  ranges ← load_dhcp_list;
  mret (arr ← ranges;
        Some {| dhcp_bin_path := bin; dhcp_conf_path := conf; dhcp_script_path := script; dhcp_leasefile_path := lease;
                dh_interface_prefix := []; wifi_interface := []; config_dhcpinfo_array := arr |})
  end end end end.

(** The timeout is kept as a [uint16_t] on its way. *)
Definition load_capture_config : Cfg capture_conf :=
  db ← copy_value MAX_OS_PATH_LEN "capture" "captureDbPath" "./";
  filter ← copy_value MAX_FILTER_SIZE "capture" "filter" "";
  mret {| capture_db_path := db; cfg_filter := filter;
          middleware_params := clip MAX_MIDDLEWARE_PARAMS_SIZE (ini_gets (cstr "capture") (cstr "middlewareParams") []);
          promiscuous := flag_value "capture" "promiscuous" false; immediate := flag_value "capture" "immediate" false;
          buffer_timeout := u16 (ini_getl (cstr "capture") (cstr "bufferTimeout") 10) |}.

(** The path of the secrets is copied before it is looked at. *)
Definition load_system_config (WITH_CRYPTO_SERVICE : bool) : Cfg (option system_conf) :=
  db ← copy_value MAX_OS_PATH_LEN "system" "connectionDbPath" "";
  crypt ← (if WITH_CRYPTO_SERVICE then
             v ← copy_value MAX_OS_PATH_LEN "system" "cryptDbPath" "";
             mret (if bool_decide (v = []) then None else Some v)
           else mret (Some []));
  match crypt with None => mret None | Some crypt =>
  pid ← required_value MAX_OS_PATH_LEN "system" "pidFilePath";
  match pid with None => mret None | Some pid =>
  v ← ini_value "system" "binPath" "/bin";
  paths ← split_value v 58;
  mret (paths ← paths;
        Some {| create_interfaces := flag_value "system" "createInterfaces" false;
                ignore_if_error := flag_value "system" "ignoreErrorOnIfCreate" false; ap_detect := flag_value "system" "apDetect" false;
                set_ip_forward := flag_value "system" "setIpForward" false; exec_ap := flag_value "system" "execAp" false;
                generate_ssid := flag_value "system" "generateSsid" false; exec_radius := flag_value "system" "execRadius" false;
                exec_dhcp := flag_value "system" "execDhcp" false; cfg_exec_capture := flag_value "system" "execCapture" true;
                exec_mdns_forward := flag_value "system" "execMdnsForward" false; exec_firewall := flag_value "system" "execFirewall" true;
                cfg_allocate_vlans := flag_value "system" "allocateVlans" false;
                cfg_default_open_vlanid := int_value "system" "defaultOpenVlanId" 0;
                cfg_allow_all_connections := flag_value "system" "allowAllConnections" false;
                cfg_allow_all_nat := flag_value "system" "allowAllNat" false; connection_db_path := db; crypt_db_path := crypt;
                pid_file_path := pid; bin_path_array := paths |})
  end end.

Definition load_supervisor_config : Cfg (option supervisor_conf) :=
  path ← required_value MAX_OS_PATH_LEN "supervisor" "supervisorControlPath";
  mret (path ← path;
        Some {| supervisor_control_port := u32 (ini_getl (cstr "supervisor") (cstr "supervisorControlPort") 0);
                cfg_supervisor_control_path := path |}).
Definition load_nat_config : Cfg nat_conf :=
  bridge ← copy_value IF_NAMESIZE "nat" "natBridge" "";
  interface ← copy_value IF_NAMESIZE "nat" "natInterface" "";
  mret {| cfg_nat_bridge := bridge; cfg_nat_interface := interface |}.
Definition load_firewall_config : Cfg (list Z) := copy_value MAX_OS_PATH_LEN "firewall" "firewallBinPath" "".

(** [readable] is whether the file can be opened; [None] is -1. *)
Definition load_app_config (WITH_CRYPTO_SERVICE readable : bool) (filename : list Z) : Cfg (option app_config) :=
  if negb readable then mret None else
  sys ← load_system_config WITH_CRYPTO_SERVICE;
  match sys with None => mret None | Some sys =>
  sup ← load_supervisor_config;
  match sup with None => mret None | Some sup =>
  nat ← load_nat_config;
  radius ← load_radius_conf;
  ap ← load_ap_conf;
  match ap with None => mret None | Some ap =>
  dns ← load_dns_conf;
  match dns with None => mret None | Some dns =>
  mdns ← load_mdns_conf;
  match mdns with None => mret None | Some mdns =>
  dhcp ← load_dhcp_conf;
  match dhcp with None => mret None | Some dhcp =>
  ifs ← load_interface_list;
  match ifs with None => mret None | Some ifs =>
  capture ← load_capture_config;
  firewall ← load_firewall_config;
  mret (Some {| config_ini_path := clip MAX_OS_PATH_LEN filename; system_config := sys; supervisor_config := sup; nat_config := nat;
                rconfig := radius; hconfig := ap; server_array := dns; cfg_mdns_config := mdns; dhcp_config := dhcp;
                interfaces := ifs; capture_config := capture; firewall_bin_path := firewall |})
  end end end end end end end.
End config.

(** ** Reading back *)

(** A line of the section [interfaces]. *)
Definition print_ifinfo (el : config_ifinfo_t) : list Z :=
  fmt_d (ci_vlanid el) ++ 44 :: ci_ip_addr el ++ 44 :: ci_brd_addr el ++ 44 :: ci_subnet_mask el.
Definition address_text (s : list Z) : Prop := (44 ∉ s) /\ zlen s < OS_INET_ADDRSTRLEN.
Record ifinfo_text (el : config_ifinfo_t) : Prop := {
  it_vlanid : 0 <= ci_vlanid el < 2 ^ 31;
  it_names : ci_ifname el = [] /\ ci_brname el = [];
  it_ip : address_text (ci_ip_addr el);
  it_brd : address_text (ci_brd_addr el);
  it_mask : address_text (ci_subnet_mask el)
}.

Lemma comma_free_number n : 0 <= n < 2 ^ 31 -> 44 ∉ fmt_d n.
Proof.
  intros Hn Hin. unfold fmt_d in Hin. rewrite (proj2 (Z.ltb_ge _ _)) in Hin by lia.
  pose proof (fmt_u_digits n ltac:(lia) ltac:(lia)) as Hd. eapply Forall_forall in Hd; [|done]. cbn in Hd. done.
Qed.

Lemma read_vlanid n : 0 <= n < 2 ^ 31 -> s32 (strtol10 (fmt_d n)).1.1 = n.
Proof.
  intros Hn. assert (s32 n = n) as Hs by (unfold s32; rewrite Z.mod_small by lia; lia).
  destruct (Z.eqb_spec n 0) as [->|Hz]; [done|]. by rewrite strtol10_fmt by lia.
Qed.

Lemma clip_text s : zlen s < OS_INET_ADDRSTRLEN -> clip OS_INET_ADDRSTRLEN s = s.
Proof. intros Hs. by apply clip_short. Qed.

Lemma split_on_nonempty sep l : forall cur, split_on sep cur l <> [].
Proof. induction l as [|c l IH]; intros cur; cbn [split_on]; [done|]. destruct (c =? sep); [done|apply IH]. Qed.

Section reading.
Context {INI : MinIni}.

Lemma ifinfo_run el e : ifinfo_text el -> mallocs e = [] -> get_config_ifinfo (Some (print_ifinfo el)) e = Done (Some el, e).
Proof.
  intros [Hv [Hn1 Hn2] [H1 L1] [H2 L2] [H3 L3]] He. unfold get_config_ifinfo. erewrite bind_run by (by apply split_array_run).
  unfold print_ifinfo. rewrite !split_on_cut by (done || by apply comma_free_number). rewrite split_on_last by done.
  cbn [fst snd default app]. rewrite !zlen_cons, zlen_nil. rewrite (proj2 (Z.ltb_ge _ _)) by lia. unfold id.
  rewrite read_vlanid, !clip_text by done. destruct el. cbn in *. by subst.
Qed.

(** The keys of a section from a number on. *)
Definition keys_from (section : string) (i : nat) : list (list Z) :=
  (fun j => ini_getkey (cstr section) j) <$> seq i (ini_nkeys (cstr section) - i).
Definition is_if (key : list Z) : Prop := take 2 key = cstr "if".
#[export] Instance is_if_dec key : Decision (is_if key).
Proof. unfold is_if. apply _. Defined.

Lemma keys_from_step section i : (i < ini_nkeys (cstr section))%nat ->
  keys_from section i = ini_getkey (cstr section) i :: keys_from section (S i).
Proof.
  intros Hi. unfold keys_from. replace (ini_nkeys (cstr section) - i)%nat with (S (ini_nkeys (cstr section) - S i)) by lia. done.
Qed.
Lemma keys_from_end section i : (ini_nkeys (cstr section) <= i)%nat -> keys_from section i = [].
Proof. intros Hi. unfold keys_from. by replace (ini_nkeys (cstr section) - i)%nat with 0%nat by lia. Qed.

(** The lines of the keys that name interfaces. *)
Lemma ifinfo_loop_run fuel : forall i arr els e, mallocs e = [] -> (ini_nkeys (cstr "interfaces") <= i + fuel)%nat ->
  (fun key => ini_gets (cstr "interfaces") key []) <$> filter is_if (keys_from "interfaces" i) = print_ifinfo <$> els ->
  Forall ifinfo_text els -> ifinfo_loop fuel i arr e = Done (Some (arr ++ els), e).
Proof.
  induction fuel as [|fuel IH]; intros i arr els e He Hf Hl Hels; destruct e as [ms r]; cbn in He; subst ms; cbn [ifinfo_loop];
    erewrite bind_run by done; cbv beta iota; destruct (decide (ini_nkeys (cstr "interfaces") <= i)%nat) as [Hi|Hi].
  1, 3: rewrite (proj2 (ini_getkey_end _ _) Hi), bool_decide_true by done; rewrite keys_from_end in Hl by done;
    symmetry in Hl; apply fmap_nil_inv in Hl as ->; by rewrite app_nil_r.
  - lia.
  - rewrite bool_decide_false by (intros E; by apply ini_getkey_end in E). erewrite bind_run by done. cbv beta iota.
    rewrite keys_from_step, filter_cons in Hl by lia. unfold is_if in Hl at 1. case_decide as Hk.
    + rewrite bool_decide_true by done. destruct els as [|el els]; [done|]. rewrite !fmap_cons in Hl. injection Hl as Hv Hl.
      apply list.Forall_cons in Hels as [Hel Hels]. erewrite bind_run by (rewrite Hv; by apply ifinfo_run). cbv beta iota.
      rewrite (IH (S i) (arr ++ [el]) els) by (done || lia). by rewrite <- app_assoc.
    + rewrite bool_decide_false by done. apply IH; [done|lia|done|done].
Qed.

(** C27. The list of interfaces is that of the file: the keys that begin with [if],
    in their order, with the VLAN and the addresses that are written behind
    them, and the two prefixes. *)
Theorem interfaces_read els e :
  mallocs e = [] -> ini_gets (cstr "interfaces") (cstr "bridgePrefix") [] <> [] ->
  ini_gets (cstr "interfaces") (cstr "interfacePrefix") [] <> [] ->
  (fun key => ini_gets (cstr "interfaces") key []) <$> filter is_if (keys_from "interfaces" 0) = print_ifinfo <$> els ->
  Forall ifinfo_text els ->
  load_interface_list e = Done (Some {| bridge_prefix := clip IF_NAMESIZE (ini_gets (cstr "interfaces") (cstr "bridgePrefix") []);
    interface_prefix := clip IF_NAMESIZE (ini_gets (cstr "interfaces") (cstr "interfacePrefix") []);
    cfg_config_ifinfo_array := els |}, e).
Proof.
  intros He Hb Hp Hl Hels. destruct e as [ms r]. cbn in He. subst ms.
  assert (forall key, ini_gets (cstr "interfaces") (cstr key) [] <> [] -> required_value IF_NAMESIZE "interfaces" key (Env [] r) =
    Done (Some (clip IF_NAMESIZE (ini_gets (cstr "interfaces") (cstr key) [])), Env [] r)) as Hreq.
  { intros key Hk. unfold required_value. erewrite bind_run by reflexivity. cbv beta iota.
    change (ini_gets (cstr "interfaces") (cstr key) (cstr "")) with (ini_gets (cstr "interfaces") (cstr key) []).
    by destruct (ini_gets (cstr "interfaces") (cstr key) []). }
  unfold load_interface_list. erewrite bind_run by (by apply Hreq). cbv beta iota. erewrite bind_run by (by apply Hreq). cbv beta iota.
  erewrite bind_run by (apply (ifinfo_loop_run _ 0 [] els); [done|lia|done|done]). done.
Qed.

(** A line of one to three parts is not refused: the parts that are missing are
    read through a NULL pointer. *)
Theorem short_interface_line_faults line e : mallocs e = [] -> zlen (split_on 44 [] line) < 4 -> get_config_ifinfo (Some line) e = Fault NullDeref.
Proof.
  intros He Hl. unfold get_config_ifinfo. erewrite bind_run by (by apply split_array_run). cbn [fst snd default]. unfold id.
  rewrite (proj2 (Z.ltb_ge _ _)) by apply zlen_nonneg.
  pose proof (split_on_nonempty 44 line []) as Hn.
  destruct (split_on 44 [] line) as [|a [|b [|c [|d l]]]]; try done. rewrite !zlen_cons in Hl. pose proof (zlen_nonneg l). lia.
Qed.

(** A filter that does not fit its array is copied all the same. *)
Theorem long_mdns_filter_overruns e : mallocs e = [] -> MAX_FILTER_SIZE <= zlen (ini_gets (cstr "dns") (cstr "mdnsFilter") []) ->
  load_mdns_conf e = Fault OutOfBounds.
Proof.
  intros He Hl. destruct e as [ms r]. cbn in He. subst ms. unfold load_mdns_conf. cbv zeta. erewrite bind_run by reflexivity. cbv beta iota.
  change (ini_gets (cstr "dns") (cstr "mdnsFilter") (cstr "")) with (ini_gets (cstr "dns") (cstr "mdnsFilter") []).
  destruct (ini_gets (cstr "dns") (cstr "mdnsFilter") []) as [|c v]; [done|].
  set (w := c :: v) in *. assert (edge_os_strlcpy (zeros (Z.to_nat MAX_FILTER_SIZE)) w MAX_OS_PATH_LEN = Fault OutOfBounds) as E; [|by cbn; rewrite E].
  destruct (Z.leb_spec MAX_OS_PATH_LEN (zlen w)) as [Hb|Hs]; [apply strlcpy_overruns; by cbn|].
  unfold edge_os_strlcpy. rewrite (proj2 (Z.leb_le _ _)) by lia. unfold wr, zeros.
  rewrite (proj2 (Z.leb_gt (0 + _) _)); [done|]. rewrite zlen_app, zlen_replicate. change (zlen [0]) with 1. unfold MAX_FILTER_SIZE in *. lia.
Qed.

(** ** Whatever the file says *)

(** The result of a program, when it has one. *)
#[local] Abbreviation gives m Q := (yields (S := env) (fun _ => True) m Q).
Lemma gives_any {A} (m : prog env A) : gives m (fun _ => True).
Proof. by intros s a s' _ _. Qed.

Lemma gives_copy n s k d : 0 < n -> gives (copy_value n s k d) (fun v => zlen v < n).
Proof.
  intros Hn. unfold copy_value. eapply yields_bind; [apply gives_any|]. intros [v|] _; [|apply yields_fail].
  apply yields_ret. unfold clip, zlen. rewrite length_take. lia.
Qed.
Lemma gives_required n s k : 0 < n -> gives (required_value n s k) (fun o => match o with Some v => zlen v < n | None => True end).
Proof.
  intros Hn. unfold required_value. eapply yields_bind; [apply gives_any|]. intros [[|c v]|] _; [by apply yields_ret| |by apply yields_ret].
  apply yields_ret. unfold clip, zlen. rewrite length_take. lia.
Qed.

(** The values of keys, one after the other. *)
#[local] Ltac values := repeat (eapply yields_bind; [(apply gives_required || apply gives_copy); done|];
  let x := fresh "x" in let Hx := fresh "Hx" in intros x Hx;
  try (match type of x with option _ => destruct x as [x|]; [|by apply yields_ret] end)).

Record ap_fits (c : apconf) : Prop := {
  af_paths : zlen (ap_file_path c) < MAX_OS_PATH_LEN /\ zlen (ap_bin_path c) < MAX_OS_PATH_LEN /\ zlen (ap_log_path c) < MAX_OS_PATH_LEN /\
    zlen (ctrl_interface c) < MAX_OS_PATH_LEN /\ zlen (vlan_file c) < MAX_OS_PATH_LEN;
  af_names : zlen (ap_ssid c) < AP_NAME_LEN /\ zlen (ap_wpa_passphrase c) < AP_SECRET_LEN /\ zlen (ap_interface c) < IF_NAMESIZE /\
    zlen (ap_device c) < IF_NAMESIZE /\ zlen (vlan_tagged_interface c) < IF_NAMESIZE;
  af_options : zlen (ap_driver c) < AP_DRIVE_LEN /\ zlen (hw_mode c) < AP_HWMODE_LEN /\ zlen (wpa_key_mgmt c) < AP_WPA_KEY_MGMT_LEN /\
    zlen (rsn_pairwise c) < AP_RSN_PAIRWISE_LEN
}.

Lemma gives_ap : gives load_ap_conf (fun o => match o with Some c => ap_fits c | None => True end).
Proof.
  unfold load_ap_conf.
  values. apply yields_ret. split; cbn; tauto.
Qed.

Record radius_fits (c : radius_conf) : Prop := {
  rf_ips : zlen (radius_client_ip c) < OS_INET_ADDRSTRLEN /\ zlen (radius_server_ip c) < OS_INET_ADDRSTRLEN;
  rf_secret : zlen (radius_secret c) < RADIUS_SECRET_LEN
}.
Lemma gives_radius : gives load_radius_conf radius_fits.
Proof. unfold load_radius_conf. values. apply yields_ret. by split. Qed.

Definition ifinfo_fits (el : config_ifinfo_t) : Prop :=
  - 2 ^ 31 <= ci_vlanid el < 2 ^ 31 /\ zlen (ci_ip_addr el) < OS_INET_ADDRSTRLEN /\ zlen (ci_brd_addr el) < OS_INET_ADDRSTRLEN /\
  zlen (ci_subnet_mask el) < OS_INET_ADDRSTRLEN.
Lemma s32_range z : - 2 ^ 31 <= s32 z < 2 ^ 31.
Proof. unfold s32. pose proof (Z.mod_pos_bound (z + 2 ^ 31) (2 ^ 32)). lia. Qed.
Lemma zlen_clip_lt n s : 0 < n -> zlen (clip n s) < n.
Proof. intros Hn. unfold clip, zlen. rewrite length_take. lia. Qed.

Lemma gives_ifinfo v : gives (get_config_ifinfo v) (fun o => match o with Some el => ifinfo_fits el | None => True end).
Proof.
  unfold get_config_ifinfo. eapply yields_bind; [apply gives_any|]. intros x _. destruct (x.1 <? 0); [by apply yields_ret|].
  destruct (default [] x.2) as [|a [|b [|c [|d l]]]]; try (by apply yields_ret); try apply yields_fail.
  apply yields_ret. split; [apply s32_range|]. split_and!; by apply zlen_clip_lt.
Qed.
Lemma gives_ifinfo_loop fuel : forall i arr, Forall ifinfo_fits arr ->
  gives (ifinfo_loop fuel i arr) (fun o => match o with Some l => Forall ifinfo_fits l | None => True end).
Proof.
  induction fuel as [|fuel IH]; intros i arr Harr; cbn [ifinfo_loop]; (eapply yields_bind; [apply gives_any|]); intros ok _;
    (case_bool_decide; [by apply yields_ret|]); [apply yields_fail|].
  eapply yields_bind; [apply gives_any|]. intros ok' _. case_bool_decide; [|by apply IH].
  eapply yields_bind; [apply gives_ifinfo|]. intros [el|] Hel; [|by apply yields_ret]. apply IH. apply Forall_app.
  split; [done|]. constructor; [exact Hel|constructor].
Qed.
Record interfaces_fit (c : interfaces_conf) : Prop := {
  nf_prefixes : zlen (bridge_prefix c) < IF_NAMESIZE /\ zlen (interface_prefix c) < IF_NAMESIZE;
  nf_infos : Forall ifinfo_fits (cfg_config_ifinfo_array c)
}.
Lemma gives_interfaces : gives load_interface_list (fun o => match o with Some c => interfaces_fit c | None => True end).
Proof.
  unfold load_interface_list. values. eapply yields_bind; [by apply gives_ifinfo_loop|]. intros [arr|] Harr; apply yields_ret; [|done].
  split; cbn; tauto.
Qed.

Record dhcp_fits (c : dhcp_conf) : Prop := {
  hf_paths : zlen (dhcp_bin_path c) < MAX_OS_PATH_LEN /\ zlen (dhcp_conf_path c) < MAX_OS_PATH_LEN /\
    zlen (dhcp_script_path c) < MAX_OS_PATH_LEN /\ zlen (dhcp_leasefile_path c) < MAX_OS_PATH_LEN
}.
Lemma gives_dhcp : gives load_dhcp_conf (fun o => match o with Some c => dhcp_fits c | None => True end).
Proof.
  unfold load_dhcp_conf. values. eapply yields_bind; [apply gives_any|]. intros [arr|] _; apply yields_ret; [|done]. split; cbn; tauto.
Qed.

Lemma copied_fits n w sz : 0 <= n -> nul_free w -> n <= sz ->
  forall x, edge_os_strlcpy (zeros (Z.to_nat n)) w sz = Done x -> zlen (until_nul x.2) < n.
Proof.
  intros Hn Hw Hsz [m d]. cbn [snd]. unfold edge_os_strlcpy. destruct (Z.leb_spec (zlen w + 1) sz) as [Hl|Hl].
  - destruct (wr _ 0 _) as [d'|] eqn:Ew; [|done]. intros [= _ <-]. apply wr_done in Ew as (_ & Hb & ->). change (Z.to_nat 0) with 0%nat.
    rewrite take_0. cbn [app]. rewrite <- app_assoc. cbn [app]. rewrite until_nul_app by done.
    unfold zeros in Hb. rewrite zlen_app, zlen_replicate in Hb. change (zlen [0]) with 1 in Hb. lia.
  - destruct (wr _ 0 _) as [d'|] eqn:Ew; [|done]. apply wr_done in Ew as (_ & Hb & ->).
    destruct (wr _ (sz - 1) _) as [d'|] eqn:Ew; [|done]. intros [= _ <-]. apply wr_done in Ew as (Hz & Hc & ->).
    unfold zeros in Hb. rewrite zlen_replicate in Hb. unfold zlen in *. rewrite length_take in Hb.
    assert (sz = n) as -> by lia. match goal with |- context [[0] ++ ?r] => change ([0] ++ r) with (0 :: r) end.
    rewrite until_nul_app; [rewrite length_take; lia|]. apply Forall_take. change (Z.to_nat 0) with 0%nat. rewrite take_0. cbn [app].
    rewrite drop_ge, app_nil_r by (unfold zeros; rewrite length_replicate, length_take; lia). by apply Forall_take.
Qed.
Lemma gives_mdns : gives load_mdns_conf (fun o => match o with Some c => zlen (mc_filter c) < MAX_FILTER_SIZE | None => True end).
Proof.
  unfold load_mdns_conf. cbv zeta.
  eapply yields_bind with (Q := fun o => match o with Some v => nul_free v | None => True end).
  { unfold ini_value. eapply yields_bind; [apply gives_any|]. intros [] _; apply yields_ret; [apply ini_gets_str|done]. }
  intros [[|c v]|] Hv; [by apply yields_ret| |by apply yields_ret].
  eapply yields_bind with (Q := fun x => zlen (until_nul x.2) < MAX_FILTER_SIZE); [|intros x Hx; by apply yields_ret].
  apply yields_lift. by apply copied_fits.
Qed.

Record capture_fits (c : capture_conf) : Prop := {
  pf_path : zlen (capture_db_path c) < MAX_OS_PATH_LEN;
  pf_filter : zlen (cfg_filter c) < MAX_FILTER_SIZE;
  pf_params : zlen (middleware_params c) < MAX_MIDDLEWARE_PARAMS_SIZE;
  pf_timeout : 0 <= buffer_timeout c < 2 ^ 16
}.
Lemma gives_capture : gives load_capture_config capture_fits.
Proof. unfold load_capture_config. values. apply yields_ret. split; cbn; [done|done|by apply zlen_clip_lt|apply wrap_bound; lia]. Qed.

Record config_fits (c : app_config) : Prop := {
  cf_ap : ap_fits (hconfig c);
  cf_radius : radius_fits (rconfig c);
  cf_dhcp : dhcp_fits (dhcp_config c);
  cf_mdns : zlen (mc_filter (cfg_mdns_config c)) < MAX_FILTER_SIZE;
  cf_interfaces : interfaces_fit (interfaces c);
  cf_capture : capture_fits (capture_config c);
  cf_nat : zlen (cfg_nat_bridge (nat_config c)) < IF_NAMESIZE /\ zlen (cfg_nat_interface (nat_config c)) < IF_NAMESIZE;
  cf_port : 0 <= supervisor_control_port (supervisor_config c) < 2 ^ 32;
  cf_vlan : - 2 ^ 31 <= cfg_default_open_vlanid (system_config c) < 2 ^ 31
}.
Lemma gives_system crypto : gives (load_system_config crypto)
  (fun o => match o with Some c => - 2 ^ 31 <= cfg_default_open_vlanid c < 2 ^ 31 | None => True end).
Proof.
  unfold load_system_config. eapply yields_bind; [apply gives_any|]. intros db _. eapply yields_bind; [apply gives_any|]. intros [crypt|] _; [|by apply yields_ret].
  eapply yields_bind; [apply gives_any|]. intros [pid|] _; [|by apply yields_ret]. eapply yields_bind; [apply gives_any|]. intros v _.
  eapply yields_bind; [apply gives_any|]. intros [paths|] _; apply yields_ret; [|done]. apply s32_range.
Qed.
Lemma gives_supervisor : gives load_supervisor_config
  (fun o => match o with Some c => 0 <= supervisor_control_port c < 2 ^ 32 | None => True end).
Proof.
  unfold load_supervisor_config. eapply yields_bind; [apply gives_any|]. intros [path|] _; apply yields_ret; [|done]. cbn. apply wrap_bound. lia.
Qed.
Lemma gives_nat : gives load_nat_config (fun c => zlen (cfg_nat_bridge c) < IF_NAMESIZE /\ zlen (cfg_nat_interface c) < IF_NAMESIZE).
Proof. unfold load_nat_config. values. by apply yields_ret. Qed.

Lemma gives_config crypto readable filename : gives (load_app_config crypto readable filename)
  (fun o => match o with Some c => config_fits c | None => True end).
Proof.
  unfold load_app_config. destruct readable; cbn [negb]; [|by apply yields_ret].
  eapply yields_bind; [apply gives_system|]. intros [sys|] Hsys; [|by apply yields_ret].
  eapply yields_bind; [apply gives_supervisor|]. intros [sup|] Hsup; [|by apply yields_ret].
  eapply yields_bind; [apply gives_nat|]. intros nat Hnat. eapply yields_bind; [apply gives_radius|]. intros rad Hrad.
  eapply yields_bind; [apply gives_ap|]. intros [ap|] Hap; [|by apply yields_ret].
  eapply yields_bind; [apply gives_any|]. intros [dns|] _; [|by apply yields_ret].
  eapply yields_bind; [apply gives_mdns|]. intros [mdns|] Hmdns; [|by apply yields_ret].
  eapply yields_bind; [apply gives_dhcp|]. intros [dhcp|] Hdhcp; [|by apply yields_ret].
  eapply yields_bind; [apply gives_interfaces|]. intros [ifs|] Hifs; [|by apply yields_ret].
  eapply yields_bind; [apply gives_capture|]. intros cap Hcap. eapply yields_bind; [apply gives_any|]. intros fw _.
  apply yields_ret. by split.
Qed.
End reading.

(** ** A file that can be read *)

(** With memory a program ends, and leaves the environment as it was. *)
Definition ends {A} (m : prog env A) : Prop := forall e, mallocs e = [] -> exists a, m e = Done (a, e).
Lemma ends_ret {A} (a : A) : ends (mret a).
Proof. intros e _. by exists a. Qed.
Lemma ends_bind {A B} (m : prog env A) (k : A -> prog env B) : ends m -> (forall a, ends (k a)) -> ends (mbind k m).
Proof. intros Hm Hk e He. destruct (Hm e He) as [a Ha]. destruct (Hk a e He) as [b Hb]. exists b. by erewrite bind_run. Qed.
Create HintDb ends.
#[export] Hint Resolve ends_ret ends_bind : ends.

Section loading.
Context {INI : MinIni}.

(** What the lines of the file must be for the code not to go wrong. *)
Record sound_file : Prop := {
  sf_lines i : is_if (ini_getkey (cstr "interfaces") i) ->
    4 <= zlen (split_on 44 [] (ini_gets (cstr "interfaces") (ini_getkey (cstr "interfaces") i) []));
  sf_filter : zlen (ini_gets (cstr "dns") (cstr "mdnsFilter") []) < MAX_FILTER_SIZE
}.

Lemma value_run s k d e : mallocs e = [] -> ini_value s k d e = Done (Some (ini_gets (cstr s) (cstr k) (cstr d)), e).
Proof. intros He. destruct e as [ms r]. cbn in He. by subst ms. Qed.
Lemma ends_copy n s k d : ends (copy_value n s k d).
Proof. intros e He. eexists. unfold copy_value. by erewrite bind_run by (by apply value_run). Qed.
Lemma ends_required n s k : ends (required_value n s k).
Proof.
  intros e He. unfold required_value. erewrite bind_run by (by apply value_run). cbv beta iota.
  destruct (ini_gets _ _ _); by eexists.
Qed.
Lemma ends_split_value sep {A} (k : option (list (list Z)) -> prog env A) s key d : (forall o, ends (k o)) ->
  ends (v ← ini_value s key d; x ← split_value v sep; k x).
Proof.
  intros Hk e He. erewrite bind_run by (by apply value_run).
  assert (forall v, exists o, split_value (Some v) sep e = Done (o, e)) as Hs.
  { intros v. unfold split_value. erewrite bind_run by (by apply split_array_run). destruct (_ <? 0); by eexists. }
  edestruct Hs as [o Ho]. erewrite bind_run by exact Ho. by apply Hk.
Qed.
#[local] Hint Resolve ends_copy ends_required : ends.
#[local] Ltac ends_tac := repeat (first [apply ends_ret | apply ends_split_value; intros ?
  | apply ends_bind; [solve [eauto with ends]|intros ?] | match goal with |- ends (match ?o with _ => _ end) => destruct o end]).

Lemma ifinfo_ends fuel : sound_file -> forall i arr, (ini_nkeys (cstr "interfaces") <= i + fuel)%nat -> ends (ifinfo_loop fuel i arr).
Proof.
  intros [Hl _]. induction fuel as [|fuel IH]; intros i arr Hi e He; destruct e as [ms r]; cbn in He; subst ms; cbn [ifinfo_loop];
    erewrite bind_run by done; cbv beta iota; case_bool_decide as Hk; [by eexists| |by eexists|].
  - destruct Hk. apply ini_getkey_end. lia.
  - erewrite bind_run by done. cbv beta iota. specialize (Hl i). case_bool_decide as Hif; [|apply IH; [lia|done]].
    specialize (Hl Hif).
    assert (exists o, get_config_ifinfo (Some (ini_gets (cstr "interfaces") (ini_getkey (cstr "interfaces") i) [])) (Env [] r) = Done (o, Env [] r))
      as [o Ho].
    { unfold get_config_ifinfo. erewrite bind_run by (by apply split_array_run). cbn [fst snd default]. unfold id.
      destruct (_ <? 0); [by eexists|]. destruct (split_on 44 [] _) as [|a [|b [|c [|d l]]]]; try done; by eexists. }
    erewrite bind_run by exact Ho. destruct o as [el|]; [apply IH; [lia|done]|by eexists].
Qed.
Lemma dhcpinfo_ends fuel : forall i arr, (ini_nkeys (cstr "dhcp") <= i + fuel)%nat -> ends (dhcpinfo_loop fuel i arr).
Proof.
  induction fuel as [|fuel IH]; intros i arr Hi e He; destruct e as [ms r]; cbn in He; subst ms; cbn [dhcpinfo_loop];
    erewrite bind_run by done; cbv beta iota; case_bool_decide as Hk; [by eexists| |by eexists|].
  - destruct Hk. apply ini_getkey_end. lia.
  - erewrite bind_run by done. cbv beta iota. case_bool_decide; [|apply IH; [lia|done]]. cbn [negb].
    destruct (get_config_dhcpinfo _); [apply IH; [lia|done]|by eexists].
Qed.
Lemma mdns_ends : sound_file -> ends load_mdns_conf.
Proof.
  intros [_ Hf] e He. unfold load_mdns_conf. cbv zeta. erewrite bind_run by (by apply value_run). cbv beta iota.
  change (ini_gets (cstr "dns") (cstr "mdnsFilter") (cstr "")) with (ini_gets (cstr "dns") (cstr "mdnsFilter") []).
  destruct (ini_gets (cstr "dns") (cstr "mdnsFilter") []) as [|c v]; [by eexists|]. set (w := c :: v) in *.
  assert (exists x, edge_os_strlcpy (zeros (Z.to_nat MAX_FILTER_SIZE)) w MAX_OS_PATH_LEN = Done x) as [x Hx].
  { unfold edge_os_strlcpy. rewrite (proj2 (Z.leb_le _ _)) by (unfold MAX_FILTER_SIZE, MAX_OS_PATH_LEN in *; lia). unfold wr.
    rewrite (proj2 (Z.leb_le (0 + _) _)); [by eexists|]. unfold zeros. rewrite zlen_app, zlen_replicate. change (zlen [0]) with 1.
    unfold MAX_FILTER_SIZE in *. lia. }
  eexists. erewrite bind_run by (rewrite Hx; apply lift_run). done.
Qed.

Lemma interface_list_ends : sound_file -> ends load_interface_list.
Proof.
  intros Hf. unfold load_interface_list. ends_tac. apply ends_bind; [apply ifinfo_ends; [done|lia]|]. intros o. apply ends_ret.
Qed.
Lemma dhcp_ends : ends load_dhcp_conf.
Proof. unfold load_dhcp_conf. ends_tac. apply ends_bind; [apply dhcpinfo_ends; lia|]. intros o. apply ends_ret. Qed.
Lemma system_ends crypto : ends (load_system_config crypto).
Proof. unfold load_system_config. destruct crypto; ends_tac. Qed.
Lemma supervisor_conf_ends : ends load_supervisor_config.
Proof. unfold load_supervisor_config. ends_tac. Qed.
Lemma nat_ends : ends load_nat_config.
Proof. unfold load_nat_config. ends_tac. Qed.
Lemma radius_conf_ends : ends load_radius_conf.
Proof. unfold load_radius_conf. ends_tac. Qed.
Lemma ap_conf_ends : ends load_ap_conf.
Proof. unfold load_ap_conf. ends_tac. Qed.
Lemma dns_ends : ends load_dns_conf.
Proof.
  intros e He. unfold load_dns_conf. erewrite bind_run by (by apply value_run). unfold split_value.
  erewrite bind_run by (by apply split_array_run). destruct (_ <? 0); by eexists.
Qed.
Lemma capture_ends : ends load_capture_config.
Proof. unfold load_capture_config. ends_tac. Qed.
#[local] Hint Resolve interface_list_ends dhcp_ends system_ends supervisor_conf_ends nat_ends radius_conf_ends ap_conf_ends dns_ends
  capture_ends mdns_ends : ends.

(** Loading a configuration ends on every file whose interface lines have their
    four parts and whose mDNS filter fits its array, whatever else is written
    there.  When it succeeds every string fits its array and every number its
    type. *)
Theorem config_loads crypto readable filename e : mallocs e = [] -> sound_file ->
  exists o, load_app_config crypto readable filename e = Done (o, e) /\ match o with Some c => config_fits c | None => True end.
Proof.
  intros He Hf. assert (ends (load_app_config crypto readable filename)) as Hends.
  { unfold load_app_config, load_firewall_config. destruct readable; cbn [negb]; ends_tac. }
  destruct (Hends e He) as [o Ho]. exists o. split; [done|]. by apply (gives_config crypto readable filename e o e).
Qed.
End loading.

(** ** A concrete file *)

(** Sections with their keys and values. *)
Definition ini_file := list (list Z * list (list Z * list Z)).
Definition section_of (f : ini_file) (s : list Z) : list (list Z * list Z) :=
  filter (fun x => x.1 <> []) (default [] (x ← list_find (fun x => x.1 = s) f; Some x.2.2)).
Definition value_of (f : ini_file) (s k : list Z) : option (list Z) :=
  x ← list_find (fun x => x.1 = k) (section_of f s); Some x.2.2.

Lemma until_nul_free l : nul_free (until_nul l).
Proof. induction l as [|c l IH]; cbn; [by constructor|]. destruct (Z.eqb_spec c 0); [by constructor|]. by constructor. Qed.

#[export, refine] Instance file_ini (size : nat) (f : ini_file) : MinIni := {
  INI_BUFFERSIZE := Z.of_nat (S size);
  ini_gets s k d := take size (until_nul (default d (value_of f s k)));
  ini_getl s k d := match value_of f s k with Some v => (strtol10 v).1.1 | None => d end;
  ini_getbool s k d :=
    match value_of f s k with
    | Some (c :: _) => if bool_decide (c ∈ cstr "Yy1Tt") then true else if bool_decide (c ∈ cstr "Nn0Ff") then false else d
    | _ => d
    end;
  ini_nkeys s := length (section_of f s);
  ini_getkey s i := default [] (fst <$> section_of f s !! i)
}.
Proof.
  - intros s k d. unfold zlen. rewrite length_take. lia.
  - intros s k d. apply Forall_take, until_nul_free.
  - intros s i. destruct (section_of f s !! i) as [[k v]|] eqn:E; cbn.
    + apply lookup_lt_Some in E as Hi. split; [|lia]. intros ->. apply list_elem_of_lookup_2 in E. unfold section_of in E.
      by apply list_elem_of_filter in E as [? _].
    + apply lookup_ge_None in E. done.
Defined.

Definition sample_infos : list config_ifinfo_t :=
  (fun x => {| ci_vlanid := x.1; ci_ifname := []; ci_brname := []; ci_ip_addr := cstr x.2.1; ci_brd_addr := cstr x.2.2;
               ci_subnet_mask := cstr "255.255.255.0" |})
  <$> [(0, ("10.0.0.1", "10.0.0.255")); (1, ("10.0.1.1", "10.0.1.255"))]%string.
Definition sample_file (filter : list Z) : ini_file :=
  [(cstr "system", [(cstr "pidFilePath", cstr "/run/edgesec.pid"); (cstr "defaultOpenVlanId", cstr "1")]);
   (cstr "supervisor", [(cstr "supervisorControlPath", cstr "/run/edgesec-control")]);
   (cstr "interfaces", [(cstr "bridgePrefix", cstr "br"); (cstr "interfacePrefix", cstr "wifi_if");
     (cstr "if1", cstr "0,10.0.0.1,10.0.0.255,255.255.255.0"); (cstr "if2", cstr "1,10.0.1.1,10.0.1.255,255.255.255.0")]);
   (cstr "ap", [(cstr "apFilePath", cstr "/tmp/hostapd.conf"); (cstr "apBinPath", cstr "./hostapd"); (cstr "ssid", cstr "IOTH");
     (cstr "vlanFile", cstr "/tmp/hostapd.vlan")]);
   (cstr "dns", [(cstr "servers", cstr "8.8.4.4,8.8.8.8"); (cstr "mdnsFilter", filter)]);
   (cstr "dhcp", [(cstr "dhcpConfigPath", cstr "/tmp/dnsmasq.conf"); (cstr "dhcpBinPath", cstr "/usr/sbin/dnsmasq");
     (cstr "dhcpScriptPath", cstr "/tmp/dnsmasq_exec.sh"); (cstr "dhcpLeasefilePath", cstr "/tmp/dnsmasq.leases");
     (cstr "dhcpRange1", cstr "0,10.0.0.2,10.0.0.254,255.255.255.0,24h")])].
#[local] Abbreviation sample := (file_ini 511 (sample_file (cstr "src net 10.0 and dst net 10.0"))).

#[local] Instance address_text_dec s : Decision (address_text s).
Proof. unfold address_text. apply _. Defined.
Lemma sample_infos_text : Forall ifinfo_text sample_infos.
Proof.
  constructor; [|constructor; [|constructor]]; split; try done; apply (bool_decide_unpack _); vm_compute; exact I.
Qed.
Lemma sample_sound : sound_file (INI := sample).
Proof.
  split; [|vm_compute; reflexivity]. intros i. destruct (decide (i < 4)%nat) as [Hi|Hi].
  - do 4 (destruct i as [|i]; [vm_compute; congruence|]). lia.
  - rewrite (proj2 (ini_getkey_end (cstr "interfaces") i)); [done|]. change (4 <= i)%nat. lia.
Qed.

Lemma interfaces_read_witness :
  load_interface_list (INI := sample) (Env [] []) =
  Done (Some {| bridge_prefix := cstr "br"; interface_prefix := cstr "wifi_if"; cfg_config_ifinfo_array := sample_infos |}, Env [] []).
Proof.
  refine (interfaces_read (INI := sample) sample_infos (Env [] []) eq_refl _ _ _ _).
  - vm_compute. discriminate.
  - vm_compute. discriminate.
  - vm_compute. reflexivity.
  - exact sample_infos_text.
Defined.

(** A line without the mask. *)
Lemma short_interface_line_faults_witness :
  get_config_ifinfo (Some (cstr "0,10.0.0.1,10.0.0.255")) (Env [] []) = Fault NullDeref.
Proof. refine (short_interface_line_faults _ (Env [] []) eq_refl _). vm_compute. reflexivity. Defined.

(** minIni built for values of up to 5000 characters. *)
Lemma long_mdns_filter_overruns_witness :
  load_mdns_conf (INI := file_ini 5000 (sample_file (repeat 97 4100))) (Env [] []) = Fault OutOfBounds.
Proof. refine (long_mdns_filter_overruns (INI := file_ini 5000 _) (Env [] []) eq_refl _). vm_compute. congruence. Defined.

Lemma config_loads_witness :
  exists o, load_app_config (INI := sample) false true (cstr "config.ini") (Env [] []) = Done (o, Env [] []) /\
    match o with Some c => config_fits c | None => True end.
Proof. exact (config_loads (INI := sample) false true (cstr "config.ini") (Env [] []) eq_refl sample_sound). Defined.
(** It is the first case: the file is loaded. *)
Example sample_loads : exists c, load_app_config (INI := sample) false true (cstr "config.ini") (Env [] []) = Done (Some c, Env [] []) /\
  cfg_config_ifinfo_array (interfaces c) = sample_infos /\ server_array c = [cstr "8.8.4.4"; cstr "8.8.8.8"] /\
  length (config_dhcpinfo_array (dhcp_config c)) = 1%nat.
Proof. eexists. split; [vm_compute; reflexivity|]. split_and!; vm_compute; reflexivity. Qed.
