(* ===== verification/Iface.v ===== *)
(** The interfaces of the subnets: [src/utils/ipgen.c] and [src/utils/iface.c]
    in the build that runs the tool [ip], the look-up of the tools
    ([get_secure_path] and [get_commands_paths] of [src/utils/os.c]) and the
    loops of [src/runctl.c] that make the interfaces.

    Commands are run as in [Iptables]; what [ip] does with the links of the
    kernel is a class, with the effect of each command that is used.

    The theorems: when the subnets have been created the kernel has their
    bridges, each with its address and switched on, and nothing else has
    changed; the addresses of an interface are those the system lists for it;
    and without a listing the code follows a NULL pointer. *)
From stdpp Require Import strings numbers base list gmap.
From Stdlib Require Import ZArith Lia.
From S2P Require Import Prelude Os Paths Text Net Extern Mappers Iptables.

(** What [getifaddrs] lists: the name, and for an address its family and the
    text [getnameinfo] gives for it. *)
Inductive ifa_family := AF_INET | AF_INET6 | AF_OTHER.
#[export] Instance ifa_family_eq : EqDecision ifa_family.
Proof. solve_decision. Defined.
Record ifaddrs := { ifa_name : list Z; ifa_addr : option (ifa_family * option (list Z)) }.
Record netif_info_t := { nif_ifname : list Z; nif_family : ifa_family; nif_ip_addr : list Z; nif_ip_addr6 : list Z }.
Definition OS_INET6_ADDRSTRLEN : Z := 63.

(** The loop of [iface_get]; [None] is NULL. *)
Fixpoint iface_get_loop (l : list ifaddrs) (ifname : option (list Z)) (interfaces : list netif_info_t) : option (list netif_info_t) :=
  match l with
  | [] => Some interfaces
  | ifa :: l =>
      match ifa_addr ifa with
      | None | Some (AF_OTHER, _) => iface_get_loop l ifname interfaces
      | Some (family, name) =>
          match name with
          | None => None
          | Some ipaddr =>
              let nif := {| nif_ifname := ifa_name ifa; nif_family := family;
                            nif_ip_addr := if decide (family = AF_INET) then clip OS_INET_ADDRSTRLEN ipaddr else [];
                            nif_ip_addr6 := if decide (family = AF_INET) then [] else clip OS_INET6_ADDRSTRLEN ipaddr |} in
              match ifname with
              | None => iface_get_loop l ifname (interfaces ++ [nif])
              | Some name =>
                  if bool_decide (name = nif_ifname nif) then iface_get_loop l ifname (interfaces ++ [nif])
                  else iface_get_loop l ifname interfaces
              end
          end
      end
  end.
(** [listing] is the answer of [getifaddrs]. *)
Definition iface_get (listing : option (list ifaddrs)) (ifname : option (list Z)) : option (list netif_info_t) :=
  match listing with None => None | Some l => iface_get_loop l ifname [] end.
Definition iface_get_ip4 (listing : option (list ifaddrs)) (brname ifname : option (list Z)) : option (list (list Z)) :=
  match brname, ifname with
  | None, _ => None
  | _, None => None
  | Some _, Some _ =>
      match iface_get listing ifname with
      | None => None
      | Some if_list => Some (nif_ip_addr <$> filter (fun el => nif_family el = AF_INET) if_list)
      end
  end.

Section iface.
Context {SY : System}.
#[local] Abbreviation Ipc := (prog (sys * env)).

(** ** The tool [ip] ([ipgen.c]) *)

Record ipgenctx := { ipcmd_path : list Z }.
Definition ipgen_init_context (path : option (list Z)) : Ipc (option ipgenctx) :=
  match path with
  | None => mret None
  | Some path =>
      ok ← on_env malloc;
      mret (if (ok : bool) then Some {| ipcmd_path := clip MAX_OS_PATH_LEN path |} else None)
  end.

(** The command needs no context of its own. *)
Definition no_context : iptables_context := {| iptables_path := []; rule_list := []; exec_iptables := true |}.
Definition run_ip (path : list Z) (argv : list (list Z)) : Ipc Z :=
  x ← with_context no_context (run_argv_command path argv None);
  mret x.1.

Definition ipgen_new_interface (path ifname type : list Z) : Ipc Z :=
  run_ip path [cstr "link"; cstr "add"; cstr "name"; ifname; cstr "type"; type].
Definition longip (ip_addr subnet_mask : list Z) : list Z :=
  clip OS_INET_ADDRSTRLEN (ip_addr ++ 47 :: fmt_d (get_short_subnet subnet_mask)).
Definition ipgen_set_interface_ip (context : ipgenctx) (ifname ip_addr brd_addr subnet_mask : list Z) : Ipc Z :=
  run_ip (ipcmd_path context) [cstr "addr"; cstr "add"; longip ip_addr subnet_mask; cstr "brd"; brd_addr; cstr "dev"; ifname].
Definition ipgen_set_interface_state (path ifname : list Z) (state : bool) : Ipc Z :=
  run_ip path [cstr "link"; cstr "set"; ifname; if state then cstr "up" else cstr "down"].

Definition ipgen_create_interface (context : ipgenctx) (ifname type ip_addr brd_addr subnet_mask : list Z) : Ipc Z :=
  r ← ipgen_new_interface (ipcmd_path context) ifname type;
  if r <? 0 then mret (-1)
  else
    r ← ipgen_set_interface_ip context ifname ip_addr brd_addr subnet_mask;
    if r <? 0 then mret (-1)
    else
      r ← ipgen_set_interface_state (ipcmd_path context) ifname true;
      mret (if r <? 0 then -1 else 0).
Definition ipgen_reset_interface (context : ipgenctx) (ifname : list Z) : Ipc Z :=
  r ← ipgen_set_interface_state (ipcmd_path context) ifname false;
  if r <? 0 then mret (-1)
  else r ← ipgen_set_interface_state (ipcmd_path context) ifname true; mret (if r <? 0 then -1 else 0).

(** ** The interface of the services ([iface.c]) *)

Definition iface_init_context (params : option (list Z)) : Ipc (option ipgenctx) :=
  ok ← on_env malloc;
  if negb ok then mret None else ipgen_init_context params.
Definition iface_create (ctx : ipgenctx) (brname ifname type ip_addr brd_addr subnet_mask : list Z) : Ipc Z :=
  ipgen_create_interface ctx ifname type ip_addr brd_addr subnet_mask.
Definition iface_set_ip4 (ctx : ipgenctx) (brname ifname ip_addr brd_addr subnet_mask : list Z) : Ipc Z :=
  ipgen_set_interface_ip ctx ifname ip_addr brd_addr subnet_mask.
Definition reset_interface (ctx : ipgenctx) (ifname : list Z) : Ipc Z := ipgen_reset_interface ctx ifname.
Definition iface_commit (ctx : ipgenctx) : Ipc Z := mret 0.

(** ** Subnets ([runctl.c]) *)

Fixpoint create_each (context : ipgenctx) (l : list config_ifinfo_t) (ignore_error : bool) : Ipc Z :=
  match l with
  | [] => mret 0
  | p :: l =>
      ret ← iface_create context (ci_brname p) (ci_ifname p) (cstr "bridge") (ci_ip_addr p) (ci_brd_addr p) (ci_subnet_mask p);
      if (ret <? 0) && ignore_error then create_each context l ignore_error
      else if (ret <? 0) && negb ignore_error then mret (-1)
      else create_each context l ignore_error
  end.
Definition create_subnet_interfaces (context : ipgenctx) (ifinfo_array : option (list config_ifinfo_t)) (ignore_error : bool) : Ipc Z :=
  match ifinfo_array with
  | None => mret (-1)
  | Some l =>
      r ← create_each context l ignore_error;
      if r <? 0 then mret (-1)
      else r ← iface_commit context; mret (if r <? 0 then -1 else 0)
  end.

(** [utarray_next] of a list that is not there. *)
Fixpoint set_each_ip (listing : option (list ifaddrs)) (context : ipgenctx) (l : list config_ifinfo_t) : Ipc Z :=
  match l with
  | [] => mret 0
  | p :: l =>
      match iface_get_ip4 listing (Some (ci_brname p)) (Some (ci_ifname p)) with
      | None => fail_with NullDeref
      | Some iparr =>
          if bool_decide (ci_ip_addr p ∈ iparr) then set_each_ip listing context l
          else
            r ← iface_set_ip4 context (ci_brname p) (ci_ifname p) (ci_ip_addr p) (ci_brd_addr p) (ci_subnet_mask p);
            if r <? 0 then mret (-1) else set_each_ip listing context l
      end
  end.
Definition set_subnet_ips (listing : option (list ifaddrs)) (context : ipgenctx) (ifinfo_array : option (list config_ifinfo_t)) : Ipc Z :=
  match ifinfo_array with
  | None => mret (-1)
  | Some l =>
      r ← set_each_ip listing context l;
      if r <? 0 then mret (-1)
      else r ← iface_commit context; mret (if r <? 0 then -1 else 0)
  end.

(** ** The paths of the tools ([os.c]) *)

(** A file exists when [stat] finds it. *)

Section paths.
Context (realpath : list Z -> option (list Z)).

Fixpoint get_secure_path (bin_path_arr : list (list Z)) (filename : list Z) (real : bool) : Ipc (option (list Z)) :=
  match bin_path_arr with
  | [] => mret None
  | p :: rest =>
      path ← on_env (construct_path (Some p) (Some filename));
      match path with
      | None => mret None
      | Some path =>
          found ← (fun se => Done (check_file_exists path se.1, se));
          if (found : bool) then mret (if real then realpath path else Some path)
          else get_secure_path rest filename real
      end
  end.

Context {U : Uthash (list Z) (list Z)}.
(** The table, and NULL is the empty one. *)
Fixpoint get_commands_paths (commands : list (list Z)) (bin_path_arr : list (list Z)) (hmap : @hash _ _ _ U) :
    Ipc (Z * @hash _ _ _ U) :=
  match commands with
  | [] => mret (0, hmap)
  | command :: commands =>
      path ← get_secure_path bin_path_arr command false;
      match path with
      | None => get_commands_paths commands bin_path_arr hmap
      | Some path =>
          x ← on_env (hmap_str_keychar_put hmap (Some command) (Some path));
          if negb x.1 then mret (-1, hmap_str_keychar_free x.2) else get_commands_paths commands bin_path_arr x.2
      end
  end.
End paths.
End iface.

(** ** The links of the kernel *)

Record link := { lk_type : list Z; lk_addrs : list (list Z * list Z); lk_up : bool }.
Inductive ip_command :=
| LinkAdd (name type : list Z)
| AddrAdd (ip brd name : list Z)
| LinkSet (name : list Z) (up : bool).
Definition ip_args (cmd : ip_command) : list (list Z) :=
  match cmd with
  | LinkAdd name type => [cstr "link"; cstr "add"; cstr "name"; name; cstr "type"; type]
  | AddrAdd ip brd name => [cstr "addr"; cstr "add"; ip; cstr "brd"; brd; cstr "dev"; name]
  | LinkSet name up => [cstr "link"; cstr "set"; name; if up then cstr "up" else cstr "down"]
  end.
(** A link is made once, off and without an address; an address is added to a
    link that is there and has it not. *)
Definition ip_effect (cmd : ip_command) (links : gmap (list Z) link) : option (gmap (list Z) link) :=
  match cmd with
  | LinkAdd name type =>
      match links !! name with None => Some (<[name := {| lk_type := type; lk_addrs := []; lk_up := false |}]> links) | Some _ => None end
  | AddrAdd ip brd name =>
      match links !! name with
      | Some k =>
          if decide (ip ∈ (lk_addrs k).*1) then None
          else Some (<[name := {| lk_type := lk_type k; lk_addrs := lk_addrs k ++ [(ip, brd)]; lk_up := lk_up k |}]> links)
      | None => None
      end
  | LinkSet name up =>
      match links !! name with
      | Some k => Some (<[name := {| lk_type := lk_type k; lk_addrs := lk_addrs k; lk_up := up |}]> links)
      | None => None
      end
  end.
Class IpTool (SY : System) := {
  ip_path : list Z;
  links : sys -> gmap (list Z) link;
  ip_path_exists s : check_file_exists ip_path s = true;
  ip_path_short : zlen ip_path <= 100;
  ip_runs cmd s : exists status pieces s', spawn (ip_path :: ip_args cmd) false s = (Some (status, pieces), s') /\
    match ip_effect cmd (links s) with
    | Some l => status = 0 /\ links s' = l
    | None => status <> 0 /\ links s' = links s
    end
}.

Section created.
Context {SY : System} {IP : IpTool SY}.
#[local] Abbreviation Ipc := (prog (sys * env)).
#[local] Abbreviation tool := {| ipcmd_path := ip_path |}.

Definition short_command (cmd : ip_command) : Prop := zlen (flat 32 (ip_args cmd)) <= 150.
Lemma run_ip_run cmd s r : short_command cmd -> exists ret s', run_ip ip_path (ip_args cmd) (s, Env [] r) = Done (ret, (s', Env [] r)) /\
  match ip_effect cmd (links s) with
  | Some l => ret = 0 /\ links s' = l
  | None => ret = -1 /\ links s' = links s
  end.
Proof.
  intros Hs. destruct (ip_runs cmd s) as (status & pieces & s' & E & Hl). exists (if status =? 0 then 0 else -1), s'. split.
  - unfold run_ip. enough (with_context no_context (run_argv_command ip_path (ip_args cmd) None) (s, Env [] r) =
      Done ((if status =? 0 then 0 else -1, no_context), (s', Env [] r))) as Ec by (by erewrite bind_run by exact Ec).
    unfold with_context. cbn [fst snd].
    set (w := {| ip_ctx := no_context; ip_sys := s; ip_env := Env [] r |}).
    destruct (copy_argv_run (ip_path :: ip_args cmd) (Env [] r)) as (ok & e & Hm & Hcopy). rewrite malloc_nil in Hm. injection Hm as <- <-.
    assert (run_argv_command ip_path (ip_args cmd) None w =
      Done (if status =? 0 then 0 else -1, {| ip_ctx := no_context; ip_sys := s'; ip_env := Env [] r |})) as ->; [|done].
    unfold run_argv_command. erewrite bind_run by done. cbn [negb]. erewrite bind_run by (unfold ip_mem; cbn [ip_env w]; rewrite Hcopy; done).
    cbv beta iota. rewrite log_run_command_fits.
    2: { rewrite flat_cons, zlen_app, zlen_cons. unfold short_command in Hs. pose proof ip_path_short. lia. }
    erewrite bind_run by done. cbv beta.
    enough (run_command (ip_path :: ip_args cmd) None w = Done (status, {| ip_ctx := no_context; ip_sys := s'; ip_env := Env [] r |})) as Er
      by (by erewrite bind_run by exact Er).
    unfold run_command. cbn [ip_sys w]. rewrite ip_path_exists. cbn [negb]. rewrite E. by erewrite bind_run by done.
  - destruct (ip_effect cmd (links s)); destruct Hl as [Hst Hl]; (split; [|exact Hl]); [by subst|by rewrite (proj2 (Z.eqb_neq _ _))].
Qed.

(** The bridge of a subnet. *)
Definition subnet_link (p : config_ifinfo_t) : link :=
  {| lk_type := cstr "bridge"; lk_addrs := [(longip (ci_ip_addr p) (ci_subnet_mask p), ci_brd_addr p)]; lk_up := true |}.
Record subnet_ok (p : config_ifinfo_t) : Prop := {
  so_name : zlen (ci_ifname p) < IF_NAMESIZE;
  so_brd : zlen (ci_brd_addr p) < OS_INET_ADDRSTRLEN
}.

Lemma longip_short ip mask : zlen (longip ip mask) < OS_INET_ADDRSTRLEN.
Proof. unfold longip, clip, zlen. rewrite length_take. unfold OS_INET_ADDRSTRLEN. lia. Qed.
Lemma subnet_commands p : subnet_ok p -> short_command (LinkAdd (ci_ifname p) (cstr "bridge")) /\
  short_command (AddrAdd (longip (ci_ip_addr p) (ci_subnet_mask p)) (ci_brd_addr p) (ci_ifname p)) /\ short_command (LinkSet (ci_ifname p) true).
Proof.
  intros [Hn Hb]. pose proof (longip_short (ci_ip_addr p) (ci_subnet_mask p)) as Hl. unfold IF_NAMESIZE, OS_INET_ADDRSTRLEN in *.
  unfold short_command. cbn [ip_args]. rewrite !flat_cons. autorewrite with zlen. change (zlen (flat 32 [])) with 0.
  repeat match goal with |- context [zlen (cstr ?s)] => let n := eval vm_compute in (zlen (cstr s)) in change (zlen (cstr s)) with n end. lia.
Qed.

(** One bridge; the name must be a new one. *)
Lemma subnet_run p s r : subnet_ok p -> exists ret s',
  iface_create tool (ci_brname p) (ci_ifname p) (cstr "bridge") (ci_ip_addr p) (ci_brd_addr p) (ci_subnet_mask p) (s, Env [] r) =
    Done (ret, (s', Env [] r)) /\
  match links s !! ci_ifname p with
  | None => ret = 0 /\ links s' = <[ci_ifname p := subnet_link p]> (links s)
  | Some _ => ret = -1 /\ links s' = links s
  end.
Proof.
  intros Hp. destruct (subnet_commands p Hp) as (H1 & H2 & H3). unfold iface_create, ipgen_create_interface, ipgen_new_interface,
    ipgen_set_interface_ip, ipgen_set_interface_state. cbn [ipcmd_path].
  destruct (run_ip_run _ s r H1) as (r1 & s1 & E1 & Hl1). cbn [ip_effect] in Hl1. erewrite bind_run by exact E1.
  destruct (links s !! ci_ifname p) as [k|] eqn:Hk; [destruct Hl1 as [-> Hl1]; by exists (-1), s1|]. destruct Hl1 as [-> Hl1]. cbn [Z.ltb Z.compare].
  destruct (run_ip_run _ s1 r H2) as (r2 & s2 & E2 & Hl2). cbn [ip_effect] in Hl2. rewrite Hl1, lookup_insert, decide_True in Hl2 by done.
  cbn [lk_addrs] in Hl2. rewrite decide_False in Hl2 by (cbn; set_solver). destruct Hl2 as [-> Hl2]. erewrite bind_run by exact E2. cbn [Z.ltb Z.compare].
  destruct (run_ip_run _ s2 r H3) as (r3 & s3 & E3 & Hl3). cbn [ip_effect] in Hl3. rewrite Hl2, lookup_insert, decide_True in Hl3 by done.
  destruct Hl3 as [-> Hl3]. erewrite bind_run by exact E3. exists 0, s3. split; [done|]. split; [done|].
  by rewrite Hl3, !insert_insert_eq.
Qed.

Definition subnet_step (m : gmap (list Z) link) (p : config_ifinfo_t) : gmap (list Z) link :=
  match m !! ci_ifname p with None => <[ci_ifname p := subnet_link p]> m | Some _ => m end.
Definition new_names (m : gmap (list Z) link) (l : list config_ifinfo_t) : Prop :=
  NoDup (ci_ifname <$> l) /\ Forall (fun p => m !! ci_ifname p = None) l.
Lemma new_names_step m p l : new_names m (p :: l) -> m !! ci_ifname p = None /\ new_names (subnet_step m p) l.
Proof.
  intros [Hnd Hf]. rewrite fmap_cons in Hnd. apply list.NoDup_cons in Hnd as [Hnew Hnd]. apply list.Forall_cons in Hf as [Hp Hf]. split; [done|].
  split; [done|]. unfold subnet_step. rewrite Hp. rewrite Forall_forall in Hf |- *. intros q Hq. rewrite lookup_insert_ne; [by apply Hf|].
  intros E. apply Hnew. rewrite E. by apply list_elem_of_fmap_2.
Qed.

Lemma create_each_run ignore l : forall s r, Forall subnet_ok l -> exists ret s', create_each tool l ignore (s, Env [] r) = Done (ret, (s', Env [] r)) /\
  (ret = 0 \/ ret = -1) /\ (ret = 0 -> links s' = foldl subnet_step (links s) l) /\ (ignore = true \/ new_names (links s) l -> ret = 0).
Proof.
  induction l as [|p l IH]; intros s r Hl; cbn [create_each]; [exists 0, s; by auto|]. apply list.Forall_cons in Hl as [Hp Hl].
  destruct (subnet_run p s r Hp) as (r1 & s1 & E1 & Hl1). erewrite bind_run by exact E1. cbn [foldl].
  destruct (IH s1 r Hl) as (ret & s2 & E2 & Hv & Hr & Hi).
  assert (subnet_step (links s) p = links s1 /\ (r1 = 0 \/ (r1 = -1 /\ is_Some (links s !! ci_ifname p)))) as [Hs1 Hr1].
  { unfold subnet_step. destruct (links s !! ci_ifname p); destruct Hl1 as [-> ->]; (split; [done|]); [right|by left]. split; [done|by eexists]. }
  rewrite Hs1. destruct Hr1 as [->|[-> Hex]].
  - cbn [Z.ltb Z.compare andb]. exists ret, s2. split; [exact E2|]. split; [done|]. split; [done|]. intros [H|H]; apply Hi; [by left|right].
    rewrite <- Hs1. by apply new_names_step.
  - destruct ignore; cbn; [exists ret, s2; split; [exact E2|]; split; [done|]; split; [done|]; intros _; apply Hi; by left|].
    exists (-1), s1. split; [done|]. split; [by right|]. split; [done|]. intros [H|H]; [done|]. apply new_names_step in H as [H _]. by rewrite H in Hex; destruct Hex.
Qed.

Lemma subnet_steps l : forall m, new_names m l ->
  (forall p, p ∈ l -> foldl subnet_step m l !! ci_ifname p = Some (subnet_link p)) /\
  (forall n, n ∉ ci_ifname <$> l -> foldl subnet_step m l !! n = m !! n).
Proof.
  induction l as [|p l IH]; intros m Hn; [split; [by intros p Hp%elem_of_nil|done]|]. cbn [foldl].
  destruct (new_names_step _ _ _ Hn) as [Hp Hn']. destruct (IH _ Hn') as [H1 H2]. destruct Hn as [Hnd _]. rewrite fmap_cons in Hnd |- *.
  apply list.NoDup_cons in Hnd as [Hnew _]. split.
  - intros q [->|Hq]%elem_of_cons; [|by apply H1]. rewrite H2 by done. unfold subnet_step. by rewrite Hp, lookup_insert, decide_True.
  - intros n Hq. apply not_elem_of_cons in Hq as [Hne Hq]. rewrite H2 by done. unfold subnet_step. rewrite Hp. by rewrite lookup_insert_ne.
Qed.


End created.

(** ** Addresses *)

Definition named (ifa : ifaddrs) : Prop := match ifa_addr ifa with Some (AF_OTHER, _) => True | Some (_, None) => False | _ => True end.
(** The address an entry gives to an interface. *)
Definition ip4_of (name : list Z) (ifa : ifaddrs) : option (list Z) :=
  match ifa_addr ifa with
  | Some (AF_INET, Some ip) => if decide (ifa_name ifa = name) then Some (clip OS_INET_ADDRSTRLEN ip) else None
  | _ => None
  end.

Lemma iface_get_loop_run name l : forall acc, Forall named l -> exists r, iface_get_loop l (Some name) acc = Some (acc ++ r) /\
  nif_ip_addr <$> filter (fun el => nif_family el = AF_INET) r = omap (ip4_of name) l.
Proof.
  induction l as [|[n a] l IH]; intros acc Hl; cbn [iface_get_loop]; [exists []; by rewrite app_nil_r|]. apply list.Forall_cons in Hl as [Ha Hl].
  cbn [omap list_omap ifa_addr ifa_name] in *. set (o := ip4_of name _).
  assert (o = match a with Some (AF_INET, Some ip) => if decide (n = name) then Some (clip OS_INET_ADDRSTRLEN ip) else None | _ => None end)
    as -> by done.
  destruct a as [[[] [ip|]]|]; try done; try (by apply IH).
  all: cbn [nif_ifname]; case_bool_decide as Hn; [|rewrite ?decide_False by done; by apply IH].
  all: match goal with |- context [iface_get_loop _ _ (?l0 ++ [?x])] => destruct (IH (l0 ++ [x]) Hl) as (r & E & Hr); exists (x :: r) end.
  all: rewrite E, <- app_assoc; split; [done|]; rewrite filter_cons; cbn [nif_family].
  - rewrite !decide_True by done. cbn. by rewrite Hr.
  - rewrite decide_False by done. exact Hr.
Qed.

(** The addresses of an interface are those the system lists under its name, in
    the order of the list. *)
Theorem interface_addresses br name l : Forall named l -> iface_get_ip4 (Some l) (Some br) (Some name) = Some (omap (ip4_of name) l).
Proof.
  intros Hl. unfold iface_get_ip4, iface_get. destruct (iface_get_loop_run name l [] Hl) as (r & E & Hr). rewrite E. cbn [app]. by rewrite Hr.
Qed.

(** When the system gives no list [set_subnet_ips] goes through a NULL
    pointer. *)
Theorem no_listing_crashes {SY : System} ctx p l se : set_subnet_ips None ctx (Some (p :: l)) se = Fault NullDeref.
Proof. done. Qed.

(** ** A kernel *)

Definition parse_ip (argv : list (list Z)) : option ip_command :=
  match argv with
  | [a; b; c; x; d; y] =>
      if bool_decide ([a; b; c; d] = [cstr "link"; cstr "add"; cstr "name"; cstr "type"]) then Some (LinkAdd x y) else None
  | [a; b; x; c; y; d; z] =>
      if bool_decide ([a; b; c; d] = [cstr "addr"; cstr "add"; cstr "brd"; cstr "dev"]) then Some (AddrAdd x y z) else None
  | [a; b; x; c] =>
      if bool_decide ([a; b] = [cstr "link"; cstr "set"]) then
        if bool_decide (c = cstr "up") then Some (LinkSet x true) else if bool_decide (c = cstr "down") then Some (LinkSet x false) else None
      else None
  | _ => None
  end.
Lemma parse_ip_args cmd : parse_ip (ip_args cmd) = Some cmd.
Proof. destruct cmd as [x y|x y z|x []]; reflexivity. Qed.

#[export] Instance links_system : System := {|
  sys := gmap (list Z) link;
  check_file_exists _ _ := true;
  spawn argv _ s :=
    match parse_ip (tail argv) with
    | Some cmd => match ip_effect cmd s with Some s' => (Some (0, []), s') | None => (Some (2, []), s) end
    | None => (Some (255, []), s)
    end
|}.
#[export, refine] Instance links_tool : IpTool links_system := {| ip_path := cstr "/sbin/ip"; links s := s |}.
Proof.
  - done.
  - by vm_compute.
  - intros cmd s. cbn [spawn links_system tail]. rewrite parse_ip_args. destruct (ip_effect cmd s); by eexists _, _, _.
Defined.

Definition sample_subnet (vlanid : Z) (ip brd : string) : config_ifinfo_t :=
  {| ci_vlanid := vlanid; ci_ifname := cstr "br" ++ fmt_d vlanid; ci_brname := []; ci_ip_addr := cstr ip; ci_brd_addr := cstr brd;
     ci_subnet_mask := cstr "255.255.255.0" |}.
Lemma interface_addresses_witness :
  iface_get_ip4 (Some [{| ifa_name := cstr "br0"; ifa_addr := Some (AF_INET, Some (cstr "10.0.0.1")) |};
    {| ifa_name := cstr "lo"; ifa_addr := Some (AF_INET, Some (cstr "127.0.0.1")) |}; {| ifa_name := cstr "br0"; ifa_addr := None |}])
    (Some (cstr "br0")) (Some (cstr "br0")) = Some [cstr "10.0.0.1"].
Proof. refine (interface_addresses (cstr "br0") (cstr "br0") _ _). repeat constructor. Defined.
