(* ===== verification/Runctl.v ===== *)
(** Starting the program: [init_context] and [run_ctl] of [src/runctl.c], with
    [run_supervisor] and [close_supervisor] of [src/supervisor/supervisor.c].

    The tables, the database and the interfaces are those of the other files;
    whether the remaining services can be started is an argument.  [x_owned] has
    the resources that were obtained and not yet given back.

    The theorems: with a proper configuration the event loop runs, on a context
    with the configured VLANs and the stations of the database, and everything
    is given back; so it is on every other way out, except for one that reports
    success; a failure before the sockets are open closes the standard input;
    and one to create the table of the stations closes the database twice. *)
From stdpp Require Import strings numbers base list gmap.
From Stdlib Require Import ZArith Lia.
From S2P Require Import Prelude Os Paths Text Net Extern Reldb Capture Mappers BridgeList Firewall Iptables Supervisor SupervisorInv MacDb Dhcp Mdns RadiusServer Ap Access Restart Config Iface.

(** What [run_ctl] obtains. *)
Inductive resource :=
| r_context | r_bin_paths | r_ifinfo | r_macconn_db | r_iface | r_if_mapper | r_vlan_mapper | r_bridges | r_eloop | r_firewall | r_crypt
| r_mac_mapper | r_subscribers | r_ap | r_radius | r_dhcp | r_mdns.
#[export] Instance resource_eq : EqDecision resource.
Proof. solve_decision. Defined.

(** The services whose start is an argument, and the answers of the calls of
    [run_supervisor]. *)
Record starts := {
  eloop_starts : bool; firewall_starts : bool; crypt_starts : bool; forward_set : bool; vlan_interface : bool; ap_starts : bool;
  radius_starts : bool; dhcp_starts : bool; mdns_starts : bool;
  db_opens : bool; domain_server : Z; udp_server : Z; domain_registered : bool; udp_registered : bool
}.

Section runctl.
Context {DB : Reldb} {MU : Uthash (list Z) mac_conn_info} {VU : Uthash Z vlan_conn} {IU : Uthash Z (list Z)} {SU : Uthash (list Z) (list Z)}.
Context {BL : DlList bridge_mac_tuple} {EL : Eloop sup_timer} {FW : Firewall} {SV : Services} {SY : System}.
Context (crypt : list Z -> option (list Z)) (uninit : vlan_conn).
#[local] Abbreviation context := (supervisor_context (MU := MU) (VU := VU) (BL := BL)).

(** The context with the members the supervisor does not use; [x_bridges] is
    NULL before the list was made, [x_db_dangling] is whether [macconn_db]
    points to a database that was closed.  [x_closed] are the descriptors that were
    closed, [x_loops] the contexts the event loop was run with. *)
Record ctl := {
  x_ctx : context;
  x_bin_paths : @hash _ _ _ SU;
  x_if_mapper : @hash _ _ _ IU;
  x_bridges : option (@dl_list _ BL);
  x_iface : option ipgenctx;
  x_hconfig : option apconf;
  x_dconfig : option dhcp_conf;
  x_ap_sock : Z;
  x_owned : list resource;
  x_db_dangling : bool;
  x_closed : list Z;
  x_loops : list context;
  x_db : rdb;
  x_sys : sys;
  x_env : env
}.
#[local] Abbreviation Ctl := (prog ctl).

(** [os_zalloc] of the context. *)
Definition zero_context : context :=
  {| mac_mapper := hash_empty; vlan_mapper := hash_empty; bridge_list := dl_list_init; ticket := no_ticket; subscribers_array := None;
     allow_all_connections := false; allow_all_nat := false; exec_capture := false; allocate_vlans := false;
     wpa_passphrase := zeros (Z.to_nat AP_SECRET_LEN); wpa_passphrase_len := 0; default_open_vlanid := 0; config_ifinfo_array := [];
     domain_sock := 0; udp_sock := 0 |}.
Definition zero_ctl (d : rdb) (s : sys) (e : env) : ctl :=
  {| x_ctx := zero_context; x_bin_paths := hash_empty; x_if_mapper := hash_empty; x_bridges := None; x_iface := None; x_hconfig := None;
     x_dconfig := None; x_ap_sock := 0; x_owned := [r_context]; x_db_dangling := false; x_closed := []; x_loops := []; x_db := d; x_sys := s; x_env := e |}.

(** Assignments. *)
Definition on_context (f : context -> context) : Ctl unit := fun c => Done (tt,
  {| x_ctx := f (x_ctx c); x_bin_paths := x_bin_paths c; x_if_mapper := x_if_mapper c; x_bridges := x_bridges c; x_iface := x_iface c;
     x_hconfig := x_hconfig c; x_dconfig := x_dconfig c; x_ap_sock := x_ap_sock c; x_owned := x_owned c; x_db_dangling := x_db_dangling c; x_closed := x_closed c;
     x_loops := x_loops c; x_db := x_db c; x_sys := x_sys c; x_env := x_env c |}).
Definition set_tables (p : @hash _ _ _ SU) (i : @hash _ _ _ IU) (b : option (@dl_list _ BL)) (f : option ipgenctx) : Ctl unit := fun c => Done (tt,
  {| x_ctx := x_ctx c; x_bin_paths := p; x_if_mapper := i; x_bridges := b; x_iface := f;
     x_hconfig := x_hconfig c; x_dconfig := x_dconfig c; x_ap_sock := x_ap_sock c; x_owned := x_owned c; x_db_dangling := x_db_dangling c; x_closed := x_closed c;
     x_loops := x_loops c; x_db := x_db c; x_sys := x_sys c; x_env := x_env c |}).
Definition set_configs (h : option apconf) (d : option dhcp_conf) (sock : Z) : Ctl unit := fun c => Done (tt,
  {| x_ctx := x_ctx c; x_bin_paths := x_bin_paths c; x_if_mapper := x_if_mapper c; x_bridges := x_bridges c; x_iface := x_iface c;
     x_hconfig := h; x_dconfig := d; x_ap_sock := sock; x_owned := x_owned c; x_db_dangling := x_db_dangling c; x_closed := x_closed c;
     x_loops := x_loops c; x_db := x_db c; x_sys := x_sys c; x_env := x_env c |}).
Definition set_owned (l : list resource) (fds : list Z) (loops : list context) : Ctl unit := fun c => Done (tt,
  {| x_ctx := x_ctx c; x_bin_paths := x_bin_paths c; x_if_mapper := x_if_mapper c; x_bridges := x_bridges c; x_iface := x_iface c;
     x_hconfig := x_hconfig c; x_dconfig := x_dconfig c; x_ap_sock := x_ap_sock c; x_owned := l; x_db_dangling := x_db_dangling c; x_closed := fds;
     x_loops := loops; x_db := x_db c; x_sys := x_sys c; x_env := x_env c |}).
Definition with_world (d : rdb) (s : sys) (e : env) (c : ctl) : ctl :=
  {| x_ctx := x_ctx c; x_bin_paths := x_bin_paths c; x_if_mapper := x_if_mapper c; x_bridges := x_bridges c; x_iface := x_iface c;
     x_hconfig := x_hconfig c; x_dconfig := x_dconfig c; x_ap_sock := x_ap_sock c; x_owned := x_owned c; x_db_dangling := x_db_dangling c; x_closed := x_closed c;
     x_loops := x_loops c; x_db := d; x_sys := s; x_env := e |}.
Definition get {A} (f : ctl -> A) : Ctl A := fun c => Done (f c, c).
Definition own (r : resource) : Ctl unit := fun c => set_owned (r :: x_owned c) (x_closed c) (x_loops c) c.
(** A [free_*] function; what is not there is a NULL pointer, or an empty
    table. *)
Definition release (r : resource) : Ctl unit := fun c =>
  set_owned (filter (fun x => x <> r) (x_owned c)) (x_closed c) (x_loops c) c.
Definition close_fd (fd : Z) : Ctl unit := fun c => set_owned (x_owned c) (fd :: x_closed c) (x_loops c) c.

Definition in_system {A} (m : prog (sys * env) A) : Ctl A := fun c =>
  match m (x_sys c, x_env c) with
  | Fault f => Fault f
  | Done (a, (s, e)) => Done (a, with_world (x_db c) s e c)
  end.
Definition in_memory {A} (m : prog env A) : Ctl A := fun c =>
  match m (x_env c) with
  | Fault f => Fault f
  | Done (a, e) => Done (a, with_world (x_db c) (x_sys c) e c)
  end.
Definition in_database {A} (m : prog rdb A) : Ctl A := fun c =>
  match m (x_db c) with
  | Fault f => Fault f
  | Done (a, d) => Done (a, with_world d (x_sys c) (x_env c) c)
  end.

(** ** The context *)

Definition commands : list (list Z) := [cstr "ip"; cstr "iw"; cstr "iptables"; cstr "sysctl"].
Definition passphrase_array (s : list Z) : list Z := s ++ zeros (Z.to_nat AP_SECRET_LEN - length s).

(** The members that are copied from the configuration; [udp_sock] is not
    among those that are set. *)
Definition configured (cfg : app_config) (arr : list config_ifinfo_t) (c : context) : context :=
  let sys := system_config cfg in
  let pass := take (Z.to_nat AP_SECRET_LEN) (ap_wpa_passphrase (hconfig cfg)) in
  {| mac_mapper := mac_mapper c; vlan_mapper := vlan_mapper c; bridge_list := bridge_list c; ticket := no_ticket; subscribers_array := None;
     allow_all_connections := cfg_allow_all_connections sys; allow_all_nat := cfg_allow_all_nat sys; exec_capture := cfg_exec_capture sys;
     allocate_vlans := cfg_allocate_vlans sys; wpa_passphrase := passphrase_array pass; wpa_passphrase_len := zlen pass;
     default_open_vlanid := cfg_default_open_vlanid sys; config_ifinfo_array := arr; domain_sock := -1; udp_sock := udp_sock c |}.
Definition with_prefixes (cfg : app_config) : dhcp_conf :=
  let d := dhcp_config cfg in
  {| dhcp_bin_path := dhcp_bin_path d; dhcp_conf_path := dhcp_conf_path d; dhcp_script_path := dhcp_script_path d;
     dhcp_leasefile_path := dhcp_leasefile_path d; dh_interface_prefix := interface_prefix (interfaces cfg);
     wifi_interface := ap_interface (hconfig cfg); config_dhcpinfo_array := config_dhcpinfo_array d |}.
Definition set_vlan_bridge (b path : list Z) (h : apconf) : apconf :=
  {| ap_bin_path := ap_bin_path h; ap_file_path := ap_file_path h; ap_log_path := ap_log_path h; ctrl_interface_path := path;
     ap_interface := ap_interface h; ap_device := ap_device h; ap_ssid := ap_ssid h; ap_wpa_passphrase := ap_wpa_passphrase h;
     ap_driver := ap_driver h; hw_mode := hw_mode h; channel := channel h; wmm_enabled := wmm_enabled h; auth_algs := auth_algs h;
     wpa := wpa h; wpa_key_mgmt := wpa_key_mgmt h; rsn_pairwise := rsn_pairwise h; ctrl_interface := ctrl_interface h;
     macaddr_acl := macaddr_acl h; dynamic_vlan := dynamic_vlan h; vlan_bridge := b; vlan_file := vlan_file h;
     logger_stdout := logger_stdout h; logger_stdout_level := logger_stdout_level h; logger_syslog := logger_syslog h;
     logger_syslog_level := logger_syslog_level h; ignore_broadcast_ssid := ignore_broadcast_ssid h; wpa_psk_radius := wpa_psk_radius h;
     vlan_tagged_interface := vlan_tagged_interface h |}.

Definition dangle : Ctl unit := fun c => Done (tt,
  {| x_ctx := x_ctx c; x_bin_paths := x_bin_paths c; x_if_mapper := x_if_mapper c; x_bridges := x_bridges c; x_iface := x_iface c;
     x_hconfig := x_hconfig c; x_dconfig := x_dconfig c; x_ap_sock := x_ap_sock c; x_owned := x_owned c; x_db_dangling := true;
     x_closed := x_closed c; x_loops := x_loops c; x_db := x_db c; x_sys := x_sys c; x_env := x_env c |}).

(** [opens] is whether the directory and the file could be made.  When the
    table cannot be created the database is closed, and the caller has its
    pointer. *)
Definition open_macconn_db (opens : bool) : Ctl Z :=
  if negb opens then mret (-1)
  else
    r ← in_database open_sqlite_macconn_db;
    if r <? 0 then _ ← dangle; mret (-1) else _ ← own r_macconn_db; mret 0.

Definition init_context (a : starts) (cfg : app_config) : Ctl Z :=
  x ← in_system (get_commands_paths (fun _ => None) commands (bin_path_array (system_config cfg)) hash_empty);
  _ ← set_tables x.2 hash_empty None None;
  if x.1 <? 0 then mret (-1)
  else
    _ ← own r_bin_paths;
    match hmap_str_keychar_get x.2 (Some (cstr "ip")) with
    | None => mret (-1)
    | Some ipcmd_path =>
        _ ← own r_ifinfo;
        let y := init_ifbridge_names (cfg_config_ifinfo_array (interfaces cfg)) (interface_prefix (interfaces cfg)) (bridge_prefix (interfaces cfg)) in
        if y.1 <? 0 then mret (-1)
        else
          _ ← on_context (configured cfg y.2);
          _ ← set_configs (Some (set_vlan_bridge (interface_prefix (interfaces cfg)) (ctrl_interface_path (hconfig cfg)) (hconfig cfg)))
                (Some (with_prefixes cfg)) (-1);
          r ← open_macconn_db (db_opens a);
          if r <? 0 then mret (-1)
          else
            i ← in_system (iface_init_context (Some ipcmd_path));
            match i with
            | None => mret (-1)
            | Some ctx =>
                _ ← set_tables x.2 hash_empty None (Some ctx);
                _ ← own r_iface;
                m ← in_memory (create_if_mapper y.2 hash_empty);
                _ ← set_tables x.2 m.2 None (Some ctx);
                if negb m.1 then mret (-1)
                else
                  _ ← own r_if_mapper;
                  v ← in_memory (create_vlan_mapper y.2 hash_empty);
                  _ ← on_context (set_vlan_mapper v.2);
                  if v.1 <? 0 then mret (-1)
                  else
                    _ ← own r_vlan_mapper;
                    b ← in_memory init_bridge_list;
                    _ ← set_tables x.2 m.2 b (Some ctx);
                    _ ← on_context (set_bridge_list (default dl_list_init b));
                    _ ← (match b with Some _ => own r_bridges | None => mret tt end);
                    if (get_vlan_mapper (Some v.2) (cfg_default_open_vlanid (system_config cfg)) None).1 <=? 0 then mret (-1) else mret 0
            end
    end.

(** ** The supervisor *)

Definition set_socks (d u : Z) (subs : option (list client_address)) (c : context) : context :=
  {| mac_mapper := mac_mapper c; vlan_mapper := vlan_mapper c; bridge_list := bridge_list c; ticket := ticket c; subscribers_array := subs;
     allow_all_connections := allow_all_connections c; allow_all_nat := allow_all_nat c; exec_capture := exec_capture c;
     allocate_vlans := allocate_vlans c; wpa_passphrase := wpa_passphrase c; wpa_passphrase_len := wpa_passphrase_len c;
     default_open_vlanid := default_open_vlanid c; config_ifinfo_array := config_ifinfo_array c; domain_sock := d; udp_sock := u |}.
Definition close_supervisor : Ctl unit :=
  c ← get x_ctx;
  _ ← (if negb (domain_sock c =? -1) then close_fd (domain_sock c) else mret tt);
  _ ← (if negb (udp_sock c =? -1) then close_fd (udp_sock c) else mret tt);
  _ ← release r_subscribers;
  on_context (set_socks (-1) (-1) None).

Definition run_supervisor (a : starts) (port : Z) : Ctl Z :=
  if port =? 0 then mret (-1)
  else
    c ← get x_ctx;
    _ ← own r_subscribers;
    _ ← on_context (set_socks (domain_server a) (udp_sock c) (Some []));
    if domain_server a =? -1 then _ ← close_supervisor; mret (-1)
    else
      _ ← on_context (set_socks (domain_server a) (udp_server a) (Some []));
      if udp_server a =? -1 then _ ← close_supervisor; mret (-1)
      else if negb (domain_registered a) then _ ← close_supervisor; mret (-1)
      else if negb (udp_registered a) then _ ← close_supervisor; mret (-1)
      else mret 0.

(** ** [run_ctl] *)

(** [create_mac_mapper] on the members of the context it uses. *)
Definition add_stations : Ctl Z := fun c =>
  match create_mac_mapper crypt uninit
    {| macconn_db := x_db c; boot_macs := mac_mapper (x_ctx c); boot_vlans := vlan_mapper (x_ctx c); boot_env := x_env c |} with
  | Fault f => Fault f
  | Done (r, b) => (_ ← on_context (set_mac_mapper (boot_macs b)); mret r) (with_world (macconn_db b) (x_sys c) (boot_env b) c)
  end.

(** A service that is asked for, its start and what it holds then. *)
Definition start (wanted works : bool) (r : resource) : Ctl bool :=
  if negb wanted then mret true
  else if works then _ ← own r; mret true
  else mret false.
(** [WITH_MDNS_SERVICE] and [WITH_RADIUS_SERVICE] are set. *)
Definition run_loop : Ctl unit := fun c => set_owned (x_owned c) (x_closed c) (x_ctx c :: x_loops c) c.

(** The interface of the access point, when there is one. *)
Definition start_ap (a : starts) : Ctl bool :=
  h ← get x_hconfig;
  match h with
  | None => mret true
  | Some h =>
      if bool_decide (ap_interface h = []) then mret true
      else
        path ← in_memory (construct_path (Some (ctrl_interface h)) (Some (ap_interface h)));
        match path with
        | None => mret false
        | Some path =>
            d ← get x_dconfig;
            sock ← get x_ap_sock;
            _ ← set_configs (Some (set_vlan_bridge (vlan_bridge h) (clip MAX_OS_PATH_LEN path) h)) d sock;
            _ ← own r_ap;
            mret (ap_starts a)
        end
  end.
Definition start_interfaces (cfg : app_config) : Ctl bool :=
  if negb (create_interfaces (system_config cfg)) then mret true
  else
    i ← get x_iface;
    c ← get x_ctx;
    match i with
    | None => fail_with NullDeref
    | Some i =>
        r ← in_system (create_subnet_interfaces i (Some (config_ifinfo_array c)) (ignore_if_error (system_config cfg)));
        mret (negb (r <? 0))
    end.

(** Why the body of [run_ctl] is left: a jump to [run_engine_fail], the return
    in the middle, or its end. *)
Inductive way_out := run_engine_fail | return_false | at_the_end.

(** [given] is whether the caller has an event loop. *)
Definition run_services (a : starts) (cfg : app_config) (given : bool) : Ctl way_out :=
  let sys := system_config cfg in
  r ← init_context a cfg;
  if r <? 0 then mret run_engine_fail else
  ok ← start (negb given) (eloop_starts a) r_eloop;
  if negb ok then mret run_engine_fail else
  ok ← start true (firewall_starts a) r_firewall;
  if negb ok then mret run_engine_fail else
  ok ← start WITH_CRYPTO_SERVICE (crypt_starts a) r_crypt;
  if negb ok then mret run_engine_fail else
  if set_ip_forward sys && negb (forward_set a) then mret run_engine_fail else
  _ ← own r_mac_mapper;
  r ← add_stations;
  if r <? 0 then mret return_false else
  ok ← start_interfaces cfg;
  if negb ok then mret run_engine_fail else
  r ← run_supervisor a (supervisor_control_port (supervisor_config cfg));
  if r <? 0 then mret run_engine_fail else
  if ap_detect sys && negb (vlan_interface a) then mret run_engine_fail else
  ok ← start_ap a;
  if negb ok then mret run_engine_fail else
  ok ← start (exec_radius sys) (radius_starts a) r_radius;
  if negb ok then mret run_engine_fail else
  _ ← own r_dhcp;
  if negb (dhcp_starts a) then mret run_engine_fail else
  ok ← start (exec_mdns_forward sys) (mdns_starts a) r_mdns;
  if negb ok then mret run_engine_fail else
  _ ← run_loop;
  _ ← release r_mdns;
  mret at_the_end.

Definition free_macconn_db : Ctl unit :=
  dangling ← get x_db_dangling;
  if (dangling : bool) then fail_with UseAfterFree else release r_macconn_db.
(** The part behind [run_engine_fail]. *)
Definition shut_down : Ctl unit :=
  _ ← close_supervisor;
  sock ← get x_ap_sock;
  h ← get x_hconfig;
  d ← get x_dconfig;
  _ ← (if negb (sock =? -1) then _ ← close_fd sock; set_configs h d (-1) else mret tt);
  _ ← release r_ap;
  _ ← release r_dhcp;
  _ ← release r_radius;
  _ ← release r_bin_paths;
  _ ← release r_firewall;
  _ ← release r_mac_mapper;
  _ ← release r_if_mapper;
  _ ← release r_vlan_mapper;
  _ ← release r_bridges;
  _ ← free_macconn_db;
  _ ← release r_crypt;
  _ ← release r_iface;
  _ ← release r_ifinfo;
  _ ← release r_eloop;
  release r_context.

Definition run_ctl (a : starts) (cfg : app_config) (given : bool) (d : rdb) (s : sys) (e : env) : outcome (Z * ctl) :=
  match malloc e with
  | Fault f => Fault f
  | Done (false, e') => (_ ← release r_context; mret (-1)) (zero_ctl d s e')
  | Done (true, e') =>
      (way ← run_services a cfg given;
       match way with
       | run_engine_fail => _ ← shut_down; mret (-1)
       | return_false => mret 0
       | at_the_end => _ ← shut_down; mret 0
       end) (zero_ctl d s e')
  end.
End runctl.

(** ** What is given back *)

Section given_back.
Context {DB : Reldb} {MU : Uthash (list Z) mac_conn_info} {VU : Uthash Z vlan_conn} {IU : Uthash Z (list Z)} {SU : Uthash (list Z) (list Z)}.
Context {BL : DlList bridge_mac_tuple} {EL : Eloop sup_timer} {FW : Firewall} {SV : Services} {SY : System}.
Context (crypt : list Z -> option (list Z)) (uninit : vlan_conn).
#[local] Abbreviation ctl := (ctl (DB := DB) (MU := MU) (VU := VU) (IU := IU) (SU := SU) (BL := BL) (SY := SY)).
#[local] Abbreviation Ctl := (prog ctl).

(** Before the event loop. *)
Record starting (c : ctl) : Prop := {
  st_mdns : r_mdns ∉ x_owned c;
  st_context : r_context ∈ x_owned c;
  st_loops : x_loops c = []
}.
(** A program that does not change these. *)
Definition aside {A} (m : Ctl A) : Prop := forall c a c', m c = Done (a, c') -> x_owned c' = x_owned c /\ x_loops c' = x_loops c.
Lemma aside_keeps {A} (m : Ctl A) : aside m -> keeps starting m.
Proof. intros Hm c a c' [H1 H2 H3] E. destruct (Hm c a c' E) as [Eo El]. split; by rewrite ?Eo, ?El. Qed.
Lemma aside_system {A} (m : prog (sys * env) A) : aside (in_system m).
Proof. intros c a c'. unfold in_system. destruct (m _) as [[x [s e]]|]; [|done]. by intros [= _ <-]. Qed.
Lemma aside_memory {A} (m : prog env A) : aside (in_memory m).
Proof. intros c a c'. unfold in_memory. destruct (m _) as [[x e]|]; [|done]. by intros [= _ <-]. Qed.
Lemma aside_database {A} (m : prog rdb A) : aside (in_database m).
Proof. intros c a c'. unfold in_database. destruct (m _) as [[x d]|]; [|done]. by intros [= _ <-]. Qed.
Lemma aside_stations : aside (add_stations crypt uninit).
Proof. intros c a c'. unfold add_stations. destruct (create_mac_mapper _ _ _) as [[x b]|]; [|done]. by intros [= _ <-]. Qed.
Lemma keeps_ctl_get {A} (f : ctl -> A) : keeps starting (get f).
Proof. apply aside_keeps. by intros c a c' [= _ <-]. Qed.
Lemma keeps_set_tables p i b f : keeps starting (set_tables p i b f).
Proof. apply aside_keeps. by intros c a c' [= _ <-]. Qed.
Lemma keeps_set_configs h d n : keeps starting (set_configs h d n).
Proof. apply aside_keeps. by intros c a c' [= _ <-]. Qed.
Lemma keeps_on_context f : keeps starting (on_context f).
Proof. apply aside_keeps. by intros c a c' [= _ <-]. Qed.
Lemma keeps_dangle : keeps starting dangle.
Proof. apply aside_keeps. by intros c a c' [= _ <-]. Qed.
Lemma keeps_close fd : keeps starting (close_fd fd).
Proof. apply aside_keeps. by intros c a c' [= _ <-]. Qed.
Lemma keeps_own r : r <> r_mdns -> keeps starting (own r).
Proof. intros Hr c a c' [H1 H2 H3] [= _ <-]. split; cbn; [set_solver|set_solver|done]. Qed.
Lemma keeps_release r : r <> r_context -> keeps starting (release r).
Proof.
  intros Hr c a c' [H1 H2 H3] [= _ <-]. split; cbn; [|apply list_elem_of_filter; by split|done]. by intros [_ H]%list_elem_of_filter.
Qed.
Lemma keeps_start w b r : r <> r_mdns -> keeps starting (start w b r).
Proof. intros Hr. unfold start. pose proof (keeps_own r Hr). keeps_tac. Qed.
#[local] Hint Resolve aside_keeps aside_system aside_memory aside_database aside_stations keeps_ctl_get keeps_set_tables keeps_set_configs
  keeps_on_context keeps_dangle keeps_close : keeps.
#[local] Hint Extern 1 (keeps starting (own _)) => (apply keeps_own; discriminate) : keeps.
#[local] Hint Extern 1 (keeps starting (release _)) => (apply keeps_release; discriminate) : keeps.
#[local] Hint Extern 1 (keeps starting (start _ _ _)) => (apply keeps_start; discriminate) : keeps.

Lemma keeps_init_context a cfg : keeps starting (init_context a cfg).
Proof. unfold init_context, open_macconn_db. keeps_tac. Qed.
Lemma keeps_close_supervisor : keeps starting close_supervisor.
Proof. unfold close_supervisor. keeps_tac. Qed.
#[local] Hint Resolve keeps_close_supervisor : keeps.
Lemma keeps_run_supervisor a port : keeps starting (run_supervisor a port).
Proof. unfold run_supervisor. keeps_tac. Qed.
Lemma keeps_start_ap a : keeps starting (start_ap a).
Proof. unfold start_ap. keeps_tac. Qed.
Lemma keeps_start_interfaces cfg : keeps starting (start_interfaces cfg).
Proof. unfold start_interfaces. keeps_tac. Qed.
#[local] Hint Resolve keeps_init_context keeps_run_supervisor keeps_start_ap keeps_start_interfaces : keeps.

(** A program that begins among the starting ones. *)
Definition leads {A} (R : A -> ctl -> Prop) (m : Ctl A) : Prop := forall c a c', starting c -> m c = Done (a, c') -> R a c'.
Lemma leads_bind {A B} R (m : Ctl A) (k : A -> Ctl B) : keeps starting m -> (forall a, leads R (k a)) -> leads R (mbind k m).
Proof. intros Hm Hk c b c' Hc H. apply bind_done in H as (a & c1 & E & H). eapply Hk; [|exact H]. by eapply Hm. Qed.
Lemma leads_ret {A} (R : A -> ctl -> Prop) a : (forall c, starting c -> R a c) -> leads R (mret a).
Proof. intros HR c b c' Hc [= <- <-]. by apply HR. Qed.

Definition left (w : way_out) (c : ctl) : Prop :=
  match w with at_the_end => r_mdns ∉ x_owned c /\ x_loops c <> [] | _ => starting c end.
Lemma services_left a cfg given : leads left (run_services crypt uninit a cfg given).
Proof.
  unfold run_services. cbv zeta.
  repeat first [apply leads_ret; intros c Hc; exact Hc | match goal with |- leads _ (if ?b then _ else _) => destruct b end
    | apply leads_bind; [solve [eauto with keeps]|intros ?]].
  intros c w c' [H1 H2 H3] H. apply bind_done in H as (ok & c1 & E & H). unfold start in E.
  assert (x_loops c1 = [] /\ (ok = false -> c1 = c)) as [Hl Hok].
  { destruct (exec_mdns_forward _); cbn [negb] in E; [|by injection E as <- <-]. by destruct (mdns_starts a); injection E as <- <-. }
  destruct ok; cbn [negb] in H.
  - injection H as <- <-. cbn. split; [|done]. by intros [? _]%list_elem_of_filter.
  - injection H as <- <-. by rewrite Hok.
Qed.

(** The resources of a list have been given back since [c0]. *)
Definition without (l : list resource) (c0 c : ctl) : Prop :=
  x_loops c = x_loops c0 /\ forall r, r ∈ x_owned c -> r ∉ l /\ r ∈ x_owned c0.
Lemma without_release r l c0 c u c' : without l c0 c -> release r c = Done (u, c') -> without (r :: l) c0 c'.
Proof.
  intros [Hl Ho] [= _ <-]. split; [done|]. cbn. intros x [Hx Hin]%list_elem_of_filter. destruct (Ho x Hin). split; [|done]. set_solver.
Qed.
Lemma without_next {A} r (k : Ctl A) l c0 c res : without l c0 c -> (_ ← release r; k) c = Done res ->
  exists c', without (r :: l) c0 c' /\ k c' = Done res.
Proof.
  intros Hw H. unfold mbind, prog_bind in H. destruct (release r c) as [[u c']|] eqn:E; [|done]. exists c'. split; [|done]. by eapply without_release.
Qed.
#[local] Ltac next_release Hw H := eapply without_next in H; [|exact Hw]; clear Hw; destruct H as (? & Hw & H).

Lemma shut_down_run (c : ctl) u c' : r_mdns ∉ x_owned c -> shut_down c = Done (u, c') -> x_owned c' = [] /\ x_loops c' = x_loops c.
Proof.
  intros Hm. unfold shut_down, free_macconn_db. intros H. apply bind_done in H as ([] & c1 & E1 & H).
  assert (without [r_subscribers] c c1) as Hw.
  { unfold close_supervisor in E1. erewrite bind_run in E1 by done.
    destruct (negb (domain_sock _ =? -1)), (negb (udp_sock _ =? -1)); injection E1 as <-; (split; [done|]);
      intros r [? ?]%list_elem_of_filter; (split; [set_solver|done]). }
  do 3 (erewrite bind_run in H by done; cbv beta in H). apply bind_done in H as ([] & c2 & E2 & H).
  assert (without [r_subscribers] c c2) as Hw2 by (by destruct (negb (x_ap_sock c1 =? -1)); injection E2 as <-).
  clear Hw. do 9 next_release Hw2 H. apply bind_done in H as ([] & c3 & E3 & H).
  erewrite bind_run in E3 by reflexivity. cbn beta in E3. destruct (x_db_dangling _); [done|]. eapply without_release in E3; [|exact Hw2].
  clear Hw2. do 4 next_release E3 H. eapply without_release in H as [Hl Ho]; [|exact E3]. split; [|done].
  destruct (x_owned c') as [|r l]; [done|]. destruct (Ho r) as [Hn Hin]; [left|]. exfalso. destruct r; try done; apply Hn; set_solver.
Qed.

End given_back.

(** ** A start *)

Section starting.
Context {DB : Reldb} {MU : Uthash (list Z) mac_conn_info} {VU : Uthash Z vlan_conn} {IU : Uthash Z (list Z)} {SU : Uthash (list Z) (list Z)}.
Context {BL : DlList bridge_mac_tuple} {EL : Eloop sup_timer} {FW : Firewall} {SV : Services} {SY : System} {IP : IpTool SY}.
Context (crypt : list Z -> option (list Z)) (uninit : vlan_conn).
#[local] Abbreviation ctl := (ctl (DB := DB) (MU := MU) (VU := VU) (IU := IU) (SU := SU) (BL := BL) (SY := SY)).
#[local] Abbreviation Ctl := (prog ctl).
#[local] Abbreviation context := (supervisor_context (MU := MU) (VU := VU) (BL := BL)).

(** What a step depends on. *)
Record at_ (x : context) (d : rdb) (s : sys) (e : env) (i : option ipgenctx) (h : option apconf) (c : ctl) : Prop := {
  at_ctx : x_ctx c = x;
  at_db : x_db c = d;
  at_sys : x_sys c = s;
  at_env : x_env c = e;
  at_iface : x_iface c = i;
  at_hconfig : x_hconfig c = h;
  at_dangling : x_db_dangling c = false;
  at_loops : x_loops c = []
}.
Definition goes {A} (m : Ctl A) (a : A) (P Q : ctl -> Prop) : Prop := forall c, P c -> exists c', m c = Done (a, c') /\ Q c'.
Lemma goes_bind {A B} (m : Ctl A) (k : A -> Ctl B) a b P Q R : goes m a P Q -> goes (k a) b Q R -> goes (mbind k m) b P R.
Proof.
  intros Hm Hk c Hc. destruct (Hm c Hc) as (c1 & E1 & H1). destruct (Hk c1 H1) as (c2 & E2 & H2). exists c2. split; [|done]. by erewrite bind_run by exact E1.
Qed.
Lemma goes_ret {A} (a : A) P : goes (mret a) a P P.
Proof. intros c Hc. by exists c. Qed.

Section steps.
Context (x : context) (d : rdb) (s : sys) (e : env) (i : option ipgenctx) (h : option apconf).
#[local] Abbreviation here := (at_ x d s e i h).
Lemma goes_own r : goes (own r) tt here here.
Proof. intros c []. eexists. split; [reflexivity|]. by split. Qed.
Lemma goes_tables p j b f : goes (set_tables p j b f) tt here (at_ x d s e f h).
Proof. intros c []. eexists. split; [reflexivity|]. by split. Qed.
Lemma goes_context f : goes (on_context f) tt here (at_ (f x) d s e i h).
Proof. intros c []. eexists. split; [reflexivity|]. split; [by subst|done..]. Qed.
Lemma goes_configs h' dc n : goes (set_configs h' dc n) tt here (at_ x d s e i h').
Proof. intros c []. eexists. split; [reflexivity|]. by split. Qed.
Lemma goes_memory {A} (m : prog env A) a : m e = Done (a, e) -> goes (in_memory m) a here here.
Proof. intros Hm c []. eexists. split; [unfold in_memory; by subst; rewrite Hm|]. by split. Qed.
Lemma goes_database {A} (m : prog rdb A) a d' : m d = Done (a, d') -> goes (in_database m) a here (at_ x d' s e i h).
Proof. intros Hm c []. eexists. split; [unfold in_database; by subst; rewrite Hm|]. by split. Qed.
Lemma goes_system {A} (m : prog (sys * env) A) a s' : m (s, e) = Done (a, (s', e)) -> goes (in_system m) a here (at_ x d s' e i h).
Proof. intros Hm c []. eexists. split; [unfold in_system; by subst; rewrite Hm|]. by split. Qed.
Lemma goes_get_ctx : goes (get x_ctx) x here here.
Proof. intros c Hc. exists c. split; [|done]. destruct Hc. unfold get. by subst. Qed.
Lemma goes_get_iface : goes (get x_iface) i here here.
Proof. intros c Hc. exists c. split; [|done]. destruct Hc. unfold get. by subst. Qed.
Lemma goes_get_hconfig : goes (get x_hconfig) h here here.
Proof. intros c Hc. exists c. split; [|done]. destruct Hc. unfold get. by subst. Qed.
Lemma goes_dangle P : goes dangle tt P (fun c => x_db_dangling c = true).
Proof. intros c _. eexists. by split. Qed.
Lemma goes_start (w b : bool) r : b = true -> goes (start w b r) true here here.
Proof. intros ->. unfold start. destruct w; cbn [negb]; [|apply goes_ret]. eapply goes_bind; [apply goes_own|apply goes_ret]. Qed.
End steps.

(** The subnets of a configuration, with their names. *)
Definition subnets (cfg : app_config) : list config_ifinfo_t :=
  (init_ifbridge_names (cfg_config_ifinfo_array (interfaces cfg)) (interface_prefix (interfaces cfg)) (bridge_prefix (interfaces cfg))).2.
(** A configuration and a system on which everything can be started; [l] are
    the stations of the database. *)
Record proper (a : starts) (cfg : app_config) (l : list mac_conn) (s : sys) (r : list (list Z)) (h : @hash _ _ _ SU) : Prop := {
  pr_paths : get_commands_paths (fun _ => None) commands (bin_path_array (system_config cfg)) hash_empty (s, Env [] r) = Done ((0, h), (s, Env [] r));
  pr_ip : hmap_str_keychar_get h (Some (cstr "ip")) = Some ip_path;
  pr_subnets : Forall ifinfo_ok (subnets cfg);
  pr_default : cfg_default_open_vlanid (system_config cfg) ∈ ci_vlanid <$> subnets cfg;
  pr_vlans : Forall (fun c => mi_vlanid (mac_info c) ∈ ci_vlanid <$> subnets cfg) l;
  pr_secrets : forall k v, crypt k = Some v -> zlen v <= AP_SECRET_LEN;
  pr_links : create_interfaces (system_config cfg) = true -> Forall subnet_ok (subnets cfg) /\ new_names (links s) (subnets cfg);
  pr_ap : ap_interface (hconfig cfg) = [] \/
    exists p, construct_path (Some (ctrl_interface (hconfig cfg))) (Some (ap_interface (hconfig cfg))) (Env [] r) = Done (Some p, Env [] r);
  pr_port : supervisor_control_port (supervisor_config cfg) <> 0;
  pr_flags : eloop_starts a && firewall_starts a && crypt_starts a && forward_set a && vlan_interface a && ap_starts a && radius_starts a &&
    dhcp_starts a && mdns_starts a && db_opens a && domain_registered a && udp_registered a = true;
  pr_socks : domain_server a <> -1 /\ udp_server a <> -1
}.

Lemma open_again (d : rdb) l : db_holds d l -> exists d', open_sqlite_macconn_db d = Done (0, d') /\ db_holds d' l.
Proof.
  intros [Hok Hr Hc Hn]. unfold open_sqlite_macconn_db. destruct (create_ok (ct_table MACCONN_CREATE_TABLE) d Hok) as [E Hok'].
  pose proof (create_rows (ct_table MACCONN_CREATE_TABLE) d) as Hrow. cbv zeta in Hrow. rewrite E, Hr in Hrow.
  erewrite bind_run by done. cbv beta. rewrite E. eexists. split; [done|]. split; [done| |done|done]. rewrite Hrow. apply lookup_insert_eq.
Qed.

(** The context before the stations. *)
Definition made_context (cfg : app_config) (vt : @hash _ _ _ VU) : context :=
  set_bridge_list dl_list_init (set_vlan_mapper vt (configured cfg (subnets cfg) zero_context)).
Definition vlans_of (cfg : app_config) (vt : @hash _ _ _ VU) : Prop :=
  hash_wf vt /\ forall v, hash_map vt !! v = last_with ci_vlanid vlan_of (subnets cfg) v.

Lemma last_with_some {A} (f : config_ifinfo_t -> A) arr v : v ∈ ci_vlanid <$> arr -> is_Some (last_with ci_vlanid f arr v).
Proof.
  intros (p & -> & Hp)%list_elem_of_fmap. unfold last_with. destruct (last _) eqn:E; [by eexists|]. apply last_None in E.
  assert (p ∈ filter (fun q => ci_vlanid q = ci_vlanid p) arr) as H by (apply list_elem_of_filter; by split). rewrite E in H. by apply elem_of_nil in H.
Qed.

#[local] Ltac go := eapply goes_bind.
Lemma init_goes a cfg l d s r h : proper a cfg l s r h -> db_holds d l -> exists vt d',
  goes (init_context a cfg) 0 (at_ zero_context d s (Env [] r) None None)
    (at_ (made_context cfg vt) d' s (Env [] r) (Some {| ipcmd_path := ip_path |})
      (Some (set_vlan_bridge (interface_prefix (interfaces cfg)) (ctrl_interface_path (hconfig cfg)) (hconfig cfg)))) /\
  vlans_of cfg vt /\ db_holds d' l.
Proof.
  intros Hp Hd. destruct (open_again d l Hd) as (d' & Eo & Hd').
  destruct (create_if_mapper_spec (subnets cfg) hash_empty (Env [] r) (pr_subnets _ _ _ _ _ _ Hp) hash_empty_wf eq_refl) as (ih & Ei & _).
  destruct (create_vlan_mapper_spec (subnets cfg) hash_empty (Env [] r) hash_empty_wf eq_refl) as (vt & Ev & Hvw & Hv).
  assert (vlans_of cfg vt) as Hvt by (split; [done|]; intros v; rewrite Hv; destruct (last_with _ _ _ _); [done|]; unfold hash_map; by rewrite hash_empty_items).
  exists vt, d'. split; [|by split]. pose proof (pr_flags _ _ _ _ _ _ Hp) as Hf. destruct (db_opens a) eqn:Hdb; [|by rewrite !andb_false_r in Hf].
  unfold init_context. go; [eapply goes_system, (pr_paths _ _ _ _ _ _ Hp)|]. cbn [fst snd]. go; [apply goes_tables|].
  change (0 <? 0) with false. cbv iota. go; [apply goes_own|]. rewrite (pr_ip _ _ _ _ _ _ Hp). go; [apply goes_own|]. cbv zeta.
  fold (subnets cfg). change ((init_ifbridge_names _ _ _).1 <? 0) with false. cbv iota. go; [apply goes_context|]. go; [apply goes_configs|].
  go. { unfold open_macconn_db. rewrite Hdb. cbn [negb]. go; [eapply goes_database, Eo|]. change (0 <? 0) with false. cbv iota. go; [apply goes_own|apply goes_ret]. }
  change (0 <? 0) with false. cbv iota. go. { eapply goes_system. unfold iface_init_context. erewrite bind_run by done. cbn [negb]. unfold ipgen_init_context.
    erewrite bind_run by done. reflexivity. }
  rewrite Process.clip_short by (pose proof ip_path_short; unfold MAX_OS_PATH_LEN; lia). cbv beta iota. go; [apply goes_tables|]. go; [apply goes_own|].
  go; [eapply goes_memory, Ei|]. cbn [fst snd negb]. go; [apply goes_tables|]. go; [apply goes_own|]. go; [eapply goes_memory, Ev|]. cbn [fst snd].
  go; [apply goes_context|]. change (0 <? 0) with false. cbv iota. go; [apply goes_own|]. go; [eapply goes_memory; reflexivity|]. go; [apply goes_tables|].
  go; [apply goes_context|]. go; [apply goes_own|].
  destruct (last_with_some vlan_of _ _ (pr_default _ _ _ _ _ _ Hp)) as [vc Hvc]. destruct Hvt as [_ Hvt]. cbn [get_vlan_mapper].
  rewrite hash_find_map, Hvt, Hvc. apply goes_ret.
Qed.

(** The stations. *)
Lemma stations_env e : mallocs e = [] -> keeps (fun b : boot (DB := DB) (MU := MU) (VU := VU) => boot_env b = e) (create_mac_mapper crypt uninit).
Proof.
  intros He. assert (forall A (m : prog rdb A), keeps (fun b : boot (DB := DB) (MU := MU) (VU := VU) => boot_env b = e) (boot_db m)) as Hdb
    by (intros A m b a b' Hb; unfold boot_db; destruct (m (macconn_db b)) as [[]|]; [by intros [= _ <-]|done]).
  assert (forall conn, keeps (fun b : boot (DB := DB) (MU := MU) (VU := VU) => boot_env b = e) (boot_put conn)) as Hput.
  { intros conn b a b' Hb. unfold boot_put. destruct (put_mac_mapper _ conn (boot_env b)) as [[x e']|] eqn:E; [|done]. intros [= _ <-]. cbn.
    rewrite Hb in E. unfold put_mac_mapper in E. destruct e as [ms r]. cbn in He. subst ms. destruct (HASH_FIND _ _); [by injection E|].
    by injection E as _ <-. }
  assert (keeps (fun b : boot (DB := DB) (MU := MU) (VU := VU) => boot_env b = e) get_boot_vlans) as Hget by (by intros b a b' Hb [= _ <-]).
  unfold create_mac_mapper. apply keeps_bind; [apply Hdb|]. intros y. destruct (y.1 <? 0); [apply keeps_ret|]. apply keeps_bind; [done|]. intros v.
  destruct (init_mac_mapper_ifnames _ _ _) as [arr|]; [|apply keeps_ret]. induction arr as [|p arr IH]; cbn [add_connections]; [apply keeps_ret|].
  apply keeps_bind; [apply keeps_lift|]. intros [o|]; [|apply keeps_ret]. apply keeps_bind; [apply Hput|]. intros ok. destruct (negb ok); [apply keeps_ret|done].
Qed.

Lemma goes_stations x d s r i h l : db_holds d l -> mac_mapper x = hash_empty ->
  Forall (fun c => is_Some (hash_map (vlan_mapper x) !! mi_vlanid (mac_info c))) l -> (forall k v, crypt k = Some v -> zlen v <= AP_SECRET_LEN) ->
  exists mt d', goes (add_stations crypt uninit) 0 (at_ x d s (Env [] r) i h) (at_ (set_mac_mapper mt x) d' s (Env [] r) i h) /\
    hash_wf mt /\ hash_map mt = restored crypt uninit (hash_map (vlan_mapper x)) <$> list_to_map (M := gmap (list Z) mac_conn_info) (pairs l).
Proof.
  intros Hd Hm Hv Hs. set (b := {| macconn_db := d; boot_macs := mac_mapper x; boot_vlans := vlan_mapper x; boot_env := Env [] r |}).
  destruct (create_run crypt uninit b l) as (b' & E & Hw & Hmap); [done|cbn; rewrite Hm; apply hash_empty_wf|done|done|done|].
  assert (boot_env b' = Env [] r) as He by (by apply (stations_env (Env [] r) eq_refl b 0 b')).
  exists (boot_macs b'), (macconn_db b'). split.
  - intros c []. subst. eexists. split; [unfold add_stations; fold b; replace (x_env c) with (Env [] r) by done; unfold b in E; rewrite E; reflexivity|].
    by split.
  - split; [done|]. rewrite Hmap. cbn [boot_macs b]. rewrite Hm. unfold hash_map at 2. rewrite hash_empty_items. apply map_union_empty.
Qed.

(** The context the event loop gets. *)
Definition loop_context (a : starts) (cfg : app_config) (vt : @hash _ _ _ VU) (mt : @hash _ _ _ MU) : context :=
  set_socks (domain_server a) (udp_server a) (Some []) (set_mac_mapper mt (made_context cfg vt)).

Lemma flags_split (a : starts) : eloop_starts a && firewall_starts a && crypt_starts a && forward_set a && vlan_interface a && ap_starts a &&
    radius_starts a && dhcp_starts a && mdns_starts a && db_opens a && domain_registered a && udp_registered a = true ->
  (eloop_starts a = true /\ firewall_starts a = true /\ crypt_starts a = true /\ forward_set a = true) /\
  (vlan_interface a = true /\ ap_starts a = true /\ radius_starts a = true /\ dhcp_starts a = true) /\
  mdns_starts a = true /\ domain_registered a = true /\ udp_registered a = true.
Proof. rewrite !andb_true_iff. tauto. Qed.

#[local] Abbreviation tool := {| ipcmd_path := ip_path |}.
Lemma goes_interfaces cfg x d s r h : config_ifinfo_array x = subnets cfg ->
  (create_interfaces (system_config cfg) = true -> Forall subnet_ok (subnets cfg) /\ new_names (links s) (subnets cfg)) ->
  exists s', goes (start_interfaces cfg) true (at_ x d s (Env [] r) (Some tool) h) (at_ x d s' (Env [] r) (Some tool) h).
Proof.
  intros Hx Hl. unfold start_interfaces. destruct (create_interfaces (system_config cfg)); cbn [negb]; [|exists s; apply goes_ret].
  destruct (Hl eq_refl) as [Hs Hn].
  destruct (create_each_run (ignore_if_error (system_config cfg)) (subnets cfg) s r Hs) as (ret & s' & E & _ & _ & Hret). rewrite Hret in E by (by right).
  exists s'. go; [apply goes_get_iface|]. go; [apply goes_get_ctx|]. rewrite Hx.
  go; [eapply goes_system; unfold create_subnet_interfaces; by erewrite bind_run by exact E|]. apply goes_ret.
Qed.
Lemma goes_supervisor a port x d s e i h : port <> 0 -> domain_server a <> -1 -> udp_server a <> -1 -> domain_registered a = true ->
  udp_registered a = true ->
  goes (run_supervisor a port) 0 (at_ x d s e i h) (at_ (set_socks (domain_server a) (udp_server a) (Some []) x) d s e i h).
Proof.
  intros Hp Hd Hu H1 H2. unfold run_supervisor. rewrite (proj2 (Z.eqb_neq port 0)) by done. go; [apply goes_get_ctx|]. go; [apply goes_own|].
  go; [apply goes_context|]. rewrite (proj2 (Z.eqb_neq (domain_server a) (-1))) by done. go; [apply goes_context|].
  rewrite (proj2 (Z.eqb_neq (udp_server a) (-1))), H1, H2 by done. apply goes_ret.
Qed.
Lemma goes_ap a x d s r i h : ap_starts a = true ->
  ap_interface h = [] \/ (exists p, construct_path (Some (ctrl_interface h)) (Some (ap_interface h)) (Env [] r) = Done (Some p, Env [] r)) ->
  exists h', goes (start_ap a) true (at_ x d s (Env [] r) i (Some h)) (at_ x d s (Env [] r) i h').
Proof.
  intros Ha Hh. unfold start_ap. destruct (decide (ap_interface h = [])) as [Hi|Hi].
  - exists (Some h). go; [apply goes_get_hconfig|]. cbv beta iota. rewrite bool_decide_true by done. apply goes_ret.
  - destruct Hh as [?|[p Hp]]; [done|]. eexists. go; [apply goes_get_hconfig|]. cbv beta iota. rewrite bool_decide_false by done.
    go; [eapply goes_memory, Hp|]. cbv beta iota. intros c Hc.
    destruct (goes_configs x d s (Env [] r) i (Some h) (Some (set_vlan_bridge (vlan_bridge h) (clip MAX_OS_PATH_LEN p) h)) (x_dconfig c) (x_ap_sock c) c Hc)
      as (c1 & E1 & H1). destruct (goes_own _ _ _ _ _ _ r_ap c1 H1) as (c2 & E2 & H2). exists c2. split; [|exact H2].
    do 2 (erewrite bind_run by reflexivity; cbv beta). erewrite bind_run by exact E1. erewrite bind_run by exact E2. by rewrite Ha.
Qed.

(** All services, up to the end of the loop. *)
Lemma services_go a cfg given l d s r h : proper a cfg l s r h -> db_holds d l -> exists vt mt,
  vlans_of cfg vt /\ hash_wf mt /\
  hash_map mt = restored crypt uninit (hash_map vt) <$> list_to_map (M := gmap (list Z) mac_conn_info) (pairs l) /\
  goes (run_services crypt uninit a cfg given) at_the_end (at_ zero_context d s (Env [] r) None None)
    (fun c => x_db_dangling c = false /\ x_loops c = [loop_context a cfg vt mt]).
Proof.
  intros Hp Hd. destruct (init_goes a cfg l d s r h Hp Hd) as (vt & d1 & Hinit & Hvt & Hd1).
  destruct (flags_split a (pr_flags _ _ _ _ _ _ Hp)) as ((F1 & F2 & F3 & F4) & (F5 & F6 & F7 & F8) & F9 & F10 & F11).
  destruct (pr_socks _ _ _ _ _ _ Hp) as [Hs1 Hs2]. set (hc := Some (set_vlan_bridge _ _ _)) in Hinit.
  destruct (goes_stations (made_context cfg vt) d1 s r (Some tool) hc l) as (mt & d2 & Hst & Hw & Hm); [done|done| |exact (pr_secrets _ _ _ _ _ _ Hp)|].
  { eapply Forall_impl; [exact (pr_vlans _ _ _ _ _ _ Hp)|]. intros c Hc. destruct Hvt as [_ Hvt]. cbn. rewrite Hvt. by apply last_with_some. }
  set (x2 := set_mac_mapper mt (made_context cfg vt)) in *.
  destruct (goes_interfaces cfg x2 d2 s r hc eq_refl (pr_links _ _ _ _ _ _ Hp)) as (s2 & Hif).
  set (x3 := loop_context a cfg vt mt).
  destruct (goes_ap a x3 d2 s2 r (Some tool) (set_vlan_bridge (interface_prefix (interfaces cfg)) (ctrl_interface_path (hconfig cfg)) (hconfig cfg)) F6
    (pr_ap _ _ _ _ _ _ Hp)) as (h3 & Hap).
  exists vt, mt. split; [done|]. split; [done|]. split; [exact Hm|]. unfold run_services. cbv zeta.
  go; [exact Hinit|]. change (0 <? 0) with false. cbv iota. go; [by apply goes_start|]. cbn [negb]. go; [by apply goes_start|]. cbn [negb].
  go; [by apply goes_start|]. cbn [negb]. rewrite F4, F5, !andb_false_r. go; [apply goes_own|]. go; [exact Hst|]. change (0 <? 0) with false. cbv iota.
  go; [exact Hif|]. cbn [negb]. go; [apply goes_supervisor; [exact (pr_port _ _ _ _ _ _ Hp)|done..]|]. fold x3. change (0 <? 0) with false. cbv iota.
  go; [exact Hap|]. cbn [negb]. go; [by apply goes_start|]. cbn [negb]. go; [apply goes_own|]. rewrite F8. cbn [negb]. go; [by apply goes_start|]. cbn [negb].
  intros c []. eexists. split; [reflexivity|]. cbn. split; [done|]. congruence.
Qed.

(** Programs that end, whatever [macconn_db] is. *)
Definition ends_well (b : bool) {A} (m : Ctl A) : Prop := forall c, x_db_dangling c = b -> exists a c', m c = Done (a, c') /\ x_db_dangling c' = b.
Lemma well_bind b {A B} (m : Ctl A) (k : A -> Ctl B) : ends_well b m -> (forall a, ends_well b (k a)) -> ends_well b (mbind k m).
Proof.
  intros Hm Hk c Hc. destruct (Hm c Hc) as (a & c1 & E1 & H1). destruct (Hk a c1 H1) as (x & c2 & E2 & H2). exists x, c2. split; [|done].
  by erewrite bind_run by exact E1.
Qed.
Lemma well_fault {A B} (m : Ctl A) (k : A -> Ctl B) f : ends_well true m -> (forall a c, x_db_dangling c = true -> k a c = Fault f) ->
  forall c, x_db_dangling c = true -> (mbind k m) c = Fault f.
Proof. intros Hm Hk c Hc. destruct (Hm c Hc) as (a & c1 & E1 & H1). erewrite bind_run by exact E1. by apply Hk. Qed.
Lemma well_release b r : ends_well b (release r).
Proof. intros c Hc. eexists _, _. split; [reflexivity|]. exact Hc. Qed.
Lemma well_get b {A} (f : ctl -> A) : ends_well b (get f).
Proof. intros c Hc. by eexists _, _. Qed.
Lemma well_close_sock b (t : bool) fd : ends_well b (if t then close_fd fd else mret tt).
Proof. intros c Hc. destruct t; (eexists _, _; split; [reflexivity|exact Hc]). Qed.
Lemma well_close_supervisor b : ends_well b close_supervisor.
Proof.
  unfold close_supervisor. apply well_bind; [apply well_get|]. intros x. do 2 (apply well_bind; [apply well_close_sock|]; intros _).
  apply well_bind; [apply well_release|]. intros _ c Hc. by eexists _, _.
Qed.
Lemma well_close_ap b sock h d : ends_well b (if negb (sock =? -1) then _ ← close_fd sock; set_configs h d (-1) else mret tt).
Proof. intros c Hc. destruct (negb _); (eexists _, _; split; [reflexivity|exact Hc]). Qed.

Lemma shut_down_well : ends_well false shut_down.
Proof.
  unfold shut_down. apply well_bind; [apply well_close_supervisor|]. intros _. do 3 (apply well_bind; [apply well_get|]; intros ?).
  apply well_bind; [apply well_close_ap|]. intros _. do 9 (apply well_bind; [apply well_release|]; intros _). apply well_bind.
  { unfold free_macconn_db. intros c Hc. erewrite bind_run by done. rewrite Hc. by apply well_release. }
  intros _. do 4 (apply well_bind; [apply well_release|]; intros _). apply well_release.
Qed.
(** A database that was closed is closed again. *)
Lemma shut_down_dangling c : x_db_dangling c = true -> shut_down c = Fault UseAfterFree.
Proof.
  revert c. unfold shut_down. apply well_fault; [apply well_close_supervisor|]. intros _. do 3 (apply well_fault; [apply well_get|]; intros ?).
  apply well_fault; [apply well_close_ap|]. intros _. do 9 (apply well_fault; [apply well_release|]; intros _). intros c Hc.
  unfold mbind, prog_bind, free_macconn_db at 1. unfold mbind, prog_bind, get. by rewrite Hc.
Qed.


(** When the table of the stations cannot be created the database is closed
    twice. *)
Theorem failed_table_closes_twice a cfg given l s r h (d d' : rdb) : proper a cfg l s r h -> open_sqlite_macconn_db d = Done (-1, d') ->
  run_ctl crypt uninit a cfg given d s (Env [] r) = Fault UseAfterFree.
Proof.
  intros Hp Ho. pose proof (pr_flags _ _ _ _ _ _ Hp) as Hf. destruct (db_opens a) eqn:Hdb; [|by rewrite !andb_false_r in Hf].
  assert (goes (init_context a cfg) (-1) (at_ zero_context d s (Env [] r) None None) (fun c => x_db_dangling c = true)) as Hi.
  { unfold init_context. go; [eapply goes_system, (pr_paths _ _ _ _ _ _ Hp)|]. cbn [fst snd]. go; [apply goes_tables|].
    change (0 <? 0) with false. cbv iota. go; [apply goes_own|]. rewrite (pr_ip _ _ _ _ _ _ Hp). go; [apply goes_own|]. cbv zeta.
    change ((init_ifbridge_names _ _ _).1 <? 0) with false. cbv iota. go; [apply goes_context|]. go; [apply goes_configs|].
    go. { unfold open_macconn_db. rewrite Hdb. cbn [negb]. go; [eapply goes_database, Ho|]. change (-1 <? 0) with true. cbv iota.
      go; [apply goes_dangle|apply goes_ret]. }
    apply goes_ret. }
  destruct (Hi (zero_ctl d s (Env [] r))) as (c1 & E1 & Hc1); [by split|]. unfold run_ctl. rewrite malloc_nil. cbv beta iota.
  erewrite bind_run by (unfold run_services; erewrite bind_run by exact E1; reflexivity). cbv beta iota.
  unfold mbind, prog_bind. by rewrite shut_down_dangling.
Qed.

(** The firewall does not start. *)
Definition no_firewall (a : starts) : starts :=
  {| eloop_starts := eloop_starts a; firewall_starts := false; crypt_starts := crypt_starts a; forward_set := forward_set a;
     vlan_interface := vlan_interface a; ap_starts := ap_starts a; radius_starts := radius_starts a; dhcp_starts := dhcp_starts a;
     mdns_starts := mdns_starts a; db_opens := db_opens a; domain_server := domain_server a; udp_server := udp_server a;
     domain_registered := domain_registered a; udp_registered := udp_registered a |}.
Definition closed_0 (c : ctl) : Prop := 0 ∈ x_closed c.
Lemma closed_release r : keeps closed_0 (release r).
Proof. by intros c a c' Hc [= _ <-]. Qed.
Lemma closed_close fd : keeps closed_0 (close_fd fd).
Proof. intros c a c' Hc [= _ <-]. unfold closed_0. cbn. by right. Qed.
Lemma closed_get {A} (f : ctl -> A) : keeps closed_0 (get f).
Proof. by intros c a c' Hc [= _ <-]. Qed.
Lemma closed_configs h d n : keeps closed_0 (set_configs h d n).
Proof. by intros c a c' Hc [= _ <-]. Qed.
#[local] Hint Resolve closed_release closed_close closed_get closed_configs : keeps.
Lemma close_supervisor_closes c c' : close_supervisor c = Done (tt, c') -> udp_sock (x_ctx c) = 0 -> 0 ∈ x_closed c'.
Proof.
  intros E Hu. unfold close_supervisor in E. apply bind_done in E as (x & c1 & [= <- <-] & E). apply bind_done in E as (u & c2 & E2 & E).
  rewrite Hu in E. apply bind_done in E as (u' & c3 & [= _ <-] & E). apply bind_done in E as (u'' & c4 & [= _ <-] & [= <-]). cbn. by left.
Qed.

(** A failure before the sockets are open closes the standard input: the socket
    [udp_sock] is still the 0 that [os_zalloc] has left there. *)
Theorem failed_start_closes_stdin a cfg given l d s r h : proper a cfg l s r h -> db_holds d l ->
  exists c, run_ctl crypt uninit (no_firewall a) cfg given d s (Env [] r) = Done (-1, c) /\ 0 ∈ x_closed c.
Proof.
  intros Hp Hd. destruct (init_goes a cfg l d s r h Hp Hd) as (vt & d1 & Hinit & _).
  destruct (flags_split a (pr_flags _ _ _ _ _ _ Hp)) as ((F1 & _) & _).
  assert (goes (run_services crypt uninit (no_firewall a) cfg given) run_engine_fail (at_ zero_context d s (Env [] r) None None)
    (fun c => x_db_dangling c = false /\ udp_sock (x_ctx c) = 0)) as Hgo.
  { unfold run_services. cbv zeta. go; [exact Hinit|]. change (0 <? 0) with false. cbv iota. go; [by apply goes_start|]. cbn [negb].
    go; [apply (goes_ret false)|]. cbn [negb]. intros c Hc. exists c. split; [done|]. destruct Hc as [Hx _ _ _ _ _ Hdg _]. by rewrite Hx. }
  destruct (Hgo (zero_ctl d s (Env [] r))) as (c1 & E1 & Hc1 & Hu); [by split|]. destruct (shut_down_well c1 Hc1) as ([] & c & E2 & _). exists c. split.
  { unfold run_ctl. rewrite malloc_nil. cbv beta iota. erewrite bind_run by exact E1. cbv beta iota. by erewrite bind_run by exact E2. }
  unfold shut_down in E2. apply bind_done in E2 as ([] & c2 & E2 & E3). cbv beta in E3.
  refine ((_ : keeps closed_0 _) c2 tt c _ E3); [unfold free_macconn_db; keeps_tac|by eapply close_supervisor_closes].
Qed.
End starting.

(** ** A start *)

Definition start_file : ini_file :=
  (cstr "system", [(cstr "pidFilePath", cstr "/run/edgesec.pid"); (cstr "binPath", cstr "/sbin"); (cstr "cryptDbPath", cstr "/tmp/crypt.sqlite");
    (cstr "createInterfaces", cstr "true"); (cstr "defaultOpenVlanId", cstr "1")]) ::
  (cstr "supervisor", [(cstr "supervisorControlPath", cstr "/run/edgesec-control"); (cstr "supervisorControlPort", cstr "32001")]) ::
  drop 2 (sample_file (cstr "src net 10.0 and dst net 10.0")).
(** A configuration as [load_app_config] gives it, and a machine on which every
    service starts. *)
Definition loaded : outcome (option app_config * env) :=
  load_app_config (INI := file_ini 511 start_file) true true (cstr "config.ini") (Env [] []).
Definition all_start : starts :=
  {| eloop_starts := true; firewall_starts := true; crypt_starts := true; forward_set := true; vlan_interface := true; ap_starts := true;
     radius_starts := true; dhcp_starts := true; mdns_starts := true; db_opens := true; domain_server := 5; udp_server := 6;
     domain_registered := true; udp_registered := true |}.
Definition sample_conns : list mac_conn := [sample_conn 1 (cstr "secret" ++ zeros 58)].
Definition sample_db : @rdb list_reldb := {[ cstr "instance" := row_of <$> sample_conns ]}.
#[local] Abbreviation started a cfg :=
  (run_ctl (DB := list_reldb) (MU := list_uthash _ _) (VU := list_uthash _ _) (IU := list_uthash _ _) (SU := list_uthash _ _)
     (BL := list_dl_list _) (SY := links_system) (fun _ => None) no_vlan a cfg false sample_db (∅ : gmap (list Z) link) (Env [] [])).

Lemma sample_holds : db_holds sample_db sample_conns.
Proof. split; [done|by vm_compute|apply conns_ok_dec; by vm_compute|apply (bool_decide_unpack _); by vm_compute]. Qed.

Lemma sample_proper : match loaded with
  | Done (Some cfg, _) => exists h, proper (SU := list_uthash _ _) (SY := links_system) (fun _ => None) all_start cfg sample_conns (∅ : gmap (list Z) link) [] h
  | _ => False
  end.
Proof.
  let o := eval vm_compute in loaded in assert (loaded = o) as -> by (vm_compute; reflexivity). eexists. split.
  - vm_compute. reflexivity.
  - vm_compute. reflexivity.
  - do 2 (constructor; [by vm_compute|]). constructor.
  - apply (bool_decide_unpack _). by vm_compute.
  - apply (bool_decide_unpack _). by vm_compute.
  - done.
  - intros _. split; [do 2 (constructor; [by split; vm_compute|]); constructor|]. split; [apply (bool_decide_unpack _); by vm_compute|].
    do 2 (constructor; [by vm_compute|]). constructor.
  - left. by vm_compute.
  - by vm_compute.
  - done.
  - done.
Qed.


Lemma failed_start_closes_stdin_witness : match loaded with
  | Done (Some cfg, _) => exists c, started (no_firewall all_start) cfg = Done (-1, c) /\ 0 ∈ x_closed c
  | _ => False
  end.
Proof.
  pose proof sample_proper as Hp. destruct loaded as [[[cfg|] e]|f] eqn:E; try exact Hp. destruct Hp as [h Hp].
  exact (failed_start_closes_stdin (SY := links_system) (BL := list_dl_list _) (fun _ => None) no_vlan all_start cfg false sample_conns sample_db
    (∅ : gmap (list Z) link) [] h Hp sample_holds).
Defined.

(** A file that cannot be written to, without a table. *)
#[local, refine] Instance locked_reldb : Reldb := {|
  rdb := unit;
  rtables _ := ∅;
  rdb_ok _ := False;
  rdb_prepare _ _ := (false, tt);
  rdb_bind _ := (true, tt);
  rdb_create _ _ := (false, tt);
  rdb_insert _ _ _ := (false, tt);
  rdb_select _ _ _ _ _ := (([], true), tt);
  rdb_delete _ _ _ := (false, tt)
|}.
Proof.
  all: try done. intros t p i lim d. cbv zeta. split; [done|]. exists []. rewrite lookup_empty. split; [done|]. split; [constructor|].
  split; [apply prefix_nil|]. by rewrite take_nil.
Defined.
Lemma failed_table_closes_twice_witness : match loaded with
  | Done (Some cfg, _) => run_ctl (DB := locked_reldb) (MU := list_uthash _ _) (VU := list_uthash _ _) (IU := list_uthash _ _) (SU := list_uthash _ _)
      (BL := list_dl_list _) (SY := links_system) (fun _ => None) no_vlan all_start cfg false tt (∅ : gmap (list Z) link) (Env [] []) = Fault UseAfterFree
  | _ => False
  end.
Proof.
  pose proof sample_proper as Hp. destruct loaded as [[[cfg|] e]|f] eqn:E; try exact Hp. destruct Hp as [h Hp].
  exact (failed_table_closes_twice (DB := locked_reldb) (SY := links_system) (BL := list_dl_list _) (fun _ => None) no_vlan all_start cfg false
    sample_conns (∅ : gmap (list Z) link) [] h tt tt Hp eq_refl).
Defined.
